(* ===== verification/_CoqProject ===== *)
-Q . S2P
Prelude.v
Procs.v
Domain.v
Json.v
JsonText.v
QuietHours.v
Safety.v
Breaker.v
Projection.v
Decision.v
Contracts.v
Workflow.v
WorkflowFacts.v
Diagnose.v
Razorpay.v
Entities.v
Session.v
VoicePorts.v
Base64.v
Cursor.v
OperatorAuth.v
Inbox.v
Correlation.v
Processor.v
ProcessorFacts.v
ProcessorRuns.v
CaseRepo.v
Cases.v
CasesFacts.v
A2AModels.v
NonceStore.v
Mandates.v
Activities.v
A2ASamples.v
MandatesFacts.v
AgentModels.v
AgentStore.v
CustomerAgent.v
CustomerAgentFacts.v
A2ARuntime.v
A2ARuntimeFacts.v
VoiceWebhooks.v
VoiceWebhooksFacts.v
Twilio.v
TwilioFacts.v
RazorpayClient.v
RazorpayClientFacts.v
Onboarding.v
OnboardingFacts.v
OnboardingRuns.v
Transactions.v
VoiceSafety.v
VoiceModels.v
VoiceRepository.v
VoiceService.v
VoiceLaws.v
VoiceFacts.v
VoiceSamples.v
VoiceRuns.v
VoiceRequests.v
WorkerStore.v
PaymentClaims.v
PaymentActions.v
PaymentActionsFacts.v
PaymentSamples.v
PaymentSafety.v
Commands.v
Dispatcher.v
DispatcherFacts.v
RuntimeMode.v
ApiSchemas.v
OperatorApi.v
OperatorApiFacts.v
SettingsFacts.v
VoiceRouter.v
VoiceRouterFacts.v
