(* ===== verification/Prelude.v ===== *)
(** * RecoveryOS: verification library

    RecoveryOS recovers failed subscription payments.  Razorpay webhooks enter an inbox;
    an outbox processor normalizes them, correlates them with invoices and cases, books
    captured money and opens cases for failures; a decision engine ranks the actions a
    case may take and a safety policy gates them; one Temporal workflow per case runs the
    chosen action through activities; a customer agent, a separate service, asks the
    customer for permission and answers with signed mandates; operators work through the
    case service.  This library translates that code into Rocq definitions, file by
    file, and proves what each part promises.

    ** Conventions

    The library is a shallow embedding.  A function that raises returns a [result]; a
    coroutine over mutable state is an [stx S A], whose state survives an exception the way
    a mutated object does; enumerations are inductive types inside modules named after
    them, dataclasses and rows are records, instants are integers of microseconds
    ([Z], or [datetime] where a missing UTC offset matters), money is an integer of paise, text
    is a UTF-8 byte string, a JSON value is [json].  A doc comment
    [src/<path>:<first>-<last> [<symbol>]] before a definition names the code it
    translates.  SQL tables are lists of rows ([Entities]); [Session] gives
    flush, commit, rollback, savepoints and constraint violations; queries are functions of
    the rows.  What the code takes from outside (Ed25519, HMAC and SHA-256, HTTP, the time
    zone database, [isoformat] and [fromisoformat], [orjson], Pydantic's conversions, the scorer, the
    clock and the identifier supply) is a section variable; laws assumed of them are named
    classes or hypotheses ([CryptoLaws], [TaskPayload], ...), each with a concrete
    instance in a [..._witness] lemma.

    ** Files

    - [Prelude]: results, stateful code, Hoare triples, record updates, stable sorting,
      strings and the proof automation the other files share.
    - [Domain], [Json], [JsonText], [Base64]: the domain enumerations and contracts
      ([domain/]), JSON values, their canonical text and its unique readability, base64 as
      Python decodes it.
    - [QuietHours], [Safety]: [safety/policy.py], [services/policy.py].
    - [Breaker]: [reliability/circuit_breaker.py], refined to a machine of phases.
    - [Projection]: [reliability/payment_projection.py], [voice_projection.py] and
      [simulator/failure_scenarios.py].
    - [Decision]: [services/decision_engine.py].
    - [Contracts], [Workflow], [WorkflowFacts]: [worker/app/contracts.py] and
      [workflow.py]; a world holds the workflow object, the clock, signals to come and the
      trace of activities.
    - [Diagnose], [Razorpay]: [services/diagnosis.py],
      [integrations/razorpay/{normalizer,models,reconciliation}.py].
    - [Entities], [Session]: [models/entities.py] and the SQLAlchemy session.
    - [Cursor], [CaseRepo], [Cases], [CasesFacts]: [repositories/cases.py],
      [reliability/optimistic.py], [services/cases.py].
    - [Inbox], [Correlation], [Processor], [ProcessorFacts], [ProcessorRuns]: [webhooks/].
    - [A2AModels], [NonceStore], [Mandates], [A2ASamples], [MandatesFacts]:
      [integrations/a2a/] and the signing half of the customer agent.
    - [AgentModels], [AgentStore], [CustomerAgent], [CustomerAgentFacts]:
      [customer-agent/app/{models,store,service}.py].
    - [A2ARuntime], [A2ARuntimeFacts]: [worker/app/a2a_runtime.py] and
      [integrations/a2a/client.py].
    - [Procs]: coroutines cut where they await, and pools of them.
    - [Activities], [WorkerStore], [PaymentClaims], [PaymentActions], [PaymentActionsFacts],
      [PaymentSamples], [PaymentSafety]: [worker/app/activities.py], [ports.py] and
      [runtime.py]; the claims and settlements are transactions, the activities coroutines
      over a world of tables, providers, row locks and calls.
    - [VoicePorts], [Transactions], [VoiceSafety], [VoiceModels], [VoiceRepository],
      [VoiceService], [VoiceLaws], [VoiceFacts], [VoiceSamples], [VoiceRuns],
      [VoiceRequests]: [api/app/voice/] and [integrations/voice/safety.py], over any
      repository and any provider, with the in-memory and the SQL repository.
    - [VoiceWebhooks], [VoiceWebhooksFacts], [Twilio], [TwilioFacts], [VoiceRouter],
      [VoiceRouterFacts]: [integrations/voice/{signatures,elevenlabs,twilio}.py],
      [voice/factory.py], [voice/router.py] and [voice/schemas.py].
    - [RazorpayClient], [RazorpayClientFacts]: [integrations/razorpay/client.py].
    - [Onboarding], [OnboardingFacts], [OnboardingRuns]: [razorpay_onboarding/service.py].
    - [OperatorAuth]: [api/operator_auth.py].
    - [Commands], [Dispatcher], [DispatcherFacts]: [workflows/commands.py] and the dispatcher
      of [worker/app/outbox.py], over a Temporal client with its laws.
    - [RuntimeMode], [ApiSchemas], [OperatorApi], [OperatorApiFacts], [SettingsFacts]:
      [runtime_mode.py], [integrations/razorpay/factory.py], [api/schemas.py] and
      [api/router.py].

    ** What the theorems show

    - Policy and decisions: an allowed action passed every rule; delays and quiet hours are
      exact, also across daylight-saving changes; the engine always returns, and returns the
      policy-cleared candidate of greatest utility.
    - Workflow: every provider submission is preceded by policy and approval, a case is
      reported recovered only after an authoritative reconciliation, and delegated
      authority never exceeds the case.
    - Money: for every run of the processor, the ledger of recognitions, arrears and
      invoices balances and only grows; a payment is booked once.
    - Delivery: a webhook is recorded once under concurrent requests; every outcome of a
      processing step, failures included, is recorded.
    - Authority: a mandate is accepted exactly when a pinned key signed it over the expected
      scope in its window, once; an approval is exact and final; receipts are exact and
      idempotent; the worker's request is rebuilt from current rows.
    - Pages and cursors: pagination enumerates every case once; cursors round-trip and the
      errors of a malformed cursor are listed.
    - Payment actions: however deliveries, cancellations and reconciliations interleave, an
      action is submitted as often as its claims allow, only after a claim that checked its
      policy and its due time; a case is reconciled only by authoritative payments, and a
      cancellation that succeeds has resolved every link in execution or done.
    - Voice: over a lawful repository calls start once per key and within the limits, callbacks apply once and only
      move forward, an opt-out is stored whatever the provider does; no request calls the
      provider without the voice token or an operator, and the callbacks of a call are
      believed exactly when signed.
    - Providers: after an answer that was lost no payment link is created before a lookup,
      and no call is started before a call was observed; collections are read to
      their end or refused.
    - Onboarding: an import is the reference upsert or nothing, also against rivals.
    - Operators: the guard is exact, sessions last eight hours; a command is committed, then
      delivered; accepted settings are the configuration of the engine; the dispatcher starts
      a workflow once with a durable authorization.
    Findings of the modelling (a postponed call that ignores an opt-out, an expiry that
    overwrites a recovery, an order-dependent payment axis, cursors that escape their error
    type, a contact limit nobody feeds,
    a scheduled link that survives its cancellation, a malformed deadline that strands an
    action, two requests that call one customer, a started call that forgets its
    cancellation, a disclosed post-call report that is lost, a lookup that releases another
    submission, a submission Twilio broke off that is not recorded, credentials outside ASCII,
    an approval that is never delivered, settings without a guard) are theorems too.

    ** Bounds and fuel

    The workflow loop takes fuel: the number of rounds of its main loop.  Its safety
    theorems hold for every fuel; the witnesses run it with enough.  Retry loops with a
    constant bound (three attempts to cancel a task, two to import a subscription) recurse on
    that bound; the pages of a collection take one more than the most it may hold, which
    is proved enough.  Everything else is structural.  Integers are unbounded as in Python, and the columns the code
    bounds carry their checks.

    ** Concurrency

    [Inbox.commit_racing], the [rival] arguments of the nonce store and the request
    schedules of the customer agent put other transactions between two steps of a call.
    [Procs] interleaves pools of coroutines under row locks, and its counting argument
    bounds what they may submit; [Transactions] runs SQL sessions statement by statement at
    READ COMMITTED; [Onboarding] lets rivals commit between any two statements.
    Elsewhere a service call runs alone between its reads and its commit, as row locks
    ([with_for_update]) make it.

    ** Not modelled

    Foreign keys and text lengths of the schema, column defaults that [onupdate] refreshes
    and columns nothing reads; identifiers and clocks are read when a row is built.
    Base64 follows the strict mode of CPython 3.12.4 and later.  Temporal's persistence and
    replay, FastAPI routing and rendering, HTTP transport, the
    loop that polls the outbox, Alembic
    migrations, the web front end, deployment scripts, the benchmark's training code and
    the seed data are input and output around the modelled parts; the manifest lists each
    with its reason. *)
From stdpp Require Export base tactics option list sorting strings gmap pretty.
From Stdlib Require Export ZArith QArith Ascii Lia.
From Stdlib Require Import Sorting.Permutation.

Declare Scope recovery_scope.
Delimit Scope recovery_scope with rec.
#[global] Open Scope string_scope.
#[global] Open Scope list_scope.
#[global] Open Scope Z_scope.
#[global] Set Default Goal Selector "!".

(** ** Exceptions and results *)

(** The exception classes the modelled code raises.  Classes that carry a
    machine-readable [code] keep it as their first argument. *)
Inductive exn : Type :=
| ValueError (msg : string)
| TypeError (msg : string)
| RuntimeError (msg : string)
| KeyError (key : string)
| IndexError
| StopIteration
| OverflowError (msg : string)
| OSError (msg : string)
| FileNotFoundError (path : string)
| AttributeError (msg : string)
| ProviderError (msg : string)
| IntegrityError (constraint : string)
| HTTPException (status_code : Z) (code : string)
| StatementError (msg : string)
| RazorpayIntegrationError (code msg : string)
| RazorpayContractError (code msg : string)
| UnsupportedWebhookEventError (event_type : string)
| DownstreamSignalError
| RazorpayRequestError (code msg : string) (retriable : bool)
| RazorpayUncertainSubmissionError (reference_id : string)
| NotImplementedError (msg : string)
| AssertionError (msg : string)
| ApplicationServiceError (code msg : string)
| InvalidCursorError (msg : string)
| MandateVerificationError (code msg : string)
| ReceiptAuthenticationError (msg : string)
| TaskNotFoundError (id : string)
| TaskConflictError (msg : string)
| TaskAuthorizationError (msg : string)
| TaskVersionConflictError (id : string)
| TaskIdempotencyConflictError (msg : string)
| OptimisticVersionConflict (case_id : string) (expected : Z)
| ActivityFailure (activity : string)
| WorkflowError (type msg : string).

#[export] Instance exn_eq_dec : EqDecision exn.
Proof. solve_decision. Defined.

(** The value of a call that may raise. *)
Inductive result (A : Type) : Type :=
| Ok (a : A)
| Err (e : exn).
Arguments Ok {A} a.
Arguments Err {A} e.

#[export] Instance result_eq_dec {A} `{EqDecision A} : EqDecision (result A).
Proof. solve_decision. Defined.

#[export] Instance result_ret : MRet result := @Ok.
#[export] Instance result_bind : MBind result := fun A B f m =>
  match m with Ok a => f a | Err e => Err e end.

#[export] Instance result_fmap : FMap result := fun A B f m =>
  match m with Ok a => Ok (f a) | Err e => Err e end.

Definition is_ok {A} (m : result A) : bool :=
  match m with Ok _ => true | Err _ => false end.

(** [raise_if b e] is Python's [if b: raise e]. *)
Definition raise_if (b : bool) (e : exn) : result unit :=
  if b then Err e else Ok tt.

Definition from_option {A} (e : exn) (o : option A) : result A :=
  match o with Some a => Ok a | None => Err e end.

Lemma bind_Ok {A B} (m : result A) (f : A -> result B) b :
  (m ≫= f) = Ok b <-> exists a, m = Ok a /\ f a = Ok b.
Proof.
  destruct m; cbn; split; [eauto | by intros (? & [= ->] & ?) | done | by intros (? & ? & ?)].
Qed.

(** Run the first call of a sequence. *)
Lemma result_bind_Ok {A B} (m : result A) (f : A -> result B) a : m = Ok a -> (m ≫= f) = f a.
Proof. by intros ->. Qed.

Lemma raise_if_Ok b e u : raise_if b e = Ok u <-> b = false.
Proof. destruct b, u; cbn; split; congruence. Qed.

Lemma from_option_Ok {A} e (o : option A) a : from_option e o = Ok a <-> o = Some a.
Proof. destruct o; cbn; split; congruence. Qed.

Lemma is_ok_true {A} (m : result A) : is_ok m = true <-> exists a, m = Ok a.
Proof. destruct m; cbn; split; eauto; try done. by intros [? ?]. Qed.

(** ** Stateful code that may raise

    [stx S A] is a Python coroutine over a state [S]: the state reached is kept
    when the call raises, as an object mutated before a [raise] stays mutated. *)
Definition stx (S A : Type) : Type := S -> result A * S.

#[export] Instance stx_ret {S} : MRet (stx S) := fun A a s => (Ok a, s).
#[export] Instance stx_bind {S} : MBind (stx S) := fun A B f m s =>
  match m s with
  | (Ok a, s') => f a s'
  | (Err e, s') => (Err e, s')
  end.

#[export] Instance stx_fmap {S} : FMap (stx S) := fun A B f m => x ← m; mret (f x).

Definition getS {S} : stx S S := fun s => (Ok s, s).
Definition putS {S} (s : S) : stx S unit := fun _ => (Ok tt, s).
Definition modS {S} (f : S -> S) : stx S unit := fun s => (Ok tt, f s).
Definition raise {S A} (e : exn) : stx S A := fun s => (Err e, s).
Definition lift {S A} (m : result A) : stx S A := fun s => (m, s).
Definition guard_ {S} (b : bool) (e : exn) : stx S unit := lift (raise_if b e).

(** [try: m except Exception as e: h(e)] *)
Definition catch {S A} (m : stx S A) (h : exn -> stx S A) : stx S A := fun s =>
  match m s with (Ok a, s') => (Ok a, s') | (Err e, s') => h e s' end.

Lemma stx_bind_Ok {S A B} (m : stx S A) (f : A -> stx S B) s b s' :
  (m ≫= f) s = (Ok b, s') <->
  exists a s1, m s = (Ok a, s1) /\ f a s1 = (Ok b, s').
Proof.
  unfold mbind, stx_bind. destruct (m s) as [[a|e] s1]; split.
  - eauto.
  - by intros (? & ? & [= <- <-] & ?).
  - done.
  - by intros (? & ? & ? & ?).
Qed.

Lemma stx_bind_intro {S A B} (m : stx S A) (f : A -> stx S B) s a s1 :
  m s = (Ok a, s1) -> (m ≫= f) s = f a s1.
Proof. unfold mbind, stx_bind. by intros ->. Qed.

(** ** Hoare triples

    [hoare P m Q E]: from a state of [P] the call returns a value and a state of [Q], or
    raises in a state of [E]. *)
Definition hoare {S A} (P : S -> Prop) (m : stx S A) (Q : A -> S -> Prop) (E : S -> Prop) : Prop :=
  forall s, P s -> match m s with (Ok a, s') => Q a s' | (Err _, s') => E s' end.

Section hoare_rules.
Context {S : Type}.
Implicit Types (P E : S -> Prop).

Lemma hoare_conseq {A} P P' (m : stx S A) (Q Q' : A -> S -> Prop) E E' :
  hoare P m Q E -> (forall s, P' s -> P s) -> (forall a s, Q a s -> Q' a s) ->
  (forall s, E s -> E' s) -> hoare P' m Q' E'.
Proof.
  intros H HP HQ HE s Hs. specialize (H s (HP s Hs)). destruct (m s) as [[a|e] s']; auto.
Qed.

Lemma hoare_ret {A} (a : A) (Q : A -> S -> Prop) E : hoare (Q a) (mret a) Q E.
Proof. by intros s Hs. Qed.

Lemma hoare_bind {A B} P (m : stx S A) (f : A -> stx S B) (R : A -> S -> Prop) Q E :
  hoare P m R E -> (forall a, hoare (R a) (f a) Q E) -> hoare P (m ≫= f) Q E.
Proof.
  intros Hm Hf s Hs. specialize (Hm s Hs). unfold mbind, stx_bind.
  destruct (m s) as [[a|e] s']; [by apply Hf|done].
Qed.

Lemma hoare_raise {A} e (Q : A -> S -> Prop) E : hoare E (raise e) Q E.
Proof. by intros s Hs. Qed.

Lemma hoare_lift {A} (m : result A) P : hoare P (lift m) (fun a s => P s /\ m = Ok a) P.
Proof. intros s Hs. cbn. by destruct m. Qed.

Lemma hoare_guard b e P : hoare P (guard_ b e) (fun _ s => P s /\ b = false) P.
Proof. intros s Hs. by destruct b. Qed.

Lemma hoare_catch {A} P (m : stx S A) (h : exn -> stx S A) Q E E' :
  hoare P m Q E' -> (forall e, hoare E' (h e) Q E) -> hoare P (catch m h) Q E.
Proof.
  intros Hm Hh s Hs. specialize (Hm s Hs). unfold catch.
  destruct (m s) as [[a|e] s']; [done|by apply Hh].
Qed.

Lemma hoare_pre {A} P P' (m : stx S A) (Q : A -> S -> Prop) E :
  (forall s, P' s -> P s) -> hoare P m Q E -> hoare P' m Q E.
Proof. intros HP H. by eapply hoare_conseq. Qed.

Lemma hoare_exists {A T} (P : T -> S -> Prop) (m : stx S A) (Q : A -> S -> Prop) E :
  (forall x, hoare (P x) m Q E) -> hoare (fun s => exists x, P x s) m Q E.
Proof. intros H s [x Hx]. by apply (H x). Qed.

Lemma hoare_pure {A} (phi : Prop) P (m : stx S A) (Q : A -> S -> Prop) E :
  (phi -> hoare P m Q E) -> hoare (fun s => P s /\ phi) m Q E.
Proof. intros H s [HP Hphi]. by apply H. Qed.
End hoare_rules.

(** ** Proof automation *)

(** Run a computation symbolically. *)
Ltac stx_unfold :=
  unfold mbind, stx_bind, mret, stx_ret, result_bind, result_ret, lift, modS, getS, putS,
    raise, guard_, raise_if, from_option in *.

(** Consume every equation between results, options, pairs and constructors. *)
Ltac simp_res :=
  repeat match goal with
  | H : (_ ≫= _) = Ok _ |- _ => apply bind_Ok in H; destruct H as (? & ? & ?)
  | H : (_ ≫= _) _ = (Ok _, _) |- _ => apply stx_bind_Ok in H; destruct H as (? & ? & ? & ?)
  | H : raise_if _ _ = Ok _ |- _ => apply raise_if_Ok in H
  | H : from_option _ _ = Ok _ |- _ => apply from_option_Ok in H
  | H : mret _ = Ok _ |- _ => injection H as H; subst
  | H : Ok _ = Ok _ |- _ => injection H as H; subst
  | H : Err _ = Ok _ |- _ => discriminate H
  | H : Ok _ = Err _ |- _ => discriminate H
  | H : (_, _) = (_, _) |- _ => injection H as ? ?; subst
  | H : Some _ = Some _ |- _ => injection H as H; subst
  | H : None = Some _ |- _ => discriminate H
  | H : Some _ = None |- _ => discriminate H
  | H : ?x = ?x |- _ => clear H
  end.

(** Advance past one check of a chain [_ <- check; rest] in a goal [_ = Ok _]. *)
Ltac check_ok :=
  apply bind_Ok; exists tt; split; [try (apply raise_if_Ok)|].

(** Split on the scrutinee of some [match] or [if] of a hypothesis, keep its
    equation, and drop the branches that contradict the hypotheses. *)
Ltac split_match_in H :=
  match type of H with
  | context [match ?x with _ => _ end] =>
      lazymatch x with
      | context [match _ with _ => _ end] => fail
      | _ => let E := fresh "E" in destruct x eqn:E
      end
  end; try discriminate H.

Ltac split_match :=
  match goal with
  | |- context [match ?x with _ => _ end] =>
      lazymatch x with
      | context [match _ with _ => _ end] => fail
      | _ => let E := fresh "E" in destruct x eqn:E
      end
  end.

Ltac split_all_in H := repeat (split_match_in H; cbn in H).
Ltac split_all := repeat (split_match; cbn).

(** Turn boolean facts into propositions. *)
Ltac bools :=
  repeat match goal with
  | H : _ && _ = true |- _ => apply andb_true_iff in H; destruct H
  | H : _ || _ = false |- _ => apply orb_false_iff in H; destruct H
  | H : _ && _ = false |- _ => apply andb_false_iff in H
  | H : _ || _ = true |- _ => apply orb_true_iff in H
  | H : negb _ = true |- _ => apply negb_true_iff in H
  | H : negb _ = false |- _ => apply negb_false_iff in H
  | H : bool_decide _ = true |- _ => apply bool_decide_eq_true in H
  | H : bool_decide _ = false |- _ => apply bool_decide_eq_false in H
  | H : (_ <=? _)%Z = true |- _ => apply Z.leb_le in H
  | H : (_ <=? _)%Z = false |- _ => apply Z.leb_gt in H
  | H : (_ <? _)%Z = true |- _ => apply Z.ltb_lt in H
  | H : (_ <? _)%Z = false |- _ => apply Z.ltb_ge in H
  | H : (_ =? _)%Z = true |- _ => apply Z.eqb_eq in H
  | H : (_ =? _)%Z = false |- _ => apply Z.eqb_neq in H
  end.

(** Evaluate the comparisons of constructors in the goal. *)
Ltac decide_eqs :=
  repeat match goal with
  | |- context [bool_decide (?a = ?b)] =>
      first [ rewrite (bool_decide_eq_true_2 (a = b)) by reflexivity
            | rewrite (bool_decide_eq_false_2 (a = b)) by discriminate ]
  end; cbn [andb orb negb].

(** ** Record updates

    [r <| f := v |>] assigns one field.  A record declares its eta expansion once;
    the setter of a field is found by abstracting that field. *)
Class Eta (R : Type) : Type := eta_expand : R -> R.
Class Setter {R E : Type} (proj : R -> E) : Type := set_field : (E -> E) -> R -> R.

Ltac build_setter R E proj :=
  assert_fails (is_evar R); assert_fails (is_evar proj);
  exact (fun (g : E -> E) (r : R) => ltac:(
    let body := eval hnf in (@eta_expand R _ r) in
    let abs := eval pattern (proj r) in body in
    lazymatch abs with
    | (fun _ => ?constant) _ => fail 0 proj "is no field of" R
    | ?h _ => let t := eval cbv beta in (h (g (proj r))) in exact t
    end)).

#[export] Hint Extern 1 (@Setter ?R ?E ?proj) => build_setter R E proj : typeclass_instances.

Notation "r <| proj := v |>" := (set_field (proj:=proj) (fun _ => v) r)
  (at level 12, left associativity, format "r <| proj := v |>") : recovery_scope.
Notation "r <| proj ::= g |>" := (set_field (proj:=proj) g r)
  (at level 12, left associativity, format "r <| proj ::= g |>") : recovery_scope.
#[global] Open Scope recovery_scope.

Create HintDb recovery.
#[export] Hint Resolve Permutation_refl : recovery.
#[export] Hint Extern 1 (_ <> _) => discriminate : recovery.

(** [x in xs] for a collection written out as a list. *)
Definition mem {A} `{EqDecision A} (x : A) (l : list A) : bool := bool_decide (x ∈ l).

Lemma mem_true {A} `{EqDecision A} (x : A) l : mem x l = true <-> x ∈ l.
Proof. apply bool_decide_eq_true. Qed.
Lemma mem_false {A} `{EqDecision A} (x : A) l : mem x l = false <-> x ∉ l.
Proof. apply bool_decide_eq_false. Qed.

Lemma elem_of_if {A} (b : bool) (x y : A) :
  x ∈ (if b then [y] else []) <-> b = true /\ x = y.
Proof. destruct b; rewrite ?list_elem_of_singleton, ?elem_of_nil; naive_solver. Qed.

(** A function with distinct values on a list is injective there. *)
Lemma nodup_fmap_inj {A B} (f : A -> B) l x y :
  NoDup (f <$> l) -> x ∈ l -> y ∈ l -> f x = f y -> x = y.
Proof.
  intros Hd [i Hi]%list_elem_of_lookup [j Hj]%list_elem_of_lookup Hf.
  assert (i = j) as ->.
  { apply (NoDup_lookup (f <$> l) i j (f x)); [done| |].
    - by rewrite list_lookup_fmap, Hi.
    - by rewrite list_lookup_fmap, Hj, Hf. }
  congruence.
Qed.

(** ** Integers *)

Fixpoint sumZ (l : list Z) : Z :=
  match l with [] => 0 | z :: l' => z + sumZ l' end.

Lemma sumZ_app l1 l2 : sumZ (l1 ++ l2) = sumZ l1 + sumZ l2.
Proof. induction l1; cbn in *; lia. Qed.

Lemma sumZ_perm l1 l2 : l1 ≡ₚ l2 -> sumZ l1 = sumZ l2.
Proof. induction 1; cbn in *; lia. Qed.

#[export] Instance sumZ_proper : Proper ((≡ₚ) ==> (=)) sumZ := sumZ_perm.

Lemma sumZ_nonneg l : Forall (fun z => 0 <= z) l -> 0 <= sumZ l.
Proof. induction 1; cbn; lia. Qed.

(** ** Three-way comparisons and stable sorting

    Python's [sorted] compares tuple keys component by component and keeps the
    order of equal elements. *)
Class TotalCmp {A} (cmp : A -> A -> comparison) : Prop := {
  cmp_sym : forall x y, cmp y x = CompOpp (cmp x y);
  cmp_lt_trans : forall x y z, cmp x y = Lt -> cmp y z = Lt -> cmp x z = Lt;
  cmp_eq_compat : forall x y z, cmp x y = Eq -> cmp x z = cmp y z;
}.

Definition cmp_opp {A} (cmp : A -> A -> comparison) : A -> A -> comparison := fun x y => cmp y x.

Definition cmp_lex {A B} (ca : A -> A -> comparison) (cb : B -> B -> comparison)
  : A * B -> A * B -> comparison := fun p q =>
  match ca p.1 q.1 with Eq => cb p.2 q.2 | c => c end.

Fixpoint cmp_string (s t : string) : comparison :=
  match s, t with
  | EmptyString, EmptyString => Eq
  | EmptyString, String _ _ => Lt
  | String _ _, EmptyString => Gt
  | String a s', String b t' =>
      match N.compare (N_of_ascii a) (N_of_ascii b) with
      | Eq => cmp_string s' t'
      | c => c
      end
  end.

#[export] Instance cmp_Z_total : TotalCmp Z.compare.
Proof.
  split.
  - apply Z.compare_antisym.
  - intros x y z. rewrite !Z.compare_lt_iff. lia.
  - by intros x y z ->%Z.compare_eq.
Qed.

#[export] Instance cmp_Q_total : TotalCmp Qcompare.
Proof.
  split.
  - intros x y. symmetry. apply Qcompare_antisym.
  - intros x y z. rewrite <- !Qlt_alt. apply Qlt_trans.
  - intros x y z H%Qeq_alt. by rewrite H.
Qed.

#[export] Instance cmp_opp_total {A} (cmp : A -> A -> comparison) :
  TotalCmp cmp -> TotalCmp (cmp_opp cmp).
Proof.
  intros [Hs Ht He]. unfold cmp_opp. split.
  - intros x y. apply Hs.
  - intros x y z H1 H2. eauto.
  - intros x y z H. rewrite (Hs x z), (Hs y z). f_equal. apply He.
    rewrite Hs, H. done.
Qed.

#[export] Instance cmp_lex_total {A B} (ca : A -> A -> comparison) (cb : B -> B -> comparison) :
  TotalCmp ca -> TotalCmp cb -> TotalCmp (cmp_lex ca cb).
Proof.
  intros [As At Ae] [Bs Bt Be]. unfold cmp_lex. split.
  - intros [x1 x2] [y1 y2]; cbn. rewrite (As x1 y1), (Bs x2 y2).
    by destruct (ca x1 y1).
  - intros [x1 x2] [y1 y2] [z1 z2]; cbn. intros H1 H2.
    destruct (ca x1 y1) eqn:E1; try done.
    + rewrite (Ae _ _ z1 E1). destruct (ca y1 z1); try done. eauto.
    + destruct (ca y1 z1) eqn:E2; try done.
      * assert (ca z1 x1 = Gt) as Hzx.
        { rewrite (Ae z1 y1); rewrite As; [by rewrite E1 | by rewrite E2]. }
        rewrite As, Hzx. done.
      * by rewrite (At _ _ _ E1 E2).
  - intros [x1 x2] [y1 y2] [z1 z2]; cbn. intros H.
    destruct (ca x1 y1) eqn:E1; try done.
    rewrite (Ae _ _ z1 E1). destruct (ca y1 z1); try done. by apply Be.
Qed.

Lemma cmp_string_eq s t : cmp_string s t = Eq <-> s = t.
Proof.
  revert t. induction s as [|a s IH]; intros [|b t]; cbn; split; try done.
  - destruct (N.compare_spec (N_of_ascii a) (N_of_ascii b)) as [E| |]; try done.
    intros H%IH. subst. f_equal.
    rewrite <- (ascii_N_embedding a), <- (ascii_N_embedding b). by rewrite E.
  - intros [= -> ->]. rewrite N.compare_refl. by apply IH.
Qed.

#[export] Instance cmp_string_total : TotalCmp cmp_string.
Proof.
  split.
  - intros s. induction s as [|a s IH]; intros [|b t]; cbn; try done.
    rewrite (N.compare_antisym (N_of_ascii a)).
    destruct (N.compare _ _); cbn; auto.
  - intros s. induction s as [|a s IH]; intros [|b t] [|c u]; cbn; try done.
    destruct (N.compare_spec (N_of_ascii a) (N_of_ascii b)) as [E|E|E]; try done;
    destruct (N.compare_spec (N_of_ascii b) (N_of_ascii c)) as [F|F|F]; try done;
    destruct (N.compare_spec (N_of_ascii a) (N_of_ascii c)); try done; try lia. eauto.
  - by intros s t u ->%cmp_string_eq.
Qed.

(** Comparison of the keys computed from two elements. *)
Definition cmp_on {A B} (f : A -> B) (cmp : B -> B -> comparison) : A -> A -> comparison :=
  fun x y => cmp (f x) (f y).

#[export] Instance cmp_on_total {A B} (f : A -> B) (cmp : B -> B -> comparison) :
  TotalCmp cmp -> TotalCmp (cmp_on f cmp).
Proof. intros []. unfold cmp_on. split; eauto. Qed.

#[global] Typeclasses Opaque cmp_opp cmp_on cmp_lex.

Definition leb_of {A} (cmp : A -> A -> comparison) (x y : A) : bool :=
  match cmp x y with Gt => false | _ => true end.

Lemma leb_of_total {A} (cmp : A -> A -> comparison) `{!TotalCmp cmp} x y :
  leb_of cmp x y = false -> leb_of cmp y x = true.
Proof. unfold leb_of. rewrite (cmp_sym x y). by destruct (cmp x y). Qed.

Lemma leb_of_trans {A} (cmp : A -> A -> comparison) `{!TotalCmp cmp} x y z :
  leb_of cmp x y = true -> leb_of cmp y z = true -> leb_of cmp x z = true.
Proof.
  unfold leb_of. intros H1 H2.
  destruct (cmp x y) eqn:E1; try done; [by rewrite (cmp_eq_compat _ _ z E1)|].
  destruct (cmp y z) eqn:E2; try done; [|by rewrite (cmp_lt_trans _ _ _ E1 E2)].
  assert (cmp z x = cmp y x) as H3.
  { apply cmp_eq_compat. rewrite (cmp_sym y z), E2. done. }
  rewrite (cmp_sym z x), H3, (cmp_sym x y), E1. done.
Qed.

Section stable_sort.
Context {A : Type} (leb : A -> A -> bool).

Fixpoint insert_by (x : A) (l : list A) : list A :=
  match l with
  | [] => [x]
  | y :: l' => if leb x y then x :: y :: l' else y :: insert_by x l'
  end.

(** A stable sort: an element is inserted before the equal ones that follow it. *)
Fixpoint sort_by (l : list A) : list A :=
  match l with
  | [] => []
  | x :: l' => insert_by x (sort_by l')
  end.

Lemma insert_by_perm x l : insert_by x l ≡ₚ x :: l.
Proof.
  induction l as [|y l IH]; cbn; [done|]. destruct (leb x y); [done|].
  rewrite IH. constructor.
Qed.

Lemma sort_by_perm l : sort_by l ≡ₚ l.
Proof. induction l as [|x l IH]; cbn; [done|]. by rewrite insert_by_perm, IH. Qed.

Hypothesis leb_total : forall x y, leb x y = false -> leb y x = true.
Hypothesis leb_trans : forall x y z, leb x y = true -> leb y z = true -> leb x z = true.

Lemma insert_by_sorted x l :
  StronglySorted (fun a b => leb a b = true) l ->
  StronglySorted (fun a b => leb a b = true) (insert_by x l).
Proof.
  induction 1 as [|y l Hl IH Hy]; cbn; [repeat constructor|].
  destruct (leb x y) eqn:E.
  - constructor; [by constructor|]. constructor; [done|].
    eapply Forall_impl; [exact Hy|]. cbn. eauto.
  - constructor; [done|]. rewrite insert_by_perm. constructor; auto.
Qed.

Lemma sort_by_sorted l : StronglySorted (fun a b => leb a b = true) (sort_by l).
Proof. induction l; cbn; [constructor | by apply insert_by_sorted]. Qed.
End stable_sort.

(** [sorted(l, key=f)] for a key type compared by [cmp]. *)
Definition sorted_on {A B} (f : A -> B) (cmp : B -> B -> comparison) (l : list A) : list A :=
  sort_by (leb_of (cmp_on f cmp)) l.

Lemma sorted_on_perm {A B} (f : A -> B) cmp l : sorted_on f cmp l ≡ₚ l.
Proof. apply sort_by_perm. Qed.

Lemma sorted_on_sorted {A B} (f : A -> B) (cmp : B -> B -> comparison) `{!TotalCmp cmp} l :
  StronglySorted (fun a b => cmp (f a) (f b) <> Gt) (sorted_on f cmp l).
Proof.
  assert (forall x y, leb_of (cmp_on f cmp) x y = true -> cmp (f x) (f y) <> Gt) as Himp.
  { unfold leb_of, cmp_on. intros x y. by destruct (cmp (f x) (f y)). }
  pose proof (sort_by_sorted (leb_of (cmp_on f cmp)) (leb_of_total _) (leb_of_trans _) l) as H.
  unfold sorted_on. induction H as [|x l' _ IH Hx]; constructor; [done|].
  eapply Forall_impl; [exact Hx|]. auto.
Qed.

(** [[f(x) for x in l]] where the call may raise: the first exception wins. *)
Fixpoint map_result {A B} (f : A -> result B) (l : list A) : result (list B) :=
  match l with
  | [] => Ok []
  | x :: l' => y ← f x; ys ← map_result f l'; mret (y :: ys)
  end.

Lemma map_result_Ok {A B} (f : A -> result B) l ys :
  map_result f l = Ok ys <-> Forall2 (fun x y => f x = Ok y) l ys.
Proof.
  revert ys. induction l as [|x l IH]; intros ys; cbn; split.
  - intros [= <-]. constructor.
  - by intros H%Forall2_nil_inv_l; subst.
  - intros H. simp_res. constructor; [done|]. by apply IH.
  - intros (y & ys' & Hy & Hl & ->)%Forall2_cons_inv_l. rewrite Hy. cbn.
    by rewrite (proj2 (IH ys') Hl).
Qed.

Lemma map_result_total {A B} (f : A -> result B) l :
  (forall x, x ∈ l -> exists y, f x = Ok y) -> exists ys, map_result f l = Ok ys.
Proof.
  induction l as [|x l IH]; intros H; [by exists []|].
  destruct (H x) as [y Hy]; [left|]. destruct IH as [ys Hys]; [intros z Hz; apply H; by right|].
  exists (y :: ys). cbn. by rewrite Hy, Hys.
Qed.

(** ** Instants

    A Python [datetime] is a wall clock reading in microseconds with an optional
    UTC offset; it is aware when the offset is present. *)
Record datetime : Type := mk_datetime { dt_wall : Z; dt_offset : option Z }.

#[export] Instance datetime_eq_dec : EqDecision datetime.
Proof. solve_decision. Defined.

Definition is_aware (d : datetime) : bool := bool_decide (is_Some (dt_offset d)).
Definition dt_instant (d : datetime) : Z := dt_wall d - default 0 (dt_offset d).
Definition utc_datetime (t : Z) : datetime := {| dt_wall := t; dt_offset := Some 0 |}.

(** [a < b] on datetimes: mixing naive and aware values raises. *)
Definition dt_lt (a b : datetime) : result bool :=
  if bool_decide (is_aware a = is_aware b) then Ok (dt_instant a <? dt_instant b)
  else Err (TypeError "can't compare offset-naive and offset-aware datetimes").

Lemma dt_lt_aware a b :
  is_aware a = true -> is_aware b = true -> dt_lt a b = Ok (dt_instant a <? dt_instant b).
Proof. intros Ha Hb. unfold dt_lt. by rewrite Ha, Hb, bool_decide_eq_true_2. Qed.

Definition dt_add (d : datetime) (delta : Z) : datetime :=
  {| dt_wall := dt_wall d + delta; dt_offset := dt_offset d |}.

Definition microsecond : Z := 1.
Definition second : Z := 1000000.
Definition minute : Z := 60 * second.
Definition hour : Z := 60 * minute.
Definition day : Z := 24 * hour.

Lemma day_pos : 0 < day.
Proof. reflexivity. Qed.
Lemma minute_pos : 0 < minute.
Proof. reflexivity. Qed.

(** [value or fallback] on optional strings: the empty string is falsy. *)
Definition truthy (o : option string) : bool :=
  match o with Some s => bool_decide (s <> "") | None => false end.
Definition or_str (a b : option string) : option string := if truthy a then a else b.

Infix "+++" := String.append (at level 60, right associativity) : string_scope.

(** ** Strings

    The character methods of [str] the code uses, on ASCII text. *)

(** Every character of the text. *)
Fixpoint all_chars (p : ascii -> bool) (s : string) : bool :=
  match s with EmptyString => true | String c rest => p c && all_chars p rest end.

Lemma string_cons_app a s t : (String a s +++ t = String a (s +++ t))%string.
Proof. done. Qed.
Lemma string_nil_app t : ("" +++ t = t)%string.
Proof. done. Qed.
Lemma string_app_assoc s t u : ((s +++ t) +++ u = s +++ (t +++ u))%string.
Proof. induction s as [|c s IH]; [done|]. by rewrite !string_cons_app, IH. Qed.
#[export] Hint Rewrite string_app_assoc string_cons_app string_nil_app : text.

Fixpoint str_map (f : ascii -> ascii) (s : string) : string :=
  match s with EmptyString => EmptyString | String a s' => String (f a) (str_map f s') end.

Definition ascii_upper (a : ascii) : ascii :=
  let n := N_of_ascii a in
  if (97 <=? n)%N && (n <=? 122)%N then ascii_of_N (n - 32) else a.
Definition ascii_lower (a : ascii) : ascii :=
  let n := N_of_ascii a in
  if (65 <=? n)%N && (n <=? 90)%N then ascii_of_N (n + 32) else a.
Definition str_upper : string -> string := str_map ascii_upper.
Definition str_lower : string -> string := str_map ascii_lower.
Definition str_replace_char (a b : ascii) : string -> string :=
  str_map (fun c => if Ascii.eqb c a then b else c).

(** [s[:n]] *)
Definition str_take (n : nat) (s : string) : string := String.substring 0 n s.

(** [len(s)] of UTF-8 text: its bytes that do not continue a character. *)
Fixpoint text_length (s : string) : nat :=
  match s with
  | EmptyString => 0
  | String c s' =>
      let n := N_of_ascii c in
      if (128 <=? n)%N && (n <? 192)%N then text_length s' else S (text_length s')
  end.

Definition is_space (a : ascii) : bool :=
  let n := N_of_ascii a in (n =? 32)%N || ((9 <=? n)%N && (n <=? 13)%N).
Fixpoint str_lstrip (s : string) : string :=
  match s with
  | String a s' => if is_space a then str_lstrip s' else s
  | EmptyString => EmptyString
  end.
Fixpoint str_rev_app (s acc : string) : string :=
  match s with EmptyString => acc | String a s' => str_rev_app s' (String a acc) end.
Definition str_rev (s : string) : string := str_rev_app s EmptyString.
(** [s.strip()] *)
Definition str_strip (s : string) : string := str_rev (str_lstrip (str_rev (str_lstrip s))).

(** [part in s] for strings. *)
Fixpoint str_prefix (p s : string) : bool :=
  match p, s with
  | EmptyString, _ => true
  | String a p', String b s' => Ascii.eqb a b && str_prefix p' s'
  | _, EmptyString => false
  end.
Fixpoint str_contains (p s : string) : bool :=
  str_prefix p s || match s with String _ s' => str_contains p s' | EmptyString => false end.

(** [str(z)] *)
Definition str_of_Z (z : Z) : string := pretty z.
