(* ===== verification/Procs.v ===== *)
(** * Interleaved coroutines

    An [asyncio] coroutine gives way only where it awaits, and a database transaction that
    locks its rows runs as one step.  A [proc] is a coroutine cut at those points: each
    [Act] is one uninterrupted step over the shared world, and may be blocked, as a
    [SELECT ... FOR UPDATE] of a locked row is.  A pool of them, started at any time and
    interleaved at will with an environment, is a transition system; the counting
    argument at the end is how several components prove what their callers may rely on. *)
From S2P Require Import Prelude.

Section procs.
Context {W : Type}.

Inductive proc (R : Type) : Type :=
| Done (r : result R)
| Act {B : Type} (m : W -> option (result B * W)) (k : result B -> proc R).
Arguments Done {R} r.
Arguments Act {R B} m k.

Fixpoint proc_then {A B} (p : proc A) (f : result A -> proc B) : proc B :=
  match p with
  | Done r => f r
  | Act m k => Act m (fun b => proc_then (k b) f)
  end.

#[export] Instance proc_ret : MRet proc := fun A a => Done (Ok a).
#[export] Instance proc_bind : MBind proc := fun A B f p =>
  proc_then p (fun r => match r with Ok a => f a | Err e => Done (Err e) end).

(** [try: p except Exception as e: h(e)] *)
Definition proc_catch {A} (p : proc A) (h : exn -> proc A) : proc A :=
  proc_then p (fun r => match r with Ok a => Done (Ok a) | Err e => h e end).

(** The outcome of a coroutine, for a caller that handles its exceptions. *)
Definition proc_try {A} (p : proc A) : proc (result A) := proc_then p (fun r => Done (Ok r)).

(** One step that is enabled when no lock it needs is held. *)
Definition step_when {A} (enabled : W -> bool) (m : stx W A) : proc A :=
  Act (fun w => if enabled w then Some (m w) else None) Done.
Definition step {A} (m : stx W A) : proc A := Act (fun w => Some (m w)) Done.
Definition pure_ {A} (r : result A) : proc A := Done r.

(** The run of a coroutine that nothing interrupts. *)
Fixpoint run {A} (p : proc A) (w : W) : option (result A * W) :=
  match p with
  | Done r => Some (r, w)
  | Act m k => match m w with Some (r, w') => run (k r) w' | None => None end
  end.

Lemma run_then {A B} (p : proc A) (f : result A -> proc B) w :
  run (proc_then p f) w = match run p w with Some (r, w1) => run (f r) w1 | None => None end.
Proof.
  revert w. induction p as [r|C m k IH]; intros w; [done|]. cbn. by destruct (m w) as [[r w1]|].
Qed.
Lemma run_bind {A B} (p : proc A) (f : A -> proc B) w :
  run (p ≫= f) w = match run p w with
                   | Some (Ok a, w1) => run (f a) w1
                   | Some (Err e, w1) => Some (Err e, w1)
                   | None => None
                   end.
Proof. unfold mbind, proc_bind. rewrite run_then. by destruct (run p w) as [[[a|e] w1]|]. Qed.
Lemma run_bind_Ok {A B} (p : proc A) (f : A -> proc B) w b w' :
  run (p ≫= f) w = Some (Ok b, w') <->
  exists a w1, run p w = Some (Ok a, w1) /\ run (f a) w1 = Some (Ok b, w').
Proof. rewrite run_bind. destruct (run p w) as [[[a|e] w1]|]; naive_solver. Qed.
Lemma run_step {A} enabled (m : stx W A) w :
  run (step_when enabled m) w = if enabled w then Some (m w) else None.
Proof. cbn. destruct (enabled w); [|done]. by destruct (m w). Qed.
Lemma run_await {A} (m : stx W A) w : run (step m) w = Some (m w).
Proof. cbn. by destruct (m w). Qed.

(** ** Pools *)

Section pools.
Context {R : Type} (env : W -> W -> Prop) (starts : proc R -> Prop).

Inductive pool_step : list (proc R) * W -> list (proc R) * W -> Prop :=
| pool_act ps w i B (m : W -> option (result B * W)) k r w' :
    ps !! i = Some (Act m k) -> m w = Some (r, w') ->
    pool_step (ps, w) (<[i := k r]> ps, w')
| pool_start ps w p : starts p -> pool_step (ps, w) (ps ++ [p], w)
| pool_env ps w w' : env w w' -> pool_step (ps, w) (ps, w').

(** ** Counting

    [capacity] is what the world still permits; a coroutine that holds [n] permits may
    take steps that lower the capacity only as far as it gives permits up, and must raise
    the capacity before it holds more. *)
Context (inv : W -> Prop) (capacity : W -> Z).

Fixpoint permits (n : Z) (p : proc R) : Prop :=
  0 <= n /\
  match p with
  | Done _ => True
  | Act m k => forall w r w', inv w -> m w = Some (r, w') ->
      inv w' /\ exists n', permits n' (k r) /\ n' - n <= capacity w' - capacity w
  end.

Definition pool_ok (s : list (proc R) * W) : Prop :=
  inv s.2 /\ exists ns, Forall2 permits ns s.1 /\ sumZ ns <= capacity s.2.

Hypothesis env_ok : forall w w', inv w -> env w w' -> inv w' /\ capacity w <= capacity w'.
Hypothesis starts_ok : forall p, starts p -> permits 0 p.

Lemma permits_nonneg n p : permits n p -> 0 <= n.
Proof. destruct p; cbn; by intros [? _]. Qed.

Lemma sumZ_insert ns i n n' : ns !! i = Some n -> sumZ (<[i := n']> ns) = sumZ ns + n' - n.
Proof.
  revert i. induction ns as [|m ns IH]; intros [|i] Hi; cbn in *; try done.
  - injection Hi as ->. lia.
  - rewrite IH by done. lia.
Qed.

Lemma pool_step_ok s s' : pool_ok s -> pool_step s s' -> pool_ok s'.
Proof.
  intros [Hi (ns & Hns & Hsum)] Hstep. destruct Hstep as [ps w i B m k r w' Hp Hm|ps w p Hs|ps w w' He];
    cbn in *.
  - destruct (Forall2_lookup_r _ _ _ _ _ Hns Hp) as (n & Hn & Hperm). cbn in Hperm.
    destruct Hperm as [_ Hperm]. destruct (Hperm _ _ _ Hi Hm) as (Hi' & n' & Hn' & Hle).
    split; [done|]. exists (<[i := n']> ns). split; [by apply Forall2_insert|].
    rewrite (sumZ_insert _ _ n) by done. cbn. lia.
  - split; [done|]. exists (ns ++ [0]). split.
    + apply Forall2_app; [done|]. constructor; [by apply starts_ok|constructor].
    + rewrite sumZ_app. cbn. lia.
  - destruct (env_ok _ _ Hi He) as [Hi' Hc]. split; [done|]. exists ns. split; [done|]. cbn in *. lia.
Qed.

(** In every reachable state what was permitted covers what was done. *)
Theorem pool_capacity w0 s : inv w0 -> 0 <= capacity w0 -> rtc pool_step ([], w0) s ->
  inv s.2 /\ 0 <= capacity s.2.
Proof.
  intros Hi Hc Hr. assert (pool_ok s) as [Hs (ns & Hns & Hsum)].
  { revert Hr. apply (rtc_ind_r (fun s => pool_ok s)).
    - split; [done|]. exists []. split; [constructor|done].
    - intros y z _ Hyz Hy. by eapply pool_step_ok. }
  split; [done|]. assert (0 <= sumZ ns); [|lia]. apply sumZ_nonneg.
  apply Forall_lookup. intros i n Hn. destruct (Forall2_lookup_l _ _ _ _ _ Hns Hn) as (p & _ & Hp).
  by eapply permits_nonneg.
Qed.
End pools.

(** An uninterrupted run is one of the runs of the pool. *)
Lemma run_reaches {R} (env : W -> W -> Prop) (starts : proc R -> Prop) p w r w' :
  run p w = Some (r, w') -> rtc (pool_step env starts) ([p], w) ([Done r], w').
Proof.
  revert w. induction p as [r0|B m k IH]; intros w; cbn.
  - intros [= -> ->]. done.
  - destruct (m w) as [[b w1]|] eqn:E; [|done]. intros Hr%IH. eapply rtc_l; [|exact Hr].
    exact (pool_act env starts [Act m k] w 0 B m k b w1 eq_refl E).
Qed.

(** A coroutine started and run to its end. *)
Lemma run_served {R} (env : W -> W -> Prop) (starts : proc R -> Prop) p w r w' : starts p ->
  run p w = Some (r, w') -> rtc (pool_step env starts) ([], w) ([Done r], w').
Proof. intros Hp Hr. eapply rtc_l; [by apply (pool_start _ _ [])|]. by apply run_reaches. Qed.

(** ** Rules *)

Section rules.
Context (inv : W -> Prop) (capacity : W -> Z).

(** [yields n p Q]: [p] started with [n] permits ends, for every result [r], with permits
    [Q r] admits. *)
Fixpoint yields {A} (n : Z) (p : proc A) (Q : Z -> result A -> Prop) : Prop :=
  0 <= n /\
  match p with
  | Done r => Q n r
  | Act m k => forall w r w', inv w -> m w = Some (r, w') ->
      inv w' /\ exists n', yields n' (k r) Q /\ n' - n <= capacity w' - capacity w
  end.

Lemma run_permits {A} n (p : proc A) w r w' : permits inv capacity n p -> inv w ->
  run p w = Some (r, w') -> inv w'.
Proof.
  revert n w. induction p as [r0|B m k IH]; intros n w; cbn.
  - by intros _ Hi [= _ <-].
  - intros [_ Hp] Hi. destruct (m w) as [[b w1]|] eqn:E; [|done].
    destruct (Hp w b w1 Hi E) as (Hi1 & n' & Hn' & _). by eapply IH.
Qed.

Lemma yields_permits {A} n (p : proc A) Q : yields n p Q -> permits inv capacity n p.
Proof.
  revert n. induction p as [r|B m k IH]; intros n; cbn; [by intros [? _]|].
  intros [Hn H]. split; [done|]. intros w r w' Hi Hm.
  destruct (H w r w' Hi Hm) as (Hi' & n' & Hy & Hle). split; [done|]. exists n'. auto.
Qed.

Lemma yields_then {A B} n (p : proc A) (f : result A -> proc B) P Q :
  yields n p P -> (forall m r, 0 <= m -> P m r -> yields m (f r) Q) -> yields n (proc_then p f) Q.
Proof.
  intros Hp Hf. revert n Hp. induction p as [r|C m k IH]; intros n; cbn.
  - intros [Hn Hr]. by apply Hf.
  - intros [Hn H]. split; [done|]. intros w r w' Hi Hm.
    destruct (H w r w' Hi Hm) as (Hi' & n' & Hy & Hle). split; [done|]. exists n'. auto.
Qed.

Lemma yields_bind {A B} n (p : proc A) (f : A -> proc B) P Q :
  yields n p P -> (forall m a, 0 <= m -> P m (Ok a) -> yields m (f a) Q) ->
  (forall m e, 0 <= m -> P m (Err e) -> Q m (Err e)) -> yields n (p ≫= f) Q.
Proof.
  intros Hp Hf He. eapply yields_then; [done|]. intros m [a|e] Hm HP; [by apply Hf|].
  split; [done|]. auto.
Qed.

Lemma yields_catch {A} n (p : proc A) (h : exn -> proc A) P Q :
  yields n p P -> (forall m a, 0 <= m -> P m (Ok a) -> Q m (Ok a)) ->
  (forall m e, 0 <= m -> P m (Err e) -> yields m (h e) Q) -> yields n (proc_catch p h) Q.
Proof.
  intros Hp Ha Hh. eapply yields_then; [done|]. intros m [a|e] Hm HP; [|by apply Hh].
  split; [done|]. auto.
Qed.

Lemma yields_done {A} n (r : result A) (Q : Z -> result A -> Prop) :
  0 <= n -> Q n r -> yields n (Done r) Q.
Proof. by split. Qed.

Lemma yields_weaken {A} n (p : proc A) (P Q : Z -> result A -> Prop) :
  yields n p P -> (forall m r, 0 <= m -> P m r -> Q m r) -> yields n p Q.
Proof.
  intros Hp HQ. revert n Hp. induction p as [r|B m k IH]; intros n; cbn.
  - intros [Hn Hr]. auto.
  - intros [Hn H]. split; [done|]. intros w r w' Hi Hm.
    destruct (H w r w' Hi Hm) as (Hi' & n' & Hy & Hle). split; [done|]. exists n'. auto.
Qed.

Lemma yields_step {A} n enabled (m : stx W A) (Q : Z -> result A -> Prop) :
  0 <= n ->
  (forall w r w', inv w -> enabled w = true -> m w = (r, w') ->
     inv w' /\ exists n', 0 <= n' /\ Q n' r /\ n' - n <= capacity w' - capacity w) ->
  yields n (step_when enabled m) Q.
Proof.
  intros Hn H. split; [done|]. intros w r w' Hi Hm.
  destruct (enabled w) eqn:En; [|done]. injection Hm as Hm.
  destruct (H w r w' Hi En Hm) as (Hi' & n' & Hn' & HQ & Hle). split; [done|]. exists n'. by split.
Qed.
Lemma yields_step' {A} n (m : stx W A) (Q : Z -> result A -> Prop) :
  0 <= n ->
  (forall w r w', inv w -> m w = (r, w') ->
     inv w' /\ exists n', 0 <= n' /\ Q n' r /\ n' - n <= capacity w' - capacity w) ->
  yields n (step m) Q.
Proof. intros Hn H. apply (yields_step n (fun _ => true)); [done|]. intros w r w' Hi _. by apply H. Qed.
End rules.
End procs.
Arguments proc : clear implicits.
Arguments Done {W R} r.
Arguments Act {W R B} m k.

(** ** Schedules *)

Section schedules.
Context {W R : Type}.

(** One step of the [i]-th coroutine. *)
Definition advance (i : nat) (s : list (proc W R) * W) : option (list (proc W R) * W) :=
  match s.1 !! i with
  | Some (Act m k) => match m s.2 with Some (r, w') => Some (<[i := k r]> s.1, w') | None => None end
  | _ => None
  end.
Fixpoint follow (schedule : list nat) (s : list (proc W R) * W) : option (list (proc W R) * W) :=
  match schedule with
  | [] => Some s
  | i :: rest => match advance i s with Some s' => follow rest s' | None => None end
  end.

Lemma follow_reaches env starts schedule s s' :
  follow schedule s = Some s' -> rtc (pool_step env starts) s s'.
Proof.
  revert s. induction schedule as [|i rest IH]; intros [ps w]; cbn; [by intros [= <-]|].
  unfold advance. cbn. destruct (ps !! i) as [[r|B m k]|] eqn:Ei; try done.
  destruct (m w) as [[r w']|] eqn:Em; [|done]. intros Hr%IH. eapply rtc_l; [|exact Hr].
  by eapply pool_act.
Qed.
Lemma starts_reach env (starts : proc W R -> Prop) ps qs w :
  Forall starts ps -> rtc (pool_step env starts) (qs, w) (qs ++ ps, w).
Proof.
  intros Hps. revert qs. induction Hps as [|p ps Hp _ IH]; intros qs; [by rewrite app_nil_r|].
  eapply rtc_l; [by apply pool_start|]. specialize (IH (qs ++ [p])%list).
  by rewrite <- (assoc_L (++)) in IH.
Qed.
End schedules.

(** The outcome of an uninterrupted run of a coroutine that obeys the counting rules. *)
Lemma yields_run {W A} (inv : W -> Prop) (capacity : W -> Z) n (p : proc W A) Q w r w' :
  yields inv capacity n p Q -> inv w -> run p w = Some (r, w') ->
  inv w' /\ exists n', 0 <= n' /\ Q n' r /\ n' - n <= capacity w' - capacity w.
Proof.
  revert n w. induction p as [r0|B m k IH]; intros n w; cbn.
  - intros [Hn HQ] Hi [= <- <-]. split; [done|]. exists n. split; [done|]. split; [done|lia].
  - intros [Hn H] Hi. destruct (m w) as [[b w1]|] eqn:Em; [|done]. intros Hrun.
    destruct (H _ _ _ Hi Em) as (Hi1 & n1 & Hy & Hle).
    destruct (IH _ _ _ Hy Hi1 Hrun) as (Hi' & n' & Hn' & HQ & Hle').
    split; [done|]. exists n'. split; [done|]. split; [done|lia].
Qed.

(** A coroutine that nothing may interrupt. *)
Definition serial {W A} (p : proc W A) : proc W A := Act (fun w => run p w) Done.

Lemma yields_serial {W A} (inv : W -> Prop) (capacity : W -> Z) n (p : proc W A) (Q : Z -> result A -> Prop) :
  0 <= n ->
  (forall w r w', inv w -> run p w = Some (r, w') ->
     inv w' /\ exists n', 0 <= n' /\ Q n' r /\ n' - n <= capacity w' - capacity w) ->
  yields inv capacity n (serial p) Q.
Proof.
  intros Hn H. split; [done|]. intros w r w' Hi Hr. destruct (H w r w' Hi Hr) as (Hi' & n' & Hn' & HQ & Hle).
  split; [done|]. exists n'. by split.
Qed.

(** ** Coroutines over a part of the world *)

Section zoom.
Context {W S : Type} (get : W -> S) (put : S -> W -> W).

Fixpoint zoom {A} (p : proc S A) : proc W A :=
  match p with
  | Done r => Done r
  | Act m k => Act (fun w => match m (get w) with
                             | Some (r, s') => Some (r, put s' w)
                             | None => None
                             end) (fun b => zoom (k b))
  end.

Lemma run_zoom {A} (p : proc S A) w :
  (forall s, get (put s w) = s) -> (forall s s', put s' (put s w) = put s' w) ->
  put (get w) w = w ->
  run (zoom p) w = match run p (get w) with Some (r, s') => Some (r, put s' w) | None => None end.
Proof.
  intros Hgp Hpp Hpg. revert w Hgp Hpp Hpg. induction p as [r|B m k IH]; intros w Hgp Hpp Hpg; cbn.
  { by rewrite Hpg. }
  destruct (m (get w)) as [[b s']|]; [|done]. rewrite IH.
  - rewrite Hgp. destruct (run (k b) s') as [[r s'']|]; [|done]. by rewrite Hpp.
  - intros s. by rewrite Hpp, Hgp.
  - intros s s1. by rewrite !Hpp.
  - by rewrite Hgp.
Qed.

(** What a coroutine keeps and counts over its part, it keeps and counts over the world. *)
Lemma yields_zoom {A} (inv : S -> Prop) (capacity : S -> Z) (inv' : W -> Prop) (capacity' : W -> Z)
    n (p : proc S A) Q :
  (forall w, inv' w -> inv (get w)) ->
  (forall w s', inv' w -> inv s' -> inv' (put s' w)
     /\ capacity' (put s' w) - capacity' w = capacity s' - capacity (get w)) ->
  yields inv capacity n p Q -> yields inv' capacity' n (zoom p) Q.
Proof.
  intros Hget Hput. revert n. induction p as [r|B m k IH]; intros n; cbn; [done|].
  intros [Hn H]. split; [done|]. intros w r w' Hi Hm.
  destruct (m (get w)) as [[b s']|] eqn:E; [|done]. injection Hm as <- <-.
  destruct (H _ _ _ (Hget _ Hi) E) as (Hs & n' & Hy & Hle).
  destruct (Hput w s' Hi Hs) as [Hi' Hcap]. split; [done|]. exists n'. split; [by apply IH|]. lia.
Qed.
End zoom.
