(* ===== verification/Domain.v ===== *)
(** * Domain vocabulary and contracts

    The persisted enumerations of [services/api/app/domain/enums.py] and the
    Pydantic contracts of [services/api/app/domain/models.py].  Each enumeration
    is a module, so that a member reads [CaseOutcome.OPEN] as in the code; a
    validator is a function from the raw field values to a [result]. *)
From S2P Require Import Prelude.

(** ** Enumerations *)

Module CaseOutcome.
(** src/services/api/app/domain/enums.py:14-21 [CaseOutcome] *)
Inductive CaseOutcome : Set :=
  | OPEN | RECOVERED | PARTIALLY_RECOVERED | ESCALATED | DISPUTED | STOPPED | EXPIRED.
End CaseOutcome.
Abbreviation CaseOutcome := CaseOutcome.CaseOutcome.
#[export] Instance CaseOutcome_eq_dec : EqDecision CaseOutcome.
Proof. solve_decision. Defined.
(** src/services/api/app/domain/enums.py:14-21 [CaseOutcome.value] *)
Definition CaseOutcome_value (x : CaseOutcome) : string :=
  match x with
  | CaseOutcome.OPEN => "OPEN"
  | CaseOutcome.RECOVERED => "RECOVERED"
  | CaseOutcome.PARTIALLY_RECOVERED => "PARTIALLY_RECOVERED"
  | CaseOutcome.ESCALATED => "ESCALATED"
  | CaseOutcome.DISPUTED => "DISPUTED"
  | CaseOutcome.STOPPED => "STOPPED"
  | CaseOutcome.EXPIRED => "EXPIRED"
  end.

Module PaymentState.
(** src/services/api/app/domain/enums.py:24-30 [PaymentState] *)
Inductive PaymentState : Set := UNKNOWN | FAILED | PENDING | AUTHORIZED | CAPTURED | REFUNDED.
End PaymentState.
Abbreviation PaymentState := PaymentState.PaymentState.
#[export] Instance PaymentState_eq_dec : EqDecision PaymentState.
Proof. solve_decision. Defined.
(** src/services/api/app/domain/enums.py:24-30 [PaymentState.value] *)
Definition PaymentState_value (x : PaymentState) : string :=
  match x with
  | PaymentState.UNKNOWN => "UNKNOWN"
  | PaymentState.FAILED => "FAILED"
  | PaymentState.PENDING => "PENDING"
  | PaymentState.AUTHORIZED => "AUTHORIZED"
  | PaymentState.CAPTURED => "CAPTURED"
  | PaymentState.REFUNDED => "REFUNDED"
  end.

Module SubscriptionState.
(** src/services/api/app/domain/enums.py:33-42 [SubscriptionState] *)
Inductive SubscriptionState : Set :=
  | UNKNOWN | CREATED | AUTHENTICATED | ACTIVE | PENDING | HALTED | PAUSED | CANCELLED |
  COMPLETED.
End SubscriptionState.
Abbreviation SubscriptionState := SubscriptionState.SubscriptionState.
#[export] Instance SubscriptionState_eq_dec : EqDecision SubscriptionState.
Proof. solve_decision. Defined.
(** src/services/api/app/domain/enums.py:33-42 [SubscriptionState.value] *)
Definition SubscriptionState_value (x : SubscriptionState) : string :=
  match x with
  | SubscriptionState.UNKNOWN => "UNKNOWN"
  | SubscriptionState.CREATED => "CREATED"
  | SubscriptionState.AUTHENTICATED => "AUTHENTICATED"
  | SubscriptionState.ACTIVE => "ACTIVE"
  | SubscriptionState.PENDING => "PENDING"
  | SubscriptionState.HALTED => "HALTED"
  | SubscriptionState.PAUSED => "PAUSED"
  | SubscriptionState.CANCELLED => "CANCELLED"
  | SubscriptionState.COMPLETED => "COMPLETED"
  end.

Module ContactDisposition.
(** src/services/api/app/domain/enums.py:45-55 [ContactDisposition] *)
Inductive ContactDisposition : Set :=
  | NOT_CONTACTED | CONTACT_SCHEDULED | NO_ANSWER | BUSY | ENGAGED | PROMISE_TO_PAY |
  OPTED_OUT | WRONG_PERSON | DISPUTE | ALREADY_PAID.
End ContactDisposition.
Abbreviation ContactDisposition := ContactDisposition.ContactDisposition.
#[export] Instance ContactDisposition_eq_dec : EqDecision ContactDisposition.
Proof. solve_decision. Defined.
(** src/services/api/app/domain/enums.py:45-55 [ContactDisposition.value] *)
Definition ContactDisposition_value (x : ContactDisposition) : string :=
  match x with
  | ContactDisposition.NOT_CONTACTED => "NOT_CONTACTED"
  | ContactDisposition.CONTACT_SCHEDULED => "CONTACT_SCHEDULED"
  | ContactDisposition.NO_ANSWER => "NO_ANSWER"
  | ContactDisposition.BUSY => "BUSY"
  | ContactDisposition.ENGAGED => "ENGAGED"
  | ContactDisposition.PROMISE_TO_PAY => "PROMISE_TO_PAY"
  | ContactDisposition.OPTED_OUT => "OPTED_OUT"
  | ContactDisposition.WRONG_PERSON => "WRONG_PERSON"
  | ContactDisposition.DISPUTE => "DISPUTE"
  | ContactDisposition.ALREADY_PAID => "ALREADY_PAID"
  end.

Module RevenueAttribution.
(** src/services/api/app/domain/enums.py:58-62 [RevenueAttribution] *)
Inductive RevenueAttribution : Set :=
  | NONE | SIMULATED | RAZORPAY_TEST_VERIFIED | VERIFIED_EXTERNAL.
End RevenueAttribution.
Abbreviation RevenueAttribution := RevenueAttribution.RevenueAttribution.
#[export] Instance RevenueAttribution_eq_dec : EqDecision RevenueAttribution.
Proof. solve_decision. Defined.
(** src/services/api/app/domain/enums.py:58-62 [RevenueAttribution.value] *)
Definition RevenueAttribution_value (x : RevenueAttribution) : string :=
  match x with
  | RevenueAttribution.NONE => "NONE"
  | RevenueAttribution.SIMULATED => "SIMULATED"
  | RevenueAttribution.RAZORPAY_TEST_VERIFIED => "RAZORPAY_TEST_VERIFIED"
  | RevenueAttribution.VERIFIED_EXTERNAL => "VERIFIED_EXTERNAL"
  end.

Module RecoveryActionType.
(** src/services/api/app/domain/enums.py:65-71 [RecoveryActionType] *)
Inductive RecoveryActionType : Set :=
  | WAIT_FOR_GATEWAY_RETRY | OPEN_CUSTOMER_PAYMENT_SURFACE | START_VOICE |
  SEND_TO_CUSTOMER_AGENT | ESCALATE_TO_HUMAN | STOP.
End RecoveryActionType.
Abbreviation RecoveryActionType := RecoveryActionType.RecoveryActionType.
#[export] Instance RecoveryActionType_eq_dec : EqDecision RecoveryActionType.
Proof. solve_decision. Defined.
(** src/services/api/app/domain/enums.py:65-71 [RecoveryActionType.value] *)
Definition RecoveryActionType_value (x : RecoveryActionType) : string :=
  match x with
  | RecoveryActionType.WAIT_FOR_GATEWAY_RETRY => "WAIT_FOR_GATEWAY_RETRY"
  | RecoveryActionType.OPEN_CUSTOMER_PAYMENT_SURFACE => "OPEN_CUSTOMER_PAYMENT_SURFACE"
  | RecoveryActionType.START_VOICE => "START_VOICE"
  | RecoveryActionType.SEND_TO_CUSTOMER_AGENT => "SEND_TO_CUSTOMER_AGENT"
  | RecoveryActionType.ESCALATE_TO_HUMAN => "ESCALATE_TO_HUMAN"
  | RecoveryActionType.STOP => "STOP"
  end.

Module PaymentSurfaceType.
(** src/services/api/app/domain/enums.py:74-77 [PaymentSurfaceType] *)
Inductive PaymentSurfaceType : Set :=
  | SUBSCRIPTION_CARD_UPDATE | SUBSCRIPTION_INVOICE_LINK | STANDARD_PAYMENT_LINK.
End PaymentSurfaceType.
Abbreviation PaymentSurfaceType := PaymentSurfaceType.PaymentSurfaceType.
#[export] Instance PaymentSurfaceType_eq_dec : EqDecision PaymentSurfaceType.
Proof. solve_decision. Defined.
(** src/services/api/app/domain/enums.py:74-77 [PaymentSurfaceType.value] *)
Definition PaymentSurfaceType_value (x : PaymentSurfaceType) : string :=
  match x with
  | PaymentSurfaceType.SUBSCRIPTION_CARD_UPDATE => "SUBSCRIPTION_CARD_UPDATE"
  | PaymentSurfaceType.SUBSCRIPTION_INVOICE_LINK => "SUBSCRIPTION_INVOICE_LINK"
  | PaymentSurfaceType.STANDARD_PAYMENT_LINK => "STANDARD_PAYMENT_LINK"
  end.

Module Diagnosis.
(** src/services/api/app/domain/enums.py:80-87 [Diagnosis] *)
Inductive Diagnosis : Set :=
  | TRANSIENT_RETRYABLE | INSUFFICIENT_FUNDS | AUTHENTICATION_REQUIRED | INSTRUMENT_INVALID
  | MERCHANT_ERROR | RISK_OR_COMPLIANCE_BLOCK | UNKNOWN.
End Diagnosis.
Abbreviation Diagnosis := Diagnosis.Diagnosis.
#[export] Instance Diagnosis_eq_dec : EqDecision Diagnosis.
Proof. solve_decision. Defined.
(** src/services/api/app/domain/enums.py:80-87 [Diagnosis.value] *)
Definition Diagnosis_value (x : Diagnosis) : string :=
  match x with
  | Diagnosis.TRANSIENT_RETRYABLE => "TRANSIENT_RETRYABLE"
  | Diagnosis.INSUFFICIENT_FUNDS => "INSUFFICIENT_FUNDS"
  | Diagnosis.AUTHENTICATION_REQUIRED => "AUTHENTICATION_REQUIRED"
  | Diagnosis.INSTRUMENT_INVALID => "INSTRUMENT_INVALID"
  | Diagnosis.MERCHANT_ERROR => "MERCHANT_ERROR"
  | Diagnosis.RISK_OR_COMPLIANCE_BLOCK => "RISK_OR_COMPLIANCE_BLOCK"
  | Diagnosis.UNKNOWN => "UNKNOWN"
  end.

Module EvidenceKind.
(** src/services/api/app/domain/enums.py:90-93 [EvidenceKind] *)
Inductive EvidenceKind : Set := SIMULATED | SYSTEM_DERIVED | RAZORPAY_TEST_VERIFIED.
End EvidenceKind.
Abbreviation EvidenceKind := EvidenceKind.EvidenceKind.
#[export] Instance EvidenceKind_eq_dec : EqDecision EvidenceKind.
Proof. solve_decision. Defined.
(** src/services/api/app/domain/enums.py:90-93 [EvidenceKind.value] *)
Definition EvidenceKind_value (x : EvidenceKind) : string :=
  match x with
  | EvidenceKind.SIMULATED => "SIMULATED"
  | EvidenceKind.SYSTEM_DERIVED => "SYSTEM_DERIVED"
  | EvidenceKind.RAZORPAY_TEST_VERIFIED => "RAZORPAY_TEST_VERIFIED"
  end.

Module PolicyDisposition.
(** src/services/api/app/domain/enums.py:96-100 [PolicyDisposition] *)
Inductive PolicyDisposition : Set := ALLOW | BLOCK | DELAY | REQUIRE_MANUAL_APPROVAL.
End PolicyDisposition.
Abbreviation PolicyDisposition := PolicyDisposition.PolicyDisposition.
#[export] Instance PolicyDisposition_eq_dec : EqDecision PolicyDisposition.
Proof. solve_decision. Defined.
(** src/services/api/app/domain/enums.py:96-100 [PolicyDisposition.value] *)
Definition PolicyDisposition_value (x : PolicyDisposition) : string :=
  match x with
  | PolicyDisposition.ALLOW => "ALLOW"
  | PolicyDisposition.BLOCK => "BLOCK"
  | PolicyDisposition.DELAY => "DELAY"
  | PolicyDisposition.REQUIRE_MANUAL_APPROVAL => "REQUIRE_MANUAL_APPROVAL"
  end.

Module ActionStatus.
(** src/services/api/app/domain/enums.py:103-110 [ActionStatus] *)
Inductive ActionStatus : Set :=
  | PROPOSED | AWAITING_APPROVAL | SCHEDULED | EXECUTING | SUCCEEDED | FAILED | CANCELLED.
End ActionStatus.
Abbreviation ActionStatus := ActionStatus.ActionStatus.
#[export] Instance ActionStatus_eq_dec : EqDecision ActionStatus.
Proof. solve_decision. Defined.
(** src/services/api/app/domain/enums.py:103-110 [ActionStatus.value] *)
Definition ActionStatus_value (x : ActionStatus) : string :=
  match x with
  | ActionStatus.PROPOSED => "PROPOSED"
  | ActionStatus.AWAITING_APPROVAL => "AWAITING_APPROVAL"
  | ActionStatus.SCHEDULED => "SCHEDULED"
  | ActionStatus.EXECUTING => "EXECUTING"
  | ActionStatus.SUCCEEDED => "SUCCEEDED"
  | ActionStatus.FAILED => "FAILED"
  | ActionStatus.CANCELLED => "CANCELLED"
  end.
Lemma RecoveryActionType_value_inj x y :
  RecoveryActionType_value x = RecoveryActionType_value y -> x = y.
Proof. by destruct x, y. Qed.

Definition all_action_types : list RecoveryActionType :=
  [RecoveryActionType.WAIT_FOR_GATEWAY_RETRY; RecoveryActionType.OPEN_CUSTOMER_PAYMENT_SURFACE;
   RecoveryActionType.START_VOICE; RecoveryActionType.SEND_TO_CUSTOMER_AGENT;
   RecoveryActionType.ESCALATE_TO_HUMAN; RecoveryActionType.STOP].

(** src/services/api/app/domain/enums.py:65-71 [RecoveryActionType(value)]: the
    enumeration called on a string; an unknown value raises [ValueError]. *)
Definition RecoveryActionType_of (s : string) : result RecoveryActionType :=
  from_option (ValueError s)
    (List.find (fun a => bool_decide (RecoveryActionType_value a = s)) all_action_types).

Lemma RecoveryActionType_roundtrip a :
  RecoveryActionType_of (RecoveryActionType_value a) = Ok a.
Proof. by destruct a. Qed.

Definition all_surface_types : list PaymentSurfaceType :=
  [PaymentSurfaceType.SUBSCRIPTION_CARD_UPDATE; PaymentSurfaceType.SUBSCRIPTION_INVOICE_LINK;
   PaymentSurfaceType.STANDARD_PAYMENT_LINK].

(** src/services/api/app/domain/enums.py:74-77 [PaymentSurfaceType(value)] *)
Definition PaymentSurfaceType_of (s : string) : result PaymentSurfaceType :=
  from_option (ValueError s)
    (List.find (fun a => bool_decide (PaymentSurfaceType_value a = s)) all_surface_types).

Lemma PaymentSurfaceType_of_Ok s t :
  PaymentSurfaceType_of s = Ok t <-> s = PaymentSurfaceType_value t.
Proof.
  unfold PaymentSurfaceType_of. rewrite from_option_Ok. split.
  - by intros [_ Ht%bool_decide_eq_true]%List.find_some.
  - intros ->. by destruct t.
Qed.

Definition all_diagnoses : list Diagnosis :=
  [Diagnosis.TRANSIENT_RETRYABLE; Diagnosis.INSUFFICIENT_FUNDS; Diagnosis.AUTHENTICATION_REQUIRED;
   Diagnosis.INSTRUMENT_INVALID; Diagnosis.MERCHANT_ERROR; Diagnosis.RISK_OR_COMPLIANCE_BLOCK;
   Diagnosis.UNKNOWN].

(** src/services/api/app/domain/enums.py:80-87 [Diagnosis(value)] *)
Definition Diagnosis_of (s : string) : result Diagnosis :=
  from_option (ValueError s)
    (List.find (fun a => bool_decide (Diagnosis_value a = s)) all_diagnoses).

(** An action opens a payment surface exactly when it carries a surface type. *)
Definition opens_surface (a : RecoveryActionType) : bool :=
  bool_decide (a = RecoveryActionType.OPEN_CUSTOMER_PAYMENT_SURFACE).
Definition surface_matches (a : RecoveryActionType) (s : option PaymentSurfaceType) : bool :=
  Bool.eqb (opens_surface a) (bool_decide (is_Some s)).

(** ** Contracts *)

(** src/services/api/app/domain/models.py:32-48 [RecoveryCaseKey] *)
Record RecoveryCaseKey : Type := {
  key_merchant_id : string;
  key_failed_invoice_id : option string;
  key_billing_cycle_key : option string;
}.

(** src/services/api/app/domain/models.py:40-43 [RecoveryCaseKey.require_invoice_or_cycle]:
    with the field constraints [min_length=1] of the class. *)
Definition require_invoice_or_cycle (k : RecoveryCaseKey) : result RecoveryCaseKey :=
  let nonempty o := match o with Some s => bool_decide (s <> "") | None => true end in
  _ ← raise_if (bool_decide (key_merchant_id k = "")) (ValueError "merchant_id");
  _ ← raise_if (negb (nonempty (key_failed_invoice_id k))) (ValueError "failed_invoice_id");
  _ ← raise_if (negb (nonempty (key_billing_cycle_key k))) (ValueError "billing_cycle_key");
  _ ← raise_if (negb (truthy (key_failed_invoice_id k)) && negb (truthy (key_billing_cycle_key k)))
        (ValueError "failed_invoice_id or billing_cycle_key is required");
  mret k.

(** src/services/api/app/domain/models.py:45-48 [RecoveryCaseKey.idempotency_key] *)
Definition case_idempotency_key (k : RecoveryCaseKey) : string :=
  let scope := or_str (key_failed_invoice_id k) (key_billing_cycle_key k) in
  (key_merchant_id k +++ ":" +++ default "None" scope)%string.

(** src/services/api/app/domain/models.py:51-70 [RecoveryCaseState] *)
Record RecoveryCaseState : Type := {
  cs_id : string;
  cs_key : RecoveryCaseKey;
  cs_customer_id : string;
  cs_subscription_id : string;
  cs_failed_payment_id : option string;
  cs_case_outcome : CaseOutcome;
  cs_payment_state : PaymentState;
  cs_subscription_state : SubscriptionState;
  cs_contact_disposition : ContactDisposition;
  cs_revenue_attribution : RevenueAttribution;
  cs_diagnosis : Diagnosis;
  cs_amount_at_risk_paise : Z;
  cs_arrears_collected_paise : Z;
  cs_case_recovered : bool;
  cs_subscription_reactivated : bool;
  cs_opened_at : datetime;
  cs_recovery_deadline : datetime;
  cs_recovered_at : option datetime;
  cs_version : Z;
}.

(** src/services/api/app/domain/models.py:74-79 [RecoveryCaseState.validate_state]:
    the check of one timestamp. *)
Definition check_utc (field : string) (d : datetime) : result unit :=
  _ ← raise_if (negb (is_aware d))
        (ValueError (field +++ " must be timezone-aware UTC"));
  raise_if (negb (bool_decide (dt_offset d = Some 0)))
    (ValueError (field +++ " must use UTC")).

(** src/services/api/app/domain/models.py:72-90 [RecoveryCaseState.validate_state] *)
Definition validate_state (s : RecoveryCaseState) : result RecoveryCaseState :=
  _ ← check_utc "opened_at" (cs_opened_at s);
  _ ← check_utc "recovery_deadline" (cs_recovery_deadline s);
  _ ← match cs_recovered_at s with Some d => check_utc "recovered_at" d | None => mret tt end;
  _ ← raise_if (dt_instant (cs_recovery_deadline s) <=? dt_instant (cs_opened_at s))
        (ValueError "recovery_deadline must be after opened_at");
  _ ← raise_if (cs_case_recovered s && (cs_arrears_collected_paise s <=? 0))
        (ValueError "a recovered case must have collected arrears");
  _ ← raise_if (bool_decide (cs_case_outcome s = CaseOutcome.RECOVERED)
                && negb (cs_case_recovered s))
        (ValueError "RECOVERED outcome requires case_recovered=true");
  _ ← raise_if (bool_decide (cs_payment_state s = PaymentState.CAPTURED)
                && (cs_arrears_collected_paise s =? 0))
        (ValueError "CAPTURED payment requires a collected amount");
  _ ← raise_if ((0 <? cs_arrears_collected_paise s)
                && bool_decide (cs_revenue_attribution s = RevenueAttribution.NONE))
        (ValueError "collected arrears require an attribution source");
  mret s.

(** src/services/api/app/domain/models.py:93-97 [RejectedAlternative] *)
Record RejectedAlternative : Type := {
  ra_action : RecoveryActionType;
  ra_payment_surface_type : option PaymentSurfaceType;
  ra_reason_code : string;
  ra_reason : string;
}.

(** src/services/api/app/domain/models.py:100-109 [ActionRecommendation] *)
Record ActionRecommendation : Type := {
  rec_action : RecoveryActionType;
  rec_payment_surface_type : option PaymentSurfaceType;
  rec_predicted_recovery_probability : Q;
  rec_expected_recovered_paise : Z;
  rec_expected_utility_paise : Z;
  rec_confidence : Q;
  rec_reason_codes : list string;
  rec_reasons : list string;
  rec_rejected_alternatives : list RejectedAlternative;
}.

(** src/services/api/app/domain/models.py:100-118 [ActionRecommendation]: the field
    bounds and [surface_only_for_surface_action]. *)
Definition validate_recommendation (r : ActionRecommendation) : result ActionRecommendation :=
  let unit_interval q := Qle_bool 0 q && Qle_bool q 1 in
  _ ← raise_if (negb (unit_interval (rec_predicted_recovery_probability r)))
        (ValueError "predicted_recovery_probability");
  _ ← raise_if (rec_expected_recovered_paise r <? 0) (ValueError "expected_recovered_paise");
  _ ← raise_if (negb (unit_interval (rec_confidence r))) (ValueError "confidence");
  _ ← raise_if (negb (surface_matches (rec_action r) (rec_payment_surface_type r)))
        (ValueError "payment_surface_type is required only for OPEN_CUSTOMER_PAYMENT_SURFACE");
  mret r.

(** src/services/api/app/domain/models.py:121-127 [PolicyDecision] *)
Record PolicyDecision : Type := {
  pd_disposition : PolicyDisposition;
  pd_decision_code : string;
  pd_reason_codes : list string;
  pd_reasons : list string;
  pd_policy_version : string;
  pd_delay_until : option Z;
}.

(** src/services/api/app/domain/models.py:129-133 [PolicyDecision.delay_requires_timestamp] *)
Definition delay_requires_timestamp (d : PolicyDecision) : result PolicyDecision :=
  _ ← raise_if (xorb (bool_decide (pd_disposition d = PolicyDisposition.DELAY))
                     (bool_decide (is_Some (pd_delay_until d))))
        (ValueError "delay_until is required only for DELAY");
  mret d.

(** src/services/api/app/domain/models.py:160-176 [RevenueRecognition] *)
Record RevenueRecognition : Type := {
  rr_case_id : string;
  rr_merchant_id : string;
  rr_provider_event_id : string;
  rr_amount_paise : Z;
  rr_attribution : RevenueAttribution;
  rr_arrears_collected : bool;
  rr_subscription_reactivated : bool;
  rr_recognized_at : Z;
}.

(** src/services/api/app/domain/models.py:172-176 [RevenueRecognition.attribution_must_be_verified]:
    with the field constraint [gt=0] on the amount. *)
Definition attribution_must_be_verified (r : RevenueRecognition) : result RevenueRecognition :=
  _ ← raise_if (rr_amount_paise r <=? 0) (ValueError "amount_paise");
  _ ← raise_if (bool_decide (rr_attribution r = RevenueAttribution.NONE))
        (ValueError "revenue recognition cannot use NONE attribution");
  mret r.

(** ** What the validators guarantee *)

Lemma require_invoice_or_cycle_scope k k' :
  require_invoice_or_cycle k = Ok k' ->
  k' = k /\ exists s, or_str (key_failed_invoice_id k) (key_billing_cycle_key k) = Some s
                      /\ s <> "" /\ key_merchant_id k <> "".
Proof.
  destruct k as [m f b]. unfold require_invoice_or_cycle. intros H. simp_res. bools.
  split; [done|]. unfold or_str, truthy in *. cbn in *.
  destruct f, b; cbn in *; repeat case_bool_decide; cbn in *; naive_solver.
Qed.

(** The invariant a persisted case state satisfies. *)
Record case_state_wf (s : RecoveryCaseState) : Prop := {
  wf_window : dt_instant (cs_opened_at s) < dt_instant (cs_recovery_deadline s);
  wf_recovered_paid : cs_case_recovered s = true -> 0 < cs_arrears_collected_paise s;
  wf_outcome : cs_case_outcome s = CaseOutcome.RECOVERED -> cs_case_recovered s = true;
  wf_captured : cs_payment_state s = PaymentState.CAPTURED -> cs_arrears_collected_paise s <> 0;
  wf_attributed : 0 < cs_arrears_collected_paise s ->
                  cs_revenue_attribution s <> RevenueAttribution.NONE;
  wf_utc : dt_offset (cs_opened_at s) = Some 0 /\ dt_offset (cs_recovery_deadline s) = Some 0
           /\ forall d, cs_recovered_at s = Some d -> dt_offset d = Some 0;
}.

Lemma check_utc_Ok f d u : check_utc f d = Ok u <-> dt_offset d = Some 0.
Proof.
  unfold check_utc, is_aware. destruct d as [w [o|]], u; cbn.
  - rewrite raise_if_Ok, negb_false_iff, bool_decide_eq_true. done.
  - split; [done | congruence].
Qed.

(** The validator accepts exactly the well-formed states: a case cannot be
    RECOVERED, CAPTURED or attributed without collected arrears. *)
Lemma validate_state_iff s : is_ok (validate_state s) = true <-> case_state_wf s.
Proof.
  rewrite is_ok_true. unfold validate_state. split.
  - intros [s' H]. simp_res. bools. rename s' into s.
    assert (forall d, cs_recovered_at s = Some d -> dt_offset d = Some 0) as Hr.
    { intros d Hd. rewrite Hd in *. simp_res. by eapply check_utc_Ok. }
    repeat match goal with H : check_utc _ _ = Ok _ |- _ => apply check_utc_Ok in H end.
    split; try done; intros;
      repeat match goal with H : _ \/ _ |- _ => destruct H end; bools; try congruence; try lia.
  - intros []. exists s.
    destruct wf_utc0 as (Ho & Hd & Hr).
    check_ok; [by apply check_utc_Ok|]. check_ok; [by apply check_utc_Ok|].
    check_ok; [destruct (cs_recovered_at s); [apply check_utc_Ok; eauto | done]|].
    check_ok; [by apply Z.leb_gt|].
    check_ok; [destruct (cs_case_recovered s); cbn; [apply Z.leb_gt; auto | done]|].
    check_ok; [case_bool_decide; cbn; [apply negb_false_iff; auto | done]|].
    check_ok; [case_bool_decide; cbn; [apply Z.eqb_neq; auto | done]|].
    check_ok; [|done].
    destruct (0 <? cs_arrears_collected_paise s) eqn:Hp; cbn; [|done]. bools.
    apply bool_decide_eq_false. auto.
Qed.
