(* ===== verification/Json.v ===== *)
(** * JSON values

    The dictionaries the code receives from providers and stores as payloads.  An
    object is an association list in insertion order with distinct keys. *)
From S2P Require Import Prelude.

Inductive json : Type :=
| JNull
| JBool (b : bool)
| JInt (z : Z)
| JFloat (q : Q)
| JStr (s : string)
| JArr (l : list json)
| JObj (fields : list (string * json)).

(** [d.get(key)] on a dictionary, and on anything else after an
    [isinstance(_, dict)] test. *)
Fixpoint assoc_get (key : string) (fields : list (string * json)) : option json :=
  match fields with
  | [] => None
  | (k, v) :: rest => if bool_decide (k = key) then Some v else assoc_get key rest
  end.
Definition json_get (key : string) (v : json) : json :=
  match v with JObj fields => default JNull (assoc_get key fields) | _ => JNull end.

Definition is_dict (v : json) : bool := match v with JObj _ => true | _ => false end.

(** [{}] unless the value is a dictionary. *)
Definition as_dict (v : json) : json := if is_dict v then v else JObj [].

Definition opt_str (o : option string) : json :=
  match o with Some s => JStr s | None => JNull end.
Definition opt_int (o : option Z) : json :=
  match o with Some z => JInt z | None => JNull end.

(** [d[key]] *)
Definition json_item (key : string) (v : json) : result json :=
  match v with
  | JObj fields => from_option (KeyError key) (assoc_get key fields)
  | _ => Err (TypeError "object is not subscriptable")
  end.

(** [str(v)]; the text of a float or a container is left to [repr]. *)
Definition py_str (repr : json -> string) (v : json) : string :=
  match v with
  | JStr s => s
  | JInt z => str_of_Z z
  | JBool b => if b then "True" else "False"
  | JNull => "None"
  | JFloat _ | JArr _ | JObj _ => repr v
  end.

(** [d[key] = v]: in place, or at the end for a new key. *)
Fixpoint dict_set (key : string) (v : json) (fields : list (string * json))
  : list (string * json) :=
  match fields with
  | [] => [(key, v)]
  | (k, w) :: rest =>
      if bool_decide (k = key) then (k, v) :: rest else (k, w) :: dict_set key v rest
  end.
(** [{**a, **b}] *)
Definition dict_merge (a b : list (string * json)) : list (string * json) :=
  foldl (fun acc kv => dict_set kv.1 kv.2 acc) a b.

Lemma assoc_get_set key k v fields :
  assoc_get key (dict_set k v fields)
    = if bool_decide (k = key) then Some v else assoc_get key fields.
Proof.
  induction fields as [|[k' w] rest IH]; cbn.
  - by case_bool_decide.
  - destruct (decide (k' = k)) as [->|Hk].
    + rewrite (bool_decide_eq_true_2 (k = k)) by done. cbn. by repeat case_bool_decide.
    + rewrite (bool_decide_eq_false_2 (k' = k)) by done. cbn. rewrite IH.
      repeat case_bool_decide; congruence.
Qed.

Lemma assoc_get_merge_cons key a k v b :
  assoc_get key (dict_merge a ((k, v) :: b)) = assoc_get key (dict_merge (dict_set k v a) b).
Proof. done. Qed.
Lemma assoc_get_merge_nil key a : assoc_get key (dict_merge a []) = assoc_get key a.
Proof. done. Qed.

Lemma json_get_dict key v : is_dict v = false -> json_get key v = JNull.
Proof. by destruct v. Qed.
