(* ===== verification/JsonText.v ===== *)
(** * JSON text

    [json.dumps(v, sort_keys=True, separators=(",", ":"), ensure_ascii=False)] encoded as
    UTF-8: the canonical bytes that are signed, hashed and compared.  Text is kept as
    UTF-8, so the escapes are those of single bytes; the digits of a float are a
    parameter.  The text determines the value up to the order of object keys. *)
From S2P Require Import Prelude Json.

(** ** Printing *)

Definition dquote : ascii := ascii_of_N 34.

Definition hex_digit (n : N) : ascii :=
  ascii_of_N (if (n <? 10)%N then n + 48 else n + 87)%N.

(** The escapes of [json.encoder]: two characters, or a [u] escape of the other control
    characters. *)
Definition esc_char (c : ascii) : string :=
  let n := N_of_ascii c in
  if (n =? 34)%N then String "\" (String dquote EmptyString)
  else if (n =? 92)%N then "\\"
  else if (n =? 8)%N then "\b" else if (n =? 9)%N then "\t" else if (n =? 10)%N then "\n"
  else if (n =? 12)%N then "\f" else if (n =? 13)%N then "\r"
  else if (n <? 32)%N then
    "\u00" +++ String (hex_digit (n / 16)) (String (hex_digit (n mod 16)) EmptyString)
  else String c EmptyString.

Fixpoint esc (s : string) : string :=
  match s with EmptyString => EmptyString | String c s' => esc_char c +++ esc s' end.
Definition quoted (s : string) : string := String dquote (esc s +++ String dquote EmptyString).

(** The rest of a sequence of items, each after a comma, and a whole sequence. *)
Fixpoint more_items (l : list string) : string :=
  match l with [] => EmptyString | x :: l' => String "," (x +++ more_items l') end.
Definition items (l : list string) : string :=
  match l with [] => EmptyString | x :: l' => x +++ more_items l' end.

Definition member (kv : string * string) : string := quoted kv.1 +++ String ":" kv.2.

Section dumps.
Context (float_repr : Q -> string).

Fixpoint dumps (v : json) : string :=
  match v with
  | JNull => "null"
  | JBool b => if b then "true" else "false"
  | JInt z => str_of_Z z
  | JFloat q => float_repr q
  | JStr s => quoted s
  | JArr l => String "[" (items (map dumps l) +++ "]")
  | JObj fields =>
      String "{" (items (map member
        (sorted_on fst cmp_string (map (fun kv => (kv.1, dumps kv.2)) fields))) +++ "}")
  end.
End dumps.

(** ** Normal form

    Objects with their keys in order, at every depth. *)
Fixpoint sort_keys (v : json) : json :=
  match v with
  | JArr l => JArr (map sort_keys l)
  | JObj fields =>
      JObj (sorted_on fst cmp_string (map (fun kv => (kv.1, sort_keys kv.2)) fields))
  | _ => v
  end.

Fixpoint no_floats (v : json) : bool :=
  match v with
  | JFloat _ => false
  | JArr l => forallb no_floats l
  | JObj fields => forallb (fun kv => no_floats kv.2) fields
  | _ => true
  end.

(** Induction through the lists of an array and of an object. *)
Section json_induction.
Context (P : json -> Prop).
Hypothesis P_null : P JNull.
Hypothesis P_bool : forall b, P (JBool b).
Hypothesis P_int : forall z, P (JInt z).
Hypothesis P_float : forall q, P (JFloat q).
Hypothesis P_str : forall s, P (JStr s).
Hypothesis P_arr : forall l, Forall P l -> P (JArr l).
Hypothesis P_obj : forall fields, Forall (fun kv => P kv.2) fields -> P (JObj fields).

Fixpoint json_deep_ind (v : json) : P v :=
  match v with
  | JNull => P_null
  | JBool b => P_bool b
  | JInt z => P_int z
  | JFloat q => P_float q
  | JStr s => P_str s
  | JArr l => P_arr l ((fix go l := match l return Forall P l with
      | [] => Forall_nil_2 _ | x :: l' => Forall_cons_2 _ _ _ (json_deep_ind x) (go l') end) l)
  | JObj fields => P_obj fields ((fix go l := match l return Forall (fun kv => P kv.2) l with
      | [] => Forall_nil_2 _
      | kv :: l' => Forall_cons_2 _ _ _ (json_deep_ind kv.2) (go l') end) fields)
  end.
End json_induction.

(** ** Unique readability *)

Definition all_ascii : list ascii := map (fun n => ascii_of_N (N.of_nat n)) (seq 0 256).
Lemma elem_all_ascii c : In c all_ascii.
Proof.
  apply in_map_iff. exists (N.to_nat (N_of_ascii c)).
  rewrite N2Nat.id, ascii_N_embedding. split; [done|]. apply in_seq.
  pose proof (N_ascii_bounded c). lia.
Qed.
(** A property of characters, and of pairs of them, checked on each. *)
Lemma chars_forall (p : ascii -> bool) : forallb p all_ascii = true -> forall c, p c = true.
Proof. intros H c. rewrite forallb_forall in H. apply H, elem_all_ascii. Qed.

Lemma str_prefix_app p s r : (p +++ s)%string = r -> str_prefix p r = true.
Proof.
  intros <-. induction p as [|c p IH]; [done|].
  rewrite string_cons_app. cbn. by rewrite Ascii.eqb_refl.
Qed.
(** Of two prefixes of one text, one is a prefix of the other. *)
Lemma str_prefix_linear p q r r' :
  (p +++ r = q +++ r')%string -> str_prefix p q || str_prefix q p = true.
Proof.
  revert q. induction p as [|c p IH]; intros [|d q]; rewrite ?string_cons_app; try done.
  intros [= -> H]. cbn. rewrite Ascii.eqb_refl. cbn. by apply IH.
Qed.
Lemma string_app_inj p r r' : (p +++ r = p +++ r')%string -> r = r'.
Proof. induction p as [|c p IH]; [done|]. rewrite !string_cons_app. intros [= H]. auto. Qed.

Lemma esc_char_prefix c d r r' :
  (esc_char c +++ r = esc_char d +++ r')%string -> c = d /\ r = r'.
Proof.
  intros H. assert (c = d) as ->; [|eauto using string_app_inj].
  pose proof (chars_forall (fun c => forallb (fun d =>
    negb (str_prefix (esc_char c) (esc_char d) || str_prefix (esc_char d) (esc_char c))
    || Ascii.eqb c d) all_ascii) ltac:(by vm_compute) c) as Hc.
  cbn beta in Hc. rewrite forallb_forall in Hc.
  specialize (Hc d (elem_all_ascii d)). cbn beta in Hc.
  rewrite (str_prefix_linear _ _ _ _ H) in Hc. by apply Ascii.eqb_eq.
Qed.

Lemma esc_char_no_quote c r r' : (esc_char c +++ r)%string <> String dquote r'.
Proof.
  pose proof (chars_forall (fun c => match esc_char c with
    | String d _ => negb (Ascii.eqb d dquote) | EmptyString => false end)
    ltac:(by vm_compute) c) as Hc. cbn beta in Hc.
  destruct (esc_char c); [done|]. rewrite string_cons_app. intros [= -> _].
  by rewrite Ascii.eqb_refl in Hc.
Qed.

Lemma quoted_prefix s t r r' : (quoted s +++ r = quoted t +++ r')%string -> s = t /\ r = r'.
Proof.
  unfold quoted. rewrite !string_cons_app. intros [= H]. revert t H.
  induction s as [|c s IH]; intros [|d t]; cbn [esc]; autorewrite with text.
  - by intros [= ->].
  - intros H. by symmetry in H; apply esc_char_no_quote in H.
  - intros H. by apply esc_char_no_quote in H.
  - intros [-> H]%esc_char_prefix. destruct (IH t) as [-> ->]; [|done].
    by autorewrite with text.
Qed.

(** *** Integers *)

Definition is_digit (c : ascii) : bool :=
  let n := N_of_ascii c in (48 <=? n)%N && (n <=? 57)%N.
Definition int_char (c : ascii) : bool := is_digit c || Ascii.eqb c "-".

(** What follows a value in a text starts with no character of a number. *)
Definition ends_number (r : string) : bool :=
  match r with EmptyString => true | String c _ => negb (int_char c) end.

Lemma pretty_N_go_chars n s :
  all_chars int_char s = true -> all_chars int_char (pretty_N_go n s) = true.
Proof.
  revert s. induction (N.lt_wf_0 n) as [n _ IH]; intros s Hs.
  destruct (decide (n = 0)%N) as [->|]; [done|].
  rewrite pretty_N_go_step by lia. apply IH; [by apply N.div_lt; lia|].
  cbn [all_chars]. rewrite Hs, andb_true_r.
  unfold pretty_N_char. by repeat case_match.
Qed.
Lemma str_of_Z_chars z : all_chars int_char (str_of_Z z) = true.
Proof.
  assert (forall n : N, all_chars int_char (pretty n) = true) as HN.
  { intros n. unfold pretty, pretty_N. case_match; [done|]. by apply pretty_N_go_chars. }
  destruct z; cbn; [done|apply (HN (Npos _))|].
  apply (HN (Npos _)).
Qed.

Lemma pretty_N_go_nonempty n s : s <> EmptyString -> pretty_N_go n s <> EmptyString.
Proof.
  revert s. induction (N.lt_wf_0 n) as [n _ IH]; intros s Hs.
  destruct (decide (n = 0)%N) as [->|]; [done|].
  rewrite pretty_N_go_step by lia. apply IH; [by apply N.div_lt; lia|done].
Qed.
Lemma str_of_Z_nonempty z : str_of_Z z <> EmptyString.
Proof.
  assert (forall p, pretty (Npos p) <> EmptyString) as Hp.
  { intros p. unfold pretty, pretty_N. case_match; [done|].
    rewrite pretty_N_go_step by lia. by apply pretty_N_go_nonempty. }
  destruct z as [|p|p]; [done|apply Hp|done].
Qed.

Lemma chars_then_end p s t r r' :
  all_chars p s = true -> all_chars p t = true ->
  (match r with EmptyString => true | String c _ => negb (p c) end) = true ->
  (match r' with EmptyString => true | String c _ => negb (p c) end) = true ->
  (s +++ r = t +++ r')%string -> s = t /\ r = r'.
Proof.
  revert t. induction s as [|c s IH]; intros [|d t] Hs Ht Hr Hr';
    autorewrite with text; cbn in *.
  - done.
  - intros ->. bools. congruence.
  - intros <-. bools. congruence.
  - intros [= -> H]. bools. edestruct (IH t) as [-> ->]; done.
Qed.

Lemma int_prefix y z r r' : ends_number r = true -> ends_number r' = true ->
  (str_of_Z y +++ r = str_of_Z z +++ r')%string -> y = z /\ r = r'.
Proof.
  intros Hr Hr' H.
  eapply (chars_then_end int_char) in H as [H ->]; auto using str_of_Z_chars.
  split; [|done]. by apply (inj pretty).
Qed.

(** *** Sequences

    Texts of items that can be read one at a time: an item is known by [g] from its
    text, whatever follows. *)
Section sequences.
Context {A B : Type} (text : A -> string) (g : A -> B) (good : A -> bool) (close : ascii).
Hypothesis close_end : int_char close = false.
Hypothesis close_comma : close <> ","%char.

Definition readable (x : A) : Prop := forall y r r',
  good y = true -> ends_number r = true -> ends_number r' = true ->
  (text x +++ r = text y +++ r')%string -> g x = g y /\ r = r'.

Lemma more_items_end l r : ends_number (more_items l +++ String close r) = true.
Proof. destruct l; [|done]. unfold ends_number. cbn [more_items]. rewrite string_nil_app. by rewrite close_end. Qed.

Lemma more_items_read l l' r r' :
  Forall readable l -> forallb good l' = true ->
  (more_items (map text l) +++ String close r
    = more_items (map text l') +++ String close r')%string ->
  map g l = map g l' /\ r = r'.
Proof.
  intros Hl. revert l'. induction Hl as [|x l Hx _ IH]; intros [|y l'] Hg;
    cbn [map more_items]; autorewrite with text.
  - by intros [= ->].
  - intros [= Hc _]. by destruct close_comma.
  - intros [= Hc _]. by destruct close_comma.
  - cbn in Hg. bools. intros [= [Hxy Hr]%Hx]; auto using more_items_end.
    apply IH in Hr as [-> ->]; [|done]. by rewrite Hxy.
Qed.

Lemma items_read l l' r r' :
  Forall readable l -> forallb good l' = true ->
  (forall x s t, good x = true -> text x +++ s <> String close t)%string ->
  (forall x, x ∈ l -> good x = true) ->
  (items (map text l) +++ String close r = items (map text l') +++ String close r')%string ->
  map g l = map g l' /\ r = r'.
Proof.
  intros Hl Hg Hstart Hlg. destruct l as [|x l], l' as [|y l'];
    cbn [map items]; autorewrite with text.
  - by intros [= ->].
  - cbn in Hg. bools. intros He. symmetry in He. by apply Hstart in He.
  - intros He. apply Hstart in He; [done|]. apply Hlg. left.
  - cbn in Hg. bools. apply Forall_cons in Hl as [Hx Hl].
    intros [Hxy Hr]%Hx; auto using more_items_end.
    apply more_items_read in Hr as [Hm ->]; auto. by rewrite Hxy, Hm.
Qed.
End sequences.

(** *** Values *)

(** What the first character of a value's text says of its constructor. *)
Definition text_kind (s : string) : nat :=
  match s with
  | EmptyString => 0
  | String c _ =>
      if int_char c then 1 else if Ascii.eqb c "n" then 2 else if Ascii.eqb c "t" then 3
      else if Ascii.eqb c "f" then 4 else if Ascii.eqb c dquote then 5
      else if Ascii.eqb c "[" then 6 else if Ascii.eqb c "{" then 7 else 8
  end.
Definition json_kind (v : json) : nat :=
  match v with
  | JInt _ => 1 | JNull => 2 | JBool b => if b then 3 else 4 | JStr _ => 5
  | JArr _ => 6 | JObj _ => 7 | JFloat _ => 0
  end.

Lemma dumps_kind f v r : no_floats v = true -> text_kind (dumps f v +++ r) = json_kind v.
Proof.
  destruct v as [|[]|z| | | |]; cbn [dumps no_floats]; intros Hv; try done.
  pose proof (str_of_Z_chars z) as Hz. destruct (str_of_Z z) as [|c s] eqn:E.
  - by apply str_of_Z_nonempty in E.
  - rewrite string_cons_app. cbn in *. apply andb_true_iff in Hz as [Hc _]. by rewrite Hc.
Qed.

Lemma dumps_start f v r d t : no_floats v = true ->
  text_kind (String d EmptyString) = 8%nat \/ text_kind (String d EmptyString) = 0%nat ->
  (dumps f v +++ r)%string <> String d t.
Proof.
  intros Hv Hd H. pose proof (dumps_kind f v r Hv) as Hk. rewrite H in Hk.
  change (text_kind (String d t)) with (text_kind (String d EmptyString)) in Hk.
  rewrite Hk in Hd. by destruct v as [|[]| | | | |], Hd.
Qed.

Lemma insert_by_map {A B} (h : A -> B) leb leb' x l :
  (forall x y, leb' (h x) (h y) = leb x y) ->
  insert_by leb' (h x) (map h l) = map h (insert_by leb x l).
Proof.
  intros Hh. induction l as [|y l IH]; cbn; [done|]. rewrite Hh.
  destruct (leb x y); cbn; [done|]. by rewrite IH.
Qed.
Lemma sort_by_map {A B} (h : A -> B) leb leb' l :
  (forall x y, leb' (h x) (h y) = leb x y) -> sort_by leb' (map h l) = map h (sort_by leb l).
Proof.
  intros Hh. induction l as [|x l IH]; cbn; [done|]. rewrite IH. by apply insert_by_map.
Qed.

(** Sorting by key commutes with a change of the values. *)
Lemma sorted_members {A B} (h : A -> B) (l : list (string * A)) :
  sorted_on fst cmp_string (map (fun kv => (kv.1, h kv.2)) l)
    = map (fun kv => (kv.1, h kv.2)) (sorted_on fst cmp_string l).
Proof. by apply sort_by_map. Qed.

Lemma Forall_sorted {A B} (f : A -> B) cmp (P : A -> Prop) l : Forall P l -> Forall P (sorted_on f cmp l).
Proof. by rewrite sorted_on_perm. Qed.
Lemma forallb_Forall {A} (p : A -> bool) l : forallb p l = true <-> Forall (fun x => p x = true) l.
Proof. by rewrite forallb_forall, List.Forall_forall. Qed.

(** A value is known, up to the order of keys, from its text whatever follows. *)
Lemma dumps_readable f v : no_floats v = true -> readable (dumps f) sort_keys no_floats v.
Proof.
  unfold readable. induction v as [|b|z|q|s|l IH|fields IH] using json_deep_ind;
    intros Hv w r r' Hw Hr Hr' H;
    (assert (json_kind w = json_kind _) as Hk
      by (rewrite <- (dumps_kind f w r'), <- H by done; by apply dumps_kind));
    destruct w as [|b'|z'| |s'|l'|fields']; try (by destruct b); try (by destruct b');
    try discriminate Hk; try discriminate Hv; cbn [dumps sort_keys] in *.
  - by apply string_app_inj in H.
  - destruct b, b'; try discriminate Hk; by apply string_app_inj in H.
  - apply int_prefix in H as [-> ->]; done.
  - by apply quoted_prefix in H as [-> ->].
  - autorewrite with text in H. injection H as H.
    eapply (items_read (dumps f) sort_keys no_floats) in H as [-> ->]; try done.
    + rewrite Forall_forall in *. cbn in Hv. rewrite forallb_Forall, Forall_forall in Hv.
      intros x Hx. exact (IH x Hx (Hv x Hx)).
    + intros x s t Hx. apply dumps_start; auto.
    + cbn in Hv. rewrite forallb_Forall, Forall_forall in Hv. auto.
  - autorewrite with text in H. injection H as H. rewrite !sorted_members, !map_map in H.
    eapply (items_read (fun kv => member (kv.1, dumps f kv.2)) (fun kv => (kv.1, sort_keys kv.2))
      (fun kv => no_floats kv.2)) in H as [H ->]; try done.
    + by rewrite !sorted_members, H.
    + apply Forall_sorted. cbn in Hv. rewrite forallb_Forall in Hv.
      rewrite Forall_forall in *. intros [k v] Hx [k' v'] t t' Hg Ht Ht'. unfold member. cbn.
      autorewrite with text. intros [-> Hr1]%quoted_prefix. injection Hr1 as Hr1.
      apply (IH (k', v)) in Hr1 as [Hs ->]; auto.
      cbn in Hs |- *. by rewrite Hs.
    + cbn in Hw. rewrite forallb_Forall in *. by apply Forall_sorted.
    + cbn in Hv. intros x Hx. rewrite forallb_Forall, Forall_forall in Hv. apply Hv.
      by rewrite sorted_on_perm in Hx.
Qed.

(** Values with the same text are equal up to the order of keys. *)
Lemma dumps_inj f v w : no_floats v = true -> no_floats w = true ->
  dumps f v = dumps f w -> sort_keys v = sort_keys w.
Proof.
  intros Hv Hw H. apply (dumps_readable f v Hv w "" ""); [done..|]. by rewrite H.
Qed.

(** ** Equality

    [==] on JSON values: numbers by value, dictionaries whatever the order of keys. *)
Definition json_number (v : json) : option Q :=
  match v with
  | JInt z => Some (z # 1)%Q
  | JFloat q => Some q
  | JBool b => Some (if b then 1 else 0)%Q
  | _ => None
  end.
Fixpoint ordered_eqb (v w : json) : bool :=
  match v, w with
  | JNull, JNull => true
  | JStr s, JStr t => bool_decide (s = t)
  | JArr l, JArr m =>
      (fix go (l m : list json) : bool := match l, m with
        | [], [] => true | x :: l', y :: m' => ordered_eqb x y && go l' m' | _, _ => false end) l m
  | JObj l, JObj m =>
      (fix go (l m : list (string * json)) : bool := match l, m with
        | [], [] => true
        | (k, x) :: l', (k', y) :: m' => bool_decide (k = k') && ordered_eqb x y && go l' m'
        | _, _ => false end) l m
  | _, _ => match json_number v, json_number w with Some q, Some r => Qeq_bool q r | _, _ => false end
  end.
Definition json_eqb (v w : json) : bool := ordered_eqb (sort_keys v) (sort_keys w).

Lemma ordered_eqb_refl v : ordered_eqb v v = true.
Proof.
  induction v as [|b|z|q|s|l IH|fields IH] using json_deep_ind; cbn.
  - done.
  - by destruct b.
  - apply Qeq_bool_iff. reflexivity.
  - apply Qeq_bool_iff. reflexivity.
  - by apply bool_decide_eq_true_2.
  - induction IH as [|x l Hx _ IHl]; [done|]. by rewrite Hx, IHl.
  - induction IH as [|[k x] l Hx _ IHl]; [done|]. cbn in Hx.
    by rewrite bool_decide_eq_true_2, Hx, IHl.
Qed.
Lemma json_eqb_refl v : json_eqb v v = true.
Proof. apply ordered_eqb_refl. Qed.

(** [bool(v)] *)
Definition json_truthy (v : json) : bool :=
  match v with
  | JNull => false
  | JBool b => b
  | JInt z => negb (z =? 0)
  | JFloat q => negb (Qeq_bool q 0)
  | JStr s => negb (bool_decide (s = EmptyString))
  | JArr l => negb (bool_decide (length l = 0%nat))
  | JObj l => negb (bool_decide (length l = 0%nat))
  end.
(** [a or b] *)
Definition json_or (a b : json) : json := if json_truthy a then a else b.
(** [v[i]] *)
Definition json_index (i : nat) (v : json) : result json :=
  match v with
  | JArr l => from_option IndexError (l !! i)
  | _ => Err (TypeError "object is not subscriptable")
  end.

(** ** Percent encoding *)

(** [urllib.parse.quote(s, safe=safe)] *)
Definition quote_char (safe : list ascii) (c : ascii) : string :=
  let n := N_of_ascii c in
  if ((65 <=? n) && (n <=? 90) || (97 <=? n) && (n <=? 122) || (48 <=? n) && (n <=? 57)
      || (n =? 95) || (n =? 46) || (n =? 45) || (n =? 126))%N || mem c safe then String c EmptyString
  else String "%" (String (ascii_upper (hex_digit (n / 16))) (String (ascii_upper (hex_digit (n mod 16))) EmptyString)).
Fixpoint url_quote (safe : string) (s : string) : string :=
  match s with
  | EmptyString => EmptyString
  | String c s' => quote_char (String.list_ascii_of_string safe) c +++ url_quote safe s'
  end.
