(* ===== verification/QuietHours.v ===== *)
(** * Time zones and merchant quiet hours

    The wall-clock part of [services/api/app/safety/policy.py].  Python's
    [zoneinfo] is modelled by its own algorithm over a table of transitions; the
    tz database itself is data, an argument of every definition. *)
From S2P Require Import Prelude.

(** A zone: the offset before the first transition, and the transitions as pairs
    of a UTC instant and the offset from then on, in increasing order. *)
Record ZoneInfo : Type := {
  zi_base : Z;
  zi_transitions : list (Z * Z);
}.

Definition fixed_zone (off : Z) : ZoneInfo := {| zi_base := off; zi_transitions := [] |}.

(** [ZoneInfo.fromutc]: the offset in force at a UTC instant. *)
Fixpoint offset_after (off : Z) (ts : list (Z * Z)) (t : Z) : Z :=
  match ts with
  | [] => off
  | (u, o) :: ts' => if u <=? t then offset_after o ts' t else off
  end.
Definition utcoffset_at (z : ZoneInfo) (t : Z) : Z := offset_after (zi_base z) (zi_transitions z) t.

(** [ZoneInfo.utcoffset] of a wall time: a transition takes effect at the later
    (fold 0) or earlier (fold 1) of its two wall readings. *)
Fixpoint offset_wall (fold : bool) (off : Z) (ts : list (Z * Z)) (w : Z) : Z :=
  match ts with
  | [] => off
  | (u, o) :: ts' =>
      let boundary := u + (if fold then Z.min off o else Z.max off o) in
      if boundary <=? w then offset_wall fold o ts' w else off
  end.
Definition utcoffset_wall (z : ZoneInfo) (fold : bool) (w : Z) : Z :=
  offset_wall fold (zi_base z) (zi_transitions z) w.

(** [value.astimezone(zone)] as a wall reading, and [naive.replace(tzinfo=zone,
    fold=fold).astimezone(UTC)]. *)
Definition to_wall (z : ZoneInfo) (t : Z) : Z := t + utcoffset_at z t.
Definition from_wall (z : ZoneInfo) (fold : bool) (w : Z) : Z := w - utcoffset_wall z fold w.

(** src/services/api/app/safety/policy.py:101-103 [_require_aware] *)
Definition require_aware (field_name : string) (value : datetime) : result unit :=
  raise_if (negb (is_aware value)) (ValueError (field_name +++ " must be timezone-aware")).

(** src/services/api/app/safety/policy.py:125-132 [_valid_local_candidates]: the
    instants whose local reading is [naive], in increasing order. *)
Definition valid_local_candidates (naive : Z) (z : ZoneInfo) : list Z :=
  let candidate fold :=
    let c := from_wall z fold naive in
    if to_wall z c =? naive then [c] else [] in
  match candidate false, candidate true with
  | [a], [b] => if a =? b then [a] else if a <? b then [a; b] else [b; a]
  | l1, l2 => l1 ++ l2
  end.

(** The loop of [_resolve_quiet_end]: the first minute of [minutes] whose wall
    time exists, resolved to its latest instant. *)
Fixpoint first_resolved (naive : Z) (z : ZoneInfo) (minutes : list Z) : option Z :=
  match minutes with
  | [] => None
  | m :: rest =>
      match valid_local_candidates (naive + m * minute) z with
      | [] => first_resolved naive z rest
      | c :: cs => Some (foldl Z.max c cs)
      end
  end.

(** src/services/api/app/safety/policy.py:135-143 [_resolve_quiet_end] *)
Definition resolve_quiet_end (local_date end_ : Z) (z : ZoneInfo) : result Z :=
  let naive := local_date * day + end_ in
  from_option
    (ValueError "quiet-hours end could not be resolved within a three-hour DST window")
    (first_resolved naive z (seqZ 0 181)).

(** src/services/api/app/safety/policy.py:146-170 [quiet_hours_delay_until]: times
    of day are microseconds after midnight, dates are days. *)
Definition quiet_hours_delay_until (now : Z) (z : ZoneInfo) (start end_ : Z)
  : result (option Z) :=
  let local_now := to_wall z now in
  let local_time := local_now mod day in
  let local_date := local_now / day in
  if start <? end_ then
    if negb ((start <=? local_time) && (local_time <? end_)) then mret None
    else t ← resolve_quiet_end local_date end_ z; mret (Some t)
  else if start <=? local_time then
    t ← resolve_quiet_end (local_date + 1) end_ z; mret (Some t)
  else if local_time <? end_ then
    t ← resolve_quiet_end local_date end_ z; mret (Some t)
  else mret None.

(** ** Specification *)

(** The local time of day lies in the quiet interval, which may wrap midnight. *)
Definition in_quiet (start end_ local_time : Z) : bool :=
  if start <? end_ then (start <=? local_time) && (local_time <? end_)
  else (start <=? local_time) || (local_time <? end_).

(** The zone keeps offset [off] for the day that starts at [now], for instants
    and for wall readings of either fold. *)
Definition steady (z : ZoneInfo) (now off : Z) : Prop :=
  (forall t, now <= t <= now + day -> utcoffset_at z t = off) /\
  (forall fold w, now + off <= w <= now + off + day -> utcoffset_wall z fold w = off).

Lemma fixed_zone_steady off now : steady (fixed_zone off) now off.
Proof. by split. Qed.

Lemma candidates_sound naive z c :
  c ∈ valid_local_candidates naive z -> to_wall z c = naive.
Proof.
  unfold valid_local_candidates.
  destruct (to_wall z (from_wall z false naive) =? naive) eqn:E1;
    destruct (to_wall z (from_wall z true naive) =? naive) eqn:E2; cbn; intros H.
  - destruct (_ =? from_wall z true naive); [|destruct (_ <? _)]; bools; set_solver.
  - bools; set_solver.
  - bools; set_solver.
  - set_solver.
Qed.

Lemma candidates_complete naive z fold :
  to_wall z (from_wall z fold naive) = naive ->
  from_wall z fold naive ∈ valid_local_candidates naive z.
Proof.
  unfold valid_local_candidates. intros H.
  destruct (to_wall z (from_wall z false naive) =? naive) eqn:E1;
    destruct (to_wall z (from_wall z true naive) =? naive) eqn:E2; cbn; bools;
    destruct fold; try done; try set_solver.
  - destruct (_ =? _) eqn:E; [|destruct (_ <? _)]; bools; set_solver.
  - destruct (_ =? _) eqn:E; [|destruct (_ <? _)]; bools; set_solver.
Qed.

Lemma foldl_max_spec c cs :
  foldl Z.max c cs ∈ c :: cs /\ forall x, x ∈ c :: cs -> x <= foldl Z.max c cs.
Proof.
  revert c. induction cs as [|d cs IH]; intros c; cbn.
  - split; [set_solver|]. intros x ->%list_elem_of_singleton. lia.
  - destruct (IH (Z.max c d)) as [Hin Hle]. split.
    + destruct (Z.max_spec c d) as [[_ E]|[_ E]]; rewrite E in *; set_solver.
    + pose proof (Hle (Z.max c d) ltac:(left)).
      intros x [->|[->|Hx]%elem_of_cons]%elem_of_cons; try lia. apply Hle. by right.
Qed.

(** Resolution in any zone: the result reads as the requested wall time moved
    forward by the least number of minutes that makes it exist, and is the
    latest instant that does. *)
Lemma first_resolved_spec naive z ms t :
  first_resolved naive z ms = Some t ->
  exists m, m ∈ ms /\ to_wall z t = naive + m * minute /\
    forall fold, to_wall z (from_wall z fold (naive + m * minute)) = naive + m * minute ->
                 from_wall z fold (naive + m * minute) <= t.
Proof.
  induction ms as [|m ms IH]; cbn; [done|].
  destruct (valid_local_candidates _ z) as [|c cs] eqn:E; intros H.
  - destruct (IH H) as (m' & ? & ?). exists m'. split; [by right | done].
  - injection H as <-. destruct (foldl_max_spec c cs) as [Hin Hle]. exists m.
    split; [by left|]. rewrite <- E in *. split; [by apply candidates_sound|].
    intros fold Hf. apply Hle, candidates_complete, Hf.
Qed.

Lemma resolve_steady z now off d e :
  steady z now off ->
  now + off <= d * day + e <= now + off + day ->
  resolve_quiet_end d e z = Ok (d * day + e - off).
Proof.
  intros [Ht Hw] Hb. unfold resolve_quiet_end.
  change (seqZ 0 181) with (0 :: seqZ 1 180). cbn -[day seqZ]. rewrite Z.add_0_r.
  assert (forall fold, from_wall z fold (d * day + e) = d * day + e - off) as Hf.
  { intros fold. unfold from_wall. by rewrite Hw. }
  assert (to_wall z (d * day + e - off) = d * day + e) as Hc.
  { unfold to_wall. rewrite Ht; lia. }
  unfold valid_local_candidates. rewrite !Hf, Hc, Z.eqb_refl. by rewrite Z.eqb_refl.
Qed.

Lemma wall_bounds w : w / day * day <= w < w / day * day + day /\ w mod day = w - w / day * day.
Proof.
  pose proof (Z.div_mod w day ltac:(done)). pose proof (Z.mod_pos_bound w day ltac:(done)). lia.
Qed.

Lemma wall_mod w d r : w = d * day + r -> 0 <= r < day -> w mod day = r.
Proof. intros -> Hr. rewrite Z.add_comm, Z.mod_add by done. by apply Z.mod_small. Qed.

(** Where the offset is steady the end of the quiet interval is computed exactly. *)
Lemma quiet_hours_steady z now off start end_ :
  steady z now off -> 0 <= start < day -> 0 <= end_ < day ->
  let w := now + off in
  quiet_hours_delay_until now z start end_ =
    Ok (if in_quiet start end_ (w mod day)
        then Some (w / day * day + end_ - off
                   + (if w mod day <? end_ then 0 else day))
        else None).
Proof.
  intros Hz Hs He w. unfold quiet_hours_delay_until, in_quiet.
  assert (to_wall z now = w) as ->.
  { unfold to_wall. destruct Hz as [Ht _]. rewrite Ht; [done|]. pose proof day_pos. lia. }
  pose proof (wall_bounds w) as [Hb Hm].
  assert (w = now + off) as Hwn by done. clearbody w.
  destruct (start <? end_) eqn:E1; bools; cbn.
  - destruct (start <=? w mod day) eqn:E2; destruct (w mod day <? end_) eqn:E3; bools; cbn;
      try done.
    erewrite resolve_steady; [|done|lia]. cbn. repeat f_equal. lia.
  - destruct (start <=? w mod day) eqn:E2; cbn; bools.
    + erewrite resolve_steady; [|done|].
      * cbn. repeat f_equal. destruct (w mod day <? end_) eqn:E3; bools; [|lia].
        lia.
      * destruct (Z.eq_dec end_ start); lia.
    + destruct (w mod day <? end_) eqn:E3; bools; [|done].
      erewrite resolve_steady; [|done|lia]. cbn. repeat f_equal. lia.
Qed.

Lemma quiet_delay_future z now off start end_ :
  steady z now off -> 0 <= start < day -> 0 <= end_ < day -> start <> end_ ->
  exists r, quiet_hours_delay_until now z start end_ = Ok r /\
            forall t, r = Some t -> now < t <= now + day.
Proof.
  intros Hz Hs He Hne. rewrite (quiet_hours_steady z now off) by done.
  pose proof day_pos. pose proof (wall_bounds (now + off)) as [Hb Hm].
  remember (now + off) as w eqn:Hwn. remember (w / day) as d eqn:Hd.
  eexists; split; [reflexivity|]. unfold in_quiet.
  destruct (if start <? end_ then _ else _) eqn:Hq; [|done]. intros t [= <-].
  destruct (w mod day <? end_) eqn:E3; destruct (start <? end_); bools; try lia;
    destruct Hq; bools; lia.
Qed.

(** C2: quiet hours are exact away from a clock change: the delay is absent
    precisely outside the quiet interval; when present it is the first instant
    after [now] at which the local time is [end], at most a day away, and every
    instant before it is inside the quiet interval. *)
Theorem quiet_hours_exact z now off start end_ :
  steady z now off -> 0 <= start < day -> 0 <= end_ < day -> start <> end_ ->
  exists r, quiet_hours_delay_until now z start end_ = Ok r /\
  match r with
  | None => in_quiet start end_ (to_wall z now mod day) = false
  | Some t => now < t <= now + day /\ to_wall z t mod day = end_ /\
      in_quiet start end_ end_ = false /\
      forall t', now <= t' < t -> in_quiet start end_ (to_wall z t' mod day) = true
  end.
Proof.
  intros Hz Hs He Hne. rewrite (quiet_hours_steady z now off) by done.
  destruct Hz as [Ht _].
  assert (forall t, now <= t <= now + day -> to_wall z t = t + off) as Hw.
  { intros t ?. unfold to_wall. by rewrite Ht. }
  pose proof day_pos. rewrite !Hw by lia.
  pose proof (wall_bounds (now + off)) as [Hb Hm].
  remember (now + off) as w eqn:Hwn. remember (w / day) as d eqn:Hd.
  eexists; split; [done|]. unfold in_quiet at 1.
  destruct (if start <? end_ then _ else _) eqn:Hq; [|exact Hq].
  assert (now < d * day + end_ - off + (if w mod day <? end_ then 0 else day) <= now + day).
  { destruct (w mod day <? end_) eqn:E3; destruct (start <? end_); bools; try lia;
      destruct Hq; bools; lia. }
  split; [done|]. split; [|split].
  - rewrite Hw by lia. apply (wall_mod _ (d + if w mod day <? end_ then 0 else 1)); [|done].
    destruct (w mod day <? end_); ring.
  - unfold in_quiet. rewrite (Z.ltb_irrefl end_), andb_false_r, orb_false_r.
    destruct (start <? end_) eqn:E; bools; [done|]. apply Z.leb_gt. lia.
  - intros t' Ht'. rewrite Hw by lia. unfold in_quiet.
    destruct (Z.lt_ge_cases (t' + off) (d * day + day)) as [Hsame|Hnext].
    + rewrite (wall_mod (t' + off) d (t' + off - d * day)) by lia.
      destruct (w mod day <? end_) eqn:E3; destruct (start <? end_); bools;
        rewrite ?andb_true_iff, ?orb_true_iff, ?Z.leb_le, ?Z.ltb_lt in *; lia.
    + rewrite (wall_mod (t' + off) (d + 1) (t' + off - d * day - day)) by lia.
      destruct (w mod day <? end_) eqn:E3; destruct (start <? end_); bools;
        rewrite ?andb_true_iff, ?orb_true_iff, ?Z.leb_le, ?Z.ltb_lt in *; lia.
Qed.

(** 21:30 in a zone at UTC+05:30 that changed its offset long before: quiet from
    20:00 to 09:00. *)
Definition kolkata_like : ZoneInfo :=
  {| zi_base := 21208 * second;
     zi_transitions := [(-1000 * day, 19800 * second)] |}.

Lemma kolkata_like_steady : steady kolkata_like (16 * hour) (19800 * second).
Proof.
  split.
  - intros t Ht. unfold utcoffset_at, kolkata_like. cbn -[Z.leb Z.mul].
    rewrite (proj2 (Z.leb_le _ _)); [done|]. unfold day, hour, minute, second in *. lia.
  - intros fold w Hw. unfold utcoffset_wall, kolkata_like. cbn -[Z.leb Z.mul Z.add].
    rewrite (proj2 (Z.leb_le _ _)); [done|]. unfold day, hour, minute, second in *.
    destruct fold; lia.
Qed.

Lemma quiet_hours_exact_witness :
  exists r, quiet_hours_delay_until (16 * hour) kolkata_like (20 * hour) (9 * hour) = Ok r /\
  match r with
  | None => in_quiet (20 * hour) (9 * hour) (to_wall kolkata_like (16 * hour) mod day) = false
  | Some t => 16 * hour < t <= 16 * hour + day /\ to_wall kolkata_like t mod day = 9 * hour /\
      in_quiet (20 * hour) (9 * hour) (9 * hour) = false /\
      forall t', 16 * hour <= t' < t ->
        in_quiet (20 * hour) (9 * hour) (to_wall kolkata_like t' mod day) = true
  end.
Proof.
  apply (quiet_hours_exact kolkata_like (16 * hour) (19800 * second)).
  - exact kolkata_like_steady.
  - by split.
  - by split.
  - done.
Defined.

(** A spring-forward gap: 02:30 does not exist on the day the zone jumps from
    02:00 to 03:00, so a quiet interval that ends at 02:30 ends at 03:00. *)
Definition gap_zone : ZoneInfo :=
  {| zi_base := 0; zi_transitions := [(2 * hour, hour)] |}.
Example gap_quiet_end :
  quiet_hours_delay_until (1 * hour) gap_zone (0 * hour) (2 * hour + 30 * minute)
  = Ok (Some (2 * hour)).
Proof. vm_compute. reflexivity. Qed.

(** A fall-back overlap: 01:30 exists twice, and the later instant is chosen. *)
Definition overlap_zone : ZoneInfo :=
  {| zi_base := hour; zi_transitions := [(1 * hour, 0)] |}.
Example overlap_quiet_end :
  quiet_hours_delay_until 0 overlap_zone (30 * minute) (90 * minute)
  = Ok (Some (90 * minute)).
Proof. vm_compute. reflexivity. Qed.
