(* ===== verification/Safety.v ===== *)
(** * Safety policy

    [services/api/app/safety/reasons.py] and [safety/policy.py]: the strict
    precedence of kill switches, terminal states, customer suppression, deadlines,
    retries, contact limits, quiet hours and approval, and the older
    [services/policy.py] it replaced.  Instants are UTC microseconds; the tz
    database is the argument [tzdb]. *)
From S2P Require Import Prelude Domain QuietHours.

Module SafetyReasonCode.
(** src/services/api/app/safety/reasons.py:14-33 [SafetyReasonCode] *)
Inductive SafetyReasonCode : Set :=
  | GLOBAL_KILL_SWITCH_ENABLED | MERCHANT_KILL_SWITCH_ENABLED | CASE_TERMINAL
  | PAYMENT_ALREADY_CAPTURED | CUSTOMER_OPTED_OUT | WRONG_PERSON | CUSTOMER_DISPUTE
  | CUSTOMER_REPORTS_ALREADY_PAID | RECOVERY_WINDOW_EXPIRED | GATEWAY_RETRY_ACTIVE
  | WAIT_FOR_PROVIDER_RETRY | CONTACT_LIMIT_REACHED | QUIET_HOURS_ACTIVE
  | ACTION_REQUIRES_APPROVAL | AMOUNT_REQUIRES_APPROVAL | WITHIN_RECOVERY_WINDOW
  | NO_SUPPRESSION.
End SafetyReasonCode.
Abbreviation SafetyReasonCode := SafetyReasonCode.SafetyReasonCode.
#[export] Instance SafetyReasonCode_eq_dec : EqDecision SafetyReasonCode.
Proof. solve_decision. Defined.

(** src/services/api/app/safety/reasons.py:14-33 [SafetyReasonCode.value] *)
Definition SafetyReasonCode_value (c : SafetyReasonCode) : string :=
  match c with
  | SafetyReasonCode.GLOBAL_KILL_SWITCH_ENABLED => "GLOBAL_KILL_SWITCH_ENABLED"
  | SafetyReasonCode.MERCHANT_KILL_SWITCH_ENABLED => "MERCHANT_KILL_SWITCH_ENABLED"
  | SafetyReasonCode.CASE_TERMINAL => "CASE_TERMINAL"
  | SafetyReasonCode.PAYMENT_ALREADY_CAPTURED => "PAYMENT_ALREADY_CAPTURED"
  | SafetyReasonCode.CUSTOMER_OPTED_OUT => "CUSTOMER_OPTED_OUT"
  | SafetyReasonCode.WRONG_PERSON => "WRONG_PERSON"
  | SafetyReasonCode.CUSTOMER_DISPUTE => "CUSTOMER_DISPUTE"
  | SafetyReasonCode.CUSTOMER_REPORTS_ALREADY_PAID => "CUSTOMER_REPORTS_ALREADY_PAID"
  | SafetyReasonCode.RECOVERY_WINDOW_EXPIRED => "RECOVERY_WINDOW_EXPIRED"
  | SafetyReasonCode.GATEWAY_RETRY_ACTIVE => "GATEWAY_RETRY_ACTIVE"
  | SafetyReasonCode.WAIT_FOR_PROVIDER_RETRY => "WAIT_FOR_PROVIDER_RETRY"
  | SafetyReasonCode.CONTACT_LIMIT_REACHED => "CONTACT_LIMIT_REACHED"
  | SafetyReasonCode.QUIET_HOURS_ACTIVE => "QUIET_HOURS_ACTIVE"
  | SafetyReasonCode.ACTION_REQUIRES_APPROVAL => "ACTION_REQUIRES_APPROVAL"
  | SafetyReasonCode.AMOUNT_REQUIRES_APPROVAL => "AMOUNT_REQUIRES_APPROVAL"
  | SafetyReasonCode.WITHIN_RECOVERY_WINDOW => "WITHIN_RECOVERY_WINDOW"
  | SafetyReasonCode.NO_SUPPRESSION => "NO_SUPPRESSION"
  end.

(** src/services/api/app/safety/reasons.py:36-48 [SafetyReason] *)
Record SafetyReason : Type := {
  sr_code : SafetyReasonCode;
  sr_message : string;
  sr_field : option string;
}.

(** src/services/api/app/safety/reasons.py:51-59 [SafetyDecision] *)
Record SafetyDecision : Type := {
  sd_disposition : PolicyDisposition;
  sd_decision_code : SafetyReasonCode;
  sd_reasons : list SafetyReason;
  sd_policy_version : string;
  sd_delay_until : option Z;
}.

(** src/services/api/app/safety/reasons.py:61-68 [SafetyDecision.__post_init__] *)
Definition safety_decision_post_init (d : SafetyDecision) : result SafetyDecision :=
  match sd_reasons d with
  | [] => Err (ValueError "at least one safety reason is required")
  | r :: _ =>
      _ ← raise_if (negb (bool_decide (sr_code r = sd_decision_code d)))
            (ValueError "decision_code must match the first structured reason");
      _ ← raise_if (xorb (bool_decide (sd_disposition d = PolicyDisposition.DELAY))
                         (bool_decide (is_Some (sd_delay_until d))))
            (ValueError "delay_until is required only for DELAY decisions");
      mret d
  end.

(** src/services/api/app/safety/reasons.py:70-80 [SafetyDecision.to_contract] *)
Definition to_contract (d : SafetyDecision) : result PolicyDecision :=
  delay_requires_timestamp {|
    pd_disposition := sd_disposition d;
    pd_decision_code := SafetyReasonCode_value (sd_decision_code d);
    pd_reason_codes := map (fun r => SafetyReasonCode_value (sr_code r)) (sd_reasons d);
    pd_reasons := map sr_message (sd_reasons d);
    pd_policy_version := sd_policy_version d;
    pd_delay_until := sd_delay_until d;
  |}.

(** src/services/api/app/safety/policy.py:21-27 [_CUSTOMER_CONTACT_ACTIONS] *)
Definition CUSTOMER_CONTACT_ACTIONS : list RecoveryActionType :=
  [RecoveryActionType.OPEN_CUSTOMER_PAYMENT_SURFACE; RecoveryActionType.START_VOICE;
   RecoveryActionType.SEND_TO_CUSTOMER_AGENT].
(** src/services/api/app/safety/policy.py:28-30 [_OUTREACH_ACTIONS] *)
Definition OUTREACH_ACTIONS : list RecoveryActionType :=
  [RecoveryActionType.START_VOICE; RecoveryActionType.SEND_TO_CUSTOMER_AGENT].
(** src/services/api/app/safety/policy.py:31-33 [_TERMINAL_CONTROL_ACTIONS] *)
Definition TERMINAL_CONTROL_ACTIONS : list RecoveryActionType :=
  [RecoveryActionType.STOP; RecoveryActionType.ESCALATE_TO_HUMAN].

(** src/services/api/app/safety/policy.py:36-49 [SafetyPolicyConfig] *)
Record SafetyPolicyConfig : Type := {
  merchant_timezone : string;
  quiet_hours_start : option Z;
  quiet_hours_end : option Z;
  max_contacts_per_window : option Z;
  manual_approval_actions : list RecoveryActionType;
  manual_approval_above_paise : option Z;
  global_kill_switch : bool;
  merchant_kill_switch : bool;
  gateway_retry_delay : Z;
  policy_version : string;
}.

(** src/services/api/app/safety/policy.py:40-49 [SafetyPolicyConfig]: the field
    defaults. *)
Definition default_safety_config : SafetyPolicyConfig := {|
  merchant_timezone := "Asia/Kolkata";
  quiet_hours_start := Some (20 * hour);
  quiet_hours_end := Some (9 * hour);
  max_contacts_per_window := Some 3;
  manual_approval_actions := [];
  manual_approval_above_paise := Some 500000;
  global_kill_switch := false;
  merchant_kill_switch := false;
  gateway_retry_delay := 15 * minute;
  policy_version := "recovery-safety.v2";
|}.

(** src/services/api/app/safety/policy.py:68-83 [SafetyPolicyContext] *)
Record SafetyPolicyContext : Type := {
  ctx_now : Z;
  ctx_recovery_deadline : Z;
  ctx_case_outcome : CaseOutcome;
  ctx_payment_state : PaymentState;
  ctx_subscription_state : SubscriptionState;
  ctx_contact_disposition : ContactDisposition;
  ctx_action : RecoveryActionType;
  ctx_payment_surface_type : option PaymentSurfaceType;
  ctx_amount_at_risk_paise : Z;
  ctx_active_gateway_retries : bool;
  ctx_contact_attempts_in_window : Z;
  ctx_contact_limit_resets_at : option Z;
}.

(** src/services/api/app/safety/policy.py:85-98 [SafetyPolicyContext.__post_init__]:
    the three datetimes as given; the context keeps their instants. *)
Definition safety_context_post_init (now deadline : datetime) (resets_at : option datetime)
    (ctx : SafetyPolicyContext) : result SafetyPolicyContext :=
  _ ← require_aware "now" now;
  _ ← require_aware "recovery_deadline" deadline;
  _ ← match resets_at with
      | Some d => require_aware "contact_limit_resets_at" d
      | None => mret tt
      end;
  _ ← raise_if (ctx_amount_at_risk_paise ctx <? 0)
        (ValueError "amount_at_risk_paise must be a non-negative integer");
  _ ← raise_if (ctx_contact_attempts_in_window ctx <? 0)
        (ValueError "contact_attempts_in_window must be a non-negative integer");
  _ ← raise_if (negb (surface_matches (ctx_action ctx) (ctx_payment_surface_type ctx)))
        (ValueError "payment_surface_type is required only for OPEN_CUSTOMER_PAYMENT_SURFACE");
  mret {|
    ctx_now := dt_instant now;
    ctx_recovery_deadline := dt_instant deadline;
    ctx_case_outcome := ctx_case_outcome ctx;
    ctx_payment_state := ctx_payment_state ctx;
    ctx_subscription_state := ctx_subscription_state ctx;
    ctx_contact_disposition := ctx_contact_disposition ctx;
    ctx_action := ctx_action ctx;
    ctx_payment_surface_type := ctx_payment_surface_type ctx;
    ctx_amount_at_risk_paise := ctx_amount_at_risk_paise ctx;
    ctx_active_gateway_retries := ctx_active_gateway_retries ctx;
    ctx_contact_attempts_in_window := ctx_contact_attempts_in_window ctx;
    ctx_contact_limit_resets_at := dt_instant <$> resets_at;
  |}.

(** src/services/api/app/safety/policy.py:106-107 [_reason] *)
Definition reason_ (code : SafetyReasonCode) (message : string) (field : option string)
  : SafetyReason := {| sr_code := code; sr_message := message; sr_field := field |}.

(** src/services/api/app/safety/policy.py:110-122 [_decision]: the first reason is
    an argument of its own, the code indexes it. *)
Definition decision_ (config : SafetyPolicyConfig) (disposition : PolicyDisposition)
    (first : SafetyReason) (others : list SafetyReason) (delay_until : option Z)
  : result SafetyDecision :=
  safety_decision_post_init {|
    sd_disposition := disposition;
    sd_decision_code := sr_code first;
    sd_reasons := first :: others;
    sd_policy_version := policy_version config;
    sd_delay_until := delay_until;
  |}.

(** src/services/api/app/safety/policy.py:218-239 [suppression_reasons] *)
Definition suppression_reason (d : ContactDisposition) : option SafetyReason :=
  match d with
  | ContactDisposition.OPTED_OUT => Some (reason_ SafetyReasonCode.CUSTOMER_OPTED_OUT
      "Customer opted out; customer-facing recovery is suppressed." (Some "contact_disposition"))
  | ContactDisposition.WRONG_PERSON => Some (reason_ SafetyReasonCode.WRONG_PERSON
      "The contact is not the customer; customer-facing recovery is suppressed."
      (Some "contact_disposition"))
  | ContactDisposition.DISPUTE => Some (reason_ SafetyReasonCode.CUSTOMER_DISPUTE
      "The charge is disputed; automated customer-facing recovery is suppressed."
      (Some "contact_disposition"))
  | ContactDisposition.ALREADY_PAID => Some (reason_ SafetyReasonCode.CUSTOMER_REPORTS_ALREADY_PAID
      "Customer-reported payment requires reconciliation before further contact."
      (Some "contact_disposition"))
  | _ => None
  end.

Section Policy.
Context (tzdb : string -> option ZoneInfo).

(** src/services/api/app/safety/policy.py:51-65 [SafetyPolicyConfig.__post_init__] *)
Definition safety_config_post_init (c : SafetyPolicyConfig) : result SafetyPolicyConfig :=
  _ ← from_option (ValueError ("unknown IANA timezone: " +++ merchant_timezone c))
        (tzdb (merchant_timezone c));
  _ ← raise_if (xorb (bool_decide (quiet_hours_start c = None))
                     (bool_decide (quiet_hours_end c = None)))
        (ValueError "quiet-hours start and end must both be configured or both disabled");
  _ ← raise_if (bool_decide (quiet_hours_start c <> None)
                && bool_decide (quiet_hours_start c = quiet_hours_end c))
        (ValueError "quiet-hours start and end cannot be equal");
  _ ← raise_if (match max_contacts_per_window c with Some n => n <? 1 | None => false end)
        (ValueError "max_contacts_per_window must be positive or disabled");
  _ ← raise_if (match manual_approval_above_paise c with Some n => n <? 0 | None => false end)
        (ValueError "manual approval threshold cannot be negative");
  _ ← raise_if (gateway_retry_delay c <=? 0) (ValueError "gateway_retry_delay must be positive");
  mret c.

(** src/services/api/app/safety/policy.py:316-326 [evaluate_safety_policy]: the
    quiet-hours test of an outreach action, with the zone looked up by name. *)
Definition quiet_end_for (context : SafetyPolicyContext) (config : SafetyPolicyConfig)
  : result (option Z) :=
  match quiet_hours_start config, quiet_hours_end config with
  | Some start, Some end_ =>
      if mem (ctx_action context) OUTREACH_ACTIONS then
        z ← from_option (KeyError (merchant_timezone config)) (tzdb (merchant_timezone config));
        quiet_hours_delay_until (ctx_now context) z start end_
      else mret None
  | _, _ => mret None
  end.

(** src/services/api/app/safety/policy.py:349-369 [evaluate_safety_policy]: the
    accumulated approval reasons. *)
Definition approval_reasons (context : SafetyPolicyContext) (config : SafetyPolicyConfig)
  : list SafetyReason :=
  (if negb (mem (ctx_action context) TERMINAL_CONTROL_ACTIONS)
      && mem (ctx_action context) (manual_approval_actions config)
   then [reason_ SafetyReasonCode.ACTION_REQUIRES_APPROVAL
           "Merchant policy requires human approval for this action." (Some "action")]
   else []) ++
  (if mem (ctx_action context) CUSTOMER_CONTACT_ACTIONS
      && match manual_approval_above_paise config with
         | Some threshold => threshold <=? ctx_amount_at_risk_paise context
         | None => false
         end
   then [reason_ SafetyReasonCode.AMOUNT_REQUIRES_APPROVAL
           "The amount at risk meets the merchant's manual approval threshold."
           (Some "amount_at_risk_paise")]
   else []).

(** src/services/api/app/safety/policy.py:316-389 [evaluate_safety_policy]: from the
    quiet-hours rule on. *)
Definition evaluate_quiet_and_approval (context : SafetyPolicyContext)
    (config : SafetyPolicyConfig) : result SafetyDecision :=
  quiet_end ← quiet_end_for context config;
  match quiet_end with
  | Some t =>
      if t <? ctx_recovery_deadline context then
        decision_ config PolicyDisposition.DELAY
          (reason_ SafetyReasonCode.QUIET_HOURS_ACTIVE
             "Outreach is delayed until merchant-local quiet hours end."
             (Some "merchant_timezone")) [] (Some t)
      else
        decision_ config PolicyDisposition.BLOCK
          (reason_ SafetyReasonCode.QUIET_HOURS_ACTIVE
             "Quiet hours extend beyond the remaining recovery window."
             (Some "merchant_timezone")) [] None
  | None =>
      match approval_reasons context config with
      | r :: rs => decision_ config PolicyDisposition.REQUIRE_MANUAL_APPROVAL r rs None
      | [] =>
          decision_ config PolicyDisposition.ALLOW
            (reason_ SafetyReasonCode.WITHIN_RECOVERY_WINDOW
               "The case is within its configured recovery window." (Some "recovery_deadline"))
            [reason_ SafetyReasonCode.NO_SUPPRESSION
               "No higher-priority suppression applies to this action." None] None
      end
  end.

(** src/services/api/app/safety/policy.py:289-314 [evaluate_safety_policy]: the
    contact limit of an outreach action, then the remaining rules. *)
Definition evaluate_contact_limit (context : SafetyPolicyContext)
    (config : SafetyPolicyConfig) : result SafetyDecision :=
  if mem (ctx_action context) OUTREACH_ACTIONS
     && match max_contacts_per_window config with
        | Some n => n <=? ctx_contact_attempts_in_window context
        | None => false
        end
  then
    let blocked := decision_ config PolicyDisposition.BLOCK
      (reason_ SafetyReasonCode.CONTACT_LIMIT_REACHED
         "The contact limit is reached and no safe retry remains in the recovery window."
         (Some "contact_attempts_in_window")) [] None in
    match ctx_contact_limit_resets_at context with
    | Some reset_at =>
        if (ctx_now context <? reset_at) && (reset_at <? ctx_recovery_deadline context) then
          decision_ config PolicyDisposition.DELAY
            (reason_ SafetyReasonCode.CONTACT_LIMIT_REACHED
               "The contact limit is reached; outreach is delayed until the window resets."
               (Some "contact_attempts_in_window")) [] (Some reset_at)
        else blocked
    | None => blocked
    end
  else evaluate_quiet_and_approval context config.

(** src/services/api/app/safety/policy.py:173-314 [evaluate_safety_policy] *)
Definition evaluate_safety_policy (context : SafetyPolicyContext) (config : SafetyPolicyConfig)
  : result SafetyDecision :=
  let action := ctx_action context in
  let action_is_contact := mem action CUSTOMER_CONTACT_ACTIONS in
  let action_is_terminal_control := mem action TERMINAL_CONTROL_ACTIONS in
  let block r := decision_ config PolicyDisposition.BLOCK r [] None in
  let pending_retry := bool_decide (ctx_subscription_state context = SubscriptionState.PENDING)
                       && ctx_active_gateway_retries context in
  if global_kill_switch config && negb action_is_terminal_control then
    block (reason_ SafetyReasonCode.GLOBAL_KILL_SWITCH_ENABLED
             "All recovery execution is disabled by the platform kill switch." None)
  else if merchant_kill_switch config && negb action_is_terminal_control then
    block (reason_ SafetyReasonCode.MERCHANT_KILL_SWITCH_ENABLED
             "Recovery execution is disabled for this merchant." None)
  else if negb (bool_decide (ctx_case_outcome context = CaseOutcome.OPEN))
          && negb action_is_terminal_control then
    block (reason_ SafetyReasonCode.CASE_TERMINAL "The recovery case is already terminal." None)
  else if bool_decide (ctx_payment_state context = PaymentState.CAPTURED)
          && negb action_is_terminal_control then
    block (reason_ SafetyReasonCode.PAYMENT_ALREADY_CAPTURED
             "Authoritative payment state already shows captured funds." (Some "payment_state"))
  else
  match (if action_is_contact then suppression_reason (ctx_contact_disposition context) else None)
  with
  | Some suppression => block suppression
  | None =>
  if (ctx_recovery_deadline context <=? ctx_now context) && negb action_is_terminal_control then
    block (reason_ SafetyReasonCode.RECOVERY_WINDOW_EXPIRED
             "The configured recovery deadline has passed." (Some "recovery_deadline"))
  else if bool_decide (action = RecoveryActionType.OPEN_CUSTOMER_PAYMENT_SURFACE)
          && bool_decide (ctx_payment_surface_type context
                          = Some PaymentSurfaceType.STANDARD_PAYMENT_LINK)
          && pending_retry then
    block (reason_ SafetyReasonCode.GATEWAY_RETRY_ACTIVE
             "Standalone collection is blocked while subscription auto-retries are active."
             (Some "payment_surface_type"))
  else
  let delay_until := Z.min (ctx_now context + gateway_retry_delay config)
                           (ctx_recovery_deadline context) in
  if bool_decide (action = RecoveryActionType.WAIT_FOR_GATEWAY_RETRY) && pending_retry
     && (ctx_now context <? delay_until) then
    decision_ config PolicyDisposition.DELAY
      (reason_ SafetyReasonCode.WAIT_FOR_PROVIDER_RETRY
         "The payment provider owns the active pending-subscription retry."
         (Some "subscription_state")) [] (Some delay_until)
  else evaluate_contact_limit context config
  end.
End Policy.

(** ** Properties *)

Lemma decision_Ok config disp r rs du d :
  decision_ config disp r rs du = Ok d ->
  d = {| sd_disposition := disp; sd_decision_code := sr_code r; sd_reasons := r :: rs;
         sd_policy_version := policy_version config; sd_delay_until := du |} /\
  (disp = PolicyDisposition.DELAY <-> is_Some du).
Proof.
  unfold decision_, safety_decision_post_init. cbn. rewrite (bool_decide_true (sr_code r = sr_code r)) by done.
  intros H. simp_res. split; [done|].
  destruct disp, du; cbn in *; try done; split; try done; by intros [].
Qed.

(** [_decision] never trips the dataclass validation when the delay matches. *)
Lemma decision_ok config disp r rs du :
  (disp = PolicyDisposition.DELAY <-> is_Some du) ->
  is_ok (decision_ config disp r rs du) = true.
Proof.
  unfold decision_, safety_decision_post_init. cbn. rewrite (bool_decide_true (sr_code r = sr_code r)) by done. cbn.
  intros [H1 H2]. destruct disp, du; cbn; try done;
    try (destruct (H1 eq_refl) as [? ?]; done); by specialize (H2 (ltac:(eexists; done))).
Qed.

(** The facts every rule before approval establishes for an action that is not
    STOP or ESCALATE_TO_HUMAN. *)
Record cleared (context : SafetyPolicyContext) (config : SafetyPolicyConfig) : Prop := {
  cl_global : global_kill_switch config = false;
  cl_merchant : merchant_kill_switch config = false;
  cl_open : ctx_case_outcome context = CaseOutcome.OPEN;
  cl_uncaptured : ctx_payment_state context <> PaymentState.CAPTURED;
  cl_in_window : ctx_now context < ctx_recovery_deadline context;
  cl_contactable : ctx_action context ∈ CUSTOMER_CONTACT_ACTIONS ->
    ctx_contact_disposition context ∉
      [ContactDisposition.OPTED_OUT; ContactDisposition.WRONG_PERSON;
       ContactDisposition.DISPUTE; ContactDisposition.ALREADY_PAID];
  cl_link : ctx_payment_surface_type context = Some PaymentSurfaceType.STANDARD_PAYMENT_LINK ->
    ctx_action context = RecoveryActionType.OPEN_CUSTOMER_PAYMENT_SURFACE ->
    ctx_subscription_state context = SubscriptionState.PENDING ->
    ctx_active_gateway_retries context = false;
}.

(** What an ALLOW adds: nothing left to wait for and nothing left to approve. *)
Record unconditional tzdb (context : SafetyPolicyContext) (config : SafetyPolicyConfig) : Prop := {
  un_limit : forall n, ctx_action context ∈ OUTREACH_ACTIONS ->
    max_contacts_per_window config = Some n -> ctx_contact_attempts_in_window context < n;
  un_quiet : quiet_end_for tzdb context config = Ok None;
  un_action : ctx_action context ∉ manual_approval_actions config;
  un_amount : forall n, ctx_action context ∈ CUSTOMER_CONTACT_ACTIONS ->
    manual_approval_above_paise config = Some n -> ctx_amount_at_risk_paise context < n;
}.

Lemma approval_reasons_nil context config :
  ctx_action context ∉ TERMINAL_CONTROL_ACTIONS ->
  approval_reasons context config = [] ->
  ctx_action context ∉ manual_approval_actions config /\
  forall n, ctx_action context ∈ CUSTOMER_CONTACT_ACTIONS ->
    manual_approval_above_paise config = Some n -> ctx_amount_at_risk_paise context < n.
Proof.
  unfold approval_reasons. intros Hc. rewrite (proj2 (mem_false _ _) Hc). cbn.
  destruct (mem (ctx_action context) (manual_approval_actions config)) eqn:E1; cbn; [done|].
  apply mem_false in E1. intros H. split; [done|]. intros n Hm%mem_true Hn.
  rewrite Hm, Hn in H. cbn in H. destruct (n <=? _) eqn:E2; [done|]. by bools.
Qed.

(** Peel the rules off one at a time; every rule that fires blocks. *)
Ltac peel_rules H Hd :=
  repeat (match type of H with
    | (if ?b then decision_ _ _ _ _ _ else _) = Ok _ =>
        destruct b eqn:?; [apply decision_Ok in H; destruct H as [-> ?]; try by destruct Hd|]
    | match ?o with Some _ => decision_ _ _ _ _ _ | None => _ end = Ok _ =>
        destruct o eqn:?; [apply decision_Ok in H; destruct H as [-> ?]; try by destruct Hd|]
    end).

(** Reach the decisions at the leaves of a rule. *)
Ltac leaves H :=
  cbn zeta in H; repeat split_match_in H; apply decision_Ok in H as [-> ?].

Section Precedence.
Context (tzdb : string -> option ZoneInfo).

Lemma evaluate_cleared context config d :
  evaluate_safety_policy tzdb context config = Ok d ->
  sd_disposition d <> PolicyDisposition.BLOCK ->
  ctx_action context ∉ TERMINAL_CONTROL_ACTIONS ->
  cleared context config.
Proof.
  intros H Hd Hc. unfold evaluate_safety_policy in H.
  rewrite (proj2 (mem_false _ _) Hc) in H. cbn zeta in H. cbn [negb] in H.
  rewrite ?andb_true_r in H.
  destruct (global_kill_switch config) eqn:E1; [apply decision_Ok in H as [-> _]; done|].
  destruct (merchant_kill_switch config) eqn:E2; [apply decision_Ok in H as [-> _]; done|].
  destruct (negb _) eqn:E3; [apply decision_Ok in H as [-> _]; done|].
  destruct (bool_decide (ctx_payment_state _ = _)) eqn:E4;
    [apply decision_Ok in H as [-> _]; done|].
  destruct (if mem _ _ then _ else _) eqn:E5; [apply decision_Ok in H as [-> _]; done|].
  destruct (_ <=? ctx_now context) eqn:E6; [apply decision_Ok in H as [-> _]; done|].
  destruct (bool_decide (ctx_action context = _) && _ && _) eqn:E7;
    [apply decision_Ok in H as [-> _]; done|].
  clear H. bools. split; try done.
  - intros Ha%mem_true Hs. rewrite Ha in E5.
    repeat (apply elem_of_cons in Hs as [Hs|Hs]; [by rewrite Hs in E5|]).
    by apply not_elem_of_nil in Hs.
  - intros Hs Ha Hp. rewrite Hs, Ha, Hp in E7. cbn in E7. naive_solver.
Qed.

(** C1: no recovery action but STOP and ESCALATE_TO_HUMAN escapes a kill switch, a
    terminal case, captured funds, the deadline, customer suppression or an
    active gateway retry; and an outright ALLOW also means that the contact
    limit, the quiet hours, the manual-approval actions and the approval amount
    were all respected. *)
Theorem safety_allow_sound context config d :
  evaluate_safety_policy tzdb context config = Ok d ->
  ctx_action context ∉ TERMINAL_CONTROL_ACTIONS ->
  (sd_disposition d <> PolicyDisposition.BLOCK -> cleared context config) /\
  (sd_disposition d = PolicyDisposition.ALLOW -> unconditional tzdb context config).
Proof.
  intros H Hc. split; [intros; by eapply evaluate_cleared|]. intros Hd.
  assert (sd_disposition d <> PolicyDisposition.BLOCK) as Hnb by by rewrite Hd.
  unfold evaluate_safety_policy in H. cbn zeta in H.
  rewrite (proj2 (mem_false _ _) Hc) in H.
  peel_rules H Hnb. clear Hnb.
  unfold evaluate_contact_limit in H. destruct (mem _ OUTREACH_ACTIONS && _) eqn:E1.
  { leaves H; done. }
  unfold evaluate_quiet_and_approval in H. simp_res. destruct x as [t|]; [by leaves H0|].
  destruct (approval_reasons context config) eqn:E2; [|by leaves H0].
  apply approval_reasons_nil in E2 as [? ?]; [|done].
  split; try done. intros n Hm%mem_true Hn. rewrite Hm, Hn in E1. cbn in E1. by bools.
Qed.
End Precedence.

Lemma controls_allowed tzdb context config :
  ctx_action context ∈ TERMINAL_CONTROL_ACTIONS ->
  exists d, evaluate_safety_policy tzdb context config = Ok d /\
            sd_disposition d = PolicyDisposition.ALLOW.
Proof.
  intros Hc. unfold evaluate_safety_policy.
  assert (mem (ctx_action context) CUSTOMER_CONTACT_ACTIONS = false /\
          mem (ctx_action context) OUTREACH_ACTIONS = false /\
          ctx_action context <> RecoveryActionType.OPEN_CUSTOMER_PAYMENT_SURFACE /\
          ctx_action context <> RecoveryActionType.WAIT_FOR_GATEWAY_RETRY) as (H1 & H2 & H3 & H4).
  { unfold TERMINAL_CONTROL_ACTIONS in Hc.
    repeat (apply elem_of_cons in Hc as [->|Hc]; [done|]). by apply not_elem_of_nil in Hc. }
  pose proof (proj2 (mem_true _ _) Hc) as H0. cbn zeta. cbn [negb].
  rewrite H0, H1. cbn [negb]. rewrite !andb_false_r.
  rewrite (bool_decide_false _ H3), (bool_decide_false _ H4). cbn [andb].
  unfold evaluate_contact_limit. rewrite H2. cbn [andb].
  unfold evaluate_quiet_and_approval, quiet_end_for, approval_reasons.
  rewrite H0, H1, H2. cbn [andb negb].
  destruct (quiet_hours_start config), (quiet_hours_end config); eexists; split; done.
Qed.

(** STOP and ESCALATE_TO_HUMAN are allowed in every state and under every
    configuration, kill switches included. *)
Theorem safety_controls_available tzdb context config :
  ctx_action context ∈ TERMINAL_CONTROL_ACTIONS ->
  exists d, evaluate_safety_policy tzdb context config = Ok d /\
            sd_disposition d = PolicyDisposition.ALLOW.
Proof. apply controls_allowed. Qed.

(** The hypotheses under which quiet hours are computed: a validated
    configuration, times of day, and a zone without a clock change in the day
    that follows. *)
Record evaluable (tzdb : string -> option ZoneInfo) (context : SafetyPolicyContext)
    (config : SafetyPolicyConfig) : Prop := {
  ev_config : is_ok (safety_config_post_init tzdb config) = true;
  ev_times : forall t, quiet_hours_start config = Some t \/ quiet_hours_end config = Some t ->
               0 <= t < day;
  ev_steady : forall z, tzdb (merchant_timezone config) = Some z ->
               exists off, steady z (ctx_now context) off;
}.

Lemma quiet_end_for_ok tzdb context config :
  evaluable tzdb context config ->
  exists r, quiet_end_for tzdb context config = Ok r /\
            forall t, r = Some t -> ctx_now context < t.
Proof.
  intros [Hc Ht Hz]. apply is_ok_true in Hc as [c Hc]. unfold safety_config_post_init in Hc.
  simp_res. destruct (tzdb _) as [z|] eqn:Etz; [|done]. unfold quiet_end_for.
  destruct (Hz z) as [off Hoff]; [done|].
  destruct (quiet_hours_start c) as [s|] eqn:Es; [|by exists None].
  destruct (quiet_hours_end c) as [e|] eqn:Ee; [|by exists None].
  destruct (mem _ _); [|by exists None]. rewrite Etz. cbn.
  destruct (quiet_delay_future z (ctx_now context) off s e) as (r & Hr & Hspec);
    [done | apply Ht; auto | apply Ht; auto | intros ->|].
  { rewrite !bool_decide_true in H1; done. }
  exists r. split; [done|]. intros t ->. apply Hspec. done.
Qed.

Lemma policy_total tzdb context config :
  evaluable tzdb context config ->
  exists d, evaluate_safety_policy tzdb context config = Ok d /\
    is_ok (to_contract d) = true /\
    forall t, sd_delay_until d = Some t ->
      ctx_now context < t <= ctx_recovery_deadline context.
Proof.
  intros Hev. destruct (quiet_end_for_ok _ _ _ Hev) as (r & Hr & Hfuture).
  assert (forall disp rs0 rs du,
    (disp = PolicyDisposition.DELAY <-> is_Some du) ->
    (forall t, du = Some t -> ctx_now context < t <= ctx_recovery_deadline context) ->
    exists d, decision_ config disp rs0 rs du = Ok d /\ is_ok (to_contract d) = true /\
      forall t, sd_delay_until d = Some t ->
        ctx_now context < t <= ctx_recovery_deadline context) as leaf.
  { intros disp rs0 rs du Hdu Hb.
    pose proof (decision_ok config disp rs0 rs du Hdu) as Hok. apply is_ok_true in Hok as [d Hd].
    exists d. split; [done|]. apply decision_Ok in Hd as [-> _]. split; [|done].
    unfold to_contract, delay_requires_timestamp. cbn.
    destruct disp, du; cbn; try done; destruct Hdu as [H1 H2];
      try (destruct (H1 eq_refl); done); by specialize (H2 (ltac:(by eexists))). }
  unfold evaluate_safety_policy, evaluate_contact_limit, evaluate_quiet_and_approval.
  cbn zeta. rewrite Hr. cbn [mbind result_bind].
  repeat split_match; try (apply leaf; [by split; [|intros []]|done]);
    apply leaf; try (by split; [eexists|]); intros ? [= <-]; bools.
  all: try (destruct E7 as [? ?]); try lia.
  all: try (specialize (Hfuture _ eq_refl); lia).
Qed.

(** under a validated configuration the evaluation never raises, its decision
    satisfies the shared contract, and a delay lies strictly in the future and
    never beyond the recovery deadline. *)
Theorem safety_total_and_bounded tzdb context config :
  evaluable tzdb context config ->
  exists d, evaluate_safety_policy tzdb context config = Ok d /\
    is_ok (to_contract d) = true /\
    forall t, sd_delay_until d = Some t ->
      ctx_now context < t <= ctx_recovery_deadline context.
Proof. apply policy_total. Qed.

(** *** Concrete inputs *)

Definition demo_tzdb (name : string) : option ZoneInfo :=
  if bool_decide (name = "Asia/Kolkata") then Some (fixed_zone (19800 * second)) else None.

(** A voice call at noon UTC (17:30 local), five hours before the deadline. *)
Definition demo_context : SafetyPolicyContext := {|
  ctx_now := 12 * hour;
  ctx_recovery_deadline := 17 * hour;
  ctx_case_outcome := CaseOutcome.OPEN;
  ctx_payment_state := PaymentState.FAILED;
  ctx_subscription_state := SubscriptionState.PENDING;
  ctx_contact_disposition := ContactDisposition.NOT_CONTACTED;
  ctx_action := RecoveryActionType.START_VOICE;
  ctx_payment_surface_type := None;
  ctx_amount_at_risk_paise := 149900;
  ctx_active_gateway_retries := true;
  ctx_contact_attempts_in_window := 1;
  ctx_contact_limit_resets_at := None;
|}.

Definition demo_stop : SafetyPolicyContext := {|
  ctx_now := 12 * hour;
  ctx_recovery_deadline := 0;
  ctx_case_outcome := CaseOutcome.STOPPED;
  ctx_payment_state := PaymentState.CAPTURED;
  ctx_subscription_state := SubscriptionState.PENDING;
  ctx_contact_disposition := ContactDisposition.OPTED_OUT;
  ctx_action := RecoveryActionType.STOP;
  ctx_payment_surface_type := None;
  ctx_amount_at_risk_paise := 149900;
  ctx_active_gateway_retries := true;
  ctx_contact_attempts_in_window := 1;
  ctx_contact_limit_resets_at := None;
|}.

Definition demo_allow : SafetyDecision := {|
  sd_disposition := PolicyDisposition.ALLOW;
  sd_decision_code := SafetyReasonCode.WITHIN_RECOVERY_WINDOW;
  sd_reasons :=
    [reason_ SafetyReasonCode.WITHIN_RECOVERY_WINDOW
       "The case is within its configured recovery window." (Some "recovery_deadline");
     reason_ SafetyReasonCode.NO_SUPPRESSION
       "No higher-priority suppression applies to this action." None];
  sd_policy_version := "recovery-safety.v2";
  sd_delay_until := None;
|}.

Lemma demo_evaluates :
  evaluate_safety_policy demo_tzdb demo_context default_safety_config = Ok demo_allow.
Proof. vm_compute. reflexivity. Qed.

Lemma demo_evaluable : evaluable demo_tzdb demo_context default_safety_config.
Proof.
  split.
  - vm_compute. reflexivity.
  - intros t [[= <-]|[= <-]]; by split.
  - intros z [= <-]. eexists. apply fixed_zone_steady.
Qed.

Lemma safety_allow_sound_witness :
  (sd_disposition demo_allow <> PolicyDisposition.BLOCK ->
     cleared demo_context default_safety_config) /\
  (sd_disposition demo_allow = PolicyDisposition.ALLOW ->
     unconditional demo_tzdb demo_context default_safety_config).
Proof.
  apply (safety_allow_sound demo_tzdb demo_context default_safety_config demo_allow).
  - exact demo_evaluates.
  - apply mem_false. vm_compute. reflexivity.
Defined.

Lemma safety_controls_available_witness :
  exists d, evaluate_safety_policy demo_tzdb demo_stop default_safety_config = Ok d /\
            sd_disposition d = PolicyDisposition.ALLOW.
Proof.
  apply (safety_controls_available demo_tzdb demo_stop default_safety_config).
  apply mem_true. vm_compute. reflexivity.
Defined.

Lemma safety_total_and_bounded_witness :
  exists d, evaluate_safety_policy demo_tzdb demo_context default_safety_config = Ok d /\
    is_ok (to_contract d) = true /\
    forall t, sd_delay_until d = Some t ->
      ctx_now demo_context < t <= ctx_recovery_deadline demo_context.
Proof.
  apply (safety_total_and_bounded demo_tzdb demo_context default_safety_config).
  exact demo_evaluable.
Defined.

(** ** The earlier policy

    [services/api/app/services/policy.py], still exported next to the new one. *)

(** src/services/api/app/services/policy.py:20-33 [PolicyContext] *)
Record PolicyContext : Type := {
  pc_now : Z;
  pc_recovery_deadline : Z;
  pc_case_outcome : CaseOutcome;
  pc_payment_state : PaymentState;
  pc_subscription_state : SubscriptionState;
  pc_contact_disposition : ContactDisposition;
  pc_action : RecoveryActionType;
  pc_payment_surface_type : option PaymentSurfaceType;
  pc_amount_at_risk_paise : Z;
  pc_require_approval_above_paise : Z;
  pc_recovery_kill_switch : bool;
  pc_policy_version : string;
}.

(** src/services/api/app/services/policy.py:36-51 [_decision] *)
Definition policy_decision (context : PolicyContext) (disposition : PolicyDisposition)
    (code reason : string) (delay_until : option Z) : result PolicyDecision :=
  delay_requires_timestamp {|
    pd_disposition := disposition;
    pd_decision_code := code;
    pd_reason_codes := [code];
    pd_reasons := [reason];
    pd_policy_version := pc_policy_version context;
    pd_delay_until := delay_until;
  |}.

(** src/services/api/app/services/policy.py:78-86 [suppression_codes] *)
Definition suppression_code (d : ContactDisposition) : option (string * string) :=
  match d with
  | ContactDisposition.OPTED_OUT => Some ("CUSTOMER_OPTED_OUT", "Customer opted out of outreach.")
  | ContactDisposition.WRONG_PERSON => Some ("WRONG_PERSON", "The contact is not the customer.")
  | ContactDisposition.DISPUTE => Some ("CUSTOMER_DISPUTE", "The customer disputes the charge.")
  | ContactDisposition.ALREADY_PAID => Some ("CUSTOMER_REPORTS_ALREADY_PAID",
      "Customer-reported payment requires reconciliation before action.")
  | _ => None
  end.

(** src/services/api/app/services/policy.py:54-133 [evaluate_policy] *)
Definition evaluate_policy (context : PolicyContext) : result PolicyDecision :=
  let block code reason := policy_decision context PolicyDisposition.BLOCK code reason None in
  let pending := bool_decide (pc_subscription_state context = SubscriptionState.PENDING) in
  if pc_recovery_kill_switch context then
    block "RECOVERY_KILL_SWITCH_ENABLED"
      "Recovery actions are disabled by the operator kill switch."
  else if negb (bool_decide (pc_case_outcome context = CaseOutcome.OPEN)) then
    block "CASE_TERMINAL" "The recovery case is already terminal."
  else if bool_decide (pc_payment_state context = PaymentState.CAPTURED) then
    block "PAYMENT_ALREADY_CAPTURED" "Authoritative payment state already shows captured funds."
  else
  match suppression_code (pc_contact_disposition context) with
  | Some (code, reason) => block code reason
  | None =>
  if pc_recovery_deadline context <=? pc_now context then
    block "RECOVERY_WINDOW_EXPIRED" "The configured recovery deadline has passed."
  else if bool_decide (pc_action context = RecoveryActionType.OPEN_CUSTOMER_PAYMENT_SURFACE)
          && bool_decide (pc_payment_surface_type context
                          = Some PaymentSurfaceType.STANDARD_PAYMENT_LINK) && pending then
    block "GATEWAY_RETRY_ACTIVE"
      "Standalone collection is blocked while subscription gateway retries are active."
  else if bool_decide (pc_action context = RecoveryActionType.WAIT_FOR_GATEWAY_RETRY)
          && pending then
    policy_decision context PolicyDisposition.DELAY "WAIT_FOR_PROVIDER_RETRY"
      "Razorpay owns the retry for a pending subscription."
      (Some (Z.min (pc_now context + 15 * minute) (pc_recovery_deadline context)))
  else if pc_require_approval_above_paise context <=? pc_amount_at_risk_paise context then
    policy_decision context PolicyDisposition.REQUIRE_MANUAL_APPROVAL "AMOUNT_REQUIRES_APPROVAL"
      "The amount at risk meets the merchant's manual approval threshold." None
  else
    delay_requires_timestamp {|
      pd_disposition := PolicyDisposition.ALLOW;
      pd_decision_code := "POLICY_ALLOWED";
      pd_reason_codes := ["WITHIN_RECOVERY_WINDOW"; "NO_SUPPRESSION"];
      pd_reasons := ["Case is within its recovery window."; "Customer has no suppression."];
      pd_policy_version := pc_policy_version context;
      pd_delay_until := None;
    |}
  end.

(** The new inputs that stand for an old context: every pending subscription has
    an active retry, and the controls the old policy did not know are off. *)
Definition upgrade_context (c : PolicyContext) : SafetyPolicyContext := {|
  ctx_now := pc_now c;
  ctx_recovery_deadline := pc_recovery_deadline c;
  ctx_case_outcome := pc_case_outcome c;
  ctx_payment_state := pc_payment_state c;
  ctx_subscription_state := pc_subscription_state c;
  ctx_contact_disposition := pc_contact_disposition c;
  ctx_action := pc_action c;
  ctx_payment_surface_type := pc_payment_surface_type c;
  ctx_amount_at_risk_paise := pc_amount_at_risk_paise c;
  ctx_active_gateway_retries := true;
  ctx_contact_attempts_in_window := 0;
  ctx_contact_limit_resets_at := None;
|}.
Definition upgrade_config (c : PolicyContext) : SafetyPolicyConfig := {|
  merchant_timezone := "Asia/Kolkata";
  quiet_hours_start := None;
  quiet_hours_end := None;
  max_contacts_per_window := None;
  manual_approval_actions := [];
  manual_approval_above_paise := Some (pc_require_approval_above_paise c);
  global_kill_switch := pc_recovery_kill_switch c;
  merchant_kill_switch := false;
  gateway_retry_delay := 15 * minute;
  policy_version := pc_policy_version c;
|}.

Lemma suppression_agree d : suppression_reason d = None <-> suppression_code d = None.
Proof. by destruct d. Qed.

Lemma legacy_delay_ok context disp code reason du d :
  policy_decision context disp code reason du = Ok d ->
  pd_disposition d = disp /\ pd_delay_until d = du.
Proof. unfold policy_decision, delay_requires_timestamp. intros. by simp_res. Qed.

Ltac legacy_out H Hd := apply legacy_delay_ok in H as [H _]; rewrite H in Hd; by destruct Hd.

(** the new policy is an extension of the old one: whatever the old policy
    allowed or delayed, the new policy decides in the same way, with the same
    delay, once the controls it adds are switched off. *)
Theorem policy_upgrade_conservative tzdb c d :
  evaluate_policy c = Ok d ->
  pd_disposition d = PolicyDisposition.ALLOW \/ pd_disposition d = PolicyDisposition.DELAY ->
  exists d', evaluate_safety_policy tzdb (upgrade_context c) (upgrade_config c) = Ok d' /\
             sd_disposition d' = pd_disposition d /\ sd_delay_until d' = pd_delay_until d.
Proof.
  unfold evaluate_policy. intros H Hd.
  destruct (pc_recovery_kill_switch c) eqn:E1; [legacy_out H Hd|].
  destruct (negb _) eqn:E2; [legacy_out H Hd|].
  destruct (bool_decide (pc_payment_state c = _)) eqn:E3;
    [legacy_out H Hd|].
  destruct (suppression_code _) as [[]|] eqn:E4; [legacy_out H Hd|].
  destruct (_ <=? pc_now c) eqn:E5; [legacy_out H Hd|].
  destruct (bool_decide (pc_action c = _) && _ && _) eqn:E6;
    [legacy_out H Hd|].
  apply suppression_agree in E4.
  unfold evaluate_safety_policy. cbn -[mem Z.mul]. rewrite E1, E2, E3, E4, E5. cbn [andb].
  rewrite !andb_true_r.
  destruct (mem (pc_action c) CUSTOMER_CONTACT_ACTIONS) eqn:Ec; cbn [andb];
    rewrite E6; cbn [andb].
  all: destruct (bool_decide (pc_action c = RecoveryActionType.WAIT_FOR_GATEWAY_RETRY) && _)
         eqn:E7.
  1, 3: apply legacy_delay_ok in H as [-> ->]; bools;
    rewrite (proj2 (Z.ltb_lt _ _)) by (pose proof minute_pos; lia); cbn; eexists; split; done.
  all: cbn [andb]; destruct (_ <=? pc_amount_at_risk_paise c) eqn:E8;
    [legacy_out H Hd|].
  all: unfold delay_requires_timestamp in H; simp_res;
    unfold evaluate_contact_limit, evaluate_quiet_and_approval, approval_reasons; cbn -[mem];
    rewrite !andb_false_r; cbn -[mem]; rewrite Ec, ?E8; cbn;
    rewrite ?andb_false_r; cbn; eexists; split; done.
Qed.

Definition demo_old_context : PolicyContext := {|
  pc_now := 0; pc_recovery_deadline := hour; pc_case_outcome := CaseOutcome.OPEN;
  pc_payment_state := PaymentState.FAILED; pc_subscription_state := SubscriptionState.PENDING;
  pc_contact_disposition := ContactDisposition.NOT_CONTACTED;
  pc_action := RecoveryActionType.WAIT_FOR_GATEWAY_RETRY; pc_payment_surface_type := None;
  pc_amount_at_risk_paise := 100; pc_require_approval_above_paise := 500000;
  pc_recovery_kill_switch := false; pc_policy_version := "recovery-safety.v1";
|}.

Definition demo_old_decision : PolicyDecision := {|
  pd_disposition := PolicyDisposition.DELAY; pd_decision_code := "WAIT_FOR_PROVIDER_RETRY";
  pd_reason_codes := ["WAIT_FOR_PROVIDER_RETRY"];
  pd_reasons := ["Razorpay owns the retry for a pending subscription."];
  pd_policy_version := "recovery-safety.v1"; pd_delay_until := Some (15 * minute);
|}.

Lemma policy_upgrade_conservative_witness :
  exists d', evaluate_safety_policy demo_tzdb (upgrade_context demo_old_context)
               (upgrade_config demo_old_context) = Ok d' /\
    sd_disposition d' = pd_disposition demo_old_decision /\
    sd_delay_until d' = pd_delay_until demo_old_decision.
Proof.
  apply (policy_upgrade_conservative demo_tzdb demo_old_context demo_old_decision).
  - vm_compute. reflexivity.
  - right. reflexivity.
Defined.
