(* ===== verification/Breaker.v ===== *)
(** * Provider circuit breaker

    [services/api/app/reliability/circuit_breaker.py] and its registry
    [reliability/registry.py].  A method is a computation over the object's
    mutable fields; the injected clock is read by the caller and passed in. *)
From S2P Require Import Prelude.

Module CircuitState.
(** src/services/api/app/reliability/circuit_breaker.py:11-14 [CircuitState] *)
Inductive CircuitState : Set := CLOSED | OPEN | HALF_OPEN.
End CircuitState.
Abbreviation CircuitState := CircuitState.CircuitState.
#[export] Instance CircuitState_eq_dec : EqDecision CircuitState.
Proof. solve_decision. Defined.

Module FailureKind.
(** src/services/api/app/reliability/circuit_breaker.py:17-20 [FailureKind] *)
Inductive FailureKind : Set := RETRYABLE | PERMANENT | UNCERTAIN_SUBMISSION.
End FailureKind.
Abbreviation FailureKind := FailureKind.FailureKind.
#[export] Instance FailureKind_eq_dec : EqDecision FailureKind.
Proof. solve_decision. Defined.

(** src/services/api/app/reliability/circuit_breaker.py:23-34 [FallbackReason] *)
Record FallbackReason : Type := {
  fr_code : string;
  fr_provider : string;
  fr_operation : string;
  fr_state : CircuitState;
  fr_failure_count : Z;
  fr_retry_after_seconds : option Z;
  fr_requires_reconciliation : bool;
  fr_automatic_retry_permitted : bool;
}.

(** src/services/api/app/reliability/circuit_breaker.py:37-40 [BreakerDecision] *)
Record BreakerDecision : Type := {
  bd_allowed : bool;
  bd_reason : option FallbackReason;
}.

(** src/services/api/app/reliability/circuit_breaker.py:43-73 [CircuitBreaker]: the
    instance attributes. *)
Record CircuitBreaker : Type := {
  cb_provider : string;
  cb_operation : string;
  cb_failure_threshold : Z;
  cb_recovery_timeout : Z;
  cb_state : CircuitState;
  cb_failure_count : Z;
  cb_opened_at : option Z;
  cb_probe_in_flight : bool;
  cb_uncertain : bool;
}.

(** src/services/api/app/reliability/circuit_breaker.py:51-73 [CircuitBreaker.__init__] *)
Definition breaker_init (provider operation : string) (failure_threshold recovery_timeout : Z)
  : result CircuitBreaker :=
  _ ← raise_if (failure_threshold <? 1) (ValueError "failure_threshold must be positive");
  _ ← raise_if (recovery_timeout <=? 0) (ValueError "recovery_timeout must be positive");
  mret {|
    cb_provider := str_lower provider;
    cb_operation := str_lower operation;
    cb_failure_threshold := failure_threshold;
    cb_recovery_timeout := recovery_timeout;
    cb_state := CircuitState.CLOSED;
    cb_failure_count := 0;
    cb_opened_at := None;
    cb_probe_in_flight := false;
    cb_uncertain := false;
  |}.

(** Assignments to the mutable attributes. *)
Definition set_cb_state (s : CircuitState) (b : CircuitBreaker) : CircuitBreaker := {|
  cb_provider := cb_provider b; cb_operation := cb_operation b;
  cb_failure_threshold := cb_failure_threshold b; cb_recovery_timeout := cb_recovery_timeout b;
  cb_state := s; cb_failure_count := cb_failure_count b; cb_opened_at := cb_opened_at b;
  cb_probe_in_flight := cb_probe_in_flight b; cb_uncertain := cb_uncertain b |}.
Definition set_cb_count (n : Z) (b : CircuitBreaker) : CircuitBreaker := {|
  cb_provider := cb_provider b; cb_operation := cb_operation b;
  cb_failure_threshold := cb_failure_threshold b; cb_recovery_timeout := cb_recovery_timeout b;
  cb_state := cb_state b; cb_failure_count := n; cb_opened_at := cb_opened_at b;
  cb_probe_in_flight := cb_probe_in_flight b; cb_uncertain := cb_uncertain b |}.
Definition set_cb_opened_at (t : option Z) (b : CircuitBreaker) : CircuitBreaker := {|
  cb_provider := cb_provider b; cb_operation := cb_operation b;
  cb_failure_threshold := cb_failure_threshold b; cb_recovery_timeout := cb_recovery_timeout b;
  cb_state := cb_state b; cb_failure_count := cb_failure_count b; cb_opened_at := t;
  cb_probe_in_flight := cb_probe_in_flight b; cb_uncertain := cb_uncertain b |}.
Definition set_cb_probe (p : bool) (b : CircuitBreaker) : CircuitBreaker := {|
  cb_provider := cb_provider b; cb_operation := cb_operation b;
  cb_failure_threshold := cb_failure_threshold b; cb_recovery_timeout := cb_recovery_timeout b;
  cb_state := cb_state b; cb_failure_count := cb_failure_count b; cb_opened_at := cb_opened_at b;
  cb_probe_in_flight := p; cb_uncertain := cb_uncertain b |}.
Definition set_cb_uncertain (u : bool) (b : CircuitBreaker) : CircuitBreaker := {|
  cb_provider := cb_provider b; cb_operation := cb_operation b;
  cb_failure_threshold := cb_failure_threshold b; cb_recovery_timeout := cb_recovery_timeout b;
  cb_state := cb_state b; cb_failure_count := cb_failure_count b; cb_opened_at := cb_opened_at b;
  cb_probe_in_flight := cb_probe_in_flight b; cb_uncertain := u |}.

(** src/services/api/app/reliability/circuit_breaker.py:161-162 [CircuitBreaker._code] *)
Definition breaker_code (b : CircuitBreaker) (suffix : string) : string :=
  str_replace_char "-" "_"
    (str_upper (cb_provider b +++ "_" +++ cb_operation b +++ "_" +++ suffix)).

(** src/services/api/app/reliability/circuit_breaker.py:164-168 [CircuitBreaker._now] *)
Definition breaker_now (now : datetime) : result Z :=
  _ ← raise_if (negb (is_aware now))
        (ValueError "circuit-breaker clock must return a timezone-aware instant");
  mret (dt_instant now).

(** src/services/api/app/reliability/circuit_breaker.py:142-159 [CircuitBreaker._fallback_reason] *)
Definition fallback_reason (b : CircuitBreaker) (now : Z) : FallbackReason :=
  let uncertain := cb_uncertain b in
  {|
    fr_code := breaker_code b
      (if uncertain then "SUBMISSION_UNCERTAIN_RECONCILE_REQUIRED" else "CIRCUIT_OPEN");
    fr_provider := cb_provider b;
    fr_operation := cb_operation b;
    fr_state := cb_state b;
    fr_failure_count := cb_failure_count b;
    fr_retry_after_seconds :=
      match cb_opened_at b with
      | Some opened_at =>
          if uncertain then None
          else Some (Z.max 0 ((cb_recovery_timeout b - (now - opened_at)) ÷ second))
      | None => None
      end;
    fr_requires_reconciliation := uncertain;
    fr_automatic_retry_permitted := negb uncertain;
  |}.

(** src/services/api/app/reliability/circuit_breaker.py:138-140 [CircuitBreaker._open] *)
Definition breaker_open (now : Z) (b : CircuitBreaker) : CircuitBreaker :=
  set_cb_opened_at (Some now) (set_cb_state CircuitState.OPEN b).

(** src/services/api/app/reliability/circuit_breaker.py:77-81 [CircuitBreaker.before_call]:
    the expiry of the recovery timeout. *)
Definition half_open_if_due (now : Z) (b : CircuitBreaker) : CircuitBreaker :=
  if bool_decide (cb_state b = CircuitState.OPEN) && negb (cb_uncertain b) then
    match cb_opened_at b with
    | Some opened_at =>
        if cb_recovery_timeout b <=? now - opened_at
        then set_cb_probe false (set_cb_state CircuitState.HALF_OPEN b)
        else b
    | None => b
    end
  else b.

(** src/services/api/app/reliability/circuit_breaker.py:75-87 [CircuitBreaker.before_call] *)
Definition before_call (clock : datetime) : stx CircuitBreaker BreakerDecision :=
  now ← lift (breaker_now clock);
  _ ← modS (half_open_if_due now);
  b ← getS;
  if bool_decide (cb_state b = CircuitState.CLOSED) then
    mret {| bd_allowed := true; bd_reason := None |}
  else if bool_decide (cb_state b = CircuitState.HALF_OPEN) && negb (cb_probe_in_flight b) then
    _ ← modS (set_cb_probe true);
    mret {| bd_allowed := true; bd_reason := None |}
  else mret {| bd_allowed := false; bd_reason := Some (fallback_reason b now) |}.

(** src/services/api/app/reliability/circuit_breaker.py:89-94 [CircuitBreaker.record_success] *)
Definition record_success (b : CircuitBreaker) : CircuitBreaker :=
  set_cb_uncertain false (set_cb_probe false (set_cb_opened_at None
    (set_cb_count 0 (set_cb_state CircuitState.CLOSED b)))).

(** src/services/api/app/reliability/circuit_breaker.py:96-118 [CircuitBreaker.record_failure] *)
Definition record_failure (kind : FailureKind) (clock : datetime)
  : stx CircuitBreaker (option FallbackReason) :=
  now ← lift (breaker_now clock);
  _ ← modS (set_cb_probe false);
  b ← getS;
  if bool_decide (kind = FailureKind.PERMANENT) then
    mret (Some {|
      fr_code := breaker_code b "PERMANENT_REJECTION";
      fr_provider := cb_provider b;
      fr_operation := cb_operation b;
      fr_state := cb_state b;
      fr_failure_count := cb_failure_count b;
      fr_retry_after_seconds := None;
      fr_requires_reconciliation := false;
      fr_automatic_retry_permitted := false;
    |})
  else
    _ ← modS (set_cb_count (cb_failure_count b + 1));
    b ← getS;
    if bool_decide (kind = FailureKind.UNCERTAIN_SUBMISSION) then
      _ ← modS (set_cb_uncertain true);
      _ ← modS (breaker_open now);
      b ← getS;
      mret (Some (fallback_reason b now))
    else if bool_decide (cb_state b = CircuitState.HALF_OPEN)
            || (cb_failure_threshold b <=? cb_failure_count b) then
      _ ← modS (breaker_open now);
      b ← getS;
      mret (Some (fallback_reason b now))
    else mret None.

(** src/services/api/app/reliability/circuit_breaker.py:124-136 [CircuitBreaker.reconcile_uncertain] *)
Definition reconcile_uncertain (provider_confirmed_absent : bool) : stx CircuitBreaker unit :=
  b ← getS;
  _ ← guard_ (negb (cb_uncertain b))
        (RuntimeError "there is no uncertain submission to reconcile");
  if negb provider_confirmed_absent then modS record_success else modS record_success.

(** src/services/api/app/reliability/registry.py:25-48 [CircuitBreakerRegistry.get]: the
    registry owns the breakers; a caller holds the key of the shared object. *)
Definition registry_get (provider operation scope : string) (threshold timeout : Z)
  : stx (gmap (string * string * string) CircuitBreaker) (string * string * string) :=
  let key := (str_lower provider, str_lower operation, scope) in
  breakers ← getS;
  match breakers !! key with
  | Some _ => mret key
  | None =>
      b ← lift (breaker_init provider operation threshold timeout);
      _ ← modS (<[key := b]>);
      mret key
  end.

(** ** The abstract breaker *)

Inductive phase : Type :=
| Counting (failures : Z)
| Tripped (since : Z)
| Probing (busy : bool)
| Uncertain.

Inductive breaker_call : Type :=
| BeforeCall
| Success
| Failure (kind : FailureKind)
| Reconcile (provider_confirmed_absent : bool).

Definition no_uncertainty : exn := RuntimeError "there is no uncertain submission to reconcile".

(** What a breaker promises: after each call, the next phase, and for
    [before_call] whether the provider may be reached. *)
Definition phase_step (threshold timeout now : Z) (c : breaker_call) (p : phase)
  : phase * result bool :=
  match c, p with
  | BeforeCall, Counting n => (Counting n, Ok true)
  | BeforeCall, Tripped since =>
      if timeout <=? now - since then (Probing true, Ok true) else (Tripped since, Ok false)
  | BeforeCall, Probing busy => (Probing true, Ok (negb busy))
  | BeforeCall, Uncertain => (Uncertain, Ok false)
  | Success, _ => (Counting 0, Ok false)
  | Failure FailureKind.UNCERTAIN_SUBMISSION, _ => (Uncertain, Ok false)
  | Failure FailureKind.PERMANENT, Probing _ => (Probing false, Ok false)
  | Failure FailureKind.PERMANENT, _ => (p, Ok false)
  | Failure FailureKind.RETRYABLE, Counting n =>
      if threshold <=? n + 1 then (Tripped now, Ok false) else (Counting (n + 1), Ok false)
  | Failure FailureKind.RETRYABLE, Uncertain => (Uncertain, Ok false)
  | Failure FailureKind.RETRYABLE, _ => (Tripped now, Ok false)
  | Reconcile _, Uncertain => (Counting 0, Ok false)
  | Reconcile _, _ => (p, Err no_uncertainty)
  end.

(** The phase an object is in. *)
Definition phase_of (b : CircuitBreaker) : phase :=
  if cb_uncertain b then Uncertain
  else match cb_state b with
       | CircuitState.CLOSED => Counting (cb_failure_count b)
       | CircuitState.OPEN => Tripped (default 0 (cb_opened_at b))
       | CircuitState.HALF_OPEN => Probing (cb_probe_in_flight b)
       end.

Definition breaker_step (c : breaker_call) (now : Z) (b : CircuitBreaker) : result bool * CircuitBreaker :=
  match c with
  | BeforeCall => (d ← before_call (utc_datetime now); mret (bd_allowed d)) b
  | Success => (Ok false, record_success b)
  | Failure kind => (_ ← record_failure kind (utc_datetime now); mret false) b
  | Reconcile absent => (_ ← reconcile_uncertain absent; mret false) b
  end.

(** Well-formed objects: what every reachable breaker satisfies. *)
Record breaker_wf (b : CircuitBreaker) : Prop := {
  bw_threshold : 1 <= cb_failure_threshold b;
  bw_count : 0 <= cb_failure_count b;
  bw_closed : cb_state b = CircuitState.CLOSED ->
                cb_failure_count b < cb_failure_threshold b /\ cb_uncertain b = false;
  bw_open : cb_state b = CircuitState.OPEN -> is_Some (cb_opened_at b);
  bw_tripped : cb_state b <> CircuitState.CLOSED -> cb_uncertain b = false ->
                cb_failure_threshold b <= cb_failure_count b;
  bw_uncertain : cb_uncertain b = true -> cb_state b = CircuitState.OPEN;
}.

Lemma breaker_init_wf p o n t b : breaker_init p o n t = Ok b -> breaker_wf b.
Proof. unfold breaker_init. intros H. simp_res. bools. by split; cbn; try lia. Qed.

Ltac breaker_cases b :=
  destruct b as [bp bo bn bt bs bc bop bpr bu]; destruct bs, bu;
  match goal with H : breaker_wf _ |- _ => destruct H; cbn in * end;
  repeat match goal with
  | H : _ = _ -> _ |- _ => specialize (H eq_refl)
  | H : _ <> _ -> _ |- _ => specialize (H ltac:(done))
  | H : is_Some _ |- _ => destruct H; subst
  | H : _ /\ _ |- _ => destruct H
  end; try done.

Lemma breaker_now_utc t : breaker_now (utc_datetime t) = Ok t.
Proof. unfold breaker_now, dt_instant. cbn. by rewrite Z.sub_0_r. Qed.

Lemma breaker_step_refines c now b :
  breaker_wf b ->
  exists r b', breaker_step c now b = (r, b') /\ breaker_wf b' /\
    cb_failure_threshold b' = cb_failure_threshold b /\
    cb_recovery_timeout b' = cb_recovery_timeout b /\
    phase_step (cb_failure_threshold b) (cb_recovery_timeout b) now c (phase_of b)
      = (phase_of b', r).
Proof.
  intros Hwf. destruct c as [| |[]|[]]; breaker_cases b.
  all: unfold breaker_step, before_call, record_failure, reconcile_uncertain, half_open_if_due,
         breaker_code; stx_unfold; rewrite ?breaker_now_utc; cbn -[Z.add Z.leb]; decide_eqs.
  all: repeat (split_match; cbn -[Z.add Z.leb] in *; decide_eqs; bools; try done; try lia).
  all: do 2 eexists; (split; [reflexivity|]); (split; [|split; [done|split; [done|]]]);
       subst; try done.
  all: try (split; cbn; first [done | lia | intros; first [done|lia|congruence]]).
Qed.

(** A history of calls, each with the instant the clock showed. *)
Fixpoint breaker_run (calls : list (breaker_call * Z)) (b : CircuitBreaker)
  : list (result bool) * CircuitBreaker :=
  match calls with
  | [] => ([], b)
  | (c, now) :: rest =>
      let (r, b1) := breaker_step c now b in
      let (rs, b2) := breaker_run rest b1 in
      (r :: rs, b2)
  end.

Fixpoint phase_run (threshold timeout : Z) (calls : list (breaker_call * Z)) (p : phase)
  : list (result bool) * phase :=
  match calls with
  | [] => ([], p)
  | (c, now) :: rest =>
      let (p1, r) := phase_step threshold timeout now c p in
      let (rs, p2) := phase_run threshold timeout rest p1 in
      (r :: rs, p2)
  end.

Lemma breaker_run_refines calls b :
  breaker_wf b ->
  breaker_wf (breaker_run calls b).2 /\
  phase_run (cb_failure_threshold b) (cb_recovery_timeout b) calls (phase_of b)
    = ((breaker_run calls b).1, phase_of (breaker_run calls b).2).
Proof.
  revert b. induction calls as [|[c now] rest IH]; intros b Hwf; cbn; [done|].
  destruct (breaker_step_refines c now b Hwf) as (r & b1 & -> & Hwf1 & Ht & Hr & ->).
  specialize (IH b1 Hwf1). rewrite Ht, Hr in IH.
  destruct (breaker_run rest b1) as [rs b2]. cbn in *. by destruct IH as [? ->].
Qed.

(** C19: the breaker object implements the abstract breaker: from construction on,
    over any history of [before_call], [record_success], [record_failure] and
    [reconcile_uncertain] at any clock readings, the answers and the errors of the
    object are those of the four-phase specification, in which failures count up
    to the threshold, a trip holds the provider back for the recovery timeout, a
    single probe follows, and an uncertain submission blocks until it is
    reconciled; and its fields stay consistent. *)
Theorem breaker_refines_phases provider operation threshold timeout b calls :
  breaker_init provider operation threshold timeout = Ok b ->
  breaker_wf (breaker_run calls b).2 /\
  phase_run threshold timeout calls (Counting 0)
    = ((breaker_run calls b).1, phase_of (breaker_run calls b).2).
Proof.
  intros Hi. pose proof (breaker_init_wf _ _ _ _ _ Hi) as Hwf.
  destruct (breaker_run_refines calls b Hwf) as [? H2]. split; [done|].
  unfold breaker_init in Hi. simp_res. exact H2.
Qed.

Lemma breaker_refines_phases_witness :
  let calls := [(BeforeCall, 0); (Failure FailureKind.RETRYABLE, 1);
                (BeforeCall, 2); (Failure FailureKind.RETRYABLE, 3); (BeforeCall, 4);
                (BeforeCall, 103); (BeforeCall, 104);
                (Failure FailureKind.UNCERTAIN_SUBMISSION, 105); (BeforeCall, 900);
                (Reconcile true, 901); (BeforeCall, 902)] in
  exists b, breaker_init "Twilio" "place-call" 2 100 = Ok b /\
    (breaker_run calls b).1
      = [Ok true; Ok false; Ok true; Ok false; Ok false; Ok true; Ok false; Ok false;
         Ok false; Ok false; Ok true] /\
    phase_run 2 100 calls (Counting 0)
      = ((breaker_run calls b).1, phase_of (breaker_run calls b).2).
Proof.
  eexists. split; [reflexivity|]. split; [vm_compute; reflexivity|].
  exact (proj2 (breaker_refines_phases "Twilio" "place-call" 2 100 _ _ eq_refl)).
Defined.

(** A history in which the submission is not resolved. *)
Definition unresolved (c : breaker_call * Z) : bool :=
  match c.1 with Success | Reconcile _ => false | _ => true end.

Lemma uncertain_stays threshold timeout calls :
  forallb unresolved calls = true ->
  (phase_run threshold timeout calls Uncertain).2 = Uncertain /\
  Forall (fun r => r = Ok false) (phase_run threshold timeout calls Uncertain).1.
Proof.
  induction calls as [|[c now] rest IH]; cbn; [done|]. intros [Hc Hr]%andb_true_iff.
  destruct (IH Hr) as [IH1 IH2].
  destruct c as [| |[]|]; try done; cbn;
    destruct (phase_run _ _ rest Uncertain) eqn:E; cbn in *; auto.
Qed.

(** after a submission whose outcome is unknown, a breaker in any reachable
    state refuses every later call, whatever time passes and whatever further
    failures are recorded, until a success is recorded or the submission is
    reconciled: nothing re-sends it on a timer. *)
Theorem uncertain_submission_locks b now calls :
  breaker_wf b ->
  forallb unresolved calls = true ->
  let b' := (breaker_step (Failure FailureKind.UNCERTAIN_SUBMISSION) now b).2 in
  Forall (fun r => r = Ok false) (breaker_run calls b').1 /\
  fr_automatic_retry_permitted (fallback_reason (breaker_run calls b').2 now) = false.
Proof.
  intros Hwf Hc b'.
  destruct (breaker_step_refines (Failure FailureKind.UNCERTAIN_SUBMISSION) now b Hwf)
    as (r & b1 & E & Hwf1 & _ & _ & Hp). unfold b'. rewrite E. cbn in *.
  destruct (breaker_run_refines calls b1 Hwf1) as [Hwf2 H].
  assert (phase_of b1 = Uncertain) as Hu by (destruct (phase_of b); congruence).
  rewrite Hu in H. destruct (uncertain_stays (cb_failure_threshold b1) (cb_recovery_timeout b1)
    calls Hc) as [H2 H1]. rewrite H in H1, H2. cbn in *. split; [done|].
  unfold phase_of in H2. destruct (cb_uncertain _); [done|].
  by destruct (cb_state _).
Qed.

Lemma uncertain_submission_locks_witness :
  exists b, breaker_init "a" "b" 1 5 = Ok b /\
  let calls := [(BeforeCall, 10 * day); (Failure FailureKind.RETRYABLE, 11 * day);
                (BeforeCall, 12 * day)] in
  let b' := (breaker_step (Failure FailureKind.UNCERTAIN_SUBMISSION) 0 b).2 in
  Forall (fun r => r = Ok false) (breaker_run calls b').1.
Proof.
  eexists. split; [reflexivity|].
  refine (proj1 (uncertain_submission_locks _ 0 _ _ _)); [|reflexivity].
  exact (breaker_init_wf "a" "b" 1 5 _ eq_refl).
Defined.

(** How many calls of a history were let through. *)
Fixpoint allowed_count (rs : list (result bool)) : nat :=
  match rs with
  | [] => 0
  | Ok true :: rs' => S (allowed_count rs')
  | _ :: rs' => allowed_count rs'
  end.

Definition attempts (times : list Z) : list (breaker_call * Z) := map (pair BeforeCall) times.

Lemma probe_bound threshold timeout p times :
  match p with Counting _ => False | _ => True end ->
  (allowed_count (phase_run threshold timeout (attempts times) p).1
    <= match p with Probing true | Uncertain => 0 | _ => 1 end)%nat.
Proof.
  revert p. induction times as [|t times IH]; intros p Hp; cbn; [lia|].
  destruct p as [n|since|busy|]; [done|..]; cbn.
  - destruct (timeout <=? t - since);
      [specialize (IH (Probing true) I) | specialize (IH (Tripped since) I)];
      destruct (phase_run _ _ _ _) as [rs p2]; cbn in *; lia.
  - specialize (IH (Probing true) I). destruct (phase_run _ _ _ _) as [rs p2], busy; cbn in *; lia.
  - specialize (IH Uncertain I). destruct (phase_run _ _ _ _) as [rs p2]; cbn in *; lia.
Qed.

(** a breaker that is not closed lets at most one call through, however many
    are attempted at whatever times, until the outcome of that probe is recorded. *)
Theorem single_probe b times :
  breaker_wf b -> cb_state b <> CircuitState.CLOSED ->
  (allowed_count (breaker_run (attempts times) b).1 <= 1)%nat.
Proof.
  intros Hwf Hs. destruct (breaker_run_refines (attempts times) b Hwf)
    as [_ H].
  assert (match phase_of b with Counting _ => False | _ => True end) as Hp.
  { unfold phase_of. destruct (cb_uncertain b); [done|]. by destruct (cb_state b). }
  pose proof (probe_bound (cb_failure_threshold b) (cb_recovery_timeout b) _ times Hp) as B.
  rewrite H in B. cbn in B. etrans; [exact B|].
  destruct (phase_of b) as [| |[]|]; lia.
Qed.

Lemma single_probe_witness :
  exists b, breaker_init "a" "b" 1 5 = Ok b /\
  let b' := (breaker_step (Failure FailureKind.RETRYABLE) 0 b).2 in
  (breaker_run (attempts [1; 6; 7; 900]%Z) b').1
    = [Ok false; Ok true; Ok false; Ok false] /\
  (allowed_count (breaker_run (attempts [1; 6; 7; 900]%Z) b').1 <= 1)%nat.
Proof.
  eexists. split; [reflexivity|]. split; [vm_compute; reflexivity|].
  apply single_probe; [|done].
  destruct (breaker_step_refines (Failure FailureKind.RETRYABLE) 0 _
    (breaker_init_wf "a" "b" 1 5 _ eq_refl)) as (? & ? & E & Hwf & _).
  by rewrite E.
Defined.

(** ** What a client's calls do to its breaker *)

Lemma breaker_now_aware clock : is_aware clock = true -> breaker_now clock = Ok (dt_instant clock).
Proof. unfold breaker_now, raise_if. by intros ->. Qed.
Lemma aware_clock_steps clock b : is_aware clock = true ->
  before_call clock b = before_call (utc_datetime (dt_instant clock)) b /\
  forall kind, record_failure kind clock b = record_failure kind (utc_datetime (dt_instant clock)) b.
Proof.
  intros Ha. unfold before_call, record_failure. by rewrite breaker_now_aware, breaker_now_utc.
Qed.

Lemma before_call_keeps clock b r b' : is_aware clock = true -> breaker_wf b -> before_call clock b = (r, b') ->
  breaker_wf b' /\ cb_uncertain b' = cb_uncertain b /\
  exists d, r = Ok d /\ (bd_allowed d = true -> cb_uncertain b = false)
            /\ (bd_allowed d = false -> bd_reason d <> None).
Proof.
  intros Ha Hwf. rewrite (proj1 (aware_clock_steps clock b Ha)).
  destruct (breaker_step_refines BeforeCall (dt_instant clock) b Hwf) as (r0 & b0 & E & Hwf0 & _ & _ & Hp).
  unfold breaker_step in E. unfold mbind, stx_bind in E.
  destruct (before_call _ b) as [[d|e] b1] eqn:Eb; injection E as <- <-; intros [= <- <-].
  - split; [done|]. clear Hwf0. revert Eb Hp. unfold before_call, half_open_if_due. stx_unfold. rewrite breaker_now_utc.
    breaker_cases b; cbn -[Z.leb Z.sub]; decide_eqs; repeat (split_match; cbn -[Z.leb Z.sub] in *; decide_eqs);
      intros [= <- <-] _; (split; [done|]); eexists; (split; [done|]); by split.
  - exfalso. revert Eb. unfold before_call. stx_unfold. rewrite breaker_now_utc.
    repeat (split_match; cbn in * ); by intros [= ].
Qed.

Lemma failure_keeps kind clock b r b' : is_aware clock = true -> breaker_wf b ->
  record_failure kind clock b = (r, b') ->
  breaker_wf b' /\ is_ok r = true /\ (cb_uncertain b = true -> cb_uncertain b' = true) /\
  (kind = FailureKind.UNCERTAIN_SUBMISSION -> cb_uncertain b' = true).
Proof.
  intros Ha Hwf. rewrite (proj2 (aware_clock_steps clock b Ha)).
  destruct (breaker_step_refines (Failure kind) (dt_instant clock) b Hwf) as (r0 & b0 & E & Hwf0 & _ & _ & _).
  unfold breaker_step in E. unfold mbind, stx_bind in E.
  destruct (record_failure kind _ b) as [r1 b1] eqn:Eb. intros [= <- <-].
  assert (b1 = b0) as -> by (destruct r1; by injection E). split; [done|]. clear Hwf0 E.
  revert Eb. unfold record_failure. stx_unfold. rewrite breaker_now_utc.
  destruct kind, b as [bp bo bn bt bs bc bop bpr bu]; cbn; decide_eqs; cbn;
    repeat (split_match; cbn in * ); intros [= <- <-]; by split; [|split].
Qed.

(** ** Submissions repeated blindly

    A log of exchanges, some of which submit something and may leave its outcome open, and
    some of which resolve what is open. *)
Section open_submissions.
Context {E : Type} (submits leaves_open resolves : E -> bool).

(** A submission after one whose outcome is open, and nothing resolved in between. *)
Definition repeated_blindly (log : list E) : Prop :=
  exists before first between second after,
    log = before ++ first :: between ++ second :: after /\
    leaves_open first = true /\ submits second = true /\
    forallb (fun e => negb (resolves e)) between = true.

(** Whether a submission is open after an exchange; [None] once one was repeated blindly. *)
Definition note_exchange (open : option bool) (e : E) : option bool :=
  match open with
  | None => None
  | Some open =>
      if submits e then (if open then None else Some (leaves_open e))
      else if resolves e then Some false else Some open
  end.
Definition open_after (log : list E) : option bool := foldl note_exchange (Some false) log.

Lemma note_none log : foldl note_exchange None log = None.
Proof. by induction log. Qed.
Lemma open_after_snoc log e : open_after (log ++ [e]) = note_exchange (open_after log) e.
Proof. unfold open_after. by rewrite foldl_app. Qed.
Lemma open_stays between rest : forallb (fun e => negb (resolves e)) between = true ->
  foldl note_exchange (Some true) (between ++ rest) = None \/
  foldl note_exchange (Some true) (between ++ rest) = foldl note_exchange (Some true) rest.
Proof.
  induction between as [|e between IH]; cbn; [by right|]. intros [He Hb]%andb_true_iff.
  destruct (submits e); [left; apply note_none|]. apply negb_true_iff in He. rewrite He. auto.
Qed.
Lemma open_after_sound log open : (forall e, leaves_open e = true -> submits e = true) ->
  open_after log = Some open -> ~ repeated_blindly log.
Proof.
  intros Hl Ho (before & first & between & second & after & -> & Hf & Hs & Hb).
  unfold open_after in Ho. rewrite foldl_app in Ho. cbn in Ho. pose proof (Hl first Hf) as Hc.
  destruct (foldl _ _ before) as [[|]|]; cbn in Ho.
  - by rewrite Hc, note_none in Ho.
  - rewrite Hc, Hf in Ho. destruct (open_stays between (second :: after) Hb) as [Eq|Eq]; rewrite Eq in Ho; [done|].
    cbn in Ho. by rewrite Hs, note_none in Ho.
  - by rewrite note_none in Ho.
Qed.
End open_submissions.
#[global] Arguments open_after {E} submits leaves_open resolves log : simpl never.
