(* ===== verification/Projection.v ===== *)
(** * Delivery projections

    [reliability/payment_projection.py], the scenario generator that feeds it
    ([simulator/failure_scenarios.py]) and the voice callback projection
    ([reliability/voice_projection.py]): objects whose methods are run over a
    sequence of provider deliveries that may be duplicated or out of order. *)
From S2P Require Import Prelude Domain Json.

(** ** Simulated deliveries *)

(** src/services/api/app/simulator/failure_scenarios.py:22-44 [SimulatedDelivery] *)
Record SimulatedDelivery : Type := {
  sd_delivery_id : string;
  sd_provider_event_id : string;
  sd_event_type : string;
  sd_occurred_at : datetime;
  sd_delivered_at : datetime;
  sd_observed_payment_state : PaymentState;
  sd_authoritative_payment_state : PaymentState;
  sd_evidence_kind : EvidenceKind;
  sd_payload : json;
}.

(** ** Payment projection *)

(** src/services/api/app/reliability/payment_projection.py:12-18 [DeliveryEffect] *)
Record DeliveryEffect : Type := {
  de_provider_event_id : string;
  de_duplicate : bool;
  de_stale : bool;
  de_payment_state : PaymentState;
  de_revenue_recorded : bool;
}.

(** src/services/api/app/reliability/payment_projection.py:21-29 [PaymentEventProjection] *)
Record PaymentEventProjection : Type := {
  pp_payment_state : PaymentState;
  pp_arrears_collected_paise : Z;
  pp_latest_occurred_at : option datetime;
  pp_provider_event_ids : gset string;
  pp_recognized_payment_ids : gset string;
}.

(** src/services/api/app/reliability/payment_projection.py:21-29 [PaymentEventProjection.__init__]:
    the default field values. *)
Definition empty_projection : PaymentEventProjection := {|
  pp_payment_state := PaymentState.UNKNOWN;
  pp_arrears_collected_paise := 0;
  pp_latest_occurred_at := None;
  pp_provider_event_ids := ∅;
  pp_recognized_payment_ids := ∅;
|}.

Definition add_event_id (e : string) (p : PaymentEventProjection) : PaymentEventProjection := {|
  pp_payment_state := pp_payment_state p;
  pp_arrears_collected_paise := pp_arrears_collected_paise p;
  pp_latest_occurred_at := pp_latest_occurred_at p;
  pp_provider_event_ids := {[e]} ∪ pp_provider_event_ids p;
  pp_recognized_payment_ids := pp_recognized_payment_ids p |}.
Definition set_latest (t : datetime) (p : PaymentEventProjection) : PaymentEventProjection := {|
  pp_payment_state := pp_payment_state p;
  pp_arrears_collected_paise := pp_arrears_collected_paise p;
  pp_latest_occurred_at := Some t;
  pp_provider_event_ids := pp_provider_event_ids p;
  pp_recognized_payment_ids := pp_recognized_payment_ids p |}.
Definition set_payment_state (x : PaymentState) (p : PaymentEventProjection)
  : PaymentEventProjection := {|
  pp_payment_state := x;
  pp_arrears_collected_paise := pp_arrears_collected_paise p;
  pp_latest_occurred_at := pp_latest_occurred_at p;
  pp_provider_event_ids := pp_provider_event_ids p;
  pp_recognized_payment_ids := pp_recognized_payment_ids p |}.
Definition add_recognized (pid : string) (p : PaymentEventProjection)
  : PaymentEventProjection := {|
  pp_payment_state := pp_payment_state p;
  pp_arrears_collected_paise := pp_arrears_collected_paise p;
  pp_latest_occurred_at := pp_latest_occurred_at p;
  pp_provider_event_ids := pp_provider_event_ids p;
  pp_recognized_payment_ids := {[pid]} ∪ pp_recognized_payment_ids p |}.
Definition add_arrears (z : Z) (p : PaymentEventProjection) : PaymentEventProjection := {|
  pp_payment_state := pp_payment_state p;
  pp_arrears_collected_paise := pp_arrears_collected_paise p + z;
  pp_latest_occurred_at := pp_latest_occurred_at p;
  pp_provider_event_ids := pp_provider_event_ids p;
  pp_recognized_payment_ids := pp_recognized_payment_ids p |}.

Section payment_projection.
(** The text of a float or a container as a payment id. *)
Context (repr : json -> string).

(** src/services/api/app/reliability/payment_projection.py:41-45 [PaymentEventProjection.apply]:
    staleness against the latest instant applied. *)
Definition note_instant (occurred_at : datetime) : stx PaymentEventProjection bool :=
  p ← getS;
  stale ← lift (match pp_latest_occurred_at p with
                | Some latest => dt_lt occurred_at latest
                | None => mret false
                end);
  if (stale : bool) then mret stale
  else _ ← modS (set_latest occurred_at); mret stale.

(** src/services/api/app/reliability/payment_projection.py:51-62 [PaymentEventProjection.apply]:
    recognition of a captured payment. *)
Definition recognize (d : SimulatedDelivery) (payment_id : string)
  : stx PaymentEventProjection bool :=
  p ← getS;
  if bool_decide (sd_authoritative_payment_state d = PaymentState.CAPTURED)
     && negb (bool_decide (payment_id ∈ pp_recognized_payment_ids p)) then
    _ ← modS (add_recognized payment_id);
    amount ← lift (json_item "amount_paise" (sd_payload d));
    match amount with
    | JInt amount_paise => _ ← modS (add_arrears amount_paise); mret true
    | _ => raise (TypeError "amount_paise must be an integer")
    end
  else mret false.

(** src/services/api/app/reliability/payment_projection.py:31-69 [PaymentEventProjection.apply] *)
Definition projection_apply (d : SimulatedDelivery) : stx PaymentEventProjection DeliveryEffect :=
  p ← getS;
  if bool_decide (sd_provider_event_id d ∈ pp_provider_event_ids p) then
    mret {| de_provider_event_id := sd_provider_event_id d; de_duplicate := true;
            de_stale := false; de_payment_state := pp_payment_state p;
            de_revenue_recorded := false |}
  else
    _ ← modS (add_event_id (sd_provider_event_id d));
    stale ← note_instant (sd_occurred_at d);
    let authoritative := sd_authoritative_payment_state d in
    _ ← modS (fun p =>
          if negb (bool_decide (pp_payment_state p = PaymentState.CAPTURED))
             || bool_decide (authoritative = PaymentState.CAPTURED)
          then set_payment_state authoritative p else p);
    pid ← lift (json_item "payment_id" (sd_payload d));
    revenue_recorded ← recognize d (py_str repr pid);
    p ← getS;
    mret {| de_provider_event_id := sd_provider_event_id d; de_duplicate := false;
            de_stale := stale; de_payment_state := pp_payment_state p;
            de_revenue_recorded := revenue_recorded |}.

(** src/services/api/app/reliability/payment_projection.py:71-73 [PaymentEventProjection.revenue_entries] *)
Definition revenue_entries (p : PaymentEventProjection) : Z :=
  Z.of_nat (size (pp_recognized_payment_ids p)).

(** Deliveries applied one after the other; an exception does not stop the feed. *)
Fixpoint projection_run (ds : list SimulatedDelivery) (p : PaymentEventProjection)
  : list (result DeliveryEffect) * PaymentEventProjection :=
  match ds with
  | [] => ([], p)
  | d :: rest =>
      let (r, p1) := projection_apply d p in
      let (rs, p2) := projection_run rest p1 in
      (r :: rs, p2)
  end.

End payment_projection.

(** ** Failure scenarios *)

Module FailureScenario.
(** src/services/api/app/simulator/failure_scenarios.py:15-19 [FailureScenario] *)
Inductive FailureScenario : Set :=
  | DUPLICATE_WEBHOOK | OUT_OF_ORDER_WEBHOOK | LATE_SUCCESS
  | CHANGED_AUTHORITATIVE_PAYMENT_STATE.
End FailureScenario.
Abbreviation FailureScenario := FailureScenario.FailureScenario.
#[export] Instance FailureScenario_eq_dec : EqDecision FailureScenario.
Proof. solve_decision. Defined.
(** src/services/api/app/simulator/failure_scenarios.py:15-19 [FailureScenario.value] *)
Definition FailureScenario_value (x : FailureScenario) : string :=
  match x with
  | FailureScenario.DUPLICATE_WEBHOOK => "DUPLICATE_WEBHOOK"
  | FailureScenario.OUT_OF_ORDER_WEBHOOK => "OUT_OF_ORDER_WEBHOOK"
  | FailureScenario.LATE_SUCCESS => "LATE_SUCCESS"
  | FailureScenario.CHANGED_AUTHORITATIVE_PAYMENT_STATE => "CHANGED_AUTHORITATIVE_PAYMENT_STATE"
  end.

(** src/services/api/app/simulator/failure_scenarios.py:48-57 [SimulationCase] *)
Record SimulationCase : Type := {
  sc_scenario : FailureScenario;
  sc_seed : Z;
  sc_case_id : string;
  sc_payment_id : string;
  sc_amount_paise : Z;
  sc_deliveries : list SimulatedDelivery;
  sc_expected_final_payment_state : PaymentState;
  sc_expected_revenue_entries : Z;
}.

Section failure_scenarios.
(** [uuid5(NAMESPACE_URL, name).hex], [Random(seed).randrange(a, b)] and
    [datetime.isoformat], all of the standard library. *)
Context (uuid5_hex : string -> string) (randrange : Z -> Z -> Z -> Z)
        (isoformat : datetime -> string).

(** src/services/api/app/simulator/failure_scenarios.py:34-45 [SimulatedDelivery.to_api_dict] *)
Definition delivery_to_api_dict (d : SimulatedDelivery) : json := JObj [
  ("delivery_id", JStr (sd_delivery_id d));
  ("provider_event_id", JStr (sd_provider_event_id d));
  ("event_type", JStr (sd_event_type d));
  ("occurred_at", JStr (isoformat (sd_occurred_at d)));
  ("delivered_at", JStr (isoformat (sd_delivered_at d)));
  ("observed_payment_state", JStr (PaymentState_value (sd_observed_payment_state d)));
  ("authoritative_payment_state", JStr (PaymentState_value (sd_authoritative_payment_state d)));
  ("evidence_kind", JStr (EvidenceKind_value (sd_evidence_kind d)));
  ("payload", sd_payload d)].

(** src/services/api/app/simulator/failure_scenarios.py:59-69 [SimulationCase.to_api_dict] *)
Definition case_to_api_dict (c : SimulationCase) : json := JObj [
  ("scenario", JStr (FailureScenario_value (sc_scenario c)));
  ("seed", JInt (sc_seed c));
  ("case_id", JStr (sc_case_id c));
  ("payment_id", JStr (sc_payment_id c));
  ("amount_paise", JInt (sc_amount_paise c));
  ("deliveries", JArr (map delivery_to_api_dict (sc_deliveries c)));
  ("expected_final_payment_state",
     JStr (PaymentState_value (sc_expected_final_payment_state c)));
  ("expected_revenue_entries", JInt (sc_expected_revenue_entries c))].

(** src/services/api/app/simulator/failure_scenarios.py:72-73 [_stable_id] *)
Definition stable_id (seed : Z) (scenario : FailureScenario) (label : string) : string :=
  uuid5_hex ("recovery-os:" +++ str_of_Z seed +++ ":" +++ FailureScenario_value scenario +++ ":"
             +++ label).

(** src/services/api/app/simulator/failure_scenarios.py:76-107 [_delivery] *)
Definition make_delivery (seed : Z) (scenario : FailureScenario) (index : Z)
    (provider_event_id event_type : string) (occurred_at delivered_at : datetime)
    (observed authoritative : PaymentState) (evidence_kind : EvidenceKind)
    (case_id payment_id : string) (amount_paise : Z) : SimulatedDelivery := {|
  sd_delivery_id := stable_id seed scenario ("delivery:" +++ str_of_Z index);
  sd_provider_event_id := provider_event_id;
  sd_event_type := event_type;
  sd_occurred_at := occurred_at;
  sd_delivered_at := delivered_at;
  sd_observed_payment_state := observed;
  sd_authoritative_payment_state := authoritative;
  sd_evidence_kind := evidence_kind;
  sd_payload := JObj [("case_id", JStr case_id); ("payment_id", JStr payment_id);
                      ("amount_paise", JInt amount_paise);
                      ("synthetic", JBool (bool_decide (evidence_kind = EvidenceKind.SIMULATED)))];
|}.

(** src/services/api/app/simulator/failure_scenarios.py:110-269 [build_failure_scenario] *)
Definition build_failure_scenario (scenario : FailureScenario) (seed : Z) (base_time : datetime)
    (amount_paise : Z) (evidence_kind : EvidenceKind) : result SimulationCase :=
  _ ← raise_if (negb (is_aware base_time)) (ValueError "base_time must be timezone-aware");
  _ ← raise_if (amount_paise <=? 0) (ValueError "amount_paise must be a positive integer");
  _ ← raise_if (negb (mem evidence_kind [EvidenceKind.SIMULATED;
                                          EvidenceKind.RAZORPAY_TEST_VERIFIED]))
        (ValueError "failure scenarios require simulated or Razorpay test evidence");
  let jitter := randrange seed 3 13 * second in
  let case_id := "case_" +++ str_take 16 (stable_id seed scenario "case") in
  let payment_id := "pay_" +++ str_take 14 (stable_id seed scenario "payment") in
  let failed_event_id := "evt_" +++ str_take 14 (stable_id seed scenario "failed") in
  let captured_event_id := "evt_" +++ str_take 14 (stable_id seed scenario "captured") in
  let failed_at := utc_datetime (dt_instant base_time) in
  let captured_at := dt_add failed_at (45 * minute) in
  let delivery index event_id event_type occurred delivered observed authoritative :=
    make_delivery seed scenario index event_id event_type occurred delivered observed
      authoritative evidence_kind case_id payment_id amount_paise in
  let '(deliveries, final_state, revenue_entries) :=
    match scenario with
    | FailureScenario.DUPLICATE_WEBHOOK =>
        let first := delivery 0 failed_event_id "payment.failed" failed_at
                       (dt_add failed_at jitter) PaymentState.FAILED PaymentState.FAILED in
        let duplicate := delivery 1 failed_event_id "payment.failed" failed_at
                           (dt_add (sd_delivered_at first) (2 * second))
                           PaymentState.FAILED PaymentState.FAILED in
        ([first; duplicate], PaymentState.FAILED, 0)
    | FailureScenario.OUT_OF_ORDER_WEBHOOK =>
        let captured := delivery 0 captured_event_id "payment.captured" captured_at
                          (dt_add captured_at jitter) PaymentState.CAPTURED
                          PaymentState.CAPTURED in
        let stale_failed := delivery 1 failed_event_id "payment.failed" failed_at
                              (dt_add (sd_delivered_at captured) (2 * second))
                              PaymentState.FAILED PaymentState.CAPTURED in
        ([captured; stale_failed], PaymentState.CAPTURED, 1)
    | FailureScenario.LATE_SUCCESS =>
        let failed := delivery 0 failed_event_id "payment.failed" failed_at
                        (dt_add failed_at jitter) PaymentState.FAILED PaymentState.FAILED in
        let captured := delivery 1 captured_event_id "payment.captured" captured_at
                          (dt_add (dt_add captured_at (30 * minute)) jitter)
                          PaymentState.CAPTURED PaymentState.CAPTURED in
        ([failed; captured], PaymentState.CAPTURED, 1)
    | FailureScenario.CHANGED_AUTHORITATIVE_PAYMENT_STATE =>
        let changed := delivery 0 failed_event_id "payment.failed" failed_at
                         (dt_add captured_at jitter) PaymentState.FAILED
                         PaymentState.CAPTURED in
        ([changed], PaymentState.CAPTURED, 1)
    end in
  mret {| sc_scenario := scenario; sc_seed := seed; sc_case_id := case_id;
          sc_payment_id := payment_id; sc_amount_paise := amount_paise;
          sc_deliveries := deliveries; sc_expected_final_payment_state := final_state;
          sc_expected_revenue_entries := revenue_entries |}.

End failure_scenarios.

(** ** Voice callbacks *)

(** src/services/api/app/reliability/voice_projection.py:7-7 [_TWILIO_TERMINAL] *)
Definition TWILIO_TERMINAL : list string := ["COMPLETED"; "BUSY"; "NO-ANSWER"; "FAILED"; "CANCELED"].

(** src/services/api/app/reliability/voice_projection.py:10-16 [CallbackEffect] *)
Record CallbackEffect : Type := {
  ce_duplicate : bool;
  ce_ignored_regression : bool;
  ce_status : string;
  ce_reconciliation_required : bool;
  ce_reason_code : option string;
}.

(** src/services/api/app/reliability/voice_projection.py:19-28 [VoiceCallbackProjection] *)
Record VoiceCallbackProjection : Type := {
  vp_attempt_id : string;
  vp_status : string;
  vp_transcript : option string;
  vp_disposition : option string;
  vp_reconciliation_required : bool;
  vp_receipts : gset (string * string);
}.

(** src/services/api/app/reliability/voice_projection.py:19-28 [VoiceCallbackProjection.__init__] *)
Definition voice_projection_init (attempt_id : string) : VoiceCallbackProjection := {|
  vp_attempt_id := attempt_id; vp_status := "SUBMITTED"; vp_transcript := None;
  vp_disposition := None; vp_reconciliation_required := false; vp_receipts := ∅ |}.

(** src/services/api/app/reliability/voice_projection.py:80-93 [VoiceCallbackProjection._effect] *)
Definition voice_effect (duplicate ignored_regression : bool) (reason_code : option string)
    (v : VoiceCallbackProjection) : CallbackEffect := {|
  ce_duplicate := duplicate; ce_ignored_regression := ignored_regression;
  ce_status := vp_status v; ce_reconciliation_required := vp_reconciliation_required v;
  ce_reason_code := reason_code |}.

(** src/services/api/app/reliability/voice_projection.py:73-78 [VoiceCallbackProjection._duplicate] *)
Definition voice_duplicate (provider event_id : string) (v : VoiceCallbackProjection)
  : bool * VoiceCallbackProjection :=
  if bool_decide ((provider, event_id) ∈ vp_receipts v) then (true, v)
  else (false, {| vp_attempt_id := vp_attempt_id v; vp_status := vp_status v;
                  vp_transcript := vp_transcript v; vp_disposition := vp_disposition v;
                  vp_reconciliation_required := vp_reconciliation_required v;
                  vp_receipts := {[(provider, event_id)]} ∪ vp_receipts v |}).

(** The assignments [self.status], [self.disposition], [self.transcript] and
    [self.reconciliation_required] of the callbacks. *)
Definition vp_assign (status : string) (transcript disposition : option string)
    (reconciliation : bool) (v : VoiceCallbackProjection) : VoiceCallbackProjection := {|
  vp_attempt_id := vp_attempt_id v; vp_status := status; vp_transcript := transcript;
  vp_disposition := disposition; vp_reconciliation_required := reconciliation;
  vp_receipts := vp_receipts v |}.

(** src/services/api/app/reliability/voice_projection.py:30-42 [VoiceCallbackProjection.apply_twilio] *)
Definition apply_twilio (event_id status : string) (v : VoiceCallbackProjection)
  : CallbackEffect * VoiceCallbackProjection :=
  let (duplicate, v) := voice_duplicate "twilio" event_id v in
  if duplicate then (voice_effect true false None v, v)
  else
    let normalized := str_upper status in
    let terminal := mem (vp_status v) TWILIO_TERMINAL in
    if terminal && negb (mem normalized TWILIO_TERMINAL) then (voice_effect false true None v, v)
    else if terminal && negb (bool_decide (normalized = vp_status v))
    then (voice_effect false true None v, v)
    else
      let v' := vp_assign normalized (vp_transcript v)
                  (if mem normalized TWILIO_TERMINAL then Some normalized else vp_disposition v)
                  (vp_reconciliation_required v) v in
      (voice_effect false false None v', v').

(** src/services/api/app/reliability/voice_projection.py:44-63 [VoiceCallbackProjection.apply_elevenlabs] *)
Definition apply_elevenlabs (event_id : string) (transcript delivery_error_code : option string)
    (v : VoiceCallbackProjection) : CallbackEffect * VoiceCallbackProjection :=
  let (duplicate, v) := voice_duplicate "elevenlabs" event_id v in
  if duplicate then (voice_effect true false None v, v)
  else if truthy delivery_error_code then
    let v' := vp_assign (vp_status v) (vp_transcript v) (vp_disposition v) true v in
    (voice_effect false false (Some "ELEVENLABS_POST_CALL_RECONCILIATION_REQUIRED") v', v')
  else
    match transcript with
    | None =>
        let v' := vp_assign (vp_status v) (vp_transcript v) (vp_disposition v) true v in
        (voice_effect false false (Some "ELEVENLABS_TRANSCRIPT_MISSING") v', v')
    | Some _ =>
        let status := if mem (vp_status v) TWILIO_TERMINAL then vp_status v else "COMPLETED" in
        let v' := vp_assign status transcript (vp_disposition v) false v in
        (voice_effect false false None v', v')
    end.

(** src/services/api/app/reliability/voice_projection.py:65-71 [VoiceCallbackProjection.reconcile_elevenlabs] *)
Definition reconcile_elevenlabs (transcript : option string) (v : VoiceCallbackProjection)
  : CallbackEffect * VoiceCallbackProjection :=
  match transcript with
  | None =>
      let v' := vp_assign (vp_status v) (vp_transcript v) (vp_disposition v) true v in
      (voice_effect false false (Some "ELEVENLABS_TRANSCRIPT_STILL_UNAVAILABLE") v', v')
  | Some _ =>
      let v' := vp_assign (vp_status v) transcript (vp_disposition v) false v in
      (voice_effect false false None v', v')
  end.

(** ** Correctness of the payment projection *)

Section payment_projection_facts.
Context (repr : json -> string).

Definition payment_of (d : SimulatedDelivery) : string :=
  match json_item "payment_id" (sd_payload d) with Ok v => py_str repr v | Err _ => "" end.

Definition captured (d : SimulatedDelivery) : Prop :=
  sd_authoritative_payment_state d = PaymentState.CAPTURED.

(** A feed the provider can send: aware instants, a payment id and an amount that
    depends on the payment only, and one delivery content per event id. *)
Record feed (amount_of : string -> Z) (ds : list SimulatedDelivery) : Prop := {
  feed_aware : forall d, d ∈ ds -> is_aware (sd_occurred_at d) = true;
  feed_payment : forall d, d ∈ ds -> is_ok (json_item "payment_id" (sd_payload d)) = true;
  feed_amount : forall d, d ∈ ds ->
    json_item "amount_paise" (sd_payload d) = Ok (JInt (amount_of (payment_of d)));
  feed_ids : forall d d', d ∈ ds -> d' ∈ ds ->
    sd_provider_event_id d = sd_provider_event_id d' ->
    (captured d <-> captured d') /\ payment_of d = payment_of d';
}.

(** What the projection holds after the deliveries [ds] were applied. *)
Record projected (amount_of : string -> Z) (ds : list SimulatedDelivery)
    (p : PaymentEventProjection) : Prop := {
  pj_ids : forall e, e ∈ pp_provider_event_ids p <->
             exists d, d ∈ ds /\ sd_provider_event_id d = e;
  pj_recognized : forall pid, pid ∈ pp_recognized_payment_ids p <->
                    exists d, d ∈ ds /\ captured d /\ payment_of d = pid;
  pj_arrears : pp_arrears_collected_paise p
                 = sumZ (amount_of <$> elements (pp_recognized_payment_ids p));
  pj_state : pp_payment_state p = PaymentState.CAPTURED <-> exists d, d ∈ ds /\ captured d;
  pj_latest : forall t, pp_latest_occurred_at p = Some t -> is_aware t = true;
}.

Lemma projected_empty amount_of : projected amount_of [] empty_projection.
Proof.
  split; cbn; try done.
  - intros e. split; [set_solver | by intros (d & ?%elem_of_nil & _)].
  - intros e. split; [set_solver | by intros (d & ?%elem_of_nil & _)].
  - split; [done | by intros (d & ?%elem_of_nil & _)].
Qed.

Lemma projected_set amount_of (ds ds' : list SimulatedDelivery) p :
  (forall d, d ∈ ds <-> d ∈ ds') -> projected amount_of ds p -> projected amount_of ds' p.
Proof.
  intros Hs [H1 H2 H3 H4 H5]. split; try done.
  - intros e. rewrite H1. by setoid_rewrite Hs.
  - intros e. rewrite H2. by setoid_rewrite Hs.
  - rewrite H4. by setoid_rewrite Hs.
Qed.

Lemma note_instant_ok t p :
  is_aware t = true -> (forall t', pp_latest_occurred_at p = Some t' -> is_aware t' = true) ->
  exists stale latest, note_instant t p = (Ok stale, match latest with
                                                      | Some t' => set_latest t' p
                                                      | None => p end) /\
    (latest = Some t \/ latest = None).
Proof.
  intros Ht Hl. unfold note_instant. stx_unfold. unfold dt_lt.
  destruct (pp_latest_occurred_at p) as [t'|] eqn:E; cbn.
  - rewrite Ht, (Hl t' eq_refl), bool_decide_eq_true_2 by done. cbn.
    destruct (_ <? _); [by exists true, None; eauto | by exists false, (Some t); eauto].
  - exists false, (Some t). eauto.
Qed.

Lemma sumZ_elements_insert (f : string -> Z) (x : string) (s : gset string) :
  x ∉ s -> sumZ (f <$> elements ({[x]} ∪ s)) = f x + sumZ (f <$> elements s).
Proof. intros H. by rewrite (elements_union_singleton s x H). Qed.

Lemma recognize_ok amount_of d pid p :
  json_item "amount_paise" (sd_payload d) = Ok (JInt (amount_of pid)) ->
  exists b : bool,
    recognize d pid p =
      (Ok b, if b then add_arrears (amount_of pid) (add_recognized pid p) else p) /\
    (b = true <-> captured d /\ pid ∉ pp_recognized_payment_ids p).
Proof.
  intros Ha. unfold recognize, captured. stx_unfold. cbn.
  destruct (decide (sd_authoritative_payment_state d = PaymentState.CAPTURED)) as [Hc|Hc].
  2:{ rewrite bool_decide_eq_false_2 by done. cbn. exists false. split; [done|]. by intuition. }
  rewrite bool_decide_eq_true_2 by done. cbn.
  destruct (decide (pid ∈ pp_recognized_payment_ids p)) as [Hi|Hi].
  - rewrite bool_decide_eq_true_2 by done. exists false. split; [done|]. by intuition.
  - rewrite bool_decide_eq_false_2 by done. cbn. rewrite Ha. exists true. by split.
Qed.

Lemma projection_apply_ok amount_of ds d p :
  feed amount_of (d :: ds) -> projected amount_of ds p ->
  exists e p', projection_apply repr d p = (Ok e, p') /\ projected amount_of (d :: ds) p'.
Proof.
  intros [Fa Fp Fm Fi] Hp. pose proof Hp as [P1 P2 P3 P4 P5].
  unfold projection_apply. stx_unfold.
  case_bool_decide as Hdup.
  { do 2 eexists. split; [reflexivity|].
    apply P1 in Hdup as (d' & Hd' & Heq).
    assert ((captured d <-> captured d') /\ payment_of d = payment_of d') as [Hc Hpid]
      by (apply Fi; [set_solver.. | done]).
    split; try done.
    - intros e. rewrite P1. set_solver.
    - intros pid. rewrite P2. set_solver.
    - rewrite P4. set_solver. }
  destruct (note_instant_ok (sd_occurred_at d) (add_event_id (sd_provider_event_id d) p))
    as (stale & latest & -> & Hl); [set_solver | exact P5 |].
  specialize (Fp d ltac:(set_solver)). apply is_ok_true in Fp as [v Hv].
  specialize (Fm d ltac:(set_solver)).
  assert (payment_of d = py_str repr v) as Hpid by (unfold payment_of; by rewrite Hv).
  rewrite Hv. rewrite Hpid in Fm.
  set (p0 := match latest with Some _ => _ | None => _ end).
  set (p1 := if _ || _ then _ else _).
  destruct (recognize_ok amount_of d (py_str repr v) p1 Fm) as (b & Hr & Hb).
  cbn -[recognize]. rewrite Hr. do 2 eexists. split; [reflexivity|].
  assert (pp_recognized_payment_ids p1 = pp_recognized_payment_ids p) as E1
    by (unfold p1, p0; repeat case_match; done).
  assert (pp_arrears_collected_paise p1 = pp_arrears_collected_paise p) as E2
    by (unfold p1, p0; repeat case_match; done).
  assert (pp_provider_event_ids p1 = {[sd_provider_event_id d]} ∪ pp_provider_event_ids p) as E3
    by (unfold p1, p0; repeat case_match; done).
  assert (pp_payment_state p1 = PaymentState.CAPTURED <->
          captured d \/ pp_payment_state p = PaymentState.CAPTURED) as E4.
  { assert (pp_payment_state p0 = pp_payment_state p) as E by (unfold p0; by destruct latest).
    unfold p1, captured. rewrite E.
    destruct (decide (pp_payment_state p = PaymentState.CAPTURED)),
             (decide (sd_authoritative_payment_state d = PaymentState.CAPTURED));
      rewrite ?bool_decide_eq_true_2, ?bool_decide_eq_false_2 by done; cbn; rewrite ?E; intuition. }
  assert (forall t, pp_latest_occurred_at p1 = Some t -> is_aware t = true) as E5.
  { assert (pp_latest_occurred_at p1 = pp_latest_occurred_at p0) as -> by (unfold p1; by destruct (_ || _)).
    unfold p0. destruct Hl as [-> | ->]; cbn; [|exact P5]. intros t [= <-]. set_solver. }
  rewrite E1 in Hb. clearbody p1. clear Hr p0 Hl.
  destruct b; split; cbn; rewrite ?E1, ?E2, ?E3; try done.
  - intros e. rewrite elem_of_union, P1. set_solver.
  - destruct Hb as [[Hc _] _]; [done|]. intros pid. rewrite elem_of_union, P2. set_solver.
  - destruct Hb as [[Hc Hn] _]; [done|]. rewrite sumZ_elements_insert by done. lia.
  - rewrite E4, P4. set_solver.
  - intros e. rewrite elem_of_union, P1. set_solver.
  - intros pid. rewrite P2. split; [set_solver|]. intros (d' & [->|Hd']%elem_of_cons & Hc & <-).
    + apply P2. rewrite Hpid. destruct (decide (py_str repr v ∈ pp_recognized_payment_ids p));
        [done|]. by destruct Hb as [_ Hb]; discriminate Hb.
    + eauto.
  - rewrite E4, P4. set_solver.
Qed.

Lemma feed_incl amount_of ds ds' :
  (forall d, d ∈ ds' -> d ∈ ds) -> feed amount_of ds -> feed amount_of ds'.
Proof. intros Hi [F1 F2 F3 F4]. split; intros; eauto. Qed.

Lemma projection_run_ok amount_of todo done_ p :
  feed amount_of (todo ++ done_) -> projected amount_of done_ p ->
  Forall (fun r => is_ok r = true) (projection_run repr todo p).1 /\
  projected amount_of (todo ++ done_) (projection_run repr todo p).2.
Proof.
  revert done_ p. induction todo as [|d todo IH]; intros done_ p Hf Hp; cbn; [done|].
  destruct (projection_apply_ok amount_of done_ d p) as (e & p1 & -> & Hp1);
    [eapply feed_incl; [|exact Hf]; set_solver | done |].
  destruct (IH (d :: done_) p1) as [H1 H2]; [eapply feed_incl; [|exact Hf]; set_solver | done |].
  destruct (projection_run repr todo p1) as [rs p2]. cbn in *. split; [by constructor|].
  eapply projected_set; [|exact H2]. set_solver.
Qed.
End payment_projection_facts.

(** The total collected from the payments captured in a feed, each counted once. *)
Definition captured_total (repr : json -> string) (amount_of : string -> Z)
    (ds : list SimulatedDelivery) : Z :=
  sumZ (amount_of <$> remove_dups (payment_of repr <$>
    filter (fun d => sd_authoritative_payment_state d = PaymentState.CAPTURED) ds)).

(** applied to any feed the provider can send, whatever its order and however often
    events are repeated, the projection never fails, ends [CAPTURED] exactly when
    some delivery carried an authoritative capture, and collects exactly the amount
    of each distinct captured payment once. *)
Theorem projection_exact repr amount_of ds :
  feed repr amount_of ds ->
  let (rs, p) := projection_run repr ds empty_projection in
  Forall (fun r => is_ok r = true) rs /\
  (pp_payment_state p = PaymentState.CAPTURED <->
     exists d, d ∈ ds /\ sd_authoritative_payment_state d = PaymentState.CAPTURED) /\
  pp_arrears_collected_paise p = captured_total repr amount_of ds.
Proof.
  intros Hf. destruct (projection_run_ok repr amount_of ds [] empty_projection) as [H1 H2];
    [by rewrite app_nil_r | apply projected_empty |].
  rewrite app_nil_r in H2. destruct (projection_run _ _ _) as [rs p]. cbn in *.
  destruct H2 as [P1 P2 P3 P4 P5]. split; [done|]. split; [done|].
  rewrite P3. unfold captured_total. apply sumZ_perm, fmap_Permutation, NoDup_Permutation.
  - apply NoDup_elements.
  - apply NoDup_remove_dups.
  - intros pid. rewrite elem_of_elements, elem_of_remove_dups, P2, list_elem_of_fmap.
    setoid_rewrite list_elem_of_filter. unfold captured. naive_solver.
Qed.

(** Two deliveries of one capture, a failure that overtook it, and a second payment. *)
Definition example_delivery (event payment : string) (x : PaymentState) (t amount : Z)
  : SimulatedDelivery := {|
  sd_delivery_id := event; sd_provider_event_id := event; sd_event_type := "";
  sd_occurred_at := utc_datetime t; sd_delivered_at := utc_datetime t;
  sd_observed_payment_state := x; sd_authoritative_payment_state := x;
  sd_evidence_kind := EvidenceKind.SIMULATED;
  sd_payload := JObj [("payment_id", JStr payment); ("amount_paise", JInt amount)] |}.
Definition example_feed : list SimulatedDelivery := [
  example_delivery "e2" "p1" PaymentState.CAPTURED 20 500;
  example_delivery "e1" "p1" PaymentState.FAILED 10 500;
  example_delivery "e2" "p1" PaymentState.CAPTURED 20 500;
  example_delivery "e4" "p1" PaymentState.CAPTURED 40 500;
  example_delivery "e3" "p2" PaymentState.CAPTURED 30 700].
Definition example_amount (pid : string) : Z := if bool_decide (pid = "p1") then 500 else 700.

Lemma example_feed_ok : feed (fun _ => "") example_amount example_feed.
Proof.
  unfold example_feed. split.
  1-3: intros d Hd; rewrite !elem_of_cons, elem_of_nil in Hd;
       repeat destruct Hd as [->|Hd]; done.
  intros d d' Hd Hd'; rewrite !elem_of_cons, elem_of_nil in Hd, Hd';
       repeat destruct Hd as [->|Hd]; try done; repeat destruct Hd' as [->|Hd']; done.
Qed.

Lemma projection_exact_witness :
  let (rs, p) := projection_run (fun _ => "") example_feed empty_projection in
  Forall (fun r => is_ok r = true) rs /\
  (pp_payment_state p = PaymentState.CAPTURED <->
     exists d, d ∈ example_feed /\ sd_authoritative_payment_state d = PaymentState.CAPTURED) /\
  pp_arrears_collected_paise p = captured_total (fun _ => "") example_amount example_feed.
Proof. exact (projection_exact _ _ _ example_feed_ok). Defined.

Example example_feed_total :
  pp_arrears_collected_paise (projection_run (fun _ => "") example_feed empty_projection).2 = 1200.
Proof. vm_compute. reflexivity. Qed.



(** whatever one delivery holds, malformed payloads included, applying it never
    takes a captured payment back, never forgets a recognised payment or a processed
    event, and changes nothing at all when its event id was processed before. *)
Theorem projection_step_safe repr d p :
  let p' := (projection_apply repr d p).2 in
  (pp_payment_state p = PaymentState.CAPTURED -> pp_payment_state p' = PaymentState.CAPTURED) /\
  pp_recognized_payment_ids p ⊆ pp_recognized_payment_ids p' /\
  pp_provider_event_ids p' = {[sd_provider_event_id d]} ∪ pp_provider_event_ids p /\
  (sd_provider_event_id d ∈ pp_provider_event_ids p -> p' = p).
Proof.
  unfold projection_apply, note_instant, recognize, dt_lt. stx_unfold. cbn.
  repeat (split_match; cbn; bools; simp_res; try (repeat split; set_solver)).
  all: destruct_or?; bools; repeat split; intros; first [done | congruence | set_solver].
Qed.

Lemma projected_one_payment repr amount pid ds p (c : bool) final :
  projected repr (fun _ => amount) ds p ->
  (forall d, d ∈ ds -> payment_of repr d = pid) ->
  ((exists d, d ∈ ds /\ captured d) <-> c = true) ->
  (final = PaymentState.CAPTURED <-> c = true) ->
  revenue_entries p = (if c then 1 else 0) /\
  pp_arrears_collected_paise p = amount * (if c then 1 else 0) /\
  (pp_payment_state p = PaymentState.CAPTURED <-> final = PaymentState.CAPTURED).
Proof.
  intros [P1 P2 P3 P4 P5] Hpid Hc Hfin. rewrite P4, P3, Hfin.
  assert (pp_recognized_payment_ids p = if c then {[pid]} else ∅) as E.
  { apply set_eq. intros x. rewrite P2. split.
    - intros (d & Hd & Hcd & <-). rewrite (Hpid d Hd). destruct c; [set_solver|].
      by destruct Hc as [Hc _]; discriminate Hc; eauto.
    - destruct c; [|set_solver]. intros ->%elem_of_singleton.
      destruct Hc as [_ Hc]. destruct (Hc eq_refl) as (d & Hd & ?). eauto. }
  unfold revenue_entries. rewrite E. destruct c.
  - rewrite size_singleton, elements_singleton. cbn. split; [done|]. split; [lia|done].
  - rewrite size_empty, elements_empty. cbn. split; [done|]. split; [lia|done].
Qed.

Ltac each_delivery H :=
  rewrite ?elem_of_cons, ?elem_of_nil in H; repeat destruct H as [->|H]; try done.

(** A repeated delivery leaves the state its first copy set. *)
Lemma projection_repeat repr d d' v a :
  sd_provider_event_id d = sd_provider_event_id d' ->
  json_item "payment_id" (sd_payload d) = Ok v ->
  json_item "amount_paise" (sd_payload d) = Ok (JInt a) ->
  pp_payment_state (projection_run repr [d; d'] empty_projection).2
    = sd_authoritative_payment_state d.
Proof.
  intros He Hv Ha. cbn. unfold projection_apply at 1. unfold note_instant. stx_unfold. cbn.
  rewrite Hv, bool_decide_eq_false_2 by set_solver. cbn.
  match goal with |- context [recognize d (py_str repr v) ?p] =>
    destruct (recognize_ok (fun _ => a) d (py_str repr v) p Ha) as (b & -> & _) end.
  assert (forall p, sd_provider_event_id d' ∈ pp_provider_event_ids p ->
            (projection_apply repr d' p).2 = p) as Hdup.
  { intros p Hp. unfold projection_apply. stx_unfold. by rewrite bool_decide_eq_true_2. }
  destruct (projection_apply _ d' _) as [r2 p2] eqn:E.
  apply (f_equal snd) in E. rewrite Hdup in E; cbn in *; subst p2; by destruct b; cbn; set_solver.
Qed.

Lemma feed_run repr amount_of ds0 ds :
  feed repr amount_of ds0 -> (forall d, d ∈ ds0 <-> d ∈ ds) ->
  projected repr amount_of ds0 (projection_run repr ds empty_projection).2.
Proof.
  intros Hf Hs.
  destruct (projection_run_ok repr amount_of ds [] empty_projection) as [_ H'];
    [|apply projected_empty |].
  { rewrite app_nil_r. eapply feed_incl; [|exact Hf]. intros. by apply Hs. }
  rewrite app_nil_r in H'. eapply projected_set; [|exact H']. intros. by rewrite Hs.
Qed.

Lemma event_id_inj a b : "evt_" +++ a = "evt_" +++ b -> a = b.
Proof. by intros [=]. Qed.

(** every failure scenario states the truth about its own deliveries: the generator
    succeeds on any aware base time, positive amount and test evidence, and its
    deliveries, in the order given or in any other order and with any repetitions,
    lead the projection to the expected number of revenue entries and collected
    amount; the final state is the expected one in the order given, and is captured
    in every order when a capture is expected. *)
Theorem scenario_expectations_met uuid5_hex randrange repr scenario seed base_time amount evidence :
  is_aware base_time = true -> 0 < amount ->
  evidence = EvidenceKind.SIMULATED \/ evidence = EvidenceKind.RAZORPAY_TEST_VERIFIED ->
  str_take 14 (stable_id uuid5_hex seed scenario "failed")
    <> str_take 14 (stable_id uuid5_hex seed scenario "captured") ->
  exists c,
    build_failure_scenario uuid5_hex randrange scenario seed base_time amount evidence = Ok c /\
    pp_payment_state (projection_run repr (sc_deliveries c) empty_projection).2
      = sc_expected_final_payment_state c /\
    forall ds, (forall d, d ∈ sc_deliveries c <-> d ∈ ds) ->
      let p := (projection_run repr ds empty_projection).2 in
      revenue_entries p = sc_expected_revenue_entries c /\
      pp_arrears_collected_paise p = amount * sc_expected_revenue_entries c /\
      (pp_payment_state p = PaymentState.CAPTURED <->
         sc_expected_final_payment_state c = PaymentState.CAPTURED).
Proof.
  intros Haw Ha Hev Hid. unfold build_failure_scenario. rewrite Haw. cbn [negb].
  rewrite (proj2 (Z.leb_gt amount 0)) by done.
  rewrite (proj2 (mem_true evidence _)) by (destruct Hev as [-> | ->]; set_solver).
  set (pid := "pay_" +++ str_take 14 (stable_id uuid5_hex seed scenario "payment")).
  destruct scenario; cbn -[str_take stable_id make_delivery projection_run Z.mul];
    eexists; (split; [reflexivity|]);
    cbn [sc_deliveries sc_expected_revenue_entries sc_expected_final_payment_state].
  all: match goal with |- context [projection_run _ ?l _] =>
         assert (feed repr (fun _ => amount) l) as Hf end.
  1,3,5,7: split; [intros d Hd; each_delivery Hd.. |];
    intros d d' Hd Hd'; each_delivery Hd; each_delivery Hd'; intros E; exfalso;
    unfold make_delivery in E; cbn -[str_take stable_id String.append] in E; apply event_id_inj in E; congruence.
  all: split; [|intros ds Hds; pose proof (feed_run _ _ _ _ Hf Hds) as Hp].
  1: by eapply projection_repeat.
  1: refine (projected_one_payment repr amount pid _ _ false _ Hp _ _ _).
  5,7,9: refine (projected_one_payment repr amount pid _ _ true _ Hp _ _ _).
  all: try (intros d Hd; each_delivery Hd).
  all: try (by split).
  1: split; [|done]; intros (d & Hd & Hc); each_delivery Hd.
  all: match goal with
       | |- pp_payment_state _ = _ =>
           apply (pj_state _ _ _ _ (feed_run _ _ _ _ Hf (fun d => iff_refl _)))
       | |- _ <-> _ => split; [done|intros _]
       end.
  all: first [ eexists; split; [by apply list_elem_of_here|done]
             | eexists; split; [by apply list_elem_of_further, list_elem_of_here|done] ].
Qed.

Lemma scenario_expectations_met_witness :
  exists c, build_failure_scenario (fun s => str_rev s) (fun _ _ _ => 7)
              FailureScenario.LATE_SUCCESS 1 (utc_datetime 0) 500 EvidenceKind.SIMULATED = Ok c /\
    pp_payment_state (projection_run (fun _ => "") (sc_deliveries c) empty_projection).2
      = sc_expected_final_payment_state c /\
    sc_expected_final_payment_state c = PaymentState.CAPTURED.
Proof.
  destruct (scenario_expectations_met (fun s => str_rev s) (fun _ _ _ => 7) (fun _ => "")
    FailureScenario.LATE_SUCCESS 1 (utc_datetime 0) 500 EvidenceKind.SIMULATED)
    as (c & H1 & H2 & _); [done|done|by left|by vm_compute|].
  exists c. split; [exact H1|]. split; [exact H2|].
  vm_compute in H1. by injection H1 as <-.
Defined.

(** ** Correctness of the voice projection *)

Inductive voice_callback : Type :=
| Twilio (event_id status : string)
| ElevenLabs (event_id : string) (transcript delivery_error_code : option string)
| ReconcileTranscript (transcript : option string).

Definition voice_apply (c : voice_callback) : VoiceCallbackProjection ->
    CallbackEffect * VoiceCallbackProjection :=
  match c with
  | Twilio e s => apply_twilio e s
  | ElevenLabs e t err => apply_elevenlabs e t err
  | ReconcileTranscript t => reconcile_elevenlabs t
  end.

Fixpoint voice_run (cs : list voice_callback) (v : VoiceCallbackProjection)
  : VoiceCallbackProjection :=
  match cs with [] => v | c :: cs' => voice_run cs' (voice_apply c v).2 end.

(** The receipt a callback is recorded under. *)
Definition receipt_of (c : voice_callback) : option (string * string) :=
  match c with
  | Twilio e _ => Some ("twilio", e)
  | ElevenLabs e _ _ => Some ("elevenlabs", e)
  | ReconcileTranscript _ => None
  end.

Lemma voice_apply_facts c v :
  let v' := (voice_apply c v).2 in
  (mem (vp_status v) TWILIO_TERMINAL = true -> vp_status v' = vp_status v) /\
  (is_Some (vp_transcript v) -> is_Some (vp_transcript v')) /\
  vp_receipts v ⊆ vp_receipts v' /\
  (forall r, receipt_of c = Some r -> r ∈ vp_receipts v') /\
  (forall r, receipt_of c = Some r -> r ∈ vp_receipts v ->
     voice_apply c v = (voice_effect true false None v, v)).
Proof.
  unfold voice_apply, apply_twilio, apply_elevenlabs, reconcile_elevenlabs, voice_duplicate.
  destruct c as [e s|e t err|t]; cbn; repeat (split_match; cbn; bools; simp_res).
  all: repeat split; intros; simp_res; try done; try (exfalso; set_solver); try set_solver.
  all: destruct_or?; bools; try congruence.
Qed.

Lemma voice_run_facts cs v :
  (mem (vp_status v) TWILIO_TERMINAL = true -> vp_status (voice_run cs v) = vp_status v) /\
  (is_Some (vp_transcript v) -> is_Some (vp_transcript (voice_run cs v))) /\
  vp_receipts v ⊆ vp_receipts (voice_run cs v) /\
  (forall c r, c ∈ cs -> receipt_of c = Some r -> r ∈ vp_receipts (voice_run cs v)).
Proof.
  revert v. induction cs as [|c cs IH]; intros v; cbn.
  { repeat split; try done. intros c r []%elem_of_nil. }
  destruct (voice_apply_facts c v) as (A1 & A2 & A3 & A4 & _).
  destruct (IH (voice_apply c v).2) as (B1 & B2 & B3 & B4). cbn in *.
  repeat split; auto.
  - intros H. rewrite B1; rewrite A1; auto.
  - set_solver.
  - intros c' r [-> | Hc]%elem_of_cons Hr; eauto.
Qed.

(** over any sequence of provider callbacks and reconciliations, a voice attempt
    that reached a terminal telephony status keeps it, a transcript once received is
    never lost, and a callback whose receipt was already seen changes nothing. *)
Theorem voice_projection_converges before after v :
  let v1 := voice_run before v in
  let v2 := voice_run (before ++ after) v in
  (mem (vp_status v1) TWILIO_TERMINAL = true -> vp_status v2 = vp_status v1) /\
  (is_Some (vp_transcript v1) -> is_Some (vp_transcript v2)) /\
  (forall c, c ∈ before ++ after -> is_Some (receipt_of c) ->
     voice_apply c v2 = (voice_effect true false None v2, v2)).
Proof.
  assert (voice_run (before ++ after) v = voice_run after (voice_run before v)) as E.
  { clear. revert v. induction before; cbn; auto. }
  cbn zeta. rewrite E.
  destruct (voice_run_facts after (voice_run before v)) as (A1 & A2 & _ & _).
  split; [done|]. split; [done|]. intros c Hc [r Hr].
  destruct (voice_run_facts (before ++ after) v) as (_ & _ & _ & A4). rewrite E in A4.
  destruct (voice_apply_facts c (voice_run after (voice_run before v))) as (_ & _ & _ & _ & A5).
  eauto.
Qed.
