(* ===== verification/Decision.v ===== *)
(** * Recovery decision engine

    [services/api/app/services/decision_engine.py]: technical eligibility, scoring,
    the ranking by integer utility and the policy gate.  The scorer, the parser of
    URLs and JSON and the ISO formatter are arguments; [asyncio.gather] over the
    scorer is a left-to-right map, so of several scorer failures the first in
    candidate order is the one that propagates. *)
From S2P Require Import Prelude Domain Json QuietHours Safety.

(** src/services/api/app/services/decision_engine.py:50-52 [_NON_CUSTOMER_REMEDIABLE_DIAGNOSES] *)
Definition NON_CUSTOMER_REMEDIABLE_DIAGNOSES : list Diagnosis :=
  [Diagnosis.MERCHANT_ERROR; Diagnosis.RISK_OR_COMPLIANCE_BLOCK].
(** src/services/api/app/services/decision_engine.py:53-59 [_GATEWAY_RETRY_RELEVANT_DIAGNOSES] *)
Definition GATEWAY_RETRY_RELEVANT_DIAGNOSES : list Diagnosis :=
  [Diagnosis.TRANSIENT_RETRYABLE; Diagnosis.INSUFFICIENT_FUNDS; Diagnosis.UNKNOWN].
(** src/services/api/app/services/decision_engine.py:60-64 [_SURFACE_PREFERENCE]: with
    the default of the [.get] at lines 308-310. *)
Definition SURFACE_PREFERENCE (d : Diagnosis) : PaymentSurfaceType :=
  match d with
  | Diagnosis.AUTHENTICATION_REQUIRED | Diagnosis.INSTRUMENT_INVALID =>
      PaymentSurfaceType.SUBSCRIPTION_CARD_UPDATE
  | _ => PaymentSurfaceType.SUBSCRIPTION_INVOICE_LINK
  end.
(** src/services/api/app/services/decision_engine.py:65-72 [_ACTION_TIE_PRIORITY] *)
Definition ACTION_TIE_PRIORITY (a : RecoveryActionType) : Z :=
  match a with
  | RecoveryActionType.WAIT_FOR_GATEWAY_RETRY => 0
  | RecoveryActionType.OPEN_CUSTOMER_PAYMENT_SURFACE => 10
  | RecoveryActionType.SEND_TO_CUSTOMER_AGENT => 20
  | RecoveryActionType.START_VOICE => 30
  | RecoveryActionType.ESCALATE_TO_HUMAN => 40
  | RecoveryActionType.STOP => 50
  end.

Section environment.
(** [os.environ], [urllib.parse.urlparse] (scheme and netloc) and [json.loads]. *)
Context (env : string -> option string) (urlparse : string -> string * string)
        (json_loads : string -> option json).

Definition getenv (name fallback : string) : string := default fallback (env name).
Definition flag_of (name fallback : string) : string := str_lower (str_strip (getenv name fallback)).

(** src/services/api/app/services/decision_engine.py:75-109 [customer_agent_executor_ready] *)
Definition customer_agent_executor_ready : bool :=
  if negb (mem (flag_of "A2A_ENABLED" "false") ["1"; "true"; "yes"; "on"]) then false
  else
    let origin := str_strip (getenv "CUSTOMER_AGENT_ORIGIN" "") in
    let (scheme, netloc) := urlparse origin in
    if negb (mem scheme ["http"; "https"]) || bool_decide (netloc = "") then false
    else if bool_decide (flag_of "APP_ENV" "development" = "production")
            && negb (bool_decide (scheme = "https")) then false
    else
      match json_loads (getenv "CUSTOMER_AGENT_PUBLIC_KEYS_JSON" "{}") with
      | Some (JObj ((_ :: _) as public_keys)) =>
          forallb (fun kv => match kv.2 with JStr _ => true | _ => false end) public_keys
          && bool_decide (flag_of "RECOVERY_AGENT_RECEIPT_SIGNING_MODE" "mock" = "configured")
          && negb (bool_decide (str_strip (getenv "RECOVERY_AGENT_RECEIPT_SIGNER_KEY_ID" "") = ""))
          && negb (bool_decide
                     (str_strip (getenv "RECOVERY_AGENT_RECEIPT_ED25519_PRIVATE_KEY" "") = ""))
          && negb (bool_decide (str_strip (getenv "CUSTOMER_AGENT_S2S_BEARER_TOKEN" "") = ""))
      | _ => false
      end.

(** The scorers [get_default_recovery_scorer] constructs. *)
Inductive scorer_choice : Type :=
| DeterministicRecoveryScorer
| RecoveryBenchScorer (artifact_dir : option string) (allow_deterministic_fallback : bool).

(** src/services/api/app/services/decision_engine.py:113-139 [get_default_recovery_scorer]:
    [None] stands for the directory of the bundled artifact. *)
Definition get_default_recovery_scorer : scorer_choice :=
  let model_required := mem
    (flag_of "RECOVERY_MODEL_REQUIRED"
       (if bool_decide (flag_of "APP_ENV" "development" = "production") then "true" else "false"))
    ["1"; "true"; "yes"; "on"] in
  if negb model_required then DeterministicRecoveryScorer
  else
    let configured_path := str_strip (getenv "RECOVERYBENCH_ARTIFACT_DIR" "") in
    RecoveryBenchScorer
      (if bool_decide (configured_path = "") then None else Some configured_path) false.

(** A production deployment never falls back to the deterministic scorer unless
    it is told to. *)
Lemma production_requires_model :
  flag_of "APP_ENV" "development" = "production" -> env "RECOVERY_MODEL_REQUIRED" = None ->
  exists dir, get_default_recovery_scorer = RecoveryBenchScorer dir false.
Proof.
  intros H1 H2. unfold get_default_recovery_scorer. rewrite H1. cbn.
  unfold flag_of at 1, getenv. rewrite H2. cbn. eauto.
Qed.
End environment.

(** src/services/api/app/providers/contracts.py:135-140 [RecoveryScoreRequest] *)
Record RecoveryScoreRequest : Type := {
  rq_case_id : string;
  rq_amount_at_risk_paise : Z;
  rq_diagnosis : Diagnosis;
  rq_candidate_action : RecoveryActionType;
  rq_features : list (string * json);
}.

(** src/services/api/app/providers/contracts.py:143-150 [RecoveryScoreResult] *)
Record RecoveryScoreResult : Type := {
  rs_model_name : string;
  rs_model_version : string;
  rs_artifact_checksum : option string;
  rs_recovery_probability : Q;
  rs_expected_recovered_paise : Z;
  rs_expected_utility_paise : Z;
  rs_explanation : list string;
}.

(** The field constraints [ge=0, le=1] and [ge=0] of the result contract. *)
Definition score_valid (s : RecoveryScoreResult) : Prop :=
  (0 <= rs_recovery_probability s <= 1)%Q /\ 0 <= rs_expected_recovered_paise s.

(** src/services/api/app/services/decision_engine.py:142-151 [_scoring_mode] *)
Definition scoring_mode (s : RecoveryScoreResult) : string :=
  if bool_decide (rs_model_name s = "recoverybench-deterministic")
     || str_prefix "deterministic." (rs_model_version s) then "DETERMINISTIC_FALLBACK"
  else if bool_decide (rs_model_name s = "recoverybench-catboost")
          && truthy (rs_artifact_checksum s) then "CHECKSUM_VERIFIED_MODEL"
  else "CUSTOM_SCORER".

(** src/services/api/app/services/decision_engine.py:154-175 [RecoveryDecisionContext] *)
Record RecoveryDecisionContext : Type := {
  dc_case_id : string;
  dc_amount_at_risk_paise : Z;
  dc_diagnosis : Diagnosis;
  dc_case_outcome : CaseOutcome;
  dc_payment_state : PaymentState;
  dc_subscription_state : SubscriptionState;
  dc_contact_disposition : ContactDisposition;
  dc_recovery_deadline : datetime;
  dc_now : datetime;
  dc_has_failed_invoice : bool;
  dc_active_gateway_retries : bool;
  dc_standard_payment_link_available : bool;
  dc_voice_action_available : bool;
  dc_voice_consent : bool;
  dc_voice_destination_available : bool;
  dc_customer_agent_action_available : bool;
  dc_customer_agent_available : bool;
  dc_model_features : option (list (string * json));
}.

(** src/services/api/app/services/decision_engine.py:177-185 [RecoveryDecisionContext.__post_init__] *)
Definition decision_context_post_init (c : RecoveryDecisionContext)
  : result RecoveryDecisionContext :=
  _ ← raise_if (dc_amount_at_risk_paise c <? 0)
        (ValueError "amount_at_risk_paise must be a non-negative integer");
  _ ← raise_if (negb (is_aware (dc_now c))) (ValueError "now must be timezone-aware");
  _ ← raise_if (negb (is_aware (dc_recovery_deadline c)))
        (ValueError "recovery_deadline must be timezone-aware");
  mret c.

(** src/services/api/app/services/decision_engine.py:188-193 [RecoveryActionCandidate] *)
Record RecoveryActionCandidate : Type := {
  ac_action_type : RecoveryActionType;
  ac_payment_surface_type : option PaymentSurfaceType;
  ac_technical_reason : string;
  ac_tie_priority : Z;
}.

Definition surface_value (s : option PaymentSurfaceType) : option string :=
  PaymentSurfaceType_value <$> s.

(** src/services/api/app/services/decision_engine.py:195-198 [RecoveryActionCandidate.key] *)
Definition candidate_key (c : RecoveryActionCandidate) : string :=
  RecoveryActionType_value (ac_action_type c) +++ ":"
    +++ default "none" (surface_value (ac_payment_surface_type c)).

(** src/services/api/app/services/decision_engine.py:201-209 [RankedRecoveryCandidate] *)
Record RankedRecoveryCandidate : Type := {
  rk_rank : Z;
  rk_candidate : RecoveryActionCandidate;
  rk_score : RecoveryScoreResult;
  rk_policy : PolicyDecision;
  rk_selected : bool;
  rk_rejection_code : option string;
  rk_rejection_reason : option string;
}.

(** src/services/api/app/services/decision_engine.py:247-252 [RecoveryDecisionResult] *)
Record RecoveryDecisionResult : Type := {
  dr_recommendation : ActionRecommendation;
  dr_policy : PolicyDecision;
  dr_ranked_candidates : list RankedRecoveryCandidate;
  dr_feature_snapshot : list (string * json);
}.

(** src/services/api/app/services/decision_engine.py:254-256 [RecoveryDecisionResult.selected] *)
Definition decision_selected (r : RecoveryDecisionResult) : result RankedRecoveryCandidate :=
  match List.find rk_selected (dr_ranked_candidates r) with
  | Some c => Ok c
  | None => Err StopIteration
  end.

(** src/services/api/app/services/decision_engine.py:288-320 [_surface_candidates] *)
Definition surface_candidates (context : RecoveryDecisionContext) : list RecoveryActionCandidate :=
  if negb (dc_has_failed_invoice context) then []
  else if mem (dc_diagnosis context) NON_CUSTOMER_REMEDIABLE_DIAGNOSES then []
  else if bool_decide (dc_diagnosis context = Diagnosis.TRANSIENT_RETRYABLE)
          && dc_active_gateway_retries context then []
  else
    let surfaces :=
      [PaymentSurfaceType.SUBSCRIPTION_CARD_UPDATE; PaymentSurfaceType.SUBSCRIPTION_INVOICE_LINK]
      ++ (if dc_standard_payment_link_available context
          then [PaymentSurfaceType.STANDARD_PAYMENT_LINK] else []) in
    let preferred := SURFACE_PREFERENCE (dc_diagnosis context) in
    let key surface := (if bool_decide (surface = preferred) then 0 else 1,
                        PaymentSurfaceType_value surface) in
    imap (fun index surface => {|
        ac_action_type := RecoveryActionType.OPEN_CUSTOMER_PAYMENT_SURFACE;
        ac_payment_surface_type := Some surface;
        ac_technical_reason := "A trusted failed invoice is available for this bounded surface.";
        ac_tie_priority :=
          ACTION_TIE_PRIORITY RecoveryActionType.OPEN_CUSTOMER_PAYMENT_SURFACE + Z.of_nat index;
      |}) (sorted_on key (cmp_lex Z.compare cmp_string) surfaces).

(** src/services/api/app/services/decision_engine.py:323-386 [generate_technically_eligible_actions] *)
Definition generate_technically_eligible_actions (context : RecoveryDecisionContext)
  : list RecoveryActionCandidate :=
  let candidate action reason := {|
    ac_action_type := action; ac_payment_surface_type := None;
    ac_technical_reason := reason; ac_tie_priority := ACTION_TIE_PRIORITY action |} in
  let customer_remediable :=
    negb (mem (dc_diagnosis context) NON_CUSTOMER_REMEDIABLE_DIAGNOSES) in
  (if dc_active_gateway_retries context
      && mem (dc_diagnosis context) GATEWAY_RETRY_RELEVANT_DIAGNOSES
   then [candidate RecoveryActionType.WAIT_FOR_GATEWAY_RETRY
           "The provider owns an active subscription retry."] else [])
  ++ surface_candidates context
  ++ (if customer_remediable && dc_voice_action_available context && dc_voice_consent context
         && dc_voice_destination_available context
      then [candidate RecoveryActionType.START_VOICE
              "The deployed voice executor has consent and a tokenized destination."] else [])
  ++ (if customer_remediable && dc_customer_agent_action_available context
         && dc_customer_agent_available context
      then [candidate RecoveryActionType.SEND_TO_CUSTOMER_AGENT
              "The customer-agent executor is available for this customer."] else [])
  ++ [candidate RecoveryActionType.ESCALATE_TO_HUMAN
        "Human review is always available as a non-customer-facing control.";
      candidate RecoveryActionType.STOP
        "Stopping automation is always technically available."].

Abbreviation ranked_pair := (RecoveryActionCandidate * RecoveryScoreResult)%type.

(** src/services/api/app/services/decision_engine.py:431-437 [RecoveryDecisionEngine.decide]:
    the sort key. *)
Definition rank_key (item : ranked_pair) : Z * (Z * (Q * (Z * string))) :=
  (- rs_expected_utility_paise item.2,
   (- rs_expected_recovered_paise item.2,
    ((- rs_recovery_probability item.2)%Q,
     (ac_tie_priority item.1, candidate_key item.1)))).
Definition rank_cmp : Z * (Z * (Q * (Z * string))) -> Z * (Z * (Q * (Z * string))) -> comparison :=
  cmp_lex Z.compare (cmp_lex Z.compare (cmp_lex Qcompare (cmp_lex Z.compare cmp_string))).

(** src/services/api/app/services/decision_engine.py:429-438 [RecoveryDecisionEngine.decide] *)
Definition rank_pairs (pairs : list ranked_pair) : list ranked_pair :=
  sorted_on rank_key rank_cmp pairs.

Definition not_blocked (p : PolicyDecision) : bool :=
  negb (bool_decide (pd_disposition p = PolicyDisposition.BLOCK)).

(** [next(index for index, x in enumerate(l) if f(x))] *)
Fixpoint find_index {A} (f : A -> bool) (l : list A) : option nat :=
  match l with
  | [] => None
  | x :: l' => if f x then Some 0%nat else S <$> find_index f l'
  end.

(** src/services/api/app/services/decision_engine.py:475-492 [RecoveryDecisionEngine.decide]:
    why a candidate that is not selected was rejected. *)
Definition rejection_of (selected : ranked_pair) (score : RecoveryScoreResult)
    (policy : PolicyDecision) : result (string * string) :=
  let selected_utility := rs_expected_utility_paise selected.2 in
  if bool_decide (pd_disposition policy = PolicyDisposition.BLOCK) then
    reason ← from_option IndexError (head (pd_reasons policy));
    mret (pd_decision_code policy, reason)
  else if rs_expected_utility_paise score =? selected_utility then
    mret ("STABLE_TIE_BREAK",
          "Expected utility tied; the stable, auditable tie-break selected "
            +++ candidate_key selected.1 +++ ".")
  else
    mret ("LOWER_EXPECTED_UTILITY",
          "Expected utility was "
            +++ str_of_Z (selected_utility - rs_expected_utility_paise score)
            +++ " paise below the selected candidate.").

(** src/services/api/app/services/decision_engine.py:467-511 [RecoveryDecisionEngine.decide]:
    the pass over the ranking, from index [index] on. *)
Fixpoint rank_rows (selected_index : nat) (selected : ranked_pair) (index : nat)
    (rows : list (ranked_pair * PolicyDecision))
  : result (list RankedRecoveryCandidate * list RejectedAlternative) :=
  match rows with
  | [] => mret ([], [])
  | ((candidate, score), policy) :: rest =>
      let is_selected := bool_decide (index = selected_index + 1)%nat in
      rejection ← (if is_selected then mret None
                   else r ← rejection_of selected score policy; mret (Some r));
      tail_ ← rank_rows selected_index selected (S index) rest;
      let row := {|
        rk_rank := Z.of_nat index; rk_candidate := candidate; rk_score := score;
        rk_policy := policy; rk_selected := is_selected;
        rk_rejection_code := fst <$> rejection; rk_rejection_reason := snd <$> rejection |} in
      let rejected :=
        match rejection with
        | Some (code, reason) =>
            [{| ra_action := ac_action_type candidate;
                ra_payment_surface_type := ac_payment_surface_type candidate;
                ra_reason_code := code; ra_reason := reason |}]
        | None => []
        end in
      mret (row :: fst tail_, rejected ++ snd tail_)
  end.

Section audit.
(** [datetime.isoformat] of a UTC instant. *)
Context (isoformat : Z -> string).

Definition model_audit (s : RecoveryScoreResult) : json := JObj [
  ("name", JStr (rs_model_name s)); ("version", JStr (rs_model_version s));
  ("artifact_checksum", opt_str (rs_artifact_checksum s));
  ("scoring_mode", JStr (scoring_mode s))].

(** src/services/api/app/services/decision_engine.py:211-244 [RankedRecoveryCandidate.to_audit_dict] *)
Definition to_audit_dict (c : RankedRecoveryCandidate) : json := JObj [
  ("rank", JInt (rk_rank c));
  ("action_type", JStr (RecoveryActionType_value (ac_action_type (rk_candidate c))));
  ("payment_surface_type", opt_str (surface_value (ac_payment_surface_type (rk_candidate c))));
  ("technical_reason", JStr (ac_technical_reason (rk_candidate c)));
  ("recovery_probability", JFloat (rs_recovery_probability (rk_score c)));
  ("expected_recovered_paise", JInt (rs_expected_recovered_paise (rk_score c)));
  ("expected_utility_paise", JInt (rs_expected_utility_paise (rk_score c)));
  ("model", model_audit (rk_score c));
  ("explanation", JArr (map JStr (rs_explanation (rk_score c))));
  ("policy", JObj [
     ("disposition", JStr (PolicyDisposition_value (pd_disposition (rk_policy c))));
     ("decision_code", JStr (pd_decision_code (rk_policy c)));
     ("reason_codes", JArr (map JStr (pd_reason_codes (rk_policy c))));
     ("reasons", JArr (map JStr (pd_reasons (rk_policy c))));
     ("policy_version", JStr (pd_policy_version (rk_policy c)));
     ("delay_until", opt_str (isoformat <$> pd_delay_until (rk_policy c)))]);
  ("selected", JBool (rk_selected c));
  ("rejection_code", opt_str (rk_rejection_code c));
  ("rejection_reason", opt_str (rk_rejection_reason c))].

(** src/services/api/app/services/decision_engine.py:258-285 [RecoveryDecisionResult.to_audit_payload] *)
Definition to_audit_payload (action_id : option string) (r : RecoveryDecisionResult)
  : result json :=
  selected ← decision_selected r;
  mret (JObj [
    ("decision_engine_version", JStr "recovery-ranking.v1");
    ("action_id", opt_str action_id);
    ("selection_basis", JStr "MAX_POLICY_ELIGIBLE_EXPECTED_UTILITY");
    ("selected_rank", JInt (rk_rank selected));
    ("selected_action_type",
       JStr (RecoveryActionType_value (ac_action_type (rk_candidate selected))));
    ("selected_payment_surface_type",
       opt_str (surface_value (ac_payment_surface_type (rk_candidate selected))));
    ("selected_expected_recovered_paise", JInt (rs_expected_recovered_paise (rk_score selected)));
    ("selected_expected_utility_paise", JInt (rs_expected_utility_paise (rk_score selected)));
    ("selected_model", model_audit (rk_score selected));
    ("feature_snapshot", JObj (dr_feature_snapshot r));
    ("ranked_candidates", JArr (map to_audit_dict (dr_ranked_candidates r)));
    ("rejected_alternatives", JArr (map (fun alternative => JObj [
       ("action", JStr (RecoveryActionType_value (ra_action alternative)));
       ("payment_surface_type", opt_str (surface_value (ra_payment_surface_type alternative)));
       ("reason_code", JStr (ra_reason_code alternative));
       ("reason", JStr (ra_reason alternative))])
       (rec_rejected_alternatives (dr_recommendation r))))]).
End audit.

Section decide.
Context (tzdb : string -> option ZoneInfo)
        (scorer : RecoveryScoreRequest -> result RecoveryScoreResult).

(** src/services/api/app/services/decision_engine.py:538-568 [RecoveryDecisionEngine._feature_snapshot] *)
Definition feature_snapshot (context : RecoveryDecisionContext) (config : SafetyPolicyConfig)
  : result (list (string * json)) :=
  is_quiet_hours ←
    match quiet_hours_start config, quiet_hours_end config with
    | Some start, Some end_ =>
        z ← from_option (KeyError (merchant_timezone config)) (tzdb (merchant_timezone config));
        until ← quiet_hours_delay_until (dt_instant (dc_now context)) z start end_;
        mret (bool_decide (is_Some until))
    | _, _ => mret false
    end;
  mret (dict_merge (default [] (dc_model_features context)) [
    ("amount_at_risk_paise", JInt (dc_amount_at_risk_paise context));
    ("diagnosis", JStr (Diagnosis_value (dc_diagnosis context)));
    ("customer_agent_available", JBool (dc_customer_agent_available context));
    ("voice_consent", JBool (dc_voice_consent context));
    ("is_quiet_hours", JBool is_quiet_hours);
    ("subscription_state", JStr (SubscriptionState_value (dc_subscription_state context)));
    ("payment_state", JStr (PaymentState_value (dc_payment_state context)));
    ("contact_disposition", JStr (ContactDisposition_value (dc_contact_disposition context)));
    ("active_gateway_retries", JBool (dc_active_gateway_retries context))]).

(** src/services/api/app/services/decision_engine.py:405-424 [RecoveryDecisionEngine.decide]:
    the request scored for a candidate. *)
Definition score_request (context : RecoveryDecisionContext) (features : list (string * json))
    (c : RecoveryActionCandidate) : RecoveryScoreRequest := {|
  rq_case_id := dc_case_id context;
  rq_amount_at_risk_paise := dc_amount_at_risk_paise context;
  rq_diagnosis := dc_diagnosis context;
  rq_candidate_action := ac_action_type c;
  rq_features := dict_set "payment_surface_type"
                   (opt_str (surface_value (ac_payment_surface_type c))) features;
|}.

(** src/services/api/app/services/decision_engine.py:441-452 [RecoveryDecisionEngine.decide]:
    the policy input of one ranked candidate. *)
Definition candidate_policy_context (context : RecoveryDecisionContext)
    (c : RecoveryActionCandidate) : SafetyPolicyContext := {|
  ctx_now := dt_instant (dc_now context);
  ctx_recovery_deadline := dt_instant (dc_recovery_deadline context);
  ctx_case_outcome := dc_case_outcome context;
  ctx_payment_state := dc_payment_state context;
  ctx_subscription_state := dc_subscription_state context;
  ctx_contact_disposition := dc_contact_disposition context;
  ctx_action := ac_action_type c;
  ctx_payment_surface_type := ac_payment_surface_type c;
  ctx_amount_at_risk_paise := dc_amount_at_risk_paise context;
  ctx_active_gateway_retries := dc_active_gateway_retries context;
  ctx_contact_attempts_in_window := 0;
  ctx_contact_limit_resets_at := None;
|}.

(** src/services/api/app/services/decision_engine.py:439-456 [RecoveryDecisionEngine.decide] *)
Definition candidate_policy (context : RecoveryDecisionContext) (config : SafetyPolicyConfig)
    (c : RecoveryActionCandidate) : result PolicyDecision :=
  policy_context ← safety_context_post_init (dc_now context) (dc_recovery_deadline context) None
                     (candidate_policy_context context c);
  decision ← evaluate_safety_policy tzdb policy_context config;
  to_contract decision.

(** src/services/api/app/services/decision_engine.py:513-530 [RecoveryDecisionEngine.decide]:
    the recommendation of the selected candidate. *)
Definition build_recommendation (selected : ranked_pair) (policy : PolicyDecision)
    (rejected : list RejectedAlternative) : result ActionRecommendation :=
  let (candidate, score) := selected in
  validate_recommendation {|
    rec_action := ac_action_type candidate;
    rec_payment_surface_type := ac_payment_surface_type candidate;
    rec_predicted_recovery_probability := rs_recovery_probability score;
    rec_expected_recovered_paise := rs_expected_recovered_paise score;
    rec_expected_utility_paise := rs_expected_utility_paise score;
    rec_confidence := rs_recovery_probability score;
    rec_reason_codes :=
      (if bool_decide (scoring_mode score = "DETERMINISTIC_FALLBACK")
       then "DETERMINISTIC_FALLBACK_MAX_POLICY_ELIGIBLE_UTILITY"
       else "MODEL_MAX_POLICY_ELIGIBLE_EXPECTED_UTILITY") :: pd_reason_codes policy;
    rec_reasons := rs_explanation score ++ pd_reasons policy;
    rec_rejected_alternatives := rejected;
  |}.

(** src/services/api/app/services/decision_engine.py:395-536 [RecoveryDecisionEngine.decide] *)
Definition decide_recovery (context : RecoveryDecisionContext) (config : SafetyPolicyConfig)
  : result RecoveryDecisionResult :=
  let candidates := generate_technically_eligible_actions context in
  _ ← raise_if (match candidates with [] => true | _ => false end)
        (RuntimeError "decision engine generated no technically eligible action");
  features ← feature_snapshot context config;
  scores ← map_result (fun c => scorer (score_request context features c)) candidates;
  _ ← raise_if (existsb (fun s => dc_amount_at_risk_paise context
                                    <? rs_expected_recovered_paise s) scores)
        (ValueError "scorer expected recovery exceeds the amount at risk");
  let ranked_pairs := rank_pairs (zip candidates scores) in
  policies ← map_result (fun item => candidate_policy context config item.1) ranked_pairs;
  selected_index ← from_option (RuntimeError "coroutine raised StopIteration")
                     (find_index not_blocked policies);
  selected ← from_option IndexError (ranked_pairs !! selected_index);
  selected_policy ← from_option IndexError (policies !! selected_index);
  rows ← rank_rows selected_index selected 1 (zip ranked_pairs policies);
  recommendation ← build_recommendation selected selected_policy (snd rows);
  mret {| dr_recommendation := recommendation; dr_policy := selected_policy;
          dr_ranked_candidates := fst rows; dr_feature_snapshot := features |}.
End decide.

(** ** Eligibility *)

(** The structural facts of a candidate. *)
Definition candidate_wf (c : RecoveryActionCandidate) : Prop :=
  surface_matches (ac_action_type c) (ac_payment_surface_type c) = true.

(** When a surface is offered. *)
Definition surface_offered (context : RecoveryDecisionContext) (s : PaymentSurfaceType) : Prop :=
  dc_has_failed_invoice context = true /\
  dc_diagnosis context ∉ NON_CUSTOMER_REMEDIABLE_DIAGNOSES /\
  (dc_diagnosis context = Diagnosis.TRANSIENT_RETRYABLE ->
     dc_active_gateway_retries context = false) /\
  (s = PaymentSurfaceType.STANDARD_PAYMENT_LINK ->
     dc_standard_payment_link_available context = true).

Lemma surface_candidates_iff context s :
  (exists c, c ∈ surface_candidates context /\ ac_payment_surface_type c = Some s) <->
  surface_offered context s.
Proof.
  unfold surface_candidates, surface_offered.
  destruct (dc_has_failed_invoice context); cbn [negb];
    [|split; [by intros (c & ?%not_elem_of_nil & _) | by intros [? _]]].
  destruct (mem (dc_diagnosis context) _) eqn:E2;
    [apply mem_true in E2; split; [by intros (c & ?%not_elem_of_nil & _) | by intros (_ & ? & _)]|].
  apply mem_false in E2.
  destruct (bool_decide _ && _) eqn:E3.
  { bools. split; [by intros (c & ?%not_elem_of_nil & _)|].
    intros (_ & _ & Hr & _). by rewrite Hr in *. }
  assert (forall l, (exists c, c ∈ imap (fun index surface => {|
        ac_action_type := RecoveryActionType.OPEN_CUSTOMER_PAYMENT_SURFACE;
        ac_payment_surface_type := Some surface;
        ac_technical_reason := "A trusted failed invoice is available for this bounded surface.";
        ac_tie_priority := ACTION_TIE_PRIORITY RecoveryActionType.OPEN_CUSTOMER_PAYMENT_SURFACE
                             + Z.of_nat index |}) l
      /\ ac_payment_surface_type c = Some s) <-> s ∈ l) as Himap.
  { intros l. setoid_rewrite elem_of_lookup_imap. split.
    - intros (c & (i & y & -> & Hy) & [= <-]). by eapply list_elem_of_lookup_2.
    - intros [i Hi]%list_elem_of_lookup. eexists. split; [by exists i, s|done]. }
  rewrite Himap, sorted_on_perm, elem_of_app. split.
  - intros Hs. split; [done|]. split; [done|]. split.
    + intros Hd. rewrite Hd in E3. by destruct (dc_active_gateway_retries context).
    + intros ->. destruct Hs as [Hs|Hs]; [|by apply elem_of_if in Hs as [? _]].
      exfalso. revert Hs. by apply mem_false.
  - intros (_ & _ & _ & H). destruct s; [left; by apply mem_true..|].
    right. rewrite H by done. by apply list_elem_of_singleton.
Qed.

Lemma surface_candidates_action context c :
  c ∈ surface_candidates context ->
  ac_action_type c = RecoveryActionType.OPEN_CUSTOMER_PAYMENT_SURFACE /\ candidate_wf c.
Proof.
  unfold surface_candidates. intros H.
  repeat (split_match_in H; [by apply not_elem_of_nil in H|]).
  apply elem_of_lookup_imap in H as (i & s & -> & _). done.
Qed.

(** Membership in the offered list, constructor by constructor. *)
Lemma eligible_iff context c :
  c ∈ generate_technically_eligible_actions context <->
  let plain a reason := c = {| ac_action_type := a; ac_payment_surface_type := None;
    ac_technical_reason := reason; ac_tie_priority := ACTION_TIE_PRIORITY a |} in
  let remediable := dc_diagnosis context ∉ NON_CUSTOMER_REMEDIABLE_DIAGNOSES in
  ((dc_active_gateway_retries context = true /\
    dc_diagnosis context ∈ GATEWAY_RETRY_RELEVANT_DIAGNOSES) /\
   plain RecoveryActionType.WAIT_FOR_GATEWAY_RETRY
     "The provider owns an active subscription retry.") \/
  c ∈ surface_candidates context \/
  ((remediable /\ dc_voice_action_available context = true /\
    dc_voice_consent context = true /\ dc_voice_destination_available context = true) /\
   plain RecoveryActionType.START_VOICE
     "The deployed voice executor has consent and a tokenized destination.") \/
  ((remediable /\ dc_customer_agent_action_available context = true /\
    dc_customer_agent_available context = true) /\
   plain RecoveryActionType.SEND_TO_CUSTOMER_AGENT
     "The customer-agent executor is available for this customer.") \/
  plain RecoveryActionType.ESCALATE_TO_HUMAN
    "Human review is always available as a non-customer-facing control." \/
  plain RecoveryActionType.STOP "Stopping automation is always technically available.".
Proof.
  unfold generate_technically_eligible_actions. cbn zeta.
  rewrite !elem_of_app, !elem_of_if, !elem_of_cons, elem_of_nil, !andb_true_iff, !negb_true_iff,
    !mem_false, !mem_true. tauto.
Qed.

Lemma eligible_wf context c :
  c ∈ generate_technically_eligible_actions context -> candidate_wf c.
Proof.
  intros Hc. apply eligible_iff in Hc. cbn zeta in Hc.
  destruct Hc as [[_ ->]|[Hc|[[_ ->]|[[_ ->]|[-> | ->]]]]]; try done.
  by eapply surface_candidates_action.
Qed.

Lemma eligible_stop context :
  exists c, c ∈ generate_technically_eligible_actions context /\
            ac_action_type c = RecoveryActionType.STOP.
Proof. eexists; split; [apply eligible_iff; by do 5 right|done]. Qed.

(** the candidates offered to the scorer are exactly those the case and the
    deployment support: a gateway retry only while one is active for a diagnosis a
    retry can cure; a payment surface only for a failed invoice the customer can
    remedy and never in competition with an active retry of a transient failure; a
    call only with executor, consent and destination; the customer agent only when
    both ends are available; and the two controls always. *)
Theorem eligible_actions_exact context :
  let actions := generate_technically_eligible_actions context in
  let remediable := dc_diagnosis context ∉ NON_CUSTOMER_REMEDIABLE_DIAGNOSES in
  let offered a s := exists c, c ∈ actions /\ ac_action_type c = a
                               /\ ac_payment_surface_type c = s in
  Forall candidate_wf actions /\
  (offered RecoveryActionType.WAIT_FOR_GATEWAY_RETRY None <->
     dc_active_gateway_retries context = true /\
     dc_diagnosis context ∈ GATEWAY_RETRY_RELEVANT_DIAGNOSES) /\
  (forall s, offered RecoveryActionType.OPEN_CUSTOMER_PAYMENT_SURFACE (Some s) <->
     dc_has_failed_invoice context = true /\ remediable /\
     (dc_diagnosis context = Diagnosis.TRANSIENT_RETRYABLE ->
        dc_active_gateway_retries context = false) /\
     (s = PaymentSurfaceType.STANDARD_PAYMENT_LINK ->
        dc_standard_payment_link_available context = true)) /\
  (offered RecoveryActionType.START_VOICE None <->
     remediable /\ dc_voice_action_available context = true /\
     dc_voice_consent context = true /\ dc_voice_destination_available context = true) /\
  (offered RecoveryActionType.SEND_TO_CUSTOMER_AGENT None <->
     remediable /\ dc_customer_agent_action_available context = true /\
     dc_customer_agent_available context = true) /\
  offered RecoveryActionType.ESCALATE_TO_HUMAN None /\ offered RecoveryActionType.STOP None.
Proof.
  cbn zeta. split; [apply Forall_forall; apply eligible_wf|].
  assert (forall a, a <> RecoveryActionType.OPEN_CUSTOMER_PAYMENT_SURFACE ->
    forall c, c ∈ surface_candidates context -> ac_action_type c = a -> False) as Hno.
  { intros a Ha c Hc <-. by apply surface_candidates_action in Hc as [? _]. }
  split; [|split; [|split; [|split; [|split]]]].
  2: { intros s. etrans; [|exact (surface_candidates_iff context s)]. split.
    - intros (c & Hc & Ha & Hs). exists c. split; [|done]. apply eligible_iff in Hc. cbn zeta in Hc.
      destruct Hc as [[_ ->]|[Hc|[[_ ->]|[[_ ->]|[-> | ->]]]]]; done.
    - intros (c & Hc & Hs). exists c. split; [apply eligible_iff; by right; left|].
      split; [|done]. by apply surface_candidates_action in Hc as [? _]. }
  4: eexists; split; [apply eligible_iff; do 4 right; by left|done].
  4: eexists; split; [apply eligible_iff; by do 5 right|done].
  all: split;
    [ intros (c & Hc & Ha & Hs); apply eligible_iff in Hc; cbn zeta in Hc;
      destruct Hc as [[? ->]|[Hc|[[? ->]|[[? ->]|[-> | ->]]]]]; try done;
      exfalso; by refine (Hno _ _ c Hc Ha)
    | intros H; eexists; split; [apply eligible_iff; cbn zeta|] ].
  1: left. 3: do 2 right; left. 5: do 3 right; left.
  1, 3, 5: split; [exact H|reflexivity].
  all: done.
Qed.

(** ** The ranking pass *)

Lemma find_index_spec {A} (f : A -> bool) l i :
  find_index f l = Some i ->
  (exists x, l !! i = Some x /\ f x = true) /\
  (forall j y, (j < i)%nat -> l !! j = Some y -> f y = false).
Proof.
  revert i. induction l as [|x l IH]; intros i; cbn; [done|].
  destruct (f x) eqn:E.
  - intros [= <-]. split; [eauto|]. intros j y ?. lia.
  - destruct (find_index f l) as [k|]; cbn; [|done]. intros [= <-].
    destruct (IH k eq_refl) as [[y [Hy Hf]] Hlt]. split; [eauto|].
    intros [|j] z Hj Hz; cbn in *; [congruence|]. eapply Hlt; [|done]. lia.
Qed.

Lemma find_index_total {A} (f : A -> bool) l x :
  x ∈ l -> f x = true -> exists i, find_index f l = Some i.
Proof.
  intros Hx Hf. induction l as [|y l IH]; cbn; [by apply not_elem_of_nil in Hx|].
  destruct (f y) eqn:E; [eauto|]. apply elem_of_cons in Hx as [->|Hx]; [congruence|].
  destruct (IH Hx) as [i ->]. cbn. eauto.
Qed.

(** What a row of the ranking keeps of the pair it was made from. *)
Definition row_source (c : RankedRecoveryCandidate) : ranked_pair * PolicyDecision :=
  ((rk_candidate c, rk_score c), rk_policy c).

Lemma rank_rows_spec si sel k rows out rejected :
  rank_rows si sel k rows = Ok (out, rejected) ->
  map row_source out = rows /\
  (forall j c, out !! j = Some c ->
     rk_rank c = Z.of_nat (k + j) /\ rk_selected c = bool_decide (k + j = si + 1)%nat /\
     (rk_rejection_code c = None <-> rk_selected c = true)) /\
  map (fun c => (ac_action_type (rk_candidate c), ac_payment_surface_type (rk_candidate c),
                 rk_rejection_code c, rk_rejection_reason c))
      (List.filter (fun c => negb (rk_selected c)) out)
    = map (fun r => (ra_action r, ra_payment_surface_type r,
                     Some (ra_reason_code r), Some (ra_reason r))) rejected.
Proof.
  revert k out rejected. induction rows as [|[[cand score] policy] rest IH];
    intros k out rejected; cbn -[rejection_of]; intros H.
  { injection H as <- <-. by repeat split. }
  apply bind_Ok in H as (rej & Hrej & H). simp_res. destruct x as [out' rejected'].
  cbn [fst snd] in *. destruct (IH (S k) out' rejected' H) as (H1 & H2 & H3).
  assert (rej = None <-> bool_decide (k = si + 1)%nat = true) as Hnone.
  { destruct (bool_decide (k = si + 1)%nat); simp_res; done. }
  split; [cbn; by rewrite H1|]. split.
  - intros [|j] c Hc; cbn in Hc; simp_res; cbn.
    + rewrite Nat.add_0_r. split; [done|]. split; [done|]. rewrite <- Hnone.
      destruct rej; cbn; split; done.
    + destruct (H2 j c Hc) as (A & B & C). rewrite <- Nat.add_succ_comm. done.
  - cbn. destruct rej as [[code reason]|]; cbn.
    + destruct (bool_decide (k = si + 1)%nat) eqn:E; cbn; [|by rewrite H3].
      by destruct Hnone as [_ Hn]; discriminate Hn.
    + destruct (bool_decide (k = si + 1)%nat) eqn:E; cbn; [done|].
      by destruct Hnone as [Hn _]; discriminate Hn.
Qed.

Lemma rank_rows_total si sel k rows :
  Forall (fun row => pd_reasons row.2 <> []) rows ->
  exists r, rank_rows si sel k rows = Ok r.
Proof.
  revert k. induction rows as [|[[cand score] policy] rest IH]; intros k H; cbn; [eauto|].
  apply Forall_cons in H as [Hp Hr]. destruct (IH (S k) Hr) as [r ->].
  unfold rejection_of. destruct (bool_decide (k = _)%nat); cbn; [eauto|].
  cbn in Hp. destruct (bool_decide _); cbn; [destruct (pd_reasons policy); cbn; [done|eauto]|].
  destruct (_ =? _); cbn; eauto.
Qed.

#[export] Instance rank_cmp_total : TotalCmp rank_cmp.
Proof. repeat apply cmp_lex_total; apply _. Qed.

(** A higher place in the ranking has at least the expected utility. *)
Lemma rank_pairs_utility pairs :
  StronglySorted (fun a b => rs_expected_utility_paise b.2 <= rs_expected_utility_paise a.2)
    (rank_pairs pairs).
Proof.
  pose proof (sorted_on_sorted rank_key rank_cmp pairs) as H.
  unfold rank_pairs. induction H as [|x l _ IH Hx]; constructor; [done|].
  eapply Forall_impl; [exact Hx|]. intros y. unfold rank_cmp, cmp_lex, rank_key. cbn.
  destruct (Z.compare_spec (- rs_expected_utility_paise x.2) (- rs_expected_utility_paise y.2));
    intros; try lia. done.
Qed.

Lemma StronglySorted_lookup {A} (R : A -> A -> Prop) l i j x y :
  StronglySorted R l -> (i < j)%nat -> l !! i = Some x -> l !! j = Some y -> R x y.
Proof.
  intros H. revert i j. induction H as [|z l Hl IH Hz]; intros i j Hij Hx Hy; [done|].
  destruct j as [|j]; [lia|]. destruct i as [|i]; cbn in *; simp_res.
  - rewrite Forall_lookup in Hz. eauto.
  - eapply IH; [|done..]. lia.
Qed.

(** ** What a decision guarantees *)

Lemma length_filter_all {A} (f : A -> bool) l :
  (forall x, x ∈ l -> f x = true) -> length (List.filter f l) = length l.
Proof.
  induction l as [|y l IH]; intros H; cbn; [done|]. rewrite (H y) by left. cbn.
  rewrite IH; [done|]. intros; apply H. by right.
Qed.

Lemma length_filter_but_one {A} (f : A -> bool) l i x :
  l !! i = Some x -> f x = false -> (forall j y, l !! j = Some y -> j <> i -> f y = true) ->
  length l = S (length (List.filter f l)).
Proof.
  revert i. induction l as [|y l IH]; intros i Hi Hx Hrest; [done|].
  destruct i as [|i]; cbn in Hi |- *.
  - injection Hi as ->. rewrite Hx, length_filter_all; [done|].
    intros z [j Hj]%list_elem_of_lookup. by apply (Hrest (S j)).
  - rewrite (Hrest 0%nat y) by done. cbn. f_equal. apply (IH i); [done..|].
    intros j z Hj Hne. apply (Hrest (S j)); [done|congruence].
Qed.

Section decide_facts.
Context (tzdb : string -> option ZoneInfo)
        (scorer : RecoveryScoreRequest -> result RecoveryScoreResult).

Lemma decide_inv context config r :
  decide_recovery tzdb scorer context config = Ok r ->
  exists scores policies i selected policy rejected,
    let ranked := rank_pairs (zip (generate_technically_eligible_actions context) scores) in
    length scores = length (generate_technically_eligible_actions context) /\
    Forall2 (fun item p => candidate_policy tzdb context config item.1 = Ok p) ranked policies /\
    find_index not_blocked policies = Some i /\
    ranked !! i = Some selected /\ policies !! i = Some policy /\
    rank_rows i selected 1 (zip ranked policies) = Ok (dr_ranked_candidates r, rejected) /\
    build_recommendation selected policy rejected = Ok (dr_recommendation r) /\
    dr_policy r = policy.
Proof.
  unfold decide_recovery. intros H. apply bind_Ok in H as (u & _ & H).
  apply bind_Ok in H as (features & _ & H). apply bind_Ok in H as (scores & Hs & H).
  apply bind_Ok in H as (u' & _ & H). apply bind_Ok in H as (policies & Hp & H).
  apply bind_Ok in H as (i & Hi & H). apply bind_Ok in H as (selected & Hsel & H).
  apply bind_Ok in H as (policy & Hpol & H). apply bind_Ok in H as ([rows rejected] & Hrows & H).
  apply bind_Ok in H as (recommendation & Hrec & H). injection H as <-.
  apply from_option_Ok in Hi, Hsel, Hpol. apply map_result_Ok in Hs, Hp.
  exists scores, policies, i, selected, policy, rejected. cbn zeta.
  split; [symmetry; by eapply Forall2_length|]. done.
Qed.

Lemma recommendation_of selected policy rejected rec :
  build_recommendation selected policy rejected = Ok rec ->
  rec_action rec = ac_action_type selected.1 /\
  rec_payment_surface_type rec = ac_payment_surface_type selected.1 /\
  rec_expected_utility_paise rec = rs_expected_utility_paise selected.2 /\
  rec_rejected_alternatives rec = rejected.
Proof.
  destruct selected as [c s]. unfold build_recommendation, validate_recommendation.
  intros H. simp_res. done.
Qed.

(** The rows of a decision, read back. *)
Lemma decide_rows context config r :
  decide_recovery tzdb scorer context config = Ok r ->
  exists i sel,
    dr_ranked_candidates r !! i = Some sel /\
    (forall j c, dr_ranked_candidates r !! j = Some c ->
       rk_rank c = Z.of_nat (1 + j) /\
       rk_selected c = bool_decide (j = i) /\
       candidate_policy tzdb context config (rk_candidate c) = Ok (rk_policy c) /\
       rk_candidate c ∈ generate_technically_eligible_actions context /\
       ((j < i)%nat -> not_blocked (rk_policy c) = false) /\
       ((i <= j)%nat ->
          rs_expected_utility_paise (rk_score c) <= rs_expected_utility_paise (rk_score sel))) /\
    not_blocked (rk_policy sel) = true /\ dr_policy r = rk_policy sel /\
    rec_action (dr_recommendation r) = ac_action_type (rk_candidate sel) /\
    rec_payment_surface_type (dr_recommendation r) = ac_payment_surface_type (rk_candidate sel) /\
    map rk_candidate (dr_ranked_candidates r) ≡ₚ generate_technically_eligible_actions context /\
    map (fun c => (ac_action_type (rk_candidate c), ac_payment_surface_type (rk_candidate c),
                   rk_rejection_code c, rk_rejection_reason c))
        (List.filter (fun c => negb (rk_selected c)) (dr_ranked_candidates r))
      = map (fun a => (ra_action a, ra_payment_surface_type a, Some (ra_reason_code a),
                       Some (ra_reason a)))
            (rec_rejected_alternatives (dr_recommendation r)).
Proof.
  intros H. apply decide_inv in H as (scores & policies & i & sel & pol & rejected & Hlen &
    Hpol & Hi & Hsel & Hp & Hrows & Hrec & Hdr). cbn zeta in *.
  remember (rank_pairs _) as ranked eqn:Er.
  apply recommendation_of in Hrec as (R1 & R2 & _ & R4).
  apply rank_rows_spec in Hrows as (S1 & S2 & S3).
  apply find_index_spec in Hi as [(p & Hp' & Hnb) Hbl].
  assert (p = pol) as -> by congruence. clear Hp'.
  assert (forall j c, dr_ranked_candidates r !! j = Some c ->
    ranked !! j = Some (rk_candidate c, rk_score c) /\ policies !! j = Some (rk_policy c)) as Hrow.
  { intros j c Hc. assert (zip ranked policies !! j = Some (row_source c)) as Hz.
    { rewrite <- S1. by rewrite list_lookup_fmap, Hc. }
    by apply lookup_zip_Some in Hz. }
  assert (exists row, dr_ranked_candidates r !! i = Some row) as [row Hrow_i].
  { apply lookup_lt_is_Some_2. rewrite <- (length_map row_source), S1, length_zip.
    apply lookup_lt_Some in Hsel, Hp. lia. }
  destruct (Hrow i row Hrow_i) as [Hr1 Hr2].
  pose proof (eq_trans (eq_sym Hsel) Hr1) as He1. pose proof (eq_trans (eq_sym Hp) Hr2) as He2.
  injection He1 as ->. injection He2 as ->. exists i, row. split; [done|]. split; [|split; [done|split; [done|]]].
  2: { rewrite R4. cbn in *. split; [done|]. split; [done|]. split; [|done].
    assert (map rk_candidate (dr_ranked_candidates r) = ranked.*1) as ->.
    { transitivity (map fst (map fst (map row_source (dr_ranked_candidates r)))).
      - by rewrite !map_map.
      - rewrite S1. f_equal. apply (fst_zip ranked policies).
        exact (Nat.eq_le_incl _ _ (Forall2_length _ _ _ Hpol)). }
    rewrite Er. unfold rank_pairs. rewrite sorted_on_perm. rewrite fst_zip; [done|lia]. }
  intros j c Hc. destruct (S2 j c Hc) as (A & B & _). destruct (Hrow j c Hc) as [C D].
  split; [done|]. split; [rewrite B; apply bool_decide_ext; lia|].
  split; [by apply (Forall2_lookup_lr _ _ _ _ _ _ Hpol C D)|]. split; [|split].
  - apply (elem_of_zip_l _ (rk_score c) _ scores).
    rewrite <- (sorted_on_perm rank_key rank_cmp). fold (rank_pairs (zip
      (generate_technically_eligible_actions context) scores)). rewrite <- Er.
    by eapply list_elem_of_lookup_2.
  - intros Hlt. by eapply Hbl.
  - intros Hle. destruct (decide (j = i)) as [->|]; [assert (c = row) as -> by congruence; cbn; lia|].
    pose proof (rank_pairs_utility (zip (generate_technically_eligible_actions context) scores))
      as Hs. rewrite <- Er in Hs.
    apply (StronglySorted_lookup _ _ i j _ _ Hs ltac:(lia) Hsel C).
Qed.

Lemma candidate_policy_inv context config c p :
  candidate_policy tzdb context config c = Ok p ->
  exists d, evaluate_safety_policy tzdb (candidate_policy_context context c) config = Ok d /\
    p = {| pd_disposition := sd_disposition d;
           pd_decision_code := SafetyReasonCode_value (sd_decision_code d);
           pd_reason_codes := map (fun r => SafetyReasonCode_value (sr_code r)) (sd_reasons d);
           pd_reasons := map sr_message (sd_reasons d);
           pd_policy_version := sd_policy_version d; pd_delay_until := sd_delay_until d |}.
Proof.
  unfold candidate_policy, safety_context_post_init, to_contract, delay_requires_timestamp.
  intros H. simp_res. eauto.
Qed.


(** C4: no scorer can talk the engine past the safety policy: an action recommended
    other than STOP and ESCALATE_TO_HUMAN is technically eligible and meets every
    condition of the policy (kill switches off, case open, nothing captured, before
    the deadline, customer not suppressed, no competing gateway retry). *)
Theorem decide_respects_policy context config r :
  decide_recovery tzdb scorer context config = Ok r ->
  rec_action (dr_recommendation r) ∉ TERMINAL_CONTROL_ACTIONS ->
  exists c, c ∈ generate_technically_eligible_actions context /\
    ac_action_type c = rec_action (dr_recommendation r) /\
    ac_payment_surface_type c = rec_payment_surface_type (dr_recommendation r) /\
    cleared (candidate_policy_context context c) config.
Proof.
  intros H Hc. destruct (decide_rows _ _ _ H)
    as (i & sel & Hi & Hrows & Hnb & _ & R1 & R2 & _).
  destruct (Hrows i sel Hi) as (_ & _ & Hpol & Hel & _).
  exists (rk_candidate sel). split; [done|]. split; [done|]. split; [done|].
  destruct (candidate_policy_inv _ _ _ _ Hpol) as (d & Hd & Hp).
  apply (evaluate_cleared _ _ _ _ Hd).
  - unfold not_blocked in Hnb. rewrite Hp in Hnb. by bools.
  - cbn. by rewrite <- R1.
Qed.
End decide_facts.

(** ** A decision is always reached *)

Lemma evaluate_reasons tzdb context config d :
  evaluate_safety_policy tzdb context config = Ok d -> sd_reasons d <> [].
Proof.
  unfold evaluate_safety_policy, evaluate_contact_limit, evaluate_quiet_and_approval.
  cbn zeta. intros H.
  repeat (split_match_in H; try (by apply decision_Ok in H as [-> _])).
  all: apply bind_Ok in H as (q & _ & H); repeat split_match_in H;
       by apply decision_Ok in H as [-> _].
Qed.

Section decide_total.
Context (tzdb : string -> option ZoneInfo)
        (scorer : RecoveryScoreRequest -> result RecoveryScoreResult)
        (context : RecoveryDecisionContext) (config : SafetyPolicyConfig).
Hypothesis context_valid : decision_context_post_init context = Ok context.
Hypothesis policy_evaluable : forall c, evaluable tzdb (candidate_policy_context context c) config.
Hypothesis scorer_answers : forall q, rq_amount_at_risk_paise q = dc_amount_at_risk_paise context ->
  exists s, scorer q = Ok s /\ score_valid s /\
            rs_expected_recovered_paise s <= rq_amount_at_risk_paise q.

Lemma candidate_policy_total c :
  candidate_wf c ->
  exists p, candidate_policy tzdb context config c = Ok p /\ pd_reasons p <> [] /\
    (ac_action_type c = RecoveryActionType.STOP -> not_blocked p = true).
Proof.
  intros Hwf. unfold decision_context_post_init in context_valid.
  pose proof context_valid as Hv. simp_res. bools.
  destruct (policy_total tzdb _ config (policy_evaluable c)) as (d & Hd & Hok & _).
  apply is_ok_true in Hok as [p Hp].
  assert (candidate_policy tzdb context config c = Ok p) as Hcp.
  { unfold candidate_policy, safety_context_post_init, require_aware, candidate_wf in *.
    rewrite H0, H1. cbn -[evaluate_safety_policy]. rewrite (proj2 (Z.ltb_ge _ _)) by done.
    rewrite Hwf. cbn -[evaluate_safety_policy]. unfold candidate_policy_context in Hd.
    rewrite Hd. done. }
  exists p. split; [done|]. apply candidate_policy_inv in Hcp as (d' & Hd' & ->).
  assert (d' = d) as -> by congruence. split.
  - cbn. pose proof (evaluate_reasons _ _ _ _ Hd). by destruct (sd_reasons d).
  - intros Hs. destruct (controls_allowed tzdb (candidate_policy_context context c) config)
      as (d2 & Hd2 & Ha).
    { cbn. rewrite Hs. by apply mem_true. }
    assert (d2 = d) as -> by congruence. unfold not_blocked. cbn. by rewrite Ha.
Qed.

Lemma feature_snapshot_total : exists f, feature_snapshot tzdb context config = Ok f.
Proof.
  unfold feature_snapshot.
  destruct (policy_evaluable {| ac_action_type := RecoveryActionType.START_VOICE;
    ac_payment_surface_type := None; ac_technical_reason := ""; ac_tie_priority := 0 |})
    as [Hc Ht Hz].
  apply is_ok_true in Hc as [c' Hc]. unfold safety_config_post_init in Hc. simp_res.
  destruct (tzdb _) as [z|] eqn:Etz; [|done]. destruct (Hz z eq_refl) as [off Hoff].
  destruct (quiet_hours_start c') as [s|] eqn:Es; [|cbn; eauto].
  destruct (quiet_hours_end c') as [e|] eqn:Ee; [|cbn; eauto].
  destruct (quiet_delay_future z (dt_instant (dc_now context)) off s e) as (r & Hr & _);
    [done | apply Ht; auto | apply Ht; auto | intros ->|].
  { rewrite !bool_decide_true in H1; done. }
  cbn. rewrite Hr. cbn. eauto.
Qed.

Lemma scores_total cands features :
  exists scores,
    map_result (fun c => scorer (score_request context features c)) cands = Ok scores /\
    Forall score_valid scores /\
    existsb (fun s => dc_amount_at_risk_paise context <? rs_expected_recovered_paise s) scores
      = false.
Proof.
  induction cands as [|c cands (ss & Hss & Hv & He)]; [by exists []|].
  destruct (scorer_answers (score_request context features c) eq_refl) as (s & Hs & Hsv & Hle).
  exists (s :: ss). cbn [map_result]. rewrite Hs, Hss. split; [done|]. split; [by constructor|].
  cbn. rewrite He, orb_false_r. apply Z.ltb_ge. exact Hle.
Qed.

Lemma build_recommendation_total c s p rejected :
  candidate_wf c -> score_valid s -> exists rec, build_recommendation (c, s) p rejected = Ok rec.
Proof.
  intros Hwf [[Hq1 Hq2] Hr]. apply Qle_bool_iff in Hq1, Hq2. apply Z.ltb_ge in Hr.
  unfold build_recommendation, validate_recommendation. cbn.
  rewrite Hq1, Hq2, Hr, Hwf. cbn. eauto.
Qed.

(** C5: with a valid case context, an evaluable policy and a scorer that honours its
    contract, [decide] returns: no candidate list is empty, no kill switch, block or
    quiet hour leaves it without a selection, and the recommendation it builds passes
    the shared contract. *)
Theorem decide_returns : exists r, decide_recovery tzdb scorer context config = Ok r.
Proof.
  unfold decide_recovery.
  remember (generate_technically_eligible_actions context) as cands eqn:Hcands.
  assert (forall c, c ∈ cands -> candidate_wf c) as Hwf by (subst; apply eligible_wf).
  assert (exists c, c ∈ cands /\ ac_action_type c = RecoveryActionType.STOP) as (stop & Hstop & Ha)
    by (subst; apply eligible_stop). clear Hcands.
  destruct cands as [|c0 cands]; [by apply not_elem_of_nil in Hstop|].
  destruct feature_snapshot_total as [features ->].
  destruct (scores_total (c0 :: cands) features) as (scores & Hs & Hsv & He).
  cbn [raise_if mbind result_bind]. rewrite Hs. cbn [mbind result_bind]. rewrite He.
  assert (length scores = length (c0 :: cands)) as Hlen.
  { apply map_result_Ok, Forall2_length in Hs. done. }
  remember (rank_pairs (zip (c0 :: cands) scores)) as ranked eqn:Er.
  assert (forall x, x ∈ ranked <-> x ∈ zip (c0 :: cands) scores) as Hranked.
  { intros x. subst ranked. unfold rank_pairs. by rewrite sorted_on_perm. }
  assert (Forall (fun item => candidate_wf item.1 /\ score_valid item.2) ranked) as Hall.
  { apply Forall_forall. intros [c s] Hin%Hranked. rewrite Forall_forall in Hsv. split.
    - apply Hwf. by eapply elem_of_zip_l.
    - apply Hsv. by eapply elem_of_zip_r. }
  rewrite Forall_forall in Hall.
  destruct (map_result_total (fun item => candidate_policy tzdb context config item.1) ranked)
    as [policies Hp].
  { intros [c s] Hin. destruct (Hall _ Hin) as [Hc _].
    destruct (candidate_policy_total c Hc) as (p & ? & _). eauto. }
  cbn [raise_if mbind result_bind]. rewrite Hp. cbn [mbind result_bind].
  apply map_result_Ok in Hp.
  assert (exists p, p ∈ policies /\ not_blocked p = true) as (p & Hpin & Hpnb).
  { assert (exists s, (stop, s) ∈ ranked) as [s Hin].
    { apply list_elem_of_lookup in Hstop as [k Hk].
      destruct (lookup_lt_is_Some_2 scores k) as [s Hsk];
        [rewrite Hlen; by eapply lookup_lt_Some|].
      exists s. apply Hranked. eapply (list_elem_of_lookup_2 _ k). by apply lookup_zip_Some. }
    apply list_elem_of_lookup in Hin as [k Hk].
    destruct (Forall2_lookup_l _ _ _ _ _ Hp Hk) as (p & Hpk & Hpol). cbn in Hpol.
    destruct (candidate_policy_total stop) as (p' & Hp' & _ & Hnb); [by apply Hwf|].
    assert (p' = p) as -> by congruence. exists p. split; [by eapply list_elem_of_lookup_2|auto]. }
  destruct (find_index_total not_blocked policies p Hpin Hpnb) as [i Hi]. rewrite Hi.
  apply find_index_spec in Hi as [(pi & Hpi & _) _].
  destruct (Forall2_lookup_r _ _ _ _ _ Hp Hpi) as ([c s] & Hci & _). cbn [from_option mbind result_bind].
  rewrite Hci, Hpi. cbn [from_option mbind result_bind].
  destruct (rank_rows_total i (c, s) 1 (zip ranked policies)) as [rows ->].
  { apply Forall_forall. intros [item q] Hin.
    apply list_elem_of_lookup in Hin as [k [Hk1 Hk2]%lookup_zip_Some]. cbn.
    pose proof (Forall2_lookup_lr _ _ _ _ _ _ Hp Hk1 Hk2) as Hq. cbn in Hq.
    destruct (Hall item) as [Hc _]; [by eapply list_elem_of_lookup_2|].
    destruct (candidate_policy_total item.1 Hc) as (q' & Hq' & Hne & _). congruence. }
  cbn [mbind result_bind].
  destruct (Hall (c, s)) as [Hc Hsc]; [by eapply list_elem_of_lookup_2|].
  destruct (build_recommendation_total c s pi (snd rows) Hc Hsc) as [rec ->]. cbn. eauto.
Qed.
End decide_total.

(** ** A concrete decision

    A pending subscription with an active retry, at 17:30 in the merchant's zone; the
    scorer prefers the voice call, then the gateway retry. *)

Definition demo_decision_context : RecoveryDecisionContext := {|
  dc_case_id := "case_1"; dc_amount_at_risk_paise := 149900;
  dc_diagnosis := Diagnosis.INSUFFICIENT_FUNDS; dc_case_outcome := CaseOutcome.OPEN;
  dc_payment_state := PaymentState.FAILED; dc_subscription_state := SubscriptionState.PENDING;
  dc_contact_disposition := ContactDisposition.NOT_CONTACTED;
  dc_recovery_deadline := utc_datetime (17 * hour); dc_now := utc_datetime (12 * hour);
  dc_has_failed_invoice := true; dc_active_gateway_retries := true;
  dc_standard_payment_link_available := true; dc_voice_action_available := true;
  dc_voice_consent := true; dc_voice_destination_available := true;
  dc_customer_agent_action_available := false; dc_customer_agent_available := false;
  dc_model_features := None |}.

Definition demo_scorer (q : RecoveryScoreRequest) : result RecoveryScoreResult :=
  let u := match rq_candidate_action q with
           | RecoveryActionType.OPEN_CUSTOMER_PAYMENT_SURFACE => 900
           | RecoveryActionType.WAIT_FOR_GATEWAY_RETRY => 800
           | RecoveryActionType.START_VOICE => 950
           | _ => 0
           end in
  Ok {| rs_model_name := "recoverybench-catboost"; rs_model_version := "1";
        rs_artifact_checksum := Some "c"; rs_recovery_probability := 1 # 2;
        rs_expected_recovered_paise := 0; rs_expected_utility_paise := u;
        rs_explanation := ["demo"] |}.

Definition demo_decision : RecoveryDecisionResult :=
  Eval vm_compute in
  match decide_recovery demo_tzdb demo_scorer demo_decision_context default_safety_config with
  | Ok r => r
  | Err _ => {| dr_recommendation := {| rec_action := RecoveryActionType.STOP;
                  rec_payment_surface_type := None; rec_predicted_recovery_probability := 0;
                  rec_expected_recovered_paise := 0; rec_expected_utility_paise := 0;
                  rec_confidence := 0; rec_reason_codes := []; rec_reasons := [];
                  rec_rejected_alternatives := [] |};
                dr_policy := {| pd_disposition := PolicyDisposition.BLOCK; pd_decision_code := "";
                  pd_reason_codes := []; pd_reasons := []; pd_policy_version := "";
                  pd_delay_until := None |};
                dr_ranked_candidates := []; dr_feature_snapshot := [] |}
  end.

Lemma demo_decides :
  decide_recovery demo_tzdb demo_scorer demo_decision_context default_safety_config
    = Ok demo_decision.
Proof. vm_compute. reflexivity. Qed.

Example demo_recommends :
  (rec_action (dr_recommendation demo_decision), map rk_rank (dr_ranked_candidates demo_decision),
   map rk_selected (dr_ranked_candidates demo_decision))
  = (RecoveryActionType.START_VOICE, [1; 2; 3; 4; 5; 6; 7],
     [true; false; false; false; false; false; false]).
Proof. vm_compute. reflexivity. Qed.


Lemma decide_respects_policy_witness :
  exists c, c ∈ generate_technically_eligible_actions demo_decision_context /\
    ac_action_type c = RecoveryActionType.START_VOICE /\
    ac_payment_surface_type c = None /\
    cleared (candidate_policy_context demo_decision_context c) default_safety_config.
Proof.
  apply (decide_respects_policy demo_tzdb demo_scorer _ _ _ demo_decides).
  apply mem_false. vm_compute. reflexivity.
Defined.

Lemma decide_returns_witness :
  exists r, decide_recovery demo_tzdb demo_scorer demo_decision_context default_safety_config
              = Ok r.
Proof.
  apply decide_returns.
  - vm_compute. reflexivity.
  - intros c. split.
    + vm_compute. reflexivity.
    + intros t [[= <-]|[= <-]]; by split.
    + intros z [= <-]. eexists. apply fixed_zone_steady.
  - intros q Hq. eexists. split; [reflexivity|]. split; [|cbn; by rewrite Hq].
    split; [split|]; cbn; done.
Defined.
