(* ===== verification/Contracts.v ===== *)
(** * Worker contracts

    The transport models of [services/worker/app/contracts.py], one record per
    dataclass with its fields in order: the inputs and results of the activities, the
    signals, and the status and result of the workflow.  The [kind] and [payload] of a
    [QueuedSignal] are a constructor of [signal] and its record. *)
From S2P Require Import Prelude Json.

(** src/services/worker/app/contracts.py:14-19 [ProviderEvent] *)
Record ProviderEvent : Type := {
  pe_event_id : string;
  pe_event_type : string;
  pe_occurred_at : string;
  pe_payload : json;
}.

(** src/services/worker/app/contracts.py:22-44 [RecoveryWorkflowInput] *)
Record RecoveryWorkflowInput : Type := {
  wi_case_id : string;
  wi_merchant_id : string;
  wi_customer_id : string;
  wi_subscription_id : string;
  wi_failed_invoice_id : option string;
  wi_failed_payment_id : option string;
  wi_amount_at_risk_paise : Z;
  wi_currency : string;
  wi_recovery_deadline : string;
  wi_failure_event : ProviderEvent;
  wi_candidate_action : string;
  wi_payment_surface_type : option string;
  wi_payment_surface_reference : option string;
  wi_provider_subscription_id : option string;
  wi_provider_invoice_id : option string;
  wi_recovery_action_id : option string;
}.

(** src/services/worker/app/contracts.py:47-54 [NormalizeFailureInput] *)
Record NormalizeFailureInput : Type := {
  nfi_case_id : string;
  nfi_merchant_id : string;
  nfi_subscription_id : string;
  nfi_failed_invoice_id : option string;
  nfi_failed_payment_id : option string;
  nfi_event : ProviderEvent;
}.

(** src/services/worker/app/contracts.py:57-65 [NormalizedFailure] *)
Record NormalizedFailure : Type := {
  nf_case_id : string;
  nf_provider_event_id : string;
  nf_payment_state : string;
  nf_subscription_state : string;
  nf_reason_code : option string;
  nf_authoritative : bool;
  nf_occurred_at : string;
}.

(** src/services/worker/app/contracts.py:68-71 [DiagnosisInput] *)
Record DiagnosisInput : Type := {
  di_case_id : string;
  di_failure : NormalizedFailure;
}.

(** src/services/worker/app/contracts.py:74-78 [DiagnosisResult] *)
Record DiagnosisResult : Type := {
  dg_diagnosis : string;
  dg_confidence : Q;
  dg_reason_codes : list string;
}.

(** src/services/worker/app/contracts.py:81-86 [ScoreInput] *)
Record ScoreInput : Type := {
  si_case_id : string;
  si_amount_at_risk_paise : Z;
  si_diagnosis : string;
  si_candidate_action : string;
}.

(** src/services/worker/app/contracts.py:89-96 [ScoreResult] *)
Record ScoreResult : Type := {
  sr_model_name : string;
  sr_model_version : string;
  sr_recovery_probability : Q;
  sr_expected_recovered_paise : Z;
  sr_expected_utility_paise : Z;
  sr_explanation : list string;
}.

(** src/services/worker/app/contracts.py:99-107 [PolicyInput] *)
Record PolicyInput : Type := {
  pi_case_id : string;
  pi_merchant_id : string;
  pi_amount_at_risk_paise : Z;
  pi_diagnosis : string;
  pi_candidate_action : string;
  pi_payment_surface_type : option string;
  pi_recovery_deadline : string;
}.

(** src/services/worker/app/contracts.py:110-117 [PolicyResult] *)
Record PolicyResult : Type := {
  pr_disposition : string;
  pr_decision_code : string;
  pr_action : string;
  pr_payment_surface_type : option string;
  pr_reason_codes : list string;
  pr_delay_until : option string;
}.

(** src/services/worker/app/contracts.py:120-136 [ExecuteActionInput] *)
Record ExecuteActionInput : Type := {
  ea_case_id : string;
  ea_merchant_id : string;
  ea_customer_id : string;
  ea_subscription_id : string;
  ea_failed_invoice_id : option string;
  ea_amount_paise : Z;
  ea_currency : string;
  ea_action : string;
  ea_payment_surface_type : option string;
  ea_recovery_deadline : string;
  ea_idempotency_key : string;
  ea_mandate : option json;
  ea_provider_subscription_id : option string;
  ea_provider_invoice_id : option string;
  ea_recovery_action_id : option string;
}.

(** src/services/worker/app/contracts.py:139-145 [ActionExecutionResult] *)
Record ActionExecutionResult : Type := {
  ae_status : string;
  ae_provider : string;
  ae_provider_reference : option string;
  ae_customer_url : option string;
  ae_reason_code : option string;
}.

(** src/services/worker/app/contracts.py:148-161 [StartA2AAuthorizationInput] *)
Record StartA2AAuthorizationInput : Type := {
  sa_case_id : string;
  sa_merchant_id : string;
  sa_customer_id : string;
  sa_exact_amount_paise : Z;
  sa_currency : string;
  sa_payment_surface_type : string;
  sa_payment_surface_reference : string;
  sa_recovery_deadline : string;
  sa_idempotency_key : string;
  sa_recovery_action_id : option string;
  sa_failed_invoice_id : option string;
  sa_provider_invoice_id : option string;
}.

(** src/services/worker/app/contracts.py:164-168 [A2AAuthorizationResult] *)
Record A2AAuthorizationResult : Type := {
  aa_remote_task_id : string;
  aa_state : string;
  aa_approval_path : option string;
}.

(** src/services/worker/app/contracts.py:171-184 [PollA2AMandateInput] *)
Record PollA2AMandateInput : Type := {
  pm_remote_task_id : string;
  pm_case_id : string;
  pm_merchant_id : string;
  pm_customer_id : string;
  pm_exact_amount_paise : Z;
  pm_currency : string;
  pm_payment_surface_type : string;
  pm_payment_surface_reference : string;
  pm_recovery_deadline : string;
  pm_recovery_action_id : option string;
  pm_failed_invoice_id : option string;
  pm_provider_invoice_id : option string;
}.

(** src/services/worker/app/contracts.py:187-194 [A2AMandatePollResult] *)
Record A2AMandatePollResult : Type := {
  mp_remote_task_id : string;
  mp_task_state : string;
  mp_verification_status : string;
  mp_mandate_id : option string;
  mp_verified_artifact : option json;
  mp_reason_code : option string;
}.

(** src/services/worker/app/contracts.py:197-209 [SendA2APaymentReceiptInput] *)
Record SendA2APaymentReceiptInput : Type := {
  rc_remote_task_id : string;
  rc_mandate_id : string;
  rc_merchant_id : string;
  rc_case_id : string;
  rc_exact_amount_paise : Z;
  rc_currency : string;
  rc_provider_reference : string;
  rc_observed_at : string;
  rc_idempotency_key : string;
  rc_recovery_action_id : option string;
  rc_failed_invoice_id : option string;
}.

(** src/services/worker/app/contracts.py:212-216 [A2APaymentReceiptResult] *)
Record A2APaymentReceiptResult : Type := {
  rr_remote_task_id : string;
  rr_task_state : string;
  rr_delivered : bool;
}.

(** src/services/worker/app/contracts.py:219-228 [ReconciliationInput] *)
Record ReconciliationInput : Type := {
  ri_case_id : string;
  ri_merchant_id : string;
  ri_failed_invoice_id : option string;
  ri_failed_payment_id : option string;
  ri_trigger_event_id : string;
  ri_payment_state_hint : option string;
  ri_amount_paise_hint : option Z;
  ri_authoritative_hint : bool;
}.

(** src/services/worker/app/contracts.py:231-239 [ReconciliationResult] *)
Record ReconciliationResult : Type := {
  rn_payment_state : string;
  rn_subscription_state : string;
  rn_authoritative : bool;
  rn_case_recovered : bool;
  rn_arrears_collected_paise : Z;
  rn_subscription_reactivated : bool;
  rn_provider_reference : option string;
}.

(** src/services/worker/app/contracts.py:242-247 [AuditInput] *)
Record AuditInput : Type := {
  ai_case_id : string;
  ai_event_type : string;
  ai_correlation_id : string;
  ai_details : json;
}.

(** src/services/worker/app/contracts.py:250-253 [AuditResult] *)
Record AuditResult : Type := {
  ar_audit_event_id : string;
  ar_recorded : bool;
}.

(** src/services/worker/app/contracts.py:256-261 [CancelActionInput] *)
Record CancelActionInput : Type := {
  ci_case_id : string;
  ci_provider_reference : option string;
  ci_reason : string;
  ci_idempotency_key : string;
}.

(** src/services/worker/app/contracts.py:264-267 [CancelActionResult] *)
Record CancelActionResult : Type := {
  cr_cancelled : bool;
  cr_reason_code : option string;
}.

(** src/services/worker/app/contracts.py:270-276 [PaymentEventSignal] *)
Record PaymentEventSignal : Type := {
  pes_signal_id : string;
  pes_provider_event_id : string;
  pes_payment_state : string;
  pes_amount_paise : Z;
  pes_authoritative : bool;
}.

(** src/services/worker/app/contracts.py:279-283 [CustomerIntentSignal] *)
Record CustomerIntentSignal : Type := {
  cis_signal_id : string;
  cis_intent : string;
  cis_confidence : option Q;
}.

(** src/services/worker/app/contracts.py:286-291 [ApprovalSignal] *)
Record ApprovalSignal : Type := {
  aps_signal_id : string;
  aps_approved : bool;
  aps_reviewer_id : string;
  aps_reason : option string;
}.

(** src/services/worker/app/contracts.py:294-298 [OptOutSignal] *)
Record OptOutSignal : Type := {
  oos_signal_id : string;
  oos_source : string;
  oos_reason : option string;
}.

(** src/services/worker/app/contracts.py:301-305 [CancellationSignal] *)
Record CancellationSignal : Type := {
  cas_signal_id : string;
  cas_reason : string;
  cas_requested_by : string;
}.

(** src/services/worker/app/contracts.py:308-312 [OperatorEscalationSignal] *)
Record OperatorEscalationSignal : Type := {
  oes_signal_id : string;
  oes_reason : string;
  oes_requested_by : string;
}.

(** src/services/worker/app/contracts.py:315-320 [A2AUpdateSignal] *)
Record A2AUpdateSignal : Type := {
  aus_signal_id : string;
  aus_remote_task_id : string;
  aus_state : string;
  aus_artifact : option json;
}.

(** src/services/worker/app/contracts.py:323-331 [MandateSignal] *)
Record MandateSignal : Type := {
  mas_signal_id : string;
  mas_mandate_id : string;
  mas_verified : bool;
  mas_payment_surface_reference : string;
  mas_exact_amount_paise : Z;
  mas_expires_at : string;
  mas_artifact : json;
}.

(** src/services/worker/app/contracts.py:341-362 [RecoveryWorkflowStatus] *)
Record RecoveryWorkflowStatus : Type := {
  ws_case_id : string;
  ws_phase : string;
  ws_terminal : bool;
  ws_outcome : option string;
  ws_diagnosis : option string;
  ws_policy_disposition : option string;
  ws_action : option string;
  ws_action_status : option string;
  ws_provider_reference : option string;
  ws_payment_state : string;
  ws_subscription_state : string;
  ws_contact_disposition : string;
  ws_approval_required : bool;
  ws_approval_received : option bool;
  ws_outreach_suppressed : bool;
  ws_a2a_state : option string;
  ws_mandate_received : bool;
  ws_received_signal_count : Z;
  ws_duplicate_signal_count : Z;
  ws_recovery_deadline : option string;
}.

(** src/services/worker/app/contracts.py:365-376 [RecoveryWorkflowResult] *)
Record RecoveryWorkflowResult : Type := {
  wr_case_id : string;
  wr_outcome : string;
  wr_payment_state : string;
  wr_subscription_state : string;
  wr_case_recovered : bool;
  wr_arrears_collected_paise : Z;
  wr_subscription_reactivated : bool;
  wr_contact_disposition : string;
  wr_processed_signal_count : Z;
  wr_duplicate_signal_count : Z;
}.

(** src/services/worker/app/contracts.py:334-338 [QueuedSignal] *)
Inductive signal : Type :=
| PAYMENT_EVENT (payload : PaymentEventSignal)
| CUSTOMER_INTENT (payload : CustomerIntentSignal)
| APPROVAL (payload : ApprovalSignal)
| OPT_OUT (payload : OptOutSignal)
| CANCELLATION (payload : CancellationSignal)
| OPERATOR_ESCALATION (payload : OperatorEscalationSignal)
| A2A_UPDATE (payload : A2AUpdateSignal)
| MANDATE (payload : MandateSignal).

Definition signal_id (s : signal) : string :=
  match s with
  | PAYMENT_EVENT p => pes_signal_id p
  | CUSTOMER_INTENT p => cis_signal_id p
  | APPROVAL p => aps_signal_id p
  | OPT_OUT p => oos_signal_id p
  | CANCELLATION p => cas_signal_id p
  | OPERATOR_ESCALATION p => oes_signal_id p
  | A2A_UPDATE p => aus_signal_id p
  | MANDATE p => mas_signal_id p
  end.
