(* ===== verification/Workflow.v ===== *)
(** * Recovery workflow

    [services/worker/app/workflow.py]: the durable coordinator of one recovery case.
    A coroutine is a computation over a [world]: the workflow object, the workflow
    clock, the signals that are still to arrive, and the trace of the activities
    called.  An activity is answered by the environment, which may look at the whole
    trace; while it runs the clock advances and the signals that fall due reach their
    handlers, which only enqueue. *)
From S2P Require Import Prelude Json Contracts.

(** ** The activities and the trace *)

Inductive event : Type :=
| EvNormalize (i : NormalizeFailureInput) (r : result NormalizedFailure)
| EvDiagnose (i : DiagnosisInput) (r : result DiagnosisResult)
| EvScore (i : ScoreInput) (r : result ScoreResult)
| EvPolicy (i : PolicyInput) (r : result PolicyResult)
| EvExecute (i : ExecuteActionInput) (r : result ActionExecutionResult)
| EvStartA2A (i : StartA2AAuthorizationInput) (r : result A2AAuthorizationResult)
| EvPoll (i : PollA2AMandateInput) (r : result A2AMandatePollResult)
| EvReceipt (i : SendA2APaymentReceiptInput) (r : result A2APaymentReceiptResult)
| EvReconcile (i : ReconciliationInput) (r : result ReconciliationResult)
| EvCancel (i : CancelActionInput) (r : result CancelActionResult)
| EvAudit (i : AuditInput) (r : result AuditResult).

(** What the environment answers, given the calls made so far (newest first), and how
    long the call takes.  An [Err] is a call whose retries are exhausted. *)
Record activities : Type := {
  act_normalize : list event -> NormalizeFailureInput -> result NormalizedFailure;
  act_diagnose : list event -> DiagnosisInput -> result DiagnosisResult;
  act_score : list event -> ScoreInput -> result ScoreResult;
  act_policy : list event -> PolicyInput -> result PolicyResult;
  act_execute : list event -> ExecuteActionInput -> result ActionExecutionResult;
  act_start_a2a : list event -> StartA2AAuthorizationInput -> result A2AAuthorizationResult;
  act_poll : list event -> PollA2AMandateInput -> result A2AMandatePollResult;
  act_receipt : list event -> SendA2APaymentReceiptInput -> result A2APaymentReceiptResult;
  act_reconcile : list event -> ReconciliationInput -> result ReconciliationResult;
  act_cancel : list event -> CancelActionInput -> result CancelActionResult;
  act_audit : list event -> AuditInput -> result AuditResult;
  act_duration : list event -> Z;
}.

(** ** The workflow object *)

(** src/services/worker/app/workflow.py:82-115 [RecoveryCaseWorkflow]: the instance
    attributes; instants are UTC microseconds. *)
Record RecoveryCaseWorkflow : Type := {
  case_id : string;
  phase : string;
  terminal : bool;
  outcome : option string;
  diagnosis : option string;
  policy_disposition : option string;
  action : option string;
  action_status : option string;
  provider_reference : option string;
  payment_state : string;
  subscription_state : string;
  contact_disposition : string;
  approval_required : bool;
  approval_received : option bool;
  outreach_suppressed : bool;
  a2a_state : option string;
  a2a_task_id : option string;
  next_a2a_poll_at : option Z;
  mandate_received : bool;
  a2a_mandate_id : option string;
  a2a_receipt_sent : bool;
  deadline : option Z;
  signals : list signal;
  seen_signal_ids : gset string;
  processed_signal_count : Z;
  duplicate_signal_count : Z;
  arrears_collected_paise : Z;
  subscription_reactivated : bool;
  input : option RecoveryWorkflowInput;
}.

#[export] Instance eta_workflow : Eta RecoveryCaseWorkflow := fun s => {|
  case_id := case_id s; phase := phase s; terminal := terminal s; outcome := outcome s;
  diagnosis := diagnosis s; policy_disposition := policy_disposition s; action := action s;
  action_status := action_status s; provider_reference := provider_reference s;
  payment_state := payment_state s; subscription_state := subscription_state s;
  contact_disposition := contact_disposition s; approval_required := approval_required s;
  approval_received := approval_received s; outreach_suppressed := outreach_suppressed s;
  a2a_state := a2a_state s; a2a_task_id := a2a_task_id s;
  next_a2a_poll_at := next_a2a_poll_at s; mandate_received := mandate_received s;
  a2a_mandate_id := a2a_mandate_id s; a2a_receipt_sent := a2a_receipt_sent s;
  deadline := deadline s; signals := signals s; seen_signal_ids := seen_signal_ids s;
  processed_signal_count := processed_signal_count s;
  duplicate_signal_count := duplicate_signal_count s;
  arrears_collected_paise := arrears_collected_paise s;
  subscription_reactivated := subscription_reactivated s; input := input s |}.

(** src/services/worker/app/workflow.py:86-115 [RecoveryCaseWorkflow.__init__] *)
Definition workflow_init : RecoveryCaseWorkflow := {|
  case_id := ""; phase := "INITIALIZING"; terminal := false; outcome := None;
  diagnosis := None; policy_disposition := None; action := None; action_status := None;
  provider_reference := None; payment_state := "FAILED"; subscription_state := "UNKNOWN";
  contact_disposition := "NOT_CONTACTED"; approval_required := false;
  approval_received := None; outreach_suppressed := false; a2a_state := None;
  a2a_task_id := None; next_a2a_poll_at := None; mandate_received := false;
  a2a_mandate_id := None; a2a_receipt_sent := false; deadline := None; signals := [];
  seen_signal_ids := ∅; processed_signal_count := 0; duplicate_signal_count := 0;
  arrears_collected_paise := 0; subscription_reactivated := false; input := None |}.

Record world : Type := {
  self : RecoveryCaseWorkflow;
  clock : Z;
  inbox : list (Z * signal);
  trace : list event;
}.
#[export] Instance eta_world : Eta world := fun w =>
  {| self := self w; clock := clock w; inbox := inbox w; trace := trace w |}.

Definition coroutine (A : Type) : Type := stx world A.

(** Read an attribute, and assign attributes. *)
Definition attr {A} (f : RecoveryCaseWorkflow -> A) : coroutine A := fun w => (Ok (f (self w)), w).
Definition assign (f : RecoveryCaseWorkflow -> RecoveryCaseWorkflow) : coroutine unit :=
  modS (fun w => w <| self ::= f |>).
Definition now_ : coroutine Z := fun w => (Ok (clock w), w).

(** src/services/worker/app/workflow.py:65-68 [recovery_workflow_id] *)
Definition recovery_workflow_id (case : string) : string := "recovery-case:" +++ case.

(** src/services/worker/app/workflow.py:79-79 [_A2A_POLL_INTERVAL] *)
Definition A2A_POLL_INTERVAL : Z := 5 * second.

(** src/services/worker/app/workflow.py:312-317 [RecoveryCaseWorkflow._enqueue]: also
    the body of the eight signal handlers at lines 255-285. *)
Definition enqueue (sig : signal) (s : RecoveryCaseWorkflow) : RecoveryCaseWorkflow :=
  if bool_decide (signal_id sig ∈ seen_signal_ids s)
  then s <| duplicate_signal_count ::= Z.add 1 |>
  else s <| seen_signal_ids ::= union {[signal_id sig]} |>
         <| signals ::= fun q => q ++ [sig] |>.

(** The signals due by [t] reach their handlers; the clock then shows [t]. *)
Fixpoint deliver_until (t : Z) (pending : list (Z * signal)) (s : RecoveryCaseWorkflow)
  : list (Z * signal) * RecoveryCaseWorkflow :=
  match pending with
  | (at_, sig) :: rest =>
      if at_ <=? t then deliver_until t rest (enqueue sig s) else (pending, s)
  | [] => ([], s)
  end.

Definition elapse (duration : Z) (w : world) : world :=
  let t := clock w + Z.max 0 duration in
  let (rest, s) := deliver_until t (inbox w) (self w) in
  {| self := s; clock := t; inbox := rest; trace := trace w |}.

(** [workflow.wait_condition(lambda: bool(self._signals), timeout)] with the timeout
    suppressed: resume at the first signal queued, at the latest at [wake_at]. *)
Fixpoint await_signal (wake_at now : Z) (pending : list (Z * signal)) (s : RecoveryCaseWorkflow)
  : Z * list (Z * signal) * RecoveryCaseWorkflow :=
  match signals s with
  | _ :: _ => (now, pending, s)
  | [] =>
      match pending with
      | (at_, sig) :: rest =>
          if at_ <=? wake_at then await_signal wake_at (Z.max now at_) rest (enqueue sig s)
          else (Z.max now wake_at, pending, s)
      | [] => (Z.max now wake_at, [], s)
      end
  end.

Definition wait_condition (wake_at : Z) : coroutine unit := fun w =>
  let '(now, rest, s) := await_signal wake_at (clock w) (inbox w) (self w) in
  (Ok tt, {| self := s; clock := now; inbox := rest; trace := trace w |}).

Section Workflow.
Context (acts : activities).
(** [datetime.fromisoformat] and [datetime.isoformat] of the standard library. *)
Context (fromisoformat : string -> result datetime) (isoformat : Z -> string).

(** src/services/worker/app/workflow.py:814-828 [RecoveryCaseWorkflow._activity]: with
    [EXECUTE_RECOVERY_ACTION], [START_A2A_AUTHORIZATION] and [CANCEL_RECOVERY_ACTION]
    attempted once and the others at most three times; the environment's answer is
    that of the last attempt. *)
Definition activity {I R : Type} (answer : list event -> I -> result R)
    (record : I -> result R -> event) (argument : I) : coroutine R := fun w =>
  let r := answer (trace w) argument in
  (r, elapse (act_duration acts (trace w)) w <| trace ::= cons (record argument r) |>).

(** src/services/worker/app/workflow.py:802-812 [RecoveryCaseWorkflow._audit] *)
Definition audit (event_type correlation_id : string) (details : list (string * json))
  : coroutine unit :=
  case ← attr case_id;
  _ ← activity (act_audit acts) EvAudit
        {| ai_case_id := case; ai_event_type := event_type;
           ai_correlation_id := correlation_id; ai_details := JObj details |};
  mret tt.

(** src/services/worker/app/workflow.py:849-852 [RecoveryCaseWorkflow._require_input] *)
Definition require_input : coroutine RecoveryWorkflowInput :=
  i ← attr input;
  lift (from_option (RuntimeError "workflow input is not initialized") i).

(** [value.replace("Z", "+00:00")] *)
Fixpoint replace_z (s : string) : string :=
  match s with
  | EmptyString => EmptyString
  | String a s' => if Ascii.eqb a "Z" then "+00:00" +++ replace_z s' else String a (replace_z s')
  end.

(** src/services/worker/app/workflow.py:854-859 [RecoveryCaseWorkflow._parse_instant] *)
Definition parse_instant (value : string) : result Z :=
  instant ← fromisoformat (replace_z value);
  _ ← raise_if (negb (is_aware instant))
        (ValueError "Temporal instants must include a UTC offset");
  mret (dt_instant instant).

(** src/services/worker/app/workflow.py:838-844 [RecoveryCaseWorkflow._finish]: the
    reason only reaches the log. *)
Definition finish (outcome_ reason : string) : coroutine unit :=
  assign (fun s =>
    let s := s <| outcome := Some outcome_ |> <| phase := "TERMINAL_" +++ outcome_ |>
               <| terminal := true |> in
    if bool_decide (outcome_ = "RECOVERED") then s <| payment_state := "CAPTURED" |> else s).

(** src/services/worker/app/workflow.py:846-847 [RecoveryCaseWorkflow._deadline_outcome] *)
Definition deadline_outcome (s : RecoveryCaseWorkflow) : string :=
  if outreach_suppressed s then "STOPPED" else "EXPIRED".

(** src/services/worker/app/workflow.py:830-836 [RecoveryCaseWorkflow._apply_reconciliation] *)
Definition apply_reconciliation (r : ReconciliationResult) : coroutine unit :=
  if negb (rn_authoritative r) then mret tt
  else assign (fun s => s <| payment_state := rn_payment_state r |>
                          <| subscription_state := rn_subscription_state r |>
                          <| arrears_collected_paise := rn_arrears_collected_paise r |>
                          <| subscription_reactivated := rn_subscription_reactivated r |>).

(** src/services/worker/app/workflow.py:783-800 [RecoveryCaseWorkflow._cancel_active_action] *)
Definition cancel_active_action (reason : string) : coroutine unit :=
  s ← attr id;
  if mem (action_status s) [Some "CANCELLED"; Some "FAILED"; Some "REJECTED"] then mret tt
  else if bool_decide (action_status s = None)
          && negb (bool_decide (reason = "AUTHORITATIVE_PAYMENT_SUCCESS")) then mret tt
  else
    r ← activity (act_cancel acts) EvCancel
          {| ci_case_id := case_id s; ci_provider_reference := provider_reference s;
             ci_reason := reason; ci_idempotency_key := case_id s +++ ":cancel:action-1" |};
    if cr_cancelled r then assign (fun s => s <| action_status := Some "CANCELLED" |>)
    else mret tt.

(** src/services/worker/app/workflow.py:771-781 [RecoveryCaseWorkflow._expected_payment_surface_reference] *)
Definition expected_payment_surface_reference (c : RecoveryWorkflowInput) : option string :=
  if truthy (wi_payment_surface_reference c) then wi_payment_surface_reference c
  else if bool_decide (wi_payment_surface_type c = Some "SUBSCRIPTION_INVOICE_LINK")
  then or_str (wi_provider_invoice_id c) (wi_failed_invoice_id c)
  else if bool_decide (wi_payment_surface_type c = Some "SUBSCRIPTION_CARD_UPDATE")
  then Some (wi_subscription_id c)
  else None.

(** The exact scope of an A2A authorization: the surface, its reference, the durable
    action and the invoice, or the code of what is missing. *)
Definition a2a_scope (c : RecoveryWorkflowInput)
  : string + (string * string * string * string) :=
  match wi_payment_surface_type c, expected_payment_surface_reference c with
  | Some surface_type, Some surface_reference =>
      match wi_recovery_action_id c, wi_failed_invoice_id c with
      | Some action_id, Some invoice_id =>
          inr (surface_type, surface_reference, action_id, invoice_id)
      | _, _ => inl "DURABLE_ACTION_SCOPE_REQUIRED"
      end
  | _, _ => inl "EXACT_PAYMENT_SURFACE_REQUIRED"
  end.

(** src/services/worker/app/workflow.py:538-601 [RecoveryCaseWorkflow._start_a2a_authorization] *)
Definition start_a2a_authorization : coroutine unit :=
  c ← require_input;
  match a2a_scope c with
  | inl code =>
      _ ← audit "A2A_AUTHORIZATION_REJECTED" "a2a-start" [("reason_code", JStr code)];
      _ ← assign (fun s => s <| action_status := Some "REJECTED" |>);
      finish "ESCALATED" code
  | inr (surface_type, surface_reference, action_id, invoice_id) =>
      r ← activity (act_start_a2a acts) EvStartA2A
            {| sa_case_id := wi_case_id c; sa_merchant_id := wi_merchant_id c;
               sa_customer_id := wi_customer_id c;
               sa_exact_amount_paise := wi_amount_at_risk_paise c;
               sa_currency := wi_currency c; sa_payment_surface_type := surface_type;
               sa_payment_surface_reference := surface_reference;
               sa_recovery_deadline := wi_recovery_deadline c;
               sa_idempotency_key :=
                 wi_case_id c +++ ":SEND_TO_CUSTOMER_AGENT:" +++ action_id +++ ":v2";
               sa_recovery_action_id := Some action_id;
               sa_failed_invoice_id := Some invoice_id;
               sa_provider_invoice_id := wi_provider_invoice_id c |};
      now ← now_;
      _ ← assign (fun s => s
            <| action := Some "SEND_TO_CUSTOMER_AGENT" |>
            <| action_status := Some (aa_state r) |>
            <| provider_reference := Some (aa_remote_task_id r) |>
            <| a2a_task_id := Some (aa_remote_task_id r) |>
            <| a2a_state := Some (aa_state r) |>
            <| next_a2a_poll_at := Some (if bool_decide (aa_state r = "WORKING") then now
                                         else now + A2A_POLL_INTERVAL) |>
            <| phase := "AWAITING_CUSTOMER_AUTHORIZATION" |>);
      audit "A2A_AUTHORIZATION_STARTED" "a2a-start"
        ([("remote_task_id", JStr (aa_remote_task_id r)); ("state", JStr (aa_state r))]
         ++ match aa_approval_path r with
            | Some path => [("approval_path", JStr path)]
            | None => []
            end)
  end.

(** src/services/worker/app/workflow.py:722-769 [RecoveryCaseWorkflow._execute_action] *)
Definition execute_action (policy : PolicyResult) (mandate : option json) : coroutine unit :=
  if bool_decide (pr_action policy = "SEND_TO_CUSTOMER_AGENT") && bool_decide (mandate = None)
  then start_a2a_authorization
  else
    c ← require_input;
    _ ← assign (fun s => s <| phase := "EXECUTING_ACTION" |>
                           <| action_status := Some "EXECUTING" |>);
    r ← activity (act_execute acts) EvExecute
          {| ea_case_id := wi_case_id c; ea_merchant_id := wi_merchant_id c;
             ea_customer_id := wi_customer_id c; ea_subscription_id := wi_subscription_id c;
             ea_failed_invoice_id := wi_failed_invoice_id c;
             ea_amount_paise := wi_amount_at_risk_paise c; ea_currency := wi_currency c;
             ea_action := pr_action policy;
             ea_payment_surface_type := pr_payment_surface_type policy;
             ea_recovery_deadline := wi_recovery_deadline c;
             ea_idempotency_key := wi_case_id c +++ ":" +++ pr_action policy +++ ":1";
             ea_mandate := mandate;
             ea_provider_subscription_id := wi_provider_subscription_id c;
             ea_provider_invoice_id := wi_provider_invoice_id c;
             ea_recovery_action_id := wi_recovery_action_id c |};
    _ ← assign (fun s => s <| action := Some (pr_action policy) |>
                           <| action_status := Some (ae_status r) |>
                           <| provider_reference := ae_provider_reference r |>);
    _ ← audit "ACTION_SUBMITTED" "action-1"
          [("action", JStr (pr_action policy)); ("status", JStr (ae_status r));
           ("provider", JStr (ae_provider r)); ("reason_code", opt_str (ae_reason_code r))];
    if mem (ae_status r) ["FAILED"; "REJECTED"] then finish "ESCALATED" "PROVIDER_REJECTED"
    else if bool_decide (ae_status r = "UNCERTAIN")
    then assign (fun s => s <| phase := "RECONCILIATION_REQUIRED" |>)
    else mret tt.

(** src/services/worker/app/workflow.py:603-676 [RecoveryCaseWorkflow._poll_a2a_if_due] *)
Definition poll_a2a_if_due : coroutine unit :=
  s ← attr id;
  now ← now_;
  match a2a_task_id s, next_a2a_poll_at s with
  | Some task_id, Some poll_at =>
      if now <? poll_at then mret tt
      else
        c ← require_input;
        match a2a_scope c with
        | inl code =>
            _ ← assign (fun s => s <| next_a2a_poll_at := None |>
                                   <| action_status := Some "REJECTED" |>);
            finish "ESCALATED" code
        | inr (surface_type, surface_reference, action_id, invoice_id) =>
            r ← activity (act_poll acts) EvPoll
                  {| pm_remote_task_id := task_id; pm_case_id := wi_case_id c;
                     pm_merchant_id := wi_merchant_id c; pm_customer_id := wi_customer_id c;
                     pm_exact_amount_paise := wi_amount_at_risk_paise c;
                     pm_currency := wi_currency c; pm_payment_surface_type := surface_type;
                     pm_payment_surface_reference := surface_reference;
                     pm_recovery_deadline := wi_recovery_deadline c;
                     pm_recovery_action_id := Some action_id;
                     pm_failed_invoice_id := Some invoice_id;
                     pm_provider_invoice_id := wi_provider_invoice_id c |};
            _ ← assign (fun s => s <| a2a_state := Some (mp_task_state r) |>);
            if bool_decide (mp_verification_status r = "PENDING") then
              now ← now_;
              assign (fun s => s <| next_a2a_poll_at := Some (now + A2A_POLL_INTERVAL) |>)
            else
              _ ← assign (fun s => s <| next_a2a_poll_at := None |>);
              let accepted := bool_decide (mp_verification_status r = "VERIFIED")
                              && bool_decide (is_Some (mp_mandate_id r))
                              && bool_decide (is_Some (mp_verified_artifact r)) in
              _ ← audit "MANDATE_VERIFICATION_COMPLETED"
                    (default ("a2a:" +++ task_id) (or_str (mp_mandate_id r) None))
                    [("accepted", JBool accepted); ("reason_code", opt_str (mp_reason_code r));
                     ("task_state", JStr (mp_task_state r))];
              if negb accepted then
                _ ← assign (fun s => s <| action_status := Some "REJECTED" |>);
                finish "ESCALATED" (default "MANDATE_REJECTED" (or_str (mp_reason_code r) None))
              else
                _ ← assign (fun s => s <| mandate_received := true |>
                                       <| a2a_mandate_id := mp_mandate_id r |>);
                execute_action
                  {| pr_disposition := "ALLOW"; pr_decision_code := "VERIFIED_MANDATE";
                     pr_action := "OPEN_CUSTOMER_PAYMENT_SURFACE";
                     pr_payment_surface_type := Some surface_type;
                     pr_reason_codes := []; pr_delay_until := None |}
                  (mp_verified_artifact r)
        end
  | _, _ => mret tt
  end.

(** src/services/worker/app/workflow.py:678-720 [RecoveryCaseWorkflow._send_a2a_receipt_if_applicable] *)
Definition send_a2a_receipt_if_applicable (result : ReconciliationResult) : coroutine unit :=
  s ← attr id;
  match a2a_receipt_sent s, a2a_task_id s, a2a_mandate_id s with
  | false, Some task_id, Some mandate_id =>
      c ← require_input;
      match rn_provider_reference result with
      | Some reference =>
          if negb (bool_decide (rn_payment_state result = "CAPTURED"))
             || negb (rn_authoritative result) || negb (rn_case_recovered result)
             || negb (rn_arrears_collected_paise result =? wi_amount_at_risk_paise c)
          then mret tt
          else
            now ← now_;
            receipt ← activity (act_receipt acts) EvReceipt
              {| rc_remote_task_id := task_id; rc_mandate_id := mandate_id;
                 rc_merchant_id := wi_merchant_id c; rc_case_id := wi_case_id c;
                 rc_exact_amount_paise := wi_amount_at_risk_paise c;
                 rc_currency := wi_currency c; rc_provider_reference := reference;
                 rc_observed_at := isoformat now;
                 rc_idempotency_key :=
                   task_id +++ ":" +++ mandate_id +++ ":recovery.receipt.v2";
                 rc_recovery_action_id := wi_recovery_action_id c;
                 rc_failed_invoice_id := wi_failed_invoice_id c |};
            _ ← (if rr_delivered receipt && bool_decide (rr_task_state receipt = "COMPLETED")
                 then assign (fun s => s <| a2a_receipt_sent := true |>
                                         <| a2a_state := Some "COMPLETED" |>)
                 else mret tt);
            sent ← attr a2a_receipt_sent;
            audit (if (sent : bool) then "A2A_PAYMENT_RECEIPT_DELIVERED"
                   else "A2A_PAYMENT_RECEIPT_FAILED") mandate_id
              [("remote_task_id", JStr (rr_remote_task_id receipt));
               ("task_state", JStr (rr_task_state receipt));
               ("provider_reference", JStr reference)]
      | None => mret tt
      end
  | _, _, _ => mret tt
  end.

(** src/services/worker/app/workflow.py:525-536 [RecoveryCaseWorkflow._suppress_outreach] *)
Definition suppress_outreach (sid disposition : string) : coroutine unit :=
  _ ← assign (fun s => s <| outreach_suppressed := true |>);
  _ ← cancel_active_action disposition;
  _ ← audit "SUPPRESSION_PERSIST_REQUESTED" sid [("contact_disposition", JStr disposition)];
  assign (fun s => s <| outcome := Some "STOPPED" |> <| phase := "OUTREACH_SUPPRESSED" |>).

(** src/services/worker/app/workflow.py:373-386 [RecoveryCaseWorkflow._handle_approval] *)
Definition handle_approval (p : ApprovalSignal) : coroutine unit :=
  s ← attr id;
  if negb (approval_required s) || bool_decide (is_Some (approval_received s)) then
    audit "APPROVAL_IGNORED" (aps_signal_id p) [("reason", JStr "NOT_AWAITED")]
  else
    _ ← assign (fun s => s <| approval_received := Some (aps_approved p) |>);
    audit "APPROVAL_RECORDED" (aps_signal_id p)
      [("approved", JBool (aps_approved p)); ("reviewer_id", JStr (aps_reviewer_id p));
       ("reason", opt_str (aps_reason p))].

(** The tail the two reconciling handlers share: lines 414-417 and 453-456 of
    [workflow.py]. *)
Definition finish_if_recovered (r : ReconciliationResult) (reason : string) : coroutine unit :=
  if rn_case_recovered r && rn_authoritative r then
    _ ← send_a2a_receipt_if_applicable r;
    _ ← cancel_active_action "AUTHORITATIVE_PAYMENT_SUCCESS";
    finish "RECOVERED" reason
  else mret tt.

(** src/services/worker/app/workflow.py:388-417 [RecoveryCaseWorkflow._handle_payment] *)
Definition handle_payment (p : PaymentEventSignal) : coroutine unit :=
  c ← require_input;
  r ← activity (act_reconcile acts) EvReconcile
        {| ri_case_id := wi_case_id c; ri_merchant_id := wi_merchant_id c;
           ri_failed_invoice_id := wi_failed_invoice_id c;
           ri_failed_payment_id := wi_failed_payment_id c;
           ri_trigger_event_id := pes_provider_event_id p;
           ri_payment_state_hint := Some (pes_payment_state p);
           ri_amount_paise_hint := Some (pes_amount_paise p);
           ri_authoritative_hint := pes_authoritative p |};
  _ ← apply_reconciliation r;
  _ ← audit "PAYMENT_RECONCILED" (pes_signal_id p)
        [("payment_state", JStr (rn_payment_state r));
         ("authoritative", JBool (rn_authoritative r));
         ("case_recovered", JBool (rn_case_recovered r))];
  finish_if_recovered r "PAYMENT_CAPTURED".

Definition opt_float (o : option Q) : json := match o with Some q => JFloat q | None => JNull end.

(** src/services/worker/app/workflow.py:419-456 [RecoveryCaseWorkflow._handle_customer_intent] *)
Definition handle_customer_intent (p : CustomerIntentSignal) : coroutine unit :=
  let intent := str_upper (cis_intent p) in
  let disposition :=
    match intent with
    | "OPT_OUT" => "OPTED_OUT"
    | "WRONG_PERSON" => "WRONG_PERSON"
    | "DISPUTE" => "DISPUTE"
    | "ALREADY_PAID" => "ALREADY_PAID"
    | "PROMISE_TO_PAY" => "PROMISE_TO_PAY"
    | _ => "ENGAGED"
    end in
  _ ← assign (fun s => s <| contact_disposition := disposition |>);
  _ ← audit "CUSTOMER_INTENT_RECORDED" (cis_signal_id p)
        [("intent", JStr intent); ("confidence", opt_float (cis_confidence p))];
  if mem intent ["OPT_OUT"; "WRONG_PERSON"] then suppress_outreach (cis_signal_id p) disposition
  else if bool_decide (intent = "DISPUTE") then
    _ ← cancel_active_action "CUSTOMER_DISPUTE";
    finish "DISPUTED" "CUSTOMER_DISPUTE"
  else if bool_decide (intent = "ALREADY_PAID") then
    c ← require_input;
    r ← activity (act_reconcile acts) EvReconcile
          {| ri_case_id := wi_case_id c; ri_merchant_id := wi_merchant_id c;
             ri_failed_invoice_id := wi_failed_invoice_id c;
             ri_failed_payment_id := wi_failed_payment_id c;
             ri_trigger_event_id := cis_signal_id p; ri_payment_state_hint := None;
             ri_amount_paise_hint := None; ri_authoritative_hint := false |};
    _ ← apply_reconciliation r;
    finish_if_recovered r "ALREADY_PAID_RECONCILED"
  else mret tt.

(** src/services/worker/app/workflow.py:458-465 [RecoveryCaseWorkflow._handle_opt_out] *)
Definition handle_opt_out (p : OptOutSignal) : coroutine unit :=
  _ ← assign (fun s => s <| contact_disposition := "OPTED_OUT" |>);
  _ ← audit "OUTREACH_SUPPRESSED" (oos_signal_id p)
        [("source", JStr (oos_source p)); ("reason", opt_str (oos_reason p))];
  suppress_outreach (oos_signal_id p) "OPTED_OUT".

(** src/services/worker/app/workflow.py:467-477 [RecoveryCaseWorkflow._handle_cancellation] *)
Definition handle_cancellation (p : CancellationSignal) : coroutine unit :=
  _ ← audit "RECOVERY_CANCELLED" (cas_signal_id p)
        [("reason", JStr (cas_reason p)); ("requested_by", JStr (cas_requested_by p))];
  _ ← cancel_active_action (cas_reason p);
  finish "STOPPED" "CANCELLED".

(** src/services/worker/app/workflow.py:479-489 [RecoveryCaseWorkflow._handle_operator_escalation] *)
Definition handle_operator_escalation (p : OperatorEscalationSignal) : coroutine unit :=
  _ ← audit "RECOVERY_ESCALATED" (oes_signal_id p)
        [("reason", JStr (oes_reason p)); ("requested_by", JStr (oes_requested_by p))];
  _ ← cancel_active_action "OPERATOR_ESCALATION";
  finish "ESCALATED" "OPERATOR_ESCALATION".

(** src/services/worker/app/workflow.py:491-511 [RecoveryCaseWorkflow._handle_a2a_update] *)
Definition handle_a2a_update (p : A2AUpdateSignal) : coroutine unit :=
  task_id ← attr a2a_task_id;
  if negb (bool_decide (task_id = Some (aus_remote_task_id p))) then
    audit "A2A_UPDATE_IGNORED" (aus_signal_id p) [("reason", JStr "TASK_ID_MISMATCH")]
  else
    _ ← assign (fun s => s <| a2a_state := Some (aus_state p) |>);
    _ ← audit "A2A_TASK_UPDATED" (aus_signal_id p)
          [("remote_task_id", JStr (aus_remote_task_id p)); ("state", JStr (aus_state p))];
    now ← now_;
    assign (fun s => s <| next_a2a_poll_at := Some now |>).

(** src/services/worker/app/workflow.py:513-523 [RecoveryCaseWorkflow._handle_mandate] *)
Definition handle_mandate (p : MandateSignal) : coroutine unit :=
  _ ← audit "MANDATE_SIGNAL_IGNORED" (mas_signal_id p)
        [("mandate_id", JStr (mas_mandate_id p));
         ("reason", JStr "ACTIVITY_VERIFICATION_REQUIRED")];
  task_id ← attr a2a_task_id;
  now ← now_;
  if bool_decide (is_Some task_id) then assign (fun s => s <| next_a2a_poll_at := Some now |>)
  else mret tt.

Definition handle_signal (sig : signal) : coroutine unit :=
  match sig with
  | APPROVAL p => handle_approval p
  | PAYMENT_EVENT p => handle_payment p
  | CUSTOMER_INTENT p => handle_customer_intent p
  | OPT_OUT p => handle_opt_out p
  | CANCELLATION p => handle_cancellation p
  | OPERATOR_ESCALATION p => handle_operator_escalation p
  | A2A_UPDATE p => handle_a2a_update p
  | MANDATE p => handle_mandate p
  end.

(** The signals queued or still to arrive: the fuel of a drain. *)
Definition pending_signals (w : world) : nat := (length (signals (self w)) + length (inbox w))%nat.

Fixpoint drain_loop (fuel : nat) : coroutine unit :=
  match fuel with
  | O => mret tt
  | S fuel' =>
      s ← attr id;
      match signals s with
      | sig :: rest =>
          if terminal s then mret tt
          else
            _ ← assign (fun s => s <| signals := rest |> <| processed_signal_count ::= Z.add 1 |>);
            _ ← handle_signal sig;
            drain_loop fuel'
      | [] => mret tt
      end
  end.

(** src/services/worker/app/workflow.py:352-371 [RecoveryCaseWorkflow._drain_signals] *)
Definition drain_signals : coroutine unit := fun w => drain_loop (pending_signals w) w.

(** src/services/worker/app/workflow.py:340-350 [RecoveryCaseWorkflow._wait_for_signal_or_deadline] *)
Definition wait_for_signal_or_deadline : coroutine unit :=
  s ← attr id;
  now ← now_;
  match deadline s with
  | None => mret tt
  | Some d =>
      let wake_at := match next_a2a_poll_at s with Some t => Z.min d t | None => d end in
      if wake_at - now <=? 0 then mret tt else wait_condition wake_at
  end.

(** The expiry that closes the case once the recovery deadline has passed. *)
Definition expire_case : coroutine unit :=
  _ ← cancel_active_action "RECOVERY_DEADLINE_EXPIRED";
  s ← attr id;
  finish (deadline_outcome s) "DEADLINE_EXPIRED".

Definition past_deadline : coroutine bool :=
  d ← attr deadline;
  now ← now_;
  mret (match d with Some t => t <=? now | None => false end).

Definition out_of_fuel : exn := WorkflowError "OUT_OF_FUEL" "".

(** src/services/worker/app/workflow.py:319-325 [RecoveryCaseWorkflow._wait_for_approval_or_terminal] *)
Fixpoint wait_for_approval_or_terminal (fuel : nat) : coroutine unit :=
  match fuel with
  | O => raise out_of_fuel
  | S fuel' =>
      s ← attr id;
      if bool_decide (is_Some (approval_received s)) || terminal s then mret tt
      else
        _ ← wait_for_signal_or_deadline;
        _ ← drain_signals;
        expired ← past_deadline;
        _ ← (if (expired : bool) then expire_case else mret tt);
        wait_for_approval_or_terminal fuel'
  end.

Fixpoint wait_until_loop (fuel : nat) (target : Z) : coroutine unit :=
  match fuel with
  | O => raise out_of_fuel
  | S fuel' =>
      s ← attr id;
      now ← now_;
      if negb (terminal s) && (now <? target) then
        let wake_at := Z.min target (default target (deadline s)) in
        if wake_at - now <=? 0 then mret tt
        else
          _ ← wait_condition wake_at;
          _ ← drain_signals;
          wait_until_loop fuel' target
      else mret tt
  end.

(** src/services/worker/app/workflow.py:327-338 [RecoveryCaseWorkflow._wait_until] *)
Definition wait_until (fuel : nat) (target : Z) : coroutine unit :=
  _ ← wait_until_loop fuel target;
  expired ← past_deadline;
  s ← attr id;
  if (expired : bool) && negb (terminal s) then expire_case else mret tt.

(** src/services/worker/app/workflow.py:235-251 [RecoveryCaseWorkflow.run]: the main
    loop. *)
Fixpoint recovery_loop (fuel : nat) : coroutine unit :=
  match fuel with
  | O => raise out_of_fuel
  | S fuel' =>
      t ← attr terminal;
      if (t : bool) then mret tt
      else
        _ ← drain_signals;
        t ← attr terminal;
        if (t : bool) then mret tt
        else
          expired ← past_deadline;
          if (expired : bool) then expire_case
          else
            _ ← poll_a2a_if_due;
            t ← attr terminal;
            if (t : bool) then mret tt
            else
              _ ← wait_for_signal_or_deadline;
              _ ← drain_signals;
              recovery_loop fuel'
  end.

(** src/services/worker/app/workflow.py:861-873 [RecoveryCaseWorkflow._result] *)
Definition workflow_result (s : RecoveryCaseWorkflow) : RecoveryWorkflowResult := {|
  wr_case_id := case_id s;
  wr_outcome := default "STOPPED" (or_str (outcome s) None);
  wr_payment_state := payment_state s;
  wr_subscription_state := subscription_state s;
  wr_case_recovered := bool_decide (outcome s = Some "RECOVERED");
  wr_arrears_collected_paise := arrears_collected_paise s;
  wr_subscription_reactivated := subscription_reactivated s;
  wr_contact_disposition := contact_disposition s;
  wr_processed_signal_count := processed_signal_count s;
  wr_duplicate_signal_count := duplicate_signal_count s |}.

(** src/services/worker/app/workflow.py:287-310 [RecoveryCaseWorkflow.status] *)
Definition workflow_status (s : RecoveryCaseWorkflow) : RecoveryWorkflowStatus := {|
  ws_case_id := case_id s; ws_phase := phase s; ws_terminal := terminal s;
  ws_outcome := outcome s; ws_diagnosis := diagnosis s;
  ws_policy_disposition := policy_disposition s; ws_action := action s;
  ws_action_status := action_status s; ws_provider_reference := provider_reference s;
  ws_payment_state := payment_state s; ws_subscription_state := subscription_state s;
  ws_contact_disposition := contact_disposition s; ws_approval_required := approval_required s;
  ws_approval_received := approval_received s; ws_outreach_suppressed := outreach_suppressed s;
  ws_a2a_state := a2a_state s; ws_mandate_received := mandate_received s;
  ws_received_signal_count := Z.of_nat (size (seen_signal_ids s));
  ws_duplicate_signal_count := duplicate_signal_count s;
  ws_recovery_deadline := isoformat <$> deadline s |}.

(** src/services/worker/app/workflow.py:117-150 [RecoveryCaseWorkflow.run]: the checks
    and the normalisation of the failure. *)
Definition run_intake (workflow_id : string) (c : RecoveryWorkflowInput)
  : coroutine NormalizedFailure :=
  let expected_id := recovery_workflow_id (wi_case_id c) in
  _ ← guard_ (negb (bool_decide (workflow_id = expected_id)))
        (WorkflowError "INVALID_WORKFLOW_ID" ("workflow ID must be " +++ expected_id));
  _ ← guard_ (wi_amount_at_risk_paise c <? 0)
        (WorkflowError "INVALID_MONEY_AMOUNT" "amount_at_risk_paise cannot be negative");
  _ ← assign (fun s => s <| case_id := wi_case_id c |>);
  d ← lift (parse_instant (wi_recovery_deadline c));
  _ ← assign (fun s => s <| deadline := Some d |>);
  _ ← assign (fun s => s <| input := Some c |>);
  normalized ← activity (act_normalize acts) EvNormalize
    {| nfi_case_id := wi_case_id c; nfi_merchant_id := wi_merchant_id c;
       nfi_subscription_id := wi_subscription_id c;
       nfi_failed_invoice_id := wi_failed_invoice_id c;
       nfi_failed_payment_id := wi_failed_payment_id c; nfi_event := wi_failure_event c |};
  _ ← assign (fun s => s <| payment_state := nf_payment_state normalized |>
                         <| subscription_state := nf_subscription_state normalized |>);
  mret normalized.

(** src/services/worker/app/workflow.py:152-197 [RecoveryCaseWorkflow.run]: diagnosis,
    score and policy. *)
Definition run_policy (c : RecoveryWorkflowInput) (normalized : NormalizedFailure)
  : coroutine PolicyResult :=
  _ ← assign (fun s => s <| phase := "DIAGNOSING" |>);
  d ← activity (act_diagnose acts) EvDiagnose
        {| di_case_id := wi_case_id c; di_failure := normalized |};
  _ ← assign (fun s => s <| diagnosis := Some (dg_diagnosis d) |>);
  _ ← assign (fun s => s <| phase := "SCORING" |>);
  _ ← activity (act_score acts) EvScore
        {| si_case_id := wi_case_id c; si_amount_at_risk_paise := wi_amount_at_risk_paise c;
           si_diagnosis := dg_diagnosis d; si_candidate_action := wi_candidate_action c |};
  _ ← assign (fun s => s <| phase := "POLICY" |>);
  policy ← activity (act_policy acts) EvPolicy
    {| pi_case_id := wi_case_id c; pi_merchant_id := wi_merchant_id c;
       pi_amount_at_risk_paise := wi_amount_at_risk_paise c; pi_diagnosis := dg_diagnosis d;
       pi_candidate_action := wi_candidate_action c;
       pi_payment_surface_type := wi_payment_surface_type c;
       pi_recovery_deadline := wi_recovery_deadline c |};
  _ ← assign (fun s => s <| policy_disposition := Some (pr_disposition policy) |>
                         <| action := Some (pr_action policy) |>);
  _ ← audit "POLICY_DECIDED" "initial-policy"
        [("disposition", JStr (pr_disposition policy));
         ("decision_code", JStr (pr_decision_code policy)); ("action", JStr (pr_action policy));
         ("reason_codes", JArr (map JStr (pr_reason_codes policy)))];
  mret policy.

(** Run [rest] unless the case has become terminal. *)
Definition unless_terminal (rest : coroutine unit) : coroutine unit :=
  t ← attr terminal;
  if (t : bool) then mret tt else rest.

(** src/services/worker/app/workflow.py:219-251 [RecoveryCaseWorkflow.run]: the action
    and the wait for recovery. *)
Definition run_action (fuel : nat) (policy : PolicyResult) : coroutine unit :=
  let await_recovery :=
    _ ← assign (fun s =>
          if bool_decide (action_status s = Some "UNCERTAIN") then s
          else s <| phase := if bool_decide (is_Some (a2a_task_id s))
                             then "AWAITING_CUSTOMER_AUTHORIZATION" else "AWAITING_RECOVERY" |>);
    recovery_loop fuel in
  if negb (mem (pr_action policy) ["WAIT_FOR_GATEWAY_RETRY"; "STOP"]) then
    _ ← execute_action policy None;
    unless_terminal await_recovery
  else if bool_decide (pr_action policy = "STOP") then finish "STOPPED" "POLICY_STOP"
  else
    _ ← assign (fun s => s <| action_status := Some "SCHEDULED" |>);
    await_recovery.

(** src/services/worker/app/workflow.py:199-216 [RecoveryCaseWorkflow.run]: the gates
    of the policy decision. *)
Definition run_gates (fuel : nat) (policy : PolicyResult) : coroutine unit :=
  if bool_decide (pr_disposition policy = "BLOCK") then finish "STOPPED" "BLOCKED_BY_POLICY"
  else
    _ ← (if bool_decide (pr_disposition policy = "DELAY") then
           match pr_delay_until policy with
           | Some until_ =>
               _ ← assign (fun s => s <| phase := "POLICY_DELAY" |>);
               target ← lift (parse_instant until_);
               wait_until fuel target
           | None => mret tt
           end
         else mret tt);
    unless_terminal (
      if bool_decide (pr_disposition policy = "REQUIRE_MANUAL_APPROVAL") then
        _ ← assign (fun s => s <| approval_required := true |>
                               <| phase := "AWAITING_APPROVAL" |>);
        _ ← wait_for_approval_or_terminal fuel;
        unless_terminal (
          received ← attr approval_received;
          if negb (bool_decide (received = Some true)) then finish "STOPPED" "APPROVAL_REJECTED"
          else run_action fuel policy)
      else run_action fuel policy).

(** src/services/worker/app/workflow.py:117-253 [RecoveryCaseWorkflow.run] *)
Definition run_workflow (fuel : nat) (workflow_id : string) (c : RecoveryWorkflowInput)
  : coroutine RecoveryWorkflowResult :=
  normalized ← run_intake workflow_id c;
  policy ← run_policy c normalized;
  _ ← run_gates fuel policy;
  s ← attr id;
  mret (workflow_result s).

(** ** Reasoning about coroutines

    A [view] is the part of the object a property is about; signal delivery and the
    clock leave it alone, so assertions speak of the view and the trace. *)

Record view : Type := {
  v_input : option RecoveryWorkflowInput;
  v_outcome : option string;
  v_terminal : bool;
  v_payment : string;
  v_task : option string;
  v_approval : option bool;
}.
#[export] Instance eta_view : Eta view := fun v => {|
  v_input := v_input v; v_outcome := v_outcome v; v_terminal := v_terminal v;
  v_payment := v_payment v; v_task := v_task v; v_approval := v_approval v |}.

Definition view_of (s : RecoveryCaseWorkflow) : view := {|
  v_input := input s; v_outcome := outcome s; v_terminal := terminal s;
  v_payment := payment_state s; v_task := a2a_task_id s; v_approval := approval_received s |}.

Definition assertion : Type := view -> list event -> Prop.

(** [P] before; [Q] after a return; [E] after an exception. *)
Definition triple {A} (P : assertion) (m : coroutine A) (Q : A -> assertion) (E : assertion)
  : Prop := forall w, P (view_of (self w)) (trace w) ->
  match m w with
  | (Ok a, w') => Q a (view_of (self w')) (trace w')
  | (Err _, w') => E (view_of (self w')) (trace w')
  end.

Lemma view_enqueue sig s : view_of (enqueue sig s) = view_of s.
Proof. unfold enqueue. by case_bool_decide. Qed.

Lemma view_deliver t pending s : view_of (deliver_until t pending s).2 = view_of s.
Proof.
  revert s. induction pending as [|[at_ sig] rest IH]; intros s; cbn; [done|].
  destruct (at_ <=? t); [|done]. by rewrite IH, view_enqueue.
Qed.

Lemma view_elapse d w : view_of (self (elapse d w)) = view_of (self w) /\
  trace (elapse d w) = trace w.
Proof.
  unfold elapse. pose proof (view_deliver (clock w + Z.max 0 d) (inbox w) (self w)) as H.
  destruct (deliver_until _ _ _). done.
Qed.

Lemma view_await wake now pending s : view_of (await_signal wake now pending s).2 = view_of s.
Proof.
  revert now s. induction pending as [|[at_ sig] rest IH]; intros now s; cbn;
    destruct (signals s); try done. destruct (at_ <=? wake); [|done]. by rewrite IH, view_enqueue.
Qed.

Lemma triple_conseq {A} (P P' : assertion) (m : coroutine A) (Q Q' : A -> assertion)
    (E E' : assertion) :
  triple P m Q E -> (forall v t, P' v t -> P v t) ->
  (forall a v t, Q a v t -> Q' a v t) -> (forall v t, E v t -> E' v t) -> triple P' m Q' E'.
Proof.
  intros H HP HQ HE w Hw. specialize (H w (HP _ _ Hw)). destruct (m w) as [[a|e] w']; auto.
Qed.

Lemma triple_pre {A} (P P' : assertion) (m : coroutine A) (Q : A -> assertion) (E : assertion) :
  (forall v t, P' v t -> P v t) -> triple P m Q E -> triple P' m Q E.
Proof. intros HP H. by eapply triple_conseq. Qed.

Lemma triple_ret {A} (a : A) (Q : A -> assertion) E : triple (Q a) (mret a) Q E.
Proof. by intros w H. Qed.

Lemma triple_bind {A B} P (m : coroutine A) (f : A -> coroutine B) Q R E :
  triple P m R E -> (forall a, triple (R a) (f a) Q E) -> triple P (m ≫= f) Q E.
Proof.
  intros Hm Hf w Hw. unfold mbind, stx_bind. specialize (Hm w Hw).
  destruct (m w) as [[a|e] w']; [by apply Hf|done].
Qed.

Lemma triple_assign f (P : assertion) (Q : unit -> assertion) E :
  (forall s t, P (view_of s) t -> Q tt (view_of (f s)) t) -> triple P (assign f) Q E.
Proof. intros Hf w H. by apply Hf. Qed.

(** An assignment outside the view. *)
Lemma triple_neutral f (P : assertion) E :
  (forall s, view_of (f s) = view_of s) -> triple P (assign f) (fun _ => P) E.
Proof. intros Hf w H. cbn. by rewrite Hf. Qed.

Lemma triple_attr {A} (f : RecoveryCaseWorkflow -> A) (P : assertion) E :
  triple P (attr f) (fun a v t => P v t /\ exists s, view_of s = v /\ f s = a) E.
Proof. intros w H. cbn. eauto. Qed.

Lemma triple_now (P : assertion) E : triple P now_ (fun _ => P) E.
Proof. by intros w H. Qed.

Lemma triple_lift {A} (m : result A) (P : assertion) : triple P (lift m) (fun _ => P) P.
Proof. intros w H. cbn. by destruct m. Qed.

Lemma triple_raise {A} e (P : assertion) (Q : A -> assertion) : triple P (raise e) Q P.
Proof. by intros w H. Qed.

Lemma triple_wait wake (P : assertion) E : triple P (wait_condition wake) (fun _ => P) E.
Proof.
  intros w H. unfold wait_condition.
  pose proof (view_await wake (clock w) (inbox w) (self w)) as Hv.
  destruct (await_signal _ _ _ _) as [[now rest] s]. cbn in *. by rewrite Hv.
Qed.

(** A call leaves the view alone and adds one event to the trace. *)
Lemma triple_activity {I R} (answer : list event -> I -> result R) record argument (P : assertion) :
  triple P (activity answer record argument)
    (fun r v t => exists t0, t = record argument (Ok r) :: t0 /\ P v t0)
    (fun v t => exists t0 e, t = record argument (Err e) :: t0 /\ P v t0).
Proof.
  intros w H. unfold activity. destruct (view_elapse (act_duration acts (trace w)) w) as [Hv Ht].
  destruct (answer (trace w) argument) as [r|e]; cbn; rewrite Hv, Ht; eauto.
Qed.
End Workflow.
