(* ===== verification/WorkflowFacts.v ===== *)
(** * Safety of the recovery workflow

    The invariant of the workflow of [Workflow.v] over the view of the object and the
    trace of activities, its preservation by every handler and loop, and the theorems
    it gives for a whole run, whatever the activities answer and whatever signals
    arrive when. *)
From S2P Require Import Prelude Json Contracts Workflow.

(** ** What a trace may hold *)

(** An authoritative reconciliation that recovered the case. *)
Definition recovered_evidence (t : list event) : Prop :=
  exists i r, EvReconcile i (Ok r) ∈ t /\
    rn_case_recovered r = true /\ rn_authoritative r = true.

(** The decision that lets an action be submitted: not blocked, approved when it had to
    be, and an action that is submitted at all. *)
Definition gate (v : view) (t : list event) : Prop :=
  exists i pr, EvPolicy i (Ok pr) ∈ t /\ pr_disposition pr <> "BLOCK" /\
    (pr_disposition pr = "REQUIRE_MANUAL_APPROVAL" -> v_approval v = Some true) /\
    pr_action pr <> "WAIT_FOR_GATEWAY_RETRY" /\ pr_action pr <> "STOP".

(** The decision a direct submission repeats: its action and surface. *)
Definition decided (t : list event) (i : ExecuteActionInput) : Prop :=
  exists pi pr, EvPolicy pi (Ok pr) ∈ t /\ pr_action pr = ea_action i /\
    pr_payment_surface_type pr = ea_payment_surface_type i /\
    ea_action i <> "SEND_TO_CUSTOMER_AGENT".

(** The verified mandate a delegated submission carries. *)
Definition mandated (c : RecoveryWorkflowInput) (t : list event) (i : ExecuteActionInput)
    (m : json) : Prop :=
  ea_action i = "OPEN_CUSTOMER_PAYMENT_SURFACE" /\
  exists q r, EvPoll q (Ok r) ∈ t /\ mp_verification_status r = "VERIFIED" /\
    is_Some (mp_mandate_id r) /\ mp_verified_artifact r = Some m /\
    ea_payment_surface_type i = Some (pm_payment_surface_type q).

(** Money and identity come from the command alone. *)
Definition execute_scope (c : RecoveryWorkflowInput) (i : ExecuteActionInput) : Prop :=
  ea_case_id i = wi_case_id c /\ ea_merchant_id i = wi_merchant_id c /\
  ea_customer_id i = wi_customer_id c /\ ea_amount_paise i = wi_amount_at_risk_paise c /\
  ea_currency i = wi_currency c /\
  ea_idempotency_key i = wi_case_id c +++ ":" +++ ea_action i +++ ":1".

Definition task_started (t : list event) (task : string) : Prop :=
  exists i r, EvStartA2A i (Ok r) ∈ t /\ aa_remote_task_id r = task.

Definition event_ok (c : RecoveryWorkflowInput) (v : view) (t : list event) (e : event) : Prop :=
  match e with
  | EvExecute i _ => gate v t /\ execute_scope c i /\
      match ea_mandate i with None => decided t i | Some m => mandated c t i m end
  | EvStartA2A i _ => gate v t /\ sa_case_id i = wi_case_id c /\
      sa_exact_amount_paise i = wi_amount_at_risk_paise c
  | EvPoll i _ => task_started t (pm_remote_task_id i) /\ pm_case_id i = wi_case_id c /\
      pm_exact_amount_paise i = wi_amount_at_risk_paise c
  | EvReceipt i _ => recovered_evidence t /\ task_started t (rc_remote_task_id i) /\
      rc_exact_amount_paise i = wi_amount_at_risk_paise c
  | _ => True
  end.

(** The invariant; [known] are events that are already in the trace. *)
Record Inv (c : RecoveryWorkflowInput) (known : list event) (v : view) (t : list event)
  : Prop := {
  inv_known : forall e, e ∈ known -> e ∈ t;
  inv_input : v_input v = Some c;
  inv_recovered : v_outcome v = Some "RECOVERED" ->
    v_terminal v = true /\ v_payment v = "CAPTURED" /\ recovered_evidence t;
  inv_task : forall task, v_task v = Some task -> gate v t /\ task_started t task;
  inv_events : forall e, e ∈ t -> event_ok c v t e;
}.

Section facts.
Context (c : RecoveryWorkflowInput) (known : list event).

Lemma gate_mono v t t' : t ⊆ t' -> gate v t -> gate v t'.
Proof. intros Hs (i & pr & Hin & H). exists i, pr. split; [by apply Hs|done]. Qed.

Lemma evidence_mono t t' : t ⊆ t' -> recovered_evidence t -> recovered_evidence t'.
Proof. intros Hs (i & r & Hin & H). exists i, r. split; [by apply Hs|done]. Qed.

Lemma started_mono t t' x : t ⊆ t' -> task_started t x -> task_started t' x.
Proof. intros Hs (i & r & Hin & H). exists i, r. split; [by apply Hs|done]. Qed.

Lemma event_ok_mono v t t' e : t ⊆ t' -> event_ok c v t e -> event_ok c v t' e.
Proof.
  intros Hs. destruct e; cbn; try done.
  - intros (H1 & H2 & H3). split; [by eapply gate_mono|]. split; [done|].
    destruct (ea_mandate i).
    + destruct H3 as (? & q & x & Hin & H3). split; [done|]. exists q, x. split; [by apply Hs|done].
    + destruct H3 as (q & x & Hin & H3). exists q, x. split; [by apply Hs|done].
  - intros (? & ?). split; [by eapply gate_mono|done].
  - intros (? & ?). split; [by eapply started_mono|done].
  - intros (? & ? & ?). split; [by eapply evidence_mono|]. split; [by eapply started_mono|done].
Qed.

(** The invariant is kept by an event that is itself in order. *)
Lemma Inv_event v t e : Inv c known v t -> event_ok c v (e :: t) e -> Inv c known v (e :: t).
Proof.
  intros [H0 H1 H2 H3 H4] He.
  assert (t ⊆ e :: t) as Hs by set_solver.
  split; [intros e' He'; right; by apply H0|done|..].
  - intros Ho. destruct (H2 Ho) as (? & ? & ?). split; [done|]. split; [done|].
    by eapply evidence_mono.
  - intros task Ht. destruct (H3 task Ht). split; [by eapply gate_mono|by eapply started_mono].
  - intros e' [->|Hin]%elem_of_cons; [done|]. eapply event_ok_mono; [done|]. by apply H4.
Qed.

(** Gates survive a view that keeps the approval, or that had none. *)
Definition approval_kept (v v' : view) : Prop :=
  v_approval v' = v_approval v \/ v_approval v = None.

Lemma gate_view v v' t : approval_kept v v' -> gate v t -> gate v' t.
Proof.
  intros Hk (i & pr & Hin & Hb & Ha & H). exists i, pr. split; [done|]. split; [done|].
  split; [|done]. intros Hr. specialize (Ha Hr). destruct Hk as [-> | Hk]; congruence.
Qed.

Lemma event_ok_view v v' t e : approval_kept v v' -> event_ok c v t e -> event_ok c v' t e.
Proof.
  intros Hk. destruct e; cbn; try done.
  - intros (? & ?). split; [by eapply gate_view|done].
  - intros (? & ?). split; [by eapply gate_view|done].
Qed.

Lemma Inv_view v v' t :
  Inv c known v t -> approval_kept v v' -> v_input v' = v_input v ->
  (v_outcome v' = Some "RECOVERED" ->
     v_terminal v' = true /\ v_payment v' = "CAPTURED" /\ recovered_evidence t) ->
  (forall task, v_task v' = Some task -> gate v t /\ task_started t task) ->
  Inv c known v' t.
Proof.
  intros [H0 H1 H2 H3 H4] Hk Hi Ho Ht. split; [done|congruence|done|..].
  - intros task Hv. destruct (Ht task Hv). split; [by eapply gate_view|done].
  - intros e He. eapply event_ok_view; [done|]. by apply H4.
Qed.

Context (acts : activities).

(** Events that are in order whatever they hold. *)
Definition harmless (e : event) : bool :=
  match e with EvExecute _ _ | EvStartA2A _ _ | EvPoll _ _ | EvReceipt _ _ => false | _ => true end.

Definition stable (P : assertion) : Prop :=
  forall v t e, harmless e = true -> P v t -> P v (e :: t).

Lemma Inv_stable : stable (Inv c known).
Proof. intros v t e He H. apply Inv_event; [done|]. by destruct e. Qed.

Lemma stable_and (P Q : assertion) :
  stable P -> stable Q -> stable (fun v t => P v t /\ Q v t).
Proof. intros HP HQ v t e He [H1 H2]. split; auto. Qed.

Lemma stable_view (P : view -> Prop) : stable (fun v _ => P v).
Proof. by intros v t e _ H. Qed.

Lemma evidence_stable : stable (fun _ t => recovered_evidence t).
Proof. intros v t e _ H. eapply evidence_mono; [|done]. set_solver. Qed.

Lemma gate_stable : stable gate.
Proof. intros v t e _ H. eapply gate_mono; [|done]. set_solver. Qed.

Lemma member_stable (e0 : event) : stable (fun _ t => e0 ∈ t).
Proof. intros v t e _ H. by right. Qed.

#[local] Hint Resolve Inv_stable stable_and stable_view evidence_stable gate_stable
  member_stable : recovery.

Lemma harmless_activity {I R} (answer : list event -> I -> result R) record argument P :
  stable P -> (forall r, harmless (record argument r) = true) ->
  triple P (activity acts answer record argument)
    (fun r v t => P v t /\ record argument (Ok r) ∈ t) P.
Proof.
  intros HP Hh.
  eapply triple_conseq; [apply (triple_activity acts answer record argument P) | done | ..].
  - intros r v t (t0 & -> & H). split; [by apply HP|left].
  - intros v t (t0 & e & -> & H). by apply HP.
Qed.

Lemma audit_spec et cid details P :
  stable P -> triple P (audit acts et cid details) (fun _ => P) P.
Proof.
  intros HP. unfold audit. eapply triple_bind; [apply triple_attr|]. intros cs.
  eapply triple_bind.
  { eapply triple_conseq; [apply (harmless_activity _ _ _ P HP)| | |]; try done.
    by intros v t [? _]. }
  intros r. eapply triple_conseq; [apply (triple_ret tt (fun _ => P))|..]; try done.
  by intros v t [? _].
Qed.

Lemma require_input_spec (P : assertion) :
  (forall v t, P v t -> v_input v = Some c) ->
  triple P require_input (fun i v t => P v t /\ i = c) P.
Proof.
  intros HP w H. pose proof (HP _ _ H) as Hi. unfold require_input, attr. stx_unfold.
  cbn in Hi. rewrite Hi. done.
Qed.

Lemma cancel_spec reason P :
  stable P -> triple P (cancel_active_action acts reason) (fun _ => P) P.
Proof.
  intros HP. unfold cancel_active_action. eapply triple_bind; [apply triple_attr|]. intros s.
  eapply triple_conseq with (P := P) (Q := fun _ => P) (E := P); try done; [|by intros v t [? _]].
  destruct (mem _ _); [apply (triple_ret tt (fun _ => P))|].
  destruct (_ && _); [apply (triple_ret tt (fun _ => P))|].
  eapply triple_bind; [by apply harmless_activity|]. intros r.
  eapply triple_conseq with (P := P) (Q := fun _ => P) (E := P); try done; [|by intros v t [? _]].
  destruct (cr_cancelled r); [by apply triple_neutral|apply (triple_ret tt (fun _ => P))].
Qed.

Lemma finish_spec o reason P :
  o <> "RECOVERED" -> (forall v t, P v t -> Inv c known v t) ->
  triple P (finish o reason) (fun _ => Inv c known) (Inv c known).
Proof.
  intros Ho HP. unfold finish. apply triple_assign. intros s t Hpre. apply HP in Hpre. rewrite bool_decide_eq_false_2 by done.
  apply (Inv_view _ _ _ Hpre); cbn; [by left|done| |apply (inv_task _ _ _ _ Hpre)].
  congruence.
Qed.

Lemma finish_recovered_spec reason P :
  (forall v t, P v t -> Inv c known v t /\ recovered_evidence t) ->
  triple P (finish "RECOVERED" reason) (fun _ => Inv c known) (Inv c known).
Proof.
  intros HP. unfold finish. apply triple_assign. intros s t Hpre. apply HP in Hpre as [Hpre He]. rewrite bool_decide_eq_true_2 by done.
  apply (Inv_view _ _ _ Hpre); cbn; [by left|done|done|apply (inv_task _ _ _ _ Hpre)].
Qed.

(** While the case is live the payment state is free to change. *)
Lemma reconciliation_spec r (R : list event -> Prop) :
  triple (fun v t => Inv c known v t /\ v_terminal v = false /\ R t) (apply_reconciliation r)
    (fun _ v t => Inv c known v t /\ v_terminal v = false /\ R t) (Inv c known).
Proof.
  unfold apply_reconciliation. destruct (negb _);
    [by apply (triple_ret tt (fun _ v t => Inv c known v t /\ v_terminal v = false /\ R t))|].
  apply triple_assign. intros s t (Hi & Hl & HR). split; [|done].
  apply (Inv_view _ _ _ Hi); cbn; [by left|done| |apply (inv_task _ _ _ _ Hi)].
  intros Ho. destruct (inv_recovered _ _ _ _ Hi Ho) as [Ht _]. cbn in *. congruence.
Qed.

(** A submission in order keeps the invariant. *)
Lemma guarded_activity {I R} (answer : list event -> I -> result R) record argument P :
  (forall v t, P v t -> Inv c known v t) ->
  (forall v t r, P v t -> event_ok c v (record argument r :: t) (record argument r)) ->
  triple P (activity acts answer record argument)
    (fun r v t => Inv c known v t /\ exists t0, t = record argument (Ok r) :: t0 /\ P v t0) (Inv c known).
Proof.
  intros HI HP.
  eapply triple_conseq; [apply (triple_activity acts answer record argument P) | done | ..].
  - intros r v t (t0 & -> & H). split; [apply Inv_event; [by apply HI|by apply HP]|]. by exists t0.
  - intros v t (t0 & e & -> & H). apply Inv_event; [by apply HI|by apply HP].
Qed.

Lemma cons_subset (e : event) t : t ⊆ e :: t.
Proof. set_solver. Qed.
#[local] Hint Resolve cons_subset : recovery.

Lemma start_spec (P : assertion) :
  (forall v t, P v t -> Inv c known v t /\ gate v t) ->
  triple P (start_a2a_authorization acts) (fun _ => Inv c known) (Inv c known).
Proof.
  intros HP. unfold start_a2a_authorization.
  set (G := fun v t => Inv c known v t /\ gate v t).
  eapply triple_conseq with (P := G) (Q := fun _ => Inv c known) (E := Inv c known); try done.
  eapply triple_bind with (R := fun i v t => G v t /\ i = c).
  { eapply triple_conseq; [apply (require_input_spec G)|..]; try done.
    - intros v t [H _]. apply (inv_input _ _ _ _ H).
    - by intros v t [H _]. }
  intros i. destruct (a2a_scope i) as [code|[[[st sref] aid] iid]] eqn:Es.
  - eapply triple_bind with (R := fun _ => Inv c known).
    { eapply triple_conseq; [apply (audit_spec _ _ _ _ Inv_stable)|..]; try done.
      by intros v t [[? _] _]. }
    intros _. eapply triple_bind with (R := fun _ => Inv c known); [by apply triple_neutral|].
    intros _. apply finish_spec; [|done]. unfold a2a_scope in Es. by repeat case_match; simplify_eq.
  - eapply triple_bind.
    { apply guarded_activity; [by intros v t [[? _] _]|].
      intros v t r [[_ Hg] ->]. cbn. split; [|done]. eapply gate_mono; [|done]. set_solver. }
    intros r. eapply triple_bind; [apply triple_now|]. intros now.
    eapply triple_bind with (R := fun _ => Inv c known); [|intros _; apply audit_spec, Inv_stable].
    apply triple_assign. intros s t (Hi & t0 & -> & [[_ Hg] ->]).
    apply (Inv_view _ _ _ Hi); cbn; [by left|done|apply (inv_recovered _ _ _ _ Hi)|].
    intros task [= <-]. split; [eapply gate_mono; [|done]; set_solver|].
    eexists _, r. split; [left|done].
Qed.

(** What a submission through [_execute_action] needs. *)
Definition executable (policy : PolicyResult) (mandate : option json) (v : view) (t : list event)
  : Prop :=
  gate v t /\
  match mandate with
  | None => exists pi, EvPolicy pi (Ok policy) ∈ t
  | Some m => forall i, ea_action i = pr_action policy ->
      ea_payment_surface_type i = pr_payment_surface_type policy -> mandated c t i m
  end.

Lemma execute_spec policy mandate (P : assertion) :
  (forall v t, P v t -> Inv c known v t /\ executable policy mandate v t) ->
  triple P (execute_action acts policy mandate) (fun _ => Inv c known) (Inv c known).
Proof.
  intros HP. unfold execute_action.
  destruct (bool_decide (pr_action policy = _) && bool_decide (mandate = None)) eqn:Eb.
  { apply start_spec. intros v t H. by apply HP in H as [? [? _]]. }
  set (G := fun v t => Inv c known v t /\ executable policy mandate v t).
  eapply triple_conseq with (P := G) (Q := fun _ => Inv c known) (E := Inv c known); try done.
  eapply triple_bind with (R := fun i v t => G v t /\ i = c).
  { eapply triple_conseq; [apply (require_input_spec G)|..]; try done.
    - intros v t [H _]. apply (inv_input _ _ _ _ H).
    - by intros v t [H _]. }
  intros i. eapply triple_bind with (R := fun _ v t => G v t /\ i = c);
    [by apply triple_neutral|]. intros _.
  eapply triple_bind.
  { apply guarded_activity; [by intros v t [[? _] _]|].
    intros v t r [[_ [Hg Hx]] ->]. cbn. split; [eapply gate_mono; [|done]; set_solver|].
    split; [done|]. destruct mandate as [m|].
    - destruct (Hx {| ea_case_id := ""; ea_merchant_id := ""; ea_customer_id := "";
        ea_subscription_id := ""; ea_failed_invoice_id := None; ea_amount_paise := 0;
        ea_currency := ""; ea_action := pr_action policy;
        ea_payment_surface_type := pr_payment_surface_type policy; ea_recovery_deadline := "";
        ea_idempotency_key := ""; ea_mandate := None; ea_provider_subscription_id := None;
        ea_provider_invoice_id := None; ea_recovery_action_id := None |} eq_refl eq_refl)
        as (Ha & q & x & Hin & Hrest).
      split; [exact Ha|]. exists q, x. split; [by right|exact Hrest].
    - destruct Hx as [pi Hin]. exists pi, policy. split; [by right|]. cbn.
      split; [done|]. split; [done|]. intros Ha. rewrite Ha in Eb. cbn in Eb. discriminate Eb. }
  intros r. eapply triple_conseq with (P := Inv c known) (Q := fun _ => Inv c known) (E := Inv c known); try done;
    [|by intros v t [? _]].
  eapply triple_bind with (R := fun _ => Inv c known); [by apply triple_neutral|]. intros _.
  eapply triple_bind with (R := fun _ => Inv c known); [apply audit_spec, Inv_stable|]. intros _.
  destruct (mem _ _); [by apply finish_spec|].
  destruct (bool_decide (ae_status r = _)); [by apply triple_neutral|apply (triple_ret tt (fun _ => Inv c known))].
Qed.

Lemma poll_spec : triple (Inv c known) (poll_a2a_if_due acts) (fun _ => Inv c known) (Inv c known).
Proof.
  unfold poll_a2a_if_due. pose proof (triple_ret tt (fun _ : unit => Inv c known) (Inv c known)) as Hret.
  eapply triple_bind; [apply triple_attr|]. intros s.
  eapply triple_bind; [apply triple_now|]. intros now.
  destruct (a2a_task_id s) as [task|] eqn:Etask;
    [|by apply (triple_pre (Inv c known)); [intros v t [? _]|]].
  destruct (next_a2a_poll_at s) as [poll_at|];
    [|by apply (triple_pre (Inv c known)); [intros v t [? _]|]].
  destruct (now <? poll_at); [by apply (triple_pre (Inv c known)); [intros v t [? _]|]|].
  set (P := fun v t => Inv c known v t /\ v_task v = Some task).
  eapply triple_bind with (R := fun i v t => P v t /\ i = c).
  { eapply triple_conseq; [apply (require_input_spec P)|..]; try done.
    - intros v t [H _]. apply (inv_input _ _ _ _ H).
    - intros v t [H (s' & <- & Hs)]. split; [done|]. cbn in *. congruence.
    - by intros v t [H _]. }
  intros i. destruct (a2a_scope i) as [code|[[[st sref] aid] iid]] eqn:Es.
  { eapply triple_bind with (R := fun _ => Inv c known).
    - apply (triple_pre (Inv c known)); [by intros v t [[? _] _]|by apply triple_neutral].
    - intros _. apply finish_spec; [|done]. unfold a2a_scope in Es. by repeat case_match; simplify_eq. }
  eapply triple_bind.
  { apply guarded_activity; [by intros v t [[? _] _]|].
    intros v t r [[Hi Ht] ->]. cbn. split; [|done].
    destruct (inv_task _ _ _ _ Hi task Ht) as [_ Hst]. eapply started_mono; [|done]. set_solver. }
  intros r.
  set (P2 := fun v t => Inv c known v t /\ gate v t /\
    exists q, EvPoll q (Ok r) ∈ t /\ pm_payment_surface_type q = st).
  assert (stable P2) as HP2.
  { apply (stable_and (Inv c known)); [apply Inv_stable|]. apply (stable_and gate); [apply gate_stable|].
    intros v t e _ (q & Hq & Hst). exists q. split; [by right|done]. }
  assert (forall v t, P2 v t -> Inv c known v t) as HP2I by by intros v t [? _].
  apply (triple_pre P2).
  { intros v t (Hi & t0 & -> & [[Hi0 Ht] ->]). split; [done|]. split.
    - destruct (inv_task _ _ _ _ Hi0 task Ht) as [Hg _]. eapply gate_mono; [|done]. set_solver.
    - eexists. split; [left|done]. }
  eapply triple_bind with (R := fun _ => P2); [by apply triple_neutral|]. intros _.
  destruct (bool_decide (mp_verification_status r = "PENDING")).
  { eapply triple_bind; [apply triple_now|]. intros now'.
    apply (triple_pre (Inv c known)); [done|by apply triple_neutral]. }
  eapply triple_bind with (R := fun _ => P2); [by apply triple_neutral|]. intros _.
  eapply triple_bind with (R := fun _ => P2).
  { eapply triple_conseq; [apply (audit_spec _ _ _ P2 HP2)|..]; try done. }
  intros _. destruct (negb _) eqn:Eacc.
  - eapply triple_bind with (R := fun _ => Inv c known);
      [apply (triple_pre (Inv c known)); [done|by apply triple_neutral]|].
    intros _. by apply finish_spec.
  - apply negb_false_iff in Eacc. bools.
    eapply triple_bind with (R := fun _ => P2); [by apply triple_neutral|]. intros _.
    apply execute_spec. intros v t (Hi & Hg & q & Hq & Hst). split; [done|]. split; [done|].
    destruct (mp_verified_artifact r) as [m|] eqn:Em; [|by destruct H0].
    intros i' Ha Hs. cbn in Ha, Hs. split; [done|]. exists q, r. rewrite Hs, Hst. done.
Qed.

(** *** Signal handlers *)

Context (isoformat : Z -> string).

Lemma receipt_spec r :
  let P := fun v t => Inv c known v t /\ recovered_evidence t in
  triple P (send_a2a_receipt_if_applicable acts isoformat r) (fun _ => P) (Inv c known).
Proof.
  intros P. unfold send_a2a_receipt_if_applicable.
  assert (stable P) as HP by (unfold P; auto with recovery).
  assert (forall v t, P v t -> Inv c known v t) as HPI by by intros v t [? _].
  pose proof (triple_ret tt (fun _ : unit => P) (Inv c known)) as Hret.
  eapply triple_bind; [apply triple_attr|]. intros s.
  destruct (a2a_receipt_sent s);
    [by apply (triple_pre P); [intros v t [? _]|]|].
  destruct (a2a_task_id s) as [task|] eqn:Etask;
    [|by apply (triple_pre P); [intros v t [? _]|]].
  destruct (a2a_mandate_id s) as [mid|];
    [|by apply (triple_pre P); [intros v t [? _]|]].
  set (P1 := fun v t => P v t /\ v_task v = Some task).
  eapply triple_bind with (R := fun i v t => P1 v t /\ i = c).
  { eapply triple_conseq; [apply (require_input_spec P1)|..].
    - intros v t [[H _] _]. apply (inv_input _ _ _ _ H).
    - intros v t [H (s' & <- & Hs)]. split; [done|]. cbn in *. congruence.
    - done.
    - by intros v t [[H _] _]. }
  intros i. destruct (rn_provider_reference r) as [reference|];
    [|by apply (triple_pre P); [intros v t [[? _] _]|]].
  destruct (_ || _); [by apply (triple_pre P); [intros v t [[? _] _]|]|].
  eapply triple_bind; [apply triple_now|]. intros now.
  eapply triple_bind.
  { apply guarded_activity; [by intros v t [[[? _] _] _]|].
    intros v t r0 [[[Hi He] Ht] ->]. cbn. split; [eapply evidence_mono; [|done]; set_solver|].
    destruct (inv_task _ _ _ _ Hi task Ht) as [_ Hst].
    split; [eapply started_mono; [|done]; set_solver|done]. }
  intros receipt. eapply triple_conseq with (P := P) (Q := fun _ => P) (E := Inv c known); try done.
  2: { intros v t (Hi & t0 & -> & [[[_ He] _] _]). split; [done|].
       eapply evidence_mono; [|done]. set_solver. }
  eapply triple_bind with (R := fun _ => P).
  { destruct (_ && _); [by apply triple_neutral|apply Hret]. }
  intros _. eapply triple_bind; [apply triple_attr|]. intros sent.
  eapply triple_conseq; [apply (audit_spec _ _ _ P HP)|..]; [by intros v t [? _]|done|exact HPI].
Qed.

Definition live : assertion := fun v t => Inv c known v t /\ v_terminal v = false.

Lemma live_stable : stable live.
Proof. apply (stable_and (Inv c known)); [apply Inv_stable|apply stable_view]. Qed.

Lemma live_inv v t : live v t -> Inv c known v t.
Proof. by intros [? _]. Qed.
#[local] Hint Resolve live_stable live_inv : recovery.

Lemma live_audit et cid details :
  triple live (audit acts et cid details) (fun _ => live) (Inv c known).
Proof.
  eapply triple_conseq; [apply (audit_spec et cid details live live_stable)|..]; try done.
  apply live_inv.
Qed.

Lemma cancel_finish_spec reason o why :
  o <> "RECOVERED" ->
  triple live (_ ← cancel_active_action acts reason; finish o why) (fun _ => Inv c known) (Inv c known).
Proof.
  intros Ho. apply (triple_pre (Inv c known)); [apply live_inv|].
  eapply triple_bind with (R := fun _ => Inv c known); [apply (cancel_spec reason (Inv c known) Inv_stable)|].
  intros _. by apply finish_spec.
Qed.

Lemma suppress_spec sid d :
  triple live (suppress_outreach acts sid d) (fun _ => Inv c known) (Inv c known).
Proof.
  unfold suppress_outreach. eapply triple_bind with (R := fun _ => live); [by apply triple_neutral|].
  intros _. eapply triple_bind with (R := fun _ => live).
  { eapply triple_conseq; [apply (cancel_spec d live live_stable)|..]; try done. apply live_inv. }
  intros _. eapply triple_bind with (R := fun _ => live); [apply live_audit|]. intros _.
  apply triple_assign. intros s t [Hi Hl]. apply (Inv_view _ _ _ Hi); cbn; [by left|done|done|].
  apply (inv_task _ _ _ _ Hi).
Qed.

(** The reconciliation a handler runs, up to the closing of the case. *)
Lemma reconcile_spec r why :
  triple (fun v t => live v t /\ exists i, EvReconcile i (Ok r) ∈ t)
    (finish_if_recovered acts isoformat r why) (fun _ => Inv c known) (Inv c known).
Proof.
  unfold finish_if_recovered. destruct (_ && _) eqn:Er.
  2: { eapply triple_conseq; [apply (triple_ret tt (fun _ => Inv c known) (Inv c known))|..]; try done.
       by intros v t [[? _] _]. }
  bools. set (P := fun v t => Inv c known v t /\ recovered_evidence t).
  apply (triple_pre P). { intros v t [[Hi _] [i Hin]]. split; [done|]. by exists i, r. }
  assert (stable P) as HP.
  { apply (stable_and (Inv c known)); [apply Inv_stable|apply evidence_stable]. }
  eapply triple_bind with (R := fun _ => P); [apply receipt_spec|]. intros _.
  eapply triple_bind with (R := fun _ => P).
  { eapply triple_conseq; [apply (cancel_spec _ P HP)|..]; try done. by intros v t [? _]. }
  intros _. by apply finish_recovered_spec.
Qed.

Lemma reconcile_activity (i : ReconciliationInput) :
  triple live (activity acts (act_reconcile acts) EvReconcile i)
    (fun r v t => live v t /\ exists i, EvReconcile i (Ok r) ∈ t) (Inv c known).
Proof.
  eapply triple_conseq;
    [apply (harmless_activity (act_reconcile acts) EvReconcile i live live_stable)|..]; try done.
  - intros r v t [H Hin]. split; [done|]. by exists i.
  - apply live_inv.
Qed.

Lemma apply_spec r :
  triple (fun v t => live v t /\ exists i, EvReconcile i (Ok r) ∈ t) (apply_reconciliation r)
    (fun _ v t => live v t /\ exists i, EvReconcile i (Ok r) ∈ t) (Inv c known).
Proof.
  eapply triple_conseq; [apply (reconciliation_spec r (fun t => exists i, EvReconcile i (Ok r) ∈ t))|..];
    try done.
  - by intros v t [[? ?] ?].
  - by intros _ v t (? & ? & ?).
Qed.

Lemma live_input :
  triple live require_input (fun i v t => live v t /\ i = c) (Inv c known).
Proof.
  eapply triple_conseq; [apply (require_input_spec live)|..]; try done.
  - intros v t [H _]. apply (inv_input _ _ _ _ H).
  - apply live_inv.
Qed.

Lemma handler_spec sig : triple live (handle_signal acts isoformat sig) (fun _ => Inv c known) (Inv c known).
Proof.
  assert (forall m : coroutine unit, triple live m (fun _ => live) (Inv c known) ->
            triple live m (fun _ => Inv c known) (Inv c known)) as Hlive.
  { intros m Hm. eapply triple_conseq; [exact Hm|..]; try done. intros a v t; apply live_inv. }
  destruct sig as [p|p|p|p|p|p|p|p]; cbn [handle_signal].
  - unfold handle_payment. eapply triple_bind; [apply live_input|]. intros i.
    apply (triple_pre live); [by intros v t [? _]|].
    eapply triple_bind; [apply reconcile_activity|]. intros r.
    set (P := fun v t => live v t /\ exists i, EvReconcile i (Ok r) ∈ t).
    eapply triple_bind with (R := fun _ => P); [apply apply_spec|]. intros _.
    eapply triple_bind with (R := fun _ => P); [|intros _; apply reconcile_spec].
    assert (stable P) as HP.
    { apply (stable_and live); [apply live_stable|]. intros v t e _ [j Hj]. exists j. by right. }
    eapply triple_conseq; [apply (audit_spec _ _ _ P HP)|..]; try done. by intros v t [[? _] _].
  - unfold handle_customer_intent. cbv zeta.
    eapply triple_bind with (R := fun _ => live); [by apply triple_neutral|]. intros _.
    eapply triple_bind with (R := fun _ => live); [apply live_audit|]. intros _.
    destruct (mem _ _); [apply suppress_spec|].
    destruct (bool_decide (_ = "DISPUTE")); [by apply cancel_finish_spec|].
    destruct (bool_decide (_ = "ALREADY_PAID")).
    + eapply triple_bind; [apply live_input|]. intros i.
      apply (triple_pre live); [by intros v t [? _]|].
      eapply triple_bind; [apply reconcile_activity|]. intros r.
      eapply triple_bind with (R := fun _ v t => live v t /\ exists i, EvReconcile i (Ok r) ∈ t);
        [apply apply_spec|]. intros _. apply reconcile_spec.
    + apply Hlive. apply (triple_ret tt (fun _ => live)).
  - unfold handle_approval. eapply triple_bind; [apply triple_attr|]. intros s.
    destruct (_ || _) eqn:Eb.
    + apply (triple_pre live); [by intros v t [? _]|]. apply Hlive, live_audit.
    + bools. eapply triple_bind with (R := fun _ => live);
        [|intros _; apply Hlive, live_audit].
      apply triple_assign. intros s0 t [[Hi Hl] (s1 & Hv & <-)]. split; [|done].
      apply (Inv_view _ _ _ Hi); cbn; [|done| |apply (inv_task _ _ _ _ Hi)].
      * right. cbn. apply (f_equal v_approval) in Hv. cbn in Hv. rewrite <- Hv.
        by apply eq_None_not_Some.
      * apply (inv_recovered _ _ _ _ Hi).
  - unfold handle_opt_out.
    eapply triple_bind with (R := fun _ => live); [by apply triple_neutral|]. intros _.
    eapply triple_bind with (R := fun _ => live); [apply live_audit|]. intros _.
    apply suppress_spec.
  - unfold handle_cancellation.
    eapply triple_bind with (R := fun _ => live); [apply live_audit|]. intros _.
    by apply cancel_finish_spec.
  - unfold handle_operator_escalation.
    eapply triple_bind with (R := fun _ => live); [apply live_audit|]. intros _.
    by apply cancel_finish_spec.
  - unfold handle_a2a_update. eapply triple_bind; [apply triple_attr|]. intros task.
    apply (triple_pre live); [by intros v t [? _]|].
    destruct (negb _); [apply Hlive, live_audit|]. apply Hlive.
    eapply triple_bind with (R := fun _ => live); [by apply triple_neutral|]. intros _.
    eapply triple_bind with (R := fun _ => live); [apply live_audit|]. intros _.
    eapply triple_bind; [apply triple_now|]. intros now. by apply triple_neutral.
  - unfold handle_mandate. apply Hlive.
    eapply triple_bind with (R := fun _ => live); [apply live_audit|]. intros _.
    eapply triple_bind; [apply triple_attr|]. intros task.
    apply (triple_pre live); [by intros v t [? _]|].
    eapply triple_bind; [apply triple_now|]. intros now.
    destruct (bool_decide _); [by apply triple_neutral|apply (triple_ret tt (fun _ => live))].
Qed.

(** *** Loops *)

Definition keeps {A} (m : coroutine A) : Prop := triple (Inv c known) m (fun _ => Inv c known) (Inv c known).

Lemma inv_keeps_bind {A B} (m : coroutine A) (f : A -> coroutine B) :
  keeps m -> (forall a, keeps (f a)) -> keeps (m ≫= f).
Proof. intros H1 H2. by eapply triple_bind. Qed.

Lemma keeps_bind_pre {A B} (m : coroutine A) (f : A -> coroutine B) Q :
  keeps m -> (forall a, triple (Inv c known) (f a) Q (Inv c known)) ->
  triple (Inv c known) (m ≫= f) Q (Inv c known).
Proof. intros H1 H2. by eapply triple_bind. Qed.

Lemma keeps_attr {A} (f : RecoveryCaseWorkflow -> A) : keeps (attr f).
Proof.
  eapply triple_conseq; [apply (triple_attr f (Inv c known) (Inv c known))|..]; try done. by intros a v t [? _].
Qed.

Lemma inv_keeps_ret {A} (a : A) : keeps (mret a).
Proof. apply (triple_ret a (fun _ => Inv c known)). Qed.

Lemma keeps_now : keeps now_.
Proof. apply triple_now. Qed.

Lemma drain_loop_spec fuel : keeps (drain_loop acts isoformat fuel).
Proof.
  induction fuel as [|fuel IH]; cbn [drain_loop]; [apply inv_keeps_ret|].
  eapply triple_bind; [apply triple_attr|]. intros s.
  destruct (signals s) as [|sig rest]; [apply (triple_pre (Inv c known)); [by intros v t [? _]|apply inv_keeps_ret]|].
  destruct (terminal s) eqn:Et; [apply (triple_pre (Inv c known)); [by intros v t [? _]|apply inv_keeps_ret]|].
  apply (triple_pre live).
  { intros v t [Hi (s' & <- & Hs)]. split; [done|]. cbn in *. congruence. }
  eapply triple_bind with (R := fun _ => live); [by apply triple_neutral|]. intros _.
  eapply triple_bind with (R := fun _ => Inv c known); [apply handler_spec|]. by intros _.
Qed.

Lemma drain_spec : keeps (drain_signals acts isoformat).
Proof. intros w H. by apply drain_loop_spec. Qed.

Lemma wait_spec : keeps wait_for_signal_or_deadline.
Proof.
  unfold wait_for_signal_or_deadline. apply inv_keeps_bind; [apply keeps_attr|]. intros s.
  apply inv_keeps_bind; [apply keeps_now|]. intros now.
  destruct (deadline s); [|apply inv_keeps_ret].
  destruct (_ <=? 0); [apply inv_keeps_ret|apply triple_wait].
Qed.

Lemma expire_spec : keeps (expire_case acts).
Proof.
  unfold expire_case. apply inv_keeps_bind; [apply (cancel_spec _ _ Inv_stable)|]. intros _.
  apply inv_keeps_bind; [apply keeps_attr|]. intros s. apply finish_spec; [|done].
  unfold deadline_outcome. by destruct (outreach_suppressed s).
Qed.

Lemma past_deadline_spec : keeps past_deadline.
Proof.
  unfold past_deadline. apply inv_keeps_bind; [apply keeps_attr|]. intros d.
  apply inv_keeps_bind; [apply keeps_now|]. intros now. apply inv_keeps_ret.
Qed.

Lemma wait_for_approval_spec fuel : keeps (wait_for_approval_or_terminal acts isoformat fuel).
Proof.
  induction fuel as [|fuel IH]; cbn [wait_for_approval_or_terminal]; [apply triple_raise|].
  apply inv_keeps_bind; [apply keeps_attr|]. intros s. destruct (_ || _); [apply inv_keeps_ret|].
  apply inv_keeps_bind; [apply wait_spec|]. intros _. apply inv_keeps_bind; [apply drain_spec|]. intros _.
  apply inv_keeps_bind; [apply past_deadline_spec|]. intros []; apply inv_keeps_bind;
    auto using expire_spec, inv_keeps_ret.
Qed.

Lemma wait_until_loop_spec fuel target : keeps (wait_until_loop acts isoformat fuel target).
Proof.
  induction fuel as [|fuel IH]; cbn [wait_until_loop]; [apply triple_raise|].
  apply inv_keeps_bind; [apply keeps_attr|]. intros s. apply inv_keeps_bind; [apply keeps_now|]. intros now.
  destruct (_ && _); [|apply inv_keeps_ret]. destruct (_ <=? 0); [apply inv_keeps_ret|].
  apply inv_keeps_bind; [apply triple_wait|]. intros _. apply inv_keeps_bind; auto using drain_spec.
Qed.

Lemma wait_until_spec fuel target : keeps (wait_until acts isoformat fuel target).
Proof.
  unfold wait_until. apply inv_keeps_bind; [apply wait_until_loop_spec|]. intros _.
  apply inv_keeps_bind; [apply past_deadline_spec|]. intros b. apply inv_keeps_bind; [apply keeps_attr|].
  intros s. destruct (_ && _); [apply expire_spec|apply inv_keeps_ret].
Qed.

Lemma recovery_loop_spec fuel : keeps (recovery_loop acts isoformat fuel).
Proof.
  induction fuel as [|fuel IH]; cbn [recovery_loop]; [apply triple_raise|].
  apply inv_keeps_bind; [apply keeps_attr|]. intros []; [apply inv_keeps_ret|].
  apply inv_keeps_bind; [apply drain_spec|]. intros _.
  apply inv_keeps_bind; [apply keeps_attr|]. intros []; [apply inv_keeps_ret|].
  apply inv_keeps_bind; [apply past_deadline_spec|]. intros []; [apply expire_spec|].
  apply inv_keeps_bind; [apply poll_spec|]. intros _.
  apply inv_keeps_bind; [apply keeps_attr|]. intros []; [apply inv_keeps_ret|].
  apply inv_keeps_bind; [apply wait_spec|]. intros _. apply inv_keeps_bind; auto using drain_spec.
Qed.
End facts.

(** ** A whole run *)

(** What holds even when the run fails before the input is recorded. *)
Definition Safe (c : RecoveryWorkflowInput) (v : view) (t : list event) : Prop :=
  (forall e, e ∈ t -> event_ok c v t e) /\
  (v_outcome v = Some "RECOVERED" ->
     v_terminal v = true /\ v_payment v = "CAPTURED" /\ recovered_evidence t).

Lemma Inv_safe c known v t : Inv c known v t -> Safe c v t.
Proof. intros H. split; [apply (inv_events _ _ _ _ H)|apply (inv_recovered _ _ _ _ H)]. Qed.

Lemma Inv_learn c known v t e : Inv c known v t -> e ∈ t -> Inv c [e] v t.
Proof.
  intros [H0 H1 H2 H3 H4] He. split; try done. by intros e' ->%list_elem_of_singleton.
Qed.

Lemma triple_safe {A} c known P (m : coroutine A) Q :
  triple P m Q (Inv c known) -> triple P m Q (Safe c).
Proof. intros H. eapply triple_conseq; [exact H|done|done|]. intros v t. apply Inv_safe. Qed.

Section run.
Context (acts : activities) (fromisoformat : string -> result datetime)
        (isoformat : Z -> string) (c : RecoveryWorkflowInput).

(** The start of a run: a fresh object and an empty trace. *)
Definition fresh : assertion := fun v t => v = view_of workflow_init /\ t = [].

Lemma fresh_safe v t : fresh v t -> Safe c v t.
Proof. intros [-> ->]. split; [by intros e ?%not_elem_of_nil|done]. Qed.

Lemma intake_spec workflow_id :
  triple fresh (run_intake acts fromisoformat workflow_id c) (fun _ => Inv c []) (Safe c).
Proof.
  unfold run_intake, guard_.
  assert (forall A (m : result A), triple fresh (lift m) (fun _ => fresh) (Safe c)) as Hlift.
  { intros A m. eapply triple_conseq; [apply triple_lift|..]; try done. apply fresh_safe. }
  do 2 (eapply triple_bind with (R := fun _ => fresh); [apply Hlift|]; intros _).
  eapply triple_bind with (R := fun _ => fresh); [by apply triple_neutral|]. intros _.
  eapply triple_bind with (R := fun _ => fresh); [apply Hlift|]. intros d.
  eapply triple_bind with (R := fun _ => fresh); [by apply triple_neutral|]. intros _.
  eapply triple_bind with (R := fun _ => live c []).
  { apply triple_assign. intros s t [Hv ->]. injection Hv as _ Ho Hl _ Ht _. split; [|done].
    split; cbn; try done.
    - congruence.
    - congruence.
    - by intros e ?%not_elem_of_nil. }
  intros _. apply (triple_safe c []).
  eapply triple_bind with (R := fun _ => live c []).
  { eapply triple_conseq; [apply (harmless_activity _ _ _ _ _ (live_stable c []))|..]; try done.
    - by intros r v t [? _].
    - apply live_inv. }
  intros n. eapply triple_bind with (R := fun _ => Inv c []); [|intros _; apply inv_keeps_ret].
  apply triple_assign. intros s t [Hi Hl].
  apply (Inv_view _ _ _ _ _ Hi); cbn; [by left|done| |apply (inv_task _ _ _ _ Hi)].
  intros Ho. destruct (inv_recovered _ _ _ _ Hi Ho) as [Ht _]. cbn in *. congruence.
Qed.

Lemma policy_spec n :
  triple (Inv c []) (run_policy acts c n)
    (fun policy v t => exists i, Inv c [EvPolicy i (Ok policy)] v t) (Safe c).
Proof.
  apply (triple_safe c []). unfold run_policy.
  assert (forall I R (answer : list event -> I -> result R) record i,
    (forall r, harmless (record i r) = true) ->
    triple (Inv c []) (activity acts answer record i) (fun _ => Inv c []) (Inv c [])) as Hact.
  { intros I R answer record i Hh.
    eapply triple_conseq; [by apply (harmless_activity _ _ _ _ _ (Inv_stable c []))|..]; try done.
    by intros r v t [? _]. }
  eapply keeps_bind_pre; [by apply triple_neutral|]. intros _.
  eapply keeps_bind_pre; [by apply Hact|]. intros d.
  eapply keeps_bind_pre; [by apply triple_neutral|]. intros _.
  eapply keeps_bind_pre; [by apply triple_neutral|]. intros _.
  eapply keeps_bind_pre; [by apply Hact|]. intros sc.
  eapply keeps_bind_pre; [by apply triple_neutral|]. intros _.
  set (P := fun pol v t => Inv c [] v t /\ exists i, EvPolicy i (Ok pol) ∈ t).
  eapply triple_bind with (R := P).
  { eapply triple_conseq; [by refine (harmless_activity acts (act_policy acts) EvPolicy _ _
      (Inv_stable c []) _)|..]; try done.
    intros r v t [? ?]. split; [done|]. by eexists. }
  intros pol. assert (stable (P pol)) as HP.
  { apply (stable_and (Inv c [])); [apply Inv_stable|]. intros v t e _ [i Hi]. exists i. by right. }
  eapply triple_bind with (R := fun _ => P pol); [by apply triple_neutral|]. intros _.
  eapply triple_bind with (R := fun _ => P pol).
  { eapply triple_conseq; [apply (audit_spec _ _ _ _ (P pol) HP)|..]; try done.
    by intros v t [? _]. }
  intros _. apply (triple_pre (P pol)); [done|].
  intros w [Hi [i Hin]]. cbn. exists i. by eapply Inv_learn.
Qed.

Section gates.
Context (policy : PolicyResult) (i : PolicyInput).
#[local] Abbreviation known := [EvPolicy i (Ok policy)].

Lemma known_policy v t : Inv c known v t -> EvPolicy i (Ok policy) ∈ t.
Proof. intros H. apply (inv_known _ _ _ _ H). left. Qed.

Lemma action_spec fuel :
  pr_disposition policy <> "BLOCK" ->
  triple (fun v t => Inv c known v t /\
            (pr_disposition policy = "REQUIRE_MANUAL_APPROVAL" -> v_approval v = Some true))
    (run_action acts isoformat fuel policy) (fun _ => Inv c known) (Inv c known).
Proof.
  intros Hb. unfold run_action. cbv zeta.
  assert (keeps c known (_ ← assign (fun s =>
          if bool_decide (action_status s = Some "UNCERTAIN") then s
          else s <| phase := if bool_decide (is_Some (a2a_task_id s))
                             then "AWAITING_CUSTOMER_AUTHORIZATION" else "AWAITING_RECOVERY" |>);
    recovery_loop acts isoformat fuel)) as Hwait.
  { apply inv_keeps_bind; [apply triple_neutral; intros s; by case_bool_decide|].
    intros _. apply recovery_loop_spec. }
  destruct (negb (mem (pr_action policy) _)) eqn:Ea; [|destruct (bool_decide _)].
  - apply negb_true_iff, mem_false in Ea.
    eapply triple_bind with (R := fun _ => Inv c known).
    + apply execute_spec. intros v t [Hi Ha]. split; [done|]. pose proof (known_policy _ _ Hi).
      split; [|by exists i]. exists i, policy. split; [done|]. split; [done|]. split; [done|].
      split; intros E; apply Ea; rewrite E; set_solver.
    + intros _. unfold unless_terminal. apply inv_keeps_bind; [apply keeps_attr|].
      intros []; [apply inv_keeps_ret|exact Hwait].
  - apply finish_spec; [done|]. by intros v t [? _].
  - apply (triple_pre (Inv c known)); [by intros v t [? _]|].
    apply inv_keeps_bind; [by apply triple_neutral|]. intros _. exact Hwait.
Qed.

Lemma gates_spec fuel : keeps c known (run_gates acts fromisoformat isoformat fuel policy).
Proof.
  unfold run_gates. destruct (bool_decide (_ = "BLOCK")) eqn:Eb; [by apply finish_spec|]. bools.
  assert (forall rest, keeps c known rest -> keeps c known (unless_terminal rest)) as Hunless.
  { intros rest Hr. unfold unless_terminal. apply inv_keeps_bind; [apply keeps_attr|].
    intros []; [apply inv_keeps_ret|exact Hr]. }
  apply inv_keeps_bind.
  { destruct (bool_decide _); [|apply inv_keeps_ret]. destruct (pr_delay_until policy); [|apply inv_keeps_ret].
    apply inv_keeps_bind; [by apply triple_neutral|]. intros _.
    apply inv_keeps_bind; [apply triple_lift|]. intros target. apply wait_until_spec. }
  intros _. apply Hunless. destruct (bool_decide (_ = "REQUIRE_MANUAL_APPROVAL")) eqn:Er.
  - apply inv_keeps_bind; [by apply triple_neutral|]. intros _.
    apply inv_keeps_bind; [apply wait_for_approval_spec|]. intros _. apply Hunless.
    eapply triple_bind; [apply triple_attr|]. intros received.
    destruct (negb _) eqn:En; [by apply finish_spec; [|intros v t [? _]]|]. bools.
    eapply triple_pre; [|by apply action_spec].
    intros v t [Hi (s & <- & Hs)]. split; [done|]. intros _. cbn. congruence.
  - bools. eapply triple_pre; [|by apply action_spec]. intros v t Hi. by split.
Qed.
End gates.

Lemma run_spec fuel workflow_id :
  triple fresh (run_workflow acts fromisoformat isoformat fuel workflow_id c)
    (fun r v t => Safe c v t /\ (wr_case_recovered r = true ->
       v_outcome v = Some "RECOVERED" /\ wr_payment_state r = v_payment v)) (Safe c).
Proof.
  unfold run_workflow. eapply triple_bind; [apply intake_spec|]. intros n.
  eapply triple_bind; [apply policy_spec|]. intros policy w [i Hi].
  revert w Hi. change (triple (Inv c [EvPolicy i (Ok policy)])
    (_ ← run_gates acts fromisoformat isoformat fuel policy; s ← attr id; mret (workflow_result s))
    (fun r v t => Safe c v t /\ (wr_case_recovered r = true ->
       v_outcome v = Some "RECOVERED" /\ wr_payment_state r = v_payment v)) (Safe c)).
  apply (triple_safe c [EvPolicy i (Ok policy)]).
  eapply triple_bind; [apply gates_spec|]. intros _ w Hw. cbn.
  split; [by eapply Inv_safe|]. intros H. by apply bool_decide_eq_true in H.
Qed.

(** The world a run starts in: any clock and any signals still to arrive. *)
Definition start_world (now : Z) (arrivals : list (Z * signal)) : world :=
  {| self := workflow_init; clock := now; inbox := arrivals; trace := [] |}.

Lemma run_safe fuel workflow_id now arrivals :
  let w := (run_workflow acts fromisoformat isoformat fuel workflow_id c
              (start_world now arrivals)).2 in
  Safe c (view_of (self w)) (trace w).
Proof.
  pose proof (run_spec fuel workflow_id (start_world now arrivals)) as H.
  specialize (H ltac:(by split)). destruct (run_workflow _ _ _ _ _ _ _) as [[r|e] w]; [|done].
  by destruct H.
Qed.

(** C6: whatever the activities answer and whatever signals arrive when, a recovery
    workflow submits an action only behind its policy decision: not blocked, an
    approval received where one was required, and an action that is submitted at all;
    a direct submission repeats the decided action and surface and is never the
    customer agent's, a delegated one carries the artifact of a verified mandate for
    its surface; and the amount, the identities and the idempotency key are those of
    the command. *)
Theorem submissions_gated fuel workflow_id now arrivals i r :
  let w := (run_workflow acts fromisoformat isoformat fuel workflow_id c
              (start_world now arrivals)).2 in
  EvExecute i r ∈ trace w ->
  gate (view_of (self w)) (trace w) /\ execute_scope c i /\
  match ea_mandate i with
  | None => decided (trace w) i
  | Some m => mandated c (trace w) i m
  end.
Proof. intros w H. destruct (run_safe fuel workflow_id now arrivals) as [Hs _]. apply (Hs _ H). Qed.

(** a delegation to the customer agent also passes the policy gate and asks for the
    exact amount at risk; a mandate is polled only for a task the workflow started; and
    a receipt is sent only after an authoritative reconciliation recovered the case,
    for that task and that amount. *)
Theorem delegation_in_scope fuel workflow_id now arrivals e :
  let w := (run_workflow acts fromisoformat isoformat fuel workflow_id c
              (start_world now arrivals)).2 in
  e ∈ trace w ->
  match e with
  | EvStartA2A i _ => gate (view_of (self w)) (trace w) /\
      sa_exact_amount_paise i = wi_amount_at_risk_paise c
  | EvPoll i _ => task_started (trace w) (pm_remote_task_id i) /\
      pm_exact_amount_paise i = wi_amount_at_risk_paise c
  | EvReceipt i _ => recovered_evidence (trace w) /\
      task_started (trace w) (rc_remote_task_id i) /\
      rc_exact_amount_paise i = wi_amount_at_risk_paise c
  | _ => True
  end.
Proof.
  intros w H. destruct (run_safe fuel workflow_id now arrivals) as [Hs _]. specialize (Hs _ H).
  destruct e; cbn in Hs; intuition.
Qed.

(** C7: a workflow reports a recovered case only after a reconciliation activity
    answered, authoritatively, that the case is recovered: neither a signal, nor a
    customer's word, nor a mandate can produce the outcome; and the payment state it
    reports is then captured. *)
Theorem recovered_is_reconciled fuel workflow_id now arrivals r w :
  run_workflow acts fromisoformat isoformat fuel workflow_id c (start_world now arrivals)
    = (Ok r, w) ->
  wr_case_recovered r = true ->
  recovered_evidence (trace w) /\ wr_payment_state r = "CAPTURED".
Proof.
  intros H Hr. pose proof (run_spec fuel workflow_id (start_world now arrivals)) as Hs.
  rewrite H in Hs. destruct (Hs ltac:(by split)) as [[_ Hrec] Hout].
  destruct (Hout Hr) as [Ho Hp]. destruct (Hrec Ho) as (_ & Hc & He). split; [done|congruence].
Qed.
End run.

(** ** Concrete runs *)

Definition demo_iso (s : string) : result datetime :=
  if bool_decide (s = "deadline") then Ok (utc_datetime (1000 * second))
  else if bool_decide (s = "delay") then Ok (utc_datetime (100 * second))
  else Err (ValueError "Invalid isoformat string").

Definition demo_policy (disposition act : string) (until_ : option string) : PolicyResult := {|
  pr_disposition := disposition; pr_decision_code := "demo"; pr_action := act;
  pr_payment_surface_type := None; pr_reason_codes := []; pr_delay_until := until_ |}.

(** Activities that take [d] and answer with the given policy; the case is recovered. *)
Definition demo_activities (policy : PolicyResult) (d : Z) : activities := {|
  act_normalize := fun _ i => Ok {| nf_case_id := nfi_case_id i; nf_provider_event_id := "evt";
    nf_payment_state := "FAILED"; nf_subscription_state := "PENDING"; nf_reason_code := None;
    nf_authoritative := true; nf_occurred_at := "" |};
  act_diagnose := fun _ _ => Ok {| dg_diagnosis := "INSUFFICIENT_FUNDS"; dg_confidence := 1;
    dg_reason_codes := [] |};
  act_score := fun _ _ => Ok {| sr_model_name := "m"; sr_model_version := "1";
    sr_recovery_probability := 1 # 2; sr_expected_recovered_paise := 1;
    sr_expected_utility_paise := 1; sr_explanation := [] |};
  act_policy := fun _ _ => Ok policy;
  act_execute := fun _ _ => Ok {| ae_status := "SUCCEEDED"; ae_provider := "mock";
    ae_provider_reference := Some "ref"; ae_customer_url := None; ae_reason_code := None |};
  act_start_a2a := fun _ _ => Ok {| aa_remote_task_id := "task"; aa_state := "WORKING";
    aa_approval_path := None |};
  act_poll := fun _ i => Ok {| mp_remote_task_id := "task"; mp_task_state := "INPUT_REQUIRED";
    mp_verification_status := "VERIFIED"; mp_mandate_id := Some "mandate";
    mp_verified_artifact := Some (JObj []); mp_reason_code := None |};
  act_receipt := fun _ _ => Ok {| rr_remote_task_id := "task"; rr_task_state := "COMPLETED";
    rr_delivered := true |};
  act_reconcile := fun _ _ => Ok {| rn_payment_state := "CAPTURED";
    rn_subscription_state := "ACTIVE"; rn_authoritative := true; rn_case_recovered := true;
    rn_arrears_collected_paise := 500; rn_subscription_reactivated := true;
    rn_provider_reference := Some "pay_1" |};
  act_cancel := fun _ _ => Ok {| cr_cancelled := true; cr_reason_code := None |};
  act_audit := fun _ _ => Ok {| ar_audit_event_id := "a"; ar_recorded := true |};
  act_duration := fun _ => d |}.

Definition demo_command : RecoveryWorkflowInput := {|
  wi_case_id := "case_1"; wi_merchant_id := "m"; wi_customer_id := "cust";
  wi_subscription_id := "sub"; wi_failed_invoice_id := Some "inv"; wi_failed_payment_id := None;
  wi_amount_at_risk_paise := 500; wi_currency := "INR"; wi_recovery_deadline := "deadline";
  wi_failure_event := {| pe_event_id := "evt"; pe_event_type := "payment.failed";
    pe_occurred_at := ""; pe_payload := JObj [] |};
  wi_candidate_action := "START_VOICE";
  wi_payment_surface_type := Some "SUBSCRIPTION_INVOICE_LINK";
  wi_payment_surface_reference := None; wi_provider_subscription_id := None;
  wi_provider_invoice_id := Some "inv_rzp"; wi_recovery_action_id := Some "act" |}.

Definition demo_run (policy : PolicyResult) (d : Z) (arrivals : list (Z * signal))
  : result RecoveryWorkflowResult * world :=
  run_workflow (demo_activities policy d) demo_iso (fun _ => "") 20 "recovery-case:case_1"
    demo_command (start_world 0 arrivals).

(** The customer agent authorizes the payment, which is later captured. *)
Definition demo_payment : signal := PAYMENT_EVENT {| pes_signal_id := "s1";
  pes_provider_event_id := "evt_2"; pes_payment_state := "CAPTURED"; pes_amount_paise := 500;
  pes_authoritative := true |}.
Definition demo_delegated : result RecoveryWorkflowResult * world :=
  demo_run (demo_policy "ALLOW" "SEND_TO_CUSTOMER_AGENT" None) second
    [(60 * second, demo_payment)].

Definition is_execute (e : event) : bool := match e with EvExecute _ _ => true | _ => false end.
Definition is_receipt (e : event) : bool := match e with EvReceipt _ _ => true | _ => false end.

Example demo_delegated_recovers :
  (is_ok (demo_delegated).1, outcome (self (demo_delegated).2),
   map is_execute (List.filter is_execute (trace (demo_delegated).2)),
   map is_receipt (List.filter is_receipt (trace (demo_delegated).2)))
  = (true, Some "RECOVERED", [true], [true]).
Proof. vm_compute. reflexivity. Qed.

Fixpoint position_of (f : event -> bool) (t : list event) : nat :=
  match t with [] => 0 | e :: t' => if f e then 0 else S (position_of f t') end.
Definition demo_event (f : event -> bool) : option event :=
  trace (demo_delegated).2 !! position_of f (trace (demo_delegated).2).

Definition demo_submission : option (ExecuteActionInput * result ActionExecutionResult) :=
  Eval vm_compute in
  match demo_event is_execute with Some (EvExecute i r) => Some (i, r) | _ => None end.
Definition demo_receipt : option (SendA2APaymentReceiptInput * result A2APaymentReceiptResult) :=
  Eval vm_compute in
  match demo_event is_receipt with Some (EvReceipt i r) => Some (i, r) | _ => None end.

Lemma submissions_gated_witness :
  exists i r, demo_submission = Some (i, r) /\ ea_mandate i = Some (JObj []) /\
  gate (view_of (self (demo_delegated).2)) (trace (demo_delegated).2) /\
  execute_scope demo_command i /\
  mandated demo_command (trace (demo_delegated).2) i (JObj []).
Proof.
  do 2 eexists. split; [reflexivity|]. split; [reflexivity|].
  refine (submissions_gated (demo_activities (demo_policy "ALLOW" "SEND_TO_CUSTOMER_AGENT" None)
    second) demo_iso (fun _ => "") demo_command 20 "recovery-case:case_1" 0
    [(60 * second, demo_payment)] _ _ _).
  refine (list_elem_of_lookup_2 _ (position_of is_execute (trace (demo_delegated).2)) _ _).
  vm_compute. reflexivity.
Defined.

Lemma delegation_in_scope_witness :
  exists i r, demo_receipt = Some (i, r) /\
    recovered_evidence (trace (demo_delegated).2) /\
    task_started (trace (demo_delegated).2) (rc_remote_task_id i) /\
    rc_exact_amount_paise i = wi_amount_at_risk_paise demo_command.
Proof.
  do 2 eexists. split; [reflexivity|].
  refine (delegation_in_scope (demo_activities (demo_policy "ALLOW" "SEND_TO_CUSTOMER_AGENT" None)
    second) demo_iso (fun _ => "") demo_command 20 "recovery-case:case_1" 0
    [(60 * second, demo_payment)] (EvReceipt _ _) _).
  refine (list_elem_of_lookup_2 _ (position_of is_receipt (trace (demo_delegated).2)) _ _).
  vm_compute. reflexivity.
Defined.

Lemma recovered_is_reconciled_witness :
  exists r w, demo_delegated = (Ok r, w) /\ recovered_evidence (trace w) /\
    wr_payment_state r = "CAPTURED".
Proof.
  do 2 eexists. split; [vm_compute; reflexivity|].
  refine (recovered_is_reconciled (demo_activities (demo_policy "ALLOW" "SEND_TO_CUSTOMER_AGENT"
    None) second) demo_iso (fun _ => "") demo_command 20 "recovery-case:case_1" 0
    [(60 * second, demo_payment)] _ _ _ _); vm_compute; reflexivity.
Defined.

(** ** Two runs that show a defect *)

Definition demo_opt_out : signal := OPT_OUT {| oos_signal_id := "s2"; oos_source := "voice";
  oos_reason := None |}.

(** a defect: an opt-out that arrives during a policy delay suppresses outreach, but
    the workflow still submits the call when the delay ends, since [run] resumes on
    [_terminal] alone; the trace of a concrete run shows the submission after the
    suppression. *)
Theorem opt_out_during_delay_still_calls :
  let w := (demo_run (demo_policy "DELAY" "START_VOICE" (Some "delay")) second
              [(50 * second, demo_opt_out)]).2 in
  outreach_suppressed (self w) = true /\ contact_disposition (self w) = "OPTED_OUT" /\
  exists i r before after, trace w = after ++ EvExecute i r :: before /\
    ea_action i = "START_VOICE" /\
    existsb (fun e => match e with
                      | EvAudit a _ => bool_decide (ai_event_type a = "SUPPRESSION_PERSIST_REQUESTED")
                      | _ => false end) before = true.
Proof.
  split; [vm_compute; reflexivity|]. split; [vm_compute; reflexivity|].
  eexists _, _, _, [_; _]. split; [vm_compute; reflexivity|].
  split; [reflexivity|]. vm_compute. reflexivity.
Qed.

(** a defect: a case whose recovery is reconciled while it awaits approval, by an
    activity that ends after the deadline, is closed a second time: the outcome
    [RECOVERED] is replaced by [EXPIRED], and the result reports a case that is not
    recovered next to a captured payment. *)
Theorem recovery_overwritten_by_expiry :
  exists r w, demo_run (demo_policy "REQUIRE_MANUAL_APPROVAL" "START_VOICE" None) (100 * second)
                [(950 * second, demo_payment)] = (Ok r, w) /\
    recovered_evidence (trace w) /\ wr_payment_state r = "CAPTURED" /\
    wr_outcome r = "EXPIRED" /\ wr_case_recovered r = false.
Proof.
  do 2 eexists. split; [vm_compute; reflexivity|].
  split; [|repeat split].
  do 2 eexists. split; [|split]; [do 2 right; by left|done|done].
Qed.
