(* ===== verification/Diagnose.v ===== *)
(** * Failure diagnosis

    [services/api/app/services/diagnosis.py]: the evidence-conservative diagnosis of a
    failed payment from the provider's error fields. *)
From S2P Require Import Prelude Domain.

(** src/services/api/app/services/diagnosis.py:10-19 [DiagnosisEvidence] *)
Record DiagnosisEvidence : Type := {
  ev_payment_state : PaymentState;
  ev_event_type : string;
  ev_invoice_correlated : bool;
  ev_subscription_correlated : bool;
  ev_error_code : option string;
  ev_error_source : option string;
  ev_error_step : option string;
  ev_error_reason : option string;
}.

(** src/services/api/app/services/diagnosis.py:22-28 [_INSUFFICIENT_FUNDS] *)
Definition INSUFFICIENT_FUNDS_TOKENS : list string :=
  ["BAD_REQUEST_PAYMENT_CARD_INSUFFICIENT_BALANCE"; "INSUFFICIENT_FUNDS"; "INSUFFICIENT_BALANCE"].
(** src/services/api/app/services/diagnosis.py:29-37 [_AUTHENTICATION_REQUIRED] *)
Definition AUTHENTICATION_REQUIRED_TOKENS : list string :=
  ["BAD_REQUEST_PAYMENT_AUTHENTICATION_FAILED"; "AUTHENTICATION_FAILED"; "INCORRECT_OTP";
   "OTP_ATTEMPTS_EXCEEDED"; "3DS_AUTHENTICATION_FAILED"].
(** src/services/api/app/services/diagnosis.py:38-46 [_INSTRUMENT_INVALID] *)
Definition INSTRUMENT_INVALID_TOKENS : list string :=
  ["BAD_REQUEST_PAYMENT_CARD_EXPIRED"; "BAD_REQUEST_PAYMENT_INVALID_CARD"; "CARD_EXPIRED";
   "INVALID_CARD"; "CARD_DECLINED"].
(** src/services/api/app/services/diagnosis.py:47-56 [_TRANSIENT] *)
Definition TRANSIENT_TOKENS : list string :=
  ["GATEWAY_ERROR"; "BAD_REQUEST_PAYMENT_PENDING"; "BANK_SYSTEM_ERROR"; "NETWORK_ERROR";
   "REQUEST_TIMED_OUT"; "ISSUER_UNAVAILABLE"].
(** src/services/api/app/services/diagnosis.py:57-62 [_MERCHANT_ERROR] *)
Definition MERCHANT_ERROR_TOKENS : list string :=
  ["MERCHANT_CONFIGURATION_ERROR"; "INVALID_MERCHANT_CONFIGURATION"].
(** src/services/api/app/services/diagnosis.py:63-70 [_RISK_BLOCK] *)
Definition RISK_BLOCK_TOKENS : list string :=
  ["RISK_CHECK_FAILED"; "PAYMENT_RISK_REJECTED"; "COMPLIANCE_BLOCK"; "FRAUD_SUSPECTED"].

(** src/services/api/app/services/diagnosis.py:88-97 [diagnose_failure]: the token set;
    an absent or blank field gives none. *)
Definition evidence_tokens (e : DiagnosisEvidence) : list string :=
  omap (fun field =>
          match field with
          | Some token =>
              if bool_decide (str_strip token = "") then None else Some (str_upper (str_strip token))
          | None => None
          end)
    [ev_error_code e; ev_error_source e; ev_error_step e; ev_error_reason e].

(** src/services/api/app/services/diagnosis.py:80-87 [diagnose_failure]: the evidence
    that has to agree. *)
Definition correlated (e : DiagnosisEvidence) : bool :=
  bool_decide (ev_event_type e = "payment.failed")
  && bool_decide (ev_payment_state e = PaymentState.FAILED)
  && ev_invoice_correlated e && ev_subscription_correlated e.

(** src/services/api/app/services/diagnosis.py:73-114 [diagnose_failure] *)
Definition diagnose_failure (e : DiagnosisEvidence) : Diagnosis :=
  if negb (correlated e) then Diagnosis.UNKNOWN
  else
    let tokens := evidence_tokens e in
    let any_of set := existsb (fun t => mem t set) tokens in
    if any_of RISK_BLOCK_TOKENS then Diagnosis.RISK_OR_COMPLIANCE_BLOCK
    else if any_of MERCHANT_ERROR_TOKENS || mem "MERCHANT" tokens then Diagnosis.MERCHANT_ERROR
    else if any_of INSUFFICIENT_FUNDS_TOKENS then Diagnosis.INSUFFICIENT_FUNDS
    else if any_of AUTHENTICATION_REQUIRED_TOKENS || mem "PAYMENT_AUTHENTICATION" tokens
    then Diagnosis.AUTHENTICATION_REQUIRED
    else if any_of INSTRUMENT_INVALID_TOKENS then Diagnosis.INSTRUMENT_INVALID
    else if any_of TRANSIENT_TOKENS || mem "GATEWAY" tokens || mem "BANK" tokens
    then Diagnosis.TRANSIENT_RETRYABLE
    else Diagnosis.UNKNOWN.

(** ** The reference: diagnoses in order of precedence *)

Definition signature_tokens (d : Diagnosis) : list string :=
  match d with
  | Diagnosis.RISK_OR_COMPLIANCE_BLOCK => RISK_BLOCK_TOKENS
  | Diagnosis.MERCHANT_ERROR => "MERCHANT" :: MERCHANT_ERROR_TOKENS
  | Diagnosis.INSUFFICIENT_FUNDS => INSUFFICIENT_FUNDS_TOKENS
  | Diagnosis.AUTHENTICATION_REQUIRED => "PAYMENT_AUTHENTICATION" :: AUTHENTICATION_REQUIRED_TOKENS
  | Diagnosis.INSTRUMENT_INVALID => INSTRUMENT_INVALID_TOKENS
  | Diagnosis.TRANSIENT_RETRYABLE => "GATEWAY" :: "BANK" :: TRANSIENT_TOKENS
  | Diagnosis.UNKNOWN => []
  end.

Definition precedence : list Diagnosis :=
  [Diagnosis.RISK_OR_COMPLIANCE_BLOCK; Diagnosis.MERCHANT_ERROR; Diagnosis.INSUFFICIENT_FUNDS;
   Diagnosis.AUTHENTICATION_REQUIRED; Diagnosis.INSTRUMENT_INVALID;
   Diagnosis.TRANSIENT_RETRYABLE].

(** The evidence names a token of the diagnosis. *)
Definition indicates (e : DiagnosisEvidence) (d : Diagnosis) : Prop :=
  exists t, t ∈ evidence_tokens e /\ t ∈ signature_tokens d.

Lemma any_of_indicates (tokens set : list string) :
  existsb (fun t => mem t set) tokens = true <-> exists t, t ∈ tokens /\ t ∈ set.
Proof.
  rewrite existsb_exists. split; intros (t & Ht & Hs); exists t.
  - split; [by apply list_elem_of_In|by apply mem_true].
  - split; [by apply list_elem_of_In|by apply mem_true].
Qed.

Lemma indicates_cons (tokens : list string) x set :
  (exists t, t ∈ tokens /\ t ∈ x :: set) <-> x ∈ tokens \/ exists t, t ∈ tokens /\ t ∈ set.
Proof. setoid_rewrite elem_of_cons. naive_solver. Qed.

(** The first diagnosis of a list that the evidence indicates. *)
Fixpoint first_indicated (tokens : list string) (ds : list Diagnosis) : Diagnosis :=
  match ds with
  | [] => Diagnosis.UNKNOWN
  | d :: ds' =>
      if existsb (fun t => mem t (signature_tokens d)) tokens then d
      else first_indicated tokens ds'
  end.

Lemma any_of_cons (tokens : list string) x set :
  existsb (fun t => mem t (x :: set)) tokens
    = existsb (fun t => mem t set) tokens || mem x tokens.
Proof.
  apply eq_true_iff_eq. rewrite orb_true_iff, !any_of_indicates, mem_true, indicates_cons. tauto.
Qed.

Lemma diagnose_reference e :
  diagnose_failure e
    = if correlated e then first_indicated (evidence_tokens e) precedence else Diagnosis.UNKNOWN.
Proof.
  unfold diagnose_failure. destruct (correlated e); cbn [negb]; [|done].
  cbn [first_indicated precedence signature_tokens]. rewrite !any_of_cons.
  by rewrite <- !orb_assoc, (orb_comm (mem "BANK" _)).
Qed.

Lemma first_indicated_spec tokens ds d :
  let hit d := exists t, t ∈ tokens /\ t ∈ signature_tokens d in
  Diagnosis.UNKNOWN ∉ ds ->
  first_indicated tokens ds = d <->
  (d = Diagnosis.UNKNOWN /\ forall d', d' ∈ ds -> ~ hit d') \/
  exists before after, ds = before ++ d :: after /\ hit d /\ forall d', d' ∈ before -> ~ hit d'.
Proof.
  cbv zeta. induction ds as [|x l IH]; intros Hn; cbn [first_indicated].
  { split; [intros <-; left; split; [done|]; by intros d' ?%not_elem_of_nil|].
    by intros [[-> _]|([] & ? & [=] & _)]. }
  destruct (existsb (fun t => mem t (signature_tokens x)) tokens) eqn:E.
  - apply any_of_indicates in E. split.
    + intros <-. right. exists [], l. split; [done|]. split; [done|]. by intros ? ?%not_elem_of_nil.
    + intros [[-> Hl]|([|y b] & a & Heq & Hd & Hb)].
      * exfalso. apply (Hl x); [left|done].
      * by injection Heq.
      * injection Heq as <- ->. exfalso. apply (Hb x); [left|done].
  - assert (~ exists t, t ∈ tokens /\ t ∈ signature_tokens x) as Hx.
    { apply not_true_iff_false in E. by rewrite any_of_indicates in E. }
    rewrite IH by set_solver. split.
    + intros [[-> Hl]|(b & a & -> & Hd & Hb)].
      * left. split; [done|]. by intros d' [->|Hd']%elem_of_cons; [|auto].
      * right. exists (x :: b), a. split; [done|]. split; [done|].
        by intros d' [->|Hd']%elem_of_cons; [|auto].
    + intros [[-> Hl]|([|y b] & a & Heq & Hd & Hb)].
      * left. split; [done|]. intros d' Hd'. apply Hl. by right.
      * by injection Heq as -> ->.
      * injection Heq as <- ->. right. exists b, a. split; [done|]. split; [done|].
        intros d' Hd'. apply Hb. by right.
Qed.

(** the diagnosis of a correlated payment failure is the first, in the order risk,
    merchant, funds, authentication, instrument, transient, that some error field
    indicates; a token of a later diagnosis never overrides an earlier one; and without
    a failed payment correlated to its invoice and subscription, or without a known
    token, the diagnosis is UNKNOWN. *)
Theorem diagnosis_exact e d :
  diagnose_failure e = d <->
  (d = Diagnosis.UNKNOWN /\ (correlated e = false \/ forall d', d' ∈ precedence -> ~ indicates e d')) \/
  (correlated e = true /\ exists before after, precedence = before ++ d :: after /\
     indicates e d /\ forall d', d' ∈ before -> ~ indicates e d').
Proof.
  rewrite diagnose_reference. unfold indicates. destruct (correlated e).
  - rewrite first_indicated_spec by (apply mem_false; vm_compute; reflexivity).
    split; [intros [[-> H]|H]; auto|]. intros [[-> [?|H]]|[_ H]]; auto. done.
  - split; [intros <-; left; auto|]. by intros [[-> _]|[? _]].
Qed.

Example generic_envelope_does_not_hide_funds :
  diagnose_failure {| ev_payment_state := PaymentState.FAILED; ev_event_type := "payment.failed";
    ev_invoice_correlated := true; ev_subscription_correlated := true;
    ev_error_code := Some "BAD_REQUEST_ERROR"; ev_error_source := Some "customer";
    ev_error_step := None; ev_error_reason := Some " insufficient_funds " |}
  = Diagnosis.INSUFFICIENT_FUNDS.
Proof. vm_compute. reflexivity. Qed.
