(* ===== verification/Razorpay.v ===== *)
(** * Razorpay events

    [services/api/app/integrations/razorpay]: normalization of a webhook body, the
    per-axis reduction of observed provider states, and the reconciliation of a captured
    payment with an authoritative snapshot. *)
From S2P Require Import Prelude Domain Json.

(** src/services/api/app/integrations/razorpay/models.py:18-23 [CorrelationKind] *)
Inductive CorrelationKind : Set :=
| INVOICE_AND_SUBSCRIPTION_FROM_PAYMENT
| SUBSCRIPTION_ONLY
| CASE_AND_INVOICE_FROM_NOTES_REQUIRES_RECONCILIATION.

#[export] Instance correlation_kind_eq_dec : EqDecision CorrelationKind.
Proof. solve_decision. Defined.

(** src/services/api/app/integrations/razorpay/models.py:26-43 [NormalizedRazorpayEvent] *)
Record NormalizedRazorpayEvent : Type := {
  ne_provider_event_id : string;
  ne_event_type : string;
  ne_occurred_at : datetime;
  ne_account_id : option string;
  ne_merchant_reference : option string;
  ne_case_id : option string;
  ne_payment_id : option string;
  ne_payment_link_id : option string;
  ne_invoice_id : option string;
  ne_subscription_id : option string;
  ne_amount_paise : option Z;
  ne_currency : option string;
  ne_payment_state : PaymentState;
  ne_subscription_state : SubscriptionState;
  ne_correlation_kind : CorrelationKind;
  ne_requires_authoritative_fetch : bool;
  ne_provider_payload : json;
}.

(** src/services/api/app/integrations/razorpay/models.py:51-57 [ProviderStateCursor] *)
Record ProviderStateCursor : Type := {
  cur_payment_state : PaymentState;
  cur_payment_observed_at : option datetime;
  cur_subscription_state : SubscriptionState;
  cur_subscription_observed_at : option datetime;
}.
#[export] Instance eta_cursor : Eta ProviderStateCursor := fun c =>
  {| cur_payment_state := cur_payment_state c;
     cur_payment_observed_at := cur_payment_observed_at c;
     cur_subscription_state := cur_subscription_state c;
     cur_subscription_observed_at := cur_subscription_observed_at c |}.

(** The cursor of a payment nothing is known about. *)
Definition initial_cursor : ProviderStateCursor :=
  {| cur_payment_state := PaymentState.UNKNOWN; cur_payment_observed_at := None;
     cur_subscription_state := SubscriptionState.UNKNOWN; cur_subscription_observed_at := None |}.

(** src/services/api/app/integrations/razorpay/models.py:60-73 [PaymentRecoveryOutcome] *)
Record PaymentRecoveryOutcome : Type := {
  ro_provider_event_id : string;
  ro_payment_id : option string;
  ro_invoice_id : string;
  ro_subscription_id : option string;
  ro_authoritative_payment_state : PaymentState;
  ro_authoritative_subscription_state : SubscriptionState;
  ro_amount_paise : Z;
  ro_arrears_collected : bool;
  ro_subscription_reactivated : bool;
  ro_late_success : bool;
  ro_should_close_case : bool;
}.

(** src/services/api/app/providers/contracts.py:71-81 [PaymentSnapshot] *)
Record PaymentSnapshot : Type := {
  ps_provider : string;
  ps_payment_id : option string;
  ps_invoice_id : option string;
  ps_subscription_id : option string;
  ps_payment_state : PaymentState;
  ps_subscription_state : SubscriptionState;
  ps_amount_paise : Z;
  ps_currency : string;
  ps_observed_at : datetime;
  ps_authoritative : bool;
}.

(** [isinstance(error, RazorpayIntegrationError)] *)
Definition is_integration_error (error : exn) : bool :=
  match error with
  | RazorpayIntegrationError _ _ | RazorpayContractError _ _ | RazorpayRequestError _ _ _ | RazorpayUncertainSubmissionError _
  | UnsupportedWebhookEventError _ | DownstreamSignalError => true
  | _ => false
  end.

(** ** Normalization *)

(** src/services/api/app/integrations/razorpay/normalizer.py:13-22 [SUPPORTED_EVENTS] *)
Definition SUPPORTED_EVENTS : list string :=
  ["payment.failed"; "subscription.pending"; "subscription.halted"; "subscription.charged";
   "payment.captured"; "payment_link.paid"].

(** src/services/api/app/integrations/razorpay/normalizer.py:25-30 [_entity] *)
Definition rzp_entity (payload : json) (name : string) : json :=
  let container := json_get name payload in
  if negb (is_dict container) then JObj []
  else let entity := json_get "entity" container in
       if is_dict entity then entity else JObj [].

(** src/services/api/app/integrations/razorpay/normalizer.py:33-35 [_notes] *)
Definition rzp_notes (entity : json) : json :=
  let notes := json_get "notes" entity in
  if is_dict notes then notes else JObj [].

(** src/services/api/app/integrations/razorpay/normalizer.py:38-39 [_text] *)
Definition rzp_text (value : json) : option string :=
  match value with JStr s => if bool_decide (s = "") then None else Some s | _ => None end.

(** src/services/api/app/integrations/razorpay/normalizer.py:42-43 [_integer] *)
Definition rzp_integer (value : json) : option Z :=
  match value with JInt z => Some z | _ => None end.

(** [a or b] on optional integers: zero is falsy. *)
Definition or_int (a b : option Z) : option Z :=
  match a with Some z => if z =? 0 then b else a | None => b end.

(** [datetime.fromtimestamp(t, tz=UTC)]: the years 1 to 9999, else the error of the
    first conversion that fails. *)
Definition fromtimestamp_utc (t : Z) : result datetime :=
  if bool_decide (-62135596800 <= t <= 253402300799) then Ok (utc_datetime (t * second))
  else if negb (bool_decide (- 2 ^ 63 <= t < 2 ^ 63)) then
    Err (OverflowError "timestamp out of range for platform time_t")
  else if negb (bool_decide (-67768040609740800 <= t <= 67768036191676799)) then
    Err (OSError "Value too large for defined data type")
  else Err (ValueError "year is out of range").

(** src/services/api/app/integrations/razorpay/normalizer.py:46-52 [_occurred_at] *)
Definition rzp_occurred_at (payload payment : json) : result datetime :=
  match or_int (rzp_integer (json_get "created_at" payment))
               (rzp_integer (json_get "created_at" payload)) with
  | None => Err (RazorpayContractError "RAZORPAY_WEBHOOK_TIMESTAMP_MISSING"
                   "Webhook has no integer created_at.")
  | Some timestamp => fromtimestamp_utc timestamp
  end.

(** src/services/api/app/integrations/razorpay/normalizer.py:84-89 [normalize_webhook] *)
Definition payment_state_of_event (event_type : string) : PaymentState :=
  if bool_decide (event_type = "payment.failed") then PaymentState.FAILED
  else if mem event_type ["payment.captured"; "subscription.charged"; "payment_link.paid"]
  then PaymentState.CAPTURED
  else PaymentState.UNKNOWN.

(** src/services/api/app/integrations/razorpay/normalizer.py:90-95 [normalize_webhook] *)
Definition subscription_state_of_event (event_type : string) : SubscriptionState :=
  if bool_decide (event_type = "subscription.pending") then SubscriptionState.PENDING
  else if bool_decide (event_type = "subscription.halted") then SubscriptionState.HALTED
  else if bool_decide (event_type = "subscription.charged") then SubscriptionState.ACTIVE
  else SubscriptionState.UNKNOWN.

(** src/services/api/app/integrations/razorpay/normalizer.py:97-102 [normalize_webhook] *)
Definition correlation_kind_of_event (event_type : string) : CorrelationKind :=
  if mem event_type ["subscription.pending"; "subscription.halted"] then SUBSCRIPTION_ONLY
  else if bool_decide (event_type = "payment_link.paid")
  then CASE_AND_INVOICE_FROM_NOTES_REQUIRES_RECONCILIATION
  else INVOICE_AND_SUBSCRIPTION_FROM_PAYMENT.

(** src/services/api/app/integrations/razorpay/normalizer.py:55-134 [normalize_webhook] *)
Definition normalize_webhook (provider_event_id : string) (payload : json)
  : result NormalizedRazorpayEvent :=
  event_type ← from_option (RazorpayContractError "RAZORPAY_WEBHOOK_EVENT_MISSING"
                              "Webhook has no event name.")
                 (rzp_text (json_get "event" payload));
  _ ← raise_if (negb (mem event_type SUPPORTED_EVENTS)) (UnsupportedWebhookEventError event_type);
  _ ← raise_if (bool_decide (provider_event_id = ""))
        (RazorpayContractError "RAZORPAY_EVENT_ID_MISSING" "X-Razorpay-Event-Id is required.");
  _ ← raise_if (200 <? Z.of_nat (String.length provider_event_id))
        (RazorpayContractError "RAZORPAY_EVENT_ID_TOO_LONG"
           "X-Razorpay-Event-Id exceeds the durable inbox limit.");
  let event_payload := json_get "payload" payload in
  _ ← raise_if (negb (is_dict event_payload))
        (RazorpayContractError "RAZORPAY_WEBHOOK_PAYLOAD_INVALID"
           "Webhook payload must be an object.");
  let payment := rzp_entity event_payload "payment" in
  let subscription := rzp_entity event_payload "subscription" in
  let payment_link := rzp_entity event_payload "payment_link" in
  let payment_notes := rzp_notes payment in
  let subscription_notes := rzp_notes subscription in
  let link_notes := rzp_notes payment_link in
  let payment_state := payment_state_of_event event_type in
  let text v key := rzp_text (json_get key v) in
  let amount_paise :=
    match rzp_integer (json_get "amount" payment) with
    | None => rzp_integer (json_get "amount_paid" payment_link)
    | Some z => Some z
    end in
  occurred_at ← rzp_occurred_at payload payment;
  _ ← raise_if (match amount_paise with Some z => z <? 0 | None => false end)
        (ValueError "amount_paise: greater than or equal to 0");
  mret {|
    ne_provider_event_id := provider_event_id;
    ne_event_type := event_type;
    ne_occurred_at := occurred_at;
    ne_account_id := text payload "account_id";
    ne_merchant_reference :=
      or_str (text payment_notes "merchant_id") (text subscription_notes "merchant_id");
    ne_case_id := or_str (text payment_notes "case_id") (text link_notes "case_id");
    ne_payment_id := text payment "id";
    ne_payment_link_id := text payment_link "id";
    ne_invoice_id := or_str (text payment "invoice_id") (text link_notes "invoice_id");
    ne_subscription_id :=
      or_str (or_str (text subscription "id") (text payment_notes "subscription_id"))
             (text link_notes "subscription_id");
    ne_amount_paise := amount_paise;
    ne_currency := or_str (text payment "currency") (text payment_link "currency");
    ne_payment_state := payment_state;
    ne_subscription_state := subscription_state_of_event event_type;
    ne_correlation_kind := correlation_kind_of_event event_type;
    ne_requires_authoritative_fetch := bool_decide (payment_state = PaymentState.CAPTURED);
    ne_provider_payload := payload;
  |}.

(** ** Reduction *)

(** [observed_at is None or occurred_at >= observed_at] *)
Definition is_newer (occurred_at : datetime) (observed_at : option datetime) : result bool :=
  match observed_at with None => Ok true | Some o => negb <$> dt_lt occurred_at o end.

(** src/services/api/app/integrations/razorpay/normalizer.py:143-150 [reduce_provider_state]:
    the payment axis. *)
Definition reduce_payment_axis (event : NormalizedRazorpayEvent) (cursor : ProviderStateCursor)
  : result ProviderStateCursor :=
  if bool_decide (ne_payment_state event = PaymentState.UNKNOWN) then Ok cursor
  else
    newer ← is_newer (ne_occurred_at event) (cur_payment_observed_at cursor);
    let can_change := bool_decide (cur_payment_state cursor <> PaymentState.CAPTURED) in
    mret (if newer && (can_change || bool_decide (ne_payment_state event = PaymentState.CAPTURED))
          then cursor <| cur_payment_state := ne_payment_state event |>
                      <| cur_payment_observed_at := Some (ne_occurred_at event) |>
          else cursor).

(** src/services/api/app/integrations/razorpay/normalizer.py:151-158 [reduce_provider_state]:
    the subscription axis. *)
Definition reduce_subscription_axis (event : NormalizedRazorpayEvent) (cursor : ProviderStateCursor)
  : result ProviderStateCursor :=
  if bool_decide (ne_subscription_state event = SubscriptionState.UNKNOWN) then Ok cursor
  else
    newer ← is_newer (ne_occurred_at event) (cur_subscription_observed_at cursor);
    mret (if newer : bool
          then cursor <| cur_subscription_state := ne_subscription_state event |>
                      <| cur_subscription_observed_at := Some (ne_occurred_at event) |>
          else cursor).

(** src/services/api/app/integrations/razorpay/normalizer.py:137-159 [reduce_provider_state] *)
Definition reduce_provider_state (cursor : ProviderStateCursor) (event : NormalizedRazorpayEvent)
  : result ProviderStateCursor :=
  reduce_payment_axis event cursor ≫= reduce_subscription_axis event.

(** The events of a payment, in delivery order. *)
Fixpoint reduce_all (cursor : ProviderStateCursor) (events : list NormalizedRazorpayEvent)
  : result ProviderStateCursor :=
  match events with
  | [] => Ok cursor
  | e :: rest => c ← reduce_provider_state cursor e; reduce_all c rest
  end.

(** ** Reconciliation *)

(** src/services/api/app/integrations/razorpay/reconciliation.py:10-48 [reconcile_payment_success] *)
Definition reconcile_payment_success (event : NormalizedRazorpayEvent)
    (snapshot : PaymentSnapshot) (current_payment_state : PaymentState)
  : result PaymentRecoveryOutcome :=
  _ ← raise_if (negb (ps_authoritative snapshot) || negb (bool_decide (ps_provider snapshot = "razorpay")))
        (RazorpayContractError "RAZORPAY_RECONCILIATION_NOT_AUTHORITATIVE"
           "Payment success requires an authoritative Razorpay fetch.");
  invoice_id ← from_option
                 (RazorpayContractError "RAZORPAY_RECONCILIATION_INVOICE_MISSING"
                    "Payment success cannot be attributed without an invoice.")
                 (or_str (ps_invoice_id snapshot) (ne_invoice_id event));
  _ ← raise_if (truthy (ne_invoice_id event) && truthy (ps_invoice_id snapshot)
                && bool_decide (ne_invoice_id event <> ps_invoice_id snapshot))
        (RazorpayContractError "RAZORPAY_RECONCILIATION_INVOICE_MISMATCH"
           "Webhook and authoritative payment refer to different invoices.");
  let captured := bool_decide (ps_payment_state snapshot = PaymentState.CAPTURED) in
  let reactivated := bool_decide (ps_subscription_state snapshot = SubscriptionState.ACTIVE) in
  _ ← raise_if (ps_amount_paise snapshot <? 0)
        (ValueError "amount_paise: greater than or equal to 0");
  mret {|
    ro_provider_event_id := ne_provider_event_id event;
    ro_payment_id := or_str (ps_payment_id snapshot) (ne_payment_id event);
    ro_invoice_id := invoice_id;
    ro_subscription_id := or_str (ps_subscription_id snapshot) (ne_subscription_id event);
    ro_authoritative_payment_state := ps_payment_state snapshot;
    ro_authoritative_subscription_state := ps_subscription_state snapshot;
    ro_amount_paise := ps_amount_paise snapshot;
    ro_arrears_collected := captured;
    ro_subscription_reactivated := reactivated;
    ro_late_success :=
      captured && bool_decide (current_payment_state <> PaymentState.CAPTURED);
    ro_should_close_case := captured;
  |}.

(** ** The normalizer accepts exactly the well-formed supported events *)

(** The payment entity and the timestamp and amount the normalizer reads. *)
Definition payment_of (payload : json) : json := rzp_entity (json_get "payload" payload) "payment".
Definition timestamp_of (payload : json) : option Z :=
  or_int (rzp_integer (json_get "created_at" (payment_of payload)))
         (rzp_integer (json_get "created_at" payload)).
Definition amount_of (payload : json) : option Z :=
  match rzp_integer (json_get "amount" (payment_of payload)) with
  | None => rzp_integer (json_get "amount_paid"
                           (rzp_entity (json_get "payload" payload) "payment_link"))
  | Some z => Some z
  end.

Record acceptable (event_id : string) (payload : json) : Prop := {
  acc_event : exists ty, json_get "event" payload = JStr ty /\ ty ∈ SUPPORTED_EVENTS;
  acc_id : (0 < String.length event_id <= 200)%nat;
  acc_payload : is_dict (json_get "payload" payload) = true;
  acc_time : exists t, timestamp_of payload = Some t /\ -62135596800 <= t <= 253402300799;
  acc_amount : forall z, amount_of payload = Some z -> 0 <= z;
}.

Lemma rzp_text_Some v s : rzp_text v = Some s <-> v = JStr s /\ s <> "".
Proof.
  destruct v; cbn; try (split; [done|by intros [? ?]]).
  case_bool_decide; split; naive_solver.
Qed.

Lemma supported_nonempty ty : ty ∈ SUPPORTED_EVENTS -> ty <> "".
Proof. intros H ->. by apply mem_true in H. Qed.

Lemma fromtimestamp_Ok t d :
  fromtimestamp_utc t = Ok d <->
  -62135596800 <= t <= 253402300799 /\ d = utc_datetime (t * second).
Proof.
  unfold fromtimestamp_utc. case_bool_decide as E; [split; [by intros [= <-]|by intros [_ ->]]|].
  split; [|by intros [? _]]. by repeat case_match.
Qed.

Lemma occurred_at_Ok payload d :
  rzp_occurred_at payload (payment_of payload) = Ok d <->
  exists t, timestamp_of payload = Some t /\ -62135596800 <= t <= 253402300799 /\
    d = utc_datetime (t * second).
Proof.
  unfold rzp_occurred_at. fold (timestamp_of payload).
  destruct (timestamp_of payload) as [t|].
  - rewrite fromtimestamp_Ok. naive_solver.
  - naive_solver.
Qed.

Lemma string_length_0 s : String.length s = 0%nat <-> s = "".
Proof. destruct s; cbn; split; done. Qed.

Lemma raise_bind_Ok {A} b e (m : result A) a :
  (_ ← raise_if b e; m) = Ok a <-> b = false /\ m = Ok a.
Proof. destruct b; cbn; split; naive_solver. Qed.

(** What the normalizer extracts from an acceptable body. *)
Definition extracts (event_id ty : string) (t : Z) (payload : json) (e : NormalizedRazorpayEvent)
  : Prop :=
  ne_provider_event_id e = event_id /\ ne_event_type e = ty /\
  ne_occurred_at e = utc_datetime (t * second) /\ ne_amount_paise e = amount_of payload /\
  ne_payment_state e = payment_state_of_event ty /\
  ne_subscription_state e = subscription_state_of_event ty /\
  ne_correlation_kind e = correlation_kind_of_event ty /\
  (ne_requires_authoritative_fetch e = true <-> ne_payment_state e = PaymentState.CAPTURED) /\
  ne_provider_payload e = payload.

Lemma normalize_Ok event_id payload e :
  normalize_webhook event_id payload = Ok e ->
  acceptable event_id payload /\
  exists ty t, json_get "event" payload = JStr ty /\ timestamp_of payload = Some t /\
    extracts event_id ty t payload e.
Proof.
  unfold normalize_webhook. intros (ty & Hty & H)%bind_Ok.
  apply from_option_Ok, rzp_text_Some in Hty as [Hty Hne].
  apply raise_bind_Ok in H as [Hs H]. apply raise_bind_Ok in H as [Hi H].
  apply raise_bind_Ok in H as [Hl H]. apply raise_bind_Ok in H as [Hp H].
  apply bind_Ok in H as (at_ & Ha & H). apply raise_bind_Ok in H as [Hm H].
  fold (payment_of payload) in *. fold (amount_of payload) in *.
  apply occurred_at_Ok in Ha as (t & Ht & Hr & ->). injection H as <-.
  bools. apply mem_true in Hs. rewrite <- string_length_0 in Hi. split.
  - split; [by exists ty|lia|done|by exists t|]. intros z Hz. rewrite Hz in Hm. by apply Z.ltb_ge.
  - exists ty, t. split; [done|]. split; [done|]. unfold extracts. cbn.
    do 7 (split; [done|]). split; [apply bool_decide_eq_true|done].
Qed.

Lemma normalize_total event_id payload :
  acceptable event_id payload -> exists e, normalize_webhook event_id payload = Ok e.
Proof.
  intros [(ty & Hty & Hs) Hi Hp (t & Ht & Hr) Hm]. eexists. unfold normalize_webhook.
  apply bind_Ok. exists ty. split.
  { apply from_option_Ok, rzp_text_Some. split; [done|by apply supported_nonempty]. }
  apply raise_bind_Ok. split; [by apply negb_false_iff, mem_true|].
  apply raise_bind_Ok. split; [apply bool_decide_eq_false; rewrite <- string_length_0; lia|].
  apply raise_bind_Ok. split; [apply Z.ltb_ge; lia|].
  apply raise_bind_Ok. split; [by apply negb_false_iff|].
  apply bind_Ok. exists (utc_datetime (t * second)). split; [apply occurred_at_Ok; eauto|].
  apply raise_bind_Ok. split; [|reflexivity].
  fold (payment_of payload) (amount_of payload).
  destruct (amount_of payload); [apply Z.ltb_ge; auto|done].
Qed.


Definition captured_body : json :=
  JObj [("event", JStr "payment.captured"); ("created_at", JInt 1700000000);
        ("payload", JObj [("payment", JObj [("entity", JObj
          [("id", JStr "pay_1"); ("amount", JInt 49900); ("currency", JStr "INR");
           ("created_at", JInt 0)])])])].


(** ** Reduction of the provider's states *)

Definition reports_payment (e : NormalizedRazorpayEvent) : bool :=
  bool_decide (ne_payment_state e <> PaymentState.UNKNOWN).
Definition reports_subscription (e : NormalizedRazorpayEvent) : bool :=
  bool_decide (ne_subscription_state e <> SubscriptionState.UNKNOWN).
Abbreviation captures e := (ne_payment_state e = PaymentState.CAPTURED).
Definition event_instant (e : NormalizedRazorpayEvent) : Z := dt_instant (ne_occurred_at e).

(** Every instant the cursor and an event carry is aware. *)
Record cursor_aware (c : ProviderStateCursor) : Prop := {
  aware_payment : forall d, cur_payment_observed_at c = Some d -> is_aware d = true;
  aware_subscription : forall d, cur_subscription_observed_at c = Some d -> is_aware d = true;
}.
Abbreviation event_aware e := (is_aware (ne_occurred_at e) = true).

Lemma initial_aware : cursor_aware initial_cursor.
Proof. by split. Qed.

(** [None] is before every instant. *)
Definition not_before (t : Z) (o : option datetime) : bool :=
  match o with None => true | Some d => dt_instant d <=? t end.

Lemma is_newer_aware e o :
  event_aware e -> (forall d, o = Some d -> is_aware d = true) ->
  is_newer (ne_occurred_at e) o = Ok (not_before (event_instant e) o).
Proof.
  intros He Ho. destruct o as [d|]; [|done]. cbn. rewrite dt_lt_aware by auto.
  cbn. by rewrite Z.leb_antisym.
Qed.

Definition payment_accepted (c : ProviderStateCursor) (e : NormalizedRazorpayEvent) : bool :=
  reports_payment e && not_before (event_instant e) (cur_payment_observed_at c)
  && (bool_decide (cur_payment_state c <> PaymentState.CAPTURED) || bool_decide (captures e)).
Definition subscription_accepted (c : ProviderStateCursor) (e : NormalizedRazorpayEvent) : bool :=
  reports_subscription e && not_before (event_instant e) (cur_subscription_observed_at c).

(** What one delivery does to a cursor, on aware instants. *)
Definition accept_payment (c : ProviderStateCursor) (e : NormalizedRazorpayEvent)
  : ProviderStateCursor :=
  if payment_accepted c e
  then c <| cur_payment_state := ne_payment_state e |>
         <| cur_payment_observed_at := Some (ne_occurred_at e) |>
  else c.
Definition accept_subscription (c : ProviderStateCursor) (e : NormalizedRazorpayEvent)
  : ProviderStateCursor :=
  if subscription_accepted c e
  then c <| cur_subscription_state := ne_subscription_state e |>
         <| cur_subscription_observed_at := Some (ne_occurred_at e) |>
  else c.

Lemma payment_axis_step c e :
  cursor_aware c -> event_aware e -> reduce_payment_axis e c = Ok (accept_payment c e).
Proof.
  intros [Hp _] He. unfold reduce_payment_axis, accept_payment, payment_accepted, reports_payment.
  rewrite is_newer_aware, !bool_decide_not by auto.
  destruct (bool_decide (ne_payment_state e = PaymentState.UNKNOWN)); [done|].
  cbn. by destruct (not_before _ _ && _).
Qed.

Lemma subscription_axis_step c e :
  cursor_aware c -> event_aware e -> reduce_subscription_axis e c = Ok (accept_subscription c e).
Proof.
  intros [_ Hs] He.
  unfold reduce_subscription_axis, accept_subscription, subscription_accepted, reports_subscription.
  rewrite is_newer_aware, !bool_decide_not by auto.
  destruct (bool_decide (ne_subscription_state e = SubscriptionState.UNKNOWN)); [done|].
  cbn. by destruct (not_before _ _).
Qed.

Lemma accept_aware c e :
  cursor_aware c -> event_aware e ->
  cursor_aware (accept_payment c e) /\ cursor_aware (accept_subscription c e).
Proof.
  intros [Hp Hs] He. unfold accept_payment, accept_subscription.
  split; case_match; split; cbn; intros; simplify_eq; auto.
Qed.

Lemma reduce_step c e :
  cursor_aware c -> event_aware e ->
  reduce_provider_state c e = Ok (accept_subscription (accept_payment c e) e).
Proof.
  intros Hc He. unfold reduce_provider_state. rewrite payment_axis_step by done.
  apply subscription_axis_step; [by apply accept_aware|done].
Qed.

(** Deliveries as a fold. *)
Definition deliver (c : ProviderStateCursor) (es : list NormalizedRazorpayEvent)
  : ProviderStateCursor :=
  foldl (fun c e => accept_subscription (accept_payment c e) e) c es.

Lemma reduce_all_deliver es : forall c,
  cursor_aware c -> Forall (fun e => event_aware e) es -> reduce_all c es = Ok (deliver c es).
Proof.
  induction es as [|e es IH]; intros c Hc Hes; [done|]. apply Forall_cons in Hes as [He Hes].
  cbn [reduce_all]. rewrite reduce_step by done. apply IH; [|done].
  by apply accept_aware; [apply accept_aware|].
Qed.

Lemma deliver_snoc c es e :
  deliver c (es ++ [e]) = accept_subscription (accept_payment (deliver c es) e) e.
Proof. unfold deliver. by rewrite foldl_snoc. Qed.

Lemma accept_subscription_keeps_payment c e :
  cur_payment_state (accept_subscription c e) = cur_payment_state c /\
  cur_payment_observed_at (accept_subscription c e) = cur_payment_observed_at c.
Proof. unfold accept_subscription. by case_match. Qed.

Lemma accept_payment_keeps_subscription c e :
  cur_subscription_state (accept_payment c e) = cur_subscription_state c /\
  cur_subscription_observed_at (accept_payment c e) = cur_subscription_observed_at c.
Proof. unfold accept_payment. by case_match. Qed.

Lemma accept_payment_captured c e :
  cur_payment_state c = PaymentState.CAPTURED ->
  cur_payment_state (accept_payment c e) = PaymentState.CAPTURED.
Proof.
  intros H. unfold accept_payment, payment_accepted. rewrite H. case_match eqn:E; [|done].
  by bools; destruct_or?; bools.
Qed.

Lemma deliver_captured es : forall c,
  cur_payment_state c = PaymentState.CAPTURED ->
  cur_payment_state (deliver c es) = PaymentState.CAPTURED.
Proof.
  induction es as [|e es IH]; intros c Hc; [done|]. apply IH.
  rewrite (proj1 (accept_subscription_keeps_payment _ _)). by apply accept_payment_captured.
Qed.

(** The observation of an axis is the instant of some delivered event that reports it. *)
Lemma payment_observed_from es d :
  cur_payment_observed_at (deliver initial_cursor es) = Some d ->
  exists e, e ∈ es /\ reports_payment e = true /\ d = ne_occurred_at e.
Proof.
  induction es as [|e es IH] using rev_ind; [done|]. rewrite deliver_snoc.
  rewrite (proj2 (accept_subscription_keeps_payment _ _)). unfold accept_payment.
  case_match eqn:E; cbn.
  - intros [= <-]. exists e. split; [set_solver|]. unfold payment_accepted in E. by bools.
  - intros (e' & He & Hr & Hd)%IH. exists e'. split; [set_solver|done].
Qed.

(** The subscription axis after a sequence of deliveries: the last of the newest. *)
Definition newest_subscription (es : list NormalizedRazorpayEvent) (c : ProviderStateCursor) : Prop :=
  (cur_subscription_observed_at c = None /\ cur_subscription_state c = SubscriptionState.UNKNOWN /\
   forall e, e ∈ es -> reports_subscription e = false) \/
  exists e, e ∈ es /\ reports_subscription e = true /\
    cur_subscription_state c = ne_subscription_state e /\
    cur_subscription_observed_at c = Some (ne_occurred_at e) /\
    forall e', e' ∈ es -> reports_subscription e' = true -> event_instant e' <= event_instant e.

Lemma deliver_newest es : newest_subscription es (deliver initial_cursor es).
Proof.
  induction es as [|e es IH] using rev_ind.
  { left. split; [done|]. split; [done|]. by intros ? ?%not_elem_of_nil. }
  rewrite deliver_snoc. set (c := deliver initial_cursor es) in *.
  unfold newest_subscription in *.
  destruct (accept_payment_keeps_subscription c e) as [Hs Ho].
  unfold accept_subscription, subscription_accepted. rewrite Ho.
  setoid_rewrite elem_of_app. setoid_rewrite list_elem_of_singleton.
  destruct (reports_subscription e) eqn:Er; cbn [andb].
  2:{ destruct IH as [(Hn & Hu & Hall)|(e0 & He0 & Hr0 & Hst & Hat & Hmax)].
      - left. rewrite Ho, Hs. split; [done|]. split; [done|]. intros e' [?| ->]; auto.
      - right. exists e0. rewrite Ho, Hs. split; [auto|]. split; [done|]. split; [done|].
        split; [done|]. intros e' [?| ->] Hr'; [auto|congruence]. }
  destruct (not_before (event_instant e) (cur_subscription_observed_at c)) eqn:En.
  - right. exists e. cbn. split; [auto|]. split; [done|]. split; [done|]. split; [done|].
    intros e' [He'| ->] Hr'; [|done].
    destruct IH as [(Hn & Hu & Hall)|(e0 & He0 & Hr0 & Hst & Hat & Hmax)].
    + by rewrite Hall in Hr'.
    + rewrite Hat in En. cbn in En. apply Z.leb_le in En. etransitivity; [by apply Hmax|done].
  - destruct IH as [(Hn & Hu & Hall)|(e0 & He0 & Hr0 & Hst & Hat & Hmax)].
    + by rewrite Hn in En.
    + right. exists e0. rewrite Ho, Hs. rewrite Hat in En. cbn in En. apply Z.leb_gt in En.
      split; [auto|]. split; [done|]. split; [done|]. split; [done|].
      intros e' [?| ->] Hr'; [auto|]. unfold event_instant in *. lia.
Qed.

(** whatever the delivery order, the subscription axis of the cursor is the state of
    the newest subscription event delivered: two orders of the same events whose
    subscription instants are distinct agree on the state and on its clock. *)
Theorem subscription_axis_order_independent es es' :
  Forall (fun e => event_aware e) es -> es ≡ₚ es' ->
  NoDup (event_instant <$> filter (fun e => reports_subscription e = true) es) ->
  exists c c', reduce_all initial_cursor es = Ok c /\ reduce_all initial_cursor es' = Ok c' /\
    newest_subscription es c /\
    cur_subscription_state c = cur_subscription_state c' /\
    cur_subscription_observed_at c = cur_subscription_observed_at c'.
Proof.
  intros Hw Hp Hd. exists (deliver initial_cursor es), (deliver initial_cursor es').
  assert (Forall (fun e => event_aware e) es') as Hw' by (by rewrite Hp in Hw).
  rewrite !reduce_all_deliver by auto using initial_aware.
  split; [done|]. split; [done|]. split; [apply deliver_newest|].
  destruct (deliver_newest es) as [(Hn & Hu & Hall)|(e & He & Hr & Hst & Hat & Hmax)];
  destruct (deliver_newest es') as [(Hn' & Hu' & Hall')|(e' & He' & Hr' & Hst' & Hat' & Hmax')].
  - by rewrite Hn, Hn', Hu, Hu'.
  - rewrite <- Hp in He'. by rewrite Hall in Hr'.
  - rewrite Hp in He. by rewrite Hall' in Hr.
  - enough (e = e') as -> by (by rewrite Hst, Hst', Hat, Hat').
    apply (nodup_fmap_inj event_instant _ _ _ Hd); [by apply list_elem_of_filter| |].
    + apply list_elem_of_filter. by rewrite Hp.
    + apply Z.le_antisymm; [apply Hmax'|apply Hmax]; rewrite ?Hp; try done. by rewrite <- Hp.
Qed.

Definition event_of (ty : string) (at_ : Z) : NormalizedRazorpayEvent :=
  {| ne_provider_event_id := ty; ne_event_type := ty; ne_occurred_at := utc_datetime at_;
     ne_account_id := None; ne_merchant_reference := None; ne_case_id := None;
     ne_payment_id := None; ne_payment_link_id := None; ne_invoice_id := None;
     ne_subscription_id := None; ne_amount_paise := None; ne_currency := None;
     ne_payment_state := payment_state_of_event ty;
     ne_subscription_state := subscription_state_of_event ty;
     ne_correlation_kind := correlation_kind_of_event ty;
     ne_requires_authoritative_fetch :=
       bool_decide (payment_state_of_event ty = PaymentState.CAPTURED);
     ne_provider_payload := JNull |}.

Lemma subscription_axis_order_independent_witness :
  let es := [event_of "subscription.pending" 1; event_of "subscription.halted" 3;
             event_of "subscription.charged" 2] in
  exists c c', reduce_all initial_cursor es = Ok c /\
    reduce_all initial_cursor (rev es) = Ok c' /\ newest_subscription es c /\
    cur_subscription_state c = cur_subscription_state c' /\
    cur_subscription_observed_at c = cur_subscription_observed_at c'.
Proof.
  apply subscription_axis_order_independent.
  - repeat constructor.
  - symmetry. apply Permutation_rev.
  - vm_compute. repeat constructor; set_solver.
Defined.

(** a captured payment stays captured whatever is delivered next; and when a capture
    is at least as recent as every payment event delivered, the payment axis ends
    CAPTURED in every delivery order. *)
Theorem capture_is_final es c e :
  Forall (fun e => event_aware e) es ->
  (cursor_aware c -> cur_payment_state c = PaymentState.CAPTURED ->
   exists c', reduce_all c es = Ok c' /\ cur_payment_state c' = PaymentState.CAPTURED) /\
  (e ∈ es -> captures e ->
   (forall e', e' ∈ es -> reports_payment e' = true -> event_instant e' <= event_instant e) ->
   exists c', reduce_all initial_cursor es = Ok c' /\ cur_payment_state c' = PaymentState.CAPTURED).
Proof.
  intros Hw. split.
  { intros Hc Hst. exists (deliver c es). rewrite reduce_all_deliver by done.
    by rewrite deliver_captured. }
  intros (l1 & l2 & ->)%list_elem_of_split Hcap Hmax. eexists.
  rewrite reduce_all_deliver by auto using initial_aware. split; [done|].
  unfold deliver. rewrite foldl_app. cbn. apply deliver_captured.
  rewrite (proj1 (accept_subscription_keeps_payment _ _)). fold (deliver initial_cursor l1).
  unfold accept_payment, payment_accepted, reports_payment.
  rewrite Hcap. cbn. rewrite orb_true_r, andb_true_r. case_match eqn:E; [done|exfalso].
  destruct (cur_payment_observed_at (deliver initial_cursor l1)) as [d|] eqn:Ed; [|done].
  apply payment_observed_from in Ed as (e' & He' & Hr' & ->). cbn in E. apply Z.leb_gt in E.
  specialize (Hmax e'). unfold event_instant in *. rewrite elem_of_app in Hmax.
  specialize (Hmax (or_introl He') Hr'). lia.
Qed.

Lemma capture_is_final_witness :
  let es := [event_of "payment.captured" 5; event_of "payment.failed" 4] in
  exists c', reduce_all initial_cursor es = Ok c' /\ cur_payment_state c' = PaymentState.CAPTURED.
Proof.
  cbv zeta. eapply (proj2 (capture_is_final _ initial_cursor (event_of "payment.captured" 5) _)).
  - left.
  - reflexivity.
  - intros e' [->|[->| []%not_elem_of_nil]%elem_of_cons]%elem_of_cons _; vm_compute; discriminate.
  Unshelve. repeat constructor.
Defined.

(** the payment axis depends on the delivery order although the instants are
    distinct: a failure observed at 10 hides a capture that happened at 5 when it is
    delivered first, and not when the capture is delivered first. *)
Theorem payment_axis_order_dependent :
  let failed := event_of "payment.failed" 10 in
  let captured := event_of "payment.captured" 5 in
  cur_payment_state <$> reduce_all initial_cursor [failed; captured] = Ok PaymentState.FAILED /\
  cur_payment_state <$> reduce_all initial_cursor [captured; failed] = Ok PaymentState.CAPTURED.
Proof. vm_compute. done. Qed.

(** reconciliation succeeds exactly on an authoritative Razorpay snapshot of a
    non-negative amount that names an invoice, its own or else the webhook's, without
    contradicting the webhook; the outcome collects arrears and closes the case exactly
    when the snapshot is captured, reactivates exactly when it is active, and the two
    effects are independent. *)
Theorem reconciliation_exact event snapshot current :
  let invoice := or_str (ps_invoice_id snapshot) (ne_invoice_id event) in
  ((exists o, reconcile_payment_success event snapshot current = Ok o) <->
   ps_authoritative snapshot = true /\ ps_provider snapshot = "razorpay" /\
   is_Some invoice /\ 0 <= ps_amount_paise snapshot /\
   (truthy (ne_invoice_id event) = true -> truthy (ps_invoice_id snapshot) = true ->
    ne_invoice_id event = ps_invoice_id snapshot)) /\
  forall o, reconcile_payment_success event snapshot current = Ok o ->
    invoice = Some (ro_invoice_id o) /\ ro_amount_paise o = ps_amount_paise snapshot /\
    (ro_arrears_collected o = true <-> ps_payment_state snapshot = PaymentState.CAPTURED) /\
    ro_should_close_case o = ro_arrears_collected o /\
    (ro_subscription_reactivated o = true <->
     ps_subscription_state snapshot = SubscriptionState.ACTIVE) /\
    (ro_late_success o = true <->
     ro_arrears_collected o = true /\ current <> PaymentState.CAPTURED).
Proof.
  cbv zeta. unfold reconcile_payment_success. split; [split|].
  - intros [o H]. apply raise_bind_Ok in H as [Ha H]. apply bind_Ok in H as (inv & Hi & H).
    apply from_option_Ok in Hi. apply raise_bind_Ok in H as [Hm H].
    apply raise_bind_Ok in H as [Hz _]. bools. do 2 (split; [done|]). split; [by eexists|].
    split; [done|]. intros H1 H2. destruct Hm as [Hm|Hm]; [by rewrite H1, H2 in Hm|].
    bools. by apply dec_stable.
  - intros (Ha & Hp & [inv Hi] & Hz & Hm). eexists.
    apply raise_bind_Ok. rewrite Ha, Hp. split; [done|].
    apply bind_Ok. exists inv. split; [by apply from_option_Ok|].
    apply raise_bind_Ok. split.
    { destruct (truthy (ne_invoice_id event)), (truthy (ps_invoice_id snapshot)); try done.
      apply bool_decide_eq_false. intros Hn. auto. }
    apply raise_bind_Ok. split; [apply Z.ltb_ge; exact Hz|reflexivity].
  - intros o H. apply raise_bind_Ok in H as [_ H]. apply bind_Ok in H as (inv & Hi & H).
    apply from_option_Ok in Hi. apply raise_bind_Ok in H as [_ H].
    apply raise_bind_Ok in H as [_ H]. injection H as <-. cbn.
    rewrite andb_true_iff, !bool_decide_eq_true. done.
Qed.

Definition captured_snapshot : PaymentSnapshot :=
  {| ps_provider := "razorpay"; ps_payment_id := Some "pay_1"; ps_invoice_id := Some "inv_1";
     ps_subscription_id := None; ps_payment_state := PaymentState.CAPTURED;
     ps_subscription_state := SubscriptionState.HALTED; ps_amount_paise := 49900;
     ps_currency := "INR"; ps_observed_at := utc_datetime 6; ps_authoritative := true |}.

Lemma reconciliation_exact_witness :
  exists o, reconcile_payment_success (event_of "payment.captured" 5) captured_snapshot
              PaymentState.FAILED = Ok o /\
    ro_amount_paise o = 49900 /\ ro_should_close_case o = ro_arrears_collected o.
Proof.
  eexists. split; [vm_compute; reflexivity|].
  destruct (proj2 (reconciliation_exact (event_of "payment.captured" 5) captured_snapshot
                     PaymentState.FAILED) _ eq_refl) as (_ & Ha & _ & Hc & _).
  split; [exact Ha|exact Hc].
Defined.
