(* ===== verification/Entities.v ===== *)
(** * The relational store

    [services/api/app/models/entities.py]: the tables of the recovery database with
    their unique and check constraints, and the unit of work of a session (working and
    committed contents, flush, commit and rollback).

    A timestamp column holds a UTC instant ([UTCDateTime] converts on binding and on
    reading, and refuses a naive value).  Columns that no modelled operation reads, the
    foreign keys and the lengths of the text columns are left out. *)
From S2P Require Import Prelude Domain Json.

(** src/services/api/app/models/entities.py:95-104 [Merchant] *)
Record Merchant : Type := {
  mer_id : string;
  mer_external_id : string;
  mer_display_name : string;
  mer_timezone : string;
  mer_currency : string;
}.
#[export] Instance eta_Merchant : Eta Merchant := fun r =>
  {| mer_id := mer_id r;
     mer_external_id := mer_external_id r;
     mer_display_name := mer_display_name r;
     mer_timezone := mer_timezone r;
     mer_currency := mer_currency r |}.

(** src/services/api/app/models/entities.py:107-137 [MerchantPolicySetting] *)
Record MerchantPolicySetting : Type := {
  mps_merchant_id : string;
  mps_quiet_hours_start : option string;
  mps_quiet_hours_end : option string;
  mps_max_contacts_per_7_days : option Z;
  mps_require_approval_above_paise : option Z;
  mps_require_approval_actions : list string;
  mps_recovery_kill_switch : bool;
  mps_version : Z;
}.
#[export] Instance eta_MerchantPolicySetting : Eta MerchantPolicySetting := fun r =>
  {| mps_merchant_id := mps_merchant_id r;
     mps_quiet_hours_start := mps_quiet_hours_start r;
     mps_quiet_hours_end := mps_quiet_hours_end r;
     mps_max_contacts_per_7_days := mps_max_contacts_per_7_days r;
     mps_require_approval_above_paise := mps_require_approval_above_paise r;
     mps_require_approval_actions := mps_require_approval_actions r;
     mps_recovery_kill_switch := mps_recovery_kill_switch r;
     mps_version := mps_version r |}.

(** src/services/api/app/models/entities.py:140-158 [Customer] *)
Record Customer : Type := {
  cus_id : string;
  cus_merchant_id : string;
  cus_external_id : string;
  cus_display_name : string;
  cus_phone_token : option string;
  cus_preferred_language : string;
  cus_voice_consent_at : option Z;
  cus_opted_out_at : option Z;
  cus_customer_agent_available : bool;
  cus_created_at : Z;
}.
#[export] Instance eta_Customer : Eta Customer := fun r =>
  {| cus_id := cus_id r;
     cus_merchant_id := cus_merchant_id r;
     cus_external_id := cus_external_id r;
     cus_display_name := cus_display_name r;
     cus_phone_token := cus_phone_token r;
     cus_preferred_language := cus_preferred_language r;
     cus_voice_consent_at := cus_voice_consent_at r;
     cus_opted_out_at := cus_opted_out_at r;
     cus_customer_agent_available := cus_customer_agent_available r;
     cus_created_at := cus_created_at r |}.

(** src/services/api/app/models/entities.py:161-188 [Subscription] *)
Record Subscription : Type := {
  sub_id : string;
  sub_merchant_id : string;
  sub_customer_id : string;
  sub_provider_subscription_id : string;
  sub_plan_name : string;
  sub_amount_paise : Z;
  sub_currency : string;
  sub_subscription_state : SubscriptionState;
  sub_current_billing_cycle_key : option string;
}.
#[export] Instance eta_Subscription : Eta Subscription := fun r =>
  {| sub_id := sub_id r;
     sub_merchant_id := sub_merchant_id r;
     sub_customer_id := sub_customer_id r;
     sub_provider_subscription_id := sub_provider_subscription_id r;
     sub_plan_name := sub_plan_name r;
     sub_amount_paise := sub_amount_paise r;
     sub_currency := sub_currency r;
     sub_subscription_state := sub_subscription_state r;
     sub_current_billing_cycle_key := sub_current_billing_cycle_key r |}.

(** src/services/api/app/models/entities.py:191-217 [Invoice] *)
Record Invoice : Type := {
  inv_id : string;
  inv_merchant_id : string;
  inv_subscription_id : string;
  inv_provider_invoice_id : string;
  inv_billing_cycle_key : string;
  inv_amount_paise : Z;
  inv_amount_paid_paise : Z;
  inv_currency : string;
  inv_invoice_state : string;
  inv_due_at : option Z;
}.
#[export] Instance eta_Invoice : Eta Invoice := fun r =>
  {| inv_id := inv_id r;
     inv_merchant_id := inv_merchant_id r;
     inv_subscription_id := inv_subscription_id r;
     inv_provider_invoice_id := inv_provider_invoice_id r;
     inv_billing_cycle_key := inv_billing_cycle_key r;
     inv_amount_paise := inv_amount_paise r;
     inv_amount_paid_paise := inv_amount_paid_paise r;
     inv_currency := inv_currency r;
     inv_invoice_state := inv_invoice_state r;
     inv_due_at := inv_due_at r |}.

(** src/services/api/app/models/entities.py:220-251 [PaymentAttempt] *)
Record PaymentAttempt : Type := {
  pay_id : string;
  pay_merchant_id : string;
  pay_invoice_id : string;
  pay_subscription_id : string;
  pay_provider_payment_id : option string;
  pay_amount_paise : Z;
  pay_currency : string;
  pay_payment_state : PaymentState;
  pay_method : option string;
  pay_error_code : option string;
  pay_error_source : option string;
  pay_error_step : option string;
  pay_error_reason : option string;
  pay_occurred_at : Z;
}.
#[export] Instance eta_PaymentAttempt : Eta PaymentAttempt := fun r =>
  {| pay_id := pay_id r;
     pay_merchant_id := pay_merchant_id r;
     pay_invoice_id := pay_invoice_id r;
     pay_subscription_id := pay_subscription_id r;
     pay_provider_payment_id := pay_provider_payment_id r;
     pay_amount_paise := pay_amount_paise r;
     pay_currency := pay_currency r;
     pay_payment_state := pay_payment_state r;
     pay_method := pay_method r;
     pay_error_code := pay_error_code r;
     pay_error_source := pay_error_source r;
     pay_error_step := pay_error_step r;
     pay_error_reason := pay_error_reason r;
     pay_occurred_at := pay_occurred_at r |}.

(** src/services/api/app/models/entities.py:254-328 [RecoveryCase] *)
Record RecoveryCase : Type := {
  rc_id : string;
  rc_merchant_id : string;
  rc_customer_id : string;
  rc_subscription_id : string;
  rc_failed_invoice_id : option string;
  rc_billing_cycle_key : option string;
  rc_failed_payment_id : option string;
  rc_case_outcome : CaseOutcome;
  rc_payment_state : PaymentState;
  rc_subscription_state : SubscriptionState;
  rc_contact_disposition : ContactDisposition;
  rc_revenue_attribution : RevenueAttribution;
  rc_diagnosis : Diagnosis;
  rc_amount_at_risk_paise : Z;
  rc_arrears_collected_paise : Z;
  rc_case_recovered : bool;
  rc_subscription_reactivated : bool;
  rc_opened_at : Z;
  rc_recovery_deadline : Z;
  rc_recovered_at : option Z;
  rc_version : Z;
}.
#[export] Instance eta_RecoveryCase : Eta RecoveryCase := fun r =>
  {| rc_id := rc_id r;
     rc_merchant_id := rc_merchant_id r;
     rc_customer_id := rc_customer_id r;
     rc_subscription_id := rc_subscription_id r;
     rc_failed_invoice_id := rc_failed_invoice_id r;
     rc_billing_cycle_key := rc_billing_cycle_key r;
     rc_failed_payment_id := rc_failed_payment_id r;
     rc_case_outcome := rc_case_outcome r;
     rc_payment_state := rc_payment_state r;
     rc_subscription_state := rc_subscription_state r;
     rc_contact_disposition := rc_contact_disposition r;
     rc_revenue_attribution := rc_revenue_attribution r;
     rc_diagnosis := rc_diagnosis r;
     rc_amount_at_risk_paise := rc_amount_at_risk_paise r;
     rc_arrears_collected_paise := rc_arrears_collected_paise r;
     rc_case_recovered := rc_case_recovered r;
     rc_subscription_reactivated := rc_subscription_reactivated r;
     rc_opened_at := rc_opened_at r;
     rc_recovery_deadline := rc_recovery_deadline r;
     rc_recovered_at := rc_recovered_at r;
     rc_version := rc_version r |}.

(** src/services/api/app/models/entities.py:331-357 [PolicyDecisionRecord] *)
Record PolicyDecisionRecord : Type := {
  pol_id : string;
  pol_case_id : string;
  pol_action_id : option string;
  pol_disposition : PolicyDisposition;
  pol_decision_code : string;
  pol_reason_codes : list string;
  pol_reasons : list string;
  pol_policy_version : string;
  pol_delay_until : option Z;
  pol_created_at : Z;
}.
#[export] Instance eta_PolicyDecisionRecord : Eta PolicyDecisionRecord := fun r =>
  {| pol_id := pol_id r;
     pol_case_id := pol_case_id r;
     pol_action_id := pol_action_id r;
     pol_disposition := pol_disposition r;
     pol_decision_code := pol_decision_code r;
     pol_reason_codes := pol_reason_codes r;
     pol_reasons := pol_reasons r;
     pol_policy_version := pol_policy_version r;
     pol_delay_until := pol_delay_until r;
     pol_created_at := pol_created_at r |}.

(** src/services/api/app/models/entities.py:360-390 [RecoveryActionRecord] *)
Record RecoveryActionRecord : Type := {
  act_id : string;
  act_case_id : string;
  act_action_type : RecoveryActionType;
  act_payment_surface_type : option PaymentSurfaceType;
  act_status : ActionStatus;
  act_idempotency_key : string;
  act_scheduled_for : option Z;
  act_external_reference : option string;
  act_customer_url : option string;
  act_completed_at : option Z;
  act_created_at : Z;
  act_updated_at : Z;
}.
#[export] Instance eta_RecoveryActionRecord : Eta RecoveryActionRecord := fun r =>
  {| act_id := act_id r;
     act_case_id := act_case_id r;
     act_action_type := act_action_type r;
     act_payment_surface_type := act_payment_surface_type r;
     act_status := act_status r;
     act_idempotency_key := act_idempotency_key r;
     act_scheduled_for := act_scheduled_for r;
     act_external_reference := act_external_reference r;
     act_customer_url := act_customer_url r;
     act_completed_at := act_completed_at r;
     act_created_at := act_created_at r;
     act_updated_at := act_updated_at r |}.

(** src/services/api/app/models/entities.py:393-416 [RecoveryEventRecord] *)
Record RecoveryEventRecord : Type := {
  evr_id : string;
  evr_case_id : string;
  evr_event_type : string;
  evr_source : string;
  evr_evidence_kind : EvidenceKind;
  evr_payload : json;
  evr_occurred_at : Z;
  evr_recorded_at : Z;
  evr_correlation_id : string;
  evr_source_event_id : option string;
}.
#[export] Instance eta_RecoveryEventRecord : Eta RecoveryEventRecord := fun r =>
  {| evr_id := evr_id r;
     evr_case_id := evr_case_id r;
     evr_event_type := evr_event_type r;
     evr_source := evr_source r;
     evr_evidence_kind := evr_evidence_kind r;
     evr_payload := evr_payload r;
     evr_occurred_at := evr_occurred_at r;
     evr_recorded_at := evr_recorded_at r;
     evr_correlation_id := evr_correlation_id r;
     evr_source_event_id := evr_source_event_id r |}.

(** src/services/api/app/models/entities.py:419-441 [WebhookInboxEntry] *)
Record WebhookInboxEntry : Type := {
  inb_id : string;
  inb_merchant_id : string;
  inb_provider : string;
  inb_provider_event_id : string;
  inb_event_type : string;
  inb_payload : json;
  inb_occurred_at : option Z;
  inb_processed_at : option Z;
  inb_processing_error_code : option string;
}.
#[export] Instance eta_WebhookInboxEntry : Eta WebhookInboxEntry := fun r =>
  {| inb_id := inb_id r;
     inb_merchant_id := inb_merchant_id r;
     inb_provider := inb_provider r;
     inb_provider_event_id := inb_provider_event_id r;
     inb_event_type := inb_event_type r;
     inb_payload := inb_payload r;
     inb_occurred_at := inb_occurred_at r;
     inb_processed_at := inb_processed_at r;
     inb_processing_error_code := inb_processing_error_code r |}.

(** src/services/api/app/models/entities.py:444-466 [OutboxMessage] *)
Record OutboxMessage : Type := {
  out_id : string;
  out_aggregate_type : string;
  out_aggregate_id : string;
  out_event_type : string;
  out_payload : json;
  out_deduplication_key : string;
  out_available_at : Z;
  out_published_at : option Z;
  out_attempt_count : Z;
  out_last_error_code : option string;
  out_created_at : Z;
}.
#[export] Instance eta_OutboxMessage : Eta OutboxMessage := fun r =>
  {| out_id := out_id r;
     out_aggregate_type := out_aggregate_type r;
     out_aggregate_id := out_aggregate_id r;
     out_event_type := out_event_type r;
     out_payload := out_payload r;
     out_deduplication_key := out_deduplication_key r;
     out_available_at := out_available_at r;
     out_published_at := out_published_at r;
     out_attempt_count := out_attempt_count r;
     out_last_error_code := out_last_error_code r;
     out_created_at := out_created_at r |}.

(** src/services/api/app/models/entities.py:469-498 [RevenueRecognitionRecord] *)
Record RevenueRecognitionRecord : Type := {
  rev_id : string;
  rev_case_id : string;
  rev_merchant_id : string;
  rev_payment_attempt_id : option string;
  rev_provider : string;
  rev_provider_event_id : string;
  rev_amount_paise : Z;
  rev_attribution : RevenueAttribution;
  rev_arrears_collected : bool;
  rev_subscription_reactivated : bool;
  rev_recognized_at : Z;
}.
#[export] Instance eta_RevenueRecognitionRecord : Eta RevenueRecognitionRecord := fun r =>
  {| rev_id := rev_id r;
     rev_case_id := rev_case_id r;
     rev_merchant_id := rev_merchant_id r;
     rev_payment_attempt_id := rev_payment_attempt_id r;
     rev_provider := rev_provider r;
     rev_provider_event_id := rev_provider_event_id r;
     rev_amount_paise := rev_amount_paise r;
     rev_attribution := rev_attribution r;
     rev_arrears_collected := rev_arrears_collected r;
     rev_subscription_reactivated := rev_subscription_reactivated r;
     rev_recognized_at := rev_recognized_at r |}.

(** The contents of the database. *)
Record Db : Type := {
  db_merchants : list Merchant;
  db_policy_settings : list MerchantPolicySetting;
  db_customers : list Customer;
  db_subscriptions : list Subscription;
  db_invoices : list Invoice;
  db_payments : list PaymentAttempt;
  db_cases : list RecoveryCase;
  db_policies : list PolicyDecisionRecord;
  db_actions : list RecoveryActionRecord;
  db_events : list RecoveryEventRecord;
  db_inbox : list WebhookInboxEntry;
  db_outbox : list OutboxMessage;
  db_recognitions : list RevenueRecognitionRecord;
}.
#[export] Instance eta_Db : Eta Db := fun d =>
  {| db_merchants := db_merchants d;
     db_policy_settings := db_policy_settings d;
     db_customers := db_customers d;
     db_subscriptions := db_subscriptions d;
     db_invoices := db_invoices d;
     db_payments := db_payments d;
     db_cases := db_cases d;
     db_policies := db_policies d;
     db_actions := db_actions d;
     db_events := db_events d;
     db_inbox := db_inbox d;
     db_outbox := db_outbox d;
     db_recognitions := db_recognitions d |}.

Definition empty_db : Db :=
  {| db_merchants := [];
     db_policy_settings := [];
     db_customers := [];
     db_subscriptions := [];
     db_invoices := [];
     db_payments := [];
     db_cases := [];
     db_policies := [];
     db_actions := [];
     db_events := [];
     db_inbox := [];
     db_outbox := [];
     db_recognitions := [] |}.

(** src/services/api/app/models/entities.py:63-69 [UTCDateTime.process_bind_param] *)
Definition bind_utc (value : datetime) : result Z :=
  if is_aware value then Ok (dt_instant value)
  else Err (ValueError "database timestamps must be timezone-aware").

(** A text column takes a string or null. *)
Definition bind_text (value : json) : result (option string) :=
  match value with
  | JNull => Ok None
  | JStr s => Ok (Some s)
  | _ => Err (TypeError "expected str")
  end.

(** ** Constraints *)

(** A unique constraint over the non-null keys. *)
Definition unique_on {R K} `{EqDecision K} (key : R -> option K) (rows : list R) : bool :=
  bool_decide (NoDup (omap key rows)).
(** [A OR B] of a check constraint whose left side tests for null. *)
Definition null_or {A} (check : A -> bool) (o : option A) : bool :=
  match o with None => true | Some a => check a end.

(** src/services/api/app/models/entities.py:104-104 [Merchant.__table_args__] *)
Definition check_merchant (m : Merchant) : bool := (text_length (mer_currency m) =? 3)%nat.
(** src/services/api/app/models/entities.py:123-137 [MerchantPolicySetting.__table_args__] *)
Definition check_policy_setting (s : MerchantPolicySetting) : bool :=
  Bool.eqb (bool_decide (mps_quiet_hours_start s = None)) (bool_decide (mps_quiet_hours_end s = None))
  && null_or (fun n => 0 <? n) (mps_max_contacts_per_7_days s)
  && null_or (fun n => 0 <=? n) (mps_require_approval_above_paise s)
  && (1 <=? mps_version s).
(** src/services/api/app/models/entities.py:182-188 [Subscription.__table_args__] *)
Definition check_subscription (s : Subscription) : bool :=
  (0 <=? sub_amount_paise s) && (text_length (sub_currency s) =? 3)%nat.
(** src/services/api/app/models/entities.py:209-217 [Invoice.__table_args__] *)
Definition check_invoice (i : Invoice) : bool :=
  (0 <=? inv_amount_paise i) && (0 <=? inv_amount_paid_paise i)
  && (inv_amount_paid_paise i <=? inv_amount_paise i).
(** src/services/api/app/models/entities.py:246-251 [PaymentAttempt.__table_args__] *)
Definition check_payment (p : PaymentAttempt) : bool := 0 <=? pay_amount_paise p.
(** src/services/api/app/models/entities.py:309-328 [RecoveryCase.__table_args__] *)
Definition check_case (c : RecoveryCase) : bool :=
  (bool_decide (is_Some (rc_failed_invoice_id c)) || bool_decide (is_Some (rc_billing_cycle_key c)))
  && (0 <=? rc_amount_at_risk_paise c) && (0 <=? rc_arrears_collected_paise c)
  && (1 <=? rc_version c) && (rc_opened_at c <? rc_recovery_deadline c).
(** src/services/api/app/models/entities.py:351-357 [PolicyDecisionRecord.__table_args__] *)
Definition check_policy (p : PolicyDecisionRecord) : bool :=
  Bool.eqb (bool_decide (pol_disposition p = PolicyDisposition.DELAY))
           (bool_decide (is_Some (pol_delay_until p))).
(** src/services/api/app/models/entities.py:382-390 [RecoveryActionRecord.__table_args__] *)
Definition check_action (a : RecoveryActionRecord) : bool :=
  surface_matches (act_action_type a) (act_payment_surface_type a).
(** src/services/api/app/models/entities.py:463-466 [OutboxMessage.__table_args__] *)
Definition check_outbox (o : OutboxMessage) : bool := 0 <=? out_attempt_count o.
(** src/services/api/app/models/entities.py:492-498 [RevenueRecognitionRecord.__table_args__] *)
Definition check_recognition (r : RevenueRecognitionRecord) : bool :=
  (0 <? rev_amount_paise r) && negb (bool_decide (rev_attribution r = RevenueAttribution.NONE)).

(** Every constraint by name, in the order of the tables. *)
Definition constraints (d : Db) : list (string * bool) := [
  ("merchants_pkey", unique_on (fun m => Some (mer_id m)) (db_merchants d));
  ("merchants_external_id_key", unique_on (fun m => Some (mer_external_id m)) (db_merchants d));
  ("currency_length", forallb check_merchant (db_merchants d));
  ("policy_settings_pkey", unique_on (fun s => Some (mps_merchant_id s)) (db_policy_settings d));
  ("policy_settings_checks", forallb check_policy_setting (db_policy_settings d));
  ("customers_pkey", unique_on (fun c => Some (cus_id c)) (db_customers d));
  ("customer_merchant_external",
     unique_on (fun c => Some (cus_merchant_id c, cus_external_id c)) (db_customers d));
  ("subscriptions_pkey", unique_on (fun s => Some (sub_id s)) (db_subscriptions d));
  ("subscription_merchant_provider",
     unique_on (fun s => Some (sub_merchant_id s, sub_provider_subscription_id s)) (db_subscriptions d));
  ("subscription_checks", forallb check_subscription (db_subscriptions d));
  ("invoices_pkey", unique_on (fun i => Some (inv_id i)) (db_invoices d));
  ("invoice_merchant_provider",
     unique_on (fun i => Some (inv_merchant_id i, inv_provider_invoice_id i)) (db_invoices d));
  ("invoice_billing_cycle",
     unique_on (fun i => Some (inv_merchant_id i, inv_subscription_id i, inv_billing_cycle_key i))
       (db_invoices d));
  ("invoice_checks", forallb check_invoice (db_invoices d));
  ("payment_attempts_pkey", unique_on (fun p => Some (pay_id p)) (db_payments d));
  ("payment_attempt_merchant_provider",
     unique_on (fun p => pair (pay_merchant_id p) <$> pay_provider_payment_id p) (db_payments d));
  ("payment_attempt_amount_nonnegative", forallb check_payment (db_payments d));
  ("recovery_cases_pkey", unique_on (fun c => Some (rc_id c)) (db_cases d));
  ("case_failed_invoice",
     unique_on (fun c => pair (rc_merchant_id c) <$> rc_failed_invoice_id c) (db_cases d));
  ("uq_recovery_cases_fallback_cycle",
     unique_on (fun c => match rc_failed_invoice_id c with
                         | Some _ => None
                         | None => pair (rc_merchant_id c) <$> rc_billing_cycle_key c
                         end) (db_cases d));
  ("case_checks", forallb check_case (db_cases d));
  ("policy_decisions_pkey", unique_on (fun p => Some (pol_id p)) (db_policies d));
  ("policy_delay_timestamp", forallb check_policy (db_policies d));
  ("recovery_actions_pkey", unique_on (fun a => Some (act_id a)) (db_actions d));
  ("recovery_actions_idempotency_key", unique_on (fun a => Some (act_idempotency_key a)) (db_actions d));
  ("action_surface_matches_type", forallb check_action (db_actions d));
  ("recovery_events_pkey", unique_on (fun e => Some (evr_id e)) (db_events d));
  ("event_case_source_event",
     unique_on (fun e => pair (evr_case_id e) <$> evr_source_event_id e) (db_events d));
  ("webhook_inbox_pkey", unique_on (fun i => Some (inb_id i)) (db_inbox d));
  ("webhook_provider_event",
     unique_on (fun i => Some (inb_merchant_id i, inb_provider i, inb_provider_event_id i)) (db_inbox d));
  ("outbox_messages_pkey", unique_on (fun o => Some (out_id o)) (db_outbox d));
  ("outbox_messages_deduplication_key", unique_on (fun o => Some (out_deduplication_key o)) (db_outbox d));
  ("outbox_attempt_nonnegative", forallb check_outbox (db_outbox d));
  ("revenue_recognition_pkey", unique_on (fun r => Some (rev_id r)) (db_recognitions d));
  ("revenue_provider_event",
     unique_on (fun r => Some (rev_merchant_id r, rev_provider r, rev_provider_event_id r))
       (db_recognitions d));
  ("revenue_checks", forallb check_recognition (db_recognitions d))].

(** The first violated constraint. *)
Definition violated (d : Db) : option string :=
  fst <$> List.find (fun c => negb (snd c)) (constraints d).
Definition consistent (d : Db) : Prop := violated d = None.

Lemma consistent_constraint d name b :
  consistent d -> (name, b) ∈ constraints d -> b = true.
Proof.
  unfold consistent, violated. intros H Hin. destruct (List.find _ _) eqn:E; [done|].
  pose proof (List.find_none _ _ E (name, b)) as Hf. cbn in Hf.
  specialize (Hf (proj1 (list_elem_of_In _ _) Hin)). by destruct b.
Qed.

(** Look a named constraint of a consistent database up. *)
Ltac constraint d name :=
  apply (consistent_constraint d name); [|unfold constraints;
    repeat first [apply list_elem_of_here | apply list_elem_of_further]].

Lemma unique_on_spec {R K} `{EqDecision K} (key : R -> option K) rows x y k :
  unique_on key rows = true -> x ∈ rows -> y ∈ rows -> key x = Some k -> key y = Some k -> x = y.
Proof.
  unfold unique_on. rewrite bool_decide_eq_true. induction rows as [|r rows IH]; cbn.
  { by intros _ ?%not_elem_of_nil. }
  destruct (key r) as [k'|] eqn:Er.
  - intros [Hn Hd]%NoDup_cons. rewrite !elem_of_cons. intros Hx Hy Kx Ky.
    assert (forall z, z ∈ rows -> key z = Some k -> k' <> k) as Hne.
    { intros z Hz Kz ->. apply Hn, list_elem_of_omap. eauto. }
    destruct Hx as [->|Hx], Hy as [->|Hy]; auto; simplify_eq.
    + by destruct (Hne y Hy Ky).
    + by destruct (Hne x Hx Kx).
  - intros Hd. rewrite !elem_of_cons. intros [->|Hx] [->|Hy] Kx Ky; try congruence. eauto.
Qed.

Lemma unique_on_snoc {R K} `{EqDecision K} (key : R -> option K) rows x :
  unique_on key rows = true -> (forall y, y ∈ rows -> key x <> None -> key y <> key x) ->
  unique_on key (rows ++ [x]) = true.
Proof.
  unfold unique_on. rewrite !bool_decide_eq_true, omap_app. intros Hd Hn. cbn.
  destruct (key x) as [k|] eqn:Ek; [|by rewrite app_nil_r].
  apply NoDup_app. split; [done|]. split; [|apply NoDup_singleton].
  intros k' (y & Hy & Hk')%list_elem_of_omap ->%list_elem_of_singleton. by apply (Hn y).
Qed.

Lemma consistent_iff d : consistent d <-> Forall (fun c => snd c = true) (constraints d).
Proof.
  unfold consistent, violated. rewrite Forall_forall. split.
  - intros H [n b] Hin. cbn. by eapply consistent_constraint.
  - intros H. destruct (List.find _ _) as [[n b]|] eqn:E; [|done].
    apply List.find_some in E as [Hin Hb]. rewrite <- list_elem_of_In in Hin.
    specialize (H _ Hin). cbn in *. by rewrite H in Hb.
Qed.
