(* ===== verification/Session.v ===== *)
(** * Units of work

    The SQLAlchemy session the services use: working contents over committed contents,
    constraints checked by every flush, and the clock and identifier readings of a run.
    A session carries the local variables [X] of the operation that uses it. *)
From S2P Require Import Prelude Domain Json Entities.

Record session (X : Type) : Type := {
  ses_db : Db;
  ses_committed : Db;
  ses_reads : nat;
  ses_local : X;
}.
Arguments ses_db {X} s.
Arguments ses_committed {X} s.
Arguments ses_reads {X} s.
Arguments ses_local {X} s.
#[export] Instance eta_session X : Eta (session X) := fun s =>
  {| ses_db := ses_db s; ses_committed := ses_committed s;
     ses_reads := ses_reads s; ses_local := ses_local s |}.

(** A session opened on a database. *)
Definition open_session {X} (d : Db) (x : X) : session X :=
  {| ses_db := d; ses_committed := d; ses_reads := 0; ses_local := x |}.

Section operations.
Context {X : Type}.
Abbreviation M := (stx (session X)).

(** [await session.flush()]; also the autoflush before a query. *)
Definition flush : M unit := fun s =>
  match violated (ses_db s) with
  | Some c => (Err (IntegrityError c), s)
  | None => (Ok tt, s)
  end.

(** [await session.scalar(select(...))] and its kin: a query after an autoflush. *)
Definition query {A} (f : Db -> A) : M A :=
  _ ← flush; s ← getS; mret (f (ses_db s)).

(** A change of the working contents: [session.add], an attribute assignment, an update. *)
Definition write (f : Db -> Db) : M unit := modS (fun s => s <| ses_db ::= f |>).

Definition commit : M unit :=
  _ ← flush; modS (fun s => s <| ses_committed := ses_db s |>).

(** A commit of the changes [pending] when other sessions' transactions [rival] have
    committed since they were computed: the database applies them to what it holds by
    then, or refuses all of them. *)
Definition commit_racing (rival pending : Db -> Db) : M unit := fun s =>
  let base := rival (ses_committed s) in
  match violated (pending base) with
  | Some c => (Err (IntegrityError c), s <| ses_committed := base |>)
  | None => (Ok tt, s <| ses_committed := pending base |> <| ses_db := pending base |>)
  end.

Definition rollback : M unit := modS (fun s => s <| ses_db := ses_committed s |>).

(** The next reading of the clock or of the identifier supply. *)
Definition reading {A} (f : nat -> A) : M A := fun s =>
  (Ok (f (ses_reads s)), s <| ses_reads ::= S |>).

Definition local_set (f : X -> X) : M unit := modS (fun s => s <| ses_local ::= f |>).

(** ** Rules *)

Lemma hoare_flush (P : session X -> Prop) :
  hoare P flush (fun _ s => P s /\ consistent (ses_db s)) P.
Proof. intros s HP. unfold flush, consistent. by destruct (violated (ses_db s)) eqn:Ev. Qed.

Lemma hoare_query {A} (f : Db -> A) (P : session X -> Prop) :
  hoare P (query f) (fun a s => P s /\ consistent (ses_db s) /\ a = f (ses_db s)) P.
Proof.
  intros s HP. unfold query. stx_unfold. unfold flush, consistent.
  by destruct (violated (ses_db s)) eqn:E.
Qed.

Lemma hoare_write f (Q : session X -> Prop) E :
  hoare (fun s => Q (s <| ses_db ::= f |>)) (write f) (fun _ => Q) E.
Proof. by intros s HQ. Qed.

Lemma hoare_commit (Q : session X -> Prop) (E : session X -> Prop) :
  (forall s, Q s -> E s) ->
  hoare Q commit (fun _ s => exists s0, Q s0 /\ consistent (ses_db s0) /\
                    s = s0 <| ses_committed := ses_db s0 |>) E.
Proof.
  intros HE s HQ. unfold commit. stx_unfold. unfold flush, consistent.
  destruct (violated (ses_db s)) eqn:Ev; [by apply HE|]. by exists s.
Qed.

Lemma hoare_rollback (Q : session X -> Prop) E :
  hoare (fun s => Q (s <| ses_db := ses_committed s |>)) rollback (fun _ => Q) E.
Proof. by intros s HQ. Qed.

Lemma hoare_reading {A} (f : nat -> A) (Q : session X -> Prop) E :
  (forall s, Q s -> Q (s <| ses_reads ::= S |>)) ->
  hoare Q (reading f) (fun _ => Q) E.
Proof. intros H s HQ. by apply H. Qed.

Lemma hoare_local f (Q : session X -> Prop) E :
  hoare (fun s => Q (s <| ses_local ::= f |>)) (local_set f) (fun _ => Q) E.
Proof. by intros s HQ. Qed.

(** ** Successful calls *)

Lemma flush_Ok s u s' : flush s = (Ok u, s') -> s' = s /\ consistent (ses_db s).
Proof. unfold flush, consistent. destruct (violated _); by intros [= _ <-]. Qed.
Lemma query_Ok {A} (f : Db -> A) s a s' :
  query f s = (Ok a, s') -> s' = s /\ a = f (ses_db s) /\ consistent (ses_db s).
Proof.
  intros (u & s1 & [-> Hc]%flush_Ok & H)%stx_bind_Ok. stx_unfold. by injection H as <- <-.
Qed.
Lemma write_Ok f s u s' : write f s = (Ok u, s') -> s' = s <| ses_db ::= f |>.
Proof. by intros [= _ <-]. Qed.
Lemma commit_Ok s u s' :
  commit s = (Ok u, s') -> s' = s <| ses_committed := ses_db s |> /\ consistent (ses_db s).
Proof. intros (u' & s1 & [-> Hc]%flush_Ok & H)%stx_bind_Ok. by injection H as _ <-. Qed.
Lemma reading_Ok {A} (f : nat -> A) s a s' :
  reading f s = (Ok a, s') -> s' = s <| ses_reads ::= S |> /\ a = f (ses_reads s).
Proof. by intros [= <- <-]. Qed.
Lemma guard_Ok b e (s : session X) u s' : guard_ b e s = (Ok u, s') -> s' = s /\ b = false.
Proof. destruct b; [done|by intros [= _ <-]]. Qed.
Lemma lift_Ok {A} (m : result A) (s : session X) a s' : lift m s = (Ok a, s') -> s' = s /\ m = Ok a.
Proof. by intros [= -> <-]. Qed.
Lemma ret_Ok {A} (a : A) (s : session X) b s' : (mret a : M A) s = (Ok b, s') -> s' = s /\ b = a.
Proof. by intros [= -> <-]. Qed.
Lemma local_Ok f s u s' : local_set f s = (Ok u, s') -> s' = s <| ses_local ::= f |>.
Proof. by intros [= _ <-]. Qed.

(** ** Frames

    [keeps v m]: whatever happens, [m] leaves the part [v] of the session alone. *)
Definition keeps {V A} (v : session X -> V) (m : M A) : Prop := forall s, v (snd (m s)) = v s.

Section frames.
Context {V : Type} (v : session X -> V).

Lemma keeps_ret {A} (a : A) : keeps v (mret a).
Proof. by intros s. Qed.
Lemma keeps_raise {A} e : keeps v (raise (A := A) e).
Proof. by intros s. Qed.
Lemma keeps_lift {A} (m : result A) : keeps v (lift m).
Proof. by intros s. Qed.
Lemma keeps_guard b e : keeps v (guard_ b e).
Proof. by intros s. Qed.
Lemma keeps_getS : keeps v getS.
Proof. by intros s. Qed.
Lemma keeps_modS f : (forall s, v (f s) = v s) -> keeps v (modS f).
Proof. intros H s. apply H. Qed.
Lemma keeps_flush : keeps v flush.
Proof. intros s. unfold flush. by destruct (violated _). Qed.
Lemma keeps_bind {A B} (m : M A) (f : A -> M B) :
  keeps v m -> (forall a, keeps v (f a)) -> keeps v (m ≫= f).
Proof.
  intros Hm Hf s. unfold mbind, stx_bind. specialize (Hm s). destruct (m s) as [[a|e] s'];
    cbn in *; [by rewrite Hf|done].
Qed.
Lemma keeps_fmap {A B} (f : A -> B) (m : M A) : keeps v m -> keeps v (f <$> m).
Proof. intros H. unfold fmap, stx_fmap. apply keeps_bind; [done|]. intros a. apply keeps_ret. Qed.
Lemma keeps_query {A} (f : Db -> A) : keeps v (query f).
Proof. intros s. unfold query. stx_unfold. unfold flush. by destruct (violated _). Qed.
Lemma keeps_write f : (forall s, v (s <| ses_db ::= f |>) = v s) -> keeps v (write f).
Proof. intros H s. apply H. Qed.
Lemma keeps_reading {A} (f : nat -> A) :
  (forall s, v (s <| ses_reads ::= S |>) = v s) -> keeps v (reading f).
Proof. intros H s. apply H. Qed.
Lemma keeps_local f : (forall s, v (s <| ses_local ::= f |>) = v s) -> keeps v (local_set f).
Proof. intros H s. apply H. Qed.

(** Any assertion on the part kept is kept. *)
Lemma hoare_keeps {A} (m : M A) (Q : V -> Prop) :
  keeps v m -> hoare (fun s => Q (v s)) m (fun _ s => Q (v s)) (fun s => Q (v s)).
Proof.
  intros H s HQ. specialize (H s). destruct (m s) as [[a|e] s']; cbn in H; by rewrite H.
Qed.
End frames.
End operations.

(** Decompose a successful run into its steps. *)
Ltac runs :=
  repeat match goal with
  | H : (_ ≫= _) _ = (Ok _, _) |- _ => apply stx_bind_Ok in H as (? & ? & ? & H)
  | H : flush _ = (Ok _, _) |- _ => apply flush_Ok in H as [-> ?]
  | H : query _ _ = (Ok _, _) |- _ => apply query_Ok in H as (-> & ? & ?)
  | H : write _ _ = (Ok _, _) |- _ => apply write_Ok in H as ->
  | H : commit _ = (Ok _, _) |- _ => apply commit_Ok in H as [-> ?]
  | H : reading _ _ = (Ok _, _) |- _ => apply reading_Ok in H as [-> ?]
  | H : guard_ _ _ _ = (Ok _, _) |- _ => apply guard_Ok in H as [-> ?]
  | H : lift _ _ = (Ok _, _) |- _ => apply lift_Ok in H as [-> ?]
  | H : local_set _ _ = (Ok _, _) |- _ => apply local_Ok in H as ->
  | H : raise _ _ = (Ok _, _) |- _ => discriminate H
  | H : mret _ _ = (Ok _, _) |- _ => apply ret_Ok in H as [-> ?]
  end.

(** Follow the structure of a computation that keeps a view; the lemmas of the
    operations it calls are hints. *)
Create HintDb keeps.
Ltac head_of t := lazymatch t with ?f _ => head_of f | _ => t end.
Ltac keeps_step :=
  cbv beta zeta;
  lazymatch goal with
  | |- keeps _ (mret _) => apply keeps_ret
  | |- keeps _ (_ ≫= _) => apply keeps_bind; [|intros ?]
  | |- keeps _ (_ <$> _) => apply keeps_fmap
  | |- keeps _ (raise _) => apply keeps_raise
  | |- keeps _ (lift _) => apply keeps_lift
  | |- keeps _ (guard_ _ _) => apply keeps_guard
  | |- keeps _ (modS _) => apply keeps_modS; intros ?; reflexivity
  | |- keeps _ getS => apply keeps_getS
  | |- keeps _ flush => apply keeps_flush
  | |- keeps _ (query _) => apply keeps_query
  | |- keeps _ (write _) => apply keeps_write; intros ?; reflexivity
  | |- keeps _ (reading _) => apply keeps_reading; intros ?; reflexivity
  | |- keeps _ (local_set _) => apply keeps_local; intros ?; reflexivity
  | |- keeps _ (match _ with _ => _ end) => case_match
  | |- keeps _ ?m =>
      first [ solve [auto 1 with keeps nocore] | let h := head_of m in unfold h ]
  end.
Ltac keeps := repeat keeps_step.

(** ** Atomicity

    [atomic m]: a call that raises has committed nothing. *)
Definition atomic {X A} (m : stx (session X) A) : Prop :=
  forall s e s', m s = (Err e, s') -> ses_committed s' = ses_committed s.

Section atomicity.
Context {X : Type}.

Lemma atomic_keeps {A} (m : stx (session X) A) : keeps ses_committed m -> atomic m.
Proof. intros H s e s' E. specialize (H s). by rewrite E in H. Qed.
Lemma atomic_bind {A B} (m : stx (session X) A) (f : A -> stx (session X) B) :
  keeps ses_committed m -> (forall a, atomic (f a)) -> atomic (m ≫= f).
Proof.
  intros Hm Hf s e s'. unfold mbind, stx_bind. specialize (Hm s).
  destruct (m s) as [[a|e'] s1]; cbn in Hm.
  - intros H. rewrite (Hf a _ _ _ H). done.
  - by intros [= <- <-].
Qed.
Lemma atomic_commit {A} (a : A) : atomic (commit (X := X) ≫= fun _ => mret a).
Proof.
  intros s e s'. unfold commit, flush. stx_unfold.
  destruct (violated (ses_db s)); [by intros [= <- <-]|done].
Qed.
End atomicity.

(** Everything up to the final commit keeps the committed contents. *)
Ltac atomic_step :=
  cbv beta zeta;
  lazymatch goal with
  | |- atomic (commit ≫= fun _ => mret _) => apply atomic_commit
  | |- atomic (match _ with _ => _ end) => case_match
  | |- atomic (_ ≫= _) => apply atomic_bind; [solve [keeps]|intros ?]
  | |- atomic ?m => first [apply atomic_keeps; solve [keeps] | let h := head_of m in unfold h]
  end.
Ltac atomically := repeat atomic_step.

(** ** Rows of a table *)

Definition rows_where {R} (p : R -> bool) (rows : list R) : list R := List.filter p rows.
(** The first row of a result. *)
Definition row_where {R} (p : R -> bool) (rows : list R) : option R := List.find p rows.
(** [UPDATE ... SET ... WHERE p] and the assignment of a loaded row. *)
Definition update_where {R} (p : R -> bool) (f : R -> R) (rows : list R) : list R :=
  map (fun r => if p r then f r else r) rows.
(** Replace the row with the key of [row]. *)
Definition store_row {R} (key : R -> string) (row : R) (rows : list R) : list R :=
  update_where (fun r => bool_decide (key r = key row)) (fun _ => row) rows.

Lemma row_where_Some {R} (p : R -> bool) rows r :
  row_where p rows = Some r -> r ∈ rows /\ p r = true.
Proof. intros [H1 H2]%List.find_some. by rewrite list_elem_of_In. Qed.
Lemma row_where_None {R} (p : R -> bool) rows r :
  row_where p rows = None -> r ∈ rows -> p r = false.
Proof. intros H Hr. apply (List.find_none _ _ H). by apply list_elem_of_In. Qed.

Lemma elem_of_rows_where {R} (p : R -> bool) rows r : r ∈ rows_where p rows <-> r ∈ rows /\ p r = true.
Proof. unfold rows_where. by rewrite !list_elem_of_In, List.filter_In. Qed.

Lemma elem_of_update_where {R} (p : R -> bool) f (rows : list R) r :
  r ∈ update_where p f rows <-> exists r0, r0 ∈ rows /\ r = if p r0 then f r0 else r0.
Proof. unfold update_where. rewrite list_elem_of_fmap. naive_solver. Qed.

Lemma update_where_ext {R} (p q : R -> bool) (f g : R -> R) (l : list R) :
  (forall r, r ∈ l -> p r = q r) -> (forall r, r ∈ l -> p r = true -> f r = g r) ->
  update_where p f l = update_where q g l.
Proof.
  intros Hp Hf. unfold update_where. induction l as [|r l IH]; cbn; [done|].
  f_equal.
  - rewrite <- Hp by left. destruct (p r) eqn:E; [|done]. apply Hf; [left|done].
  - apply IH; intros r' Hr'; [apply Hp|apply Hf]; by right.
Qed.

Lemma update_where_none {R} (p : R -> bool) (f : R -> R) (l : list R) :
  (forall r, r ∈ l -> p r = false) -> update_where p f l = l.
Proof.
  intros H. unfold update_where. induction l as [|r l IH]; cbn; [done|]. rewrite H by left.
  f_equal. apply IH. intros r' Hr'. apply H. by right.
Qed.

Lemma elem_of_store_row {R} (key : R -> string) row (rows : list R) r :
  r ∈ store_row key row rows ->
  r = row \/ (r ∈ rows /\ key r <> key row).
Proof.
  unfold store_row. rewrite elem_of_update_where. intros (r0 & Hr0 & ->).
  case_bool_decide; auto.
Qed.

Lemma store_row_keys {R} (key : R -> string) row (rows : list R) :
  map key (store_row key row rows) = map key rows.
Proof.
  unfold store_row, update_where. rewrite map_map. apply map_ext. intros r.
  by case_bool_decide.
Qed.
