(* ===== verification/VoicePorts.v ===== *)
(** * Voice contracts and ports

    The voice half of [providers/contracts.py] and [providers/interfaces.py], the results of
    [voice/service.py], and the class through which the worker starts and stops calls. *)
From S2P Require Import Prelude Domain Json Entities.

(** src/services/api/app/providers/contracts.py:105-113 [VoiceContactRequest] *)
Record VoiceContactRequest : Type := {
  vq_idempotency_key : string;
  vq_case_id : string;
  vq_customer_id : string;
  vq_destination_token : string;
  vq_preferred_language : string;
  vq_consent_verified_at : datetime;
  vq_max_duration_seconds : Z;
  vq_disclosure_text : string;
}.

(** src/services/api/app/providers/contracts.py:112-112 [VoiceContactRequest]: the bounds
    of the duration. *)
Definition validate_contact_request (r : VoiceContactRequest) : result VoiceContactRequest :=
  if (0 <? vq_max_duration_seconds r) && (vq_max_duration_seconds r <=? 180) then Ok r
  else Err (ValueError "max_duration_seconds").

(** src/services/api/app/providers/contracts.py:116-121 [VoiceContactResult] *)
Record VoiceContactResult : Type := {
  vcr_provider : string;
  vcr_contact_attempt_id : string;
  vcr_provider_call_id : option string;
  vcr_status : string;
  vcr_reason_code : option string;
}.

(** src/services/api/app/providers/contracts.py:124-132 [VoiceContactSnapshot] *)
Record VoiceContactSnapshot : Type := {
  vs_contact_attempt_id : string;
  vs_status : string;
  vs_disposition : option string;
  vs_transcript : option string;
  vs_detected_intent : option string;
  vs_confidence : option Q;
  vs_duration_seconds : option Z;
  vs_observed_at : datetime;
}.

(** src/services/api/app/providers/interfaces.py:68-74 [VoiceProvider] *)
Class VoiceProvider (P : Type) : Type := {
  is_disabled_provider : bool;
  start_contact : VoiceContactRequest -> stx P VoiceContactResult;
  cancel_contact : string -> string -> stx P unit;
  fetch_contact : string -> stx P VoiceContactSnapshot;
}.
Arguments is_disabled_provider P {_}.

(** src/services/api/app/voice/service.py:195-203 [VoiceCancellationResult] *)
Record VoiceCancellationResult : Type := {
  vx_status : string;
  vx_cancellation_key : string;
  vx_attempt_id : option string;
  vx_provider_submission_performed : bool;
  vx_reason_code : option string;
}.

(** What the worker asks of the voice service: to start the call of a case, and to stop
    its active call once the case is paid.  The service works on the shared tables and on
    its own. *)
Class VoiceOutreach (V : Type) : Type := {
  voice_provider_ready : bool;
  voice_start : string -> string -> option string -> Z -> datetime -> stx (Db * V) VoiceContactResult;
  voice_cancel_for_payment : string -> string -> datetime -> stx (Db * V) VoiceCancellationResult;
}.
Arguments voice_provider_ready V {_}.
