(* ===== verification/Base64.v ===== *)
(** * Base64

    [base64] of the standard library as the code uses it: URL-safe encoding without
    padding, the lenient decoder of cursors and the strict one of keys and signatures. *)
From S2P Require Import Prelude.

(** ** Encoding and decoding *)

(** A sextet as a character of the URL-safe alphabet, and back; the decoder also takes
    the two characters of the standard alphabet the URL-safe one replaces. *)
Definition b64_char (v : Z) : ascii :=
  ascii_of_N (Z.to_N (
    if v <? 26 then v + 65 else if v <? 52 then v + 71 else if v <? 62 then v - 4
    else if v =? 62 then 45 else 95)).
Definition b64_value (c : ascii) : option Z :=
  let n := Z.of_N (N_of_ascii c) in
  if (65 <=? n) && (n <=? 90) then Some (n - 65)
  else if (97 <=? n) && (n <=? 122) then Some (n - 71)
  else if (48 <=? n) && (n <=? 57) then Some (n + 4)
  else if (n =? 43) || (n =? 45) then Some 62
  else if (n =? 47) || (n =? 95) then Some 63
  else None.

Definition byte_of (v : Z) : ascii := ascii_of_N (Z.to_N v).
Definition code (c : ascii) : Z := Z.of_N (N_of_ascii c).

(** [base64.urlsafe_b64encode(...).rstrip("=")]: three bytes at a time; the stripped
    padding is never written. *)
Fixpoint b64_encode (s : string) : string :=
  match s with
  | String a (String b (String c rest)) =>
      String (b64_char (code a / 4))
        (String (b64_char (code a mod 4 * 16 + code b / 16))
           (String (b64_char (code b mod 16 * 4 + code c / 64))
              (String (b64_char (code c mod 64)) (b64_encode rest))))
  | String a (String b EmptyString) =>
      String (b64_char (code a / 4))
        (String (b64_char (code a mod 4 * 16 + code b / 16))
           (String (b64_char (code b mod 16 * 4)) EmptyString))
  | String a EmptyString =>
      String (b64_char (code a / 4)) (String (b64_char (code a mod 4 * 16)) EmptyString)
  | EmptyString => EmptyString
  end.

(** [binascii.a2b_base64]: [quad] characters of a group read, [left] their bits not yet
    emitted, [pads] padding characters since, [started] whether any padding was seen.
    The lenient mode skips what is not of the alphabet and stops at the padding. *)
Fixpoint a2b_base64 (strict : bool) (quad : nat) (left : Z) (pads : nat) (started : bool)
    (s : string) : result string :=
  match s with
  | EmptyString =>
      match quad with
      | O => Ok EmptyString
      | S O => Err (ValueError "Invalid base64-encoded string")
      | _ => Err (ValueError "Incorrect padding")
      end
  | String c rest =>
      if Ascii.eqb c "=" then
        if strict && (quad =? 0)%nat then Err (ValueError "Excess padding not allowed")
        else if (2 <=? quad)%nat then
          if (4 <=? quad + S pads)%nat then
            if strict && bool_decide (rest <> EmptyString)
            then Err (ValueError "Excess data after padding")
            else Ok EmptyString
          else a2b_base64 strict quad left (S pads) true rest
        else a2b_base64 strict quad left pads true rest
      else
        match b64_value c with
        | None =>
            if strict then Err (ValueError "Only base64 data is allowed")
            else a2b_base64 strict quad left pads started rest
        | Some v =>
            if strict && started then Err (ValueError "Discontinuous padding not allowed")
            else
            match quad with
            | O => a2b_base64 strict 1 v 0 started rest
            | S O =>
                String (byte_of (left * 4 + v / 16)) <$> a2b_base64 strict 2 (v mod 16) 0 started rest
            | S (S O) =>
                String (byte_of (left * 16 + v / 4)) <$> a2b_base64 strict 3 (v mod 4) 0 started rest
            | _ => String (byte_of (left * 64 + v)) <$> a2b_base64 strict 0 0 0 started rest
            end
        end
  end.

Fixpoint is_ascii (s : string) : bool :=
  match s with EmptyString => true | String c rest => (code c <? 128) && is_ascii rest end.

(** [base64.urlsafe_b64decode(s)] *)
Definition urlsafe_b64decode (s : string) : result string :=
  if is_ascii s then a2b_base64 false 0 0 0 false s
  else Err (ValueError "string argument should contain only ASCII characters").

(** [base64.b64decode(s, altchars=b"-_", validate=True)] *)
Definition b64decode_strict (s : string) : result string :=
  if is_ascii s then a2b_base64 true 0 0 0 false s
  else Err (ValueError "string argument should contain only ASCII characters").

(** ["=" * n] *)
Fixpoint equals_signs (n : nat) : string :=
  match n with O => EmptyString | S n => String "=" (equals_signs n) end.

(** ["=" * (-len(value) % 4)] *)
Definition padding_of (s : string) : string :=
  equals_signs (Z.to_nat (- Z.of_nat (String.length s) mod 4)).

(** ** Round trip *)

Lemma code_bounds c : 0 <= code c < 256.
Proof. unfold code. pose proof (N_ascii_bounded c). lia. Qed.
Lemma byte_of_code c : byte_of (code c) = c.
Proof. unfold byte_of, code. by rewrite N2Z.id, ascii_N_embedding. Qed.

(** A property of the sextets, checked on each of them. *)
Lemma sextets (P : Z -> bool) :
  forallb P (map Z.of_nat (seq 0 64)) = true -> forall v, 0 <= v < 64 -> P v = true.
Proof.
  intros H v Hv. rewrite forallb_forall in H. apply H. apply in_map_iff.
  exists (Z.to_nat v). rewrite Z2Nat.id by lia. split; [done|]. apply in_seq. lia.
Qed.

Lemma b64_char_spec v : 0 <= v < 64 ->
  b64_value (b64_char v) = Some v /\ Ascii.eqb (b64_char v) "=" = false /\ code (b64_char v) <? 128 = true.
Proof.
  intros Hv. pose proof (sextets (fun v => bool_decide (b64_value (b64_char v) = Some v)
    && negb (Ascii.eqb (b64_char v) "=") && (code (b64_char v) <? 128)) eq_refl v Hv) as H.
  cbn beta in H. bools. rewrite Z.ltb_lt. auto.
Qed.

(** One character of the alphabet, at each place of a group. *)
Lemma a2b_step strict quad left pads v rest : 0 <= v < 64 ->
  a2b_base64 strict quad left pads false (String (b64_char v) rest) =
    match quad with
    | O => a2b_base64 strict 1 v 0 false rest
    | S O => String (byte_of (left * 4 + v / 16)) <$> a2b_base64 strict 2 (v mod 16) 0 false rest
    | S (S O) => String (byte_of (left * 16 + v / 4)) <$> a2b_base64 strict 3 (v mod 4) 0 false rest
    | _ => String (byte_of (left * 64 + v)) <$> a2b_base64 strict 0 0 0 false rest
    end.
Proof.
  intros (Hv & He & _)%b64_char_spec. cbn [a2b_base64]. by rewrite He, Hv, andb_false_r.
Qed.

(** Induction by groups of three characters. *)
Lemma group_ind (P : string -> Prop) :
  P "" -> (forall a, P (String a "")) -> (forall a b, P (String a (String b ""))) ->
  (forall a b c s, P s -> P (String a (String b (String c s)))) -> forall s, P s.
Proof. intros H0 H1 H2 H3. fix IH 1. intros [|a [|b [|c s]]]; [done|apply H1|apply H2|apply H3, IH]. Qed.

Lemma b64_encode_ascii s : is_ascii (b64_encode s) = true.
Proof.
  induction s as [|a|a b|a b c s IH] using group_ind; [done| | |]; cbn [b64_encode is_ascii].
  all: pose proof (code_bounds a); try pose proof (code_bounds b); try pose proof (code_bounds c).
  all: repeat (apply andb_true_iff; split);
    try (apply b64_char_spec; Z.to_euclidean_division_equations; lia); auto.
Qed.

Ltac sextet := Z.to_euclidean_division_equations; lia.

(** The decoder undoes the encoder whatever padding, of at least the missing characters,
    follows; [pad] is consumed from the second place of a group on. *)
Lemma a2b_encode strict s p :
  (Z.of_nat p = - Z.of_nat (String.length (b64_encode s)) mod 4)%Z ->
  a2b_base64 strict 0 0 0 false (b64_encode s +++ equals_signs p) = Ok s.
Proof.
  induction s as [|a|a b|a b c s IH] using group_ind; cbn [b64_encode String.length]; intros Hp;
    rewrite ?string_cons_app, ?string_nil_app.
  - assert (p = 0%nat) as -> by (cbn in Hp; sextet). done.
  - assert (p = 2%nat) as -> by (cbn in Hp; sextet). pose proof (code_bounds a).
    rewrite !a2b_step by sextet. cbn. rewrite !andb_false_r. cbn. f_equal. f_equal.
    rewrite <- (byte_of_code a) at 3. f_equal. sextet.
  - assert (p = 1%nat) as -> by (cbn in Hp; sextet).
    pose proof (code_bounds a); pose proof (code_bounds b).
    rewrite !a2b_step by sextet. cbn. rewrite !andb_false_r. cbn.
    do 2 f_equal; [|f_equal].
    + rewrite <- (byte_of_code a) at 3. f_equal. sextet.
    + rewrite <- (byte_of_code b) at 3. f_equal. sextet.
  - pose proof (code_bounds a); pose proof (code_bounds b); pose proof (code_bounds c).
    rewrite !a2b_step by sextet. rewrite IH.
    + cbn. do 2 f_equal; [|f_equal; [|f_equal]].
      * rewrite <- (byte_of_code a) at 3. f_equal. sextet.
      * rewrite <- (byte_of_code b) at 3. f_equal. sextet.
      * rewrite <- (byte_of_code c) at 3. f_equal. sextet.
    + rewrite Hp, !Nat2Z.inj_succ. sextet.
Qed.

Definition url_safe (c : ascii) : bool :=
  let n := code c in
  ((65 <=? n) && (n <=? 90)) || ((97 <=? n) && (n <=? 122)) || ((48 <=? n) && (n <=? 57))
  || (n =? 45) || (n =? 95).

Lemma b64_encode_safe s : all_chars url_safe (b64_encode s) = true.
Proof.
  assert (forall v, 0 <= v < 64 -> url_safe (b64_char v) = true) as Hv.
  { by apply (sextets (fun v => url_safe (b64_char v))). }
  induction s as [|a|a b|a b c s IH] using group_ind; [done| | |]; cbn [b64_encode all_chars].
  all: pose proof (code_bounds a); try pose proof (code_bounds b); try pose proof (code_bounds c).
  all: repeat (apply andb_true_iff; split); try (apply Hv; sextet); auto.
Qed.

Lemma is_ascii_app s n : is_ascii s = true -> is_ascii (s +++ equals_signs n) = true.
Proof.
  induction s as [|c s IH]; cbn [is_ascii].
  - intros _. rewrite string_nil_app. by induction n.
  - rewrite string_cons_app. cbn [is_ascii]. intros H. bools.
    apply andb_true_iff. rewrite Z.ltb_lt. auto.
Qed.

Lemma padded_ascii s : is_ascii (b64_encode s +++ padding_of (b64_encode s)) = true.
Proof. apply is_ascii_app, b64_encode_ascii. Qed.
Lemma a2b_padded strict s :
  a2b_base64 strict 0 0 0 false (b64_encode s +++ padding_of (b64_encode s)) = Ok s.
Proof. apply a2b_encode. rewrite Z2Nat.id; sextet. Qed.

Lemma urlsafe_roundtrip s : urlsafe_b64decode (b64_encode s +++ padding_of (b64_encode s)) = Ok s.
Proof. unfold urlsafe_b64decode. by rewrite padded_ascii, a2b_padded. Qed.
Lemma strict_roundtrip s : b64decode_strict (b64_encode s +++ padding_of (b64_encode s)) = Ok s.
Proof. unfold b64decode_strict. by rewrite padded_ascii, a2b_padded. Qed.

Lemma a2b_errors strict quad left pads started s e :
  a2b_base64 strict quad left pads started s = Err e -> exists msg, e = ValueError msg.
Proof.
  revert quad left pads started e.
  induction s as [|c s IH]; intros quad left pads started e; cbn [a2b_base64].
  - destruct quad as [|[|]]; intros [= <-]; eauto.
  - repeat case_match; try (intros [= <-]; by eauto); try by eauto.
    all: destruct (a2b_base64 _ _ _ _ _ s) eqn:E; cbn; [done|]; intros [= <-]; eauto.
Qed.

Lemma b64decode_strict_errors s e : b64decode_strict s = Err e -> exists msg, e = ValueError msg.
Proof.
  unfold b64decode_strict. destruct (is_ascii s); [apply a2b_errors|intros [= <-]; eauto].
Qed.
