(* ===== verification/Cursor.v ===== *)
(** * Pagination cursors

    [services/api/app/repositories/cases.py]: the opaque cursor of a page of recovery
    cases, the URL-safe base64 text of a small JSON object, with [base64] as the
    standard library has it. *)
From S2P Require Import Prelude Json Base64.

(** ** The cursor *)

(** [payload.get("v") != 1]: booleans and floats compare with integers. *)
Definition is_one (v : json) : bool :=
  match v with
  | JInt z => z =? 1
  | JBool b => b
  | JFloat q => Qeq_bool q 1
  | _ => false
  end.

Section cursor.
(** [json.dumps] with compact separators, [json.loads] of the decoded bytes, and the text
    of an aware UTC instant. *)
Context (json_dumps : json -> string) (json_loads : string -> result json)
        (isoformat : Z -> string) (fromisoformat : string -> result datetime).

Definition cursor_payload (opened_at : Z) (case_id : string) : json := JObj [
  ("v", JInt 1); ("opened_at", JStr (isoformat opened_at)); ("id", JStr case_id)].

(** src/services/api/app/repositories/cases.py:70-75 [_encode_cursor] *)
Definition encode_cursor (opened_at : Z) (case_id : string) : string :=
  b64_encode (json_dumps (cursor_payload opened_at case_id)).

(** src/services/api/app/repositories/cases.py:79-87 [_decode_cursor]: the body of its
    [try]. *)
Definition read_cursor (cursor : string) : result (datetime * string) :=
  let padded := (cursor +++ padding_of cursor)%string in
  text ← urlsafe_b64decode padded;
  payload ← json_loads text;
  _ ← raise_if (negb (is_dict payload)) (AttributeError "get");
  case_id ← (if is_one (json_get "v" payload) then
               match json_get "id" payload with
               | JStr id => mret id
               | _ => Err (InvalidCursorError "unsupported cursor")
               end
             else Err (InvalidCursorError "unsupported cursor"));
  opened_at ← json_item "opened_at" payload;
  opened_at ← match opened_at with
              | JStr text => fromisoformat text
              | _ => Err (TypeError "fromisoformat: argument must be str")
              end;
  _ ← raise_if (negb (is_aware opened_at))
        (InvalidCursorError "cursor timestamp must be timezone-aware");
  mret (opened_at, case_id).

(** The classes the [except] clause names, [InvalidCursorError] being a [ValueError]. *)
Definition cursor_error (e : exn) : bool :=
  match e with
  | KeyError _ | TypeError _ | ValueError _ | InvalidCursorError _ => true
  | _ => false
  end.

(** src/services/api/app/repositories/cases.py:78-89 [_decode_cursor] *)
Definition decode_cursor (cursor : string) : result (datetime * string) :=
  match read_cursor cursor with
  | Err e => if cursor_error e then Err (InvalidCursorError "invalid recovery-case cursor") else Err e
  | Ok c => Ok c
  end.
End cursor.

Section cursor_facts.
Context (json_dumps : json -> string) (json_loads : string -> result json)
        (isoformat : Z -> string) (fromisoformat : string -> result datetime).

(** The serializers invert each other on a cursor. *)
Definition cursor_texts_invert (t : Z) (case_id : string) : Prop :=
  json_loads (json_dumps (cursor_payload isoformat t case_id))
    = Ok (cursor_payload isoformat t case_id) /\
  fromisoformat (isoformat t) = Ok (utc_datetime t).

Lemma decode_encode_cursor t case_id :
  cursor_texts_invert t case_id ->
  decode_cursor json_loads fromisoformat (encode_cursor json_dumps isoformat t case_id)
    = Ok (utc_datetime t, case_id).
Proof.
  intros [Hj Hi]. unfold decode_cursor, read_cursor, encode_cursor.
  set (text := json_dumps _) in *.
  rewrite urlsafe_roundtrip.
  cbn. rewrite Hj. cbn. decide_eqs. cbn. by rewrite Hi.
Qed.

(** The text and the value a cursor stands for. *)
Definition cursor_value (cursor : string) : result json :=
  text ← urlsafe_b64decode (cursor +++ padding_of cursor);
  json_loads text.

(** The handler catches every exception of a call. *)
Definition covered {A} (m : result A) : Prop := forall e, m = Err e -> cursor_error e = true.

Lemma covered_bind {A B} (m : result A) (f : A -> result B) :
  covered m -> (forall a, covered (f a)) -> covered (m ≫= f).
Proof. intros Hm Hf e. destruct m as [a|e']; cbn; [apply Hf|intros [= <-]; by apply Hm]. Qed.
End cursor_facts.

(** the cursor of a page decodes to the instant and the identifier it was made of,
    given that [json] and [isoformat] read back what they wrote of it, and it is made of
    letters, digits, ["-"] and ["_"] only, so that it needs no quoting in a URL. *)
Theorem cursor_roundtrip json_dumps json_loads isoformat fromisoformat t case_id :
  cursor_texts_invert json_dumps json_loads isoformat fromisoformat t case_id ->
  decode_cursor json_loads fromisoformat (encode_cursor json_dumps isoformat t case_id)
    = Ok (utc_datetime t, case_id) /\
  all_chars url_safe (encode_cursor json_dumps isoformat t case_id) = true.
Proof. intros H. split; [by apply decode_encode_cursor|apply b64_encode_safe]. Qed.

(** Serializers of the demonstration: the identifier, quoted, and the instant in decimal. *)
Definition demo_dumps (v : json) : string :=
  match json_get "id" v with JStr id => ("{'id':'" +++ id +++ "'}")%string | _ => "[]" end.
Definition demo_cursor_json (text : string) : result json :=
  if bool_decide (text = "{'id':'case_1'}")
  then Ok (JObj [("v", JInt 1); ("opened_at", JStr "7"); ("id", JStr "case_1")])
  else if bool_decide (text = "[]") then Ok (JArr []) else Err (ValueError "Expecting value").
Definition demo_iso (t : Z) : string := str_of_Z t.
Definition demo_fromiso (s : string) : result datetime :=
  if bool_decide (s = "7") then Ok (utc_datetime 7) else Err (ValueError "isoformat").

Example demo_cursor : encode_cursor demo_dumps demo_iso 7 "case_1" = "eydpZCc6J2Nhc2VfMSd9".
Proof. vm_compute. reflexivity. Qed.

Lemma cursor_roundtrip_witness :
  decode_cursor demo_cursor_json demo_fromiso "eydpZCc6J2Nhc2VfMSd9" = Ok (utc_datetime 7, "case_1").
Proof.
  apply (cursor_roundtrip demo_dumps demo_cursor_json demo_iso demo_fromiso 7 "case_1").
  split; vm_compute; reflexivity.
Defined.

(** decoding refuses a malformed cursor with [InvalidCursorError] and nothing else,
    for parsers that raise only [ValueError], with one exception: a cursor that is the
    base64 of a JSON value other than an object raises [AttributeError] (the code calls
    [payload.get] inside a [try] that does not catch it), so that it is not reported as
    an invalid cursor. *)
Theorem cursor_errors_exact json_loads fromisoformat cursor :
  (forall s e, json_loads s = Err e -> exists msg, e = ValueError msg) ->
  (forall s e, fromisoformat s = Err e -> exists msg, e = ValueError msg) ->
  (forall e, decode_cursor json_loads fromisoformat cursor = Err e ->
     e = InvalidCursorError "invalid recovery-case cursor" \/ e = AttributeError "get") /\
  (decode_cursor json_loads fromisoformat cursor = Err (AttributeError "get") <->
     exists v, cursor_value json_loads cursor = Ok v /\ is_dict v = false).
Proof.
  intros Hj Hi. unfold decode_cursor, read_cursor, cursor_value. set (padded := (cursor +++ _)%string).
  destruct (urlsafe_b64decode padded) as [text|e] eqn:Eb.
  2:{ unfold urlsafe_b64decode in Eb. destruct (is_ascii padded).
      - apply a2b_errors in Eb as [msg ->]. cbn. split; [by left; congruence|].
        split; [done|by intros (? & ? & ?)].
      - injection Eb as <-. cbn. split; [by left; congruence|]. split; [done|by intros (? & ? & ?)]. }
  cbn. destruct (json_loads text) as [v|e] eqn:Ej; cbn.
  2:{ apply Hj in Ej as [msg ->]. cbn. split; [by left; congruence|]. split; [done|by intros (? & ? & ?)]. }
  destruct (is_dict v) eqn:Ev; cbn.
  2:{ split; [by right; congruence|]. split; [eauto|done]. }
  match goal with |- (forall e, match ?m with _ => _ end = _ -> _) /\ _ =>
    assert (covered m) as Hm end.
  { apply covered_bind; [case_match; [case_match|]; by intros ? [= <-]|]. intros id.
    apply covered_bind; [|intros opened_at].
    - unfold json_item. destruct v; try done. destruct (assoc_get _ _); by intros ? [= <-].
    - apply covered_bind.
      + destruct opened_at; try by intros ? [= <-]. by intros ? [? ->]%Hi.
      + intros d. apply covered_bind; [by destruct (negb _); intros ? [= <-]|done]. }
  match type of Hm with covered ?m => destruct m as [c|e] eqn:Em end.
  - split; [done|]. split; [done|]. intros (v' & [= <-] & ?). congruence.
  - rewrite (Hm e eq_refl). split; [intros ? [= <-]; auto|]. split; [done|].
    intros (v' & [= <-] & ?). congruence.
Qed.

Lemma cursor_errors_exact_witness :
  (forall s e, demo_cursor_json s = Err e -> exists msg, e = ValueError msg) /\
  (forall s e, demo_fromiso s = Err e -> exists msg, e = ValueError msg) /\
  decode_cursor demo_cursor_json demo_fromiso "W10" = Err (AttributeError "get").
Proof.
  assert (forall s e, demo_cursor_json s = Err e -> exists msg, e = ValueError msg) as Hj.
  { intros s e. unfold demo_cursor_json. repeat case_bool_decide; intros [= <-]; eauto. }
  assert (forall s e, demo_fromiso s = Err e -> exists msg, e = ValueError msg) as Hi.
  { intros s e. unfold demo_fromiso. case_bool_decide; intros [= <-]; eauto. }
  split; [done|]. split; [done|].
  apply (cursor_errors_exact demo_cursor_json demo_fromiso "W10" Hj Hi).
  exists (JArr []). split; vm_compute; reflexivity.
Defined.
