(* ===== verification/OperatorAuth.v ===== *)
(** * Operator sessions

    [api/operator_auth.py]: the guard of consequential actions, and the signed session it
    accepts.  HMAC-SHA-256, [json.loads] and [str.casefold] are parameters; an environment
    variable is looked up by its name. *)
From S2P Require Import Prelude Json Base64 JsonText.

Definition operator_auth_required (msg : string) : exn := ApplicationServiceError "OPERATOR_AUTH_REQUIRED" msg.
Definition operator_auth_not_configured (msg : string) : exn := ApplicationServiceError "OPERATOR_AUTH_NOT_CONFIGURED" msg.

(** The split at the first [sep], if there is one. *)
Fixpoint split_first (sep : ascii) (s : string) : option (string * string) :=
  match s with
  | EmptyString => None
  | String c rest =>
      if Ascii.eqb c sep then Some (EmptyString, rest)
      else '(before, after) ← split_first sep rest; Some (String c before, after)
  end.

(** [hmac.compare_digest(a, b)] of two [str]. *)
Definition compare_digest (a b : string) : result bool :=
  if is_ascii a && is_ascii b then Ok (bool_decide (a = b))
  else Err (TypeError "comparing strings with non-ASCII characters is not supported").

(** [isinstance(value, int)]: a boolean is an integer. *)
Definition int_value (value : json) : option Z :=
  match value with JInt z => Some z | JBool b => Some (if b then 1 else 0) | _ => None end.

Section environment.
Context (env : string -> option string).

Definition getenv (name fallback : string) : string := default fallback (env name).

(** src/services/api/app/api/operator_auth.py:51-52 [_enabled] *)
Definition env_enabled (name fallback : string) : bool :=
  mem (str_lower (str_strip (getenv name fallback))) ["1"; "true"; "yes"; "on"].

(** src/services/api/app/api/operator_auth.py:55-62 [_authorization_required] *)
Definition authorization_required : bool :=
  negb (bool_decide (str_lower (str_strip (getenv "PAYMENT_PROVIDER" "mock")) = "mock"))
  || env_enabled "RECOVERY_ALLOW_REAL_PAYMENT_ACTIONS" "false"
  || env_enabled "OPERATOR_AUTH_REQUIRED" "false".

(** src/services/api/app/api/operator_auth.py:65-78 [_configured_credential] *)
Definition configured_credential (required : bool) : result string :=
  let configured := str_strip (getenv "OPERATOR_DEMO_TOKEN" "") in
  if negb (bool_decide (configured = "")) then
    _ ← raise_if (required && mem configured ["change-me-locally"; "recovery-demo"])
          (operator_auth_not_configured
             ("A non-default server-side operator credential is required before enabling " +++ "real payment actions."));
    mret configured
  else
    _ ← raise_if required
          (operator_auth_not_configured
             "A server-side operator credential is required before enabling real payment actions.");
    mret "recovery-demo".

(** src/services/api/app/api/operator_auth.py:81-93 [_session_secret] *)
Definition session_secret (required : bool) : result string :=
  let configured := str_strip (getenv "OPERATOR_SESSION_SECRET" "") in
  if negb (bool_decide (configured = "")) then
    _ ← raise_if (required && bool_decide (configured = "recoveryos-local-session-v1"))
          (operator_auth_not_configured
             "A non-default OPERATOR_SESSION_SECRET is required for real payment actions.");
    mret configured
  else
    _ ← raise_if required
          (operator_auth_not_configured
             "OPERATOR_SESSION_SECRET is required before enabling real payment actions.");
    mret "recoveryos-local-session-v1".

(** src/services/api/app/api/operator_auth.py:96-120 [_cookie_policy]: whether the cookie is
    secure, and its same-site mode. *)
Definition cookie_policy : result (bool * string) :=
  let app_env := str_lower (str_strip (getenv "APP_ENV" "development")) in
  let hosted := mem app_env ["staging"; "production"] in
  let secure := env_enabled "OPERATOR_COOKIE_SECURE" (if hosted then "true" else "false") in
  let same_site := str_lower (str_strip (getenv "OPERATOR_COOKIE_SAMESITE" "lax")) in
  _ ← raise_if (negb (mem same_site ["lax"; "strict"; "none"]))
        (operator_auth_not_configured "OPERATOR_COOKIE_SAMESITE must be one of lax, strict, or none.");
  _ ← raise_if (hosted && negb secure)
        (operator_auth_not_configured "Hosted operator sessions require OPERATOR_COOKIE_SECURE=true.");
  _ ← raise_if (bool_decide (same_site = "none") && negb secure)
        (operator_auth_not_configured "OPERATOR_COOKIE_SAMESITE=none requires OPERATOR_COOKIE_SECURE=true.");
  mret (secure, same_site).

(** ** Sessions *)

(** The code of HMAC-SHA-256 by key and message, and [json.loads]. *)
Context (hmac_sha256 : string -> string -> string) (json_loads : string -> result json)
        (casefold : string -> string).

(** src/services/api/app/api/operator_auth.py:127-128 [_decode] *)
Definition decode_segment (value : string) : result string := urlsafe_b64decode (value +++ padding_of value).

(** src/services/api/app/api/operator_auth.py:131-134 [_sign_session] *)
Definition sign_session (payload : json) (secret : string) : string :=
  let encoded := b64_encode (dumps (fun _ => EmptyString) payload) in
  encoded +++ "." +++ b64_encode (hmac_sha256 secret encoded).

(** src/services/api/app/api/operator_auth.py:138-152 [_verify_session]: the body of its [try],
    at the time [now]. *)
Definition read_session (token secret : string) (now : Z) : result (option json) :=
  '(encoded, supplied_signature) ← from_option (ValueError "not enough values to unpack") (split_first "." token);
  _ ← raise_if (negb (is_ascii encoded)) (ValueError "ascii");
  let expected := hmac_sha256 secret encoded in
  signature ← decode_segment supplied_signature;
  if negb (bool_decide (signature = expected)) then mret None else
  text ← decode_segment encoded;
  payload ← json_loads text;
  if negb (is_dict payload) then mret None else
  if negb (match json_get "sub" payload with JStr s => bool_decide (s = "demo-operator") | _ => false end) then mret None else
  match json_get "csrf" payload, int_value (json_get "exp" payload) with
  | JStr _, Some exp => mret (if exp <=? now then None else Some payload)
  | _, _ => mret None
  end.

(** src/services/api/app/api/operator_auth.py:137-154 [_verify_session] *)
Definition verify_session (token secret : string) (now : Z) : result (option json) :=
  match read_session token secret now with
  | Err (ValueError _ | TypeError _) => Ok None
  | r => r
  end.

(** src/services/api/app/api/operator_auth.py:45-48 [OperatorSessionResponse] *)
Record OperatorSessionResponse : Type := {
  osr_operator : string;
  osr_csrf_token : string;
  osr_expires_at_epoch : Z;
}.
(** The cookie a response sets. *)
Record session_cookie : Type := {
  sc_value : string;
  sc_max_age : Z;
  sc_httponly : bool;
  sc_secure : bool;
  sc_samesite : string;
}.

Definition session_payload (csrf_token : string) (expires_at : Z) : json := JObj [
  ("sub", JStr "demo-operator"); ("csrf", JStr csrf_token); ("exp", JInt expires_at)].

(** src/services/api/app/api/operator_auth.py:157-192 [create_operator_session]: [csrf_token] is
    the reading of [secrets.token_urlsafe(32)]. *)
Definition create_operator_session (email password csrf_token : string) (now : Z)
  : result (OperatorSessionResponse * session_cookie) :=
  let required := authorization_required in
  let expected_email := casefold (str_strip (getenv "OPERATOR_DEMO_EMAIL" "demo@recoveryos.dev")) in
  expected_credential ← configured_credential required;
  same_email ← compare_digest (casefold (str_strip email)) expected_email;
  same_password ← (if same_email : bool then compare_digest password expected_credential else mret false);
  _ ← raise_if (negb same_password) (operator_auth_required "The operator credentials are invalid.");
  let ttl_seconds := 8 * 60 * 60 in
  let expires_at := now + ttl_seconds in
  secret ← session_secret required;
  let token := sign_session (session_payload csrf_token expires_at) secret in
  '(secure, same_site) ← cookie_policy;
  mret ({| osr_operator := "demo-operator"; osr_csrf_token := csrf_token; osr_expires_at_epoch := expires_at |},
        {| sc_value := token; sc_max_age := ttl_seconds; sc_httponly := true; sc_secure := secure;
           sc_samesite := same_site |}).

(** src/services/api/app/api/operator_auth.py:195-235 [require_operator_for_non_mock_payment] *)
Definition require_operator (operator_token csrf_token operator_session : option string) (now : Z) : result unit :=
  if negb authorization_required then mret tt else
  expected_credential ← configured_credential true;
  by_token ← (match operator_token with
              | Some token => compare_digest token expected_credential
              | None => mret false
              end);
  if by_token : bool then mret tt else
  by_session ← (match operator_session with
                | Some session =>
                    secret ← session_secret true;
                    payload ← verify_session session secret now;
                    match payload, csrf_token with
                    | Some payload, Some supplied =>
                        match json_get "csrf" payload with
                        | JStr expected => compare_digest supplied expected
                        | _ => mret false
                        end
                    | _, _ => mret false
                    end
                | None => mret false
                end);
  raise_if (negb by_session)
    (operator_auth_required "A valid operator session is required for non-mock payment actions.").
End environment.

(** ** What the guard accepts *)

Lemma split_first_spec sep s before after : split_first sep s = Some (before, after) -> s = before +++ String sep after.
Proof.
  revert before. induction s as [|c s IH]; intros before; cbn; [done|].
  destruct (Ascii.eqb c sep) eqn:E.
  - apply Ascii.eqb_eq in E as ->. by intros [= <- <-].
  - destruct (split_first sep s) as [[b a]|]; cbn; [|done]. intros [= <- ->]. by rewrite (IH b eq_refl).
Qed.
Lemma all_chars_impl (p q : ascii -> bool) s : (forall c, p c = true -> q c = true) ->
  all_chars p s = true -> all_chars q s = true.
Proof. intros H. induction s as [|c s IH]; cbn; [done|]. rewrite !andb_true_iff. intros [? ?]. auto. Qed.
Lemma split_first_app sep s after : all_chars (fun c => negb (Ascii.eqb c sep)) s = true ->
  split_first sep (s +++ String sep after) = Some (s, after).
Proof.
  induction s as [|c s IH].
  - intros _. change (EmptyString +++ String sep after) with (String sep after). cbn. by rewrite Ascii.eqb_refl.
  - cbn. intros [Hc Hs]%andb_true_iff. change (String c s +++ String sep after) with (String c (s +++ String sep after)).
    cbn. apply negb_true_iff in Hc. by rewrite Hc, (IH Hs).
Qed.

Section guard.
Context (env : string -> option string) (hmac_sha256 : string -> string -> string)
  (json_loads : string -> result json) (casefold : string -> string).

(** The credential and the secret that are usable where authorization is required. *)
Definition usable_credential (c : string) : Prop :=
  c = str_strip (getenv env "OPERATOR_DEMO_TOKEN" "") /\ c <> "" /\ c <> "change-me-locally" /\ c <> "recovery-demo".
Definition usable_secret (k : string) : Prop :=
  k = str_strip (getenv env "OPERATOR_SESSION_SECRET" "") /\ k <> "" /\ k <> "recoveryos-local-session-v1".

Lemma credential_exact c : configured_credential env true = Ok c <-> usable_credential c.
Proof.
  unfold configured_credential, usable_credential. set (k := str_strip _). cbn [mem existsb].
  destruct (bool_decide (k = "")) eqn:E; cbn; [apply bool_decide_eq_true in E|apply bool_decide_eq_false in E].
  - split; [done|]. intros (-> & ? & _). congruence.
  - destruct (mem k _) eqn:Em; cbn.
    + split; [done|]. intros (-> & _ & H1 & H2). unfold mem in Em. apply bool_decide_eq_true in Em. set_solver.
    + unfold mem in Em. apply bool_decide_eq_false in Em. split; [intros [= <-]|naive_solver].
      split; [done|]. split; [done|]. set_solver.
Qed.
Lemma secret_exact k : session_secret env true = Ok k <-> usable_secret k.
Proof.
  unfold session_secret, usable_secret. set (s := str_strip _).
  destruct (bool_decide (s = "")) eqn:E; cbn; [apply bool_decide_eq_true in E|apply bool_decide_eq_false in E].
  - split; [done|]. intros (-> & ? & _). congruence.
  - destruct (bool_decide (s = "recoveryos-local-session-v1")) eqn:Em; cbn.
    + apply bool_decide_eq_true in Em. split; [done|]. intros (-> & _ & ?). congruence.
    + apply bool_decide_eq_false in Em. split; [by intros [= <-]|by intros (-> & _)].
Qed.

(** A session signed with the secret, of the operator and not expired. *)
Definition signed_session (secret : string) (now : Z) (session csrf : string) : Prop :=
  exists encoded signature payload exp,
    split_first "." session = Some (encoded, signature) /\ is_ascii encoded = true
    /\ decode_segment signature = Ok (hmac_sha256 secret encoded)
    /\ (text ← decode_segment encoded; json_loads text) = Ok payload /\ is_dict payload = true
    /\ json_get "sub" payload = JStr "demo-operator" /\ json_get "csrf" payload = JStr csrf
    /\ int_value (json_get "exp" payload) = Some exp /\ now < exp.

Lemma verify_session_exact secret now session csrf :
  (exists payload, verify_session hmac_sha256 json_loads session secret now = Ok (Some payload)
     /\ json_get "csrf" payload = JStr csrf) <-> signed_session secret now session csrf.
Proof.
  split.
  - intros (payload & Hv & Hc). unfold verify_session in Hv.
    destruct (read_session _ _ session secret now) as [o|e] eqn:E; [injection Hv as ->|by destruct e].
    unfold read_session in E. simp_res. destruct x as [encoded signature]. simp_res. bools.
    destruct (bool_decide _) eqn:Es; cbn in *; [|simp_res]. bools. subst.
    repeat (match goal with H : _ ≫= _ = Ok _ |- _ => apply bind_Ok in H as (? & ? & ?) end).
    repeat match goal with H : (if ?b then _ else _) = Ok _ |- _ => destruct b eqn:?; [simp_res|] end. bools.
    repeat case_match; simp_res; try done. bools.
    exists encoded, signature, payload. eexists. do 3 (split; [eassumption|]).
    split; [apply bind_Ok; eauto|]. split; [done|]. split; [congruence|]. split; [congruence|]. split; eassumption.
  - intros (encoded & signature & payload & exp & H1 & H2 & H3 & (text & H4 & H5)%bind_Ok & H6 & H7 & H8 & H9 & H10).
    exists payload. split; [|done]. unfold verify_session, read_session.
    rewrite H1. cbn [from_option mbind result_bind]. rewrite H2, H3. cbn. rewrite bool_decide_eq_true_2 by done. cbn.
    rewrite H4. cbn. rewrite H5. cbn. rewrite H6. cbn. rewrite H7, H8, H9. cbn. rewrite bool_decide_eq_true_2 by done. cbn.
    by rewrite (proj2 (Z.leb_gt _ _) H10).
Qed.

Lemma compare_digest_true a b : compare_digest a b = Ok true <-> a = b /\ is_ascii b = true.
Proof.
  unfold compare_digest. destruct (is_ascii a) eqn:Ea, (is_ascii b) eqn:Eb; cbn; try (split; [done|intros [-> ?]; congruence]).
  split; [intros [= ?%bool_decide_eq_true]; done|]. intros [-> _]. by rewrite bool_decide_eq_true_2.
Qed.

Lemma compare_digest_false a b :
  compare_digest a b = Ok false <-> a <> b /\ is_ascii a = true /\ is_ascii b = true.
Proof.
  unfold compare_digest. destruct (is_ascii a) eqn:Ea, (is_ascii b) eqn:Eb; cbn; try (split; [done|intros (_ & ? & ?); congruence]).
  split; [intros [= ?%bool_decide_eq_false]; done|]. intros (? & _ & _). by rewrite bool_decide_eq_false_2.
Qed.

(** The token header says nothing, or something else in ASCII. *)
Definition token_differs (operator_token : option string) (c : string) : Prop :=
  forall t, operator_token = Some t -> t <> c /\ is_ascii t = true /\ is_ascii c = true.


(** a header in the guard's hands that is not ASCII ends the request with a [TypeError],
    which no handler turns into a refusal: the guard compares [str] values with
    [hmac.compare_digest].  The login does the same with the password. *)
Theorem non_ascii_credentials_crash c token csrf_token operator_session now email csrf_reading :
  authorization_required env = true -> usable_credential c -> is_ascii token = false ->
  casefold (str_strip email) = casefold (str_strip (getenv env "OPERATOR_DEMO_EMAIL" "demo@recoveryos.dev")) ->
  is_ascii (casefold (str_strip email)) = true ->
  exists msg,
    require_operator env hmac_sha256 json_loads (Some token) csrf_token operator_session now = Err (TypeError msg) /\
    create_operator_session env hmac_sha256 casefold email token csrf_reading now = Err (TypeError msg).
Proof.
  intros Hreq Hc%credential_exact Ht Hemail Ha. eexists. unfold require_operator, create_operator_session.
  rewrite Hreq, Hc. cbn [negb mbind result_bind].
  rewrite <- Hemail, (proj2 (compare_digest_true (casefold (str_strip email)) _) (conj eq_refl Ha)).
  cbn [mbind result_bind]. unfold compare_digest. by rewrite Ht.
Qed.

(** ** Sessions issued *)

Lemma sign_verify csrf exp secret now :
  json_loads (dumps (fun _ => EmptyString) (session_payload csrf exp)) = Ok (session_payload csrf exp) ->
  verify_session hmac_sha256 json_loads (sign_session hmac_sha256 (session_payload csrf exp) secret) secret now
  = Ok (if exp <=? now then None else Some (session_payload csrf exp)).
Proof.
  intros Hl. unfold verify_session, read_session, sign_session. set (encoded := b64_encode (dumps _ _)).
  change ("." +++ b64_encode (hmac_sha256 secret encoded))%string with (String "." (b64_encode (hmac_sha256 secret encoded))).
  rewrite (split_first_app "."%char encoded).
  2: { unfold encoded. eapply all_chars_impl; [|apply b64_encode_safe]. intros a. by destruct a as [[] [] [] [] [] [] [] []]. }
  cbn [from_option mbind result_bind]. assert (is_ascii encoded = true) as -> by apply b64_encode_ascii. unfold decode_segment.
  rewrite urlsafe_roundtrip. cbn [negb raise_if mbind result_bind]. rewrite bool_decide_eq_true_2 by done.
  unfold encoded. rewrite urlsafe_roundtrip. cbn [negb mbind result_bind]. rewrite Hl. cbn. decide_eqs. cbn. by destruct (exp <=? now).
Qed.

(** C32: the session a login issues opens the guard with the CSRF token of the answer for
    eight hours and not a second longer, and never with another CSRF token; a hosted
    deployment only ever issues it in a secure cookie.  [json.loads] reads the payload back. *)
Theorem session_lifetime email password csrf t0 response cookie :
  create_operator_session env hmac_sha256 casefold email password csrf t0 = Ok (response, cookie) ->
  authorization_required env = true -> is_ascii csrf = true ->
  json_loads (dumps (fun _ => EmptyString) (session_payload csrf (t0 + 28800))) = Ok (session_payload csrf (t0 + 28800)) ->
  (forall now supplied, is_ascii supplied = true ->
     require_operator env hmac_sha256 json_loads None (Some supplied) (Some (sc_value cookie)) now
     = if (now <? t0 + 28800) && bool_decide (supplied = csrf) then Ok tt
       else Err (operator_auth_required "A valid operator session is required for non-mock payment actions.")) /\
  osr_csrf_token response = csrf /\ osr_expires_at_epoch response = t0 + 28800 /\ sc_httponly cookie = true /\
  (mem (str_lower (str_strip (getenv env "APP_ENV" "development"))) ["staging"; "production"] = true -> sc_secure cookie = true).
Proof.
  intros Hlogin Hreq Ha Hl. unfold create_operator_session in Hlogin. rewrite Hreq in Hlogin.
  change (8 * 60 * 60) with 28800 in Hlogin.
  apply bind_Ok in Hlogin as (c & Hc & Hlogin). apply bind_Ok in Hlogin as (se & _ & Hlogin).
  apply bind_Ok in Hlogin as (sp & _ & Hlogin). apply bind_Ok in Hlogin as (u & _ & Hlogin).
  apply bind_Ok in Hlogin as (secret & Hk & Hlogin). apply bind_Ok in Hlogin as ([secure same_site] & Hp & [= <- <-]).
  cbn [sc_value osr_csrf_token osr_expires_at_epoch sc_httponly sc_secure].
  split; [|split; [done|split; [done|split; [done|]]]].
  - intros now supplied Hs. unfold require_operator. rewrite Hreq, Hc. cbn. rewrite Hk. cbn.
    rewrite sign_verify by done. cbn [mbind result_bind].
    destruct (t0 + 28800 <=? now) eqn:Et; [apply Z.leb_le in Et|apply Z.leb_gt in Et].
    + assert ((now <? t0 + 28800) = false) as -> by lia. done.
    + assert ((now <? t0 + 28800) = true) as -> by lia. cbn. decide_eqs. cbn. unfold compare_digest. rewrite Hs, Ha. cbn. by destruct (bool_decide _).
  - intros Hh. unfold cookie_policy in Hp. rewrite Hh in Hp. cbn [andb] in Hp.
    apply bind_Ok in Hp as (? & _ & (? & Hsec%raise_if_Ok & (? & _ & [= <- _])%bind_Ok)%bind_Ok).
    by apply negb_false_iff.
Qed.
End guard.

(** ** A sample *)

Definition operator_env (name : string) : option string :=
  snd <$> List.find (fun kv => bool_decide (kv.1 = name)) [("PAYMENT_PROVIDER", "razorpay"); ("OPERATOR_DEMO_TOKEN", " credential "); ("APP_ENV", "production");
                  ("OPERATOR_SESSION_SECRET", "key")].
(** A code, and a reader of the one payload signed. *)
Definition operator_hmac (key message : string) : string := key +++ message.
Definition operator_payload : json := session_payload "csrf" 28800.
Definition operator_loads (text : string) : result json :=
  if bool_decide (text = dumps (fun _ => EmptyString) operator_payload) then Ok operator_payload
  else Err (ValueError "Expecting value").

Lemma session_lifetime_witness : exists response cookie,
  create_operator_session operator_env operator_hmac (fun s => s) " demo@recoveryos.dev" "credential" "csrf" 0
  = Ok (response, cookie) /\
  require_operator operator_env operator_hmac operator_loads None (Some "csrf") (Some (sc_value cookie)) 28799 = Ok tt /\
  require_operator operator_env operator_hmac operator_loads None (Some "csrf") (Some (sc_value cookie)) 28800
  = Err (operator_auth_required "A valid operator session is required for non-mock payment actions.") /\
  sc_secure cookie = true.
Proof.
  eexists _, _. split; [vm_compute; reflexivity|].
  edestruct (session_lifetime operator_env operator_hmac operator_loads (fun s => s) " demo@recoveryos.dev" "credential"
               "csrf" 0) as (Hr & _ & _ & _ & Hs); [vm_compute; reflexivity|reflexivity|reflexivity|vm_compute; reflexivity|].
  split; [by rewrite (Hr 28799 "csrf" eq_refl)|]. split; [by rewrite (Hr 28800 "csrf" eq_refl)|]. by apply Hs.
Defined.

Definition latin_token : string := String (ascii_of_N 195) (String (ascii_of_N 169) EmptyString).
Lemma non_ascii_credentials_crash_witness : exists msg,
  require_operator operator_env operator_hmac operator_loads (Some latin_token) None None 0 = Err (TypeError msg) /\
  create_operator_session operator_env operator_hmac (fun s => s) "demo@recoveryos.dev" latin_token "csrf" 0 = Err (TypeError msg).
Proof.
  apply (non_ascii_credentials_crash operator_env operator_hmac operator_loads (fun s => s) "credential" latin_token None None 0
           "demo@recoveryos.dev" "csrf"); [reflexivity| |reflexivity|reflexivity|reflexivity].
  split; [reflexivity|]. split; [discriminate|]. split; discriminate.
Defined.
