(* ===== verification/Inbox.v ===== *)
(** * Webhook ingestion

    [services/api/app/webhooks/razorpay.py] and [webhooks/repository.py]: the signature
    check, and the atomic insertion of a webhook receipt and its dispatch intent. *)
From S2P Require Import Prelude Domain Json Razorpay Entities Session.

(** src/services/api/app/integrations/razorpay/models.py:46-48 [RazorpayOutboxPayload] *)
Record RazorpayOutboxPayload : Type := {
  op_merchant_id : string;
  op_event : NormalizedRazorpayEvent;
}.

(** src/services/api/app/webhooks/repository.py:20-24 [InboxOutboxWrite] *)
Record InboxOutboxWrite : Type := {
  iw_inbox_id : string;
  iw_outbox_id : string;
  iw_duplicate : bool;
}.

(** src/services/api/app/webhooks/razorpay.py:18-27 [WebhookIngestionReceipt] *)
Record WebhookIngestionReceipt : Type := {
  wr_provider_event_id : string;
  wr_inbox_id : string;
  wr_outbox_id : string;
  wr_accepted : bool;
  wr_duplicate : bool;
  wr_acknowledge_elapsed_ms : Q;
  wr_acknowledge_within_sla : bool;
}.

Section ingestion.
(** SHA-256 and its keyed MAC in hexadecimal, [orjson.loads], the dump of the outbox
    payload, the identifier supply and the server clock of the defaults. *)
Context (sha256_hex : string -> string) (hmac_sha256_hex : string -> string -> string)
        (orjson_loads : string -> option json)
        (model_dump : RazorpayOutboxPayload -> json)
        (new_id : nat -> string) (utc_now : nat -> Z).
Abbreviation M := (stx (session unit)).

(** src/services/api/app/integrations/razorpay/signature.py:11-16 [webhook_signature] *)
Definition webhook_signature (raw_body secret : string) : result string :=
  _ ← raise_if (bool_decide (secret = "")) (ValueError "webhook secret must not be empty");
  mret (hmac_sha256_hex secret raw_body).

(** src/services/api/app/integrations/razorpay/signature.py:19-26 [verify_webhook_signature] *)
Definition verify_webhook_signature (raw_body received_signature secret : string) : result unit :=
  let invalid := RazorpayContractError "RAZORPAY_WEBHOOK_SIGNATURE_INVALID"
                   "The Razorpay webhook signature is invalid." in
  _ ← raise_if (bool_decide (received_signature = "") || bool_decide (secret = "")) invalid;
  expected ← webhook_signature raw_body secret;
  raise_if (negb (bool_decide (expected = str_lower (str_strip received_signature)))) invalid.

(** src/services/api/app/webhooks/repository.py:47-49 [InboxOutboxStore._event_digest] *)
Definition event_digest (merchant_id provider_event_id : string) : string :=
  sha256_hex (merchant_id +++ ":" +++ provider_event_id).
Definition outbox_key (merchant_id provider_event_id : string) : string :=
  ("razorpay:" +++ event_digest merchant_id provider_event_id)%string.

(** The inbox rows of one provider delivery. *)
Definition is_delivery (merchant_id provider_event_id : string) (i : WebhookInboxEntry) : bool :=
  bool_decide (inb_merchant_id i = merchant_id) && bool_decide (inb_provider i = "razorpay")
  && bool_decide (inb_provider_event_id i = provider_event_id).

(** src/services/api/app/webhooks/repository.py:33-45 [InboxOutboxStore._find_existing] *)
Definition find_existing (merchant_id provider_event_id : string) : M (option WebhookInboxEntry) :=
  query (fun d => row_where (is_delivery merchant_id provider_event_id) (db_inbox d)).

(** src/services/api/app/webhooks/repository.py:51-60 [InboxOutboxStore._find_outbox] *)
Definition find_outbox (merchant_id provider_event_id : string) : M (option OutboxMessage) :=
  query (fun d => row_where
    (fun o => bool_decide (out_deduplication_key o = outbox_key merchant_id provider_event_id))
    (db_outbox d)).

(** src/services/api/app/webhooks/repository.py:79-86 [InboxOutboxStore.persist] *)
Definition inbox_row (id merchant_id : string) (event : NormalizedRazorpayEvent) (occurred_at : Z)
  : WebhookInboxEntry :=
  {| inb_id := id; inb_merchant_id := merchant_id; inb_provider := "razorpay";
     inb_provider_event_id := ne_provider_event_id event; inb_event_type := ne_event_type event;
     inb_payload := ne_provider_payload event; inb_occurred_at := Some occurred_at;
     inb_processed_at := None; inb_processing_error_code := None |}.

(** src/services/api/app/webhooks/repository.py:87-99 [InboxOutboxStore.persist] *)
Definition outbox_row (id merchant_id : string) (event : NormalizedRazorpayEvent) (now : Z)
  : OutboxMessage :=
  {| out_id := id; out_aggregate_type := "razorpay_webhook";
     out_aggregate_id := event_digest merchant_id (ne_provider_event_id event);
     out_event_type := "RAZORPAY_WEBHOOK_RECEIVED";
     out_payload := model_dump {| op_merchant_id := merchant_id; op_event := event |};
     out_deduplication_key := outbox_key merchant_id (ne_provider_event_id event);
     out_available_at := now; out_published_at := None; out_attempt_count := 0;
     out_last_error_code := None; out_created_at := now |}.

(** src/services/api/app/webhooks/repository.py:100-102 [InboxOutboxStore.persist] *)
Definition insert_pair (i : WebhookInboxEntry) (o : OutboxMessage) (d : Db) : Db :=
  d <| db_inbox ::= fun l => (l ++ [i])%list |> <| db_outbox ::= fun l => (l ++ [o])%list |>.

(** src/services/api/app/webhooks/repository.py:100-116 [InboxOutboxStore.persist]: the
    commit of the pair, or the pair of the request that won the race.  [rival] is what
    other requests commit between the lookup and this commit. *)
Definition commit_pair (rival : Db -> Db) (merchant_id event_id : string)
    (inbox : WebhookInboxEntry) (outbox : OutboxMessage) : M InboxOutboxWrite := fun s =>
  match commit_racing rival (insert_pair inbox outbox) s with
  | (Ok _, s') =>
      (Ok {| iw_inbox_id := inb_id inbox; iw_outbox_id := out_id outbox; iw_duplicate := false |}, s')
  | (Err (IntegrityError c), s') =>
      (_ ← rollback;
       existing ← find_existing merchant_id event_id;
       outbox ← find_outbox merchant_id event_id;
       match existing, outbox with
       | Some existing, Some outbox =>
           mret {| iw_inbox_id := inb_id existing; iw_outbox_id := out_id outbox;
                   iw_duplicate := true |}
       | _, _ => raise (IntegrityError c)
       end) s'
  | (Err e, s') => (Err e, s')
  end.

(** src/services/api/app/webhooks/repository.py:62-116 [InboxOutboxStore.persist] *)
Definition persist (rival : Db -> Db) (merchant_id : string) (event : NormalizedRazorpayEvent)
  : M InboxOutboxWrite :=
  let event_id := ne_provider_event_id event in
  existing ← find_existing merchant_id event_id;
  match existing with
  | Some existing =>
      outbox ← find_outbox merchant_id event_id;
      match outbox with
      | None => raise (RuntimeError "webhook inbox exists without its atomic outbox message")
      | Some outbox =>
          mret {| iw_inbox_id := inb_id existing; iw_outbox_id := out_id outbox;
                  iw_duplicate := true |}
      end
  | None =>
      occurred_at ← lift (bind_utc (ne_occurred_at event));
      inbox_id ← reading new_id;
      outbox_id ← reading new_id;
      now ← reading utc_now;
      commit_pair rival merchant_id event_id
        (inbox_row inbox_id merchant_id event occurred_at)
        (outbox_row outbox_id merchant_id event now)
  end.

(** src/services/api/app/webhooks/razorpay.py:44-79 [RazorpayWebhookIngestionService.ingest]:
    [elapsed] is the difference of the two [perf_counter] readings. *)
Definition ingest (rival : Db -> Db) (acknowledge_deadline_seconds elapsed : Q)
    (merchant_id raw_body signature provider_event_id webhook_secret : string)
  : M WebhookIngestionReceipt :=
  _ ← lift (verify_webhook_signature raw_body signature webhook_secret);
  decoded ← lift (from_option (RazorpayContractError "RAZORPAY_WEBHOOK_JSON_INVALID"
                                 "Webhook body is not valid JSON.") (orjson_loads raw_body));
  _ ← guard_ (negb (is_dict decoded))
        (RazorpayContractError "RAZORPAY_WEBHOOK_JSON_INVALID"
           "Webhook body must be a JSON object.");
  event ← lift (normalize_webhook (str_strip provider_event_id) decoded);
  write ← persist rival merchant_id event;
  mret {| wr_provider_event_id := ne_provider_event_id event;
          wr_inbox_id := iw_inbox_id write; wr_outbox_id := iw_outbox_id write;
          wr_accepted := true; wr_duplicate := iw_duplicate write;
          wr_acknowledge_elapsed_ms := elapsed * 1000;
          wr_acknowledge_within_sla := Qle_bool elapsed acknowledge_deadline_seconds |}.

(** src/services/api/app/webhooks/razorpay.py:33-42 [RazorpayWebhookIngestionService.__init__] *)
Definition ingestion_init (acknowledge_deadline_seconds : Q) : result Q :=
  _ ← raise_if (Qle_bool acknowledge_deadline_seconds 0
                || negb (Qle_bool acknowledge_deadline_seconds 5))
        (ValueError "acknowledge deadline must be in (0, 5] seconds");
  mret acknowledge_deadline_seconds.
End ingestion.

(** ** A delivery is recorded once *)

Section once.
Context (sha256_hex : string -> string).
Abbreviation outbox_key := (outbox_key sha256_hex).

(** Every receipt has its dispatch intent. *)
Definition paired (d : Db) : Prop :=
  forall i, i ∈ db_inbox d -> inb_provider i = "razorpay" ->
    exists o, o ∈ db_outbox d /\
      out_deduplication_key o = outbox_key (inb_merchant_id i) (inb_provider_event_id i).

Record inbox_wf (d : Db) : Prop := {
  wf_consistent : consistent d;
  wf_paired : paired d;
}.

(** The one receipt and the one intent of a delivery, by identifier. *)
Definition recorded (m event_id : string) (inbox_id outbox_id : string) (d : Db) : Prop :=
  exists i o,
    i ∈ db_inbox d /\ is_delivery m event_id i = true /\ inb_id i = inbox_id /\
    o ∈ db_outbox d /\ out_deduplication_key o = outbox_key m event_id /\ out_id o = outbox_id /\
    (forall i', i' ∈ db_inbox d -> is_delivery m event_id i' = true -> i' = i) /\
    (forall o', o' ∈ db_outbox d -> out_deduplication_key o' = outbox_key m event_id -> o' = o).

Lemma delivery_key m event_id i :
  is_delivery m event_id i = true <->
  Some (inb_merchant_id i, inb_provider i, inb_provider_event_id i) = Some (m, "razorpay", event_id).
Proof.
  unfold is_delivery. rewrite !andb_true_iff, !bool_decide_eq_true.
  split; [by intros [[-> ->] ->]|by intros [= -> -> ->]].
Qed.

Lemma consistent_inbox d i i' m event_id :
  consistent d -> i ∈ db_inbox d -> i' ∈ db_inbox d ->
  is_delivery m event_id i = true -> is_delivery m event_id i' = true -> i' = i.
Proof.
  intros Hc Hi Hi' H%delivery_key H'%delivery_key.
  refine (unique_on_spec (fun i => Some (inb_merchant_id i, inb_provider i, inb_provider_event_id i))
            (db_inbox d) i' i _ _ Hi' Hi H' H).
  by constraint d "webhook_provider_event".
Qed.

Lemma consistent_outbox d o o' key :
  consistent d -> o ∈ db_outbox d -> o' ∈ db_outbox d ->
  out_deduplication_key o = key -> out_deduplication_key o' = key -> o' = o.
Proof.
  intros Hc Ho Ho' <- H'.
  refine (unique_on_spec (fun o => Some (out_deduplication_key o)) (db_outbox d) o' o
            (out_deduplication_key o) _ Ho' Ho _ eq_refl); [|by rewrite H'].
  by constraint d "outbox_messages_deduplication_key".
Qed.

Lemma recorded_intro m event_id i o d :
  consistent d -> i ∈ db_inbox d -> is_delivery m event_id i = true ->
  o ∈ db_outbox d -> out_deduplication_key o = outbox_key m event_id ->
  recorded m event_id (inb_id i) (out_id o) d.
Proof.
  intros Hc Hi Hd Ho Hk. exists i, o. repeat (split; [done|]). split.
  - intros i' Hi' Hd'. by eapply consistent_inbox.
  - intros o' Ho' Hk'. by eapply consistent_outbox.
Qed.

Lemma find_existing_run (s : session unit) m event_id :
  consistent (ses_db s) ->
  find_existing m event_id s
    = (Ok (row_where (is_delivery m event_id) (db_inbox (ses_db s))), s).
Proof. intros Hc. unfold find_existing, query, flush. stx_unfold. by rewrite Hc. Qed.

Lemma find_outbox_run (s : session unit) m event_id :
  consistent (ses_db s) ->
  find_outbox sha256_hex m event_id s
    = (Ok (row_where (fun o => bool_decide (out_deduplication_key o = outbox_key m event_id))
             (db_outbox (ses_db s))), s).
Proof. intros Hc. unfold find_outbox, query, flush. stx_unfold. by rewrite Hc. Qed.

(** A receipt found in a well-formed inbox has its recorded pair. *)
Lemma found_recorded d m event_id i :
  inbox_wf d -> row_where (is_delivery m event_id) (db_inbox d) = Some i ->
  exists o, row_where (fun o => bool_decide (out_deduplication_key o = outbox_key m event_id))
              (db_outbox d) = Some o /\ recorded m event_id (inb_id i) (out_id o) d.
Proof.
  intros [Hc Hp] [Hi Hd]%row_where_Some. pose proof (proj1 (delivery_key _ _ _) Hd) as [= Hm Hr He].
  destruct (Hp i Hi Hr) as (o & Ho & Hk). rewrite Hm, He in Hk.
  destruct (row_where _ (db_outbox d)) as [o'|] eqn:E.
  - apply row_where_Some in E as [Ho' Hk'%bool_decide_eq_true].
    exists o'. split; [done|]. by apply recorded_intro.
  - apply (row_where_None _ _ o) in E; [|done]. by apply bool_decide_eq_false in E.
Qed.

Lemma insert_pair_wf d m event_id i o :
  inbox_wf d -> consistent (insert_pair i o d) -> is_delivery m event_id i = true ->
  out_deduplication_key o = outbox_key m event_id ->
  inbox_wf (insert_pair i o d) /\
  recorded m event_id (inb_id i) (out_id o) (insert_pair i o d).
Proof.
  intros [_ Hp] Hc Hd Hk. pose proof (proj1 (delivery_key _ _ _) Hd) as [= Hm Hr He]. split.
  - split; [done|]. intros i'. cbn. rewrite elem_of_app, list_elem_of_singleton.
    setoid_rewrite elem_of_app. setoid_rewrite list_elem_of_singleton.
    intros [Hi'| ->] Hr'.
    + destruct (Hp i' Hi' Hr') as (o' & Ho' & Hk'). eauto.
    + exists o. rewrite Hm, He. auto.
  - apply recorded_intro; cbn; rewrite ?elem_of_app, ?list_elem_of_singleton; auto.
Qed.

(** What one commit attempt leaves. *)
Lemma commit_pair_spec rival m event_id i o (s : session unit) r s' :
  inbox_wf (rival (ses_committed s)) -> is_delivery m event_id i = true ->
  out_deduplication_key o = outbox_key m event_id ->
  commit_pair sha256_hex rival m event_id i o s = (r, s') ->
  inbox_wf (ses_committed s') /\
  (forall w, r = Ok w -> recorded m event_id (iw_inbox_id w) (iw_outbox_id w) (ses_committed s')) /\
  ses_committed s' =
    match r with
    | Ok w => if iw_duplicate w then rival (ses_committed s)
              else insert_pair i o (rival (ses_committed s))
    | Err _ => rival (ses_committed s)
    end.
Proof.
  intros Hw Hd Hk. unfold commit_pair, commit_racing.
  set (base := rival (ses_committed s)) in *.
  destruct (violated (insert_pair i o base)) as [c|] eqn:Ev.
  - unfold rollback at 1. stx_unfold. cbn.
    rewrite find_existing_run by apply Hw. cbn.
    rewrite find_outbox_run by apply Hw. cbn.
    destruct (row_where _ (db_inbox base)) as [i'|] eqn:Ei.
    + destruct (found_recorded _ _ _ _ Hw Ei) as (o' & Ho' & Hr). rewrite Ho'.
      intros [= <- <-]. cbn. split; [done|]. split; [by intros w [= <-]|done].
    + case_match; by intros [= <- <-].
  - intros [= <- <-]. cbn. destruct (insert_pair_wf base m event_id i o) as [H1 H2]; auto.
    split; [done|]. split; [by intros w [= <-]|done].
Qed.

(** Fresh identifiers and no digest collision: the pair can be inserted. *)
Record insertable (m event_id inbox_id outbox_id : string) (d : Db) : Prop := {
  ins_inbox_id : forall i, i ∈ db_inbox d -> inb_id i <> inbox_id;
  ins_outbox_id : forall o, o ∈ db_outbox d -> out_id o <> outbox_id;
  ins_digest : forall o, o ∈ db_outbox d -> out_deduplication_key o = outbox_key m event_id ->
    exists i, i ∈ db_inbox d /\ is_delivery m event_id i = true;
}.

Lemma insert_pair_consistent m event_id i o d :
  inbox_wf d -> is_delivery m event_id i = true -> out_deduplication_key o = outbox_key m event_id ->
  insertable m event_id (inb_id i) (out_id o) d -> 0 <= out_attempt_count o ->
  row_where (is_delivery m event_id) (db_inbox d) = None ->
  consistent (insert_pair i o d).
Proof.
  intros [Hc _] Hd Hk [Hi Ho Hg] Ha Hnone. apply consistent_iff.
  apply consistent_iff in Hc. unfold constraints in *. cbn.
  repeat match goal with H : Forall _ (_ :: _) |- _ => apply Forall_cons in H as [? H] end.
  assert (forall i', i' ∈ db_inbox d -> is_delivery m event_id i' = false) as Hn.
  { intros i' Hi'. by apply (row_where_None _ _ _ Hnone). }
  repeat (apply Forall_cons; split; [try done|]); try constructor; cbn [snd].
  - apply unique_on_snoc; [done|]. intros y Hy _ [= E]. by apply (Hi y).
  - apply unique_on_snoc; [done|]. intros y Hy _. rewrite (proj1 (delivery_key _ _ _) Hd).
    intros E%delivery_key. by rewrite Hn in E.
  - apply unique_on_snoc; [done|]. intros y Hy _ [= E]. by apply (Ho y).
  - apply unique_on_snoc; [done|]. intros y Hy _ [= E]. rewrite Hk in E.
    destruct (Hg y Hy E) as (i' & Hi' & Hd'). by rewrite Hn in Hd'.
  - rewrite forallb_app. cbn. unfold check_outbox at 2. rewrite (proj2 (Z.leb_le _ _)) by done.
    by rewrite andb_true_r.
Qed.

Lemma commit_pair_total rival m event_id i o (s : session unit) :
  inbox_wf (rival (ses_committed s)) -> is_delivery m event_id i = true ->
  out_deduplication_key o = outbox_key m event_id -> 0 <= out_attempt_count o ->
  insertable m event_id (inb_id i) (out_id o) (rival (ses_committed s)) ->
  exists w s', commit_pair sha256_hex rival m event_id i o s = (Ok w, s').
Proof.
  intros Hw Hd Hk Ha Hins. unfold commit_pair, commit_racing.
  set (base := rival (ses_committed s)) in *.
  destruct (violated (insert_pair i o base)) as [c|] eqn:Ev; [|by eexists _, _].
  destruct (row_where (is_delivery m event_id) (db_inbox base)) as [i'|] eqn:Ei.
  - unfold rollback at 1. stx_unfold. cbn. rewrite find_existing_run by apply Hw. cbn.
    rewrite find_outbox_run by apply Hw. cbn.
    destruct (found_recorded _ _ _ _ Hw Ei) as (o' & Ho' & _). rewrite Ei, Ho'. by eexists _, _.
  - pose proof (insert_pair_consistent _ _ _ _ _ Hw Hd Hk Hins Ha Ei) as Hc.
    by rewrite Hc in Ev.
Qed.
End once.


Definition demo_inbox_event : NormalizedRazorpayEvent :=
  {| ne_provider_event_id := "evt_1"; ne_event_type := "payment.captured";
     ne_occurred_at := utc_datetime 5; ne_account_id := None; ne_merchant_reference := None;
     ne_case_id := None; ne_payment_id := Some "pay_1"; ne_payment_link_id := None;
     ne_invoice_id := None; ne_subscription_id := None; ne_amount_paise := None;
     ne_currency := None; ne_payment_state := PaymentState.CAPTURED;
     ne_subscription_state := SubscriptionState.UNKNOWN;
     ne_correlation_kind := INVOICE_AND_SUBSCRIPTION_FROM_PAYMENT;
     ne_requires_authoritative_fetch := true; ne_provider_payload := JNull |}.

(** The rival wins the race for the same delivery. *)
Definition demo_digest (s : string) : string := s.
Definition demo_ids (n : nat) : string := String.append "id-" (pretty n).
Definition demo_rival : Db -> Db :=
  insert_pair (inbox_row "rival-inbox" "m1" demo_inbox_event 5)
    (outbox_row demo_digest (fun _ => JNull) "rival-outbox" "m1" demo_inbox_event 7).
Definition demo_persist : result InboxOutboxWrite * session unit :=
  Eval vm_compute in
    persist demo_digest (fun _ => JNull) demo_ids (fun n => Z.of_nat n) demo_rival "m1"
      demo_inbox_event (open_session empty_db tt).

