(* ===== verification/Correlation.v ===== *)
(** * Correlation of webhook events with the recovery database

    The lookups of [services/api/app/webhooks/processor.py]: the inbox row of an outbox
    message, the case, invoice and subscription an event is about, and the invoice a
    webhook is the first to mention. *)
From S2P Require Import Prelude Domain Json Razorpay Entities Session Inbox.

(** src/services/api/app/providers/contracts.py:84-96 [InvoiceSnapshot] *)
Record InvoiceSnapshot : Type := {
  is_provider : string;
  is_invoice_id : string;
  is_subscription_id : string;
  is_amount_paise : Z;
  is_amount_paid_paise : Z;
  is_currency : string;
  is_invoice_state : string;
  is_due_at : option datetime;
  is_observed_at : datetime;
  is_authoritative : bool;
}.

(** src/services/api/app/providers/contracts.py:98-102 [InvoiceSnapshot.guard_paid_amount] *)
Definition guard_paid_amount (s : InvoiceSnapshot) : result InvoiceSnapshot :=
  _ ← raise_if (is_amount_paise s <? is_amount_paid_paise s)
        (ValueError "amount_paid_paise cannot exceed amount_paise");
  mret s.

(** src/services/api/app/webhooks/processor.py:72-83 [RazorpayDownstreamSignal] *)
Record RazorpayDownstreamSignal : Type := {
  ds_idempotency_key : string;
  ds_merchant_id : string;
  ds_provider_event_id : string;
  ds_event_type : string;
  ds_case_id : option string;
  ds_normalized_event : NormalizedRazorpayEvent;
  ds_effects : list (string * json);
}.

(** src/services/api/app/webhooks/processor.py:89-97 [OutboxProcessResult]: the status
    [PUBLISHED] or [FAILED] is [opr_published]. *)
Record OutboxProcessResult : Type := {
  opr_outbox_id : string;
  opr_published : bool;
  opr_attempt_count : Z;
  opr_provider_event_id : option string;
  opr_case_id : option string;
  opr_error_code : option string;
}.

(** src/services/api/app/webhooks/processor.py:100-104 [_Correlation] *)
Record Correlation : Type := {
  cor_subscription : option Subscription;
  cor_invoice : option Invoice;
  cor_recovery_case : option RecoveryCase;
}.

(** The variables [payload] and [case_id] of [process_next], which its handler reads, and
    the signals sent so far with the committed contents each was sent over. *)
Record processing : Type := {
  loc_payload : option RazorpayOutboxPayload;
  loc_case_id : option string;
  loc_sent : list (RazorpayDownstreamSignal * Db);
}.
#[export] Instance eta_processing : Eta processing := fun p =>
  {| loc_payload := loc_payload p; loc_case_id := loc_case_id p; loc_sent := loc_sent p |}.

Abbreviation P := (stx (session processing)).

Definition contract_error {A} (code msg : string) : P A := raise (RazorpayContractError code msg).
(** The value found, or an error. *)
Definition found {A} (o : option A) (code msg : string) : P A :=
  match o with Some a => mret a | None => contract_error code msg end.
(** [if b: raise RazorpayContractError(code, msg)] *)
Definition reject (b : bool) (code msg : string) : P unit :=
  guard_ b (RazorpayContractError code msg).

Lemma keeps_found {V A} (v : session processing -> V) (o : option A) code msg :
  keeps v (found o code msg).
Proof. by destruct o. Qed.
#[export] Hint Resolve keeps_found : keeps.

(** Assignments to a loaded row. *)
Definition save_case (c : RecoveryCase) : P unit :=
  write (fun d => d <| db_cases ::= store_row rc_id c |>).
Definition save_invoice (i : Invoice) : P unit :=
  write (fun d => d <| db_invoices ::= store_row inv_id i |>).
Definition save_subscription (s : Subscription) : P unit :=
  write (fun d => d <| db_subscriptions ::= store_row sub_id s |>).
Definition save_payment (p : PaymentAttempt) : P unit :=
  write (fun d => d <| db_payments ::= store_row pay_id p |>).
Definition save_action (a : RecoveryActionRecord) : P unit :=
  write (fun d => d <| db_actions ::= store_row act_id a |>).

Abbreviation eqs a b := (bool_decide (a = b)).

Section correlation.
(** SHA-256 in hexadecimal, and the provider's invoice lookup, when it has one; its
    answers may change from call to call. *)
Context (sha256_hex : string -> string)
        (fetch_invoice_snapshot : option (nat -> string -> string -> result InvoiceSnapshot)).

(** A provider call. *)
Definition call {A} (f : nat -> result A) : P A := r ← reading f; lift r.

(** src/services/api/app/webhooks/processor.py:631-641 [RazorpayOutboxProcessor._find_inbox] *)
Definition find_inbox (payload : RazorpayOutboxPayload) : P (option WebhookInboxEntry) :=
  query (fun d => row_where
    (is_delivery (op_merchant_id payload) (ne_provider_event_id (op_event payload))) (db_inbox d)).

(** src/services/api/app/webhooks/processor.py:643-655 [RazorpayOutboxProcessor._lock_inbox] *)
Definition lock_inbox (payload : RazorpayOutboxPayload) : P WebhookInboxEntry :=
  inbox ← find_inbox payload;
  inbox ← found inbox "RAZORPAY_INBOX_NOT_FOUND"
            "Outbox message has no matching Razorpay inbox entry.";
  _ ← reject (bool_decide (is_Some (inb_processed_at inbox))) "RAZORPAY_INBOX_ALREADY_PROCESSED"
        "Published state is inconsistent with an already processed inbox entry.";
  mret inbox.

(** src/services/api/app/webhooks/processor.py:797-800 [RazorpayOutboxProcessor._invoice_id] *)
Definition invoice_row_id (merchant_id provider_invoice_id : string) : string :=
  ("invoice_rzp_" +++ str_take 40 (sha256_hex (merchant_id +++ ":" +++ provider_invoice_id)))%string.

(** src/services/api/app/webhooks/processor.py:802-808 [RazorpayOutboxProcessor._invoice_billing_cycle_key] *)
Definition invoice_billing_cycle_key (provider_invoice_id : string) : string :=
  let value := ("razorpay:" +++ provider_invoice_id)%string in
  if Z.of_nat (String.length value) <=? 64 then value
  else ("razorpay:" +++ str_take 40 (sha256_hex provider_invoice_id))%string.

(** The subscription and the invoice of a merchant under the provider's identifiers. *)
Definition subscription_of (merchant_id provider_id : string) : P (option Subscription) :=
  query (fun d => row_where (fun s => eqs (sub_merchant_id s) merchant_id
                               && eqs (sub_provider_subscription_id s) provider_id)
                    (db_subscriptions d)).
Definition invoice_of (merchant_id provider_id : string) : P (option Invoice) :=
  query (fun d => row_where (fun i => eqs (inv_merchant_id i) merchant_id
                               && eqs (inv_provider_invoice_id i) provider_id)
                    (db_invoices d)).

(** src/services/api/app/webhooks/processor.py:880-900 [RazorpayOutboxProcessor._hydrate_webhook_invoice]:
    the row of an invoice first seen in a webhook. *)
Definition issue_invoice (merchant_id : string) (snapshot : InvoiceSnapshot)
    (subscription : Subscription) : P (Invoice * Subscription) :=
  let billing_cycle_key := invoice_billing_cycle_key (is_invoice_id snapshot) in
  due_at ← match is_due_at snapshot with
           | Some d => Some <$> lift (bind_utc d)
           | None => mret None
           end;
  let invoice := {|
    inv_id := invoice_row_id merchant_id (is_invoice_id snapshot);
    inv_merchant_id := merchant_id; inv_subscription_id := sub_id subscription;
    inv_provider_invoice_id := is_invoice_id snapshot;
    inv_billing_cycle_key := billing_cycle_key; inv_amount_paise := is_amount_paise snapshot;
    inv_amount_paid_paise := is_amount_paid_paise snapshot; inv_currency := is_currency snapshot;
    inv_invoice_state := is_invoice_state snapshot; inv_due_at := due_at |} in
  _ ← write (fun d => d <| db_invoices ::= fun l => (l ++ [invoice])%list |>);
  let subscription :=
    match sub_current_billing_cycle_key subscription with
    | None => subscription <| sub_current_billing_cycle_key := Some billing_cycle_key |>
    | Some _ => subscription
    end in
  _ ← save_subscription subscription;
  _ ← flush;
  mret (invoice, subscription).

(** src/services/api/app/webhooks/processor.py:810-900 [RazorpayOutboxProcessor._hydrate_webhook_invoice] *)
Definition hydrate_webhook_invoice (payload : RazorpayOutboxPayload) : P (Invoice * Subscription) :=
  let event := op_event payload in
  let merchant_id := op_merchant_id payload in
  match ne_invoice_id event, fetch_invoice_snapshot with
  | Some event_invoice_id, Some fetch =>
      snapshot ← call (fun n => fetch n merchant_id event_invoice_id);
      _ ← reject (negb (is_authoritative snapshot) || negb (eqs (is_provider snapshot) "razorpay")
                  || negb (eqs (is_invoice_id snapshot) event_invoice_id))
            "RAZORPAY_INVOICE_FETCH_UNTRUSTED"
            "Provider lookup did not authoritatively confirm the webhook invoice.";
      _ ← reject (truthy (ne_subscription_id event)
                  && negb (eqs (ne_subscription_id event) (Some (is_subscription_id snapshot))))
            "RAZORPAY_CORRELATION_MISMATCH"
            "Webhook subscription does not match the authoritative invoice.";
      subscription ← subscription_of merchant_id (is_subscription_id snapshot);
      subscription ← found subscription "RAZORPAY_SUBSCRIPTION_NOT_CORRELATED"
        "Webhook invoice belongs to a subscription that has not been connected.";
      _ ← reject (negb (eqs (sub_currency subscription) (is_currency snapshot)))
            "RAZORPAY_INVOICE_CURRENCY_MISMATCH"
            "Authoritative invoice currency does not match the connected subscription.";
      existing ← invoice_of merchant_id (is_invoice_id snapshot);
      match existing with
      | Some existing_invoice =>
          _ ← reject (negb (eqs (inv_subscription_id existing_invoice) (sub_id subscription)))
                "RAZORPAY_INVOICE_SUBSCRIPTION_CONFLICT"
                "Razorpay invoice is already bound to another subscription.";
          mret (existing_invoice, subscription)
      | None => issue_invoice merchant_id snapshot subscription
      end
  | _, _ => contract_error "RAZORPAY_INVOICE_NOT_CORRELATED"
              "Webhook invoice does not belong to this merchant."
  end.

(** src/services/api/app/webhooks/processor.py:664-680 [RazorpayOutboxProcessor._correlate]:
    the case the webhook names. *)
Definition named_case (payload : RazorpayOutboxPayload) : P (option RecoveryCase) :=
  if truthy (ne_case_id (op_event payload)) then
    let case_id := default "" (ne_case_id (op_event payload)) in
    c ← query (fun d => row_where (fun c => eqs (rc_id c) case_id
                                     && eqs (rc_merchant_id c) (op_merchant_id payload)) (db_cases d));
    Some <$> found c "RAZORPAY_CASE_NOT_CORRELATED"
               "Webhook case_id does not belong to this merchant."
  else mret None.

(** src/services/api/app/webhooks/processor.py:682-709 [RazorpayOutboxProcessor._correlate]:
    the invoice, and the subscription when the invoice was first seen. *)
Definition correlated_invoice (payload : RazorpayOutboxPayload) (recovery_case : option RecoveryCase)
  : P (option Invoice) :=
  let event := op_event payload in
  let merchant_id := op_merchant_id payload in
  if truthy (ne_invoice_id event) then
    invoice ← invoice_of merchant_id (default "" (ne_invoice_id event));
    match invoice with
    | Some _ => mret invoice
    | None => pair ← hydrate_webhook_invoice payload; mret (Some (fst pair))
    end
  else
    match recovery_case with
    | Some c =>
        if truthy (rc_failed_invoice_id c) then
          query (fun d => row_where
            (fun i => eqs (inv_id i) (default "" (rc_failed_invoice_id c))
                      && eqs (inv_merchant_id i) merchant_id) (db_invoices d))
        else mret None
    | None => mret None
    end.

(** src/services/api/app/webhooks/processor.py:711-751 [RazorpayOutboxProcessor._correlate]:
    the subscription; the one of a freshly issued invoice is read again by its key. *)
Definition correlated_subscription (payload : RazorpayOutboxPayload) (invoice : option Invoice)
    (recovery_case : option RecoveryCase) : P (option Subscription) :=
  let event := op_event payload in
  let merchant_id := op_merchant_id payload in
  let by_id id := query (fun d => row_where (fun s => eqs (sub_id s) id
                            && eqs (sub_merchant_id s) merchant_id) (db_subscriptions d)) in
  if truthy (ne_subscription_id event) then
    subscription ← subscription_of merchant_id (default "" (ne_subscription_id event));
    Some <$> found subscription "RAZORPAY_SUBSCRIPTION_NOT_CORRELATED"
               "Webhook subscription does not belong to this merchant."
  else
    match invoice, recovery_case with
    | Some i, _ => by_id (inv_subscription_id i)
    | None, Some c => by_id (rc_subscription_id c)
    | None, None => mret None
    end.

(** [a and b and f(a) != g(b)] on loaded rows. *)
Definition mismatch {A B} (a : option A) (b : option B) (f : A -> B -> bool) : bool :=
  match a, b with Some x, Some y => negb (f x y) | _, _ => false end.

(** src/services/api/app/webhooks/processor.py:753-767 [RazorpayOutboxProcessor._correlate]:
    the three rows agree. *)
Definition check_agreement (cor : Correlation) : P unit :=
  _ ← reject (mismatch (cor_invoice cor) (cor_subscription cor)
                (fun i s => eqs (inv_subscription_id i) (sub_id s)))
        "RAZORPAY_CORRELATION_MISMATCH" "Webhook invoice and subscription do not match.";
  _ ← reject (mismatch (cor_recovery_case cor) (cor_invoice cor)
                (fun c i => eqs (rc_failed_invoice_id c) (Some (inv_id i))))
        "RAZORPAY_CORRELATION_MISMATCH" "Webhook case and invoice do not match.";
  reject (mismatch (cor_recovery_case cor) (cor_subscription cor)
            (fun c s => eqs (rc_subscription_id c) (sub_id s)))
    "RAZORPAY_CORRELATION_MISMATCH" "Webhook case and subscription do not match.".

(** src/services/api/app/webhooks/processor.py:769-794 [RazorpayOutboxProcessor._correlate]:
    the case of the invoice, or the latest case of the subscription. *)
Definition case_of_rows (merchant_id : string) (invoice : option Invoice)
    (subscription : option Subscription) : P (option RecoveryCase) :=
  match invoice, subscription with
  | Some i, _ =>
      query (fun d => row_where (fun c => eqs (rc_merchant_id c) merchant_id
                                  && eqs (rc_failed_invoice_id c) (Some (inv_id i))) (db_cases d))
  | None, Some s =>
      query (fun d => head (sorted_on (fun c => (rc_opened_at c, rc_id c))
                              (cmp_opp (cmp_lex Z.compare cmp_string))
                              (rows_where (fun c => eqs (rc_merchant_id c) merchant_id
                                             && eqs (rc_subscription_id c) (sub_id s)) (db_cases d))))
  | None, None => mret None
  end.

(** src/services/api/app/webhooks/processor.py:657-795 [RazorpayOutboxProcessor._correlate] *)
Definition correlate (payload : RazorpayOutboxPayload) : P Correlation :=
  named ← named_case payload;
  invoice ← correlated_invoice payload named;
  subscription ← correlated_subscription payload invoice named;
  let cor := {| cor_subscription := subscription; cor_invoice := invoice;
                cor_recovery_case := named |} in
  _ ← check_agreement cor;
  match named with
  | Some _ => mret cor
  | None =>
      recovery_case ← case_of_rows (op_merchant_id payload) invoice subscription;
      mret {| cor_subscription := subscription; cor_invoice := invoice;
              cor_recovery_case := recovery_case |}
  end.
End correlation.
