(* ===== verification/Processor.v ===== *)
(** * Outbox processing

    [services/api/app/webhooks/processor.py]: the effects of a correlated Razorpay event
    on the recovery database, the durable authorization of what follows it, and one step
    of the outbox poller with its failure path. *)
From S2P Require Import Prelude Domain Json QuietHours Safety Diagnose Decision Razorpay Entities Session Inbox Correlation.

(** src/services/api/app/webhooks/processor.py:69-69 [DEFAULT_RECOVERY_WINDOW] *)
Definition DEFAULT_RECOVERY_WINDOW : Z := 3 * day.

Abbreviation effects := (list (string * json)).

(** src/services/api/app/webhooks/processor.py:917-926 [RazorpayOutboxProcessor._payment_entity] *)
Definition payment_entity (event : NormalizedRazorpayEvent) : json :=
  let raw_payload := json_get "payload" (ne_provider_payload event) in
  if negb (is_dict raw_payload) then JObj []
  else
    let payment_container := json_get "payment" raw_payload in
    if negb (is_dict payment_container) then JObj []
    else as_dict (json_get "entity" payment_container).

(** [event.occurred_at >= row.occurred_at] against a loaded timestamp. *)
Definition occurred_since (event : NormalizedRazorpayEvent) (t : Z) : result bool :=
  negb <$> dt_lt (ne_occurred_at event) (utc_datetime t).

(** src/services/api/app/webhooks/processor.py:596-600 [RazorpayOutboxProcessor._error_code] *)
Definition error_code (error : exn) : string :=
  match error with
  | RazorpayContractError code _ | RazorpayRequestError code _ _ => str_take 128 code
  | RazorpayUncertainSubmissionError _ => "RAZORPAY_SUBMISSION_UNCERTAIN"
  | UnsupportedWebhookEventError _ => "RAZORPAY_WEBHOOK_EVENT_UNSUPPORTED"
  | DownstreamSignalError => "RAZORPAY_DOWNSTREAM_SIGNAL_FAILED"
  | _ => "RAZORPAY_OUTBOX_PROCESSING_FAILED"
  end.

Section processor.
(** SHA-256 in hexadecimal, the identifier supply, the server clock of the column
    defaults and the processor's clock (aware instants, one per reading). *)
Context (sha256_hex : string -> string) (new_id : nat -> string) (utc_now clock : nat -> Z).
(** [RazorpayOutboxPayload.model_validate], [time.fromisoformat] and [isoformat]. *)
Context (model_validate : json -> result RazorpayOutboxPayload)
        (time_fromisoformat : string -> result Z) (isoformat : Z -> string).
(** The provider, by call, and the optional interfaces it implements. *)
Context (fetch_payment_snapshot : nat -> string -> option string -> string -> result PaymentSnapshot)
        (fetch_invoice_snapshot : option (nat -> string -> string -> result InvoiceSnapshot))
        (standard_payment_link_lifecycle : bool).
(** Whether the downstream callback returns, and the rows other pollers hold locks on. *)
Context (downstream_signal : nat -> RazorpayDownstreamSignal -> bool) (locked : string -> bool).
(** The decision engine: the time-zone database and the scorer, and the readiness of the
    customer-agent executor. *)
Context (tzdb : string -> option ZoneInfo)
        (scorer : RecoveryScoreRequest -> result RecoveryScoreResult)
        (agent_executor_ready : bool).
(** The configuration of the processor. *)
Context (retry_base_delay dispatch_lease : Z) (global_kill : bool).

(** src/services/api/app/webhooks/processor.py:119-148 [RazorpayOutboxProcessor.__init__]:
    its checks. *)
Definition processor_init : result unit :=
  _ ← raise_if (retry_base_delay <? 0) (ValueError "retry_base_delay cannot be negative");
  raise_if (dispatch_lease <=? 0) (ValueError "dispatch_lease must be positive").

(** src/services/api/app/webhooks/processor.py:928-931 [RazorpayOutboxProcessor._payment_attempt_id] *)
Definition payment_attempt_id (provider_payment_id : string) : string :=
  ("pay_rzp_" +++ str_take 48 (sha256_hex provider_payment_id))%string.

(** src/services/api/app/webhooks/processor.py:933-946 [RazorpayOutboxProcessor._payment_attempt] *)
Definition payment_attempt (merchant_id provider_payment_id : string) : P (option PaymentAttempt) :=
  query (fun d => row_where (fun p => eqs (pay_merchant_id p) merchant_id
                               && eqs (pay_provider_payment_id p) (Some provider_payment_id))
                    (db_payments d)).

(** src/services/api/app/webhooks/processor.py:1396-1421 [RazorpayOutboxProcessor._add_audit_event] *)
Definition add_audit_event (recovery_case : RecoveryCase) (event : NormalizedRazorpayEvent)
    (details : effects) : P unit :=
  existing ← query (fun d => row_where (fun e => eqs (evr_case_id e) (rc_id recovery_case)
                       && eqs (evr_source_event_id e) (Some (ne_provider_event_id event)))
                       (db_events d));
  match existing with
  | Some _ => mret tt
  | None =>
      id ← reading new_id;
      occurred_at ← lift (bind_utc (ne_occurred_at event));
      recorded_at ← reading utc_now;
      let row := {|
        evr_id := id; evr_case_id := rc_id recovery_case;
        evr_event_type := str_replace_char "." "_" (str_upper (ne_event_type event));
        evr_source := "razorpay"; evr_evidence_kind := EvidenceKind.RAZORPAY_TEST_VERIFIED;
        evr_payload := JObj details; evr_occurred_at := occurred_at; evr_recorded_at := recorded_at;
        evr_correlation_id := str_take 128 ("rzp_" +++ rc_id recovery_case);
        evr_source_event_id := Some (ne_provider_event_id event) |} in
      write (fun d => d <| db_events ::= fun l => (l ++ [row])%list |>)
  end.

(** ** A failed payment *)

(** src/services/api/app/webhooks/processor.py:977-995 [RazorpayOutboxProcessor._apply_payment_failed]:
    the row of a payment first seen failing. *)
Definition insert_failed_payment (payload : RazorpayOutboxPayload) (invoice : Invoice)
    (subscription : Subscription) (payment_id currency : string) (amount : Z) : P PaymentAttempt :=
  let event := op_event payload in
  let entity := payment_entity event in
  method ← lift (bind_text (json_get "method" entity));
  code ← lift (bind_text (json_get "error_code" entity));
  source ← lift (bind_text (json_get "error_source" entity));
  step ← lift (bind_text (json_get "error_step" entity));
  reason ← lift (bind_text (json_get "error_reason" entity));
  occurred_at ← lift (bind_utc (ne_occurred_at event));
  let payment := {|
    pay_id := payment_attempt_id payment_id; pay_merchant_id := op_merchant_id payload;
    pay_invoice_id := inv_id invoice; pay_subscription_id := sub_id subscription;
    pay_provider_payment_id := Some payment_id; pay_amount_paise := amount;
    pay_currency := currency; pay_payment_state := PaymentState.FAILED; pay_method := method;
    pay_error_code := code; pay_error_source := source; pay_error_step := step;
    pay_error_reason := reason; pay_occurred_at := occurred_at |} in
  _ ← write (fun d => d <| db_payments ::= fun l => (l ++ [payment])%list |>);
  _ ← flush;
  mret payment.

(** src/services/api/app/webhooks/processor.py:1005-1011 [RazorpayOutboxProcessor._apply_payment_failed]:
    a newer failure of a payment that is not captured. *)
Definition refresh_failed_payment (event : NormalizedRazorpayEvent) (payment : PaymentAttempt)
  : P PaymentAttempt :=
  let entity := payment_entity event in
  code ← lift (bind_text (json_get "error_code" entity));
  source ← lift (bind_text (json_get "error_source" entity));
  step ← lift (bind_text (json_get "error_step" entity));
  reason ← lift (bind_text (json_get "error_reason" entity));
  occurred_at ← lift (bind_utc (ne_occurred_at event));
  let payment := payment <| pay_payment_state := PaymentState.FAILED |> <| pay_error_code := code |>
    <| pay_error_source := source |> <| pay_error_step := step |>
    <| pay_error_reason := reason |> <| pay_occurred_at := occurred_at |> in
  _ ← save_payment payment;
  mret payment.

(** src/services/api/app/webhooks/processor.py:1052-1127 [RazorpayOutboxProcessor._create_case_for_failure] *)
Definition create_case_for_failure (payload : RazorpayOutboxPayload) (invoice : Invoice)
    (subscription : Subscription) (payment : PaymentAttempt) : P RecoveryCase :=
  let event := op_event payload in
  let entity := payment_entity event in
  customer ← query (fun d => row_where (fun c => eqs (cus_id c) (sub_customer_id subscription)
                       && eqs (cus_merchant_id c) (op_merchant_id payload)) (db_customers d));
  customer ← found customer "RAZORPAY_CUSTOMER_NOT_CORRELATED"
               "The persisted subscription has no trusted merchant customer.";
  let amount_at_risk_paise := inv_amount_paise invoice - inv_amount_paid_paise invoice in
  _ ← reject (amount_at_risk_paise <=? 0) "RAZORPAY_INVOICE_ALREADY_PAID"
        "A recovery case cannot be opened for a fully paid invoice.";
  let digest := str_take 40 (sha256_hex (op_merchant_id payload +++ ":" +++ inv_id invoice)) in
  code ← lift (bind_text (json_get "error_code" entity));
  source ← lift (bind_text (json_get "error_source" entity));
  step ← lift (bind_text (json_get "error_step" entity));
  reason ← lift (bind_text (json_get "error_reason" entity));
  let diagnosis := diagnose_failure {|
    ev_payment_state := PaymentState.FAILED; ev_event_type := ne_event_type event;
    ev_invoice_correlated := true; ev_subscription_correlated := true;
    ev_error_code := code; ev_error_source := source; ev_error_step := step;
    ev_error_reason := reason |} in
  opened_at ← lift (bind_utc (ne_occurred_at event));
  let recovery_case := {|
    rc_id := ("case_rzp_" +++ digest)%string; rc_merchant_id := op_merchant_id payload;
    rc_customer_id := cus_id customer; rc_subscription_id := sub_id subscription;
    rc_failed_invoice_id := Some (inv_id invoice);
    rc_billing_cycle_key := Some (inv_billing_cycle_key invoice);
    rc_failed_payment_id := Some (pay_id payment); rc_case_outcome := CaseOutcome.OPEN;
    rc_payment_state := PaymentState.FAILED;
    rc_subscription_state := sub_subscription_state subscription;
    rc_contact_disposition := ContactDisposition.NOT_CONTACTED;
    rc_revenue_attribution := RevenueAttribution.NONE; rc_diagnosis := diagnosis;
    rc_amount_at_risk_paise := amount_at_risk_paise; rc_arrears_collected_paise := 0;
    rc_case_recovered := false; rc_subscription_reactivated := false; rc_opened_at := opened_at;
    rc_recovery_deadline := opened_at + DEFAULT_RECOVERY_WINDOW; rc_recovered_at := None;
    rc_version := 1 |} in
  _ ← write (fun d => d <| db_cases ::= fun l => (l ++ [recovery_case])%list |>);
  _ ← flush;
  mret recovery_case.

(** src/services/api/app/webhooks/processor.py:971-1011 [RazorpayOutboxProcessor._apply_payment_failed]:
    the payment row, and whether the event changed it. *)
Definition record_failed_payment (payload : RazorpayOutboxPayload) (invoice : Invoice)
    (subscription : Subscription) (payment_id currency : string) (amount : Z)
  : P (PaymentAttempt * bool) :=
  let event := op_event payload in
  payment ← payment_attempt (op_merchant_id payload) payment_id;
  match payment with
  | None =>
      payment ← insert_failed_payment payload invoice subscription payment_id currency amount;
      mret (payment, true)
  | Some payment =>
      if negb (eqs (pay_invoice_id payment) (inv_id invoice)) then
        contract_error "RAZORPAY_PAYMENT_CORRELATION_MISMATCH"
          "Provider payment is already attached to another invoice."
      else if negb (eqs (pay_payment_state payment) PaymentState.CAPTURED) then
        newer ← lift (occurred_since event (pay_occurred_at payment));
        if (newer : bool) then
          payment ← refresh_failed_payment event payment; mret (payment, true)
        else mret (payment, false)
      else mret (payment, false)
  end.

(** src/services/api/app/webhooks/processor.py:948-1050 [RazorpayOutboxProcessor._apply_payment_failed] *)
Definition apply_payment_failed (payload : RazorpayOutboxPayload) (correlation : Correlation)
  : P (effects * Correlation) :=
  let event := op_event payload in
  match cor_invoice correlation, cor_subscription correlation with
  | Some invoice, Some subscription =>
      match ne_payment_id event, ne_amount_paise event, ne_currency event with
      | Some payment_id, Some amount, Some currency =>
          _ ← reject ((amount <=? 0) || (inv_amount_paise invoice <? amount)
                      || negb (eqs currency (inv_currency invoice)))
                "RAZORPAY_FAILURE_AMOUNT_MISMATCH"
                "Failed payment amount or currency does not match the trusted invoice.";
          recorded ← record_failed_payment payload invoice subscription payment_id currency amount;
          let payment : PaymentAttempt := fst recorded in
          let state_applied : bool := snd recorded in
          let case_created := eqs (cor_recovery_case correlation) None in
          recovery_case ← match cor_recovery_case correlation with
                          | None => create_case_for_failure payload invoice subscription payment
                          | Some c => mret c
                          end;
          let recovery_case :=
            if state_applied && negb case_created
               && negb (eqs (rc_payment_state recovery_case) PaymentState.CAPTURED)
            then recovery_case <| rc_payment_state := PaymentState.FAILED |>
                   <| rc_failed_payment_id := Some (pay_id payment) |> <| rc_version ::= Z.succ |>
            else recovery_case in
          _ ← save_case recovery_case;
          _ ← add_audit_event recovery_case event [
                ("payment_id", JStr payment_id); ("payment_state", JStr "FAILED");
                ("state_applied", JBool state_applied); ("state_regressed", JBool false);
                ("case_created", JBool case_created)];
          mret ([("payment_state", JStr "FAILED"); ("state_applied", JBool state_applied);
                 ("case_correlated", JBool true); ("case_created", JBool case_created);
                 ("arrears_collected_paise", JInt 0); ("subscription_reactivated", JBool false)],
                {| cor_subscription := Some subscription; cor_invoice := Some invoice;
                   cor_recovery_case := Some recovery_case |})
      | _, _, _ => contract_error "RAZORPAY_FAILURE_PAYMENT_INVALID"
                     "payment.failed is missing payment identity, amount, or currency."
      end
  | _, _ => contract_error "RAZORPAY_FAILURE_NOT_CORRELATED"
              "payment.failed requires a known invoice and subscription."
  end.

(** ** A captured payment *)

(** src/services/api/app/webhooks/processor.py:1175-1204 [RazorpayOutboxProcessor._apply_captured]:
    the payment row of the capture. *)
Definition record_captured_payment (payload : RazorpayOutboxPayload) (invoice : Invoice)
    (subscription : Subscription) (snapshot : PaymentSnapshot) (provider_payment_id : string)
  : P PaymentAttempt :=
  let event := op_event payload in
  payment ← payment_attempt (op_merchant_id payload) provider_payment_id;
  match payment with
  | None =>
      method ← lift (bind_text (json_get "method" (payment_entity event)));
      occurred_at ← lift (bind_utc (ne_occurred_at event));
      let payment := {|
        pay_id := payment_attempt_id provider_payment_id; pay_merchant_id := op_merchant_id payload;
        pay_invoice_id := inv_id invoice; pay_subscription_id := sub_id subscription;
        pay_provider_payment_id := Some provider_payment_id;
        pay_amount_paise := ps_amount_paise snapshot; pay_currency := ps_currency snapshot;
        pay_payment_state := PaymentState.CAPTURED; pay_method := method; pay_error_code := None;
        pay_error_source := None; pay_error_step := None; pay_error_reason := None;
        pay_occurred_at := occurred_at |} in
      _ ← write (fun d => d <| db_payments ::= fun l => (l ++ [payment])%list |>);
      _ ← flush;
      mret payment
  | Some payment =>
      if negb (eqs (pay_invoice_id payment) (inv_id invoice)) then
        contract_error "RAZORPAY_PAYMENT_CORRELATION_MISMATCH"
          "Captured provider payment is attached to another invoice."
      else
        newer ← lift (occurred_since event (pay_occurred_at payment));
        let payment := payment <| pay_payment_state := PaymentState.CAPTURED |>
          <| pay_amount_paise := ps_amount_paise snapshot |>
          <| pay_currency := ps_currency snapshot |> in
        let payment :=
          if (newer : bool) then payment <| pay_occurred_at := dt_instant (ne_occurred_at event) |>
          else payment in
        _ ← save_payment payment;
        mret payment
  end.

(** src/services/api/app/webhooks/processor.py:1206-1220 [RazorpayOutboxProcessor._apply_captured]:
    the recognition of this event or of this payment. *)
Definition find_recognition (merchant_id provider_event_id payment_id : string)
  : P (option RevenueRecognitionRecord) :=
  query (fun d => row_where (fun r => eqs (rev_merchant_id r) merchant_id
                     && eqs (rev_provider r) "razorpay"
                     && (eqs (rev_provider_event_id r) provider_event_id
                         || eqs (rev_payment_attempt_id r) (Some payment_id)))
                    (db_recognitions d)).

(** src/services/api/app/webhooks/processor.py:1235-1268 [RazorpayOutboxProcessor._apply_captured]:
    the revenue of a payment recognized for the first time. *)
Definition recognize_revenue (payload : RazorpayOutboxPayload) (outcome : PaymentRecoveryOutcome)
    (snapshot : PaymentSnapshot) (payment : PaymentAttempt) (invoice : Invoice)
    (recovery_case : RecoveryCase) : P RecoveryCase :=
  let event := op_event payload in
  let remaining_invoice := inv_amount_paise invoice - inv_amount_paid_paise invoice in
  let remaining_case :=
    rc_amount_at_risk_paise recovery_case - rc_arrears_collected_paise recovery_case in
  _ ← reject ((ps_amount_paise snapshot <=? 0)
              || (Z.min remaining_invoice remaining_case <? ps_amount_paise snapshot))
        "RAZORPAY_CAPTURE_AMOUNT_INVALID"
        "Captured amount exceeds the remaining correlated arrears.";
  let amount_collected := ps_amount_paise snapshot in
  id ← reading new_id;
  recognized_at ← lift (bind_utc (ne_occurred_at event));
  let row := {|
    rev_id := id; rev_case_id := rc_id recovery_case; rev_merchant_id := op_merchant_id payload;
    rev_payment_attempt_id := Some (pay_id payment); rev_provider := "razorpay";
    rev_provider_event_id := ne_provider_event_id event; rev_amount_paise := amount_collected;
    rev_attribution := RevenueAttribution.RAZORPAY_TEST_VERIFIED; rev_arrears_collected := true;
    rev_subscription_reactivated := ro_subscription_reactivated outcome;
    rev_recognized_at := recognized_at |} in
  _ ← write (fun d => d <| db_recognitions ::= fun l => (l ++ [row])%list |>);
  _ ← flush;
  let invoice := invoice <| inv_amount_paid_paise ::= Z.add amount_collected |> in
  let invoice :=
    if inv_amount_paid_paise invoice =? inv_amount_paise invoice
    then invoice <| inv_invoice_state := "paid" |> else invoice in
  _ ← save_invoice invoice;
  let recovery_case := recovery_case <| rc_arrears_collected_paise ::= Z.add amount_collected |>
    <| rc_revenue_attribution := RevenueAttribution.RAZORPAY_TEST_VERIFIED |>
    <| rc_version ::= Z.succ |> in
  _ ← save_case recovery_case;
  mret recovery_case.

(** The actions a recovery makes pointless. *)
Definition PENDING_STATUSES : list ActionStatus :=
  [ActionStatus.PROPOSED; ActionStatus.AWAITING_APPROVAL; ActionStatus.SCHEDULED;
   ActionStatus.EXECUTING].

(** src/services/api/app/webhooks/processor.py:1272-1305 [RazorpayOutboxProcessor._apply_captured]:
    the lifecycle of the case after the accounting. *)
Definition converge_case (event : NormalizedRazorpayEvent) (outcome : PaymentRecoveryOutcome)
    (snapshot : PaymentSnapshot) (subscription : Subscription) (recovery_case : RecoveryCase)
  : P RecoveryCase :=
  let recovery_case := recovery_case <| rc_payment_state := PaymentState.CAPTURED |>
    <| rc_subscription_reactivated ::= fun b => b || ro_subscription_reactivated outcome |> in
  let known := negb (eqs (ps_subscription_state snapshot) SubscriptionState.UNKNOWN) in
  _ ← (if known then
         save_subscription (subscription <| sub_subscription_state := ps_subscription_state snapshot |>)
       else mret tt);
  let recovery_case :=
    if known then recovery_case <| rc_subscription_state := ps_subscription_state snapshot |>
    else recovery_case in
  let recovered :=
    rc_amount_at_risk_paise recovery_case <=? rc_arrears_collected_paise recovery_case in
  let recovery_case := recovery_case <| rc_case_recovered := recovered |> in
  if recovered then
    occurred_at ← lift (bind_utc (ne_occurred_at event));
    let recovery_case := recovery_case <| rc_case_outcome := CaseOutcome.RECOVERED |>
                           <| rc_recovered_at := Some occurred_at |> in
    _ ← save_case recovery_case;
    _ ← flush;
    _ ← write (fun d => d <| db_actions ::= update_where
          (fun a => eqs (act_case_id a) (rc_id recovery_case) && mem (act_status a) PENDING_STATUSES)
          (fun a => a <| act_status := ActionStatus.CANCELLED |>
                      <| act_completed_at := Some occurred_at |>
                      <| act_updated_at := occurred_at |>) |>);
    mret recovery_case
  else
    let recovery_case :=
      if 0 <? rc_arrears_collected_paise recovery_case
      then recovery_case <| rc_case_outcome := CaseOutcome.PARTIALLY_RECOVERED |>
      else recovery_case in
    _ ← save_case recovery_case;
    mret recovery_case.

(** src/services/api/app/webhooks/processor.py:1141-1174 [RazorpayOutboxProcessor._apply_captured]:
    the authoritative snapshot, its agreement with the rows, and the payment's identity. *)
Definition confirmed_capture (payload : RazorpayOutboxPayload) (invoice : Invoice)
    (subscription : Subscription) (recovery_case : RecoveryCase)
  : P (PaymentSnapshot * PaymentRecoveryOutcome * string) :=
  let event := op_event payload in
  snapshot ← call (fun n => fetch_payment_snapshot n (op_merchant_id payload) (ne_payment_id event)
                              (inv_provider_invoice_id invoice));
  outcome ← lift (reconcile_payment_success event snapshot (rc_payment_state recovery_case));
  _ ← reject (negb (eqs (ps_payment_state snapshot) PaymentState.CAPTURED))
        "RAZORPAY_CAPTURE_NOT_CONFIRMED" "Authoritative Razorpay state does not confirm capture.";
  _ ← reject (truthy (ps_subscription_id snapshot)
              && negb (eqs (ps_subscription_id snapshot) (Some (sub_provider_subscription_id subscription))))
        "RAZORPAY_CORRELATION_MISMATCH"
        "Authoritative subscription does not match the failed invoice.";
  _ ← reject (negb (eqs (ps_currency snapshot) (inv_currency invoice)))
        "RAZORPAY_CAPTURE_CURRENCY_MISMATCH"
        "Captured payment currency does not match the invoice.";
  provider_payment_id ← found (or_str (ps_payment_id snapshot) (ne_payment_id event))
    "RAZORPAY_CAPTURE_PAYMENT_ID_MISSING" "Authoritative capture has no payment id.";
  mret (snapshot, outcome, provider_payment_id).

(** src/services/api/app/webhooks/processor.py:1222-1234 [RazorpayOutboxProcessor._apply_captured] *)
Definition secondary_case_change (outcome : PaymentRecoveryOutcome) (snapshot : PaymentSnapshot)
    (recovery_case : RecoveryCase) : bool :=
  negb (eqs (rc_payment_state recovery_case) PaymentState.CAPTURED)
  || (ro_subscription_reactivated outcome && negb (rc_subscription_reactivated recovery_case))
  || (negb (eqs (ps_subscription_state snapshot) SubscriptionState.UNKNOWN)
      && negb (eqs (rc_subscription_state recovery_case) (ps_subscription_state snapshot))).

(** src/services/api/app/webhooks/processor.py:1129-1325 [RazorpayOutboxProcessor._apply_captured] *)
Definition apply_captured (payload : RazorpayOutboxPayload) (correlation : Correlation)
  : P (effects * Correlation) :=
  let event := op_event payload in
  match cor_recovery_case correlation, cor_invoice correlation, cor_subscription correlation with
  | Some recovery_case, Some invoice, Some subscription =>
      capture ← confirmed_capture payload invoice subscription recovery_case;
      let '(snapshot, outcome, provider_payment_id) := capture in
      payment ← record_captured_payment payload invoice subscription snapshot provider_payment_id;
      existing_recognition ← find_recognition (op_merchant_id payload) (ne_provider_event_id event)
                               (pay_id payment);
      let newly_recognized := eqs existing_recognition None in
      let dispatch_required :=
        match existing_recognition with
        | None => true
        | Some r => eqs (rev_provider_event_id r) (ne_provider_event_id event)
        end in
      let amount_collected := if newly_recognized then ps_amount_paise snapshot else 0 in
      accounted ←
        (if newly_recognized then
           recognize_revenue payload outcome snapshot payment invoice recovery_case
         else mret (if secondary_case_change outcome snapshot recovery_case
                    then recovery_case <| rc_version ::= Z.succ |> else recovery_case));
      recovery_case ← converge_case event outcome snapshot subscription accounted;
      _ ← add_audit_event recovery_case event [
            ("payment_id", JStr provider_payment_id); ("amount_paise", JInt (ps_amount_paise snapshot));
            ("newly_recognized", JBool newly_recognized);
            ("arrears_collected", JBool (ro_arrears_collected outcome));
            ("subscription_reactivated", JBool (ro_subscription_reactivated outcome));
            ("late_success", JBool (ro_late_success outcome))];
      mret ([("payment_state", JStr "CAPTURED"); ("newly_recognized", JBool newly_recognized);
             ("arrears_collected_paise", JInt amount_collected);
             ("subscription_reactivated", JBool (ro_subscription_reactivated outcome));
             ("case_recovered", JBool (rc_case_recovered recovery_case));
             ("dispatch_required", JBool dispatch_required)],
            {| cor_subscription := Some subscription; cor_invoice := Some invoice;
               cor_recovery_case := Some recovery_case |})
  | _, _, _ => contract_error "RAZORPAY_CAPTURE_NOT_CORRELATED"
                 "Captured payment requires a known recovery case, invoice, and subscription."
  end.

(** ** A subscription event *)

(** src/services/api/app/webhooks/processor.py:1348-1358 [RazorpayOutboxProcessor._newer_processed_subscription_event_exists]:
    the scan of the newer entries. *)
Fixpoint any_about_subscription (subscription_id : string) (entries : list WebhookInboxEntry)
  : result bool :=
  match entries with
  | [] => Ok false
  | entry :: rest =>
      match normalize_webhook (inb_provider_event_id entry) (inb_payload entry) with
      | Err e => if is_integration_error e then any_about_subscription subscription_id rest else Err e
      | Ok normalized =>
          if eqs (ne_subscription_id normalized) (Some subscription_id) then Ok true
          else any_about_subscription subscription_id rest
      end
  end.

(** src/services/api/app/webhooks/processor.py:1327-1358 [RazorpayOutboxProcessor._newer_processed_subscription_event_exists] *)
Definition newer_processed_subscription_event_exists (payload : RazorpayOutboxPayload) : P bool :=
  match ne_subscription_id (op_event payload) with
  | None => mret false
  | Some subscription_id =>
      occurred_at ← lift (bind_utc (ne_occurred_at (op_event payload)));
      entries ← query (fun d => rows_where
        (fun i => eqs (inb_merchant_id i) (op_merchant_id payload) && eqs (inb_provider i) "razorpay"
                  && negb (eqs (inb_processed_at i) None)
                  && mem (inb_event_type i) ["subscription.pending"; "subscription.halted"]
                  && match inb_occurred_at i with Some t => occurred_at <? t | None => false end)
        (db_inbox d));
      lift (any_about_subscription subscription_id entries)
  end.

(** src/services/api/app/webhooks/processor.py:1360-1394 [RazorpayOutboxProcessor._apply_subscription_only] *)
Definition apply_subscription_only (payload : RazorpayOutboxPayload) (correlation : Correlation)
  : P (effects * Correlation) :=
  let event := op_event payload in
  let state := ne_subscription_state event in
  subscription ← found (cor_subscription correlation) "RAZORPAY_SUBSCRIPTION_EVENT_NOT_CORRELATED"
                   "Subscription lifecycle event has no known subscription.";
  _ ← reject (eqs state SubscriptionState.UNKNOWN) "RAZORPAY_SUBSCRIPTION_EVENT_NOT_CORRELATED"
        "Subscription lifecycle event has no known subscription.";
  stale ← newer_processed_subscription_event_exists payload;
  let subscription :=
    if (stale : bool) then subscription else subscription <| sub_subscription_state := state |> in
  let recovery_case :=
    if stale then cor_recovery_case correlation
    else (fun c => c <| rc_subscription_state := state |> <| rc_version ::= Z.succ |>)
           <$> cor_recovery_case correlation in
  _ ← save_subscription subscription;
  _ ← match recovery_case with
      | None => mret tt
      | Some c =>
          _ ← save_case c;
          add_audit_event c event [
            ("subscription_state", JStr (SubscriptionState_value state));
            ("state_applied", JBool (negb stale)); ("stale_event", JBool stale)]
      end;
  mret ([("subscription_state", JStr (SubscriptionState_value state));
         ("state_applied", JBool (negb stale)); ("stale_event", JBool stale);
         ("case_correlated", JBool (negb (eqs recovery_case None)));
         ("arrears_collected_paise", JInt 0)],
        {| cor_subscription := Some subscription; cor_invoice := cor_invoice correlation;
           cor_recovery_case := recovery_case |}).

(** src/services/api/app/webhooks/processor.py:902-915 [RazorpayOutboxProcessor._apply_event] *)
Definition apply_event (payload : RazorpayOutboxPayload) (correlation : Correlation)
  : P (effects * Correlation) :=
  let event := op_event payload in
  if eqs (ne_event_type event) "payment.failed" then apply_payment_failed payload correlation
  else if eqs (ne_payment_state event) PaymentState.CAPTURED then apply_captured payload correlation
  else if mem (ne_event_type event) ["subscription.pending"; "subscription.halted"]
  then apply_subscription_only payload correlation
  else contract_error "RAZORPAY_EVENT_PROCESSOR_UNSUPPORTED"
         ("No outbox processor exists for " +++ ne_event_type event +++ ".").

(** ** Durable authorization *)

Definition purpose_key (recovery_case : RecoveryCase) : string :=
  ("case:" +++ rc_id recovery_case +++ ":purpose:initial-recommendation:v1")%string.
Definition reconciliation_key (recovery_case : RecoveryCase) : string :=
  ("case:" +++ rc_id recovery_case
   +++ ":action:WAIT_FOR_GATEWAY_RETRY:surface:none:purpose:authoritative-success-reconciliation")%string.

(** src/services/api/app/webhooks/processor.py:288-302 [RazorpayOutboxProcessor._ensure_initial_recommendation]:
    the action of this purpose, or one written before purposes had keys. *)
Definition is_initial_action (recovery_case : RecoveryCase) (a : RecoveryActionRecord) : bool :=
  eqs (act_idempotency_key a) (purpose_key recovery_case)
  || (eqs (act_case_id a) (rc_id recovery_case)
      && str_prefix "action_rzp_" (act_id a)
      && str_prefix ("case:" +++ rc_id recovery_case +++ ":action:") (act_idempotency_key a)
      && negb (str_contains ":purpose:" (act_idempotency_key a))).

(** The policy decisions of an action of a case. *)
Definition policies_of (recovery_case : RecoveryCase) (a : RecoveryActionRecord)
    (rows : list PolicyDecisionRecord) : list PolicyDecisionRecord :=
  rows_where (fun p => eqs (pol_case_id p) (rc_id recovery_case)
                       && eqs (pol_action_id p) (Some (act_id a))) rows.

(** [value if value else None] on an optional text. *)
Definition optional_time (value : option string) : result (option Z) :=
  if truthy value then Some <$> time_fromisoformat (default "" value) else Ok None.

(** src/services/api/app/webhooks/processor.py:354-373 [RazorpayOutboxProcessor._ensure_initial_recommendation]:
    the safety configuration of a merchant. *)
Definition merchant_policy_config (merchant : Merchant) (settings : MerchantPolicySetting)
  : result SafetyPolicyConfig :=
  quiet_start ← optional_time (mps_quiet_hours_start settings);
  quiet_end ← optional_time (mps_quiet_hours_end settings);
  approvals ← map_result RecoveryActionType_of (mps_require_approval_actions settings);
  safety_config_post_init tzdb {|
    merchant_timezone := mer_timezone merchant; quiet_hours_start := quiet_start;
    quiet_hours_end := quiet_end;
    max_contacts_per_window := mps_max_contacts_per_7_days settings;
    manual_approval_actions := approvals;
    manual_approval_above_paise := mps_require_approval_above_paise settings;
    global_kill_switch := global_kill; merchant_kill_switch := mps_recovery_kill_switch settings;
    gateway_retry_delay := gateway_retry_delay default_safety_config;
    policy_version := policy_version default_safety_config |}.

(** src/services/api/app/webhooks/processor.py:383-402 [RazorpayOutboxProcessor._ensure_initial_recommendation]:
    the number of the subscription's payments in a state. *)
Definition count_payments (merchant_id subscription_id : string) (state : PaymentState) (d : Db) : Z :=
  Z.of_nat (List.length (rows_where
    (fun p => eqs (pay_merchant_id p) merchant_id && eqs (pay_subscription_id p) subscription_id
              && eqs (pay_payment_state p) state) (db_payments d))).

(** src/services/api/app/webhooks/processor.py:408-441 [RazorpayOutboxProcessor._ensure_initial_recommendation]:
    the decision context. *)
Definition decision_context (recovery_case : RecoveryCase) (customer : Customer)
    (failed_payment : option PaymentAttempt) (succeeded failed evaluated_at : Z)
  : RecoveryDecisionContext := {|
  dc_case_id := rc_id recovery_case;
  dc_amount_at_risk_paise := rc_amount_at_risk_paise recovery_case;
  dc_diagnosis := rc_diagnosis recovery_case; dc_case_outcome := rc_case_outcome recovery_case;
  dc_payment_state := rc_payment_state recovery_case;
  dc_subscription_state := rc_subscription_state recovery_case;
  dc_contact_disposition := rc_contact_disposition recovery_case;
  dc_recovery_deadline := utc_datetime (rc_recovery_deadline recovery_case);
  dc_now := utc_datetime evaluated_at;
  dc_has_failed_invoice := negb (eqs (rc_failed_invoice_id recovery_case) None);
  dc_active_gateway_retries := eqs (rc_subscription_state recovery_case) SubscriptionState.PENDING;
  dc_standard_payment_link_available := standard_payment_link_lifecycle;
  dc_voice_action_available := false;
  dc_voice_consent := negb (eqs (cus_voice_consent_at customer) None);
  dc_voice_destination_available := negb (eqs (cus_phone_token customer) None);
  dc_customer_agent_action_available := agent_executor_ready;
  dc_customer_agent_available := cus_customer_agent_available customer;
  dc_model_features := Some [
    ("tenure_days", JInt (Z.max ((evaluated_at - cus_created_at customer) / day) 0));
    ("prior_successful_payments", JInt succeeded); ("failed_attempt_count", JInt failed);
    ("payment_method", opt_str (failed_payment ≫= pay_method))] |}.

(** src/services/api/app/webhooks/processor.py:445-450 [RazorpayOutboxProcessor._ensure_initial_recommendation] *)
Definition status_of_disposition (d : PolicyDisposition) : ActionStatus :=
  match d with
  | PolicyDisposition.ALLOW => ActionStatus.PROPOSED
  | PolicyDisposition.BLOCK => ActionStatus.CANCELLED
  | PolicyDisposition.DELAY => ActionStatus.SCHEDULED
  | PolicyDisposition.REQUIRE_MANUAL_APPROVAL => ActionStatus.AWAITING_APPROVAL
  end.

Definition scope_digest (key : string) : string := str_take 40 (sha256_hex key).

(** src/services/api/app/webhooks/processor.py:452-463 [RazorpayOutboxProcessor._ensure_initial_recommendation] *)
Definition recommended_action (recovery_case : RecoveryCase) (ranked : RecoveryDecisionResult)
    (evaluated_at created_at updated_at : Z) : RecoveryActionRecord :=
  let decision := dr_policy ranked in {|
  act_id := ("action_rzp_" +++ scope_digest (purpose_key recovery_case))%string;
  act_case_id := rc_id recovery_case;
  act_action_type := rec_action (dr_recommendation ranked);
  act_payment_surface_type := rec_payment_surface_type (dr_recommendation ranked);
  act_status := status_of_disposition (pd_disposition decision);
  act_idempotency_key := purpose_key recovery_case;
  act_scheduled_for := pd_delay_until decision;
  act_external_reference := None; act_customer_url := None;
  act_completed_at :=
    if eqs (pd_disposition decision) PolicyDisposition.BLOCK then Some evaluated_at else None;
  act_created_at := created_at; act_updated_at := updated_at |}.

(** src/services/api/app/webhooks/processor.py:464-475 [RazorpayOutboxProcessor._ensure_initial_recommendation] *)
Definition recommended_policy (recovery_case : RecoveryCase) (action : RecoveryActionRecord)
    (decision : PolicyDecision) (evaluated_at : Z) : PolicyDecisionRecord := {|
  pol_id := ("policy_rzp_" +++ scope_digest (purpose_key recovery_case))%string;
  pol_case_id := rc_id recovery_case; pol_action_id := Some (act_id action);
  pol_disposition := pd_disposition decision; pol_decision_code := pd_decision_code decision;
  pol_reason_codes := pd_reason_codes decision; pol_reasons := pd_reasons decision;
  pol_policy_version := pd_policy_version decision; pol_delay_until := pd_delay_until decision;
  pol_created_at := evaluated_at |}.

(** src/services/api/app/webhooks/processor.py:476-479 [RazorpayOutboxProcessor._ensure_initial_recommendation]:
    the action, then the policy that refers to it. *)
Definition add_authorization (action : RecoveryActionRecord) (policy : PolicyDecisionRecord) : P unit :=
  _ ← write (fun d => d <| db_actions ::= fun l => (l ++ [action])%list |>);
  _ ← flush;
  _ ← write (fun d => d <| db_policies ::= fun l => (l ++ [policy])%list |>);
  flush.

(** src/services/api/app/webhooks/processor.py:335-441 [RazorpayOutboxProcessor._ensure_initial_recommendation]:
    the ranked decision from the merchant's policy and the customer's history. *)
Definition evaluate_recommendation (merchant_id : string) (recovery_case : RecoveryCase)
  : P (RecoveryDecisionResult * Z) :=
  let not_configured {A} (o : option A) : P A := found o "RAZORPAY_MERCHANT_POLICY_NOT_CONFIGURED"
    "The merchant has no durable recovery policy settings." in
  merchant ← query (fun d => row_where (fun m => eqs (mer_id m) merchant_id
                       && eqs (mer_id m) (rc_merchant_id recovery_case)) (db_merchants d));
  merchant ← not_configured merchant;
  settings ← query (fun d => row_where (fun s => eqs (mps_merchant_id s) (mer_id merchant))
                               (db_policy_settings d));
  settings ← not_configured settings;
  evaluated_at ← reading clock;
  policy_config ← lift (merchant_policy_config merchant settings);
  customer ← query (fun d => row_where (fun c => eqs (cus_id c) (rc_customer_id recovery_case)
                                          && eqs (cus_merchant_id c) merchant_id) (db_customers d));
  customer ← found customer "RAZORPAY_CUSTOMER_NOT_CORRELATED"
               "The recovery case has no trusted merchant customer for scoring.";
  succeeded ← query (count_payments merchant_id (rc_subscription_id recovery_case) PaymentState.CAPTURED);
  failed ← query (count_payments merchant_id (rc_subscription_id recovery_case) PaymentState.FAILED);
  failed_payment ← (if truthy (rc_failed_payment_id recovery_case) then
    query (fun d => row_where (fun p => eqs (Some (pay_id p)) (rc_failed_payment_id recovery_case))
                      (db_payments d)) else mret None);
  context ← lift (decision_context_post_init
    (decision_context recovery_case customer failed_payment succeeded failed evaluated_at));
  ranked ← lift (decide_recovery tzdb scorer context policy_config);
  mret (ranked, evaluated_at).

(** src/services/api/app/webhooks/processor.py:272-495 [RazorpayOutboxProcessor._ensure_initial_recommendation] *)
Definition ensure_initial_recommendation (merchant_id : string) (recovery_case : RecoveryCase)
  : P RecoveryActionRecord :=
  existing ← query (fun d => head (sorted_on (fun a => (act_created_at a, act_id a))
                                     (cmp_lex Z.compare cmp_string)
                                     (rows_where (is_initial_action recovery_case) (db_actions d))));
  match existing with
  | Some existing_action =>
      _ ← reject (negb (eqs (act_case_id existing_action) (rc_id recovery_case)))
            "RAZORPAY_RECOVERY_ACTION_SCOPE_MISMATCH"
            "The durable recovery action does not match the failed invoice case scope.";
      policies ← query (fun d => take 2 (policies_of recovery_case existing_action (db_policies d)));
      _ ← reject (negb (eqs (List.length policies) 1%nat))
            "RAZORPAY_RECOVERY_POLICY_CARDINALITY_INVALID"
            "The durable recovery action must have exactly one matching policy decision.";
      mret existing_action
  | None =>
      evaluation ← evaluate_recommendation merchant_id recovery_case;
      let ranked : RecoveryDecisionResult := fst evaluation in
      let evaluated_at : Z := snd evaluation in
      created_at ← reading utc_now;
      updated_at ← reading utc_now;
      let action := recommended_action recovery_case ranked evaluated_at created_at updated_at in
      _ ← add_authorization action
            (recommended_policy recovery_case action (dr_policy ranked) evaluated_at);
      audit ← lift (to_audit_payload isoformat (Some (act_id action)) ranked);
      recorded_at ← reading utc_now;
      let row := {|
        evr_id := ("event_rzp_decision_" +++ scope_digest (purpose_key recovery_case))%string;
        evr_case_id := rc_id recovery_case; evr_event_type := "ACTION_RECOMMENDED";
        evr_source := "decision-engine"; evr_evidence_kind := EvidenceKind.SYSTEM_DERIVED;
        evr_payload := audit; evr_occurred_at := evaluated_at; evr_recorded_at := recorded_at;
        evr_correlation_id := str_take 128 ("rzp_" +++ rc_id recovery_case);
        evr_source_event_id := Some ("initial-recommendation:" +++ rc_id recovery_case)%string |} in
      _ ← write (fun d => d <| db_events ::= fun l => (l ++ [row])%list |>);
      _ ← flush;
      mret action
  end.

(** src/services/api/app/webhooks/processor.py:561-571 [RazorpayOutboxProcessor._ensure_reconciliation_authorization] *)
Definition reconciliation_action (recovery_case : RecoveryCase) (evaluated_at : Z)
  : RecoveryActionRecord := {|
  act_id := ("action_rzp_" +++ scope_digest (reconciliation_key recovery_case))%string;
  act_case_id := rc_id recovery_case;
  act_action_type := RecoveryActionType.WAIT_FOR_GATEWAY_RETRY; act_payment_surface_type := None;
  act_status := ActionStatus.SCHEDULED; act_idempotency_key := reconciliation_key recovery_case;
  act_scheduled_for := None; act_external_reference := None; act_customer_url := None; act_completed_at := None;
  act_created_at := evaluated_at; act_updated_at := evaluated_at |}.

(** src/services/api/app/webhooks/processor.py:572-589 [RazorpayOutboxProcessor._ensure_reconciliation_authorization] *)
Definition reconciliation_policy (recovery_case : RecoveryCase) (action : RecoveryActionRecord)
    (evaluated_at : Z) : PolicyDecisionRecord := {|
  pol_id := ("policy_rzp_" +++ scope_digest (reconciliation_key recovery_case))%string;
  pol_case_id := rc_id recovery_case; pol_action_id := Some (act_id action);
  pol_disposition := PolicyDisposition.ALLOW;
  pol_decision_code := "AUTHORITATIVE_PAYMENT_RECONCILIATION_ONLY";
  pol_reason_codes := ["AUTHORITATIVE_PAYMENT_RECONCILIATION_ONLY"; "NO_CUSTOMER_FACING_ACTION"];
  pol_reasons := ["Authoritative payment success must converge before workflow cleanup.";
                  "The WAIT action performs no payment or customer-facing provider call."];
  pol_policy_version := "recovery-reconciliation.v1"; pol_delay_until := None;
  pol_created_at := evaluated_at |}.

(** src/services/api/app/webhooks/processor.py:548-559 [RazorpayOutboxProcessor._ensure_reconciliation_authorization]:
    strictly after the latest wait action of the case. *)
Definition after_latest_wait (recovery_case : RecoveryCase) (evaluated_at : Z) (d : Db) : Z :=
  let waits := rows_where (fun a => eqs (act_case_id a) (rc_id recovery_case)
                 && eqs (act_action_type a) RecoveryActionType.WAIT_FOR_GATEWAY_RETRY
                 && eqs (act_payment_surface_type a) None) (db_actions d) in
  match head (sorted_on (fun a => (act_created_at a, act_id a))
                (cmp_opp (cmp_lex Z.compare cmp_string)) waits) with
  | Some latest => if evaluated_at <=? act_created_at latest
                   then act_created_at latest + microsecond else evaluated_at
  | None => evaluated_at
  end.

(** src/services/api/app/webhooks/processor.py:497-594 [RazorpayOutboxProcessor._ensure_reconciliation_authorization] *)
Definition ensure_reconciliation_authorization (recovery_case : RecoveryCase)
  : P RecoveryActionRecord :=
  existing ← query (fun d => row_where
    (fun a => eqs (act_idempotency_key a) (reconciliation_key recovery_case)) (db_actions d));
  match existing with
  | Some action =>
      policies ← query (fun d => take 2 (policies_of recovery_case action (db_policies d)));
      _ ← reject (negb (eqs (act_case_id action) (rc_id recovery_case))
                  || negb (eqs (act_action_type action) RecoveryActionType.WAIT_FOR_GATEWAY_RETRY)
                  || negb (eqs (act_payment_surface_type action) None)
                  || match policies with
                     | [p] => negb (eqs (pol_disposition p) PolicyDisposition.ALLOW)
                     | _ => true
                     end)
            "RAZORPAY_RECONCILIATION_POLICY_SCOPE_INVALID"
            "Authoritative success has no exact reconciliation-only authorization.";
      let action := action <| act_status := ActionStatus.SCHEDULED |>
                      <| act_scheduled_for := None |> <| act_completed_at := None |> in
      _ ← save_action action;
      mret action
  | None =>
      now ← reading clock;
      evaluated_at ← query (after_latest_wait recovery_case now);
      let action := reconciliation_action recovery_case evaluated_at in
      _ ← add_authorization action (reconciliation_policy recovery_case action evaluated_at);
      mret action
  end.

(** ** One step of the poller *)

Definition on_outbox (id : string) (f : OutboxMessage -> OutboxMessage) : P unit :=
  write (fun d => d <| db_outbox ::= update_where (fun o => eqs (out_id o) id) f |>).
Definition on_inbox (id : string) (f : WebhookInboxEntry -> WebhookInboxEntry) : P unit :=
  write (fun d => d <| db_inbox ::= update_where (fun i => eqs (inb_id i) id) f |>).

(** src/services/api/app/webhooks/processor.py:151-164 [RazorpayOutboxProcessor.process_next]:
    the oldest available message no other poller has locked. *)
Definition next_message (now : Z) (d : Db) : option OutboxMessage :=
  head (sorted_on (fun o => (out_available_at o, (out_created_at o, out_id o)))
    (cmp_lex Z.compare (cmp_lex Z.compare cmp_string))
    (rows_where (fun o => eqs (out_aggregate_type o) "razorpay_webhook"
       && eqs (out_event_type o) "RAZORPAY_WEBHOOK_RECEIVED"
       && eqs (out_published_at o) None && (out_available_at o <=? now)
       && negb (locked (out_id o))) (db_outbox d))).

(** [effects.get("dispatch_required") is True] *)
Definition dispatch_required (e : effects) : bool :=
  match assoc_get "dispatch_required" e with Some (JBool true) => true | _ => false end.

(** src/services/api/app/webhooks/processor.py:177-219 [RazorpayOutboxProcessor.process_next]:
    the authorization the event needs, and the effects that name it. *)
Definition authorize (payload : RazorpayOutboxPayload) (correlation : Correlation) (e : effects)
  : P (effects * bool) :=
  let event := op_event payload in
  if eqs (ne_event_type event) "payment.failed" then
    recovery_case ← found (cor_recovery_case correlation) "RAZORPAY_FAILURE_CASE_NOT_CREATED"
      "payment.failed did not produce an invoice-scoped recovery case.";
    action ← ensure_initial_recommendation (op_merchant_id payload) recovery_case;
    mret (dict_merge e [("recommended_action_id", JStr (act_id action));
           ("recommended_action_type", JStr (RecoveryActionType_value (act_action_type action)));
           ("recommended_payment_surface_type",
              opt_str (surface_value (act_payment_surface_type action)))], true)
  else if eqs (ne_payment_state event) PaymentState.CAPTURED && dispatch_required e then
    recovery_case ← found (cor_recovery_case correlation) "RAZORPAY_CAPTURE_CASE_NOT_CORRELATED"
      "Authoritative payment success has no recovery case.";
    action ← ensure_reconciliation_authorization recovery_case;
    mret (dict_merge e [("reconciliation_action_id", JStr (act_id action));
           ("recommended_action_type", JStr (RecoveryActionType_value (act_action_type action)));
           ("recommended_payment_surface_type", JNull)], true)
  else mret (e, false).

(** src/services/api/app/webhooks/processor.py:238-241 [RazorpayOutboxProcessor.process_next]:
    the downstream call, recorded with what was committed when it was made. *)
Definition send_signal (signal : RazorpayDownstreamSignal) : P unit :=
  s ← getS;
  _ ← local_set (fun l =>
        l <| loc_sent ::= fun sent => (sent ++ [(signal, ses_committed s)])%list |>);
  confirmed ← reading (fun n => downstream_signal n signal);
  guard_ (negb confirmed) DownstreamSignalError.

(** src/services/api/app/webhooks/processor.py:171-254 [RazorpayOutboxProcessor.process_next]:
    the body of the [try]. *)
Definition process_message (outbox : OutboxMessage) (now : Z) : P OutboxProcessResult :=
  payload ← lift (model_validate (out_payload outbox));
  _ ← local_set (fun l => l <| loc_payload := Some payload |>);
  inbox ← lock_inbox payload;
  correlation ← correlate sha256_hex fetch_invoice_snapshot payload;
  applied ← apply_event payload correlation;
  let correlation : Correlation := snd applied in
  let case_id := rc_id <$> cor_recovery_case correlation in
  _ ← local_set (fun l => l <| loc_case_id := case_id |>);
  authorized ← authorize payload correlation (fst applied);
  _ ← (if snd authorized : bool then
         _ ← on_outbox (out_id outbox) (fun o => o <| out_available_at := now + dispatch_lease |>);
         commit
       else mret tt);
  _ ← on_outbox (out_id outbox) (fun o => o <| out_attempt_count ::= Z.succ |>);
  _ ← send_signal {|
        ds_idempotency_key := out_deduplication_key outbox; ds_merchant_id := op_merchant_id payload;
        ds_provider_event_id := ne_provider_event_id (op_event payload);
        ds_event_type := ne_event_type (op_event payload); ds_case_id := case_id;
        ds_normalized_event := op_event payload; ds_effects := fst authorized |};
  completed_at ← reading clock;
  _ ← on_inbox (inb_id inbox) (fun i => i <| inb_processed_at := Some completed_at |>
                                           <| inb_processing_error_code := None |>);
  _ ← on_outbox (out_id outbox) (fun o => o <| out_published_at := Some completed_at |>
                                             <| out_last_error_code := None |>);
  _ ← commit;
  mret {| opr_outbox_id := out_id outbox; opr_published := true;
          opr_attempt_count := out_attempt_count outbox + 1;
          opr_provider_event_id := Some (ne_provider_event_id (op_event payload));
          opr_case_id := case_id; opr_error_code := None |}.

(** src/services/api/app/webhooks/processor.py:621-622 [RazorpayOutboxProcessor._record_failure] *)
Definition retry_delay (attempt_count : Z) : Z :=
  retry_base_delay * Z.min (2 ^ (attempt_count - 1)) 64.

(** src/services/api/app/webhooks/processor.py:602-629 [RazorpayOutboxProcessor._record_failure] *)
Definition record_outbox_failure (outbox_id : string) (payload : option RazorpayOutboxPayload)
    (code : string) : P Z :=
  outbox ← query (fun d => row_where (fun o => eqs (out_id o) outbox_id) (db_outbox d));
  match outbox with
  | None =>
      _ ← rollback;
      raise (RuntimeError "outbox disappeared while recording a processing failure")
  | Some outbox =>
      let attempt_count := out_attempt_count outbox + 1 in
      now ← reading clock;
      _ ← on_outbox outbox_id (fun o => o <| out_attempt_count := attempt_count |>
            <| out_last_error_code := Some code |> <| out_published_at := None |>
            <| out_available_at := now + retry_delay attempt_count |>);
      _ ← match payload with
          | None => mret tt
          | Some payload =>
              inbox ← find_inbox payload;
              match inbox with
              | None => mret tt
              | Some inbox => on_inbox (inb_id inbox) (fun i => i <| inb_processing_error_code := Some code |>
                                                              <| inb_processed_at := None |>)
              end
          end;
      _ ← commit;
      mret attempt_count
  end.

(** src/services/api/app/webhooks/processor.py:255-270 [RazorpayOutboxProcessor.process_next]:
    the handler. *)
Definition handle_failure (outbox_id : string) (error : exn) : P OutboxProcessResult :=
  _ ← rollback;
  s ← getS;
  let payload := loc_payload (ses_local s) in
  attempt_count ← record_outbox_failure outbox_id payload (error_code error);
  mret {| opr_outbox_id := outbox_id; opr_published := false; opr_attempt_count := attempt_count;
          opr_provider_event_id := (fun p => ne_provider_event_id (op_event p)) <$> payload;
          opr_case_id := loc_case_id (ses_local s); opr_error_code := Some (error_code error) |}.

(** src/services/api/app/webhooks/processor.py:150-270 [RazorpayOutboxProcessor.process_next] *)
Definition process_next : P (option OutboxProcessResult) :=
  now ← reading clock;
  outbox ← query (next_message now);
  match outbox with
  | None => _ ← rollback; mret None
  | Some outbox =>
      Some <$> catch (process_message outbox now) (handle_failure (out_id outbox))
  end.
End processor.
