(* ===== verification/ProcessorFacts.v ===== *)
(** * What outbox processing preserves

    The accounting invariant of the recovery database, and that captured payments,
    collected arrears and recoveries never regress, whatever events are processed in
    whatever order and however they fail. *)
From S2P Require Import Prelude Domain Json QuietHours Safety Diagnose Decision Razorpay Entities Session Inbox Correlation Processor.

(** ** The accounting invariant *)

(** The arrears the ledger recognizes for a case. *)
Definition recognized (case_id : string) (l : list RevenueRecognitionRecord) : Z :=
  sumZ (rev_amount_paise <$>
    rows_where (fun r => bool_decide (rev_case_id r = case_id) && rev_arrears_collected r) l).
#[global] Arguments recognized : simpl never.
(** The payment a Razorpay recognition is about. *)
Definition payment_key (r : RevenueRecognitionRecord) : option (string * string) :=
  if bool_decide (rev_provider r = "razorpay") then pair (rev_merchant_id r) <$> rev_payment_attempt_id r
  else None.

(** The tables the accounting reads. *)
Abbreviation books := (list RecoveryCase * list RevenueRecognitionRecord *
                       list PaymentAttempt * list Invoice)%type.
Definition books_of (d : Db) : books :=
  (db_cases d, db_recognitions d, db_payments d, db_invoices d).

Record balanced (b : books) : Prop := {
  bal_case_ids : NoDup (map rc_id b.1.1.1);
  bal_payment_ids : NoDup (map pay_id b.1.2);
  bal_invoice_ids : NoDup (map inv_id b.2);
  bal_collected : forall c, c ∈ b.1.1.1 ->
    rc_arrears_collected_paise c = recognized (rc_id c) b.1.1.2;
  bal_bounded : forall c, c ∈ b.1.1.1 ->
    0 <= rc_arrears_collected_paise c <= rc_amount_at_risk_paise c;
  bal_recovered : forall c, c ∈ b.1.1.1 -> rc_case_recovered c = true ->
    rc_amount_at_risk_paise c <= rc_arrears_collected_paise c;
  bal_owned : forall r, r ∈ b.1.1.2 -> exists c, c ∈ b.1.1.1 /\ rc_id c = rev_case_id r;
  bal_once : NoDup (omap payment_key b.1.1.2);
}.

(** ** Progress *)

(** What later contents keep of a case, a payment and an invoice. *)
Record case_le (c c' : RecoveryCase) : Prop := {
  cle_id : rc_id c' = rc_id c;
  cle_risk : rc_amount_at_risk_paise c' = rc_amount_at_risk_paise c;
  cle_collected : rc_arrears_collected_paise c <= rc_arrears_collected_paise c';
  cle_version : rc_version c <= rc_version c';
  cle_captured : rc_payment_state c = PaymentState.CAPTURED -> rc_payment_state c' = PaymentState.CAPTURED;
  cle_recovered : rc_case_recovered c = true -> rc_case_recovered c' = true;
  cle_reactivated : rc_subscription_reactivated c = true -> rc_subscription_reactivated c' = true;
}.
Record payment_le (p p' : PaymentAttempt) : Prop := {
  ple_id : pay_id p' = pay_id p;
  ple_invoice : pay_invoice_id p' = pay_invoice_id p;
  ple_captured : pay_payment_state p = PaymentState.CAPTURED -> pay_payment_state p' = PaymentState.CAPTURED;
}.
Record invoice_le (i i' : Invoice) : Prop := {
  ile_id : inv_id i' = inv_id i;
  ile_amount : inv_amount_paise i' = inv_amount_paise i;
  ile_paid : inv_amount_paid_paise i <= inv_amount_paid_paise i';
}.

(** Every row has a successor. *)
Definition rows_le {R} (le : R -> R -> Prop) (l l' : list R) : Prop :=
  forall r, r ∈ l -> exists r', r' ∈ l' /\ le r r'.

Record books_le (b b' : books) : Prop := {
  ble_cases : rows_le case_le b.1.1.1 b'.1.1.1;
  ble_recognitions : b.1.1.2 `prefix_of` b'.1.1.2;
  ble_payments : rows_le payment_le b.1.2 b'.1.2;
  ble_invoices : rows_le invoice_le b.2 b'.2;
}.

#[export] Instance case_le_preorder : PreOrder case_le.
Proof.
  split; [by split|]. intros c1 c2 c3 [] []. split; try congruence; try lia; auto.
Qed.
#[export] Instance payment_le_preorder : PreOrder payment_le.
Proof. split; [by split|]. intros p1 p2 p3 [] []. split; try congruence; auto. Qed.
#[export] Instance invoice_le_preorder : PreOrder invoice_le.
Proof. split; [by split|]. intros i1 i2 i3 [] []. split; try congruence; lia. Qed.

#[export] Instance rows_le_preorder {R} (le : R -> R -> Prop) `{!PreOrder le} : PreOrder (rows_le le).
Proof.
  split; [intros l r Hr; by exists r|]. intros l1 l2 l3 H12 H23 r Hr.
  destruct (H12 r Hr) as (r2 & Hr2 & L2). destruct (H23 r2 Hr2) as (r3 & Hr3 & L3).
  exists r3. split; [done|]. by transitivity r2.
Qed.
#[export] Instance books_le_preorder : PreOrder books_le.
Proof.
  split.
  - intros b. by split.
  - intros b1 b2 b3 [] []. split; by etransitivity.
Qed.

Lemma rows_le_snoc {R} (le : R -> R -> Prop) `{!PreOrder le} (l : list R) r : rows_le le l (l ++ [r]).
Proof. intros r' Hr'. exists r'. split; [set_solver|done]. Qed.

Lemma rows_le_store {R} (le : R -> R -> Prop) `{!PreOrder le} (key : R -> string) r0 r (l : list R) :
  NoDup (map key l) -> r0 ∈ l -> key r = key r0 -> le r0 r -> rows_le le l (store_row key r l).
Proof.
  intros Hd H0 Hk Hle r' Hr'. unfold store_row. setoid_rewrite elem_of_update_where.
  destruct (decide (key r' = key r)) as [E|E].
  - exists r. split.
    + exists r'. split; [done|]. by rewrite bool_decide_eq_true_2.
    + replace r' with r0; [done|]. symmetry. apply (nodup_fmap_inj key l); auto. congruence.
  - exists r'. split; [|done]. exists r'. split; [done|]. by rewrite bool_decide_eq_false_2.
Qed.

Lemma elem_of_store {R} (key : R -> string) r0 r (l : list R) :
  r0 ∈ l -> key r = key r0 -> r ∈ store_row key r l.
Proof.
  intros H0 Hk. unfold store_row. apply elem_of_update_where. exists r0. split; [done|].
  by rewrite bool_decide_eq_true_2.
Qed.

(** ** The invariant is kept by each change of the books *)

Lemma unique_ids {R} (key : R -> string) (l : list R) :
  unique_on (fun r => Some (key r)) l = true <-> NoDup (map key l).
Proof.
  unfold unique_on. rewrite bool_decide_eq_true.
  enough (omap (fun r => Some (key r)) l = map key l) as -> by done.
  induction l as [|r l IH]; cbn; [done|]. by f_equal.
Qed.

Lemma consistent_ids d :
  consistent d ->
  NoDup (map rc_id (db_cases d)) /\ NoDup (map pay_id (db_payments d)) /\
  NoDup (map inv_id (db_invoices d)).
Proof.
  intros H. rewrite <- !unique_ids. split; [|split].
  - by constraint d "recovery_cases_pkey".
  - by constraint d "payment_attempts_pkey".
  - by constraint d "invoices_pkey".
Qed.

Lemma recognized_snoc id l r :
  recognized id (l ++ [r])
    = recognized id l
      + (if bool_decide (rev_case_id r = id) && rev_arrears_collected r then rev_amount_paise r else 0).
Proof.
  unfold recognized, rows_where. rewrite List.filter_app, fmap_app, sumZ_app. cbn.
  case_match; cbn; lia.
Qed.

Lemma recognized_unowned id l :
  (forall r, r ∈ l -> rev_case_id r <> id) -> recognized id l = 0.
Proof.
  intros H. unfold recognized, rows_where.
  induction l as [|r l IH]; [done|]. cbn. rewrite bool_decide_eq_false_2 by (apply H; left).
  apply IH. intros r' Hr'. apply H. by right.
Qed.

(** Two cases that the books cannot tell apart. *)
Record same_account (c c' : RecoveryCase) : Prop := {
  sa_le : case_le c c';
  sa_collected : rc_arrears_collected_paise c' = rc_arrears_collected_paise c;
  sa_recovered : rc_case_recovered c' = true ->
    rc_amount_at_risk_paise c' <= rc_arrears_collected_paise c';
}.

Section changes.
Context (cases : list RecoveryCase) (revs : list RevenueRecognitionRecord)
        (pays : list PaymentAttempt) (invs : list Invoice).
Hypothesis H : balanced (cases, revs, pays, invs).

Lemma balanced_payments pays' : NoDup (map pay_id pays') -> balanced (cases, revs, pays', invs).
Proof. destruct H. by split. Qed.
Lemma balanced_invoices invs' : NoDup (map inv_id invs') -> balanced (cases, revs, pays, invs').
Proof. destruct H. by split. Qed.

Lemma balanced_store_case c0 c :
  c0 ∈ cases -> same_account c0 c -> balanced (store_row rc_id c cases, revs, pays, invs).
Proof.
  intros H0 [[] Hs Hr]. destruct H as [B1 B2 B3 B4 B5 B6 B7 B8]. cbn in *. split; cbn; try done.
  - by rewrite store_row_keys.
  - intros c' [->|[Hc' _]]%elem_of_store_row; [|auto]. rewrite Hs, cle_id0. auto.
  - intros c' [->|[Hc' _]]%elem_of_store_row; [|auto]. rewrite Hs, cle_risk0. auto.
  - intros c' [->|[Hc' _]]%elem_of_store_row; [done|auto].
  - intros r Hrev. destruct (B7 r Hrev) as (c' & Hc' & Hid).
    destruct (decide (rc_id c' = rc_id c)) as [E|E].
    + exists c. split; [by eapply elem_of_store|]. congruence.
    + exists c'. split; [|done]. unfold store_row. apply elem_of_update_where. exists c'.
      by rewrite bool_decide_eq_false_2.
Qed.

Lemma balanced_snoc_case c :
  NoDup (map rc_id (cases ++ [c])) -> rc_arrears_collected_paise c = 0 ->
  0 <= rc_amount_at_risk_paise c -> rc_case_recovered c = false ->
  balanced (cases ++ [c], revs, pays, invs).
Proof.
  intros Hd Hz Hn Hr. destruct H as [B1 B2 B3 B4 B5 B6 B7 B8]. cbn in *.
  assert (forall c', c' ∈ cases -> rc_id c' <> rc_id c) as Hfresh.
  { rewrite map_app in Hd. apply NoDup_app in Hd as (_ & Hd & _). intros c' Hc' E.
    apply (Hd (rc_id c')); [by apply list_elem_of_fmap_2|]. cbn. rewrite E. left. }
  split; cbn; try done.
  - intros c' [Hc'| ->%list_elem_of_singleton]%elem_of_app; [auto|].
    rewrite Hz. symmetry. apply recognized_unowned. intros r Hrev.
    destruct (B7 r Hrev) as (c' & Hc' & <-). auto.
  - intros c' [Hc'| ->%list_elem_of_singleton]%elem_of_app; [auto|lia].
  - intros c' [Hc'| ->%list_elem_of_singleton]%elem_of_app; [auto|congruence].
  - intros r Hrev. destruct (B7 r Hrev) as (c' & Hc' & Hid). exists c'. set_solver.
Qed.

(** A new recognition with the arrears it adds to its case. *)
Lemma balanced_recognize c0 c r :
  c0 ∈ cases -> rc_id c = rc_id c0 -> rev_case_id r = rc_id c0 -> rev_arrears_collected r = true ->
  rc_arrears_collected_paise c = rev_amount_paise r + rc_arrears_collected_paise c0 ->
  0 <= rev_amount_paise r -> rc_arrears_collected_paise c <= rc_amount_at_risk_paise c ->
  (rc_case_recovered c = true -> rc_amount_at_risk_paise c <= rc_arrears_collected_paise c) ->
  (forall k, payment_key r = Some k -> forall r', r' ∈ revs -> payment_key r' <> Some k) ->
  balanced (store_row rc_id c cases, revs ++ [r], pays, invs).
Proof.
  intros H0 Hid0 Hcase Harr Hsum Hnn Hle Hrec Hkey. destruct H as [B1 B2 B3 B4 B5 B6 B7 B8]. cbn in *.
  split; cbn; try done.
  - by rewrite store_row_keys.
  - intros c' Hc'. rewrite recognized_snoc, Hcase, Harr, andb_true_r.
    apply elem_of_store_row in Hc' as [->|[Hc' Hne]].
    + rewrite bool_decide_eq_true_2 by done. rewrite Hsum, Hid0, <- B4 by done. lia.
    + rewrite bool_decide_eq_false_2 by congruence. rewrite <- B4 by done. lia.
  - intros c' [->|[Hc' _]]%elem_of_store_row; [|auto]. specialize (B5 c0 H0). lia.
  - intros c' [->|[Hc' _]]%elem_of_store_row; [done|auto].
  - intros r' Hr'. assert (exists c', c' ∈ cases /\ rc_id c' = rev_case_id r') as (c' & Hc' & Hid).
    { apply elem_of_app in Hr' as [Hr'| ->%list_elem_of_singleton]; [auto|by exists c0]. }
    destruct (decide (rc_id c' = rc_id c)) as [E|E].
    + exists c. split; [by eapply elem_of_store|]. congruence.
    + exists c'. split; [|done]. unfold store_row. apply elem_of_update_where. exists c'.
      by rewrite bool_decide_eq_false_2.
  - rewrite omap_app. cbn. destruct (payment_key r) as [k|] eqn:Ek; [|by rewrite app_nil_r].
    apply NoDup_app. split; [done|]. split; [|apply NoDup_singleton].
    intros k' (r' & Hr' & Hk')%list_elem_of_omap ->%list_elem_of_singleton. by eapply Hkey.
Qed.
End changes.

(** ** Triples over the books *)

Section books.
Context (b0 : books).

(** Balanced, and nothing of [b0] lost. *)
Definition good (b : books) : Prop := balanced b /\ books_le b0 b.
Abbreviation state := (session processing).
Definition safe (s : state) : Prop := good (books_of (ses_committed s)).
(** The working books are [b], the committed ones are good. *)
Definition on_books (b : books) (s : state) : Prop := books_of (ses_db s) = b /\ safe s.
Definition view (s : state) : books * books := (books_of (ses_db s), books_of (ses_committed s)).

(** From the books [b], [m] ends in books related to them by [R], or fails safely. *)
Definition moves {A} (b : books) (m : P A) (R : A -> books -> Prop) : Prop :=
  hoare (on_books b) m (fun a s => exists b', R a b' /\ on_books b' s) safe.

Lemma moves_bind {A B} b (m : P A) (f : A -> P B) R Q :
  moves b m R -> (forall a b', R a b' -> moves b' (f a) Q) -> moves b (m ≫= f) Q.
Proof.
  intros Hm Hf. eapply hoare_bind; [exact Hm|]. intros a s (b' & HR & Hs). by eapply Hf.
Qed.
Lemma moves_conseq {A} b (m : P A) (R R' : A -> books -> Prop) :
  moves b m R -> (forall a b', R a b' -> R' a b') -> moves b m R'.
Proof.
  intros Hm HR. eapply hoare_conseq; [exact Hm|done| |done]. intros a s (b' & H & Hs). eauto.
Qed.
Lemma moves_ret {A} b (a : A) (R : A -> books -> Prop) : R a b -> moves b (mret a) R.
Proof. intros H s Hs. cbn. eauto. Qed.
Lemma moves_raise {A} b e (R : A -> books -> Prop) : moves b (raise e) R.
Proof. intros s [_ Hs]. done. Qed.
Lemma moves_lift {A} b (m : result A) (R : A -> books -> Prop) :
  (forall a, m = Ok a -> R a b) -> moves b (lift m) R.
Proof. intros H s Hs. cbn. destruct m; [|by destruct Hs]. exists b. auto. Qed.
Lemma moves_guard b c e (R : unit -> books -> Prop) :
  (c = false -> R tt b) -> moves b (guard_ c e) R.
Proof. intros H s Hs. destruct c; cbn; [by destruct Hs|]. exists b. auto. Qed.
Lemma moves_fmap {A B} b (f : A -> B) (m : P A) (R : B -> books -> Prop) :
  moves b m (fun a => R (f a)) -> moves b (f <$> m) R.
Proof.
  intros H. unfold fmap, stx_fmap. eapply moves_bind; [exact H|]. intros a b' HR. by apply moves_ret.
Qed.
Lemma moves_query {A} b (f : Db -> A) (R : A -> books -> Prop) :
  (forall d, books_of d = b -> consistent d -> R (f d) b) -> moves b (query f) R.
Proof.
  intros H s [Hb Hs]. unfold query. stx_unfold. unfold flush.
  destruct (violated (ses_db s)) eqn:E; cbn; [done|]. exists b. split; [by apply H|done].
Qed.
Lemma moves_flush b (R : unit -> books -> Prop) :
  (forall d, books_of d = b -> consistent d -> R tt b) -> moves b flush R.
Proof.
  intros H s [Hb Hs]. unfold flush.
  destruct (violated (ses_db s)) eqn:E; cbn; [done|]. exists b. split; [by eapply H|done].
Qed.
Lemma moves_write b f g (R : unit -> books -> Prop) :
  (forall d, books_of (f d) = g (books_of d)) -> R tt (g b) -> moves b (write f) R.
Proof. intros Hf HR s [Hb Hs]. exists (g b). split; [done|]. split; [|done]. cbn. by rewrite Hf, Hb. Qed.
Lemma moves_keeps {A} b (m : P A) (R : A -> books -> Prop) :
  keeps view m -> (forall a, R a b) -> moves b m R.
Proof.
  intros Hk HR s [Hb Hs]. specialize (Hk s).
  pose proof (f_equal fst Hk) as Hd. pose proof (f_equal snd Hk) as Hc. unfold view in Hd, Hc.
  cbn [fst snd] in Hd, Hc. unfold safe in *. destruct (m s) as [[a|e] s']; cbn [snd] in *.
  - exists b. split; [done|]. split; [congruence|]. unfold safe. by rewrite Hc.
  - by rewrite Hc.
Qed.
Lemma moves_commit b (R : unit -> books -> Prop) :
  good b -> R tt b -> moves b commit R.
Proof.
  intros Hg HR s [Hb Hs]. unfold commit. stx_unfold. unfold flush.
  destruct (violated (ses_db s)); cbn; [done|]. exists b. split; [done|]. split; [done|].
  unfold safe. cbn. by rewrite Hb.
Qed.
Lemma moves_found {A} b (o : option A) code msg (R : A -> books -> Prop) :
  (forall a, o = Some a -> R a b) -> moves b (found o code msg) R.
Proof. intros H. destruct o; [by apply moves_ret, H|apply moves_raise]. Qed.

(** The same, in front of a continuation. *)
Section sequences.
Context {B : Type} (b : books) (Q : B -> books -> Prop).

Lemma then_guard c e (k : unit -> P B) :
  (c = false -> moves b (k tt) Q) -> moves b (guard_ c e ≫= k) Q.
Proof.
  intros H. eapply moves_bind with (R := fun _ b' => c = false /\ b' = b).
  - apply moves_guard. auto.
  - intros [] b' [Hc ->]. auto.
Qed.
Lemma then_lift {A} (m : result A) (k : A -> P B) :
  (forall a, m = Ok a -> moves b (k a) Q) -> moves b (lift m ≫= k) Q.
Proof.
  intros H. eapply moves_bind with (R := fun a b' => m = Ok a /\ b' = b).
  - apply moves_lift. auto.
  - intros a b' [Hc ->]. auto.
Qed.
Lemma then_found {A} (o : option A) code msg (k : A -> P B) :
  (forall a, o = Some a -> moves b (k a) Q) -> moves b (found o code msg ≫= k) Q.
Proof.
  intros H. eapply moves_bind with (R := fun a b' => o = Some a /\ b' = b).
  - apply moves_found. auto.
  - intros a b' [Hc ->]. auto.
Qed.
Lemma then_keeps {A} (m : P A) (k : A -> P B) :
  keeps view m -> (forall a, moves b (k a) Q) -> moves b (m ≫= k) Q.
Proof.
  intros Hk H. eapply moves_bind with (R := fun _ b' => b' = b); [by apply moves_keeps|].
  by intros a b' ->.
Qed.
Lemma then_query {A} (f : Db -> A) (k : A -> P B) :
  (forall d, books_of d = b -> consistent d -> moves b (k (f d)) Q) -> moves b (query f ≫= k) Q.
Proof.
  intros H. eapply moves_bind with
    (R := fun a b' => b' = b /\ exists d, books_of d = b /\ consistent d /\ a = f d).
  - apply moves_query. eauto.
  - intros a b' (-> & d & Hd & Hc & ->). auto.
Qed.
Lemma then_flush (k : unit -> P B) :
  (forall d, books_of d = b -> consistent d -> moves b (k tt) Q) -> moves b (flush ≫= k) Q.
Proof.
  intros H. eapply moves_bind with
    (R := fun _ b' => b' = b /\ exists d, books_of d = b /\ consistent d).
  - apply moves_flush. eauto.
  - intros [] b' (-> & d & Hd & Hc). eauto.
Qed.
Lemma then_write f g (k : unit -> P B) :
  (forall d, books_of (f d) = g (books_of d)) -> moves (g b) (k tt) Q -> moves b (write f ≫= k) Q.
Proof.
  intros Hf H. eapply moves_bind with (R := fun _ b' => b' = g b); [by eapply moves_write|].
  by intros [] b' ->.
Qed.
Lemma then_moves {A} (m : P A) (R : A -> books -> Prop) (k : A -> P B) :
  moves b m R -> (forall a b', R a b' -> moves b' (k a) Q) -> moves b (m ≫= k) Q.
Proof. apply moves_bind. Qed.
End sequences.
End books.

(** Follow a computation up to its queries and its writes of the books. *)
Ltac moves_step :=
  lazymatch goal with
  | |- moves _ _ (flush ≫= _) _ => fail
  | |- moves _ _ (query _ ≫= _) _ => fail
  | |- moves _ _ (raise _) _ => apply moves_raise
  | |- moves _ _ (contract_error _ _) _ => apply moves_raise
  | |- moves _ _ (guard_ _ _ ≫= _) _ => apply then_guard; intros ?
  | |- moves _ _ (reject _ _ _ ≫= _) _ => apply then_guard; intros ?
  | |- moves _ _ (lift _ ≫= _) _ => apply then_lift; intros ? ?
  | |- moves _ _ (found _ _ _ ≫= _) _ => apply then_found; intros ? ?
  | |- moves _ _ (_ ≫= _) _ => apply then_keeps; [solve [keeps]|intros ?]
  end.
Ltac moves_auto := repeat moves_step.

(** ** Correlation *)

Definition loaded (cor : Correlation) (b : books) : Prop :=
  (forall c, cor_recovery_case cor = Some c -> c ∈ b.1.1.1) /\
  (forall i, cor_invoice cor = Some i -> i ∈ b.2).

Lemma good_invoices b0 cases revs pays invs invs' :
  good b0 (cases, revs, pays, invs) -> NoDup (map inv_id invs') -> rows_le invoice_le invs invs' ->
  good b0 (cases, revs, pays, invs').
Proof.
  intros [Hb Hle] Hd Hi. split; [by eapply balanced_invoices|]. etransitivity; [exact Hle|].
  split; cbn; try done.
Qed.

Section correlation.
Context (sha256_hex : string -> string)
        (fetch_invoice_snapshot : option (nat -> string -> string -> result InvoiceSnapshot))
        (b0 : books).

Lemma moves_issue_invoice b merchant snapshot subscription :
  good b0 b ->
  moves b0 b (issue_invoice sha256_hex merchant snapshot subscription)
    (fun p b' => good b0 b' /\ fst p ∈ b'.2 /\ b'.1.1.1 = b.1.1.1).
Proof.
  intros Hg. destruct b as [[[cases revs] pays] invs]. unfold issue_invoice. cbv zeta.
  eapply then_moves with (R := fun _ b' => b' = (cases, revs, pays, invs)).
  { case_match; [|by apply moves_ret]. apply moves_fmap. by apply moves_lift. }
  intros due_at ? ->. set (i := {| inv_id := _ |}).
  apply then_write with (g := fun b => (b.1, b.2 ++ [i])%list); [done|]. cbn [fst snd].
  moves_auto. apply then_flush. intros d Hd Hc. apply moves_ret. cbn [fst snd]. split.
  - eapply good_invoices; [exact Hg| |by apply rows_le_snoc; apply _].
    apply consistent_ids in Hc as (_ & _ & Hi). by injection Hd as _ _ _ <-.
  - split; [set_solver|done].
Qed.

Lemma row_in {R} (p : R -> bool) (l : list R) r : row_where p l = Some r -> r ∈ l.
Proof. by intros [? _]%row_where_Some. Qed.

Lemma moves_hydrate b payload :
  good b0 b ->
  moves b0 b (hydrate_webhook_invoice sha256_hex fetch_invoice_snapshot payload)
    (fun p b' => good b0 b' /\ fst p ∈ b'.2 /\ b'.1.1.1 = b.1.1.1).
Proof.
  intros Hg. unfold hydrate_webhook_invoice, invoice_of. cbv zeta.
  destruct (ne_invoice_id _) as [iid|]; [|apply moves_raise].
  destruct fetch_invoice_snapshot as [fetch|]; [|apply moves_raise].
  moves_auto. apply then_query. intros d Hd _.
  destruct (row_where _ (db_invoices d)) as [i|] eqn:Ei; [|by apply moves_issue_invoice].
  moves_auto. apply moves_ret. split; [done|]. split; [|done]. apply row_in in Ei.
  by subst b.
Qed.

Lemma moves_invoice b payload named :
  good b0 b ->
  moves b0 b (correlated_invoice sha256_hex fetch_invoice_snapshot payload named)
    (fun o b' => good b0 b' /\ (forall i, o = Some i -> i ∈ b'.2) /\ b'.1.1.1 = b.1.1.1).
Proof.
  intros Hg. unfold correlated_invoice. cbv zeta.
  destruct (truthy (ne_invoice_id _)).
  - unfold invoice_of. apply then_query. intros d Hd _.
    destruct (row_where _ (db_invoices d)) as [i|] eqn:Ei.
    + apply moves_ret. split; [done|]. split; [|done]. intros i' [= <-]. apply row_in in Ei.
      by subst b.
    + eapply then_moves; [by apply moves_hydrate|]. intros p b' (H1 & H2 & H3).
      apply moves_ret. split; [done|]. split; [|done]. by intros i [= <-].
  - destruct named as [c|]; [|by apply moves_ret]. destruct (truthy _); [|by apply moves_ret].
    apply moves_query. intros d Hd _. split; [done|]. split; [|done].
    intros i Hi%row_in. by subst b.
Qed.

Lemma moves_correlate b payload :
  good b0 b ->
  moves b0 b (correlate sha256_hex fetch_invoice_snapshot payload)
    (fun cor b' => good b0 b' /\ loaded cor b').
Proof.
  intros Hg. unfold correlate.
  eapply then_moves with (R := fun o b' => b' = b /\ forall c, o = Some c -> c ∈ b.1.1.1).
  { unfold named_case. destruct (truthy _); [|by apply moves_ret]. cbv zeta.
    apply then_query. intros d Hd _. apply moves_fmap, moves_found. intros c Hc.
    split; [done|]. intros c' [= <-]. apply row_in in Hc. by subst b. }
  intros named ? [-> Hn]. eapply then_moves; [by apply moves_invoice|].
  intros invoice b1 (Hg1 & Hi & Hc1). rewrite <- Hc1 in Hn.
  apply then_keeps; [unfold correlated_subscription, subscription_of; keeps|]. intros subscription.
  apply then_keeps; [unfold check_agreement, reject; keeps|]. intros [].
  destruct named as [c|]; [by apply moves_ret|].
  unfold case_of_rows. eapply then_moves with
    (R := fun o b' => b' = b1 /\ forall c, o = Some c -> c ∈ b1.1.1.1).
  - destruct invoice as [i|]; [|destruct subscription as [s|]; [|by apply moves_ret]].
    + apply moves_query. intros d Hd _. split; [done|]. intros c Hc%row_in. by subst b1.
    + apply moves_query. intros d Hd _. split; [done|]. intros c Hc%head_Some_elem_of.
      rewrite sorted_on_perm in Hc. apply list_elem_of_In, List.filter_In in Hc as [Hc _].
      apply list_elem_of_In in Hc. by subst b1.
  - intros rc ? [-> Hrc]. by apply moves_ret.
Qed.
End correlation.

(** ** The effects of an event *)

Lemma good_payments b0 cases revs pays invs pays' :
  good b0 (cases, revs, pays, invs) -> NoDup (map pay_id pays') -> rows_le payment_le pays pays' ->
  good b0 (cases, revs, pays', invs).
Proof.
  intros [Hb Hle] Hd Hi. split; [by eapply balanced_payments|]. etransitivity; [exact Hle|].
  split; cbn; try done.
Qed.

Lemma good_store_case b0 cases revs pays invs c0 c :
  good b0 (cases, revs, pays, invs) -> c0 ∈ cases -> same_account c0 c ->
  good b0 (store_row rc_id c cases, revs, pays, invs).
Proof.
  intros [Hb Hle] H0 Hs. split; [by eapply balanced_store_case|]. etransitivity; [exact Hle|].
  split; cbn; try done. destruct Hs as [Hc _ _].
  eapply (rows_le_store case_le rc_id c0); [apply Hb|done|apply Hc|done].
Qed.

Lemma balanced_case_facts b c :
  balanced b -> c ∈ b.1.1.1 ->
  rc_case_recovered c = true -> rc_amount_at_risk_paise c <= rc_arrears_collected_paise c.
Proof. intros H. apply H. Qed.

Section effects.
Context (sha256_hex : string -> string) (new_id : nat -> string) (utc_now : nat -> Z) (b0 : books).

Lemma keeps_audit recovery_case event details :
  keeps view (add_audit_event new_id utc_now recovery_case event details).
Proof. unfold add_audit_event. keeps. Qed.
Lemma keeps_save_subscription s : keeps view (save_subscription s).
Proof. unfold save_subscription. keeps. Qed.
Lemma keeps_call {A} (f : nat -> result A) : keeps view (call f).
Proof. unfold call. keeps. Qed.
#[local] Hint Resolve keeps_audit keeps_save_subscription keeps_call : keeps.

(** Saving a case the books cannot tell from the loaded one. *)
Lemma then_save_case {B} b c0 c (k : unit -> P B) Q :
  good b0 b -> c0 ∈ b.1.1.1 -> same_account c0 c ->
  (forall b', good b0 b' -> c ∈ b'.1.1.1 -> b'.1.1.2 = b.1.1.2 -> b'.1.2 = b.1.2 -> b'.2 = b.2 ->
     moves b0 b' (k tt) Q) ->
  moves b0 b (save_case c ≫= k) Q.
Proof.
  intros Hg H0 Hs Hk. destruct b as [[[cases revs] pays] invs]. unfold save_case.
  apply then_write with (g := fun b => (store_row rc_id c b.1.1.1, b.1.1.2, b.1.2, b.2)); [done|].
  cbn [fst snd] in *. apply Hk; try done.
  - by eapply good_store_case.
  - eapply elem_of_store; [done|apply Hs].
Qed.

(** Saving a payment that stays the one it was. *)
Lemma then_save_payment {B} b p0 p (k : unit -> P B) Q :
  good b0 b -> p0 ∈ b.1.2 -> payment_le p0 p ->
  (forall b', good b0 b' -> b'.1.1 = b.1.1 -> b'.2 = b.2 -> moves b0 b' (k tt) Q) ->
  moves b0 b (save_payment p ≫= k) Q.
Proof.
  intros Hg H0 Hs Hk. destruct b as [[[cases revs] pays] invs]. unfold save_payment.
  apply then_write with (g := fun b => (b.1.1, store_row pay_id p b.1.2, b.2)); [done|].
  cbn [fst snd] in *. apply Hk; try done. eapply good_payments; [exact Hg| |].
  - rewrite store_row_keys. apply Hg.
  - eapply (rows_le_store payment_le pay_id p0); [apply Hg|done|apply Hs|done].
Qed.

(** Adding a payment. *)
Lemma then_add_payment {B} b p (k : unit -> P B) Q :
  good b0 b ->
  (forall b', good b0 b' -> b'.1.1 = b.1.1 -> b'.2 = b.2 -> moves b0 b' (k tt) Q) ->
  moves b0 b (write (fun d => d <| db_payments ::= fun l => (l ++ [p])%list |>) ≫= fun _ =>
              flush ≫= k) Q.
Proof.
  intros Hg Hk. destruct b as [[[cases revs] pays] invs].
  apply then_write with (g := fun b => (b.1.1, (b.1.2 ++ [p])%list, b.2)); [done|].
  cbn [fst snd] in *. apply then_flush. intros d Hd Hc. apply Hk; try done.
  eapply good_payments; [exact Hg| |by apply rows_le_snoc; apply _].
  apply consistent_ids in Hc as (_ & Hi & _). by injection Hd as _ _ <- _.
Qed.

Definition same_but_payments (b b' : books) : Prop := good b0 b' /\ b'.1.1 = b.1.1 /\ b'.2 = b.2.

Lemma moves_record_failed b payload invoice subscription pid currency amount :
  good b0 b ->
  moves b0 b (record_failed_payment sha256_hex payload invoice subscription pid currency amount)
    (fun _ b' => same_but_payments b b').
Proof.
  intros Hg. unfold record_failed_payment, payment_attempt. cbv zeta.
  apply then_query. intros d Hd _.
  destruct (row_where _ (db_payments d)) as [p|] eqn:Ep.
  - destruct (negb (eqs (pay_invoice_id p) _)); [apply moves_raise|].
    destruct (eqs (pay_payment_state p) PaymentState.CAPTURED) eqn:Ec;
      [by apply moves_ret|]. apply bool_decide_eq_false in Ec. cbn [negb].
    apply then_lift. intros [] _; [|by apply moves_ret].
    eapply then_moves with (R := fun _ b' => same_but_payments b b').
    + unfold refresh_failed_payment. cbv zeta. moves_auto.
      apply (then_save_payment b p); [done| | |].
      * apply row_in in Ep. by subst b.
      * split; cbn; [done|done|]. intros E. by destruct (Ec E).
      * intros b' G1 G2 G3. by apply moves_ret.
    + intros p' b' Hb'. by apply moves_ret.
  - eapply then_moves with (R := fun _ b' => same_but_payments b b').
    + unfold insert_failed_payment. cbv zeta. moves_auto.
      apply then_add_payment; [done|]. intros b' G1 G2 G3. by apply moves_ret.
    + intros p' b' Hb'. by apply moves_ret.
Qed.

Lemma moves_create_case b payload invoice subscription payment :
  good b0 b ->
  moves b0 b (create_case_for_failure sha256_hex payload invoice subscription payment)
    (fun c b' => good b0 b' /\ c ∈ b'.1.1.1 /\ rc_case_recovered c = false).
Proof.
  intros Hg. unfold create_case_for_failure. cbv zeta. moves_auto.
  apply then_query. intros d0 _ _. moves_auto. set (c := {| rc_id := _ |}).
  destruct b as [[[cases revs] pays] invs].
  apply then_write with (g := fun b => ((b.1.1.1 ++ [c])%list, b.1.1.2, b.1.2, b.2)); [done|].
  cbn [fst snd] in *. apply then_flush. intros d Hd Hc. apply moves_ret. cbn [fst snd].
  destruct Hg as [Hb Hle]. split; [|split; [set_solver|done]]. split.
  - eapply balanced_snoc_case; try done.
    + apply consistent_ids in Hc as (Hi & _). by injection Hd as <- _ _ _.
    + cbn. bools. lia.
  - etransitivity; [exact Hle|]. split; cbn; try done. by apply rows_le_snoc; apply _.
Qed.

Lemma same_account_refl b c : balanced b -> c ∈ b.1.1.1 -> same_account c c.
Proof. intros Hb Hc. split; [done|done|by apply (bal_recovered b)]. Qed.

Lemma moves_payment_failed b payload cor :
  good b0 b -> loaded cor b ->
  moves b0 b (apply_payment_failed sha256_hex new_id utc_now payload cor) (fun _ b' => good b0 b').
Proof.
  intros Hg [Hlc Hli]. unfold apply_payment_failed. cbv zeta.
  destruct (cor_invoice cor) as [invoice|]; [|apply moves_raise].
  destruct (cor_subscription cor) as [subscription|]; [|apply moves_raise].
  destruct (ne_payment_id _) as [pid|]; [|apply moves_raise].
  destruct (ne_amount_paise _) as [amount|]; [|apply moves_raise].
  destruct (ne_currency _) as [currency|]; [|apply moves_raise].
  moves_step. eapply then_moves; [by apply moves_record_failed|].
  intros [payment applied] b1 (Hg1 & Hb1 & Hi1). cbn [fst snd].
  eapply then_moves with (R := fun c b' => good b0 b' /\ c ∈ b'.1.1.1).
  { destruct (cor_recovery_case cor) as [c|].
    - apply moves_ret. split; [done|]. rewrite Hb1. auto.
    - eapply moves_conseq; [by apply moves_create_case|]. naive_solver. }
  intros c b2 [Hg2 Hc2].
  set (c' := if _ : bool then _ else c).
  assert (same_account c c') as Hsa.
  { pose proof (same_account_refl b2 c (proj1 Hg2) Hc2) as Hr. unfold c'.
    case_match eqn:E; [|done]. bools. destruct Hr as [_ _ Hr]. split; [|done|done].
    split; cbn; try done; lia. }
  apply (then_save_case b2 c c'); [done..|]. intros b3 Hg3 _ _ _ _.
  moves_auto. by apply moves_ret.
Qed.

(** No recognition of the delivery or of the payment yet. *)
Definition unrecognized (merchant event_id payment_id : string) (b : books) : Prop :=
  forall r, r ∈ b.1.1.2 -> rev_merchant_id r = merchant -> rev_provider r = "razorpay" ->
    rev_provider_event_id r <> event_id /\ rev_payment_attempt_id r <> Some payment_id.

Lemma moves_recognize b payload outcome snapshot payment invoice c0 :
  good b0 b -> c0 ∈ b.1.1.1 -> invoice ∈ b.2 ->
  unrecognized (op_merchant_id payload) (ne_provider_event_id (op_event payload)) (pay_id payment) b ->
  moves b0 b (recognize_revenue new_id payload outcome snapshot payment invoice c0)
    (fun c b' => good b0 b' /\ c ∈ b'.1.1.1).
Proof.
  intros Hg H0 Hi Hu. unfold recognize_revenue. cbv zeta. moves_auto. bools.
  set (r := {| rev_id := _ |}). set (i := if _ : bool then _ else _). set (c := set_field _ _).
  destruct b as [[[cases revs] pays] invs]. cbn [fst snd] in *.
  apply then_write with (g := fun b => (b.1.1.1, (b.1.1.2 ++ [r])%list, b.1.2, b.2)); [done|].
  cbn [fst snd]. apply then_flush. intros _ _ _. unfold save_invoice, save_case.
  apply then_write with (g := fun b => (b.1, store_row inv_id i b.2)); [done|].
  apply then_write with (g := fun b => (store_row rc_id c b.1.1.1, b.1.1.2, b.1.2, b.2)); [done|].
  cbn [fst snd]. apply moves_ret. cbn [fst snd].
  assert (invoice_le invoice i) as Hle_i.
  { unfold i. case_match; split; cbn; try done; lia. }
  assert (case_le c0 c) as Hle_c by (split; cbn; try done; lia).
  destruct Hg as [Hb Hle]. split; [|eapply elem_of_store; [exact H0|done]]. split.
  - apply (balanced_invoices _ _ _ invs); [|rewrite store_row_keys; apply Hb].
    eapply (balanced_recognize _ _ _ _ Hb c0); try done; cbn; try lia.
    + intros Hr. pose proof (bal_recovered _ Hb c0 H0 Hr). cbn in *. lia.
    + intros k Hk r' Hr' Hk'. unfold payment_key in Hk, Hk'. cbn in Hk. injection Hk as <-.
      case_bool_decide; [|done]. destruct (rev_payment_attempt_id r') as [pid|] eqn:Ep; [|done].
      injection Hk' as Hm Hp. destruct (Hu r' Hr') as [_ Hn]; [done|done|]. congruence.
  - etransitivity; [exact Hle|]. split; cbn [fst snd].
    + eapply (rows_le_store case_le rc_id c0); [apply Hb|done|apply Hle_c|done].
    + by apply prefix_app_r.
    + done.
    + eapply (rows_le_store invoice_le inv_id invoice); [apply Hb|done|apply Hle_i|done].
Qed.

Lemma moves_converge b event outcome snapshot subscription c0 c :
  good b0 b -> c0 ∈ b.1.1.1 -> same_account c0 c ->
  moves b0 b (converge_case event outcome snapshot subscription c) (fun _ b' => good b0 b').
Proof.
  intros Hg H0 [L A _]. pose proof (bal_recovered b (proj1 Hg) c0 H0) as Hrec.
  unfold converge_case. cbv zeta. apply then_keeps; [keeps|]. intros _.
  set (known := negb _). set (c1 := if known then _ else _).
  assert (case_le c c1 /\ rc_arrears_collected_paise c1 = rc_arrears_collected_paise c) as [L1 A1].
  { unfold c1. destruct known; (split; [|done]); split; cbn; try done; try lia; by intros ->. }
  assert (case_le c0 c1) as L0 by (by transitivity c). destruct L0. clear L1 L.
  destruct (rc_amount_at_risk_paise c1 <=? rc_arrears_collected_paise c1) eqn:E; bools.
  - moves_auto. apply (then_save_case b c0); [done|done| |].
    + split; cbn; [by split|congruence|lia].
    + intros b' Hg' Hc' _ _ _. apply then_flush. intros _ _ _. moves_auto. by apply moves_ret.
  - apply (then_save_case b c0); [done|done| |].
    + assert (rc_case_recovered c0 = true -> False) as Hf by (intros ?%Hrec; lia).
      case_match; split; cbn; try done; try congruence; split; cbn; try done; intros; exfalso; auto.
    + intros b' Hg' Hc' _ _ _. by apply moves_ret.
Qed.

Section captured.
Context (fetch : nat -> string -> option string -> string -> result PaymentSnapshot).

Lemma moves_record_captured b payload invoice subscription snapshot pid :
  good b0 b ->
  moves b0 b (record_captured_payment sha256_hex payload invoice subscription snapshot pid)
    (fun _ b' => same_but_payments b b').
Proof.
  intros Hg. unfold record_captured_payment, payment_attempt. cbv zeta.
  apply then_query. intros d Hd _.
  destruct (row_where _ (db_payments d)) as [p|] eqn:Ep.
  - destruct (negb (eqs (pay_invoice_id p) _)); [apply moves_raise|].
    apply then_lift. intros newer _. apply (then_save_payment b p); [done| | |].
    + apply row_in in Ep. by subst b.
    + destruct newer; by split.
    + intros b' G1 G2 G3. by apply moves_ret.
  - moves_auto. apply then_add_payment; [done|]. intros b' G1 G2 G3. by apply moves_ret.
Qed.

Lemma moves_captured b payload cor :
  good b0 b -> loaded cor b ->
  moves b0 b (apply_captured sha256_hex new_id utc_now fetch payload cor) (fun _ b' => good b0 b').
Proof.
  intros Hg [Hlc Hli]. unfold apply_captured. cbv zeta.
  destruct (cor_recovery_case cor) as [c0|]; [|apply moves_raise].
  destruct (cor_invoice cor) as [invoice|]; [|apply moves_raise].
  destruct (cor_subscription cor) as [subscription|]; [|apply moves_raise].
  apply then_keeps; [unfold confirmed_capture, reject; keeps|].
  intros [[snapshot outcome] pid].
  eapply then_moves; [by apply moves_record_captured|]. intros payment b1 (Hg1 & Hb1 & Hi1).
  assert (c0 ∈ b1.1.1.1) as Hc0 by (rewrite Hb1; auto).
  assert (invoice ∈ b1.2) as Hinv by (rewrite Hi1; auto).
  unfold find_recognition. apply then_query. intros d Hd _.
  set (existing := row_where _ _).
  eapply then_moves with (R := fun c b' => good b0 b' /\ c ∈ b'.1.1.1 \/
     b' = b1 /\ c = (if secondary_case_change outcome snapshot c0
                     then c0 <| rc_version ::= Z.succ |> else c0)).
  { destruct existing as [r|] eqn:Ex.
    - rewrite bool_decide_eq_false_2 by done. apply moves_ret. by right.
    - rewrite bool_decide_eq_true_2 by done. eapply moves_conseq; [apply moves_recognize; try done|auto].
      intros r Hr Hm Hp. subst b1. pose proof (row_where_None _ _ r Ex Hr) as Hn. cbn in Hn.
      rewrite Hm, Hp in Hn. rewrite !bool_decide_eq_true_2 in Hn by done. cbn in Hn. by bools. }
  intros c b2 Hc. eapply then_moves with (R := fun _ b' => good b0 b').
  { destruct Hc as [[Hg2 Hc2]|[-> ->]].
    - apply (moves_converge _ _ _ _ _ c); [done|done|]. by apply (same_account_refl b2); [apply Hg2|].
    - apply (moves_converge _ _ _ _ _ c0); [done|done|].
      destruct (same_account_refl b1 c0 (proj1 Hg1) Hc0) as [_ _ Hr].
      case_match; split; try done; split; cbn; try done; lia. }
  intros c' b3 Hg3. moves_auto. by apply moves_ret.
Qed.
End captured.

(** ** A subscription event *)

Lemma moves_subscription_only b payload cor :
  good b0 b -> loaded cor b ->
  moves b0 b (apply_subscription_only new_id utc_now payload cor) (fun _ b' => good b0 b').
Proof.
  intros Hg [Hlc _]. unfold apply_subscription_only. cbv zeta. moves_step. moves_step.
  apply then_keeps; [unfold newer_processed_subscription_event_exists; keeps|]. intros stale.
  moves_step. eapply then_moves with (R := fun _ b' => good b0 b'); [|intros _ b' Hb'; by apply moves_ret].
  destruct (cor_recovery_case cor) as [c0|]; [|destruct stale; by apply moves_ret].
  specialize (Hlc c0 eq_refl). pose proof (same_account_refl b c0 (proj1 Hg) Hlc) as Hr.
  set (o := if stale then _ else _).
  assert (exists c, o = Some c /\ same_account c0 c) as (c & -> & Hc).
  { destruct stale; [by exists c0|]. eexists. split; [reflexivity|]. destruct Hr as [_ _ Hr].
    split; [|done|done]. split; cbn; try done; lia. }
  apply (then_save_case b c0); [done..|]. intros b' Hg' _ _ _ _.
  by apply moves_keeps; [apply keeps_audit|].
Qed.

Context (fetch : nat -> string -> option string -> string -> result PaymentSnapshot).

Lemma moves_apply_event b payload cor :
  good b0 b -> loaded cor b ->
  moves b0 b (apply_event sha256_hex new_id utc_now fetch payload cor) (fun _ b' => good b0 b').
Proof.
  intros Hg Hl. unfold apply_event. cbv zeta.
  destruct (bool_decide _); [by apply moves_payment_failed|].
  destruct (bool_decide _); [by apply moves_captured|].
  destruct (mem _ _); [by apply moves_subscription_only|apply moves_raise].
Qed.
End effects.

(** ** One step of the poller *)

Section step.
Context (sha256_hex : string -> string) (new_id : nat -> string) (utc_now clock : nat -> Z)
        (model_validate : json -> result RazorpayOutboxPayload)
        (time_fromisoformat : string -> result Z) (isoformat : Z -> string)
        (fetch_payment_snapshot : nat -> string -> option string -> string -> result PaymentSnapshot)
        (fetch_invoice_snapshot : option (nat -> string -> string -> result InvoiceSnapshot))
        (standard_payment_link_lifecycle : bool)
        (downstream_signal : nat -> RazorpayDownstreamSignal -> bool) (locked : string -> bool)
        (tzdb : string -> option ZoneInfo)
        (scorer : RecoveryScoreRequest -> result RecoveryScoreResult)
        (agent_executor_ready : bool) (retry_base_delay dispatch_lease : Z) (global_kill : bool).

Abbreviation authorize := (authorize sha256_hex utc_now clock time_fromisoformat isoformat
  standard_payment_link_lifecycle tzdb scorer agent_executor_ready global_kill).
Abbreviation process_message := (process_message sha256_hex new_id utc_now clock model_validate
  time_fromisoformat isoformat fetch_payment_snapshot fetch_invoice_snapshot
  standard_payment_link_lifecycle downstream_signal tzdb scorer agent_executor_ready
  dispatch_lease global_kill).
Abbreviation handle_failure := (handle_failure clock retry_base_delay).
Abbreviation process_next := (process_next sha256_hex new_id utc_now clock model_validate
  time_fromisoformat isoformat fetch_payment_snapshot fetch_invoice_snapshot
  standard_payment_link_lifecycle downstream_signal locked tzdb scorer agent_executor_ready
  retry_base_delay dispatch_lease global_kill).

Lemma keeps_add_authorization action policy : keeps view (add_authorization action policy).
Proof. unfold add_authorization. keeps. Qed.
Lemma keeps_evaluate merchant_id c : keeps view (evaluate_recommendation clock time_fromisoformat
  standard_payment_link_lifecycle tzdb scorer agent_executor_ready global_kill merchant_id c).
Proof. unfold evaluate_recommendation. keeps. Qed.
#[local] Hint Resolve keeps_add_authorization keeps_evaluate : keeps.
Lemma keeps_initial merchant_id c : keeps view (ensure_initial_recommendation sha256_hex utc_now clock
  time_fromisoformat isoformat standard_payment_link_lifecycle tzdb scorer agent_executor_ready
  global_kill merchant_id c).
Proof. unfold ensure_initial_recommendation, reject. keeps. Qed.
Lemma keeps_reconciliation c : keeps view (ensure_reconciliation_authorization sha256_hex clock c).
Proof. unfold ensure_reconciliation_authorization, save_action, reject. keeps. Qed.
#[local] Hint Resolve keeps_initial keeps_reconciliation : keeps.
Lemma keeps_authorize payload cor e : keeps view (authorize payload cor e).
Proof. unfold Processor.authorize. keeps. Qed.
Lemma keeps_on_outbox id f : keeps view (on_outbox id f).
Proof. unfold on_outbox. keeps. Qed.
Lemma keeps_on_inbox id f : keeps view (on_inbox id f).
Proof. unfold on_inbox. keeps. Qed.
Lemma keeps_send signal : keeps view (send_signal downstream_signal signal).
Proof. unfold send_signal. keeps. Qed.
Lemma keeps_lock_inbox payload : keeps view (lock_inbox payload).
Proof. unfold lock_inbox, find_inbox, reject. keeps. Qed.
#[local] Hint Resolve keeps_authorize keeps_on_outbox keeps_on_inbox keeps_send keeps_lock_inbox : keeps.

Context (b0 : books).

Lemma then_commit {B} b (k : unit -> P B) Q :
  good b0 b -> moves b0 b (k tt) Q -> moves b0 b (commit ≫= k) Q.
Proof.
  intros Hg Hk. eapply then_moves with (R := fun _ b' => b' = b); [by apply moves_commit|].
  by intros [] b' ->.
Qed.

Lemma moves_process_message b outbox now :
  good b0 b -> moves b0 b (process_message outbox now) (fun _ b' => good b0 b').
Proof.
  intros Hg. unfold Processor.process_message. cbv zeta. do 3 moves_step.
  eapply then_moves; [by apply moves_correlate|]. intros cor b1 [Hg1 Hl1].
  eapply then_moves; [by apply moves_apply_event|]. intros [e cor'] b2 Hg2. cbn [fst snd].
  moves_step. moves_step.
  eapply then_moves with (R := fun _ b' => b' = b2).
  { case_match; [|by apply moves_ret]. moves_step. by apply moves_commit. }
  intros _ ? ->. do 5 moves_step. apply then_commit; [done|]. by apply moves_ret.
Qed.

Lemma moves_record_failure b outbox_id payload code :
  good b0 b ->
  moves b0 b (record_outbox_failure clock retry_base_delay outbox_id payload code) (fun _ b' => good b0 b').
Proof.
  intros Hg. unfold record_outbox_failure. cbv zeta. apply then_query. intros d Hd _.
  destruct (row_where _ (db_outbox d)) as [o|].
  - moves_step. moves_step. apply then_keeps.
    { destruct payload; [|apply keeps_ret]. unfold find_inbox. keeps. }
    intros _. apply then_commit; [done|]. by apply moves_ret.
  - eapply then_moves with (R := fun _ b' => good b0 b'); [|intros; apply moves_raise].
    intros s [_ Hs]. cbn. eexists. split; [exact Hs|]. by split.
Qed.

Lemma hoare_handle_failure outbox_id e :
  hoare (safe b0) (handle_failure outbox_id e)
    (fun _ s => exists b', good b0 b' /\ on_books b0 b' s) (safe b0).
Proof.
  intros s Hs. unfold Processor.handle_failure. unfold mbind at 1, stx_bind at 1. cbn [rollback modS].
  set (s' := set_field _ s).
  assert (on_books b0 (books_of (ses_committed s)) s') as Hon by (by split).
  revert Hon. generalize s'. change (moves b0 (books_of (ses_committed s))
    (s ← getS; let payload := loc_payload (ses_local s) in
     attempt_count ← record_outbox_failure clock retry_base_delay outbox_id payload (error_code e);
     mret {| opr_outbox_id := outbox_id; opr_published := false; opr_attempt_count := attempt_count;
             opr_provider_event_id := (fun p => ne_provider_event_id (op_event p)) <$> payload;
             opr_case_id := loc_case_id (ses_local s); opr_error_code := Some (error_code e) |})
    (fun _ b' => good b0 b')).
  apply then_keeps; [apply keeps_getS|]. intros s1. cbv zeta.
  eapply then_moves; [by apply moves_record_failure|]. intros n b' Hb'. by apply moves_ret.
Qed.

Lemma hoare_process_next :
  hoare (fun s => good b0 (books_of (ses_db s)) /\ safe b0 s) process_next
    (fun _ s => good b0 (books_of (ses_db s)) /\ safe b0 s) (safe b0).
Proof.
  intros s [Hg Hs]. set (b := books_of (ses_db s)) in *.
  assert (moves b0 b process_next (fun _ b' => good b0 b')) as H.
  2:{ specialize (H s (conj eq_refl Hs)). destruct (process_next s) as [[a|e] s']; [|done].
      destruct H as (b' & Hb' & [<- ?]). done. }
  unfold Processor.process_next. moves_step. apply then_query. intros d Hd _.
  destruct (next_message locked _ d) as [outbox|].
  - apply moves_fmap. unfold moves. eapply hoare_catch; [by apply moves_process_message|].
    intros e. apply hoare_handle_failure.
  - eapply then_moves with (R := fun _ b' => good b0 b'); [|intros _ b' Hb'; by apply moves_ret].
    intros s0 [_ Hs0]. cbn. eexists. split; [exact Hs0|]. by split.
Qed.

(** The poller: step after step, on whatever other readings of the environment. *)
Fixpoint poll (n : nat) : P unit :=
  match n with
  | O => mret tt
  | S n => _ ← process_next; poll n
  end.

Lemma hoare_poll n :
  hoare (fun s => good b0 (books_of (ses_db s)) /\ safe b0 s) (poll n) (fun _ => safe b0) (safe b0).
Proof.
  induction n as [|n IH].
  - intros s [_ Hs]. exact Hs.
  - cbn [poll]. eapply hoare_bind; [apply hoare_process_next|]. intros ?. exact IH.
Qed.
End step.
