(* ===== verification/ProcessorRuns.v ===== *)
(** * Runs of the outbox poller

    The properties of whole runs: the ledger, the authorization that precedes every
    signal, and what a step records of its outcome; with a demonstration database. *)
From S2P Require Import Prelude Domain Json QuietHours Safety Diagnose Decision Razorpay Entities Session Inbox Correlation Processor ProcessorFacts.

(** C21: on a balanced ledger (each case has collected exactly the arrears its recognitions
    sum to, at most its amount at risk; a payment is recognized at most once; ...) any
    number of poller steps, over any events in any order, any provider and scheduler
    behaviour and any failure, commits a balanced ledger in which nothing is lost: every
    recognition stays, arrears and versions never decrease, captured payments, captured
    cases, reactivations and recoveries stay, and invoices are never unpaid. *)
Theorem ledger_balanced_and_monotone sha256_hex new_id utc_now clock model_validate
    time_fromisoformat isoformat fetch_payment fetch_invoice link_lifecycle downstream locked tzdb
    scorer agent_ready retry_base_delay dispatch_lease global_kill n s r s' :
  ses_db s = ses_committed s -> balanced (books_of (ses_committed s)) ->
  poll sha256_hex new_id utc_now clock model_validate time_fromisoformat isoformat fetch_payment
    fetch_invoice link_lifecycle downstream locked tzdb scorer agent_ready retry_base_delay
    dispatch_lease global_kill n s = (r, s') ->
  balanced (books_of (ses_committed s')) /\
  books_le (books_of (ses_committed s)) (books_of (ses_committed s')).
Proof.
  intros Hd Hb Hrun. set (b0 := books_of (ses_committed s)).
  assert (good b0 b0) as Hg by (by split).
  pose proof (hoare_poll sha256_hex new_id utc_now clock model_validate time_fromisoformat isoformat
    fetch_payment fetch_invoice link_lifecycle downstream locked tzdb scorer agent_ready
    retry_base_delay dispatch_lease global_kill b0 n s) as H.
  rewrite Hrun, Hd in H. specialize (H (conj Hg Hg)). by destruct r.
Qed.

(** ** A demonstration: a capture in two instalments, the second recovering the case *)

Definition demo_case : RecoveryCase := {|
  rc_id := "case_1"; rc_merchant_id := "m1"; rc_customer_id := "cus_1"; rc_subscription_id := "sub_1";
  rc_failed_invoice_id := Some "inv_1"; rc_billing_cycle_key := Some "cycle";
  rc_failed_payment_id := None; rc_case_outcome := CaseOutcome.OPEN;
  rc_payment_state := PaymentState.FAILED; rc_subscription_state := SubscriptionState.HALTED;
  rc_contact_disposition := ContactDisposition.NOT_CONTACTED;
  rc_revenue_attribution := RevenueAttribution.NONE; rc_diagnosis := Diagnosis.UNKNOWN;
  rc_amount_at_risk_paise := 500; rc_arrears_collected_paise := 0; rc_case_recovered := false;
  rc_subscription_reactivated := false; rc_opened_at := 0; rc_recovery_deadline := 3 * day;
  rc_recovered_at := None; rc_version := 1 |}.
Definition demo_capture (id payment : string) : NormalizedRazorpayEvent := {|
  ne_provider_event_id := id; ne_event_type := "payment.captured"; ne_occurred_at := utc_datetime 9;
  ne_account_id := None; ne_merchant_reference := None; ne_case_id := Some "case_1";
  ne_payment_id := Some payment; ne_payment_link_id := None; ne_invoice_id := None;
  ne_subscription_id := None; ne_amount_paise := None; ne_currency := None;
  ne_payment_state := PaymentState.CAPTURED; ne_subscription_state := SubscriptionState.UNKNOWN;
  ne_correlation_kind := INVOICE_AND_SUBSCRIPTION_FROM_PAYMENT;
  ne_requires_authoritative_fetch := true; ne_provider_payload := JObj [] |}.
Definition demo_message (n : Z) (id : string) : Db -> Db :=
  insert_pair (inbox_row ("inbox-" +++ id) "m1" (demo_capture id id) 9)
    (outbox_row demo_digest (fun p => JStr (ne_provider_event_id (op_event p))) ("outbox-" +++ id)
       "m1" (demo_capture id id) n).
Definition demo_db : Db :=
  demo_message 2 "second" (demo_message 1 "first" (empty_db
    <| db_subscriptions := [{| sub_id := "sub_1"; sub_merchant_id := "m1"; sub_customer_id := "cus_1";
         sub_provider_subscription_id := "rsub"; sub_plan_name := "plan"; sub_amount_paise := 500;
         sub_currency := "INR"; sub_subscription_state := SubscriptionState.HALTED;
         sub_current_billing_cycle_key := None |}] |>
    <| db_invoices := [{| inv_id := "inv_1"; inv_merchant_id := "m1"; inv_subscription_id := "sub_1";
         inv_provider_invoice_id := "rinv"; inv_billing_cycle_key := "cycle"; inv_amount_paise := 500;
         inv_amount_paid_paise := 0; inv_currency := "INR"; inv_invoice_state := "issued";
         inv_due_at := None |}] |>
    <| db_cases := [demo_case] |>)).
Definition demo_validate (v : json) : result RazorpayOutboxPayload :=
  match v with
  | JStr id => Ok {| op_merchant_id := "m1"; op_event := demo_capture id id |}
  | _ => Err (ValueError "payload")
  end.
Definition demo_fetch (n : nat) (merchant : string) (payment : option string) (invoice : string)
  : result PaymentSnapshot :=
  Ok {| ps_provider := "razorpay"; ps_payment_id := payment; ps_invoice_id := Some invoice;
        ps_subscription_id := None; ps_payment_state := PaymentState.CAPTURED;
        ps_subscription_state := SubscriptionState.ACTIVE;
        ps_amount_paise := if bool_decide (payment = Some "first") then 200 else 300;
        ps_currency := "INR"; ps_observed_at := utc_datetime 9; ps_authoritative := true |}.
Definition demo_clock (n : nat) : Z := 100 + Z.of_nat n.
Definition demo_poll (n : nat) : P unit :=
  poll demo_digest demo_ids demo_clock demo_clock demo_validate (fun _ => Err (ValueError "time"))
    (fun _ => "") demo_fetch None false (fun _ _ => true) (fun _ => false)
    (fun _ => None) (fun _ => Err (ValueError "scorer")) false 5 300 false n.
Definition idle : processing := {| loc_payload := None; loc_case_id := None; loc_sent := [] |}.
Definition demo_run : result unit * session processing :=
  Eval vm_compute in demo_poll 3 (open_session demo_db idle).

Lemma demo_balanced : balanced (books_of demo_db).
Proof.
  split; cbn.
  - apply NoDup_singleton.
  - apply NoDup_nil_2.
  - apply NoDup_singleton.
  - by intros c ->%list_elem_of_singleton.
  - intros c ->%list_elem_of_singleton. cbn. lia.
  - by intros c ->%list_elem_of_singleton.
  - by intros r ?%not_elem_of_nil.
  - apply NoDup_nil_2.
Qed.

Lemma ledger_balanced_and_monotone_witness :
  fst demo_run = Ok tt /\
  map rc_arrears_collected_paise (db_cases (ses_committed (snd demo_run))) = [500] /\
  balanced (books_of (ses_committed (snd demo_run))) /\
  books_le (books_of demo_db) (books_of (ses_committed (snd demo_run))).
Proof.
  split; [reflexivity|]. split; [reflexivity|].
  apply (ledger_balanced_and_monotone demo_digest demo_ids demo_clock demo_clock demo_validate
    (fun _ => Err (ValueError "time")) (fun _ => "") demo_fetch None false (fun _ _ => true)
    (fun _ => false) (fun _ => None) (fun _ => Err (ValueError "scorer")) false 5 300 false 3
    (open_session demo_db idle) (fst demo_run) (snd demo_run)).
  - reflexivity.
  - apply demo_balanced.
  - vm_compute. reflexivity.
Defined.

(** ** A signal follows its durable authorization *)

(** The action the effects name under [key], of the signal's case, with a policy decision. *)
Definition authorizes (key : string) (signal : RazorpayDownstreamSignal) (d : Db)
    (action_ok : RecoveryActionRecord -> Prop) (policy_ok : PolicyDecisionRecord -> Prop) : Prop :=
  exists c a p, ds_case_id signal = Some c /\
    assoc_get key (ds_effects signal) = Some (JStr (act_id a)) /\
    a ∈ db_actions d /\ act_case_id a = c /\ action_ok a /\
    p ∈ db_policies d /\ pol_case_id p = c /\ pol_action_id p = Some (act_id a) /\ policy_ok p.

(** What is committed when a signal that starts work is sent. *)
Definition authorized_in (lease_end : Z) (signal : RazorpayDownstreamSignal) (d : Db) : Prop :=
  let leased := exists o, o ∈ db_outbox d /\ out_deduplication_key o = ds_idempotency_key signal /\
                  out_published_at o = None /\ out_available_at o = lease_end in
  let state := ne_payment_state (ds_normalized_event signal) in
  if bool_decide (ds_event_type signal = "payment.failed") then
    leased /\ authorizes "recommended_action_id" signal d (fun _ => True) (fun _ => True)
  else if bool_decide (state = PaymentState.CAPTURED) && dispatch_required (ds_effects signal) then
    leased /\ authorizes "reconciliation_action_id" signal d
      (fun a => act_action_type a = RecoveryActionType.WAIT_FOR_GATEWAY_RETRY /\
                act_payment_surface_type a = None /\ act_status a = ActionStatus.SCHEDULED)
      (fun p => pol_disposition p = PolicyDisposition.ALLOW)
  else True.

(** The part of a session the effects of an event leave alone. *)
Definition outgoing (s : session processing) : list (RazorpayDownstreamSignal * Db) * list OutboxMessage :=
  (loc_sent (ses_local s), db_outbox (ses_db s)).

Lemma keeps_outgoing_correlate sha fetch payload : keeps outgoing (correlate sha fetch payload).
Proof. keeps. Qed.
Lemma keeps_outgoing_apply sha ids now fetch payload cor :
  keeps outgoing (apply_event sha ids now fetch payload cor).
Proof. keeps. Qed.
Lemma keeps_outgoing_lock payload : keeps outgoing (lock_inbox payload).
Proof. keeps. Qed.

(** An action of a case with a policy decision about it. *)
Definition has_policy (c : string) (a : RecoveryActionRecord) (d : Db)
    (policy_ok : PolicyDecisionRecord -> Prop) : Prop :=
  a ∈ db_actions d /\ act_case_id a = c /\
  exists p, p ∈ db_policies d /\ pol_case_id p = c /\ pol_action_id p = Some (act_id a) /\ policy_ok p.

Lemma found_Ok {A} (o : option A) code msg (s : session processing) a s' :
  found o code msg s = (Ok a, s') -> s' = s /\ o = Some a.
Proof. destruct o; [by intros [= -> <-]|done]. Qed.

Lemma add_authorization_Ok action policy s u s' :
  add_authorization action policy s = (Ok u, s') ->
  action ∈ db_actions (ses_db s') /\ policy ∈ db_policies (ses_db s').
Proof.
  unfold add_authorization. intros H. runs. cbn. rewrite !elem_of_app, !list_elem_of_singleton. auto.
Qed.

Lemma policies_of_in c a rows p :
  p ∈ policies_of c a rows -> p ∈ rows /\ pol_case_id p = rc_id c /\ pol_action_id p = Some (act_id a).
Proof.
  unfold policies_of, rows_where. rewrite list_elem_of_In, List.filter_In, <- list_elem_of_In.
  intros [Hp Hb]. by bools.
Qed.

(** The part an authorization does not touch afterwards. *)
Definition records (s : session processing) : list RecoveryActionRecord * list PolicyDecisionRecord :=
  (db_actions (ses_db s), db_policies (ses_db s)).

Section dispatch.
Context (sha256_hex : string -> string) (new_id : nat -> string) (utc_now clock : nat -> Z)
        (model_validate : json -> result RazorpayOutboxPayload)
        (time_fromisoformat : string -> result Z) (isoformat : Z -> string)
        (fetch_payment_snapshot : nat -> string -> option string -> string -> result PaymentSnapshot)
        (fetch_invoice_snapshot : option (nat -> string -> string -> result InvoiceSnapshot))
        (standard_payment_link_lifecycle : bool)
        (downstream_signal : nat -> RazorpayDownstreamSignal -> bool) (locked : string -> bool)
        (tzdb : string -> option ZoneInfo)
        (scorer : RecoveryScoreRequest -> result RecoveryScoreResult)
        (agent_executor_ready : bool) (retry_base_delay dispatch_lease : Z) (global_kill : bool).

Abbreviation authorize := (authorize sha256_hex utc_now clock time_fromisoformat isoformat
  standard_payment_link_lifecycle tzdb scorer agent_executor_ready global_kill).
Abbreviation initial := (ensure_initial_recommendation sha256_hex utc_now clock time_fromisoformat
  isoformat standard_payment_link_lifecycle tzdb scorer agent_executor_ready global_kill).
Abbreviation process_message := (process_message sha256_hex new_id utc_now clock model_validate
  time_fromisoformat isoformat fetch_payment_snapshot fetch_invoice_snapshot
  standard_payment_link_lifecycle downstream_signal tzdb scorer agent_executor_ready
  dispatch_lease global_kill).
Abbreviation process_next := (process_next sha256_hex new_id utc_now clock model_validate
  time_fromisoformat isoformat fetch_payment_snapshot fetch_invoice_snapshot
  standard_payment_link_lifecycle downstream_signal locked tzdb scorer agent_executor_ready
  retry_base_delay dispatch_lease global_kill).

Lemma initial_Ok merchant_id c s a s' :
  initial merchant_id c s = (Ok a, s') -> has_policy (rc_id c) a (ses_db s') (fun _ => True).
Proof.
  unfold ensure_initial_recommendation. intros H. apply stx_bind_Ok in H as (o & s1 & Hq & H).
  apply query_Ok in Hq as (-> & Ho & _). destruct o as [a0|].
  - unfold reject in H. cbv zeta in H. runs. subst. bools. unfold has_policy.
    symmetry in Ho. apply head_Some_elem_of in Ho. rewrite sorted_on_perm in Ho.
    apply list_elem_of_In, List.filter_In in Ho as [Ha _].
    split; [by apply list_elem_of_In|]. split; [done|].
    match goal with H : List.length (take 2 ?l) = 1%nat |- _ => destruct l as [|p [|q l']] eqn:E; try discriminate H end.
    all: pose proof (policies_of_in c a0 (db_policies (ses_db s)) p) as Hp; rewrite E in Hp;
      destruct Hp as (Hp1 & Hp2 & Hp3); [left|]; eauto.
  - cbv zeta in H. apply stx_bind_Ok in H as (ev & s2 & _ & H).
    apply stx_bind_Ok in H as (t1 & s3 & _ & H). apply stx_bind_Ok in H as (t2 & s4 & _ & H).
    apply stx_bind_Ok in H as (u & s5 & Hadd & H). apply add_authorization_Ok in Hadd as [Ha Hp].
    runs. subst. cbn. split; [done|]. split; [done|]. by eexists.
Qed.

Lemma reconciliation_Ok c s a s' :
  ensure_reconciliation_authorization sha256_hex clock c s = (Ok a, s') ->
  has_policy (rc_id c) a (ses_db s') (fun p => pol_disposition p = PolicyDisposition.ALLOW) /\
  act_action_type a = RecoveryActionType.WAIT_FOR_GATEWAY_RETRY /\
  act_payment_surface_type a = None /\ act_status a = ActionStatus.SCHEDULED.
Proof.
  unfold ensure_reconciliation_authorization. intros H. apply stx_bind_Ok in H as (o & s1 & Hq & H).
  apply query_Ok in Hq as (-> & Ho & _). destruct o as [a0|].
  - unfold reject, save_action in H. cbv zeta in H. runs. subst. bools. symmetry in Ho. apply row_in in Ho.
    match goal with H : match take 2 ?l with _ => _ end = false |- _ =>
      destruct l as [|p [|q l']] eqn:E; cbn in H; try discriminate H end.
    bools. pose proof (policies_of_in c a0 (db_policies (ses_db s)) p) as Hp. rewrite E in Hp.
    destruct Hp as (Hp1 & Hp2 & Hp3); [left|]. cbn. split; [|done]. split; cbn.
    + by eapply elem_of_store.
    + split; [done|]. by exists p.
  - cbv zeta in H. apply stx_bind_Ok in H as (t & s2 & _ & H). apply stx_bind_Ok in H as (ev & s3 & _ & H).
    apply stx_bind_Ok in H as (u & s4 & Hadd & H). apply add_authorization_Ok in Hadd as [Ha Hp].
    runs. subst. split; [|done]. split; [done|]. split; [done|]. by eexists.
Qed.

(** Look a key up in the effects after an update. *)
Ltac merged := rewrite ?assoc_get_merge_cons, ?assoc_get_merge_nil, ?assoc_get_set; decide_eqs.

(** What a successful authorization established, and for whom. *)
Definition authorization_of (payload : RazorpayOutboxPayload) (cor : Correlation)
    (r : effects * bool) (d : Db) : Prop :=
  let granted key a := exists c, cor_recovery_case cor = Some c /\
    assoc_get key r.1 = Some (JStr (act_id a)) /\ act_case_id a = rc_id c in
  if bool_decide (ne_event_type (op_event payload) = "payment.failed") then
    r.2 = true /\ exists a, granted "recommended_action_id" a /\
      has_policy (act_case_id a) a d (fun _ => True)
  else if bool_decide (ne_payment_state (op_event payload) = PaymentState.CAPTURED)
          && dispatch_required r.1 then
    r.2 = true /\ exists a, granted "reconciliation_action_id" a /\
      has_policy (act_case_id a) a d (fun p => pol_disposition p = PolicyDisposition.ALLOW) /\
      act_action_type a = RecoveryActionType.WAIT_FOR_GATEWAY_RETRY /\
      act_payment_surface_type a = None /\ act_status a = ActionStatus.SCHEDULED
  else True.

Lemma authorize_Ok payload cor e s r s' :
  authorize payload cor e s = (Ok r, s') -> authorization_of payload cor r (ses_db s').
Proof.
  unfold Processor.authorize, authorization_of. cbv zeta.
  destruct (bool_decide (ne_event_type _ = _)).
  - intros (c & s1 & [-> Hc]%found_Ok & H)%stx_bind_Ok.
    apply stx_bind_Ok in H as (a & s2 & Ha%initial_Ok & H). apply ret_Ok in H as [-> ->].
    cbn [fst snd]. split; [done|]. pose proof (proj1 (proj2 Ha)) as Hid. exists a. rewrite Hid.
    split; [|done]. exists c. split; [done|]. by merged.
  - destruct (bool_decide (ne_payment_state _ = _)); cbn [andb].
    2:{ by intros [-> ->]%ret_Ok. }
    destruct (dispatch_required e) eqn:Ed.
    2:{ intros [-> ->]%ret_Ok. cbn [fst]. by rewrite Ed. }
    intros (c & s1 & [-> Hc]%found_Ok & H)%stx_bind_Ok.
    apply stx_bind_Ok in H as (a & s2 & Ha%reconciliation_Ok & H). apply ret_Ok in H as [-> ->].
    cbn [fst snd]. case_match; [|done]. split; [done|]. destruct Ha as [Ha Hrest].
    pose proof (proj1 (proj2 Ha)) as Hid. exists a. rewrite Hid. split; [|done].
    exists c. split; [done|]. by merged.
Qed.

Definition sent_of (s : session processing) := loc_sent (ses_local s).
Definition sent_ok (lease_end : Z) (s : session processing) : Prop :=
  forall signal d, (signal, d) ∈ sent_of s -> authorized_in lease_end signal d.

Lemma keeps_outgoing_authorize payload cor e : keeps outgoing (authorize payload cor e).
Proof. keeps. Qed.

(** The lease and the commit that make an authorization durable. *)
Lemma durable payload cor r outbox now s :
  outgoing s = ([], db_outbox (ses_db s)) -> outbox ∈ db_outbox (ses_db s) ->
  out_published_at outbox = None -> authorization_of payload cor r (ses_db s) ->
  let m := if snd r then _ ← on_outbox (out_id outbox)
                           (fun o => o <| out_available_at := now + dispatch_lease |>); commit
           else mret tt : P unit in
  match m s with
  | (Ok _, s') => sent_of s' = [] /\ forall signal,
      ds_idempotency_key signal = out_deduplication_key outbox ->
      ds_event_type signal = ne_event_type (op_event payload) ->
      ds_case_id signal = rc_id <$> cor_recovery_case cor ->
      ds_normalized_event signal = op_event payload -> ds_effects signal = fst r ->
      authorized_in (now + dispatch_lease) signal (ses_committed s')
  | (Err _, s') => sent_of s' = []
  end.
Proof.
  intros [= Hs] Ho Hp Ha. cbv zeta. fold (sent_of s) in Hs. destruct r as [e b]. cbn [fst snd] in *.
  destruct b.
  - unfold on_outbox, commit. stx_unfold. unfold write, modS, flush.
    set (s1 := set_field _ s). change (sent_of s) with (sent_of s1) in Hs.
    destruct (violated (ses_db s1)); [done|]. split; [done|].
    intros signal Hk Ht Hc Hn He. unfold authorized_in, authorization_of in *. cbn [fst snd] in *.
    rewrite Ht, Hn, He. cbv zeta.
    assert (exists o, o ∈ db_outbox (ses_db s1) /\ out_deduplication_key o = ds_idempotency_key signal /\
              out_published_at o = None /\ out_available_at o = now + dispatch_lease) as Hleased.
    { exists (outbox <| out_available_at := now + dispatch_lease |>). cbn.
      rewrite elem_of_update_where. split; [|by rewrite Hk]. exists outbox.
      by rewrite bool_decide_eq_true_2. }
    case_match.
    + destruct Ha as (_ & a & (c & Hcor & Hact & Hcase) & Hin & _ & p & Hp1 & Hp2 & Hp3 & _).
      split; [done|]. exists (rc_id c), a, p. rewrite Hc, Hcor, He, Hact. rewrite Hcase in Hp2.
      cbn. done.
    + case_match; [|done].
      destruct Ha as (_ & a & (c & Hcor & Hact & Hcase) & (Hin & _ & p & Hp1 & Hp2 & Hp3 & Hp4) & Hw).
      split; [done|]. exists (rc_id c), a, p. rewrite Hc, Hcor, He, Hact. rewrite Hcase in Hp2.
      cbn. done.
  - cbn. split; [done|]. intros signal Hk Ht Hc Hn He.
    unfold authorized_in, authorization_of in *. cbn [fst snd] in *. rewrite Ht, Hn, He.
    case_match; [by destruct Ha|]. case_match; [by destruct Ha|done].
Qed.

Lemma hoare_frame {V A} (v : session processing -> V) (m : P A) (x : V) (E : session processing -> Prop) :
  keeps v m -> (forall s, v s = x -> E s) -> hoare (fun s => v s = x) m (fun _ s => v s = x) E.
Proof.
  intros Hk HE. eapply hoare_conseq; [apply (hoare_keeps v m (fun y => y = x) Hk)|done|done|done].
Qed.

Lemma hoare_sends outbox now rows :
  outbox ∈ rows -> out_published_at outbox = None ->
  hoare (fun s => outgoing s = ([], rows)) (process_message outbox now)
    (fun _ => sent_ok (now + dispatch_lease)) (sent_ok (now + dispatch_lease)).
Proof.
  intros Hrow Hpub. set (E := sent_ok _).
  assert (forall s, outgoing s = ([], rows) -> E s) as HE.
  { intros s [= Hs _] signal d Hin. unfold sent_of in Hin. rewrite Hs in Hin.
    by apply not_elem_of_nil in Hin. }
  unfold Processor.process_message. cbv zeta.
  eapply hoare_bind; [by apply hoare_frame; [keeps|]|]. intros payload.
  eapply hoare_bind; [by apply hoare_frame; [keeps|]|]. intros ?.
  eapply hoare_bind; [by apply hoare_frame; [apply keeps_outgoing_lock|]|]. intros inbox.
  eapply hoare_bind; [by apply hoare_frame; [apply keeps_outgoing_correlate|]|]. intros cor0.
  eapply hoare_bind; [by apply hoare_frame; [apply keeps_outgoing_apply|]|]. intros [e cor].
  cbn [fst snd]. eapply hoare_bind; [by apply hoare_frame; [keeps|]|]. intros ?.
  eapply hoare_bind with (R := fun r s => outgoing s = ([], rows) /\ authorization_of payload cor r (ses_db s)).
  { intros s Hs. pose proof (keeps_outgoing_authorize payload cor e s) as Hk.
    destruct (authorize payload cor e s) as [[r|err] s'] eqn:Er; cbn in Hk; rewrite Hs in Hk; [|auto].
    split; [done|]. by eapply authorize_Ok. }
  intros r. set (signal := {| ds_idempotency_key := _ |}).
  eapply hoare_bind with (R := fun _ s => sent_of s = [] /\
    authorized_in (now + dispatch_lease) signal (ses_committed s)).
  { intros s [Hs Ha]. pose proof (f_equal snd Hs) as Hrows. cbn in Hrows.
    pose proof (durable payload cor r outbox now s) as Hd. rewrite Hrows in Hd.
    specialize (Hd Hs Hrow Hpub Ha). cbv zeta in Hd.
    match goal with |- match ?x with _ => _ end => destruct x as [[u|err] s'] end.
    - destruct Hd as [H1 H2]. split; [done|]. by apply H2.
    - intros sig d Hin. rewrite Hd in Hin. by apply not_elem_of_nil in Hin. }
  intros ?. set (v := fun s => (sent_of s, ses_committed s)).
  eapply hoare_bind with (R := fun _ s => sent_of s = [] /\
    authorized_in (now + dispatch_lease) signal (ses_committed s)).
  { eapply hoare_conseq; [apply (hoare_keeps v _ (fun y => y.1 = [] /\
      authorized_in (now + dispatch_lease) signal y.2)); keeps|done|done|].
    intros s [Hs _] sig d Hin. cbn in Hs. rewrite Hs in Hin. by apply not_elem_of_nil in Hin. }
  intros ?. eapply hoare_bind with (R := fun _ => E).
  { intros s [Hs Ha]. unfold send_signal. stx_unfold. unfold local_set, reading, modS.
    assert (E (s <| ses_local ::= fun l => l <| loc_sent ::=
      fun sent => (sent ++ [(signal, ses_committed s)])%list |> |> <| ses_reads ::= S |>)) as HE'.
    { intros sig d. unfold sent_of in *. cbn. rewrite Hs. cbn.
      by intros [= -> ->]%list_elem_of_singleton. }
    by destruct (negb _). }
  intros ?. eapply hoare_conseq; [apply (hoare_keeps sent_of _ (fun l => forall sig d,
    (sig, d) ∈ l -> authorized_in (now + dispatch_lease) sig d)); keeps|done|done|done].
Qed.

Lemma next_message_in now d o :
  next_message locked now d = Some o ->
  o ∈ db_outbox d /\ out_published_at o = None /\ out_available_at o <= now.
Proof.
  unfold next_message. intros H%head_Some_elem_of. rewrite sorted_on_perm in H.
  apply list_elem_of_In, List.filter_In in H as [Ho H]. bools.
  split; [by apply list_elem_of_In|done].
Qed.

Lemma keeps_sent_failure id e : keeps sent_of (handle_failure clock retry_base_delay id e).
Proof. keeps. Qed.

Lemma next_sends s :
  sent_of s = [] ->
  sent_ok (clock (ses_reads s) + dispatch_lease) (snd (process_next s)).
Proof.
  intros Hs. assert (forall s0, sent_of s0 = [] -> sent_ok (clock (ses_reads s) + dispatch_lease) s0) as H0.
  { intros s0 H signal d Hin. rewrite H in Hin. by apply not_elem_of_nil in Hin. }
  unfold Processor.process_next. unfold mbind at 1, stx_bind at 1. cbn [reading].
  set (s1 := set_field _ s). change (sent_of s) with (sent_of s1) in Hs.
  unfold mbind at 1, stx_bind at 1.
  destruct (query _ s1) as [[o|e] s2] eqn:Eq.
  2:{ pose proof (keeps_query sent_of (next_message locked (clock (ses_reads s))) s1) as Hk.
      rewrite Eq in Hk. cbn in Hk. apply H0. cbn. congruence. }
  apply query_Ok in Eq as (-> & -> & _).
  destruct (next_message locked _ (ses_db s1)) as [outbox|] eqn:En.
  2:{ apply H0. done. }
  apply next_message_in in En as (Hin & Hpub & _).
  assert (outgoing s1 = ([], db_outbox (ses_db s1))) as Ho by (unfold outgoing; by rewrite <- Hs).
  pose proof (hoare_sends outbox (clock (ses_reads s)) _ Hin Hpub s1 Ho) as Hm.
  unfold fmap, stx_fmap, mbind, stx_bind, catch.
  destruct (process_message outbox (clock (ses_reads s)) s1) as [[r|e] s2]; [exact Hm|].
  pose proof (keeps_sent_failure (out_id outbox) e s2) as Hk.
  destruct (handle_failure clock retry_base_delay (out_id outbox) e s2) as [[r|e'] s3];
    cbn in Hk |- *; unfold sent_ok; by rewrite Hk.
Qed.

(** ** The outcome of a step *)

(** What the step does to the message's row: the lease if the event needed one, the
    publication, or the failure. *)
Definition leased (now : Z) (o : OutboxMessage) : OutboxMessage :=
  o <| out_available_at := now + dispatch_lease |>.
Definition published (t : Z) (o : OutboxMessage) : OutboxMessage :=
  o <| out_attempt_count ::= Z.succ |> <| out_published_at := Some t |> <| out_last_error_code := None |>.
Definition failed (t : Z) (code : string) (o : OutboxMessage) : OutboxMessage :=
  o <| out_attempt_count := out_attempt_count o + 1 |> <| out_last_error_code := Some code |>
    <| out_published_at := None |>
    <| out_available_at := t + retry_delay retry_base_delay (out_attempt_count o + 1) |>.

Abbreviation on_row id f := (update_where (fun o => bool_decide (out_id o = id)) f).
Definition queues (s : session processing) : list OutboxMessage * list OutboxMessage :=
  (db_outbox (ses_db s), db_outbox (ses_committed s)).

(** The committed queue when a step fails: untouched, or with the lease. *)
Definition before_outcome (id : string) (now : Z) (rows : list OutboxMessage) (s : session processing) : Prop :=
  db_outbox (ses_committed s) = rows \/ db_outbox (ses_committed s) = on_row id (leased now) rows.

Lemma hoare_outcome outbox now rows :
  hoare (fun s => queues s = (rows, rows)) (process_message outbox now)
    (fun r s => opr_published r = true /\ opr_outbox_id r = out_id outbox /\
       opr_attempt_count r = out_attempt_count outbox + 1 /\ exists t rows',
       (rows' = rows \/ rows' = on_row (out_id outbox) (leased now) rows) /\
       db_outbox (ses_committed s) = on_row (out_id outbox)
         (fun o => o <| out_published_at := Some t |> <| out_last_error_code := None |>)
         (on_row (out_id outbox) (fun o => o <| out_attempt_count ::= Z.succ |>) rows'))
    (before_outcome (out_id outbox) now rows).
Proof.
  set (E := before_outcome _ _ _).
  assert (forall s, queues s = (rows, rows) -> E s) as HE by (intros s [= _ Hs]; by left).
  unfold Processor.process_message. cbv zeta.
  do 7 (eapply hoare_bind; [by apply hoare_frame; [keeps|]|]; intros ?).
  eapply hoare_bind with (R := fun _ s => exists rows', queues s = (rows', rows') /\
    (rows' = rows \/ rows' = on_row (out_id outbox) (leased now) rows)).
  { intros s Hs. destruct (snd _).
    - unfold on_outbox, commit. stx_unfold. unfold write, modS, flush.
      set (s1 := set_field _ s). injection Hs as Hd Hc. destruct (violated (ses_db s1)); [by left|].
      exists (on_row (out_id outbox) (leased now) rows). split; [|by right].
      unfold queues. cbn. by rewrite Hd.
    - exists rows. auto. }
  intros _. apply hoare_exists. intros rows'. apply hoare_pure. intros Hr.
  assert (forall s, snd (queues s) = rows' -> E s) as HE' by (intros s Hs; destruct Hr as [->| ->]; [by left|by right]).
  set (inc := on_row (out_id outbox) (fun o => o <| out_attempt_count ::= Z.succ |>) rows').
  eapply hoare_bind with (R := fun _ s => queues s = (inc, rows')).
  { intros s [= Hd Hc]. unfold queues. cbn. by rewrite Hd, Hc. }
  intros ?. eapply hoare_bind; [apply (hoare_frame queues _ (inc, rows')); [keeps|]|].
  { intros s Hs. apply HE'. by rewrite Hs. }
  intros ?. eapply hoare_bind; [apply (hoare_frame queues _ (inc, rows')); [keeps|]|].
  { intros s Hs. apply HE'. by rewrite Hs. }
  intros t. eapply hoare_bind; [apply (hoare_frame queues _ (inc, rows')); [keeps|]|].
  { intros s Hs. apply HE'. by rewrite Hs. }
  intros ? s [= Hd Hc]. unfold on_outbox, commit. stx_unfold. unfold write, modS, flush.
  set (s1 := set_field _ s). destruct (violated (ses_db s1)); [by apply HE'|].
  split; [done|]. split; [done|]. split; [done|]. exists t, rows'. split; [done|].
  cbn. by rewrite Hd.
Qed.

Lemma retry_delay_bounds n :
  0 <= retry_base_delay -> 1 <= n ->
  retry_base_delay <= retry_delay retry_base_delay n <= 64 * retry_base_delay.
Proof.
  intros Hb Hn. unfold retry_delay. assert (1 <= 2 ^ (n - 1)) by (apply (Z.pow_le_mono_r 2 0); lia).
  nia.
Qed.

Lemma record_failure_Ok id payload code s n s' :
  record_outbox_failure clock retry_base_delay id payload code s = (Ok n, s') ->
  exists o t, o ∈ db_outbox (ses_db s) /\ out_id o = id /\ consistent (ses_db s) /\
    n = out_attempt_count o + 1 /\
    db_outbox (ses_committed s') = on_row id
      (fun o' => o' <| out_attempt_count := n |> <| out_last_error_code := Some code |>
         <| out_published_at := None |>
         <| out_available_at := t + retry_delay retry_base_delay n |>) (db_outbox (ses_db s)).
Proof.
  unfold record_outbox_failure. cbv zeta. intros (o & s1 & (-> & Ho & Hc)%query_Ok & H)%stx_bind_Ok.
  destruct o as [o|].
  2:{ by apply stx_bind_Ok in H as (? & ? & _ & [=]). }
  symmetry in Ho. apply row_where_Some in Ho as [Hin Hid%bool_decide_eq_true].
  apply stx_bind_Ok in H as (t & s2 & [-> Ht]%reading_Ok & H).
  apply stx_bind_Ok in H as (u & s3 & ->%write_Ok & H).
  apply stx_bind_Ok in H as (u2 & s4 & Hm & H).
  set (s3 := set_field _ _) in Hm.
  assert (db_outbox (ses_db s4) = db_outbox (ses_db s3)) as Hk.
  { match type of Hm with ?m _ = _ =>
      assert (keeps (fun s => db_outbox (ses_db s)) m) as Hk by keeps; specialize (Hk s3) end.
    by rewrite Hm in Hk. }
  apply stx_bind_Ok in H as (u3 & s5 & [-> _]%commit_Ok & H). apply ret_Ok in H as [-> ->].
  exists o, t. do 4 (split; [done|]). cbn. by rewrite Hk.
Qed.

Lemma handle_failure_Ok id e s r s' :
  handle_failure clock retry_base_delay id e s = (Ok r, s') ->
  exists o t, o ∈ db_outbox (ses_committed s) /\ out_id o = id /\ consistent (ses_committed s) /\
    opr_published r = false /\ opr_outbox_id r = id /\ opr_error_code r = Some (error_code e) /\
    opr_attempt_count r = out_attempt_count o + 1 /\
    db_outbox (ses_committed s') = on_row id
      (fun o' => o' <| out_attempt_count := opr_attempt_count r |>
         <| out_last_error_code := opr_error_code r |> <| out_published_at := None |>
         <| out_available_at := t + retry_delay retry_base_delay (opr_attempt_count r) |>)
      (db_outbox (ses_committed s)).
Proof.
  unfold handle_failure. intros H. unfold mbind at 1, stx_bind at 1 in H. cbn [rollback modS] in H.
  unfold mbind at 1, stx_bind at 1 in H. cbn [getS] in H.
  apply stx_bind_Ok in H as (n & s1 & H & Hr). apply ret_Ok in Hr as [-> ->].
  apply record_failure_Ok in H as (o & t & Hin & Hid & Hc & Hn & Hrows). cbn in *.
  exists o, t. rewrite Hn in *. done.
Qed.
End dispatch.

(** The queue row of a message after a step. *)
Record outcome_of (retry_base_delay : Z) (o o' : OutboxMessage) (r : OutboxProcessResult) : Prop := {
  oc_id : out_id o' = opr_outbox_id r;
  oc_attempts : out_attempt_count o' = out_attempt_count o + 1;
  oc_reported : opr_attempt_count r = out_attempt_count o + 1;
  oc_published : opr_published r = true ->
    is_Some (out_published_at o') /\ out_last_error_code o' = None;
  oc_failed : opr_published r = false ->
    out_published_at o' = None /\ out_last_error_code o' = opr_error_code r /\
    exists t, out_available_at o' = t + retry_delay retry_base_delay (opr_attempt_count r) /\
      (0 <= retry_base_delay -> 0 <= out_attempt_count o ->
       retry_base_delay <= out_available_at o' - t <= 64 * retry_base_delay);
}.

Lemma outbox_ids_unique d o o' :
  consistent d -> o ∈ db_outbox d -> o' ∈ db_outbox d -> out_id o = out_id o' -> o = o'.
Proof.
  intros Hc Ho Ho' E. refine (unique_on_spec (fun o => Some (out_id o)) (db_outbox d) o o'
    (out_id o) _ Ho Ho' eq_refl _); [|by rewrite E].
  by constraint d "outbox_messages_pkey".
Qed.

(** A step that returns a result took an unpublished message that was due, and the
    committed row of that message counts one more attempt and says what the result says:
    published without an error, or unpublished with the error code and due again after
    a delay between the base delay and 64 times it, doubling with the attempts. *)
Theorem step_outcome_recorded sha256_hex new_id utc_now clock model_validate
    time_fromisoformat isoformat fetch_payment fetch_invoice link_lifecycle downstream locked tzdb
    scorer agent_ready retry_base_delay dispatch_lease global_kill s r s' :
  ses_db s = ses_committed s ->
  process_next sha256_hex new_id utc_now clock model_validate time_fromisoformat isoformat
    fetch_payment fetch_invoice link_lifecycle downstream locked tzdb scorer agent_ready
    retry_base_delay dispatch_lease global_kill s = (Ok (Some r), s') ->
  exists o o', o ∈ db_outbox (ses_committed s) /\ out_published_at o = None /\
    out_available_at o <= clock (ses_reads s) /\ o' ∈ db_outbox (ses_committed s') /\
    outcome_of retry_base_delay o o' r.
Proof.
  intros Hsame. unfold process_next. unfold mbind at 1, stx_bind at 1. cbn [reading].
  set (now := clock (ses_reads s)). set (s1 := set_field _ s).
  intros (m & s2 & (-> & -> & _)%query_Ok & H)%stx_bind_Ok.
  destruct (next_message locked now (ses_db s1)) as [o|] eqn:En.
  2:{ apply stx_bind_Ok in H as (? & ? & _ & H). by apply ret_Ok in H as [_ [=]]. }
  apply next_message_in in En as (Hin & Hpub & Hdue).
  apply stx_bind_Ok in H as (r0 & s3 & H & Hr). apply ret_Ok in Hr as [-> [= ->]].
  set (rows := db_outbox (ses_db s1)) in *.
  assert (queues s1 = (rows, rows)) as Hq by (unfold queues, rows, s1; cbn; by rewrite Hsame).
  pose proof (hoare_outcome sha256_hex new_id utc_now clock model_validate time_fromisoformat
    isoformat fetch_payment fetch_invoice link_lifecycle downstream tzdb scorer agent_ready
    dispatch_lease global_kill o now rows s1 Hq) as Ho.
  unfold catch in H.
  assert (o ∈ db_outbox (ses_committed s)) as Hin' by (rewrite <- Hsame; exact Hin).
  match type of Ho with context [process_message ?a ?b ?c ?d ?e ?f ?g ?h ?i ?j ?k ?l ?m ?n ?p ?q ?t ?u ?v] =>
    destruct (process_message a b c d e f g h i j k l m n p q t u v) as [[r1|err] s4] end.
  - injection H as <- <-. destruct Ho as (Hp & Hid & Hn & t & rows' & Hrows' & Hc).
    assert (exists o1, o1 ∈ rows' /\ out_id o1 = out_id o /\
              out_attempt_count o1 = out_attempt_count o) as (o2 & H2 & Hid2 & Ha2).
    { destruct Hrows' as [->| ->]; [by exists o|]. exists (leased dispatch_lease now o).
      split; [|done]. apply elem_of_update_where. exists o. by rewrite bool_decide_eq_true_2. }
    exists o. eexists. split; [done|]. split; [done|]. split; [done|]. rewrite Hc. split.
    + apply elem_of_update_where. eexists. split.
      * apply elem_of_update_where. exists o2. split; [done|]. rewrite bool_decide_eq_true_2 by done.
        reflexivity.
      * rewrite bool_decide_eq_true_2 by done. reflexivity.
    + split; cbn; try congruence; rewrite ?Hid, ?Ha2; done.
  - apply handle_failure_Ok in H as (o2 & t & H2 & Hid2 & Hcons & Hf & Hid & He & Hn & Hrows).
    assert (exists o3, o3 ∈ db_outbox (ses_committed s4) /\ out_id o3 = out_id o /\
              out_attempt_count o3 = out_attempt_count o) as (o3 & H3 & Hid3 & Ha3).
    { destruct Ho as [->| ->]; [by exists o|]. exists (leased dispatch_lease now o).
      split; [|done]. apply elem_of_update_where. exists o. by rewrite bool_decide_eq_true_2. }
    assert (o2 = o3) as -> by (apply (outbox_ids_unique _ _ _ Hcons); congruence).
    exists o. eexists. split; [done|]. split; [done|]. split; [done|]. rewrite Hrows. split.
    + apply elem_of_update_where. exists o3. split; [done|]. rewrite bool_decide_eq_true_2 by done.
      reflexivity.
    + split; cbn; try congruence. intros _. split; [done|]. split; [done|]. exists t.
      split; [done|]. intros Hb Hz. rewrite Z.add_simpl_l. apply retry_delay_bounds; lia.
Qed.

Definition demo_step (downstream : bool) : result (option OutboxProcessResult) * session processing :=
  process_next demo_digest demo_ids demo_clock demo_clock demo_validate
    (fun _ => Err (ValueError "time")) (fun _ => "") demo_fetch None false (fun _ _ => downstream)
    (fun _ => false) (fun _ => None) (fun _ => Err (ValueError "scorer")) false 5 300 false
    (open_session demo_db idle).
Definition demo_failed_step := Eval vm_compute in demo_step false.

Lemma step_outcome_recorded_witness :
  exists r o o', fst demo_failed_step = Ok (Some r) /\
    opr_error_code r = Some "RAZORPAY_DOWNSTREAM_SIGNAL_FAILED" /\
    o ∈ db_outbox demo_db /\ o' ∈ db_outbox (ses_committed (snd demo_failed_step)) /\
    outcome_of 5 o o' r.
Proof.
  destruct (step_outcome_recorded demo_digest demo_ids demo_clock demo_clock demo_validate
    (fun _ => Err (ValueError "time")) (fun _ => "") demo_fetch None false (fun _ _ => false)
    (fun _ => false) (fun _ => None) (fun _ => Err (ValueError "scorer")) false 5 300 false
    (open_session demo_db idle)
    (match fst demo_failed_step with Ok (Some r) => r | _ =>
       {| opr_outbox_id := ""; opr_published := true; opr_attempt_count := 0;
          opr_provider_event_id := None; opr_case_id := None; opr_error_code := None |} end)
    (snd demo_failed_step)) as (o & o' & H1 & _ & _ & H2 & H3).
  - reflexivity.
  - vm_compute. reflexivity.
  - eexists _, o, o'. split; [reflexivity|]. split; [reflexivity|]. split; [exact H1|].
    split; [exact H2|exact H3].
Defined.

(** C22: every signal a step sends to start work was preceded by a commit: the committed
    database holds the message leased until the end of the dispatch lease and, for a
    failed payment, the recommended action the signal names with a policy decision about
    it; for a capture to dispatch, the reconciliation-only wait action with its ALLOW
    decision.  No signal outruns its durable authorization. *)
Theorem signals_durably_authorized sha256_hex new_id utc_now clock model_validate
    time_fromisoformat isoformat fetch_payment fetch_invoice link_lifecycle downstream locked tzdb
    scorer agent_ready retry_base_delay dispatch_lease global_kill s :
  loc_sent (ses_local s) = [] ->
  let s' := snd (process_next sha256_hex new_id utc_now clock model_validate time_fromisoformat
    isoformat fetch_payment fetch_invoice link_lifecycle downstream locked tzdb scorer agent_ready
    retry_base_delay dispatch_lease global_kill s) in
  forall signal d, (signal, d) ∈ loc_sent (ses_local s') ->
    authorized_in (clock (ses_reads s) + dispatch_lease) signal d.
Proof. intros Hs. apply next_sends. exact Hs. Qed.

Definition demo_sent : list (RazorpayDownstreamSignal * Db) :=
  Eval vm_compute in loc_sent (ses_local (snd (demo_step false))).
Lemma demo_sent_eq : loc_sent (ses_local (snd (process_next demo_digest demo_ids demo_clock demo_clock demo_validate
    (fun _ => Err (ValueError "time")) (fun _ => "") demo_fetch None false (fun _ _ => false)
    (fun _ => false) (fun _ => None) (fun _ => Err (ValueError "scorer")) false 5 300 false
    (open_session demo_db idle)))) = demo_sent.
Proof. vm_compute. reflexivity. Qed.

Lemma signals_durably_authorized_witness :
  exists signal d, demo_sent = [(signal, d)] /\ dispatch_required (ds_effects signal) = true /\
    authorized_in (demo_clock (ses_reads (open_session demo_db idle)) + 300) signal d.
Proof.
  pose proof (signals_durably_authorized demo_digest demo_ids demo_clock demo_clock demo_validate
    (fun _ => Err (ValueError "time")) (fun _ => "") demo_fetch None false (fun _ _ => false)
    (fun _ => false) (fun _ => None) (fun _ => Err (ValueError "scorer")) false 5 300 false
    (open_session demo_db idle) eq_refl) as H.
  cbv zeta in H. rewrite demo_sent_eq in H. eexists _, _. split; [reflexivity|].
  split; [reflexivity|]. apply H. apply list_elem_of_here.
Defined.
