(* ===== verification/CaseRepo.v ===== *)
(** * The case repository

    [services/api/app/repositories/cases.py]: the queries and the atomic writes of
    recovery cases, and [reliability/optimistic.py], the compare-and-swap update.  A
    query reads the working contents of its session after an autoflush. *)
From S2P Require Import Prelude Domain Json Entities Session Cursor.

Abbreviation M := (stx (session unit)).
Abbreviation eqs a b := (bool_decide (a = b)).

(** src/services/api/app/repositories/cases.py:44-49 [CaseFilters] *)
Record CaseFilters : Type := {
  cf_outcomes : list CaseOutcome;
  cf_diagnoses : list Diagnosis;
  cf_subscription_states : list SubscriptionState;
  cf_opened_from : option datetime;
  cf_opened_to : option datetime;
}.

(** src/services/api/app/repositories/cases.py:53-56 [CasePage] *)
Record CasePage : Type := {
  cp_items : list RecoveryCase;
  cp_next_cursor : option string;
  cp_has_more : bool;
}.

(** src/services/api/app/repositories/cases.py:60-67 [CaseAggregate] *)
Record CaseAggregate : Type := {
  agg_recovery_case : RecoveryCase;
  agg_customer : Customer;
  agg_subscription : Subscription;
  agg_invoice : option Invoice;
  agg_failed_payment : option PaymentAttempt;
  agg_latest_action : option RecoveryActionRecord;
  agg_latest_policy : option PolicyDecisionRecord;
}.

(** The first row in an order given by keys, [ORDER BY ... LIMIT 1]. *)
Definition first_by {R K} (key : R -> K) (cmp : K -> K -> comparison) (rows : list R) : option R :=
  head (sorted_on key cmp rows).
Lemma first_by_Some {R K} (key : R -> K) cmp rows r : first_by key cmp rows = Some r -> r ∈ rows.
Proof.
  unfold first_by. intros Hr. rewrite <- (sorted_on_perm key cmp rows).
  destruct (sorted_on key cmp rows); [done|]. injection Hr as ->. by left.
Qed.
(** [ORDER BY at DESC, id DESC] *)
Definition newest_first : Z * string -> Z * string -> comparison :=
  cmp_opp (cmp_lex Z.compare cmp_string).

(** A unit of work inside a savepoint: an integrity error undoes it and is reported. *)
Definition savepoint (m : M unit) : M bool := fun s =>
  match (_ ← flush; _ ← m; flush) s with
  | (Ok _, s') => (Ok true, s')
  | (Err (IntegrityError _), s') => (Ok false, s' <| ses_db := ses_db s |>)
  | (Err e, s') => (Err e, s' <| ses_db := ses_db s |>)
  end.

(** ** Pages *)

Section pages.
Context (json_dumps : json -> string) (json_loads : string -> result json)
        (isoformat : Z -> string) (fromisoformat : string -> result datetime).

(** [if filters.xs: where(column.in_(xs))] *)
Definition in_filter {A} `{EqDecision A} (values : list A) (x : A) : bool :=
  match values with [] => true | _ => mem x values end.

(** src/services/api/app/repositories/cases.py:115-129 [CaseRepository.list_cases]: the
    rows of a merchant that pass the filters. *)
Definition case_selected (merchant_id : string) (filters : CaseFilters) (from to : option Z)
    (c : RecoveryCase) : bool :=
  eqs (rc_merchant_id c) merchant_id
  && in_filter (cf_outcomes filters) (rc_case_outcome c)
  && in_filter (cf_diagnoses filters) (rc_diagnosis c)
  && in_filter (cf_subscription_states filters) (rc_subscription_state c)
  && match from with Some t => t <=? rc_opened_at c | None => true end
  && match to with Some t => rc_opened_at c <=? t | None => true end.

(** src/services/api/app/repositories/cases.py:132-137 [CaseRepository.list_cases]: the
    rows after a position. *)
Definition after_position (position : option (Z * string)) (c : RecoveryCase) : bool :=
  match position with
  | None => true
  | Some (opened_at, case_id) =>
      (rc_opened_at c <? opened_at)
      || ((rc_opened_at c =? opened_at)
          && match cmp_string (rc_id c) case_id with Lt => true | _ => false end)
  end.

Definition bind_optional_utc (value : option datetime) : result (option Z) :=
  match value with None => Ok None | Some d => Some <$> bind_utc d end.

(** src/services/api/app/repositories/cases.py:130-131 [CaseRepository.list_cases] *)
Definition cursor_position (cursor : option string) : result (option (Z * string)) :=
  if truthy cursor then
    decoded ← decode_cursor json_loads fromisoformat (default "" cursor);
    opened_at ← bind_utc (fst decoded);
    mret (Some (opened_at, snd decoded))
  else Ok None.

Definition case_position (c : RecoveryCase) : Z * string := (rc_opened_at c, rc_id c).

(** src/services/api/app/repositories/cases.py:142-147 [CaseRepository.list_cases]: the
    page of the rows fetched. *)
Definition page_of (limit : nat) (rows : list RecoveryCase) : CasePage :=
  let has_more := (limit <? List.length rows)%nat in
  let items := take limit rows in
  {| cp_items := items;
     cp_next_cursor := if has_more then
       (fun c => encode_cursor json_dumps isoformat (rc_opened_at c) (rc_id c)) <$> last items
       else None;
     cp_has_more := has_more |}.

(** src/services/api/app/repositories/cases.py:107-147 [CaseRepository.list_cases] *)
Definition repo_list_cases (merchant_id : string) (filters : CaseFilters) (cursor : option string)
    (limit : nat) : M CasePage :=
  position ← lift (cursor_position cursor);
  from ← lift (bind_optional_utc (cf_opened_from filters));
  to ← lift (bind_optional_utc (cf_opened_to filters));
  rows ← query (fun d => take (limit + 1) (sorted_on case_position newest_first
           (rows_where (fun c => case_selected merchant_id filters from to c
                                 && after_position position c) (db_cases d))));
  mret (page_of limit rows).
End pages.

(** ** Single rows *)

(** src/services/api/app/repositories/cases.py:98-105 [CaseRepository.get_merchant_policy_settings] *)
Definition get_merchant_policy_settings (merchant_id : string)
  : M (option (Merchant * MerchantPolicySetting)) :=
  merchant ← query (fun d => row_where (fun m => eqs (mer_id m) merchant_id) (db_merchants d));
  settings ← query (fun d => row_where (fun s => eqs (mps_merchant_id s) merchant_id)
                               (db_policy_settings d));
  mret (m ← merchant; s ← settings; Some (m, s)).

Definition owned_case (merchant_id case_id : string) (d : Db) : option RecoveryCase :=
  row_where (fun c => eqs (rc_id c) case_id && eqs (rc_merchant_id c) merchant_id) (db_cases d).

(** src/services/api/app/repositories/cases.py:149-158 [CaseRepository.get_case] *)
Definition repo_get_case (merchant_id case_id : string) : M (option RecoveryCase) :=
  query (owned_case merchant_id case_id).

(** src/services/api/app/repositories/cases.py:160-171 [CaseRepository.get_case_for_update] *)
Definition get_case_for_update (merchant_id case_id : string) : M (option RecoveryCase) :=
  query (owned_case merchant_id case_id).

(** src/services/api/app/repositories/cases.py:173-179 [CaseRepository.get_customer_for_update] *)
Definition get_customer_for_update (customer_id : string) : M (option Customer) :=
  query (fun d => row_where (fun c => eqs (cus_id c) customer_id) (db_customers d)).

(** src/services/api/app/repositories/cases.py:197-202 [CaseRepository.get_case_aggregate] *)
Definition latest_action (case_id : string) (d : Db) : option RecoveryActionRecord :=
  first_by (fun a => (act_created_at a, act_id a)) newest_first
    (rows_where (fun a => eqs (act_case_id a) case_id) (db_actions d)).
(** src/services/api/app/repositories/cases.py:203-208 [CaseRepository.get_case_aggregate] *)
Definition latest_policy (case_id : string) (d : Db) : option PolicyDecisionRecord :=
  first_by (fun p => (pol_created_at p, pol_id p)) newest_first
    (rows_where (fun p => eqs (pol_case_id p) case_id) (db_policies d)).

(** [await session.get(...) if key else None] *)
Definition get_optional {R} (table : Db -> list R) (id_of : R -> string) (key : option string)
  : M (option R) :=
  if truthy key then query (fun d => row_where (fun r => eqs (Some (id_of r)) key) (table d))
  else mret None.

(** src/services/api/app/repositories/cases.py:181-219 [CaseRepository.get_case_aggregate] *)
Definition get_case_aggregate (merchant_id case_id : string) : M (option CaseAggregate) :=
  recovery_case ← repo_get_case merchant_id case_id;
  match recovery_case with
  | None => mret None
  | Some c =>
      customer ← query (fun d => row_where (fun r => eqs (cus_id r) (rc_customer_id c)) (db_customers d));
      subscription ← query (fun d => row_where (fun r => eqs (sub_id r) (rc_subscription_id c))
                                       (db_subscriptions d));
      invoice ← get_optional db_invoices inv_id (rc_failed_invoice_id c);
      payment ← get_optional db_payments pay_id (rc_failed_payment_id c);
      action ← query (latest_action case_id);
      policy ← query (latest_policy case_id);
      match customer, subscription with
      | Some customer, Some subscription =>
          mret (Some {| agg_recovery_case := c; agg_customer := customer;
                        agg_subscription := subscription; agg_invoice := invoice;
                        agg_failed_payment := payment; agg_latest_action := action;
                        agg_latest_policy := policy |})
      | _, _ => raise (RuntimeError "recovery case has broken customer/subscription references")
      end
  end.

(** src/services/api/app/repositories/cases.py:221-234 [CaseRepository.timeline] *)
Definition repo_timeline (case_id : string) : M (list RecoveryEventRecord) :=
  query (fun d => sorted_on (fun e => (evr_occurred_at e, (evr_recorded_at e, evr_id e)))
    (cmp_lex Z.compare (cmp_lex Z.compare cmp_string))
    (rows_where (fun e => eqs (evr_case_id e) case_id) (db_events d))).

(** src/services/api/app/repositories/cases.py:236-254 [CaseRepository.add_event] *)
Definition add_event (event : RecoveryEventRecord) : M bool :=
  existing ← (if truthy (evr_source_event_id event) then
    query (fun d => evr_id <$> row_where (fun e => eqs (evr_case_id e) (evr_case_id event)
             && eqs (evr_source_event_id e) (evr_source_event_id event)) (db_events d))
    else mret None);
  if truthy existing then mret false
  else savepoint (write (fun d => d <| db_events ::= fun l => (l ++ [event])%list |>)).

(** src/services/api/app/repositories/cases.py:256-265 [CaseRepository.add_action_with_policy] *)
Definition add_action_with_policy (action : RecoveryActionRecord) (policy : PolicyDecisionRecord)
  : M unit :=
  _ ← write (fun d => d <| db_actions ::= fun l => (l ++ [action])%list |>);
  _ ← flush;
  let policy := policy <| pol_action_id := Some (act_id action) |> in
  _ ← write (fun d => d <| db_policies ::= fun l => (l ++ [policy])%list |>);
  flush.

(** src/services/api/app/repositories/cases.py:267-276 [CaseRepository.get_action]: the lock
    of [for_update] is the database's. *)
Definition get_action (case_id action_id : string) : M (option RecoveryActionRecord) :=
  query (fun d => row_where (fun a => eqs (act_id a) action_id && eqs (act_case_id a) case_id)
                    (db_actions d)).

(** src/services/api/app/repositories/cases.py:278-288 [CaseRepository.get_action_by_idempotency_key] *)
Definition get_action_by_idempotency_key (key : string) : M (option RecoveryActionRecord) :=
  query (fun d => row_where (fun a => eqs (act_idempotency_key a) key) (db_actions d)).

(** src/services/api/app/repositories/cases.py:290-299 [CaseRepository.get_policy_for_action] *)
Definition get_policy_for_action (action_id : string) : M (option PolicyDecisionRecord) :=
  query (fun d => first_by pol_created_at (cmp_opp Z.compare)
    (rows_where (fun p => eqs (pol_action_id p) (Some action_id)) (db_policies d))).

Definition recognition_of (merchant_id provider provider_event_id : string) (d : Db)
  : option RevenueRecognitionRecord :=
  row_where (fun r => eqs (rev_merchant_id r) merchant_id && eqs (rev_provider r) provider
                      && eqs (rev_provider_event_id r) provider_event_id) (db_recognitions d).

(** src/services/api/app/repositories/cases.py:301-317 [CaseRepository.recognize_revenue_once] *)
Definition recognize_revenue_once (record : RevenueRecognitionRecord) : M bool :=
  existing ← query (fun d => rev_id <$> recognition_of (rev_merchant_id record) (rev_provider record)
                                          (rev_provider_event_id record) d);
  if truthy existing then mret false
  else savepoint (write (fun d => d <| db_recognitions ::= fun l => (l ++ [record])%list |>)).

(** src/services/api/app/repositories/cases.py:319-331 [CaseRepository.find_revenue_recognition] *)
Definition find_revenue_recognition (merchant_id provider provider_event_id : string)
  : M (option RevenueRecognitionRecord) :=
  query (recognition_of merchant_id provider provider_event_id).

(** src/services/api/app/repositories/cases.py:333-335 [CaseRepository.add_payment_attempt] *)
Definition add_payment_attempt (payment : PaymentAttempt) : M unit :=
  _ ← write (fun d => d <| db_payments ::= fun l => (l ++ [payment])%list |>);
  flush.

(** src/services/api/app/repositories/cases.py:341-346 [CaseRepository.add_invoice_collection]:
    the invoice after the collection. *)
Definition collect_on_invoice (amount_paise : Z) (invoice : Invoice) : Invoice :=
  let invoice := invoice <| inv_amount_paid_paise :=
    Z.min (inv_amount_paise invoice) (inv_amount_paid_paise invoice + amount_paise) |> in
  if inv_amount_paid_paise invoice =? inv_amount_paise invoice
  then invoice <| inv_invoice_state := "paid" |> else invoice.

(** src/services/api/app/repositories/cases.py:337-346 [CaseRepository.add_invoice_collection] *)
Definition add_invoice_collection (invoice_id : string) (amount_paise : Z) : M unit :=
  invoice ← query (fun d => row_where (fun i => eqs (inv_id i) invoice_id) (db_invoices d));
  match invoice with
  | None => raise (RuntimeError "recovery case has no persisted invoice")
  | Some invoice =>
      write (fun d => d <| db_invoices ::= store_row inv_id (collect_on_invoice amount_paise invoice) |>)
  end.

(** The statuses an action can still be executed or cancelled from. *)
Definition NONTERMINAL_STATUSES : list ActionStatus :=
  [ActionStatus.PROPOSED; ActionStatus.AWAITING_APPROVAL; ActionStatus.SCHEDULED;
   ActionStatus.EXECUTING].

(** src/services/api/app/repositories/cases.py:522-541 [CaseRepository.cancel_nonterminal_actions] *)
Definition cancel_nonterminal_actions (case_id : string) (completed_at : Z) : M unit :=
  _ ← flush;
  write (fun d => d <| db_actions ::= update_where
    (fun a => eqs (act_case_id a) case_id && mem (act_status a) NONTERMINAL_STATUSES)
    (fun a => a <| act_status := ActionStatus.CANCELLED |> <| act_completed_at := Some completed_at |>
                <| act_updated_at := completed_at |>) |>).

(** An assignment to the attributes of a loaded case. *)
Definition save_loaded_case (c : RecoveryCase) : M unit :=
  write (fun d => d <| db_cases ::= store_row rc_id c |>).

(** ** Reports *)

Definition ACTIVE_OUTCOMES : list CaseOutcome := [CaseOutcome.OPEN; CaseOutcome.PARTIALLY_RECOVERED].
Definition VERIFIED_ATTRIBUTIONS : list RevenueAttribution :=
  [RevenueAttribution.RAZORPAY_TEST_VERIFIED; RevenueAttribution.VERIFIED_EXTERNAL].

(** src/services/api/app/repositories/cases.py:350-356 [CaseRepository.dashboard_metrics] *)
Definition remaining_at_risk (c : RecoveryCase) : Z :=
  if rc_arrears_collected_paise c <? rc_amount_at_risk_paise c
  then rc_amount_at_risk_paise c - rc_arrears_collected_paise c else 0.

Definition count_where {R} (p : R -> bool) (rows : list R) : Z :=
  Z.of_nat (List.length (rows_where p rows)).

(** src/services/api/app/repositories/cases.py:377-391 [CaseRepository.dashboard_metrics] *)
Definition verified_revenue (merchant_id : string) (d : Db) : Z :=
  sumZ (rev_amount_paise <$> rows_where
    (fun r => eqs (rev_merchant_id r) merchant_id && rev_arrears_collected r
              && mem (rev_attribution r) VERIFIED_ATTRIBUTIONS) (db_recognitions d)).

(** src/services/api/app/repositories/cases.py:348-412 [CaseRepository.dashboard_metrics] *)
Definition dashboard_metrics (merchant_id : string) : M (list (string * Z)) :=
  cases ← query (fun d => rows_where (fun c => eqs (rc_merchant_id c) merchant_id) (db_cases d));
  let active := fun c => mem (rc_case_outcome c) ACTIVE_OUTCOMES in
  let at_risk := sumZ (remaining_at_risk <$> rows_where active cases) in
  let recovered := count_where (fun c => eqs (rc_case_outcome c) CaseOutcome.RECOVERED) cases in
  let total := Z.of_nat (List.length cases) in
  verified ← query (verified_revenue merchant_id);
  let recorded_intervention_cost_paise := 0 in
  mret [("revenue_at_risk_paise", at_risk);
        ("verified_recovered_revenue_paise", verified);
        ("simulated_incremental_recovery_paise", 0);
        ("net_recovered_value_paise", verified - recorded_intervention_cost_paise);
        ("active_cases", count_where active cases);
        ("recovered_cases", recovered);
        ("total_cases", total);
        ("recovery_rate_basis_points", if total =? 0 then 0 else recovered * 10000 / total)].

(** [SELECT key, aggregate(rows) ... GROUP BY key], in the order of first occurrence. *)
Definition group_by {R K A} `{EqDecision K} (key : R -> K) (agg : list R -> A) (rows : list R)
  : list (K * A) :=
  map (fun k => (k, agg (rows_where (fun r => eqs (key r) k) rows)))
    (remove_dups (map key rows)).

(** src/services/api/app/repositories/cases.py:414-423 [CaseRepository.diagnosis_distribution] *)
Definition diagnosis_distribution (merchant_id : string) : M (list (Diagnosis * Z)) :=
  query (fun d => sorted_on (fun g => Diagnosis_value g.1) cmp_string
    (group_by rc_diagnosis (fun rows => Z.of_nat (List.length rows))
       (rows_where (fun c => eqs (rc_merchant_id c) merchant_id) (db_cases d)))).

(** src/services/api/app/repositories/cases.py:441-471 [CaseRepository.recovery_by_channel]:
    the joined rows, a case with its latest action and each of its verified
    recognitions, or none. *)
Definition channel_rows (merchant_id : string) (d : Db)
  : list (RecoveryCase * RecoveryActionRecord * option RevenueRecognitionRecord) :=
  c ← rows_where (fun c => eqs (rc_merchant_id c) merchant_id) (db_cases d);
  match latest_action (rc_id c) d with
  | None => []
  | Some a =>
      match rows_where (fun r => eqs (rev_case_id r) (rc_id c) && eqs (rev_merchant_id r) merchant_id
              && rev_arrears_collected r && mem (rev_attribution r) VERIFIED_ATTRIBUTIONS)
              (db_recognitions d) with
      | [] => [(c, a, None)]
      | revs => map (fun r => (c, a, Some r)) revs
      end
  end.

(** src/services/api/app/repositories/cases.py:473-485 [CaseRepository.recovery_by_channel] *)
Definition channel_of (action_type : RecoveryActionType) (surface : option PaymentSurfaceType)
  : option string :=
  if eqs action_type RecoveryActionType.START_VOICE then Some "VOICE"
  else if eqs action_type RecoveryActionType.SEND_TO_CUSTOMER_AGENT then Some "CUSTOMER_AGENT"
  else if eqs action_type RecoveryActionType.OPEN_CUSTOMER_PAYMENT_SURFACE
  then PaymentSurfaceType_value <$> surface
  else None.

(** src/services/api/app/repositories/cases.py:425-486 [CaseRepository.recovery_by_channel] *)
Definition recovery_by_channel (merchant_id : string) : M (list (string * Z * Z)) :=
  rows ← query (fun d =>
    group_by (fun row => (act_action_type row.1.2, act_payment_surface_type row.1.2))
      (fun rows => (Z.of_nat (List.length (remove_dups (map (fun row => rc_id row.1.1) rows))),
                    sumZ (map (fun row => match row.2 with Some r => rev_amount_paise r | None => 0 end) rows)))
      (channel_rows merchant_id d));
  mret (omap (fun row => (fun channel => (channel, row.2.1, row.2.2)) <$> channel_of row.1.1 row.1.2) rows).

(** [JOIN recovery_cases ON id = case_id WHERE merchant_id = ...] *)
Definition of_merchant (merchant_id case_id : string) (d : Db) : bool :=
  existsb (fun c => eqs (rc_id c) case_id && eqs (rc_merchant_id c) merchant_id) (db_cases d).

(** src/services/api/app/repositories/cases.py:488-505 [CaseRepository.review_and_block_counts] *)
Definition review_and_block_counts (merchant_id : string) : M (Z * Z) :=
  review_count ← query (fun d => count_where
    (fun a => of_merchant merchant_id (act_case_id a) d
              && eqs (act_status a) ActionStatus.AWAITING_APPROVAL) (db_actions d));
  blocked_count ← query (fun d => count_where
    (fun p => of_merchant merchant_id (pol_case_id p) d
              && eqs (pol_disposition p) PolicyDisposition.BLOCK) (db_policies d));
  mret (review_count, blocked_count).

(** src/services/api/app/repositories/cases.py:507-520 [CaseRepository.recent_events] *)
Definition recent_events (merchant_id : string) (limit : nat) : M (list RecoveryEventRecord) :=
  query (fun d => take limit (sorted_on (fun e => (evr_recorded_at e, evr_id e)) newest_first
    (rows_where (fun e => of_merchant merchant_id (evr_case_id e) d) (db_events d)))).

(** ** Compare-and-swap *)

(** A value of a change, by the column type it fits. *)
Inductive field_value : Type :=
| VCaseOutcome (v : CaseOutcome)
| VPaymentState (v : PaymentState)
| VSubscriptionState (v : SubscriptionState)
| VContactDisposition (v : ContactDisposition)
| VRevenueAttribution (v : RevenueAttribution)
| VInt (v : Z)
| VBool (v : bool)
| VInstant (v : option datetime).

(** src/services/api/app/reliability/optimistic.py:25-37 [_ALLOWED_FIELDS] *)
Definition ALLOWED_FIELDS : list string := [
  "case_outcome"; "payment_state"; "subscription_state"; "contact_disposition";
  "revenue_attribution"; "arrears_collected_paise"; "case_recovered"; "subscription_reactivated";
  "recovered_at"].

(** The binding of a change to its column. *)
Definition bind_change (name : string) (value : field_value) : result (RecoveryCase -> RecoveryCase) :=
  if eqs name "case_outcome" then match value with VCaseOutcome v => Ok (set_field (proj := rc_case_outcome) (fun _ => v)) | _ => Err (TypeError name) end
  else if eqs name "payment_state" then match value with VPaymentState v => Ok (set_field (proj := rc_payment_state) (fun _ => v)) | _ => Err (TypeError name) end
  else if eqs name "subscription_state" then match value with VSubscriptionState v => Ok (set_field (proj := rc_subscription_state) (fun _ => v)) | _ => Err (TypeError name) end
  else if eqs name "contact_disposition" then match value with VContactDisposition v => Ok (set_field (proj := rc_contact_disposition) (fun _ => v)) | _ => Err (TypeError name) end
  else if eqs name "revenue_attribution" then match value with VRevenueAttribution v => Ok (set_field (proj := rc_revenue_attribution) (fun _ => v)) | _ => Err (TypeError name) end
  else if eqs name "arrears_collected_paise" then match value with VInt v => Ok (set_field (proj := rc_arrears_collected_paise) (fun _ => v)) | _ => Err (TypeError name) end
  else if eqs name "case_recovered" then match value with VBool v => Ok (set_field (proj := rc_case_recovered) (fun _ => v)) | _ => Err (TypeError name) end
  else if eqs name "subscription_reactivated" then match value with VBool v => Ok (set_field (proj := rc_subscription_reactivated) (fun _ => v)) | _ => Err (TypeError name) end
  else if eqs name "recovered_at" then match value with VInstant v => (fun t => set_field (proj := rc_recovered_at) (fun _ => t)) <$> bind_optional_utc v | _ => Err (TypeError name) end
  else Err (KeyError name).

(** [dict(changes)] bound to its columns, in order. *)
Fixpoint bind_changes (changes : list (string * field_value)) : result (RecoveryCase -> RecoveryCase) :=
  match changes with
  | [] => Ok id
  | (name, value) :: rest =>
      f ← bind_change name value;
      g ← bind_changes rest;
      mret (fun c => g (f c))
  end.

Definition cas_target (merchant_id case_id : string) (expected_version : Z) (c : RecoveryCase) : bool :=
  eqs (rc_id c) case_id && eqs (rc_merchant_id c) merchant_id && (rc_version c =? expected_version).

(** src/services/api/app/reliability/optimistic.py:40-71 [compare_and_swap_case] *)
Definition compare_and_swap_case (merchant_id case_id : string) (expected_version : Z)
    (changes : list (string * field_value)) : M Z :=
  _ ← guard_ (expected_version <? 1) (ValueError "expected_version must be positive");
  let unknown := rows_where (fun name => negb (mem name ALLOWED_FIELDS)) (map fst changes) in
  _ ← guard_ (negb (eqs unknown [])) (ValueError "unsupported recovery-case fields");
  _ ← guard_ (eqs (List.length changes) 0%nat) (ValueError "at least one change is required");
  values ← lift (bind_changes changes);
  rowcount ← query (fun d => List.length (rows_where (cas_target merchant_id case_id expected_version)
                                            (db_cases d)));
  _ ← write (fun d => d <| db_cases ::= update_where (cas_target merchant_id case_id expected_version)
        (fun c => values c <| rc_version := expected_version + 1 |>) |>);
  _ ← flush;
  _ ← guard_ (negb (Nat.eqb rowcount 1)) (OptimisticVersionConflict case_id expected_version);
  mret (expected_version + 1).
