(* ===== verification/Cases.v ===== *)
(** * The case service

    [services/api/app/services/cases.py]: the commands and queries of operators and of
    the mock payment provider on a recovery case, each one transaction of its session.
    A moment the caller may leave out is read from the clock. *)
From S2P Require Import Prelude Domain Json QuietHours Safety Decision Entities Session Cursor CaseRepo.

(** src/services/api/app/services/cases.py:63-65 [CaseNotFoundError] *)
Definition CaseNotFoundError (msg : string) : exn := ApplicationServiceError "RESOURCE_NOT_FOUND" msg.
(** src/services/api/app/services/cases.py:68-70 [CaseConflictError] *)
Definition CaseConflictError (msg : string) : exn := ApplicationServiceError "VERSION_CONFLICT" msg.
(** src/services/api/app/services/cases.py:78-80 [CaseAlreadyRecoveredError] *)
Definition CaseAlreadyRecoveredError (msg : string) : exn :=
  ApplicationServiceError "CASE_ALREADY_RECOVERED" msg.

(** src/services/api/app/services/cases.py:83-88 [DashboardSnapshot] *)
Record DashboardSnapshot : Type := {
  dsh_metrics : list (string * Z);
  dsh_diagnosis_distribution : list (Diagnosis * Z);
  dsh_recovery_by_channel : list (string * Z * Z);
  dsh_recent_events : list RecoveryEventRecord;
}.

(** src/services/api/app/services/cases.py:91-95 [PaymentSuccessResult] *)
Record PaymentSuccessResult : Type := {
  psr_recovery_case : RecoveryCase;
  psr_newly_recognized : bool;
  psr_recognized_amount_paise : Z;
}.

(** The value found, or [CaseNotFoundError]. *)
Definition found_or_404 {A} (o : option A) (msg : string) : M A :=
  match o with Some a => mret a | None => raise (CaseNotFoundError msg) end.

Section service.
(** The supplies of identifiers and of the column-default clock, and the clock. *)
Context (new_id : nat -> string) (utc_now clock : nat -> Z).
Context (sha256_hex : string -> string) (time_fromisoformat : string -> result Z)
        (isoformat : Z -> string) (fromisoformat : string -> result datetime)
        (json_dumps : json -> string) (json_loads : string -> result json).
(** The decision engine, and what the provider and the configuration offer. *)
Context (tzdb : string -> option ZoneInfo) (scorer : RecoveryScoreRequest -> result RecoveryScoreResult)
        (standard_payment_link_lifecycle agent_executor_ready kill_switch : bool).

(** [now or datetime.now(UTC)] *)
Definition moment (now : option Z) : M Z :=
  match now with Some t => mret t | None => reading clock end.

(** An event of a case and its insertion. *)
Definition record_event (case_id event_type source : string) (kind : EvidenceKind) (payload : json)
    (occurred_at : Z) (source_event_id : string) : M bool :=
  id ← reading new_id;
  recorded_at ← reading utc_now;
  add_event {|
    evr_id := id; evr_case_id := case_id; evr_event_type := event_type; evr_source := source;
    evr_evidence_kind := kind; evr_payload := payload; evr_occurred_at := occurred_at;
    evr_recorded_at := recorded_at; evr_correlation_id := ("corr_" +++ case_id)%string;
    evr_source_event_id := Some source_event_id |}.

(** ** Queries *)

(** src/services/api/app/services/cases.py:116-129 [RecoveryCaseService.list_cases] *)
Definition service_list_cases (merchant_id : string) (filters : CaseFilters) (cursor : option string)
    (limit : nat) : M CasePage :=
  repo_list_cases json_dumps json_loads isoformat fromisoformat merchant_id filters cursor limit.

(** src/services/api/app/services/cases.py:131-137 [RecoveryCaseService.get_case] *)
Definition service_get_case (merchant_id case_id : string) : M CaseAggregate :=
  aggregate ← get_case_aggregate merchant_id case_id;
  found_or_404 aggregate "Recovery case was not found.".

(** src/services/api/app/services/cases.py:139-150 [RecoveryCaseService.get_action_for_command] *)
Definition get_action_for_command (merchant_id case_id action_id : string) : M RecoveryActionRecord :=
  _ ← service_get_case merchant_id case_id;
  action ← get_action case_id action_id;
  found_or_404 action "Recovery action was not found.".

(** src/services/api/app/services/cases.py:152-168 [RecoveryCaseService.dashboard] *)
Definition service_dashboard (merchant_id : string) : M DashboardSnapshot :=
  metrics ← dashboard_metrics merchant_id;
  counts ← review_and_block_counts merchant_id;
  distribution ← diagnosis_distribution merchant_id;
  channels ← recovery_by_channel merchant_id;
  events ← recent_events merchant_id 20;
  mret {| dsh_metrics := metrics ++ [("human_review_count", fst counts);
                                     ("policy_blocked_actions", snd counts)];
          dsh_diagnosis_distribution := distribution; dsh_recovery_by_channel := channels;
          dsh_recent_events := events |}.

(** src/services/api/app/services/cases.py:170-174 [RecoveryCaseService.timeline] *)
Definition service_timeline (merchant_id case_id : string) : M (list RecoveryEventRecord) :=
  recovery_case ← repo_get_case merchant_id case_id;
  _ ← found_or_404 recovery_case "Recovery case was not found.";
  repo_timeline case_id.

(** ** Recommendations *)

Definition optional_time_of (value : option string) : result (option Z) :=
  if truthy value then Some <$> time_fromisoformat (default "" value) else Ok None.

(** src/services/api/app/services/cases.py:207-224 [RecoveryCaseService.recommend_action]:
    the safety configuration. *)
Definition case_policy_config (merchant : Merchant) (settings : MerchantPolicySetting)
  : result SafetyPolicyConfig :=
  quiet_start ← optional_time_of (mps_quiet_hours_start settings);
  quiet_end ← optional_time_of (mps_quiet_hours_end settings);
  approvals ← map_result RecoveryActionType_of (mps_require_approval_actions settings);
  safety_config_post_init tzdb {|
    merchant_timezone := mer_timezone merchant; quiet_hours_start := quiet_start;
    quiet_hours_end := quiet_end;
    max_contacts_per_window := mps_max_contacts_per_7_days settings;
    manual_approval_actions := approvals;
    manual_approval_above_paise := mps_require_approval_above_paise settings;
    global_kill_switch := kill_switch;
    merchant_kill_switch := mps_recovery_kill_switch settings;
    gateway_retry_delay := gateway_retry_delay default_safety_config;
    policy_version := policy_version default_safety_config |}.

(** src/services/api/app/services/cases.py:360-379 [RecoveryCaseService._decision_model_features]:
    the payments of the subscription in a state. *)
Definition payments_in_state (c : RecoveryCase) (state : PaymentState) (d : Db) : Z :=
  count_where (fun p => eqs (pay_merchant_id p) (rc_merchant_id c)
                        && eqs (pay_subscription_id p) (rc_subscription_id c)
                        && eqs (pay_payment_state p) state) (db_payments d).

(** src/services/api/app/services/cases.py:351-389 [RecoveryCaseService._decision_model_features] *)
Definition decision_model_features (aggregate : CaseAggregate) (evaluated_at : Z)
  : M (list (string * json)) :=
  let c := agg_recovery_case aggregate in
  succeeded ← query (payments_in_state c PaymentState.CAPTURED);
  failed ← query (payments_in_state c PaymentState.FAILED);
  let tenure_days := Z.max ((evaluated_at - cus_created_at (agg_customer aggregate)) / day) 0 in
  mret [("tenure_days", JInt tenure_days); ("prior_successful_payments", JInt succeeded);
        ("failed_attempt_count", JInt failed);
        ("payment_method", opt_str (agg_failed_payment aggregate ≫= pay_method));
        ("plan_name", JStr (sub_plan_name (agg_subscription aggregate)))].

(** src/services/api/app/services/cases.py:228-256 [RecoveryCaseService.recommend_action]:
    the decision context. *)
Definition case_decision_context (aggregate : CaseAggregate) (features : list (string * json))
    (evaluated_at : Z) : RecoveryDecisionContext :=
  let c := agg_recovery_case aggregate in {|
  dc_case_id := rc_id c; dc_amount_at_risk_paise := rc_amount_at_risk_paise c;
  dc_diagnosis := rc_diagnosis c; dc_case_outcome := rc_case_outcome c;
  dc_payment_state := rc_payment_state c; dc_subscription_state := rc_subscription_state c;
  dc_contact_disposition := rc_contact_disposition c;
  dc_recovery_deadline := utc_datetime (rc_recovery_deadline c);
  dc_now := utc_datetime evaluated_at;
  dc_has_failed_invoice := bool_decide (is_Some (agg_invoice aggregate));
  dc_active_gateway_retries := eqs (rc_subscription_state c) SubscriptionState.PENDING;
  dc_standard_payment_link_available := standard_payment_link_lifecycle;
  dc_voice_action_available := false;
  dc_voice_consent := bool_decide (is_Some (cus_voice_consent_at (agg_customer aggregate)));
  dc_voice_destination_available := bool_decide (is_Some (cus_phone_token (agg_customer aggregate)));
  dc_customer_agent_action_available := agent_executor_ready;
  dc_customer_agent_available := cus_customer_agent_available (agg_customer aggregate);
  dc_model_features := Some features |}.

(** src/services/api/app/services/cases.py:263-283 [RecoveryCaseService.recommend_action]:
    the policy decision on an action the operator names. *)
Definition explicit_policy (c : RecoveryCase) (action_type : RecoveryActionType)
    (surface : option PaymentSurfaceType) (evaluated_at : Z) (config : SafetyPolicyConfig)
  : result PolicyDecision :=
  _ ← raise_if (negb (Bool.eqb (eqs action_type RecoveryActionType.OPEN_CUSTOMER_PAYMENT_SURFACE)
                               (bool_decide (is_Some surface))))
        (CaseConflictError "Payment surface type must be set only for customer payment surface actions.");
  context ← safety_context_post_init (utc_datetime evaluated_at)
              (utc_datetime (rc_recovery_deadline c)) None {|
    ctx_now := evaluated_at; ctx_recovery_deadline := rc_recovery_deadline c;
    ctx_case_outcome := rc_case_outcome c; ctx_payment_state := rc_payment_state c;
    ctx_subscription_state := rc_subscription_state c;
    ctx_contact_disposition := rc_contact_disposition c; ctx_action := action_type;
    ctx_payment_surface_type := surface; ctx_amount_at_risk_paise := rc_amount_at_risk_paise c;
    ctx_active_gateway_retries := eqs (rc_subscription_state c) SubscriptionState.PENDING;
    ctx_contact_attempts_in_window := 0; ctx_contact_limit_resets_at := None |};
  decision ← evaluate_safety_policy tzdb context config;
  to_contract decision.

(** What is recommended: the action, its policy decision, and the ranking unless the
    operator named the action. *)
Record recommendation : Type := {
  rcm_action_type : RecoveryActionType;
  rcm_surface : option PaymentSurfaceType;
  rcm_decision : PolicyDecision;
  rcm_ranked : option RecoveryDecisionResult;
}.

(** src/services/api/app/services/cases.py:225-283 [RecoveryCaseService.recommend_action] *)
Definition choose_action (aggregate : CaseAggregate) (action_type : option RecoveryActionType)
    (surface : option PaymentSurfaceType) (evaluated_at : Z) (config : SafetyPolicyConfig)
  : M recommendation :=
  match action_type with
  | None =>
      features ← decision_model_features aggregate evaluated_at;
      context ← lift (decision_context_post_init (case_decision_context aggregate features evaluated_at));
      ranked ← lift (decide_recovery tzdb scorer context config);
      mret {| rcm_action_type := rec_action (dr_recommendation ranked);
              rcm_surface := rec_payment_surface_type (dr_recommendation ranked);
              rcm_decision := dr_policy ranked; rcm_ranked := Some ranked |}
  | Some action_type =>
      decision ← lift (explicit_policy (agg_recovery_case aggregate) action_type surface evaluated_at config);
      mret {| rcm_action_type := action_type; rcm_surface := surface; rcm_decision := decision;
              rcm_ranked := None |}
  end.

(** src/services/api/app/services/cases.py:284-289 [RecoveryCaseService.recommend_action] *)
Definition action_status_for (d : PolicyDisposition) : ActionStatus :=
  match d with
  | PolicyDisposition.ALLOW => ActionStatus.PROPOSED
  | PolicyDisposition.BLOCK => ActionStatus.CANCELLED
  | PolicyDisposition.DELAY => ActionStatus.SCHEDULED
  | PolicyDisposition.REQUIRE_MANUAL_APPROVAL => ActionStatus.AWAITING_APPROVAL
  end.

(** src/services/api/app/services/cases.py:290-293 [RecoveryCaseService.recommend_action] *)
Definition recommendation_key (case_id : string) (r : recommendation) : string :=
  ("case:" +++ case_id +++ ":action:" +++ RecoveryActionType_value (rcm_action_type r)
   +++ ":surface:" +++ default "none" (surface_value (rcm_surface r)))%string.

(** src/services/api/app/services/cases.py:331-343 [RecoveryCaseService.recommend_action] *)
Definition recommendation_payload (action_id : string) (r : recommendation) : result json :=
  match rcm_ranked r with
  | Some ranked => to_audit_payload isoformat (Some action_id) ranked
  | None => Ok (JObj [
      ("selection_basis", JStr "EXPLICIT_OPERATOR_REQUEST"); ("action_id", JStr action_id);
      ("selected_action_type", JStr (RecoveryActionType_value (rcm_action_type r)));
      ("selected_payment_surface_type", opt_str (surface_value (rcm_surface r)));
      ("policy_disposition", JStr (PolicyDisposition_value (pd_disposition (rcm_decision r))));
      ("decision_code", JStr (pd_decision_code (rcm_decision r)))])
  end.

(** The policy of a stored action; every stored action has one. *)
Definition stored_policy (action : RecoveryActionRecord)
  : M (RecoveryActionRecord * PolicyDecisionRecord) :=
  existing_policy ← get_policy_for_action (act_id action);
  match existing_policy with
  | None => raise (RuntimeError "persisted recovery action has no policy decision")
  | Some policy => mret (action, policy)
  end.

(** src/services/api/app/services/cases.py:304-349 [RecoveryCaseService.recommend_action]:
    the rows of a new recommendation. *)
Definition persist_recommendation (case_id : string) (r : recommendation) (evaluated_at : Z)
  : M (RecoveryActionRecord * PolicyDecisionRecord) :=
  let decision := rcm_decision r in
  action_id ← reading new_id;
  created_at ← reading utc_now;
  updated_at ← reading utc_now;
  policy_id ← reading new_id;
  policy_created_at ← reading utc_now;
  let action := {|
    act_id := action_id; act_case_id := case_id; act_action_type := rcm_action_type r;
    act_payment_surface_type := rcm_surface r;
    act_status := action_status_for (pd_disposition decision);
    act_idempotency_key := recommendation_key case_id r;
    act_scheduled_for := pd_delay_until decision;
    act_external_reference := None; act_customer_url := None;
    act_completed_at :=
      if eqs (pd_disposition decision) PolicyDisposition.BLOCK then Some evaluated_at else None;
    act_created_at := created_at; act_updated_at := updated_at |} in
  let policy := {|
    pol_id := policy_id; pol_case_id := case_id; pol_action_id := Some action_id;
    pol_disposition := pd_disposition decision; pol_decision_code := pd_decision_code decision;
    pol_reason_codes := pd_reason_codes decision; pol_reasons := pd_reasons decision;
    pol_policy_version := pd_policy_version decision; pol_delay_until := pd_delay_until decision;
    pol_created_at := policy_created_at |} in
  _ ← add_action_with_policy action policy;
  payload ← lift (recommendation_payload action_id r);
  _ ← record_event case_id "ACTION_RECOMMENDED" "decision-engine" EvidenceKind.SYSTEM_DERIVED payload
        evaluated_at ("recommendation:" +++ action_id)%string;
  _ ← commit;
  mret (action, policy).

(** src/services/api/app/services/cases.py:176-349 [RecoveryCaseService.recommend_action] *)
Definition recommend_action (merchant_id case_id : string) (action_type : option RecoveryActionType)
    (surface : option PaymentSurfaceType) (now : option Z)
  : M (RecoveryActionRecord * PolicyDecisionRecord) :=
  aggregate ← service_get_case merchant_id case_id;
  match action_type, agg_latest_action aggregate with
  | None, Some action => stored_policy action
  | _, _ =>
      evaluated_at ← moment now;
      merchant_policy ← get_merchant_policy_settings merchant_id;
      merchant_policy ← found_or_404 merchant_policy "Merchant policy settings were not found.";
      config ← lift (case_policy_config (fst merchant_policy) (snd merchant_policy));
      chosen ← choose_action aggregate action_type surface evaluated_at config;
      existing_action ← get_action_by_idempotency_key (recommendation_key case_id chosen);
      match existing_action with
      | Some action => stored_policy action
      | None => persist_recommendation case_id chosen evaluated_at
      end
  end.

(** ** Commands on an action *)

(** An assignment to the attributes of a loaded action. *)
Definition save_loaded_action (a : RecoveryActionRecord) : M unit :=
  write (fun d => d <| db_actions ::= store_row act_id a |>).

(** src/services/api/app/services/cases.py:391-438 [RecoveryCaseService.approve_action] *)
Definition approve_action (merchant_id case_id action_id : string) (now : option Z)
  : M RecoveryActionRecord :=
  aggregate ← service_get_case merchant_id case_id;
  action ← get_action case_id action_id;
  action ← found_or_404 action "Recovery action was not found.";
  _ ← guard_ (negb (eqs (act_status action) ActionStatus.AWAITING_APPROVAL))
        (CaseConflictError "Only the current approval-pending action can be approved.");
  completed_at ← moment now;
  _ ← guard_ (eqs (act_action_type action) RecoveryActionType.OPEN_CUSTOMER_PAYMENT_SURFACE
              && (eqs (act_payment_surface_type action) None
                  || negb (bool_decide (is_Some (agg_invoice aggregate)))))
        (CaseConflictError "The recovery case has no payable failed invoice.");
  let action := action <| act_status := ActionStatus.SCHEDULED |> <| act_completed_at := None |> in
  _ ← save_loaded_action action;
  _ ← record_event case_id "ACTION_APPROVED" "operator" EvidenceKind.SYSTEM_DERIVED
        (JObj [("action_id", JStr (act_id action));
               ("action_type", JStr (RecoveryActionType_value (act_action_type action)));
               ("execution_owner", JStr "temporal")])
        completed_at ("approval:" +++ act_id action)%string;
  _ ← commit;
  mret action.

Definition REJECTABLE_STATUSES : list ActionStatus :=
  [ActionStatus.PROPOSED; ActionStatus.AWAITING_APPROVAL; ActionStatus.SCHEDULED].

(** src/services/api/app/services/cases.py:440-481 [RecoveryCaseService.reject_action] *)
Definition reject_action (merchant_id case_id action_id reason : string) (now : option Z)
  : M RecoveryActionRecord :=
  _ ← service_get_case merchant_id case_id;
  action ← get_action case_id action_id;
  action ← found_or_404 action "Recovery action was not found.";
  if eqs (act_status action) ActionStatus.CANCELLED then mret action
  else
    _ ← guard_ (negb (mem (act_status action) REJECTABLE_STATUSES))
          (CaseConflictError "This recovery action can no longer be rejected.");
    rejected_at ← moment now;
    let action := action <| act_status := ActionStatus.CANCELLED |>
                         <| act_completed_at := Some rejected_at |> in
    _ ← save_loaded_action action;
    _ ← record_event case_id "ACTION_REJECTED" "operator" EvidenceKind.SYSTEM_DERIVED
          (JObj [("action_id", JStr (act_id action)); ("reason", JStr reason)])
          rejected_at ("rejection:" +++ act_id action)%string;
    _ ← commit;
    mret action.

(** ** Commands on a case *)

(** The case locked for a command. *)
Definition locked_case (merchant_id case_id : string) : M RecoveryCase :=
  c ← get_case_for_update merchant_id case_id;
  found_or_404 c "Recovery case was not found.".

(** src/services/api/app/services/cases.py:483-512 [RecoveryCaseService.stop_case] *)
Definition stop_case (merchant_id case_id reason : string) (now : option Z) : M RecoveryCase :=
  c ← locked_case merchant_id case_id;
  if eqs (rc_case_outcome c) CaseOutcome.STOPPED then mret c
  else
    _ ← guard_ (negb (eqs (rc_case_outcome c) CaseOutcome.OPEN))
          (CaseConflictError "The recovery case is already terminal.");
    stopped_at ← moment now;
    let c := c <| rc_case_outcome := CaseOutcome.STOPPED |> <| rc_version ::= Z.succ |> in
    _ ← save_loaded_case c;
    _ ← cancel_nonterminal_actions case_id stopped_at;
    _ ← record_event case_id "CASE_STOPPED" "operator" EvidenceKind.SYSTEM_DERIVED
          (JObj [("reason", JStr reason)]) stopped_at
          ("stop:" +++ case_id +++ ":" +++ str_of_Z (rc_version c))%string;
    _ ← commit;
    mret c.

(** src/services/api/app/services/cases.py:529-544 [RecoveryCaseService.escalate_case]: the
    escalation action and the operator's policy decision. *)
Definition add_escalation (c : RecoveryCase) (case_id reason : string) (escalated_at : Z)
  : M RecoveryActionRecord :=
  action_id ← reading new_id;
  created_at ← reading utc_now;
  updated_at ← reading utc_now;
  policy_id ← reading new_id;
  policy_created_at ← reading utc_now;
  let action := {|
    act_id := action_id; act_case_id := case_id;
    act_action_type := RecoveryActionType.ESCALATE_TO_HUMAN; act_payment_surface_type := None;
    act_status := ActionStatus.SUCCEEDED;
    act_idempotency_key := ("case:" +++ case_id +++ ":escalation:" +++ str_of_Z (rc_version c))%string;
    act_scheduled_for := None; act_external_reference := None; act_customer_url := None; act_completed_at := Some escalated_at;
    act_created_at := created_at; act_updated_at := updated_at |} in
  _ ← add_action_with_policy action {|
    pol_id := policy_id; pol_case_id := case_id; pol_action_id := None;
    pol_disposition := PolicyDisposition.ALLOW; pol_decision_code := "OPERATOR_ESCALATION";
    pol_reason_codes := ["OPERATOR_ESCALATION"]; pol_reasons := [reason];
    pol_policy_version := "operator.v1"; pol_delay_until := None;
    pol_created_at := policy_created_at |};
  mret action.

(** src/services/api/app/services/cases.py:514-559 [RecoveryCaseService.escalate_case] *)
Definition escalate_case (merchant_id case_id reason : string) (now : option Z) : M RecoveryCase :=
  c ← locked_case merchant_id case_id;
  if eqs (rc_case_outcome c) CaseOutcome.ESCALATED then mret c
  else
    _ ← guard_ (negb (eqs (rc_case_outcome c) CaseOutcome.OPEN))
          (CaseConflictError "The recovery case is already terminal.");
    escalated_at ← moment now;
    let c := c <| rc_case_outcome := CaseOutcome.ESCALATED |> <| rc_version ::= Z.succ |> in
    _ ← save_loaded_case c;
    action ← add_escalation c case_id reason escalated_at;
    _ ← cancel_nonterminal_actions case_id escalated_at;
    _ ← record_event case_id "CASE_ESCALATED" "operator" EvidenceKind.SYSTEM_DERIVED
          (JObj [("reason", JStr reason); ("action_id", JStr (act_id action))]) escalated_at
          ("escalation:" +++ act_id action)%string;
    _ ← commit;
    mret c.

(** src/services/api/app/services/cases.py:571-576 [RecoveryCaseService.record_safety_disposition] *)
Definition terminal_outcome (d : ContactDisposition) : option CaseOutcome :=
  match d with
  | ContactDisposition.DISPUTE => Some CaseOutcome.DISPUTED
  | ContactDisposition.OPTED_OUT | ContactDisposition.WRONG_PERSON => Some CaseOutcome.STOPPED
  | ContactDisposition.ALREADY_PAID => Some CaseOutcome.ESCALATED
  | _ => None
  end.

(** src/services/api/app/services/cases.py:600-606 [RecoveryCaseService.record_safety_disposition]:
    the opt-out of the customer. *)
Definition opt_customer_out (customer_id : string) (recorded_at : Z) : M unit :=
  customer ← get_customer_for_update customer_id;
  match customer with
  | None => raise (RuntimeError "recovery case has a missing customer")
  | Some customer =>
      write (fun d => d <| db_customers ::= store_row cus_id
                              (customer <| cus_opted_out_at := Some recorded_at |>) |>)
  end.

(** src/services/api/app/services/cases.py:561-625 [RecoveryCaseService.record_safety_disposition] *)
Definition record_safety_disposition (merchant_id case_id : string) (disposition : ContactDisposition)
    (now : option Z) : M RecoveryCase :=
  match terminal_outcome disposition with
  | None => raise (CaseConflictError "This contact disposition is not a safety terminal.")
  | Some target_outcome =>
      c ← locked_case merchant_id case_id;
      if negb (eqs (rc_case_outcome c) CaseOutcome.OPEN) then
        if eqs (rc_case_outcome c) target_outcome && eqs (rc_contact_disposition c) disposition
        then mret c
        else raise (CaseConflictError "The recovery case is already terminal.")
      else
        recorded_at ← moment now;
        let c := c <| rc_contact_disposition := disposition |>
                   <| rc_case_outcome := target_outcome |> <| rc_version ::= Z.succ |> in
        _ ← save_loaded_case c;
        _ ← (if eqs disposition ContactDisposition.OPTED_OUT
             then opt_customer_out (rc_customer_id c) recorded_at else mret tt);
        _ ← cancel_nonterminal_actions case_id recorded_at;
        _ ← record_event case_id ("SAFETY_" +++ ContactDisposition_value disposition) "operator"
              EvidenceKind.SYSTEM_DERIVED
              (JObj [("contact_disposition", JStr (ContactDisposition_value disposition));
                     ("case_outcome", JStr (CaseOutcome_value target_outcome));
                     ("provider_action_taken", JBool false)])
              recorded_at
              ("safety:" +++ case_id +++ ":" +++ ContactDisposition_value disposition)%string;
        _ ← commit;
        mret c
  end.

(** ** The mock payment provider *)

(** src/services/api/app/services/cases.py:667-680 [RecoveryCaseService.apply_mock_payment_success] *)
Definition mock_payment_attempt (c : RecoveryCase) (merchant_id invoice_id provider_event_id : string)
    (amount recognized_at : Z) : PaymentAttempt := {|
  pay_id := ("pay_mock_" +++ str_take 24 (sha256_hex provider_event_id))%string;
  pay_merchant_id := merchant_id; pay_invoice_id := invoice_id;
  pay_subscription_id := rc_subscription_id c;
  pay_provider_payment_id := Some ("mock_" +++ str_take 32 (sha256_hex provider_event_id))%string;
  pay_amount_paise := amount; pay_currency := "INR"; pay_payment_state := PaymentState.CAPTURED;
  pay_method := Some "mock"; pay_error_code := None; pay_error_source := None;
  pay_error_step := None; pay_error_reason := None; pay_occurred_at := recognized_at |}.

(** src/services/api/app/services/cases.py:700-713 [RecoveryCaseService.apply_mock_payment_success]:
    the case after the recognition. *)
Definition mock_recovered_case (amount recognized_at : Z) (subscription_reactivated : bool)
    (c : RecoveryCase) : RecoveryCase :=
  let c := c <| rc_arrears_collected_paise ::= Z.add amount |>
             <| rc_revenue_attribution := RevenueAttribution.SIMULATED |> in
  let recovered := rc_amount_at_risk_paise c <=? rc_arrears_collected_paise c in
  c <| rc_case_recovered := recovered |> <| rc_payment_state := PaymentState.CAPTURED |>
    <| rc_subscription_reactivated := subscription_reactivated |>
    <| rc_case_outcome := if recovered then CaseOutcome.RECOVERED else CaseOutcome.PARTIALLY_RECOVERED |>
    <| rc_recovered_at := Some recognized_at |> <| rc_version ::= Z.succ |>.

(** src/services/api/app/services/cases.py:699-731 [RecoveryCaseService.apply_mock_payment_success]:
    the effects of a new recognition. *)
Definition settle_mock_payment (c : RecoveryCase) (case_id provider_event_id : string)
    (amount recognized_at : Z) (subscription_reactivated : bool) : M RecoveryCase :=
  let c := mock_recovered_case amount recognized_at subscription_reactivated c in
  _ ← save_loaded_case c;
  _ ← cancel_nonterminal_actions case_id recognized_at;
  _ ← record_event case_id "PAYMENT_CAPTURED" "mock-payment-provider" EvidenceKind.SIMULATED
        (JObj [("amount_paise", JInt amount); ("subscription_reactivated", JBool subscription_reactivated)])
        recognized_at provider_event_id;
  mret c.

(** src/services/api/app/services/cases.py:681-698 [RecoveryCaseService.apply_mock_payment_success]:
    the payment, the collection on the invoice and the recognition. *)
Definition book_mock_payment (c : RecoveryCase) (merchant_id case_id invoice_id provider_event_id : string)
    (amount recognized_at : Z) (subscription_reactivated : bool) : M bool :=
  let payment := mock_payment_attempt c merchant_id invoice_id provider_event_id amount recognized_at in
  _ ← add_payment_attempt payment;
  _ ← add_invoice_collection invoice_id amount;
  id ← reading new_id;
  recognize_revenue_once {|
    rev_id := id; rev_case_id := case_id; rev_merchant_id := merchant_id;
    rev_payment_attempt_id := Some (pay_id payment); rev_provider := "mock";
    rev_provider_event_id := provider_event_id; rev_amount_paise := amount;
    rev_attribution := RevenueAttribution.SIMULATED; rev_arrears_collected := true;
    rev_subscription_reactivated := subscription_reactivated; rev_recognized_at := recognized_at |}.

(** src/services/api/app/services/cases.py:627-737 [RecoveryCaseService.apply_mock_payment_success] *)
Definition apply_mock_payment_success (merchant_id case_id provider_event_id : string)
    (amount_paise occurred_at : option Z) (subscription_reactivated : bool) : M PaymentSuccessResult :=
  c ← locked_case merchant_id case_id;
  recognized_at ← moment occurred_at;
  existing ← find_revenue_recognition merchant_id "mock" provider_event_id;
  match existing with
  | Some existing =>
      mret {| psr_recovery_case := c; psr_newly_recognized := false;
              psr_recognized_amount_paise := rev_amount_paise existing |}
  | None =>
      let remaining_paise := rc_amount_at_risk_paise c - rc_arrears_collected_paise c in
      _ ← guard_ (remaining_paise <=? 0)
            (CaseAlreadyRecoveredError "This recovery case has already collected its arrears.");
      let amount := default remaining_paise amount_paise in
      _ ← guard_ ((amount <=? 0) || (remaining_paise <? amount))
            (CaseConflictError "Mock success amount must be positive and no greater than remaining arrears.");
      match rc_failed_invoice_id c with
      | None => raise (CaseConflictError "Mock success requires a correlated failed invoice.")
      | Some invoice_id =>
          newly_recognized ← book_mock_payment c merchant_id case_id invoice_id provider_event_id amount
                               recognized_at subscription_reactivated;
          c ← (if newly_recognized : bool then
                 settle_mock_payment c case_id provider_event_id amount recognized_at
                   subscription_reactivated
               else mret c);
          _ ← commit;
          mret {| psr_recovery_case := c; psr_newly_recognized := newly_recognized;
                  psr_recognized_amount_paise := amount |}
      end
  end.

(** src/services/api/app/services/cases.py:739-770 [RecoveryCaseService.apply_late_failure_event] *)
Definition apply_late_failure_event (merchant_id case_id provider_event_id : string) (occurred_at : Z)
  : M bool :=
  c ← locked_case merchant_id case_id;
  inserted ← record_event case_id "PAYMENT_FAILED" "mock-payment-provider" EvidenceKind.SIMULATED
               (JObj [("state_regressed", JBool false)]) occurred_at provider_event_id;
  _ ← (if (inserted : bool) && negb (eqs (rc_payment_state c) PaymentState.CAPTURED)
       then save_loaded_case (c <| rc_payment_state := PaymentState.FAILED |> <| rc_version ::= Z.succ |>)
       else mret tt);
  _ ← commit;
  mret inserted.
End service.
