(* ===== verification/CasesFacts.v ===== *)
(** * Correctness of the case service

    Keyset pagination enumerates the selected cases; a compare-and-swap lets one of the
    writers of a version through; the terminal commands close an open case once; a mock
    payment is booked once and keeps the ledger balanced. *)
From S2P Require Import Prelude Domain Json QuietHours Safety Decision Razorpay Entities Session Cursor CaseRepo Cases.
From S2P Require Import Inbox Correlation Processor ProcessorFacts.

Abbreviation M := (stx (session unit)).
#[local] Arguments violated : simpl never.

(** ** Sorting by a key without duplicates *)

Section unique_sort.
Context {A B : Type} (key : A -> B) (cmp : B -> B -> comparison) `{!TotalCmp cmp}.
Hypothesis cmp_eq : forall x y, cmp x y = Eq -> x = y.

Lemma filter_strongly_sorted (R : A -> A -> Prop) (p : A -> bool) l :
  StronglySorted R l -> StronglySorted R (rows_where p l).
Proof.
  unfold rows_where. induction 1 as [|x l Hl IH Hx]; cbn; [constructor|].
  case_match; [|done]. constructor; [done|]. apply Forall_forall. intros y Hy.
  rewrite Forall_forall in Hx. apply Hx. apply list_elem_of_In, List.filter_In in Hy as [Hy _].
  by apply list_elem_of_In.
Qed.

Lemma rows_where_perm (p : A -> bool) (l l' : list A) : l ≡ₚ l' -> rows_where p l ≡ₚ rows_where p l'.
Proof.
  unfold rows_where. induction 1; cbn; repeat case_match; eauto using Permutation.
Qed.


Lemma nodup_rows_where (p : A -> bool) l :
  NoDup (map key l) -> NoDup (map key (rows_where p l)).
Proof.
  unfold rows_where. induction l as [|x l IH]; cbn in *; [done|].
  intros [Hn Hd]%NoDup_cons. case_match; [|auto]. cbn. apply NoDup_cons.
  split; [|auto]. intros (y & E & Hy)%list_elem_of_fmap. apply Hn. apply list_elem_of_fmap.
  exists y. split; [done|]. by apply elem_of_rows_where in Hy as [Hy _].
Qed.

(** The result is the only sorted arrangement. *)
Lemma sorted_on_unique l l' :
  NoDup (map key l) -> l' ≡ₚ l -> StronglySorted (fun a b => cmp (key a) (key b) <> Gt) l' ->
  sorted_on key cmp l = l'.
Proof.
  intros Hd Hp Hs. eapply StronglySorted_unique_strong; [|by apply sorted_on_sorted|exact Hs|].
  - cbn. intros x y Hx Hy Hxy Hyx. rewrite sorted_on_perm in Hx. rewrite Hp in Hy.
    apply (nodup_fmap_inj key l); [done..|]. apply cmp_eq.
    rewrite (cmp_sym (key x) (key y)) in Hyx. by destruct (cmp (key x) (key y)).
  - by rewrite sorted_on_perm, Hp.
Qed.

Lemma sorted_on_where (p : A -> bool) l :
  NoDup (map key l) -> sorted_on key cmp (rows_where p l) = rows_where p (sorted_on key cmp l).
Proof.
  intros Hd. apply sorted_on_unique.
  - by apply nodup_rows_where.
  - apply rows_where_perm, sorted_on_perm.
  - apply filter_strongly_sorted. by apply sorted_on_sorted.
Qed.
End unique_sort.

#[export] Instance newest_first_total : TotalCmp newest_first.
Proof. unfold newest_first. apply _. Qed.

Lemma newest_first_eq p q : newest_first p q = Eq -> p = q.
Proof.
  destruct p as [t i], q as [u j]. unfold newest_first, cmp_opp, cmp_lex. cbn.
  destruct (Z.compare_spec u t); try done. intros ->%cmp_string_eq. by subst.
Qed.

Lemma after_position_spec t id c :
  after_position (Some (t, id)) c = true <-> newest_first (t, id) (case_position c) = Lt.
Proof.
  unfold after_position, newest_first, cmp_opp, cmp_lex, case_position. cbn.
  destruct (Z.compare_spec (rc_opened_at c) t) as [E|E|E].
  - rewrite E, Z.ltb_irrefl, Z.eqb_refl. cbn. by destruct (cmp_string _ _).
  - by rewrite (proj2 (Z.ltb_lt _ _) E).
  - rewrite (proj2 (Z.ltb_ge _ _)) by lia. rewrite (proj2 (Z.eqb_neq _ _)) by lia. done.
Qed.

(** ** Pagination *)

Section pagination.
Context (json_dumps : json -> string) (json_loads : string -> result json)
        (isoformat : Z -> string) (fromisoformat : string -> result datetime).
Context (merchant_id : string) (filters : CaseFilters) (limit : nat).
Abbreviation list_page :=
  (repo_list_cases json_dumps json_loads isoformat fromisoformat merchant_id filters).

(** Following the cursors from one page on. *)
Fixpoint all_pages (fuel : nat) (cursor : option string) : M (list (list RecoveryCase)) :=
  match fuel with
  | O => raise (RuntimeError "out of fuel")
  | S fuel =>
      page ← list_page cursor limit;
      match cp_next_cursor page with
      | None => mret [cp_items page]
      | Some next => rest ← all_pages fuel (Some next); mret (cp_items page :: rest)
      end
  end.

(** The bounds of the filters are aware or absent. *)
Definition bounds_of (from to : option Z) : Prop :=
  bind_optional_utc (cf_opened_from filters) = Ok from /\
  bind_optional_utc (cf_opened_to filters) = Ok to.

(** The selected cases, newest first. *)
Definition listing (from to : option Z) (d : Db) : list RecoveryCase :=
  sorted_on case_position newest_first
    (rows_where (case_selected merchant_id filters from to) (db_cases d)).

(** The serializers of cursors are usable on a case. *)
Record cursor_usable (c : RecoveryCase) : Prop := {
  cu_invert : cursor_texts_invert json_dumps json_loads isoformat fromisoformat (rc_opened_at c) (rc_id c);
  cu_text : json_dumps (cursor_payload isoformat (rc_opened_at c) (rc_id c)) <> "";
}.

Context (d : Db) (from to : option Z).
Hypothesis limit_pos : (0 < limit)%nat.
Hypothesis bounds : bounds_of from to.
Hypothesis d_consistent : consistent d.
Hypothesis usable : forall c, c ∈ db_cases d -> cursor_usable c.

Lemma position_unique : NoDup (map case_position (db_cases d)).
Proof.
  destruct (consistent_ids d d_consistent) as (H & _ & _). revert H.
  generalize (db_cases d). induction l as [|c l IH]; cbn; [constructor|].
  intros [Hn Hd]%NoDup_cons. apply NoDup_cons. split; [|auto].
  intros (c' & E & Hc')%list_elem_of_fmap. apply Hn. apply list_elem_of_fmap. exists c'.
  unfold case_position in E. split; [congruence|done].
Qed.

Lemma rows_where_and {R} (p q : R -> bool) l :
  rows_where (fun r => p r && q r) l = rows_where q (rows_where p l).
Proof. unfold rows_where. induction l as [|r l IH]; cbn; [done|]. destruct (p r); cbn; by rewrite IH. Qed.

(** What follows a position in the listing. *)
Lemma listing_after p :
  sorted_on case_position newest_first
    (rows_where (fun c => case_selected merchant_id filters from to c && after_position p c) (db_cases d))
  = rows_where (after_position p) (listing from to d).
Proof.
  rewrite rows_where_and. unfold listing. apply sorted_on_where; [apply _|apply newest_first_eq|].
  apply nodup_rows_where, position_unique.
Qed.

Abbreviation L := (listing from to d).

Lemma rows_where_none {R} (p : R -> bool) l : (forall r, r ∈ l -> p r = false) -> rows_where p l = [].
Proof.
  unfold rows_where. induction l as [|r l IH]; cbn; [done|]. intros H. rewrite H by left.
  apply IH. intros r' Hr'. apply H. by right.
Qed.
Lemma rows_where_all {R} (p : R -> bool) l : (forall r, r ∈ l -> p r = true) -> rows_where p l = l.
Proof.
  unfold rows_where. induction l as [|r l IH]; cbn; [done|]. intros H. rewrite H by left.
  f_equal. apply IH. intros r' Hr'. apply H. by right.
Qed.

Lemma listing_in c : c ∈ L -> c ∈ db_cases d.
Proof. unfold listing. rewrite sorted_on_perm, elem_of_rows_where. by intros [? _]. Qed.
Lemma listing_unique : NoDup (map case_position L).
Proof.
  unfold listing. rewrite sorted_on_perm.
  apply nodup_rows_where, position_unique.
Qed.

(** What follows the position of a listed case is the rest of the listing. *)
Lemma after_split a x b :
  L = a ++ x :: b -> rows_where (after_position (Some (case_position x))) L = b.
Proof.
  intros HL. pose proof listing_unique as Hd.
  pose proof (sorted_on_sorted case_position newest_first
                (rows_where (case_selected merchant_id filters from to) (db_cases d))) as Hs.
  fold L in Hs. rewrite HL in Hs, Hd |- *. apply StronglySorted_app in Hs as (Ha & _ & Hb).
  apply StronglySorted_inv in Hb as [_ Hb]. rewrite Forall_forall in Hb.
  rewrite map_app in Hd. apply NoDup_app in Hd as (_ & _ & Hd). cbn in Hd.
  apply NoDup_cons in Hd as [Hx _].
  unfold rows_where. rewrite List.filter_app. fold (rows_where (after_position (Some (case_position x))) a).
  rewrite rows_where_none; cbn [List.filter app].
  - assert (after_position (Some (case_position x)) x = false) as ->.
    { apply not_true_is_false. unfold case_position at 1. rewrite after_position_spec.
      fold (case_position x). intros E.
      pose proof (cmp_sym (cmp := newest_first) (case_position x) (case_position x)) as Hsym.
      by rewrite E in Hsym. }
    apply rows_where_all. intros r Hr. unfold case_position at 1. rewrite after_position_spec.
    fold (case_position x). specialize (Hb r Hr). cbn in Hb.
    destruct (newest_first (case_position x) (case_position r)) eqn:E; try done.
    apply newest_first_eq in E. destruct Hx. apply list_elem_of_fmap. eauto.
  - intros r Hr. apply not_true_is_false. unfold case_position at 1. rewrite after_position_spec.
    fold (case_position x). intros E. specialize (Ha r x Hr (list_elem_of_here _ _)). cbn in Ha.
    by rewrite (cmp_sym (cmp := newest_first) (case_position x) (case_position r)), E in Ha.
Qed.

Lemma list_page_run p cursor post s :
  ses_db s = d -> cursor_position json_loads fromisoformat cursor = Ok p ->
  rows_where (after_position p) L = post ->
  list_page cursor limit s = (Ok (page_of json_dumps isoformat limit (take (limit + 1) post)), s).
Proof.
  intros Hs Hp <-. unfold repo_list_cases, query, flush. stx_unfold. rewrite Hp.
  destruct bounds as [-> ->]. rewrite Hs, d_consistent. cbn. by rewrite Hs, listing_after.
Qed.

Lemma encoded_truthy c : cursor_usable c ->
  cursor_position json_loads fromisoformat
    (Some (encode_cursor json_dumps isoformat (rc_opened_at c) (rc_id c))) = Ok (Some (case_position c)).
Proof.
  intros [Hi Ht]. unfold cursor_position. cbn [truthy default]. unfold id.
  rewrite bool_decide_eq_true_2.
  - rewrite (decode_encode_cursor json_dumps json_loads isoformat fromisoformat) by done. cbn.
    unfold dt_instant. cbn. unfold id. by rewrite Z.sub_0_r.
  - unfold encode_cursor. destruct (json_dumps _) as [|x [|y [|z t]]]; done.
Qed.

Lemma pages_run fuel p cursor a post s :
  ses_db s = d -> cursor_position json_loads fromisoformat cursor = Ok p ->
  rows_where (after_position p) L = post -> L = a ++ post -> (List.length post < fuel)%nat ->
  exists pages, all_pages fuel cursor s = (Ok pages, s) /\ concat pages = post /\
    Forall (fun page => (List.length page <= limit)%nat) pages.
Proof.
  intros Hs. revert p cursor a post. induction fuel as [|fuel IH]; [lia|].
  intros p cursor a post Hp Hpost HL Hfuel. cbn [all_pages].
  unfold mbind at 1, stx_bind at 1. rewrite (list_page_run p cursor post) by done.
  unfold page_of. rewrite length_take, take_take. cbn [cp_next_cursor cp_items].
  destruct (Nat.ltb_spec limit (Init.Nat.min (limit + 1) (List.length post))) as [Hlt|Hge].
  - rewrite Nat.min_l by lia. destruct (last (take limit post)) as [x|] eqn:Ex.
    2:{ apply last_None in Ex. apply (f_equal List.length) in Ex. rewrite length_take in Ex. cbn in Ex. lia. }
    apply last_Some in Ex as [front Efront]. cbn [fmap option_fmap option_map].
    assert (L = (a ++ front) ++ x :: drop limit post) as HL'.
    { rewrite HL, <- app_assoc. f_equal. rewrite <- (take_drop limit post) at 1. rewrite Efront, <- app_assoc. done. }
    destruct (IH (Some (case_position x)) (Some (encode_cursor json_dumps isoformat (rc_opened_at x) (rc_id x)))
                (a ++ take limit post) (drop limit post)) as (pages & Hrun & Hcat & Hlen).
    + apply encoded_truthy, usable, listing_in. rewrite HL'. set_solver.
    + by apply (after_split (a ++ front)).
    + by rewrite <- app_assoc, take_drop.
    + rewrite length_drop. lia.
    + exists (take limit post :: pages). unfold mbind, stx_bind. rewrite Hrun. split; [done|].
      cbn. rewrite Hcat, take_drop. split; [done|]. constructor; [|done]. rewrite length_take. lia.
  - exists [take (limit `min` (limit + 1)) post]. split; [done|]. rewrite take_ge by lia.
    split; [cbn; by rewrite app_nil_r|]. repeat constructor. lia.
Qed.
End pagination.

(** C34: following the cursors from the first page on a fixed database returns, in pages of
    at most [limit], exactly the cases of the merchant that pass the filters, newest
    first, each one once, and stops after at most one page more than there are cases. *)
Theorem pagination_complete json_dumps json_loads isoformat fromisoformat merchant_id filters limit
    d from to fuel :
  (0 < limit)%nat -> bounds_of filters from to -> consistent d ->
  (forall c, c ∈ db_cases d -> cursor_usable json_dumps json_loads isoformat fromisoformat c) ->
  (List.length (db_cases d) < fuel)%nat ->
  exists pages,
    all_pages json_dumps json_loads isoformat fromisoformat merchant_id filters limit fuel None
      (open_session d tt) = (Ok pages, open_session d tt) /\
    concat pages = listing merchant_id filters from to d /\
    Forall (fun page => (List.length page <= limit)%nat) pages /\
    NoDup (map rc_id (concat pages)) /\
    (forall c, c ∈ concat pages <->
       c ∈ db_cases d /\ case_selected merchant_id filters from to c = true).
Proof.
  intros Hl Hb Hc Hu Hf.
  destruct (pages_run json_dumps json_loads isoformat fromisoformat merchant_id filters limit d from to
    Hl Hb Hc Hu fuel None None [] (listing merchant_id filters from to d) (open_session d tt))
    as (pages & Hrun & Hcat & Hlen); try done.
  - by apply rows_where_all.
  - unfold listing. rewrite sorted_on_perm. unfold rows_where.
    pose proof (List.filter_length_le (case_selected merchant_id filters from to) (db_cases d)). lia.
  - exists pages. split; [done|]. split; [done|]. split; [done|]. rewrite Hcat. unfold listing. split.
    + rewrite sorted_on_perm. apply nodup_rows_where. by apply consistent_ids.
    + intros c. by rewrite sorted_on_perm, elem_of_rows_where.
Qed.

(** Three cases, two of them opened at the same instant, in pages of two. *)
Definition demo_row (id : string) (opened_at : Z) : RecoveryCase := {|
  rc_id := id; rc_merchant_id := "m1"; rc_customer_id := "cus_1"; rc_subscription_id := "sub_1";
  rc_failed_invoice_id := Some ("inv_" +++ id)%string; rc_billing_cycle_key := None;
  rc_failed_payment_id := None; rc_case_outcome := CaseOutcome.OPEN;
  rc_payment_state := PaymentState.FAILED; rc_subscription_state := SubscriptionState.HALTED;
  rc_contact_disposition := ContactDisposition.NOT_CONTACTED;
  rc_revenue_attribution := RevenueAttribution.NONE; rc_diagnosis := Diagnosis.UNKNOWN;
  rc_amount_at_risk_paise := 500; rc_arrears_collected_paise := 0; rc_case_recovered := false;
  rc_subscription_reactivated := false; rc_opened_at := opened_at; rc_recovery_deadline := 3 * day;
  rc_recovered_at := None; rc_version := 1 |}.
Definition demo_cases_db : Db :=
  empty_db <| db_cases := [demo_row "case_a" 7; demo_row "case_c" 9; demo_row "case_b" 7] |>.
Definition no_filters : CaseFilters := {|
  cf_outcomes := []; cf_diagnoses := []; cf_subscription_states := []; cf_opened_from := None;
  cf_opened_to := None |}.
(** Serializers good for these rows: the instant and the identifier, and the rows' cursors read back. *)
Definition demo_page_dumps (v : json) : string :=
  match json_get "opened_at" v, json_get "id" v with
  | JStr t, JStr id => (t +++ ":" +++ id)%string
  | _, _ => "[]"
  end.
Definition demo_page_loads (text : string) : result json :=
  let cursor t id := Ok (JObj [("v", JInt 1); ("opened_at", JStr t); ("id", JStr id)]) in
  if bool_decide (text = "7:case_a") then cursor "7" "case_a"
  else if bool_decide (text = "7:case_b") then cursor "7" "case_b"
  else if bool_decide (text = "9:case_c") then cursor "9" "case_c"
  else Err (ValueError "Expecting value").
Definition demo_page_fromiso (text : string) : result datetime :=
  if bool_decide (text = "7") then Ok (utc_datetime 7)
  else if bool_decide (text = "9") then Ok (utc_datetime 9) else Err (ValueError "isoformat").
Definition demo_pages : result (list (list RecoveryCase)) * session unit :=
  Eval vm_compute in
    all_pages demo_page_dumps demo_page_loads str_of_Z demo_page_fromiso "m1" no_filters 2 4 None
      (open_session demo_cases_db tt).

Lemma pagination_complete_witness :
  fst demo_pages = Ok [[demo_row "case_c" 9; demo_row "case_b" 7]; [demo_row "case_a" 7]] /\
  exists pages, fst demo_pages = Ok pages /\ NoDup (map rc_id (concat pages)).
Proof.
  split; [reflexivity|].
  destruct (pagination_complete demo_page_dumps demo_page_loads str_of_Z demo_page_fromiso "m1"
              no_filters 2 demo_cases_db None None 4) as (pages & Hrun & _ & _ & Hd & _).
  - lia.
  - split; reflexivity.
  - vm_compute. reflexivity.
  - intros c Hc. repeat (apply elem_of_cons in Hc as [->|Hc]);
      [..|by apply not_elem_of_nil in Hc]; (split; [split; vm_compute; reflexivity|vm_compute; discriminate]).
  - cbn. lia.
  - exists pages. split; [|exact Hd].
    enough (demo_pages = (Ok pages, open_session demo_cases_db tt)) as -> by reflexivity.
    rewrite <- Hrun. vm_compute. reflexivity.
Defined.

(** ** Compare-and-swap *)

(** Of rows with distinct keys, those a test on the key selects are at most one. *)
Lemma rows_where_key {R} (key : R -> string) (p : R -> bool) k (l : list R) :
  NoDup (map key l) -> (forall r, p r = true -> key r = k) ->
  rows_where p l = match row_where p l with Some r => [r] | None => [] end.
Proof.
  intros Hd Hk. unfold rows_where, row_where. induction l as [|r l IH]; cbn in *; [done|].
  apply NoDup_cons in Hd as [Hn Hd]. destruct (p r) eqn:E; [|by apply IH].
  f_equal. apply rows_where_none. intros r' Hr'. apply not_true_is_false. intros E'.
  apply Hn. apply list_elem_of_fmap. exists r'. split; [|done]. by rewrite (Hk r), (Hk r').
Qed.

Lemma bind_changes_frame changes f c :
  bind_changes changes = Ok f ->
  rc_id (f c) = rc_id c /\ rc_merchant_id (f c) = rc_merchant_id c.
Proof.
  revert f c. induction changes as [|[name value] rest IH]; intros f c; cbn [bind_changes].
  - by intros [= <-].
  - intros H. simp_res. destruct (IH x0 (x c) H0) as [-> ->]. revert H. unfold bind_change.
    repeat (case_match; try done).
    all: try (intros [= <-]; done).
    destruct (bind_optional_utc v); [|done]. by intros [= <-].
Qed.

(** The arguments a caller must give. *)
Record cas_input (v : Z) (changes : list (string * field_value)) : Prop := {
  cas_version : 1 <= v;
  cas_some : changes <> [];
  cas_known : forall name, name ∈ map fst changes -> name ∈ ALLOWED_FIELDS;
  cas_typed : is_ok (bind_changes changes) = true;
}.

Lemma cases_ext (s : session unit) (f g : list RecoveryCase -> list RecoveryCase) :
  f (db_cases (ses_db s)) = g (db_cases (ses_db s)) ->
  s <| ses_db ::= fun d => d <| db_cases ::= f |> |> = s <| ses_db ::= fun d => d <| db_cases ::= g |> |>.
Proof. intros H. unfold set_field. cbn. by rewrite H. Qed.
Lemma cases_id (s : session unit) : s <| ses_db ::= fun d => d <| db_cases ::= fun l => l |> |> = s.
Proof. by destruct s as [[] ? ? ?]. Qed.

Section cas.
Context (merchant_id case_id : string) (v : Z).

(** The row an update of version [v] is about. *)
Definition cas_row (d : Db) : option RecoveryCase :=
  row_where (cas_target merchant_id case_id v) (db_cases d).

Lemma cas_row_Some d c :
  cas_row d = Some c ->
  c ∈ db_cases d /\ rc_id c = case_id /\ rc_merchant_id c = merchant_id /\ rc_version c = v.
Proof. intros [Hc H]%row_where_Some. unfold cas_target in H. bools. auto. Qed.

Lemma cas_unfold changes values s :
  cas_input v changes -> bind_changes changes = Ok values -> consistent (ses_db s) ->
  compare_and_swap_case merchant_id case_id v changes s =
    match cas_row (ses_db s) with
    | None => (Err (OptimisticVersionConflict case_id v), s)
    | Some c =>
        let s1 := s <| ses_db ::= fun d =>
          d <| db_cases ::= store_row rc_id (values c <| rc_version := v + 1 |>) |> |> in
        match violated (ses_db s1) with
        | Some e => (Err (IntegrityError e), s1)
        | None => (Ok (v + 1), s1)
        end
    end.
Proof.
  intros [Hv Hn Hk _] Hb Hc. unfold compare_and_swap_case.
  rewrite (proj2 (Z.ltb_ge _ _)) by lia.
  rewrite rows_where_none by (intros name Hname; apply negb_false_iff, mem_true, Hk; done).
  destruct (consistent_ids _ Hc) as (Hd & _ & _).
  rewrite (bool_decide_eq_true_2 ([] = [])) by done.
  rewrite (bool_decide_eq_false_2 (List.length changes = 0%nat)) by (by destruct changes).
  cbn [negb]. rewrite Hb. unfold query, flush, write. stx_unfold. unfold lift. cbv beta iota zeta. rewrite Hc.
  cbv beta iota zeta.
  rewrite (rows_where_key rc_id _ case_id (db_cases (ses_db s)) Hd)
    by (intros c H; unfold cas_target in H; by bools).
  unfold cas_row.
  destruct (row_where _ (db_cases (ses_db s))) as [c|] eqn:E.
  - assert (update_where (cas_target merchant_id case_id v)
              (fun c => values c <| rc_version := v + 1 |>) (db_cases (ses_db s))
            = store_row rc_id (values c <| rc_version := v + 1 |>) (db_cases (ses_db s))) as Hu.
    { pose proof (cas_row_Some (ses_db s) c E) as (Hin & Hid & Hm & Hver).
      unfold store_row. cbn [rc_id set_field]. pose proof (bind_changes_frame _ _ c Hb) as [Hvid _].
      apply update_where_ext.
      - intros r Hr. cbn. rewrite Hvid, Hid. apply eq_bool_prop_intro. unfold cas_target. split.
        + intros H%Is_true_true. bools. apply Is_true_true. by apply bool_decide_eq_true.
        + intros H%Is_true_true%bool_decide_eq_true. apply Is_true_true.
          replace r with c by (apply (nodup_fmap_inj rc_id _ c r Hd Hin Hr); congruence).
          by apply row_where_Some in E as [_ E].
      - intros r Hr H. unfold cas_target in H. bools.
        replace r with c; [done|]. apply (nodup_fmap_inj rc_id _ c r Hd Hin Hr). congruence. }
    cbn [List.length Nat.eqb negb].
    rewrite (cases_ext s _ _ Hu). destruct (violated (ses_db (s <| ses_db ::= _ |>))); done.
  - cbn [List.length Nat.eqb negb].
    rewrite (cases_ext s _ (fun l => l)) by (apply update_where_none; intros r Hr;
      by apply (row_where_None _ _ r E)).
    rewrite cases_id, Hc. done.
Qed.
End cas.

(** of any two updates that expect the same version of a case, in sequence as the
    database runs them, at most one is applied: an accepted update finds the case at the
    expected version, writes the given fields with the next version on that row and on no
    other, and the second update is then refused with the version conflict and changes
    nothing; an update that does not find that version is refused and changes nothing;
    the only other failure is a violated constraint. *)
Theorem cas_one_winner merchant_id case_id v changes1 changes2 s r1 s1 :
  cas_input v changes1 -> cas_input v changes2 -> consistent (ses_db s) ->
  compare_and_swap_case merchant_id case_id v changes1 s = (r1, s1) ->
  let conflict := OptimisticVersionConflict case_id v in
  (exists c values, cas_row merchant_id case_id v (ses_db s) = Some c /\
     bind_changes changes1 = Ok values /\ r1 = Ok (v + 1) /\ consistent (ses_db s1) /\
     ses_db s1 = (ses_db s) <| db_cases ::= store_row rc_id (values c <| rc_version := v + 1 |>) |> /\
     compare_and_swap_case merchant_id case_id v changes2 s1 = (Err conflict, s1)) \/
  (cas_row merchant_id case_id v (ses_db s) = None /\ r1 = Err conflict /\ s1 = s) \/
  (exists constraint, r1 = Err (IntegrityError constraint)).
Proof.
  intros H1 H2 Hc Hrun. cbv zeta.
  destruct (is_ok_true (bind_changes changes1)) as [Hok _]. destruct (Hok (cas_typed _ _ H1)) as [f1 Hf1].
  destruct (is_ok_true (bind_changes changes2)) as [Hok2 _]. destruct (Hok2 (cas_typed _ _ H2)) as [f2 Hf2].
  rewrite (cas_unfold _ _ _ _ _ _ H1 Hf1 Hc) in Hrun.
  destruct (cas_row merchant_id case_id v (ses_db s)) as [c|] eqn:Ec; [|right; left; by simplify_eq].
  cbv zeta in Hrun. destruct (violated _) as [e|] eqn:Ev; [right; right; simplify_eq; eauto|].
  left. injection Hrun as <- <-. exists c, f1. repeat (split; [done|]).
  rewrite (cas_unfold _ _ _ _ _ _ H2 Hf2 Ev).
  destruct (cas_row _ _ _ (ses_db (s <| ses_db ::= _ |>))) as [c'|] eqn:Ec'; [exfalso|done].
  apply cas_row_Some in Ec' as (Hin & Hid & Hm & Hver). cbn in Hin.
  apply cas_row_Some in Ec as (Hin0 & Hid0 & _). destruct (bind_changes_frame _ _ c Hf1) as [Hfid _].
  apply elem_of_store_row in Hin as [->|[_ Hne]]; cbn in *; [lia|congruence].
Qed.

Definition demo_captured : list (string * field_value) :=
  [("payment_state", VPaymentState PaymentState.CAPTURED)].
Definition demo_flagged : list (string * field_value) := [("case_recovered", VBool true)].
Definition demo_cas : session unit :=
  Eval vm_compute in
    snd (compare_and_swap_case "m1" "case_b" 1 demo_captured (open_session demo_cases_db tt)).

Lemma cas_one_winner_witness :
  compare_and_swap_case "m1" "case_b" 1 demo_captured (open_session demo_cases_db tt) = (Ok 2, demo_cas) /\
  compare_and_swap_case "m1" "case_b" 1 demo_flagged demo_cas
    = (Err (OptimisticVersionConflict "case_b" 1), demo_cas).
Proof.
  assert (cas_input 1 demo_captured) as H1.
  { split; [lia|done| |vm_compute; reflexivity].
    intros name ->%list_elem_of_singleton. apply mem_true. vm_compute. reflexivity. }
  assert (cas_input 1 demo_flagged) as H2.
  { split; [lia|done| |vm_compute; reflexivity].
    intros name ->%list_elem_of_singleton. apply mem_true. vm_compute. reflexivity. }
  assert (compare_and_swap_case "m1" "case_b" 1 demo_captured (open_session demo_cases_db tt)
            = (Ok 2, demo_cas)) as Hrun by (vm_compute; reflexivity).
  split; [exact Hrun|].
  assert (consistent demo_cases_db) as Hc by (vm_compute; reflexivity).
  destruct (cas_one_winner "m1" "case_b" 1 demo_captured demo_flagged (open_session demo_cases_db tt)
              (Ok 2) demo_cas H1 H2 Hc Hrun)
    as [(c & f & _ & _ & _ & _ & _ & H)|[(_ & H & _)|[e H]]]; [exact H|discriminate H..].
Defined.

(** ** Commands: what a successful step changes *)

Lemma keeps_savepoint {V} (v : session unit -> V) (m : M unit) :
  keeps v m -> (forall s f, v (s <| ses_db := f |>) = v s) -> keeps v (savepoint m).
Proof.
  intros Hm Hv s. unfold savepoint.
  assert (keeps v (_ ← flush; _ ← m; flush)) as H by (repeat (apply keeps_bind; [|intros _]); auto using keeps_flush).
  specialize (H s). destruct ((_ ← flush; _ ← m; flush) s) as [[a|e] s']; cbn in *; [done|].
  destruct e; cbn; by rewrite Hv.
Qed.
Lemma keeps_committed_savepoint f : keeps (ses_committed (X := unit)) (savepoint (write f)).
Proof. apply keeps_savepoint; [keeps|done]. Qed.
Lemma keeps_committed_found {A} (o : option A) msg :
  keeps (ses_committed (X := unit)) (found_or_404 o msg).
Proof. unfold found_or_404. keeps. Qed.
#[export] Hint Resolve keeps_committed_savepoint keeps_committed_found : keeps.

Lemma found_404_Ok {A} (o : option A) msg (s : session unit) a s' :
  found_or_404 o msg s = (Ok a, s') -> s' = s /\ o = Some a.
Proof. destruct o; [by intros [= -> <-]|done]. Qed.

Lemma savepoint_Ok f (s : session unit) b s' :
  savepoint (write f) s = (Ok b, s') ->
  s' = (if b : bool then s <| ses_db ::= f |> else s) /\ (b = true -> consistent (f (ses_db s))).
Proof.
  unfold savepoint, flush, write. stx_unfold. unfold consistent.
  destruct (violated (ses_db s)); cbn.
  - intros [= <- <-]. by destruct s as [? ? ? []].
  - destruct (violated (f (ses_db s))) eqn:E; intros [= <- <-]; [|done]. by destruct s as [? ? ? []].
Qed.

Section commands.
Context (new_id : nat -> string) (utc_now clock : nat -> Z).

Lemma moment_Ok now (s : session unit) t s' :
  moment clock now s = (Ok t, s') ->
  ses_db s' = ses_db s /\ ses_committed s' = ses_committed s.
Proof. unfold moment. intros H. destruct now; runs; by subst. Qed.

Lemma record_event_Ok case_id ty source kind payload at_ sid (s : session unit) b s' :
  record_event new_id utc_now case_id ty source kind payload at_ sid s = (Ok b, s') ->
  (exists evs, ses_db s' = ses_db s <| db_events := evs |>) /\ ses_committed s' = ses_committed s.
Proof.
  unfold record_event, add_event. intros H. runs. subst.
  assert (forall d : Db, exists evs, d = d <| db_events := evs |>) as Hid.
  { intros d. exists (db_events d). by destruct d. }
  match type of H with (if ?c then _ else _) _ = _ => destruct c end.
  - runs. subst. match goal with E : (if ?c then _ else _) _ = _ |- _ => destruct c end; runs; subst; cbn; eauto.
  - apply savepoint_Ok in H as [-> _].
    match goal with E : (if ?c then _ else _) _ = _ |- _ => destruct c end; runs; subst; destruct b; cbn; eauto.
Qed.

Lemma cancel_Ok case_id t (s : session unit) u s' :
  cancel_nonterminal_actions case_id t s = (Ok u, s') ->
  ses_db s' = ses_db s <| db_actions ::= update_where
    (fun a => bool_decide (act_case_id a = case_id) && mem (act_status a) NONTERMINAL_STATUSES)
    (fun a => a <| act_status := ActionStatus.CANCELLED |> <| act_completed_at := Some t |>
                <| act_updated_at := t |>) |> /\
  ses_committed s' = ses_committed s.
Proof. unfold cancel_nonterminal_actions. intros H. runs. by subst. Qed.
End commands.

Lemma locked_Ok merchant_id case_id (s : session unit) c s' :
  locked_case merchant_id case_id s = (Ok c, s') ->
  s' = s /\ owned_case merchant_id case_id (ses_db s) = Some c /\ rc_id c = case_id.
Proof.
  unfold locked_case, get_case_for_update. intros H. runs. subst.
  apply found_404_Ok in H as [-> H]. split; [done|]. split; [done|].
  apply row_where_Some in H as [_ H]. by bools.
Qed.

Lemma ses_db_upd f (s : session unit) : ses_db (s <| ses_db ::= f |>) = f (ses_db s).
Proof. done. Qed.
Lemma ses_committed_upd f (s : session unit) : ses_committed (s <| ses_committed ::= f |>) = f (ses_committed s).
Proof. done. Qed.

(** Take a successful command apart, and put its final contents together. *)
Ltac command_steps :=
  repeat match goal with
  | H : moment _ _ _ = _ |- _ => apply moment_Ok in H as [? ?]
  | H : save_loaded_case _ _ = _ |- _ => unfold save_loaded_case in H; apply write_Ok in H as ->
  | H : cancel_nonterminal_actions _ _ _ = _ |- _ => apply cancel_Ok in H as [? ?]
  | H : record_event _ _ _ _ _ _ _ _ _ _ = _ |- _ => apply record_event_Ok in H as [[? ?] ?]
  | H : locked_case _ _ _ = _ |- _ => apply locked_Ok in H as (-> & ? & ?)
  end.
Ltac final_db :=
  rewrite ses_committed_upd;
  repeat (rewrite ses_db_upd || match goal with E : ses_db ?y = _ |- context [ses_db ?y] => rewrite E end);
  reflexivity.

(** ** Terminal commands *)

(** The commands that end an open case. *)
Inductive case_command : Type :=
| Stop (reason : string)
| Escalate (reason : string)
| Dispose (disposition : ContactDisposition).

Section terminal.
Context (new_id : nat -> string) (utc_now clock : nat -> Z).

Definition run_command (cmd : case_command) (merchant_id case_id : string) (now : option Z)
  : M RecoveryCase :=
  match cmd with
  | Stop reason => stop_case new_id utc_now clock merchant_id case_id reason now
  | Escalate reason => escalate_case new_id utc_now clock merchant_id case_id reason now
  | Dispose disposition =>
      record_safety_disposition new_id utc_now clock merchant_id case_id disposition now
  end.

Definition command_outcome (cmd : case_command) : option CaseOutcome :=
  match cmd with
  | Stop _ => Some CaseOutcome.STOPPED
  | Escalate _ => Some CaseOutcome.ESCALATED
  | Dispose disposition => terminal_outcome disposition
  end.

(** The case as the command leaves it. *)
Definition closed_case (cmd : case_command) (outcome : CaseOutcome) (c : RecoveryCase) : RecoveryCase :=
  match cmd with
  | Dispose disposition =>
      c <| rc_contact_disposition := disposition |> <| rc_case_outcome := outcome |>
        <| rc_version ::= Z.succ |>
  | _ => c <| rc_case_outcome := outcome |> <| rc_version ::= Z.succ |>
  end.

(** The contents after the command closed [c0]. *)
Record closes (cmd : case_command) (d d' : Db) (c : RecoveryCase) : Prop := {
  cl_consistent : consistent d';
  cl_cases : db_cases d' = store_row rc_id c (db_cases d);
  cl_pending : forall a, a ∈ db_actions d' -> act_case_id a = rc_id c ->
    act_status a ∉ NONTERMINAL_STATUSES;
  cl_others : rows_where (fun a => negb (bool_decide (act_case_id a = rc_id c))) (db_actions d')
    = rows_where (fun a => negb (bool_decide (act_case_id a = rc_id c))) (db_actions d);
  cl_books : db_recognitions d' = db_recognitions d /\ db_payments d' = db_payments d /\
    db_invoices d' = db_invoices d /\ db_subscriptions d' = db_subscriptions d;
  cl_opt_out : cmd = Dispose ContactDisposition.OPTED_OUT ->
    exists customer, customer ∈ db_customers d' /\ cus_id customer = rc_customer_id c /\
      is_Some (cus_opted_out_at customer);
}.

Lemma keeps_committed_record case_id ty source kind payload at_ sid :
  keeps (ses_committed (X := unit))
    (record_event new_id utc_now case_id ty source kind payload at_ sid).
Proof. unfold record_event. keeps. Qed.
#[local] Hint Resolve keeps_committed_record : keeps.

Lemma command_atomic cmd merchant_id case_id now : atomic (run_command cmd merchant_id case_id now).
Proof. destruct cmd; cbn [run_command]; atomically. Qed.

(** The rows of the case after its pending actions are cancelled. *)
Lemma closes_intro cmd d d1 d' c t evs :
  let others := rows_where (fun a => negb (bool_decide (act_case_id a = rc_id c))) in
  db_cases d1 = store_row rc_id c (db_cases d) -> others (db_actions d1) = others (db_actions d) ->
  db_recognitions d1 = db_recognitions d -> db_payments d1 = db_payments d ->
  db_invoices d1 = db_invoices d -> db_subscriptions d1 = db_subscriptions d ->
  (cmd = Dispose ContactDisposition.OPTED_OUT ->
     exists customer, customer ∈ db_customers d1 /\ cus_id customer = rc_customer_id c /\
       is_Some (cus_opted_out_at customer)) ->
  d' = d1 <| db_actions ::= update_where
    (fun a => bool_decide (act_case_id a = rc_id c) && mem (act_status a) NONTERMINAL_STATUSES)
    (fun a => a <| act_status := ActionStatus.CANCELLED |> <| act_completed_at := Some t |>
                <| act_updated_at := t |>) |> <| db_events := evs |> ->
  consistent d' -> closes cmd d d' c.
Proof.
  cbv zeta. intros Hc Ho Hr Hp Hi Hs Hx -> Hcons. split; try done.
  - intros a Ha%elem_of_update_where Hid. destruct Ha as (a0 & _ & ->).
    destruct (_ && _) eqn:E; [apply mem_false; reflexivity|].
    rewrite (bool_decide_eq_true_2 _ Hid) in E. by apply mem_false.
  - rewrite <- Ho. cbn. generalize (db_actions d1). unfold rows_where, update_where.
    induction l as [|a l IH]; cbn; [done|]. rewrite IH.
    destruct (bool_decide (act_case_id a = rc_id c)) eqn:E; cbn; [|by rewrite E].
    destruct (mem _ _); unfold set_field; cbn; by rewrite E.
Qed.

(** What a successful command did to the case it found. *)
Definition command_result (cmd : case_command) (outcome : CaseOutcome) (merchant_id case_id : string)
    (s s' : session unit) (c : RecoveryCase) : Prop :=
  exists c0, owned_case merchant_id case_id (ses_db s) = Some c0 /\
    ((rc_case_outcome c0 = outcome /\ c = c0 /\ s' = s) \/
     (rc_case_outcome c0 = CaseOutcome.OPEN /\ c = closed_case cmd outcome c0 /\
      closes cmd (ses_db s) (ses_committed s') c)).

Lemma stop_Ok merchant_id case_id reason now (s : session unit) c s' :
  stop_case new_id utc_now clock merchant_id case_id reason now s = (Ok c, s') ->
  command_result (Stop reason) CaseOutcome.STOPPED merchant_id case_id s s' c.
Proof.
  unfold stop_case. intros H. runs. command_steps. rename x into c0. exists c0. split; [done|].
  case_bool_decide; [left; runs; by subst|].
  right. cbv zeta in H. runs. bools. subst. command_steps. split; [done|]. split; [done|].
  eapply closes_intro with (d1 := ses_db s <| db_cases ::= store_row rc_id
    (closed_case (Stop reason) CaseOutcome.STOPPED c0) |>); try done.
  final_db.
Qed.

Lemma opt_out_Ok disposition customer_id t (s : session unit) u s' :
  (if bool_decide (disposition = ContactDisposition.OPTED_OUT)
   then opt_customer_out customer_id t else mret tt) s = (Ok u, s') ->
  exists l, ses_db s' = ses_db s <| db_customers := l |> /\
    (disposition = ContactDisposition.OPTED_OUT -> exists customer, customer ∈ l /\
       cus_id customer = customer_id /\ is_Some (cus_opted_out_at customer)).
Proof.
  case_bool_decide as Hd.
  - unfold opt_customer_out, get_customer_for_update. intros H. runs. subst.
    destruct (row_where _ _) as [customer|] eqn:E; runs. subst.
    apply row_where_Some in E as [Hin Hid]. bools.
    eexists. split; [reflexivity|]. intros _.
    exists (customer <| cus_opted_out_at := Some t |>). split; [|by split].
    by apply (elem_of_store cus_id customer).
  - intros H. runs. subst. exists (db_customers (ses_db s)). split; [by destruct (ses_db s)|done].
Qed.

Lemma dispose_Ok merchant_id case_id disposition outcome now (s : session unit) c s' :
  terminal_outcome disposition = Some outcome ->
  record_safety_disposition new_id utc_now clock merchant_id case_id disposition now s = (Ok c, s') ->
  command_result (Dispose disposition) outcome merchant_id case_id s s' c.
Proof.
  unfold record_safety_disposition. intros -> H. runs. command_steps. rename x into c0. exists c0. split; [done|].
  destruct (bool_decide (rc_case_outcome c0 = CaseOutcome.OPEN)) eqn:Eo; cbn [negb] in H.
  2:{ left. destruct (_ && _) eqn:E; [|done]. runs. bools. by subst. }
  right. cbv zeta in H. runs. bools. subst. command_steps. split; [done|]. split; [done|].
  set (closed := c0 <| rc_contact_disposition := disposition |> <| rc_case_outcome := outcome |>
                   <| rc_version ::= Z.succ |>) in *.
  apply opt_out_Ok in H4 as (l & El & Hl).
  eapply closes_intro with (d1 := ses_db s <| db_cases ::= store_row rc_id closed |> <| db_customers := l |>);
    try done; [by intros [= ->]; apply Hl|]. final_db.
Qed.

Lemma escalation_Ok c case_id reason t (s : session unit) a s' :
  add_escalation new_id utc_now c case_id reason t s = (Ok a, s') ->
  act_case_id a = case_id /\ exists pols,
    ses_db s' = ses_db s <| db_actions ::= fun l => l ++ [a] |> <| db_policies := pols |>.
Proof.
  unfold add_escalation, add_action_with_policy. intros H. runs. cbv zeta in *. runs. subst.
  split; [done|]. eexists. reflexivity.
Qed.

Lemma escalate_Ok merchant_id case_id reason now (s : session unit) c s' :
  escalate_case new_id utc_now clock merchant_id case_id reason now s = (Ok c, s') ->
  command_result (Escalate reason) CaseOutcome.ESCALATED merchant_id case_id s s' c.
Proof.
  unfold escalate_case. intros H. runs. command_steps. rename x into c0. exists c0. split; [done|].
  case_bool_decide; [left; runs; by subst|].
  right. cbv zeta in H. runs. bools. subst. command_steps.
  match goal with H : add_escalation _ _ _ _ _ _ _ = (Ok ?a, _) |- _ =>
    rename a into action; apply escalation_Ok in H as (Hid & pols & ?) end.
  split; [done|]. split; [done|].
  set (closed := closed_case (Escalate reason) CaseOutcome.ESCALATED c0) in *.
  eapply closes_intro with (d1 := ses_db s <| db_cases ::= store_row rc_id closed |>
    <| db_actions ::= fun l => l ++ [action] |> <| db_policies := pols |>); try done; [|final_db].
  unfold set_field. cbn. unfold rows_where. rewrite List.filter_app. cbn. rewrite Hid.
  rewrite bool_decide_eq_true_2 by done. by rewrite app_nil_r.
Qed.
End terminal.

(** an operator's stop, escalation or safety disposition is one transaction that ends
    an open case once.  When it succeeds the case either had that outcome already and
    nothing changed, or was open: then its outcome and (for a disposition) its contact
    disposition are set and its version is the next one, no action of the case is left
    pending, the actions of other cases, the other cases, payments, invoices and
    recognitions are as they were, and an opt-out is recorded on the customer; all of it
    is committed.  A case with any other outcome is refused; and whenever the command
    fails, nothing is committed. *)
Theorem commands_close_once new_id utc_now clock cmd merchant_id case_id now d r s' :
  consistent d ->
  run_command new_id utc_now clock cmd merchant_id case_id now (open_session d tt) = (r, s') ->
  match r with
  | Err _ => ses_committed s' = d
  | Ok c => exists outcome, command_outcome cmd = Some outcome /\
      command_result cmd outcome merchant_id case_id (open_session d tt) s' c
  end /\
  (forall c0 outcome, owned_case merchant_id case_id d = Some c0 -> command_outcome cmd = Some outcome ->
     rc_case_outcome c0 <> CaseOutcome.OPEN -> rc_case_outcome c0 <> outcome ->
     r = Err (CaseConflictError "The recovery case is already terminal.")).
Proof.
  intros Hc Hrun. split.
  - destruct r as [c|e].
    + destruct cmd as [reason|reason|disposition]; cbn [run_command command_outcome] in *.
      * exists CaseOutcome.STOPPED. split; [done|]. by eapply stop_Ok.
      * exists CaseOutcome.ESCALATED. split; [done|]. by eapply escalate_Ok.
      * destruct (terminal_outcome disposition) as [outcome|] eqn:E.
        -- exists outcome. split; [done|]. by eapply dispose_Ok.
        -- unfold record_safety_disposition in Hrun. by rewrite E in Hrun.
    + by apply command_atomic in Hrun.
  - intros c0 outcome Hown Hout Hopen Hne. revert Hrun.
    assert (locked_case merchant_id case_id (open_session d tt) = (Ok c0, open_session d tt)) as Hl.
    { unfold locked_case, get_case_for_update, query, flush. stx_unfold.
      change (ses_db (open_session d ())) with d. rewrite Hc. cbv beta iota.
      change (ses_db (open_session d ())) with d. by rewrite Hown. }
    destruct cmd as [reason|reason|disposition]; cbn [run_command command_outcome] in *.
    + injection Hout as <-. unfold stop_case. rewrite (stx_bind_intro _ _ _ _ _ Hl).
      rewrite bool_decide_eq_false_2, bool_decide_eq_false_2 by done. by intros [= <- _].
    + injection Hout as <-. unfold escalate_case. rewrite (stx_bind_intro _ _ _ _ _ Hl).
      rewrite bool_decide_eq_false_2, bool_decide_eq_false_2 by done. by intros [= <- _].
    + unfold record_safety_disposition. rewrite Hout, (stx_bind_intro _ _ _ _ _ Hl).
      rewrite bool_decide_eq_false_2, bool_decide_eq_false_2 by done. by intros [= <- _].
Qed.

(** An open case with a scheduled action, whose customer opts out. *)
Definition demo_open_db : Db :=
  demo_cases_db
    <| db_customers := [{| cus_id := "cus_1"; cus_merchant_id := "m1"; cus_external_id := "x"; cus_display_name := "C";
         cus_phone_token := None; cus_preferred_language := "en-IN"; cus_voice_consent_at := None;
         cus_opted_out_at := None; cus_customer_agent_available := false; cus_created_at := 0 |}] |>
    <| db_actions := [{| act_id := "act_1"; act_case_id := "case_b";
         act_action_type := RecoveryActionType.WAIT_FOR_GATEWAY_RETRY; act_payment_surface_type := None;
         act_status := ActionStatus.SCHEDULED; act_idempotency_key := "k"; act_scheduled_for := None;
         act_external_reference := None; act_customer_url := None; act_completed_at := None; act_created_at := 1; act_updated_at := 1 |}] |>.
Definition demo_opt_out : result RecoveryCase * session unit :=
  Eval vm_compute in
    run_command demo_ids Z.of_nat Z.of_nat (Dispose ContactDisposition.OPTED_OUT) "m1" "case_b" (Some 5)
      (open_session demo_open_db tt).

Lemma commands_close_once_witness :
  exists c, fst demo_opt_out = Ok c /\
    map act_status (db_actions (ses_committed (snd demo_opt_out))) = [ActionStatus.CANCELLED] /\
    map cus_opted_out_at (db_customers (ses_committed (snd demo_opt_out))) = [Some 5] /\
    exists outcome, command_outcome (Dispose ContactDisposition.OPTED_OUT) = Some outcome /\
      command_result (Dispose ContactDisposition.OPTED_OUT) outcome "m1" "case_b"
        (open_session demo_open_db tt) (snd demo_opt_out) c.
Proof.
  eexists. split; [reflexivity|]. split; [reflexivity|]. split; [reflexivity|].
  apply (commands_close_once demo_ids Z.of_nat Z.of_nat (Dispose ContactDisposition.OPTED_OUT) "m1"
           "case_b" (Some 5) demo_open_db (fst demo_opt_out) (snd demo_opt_out)).
  - vm_compute. reflexivity.
  - vm_compute. reflexivity.
Defined.

(** ** The mock payment *)

Lemma recognition_of_key m p e r :
  (eqs (rev_merchant_id r) m && eqs (rev_provider r) p && eqs (rev_provider_event_id r) e) = true <->
  Some (rev_merchant_id r, rev_provider r, rev_provider_event_id r) = Some (m, p, e).
Proof. rewrite !andb_true_iff, !bool_decide_eq_true. split; [by intros [[-> ->] ->]|by intros [= -> -> ->]]. Qed.

Lemma recognition_of_unique d m p e r :
  consistent d -> r ∈ db_recognitions d -> rev_merchant_id r = m -> rev_provider r = p ->
  rev_provider_event_id r = e -> recognition_of m p e d = Some r.
Proof.
  intros Hc Hr <- <- <-. unfold recognition_of. destruct (row_where _ _) as [r'|] eqn:E.
  - apply row_where_Some in E as [Hr' Hk%recognition_of_key]. f_equal.
    refine (unique_on_spec (fun r => Some (rev_merchant_id r, rev_provider r, rev_provider_event_id r))
              (db_recognitions d) r' r _ _ Hr' Hr Hk eq_refl).
    by constraint d "revenue_provider_event".
  - apply (row_where_None _ _ r E) in Hr. by rewrite !bool_decide_eq_true_2 in Hr.
Qed.

Lemma insert_recognition_consistent d r :
  consistent d -> (forall r', r' ∈ db_recognitions d -> rev_id r' <> rev_id r) ->
  recognition_of (rev_merchant_id r) (rev_provider r) (rev_provider_event_id r) d = None ->
  check_recognition r = true -> consistent (d <| db_recognitions ::= fun l => l ++ [r] |>).
Proof.
  intros Hc Hid Hnone Hcheck. apply consistent_iff. apply consistent_iff in Hc.
  unfold constraints in *. cbn.
  repeat match goal with H : Forall _ (_ :: _) |- _ => apply Forall_cons in H as [? H] end.
  repeat (apply Forall_cons; split; [try done|]); try constructor; cbn [snd].
  - apply unique_on_snoc; [done|]. intros y Hy _ [= E]. by apply (Hid y).
  - apply unique_on_snoc; [done|]. intros y Hy _ E%recognition_of_key.
    by rewrite (row_where_None _ _ y Hnone) in E.
  - rewrite forallb_app. cbn. rewrite Hcheck, !andb_true_r. done.
Qed.

Lemma savepoint_true f (s : session unit) :
  consistent (ses_db s) -> consistent (f (ses_db s)) ->
  savepoint (write f) s = (Ok true, s <| ses_db ::= f |>).
Proof. intros H1 H2. unfold savepoint, flush, write. stx_unfold. rewrite H1. cbn. by rewrite H2. Qed.

Lemma recognize_once_true r (s : session unit) b s' :
  recognize_revenue_once r s = (Ok b, s') ->
  (forall r', r' ∈ db_recognitions (ses_db s) -> rev_id r' <> rev_id r) ->
  recognition_of (rev_merchant_id r) (rev_provider r) (rev_provider_event_id r) (ses_db s) = None ->
  check_recognition r = true ->
  b = true /\ s' = s <| ses_db ::= fun d => d <| db_recognitions ::= fun l => l ++ [r] |> |> /\
  consistent (ses_db s').
Proof.
  intros H Hid Hnone Hcheck. unfold recognize_revenue_once in H.
  apply stx_bind_Ok in H as (found & s3 & Hq & H). apply query_Ok in Hq as (-> & Hf & Hc).
  rewrite Hnone in Hf. cbn in Hf. subst found. cbn [truthy] in H.
  pose proof (insert_recognition_consistent _ r Hc Hid Hnone Hcheck) as Hc'.
  rewrite (savepoint_true (fun d => d <| db_recognitions ::= fun l => l ++ [r] |>) s Hc Hc') in H. injection H as <- <-. done.
Qed.

Section mock.
Context (new_id : nat -> string) (utc_now clock : nat -> Z) (sha256_hex : string -> string).
Abbreviation mock_payment := (apply_mock_payment_success new_id utc_now clock sha256_hex).

Lemma keeps_committed_once r : keeps (ses_committed (X := unit)) (recognize_revenue_once r).
Proof. unfold recognize_revenue_once. keeps. Qed.
#[local] Hint Resolve keeps_committed_once keeps_committed_record : keeps.

Lemma mock_atomic m c e a t b : atomic (mock_payment m c e a t b).
Proof. atomically. Qed.

(** The rows of a payment booked for the first time. *)
Record booked (m case_id event_id invoice_id : string) (amount t : Z) (reactivated : bool)
    (c : RecoveryCase) (d d' : Db) (r : RevenueRecognitionRecord) : Prop := {
  bk_case : rev_case_id r = case_id;
  bk_merchant : rev_merchant_id r = m;
  bk_provider : rev_provider r = "mock";
  bk_event : rev_provider_event_id r = event_id;
  bk_amount : rev_amount_paise r = amount;
  bk_arrears : rev_arrears_collected r = true;
  bk_cases : db_cases d' = db_cases d;
  bk_recognitions : db_recognitions d' = db_recognitions d ++ [r];
  bk_payments : db_payments d'
    = db_payments d ++ [mock_payment_attempt sha256_hex c m invoice_id event_id amount t];
  bk_invoices : exists i, i ∈ db_invoices d /\ inv_id i = invoice_id /\
    db_invoices d' = store_row inv_id (collect_on_invoice amount i) (db_invoices d);
  bk_actions : db_actions d' = db_actions d;
}.

Lemma book_Ok c m case_id invoice_id event_id amount t reactivated (s : session unit) b s' :
  (forall n r, r ∈ db_recognitions (ses_db s) -> rev_id r <> new_id n) -> 0 < amount ->
  recognition_of m "mock" event_id (ses_db s) = None ->
  book_mock_payment new_id sha256_hex c m case_id invoice_id event_id amount t reactivated s = (Ok b, s') ->
  b = true /\ consistent (ses_db s') /\
  exists r, booked m case_id event_id invoice_id amount t reactivated c (ses_db s) (ses_db s') r.
Proof.
  intros Hfresh Hpos Hnone. unfold book_mock_payment, add_payment_attempt, add_invoice_collection.
  intros H. cbv zeta in H. runs. subst.
  match goal with H : match row_where ?p ?l with _ => _ end _ = _ |- _ =>
    destruct (row_where p l) as [i|] eqn:Ei; runs; subst end.
  apply row_where_Some in Ei as [Hi Hid]. bools.
  set (r := {| rev_id := _ |}) in H.
  apply recognize_once_true in H as (-> & Hs' & Hc').
  - split; [done|]. split; [exact Hc'|]. exists r.
    assert (ses_db s' = (ses_db s) <| db_payments ::= fun l =>
        l ++ [mock_payment_attempt sha256_hex c m invoice_id event_id amount t] |>
        <| db_invoices ::= store_row inv_id (collect_on_invoice amount i) |>
        <| db_recognitions ::= fun l => l ++ [r] |>) as -> by (rewrite Hs'; reflexivity).
    split; try reflexivity. exists i. split; [exact Hi|]. split; [done|reflexivity].
  - intros r' Hr'. exact (Hfresh _ r' Hr').
  - exact Hnone.
  - unfold check_recognition. cbn. by rewrite (proj2 (Z.ltb_lt _ _) Hpos).
Qed.

Lemma settle_Ok c case_id event_id amount t reactivated (s : session unit) c' s' :
  settle_mock_payment new_id utc_now c case_id event_id amount t reactivated s = (Ok c', s') ->
  c' = mock_recovered_case amount t reactivated c /\
  books_of (ses_db s') = (store_row rc_id c' (db_cases (ses_db s)), db_recognitions (ses_db s),
                          db_payments (ses_db s), db_invoices (ses_db s)) /\
  ses_committed s' = ses_committed s.
Proof.
  unfold settle_mock_payment. intros H. cbv zeta in H. runs. subst. command_steps.
  split; [done|]. split.
  2:{ repeat match goal with E : ses_committed ?y = _ |- context [ses_committed ?y] => rewrite E end.
      reflexivity. }
  repeat match goal with E : ses_db ?y = _ |- context [ses_db ?y] => rewrite E end.
  reflexivity.
Qed.

Lemma settled_balanced d d' c m case_id event_id invoice_id amount t reactivated r :
  balanced (books_of d) -> c ∈ db_cases d -> rc_id c = case_id ->
  0 < amount <= rc_amount_at_risk_paise c - rc_arrears_collected_paise c ->
  booked m case_id event_id invoice_id amount t reactivated c d d' r -> consistent d' ->
  balanced (store_row rc_id (mock_recovered_case amount t reactivated c) (db_cases d),
            db_recognitions d', db_payments d', db_invoices d').
Proof.
  intros Hb Hc Hid [Hpos Hle] [] (_ & Hpay & Hinv)%consistent_ids.
  apply (balanced_payments _ _ (db_payments d)); [|done].
  apply (balanced_invoices _ _ _ (db_invoices d)); [|done].
  rewrite bk_recognitions0. apply (balanced_recognize _ _ _ _ Hb c); try done.
  - congruence.
  - cbn. lia.
  - lia.
  - cbn. lia.
  - cbn. by intros ?%Z.leb_le.
  - intros k. unfold payment_key. rewrite bk_provider0. by rewrite bool_decide_eq_false_2.
Qed.

(** A payment that is already in the ledger: reported, and nothing else. *)
Lemma mock_replay m case_id event_id amount_paise at_ reactivated d c r :
  consistent d -> owned_case m case_id d = Some c -> recognition_of m "mock" event_id d = Some r ->
  exists s', mock_payment m case_id event_id amount_paise at_ reactivated (open_session d tt)
    = (Ok {| psr_recovery_case := c; psr_newly_recognized := false;
             psr_recognized_amount_paise := rev_amount_paise r |}, s') /\ ses_committed s' = d.
Proof.
  intros Hc Hown Hr. unfold apply_mock_payment_success.
  assert (locked_case m case_id (open_session d tt) = (Ok c, open_session d tt)) as Hl.
  { unfold locked_case, get_case_for_update, query, flush. stx_unfold.
    change (ses_db (open_session d ())) with d. rewrite Hc. cbv beta iota.
    change (ses_db (open_session d ())) with d. by rewrite Hown. }
  rewrite (stx_bind_intro _ _ _ _ _ Hl).
  destruct at_ as [t|]; cbn [moment].
  - rewrite (stx_bind_intro _ _ _ t (open_session d tt)) by done.
    erewrite stx_bind_intro.
    2:{ unfold find_revenue_recognition, query, flush. stx_unfold.
        change (ses_db (open_session d ())) with d. rewrite Hc. cbv beta iota.
        change (ses_db (open_session d ())) with d. by rewrite Hr. }
    eexists. split; reflexivity.
  - set (s1 := open_session d tt <| ses_reads ::= S |>).
    rewrite (stx_bind_intro _ _ _ (clock 0%nat) s1) by done.
    erewrite stx_bind_intro.
    2:{ unfold find_revenue_recognition, query, flush. stx_unfold.
        change (ses_db s1) with d. rewrite Hc. cbv beta iota.
        change (ses_db s1) with d. by rewrite Hr. }
    eexists. split; reflexivity.
Qed.
End mock.

(** What a mock payment did: nothing, when its event is in the ledger, or the booking of
    its amount on the open arrears of the case it names. *)
Definition mock_result (m case_id event_id : string) (d d' : Db) (res : PaymentSuccessResult)
    (r : RevenueRecognitionRecord) : Prop :=
  if psr_newly_recognized res then
    exists c t reactivated, owned_case m case_id d = Some c /\ rev_case_id r = case_id /\
      0 < rev_amount_paise r <= rc_amount_at_risk_paise c - rc_arrears_collected_paise c /\
      db_recognitions d' = db_recognitions d ++ [r] /\
      psr_recovery_case res = mock_recovered_case (rev_amount_paise r) t reactivated c /\
      db_cases d' = store_row rc_id (psr_recovery_case res) (db_cases d)
  else d' = d.

(** a mock payment event is booked once.  On consistent contents with a balanced
    ledger and fresh identifiers, a successful call leaves them consistent and the
    ledger balanced, with the recognition of the event in it: either it was there and
    nothing changed, or the call added it, to the case it names and for a positive amount
    of at most the arrears left.  Sending the event again, for any case and amount,
    reports the amount recognized the first time and commits no change; and a call that
    fails commits nothing. *)
Theorem mock_payment_booked_once new_id utc_now clock sha256_hex m case_id event_id amount_paise
    occurred_at reactivated d r s' :
  consistent d -> balanced (books_of d) ->
  (forall n r, r ∈ db_recognitions d -> rev_id r <> new_id n) ->
  apply_mock_payment_success new_id utc_now clock sha256_hex m case_id event_id amount_paise occurred_at
    reactivated (open_session d tt) = (r, s') ->
  let d' := ses_committed s' in
  match r with
  | Err _ => d' = d
  | Ok res => consistent d' /\ balanced (books_of d') /\
      exists rev, recognition_of m "mock" event_id d' = Some rev /\
        psr_recognized_amount_paise res = rev_amount_paise rev /\
        mock_result m case_id event_id d d' res rev /\
        forall case_id' amount_paise' occurred_at' reactivated' c',
          owned_case m case_id' d' = Some c' ->
          exists s2, apply_mock_payment_success new_id utc_now clock sha256_hex m case_id' event_id
                       amount_paise' occurred_at' reactivated' (open_session d' tt)
            = (Ok {| psr_recovery_case := c'; psr_newly_recognized := false;
                     psr_recognized_amount_paise := rev_amount_paise rev |}, s2) /\
            ses_committed s2 = d'
  end.
Proof.
  cbv zeta. intros Hc Hb Hfresh Hrun. destruct r as [res|e]; [|by apply mock_atomic in Hrun].
  assert (forall d' res, consistent d' -> balanced (books_of d') ->
    (exists rev, recognition_of m "mock" event_id d' = Some rev /\
       psr_recognized_amount_paise res = rev_amount_paise rev /\ mock_result m case_id event_id d d' res rev) ->
    consistent d' /\ balanced (books_of d') /\
    exists rev, recognition_of m "mock" event_id d' = Some rev /\
      psr_recognized_amount_paise res = rev_amount_paise rev /\ mock_result m case_id event_id d d' res rev /\
      forall case_id' amount_paise' occurred_at' reactivated' c', owned_case m case_id' d' = Some c' ->
        exists s2, apply_mock_payment_success new_id utc_now clock sha256_hex m case_id' event_id
                     amount_paise' occurred_at' reactivated' (open_session d' tt)
          = (Ok {| psr_recovery_case := c'; psr_newly_recognized := false;
                   psr_recognized_amount_paise := rev_amount_paise rev |}, s2) /\ ses_committed s2 = d')
    as Hfinish.
  { intros d' res' H1 H2 (rev & E1 & E2 & E3). split; [done|]. split; [done|]. exists rev.
    repeat (split; [done|]). intros. by apply mock_replay. }
  unfold apply_mock_payment_success in Hrun. runs. command_steps.
  rename x into c. rename x1 into t. rename x2 into s1. subst.
  match goal with H : find_revenue_recognition _ _ _ _ = _ |- _ =>
    unfold find_revenue_recognition in H; apply query_Ok in H as (-> & Hf & _) end.
  assert (ses_db s1 = d) as Hd by done. rewrite Hd in Hf.
  destruct x3 as [rev|].
  - apply ret_Ok in Hrun as [-> ->].
    assert (ses_committed s1 = d) as -> by done. apply Hfinish; [done..|]. by exists rev.
  - cbv zeta in Hrun. runs. bools. set (amount := default _ _) in *.
    destruct (rc_failed_invoice_id c) as [invoice_id|]; [|done]. runs.
    match goal with H : book_mock_payment _ _ _ _ _ _ _ _ _ _ _ = _ |- _ =>
      apply book_Ok in H as (-> & Hc1 & rev & Hbook); [|by rewrite Hd|lia|by rewrite Hd] end.
    match goal with H : settle_mock_payment _ _ _ _ _ _ _ _ _ = _ |- _ =>
      apply settle_Ok in H as (-> & Hbooks & _) end.
    subst res. rewrite ses_committed_upd. rewrite Hd in Hbook.
    match goal with H : owned_case _ _ _ = Some c |- _ =>
      pose proof H as Hown; apply row_where_Some in H as [Hin Hk] end.
    apply Hfinish; [done| |].
    + rewrite Hbooks. pose proof Hbook as [_ _ _ _ _ _ Ecases _ _ _ _]. rewrite Ecases.
      eapply (settled_balanced sha256_hex d _ c m (rc_id c)); [done|exact Hin|done| |exact Hbook|exact Hc1].
      lia.
    + exists rev. injection Hbooks as B1 B2 B3 B4. destruct Hbook. split; [|split; [|]].
      * apply recognition_of_unique; try done. rewrite B2, bk_recognitions0. set_solver.
      * done.
      * cbn. exists c, t, reactivated. rewrite B1, B2, bk_amount0, bk_cases0. repeat (split; [done|]). done.
Qed.

Definition demo_mock_db : Db :=
  demo_cases_db <| db_invoices := [{| inv_id := "inv_case_b"; inv_merchant_id := "m1";
    inv_subscription_id := "sub_1"; inv_provider_invoice_id := "rinv"; inv_billing_cycle_key := "cycle";
    inv_amount_paise := 500; inv_amount_paid_paise := 0; inv_currency := "INR";
    inv_invoice_state := "issued"; inv_due_at := None |}] |>.
Definition demo_mock : result PaymentSuccessResult * session unit :=
  Eval vm_compute in
    apply_mock_payment_success demo_ids Z.of_nat Z.of_nat demo_digest "m1" "case_b" "evt_1" (Some 200)
      (Some 5) false (open_session demo_mock_db tt).

Lemma demo_mock_balanced : balanced (books_of demo_mock_db).
Proof.
  split; cbn.
  - by apply (bool_decide_unpack _).
  - apply NoDup_nil_2.
  - apply NoDup_singleton.
  - by intros c [->|[->|[->|[]%elem_of_nil]%elem_of_cons]%elem_of_cons]%elem_of_cons.
  - intros c [->|[->|[->|[]%elem_of_nil]%elem_of_cons]%elem_of_cons]%elem_of_cons; cbn; lia.
  - by intros c [->|[->|[->|[]%elem_of_nil]%elem_of_cons]%elem_of_cons]%elem_of_cons.
  - by intros r ?%not_elem_of_nil.
  - apply NoDup_nil_2.
Qed.

Lemma mock_payment_booked_once_witness :
  exists res, fst demo_mock = Ok res /\ psr_newly_recognized res = true /\
    map rc_arrears_collected_paise (db_cases (ses_committed (snd demo_mock))) = [0; 0; 200] /\
    balanced (books_of (ses_committed (snd demo_mock))).
Proof.
  eexists. split; [reflexivity|]. split; [reflexivity|]. split; [reflexivity|].
  refine (proj1 (proj2 (mock_payment_booked_once demo_ids Z.of_nat Z.of_nat demo_digest "m1" "case_b"
    "evt_1" (Some 200) (Some 5) false demo_mock_db (fst demo_mock) (snd demo_mock) _ _ _ _))).
  - vm_compute. reflexivity.
  - apply demo_mock_balanced.
  - intros n r Hr. by apply not_elem_of_nil in Hr.
  - vm_compute. reflexivity.
Defined.

(** ** The contact limit *)

Definition with_contact_limit (n : option Z) (c : SafetyPolicyConfig) : SafetyPolicyConfig := {|
  merchant_timezone := merchant_timezone c; quiet_hours_start := quiet_hours_start c;
  quiet_hours_end := quiet_hours_end c; max_contacts_per_window := n;
  manual_approval_actions := manual_approval_actions c;
  manual_approval_above_paise := manual_approval_above_paise c;
  global_kill_switch := global_kill_switch c; merchant_kill_switch := merchant_kill_switch c;
  gateway_retry_delay := gateway_retry_delay c; policy_version := policy_version c |}.

(** A limit the configuration accepts. *)
Definition valid_limit (n : option Z) : Prop := forall k, n = Some k -> 0 < k.

Lemma limit_unreached n : valid_limit n -> match n with Some k => k <=? 0 | None => false end = false.
Proof. intros H. destruct n as [k|]; [|done]. apply Z.leb_gt. by apply H. Qed.

Lemma evaluate_limit_inert tzdb context config n :
  ctx_contact_attempts_in_window context = 0 -> valid_limit n ->
  valid_limit (max_contacts_per_window config) ->
  evaluate_safety_policy tzdb context (with_contact_limit n config)
    = evaluate_safety_policy tzdb context config.
Proof.
  intros H0 Hn Hc.
  assert (evaluate_contact_limit tzdb context (with_contact_limit n config)
            = evaluate_contact_limit tzdb context config) as E.
  { unfold evaluate_contact_limit. rewrite H0. cbn [max_contacts_per_window with_contact_limit].
    rewrite (limit_unreached n Hn), (limit_unreached _ Hc), andb_false_r. reflexivity. }
  unfold evaluate_safety_policy. cbv zeta. rewrite E. reflexivity.
Qed.

Lemma map_result_ext {A B} (f g : A -> result B) l :
  (forall x, f x = g x) -> map_result f l = map_result g l.
Proof. intros H. induction l as [|x l IH]; cbn; [done|]. by rewrite H, IH. Qed.

(** the merchant's limit on contacts per seven days has no effect on what is
    recommended: the ranking, its policy decisions and the decision on an action an
    operator names are the same under any two limits, because no caller counts the
    contacts made ([contact_attempts_in_window] keeps its default of zero). *)
Theorem contact_limit_inert tzdb scorer context config n :
  valid_limit n -> valid_limit (max_contacts_per_window config) ->
  decide_recovery tzdb scorer context (with_contact_limit n config)
    = decide_recovery tzdb scorer context config /\
  forall c action surface evaluated_at,
    explicit_policy tzdb c action surface evaluated_at (with_contact_limit n config)
      = explicit_policy tzdb c action surface evaluated_at config.
Proof.
  intros Hn Hc. split.
  - unfold decide_recovery. cbv zeta. unfold mbind, result_bind.
    assert (forall l, map_result (fun item => candidate_policy tzdb context (with_contact_limit n config) item.1) l
              = map_result (fun item : ranked_pair => candidate_policy tzdb context config item.1) l) as E.
    { intros l. apply map_result_ext. intros item. unfold candidate_policy. unfold mbind, result_bind.
      destruct (safety_context_post_init _ _ _ _) as [ctx|] eqn:Ex; [|done].
      rewrite evaluate_limit_inert; try done.
      unfold safety_context_post_init in Ex. by simp_res. }
    change (feature_snapshot tzdb context (with_contact_limit n config))
      with (feature_snapshot tzdb context config).
    destruct (raise_if _ _); [|done]. destruct (feature_snapshot _ _ _); [|done].
    destruct (map_result _ (generate_technically_eligible_actions context)); [|done].
    destruct (raise_if _ _); [|done]. by rewrite E.
  - intros c action surface evaluated_at. unfold explicit_policy. unfold mbind, result_bind.
    destruct (raise_if _ _); [|done].
    destruct (safety_context_post_init _ _ _ _) as [ctx|] eqn:Ex; [|done].
    rewrite evaluate_limit_inert; try done.
    unfold safety_context_post_init in Ex. by simp_res.
Qed.

Lemma contact_limit_inert_witness :
  exists r, decide_recovery demo_tzdb demo_scorer demo_decision_context default_safety_config = Ok r /\
    decide_recovery demo_tzdb demo_scorer demo_decision_context
      (with_contact_limit (Some 1) default_safety_config) = Ok r.
Proof.
  exists demo_decision.
  assert (decide_recovery demo_tzdb demo_scorer demo_decision_context default_safety_config
            = Ok demo_decision) as H by (vm_compute; reflexivity).
  split; [exact H|]. rewrite <- H.
  apply (contact_limit_inert demo_tzdb demo_scorer demo_decision_context default_safety_config (Some 1)).
  - by intros k [= <-].
  - by intros k [= <-].
Defined.
