(* ===== verification/A2AModels.v ===== *)
(** * A2A wire models

    The signed mandate and the signed receipt the recovery worker and the customer agent
    exchange, their field constraints, and the canonical bytes that are signed.  What
    Pydantic accepts beyond the JSON type of a field (numeric text for an integer, the
    formats of an instant) and how it writes an instant are parameters. *)
From S2P Require Import Prelude Json JsonText.

(** [Field(pattern=r"^[A-Z]{3}$")] *)
Definition is_upper (c : ascii) : bool :=
  let n := N_of_ascii c in (65 <=? n)%N && (n <=? 90)%N.
Definition currency_code (s : string) : bool :=
  (String.length s =? 3)%nat && all_chars is_upper s.

Definition validation_error {A} : result A := Err (ValueError "validation error").

(** ** Data *)

(** src/services/api/app/integrations/a2a/models.py:15-32 [RecoveryMandateData] *)
Record RecoveryMandateData : Type := {
  md_protocol_version : string;
  md_mandate_id : string;
  md_nonce : string;
  md_signer_key_id : string;
  md_task_id : string;
  md_merchant_id : string;
  md_case_id : string;
  md_customer_id : string;
  md_recovery_action_id : string;
  md_failed_invoice_id : string;
  md_exact_amount_paise : Z;
  md_currency : string;
  md_payment_surface_type : string;
  md_payment_surface_reference : string;
  md_authorized_action : string;
  md_issued_at : datetime;
  md_expires_at : datetime;
}.
#[export] Instance mandate_eq_dec : EqDecision RecoveryMandateData.
Proof. solve_decision. Defined.

(** src/services/api/app/integrations/a2a/models.py:44-47 [SignedMandate] *)
Record SignedMandate : Type := {
  sm_algorithm : string;
  sm_data : RecoveryMandateData;
  sm_signature : string;
}.
#[export] Instance signed_mandate_eq_dec : EqDecision SignedMandate.
Proof. solve_decision. Defined.

(** src/services/api/app/integrations/a2a/models.py:50-60 [ExpectedMandateScope] *)
Record ExpectedMandateScope : Type := {
  es_task_id : string;
  es_merchant_id : string;
  es_case_id : string;
  es_customer_id : string;
  es_recovery_action_id : string;
  es_failed_invoice_id : string;
  es_exact_amount_paise : Z;
  es_currency : string;
  es_payment_surface_type : string;
  es_payment_surface_reference : string;
}.
#[export] Instance expected_scope_eq_dec : EqDecision ExpectedMandateScope.
Proof. solve_decision. Defined.

(** src/services/api/app/integrations/a2a/receipts.py:27-41 [RecoveryReceiptData] *)
Record RecoveryReceiptData : Type := {
  rd_protocol_version : string;
  rd_receipt_id : string;
  rd_signer_key_id : string;
  rd_task_id : string;
  rd_mandate_id : string;
  rd_merchant_id : string;
  rd_case_id : string;
  rd_recovery_action_id : string;
  rd_failed_invoice_id : string;
  rd_exact_amount_paise : Z;
  rd_currency : string;
  rd_provider_reference : string;
  rd_payment_state : string;
  rd_observed_at : datetime;
}.
#[export] Instance receipt_eq_dec : EqDecision RecoveryReceiptData.
Proof. solve_decision. Defined.

(** src/services/api/app/integrations/a2a/receipts.py:50-53 [SignedRecoveryReceipt] *)
Record SignedRecoveryReceipt : Type := {
  sr_algorithm : string;
  sr_data : RecoveryReceiptData;
  sr_signature : string;
}.
#[export] Instance signed_receipt_eq_dec : EqDecision SignedRecoveryReceipt.
Proof. solve_decision. Defined.

(** ** Validation *)

Definition nonempty (s : string) : bool := bool_decide (s <> "").

(** src/services/api/app/integrations/a2a/models.py:34-41 [RecoveryMandateData.validate_window] *)
Definition validate_window (d : RecoveryMandateData) : result RecoveryMandateData :=
  _ ← raise_if (negb (is_aware (md_issued_at d)) || negb (is_aware (md_expires_at d)))
        (ValueError "mandate timestamps must be timezone-aware");
  _ ← raise_if (dt_instant (md_expires_at d) <=? dt_instant (md_issued_at d))
        (ValueError "mandate expires_at must be after issued_at");
  mret d.

(** src/services/api/app/integrations/a2a/models.py:16-30 [RecoveryMandateData] *)
Definition mandate_fields_ok (d : RecoveryMandateData) : bool :=
  bool_decide (md_protocol_version d = "recovery.mandate.v2")
  && forallb nonempty [md_mandate_id d; md_nonce d; md_signer_key_id d; md_task_id d;
       md_merchant_id d; md_case_id d; md_customer_id d; md_recovery_action_id d;
       md_failed_invoice_id d]
  && (0 <? md_exact_amount_paise d) && currency_code (md_currency d)
  && bool_decide (md_authorized_action d = "OPEN_EXACT_PAYMENT_SURFACE").

(** src/services/api/app/integrations/a2a/models.py:15-41 [RecoveryMandateData] *)
Definition validate_mandate (d : RecoveryMandateData) : result RecoveryMandateData :=
  if mandate_fields_ok d then validate_window d else validation_error.

(** src/services/api/app/integrations/a2a/receipts.py:43-47 [RecoveryReceiptData.require_aware_observation] *)
Definition require_aware_observation (d : RecoveryReceiptData) : result RecoveryReceiptData :=
  _ ← raise_if (negb (is_aware (rd_observed_at d)))
        (ValueError "receipt observed_at must be timezone-aware");
  mret d.

(** src/services/api/app/integrations/a2a/receipts.py:27-47 [RecoveryReceiptData] *)
Definition validate_receipt (d : RecoveryReceiptData) : result RecoveryReceiptData :=
  if bool_decide (rd_protocol_version d = "recovery.receipt.v2")
     && forallb nonempty [rd_receipt_id d; rd_signer_key_id d; rd_task_id d; rd_mandate_id d;
          rd_merchant_id d; rd_case_id d; rd_recovery_action_id d; rd_failed_invoice_id d;
          rd_provider_reference d]
     && (0 <? rd_exact_amount_paise d) && currency_code (rd_currency d)
     && bool_decide (rd_payment_state d = "CAPTURED")
  then require_aware_observation d else validation_error.

Lemma validate_window_Ok d d' : validate_window d = Ok d' <->
  d' = d /\ is_aware (md_issued_at d) = true /\ is_aware (md_expires_at d) = true
  /\ dt_instant (md_issued_at d) < dt_instant (md_expires_at d).
Proof.
  unfold validate_window, raise_if. cbn.
  destruct (is_aware (md_issued_at d)), (is_aware (md_expires_at d)); cbn; try naive_solver.
  destruct (_ <=? _) eqn:E; cbn; bools; [split; [done|lia]|].
  split; [intros [= <-]; auto|by intros (-> & _)].
Qed.

(** What the construction of a mandate checks. *)
Lemma validate_mandate_Ok d d' : validate_mandate d = Ok d' ->
  d' = d /\ mandate_fields_ok d = true
  /\ is_aware (md_issued_at d) = true /\ is_aware (md_expires_at d) = true
  /\ dt_instant (md_issued_at d) < dt_instant (md_expires_at d).
Proof.
  unfold validate_mandate. destruct (mandate_fields_ok d); [|done].
  intros H%validate_window_Ok. naive_solver.
Qed.

(** ** JSON *)

Section wire.
Context (iso : datetime -> string) (float_repr : Q -> string).

(** src/services/api/app/integrations/a2a/mandates.py:37-39 [canonical_json] *)
Definition mandate_dump (d : RecoveryMandateData) : json := JObj [
  ("protocol_version", JStr (md_protocol_version d));
  ("mandate_id", JStr (md_mandate_id d));
  ("nonce", JStr (md_nonce d));
  ("signer_key_id", JStr (md_signer_key_id d));
  ("task_id", JStr (md_task_id d));
  ("merchant_id", JStr (md_merchant_id d));
  ("case_id", JStr (md_case_id d));
  ("customer_id", JStr (md_customer_id d));
  ("recovery_action_id", JStr (md_recovery_action_id d));
  ("failed_invoice_id", JStr (md_failed_invoice_id d));
  ("exact_amount_paise", JInt (md_exact_amount_paise d));
  ("currency", JStr (md_currency d));
  ("payment_surface_type", JStr (md_payment_surface_type d));
  ("payment_surface_reference", JStr (md_payment_surface_reference d));
  ("authorized_action", JStr (md_authorized_action d));
  ("issued_at", JStr (iso (md_issued_at d)));
  ("expires_at", JStr (iso (md_expires_at d)))].

(** src/services/api/app/integrations/a2a/mandates.py:37-44 [canonical_json] *)
Definition canonical_json (d : RecoveryMandateData) : string := dumps float_repr (mandate_dump d).

Definition signed_mandate_dump (m : SignedMandate) : json := JObj [
  ("algorithm", JStr (sm_algorithm m));
  ("data", mandate_dump (sm_data m));
  ("signature", JStr (sm_signature m))].

(** src/services/api/app/integrations/a2a/receipts.py:56-58 [canonical_receipt_json] *)
Definition receipt_dump (d : RecoveryReceiptData) : json := JObj [
  ("protocol_version", JStr (rd_protocol_version d));
  ("receipt_id", JStr (rd_receipt_id d));
  ("signer_key_id", JStr (rd_signer_key_id d));
  ("task_id", JStr (rd_task_id d));
  ("mandate_id", JStr (rd_mandate_id d));
  ("merchant_id", JStr (rd_merchant_id d));
  ("case_id", JStr (rd_case_id d));
  ("recovery_action_id", JStr (rd_recovery_action_id d));
  ("failed_invoice_id", JStr (rd_failed_invoice_id d));
  ("exact_amount_paise", JInt (rd_exact_amount_paise d));
  ("currency", JStr (rd_currency d));
  ("provider_reference", JStr (rd_provider_reference d));
  ("payment_state", JStr (rd_payment_state d));
  ("observed_at", JStr (iso (rd_observed_at d)))].

(** src/services/api/app/integrations/a2a/receipts.py:56-65 [canonical_receipt_json] *)
Definition canonical_receipt_json (d : RecoveryReceiptData) : string :=
  dumps float_repr (receipt_dump d).

Definition signed_receipt_dump (m : SignedRecoveryReceipt) : json := JObj [
  ("algorithm", JStr (sr_algorithm m));
  ("data", receipt_dump (sr_data m));
  ("signature", JStr (sr_signature m))].

(** *** Reading *)

Context (pyd_int : json -> option Z) (pyd_datetime : json -> option datetime).

(** [model_config = ConfigDict(extra="forbid")] *)
Definition only_keys (keys : list string) (fields : list (string * json)) : result unit :=
  if forallb (fun kv => mem kv.1 keys) fields then Ok tt else validation_error.
Definition read_str (key : string) (fields : list (string * json)) : result string :=
  match assoc_get key fields with Some (JStr s) => Ok s | _ => validation_error end.
Definition read_with {A} (read : json -> option A) (key : string) (fields : list (string * json))
  : result A :=
  match assoc_get key fields with
  | Some v => match read v with Some a => Ok a | None => validation_error end
  | None => validation_error
  end.

Definition mandate_keys : list string := [
  "protocol_version"; "mandate_id"; "nonce"; "signer_key_id"; "task_id"; "merchant_id";
  "case_id"; "customer_id"; "recovery_action_id"; "failed_invoice_id"; "exact_amount_paise";
  "currency"; "payment_surface_type"; "payment_surface_reference"; "authorized_action";
  "issued_at"; "expires_at"].

(** src/services/api/app/integrations/a2a/models.py:11-32 [RecoveryMandateData] *)
Definition parse_mandate (v : json) : result RecoveryMandateData :=
  match v with
  | JObj fields =>
      _ ← only_keys mandate_keys fields;
      protocol_version ← read_str "protocol_version" fields;
      mandate_id ← read_str "mandate_id" fields;
      nonce ← read_str "nonce" fields;
      signer_key_id ← read_str "signer_key_id" fields;
      task_id ← read_str "task_id" fields;
      merchant_id ← read_str "merchant_id" fields;
      case_id ← read_str "case_id" fields;
      customer_id ← read_str "customer_id" fields;
      recovery_action_id ← read_str "recovery_action_id" fields;
      failed_invoice_id ← read_str "failed_invoice_id" fields;
      exact_amount_paise ← read_with pyd_int "exact_amount_paise" fields;
      currency ← read_str "currency" fields;
      payment_surface_type ← read_str "payment_surface_type" fields;
      payment_surface_reference ← read_str "payment_surface_reference" fields;
      authorized_action ← read_str "authorized_action" fields;
      issued_at ← read_with pyd_datetime "issued_at" fields;
      expires_at ← read_with pyd_datetime "expires_at" fields;
      validate_mandate {|
        md_protocol_version := protocol_version; md_mandate_id := mandate_id; md_nonce := nonce;
        md_signer_key_id := signer_key_id; md_task_id := task_id; md_merchant_id := merchant_id;
        md_case_id := case_id; md_customer_id := customer_id;
        md_recovery_action_id := recovery_action_id; md_failed_invoice_id := failed_invoice_id;
        md_exact_amount_paise := exact_amount_paise; md_currency := currency;
        md_payment_surface_type := payment_surface_type;
        md_payment_surface_reference := payment_surface_reference;
        md_authorized_action := authorized_action; md_issued_at := issued_at;
        md_expires_at := expires_at |}
  | _ => validation_error
  end.

(** src/services/api/app/integrations/a2a/models.py:44-47 [SignedMandate] *)
Definition parse_signed_mandate (v : json) : result SignedMandate :=
  match v with
  | JObj fields =>
      _ ← only_keys ["algorithm"; "data"; "signature"] fields;
      algorithm ← read_str "algorithm" fields;
      _ ← (if bool_decide (algorithm = "Ed25519") then Ok tt else validation_error);
      data ← parse_mandate (default JNull (assoc_get "data" fields));
      signature ← read_str "signature" fields;
      mret {| sm_algorithm := algorithm; sm_data := data; sm_signature := signature |}
  | _ => validation_error
  end.

(** The fields of two mandates agree, their instants as text. *)
Definition same_mandate (d e : RecoveryMandateData) : Prop :=
  md_protocol_version d = md_protocol_version e /\ md_mandate_id d = md_mandate_id e
  /\ md_nonce d = md_nonce e /\ md_signer_key_id d = md_signer_key_id e
  /\ md_task_id d = md_task_id e /\ md_merchant_id d = md_merchant_id e
  /\ md_case_id d = md_case_id e /\ md_customer_id d = md_customer_id e
  /\ md_recovery_action_id d = md_recovery_action_id e
  /\ md_failed_invoice_id d = md_failed_invoice_id e
  /\ md_exact_amount_paise d = md_exact_amount_paise e /\ md_currency d = md_currency e
  /\ md_payment_surface_type d = md_payment_surface_type e
  /\ md_payment_surface_reference d = md_payment_surface_reference e
  /\ md_authorized_action d = md_authorized_action e
  /\ iso (md_issued_at d) = iso (md_issued_at e) /\ iso (md_expires_at d) = iso (md_expires_at e).

Lemma canonical_json_inj d e : canonical_json d = canonical_json e <-> same_mandate d e.
Proof.
  split.
  - intros H%dumps_inj; [|done..]. vm_compute in H. injection H. unfold same_mandate. naive_solver.
  - intros H. unfold canonical_json, mandate_dump. unfold same_mandate in H.
    repeat match goal with H : _ /\ _ |- _ => destruct H end. congruence.
Qed.

(** Read the text fields of a written object in turn. *)
Ltac read_fields :=
  repeat (etransitivity; [apply result_bind_Ok; unfold read_str; reflexivity|cbv beta]).

(** Instants whose UTC offset is a whole number of minutes, as ISO text writes it. *)
Definition whole_offset (d : datetime) : Prop := exists k, dt_offset d = Some (k * minute).

(** Reading back what was written. *)
Class PydanticRoundTrip : Prop := {
  pyd_int_int : forall z, pyd_int (JInt z) = Some z;
  pyd_datetime_iso : forall d, whole_offset d -> pyd_datetime (JStr (iso d)) = Some d;
}.

Context `{!PydanticRoundTrip}.

Lemma read_with_Ok {A} (read : json -> option A) key fields v a :
  assoc_get key fields = Some v -> read v = Some a -> read_with read key fields = Ok a.
Proof. unfold read_with. by intros -> ->. Qed.

Lemma parse_mandate_dump d d' : whole_offset (md_issued_at d) -> whole_offset (md_expires_at d) ->
  validate_mandate d = Ok d' -> parse_mandate (mandate_dump d) = Ok d.
Proof.
  intros Hi He Hv. pose proof (validate_mandate_Ok _ _ Hv) as (-> & _).
  unfold parse_mandate, mandate_dump.
  etransitivity; [apply result_bind_Ok; vm_compute; reflexivity|cbv beta].
  read_fields.
  etransitivity; [apply result_bind_Ok; eapply read_with_Ok; [reflexivity|apply pyd_int_int]|cbv beta].
  read_fields.
  etransitivity; [apply result_bind_Ok; eapply read_with_Ok; [reflexivity|by apply pyd_datetime_iso]|cbv beta].
  etransitivity; [apply result_bind_Ok; eapply read_with_Ok; [reflexivity|by apply pyd_datetime_iso]|cbv beta].
  by destruct d.
Qed.
Lemma parse_signed_mandate_dump m d' : sm_algorithm m = "Ed25519" ->
  whole_offset (md_issued_at (sm_data m)) -> whole_offset (md_expires_at (sm_data m)) ->
  validate_mandate (sm_data m) = Ok d' ->
  parse_signed_mandate (signed_mandate_dump m) = Ok m.
Proof.
  intros Ha Hi He Hv. unfold parse_signed_mandate, signed_mandate_dump.
  etransitivity; [apply result_bind_Ok; vm_compute; reflexivity|cbv beta].
  etransitivity; [apply result_bind_Ok; unfold read_str; reflexivity|cbv beta].
  rewrite Ha, bool_decide_eq_true_2 by done.
  etransitivity; [apply result_bind_Ok; reflexivity|cbv beta].
  etransitivity; [apply result_bind_Ok; exact (parse_mandate_dump _ _ Hi He Hv)|cbv beta].
  read_fields. destruct m. cbn in Ha. by subst.
Qed.
End wire.
