(* ===== verification/NonceStore.v ===== *)
(** * Nonce stores

    Single-use consumption of verified mandates: the promise of a store to the verifier as
    a class, the in-memory store of the mock mode and the SQL store, whose unique
    constraints serialize the processes. *)
From S2P Require Import Prelude.

(** src/services/api/app/integrations/a2a/nonce_store.py:23-26 [NonceClaimOutcome] *)
Inductive NonceClaimOutcome : Set := CLAIMED | ALREADY_CLAIMED | CONFLICT.
#[export] Instance nonce_outcome_eq_dec : EqDecision NonceClaimOutcome.
Proof. solve_decision. Defined.

(** src/services/api/app/integrations/a2a/nonce_store.py:29-55 [MandateNonceClaim] *)
Record MandateNonceClaim : Type := {
  nc_claim_id : string;
  nc_nonce : string;
  nc_mandate_id : string;
  nc_signer_key_id : string;
  nc_task_id : string;
  nc_merchant_id : string;
  nc_case_id : string;
  nc_customer_id : string;
  nc_recovery_action_id : string;
  nc_failed_invoice_id : string;
  nc_exact_amount_paise : Z;
  nc_currency : string;
  nc_payment_surface_type : string;
  nc_payment_surface_reference : string;
  nc_authorized_action : string;
  nc_issued_at : datetime;
  nc_expires_at : datetime;
  nc_consumed_at : datetime;
}.

(** What identifies a consumed mandate. *)
Record claim_key : Type := { ck_claim : string; ck_nonce : string; ck_mandate : string }.
#[export] Instance claim_key_eq_dec : EqDecision claim_key.
Proof. solve_decision. Defined.
Definition key_of (c : MandateNonceClaim) : claim_key :=
  {| ck_claim := nc_claim_id c; ck_nonce := nc_nonce c; ck_mandate := nc_mandate_id c |}.

(** Two mandates one store may not both hold. *)
Definition clash (k l : claim_key) : Prop := ck_nonce k = ck_nonce l \/ ck_mandate k = ck_mandate l.

(** ** The promise *)

(** src/services/api/app/integrations/a2a/nonce_store.py:58-64 [NonceStore] *)
Class NonceStore (S : Type) : Type := {
  store_consume : MandateNonceClaim -> bool -> stx S NonceClaimOutcome;
}.

(** [store_held] lists the mandates consumed so far; no two of them clash. *)
Class NonceStoreSpec (S : Type) `{NonceStore S} : Type := {
  store_ok : S -> Prop;
  store_held : S -> list claim_key;
  held_distinct : forall s k l, store_ok s ->
    k ∈ store_held s -> l ∈ store_held s -> clash k l -> k = l;
  consume_ok : forall c fresh s, store_ok s -> store_ok (snd (store_consume c fresh s));
  consume_claimed : forall c fresh s s', store_ok s ->
    store_consume c fresh s = (Ok CLAIMED, s') ->
    fresh = true /\ (forall k, k ∈ store_held s -> ~ clash k (key_of c))
    /\ (forall k, k ∈ store_held s' <-> k = key_of c \/ k ∈ store_held s);
  consume_already : forall c fresh s s', store_ok s ->
    store_consume c fresh s = (Ok ALREADY_CLAIMED, s') -> s' = s /\ key_of c ∈ store_held s;
  consume_refused : forall c fresh s r s', store_ok s ->
    store_consume c fresh s = (r, s') -> r <> Ok CLAIMED -> s' = s;
}.

Section spec_facts.
Context {S : Type} `{NonceStoreSpec S}.

(** A store never forgets, and an accepted claim is held afterwards. *)
Lemma consume_held c fresh s k : store_ok s ->
  k ∈ store_held s -> k ∈ store_held (snd (store_consume c fresh s)).
Proof.
  intros Hs Hk. destruct (store_consume c fresh s) as [r s'] eqn:E. cbn.
  destruct (decide (r = Ok CLAIMED)) as [->|Hr].
  - apply consume_claimed in E as (_ & _ & Hh); [|done]. apply Hh. by right.
  - apply consume_refused in E as ->; done.
Qed.
Lemma consume_accepted c fresh s o s' : store_ok s ->
  store_consume c fresh s = (Ok o, s') -> o <> CONFLICT -> key_of c ∈ store_held s'.
Proof.
  intros Hs E Ho. destruct o; [| |done].
  - apply consume_claimed in E as (_ & _ & Hh); [|done]. apply Hh. by left.
  - apply consume_already in E as [-> Hk]; done.
Qed.
End spec_facts.

(** ** The in-memory store *)

(** src/services/api/app/integrations/a2a/nonce_store.py:67-73 [InMemoryNonceStore] *)
Record InMemoryNonceStore : Type := {
  im_claims_by_nonce : gmap string MandateNonceClaim;
  im_nonce_by_mandate_id : gmap string string;
}.
#[export] Instance eta_im : Eta InMemoryNonceStore := fun s =>
  {| im_claims_by_nonce := im_claims_by_nonce s;
     im_nonce_by_mandate_id := im_nonce_by_mandate_id s |}.

(** src/services/api/app/integrations/a2a/nonce_store.py:70-73 [InMemoryNonceStore.__init__] *)
Definition in_memory_init : InMemoryNonceStore :=
  {| im_claims_by_nonce := ∅; im_nonce_by_mandate_id := ∅ |}.

(** src/services/api/app/integrations/a2a/nonce_store.py:75-94 [InMemoryNonceStore.consume] *)
Definition in_memory_consume (claim : MandateNonceClaim) (allow_new : bool)
  : stx InMemoryNonceStore NonceClaimOutcome := fun s =>
  let existing := im_claims_by_nonce s !! nc_nonce claim in
  let mandate_nonce := im_nonce_by_mandate_id s !! nc_mandate_id claim in
  if bool_decide (existing = None) && bool_decide (mandate_nonce = None) && allow_new then
    (Ok CLAIMED,
     s <| im_claims_by_nonce ::= <[nc_nonce claim := claim]> |>
       <| im_nonce_by_mandate_id ::= <[nc_mandate_id claim := nc_nonce claim]> |>)
  else
    match existing with
    | Some e =>
        if bool_decide (nc_claim_id e = nc_claim_id claim)
           && bool_decide (mandate_nonce = Some (nc_nonce claim))
        then (Ok ALREADY_CLAIMED, s) else (Ok CONFLICT, s)
    | None => (Ok CONFLICT, s)
    end.

Record in_memory_ok (s : InMemoryNonceStore) : Prop := {
  im_by_nonce : forall n c, im_claims_by_nonce s !! n = Some c ->
    nc_nonce c = n /\ im_nonce_by_mandate_id s !! nc_mandate_id c = Some n;
  im_by_mandate : forall m n, im_nonce_by_mandate_id s !! m = Some n ->
    exists c, im_claims_by_nonce s !! n = Some c /\ nc_mandate_id c = m;
}.
Definition in_memory_held (s : InMemoryNonceStore) : list claim_key :=
  (fun p => key_of p.2) <$> map_to_list (im_claims_by_nonce s).

Lemma elem_in_memory_held k s :
  k ∈ in_memory_held s <-> exists n c, im_claims_by_nonce s !! n = Some c /\ k = key_of c.
Proof.
  unfold in_memory_held. rewrite list_elem_of_fmap. split.
  - intros ([n c] & -> & Hc%elem_of_map_to_list). eauto.
  - intros (n & c & Hc & ->). exists (n, c). by rewrite elem_of_map_to_list.
Qed.

Lemma in_memory_init_ok : in_memory_ok in_memory_init.
Proof. split; cbn; intros ? ?; by rewrite lookup_empty. Qed.

Lemma in_memory_inserted s claim : in_memory_ok s ->
  im_claims_by_nonce s !! nc_nonce claim = None ->
  im_nonce_by_mandate_id s !! nc_mandate_id claim = None ->
  in_memory_ok (s <| im_claims_by_nonce ::= <[nc_nonce claim := claim]> |>
                  <| im_nonce_by_mandate_id ::= <[nc_mandate_id claim := nc_nonce claim]> |>).
Proof.
  intros [Hn Hm] En Em. unfold set_field. split; cbn.
  - intros n c. rewrite lookup_insert_Some. intros [[<- <-]|[Hne Hc]].
    + by rewrite lookup_insert_eq.
    + apply Hn in Hc as [<- Hc]. split; [done|].
      rewrite lookup_insert_ne; [done|]. intros E. by rewrite E, Hc in Em.
  - intros m n. rewrite lookup_insert_Some. intros [[<- <-]|[Hne Hc]].
    + exists claim. by rewrite lookup_insert_eq.
    + apply Hm in Hc as (c & Hc & <-). exists c. split; [|done].
      rewrite lookup_insert_ne; [done|]. intros E. by rewrite <- E, En in Hc.
Qed.

#[export] Instance in_memory_store : NonceStore InMemoryNonceStore :=
  {| store_consume := in_memory_consume |}.

(** Every way a call of the in-memory store can end. *)
Lemma in_memory_cases claim fresh s : in_memory_ok s ->
  (fresh = true /\ im_claims_by_nonce s !! nc_nonce claim = None
   /\ im_nonce_by_mandate_id s !! nc_mandate_id claim = None
   /\ in_memory_consume claim fresh s
      = (Ok CLAIMED, s <| im_claims_by_nonce ::= <[nc_nonce claim := claim]> |>
          <| im_nonce_by_mandate_id ::= <[nc_mandate_id claim := nc_nonce claim]> |>))
  \/ (key_of claim ∈ in_memory_held s
      /\ in_memory_consume claim fresh s = (Ok ALREADY_CLAIMED, s))
  \/ in_memory_consume claim fresh s = (Ok CONFLICT, s).
Proof.
  intros [Hn Hm]. unfold in_memory_consume. destruct (_ && _ && fresh) eqn:E.
  - bools. left. auto.
  - right. clear E. destruct (im_claims_by_nonce s !! nc_nonce claim) as [e|] eqn:Ee; [|by right].
    destruct (_ && _) eqn:E; [|by right]. bools. left. split; [|done].
    apply elem_in_memory_held. exists (nc_nonce claim), e. split; [done|].
    destruct (Hn _ _ Ee) as [Hen _]. apply Hm in H0 as (c & Hc & Hcm).
    unfold key_of. congruence.
Qed.

#[export] Instance in_memory_spec : NonceStoreSpec InMemoryNonceStore.
Proof.
  refine {| store_ok := in_memory_ok; store_held := in_memory_held |}.
  - intros s k l [Hn Hm] (n & c & Hc & ->)%elem_in_memory_held (n' & c' & Hc' & ->)%elem_in_memory_held.
    destruct (Hn _ _ Hc) as [En Em]. destruct (Hn _ _ Hc') as [En' Em'].
    unfold clash; cbn. intros [E|E]; [|rewrite E in Em]; congruence.
  - intros c fresh s Hs. cbn.
    destruct (in_memory_cases c fresh s Hs) as [(_ & En & Em & ->)|[[_ ->]| ->]]; cbn;
      auto using in_memory_inserted.
  - intros c fresh s s' Hs H. cbn in H.
    destruct (in_memory_cases c fresh s Hs) as [(-> & En & Em & E)|[[_ E]|E]]; rewrite E in H;
      simplify_eq.
    split; [done|]. destruct Hs as [Hn Hm]. split.
    + intros k (n & e & He & ->)%elem_in_memory_held. destruct (Hn _ _ He) as [Hx Hy].
      unfold clash; cbn. intros [Hc|Hc]; rewrite Hc in *; congruence.
    + intros k. rewrite !elem_in_memory_held. unfold set_field. cbn. split.
      * intros (n & e & He & ->). apply lookup_insert_Some in He as [[<- <-]|[_ He]]; eauto.
      * intros [->|(n & e & He & ->)]; [exists (nc_nonce c), c; by rewrite lookup_insert_eq|].
        exists n, e. rewrite lookup_insert_ne; [done|]. intros <-. congruence.
  - intros c fresh s s' Hs H. cbn in H.
    destruct (in_memory_cases c fresh s Hs) as [(-> & En & Em & E)|[[Hk E]|E]]; rewrite E in H;
      by simplify_eq.
  - intros c fresh s r s' Hs H Hr. cbn in H.
    destruct (in_memory_cases c fresh s Hs) as [(-> & En & Em & E)|[[Hk E]|E]]; rewrite E in H;
      by simplify_eq.
Defined.

(** Rows with the same non-null value of a unique column are one row. *)
Lemma nodup_omap_inj {A B} (f : A -> option B) l x y b :
  NoDup (omap f l) -> x ∈ l -> y ∈ l -> f x = Some b -> f y = Some b -> x = y.
Proof.
  induction l as [|z l IH]; [by intros _ ?%elem_of_nil|].
  cbn. intros Hd [->|Hx]%elem_of_cons [->|Hy]%elem_of_cons Fx Fy; try done.
  - rewrite Fx in Hd. apply NoDup_cons in Hd as [Hn _]. destruct Hn.
    apply list_elem_of_omap. eauto.
  - rewrite Fy in Hd. apply NoDup_cons in Hd as [Hn _]. destruct Hn.
    apply list_elem_of_omap. eauto.
  - apply IH; auto. destruct (f z); [|done]. by apply NoDup_cons in Hd as [_ Hd].
Qed.

(** ** The SQL store *)

(** src/services/api/app/models/a2a.py:23-60 [A2AMandateNonceConsumption] *)
Record A2AMandateNonceConsumption : Type := {
  co_nonce : string;
  co_mandate_id : string;
  co_claim_id : option string;
  co_signer_key_id : string;
  co_task_id : option string;
  co_merchant_id : string;
  co_case_id : string;
  co_customer_id : option string;
  co_recovery_action_id : option string;
  co_failed_invoice_id : option string;
  co_exact_amount_paise : option Z;
  co_currency : option string;
  co_payment_surface_type : option string;
  co_payment_surface_reference : option string;
  co_authorized_action : option string;
  co_issued_at : option Z;
  co_expires_at : Z;
  co_consumed_at : Z;
  co_execution_status : string;
  co_execution_claimed_at : option Z;
  co_executed_at : option Z;
}.

Section sql_store.
(** The foreign keys of the row resolve. *)
Context (references_exist : MandateNonceClaim -> bool).

(** src/services/api/app/integrations/a2a/nonce_store.py:111-149 [SqlAlchemyNonceStore.consume] *)
Definition consumption_row (c : MandateNonceClaim) : A2AMandateNonceConsumption := {|
  co_nonce := nc_nonce c; co_mandate_id := nc_mandate_id c; co_claim_id := Some (nc_claim_id c);
  co_signer_key_id := nc_signer_key_id c; co_task_id := Some (nc_task_id c);
  co_merchant_id := nc_merchant_id c; co_case_id := nc_case_id c;
  co_customer_id := Some (nc_customer_id c);
  co_recovery_action_id := Some (nc_recovery_action_id c);
  co_failed_invoice_id := Some (nc_failed_invoice_id c);
  co_exact_amount_paise := Some (nc_exact_amount_paise c); co_currency := Some (nc_currency c);
  co_payment_surface_type := Some (nc_payment_surface_type c);
  co_payment_surface_reference := Some (nc_payment_surface_reference c);
  co_authorized_action := Some (nc_authorized_action c);
  co_issued_at := Some (dt_instant (nc_issued_at c)); co_expires_at := dt_instant (nc_expires_at c);
  co_consumed_at := dt_instant (nc_consumed_at c); co_execution_status := "AUTHORIZED";
  co_execution_claimed_at := None; co_executed_at := None |}.

(** src/services/api/app/models/a2a.py:62-68 [A2AMandateNonceConsumption.__table_args__] *)
Definition consumption_conflict (row r : A2AMandateNonceConsumption) : bool :=
  bool_decide (co_nonce r = co_nonce row) || bool_decide (co_mandate_id r = co_mandate_id row)
  || (bool_decide (is_Some (co_claim_id row)) && bool_decide (co_claim_id r = co_claim_id row))
  || (bool_decide (is_Some (co_recovery_action_id row))
      && bool_decide (co_recovery_action_id r = co_recovery_action_id row)).

(** src/services/api/app/integrations/a2a/nonce_store.py:111-155 [SqlAlchemyNonceStore.consume] *)
Definition insert_consumption (c : MandateNonceClaim) (rows : list A2AMandateNonceConsumption)
  : result (option (list A2AMandateNonceConsumption)) :=
  let row := consumption_row c in
  if negb (co_consumed_at row <=? co_expires_at row) then Err (IntegrityError "consumed_before_expiry")
  else if existsb (consumption_conflict row) rows then Ok None
  else if negb (references_exist c) then Err (IntegrityError "foreign key")
  else Ok (Some (rows ++ [row])).

(** src/services/api/app/integrations/a2a/nonce_store.py:160-171 [SqlAlchemyNonceStore.consume] *)
Definition claim_selects (c : MandateNonceClaim) (r : A2AMandateNonceConsumption) : bool :=
  bool_decide (co_nonce r = nc_nonce c) || bool_decide (co_mandate_id r = nc_mandate_id c)
  || bool_decide (co_claim_id r = Some (nc_claim_id c))
  || bool_decide (co_recovery_action_id r = Some (nc_recovery_action_id c)).

(** src/services/api/app/integrations/a2a/nonce_store.py:172-210 [SqlAlchemyNonceStore.consume] *)
Definition persisted_equal (c : MandateNonceClaim) (r : A2AMandateNonceConsumption) : bool :=
  bool_decide (co_claim_id r = Some (nc_claim_id c)) && bool_decide (co_nonce r = nc_nonce c)
  && bool_decide (co_mandate_id r = nc_mandate_id c)
  && bool_decide (co_signer_key_id r = nc_signer_key_id c)
  && bool_decide (co_task_id r = Some (nc_task_id c))
  && bool_decide (co_merchant_id r = nc_merchant_id c)
  && bool_decide (co_case_id r = nc_case_id c)
  && bool_decide (co_customer_id r = Some (nc_customer_id c))
  && bool_decide (co_recovery_action_id r = Some (nc_recovery_action_id c))
  && bool_decide (co_failed_invoice_id r = Some (nc_failed_invoice_id c))
  && bool_decide (co_exact_amount_paise r = Some (nc_exact_amount_paise c))
  && bool_decide (co_currency r = Some (nc_currency c))
  && bool_decide (co_payment_surface_type r = Some (nc_payment_surface_type c))
  && bool_decide (co_payment_surface_reference r = Some (nc_payment_surface_reference c))
  && bool_decide (co_authorized_action r = Some (nc_authorized_action c))
  && bool_decide (co_issued_at r = Some (dt_instant (nc_issued_at c)))
  && bool_decide (co_expires_at r = dt_instant (nc_expires_at c)).

(** src/services/api/app/integrations/a2a/nonce_store.py:103-213 [SqlAlchemyNonceStore.consume] *)
Definition sql_consume (claim : MandateNonceClaim) (allow_new : bool)
  : stx (list A2AMandateNonceConsumption) NonceClaimOutcome := fun rows =>
  let look_up :=
    if existsb (persisted_equal claim) (List.filter (claim_selects claim) rows)
    then (Ok ALREADY_CLAIMED, rows) else (Ok CONFLICT, rows) in
  if allow_new then
    match insert_consumption claim rows with
    | Err e => (Err e, rows)
    | Ok (Some rows') => (Ok CLAIMED, rows')
    | Ok None => look_up
    end
  else look_up.

(** The unique constraints. *)
Record sql_ok (rows : list A2AMandateNonceConsumption) : Prop := {
  sql_nonces : NoDup (co_nonce <$> rows);
  sql_mandates : NoDup (co_mandate_id <$> rows);
  sql_claims : NoDup (omap co_claim_id rows);
  sql_actions : NoDup (omap co_recovery_action_id rows);
}.
Definition row_key (r : A2AMandateNonceConsumption) : option claim_key :=
  (fun c => {| ck_claim := c; ck_nonce := co_nonce r; ck_mandate := co_mandate_id r |})
    <$> co_claim_id r.
Definition sql_held (rows : list A2AMandateNonceConsumption) : list claim_key := omap row_key rows.

Lemma elem_sql_held k rows :
  k ∈ sql_held rows <-> exists r, r ∈ rows /\ row_key r = Some k.
Proof. apply list_elem_of_omap. Qed.

Lemma row_key_Some r k : row_key r = Some k <->
  co_claim_id r = Some (ck_claim k) /\ co_nonce r = ck_nonce k /\ co_mandate_id r = ck_mandate k.
Proof.
  unfold row_key. destruct (co_claim_id r); cbn; destruct k; naive_solver.
Qed.

Lemma no_conflict row rows : existsb (consumption_conflict row) rows = false <->
  (forall r, r ∈ rows -> consumption_conflict row r = false).
Proof.
  rewrite <- not_true_iff_false, existsb_exists. split.
  - intros H r Hr. apply not_true_iff_false. intros Hc. apply H. exists r. by rewrite <- list_elem_of_In.
  - intros H (r & Hr%list_elem_of_In & Hc). by rewrite H in Hc.
Qed.

Lemma consumption_row_clear c r : consumption_conflict (consumption_row c) r = false <->
  co_nonce r <> nc_nonce c /\ co_mandate_id r <> nc_mandate_id c
  /\ co_claim_id r <> Some (nc_claim_id c) /\ co_recovery_action_id r <> Some (nc_recovery_action_id c).
Proof.
  unfold consumption_conflict. cbn.
  rewrite !orb_false_iff, !bool_decide_eq_false. naive_solver.
Qed.

Lemma insert_consumption_Some c rows rows' :
  insert_consumption c rows = Ok (Some rows') <->
  rows' = rows ++ [consumption_row c]
  /\ dt_instant (nc_consumed_at c) <= dt_instant (nc_expires_at c) /\ references_exist c = true
  /\ (forall r, r ∈ rows -> consumption_conflict (consumption_row c) r = false).
Proof.
  unfold insert_consumption. cbn. rewrite <- no_conflict.
  destruct (Z.leb_spec (dt_instant (nc_consumed_at c)) (dt_instant (nc_expires_at c))); cbn;
    [|naive_solver lia].
  destruct (existsb _ rows); [naive_solver|].
  destruct (references_exist c); cbn; naive_solver.
Qed.

Lemma nodup_snoc {A} (l : list A) x : NoDup l -> x ∉ l -> NoDup (l ++ [x]).
Proof. intros Hl Hx. rewrite NoDup_app. repeat split; auto using NoDup_singleton; set_solver. Qed.

Lemma sql_inserted c rows rows' : sql_ok rows ->
  insert_consumption c rows = Ok (Some rows') -> sql_ok rows'.
Proof.
  intros [Hn Hm Hc Ha] (-> & _ & _ & Hfree)%insert_consumption_Some.
  assert (forall r, r ∈ rows -> co_nonce r <> nc_nonce c /\ co_mandate_id r <> nc_mandate_id c
    /\ co_claim_id r <> Some (nc_claim_id c)
    /\ co_recovery_action_id r <> Some (nc_recovery_action_id c)) as Hf.
  { intros r Hr. by apply consumption_row_clear, Hfree. }
  split; rewrite ?fmap_app, ?omap_app; cbn; apply nodup_snoc; try done.
  - rewrite list_elem_of_fmap. intros (r & Hr & Hin%Hf). naive_solver.
  - rewrite list_elem_of_fmap. intros (r & Hr & Hin%Hf). naive_solver.
  - rewrite list_elem_of_omap. intros (r & Hin%Hf & Hr). naive_solver.
  - rewrite list_elem_of_omap. intros (r & Hin%Hf & Hr). naive_solver.
Qed.

Lemma persisted_key c r : persisted_equal c r = true -> row_key r = Some (key_of c).
Proof. unfold persisted_equal. intros H. bools. apply row_key_Some. cbn. auto. Qed.

#[export] Instance sql_store : NonceStore (list A2AMandateNonceConsumption) :=
  {| store_consume := sql_consume |}.

(** Every way a call of the SQL store can end. *)
Lemma sql_cases c fresh rows :
  (fresh = true /\ exists rows', insert_consumption c rows = Ok (Some rows')
    /\ sql_consume c fresh rows = (Ok CLAIMED, rows'))
  \/ ((exists r, r ∈ rows /\ persisted_equal c r = true)
      /\ sql_consume c fresh rows = (Ok ALREADY_CLAIMED, rows))
  \/ sql_consume c fresh rows = (Ok CONFLICT, rows)
  \/ exists e, sql_consume c fresh rows = (Err e, rows).
Proof.
  unfold sql_consume. destruct fresh.
  1: destruct (insert_consumption c rows) as [[rows'|]|e]; [by eauto 6| |by eauto].
  all: right; destruct (existsb _ _) eqn:E; [|by auto]; left; split; [|done].
  all: apply existsb_exists in E as (r & [Hr _]%filter_In & He); exists r.
  all: by rewrite list_elem_of_In.
Qed.

#[export] Instance sql_spec : NonceStoreSpec (list A2AMandateNonceConsumption).
Proof.
  refine {| store_ok := sql_ok; store_held := sql_held |}.
  - intros s k l [Hn Hm Hc Ha] (r & Hr & (E1 & E2 & E3)%row_key_Some)%elem_sql_held
      (r' & Hr' & (F1 & F2 & F3)%row_key_Some)%elem_sql_held Hkl.
    assert (r = r') as <-.
    { destruct Hkl as [E|E]; [eapply (nodup_fmap_inj co_nonce)|eapply (nodup_fmap_inj co_mandate_id)];
        eauto; congruence. }
    destruct k, l; cbn in *; congruence.
  - intros c fresh s Hs. cbn.
    destruct (sql_cases c fresh s) as [(_ & s' & E & ->)|[[_ ->]|[->|[e ->]]]]; cbn;
      eauto using sql_inserted.
  - intros c fresh s s' Hs H. cbn in H.
    destruct (sql_cases c fresh s) as [(-> & s'' & E & E')|[[_ E']|[E'|[e E']]]];
      rewrite E' in H; simplify_eq.
    apply insert_consumption_Some in E as (-> & _ & _ & Hfree). split; [done|]. split.
    + intros k (r & Hr & (E1 & E2 & E3)%row_key_Some)%elem_sql_held.
      apply Hfree, consumption_row_clear in Hr as (Hn & Hm & _).
      unfold clash; cbn. intros [F|F]; congruence.
    + intros k. unfold sql_held. rewrite omap_app, elem_of_app. cbn.
      rewrite list_elem_of_singleton. change (key_of c) with {| ck_claim := nc_claim_id c;
        ck_nonce := nc_nonce c; ck_mandate := nc_mandate_id c |}. tauto.
  - intros c fresh s s' Hs H. cbn in H.
    destruct (sql_cases c fresh s) as [(-> & s'' & E & E')|[[(r & Hr & Hp) E']|[E'|[e E']]]];
      rewrite E' in H; simplify_eq.
    split; [done|]. apply elem_sql_held. eauto using persisted_key.
  - intros c fresh s r s' Hs H Hr. cbn in H.
    destruct (sql_cases c fresh s) as [(-> & s'' & E & E')|[[_ E']|[E'|[e E']]]];
      rewrite E' in H; by simplify_eq.
Defined.
End sql_store.
