(* ===== verification/Mandates.v ===== *)
(** * Mandates and receipts

    The two signing ends and the two verifying ends of the A2A boundary: the customer
    agent signs mandates and verifies receipts, the recovery worker verifies and consumes
    mandates and signs receipts.  Ed25519 and SHA-256 are parameters; keys, signatures and
    messages are byte strings. *)
From S2P Require Import Prelude Json JsonText Base64 A2AModels NonceStore.

(** ** Primitives *)

Class Crypto : Type := {
  ed25519_public : string -> string;
  ed25519_sign : string -> string -> string;
  ed25519_verify : string -> string -> string -> bool;
  sha256_digest : string -> string;
}.
Class CryptoLaws `{Crypto} : Prop := {
  verify_signed : forall seed m,
    ed25519_verify (ed25519_public seed) m (ed25519_sign seed m) = true;
  public_length : forall seed, String.length (ed25519_public seed) = 32%nat;
  digest_length : forall m, String.length (sha256_digest m) = 32%nat;
}.

(** [.hexdigest()] *)
Fixpoint hex_of (s : string) : string :=
  match s with
  | EmptyString => EmptyString
  | String c rest =>
      let n := N_of_ascii c in String (hex_digit (n / 16)) (String (hex_digit (n mod 16)) (hex_of rest))
  end.
Definition sha256_hex `{Crypto} (m : string) : string := hex_of (sha256_digest m).

(** ** Encodings *)

Definition mandate_error {A} (code msg : string) : result A := Err (MandateVerificationError code msg).

(** src/services/api/app/integrations/a2a/mandates.py:47-55 [_decode] *)
Definition mandate_decode (value : string) : result string :=
  match b64decode_strict (value +++ padding_of value) with
  | Ok raw => Ok raw
  | Err _ => mandate_error "INVALID_ENCODING" "invalid base64url value"
  end.

(** src/services/customer-agent/app/signing.py:27-28 [_b64url_decode] *)
Definition b64url_decode (value : string) : result string :=
  urlsafe_b64decode (value +++ padding_of value).

Lemma mandate_decode_encode s : mandate_decode (b64_encode s) = Ok s.
Proof. unfold mandate_decode. by rewrite strict_roundtrip. Qed.
Lemma b64url_decode_encode s : b64url_decode (b64_encode s) = Ok s.
Proof. apply urlsafe_roundtrip. Qed.

(** ** Keys pinned by identifier *)

(** src/services/api/app/integrations/a2a/mandates.py:69-73 [MandateVerifier.__init__] *)
Definition pin_key (decode : string -> result string) (message : string -> string)
    (pinned : gmap string string) (entry : string * string) : result (gmap string string) :=
  raw ← decode entry.2;
  _ ← raise_if (negb (String.length raw =? 32)%nat) (ValueError (message entry.1));
  mret (<[entry.1 := raw]> pinned).
Fixpoint pin_keys (decode : string -> result string) (message : string -> string)
    (pinned : gmap string string) (entries : list (string * string)) : result (gmap string string) :=
  match entries with
  | [] => Ok pinned
  | entry :: rest => pinned' ← pin_key decode message pinned entry; pin_keys decode message pinned' rest
  end.

(** ** The mandate verifier *)

Section verifier.
Context `{Crypto}.
Context (iso : datetime -> string) (float_repr : Q -> string).
Context (pyd_int : json -> option Z) (pyd_datetime : json -> option datetime).

Abbreviation canonical := (canonical_json iso float_repr).

(** src/services/api/app/integrations/a2a/mandates.py:30-34 [VerifiedMandate] *)
Record VerifiedMandate : Type := {
  vm_data : RecoveryMandateData;
  vm_verified_at : datetime;
  vm_claim_id : string;
}.

(** src/services/api/app/integrations/a2a/mandates.py:74-76 [MandateVerifier] *)
Record MandateVerifier : Type := {
  mv_keys : gmap string string;
  mv_max_clock_skew : Z;
}.

(** src/services/api/app/integrations/a2a/mandates.py:59-76 [MandateVerifier.__init__] *)
Definition verifier_init (pinned_public_keys : list (string * string)) (max_clock_skew : Z)
  : result MandateVerifier :=
  _ ← raise_if (bool_decide (pinned_public_keys = []))
        (ValueError "at least one pinned customer-agent public key is required");
  keys ← pin_keys mandate_decode
           (fun key_id => "public key '" +++ key_id +++ "' must contain 32 bytes")
           ∅ pinned_public_keys;
  mret {| mv_keys := keys; mv_max_clock_skew := max_clock_skew |}.

(** An envelope already parsed, or the JSON object of an artifact. *)
Inductive envelope : Type := TypedMandate (m : SignedMandate) | RawMandate (v : json).

(** src/services/api/app/integrations/a2a/mandates.py:85-94 [MandateVerifier.verify_and_consume] *)
Definition read_envelope (e : envelope) : result SignedMandate :=
  match e with
  | TypedMandate m => Ok m
  | RawMandate v =>
      match parse_signed_mandate pyd_int pyd_datetime v with
      | Ok m => Ok m
      | Err _ => mandate_error "MALFORMED_MANDATE" "mandate envelope does not match recovery.mandate.v2"
      end
  end.

(** src/services/api/app/integrations/a2a/mandates.py:113-129 [MandateVerifier.verify_and_consume] *)
Definition scope_mismatches (d : RecoveryMandateData) (e : ExpectedMandateScope) : list string :=
  (if bool_decide (md_task_id d = es_task_id e) then [] else ["task_id"])
  ++ (if bool_decide (md_merchant_id d = es_merchant_id e) then [] else ["merchant_id"])
  ++ (if bool_decide (md_case_id d = es_case_id e) then [] else ["case_id"])
  ++ (if bool_decide (md_customer_id d = es_customer_id e) then [] else ["customer_id"])
  ++ (if bool_decide (md_recovery_action_id d = es_recovery_action_id e) then []
      else ["recovery_action_id"])
  ++ (if bool_decide (md_failed_invoice_id d = es_failed_invoice_id e) then []
      else ["failed_invoice_id"])
  ++ (if bool_decide (md_exact_amount_paise d = es_exact_amount_paise e) then []
      else ["exact_amount_paise"])
  ++ (if bool_decide (md_currency d = es_currency e) then [] else ["currency"])
  ++ (if bool_decide (md_payment_surface_type d = es_payment_surface_type e) then []
      else ["payment_surface_type"])
  ++ (if bool_decide (md_payment_surface_reference d = es_payment_surface_reference e) then []
      else ["payment_surface_reference"]).

(** src/services/api/app/integrations/a2a/mandates.py:136-156 [MandateVerifier.verify_and_consume] *)
Definition claim_of (d : RecoveryMandateData) (observed_at : datetime) : MandateNonceClaim := {|
  nc_claim_id := sha256_hex (canonical d); nc_nonce := md_nonce d;
  nc_mandate_id := md_mandate_id d; nc_signer_key_id := md_signer_key_id d;
  nc_task_id := md_task_id d; nc_merchant_id := md_merchant_id d; nc_case_id := md_case_id d;
  nc_customer_id := md_customer_id d; nc_recovery_action_id := md_recovery_action_id d;
  nc_failed_invoice_id := md_failed_invoice_id d;
  nc_exact_amount_paise := md_exact_amount_paise d; nc_currency := md_currency d;
  nc_payment_surface_type := md_payment_surface_type d;
  nc_payment_surface_reference := md_payment_surface_reference d;
  nc_authorized_action := md_authorized_action d; nc_issued_at := md_issued_at d;
  nc_expires_at := md_expires_at d; nc_consumed_at := observed_at |}.

(** src/services/api/app/integrations/a2a/mandates.py:95-134 [MandateVerifier.verify_and_consume] *)
Definition authenticate (v : MandateVerifier) (signed : SignedMandate)
    (expected : ExpectedMandateScope) (observed_at : datetime) : result bool :=
  let d := sm_data signed in
  public_key ← from_option (MandateVerificationError "UNKNOWN_SIGNER_KEY" "signer key is not pinned")
                 (mv_keys v !! md_signer_key_id d);
  signature ← mandate_decode (sm_signature signed);
  _ ← raise_if (negb (ed25519_verify public_key (canonical d) signature))
        (MandateVerificationError "INVALID_SIGNATURE" "mandate signature is invalid");
  _ ← raise_if (negb (is_aware observed_at)) (ValueError "verification time must be timezone-aware");
  future ← dt_lt (dt_add observed_at (mv_max_clock_skew v)) (md_issued_at d);
  _ ← raise_if future
        (MandateVerificationError "NOT_YET_VALID" "mandate issue time is in the future");
  valid ← dt_lt observed_at (md_expires_at d);
  let mismatches := scope_mismatches d expected in
  _ ← raise_if (bool_decide (mismatches <> []))
        (MandateVerificationError "SCOPE_MISMATCH"
          ("mandate does not match expected " +++ String.concat ", " mismatches));
  mret (negb valid).

(** src/services/api/app/integrations/a2a/mandates.py:78-170 [MandateVerifier.verify_and_consume] *)
Definition verify_and_consume {S} `{NonceStore S} (v : MandateVerifier) (e : envelope)
    (expected : ExpectedMandateScope) (now : option datetime) (clock : Z)
  : stx S VerifiedMandate :=
  signed ← lift (read_envelope e);
  let d := sm_data signed in
  let observed_at := default (utc_datetime clock) now in
  expired ← lift (authenticate v signed expected observed_at);
  let claim := claim_of d observed_at in
  outcome ← store_consume claim (negb expired);
  if bool_decide (outcome = CONFLICT) then
    if (expired : bool) then raise (MandateVerificationError "EXPIRED" "mandate has expired")
    else raise (MandateVerificationError "REPLAYED"
                  "mandate nonce or ID was reused with different signed scope")
  else if expired && negb (bool_decide (outcome = ALREADY_CLAIMED)) then
    raise (MandateVerificationError "EXPIRED" "mandate has expired")
  else mret {| vm_data := d; vm_verified_at := observed_at; vm_claim_id := nc_claim_id claim |}.

(** ** The signers *)

(** src/services/customer-agent/app/signing.py:50-53 [MandateSigner] *)
Record MandateSigner : Type := { ms_signer_key_id : string; ms_seed : string }.

(** src/services/customer-agent/app/signing.py:55-62 [MandateSigner.from_seed] *)
Definition mandate_signer_from_seed (signer_key_id seed : string) : result MandateSigner :=
  _ ← raise_if (negb (String.length seed =? 32)%nat)
        (ValueError "Ed25519 private seed must contain exactly 32 bytes");
  mret {| ms_signer_key_id := signer_key_id; ms_seed := seed |}.

(** src/services/customer-agent/app/signing.py:64-66 [MandateSigner.from_base64_seed] *)
Definition mandate_signer_from_base64_seed (signer_key_id seed : string) : result MandateSigner :=
  raw ← b64url_decode seed; mandate_signer_from_seed signer_key_id raw.

(** src/services/customer-agent/app/signing.py:68-74 [MandateSigner.public_key_base64] *)
Definition mandate_public_key_base64 (s : MandateSigner) : string :=
  b64_encode (ed25519_public (ms_seed s)).

(** src/services/customer-agent/app/signing.py:76-82 [MandateSigner.sign] *)
Definition sign_mandate (s : MandateSigner) (mandate : RecoveryMandateData) : result SignedMandate :=
  _ ← raise_if (negb (bool_decide (md_signer_key_id mandate = ms_signer_key_id s)))
        (ValueError "mandate signer_key_id does not match the active signer");
  mret {| sm_algorithm := "Ed25519"; sm_data := mandate;
          sm_signature := b64_encode (ed25519_sign (ms_seed s) (canonical mandate)) |}.

Abbreviation canonical_receipt := (canonical_receipt_json iso float_repr).

(** src/services/api/app/integrations/a2a/receipts.py:68-71 [RecoveryReceiptSigner] *)
Record RecoveryReceiptSigner : Type := { rs_signer_key_id : string; rs_seed : string }.

(** src/services/api/app/integrations/a2a/receipts.py:73-82 [RecoveryReceiptSigner.from_seed] *)
Definition receipt_signer_from_seed (signer_key_id seed : string) : result RecoveryReceiptSigner :=
  _ ← raise_if (negb (String.length seed =? 32)%nat)
        (RuntimeError "recovery receipt Ed25519 seed must contain exactly 32 bytes");
  mret {| rs_signer_key_id := signer_key_id; rs_seed := seed |}.

(** src/services/api/app/integrations/a2a/receipts.py:15-16 [MOCK_RECEIPT_SIGNER_KEY_ID] *)
Definition MOCK_RECEIPT_SIGNER_KEY_ID : string := "recoveryos-receipt-mock-2026-01".
Definition mock_receipt_seed : string :=
  sha256_digest "recoveryos-recovery-agent-receipt-mock-key-v1".

(** src/services/api/app/integrations/a2a/receipts.py:84-89 [RecoveryReceiptSigner.mock] *)
Definition receipt_signer_mock : result RecoveryReceiptSigner :=
  receipt_signer_from_seed MOCK_RECEIPT_SIGNER_KEY_ID mock_receipt_seed.

(** src/services/api/app/integrations/a2a/receipts.py:91-97 [RecoveryReceiptSigner.sign] *)
Definition sign_receipt (s : RecoveryReceiptSigner) (data : RecoveryReceiptData)
  : result SignedRecoveryReceipt :=
  _ ← raise_if (negb (bool_decide (rd_signer_key_id data = rs_signer_key_id s)))
        (ValueError "receipt signer_key_id does not match the active signer");
  mret {| sr_algorithm := "Ed25519"; sr_data := data;
          sr_signature := b64_encode (ed25519_sign (rs_seed s) (canonical_receipt data)) |}.

(** src/services/api/app/integrations/a2a/receipts.py:99-101 [RecoveryReceiptSigner.public_key_base64] *)
Definition receipt_public_key_base64 (s : RecoveryReceiptSigner) : string :=
  b64_encode (ed25519_public (rs_seed s)).

(** src/services/api/app/integrations/a2a/receipts.py:135-139 [_b64url_decode] *)
Definition receipt_seed_decode (value : string) : result string :=
  match b64decode_strict (value +++ padding_of value) with
  | Ok raw => Ok raw
  | Err _ => Err (ValueError "invalid base64url value")
  end.

(** src/services/api/app/integrations/a2a/receipts.py:104-124 [create_receipt_signer_from_env] *)
Definition create_receipt_signer_from_env (env : string -> option string)
  : result RecoveryReceiptSigner :=
  let getenv name fallback := str_strip (default fallback (env name)) in
  let mode := str_lower (getenv "RECOVERY_AGENT_RECEIPT_SIGNING_MODE" "mock") in
  if bool_decide (mode = "mock") then receipt_signer_mock
  else
    _ ← raise_if (negb (bool_decide (mode = "configured")))
          (RuntimeError "RECOVERY_AGENT_RECEIPT_SIGNING_MODE must be mock or configured");
    let signer_key_id := getenv "RECOVERY_AGENT_RECEIPT_SIGNER_KEY_ID" "" in
    let encoded_seed := getenv "RECOVERY_AGENT_RECEIPT_ED25519_PRIVATE_KEY" "" in
    _ ← raise_if (bool_decide (signer_key_id = "") || bool_decide (encoded_seed = ""))
          (RuntimeError "configured receipt signing requires signer key ID and Ed25519 private key");
    match receipt_seed_decode encoded_seed with
    | Ok seed => receipt_signer_from_seed signer_key_id seed
    | Err _ => Err (RuntimeError "RECOVERY_AGENT_RECEIPT_ED25519_PRIVATE_KEY must be base64url")
    end.

(** ** The receipt verifier *)

(** src/services/customer-agent/app/signing.py:92-98 [ReceiptVerifier.__init__] *)
Definition receipt_verifier_init (pinned_public_keys : list (string * string))
  : result (gmap string string) :=
  _ ← raise_if (bool_decide (pinned_public_keys = []))
        (ValueError "at least one recovery receipt public key must be pinned");
  pin_keys b64url_decode (fun _ => "Ed25519 public key must contain exactly 32 bytes")
    ∅ pinned_public_keys.

(** src/services/customer-agent/app/signing.py:100-108 [ReceiptVerifier.verify] *)
Definition verify_receipt (keys : gmap string string) (signed : SignedRecoveryReceipt)
  : result RecoveryReceiptData :=
  public_key ← from_option (ReceiptAuthenticationError "payment receipt signer is not pinned")
                 (keys !! rd_signer_key_id (sr_data signed));
  match b64url_decode (sr_signature signed) with
  | Ok signature =>
      if ed25519_verify public_key (canonical_receipt (sr_data signed)) signature
      then Ok (sr_data signed)
      else Err (ReceiptAuthenticationError "payment receipt signature is invalid")
  | Err _ => Err (ReceiptAuthenticationError "payment receipt signature is invalid")
  end.

(** src/services/api/app/integrations/a2a/factory.py:22-32 [load_pinned_public_keys] *)
Definition load_pinned_public_keys (loads : string -> option json) (env : option string)
    (raw : option string) : result (list (string * string)) :=
  let encoded := match raw with Some s => s | None => default "{}" env end in
  match loads encoded with
  | None => Err (RuntimeError "CUSTOMER_AGENT_PUBLIC_KEYS_JSON must be valid JSON")
  | Some (JObj (entry :: rest)) =>
      map_result (fun kv => match kv.2 with
        | JStr item => Ok (kv.1, item)
        | _ => Err (RuntimeError "customer-agent public keys must map string IDs to strings")
        end) (entry :: rest)
  | Some _ => Err (RuntimeError "at least one pinned customer-agent public key is required")
  end.
End verifier.
