(* ===== verification/Activities.v ===== *)
(** * Activities and provider ports

    [worker/app/activities.py]: the mock services behind every activity and the disabled
    customer-agent services; [providers/interfaces.py] and [services/mock_payment.py]: the
    payment provider port as a class and its mock. *)
From S2P Require Import Prelude Domain Json JsonText Razorpay Contracts Mandates.

(** ** The payment port *)

(** src/services/api/app/providers/contracts.py:25-44 [OpenPaymentSurfaceRequest] *)
Record OpenPaymentSurfaceRequest : Type := {
  op_idempotency_key : string;
  op_case_id : string;
  op_merchant_id : string;
  op_customer_id : string;
  op_subscription_id : string;
  op_failed_invoice_id : string;
  op_surface_type : PaymentSurfaceType;
  op_exact_amount_paise : Z;
  op_currency : string;
  op_recovery_deadline : datetime;
  op_expires_at : option datetime;
  op_callback_url : option string;
  op_reference_id : option string;
  op_notes : list (string * string);
}.

Definition upper_letter (c : ascii) : bool :=
  let n := N_of_ascii c in ((65 <=? n) && (n <=? 90))%N.
(** [^[A-Z]{3}$] *)
Definition currency_code (s : string) : bool :=
  match s with
  | String a (String b (String c EmptyString)) => upper_letter a && upper_letter b && upper_letter c
  | _ => false
  end.

Definition note (key : string) (notes : list (string * string)) : option string :=
  snd <$> List.find (fun kv => bool_decide (kv.1 = key)) notes.

(** src/services/api/app/providers/contracts.py:46-59 [OpenPaymentSurfaceRequest.guard_standard_payment_link] *)
Definition guard_standard_payment_link (r : OpenPaymentSurfaceRequest)
  : result OpenPaymentSurfaceRequest :=
  if bool_decide (op_surface_type r = PaymentSurfaceType.STANDARD_PAYMENT_LINK) then
    _ ← raise_if (negb (truthy (op_reference_id r)))
          (ValueError "STANDARD_PAYMENT_LINK requires a deterministic reference_id");
    expires_at ← from_option (ValueError "STANDARD_PAYMENT_LINK requires expires_at") (op_expires_at r);
    late ← dt_lt (op_recovery_deadline r) expires_at;
    _ ← raise_if late (ValueError "STANDARD_PAYMENT_LINK cannot expire after recovery_deadline");
    _ ← raise_if (negb (bool_decide (note "case_id" (op_notes r) = Some (op_case_id r))))
          (ValueError "STANDARD_PAYMENT_LINK notes must contain case_id");
    _ ← raise_if (negb (bool_decide (note "invoice_id" (op_notes r) = Some (op_failed_invoice_id r))))
          (ValueError "STANDARD_PAYMENT_LINK notes must contain invoice_id");
    mret r
  else mret r.

(** src/services/api/app/providers/contracts.py:25-59 [OpenPaymentSurfaceRequest] *)
Definition validate_open_request (r : OpenPaymentSurfaceRequest) : result OpenPaymentSurfaceRequest :=
  _ ← raise_if (negb ((0 <? op_exact_amount_paise r) && currency_code (op_currency r)
          && match op_reference_id r with Some s => (String.length s <=? 40)%nat | None => true end))
        (ValueError "OpenPaymentSurfaceRequest");
  guard_standard_payment_link r.

(** src/services/api/app/providers/contracts.py:62-68 [PaymentSurfaceResult] *)
Record PaymentSurfaceResult : Type := {
  psf_provider : string;
  psf_provider_reference : string;
  psf_surface_type : PaymentSurfaceType;
  psf_customer_url : string;
  psf_expires_at : option datetime;
  psf_authoritative : bool;
}.

(** src/services/api/app/providers/interfaces.py:21-65 [PaymentProvider]: with the lifecycle
    operations of standalone links, which a provider may lack. *)
Class PaymentProvider (P : Type) : Type := {
  is_mock_provider : bool;
  has_link_lifecycle : bool;
  open_customer_payment_surface : OpenPaymentSurfaceRequest -> stx P PaymentSurfaceResult;
  fetch_payment_snapshot : string -> option string -> string -> stx P PaymentSnapshot;
  reconcile_payment_link_by_reference : string -> stx P (option PaymentSurfaceResult);
  revoke_standard_payment_link : string -> stx P string;
}.
Arguments is_mock_provider P {_}.
Arguments has_link_lifecycle P {_}.

(** src/services/api/app/services/mock_payment.py:18-30 [MockPaymentProvider.open_customer_payment_surface] *)
Definition mock_open_surface `{Crypto} (r : OpenPaymentSurfaceRequest) : PaymentSurfaceResult :=
  let digest := str_take 16 (sha256_hex (op_idempotency_key r)) in
  let reference := "mock_surface_" +++ digest in
  {| psf_provider := "mock"; psf_provider_reference := reference;
     psf_surface_type := op_surface_type r;
     psf_customer_url := "https://demo.recoveryos.local/pay/" +++ url_quote "/" reference;
     psf_expires_at := op_expires_at r; psf_authoritative := false |}.

(** src/services/api/app/services/mock_payment.py:15-37 [MockPaymentProvider] *)
Definition mock_payment_provider `{Crypto} : PaymentProvider unit := {|
  is_mock_provider := true;
  has_link_lifecycle := false;
  open_customer_payment_surface r := mret (mock_open_surface r);
  fetch_payment_snapshot _ _ _ :=
    raise (NotImplementedError "mock snapshots are applied through the explicit success endpoint");
  reconcile_payment_link_by_reference _ := raise (AttributeError "reconcile_payment_link_by_reference");
  revoke_standard_payment_link _ := raise (AttributeError "revoke_standard_payment_link");
|}.

(** ** The mock services *)

(** src/services/worker/app/activities.py:126-134 [MockRecoveryActivityServices] *)
Record MockServices : Type := {
  ms_require_manual_approval : bool;
  ms_audits : list AuditInput;
  ms_executed_actions : list (string * ActionExecutionResult);
  ms_executed_commands : list ExecuteActionInput;
  ms_cancelled_keys : gset string;
}.
#[export] Instance eta_MockServices : Eta MockServices := fun s =>
  {| ms_require_manual_approval := ms_require_manual_approval s; ms_audits := ms_audits s;
     ms_executed_actions := ms_executed_actions s; ms_executed_commands := ms_executed_commands s;
     ms_cancelled_keys := ms_cancelled_keys s |}.

Section mock.
Context (repr : json -> string).

(** [payload.get(key, fallback)] *)
Definition payload_get (key : string) (fallback : json) (payload : json) : json :=
  match payload with JObj fields => default fallback (assoc_get key fields) | _ => fallback end.

(** src/services/worker/app/activities.py:136-146 [MockRecoveryActivityServices.normalize_failure] *)
Definition mock_normalize_failure (command : NormalizeFailureInput) : NormalizedFailure :=
  let event := nfi_event command in
  let payload := pe_payload event in
  let reason := json_get "reason_code" payload in
  {| nf_case_id := nfi_case_id command; nf_provider_event_id := pe_event_id event;
     nf_payment_state := py_str repr (payload_get "payment_state" (JStr "FAILED") payload);
     nf_subscription_state := py_str repr (payload_get "subscription_state" (JStr "PENDING") payload);
     nf_reason_code := if json_truthy reason then Some (py_str repr reason) else None;
     nf_authoritative := json_truthy (payload_get "authoritative" (JBool false) payload);
     nf_occurred_at := pe_occurred_at event |}.
End mock.

(** src/services/worker/app/activities.py:150-156 [MockRecoveryActivityServices.diagnose_failure] *)
Definition mock_diagnosis (reason : string) : string :=
  if bool_decide (reason = "BAD_REQUEST_PAYMENT_CARD_INSUFFICIENT_BALANCE") then "INSUFFICIENT_FUNDS"
  else if bool_decide (reason = "BAD_REQUEST_PAYMENT_AUTHENTICATION_FAILED") then "AUTHENTICATION_REQUIRED"
  else if bool_decide (reason = "BAD_REQUEST_PAYMENT_CARD_EXPIRED") then "INSTRUMENT_INVALID"
  else if bool_decide (reason = "GATEWAY_ERROR") then "TRANSIENT_RETRYABLE"
  else "UNKNOWN".

(** src/services/worker/app/activities.py:148-162 [MockRecoveryActivityServices.diagnose_failure] *)
Definition mock_diagnose_failure (command : DiagnosisInput) : DiagnosisResult :=
  let reason := nf_reason_code (di_failure command) in
  let diagnosis := mock_diagnosis (default "" (or_str reason (Some ""))) in
  {| dg_diagnosis := diagnosis;
     dg_confidence := (if bool_decide (diagnosis = "UNKNOWN") then 35 # 100 else 9 # 10)%Q;
     dg_reason_codes := if truthy reason then [default "" reason] else ["MISSING_PROVIDER_REASON"] |}.

(** src/services/worker/app/activities.py:165-172 [MockRecoveryActivityServices.score_recovery]: in
    hundredths, the decimals [Decimal(str(probability))] reads. *)
Definition probability_percent (diagnosis : string) : Z :=
  if bool_decide (diagnosis = "INSUFFICIENT_FUNDS") then 71
  else if bool_decide (diagnosis = "AUTHENTICATION_REQUIRED") then 76
  else if bool_decide (diagnosis = "INSTRUMENT_INVALID") then 62
  else if bool_decide (diagnosis = "TRANSIENT_RETRYABLE") then 82
  else 40.

(** [quantize(Decimal(1), ROUND_HALF_UP)] of a number of hundredths: the nearest integer,
    halves away from zero. *)
Definition round_half_up (hundredths : Z) : Z :=
  Z.sgn hundredths * ((Z.abs hundredths + 50) / 100).

(** src/services/worker/app/activities.py:164-185 [MockRecoveryActivityServices.score_recovery] *)
Definition mock_score_recovery (command : ScoreInput) : ScoreResult :=
  let percent := probability_percent (si_diagnosis command) in
  let expected := round_half_up (si_amount_at_risk_paise command * percent) in
  {| sr_model_name := "deterministic-fallback"; sr_model_version := "phase-1";
     sr_recovery_probability := (percent # 100)%Q;
     sr_expected_recovered_paise := expected; sr_expected_utility_paise := expected - 1500;
     sr_explanation := ["Fixed Phase 1 fallback score"] |}.

(** src/services/worker/app/activities.py:187-208 [MockRecoveryActivityServices.evaluate_policy] *)
Definition mock_evaluate_policy (s : MockServices) (command : PolicyInput) : PolicyResult :=
  if pi_amount_at_risk_paise command <=? 0 then
    {| pr_disposition := "BLOCK"; pr_decision_code := "INVALID_AMOUNT"; pr_action := "STOP";
       pr_payment_surface_type := None; pr_reason_codes := ["NON_POSITIVE_AMOUNT"];
       pr_delay_until := None |}
  else
    let '(disposition, decision_code) :=
      if ms_require_manual_approval s then ("REQUIRE_MANUAL_APPROVAL", "DEMO_APPROVAL_REQUIRED")
      else ("ALLOW", "MOCK_PROVIDER_ALLOWED") in
    {| pr_disposition := disposition; pr_decision_code := decision_code;
       pr_action := pi_candidate_action command;
       pr_payment_surface_type := pi_payment_surface_type command;
       pr_reason_codes := ["MOCK_MODE"]; pr_delay_until := None |}.

(** src/services/worker/app/activities.py:210-222 [MockRecoveryActivityServices.execute_recovery_action] *)
Definition mock_execute_recovery_action (command : ExecuteActionInput)
  : stx MockServices ActionExecutionResult := fun s =>
  match List.find (fun kv => bool_decide (kv.1 = ea_idempotency_key command)) (ms_executed_actions s) with
  | Some (_, existing) => (Ok existing, s)
  | None =>
      let result := {|
        ae_status := "SUCCEEDED"; ae_provider := "mock";
        ae_provider_reference := Some ("mock:" +++ ea_case_id command +++ ":surface");
        ae_customer_url := Some ("https://mock.recovery.invalid/pay/" +++ ea_case_id command);
        ae_reason_code := None |} in
      (Ok result, s <| ms_executed_commands ::= fun l => l ++ [command] |>
                    <| ms_executed_actions ::= fun l => l ++ [(ea_idempotency_key command, result)] |>)
  end.

(** src/services/worker/app/activities.py:224-235 [MockRecoveryActivityServices.reconcile_case] *)
Definition mock_reconcile_case (command : ReconciliationInput) : ReconciliationResult :=
  let recovered := ri_authoritative_hint command
                   && bool_decide (ri_payment_state_hint command = Some "CAPTURED") in
  {| rn_payment_state := if recovered then "CAPTURED"
       else default "" (or_str (ri_payment_state_hint command) (Some "UNKNOWN"));
     rn_subscription_state := if recovered then "ACTIVE" else "PENDING";
     rn_authoritative := ri_authoritative_hint command;
     rn_case_recovered := recovered;
     rn_arrears_collected_paise := if recovered then default 0 (ri_amount_paise_hint command) else 0;
     rn_subscription_reactivated := recovered;
     rn_provider_reference := Some (ri_trigger_event_id command) |}.

(** src/services/worker/app/activities.py:237-242 [MockRecoveryActivityServices.record_audit_event] *)
Definition mock_record_audit_event (command : AuditInput) : stx MockServices AuditResult := fun s =>
  (Ok {| ar_audit_event_id := "audit:" +++ ai_case_id command +++ ":" +++ ai_correlation_id command;
         ar_recorded := true |}, s <| ms_audits ::= fun l => l ++ [command] |>).

(** src/services/worker/app/activities.py:244-248 [MockRecoveryActivityServices.cancel_recovery_action] *)
Definition mock_cancel_recovery_action (command : CancelActionInput) : stx MockServices CancelActionResult :=
  fun s =>
  if bool_decide (ci_idempotency_key command ∈ ms_cancelled_keys s)
  then (Ok {| cr_cancelled := true; cr_reason_code := Some "ALREADY_CANCELLED" |}, s)
  else (Ok {| cr_cancelled := true; cr_reason_code := None |},
        s <| ms_cancelled_keys ::= union {[ci_idempotency_key command]} |>).

(** ** The disabled customer-agent services *)

(** src/services/worker/app/activities.py:254-261 [DisabledA2AMandateActivityServices.start_authorization] *)
Definition disabled_start_authorization (command : StartA2AAuthorizationInput) : A2AAuthorizationResult :=
  {| aa_remote_task_id := "mock-a2a:" +++ sa_case_id command; aa_state := "AUTH_REQUIRED";
     aa_approval_path := Some ("/a2a/mock-a2a:" +++ sa_case_id command) |}.

(** src/services/worker/app/activities.py:263-268 [DisabledA2AMandateActivityServices.poll_and_verify_mandate] *)
Definition disabled_poll (command : PollA2AMandateInput) : A2AMandatePollResult :=
  {| mp_remote_task_id := pm_remote_task_id command; mp_task_state := "AUTH_REQUIRED";
     mp_verification_status := "PENDING"; mp_mandate_id := None; mp_verified_artifact := None;
     mp_reason_code := None |}.

(** src/services/worker/app/activities.py:270-277 [DisabledA2AMandateActivityServices.send_payment_receipt] *)
Definition disabled_send_receipt (command : SendA2APaymentReceiptInput) : A2APaymentReceiptResult :=
  {| rr_remote_task_id := rc_remote_task_id command; rr_task_state := "FAILED"; rr_delivered := false |}.

(** ** The fallback score *)

(** The rounding is within half a paisa, and never leaves the range of the amount. *)
Lemma round_half_up_near n : -50 <= 100 * round_half_up n - n <= 50.
Proof.
  unfold round_half_up. pose proof (Z.div_mod (Z.abs n + 50) 100 ltac:(lia)).
  pose proof (Z.mod_pos_bound (Z.abs n + 50) 100 ltac:(lia)).
  destruct (Z.sgn_spec n) as [[? ->]|[[? ->]|[? ->]]]; lia.
Qed.
Lemma mock_score_bounded command : 0 <= si_amount_at_risk_paise command ->
  0 <= sr_expected_recovered_paise (mock_score_recovery command) <= si_amount_at_risk_paise command.
Proof.
  intros Ha. cbn. set (a := si_amount_at_risk_paise command) in *.
  assert (40 <= probability_percent (si_diagnosis command) <= 82) as Hp.
  { unfold probability_percent. repeat case_bool_decide; lia. }
  pose proof (round_half_up_near (a * probability_percent (si_diagnosis command))). nia.
Qed.
