(* ===== verification/A2ASamples.v ===== *)
(** * Sample parameters of the A2A boundary

    Concrete functions that satisfy the laws assumed of the cryptographic library and of
    the wire formats, with which the theorems of the boundary are evaluated. *)
From S2P Require Import Prelude Json A2AModels NonceStore Mandates.

(** A key is its seed, a signature is the key followed by the message. *)
Fixpoint pad_to (n : nat) (s : string) : string :=
  match n with
  | O => EmptyString
  | S n => match s with
           | EmptyString => String "." (pad_to n EmptyString)
           | String c s' => String c (pad_to n s')
           end
  end.
#[export] Instance sample_crypto : Crypto := {|
  ed25519_public := pad_to 32;
  ed25519_sign seed m := (pad_to 32 seed +++ m)%string;
  ed25519_verify pk m sig := bool_decide (sig = (pk +++ m)%string);
  sha256_digest := pad_to 32;
|}.

Lemma pad_to_length n s : String.length (pad_to n s) = n.
Proof. revert s. induction n as [|n IH]; intros [|c s]; cbn; auto. Qed.
#[export] Instance sample_crypto_laws : CryptoLaws.
Proof.
  split; cbn [ed25519_public ed25519_sign ed25519_verify sha256_digest sample_crypto].
  - intros seed m. by apply bool_decide_eq_true_2.
  - apply pad_to_length.
  - apply pad_to_length.
Qed.

(** An instant as the digits of a number. *)
Fixpoint pos_bits (p : positive) : string :=
  match p with xH => "1" | xO p => String "0" (pos_bits p) | xI p => String "1" (pos_bits p) end.
Fixpoint bits_pos (s : string) : option positive :=
  match s with
  | EmptyString => None
  | String c EmptyString => Some xH
  | String c s' => p ← bits_pos s'; Some (if Ascii.eqb c "0" then xO p else xI p)
  end.
Lemma bits_pos_bits p : bits_pos (pos_bits p) = Some p.
Proof.
  induction p as [p IH|p IH|]; cbn; [| |done]; rewrite IH; by destruct p.
Qed.

Definition sample_iso (d : datetime) : string := pos_bits (encode (dt_wall d, dt_offset d)).
Definition sample_datetime (v : json) : option datetime :=
  match v with
  | JStr s => p ← bits_pos s; '(wall, offset) ← decode p; Some {| dt_wall := wall; dt_offset := offset |}
  | _ => None
  end.
Definition sample_int (v : json) : option Z := match v with JInt z => Some z | _ => None end.
Definition sample_float (_ : Q) : string := "0.0".

#[export] Instance sample_round_trip : PydanticRoundTrip sample_iso sample_int sample_datetime.
Proof.
  split; [done|]. intros [wall offset] _. unfold sample_datetime, sample_iso. cbn [dt_wall dt_offset].
  rewrite bits_pos_bits. cbn. by rewrite decode_encode.
Qed.

Definition sample_signer : MandateSigner := {| ms_signer_key_id := "agent"; ms_seed := "seed" |}.
Definition sample_mandate : RecoveryMandateData := {|
  md_protocol_version := "recovery.mandate.v2"; md_mandate_id := "m1"; md_nonce := "n1";
  md_signer_key_id := "agent"; md_task_id := "t1"; md_merchant_id := "mer"; md_case_id := "c1";
  md_customer_id := "cus"; md_recovery_action_id := "a1"; md_failed_invoice_id := "i1";
  md_exact_amount_paise := 49900; md_currency := "INR";
  md_payment_surface_type := "SUBSCRIPTION_INVOICE_LINK"; md_payment_surface_reference := "inv_1";
  md_authorized_action := "OPEN_EXACT_PAYMENT_SURFACE";
  md_issued_at := utc_datetime 1000; md_expires_at := utc_datetime (1000 + 15 * minute) |}.
Definition sample_scope : ExpectedMandateScope := {|
  es_task_id := "t1"; es_merchant_id := "mer"; es_case_id := "c1"; es_customer_id := "cus";
  es_recovery_action_id := "a1"; es_failed_invoice_id := "i1"; es_exact_amount_paise := 49900;
  es_currency := "INR"; es_payment_surface_type := "SUBSCRIPTION_INVOICE_LINK";
  es_payment_surface_reference := "inv_1" |}.
Definition sample_signed : SignedMandate := Eval vm_compute in
  match sign_mandate sample_iso sample_float sample_signer sample_mandate with
  | Ok m => m
  | Err _ => {| sm_algorithm := ""; sm_data := sample_mandate; sm_signature := "" |}
  end.
Definition sample_verifier : MandateVerifier := Eval vm_compute in
  match verifier_init [("agent", mandate_public_key_base64 sample_signer)] (30 * second) with
  | Ok v => v
  | Err _ => {| mv_keys := ∅; mv_max_clock_skew := 0 |}
  end.
