(* ===== verification/MandatesFacts.v ===== *)
(** * The mandate boundary: theorems

    What the verifier accepts, that a mandate authorizes once, and that the two ends of
    the boundary agree, against the interface of the nonce store and for its SQL
    implementation. *)
From S2P Require Import Prelude Json JsonText Base64 A2AModels NonceStore Mandates A2ASamples.

Section facts.
Context `{CryptoLaws}.
Context (iso : datetime -> string) (float_repr : Q -> string).
Context (pyd_int : json -> option Z) (pyd_datetime : json -> option datetime).

Abbreviation canonical := (canonical_json iso float_repr).
Abbreviation claim_id d := (sha256_hex (canonical d)).
Abbreviation read := (read_envelope pyd_int pyd_datetime).
Abbreviation accept := (verify_and_consume iso float_repr pyd_int pyd_datetime).

(** The ten fields the worker expects. *)
Definition in_scope (d : RecoveryMandateData) (e : ExpectedMandateScope) : Prop :=
  e = {| es_task_id := md_task_id d; es_merchant_id := md_merchant_id d;
         es_case_id := md_case_id d; es_customer_id := md_customer_id d;
         es_recovery_action_id := md_recovery_action_id d;
         es_failed_invoice_id := md_failed_invoice_id d;
         es_exact_amount_paise := md_exact_amount_paise d; es_currency := md_currency d;
         es_payment_surface_type := md_payment_surface_type d;
         es_payment_surface_reference := md_payment_surface_reference d |}.

Lemma scope_matches d e : scope_mismatches d e = [] <-> in_scope d e.
Proof.
  unfold scope_mismatches, in_scope. split.
  - intros Hm. repeat (apply app_eq_nil in Hm as [? Hm]).
    repeat match goal with H : (if bool_decide ?P then _ else _) = [] |- _ =>
      destruct (bool_decide_reflect P); [clear H|discriminate H] end.
    destruct e; cbn in *; congruence.
  - intros ->. cbn. by rewrite !bool_decide_eq_true_2.
Qed.

(** A mandate with a good signature of a pinned key, observed at an aware time. *)
Record authentic (v : MandateVerifier) (m : SignedMandate) (observed : datetime) : Prop := {
  au_aware : is_aware observed = true;
  au_signed : exists pk sig, mv_keys v !! md_signer_key_id (sm_data m) = Some pk
    /\ mandate_decode (sm_signature m) = Ok sig
    /\ ed25519_verify pk (canonical (sm_data m)) sig = true;
  au_issued : dt_instant (md_issued_at (sm_data m)) <= dt_instant observed + mv_max_clock_skew v;
}.
Definition unexpired (d : RecoveryMandateData) (observed : datetime) : bool :=
  dt_instant observed <? dt_instant (md_expires_at d).

Lemma dt_instant_add d delta : dt_instant (dt_add d delta) = dt_instant d + delta.
Proof. unfold dt_instant, dt_add. cbn. lia. Qed.

Lemma authenticate_Ok v m e observed expired :
  is_aware (md_issued_at (sm_data m)) = true -> is_aware (md_expires_at (sm_data m)) = true ->
  authenticate iso float_repr v m e observed = Ok expired <->
  authentic v m observed /\ in_scope (sm_data m) e /\ expired = negb (unexpired (sm_data m) observed).
Proof.
  intros Hi He. unfold authenticate, unexpired. rewrite <- scope_matches. split.
  - intros Hr. simp_res. bools.
    rewrite dt_lt_aware in * by done. simp_res. bools. rewrite dt_instant_add in *.
    split; [split; eauto|]. by split; [apply dec_stable|].
  - intros ([Haw (pk & sig & Hk & Hd & Hv) Hs] & Hm & ->).
    rewrite Hk, Hd. cbn -[dt_lt canonical_json]. rewrite Hv. cbn -[dt_lt canonical_json].
    rewrite Haw. cbn -[dt_lt canonical_json].
    rewrite !dt_lt_aware by done. cbn -[canonical_json]. rewrite dt_instant_add.
    rewrite (proj2 (Z.ltb_ge _ _) Hs). cbn. by rewrite Hm.
Qed.

(** A typed envelope was validated when it was built. *)
Definition envelope_ok (e : envelope) : Prop :=
  match e with
  | TypedMandate m => validate_mandate (sm_data m) = Ok (sm_data m)
  | RawMandate _ => True
  end.

Lemma parse_mandate_valid v d : parse_mandate pyd_int pyd_datetime v = Ok d ->
  validate_mandate d = Ok d.
Proof.
  unfold parse_mandate. destruct v; try done. intros Hp.
  repeat (apply bind_Ok in Hp as (? & _ & Hp)).
  pose proof (validate_mandate_Ok _ _ Hp) as (-> & _). done.
Qed.
Lemma read_valid e m : envelope_ok e -> read e = Ok m -> validate_mandate (sm_data m) = Ok (sm_data m).
Proof.
  destruct e as [m'|v]; cbn -[parse_signed_mandate]; [by intros ? [= <-]|intros _].
  destruct (parse_signed_mandate _ _ v) as [m'|] eqn:E; [|done]. intros [= ->].
  unfold parse_signed_mandate in E. destruct v; try done.
  apply bind_Ok in E as (? & _ & E). apply bind_Ok in E as (? & _ & E).
  apply bind_Ok in E as (? & _ & E). apply bind_Ok in E as (d & Hd & E).
  apply bind_Ok in E as (? & _ & [= <-]). by apply parse_mandate_valid in Hd.
Qed.

Section calls.
Context {S : Type} `{NonceStoreSpec S}.

(** What an accepted call established. *)
Record accepted (v : MandateVerifier) (e : envelope) (expected : ExpectedMandateScope)
    (observed : datetime) (s : S) (vm : VerifiedMandate) (s' : S) : Prop := {
  ac_read : exists m, read e = Ok m /\ vm_data vm = sm_data m
    /\ validate_mandate (sm_data m) = Ok (sm_data m) /\ authentic v m observed;
  ac_scope : in_scope (vm_data vm) expected;
  ac_result : vm_verified_at vm = observed /\ vm_claim_id vm = claim_id (vm_data vm);
  ac_store : let k := {| ck_claim := vm_claim_id vm; ck_nonce := md_nonce (vm_data vm);
                         ck_mandate := md_mandate_id (vm_data vm) |} in
    (unexpired (vm_data vm) observed = true
     /\ (forall l, l ∈ store_held s -> ~ clash l k)
     /\ (forall l, l ∈ store_held s' <-> l = k \/ l ∈ store_held s))
    \/ (s' = s /\ k ∈ store_held s);
}.

Lemma accept_sound v e expected now clock (s : S) :
  envelope_ok e -> store_ok s ->
  match accept v e expected now clock s with
  | (Ok vm, s') => accepted v e expected (default (utc_datetime clock) now) s vm s'
  | (Err _, s') => s' = s
  end.
Proof.
  intros He Hs. unfold verify_and_consume. destruct (read e) as [m|] eqn:Er; [|done].
  pose proof (read_valid _ _ He Er) as Hv. pose proof (validate_mandate_Ok _ _ Hv) as (_ & _ & Hi & Hx & _).
  set (observed := default _ now). stx_unfold.
  destruct (authenticate _ _ v m expected observed) as [expired|] eqn:Ea; [|done].
  apply authenticate_Ok in Ea as (Hau & Hsc & ->); [|done..].
  rewrite negb_involutive.
  destruct (store_consume _ _ s) as [[o|ex] s'] eqn:Ec.
  2: { by eapply consume_refused in Ec. }
  destruct o; cbn.
  - apply consume_claimed in Ec as (Hf & Hfree & Hheld); [|done]. rewrite Hf. cbn.
    split; [eauto|done|done|left]. cbn. auto.
  - pose proof Ec as Ec'. apply consume_already in Ec' as [-> Hk]; [|done].
    rewrite andb_false_r. split; [eauto|done|done|right]. auto.
  - eapply consume_refused in Ec as ->; [|done..]. by destruct (unexpired _ _).
Qed.

(** C36: a call of the verifier returns only a mandate whose signature by a pinned key covers
    every field, observed no earlier than its issue less the skew, with the ten expected
    fields, and either consumes it for the first time before it expires, when the store
    holds no mandate with its nonce or its identifier, or finds the very same mandate
    consumed earlier; a call that raises consumes nothing. *)
Theorem mandate_accept_exact v e expected now clock (s : S) :
  envelope_ok e -> store_ok s ->
  match accept v e expected now clock s with
  | (Ok vm, s') => accepted v e expected (default (utc_datetime clock) now) s vm s'
  | (Err _, s') => s' = s
  end.
Proof. apply accept_sound. Qed.

(** Several workers, each with its keys, calling one store in any order. *)
Record call : Type := {
  ca_verifier : MandateVerifier;
  ca_envelope : envelope;
  ca_expected : ExpectedMandateScope;
  ca_now : option datetime;
  ca_clock : Z;
}.
Definition run_call (c : call) : stx S VerifiedMandate :=
  accept (ca_verifier c) (ca_envelope c) (ca_expected c) (ca_now c) (ca_clock c).
Fixpoint run_calls (cs : list call) (s : S) : list VerifiedMandate * S :=
  match cs with
  | [] => ([], s)
  | c :: cs' =>
      match run_call c s with
      | (Ok vm, s1) => let '(vms, s') := run_calls cs' s1 in (vm :: vms, s')
      | (Err _, s1) => run_calls cs' s1
      end
  end.

(** A call changes the store only through one consumption, with the claim of its result. *)
Lemma run_call_store c s : (exists e, run_call c s = (Err e, s)) \/
  exists d observed fresh, let claim := claim_of iso float_repr d observed in
    snd (run_call c s) = snd (store_consume claim fresh s)
    /\ forall vm, fst (run_call c s) = Ok vm -> vm_data vm = d /\ vm_claim_id vm = claim_id d
         /\ exists o, fst (store_consume claim fresh s) = Ok o /\ o <> CONFLICT.
Proof.
  unfold run_call, verify_and_consume. stx_unfold.
  destruct (read (ca_envelope c)) as [m|e]; [|by eauto].
  destruct (authenticate _ _ _ m _ _) as [expired|e]; [|by eauto].
  right. exists (sm_data m), (default (utc_datetime (ca_clock c)) (ca_now c)), (negb expired). cbv zeta.
  destruct (store_consume _ _ s) as [[o|e] s']; cbn; [|done].
  destruct o, expired; cbn; (split; [done|]); intros vm [= <-]; cbn; eauto 6.
Qed.

(** A fact about accepted mandates that the store records and never loses. *)
Lemma run_calls_evidence (evidence : S -> VerifiedMandate -> Prop) :
  (forall d t fresh s vm, store_ok s -> evidence s vm ->
    evidence (snd (store_consume (claim_of iso float_repr d t) fresh s)) vm) ->
  (forall d t fresh s s' o vm, store_ok s ->
    store_consume (claim_of iso float_repr d t) fresh s = (Ok o, s') -> o <> CONFLICT ->
    vm_data vm = d -> vm_claim_id vm = claim_id d -> evidence s' vm) ->
  forall cs s vms s', store_ok s -> run_calls cs s = (vms, s') ->
    store_ok s' /\ (forall vm, evidence s vm -> evidence s' vm)
    /\ (forall vm, vm ∈ vms -> evidence s' vm).
Proof.
  intros Hkeep Hnew cs. induction cs as [|c cs IH]; intros s vms s' Hs Hr; cbn in Hr.
  { injection Hr as <- <-. split; [done|]. split; [done|]. intros vm Hvm. by apply elem_of_nil in Hvm. }
  assert (store_ok (snd (run_call c s)) /\ (forall vm, evidence s vm -> evidence (snd (run_call c s)) vm)
    /\ forall vm, fst (run_call c s) = Ok vm -> evidence (snd (run_call c s)) vm) as (Hok & Hold & Hnew').
  { destruct (run_call_store c s) as [[e ->]|(d & t & fresh & E & Hvm)]; [done|].
    rewrite E. split; [by apply consume_ok|]. split; [eauto|].
    intros vm (Hd & Hc & o & Ho & Hne)%Hvm. destruct (store_consume _ _ s) as [r s1] eqn:Es.
    cbn in Ho |- *. subst r. eauto. }
  destruct (run_call c s) as [[vm|e] s1]; cbn in *.
  - destruct (run_calls cs s1) as [vms1 s2] eqn:E. injection Hr as <- <-.
    destruct (IH _ _ _ Hok E) as (K1 & K2 & K3). split; [done|]. split; [auto|].
    intros vm' [->|Hin]%elem_of_cons; auto.
  - destruct (IH _ _ _ Hok Hr) as (K1 & K2 & K3). auto.
Qed.

(** Two mandates with the same canonical bytes, or two texts with the same digest. *)
Definition same_unless_collision (d e : RecoveryMandateData) : Prop :=
  same_mandate iso d e \/ (canonical d <> canonical e /\ claim_id d = claim_id e).

Lemma claim_id_determines d e : claim_id d = claim_id e -> same_unless_collision d e.
Proof.
  intros Hc. destruct (decide (canonical d = canonical e)) as [E|E]; [left|by right].
  by eapply canonical_json_inj.
Qed.

Definition held_evidence (s : S) (vm : VerifiedMandate) : Prop :=
  vm_claim_id vm = claim_id (vm_data vm)
  /\ {| ck_claim := claim_id (vm_data vm); ck_nonce := md_nonce (vm_data vm);
        ck_mandate := md_mandate_id (vm_data vm) |} ∈ store_held s.

(** however many workers present however many envelopes to one store, in any order, two
    acceptances that share the nonce or the mandate identifier are acceptances of the same
    signed data, every field included (a SHA-256 collision apart). *)
Theorem mandate_single_use cs s vms s' a b :
  store_ok s -> run_calls cs s = (vms, s') -> a ∈ vms -> b ∈ vms ->
  md_nonce (vm_data a) = md_nonce (vm_data b)
    \/ md_mandate_id (vm_data a) = md_mandate_id (vm_data b) ->
  vm_claim_id a = vm_claim_id b /\ same_unless_collision (vm_data a) (vm_data b).
Proof.
  intros Hs Hr Ha Hb Hclash.
  destruct (run_calls_evidence held_evidence) with (cs := cs) (s := s) (vms := vms) (s' := s')
    as (Hok & _ & Hev); [| |done..|].
  - intros d t fresh s1 vm Hs1 [Hc Hk]. split; [done|]. by apply consume_held.
  - intros d t fresh s1 s2 o vm Hs1 E Ho <- Hc. split; [done|].
    eapply consume_accepted in E; done.
  - destruct (Hev a Ha) as [Ca Ka], (Hev b Hb) as [Cb Kb].
    pose proof (held_distinct _ _ _ Hok Ka Kb Hclash) as E. injection E as E _ _.
    split; [congruence|]. by apply claim_id_determines.
Qed.
End calls.

(** ** The SQL store *)

Section sql.
Context (references_exist : MandateNonceClaim -> bool).
#[local] Instance sql_nonce_store : NonceStore (list A2AMandateNonceConsumption) :=
  sql_store references_exist.
#[local] Instance sql_nonce_spec : NonceStoreSpec (list A2AMandateNonceConsumption) :=
  sql_spec references_exist.

Definition row_evidence (rows : list A2AMandateNonceConsumption) (vm : VerifiedMandate) : Prop :=
  vm_claim_id vm = claim_id (vm_data vm) /\ exists r, r ∈ rows
  /\ co_claim_id r = Some (claim_id (vm_data vm))
  /\ co_recovery_action_id r = Some (md_recovery_action_id (vm_data vm)).

Lemma sql_consume_grows c fresh rows r :
  r ∈ rows -> r ∈ snd (sql_consume references_exist c fresh rows).
Proof.
  intros Hr. destruct (sql_cases references_exist c fresh rows)
    as [(_ & s' & E & ->)|[[_ ->]|[->|[e ->]]]]; cbn; try done.
  apply insert_consumption_Some in E as (-> & _). apply elem_of_app. by left.
Qed.
Lemma sql_consume_evidence d t fresh rows o rows' :
  sql_consume references_exist (claim_of iso float_repr d t) fresh rows = (Ok o, rows') ->
  o <> CONFLICT -> exists r, r ∈ rows' /\ co_claim_id r = Some (claim_id d)
    /\ co_recovery_action_id r = Some (md_recovery_action_id d).
Proof.
  intros E Ho. destruct (sql_cases references_exist (claim_of iso float_repr d t) fresh rows)
    as [(_ & s' & E1 & E')|[[(r & Hr & Hp) E']|[E'|[e E']]]]; rewrite E' in E; simplify_eq.
  - apply insert_consumption_Some in E1 as (-> & _). eexists. split; [apply elem_of_app; right; by left|].
    done.
  - exists r. unfold persisted_equal in Hp. bools. auto.
Qed.

(** with the SQL store, whatever is presented by whichever workers, one recovery action is
    authorized by one mandate only: two acceptances for the same action are acceptances of
    the same signed data (a SHA-256 collision apart). *)
Theorem sql_one_mandate_per_action cs rows vms rows' a b :
  sql_ok rows -> run_calls cs rows = (vms, rows') -> a ∈ vms -> b ∈ vms ->
  md_recovery_action_id (vm_data a) = md_recovery_action_id (vm_data b) ->
  vm_claim_id a = vm_claim_id b /\ same_unless_collision (vm_data a) (vm_data b).
Proof.
  intros Hs Hr Ha Hb Hact.
  destruct (run_calls_evidence row_evidence) with (cs := cs) (s := rows) (vms := vms) (s' := rows')
    as (Hok & _ & Hev); [| |done..|].
  - intros d t fresh s1 vm _ [Hc (r & Hin & Hrow)]. split; [done|]. exists r.
    split; [by apply sql_consume_grows|done].
  - intros d t fresh s1 s2 o vm _ E Ho <- Hc. split; [done|].
    exact (sql_consume_evidence _ _ _ _ _ _ E Ho).
  - destruct (Hev a Ha) as [Ca (r & Hin & Hca & Haa)], (Hev b Hb) as [Cb (r' & Hin' & Hcb & Hab)].
    assert (r = r') as <-.
    { apply (nodup_omap_inj co_recovery_action_id rows' r r'
        (md_recovery_action_id (vm_data a)) (sql_actions _ Hok)); auto. by rewrite Hact. }
    assert (claim_id (vm_data a) = claim_id (vm_data b)) as E by congruence.
    split; [congruence|]. by apply claim_id_determines.
Qed.

Context `{!PydanticRoundTrip iso pyd_int pyd_datetime}.

(** A verifier that pins the public key of a signer knows it under the signer's identifier. *)
Lemma verifier_pins signer skew v :
  verifier_init [(ms_signer_key_id signer, mandate_public_key_base64 signer)] skew = Ok v ->
  mv_keys v !! ms_signer_key_id signer = Some (ed25519_public (ms_seed signer))
  /\ mv_max_clock_skew v = skew.
Proof.
  unfold verifier_init, mandate_public_key_base64. cbn -[mandate_decode].
  unfold pin_key. cbn -[mandate_decode]. rewrite mandate_decode_encode. cbn -[mandate_decode].
  rewrite public_length. cbn. intros [= <-]. cbn. by rewrite lookup_insert_eq.
Qed.

Lemma signed_authentic signer skew v d m observed :
  verifier_init [(ms_signer_key_id signer, mandate_public_key_base64 signer)] skew = Ok v ->
  sign_mandate iso float_repr signer d = Ok m ->
  is_aware observed = true -> dt_instant (md_issued_at d) <= dt_instant observed + skew ->
  sm_data m = d /\ authentic v m observed.
Proof.
  intros [Hk Hs]%verifier_pins Hm Ha Hi. unfold sign_mandate in Hm.
  apply bind_Ok in Hm as ([] & Hg & [= <-]). apply raise_if_Ok in Hg. bools.
  split; [done|]. split; cbn -[canonical_json]; [done| |by rewrite Hs].
  rewrite Hg. eexists _, _. split; [exact Hk|]. rewrite mandate_decode_encode.
  split; [done|apply verify_signed].
Qed.

(** An authentic mandate in scope is decided by the store alone. *)
Lemma accept_by_store v e m expected observed clock rows :
  envelope_ok e -> read e = Ok m -> authentic v m observed -> in_scope (sm_data m) expected ->
  accept v e expected (Some observed) clock rows =
    (let claim := claim_of iso float_repr (sm_data m) observed in
     let fresh := unexpired (sm_data m) observed in
     match sql_consume references_exist claim fresh rows with
     | (Ok CLAIMED, rows') =>
         (if fresh then Ok {| vm_data := sm_data m; vm_verified_at := observed;
                              vm_claim_id := claim_id (sm_data m) |}
          else mandate_error "EXPIRED" "mandate has expired", rows')
     | (Ok ALREADY_CLAIMED, rows') =>
         (Ok {| vm_data := sm_data m; vm_verified_at := observed;
                vm_claim_id := claim_id (sm_data m) |}, rows')
     | (Ok CONFLICT, rows') =>
         (if fresh then mandate_error "REPLAYED"
                          "mandate nonce or ID was reused with different signed scope"
          else mandate_error "EXPIRED" "mandate has expired", rows')
     | (Err ex, rows') => (Err ex, rows')
     end).
Proof.
  intros He Hr Hau Hsc. pose proof (validate_mandate_Ok _ _ (read_valid _ _ He Hr)) as (_ & _ & Hi & Hx & _).
  unfold verify_and_consume. rewrite Hr. stx_unfold. cbn [default id from_option]. change (id observed) with observed.
  rewrite (proj2 (authenticate_Ok v m expected observed _ Hi Hx) (conj Hau (conj Hsc eq_refl))).
  rewrite negb_involutive. cbv zeta. cbn [store_consume sql_nonce_store sql_store].
  destruct (sql_consume _ _ _ rows) as [[[]|] rows'], (unexpired (sm_data m) observed); done.
Qed.

Lemma persisted_row d t t' :
  persisted_equal (claim_of iso float_repr d t') (consumption_row (claim_of iso float_repr d t)) = true.
Proof. unfold persisted_equal. cbn. by rewrite !bool_decide_eq_true_2. Qed.

(** A consumed claim is found again, before and after it expires. *)
Lemma sql_consume_again d t t' rows :
  dt_instant t' < dt_instant (md_expires_at d) \/ unexpired d t' = false ->
  sql_consume references_exist (claim_of iso float_repr d t') (unexpired d t')
    (rows ++ [consumption_row (claim_of iso float_repr d t)])
  = (Ok ALREADY_CLAIMED, rows ++ [consumption_row (claim_of iso float_repr d t)]).
Proof.
  intros Ht. set (row := consumption_row _).
  assert (existsb (persisted_equal (claim_of iso float_repr d t'))
    (List.filter (claim_selects (claim_of iso float_repr d t')) (rows ++ [row])) = true) as Hex.
  { apply existsb_exists. exists row. split; [|apply persisted_row].
    apply filter_In. split; [apply in_app_iff; right; by left|].
    unfold claim_selects. cbn. by rewrite (bool_decide_eq_true_2 (md_nonce d = md_nonce d)). }
  unfold sql_consume. rewrite Hex. destruct (unexpired d t') eqn:E; [|done].
  unfold insert_consumption. cbn. unfold unexpired in E. bools.
  rewrite (proj2 (Z.leb_le _ _)) by lia. cbn.
  assert (existsb (consumption_conflict (consumption_row (claim_of iso float_repr d t')))
    (rows ++ [row]) = true) as ->; [|done].
  apply existsb_exists. exists row. split; [apply in_app_iff; right; by left|].
  unfold consumption_conflict. cbn. by rewrite (bool_decide_eq_true_2 (md_nonce d = md_nonce d)).
Qed.

End sql.
End facts.

(** ** Sample runs *)

#[local] Instance sample_store : NonceStore (list A2AMandateNonceConsumption) := sql_store (fun _ => true).
#[local] Instance sample_spec : NonceStoreSpec (list A2AMandateNonceConsumption) := sql_spec (fun _ => true).

Abbreviation sample_accept :=
  (verify_and_consume sample_iso sample_float sample_int sample_datetime sample_verifier).

Lemma mandate_accept_exact_witness :
  match sample_accept (TypedMandate sample_signed) sample_scope (Some (utc_datetime 2000)) 0 [] with
  | (Ok vm, s') => accepted sample_iso sample_float sample_int sample_datetime sample_verifier
      (TypedMandate sample_signed) sample_scope (utc_datetime 2000) [] vm s'
  | (Err _, s') => s' = []
  end.
Proof.
  apply (mandate_accept_exact sample_iso sample_float sample_int sample_datetime sample_verifier
    (TypedMandate sample_signed) sample_scope (Some (utc_datetime 2000)) 0 []).
  - reflexivity.
  - repeat constructor.
Defined.

(** The same envelope twice, the second time after the mandate expired. *)
Definition sample_calls : list call :=
  [ {| ca_verifier := sample_verifier; ca_envelope := TypedMandate sample_signed;
       ca_expected := sample_scope; ca_now := None; ca_clock := 2000 |};
    {| ca_verifier := sample_verifier; ca_envelope := TypedMandate sample_signed;
       ca_expected := sample_scope; ca_now := None; ca_clock := day |} ].
Definition sample_verified (t : Z) : VerifiedMandate := {|
  vm_data := sample_mandate; vm_verified_at := utc_datetime t;
  vm_claim_id := sha256_hex (canonical_json sample_iso sample_float sample_mandate) |}.
Definition sample_rows : list A2AMandateNonceConsumption :=
  [consumption_row (claim_of sample_iso sample_float sample_mandate (utc_datetime 2000))].
Lemma sample_run :
  run_calls sample_iso sample_float sample_int sample_datetime sample_calls []
    = ([sample_verified 2000; sample_verified day], sample_rows).
Proof. vm_compute. reflexivity. Qed.

Lemma mandate_single_use_witness :
  vm_claim_id (sample_verified 2000) = vm_claim_id (sample_verified day)
  /\ same_unless_collision sample_iso sample_float sample_mandate sample_mandate.
Proof.
  apply (mandate_single_use sample_iso sample_float sample_int sample_datetime sample_calls []
    [sample_verified 2000; sample_verified day] sample_rows (sample_verified 2000) (sample_verified day)).
  - repeat constructor.
  - apply sample_run.
  - left.
  - right. left.
  - left. reflexivity.
Defined.

Lemma sql_one_mandate_per_action_witness :
  vm_claim_id (sample_verified 2000) = vm_claim_id (sample_verified day)
  /\ same_unless_collision sample_iso sample_float sample_mandate sample_mandate.
Proof.
  apply (sql_one_mandate_per_action sample_iso sample_float sample_int sample_datetime (fun _ => true)
    sample_calls [] [sample_verified 2000; sample_verified day] sample_rows
    (sample_verified 2000) (sample_verified day)).
  - repeat constructor.
  - apply sample_run.
  - left.
  - right. left.
  - reflexivity.
Defined.

