(* ===== verification/AgentModels.v ===== *)
(** * Customer-agent models

    The messages, requests and task records of the customer agent, their constraints and
    their JSON.  [status], [artifacts] and [history] are the free JSON the code builds. *)
From S2P Require Import Prelude Json JsonText A2AModels.

Definition length_between (a b : nat) (s : string) : bool :=
  (a <=? text_length s)%nat && (text_length s <=? b)%nat.

(** ** Messages *)

(** src/services/customer-agent/app/models.py:19-24 [Message] *)
Record Message : Type := {
  msg_id : string;
  msg_role : string;
  msg_parts : list (list (string * json));
  msg_task_id : option string;
  msg_context_id : option string;
}.

(** src/services/customer-agent/app/models.py:19-24 [Message] *)
Definition message_ok (m : Message) : bool :=
  nonempty (msg_id m) && mem (msg_role m) ["ROLE_USER"; "ROLE_AGENT"]
  && bool_decide (msg_parts m <> []).

(** [message.model_dump(mode="json", by_alias=True, exclude_none=True)] *)
Definition message_dump (m : Message) : json := JObj (
  [("messageId", JStr (msg_id m)); ("role", JStr (msg_role m));
   ("parts", JArr (map (fun part => JObj [("data", JObj part)]) (msg_parts m)))]
  ++ match msg_task_id m with Some t => [("taskId", JStr t)] | None => [] end
  ++ match msg_context_id m with Some c => [("contextId", JStr c)] | None => [] end).

(** ** Requests *)

(** src/services/customer-agent/app/models.py:49-61 [RecoveryDisplayContext] *)
Record RecoveryDisplayContext : Type := {
  dc_merchant_display_name : string;
  dc_plan_name : string;
  dc_failure_explanation : string;
  dc_invoice_state : string;
  dc_payment_state : string;
  dc_subscription_state : string;
  dc_provider_subscription_state : string;
  dc_preferred_language : string;
  dc_invoice_due_at : option datetime;
  dc_recovery_deadline : datetime;
}.
#[export] Instance display_context_eq_dec : EqDecision RecoveryDisplayContext.
Proof. solve_decision. Defined.

(** src/services/customer-agent/app/models.py:49-61 [RecoveryDisplayContext] *)
Definition display_context_ok (c : RecoveryDisplayContext) : bool :=
  length_between 1 200 (dc_merchant_display_name c) && length_between 1 200 (dc_plan_name c)
  && length_between 1 500 (dc_failure_explanation c) && length_between 1 64 (dc_invoice_state c)
  && length_between 1 64 (dc_payment_state c) && length_between 1 64 (dc_subscription_state c)
  && length_between 1 64 (dc_provider_subscription_state c)
  && length_between 2 35 (dc_preferred_language c).

(** src/services/customer-agent/app/models.py:64-77 [RecoveryRequestData] *)
Record RecoveryRequestData : Type := {
  rq_protocol_version : string;
  rq_idempotency_key : string;
  rq_case_id : string;
  rq_merchant_id : string;
  rq_customer_id : string;
  rq_recovery_action_id : string;
  rq_failed_invoice_id : string;
  rq_exact_amount_paise : Z;
  rq_currency : string;
  rq_payment_surface_type : string;
  rq_payment_surface_reference : string;
  rq_expires_at : datetime;
  rq_context : RecoveryDisplayContext;
}.
#[export] Instance request_eq_dec : EqDecision RecoveryRequestData.
Proof. solve_decision. Defined.

(** src/services/customer-agent/app/models.py:79-83 [RecoveryRequestData.require_future_utc_expiry] *)
Definition require_future_utc_expiry (r : RecoveryRequestData) : result RecoveryRequestData :=
  _ ← raise_if (negb (is_aware (rq_expires_at r))) (ValueError "expires_at must be timezone-aware");
  mret r.

(** src/services/customer-agent/app/models.py:64-83 [RecoveryRequestData] *)
Definition validate_request (r : RecoveryRequestData) : result RecoveryRequestData :=
  if bool_decide (rq_protocol_version r = "recovery.request.v2")
     && forallb nonempty [rq_idempotency_key r; rq_case_id r; rq_merchant_id r; rq_customer_id r;
          rq_recovery_action_id r; rq_failed_invoice_id r; rq_payment_surface_type r;
          rq_payment_surface_reference r]
     && (0 <? rq_exact_amount_paise r) && currency_code (rq_currency r)
     && display_context_ok (rq_context r)
  then require_future_utc_expiry r else validation_error.

(** ** Tasks *)

Definition AUTH_REQUIRED : string := "TASK_STATE_AUTH_REQUIRED".
Definition WORKING : string := "TASK_STATE_WORKING".
Definition COMPLETED : string := "TASK_STATE_COMPLETED".
Definition FAILED_STATE : string := "TASK_STATE_FAILED".
Definition CANCELED : string := "TASK_STATE_CANCELED".

(** src/services/customer-agent/app/models.py:158-174 [TaskRecord] *)
Record TaskRecord : Type := {
  tk_id : string;
  tk_context_id : string;
  tk_state : string;
  tk_status : json;
  tk_artifacts : list json;
  tk_history : list json;
  tk_request : RecoveryRequestData;
  tk_created_at : datetime;
  tk_updated_at : datetime;
  tk_revision : Z;
}.
#[export] Instance eta_task : Eta TaskRecord := fun t =>
  {| tk_id := tk_id t; tk_context_id := tk_context_id t; tk_state := tk_state t;
     tk_status := tk_status t; tk_artifacts := tk_artifacts t; tk_history := tk_history t;
     tk_request := tk_request t; tk_created_at := tk_created_at t;
     tk_updated_at := tk_updated_at t; tk_revision := tk_revision t |}.

(** src/services/customer-agent/app/models.py:150-155 [ApprovalDecision] *)
Record ApprovalDecision : Type := {
  ad_approve : bool;
  ad_merchant_id : string;
  ad_case_id : string;
  ad_exact_amount_paise : Z;
  ad_payment_surface_reference : string;
}.

(** src/services/customer-agent/app/models.py:194-215 [ApprovalSummary] *)
Record ApprovalSummary : Type := {
  as_task_id : string;
  as_state : string;
  as_merchant_id : string;
  as_case_id : string;
  as_recovery_action_id : string;
  as_failed_invoice_id : string;
  as_exact_amount_paise : Z;
  as_currency : string;
  as_payment_surface_type : string;
  as_payment_surface_reference : string;
  as_expires_at : datetime;
  as_context : RecoveryDisplayContext;
}.

(** src/services/customer-agent/app/models.py:218-221 [CustomerLanguageRequest] *)
Record CustomerLanguageRequest : Type := {
  lr_text : string;
  lr_channel : string;
  lr_language : option string;
}.

(** src/services/customer-agent/app/models.py:224-227 [LanguageModelInterpretation] *)
Record LanguageModelInterpretation : Type := {
  li_intent : string;
  li_confidence_basis_points : Z;
  li_explanation : string;
}.
(** src/services/customer-agent/app/models.py:224-227 [LanguageModelInterpretation] *)
Definition interpretation_ok (i : LanguageModelInterpretation) : bool :=
  mem (li_intent i) ["APPROVE"; "REJECT"; "ASK_QUESTION"; "UNCLEAR"]
  && (0 <=? li_confidence_basis_points i) && (li_confidence_basis_points i <=? 10000)
  && length_between 1 500 (li_explanation i).

(** src/services/customer-agent/app/models.py:230-239 [AuthoritativeApprovalScope] *)
Record AuthoritativeApprovalScope : Type := {
  sc_merchant_id : string;
  sc_case_id : string;
  sc_recovery_action_id : string;
  sc_failed_invoice_id : string;
  sc_exact_amount_paise : Z;
  sc_currency : string;
  sc_payment_surface_type : string;
  sc_payment_surface_reference : string;
  sc_expires_at : datetime;
}.

(** src/services/customer-agent/app/models.py:242-246 [CustomerLanguageInterpretation] *)
Record CustomerLanguageInterpretation : Type := {
  ci_interpretation : LanguageModelInterpretation;
  ci_task_id : string;
  ci_authorization_effect : string;
  ci_requires_explicit_approval : bool;
  ci_authoritative_scope : AuthoritativeApprovalScope;
}.

(** ** JSON *)

Section agent_wire.
Context (iso : datetime -> string) (float_repr : Q -> string).
Context (pyd_int : json -> option Z) (pyd_datetime : json -> option datetime).

Definition opt_instant (d : option datetime) : json :=
  match d with Some d => JStr (iso d) | None => JNull end.

(** src/services/customer-agent/app/store.py:257-264 [_canonical_request] *)
Definition context_dump (c : RecoveryDisplayContext) : json := JObj [
  ("merchant_display_name", JStr (dc_merchant_display_name c));
  ("plan_name", JStr (dc_plan_name c));
  ("failure_explanation", JStr (dc_failure_explanation c));
  ("invoice_state", JStr (dc_invoice_state c));
  ("payment_state", JStr (dc_payment_state c));
  ("subscription_state", JStr (dc_subscription_state c));
  ("provider_subscription_state", JStr (dc_provider_subscription_state c));
  ("preferred_language", JStr (dc_preferred_language c));
  ("invoice_due_at", opt_instant (dc_invoice_due_at c));
  ("recovery_deadline", JStr (iso (dc_recovery_deadline c)))].
Definition request_dump (r : RecoveryRequestData) : json := JObj [
  ("protocol_version", JStr (rq_protocol_version r));
  ("idempotency_key", JStr (rq_idempotency_key r));
  ("case_id", JStr (rq_case_id r));
  ("merchant_id", JStr (rq_merchant_id r));
  ("customer_id", JStr (rq_customer_id r));
  ("recovery_action_id", JStr (rq_recovery_action_id r));
  ("failed_invoice_id", JStr (rq_failed_invoice_id r));
  ("exact_amount_paise", JInt (rq_exact_amount_paise r));
  ("currency", JStr (rq_currency r));
  ("payment_surface_type", JStr (rq_payment_surface_type r));
  ("payment_surface_reference", JStr (rq_payment_surface_reference r));
  ("expires_at", JStr (iso (rq_expires_at r)));
  ("context", context_dump (rq_context r))].

(** src/services/customer-agent/app/store.py:257-264 [_canonical_request] *)
Definition canonical_request (r : RecoveryRequestData) : string := dumps float_repr (request_dump r).

(** Requests with the same canonical text agree in every field, instants as text. *)
Definition same_request (r q : RecoveryRequestData) : Prop := request_dump r = request_dump q.

Lemma canonical_request_inj r q : canonical_request r = canonical_request q <-> same_request r q.
Proof.
  unfold canonical_request, same_request. split; [|by intros ->].
  intros Hd. apply dumps_inj in Hd.
  - destruct r as [? ? ? ? ? ? ? ? ? ? ? ? [? ? ? ? ? ? ? ? due ?]],
      q as [? ? ? ? ? ? ? ? ? ? ? ? [? ? ? ? ? ? ? ? due' ?]].
    destruct due, due'; vm_compute in Hd |- *; injection Hd; intros; congruence.
  - unfold request_dump, context_dump, opt_instant. by destruct (dc_invoice_due_at (rq_context r)).
  - unfold request_dump, context_dump, opt_instant. by destruct (dc_invoice_due_at (rq_context q)).
Qed.

(** src/services/customer-agent/app/models.py:176-191 [TaskRecord.public_dict] *)
Definition public_dict (utc_iso : datetime -> string) (history_length : option nat) (t : TaskRecord)
  : json :=
  let history := match history_length with
    | Some n => drop (length (tk_history t) - n) (tk_history t)
    | None => tk_history t
    end in
  JObj [("id", JStr (tk_id t)); ("contextId", JStr (tk_context_id t)); ("status", tk_status t);
        ("artifacts", JArr (tk_artifacts t)); ("history", JArr history);
        ("metadata", JObj [("caseId", JStr (rq_case_id (tk_request t)));
                           ("protocolVersion", JStr (rq_protocol_version (tk_request t)));
                           ("updatedAt", JStr (utc_iso (tk_updated_at t)))])].

(** *** Reading *)

Definition read_opt (key : string) (fields : list (string * json)) : result (option datetime) :=
  match assoc_get key fields with
  | None | Some JNull => Ok None
  | Some v => match pyd_datetime v with Some d => Ok (Some d) | None => validation_error end
  end.
Definition read_default (key fallback : string) (fields : list (string * json)) : result string :=
  match assoc_get key fields with
  | None => Ok fallback
  | Some (JStr s) => Ok s
  | Some _ => validation_error
  end.

(** src/services/customer-agent/app/models.py:49-61 [RecoveryDisplayContext] *)
Definition parse_context (v : json) : result RecoveryDisplayContext :=
  match v with
  | JObj fields =>
      _ ← only_keys ["merchant_display_name"; "plan_name"; "failure_explanation"; "invoice_state";
            "payment_state"; "subscription_state"; "provider_subscription_state";
            "preferred_language"; "invoice_due_at"; "recovery_deadline"] fields;
      merchant_display_name ← read_str "merchant_display_name" fields;
      plan_name ← read_str "plan_name" fields;
      failure_explanation ← read_str "failure_explanation" fields;
      invoice_state ← read_str "invoice_state" fields;
      payment_state ← read_str "payment_state" fields;
      subscription_state ← read_str "subscription_state" fields;
      provider_subscription_state ← read_str "provider_subscription_state" fields;
      preferred_language ← read_str "preferred_language" fields;
      invoice_due_at ← read_opt "invoice_due_at" fields;
      recovery_deadline ← read_with pyd_datetime "recovery_deadline" fields;
      let c := {| dc_merchant_display_name := merchant_display_name; dc_plan_name := plan_name;
        dc_failure_explanation := failure_explanation; dc_invoice_state := invoice_state;
        dc_payment_state := payment_state; dc_subscription_state := subscription_state;
        dc_provider_subscription_state := provider_subscription_state;
        dc_preferred_language := preferred_language; dc_invoice_due_at := invoice_due_at;
        dc_recovery_deadline := recovery_deadline |} in
      if display_context_ok c then Ok c else validation_error
  | _ => validation_error
  end.

(** src/services/customer-agent/app/models.py:64-83 [RecoveryRequestData] *)
Definition parse_request (fields : list (string * json)) : result RecoveryRequestData :=
  _ ← only_keys ["protocol_version"; "idempotency_key"; "case_id"; "merchant_id"; "customer_id";
        "recovery_action_id"; "failed_invoice_id"; "exact_amount_paise"; "currency";
        "payment_surface_type"; "payment_surface_reference"; "expires_at"; "context"] fields;
  protocol_version ← read_default "protocol_version" "recovery.request.v2" fields;
  idempotency_key ← read_str "idempotency_key" fields;
  case_id ← read_str "case_id" fields;
  merchant_id ← read_str "merchant_id" fields;
  customer_id ← read_str "customer_id" fields;
  recovery_action_id ← read_str "recovery_action_id" fields;
  failed_invoice_id ← read_str "failed_invoice_id" fields;
  exact_amount_paise ← read_with pyd_int "exact_amount_paise" fields;
  currency ← read_str "currency" fields;
  payment_surface_type ← read_str "payment_surface_type" fields;
  payment_surface_reference ← read_str "payment_surface_reference" fields;
  expires_at ← read_with pyd_datetime "expires_at" fields;
  context ← parse_context (default JNull (assoc_get "context" fields));
  validate_request {| rq_protocol_version := protocol_version; rq_idempotency_key := idempotency_key;
    rq_case_id := case_id; rq_merchant_id := merchant_id; rq_customer_id := customer_id;
    rq_recovery_action_id := recovery_action_id; rq_failed_invoice_id := failed_invoice_id;
    rq_exact_amount_paise := exact_amount_paise; rq_currency := currency;
    rq_payment_surface_type := payment_surface_type;
    rq_payment_surface_reference := payment_surface_reference; rq_expires_at := expires_at;
    rq_context := context |}.

(** src/services/customer-agent/app/models.py:86-106 [RecoveryReceiptData] *)
Definition parse_receipt (v : json) : result RecoveryReceiptData :=
  match v with
  | JObj fields =>
      _ ← only_keys ["protocol_version"; "receipt_id"; "signer_key_id"; "task_id"; "mandate_id";
            "merchant_id"; "case_id"; "recovery_action_id"; "failed_invoice_id";
            "exact_amount_paise"; "currency"; "provider_reference"; "payment_state";
            "observed_at"] fields;
      protocol_version ← read_default "protocol_version" "recovery.receipt.v2" fields;
      receipt_id ← read_str "receipt_id" fields;
      signer_key_id ← read_str "signer_key_id" fields;
      task_id ← read_str "task_id" fields;
      mandate_id ← read_str "mandate_id" fields;
      merchant_id ← read_str "merchant_id" fields;
      case_id ← read_str "case_id" fields;
      recovery_action_id ← read_str "recovery_action_id" fields;
      failed_invoice_id ← read_str "failed_invoice_id" fields;
      exact_amount_paise ← read_with pyd_int "exact_amount_paise" fields;
      currency ← read_str "currency" fields;
      provider_reference ← read_str "provider_reference" fields;
      payment_state ← read_default "payment_state" "CAPTURED" fields;
      observed_at ← read_with pyd_datetime "observed_at" fields;
      validate_receipt {| rd_protocol_version := protocol_version; rd_receipt_id := receipt_id;
        rd_signer_key_id := signer_key_id; rd_task_id := task_id; rd_mandate_id := mandate_id;
        rd_merchant_id := merchant_id; rd_case_id := case_id;
        rd_recovery_action_id := recovery_action_id; rd_failed_invoice_id := failed_invoice_id;
        rd_exact_amount_paise := exact_amount_paise; rd_currency := currency;
        rd_provider_reference := provider_reference; rd_payment_state := payment_state;
        rd_observed_at := observed_at |}
  | _ => validation_error
  end.

(** src/services/customer-agent/app/models.py:109-112 [SignedRecoveryReceipt] *)
Definition parse_signed_receipt (fields : list (string * json)) : result SignedRecoveryReceipt :=
  _ ← only_keys ["algorithm"; "data"; "signature"] fields;
  algorithm ← read_default "algorithm" "Ed25519" fields;
  _ ← (if bool_decide (algorithm = "Ed25519") then Ok tt else validation_error);
  data ← parse_receipt (default JNull (assoc_get "data" fields));
  signature ← read_str "signature" fields;
  _ ← (if nonempty signature then Ok tt else validation_error);
  mret {| sr_algorithm := algorithm; sr_data := data; sr_signature := signature |}.
End agent_wire.
