(* ===== verification/AgentStore.v ===== *)
(** * Task stores of the customer agent

    The optimistic task store: its promise to the service as a class, the process-local
    store and the SQL store.  A task given to or taken from a store is a copy, so tasks
    are values here. *)
From S2P Require Import Prelude Json JsonText A2AModels AgentModels.

Section stores.
Context (iso : datetime -> string) (float_repr : Q -> string).

(** src/services/customer-agent/app/store.py:250-254 [_require_matching_request] *)
Definition require_matching_request (existing incoming : TaskRecord) : result unit :=
  raise_if (negb (bool_decide (canonical_request iso float_repr (tk_request existing)
                               = canonical_request iso float_repr (tk_request incoming))))
    (TaskIdempotencyConflictError "idempotency key was reused with a different recovery request").

(** ** The promise *)

(** src/services/customer-agent/app/store.py:42-49 [TaskStore] *)
Class TaskStore (S : Type) : Type := {
  store_create : string -> TaskRecord -> stx S TaskRecord;
  store_get : string -> stx S (option TaskRecord);
  store_save : TaskRecord -> Z -> stx S TaskRecord;
}.

Definition with_revision (v : Z) (t : TaskRecord) : TaskRecord := t <| tk_revision := v |>.

(** [ts_tasks] is what can be read, [ts_keys] the task of each idempotency key. *)
Class TaskStoreSpec (S : Type) `{TaskStore S} : Type := {
  ts_ok : S -> Prop;
  ts_tasks : S -> gmap string TaskRecord;
  ts_keys : S -> gmap string string;
  ts_named : forall s id t, ts_ok s -> ts_tasks s !! id = Some t -> tk_id t = id;
  ts_revised : forall s id t, ts_ok s -> ts_tasks s !! id = Some t -> 1 <= tk_revision t;
  ts_keyed : forall s k id, ts_ok s -> ts_keys s !! k = Some id -> is_Some (ts_tasks s !! id);
  get_spec : forall s id, ts_ok s -> store_get id s = (Ok (ts_tasks s !! id), s);
  save_hit : forall s t e cur, ts_ok s -> ts_tasks s !! tk_id t = Some cur -> tk_revision cur = e ->
    1 <= e -> exists s', store_save t e s = (Ok (with_revision (e + 1) t), s') /\ ts_ok s'
      /\ ts_tasks s' = <[tk_id t := with_revision (e + 1) t]> (ts_tasks s) /\ ts_keys s' = ts_keys s;
  save_miss : forall s t e, ts_ok s ->
    match ts_tasks s !! tk_id t with Some cur => tk_revision cur <> e | None => True end ->
    store_save t e s = (Err (TaskVersionConflictError (tk_id t)), s);
  create_new : forall s k t, ts_ok s -> ts_keys s !! k = None -> ts_tasks s !! tk_id t = None ->
    tk_id t <> "" -> exists s', store_create k t s = (Ok (with_revision 1 t), s') /\ ts_ok s'
      /\ ts_tasks s' = <[tk_id t := with_revision 1 t]> (ts_tasks s)
      /\ ts_keys s' = <[k := tk_id t]> (ts_keys s);
  create_again : forall s k t id ex, ts_ok s -> ts_keys s !! k = Some id ->
    ts_tasks s !! id = Some ex ->
    store_create k t s = ((_ ← require_matching_request ex t; mret ex), s);
}.

(** ** The process-local store *)

(** src/services/customer-agent/app/store.py:56-64 [InMemoryTaskStore] *)
Record InMemoryTaskStore : Type := {
  tm_tasks : gmap string TaskRecord;
  tm_idempotency : gmap string string;
}.
#[export] Instance eta_tm : Eta InMemoryTaskStore := fun s =>
  {| tm_tasks := tm_tasks s; tm_idempotency := tm_idempotency s |}.

(** src/services/customer-agent/app/store.py:66-76 [InMemoryTaskStore.create_once] *)
Definition memory_create (key : string) (task : TaskRecord) : stx InMemoryTaskStore TaskRecord :=
  fun s =>
  let existing_id := default "" (tm_idempotency s !! key) in
  if negb (bool_decide (existing_id = "")) then
    match tm_tasks s !! existing_id with
    | None => (Err (KeyError existing_id), s)
    | Some existing => ((_ ← require_matching_request existing task; mret existing), s)
    end
  else
    let stored := with_revision 1 task in
    (Ok stored, s <| tm_tasks ::= <[tk_id task := stored]> |>
                  <| tm_idempotency ::= <[key := tk_id task]> |>).

(** src/services/customer-agent/app/store.py:78-81 [InMemoryTaskStore.get] *)
Definition memory_get (task_id : string) : stx InMemoryTaskStore (option TaskRecord) :=
  fun s => (Ok (tm_tasks s !! task_id), s).

(** src/services/customer-agent/app/store.py:83-93 [InMemoryTaskStore.save] *)
Definition memory_save (task : TaskRecord) (expected_revision : Z) : stx InMemoryTaskStore TaskRecord :=
  fun s =>
  match tm_tasks s !! tk_id task with
  | Some current =>
      if bool_decide (tk_revision current = expected_revision) then
        let stored := with_revision (expected_revision + 1) task in
        (Ok stored, s <| tm_tasks ::= <[tk_id task := stored]> |>)
      else (Err (TaskVersionConflictError (tk_id task)), s)
  | None => (Err (TaskVersionConflictError (tk_id task)), s)
  end.

#[export] Instance memory_task_store : TaskStore InMemoryTaskStore :=
  {| store_create := memory_create; store_get := memory_get; store_save := memory_save |}.

Record memory_ok (s : InMemoryTaskStore) : Prop := {
  mo_named : forall id t, tm_tasks s !! id = Some t -> tk_id t = id;
  mo_revised : forall id t, tm_tasks s !! id = Some t -> 1 <= tk_revision t;
  mo_keyed : forall k id, tm_idempotency s !! k = Some id -> id <> "" /\ is_Some (tm_tasks s !! id);
}.

#[export] Instance memory_task_spec : TaskStoreSpec InMemoryTaskStore.
Proof.
  refine {| ts_ok := memory_ok; ts_tasks := tm_tasks; ts_keys := tm_idempotency |}; unfold set_field.
  - intros s id t [Hn _ _]. apply Hn.
  - intros s id t [_ Hv _]. apply Hv.
  - intros s k id [_ _ Hk] Hid. by apply Hk in Hid as [_ ?].
  - done.
  - intros s t e cur [Hn Hv Hk] Hc <- He. cbn. unfold memory_save. rewrite Hc, bool_decide_eq_true_2 by done.
    unfold set_field. eexists. split; [done|]. split; [|done]. split; cbn.
    + intros id t'. rewrite lookup_insert_Some. intros [[<- <-]|[_ Ht]]; [done|by apply Hn].
    + intros id t'. rewrite lookup_insert_Some. intros [[<- <-]|[_ Ht]]; [cbn; lia|by eapply Hv].
    + intros k id Hid. destruct (Hk _ _ Hid) as [Hne Ht]. split; [done|].
      apply lookup_insert_is_Some'. by right.
  - intros s t e _ Hm. cbn. unfold memory_save. destruct (tm_tasks s !! tk_id t); [|done].
    by rewrite bool_decide_eq_false_2.
  - intros s k t [Hn Hv Hk] Hnk Hnt Hne. cbn. unfold memory_create. rewrite Hnk. cbn.
    unfold set_field. eexists. split; [done|]. split; [|done]. split; cbn.
    + intros id t'. rewrite lookup_insert_Some. intros [[<- <-]|[_ Ht]]; [done|by apply Hn].
    + intros id t'. rewrite lookup_insert_Some. intros [[<- <-]|[_ Ht]]; [done|by eapply Hv].
    + intros k' id. rewrite lookup_insert_Some. intros [[<- <-]|[_ Hid]].
      * split; [done|]. rewrite lookup_insert_eq. eauto.
      * destruct (Hk _ _ Hid) as [He Ht]. split; [done|]. apply lookup_insert_is_Some'. by right.
  - intros s k t id ex [Hn Hv Hk] Hid Hex. cbn. unfold memory_create. rewrite Hid. cbn.
    destruct (Hk _ _ Hid) as [Hne _]. rewrite bool_decide_eq_false_2 by done. cbn. by rewrite Hex.
Defined.

(** ** The SQL store *)

(** The JSON column, written by [_task_payload] and validated by [_task_from_row]. *)
Context {P : Type} (task_payload : TaskRecord -> P) (task_from_payload : P -> Z -> result TaskRecord).

(** src/services/customer-agent/app/store.py:106-122 [CustomerAgentTaskRow] *)
Record CustomerAgentTaskRow : Type := {
  row_task_id : string;
  row_idempotency_key : string;
  row_state : string;
  row_payload : P;
  row_version : Z;
  row_created_at : datetime;
  row_updated_at : datetime;
}.

(** src/services/customer-agent/app/store.py:245-247 [_task_from_row] *)
Definition task_from_row (r : CustomerAgentTaskRow) : result TaskRecord :=
  task_from_payload (row_payload r) (row_version r).

(** src/services/customer-agent/app/store.py:150-159 [SqlAlchemyTaskStore.create_once] *)
Definition task_row (key : string) (task : TaskRecord) : CustomerAgentTaskRow := {|
  row_task_id := tk_id task; row_idempotency_key := key; row_state := tk_state task;
  row_payload := task_payload task; row_version := 1; row_created_at := tk_created_at task;
  row_updated_at := tk_updated_at task |}.

(** src/services/customer-agent/app/store.py:150-179 [SqlAlchemyTaskStore.create_once] *)
Definition sql_create (key : string) (task : TaskRecord) : stx (list CustomerAgentTaskRow) TaskRecord :=
  fun rows =>
  let row := task_row key task in
  if existsb (fun r => bool_decide (row_task_id r = tk_id task)
                       || bool_decide (row_idempotency_key r = key)) rows then
    match List.find (fun r => bool_decide (row_idempotency_key r = key)) rows with
    | None => (Err (IntegrityError "customer_agent_tasks_pkey"), rows)
    | Some existing =>
        ((existing_task ← task_from_row existing;
          _ ← require_matching_request existing_task task; mret existing_task), rows)
    end
  else (task_from_row row, rows ++ [row]).

(** src/services/customer-agent/app/store.py:181-184 [SqlAlchemyTaskStore.get] *)
Definition sql_get (task_id : string) : stx (list CustomerAgentTaskRow) (option TaskRecord) :=
  fun rows =>
  match List.find (fun r => bool_decide (row_task_id r = task_id)) rows with
  | None => (Ok None, rows)
  | Some r => (Some <$> task_from_row r, rows)
  end.

(** src/services/customer-agent/app/store.py:187-192 [SqlAlchemyTaskStore.save] *)
Definition save_matches (task : TaskRecord) (expected : Z) (r : CustomerAgentTaskRow) : bool :=
  bool_decide (row_task_id r = tk_id task) && bool_decide (row_version r = expected).
Definition saved_row (task : TaskRecord) (expected : Z) (r : CustomerAgentTaskRow) : CustomerAgentTaskRow := {|
  row_task_id := row_task_id r; row_idempotency_key := row_idempotency_key r;
  row_state := tk_state task; row_payload := task_payload task; row_version := expected + 1;
  row_created_at := row_created_at r; row_updated_at := tk_updated_at task |}.

(** src/services/customer-agent/app/store.py:186-204 [SqlAlchemyTaskStore.save] *)
Definition sql_save (task : TaskRecord) (expected : Z) : stx (list CustomerAgentTaskRow) TaskRecord :=
  fun rows =>
  let hit := List.filter (save_matches task expected) rows in
  if negb (length hit =? 1)%nat then (Err (TaskVersionConflictError (tk_id task)), rows)
  else (Ok (with_revision (expected + 1) task),
        map (fun r => if save_matches task expected r then saved_row task expected r else r) rows).

(** What the JSON column gives back. *)
Class TaskPayload : Prop := {
  payload_round_trip : forall t v, 1 <= v ->
    task_from_payload (task_payload t) v = Ok (with_revision v t);
}.

#[export] Instance sql_task_store : TaskStore (list CustomerAgentTaskRow) :=
  {| store_create := sql_create; store_get := sql_get; store_save := sql_save |}.

(** The unique constraints and the check of the table, and rows this code wrote. *)
Record sql_tasks_ok (rows : list CustomerAgentTaskRow) : Prop := {
  so_ids : NoDup (row_task_id <$> rows);
  so_keys : NoDup (row_idempotency_key <$> rows);
  so_rows : forall r, r ∈ rows -> 1 <= row_version r
    /\ exists t, row_payload r = task_payload t /\ tk_id t = row_task_id r;
}.
Definition sql_task_map (rows : list CustomerAgentTaskRow) : gmap string TaskRecord :=
  list_to_map (omap (fun r => match task_from_row r with
    | Ok t => Some (row_task_id r, t) | Err _ => None end) rows).
Definition sql_key_map (rows : list CustomerAgentTaskRow) : gmap string string :=
  list_to_map ((fun r => (row_idempotency_key r, row_task_id r)) <$> rows).

Context `{!TaskPayload}.

(** Reading a row this code wrote. *)
Lemma row_reads rows r : sql_tasks_ok rows -> r ∈ rows ->
  exists t, task_from_row r = Ok t /\ tk_id t = row_task_id r /\ tk_revision t = row_version r.
Proof.
  intros [_ _ Hr] Hin. destruct (Hr r Hin) as (Hv & t & Hp & Ht).
  unfold task_from_row. rewrite Hp, payload_round_trip by done. eauto.
Qed.

Lemma sql_task_map_Some rows id t : sql_tasks_ok rows ->
  sql_task_map rows !! id = Some t <-> exists r, r ∈ rows /\ row_task_id r = id /\ task_from_row r = Ok t.
Proof.
  intros Hok. unfold sql_task_map.
  set (f := fun r => match task_from_row r with Ok t => Some (row_task_id r, t) | Err _ => None end).
  assert (forall l, (forall r, r ∈ l -> r ∈ rows) -> (omap f l).*1 = row_task_id <$> l) as Hfst.
  { intros l. induction l as [|r l IH]; intros Hl; cbn; [done|].
    destruct (row_reads rows r Hok) as (t' & Ht & _); [apply Hl; left|].
    unfold f at 1. rewrite Ht. cbn. f_equal. apply IH. intros r' Hr'. apply Hl. by right. }
  rewrite <- elem_of_list_to_map by (rewrite Hfst by done; apply (so_ids _ Hok)).
  rewrite list_elem_of_omap. unfold f. split.
  - intros (r & Hr & Hf). destruct (task_from_row r) eqn:E; [|done]. injection Hf as <- <-. eauto.
  - intros (r & Hr & <- & Ht). exists r. by rewrite Ht.
Qed.
Lemma sql_key_map_Some rows k id : sql_tasks_ok rows ->
  sql_key_map rows !! k = Some id <->
  exists r, r ∈ rows /\ row_idempotency_key r = k /\ row_task_id r = id.
Proof.
  intros Hok. unfold sql_key_map. rewrite <- elem_of_list_to_map.
  - rewrite list_elem_of_fmap. split; [intros (r & [= -> ->] & Hr); eauto|].
    intros (r & Hr & <- & <-). eauto.
  - rewrite <- list_fmap_compose. apply (so_keys _ Hok).
Qed.

Lemma find_unique {A} (p : A -> bool) l x :
  x ∈ l -> p x = true -> (forall y, y ∈ l -> p y = true -> y = x) -> List.find p l = Some x.
Proof.
  intros Hx Hp Hu. destruct (List.find p l) as [y|] eqn:E.
  - apply List.find_some in E as [Hy%list_elem_of_In Hpy]. by rewrite (Hu y).
  - eapply List.find_none in E; [|by apply list_elem_of_In]. congruence.
Qed.
Lemma find_row_id rows r : sql_tasks_ok rows -> r ∈ rows ->
  List.find (fun r' => bool_decide (row_task_id r' = row_task_id r)) rows = Some r.
Proof.
  intros Hok Hr. apply find_unique; [done|by apply bool_decide_eq_true_2|].
  intros y Hy E%bool_decide_eq_true. eapply nodup_fmap_inj; [apply (so_ids _ Hok)|done..].
Qed.
Lemma find_row_key rows r : sql_tasks_ok rows -> r ∈ rows ->
  List.find (fun r' => bool_decide (row_idempotency_key r' = row_idempotency_key r)) rows = Some r.
Proof.
  intros Hok Hr. apply find_unique; [done|by apply bool_decide_eq_true_2|].
  intros y Hy E%bool_decide_eq_true. eapply nodup_fmap_inj; [apply (so_keys _ Hok)|done..].
Qed.

Lemma sql_get_spec rows id : sql_tasks_ok rows ->
  sql_get id rows = (Ok (sql_task_map rows !! id), rows).
Proof.
  intros Hok. unfold sql_get. destruct (List.find _ rows) as [r|] eqn:E.
  - apply List.find_some in E as [Hr%list_elem_of_In Hid%bool_decide_eq_true].
    destruct (row_reads _ _ Hok Hr) as (t & Ht & _). rewrite Ht.
    by rewrite (proj2 (sql_task_map_Some rows id t Hok)) by eauto.
  - destruct (sql_task_map rows !! id) as [t|] eqn:Et; [|done].
    apply sql_task_map_Some in Et as (r & Hr & Hid & _); [|done].
    eapply List.find_none in E; [|by apply list_elem_of_In]. by rewrite bool_decide_eq_true_2 in E.
Qed.

Lemma filter_none {A} (p : A -> bool) l : (forall y, y ∈ l -> p y = false) -> List.filter p l = [].
Proof.
  induction l as [|z l IH]; intros Hl; cbn; [done|]. rewrite Hl by left. apply IH.
  intros y Hy. apply Hl. by right.
Qed.
Lemma filter_unique {A} (p : A -> bool) l x :
  NoDup l -> x ∈ l -> p x = true -> (forall y, y ∈ l -> p y = true -> y = x) ->
  List.filter p l = [x].
Proof.
  induction 1 as [|z l Hz Hl IH]; [by intros ?%elem_of_nil|]. cbn. intros [->|Hx]%elem_of_cons Hp Hu.
  - rewrite Hp. f_equal. apply filter_none. intros y Hy. apply not_true_iff_false. intros Hpy.
    rewrite (Hu y) in Hy; [done|by right|done].
  - assert (z <> x) as Hne by (by intros ->). destruct (p z) eqn:E.
    + destruct Hne. apply Hu; [left|done].
    + apply IH; auto. intros y Hy. apply Hu. by right.
Qed.

(** The row of a task: what an update of the expected version hits. *)
Lemma sql_row_of rows id cur : sql_tasks_ok rows -> sql_task_map rows !! id = Some cur ->
  exists r, r ∈ rows /\ row_task_id r = id /\ task_from_row r = Ok cur
    /\ row_version r = tk_revision cur.
Proof.
  intros Hok (r & Hr & Hid & Ht)%sql_task_map_Some; [|done]. exists r. split_and!; try done.
  destruct (row_reads _ _ Hok Hr) as (t & Ht' & _ & Hv). congruence.
Qed.

Lemma save_matches_true t e r :
  save_matches t e r = true <-> row_task_id r = tk_id t /\ row_version r = e.
Proof. unfold save_matches. by rewrite andb_true_iff, !bool_decide_eq_true. Qed.

Lemma saved_rows_map rows t e r : sql_tasks_ok rows -> r ∈ rows -> save_matches t e r = true -> 1 <= e ->
  let rows' := map (fun r => if save_matches t e r then saved_row t e r else r) rows in
  sql_tasks_ok rows' /\ sql_key_map rows' = sql_key_map rows
  /\ sql_task_map rows' = <[tk_id t := with_revision (e + 1) t]> (sql_task_map rows).
Proof.
  intros Hok Hr [Hid Hv]%save_matches_true He rows'.
  assert (forall f : CustomerAgentTaskRow -> string,
    (forall r, f (saved_row t e r) = f r) -> f <$> rows' = f <$> rows) as Hsame.
  { intros f Hf. unfold rows'. change (map ?g rows) with (g <$> rows). rewrite <- list_fmap_compose.
    apply list_fmap_ext. intros i x _. unfold compose. case_match; [apply Hf|done]. }
  assert (sql_tasks_ok rows') as Hok'.
  { split; [rewrite Hsame by done; apply Hok|rewrite Hsame by done; apply Hok|].
    intros x. unfold rows'. rewrite list_elem_of_fmap. intros (y & -> & Hy).
    destruct (save_matches t e y) eqn:Ey; [|by apply Hok].
    apply save_matches_true in Ey as [Ey _]. cbn. split; [lia|]. eauto. }
  split; [done|]. split.
  - unfold sql_key_map. f_equal. unfold rows'. change (map ?g rows) with (g <$> rows).
    rewrite <- list_fmap_compose. apply list_fmap_ext. intros i x _. unfold compose. by case_match.
  - apply map_eq. intros id. apply option_eq. intros t'.
    rewrite sql_task_map_Some, lookup_insert_Some by done. split.
    + unfold rows'. intros (x & (y & -> & Hy)%list_elem_of_fmap & Hx & Ht).
      destruct (save_matches t e y) eqn:Ey.
      * left. apply save_matches_true in Ey as [Ey _]. cbn in Hx. split; [congruence|].
        unfold task_from_row in Ht. cbn in Ht. rewrite payload_round_trip in Ht by lia. congruence.
      * right. split; [|apply sql_task_map_Some; eauto]. intros Htid. subst id.
        rewrite (nodup_fmap_inj row_task_id rows y r) in Ey; [|apply Hok|done..|congruence].
        by rewrite (proj2 (save_matches_true t e r)) in Ey.
    + intros [[<- <-]|[Hne (x & Hx & Hxi & Hxt)%sql_task_map_Some]]; [| |done].
      * exists (saved_row t e r). cbn. split_and!; [|done|].
        -- unfold rows'. apply list_elem_of_fmap. exists r.
           by rewrite (proj2 (save_matches_true t e r)).
        -- unfold task_from_row. cbn. by rewrite payload_round_trip by lia.
      * exists x. split_and!; [|done..]. unfold rows'. apply list_elem_of_fmap. exists x.
        destruct (save_matches t e x) eqn:Ex; [|done].
        apply save_matches_true in Ex as [Ex _]. congruence.
Qed.

Lemma created_rows_map rows k t : sql_tasks_ok rows ->
  sql_key_map rows !! k = None -> sql_task_map rows !! tk_id t = None ->
  let rows' := rows ++ [task_row k t] in
  sql_tasks_ok rows' /\ sql_key_map rows' = <[k := tk_id t]> (sql_key_map rows)
  /\ sql_task_map rows' = <[tk_id t := with_revision 1 t]> (sql_task_map rows).
Proof.
  intros Hok Hk Ht rows'.
  assert (tk_id t ∉ row_task_id <$> rows) as Hfresh.
  { intros (r & Hid & Hr)%list_elem_of_fmap. destruct (row_reads _ _ Hok Hr) as (t' & Ht' & _).
    assert (sql_task_map rows !! tk_id t = Some t') by (apply sql_task_map_Some; eauto). congruence. }
  assert (k ∉ row_idempotency_key <$> rows) as Hfresh'.
  { intros (r & Hid & Hr)%list_elem_of_fmap.
    assert (sql_key_map rows !! k = Some (row_task_id r)) by (apply sql_key_map_Some; eauto). congruence. }
  assert (sql_tasks_ok rows') as Hok'.
  { split; unfold rows'; rewrite ?fmap_app; cbn.
    - apply NoDup_app. split_and!; [apply Hok|set_solver|apply NoDup_singleton].
    - apply NoDup_app. split_and!; [apply Hok|set_solver|apply NoDup_singleton].
    - intros r [Hr| ->%list_elem_of_singleton]%elem_of_app; [by apply Hok|]. cbn. split; [lia|eauto]. }
  split; [done|]. split; apply map_eq; intros id; apply option_eq; intros x;
    rewrite lookup_insert_Some.
  - rewrite !sql_key_map_Some by done. unfold rows'. setoid_rewrite elem_of_app.
    setoid_rewrite list_elem_of_singleton. split.
    + intros (r & [Hr| ->] & <- & <-); [right|by left]. split; [|eauto].
      intros ->. apply Hfresh', list_elem_of_fmap. eauto.
    + intros [[<- <-]|[_ (r & Hr & <- & <-)]]; [exists (task_row k t); auto|]. eauto.
  - rewrite !sql_task_map_Some by done. unfold rows'. setoid_rewrite elem_of_app.
    setoid_rewrite list_elem_of_singleton.
    assert (task_from_row (task_row k t) = Ok (with_revision 1 t)) as Hrow.
    { unfold task_from_row. cbn. by rewrite payload_round_trip. }
    split.
    + intros (r & [Hr| ->] & <- & Hx); [right|left; split; [done|congruence]]. split; [|eauto].
      intros E. apply Hfresh, list_elem_of_fmap. rewrite E. eauto.
    + intros [[<- <-]|[_ (r & Hr & <- & Hx)]]; [exists (task_row k t); auto|]. eauto.
Qed.

#[export] Instance sql_task_spec : TaskStoreSpec (list CustomerAgentTaskRow).
Proof.
  refine {| ts_ok := sql_tasks_ok; ts_tasks := sql_task_map; ts_keys := sql_key_map |}.
  - intros s id t Hok (r & Hr & <- & Ht)%sql_task_map_Some; [|done].
    destruct (row_reads _ _ Hok Hr) as (t' & Ht' & Hid & _). congruence.
  - intros s id t Hok (r & Hr & _ & _ & Hv)%sql_row_of; [|done]. rewrite <- Hv. by apply Hok.
  - intros s k id Hok (r & Hr & _ & <-)%sql_key_map_Some; [|done].
    destruct (row_reads _ _ Hok Hr) as (t & Ht & _). exists t. apply sql_task_map_Some; eauto.
  - intros s id Hok. by apply sql_get_spec.
  - intros s t e cur Hok (r & Hr & Hid & _ & Hv)%sql_row_of <- He; [|done].
    assert (save_matches t (tk_revision cur) r = true) as Hm by (by apply save_matches_true).
    destruct (saved_rows_map s t _ r Hok Hr Hm He) as (Hok' & Hk' & Ht').
    cbn [store_save sql_task_store]. unfold sql_save. rewrite (filter_unique _ s r); [| |done|done|].
    + eexists. split; [reflexivity|]. auto.
    + eapply NoDup_fmap_1, (so_ids _ Hok).
    + intros y Hy [Hyi _]%save_matches_true.
      eapply (nodup_fmap_inj row_task_id); [apply Hok|done..|congruence].
  - intros s t e Hok Hmiss. cbn [store_save sql_task_store]. unfold sql_save.
    rewrite filter_none; [done|]. intros y Hy. apply not_true_iff_false.
    intros [Hyi Hyv]%save_matches_true. destruct (row_reads _ _ Hok Hy) as (t' & Ht' & _ & Hv).
    rewrite (proj2 (sql_task_map_Some s (tk_id t) t' Hok)) in Hmiss by eauto. congruence.
  - intros s k t Hok Hk Ht _. destruct (created_rows_map s k t Hok Hk Ht) as (Hok' & Hk' & Ht').
    cbn [store_create sql_task_store]. unfold sql_create.
    assert (existsb (fun r => bool_decide (row_task_id r = tk_id t)
      || bool_decide (row_idempotency_key r = k)) s = false) as ->.
    { apply not_true_iff_false. intros (r & Hr%list_elem_of_In & He)%existsb_exists.
      destruct (row_reads _ _ Hok Hr) as (t' & Hrt & _).
      apply orb_true_iff in He as [He|He]; apply bool_decide_eq_true in He; subst.
      - assert (sql_task_map s !! tk_id t = Some t') by (apply sql_task_map_Some; eauto). congruence.
      - assert (sql_key_map s !! row_idempotency_key r = Some (row_task_id r))
          by (apply sql_key_map_Some; eauto). congruence. }
    unfold task_from_row. cbn. rewrite payload_round_trip by lia. eauto.
  - intros s k t id ex Hok (r & Hr & <- & <-)%sql_key_map_Some Hex; [|done].
    cbn [store_create sql_task_store]. unfold sql_create.
    assert (existsb (fun r' => bool_decide (row_task_id r' = tk_id t)
      || bool_decide (row_idempotency_key r' = row_idempotency_key r)) s = true) as ->.
    { apply existsb_exists. exists r. split; [by apply list_elem_of_In|].
      by rewrite (bool_decide_eq_true_2 (row_idempotency_key r = _)), orb_true_r. }
    rewrite find_row_key by done. destruct (row_reads _ _ Hok Hr) as (t' & Ht' & _).
    assert (sql_task_map s !! row_task_id r = Some t') by (apply sql_task_map_Some; eauto).
    rewrite Ht'. by assert (t' = ex) as -> by congruence.
Defined.
End stores.
Arguments row_payload {P} _.
Arguments row_task_id {P} _.
Arguments row_version {P} _.
Arguments row_idempotency_key {P} _.
Arguments ts_ok {_ _ _ _ _} _.
Arguments ts_tasks {_ _ _ _ _} _.
Arguments ts_keys {_ _ _ _ _} _.
Arguments ts_named {_ _ _ _ _} _ _ _ _ _.
Arguments ts_revised {_ _ _ _ _} _ _ _ _ _.
Arguments ts_keyed {_ _ _ _ _} _ _ _ _ _.
Arguments get_spec {_ _ _ _ _} _ _ _.
Arguments save_hit {_ _ _ _ _} _ _ _ _ _ _ _ _.
Arguments save_miss {_ _ _ _ _} _ _ _ _ _.
Arguments create_new {_ _ _ _ _} _ _ _ _ _ _ _.
Arguments create_again {_ _ _ _ _} _ _ _ _ _ _ _ _.
