(* ===== verification/CustomerAgent.v ===== *)
(** * The customer agent

    The task state machine that records a customer's explicit authorization: every
    operation of the service, over any task store.  Between two calls of the store other
    requests run; [rivals] says what they did to the store before each call. *)
From S2P Require Import Prelude Json JsonText Base64 A2AModels AgentModels AgentStore Mandates.

(** ** Interleaving *)

Record shared (S : Type) : Type := { sh_store : S; sh_rivals : list (S -> S) }.
Arguments sh_store {S} _.
Arguments sh_rivals {S} _.

(** One call of the store, after whatever other requests did since the last one. *)
Definition call {S A} (m : stx S A) : stx (shared S) A := fun w =>
  let before := match sh_rivals w with f :: _ => f (sh_store w) | [] => sh_store w end in
  let '(r, after) := m before in (r, {| sh_store := after; sh_rivals := tail (sh_rivals w) |}).

Section service.
Context `{Crypto}.
Context (iso : datetime -> string) (float_repr : Q -> string) (isoformat : datetime -> string).
Context (pyd_int : json -> option Z) (pyd_datetime : json -> option datetime).
Context (hmac_sha256 : string -> string -> string).
Context {S : Type} `{TaskStore S}.

Abbreviation M := (stx (shared S)).

(** src/services/customer-agent/app/service.py:51-69 [CustomerAgentService.__init__] *)
Record CustomerAgentService : Type := {
  cs_signer : MandateSigner;
  cs_receipt_keys : gmap string string;
  cs_language_interpreter : CustomerLanguageRequest -> ApprovalSummary -> result LanguageModelInterpretation;
  cs_mandate_ttl : Z;
  cs_approval_token_secret : option string;
}.
Context (service : CustomerAgentService).

(** src/services/customer-agent/app/service.py:482-490 [CustomerAgentService._agent_message] *)
Definition agent_message (uuid : string) (task : TaskRecord) (data : list (string * json)) : json := JObj [
  ("messageId", JStr ("msg_" +++ uuid)); ("role", JStr "ROLE_AGENT"); ("taskId", JStr (tk_id task));
  ("contextId", JStr (tk_context_id task)); ("parts", JArr [JObj [("data", JObj data)]])].

(** The [status] of a task that enters [state]. *)
Definition status_of (state : string) (now : datetime) (message : json) : json := JObj [
  ("state", JStr state); ("timestamp", JStr (isoformat now)); ("message", message)].

(** [task.state], [task.status] and [task.updated_at] assigned together. *)
Definition enter (state : string) (now : datetime) (message : json) (task : TaskRecord) : TaskRecord :=
  task <| tk_state := state |> <| tk_status := status_of state now message |> <| tk_updated_at := now |>.

(** src/services/customer-agent/app/service.py:492-501 [CustomerAgentService._mandate_artifact] *)
Definition mandate_artifact (signed : SignedMandate) : json := JObj [
  ("artifactId", JStr (md_mandate_id (sm_data signed)));
  ("name", JStr "Exact payment-surface authorization");
  ("description", JStr "Single-use customer authorization; this artifact does not execute payment.");
  ("parts", JArr [JObj [("data", signed_mandate_dump iso signed)]])].

(** ** Reading a task *)

(** src/services/customer-agent/app/service.py:132-136 [CustomerAgentService.get_task] *)
Definition get_task (task_id : string) : M TaskRecord :=
  found ← call (store_get task_id);
  match found with Some task => mret task | None => raise (TaskNotFoundError task_id) end.

(** src/services/customer-agent/app/service.py:185-209 [CustomerAgentService._approval_token] *)
Definition approval_token (task : TaskRecord) : option string :=
  match cs_approval_token_secret service with
  | None => None
  | Some secret =>
      let identity := JObj [
        ("context_id", JStr (tk_context_id task));
        ("request", request_dump iso (tk_request task));
        ("task_id", JStr (tk_id task));
        ("version", JStr "recoveryos.customer-approval-capability.v1")] in
      Some (b64_encode (hmac_sha256 secret (dumps float_repr identity)))
  end.

(** src/services/customer-agent/app/service.py:161-166 [CustomerAgentService.approval_path] *)
Definition approval_path (task : TaskRecord) : string :=
  let base_path := "/a2a/" +++ url_quote "" (tk_id task) in
  match approval_token task with None => base_path | Some token => base_path +++ "#token=" +++ token end.

(** src/services/customer-agent/app/service.py:151-158 [CustomerAgentService.public_task] *)
Definition with_approval_path (path : string) (public : json) : json :=
  match public with
  | JObj fields =>
      match json_get "status" public with
      | JObj status =>
          match json_get "message" (JObj status) with
          | JObj message =>
              match json_get "parts" (JObj message) with
              | JArr (JObj first :: rest) =>
                  match json_get "data" (JObj first) with
                  | JObj data =>
                      if bool_decide (is_Some (assoc_get "approval_path" data)) then
                        let data' := JObj (dict_set "approval_path" (JStr path) data) in
                        let parts' := JArr (JObj (dict_set "data" data' first) :: rest) in
                        let message' := JObj (dict_set "parts" parts' message) in
                        let status' := JObj (dict_set "message" message' status) in
                        JObj (dict_set "status" status' fields)
                      else public
                  | _ => public
                  end
              | _ => public
              end
          | _ => public
          end
      | _ => public
      end
  | _ => public
  end.

(** src/services/customer-agent/app/service.py:138-159 [CustomerAgentService.public_task] *)
Definition public_task (task : TaskRecord) (history_length : option nat) : json :=
  with_approval_path (approval_path task) (public_dict isoformat history_length task).

(** src/services/customer-agent/app/service.py:168-183 [CustomerAgentService._authorized_task] *)
Definition authorized_task (task_id : string) (supplied : option string) (now : datetime)
  : M TaskRecord :=
  task ← get_task task_id;
  match approval_token task with
  | None => mret task
  | Some expected =>
      _ ← guard_ (negb (bool_decide (default "" supplied = expected)))
            (TaskAuthorizationError "invalid customer approval capability");
      _ ← guard_ (dt_instant (rq_expires_at (tk_request task)) <=? dt_instant now)
            (TaskAuthorizationError "customer approval capability has expired");
      mret task
  end.

(** ** Creating a task *)

(** src/services/customer-agent/app/service.py:97-129 [CustomerAgentService._create_authorization_task] *)
Definition new_task (message : Message) (request : RecoveryRequestData) (now : datetime)
    (task_uuid message_uuid : string) : TaskRecord :=
  let task_id := "task_" +++ task_uuid in
  let context_id := default "" (or_str (msg_context_id message) (Some ("ctx_" +++ rq_case_id request))) in
  {| tk_id := task_id; tk_context_id := context_id; tk_state := AUTH_REQUIRED;
     tk_status := status_of AUTH_REQUIRED now (JObj [
       ("messageId", JStr ("msg_" +++ message_uuid)); ("role", JStr "ROLE_AGENT");
       ("taskId", JStr task_id); ("contextId", JStr context_id);
       ("parts", JArr [JObj [("data", JObj [
          ("protocol_version", JStr "recovery.authorization-required.v1");
          ("approval_path", JStr ("/a2a/" +++ task_id)); ("case_id", JStr (rq_case_id request))])]])]);
     tk_artifacts := []; tk_history := [message_dump message]; tk_request := request;
     tk_created_at := now; tk_updated_at := now; tk_revision := 1 |}.

(** src/services/customer-agent/app/service.py:94-130 [CustomerAgentService._create_authorization_task] *)
Definition create_authorization_task (message : Message) (request : RecoveryRequestData)
    (now : datetime) (task_uuid message_uuid : string) : M TaskRecord :=
  _ ← guard_ (dt_instant (rq_expires_at request) <=? dt_instant now)
        (TaskConflictError "recovery request has expired");
  call (store_create (rq_idempotency_key request) (new_task message request now task_uuid message_uuid)).

(** ** Saving *)

(** [except TaskVersionConflictError]: any other error passes. *)
Definition on_conflict {A} (m : M A) (handler : M A) : M A := fun w =>
  match m w with
  | (Err (TaskVersionConflictError _), w') => handler w'
  | r => r
  end.

(** src/services/customer-agent/app/service.py:465-469 [CustomerAgentService._save_once] *)
Definition save_once (task : TaskRecord) (expected_revision : Z) : M TaskRecord :=
  on_conflict (call (store_save task expected_revision))
    (raise (TaskConflictError "task changed concurrently; retry request")).

(** ** Cancelling *)

(** src/services/customer-agent/app/service.py:219-229 [CustomerAgentService.cancel_task] *)
Definition canceled (task : TaskRecord) (reason : string) (now : datetime) (uuid : string) : TaskRecord :=
  enter CANCELED now (agent_message uuid task
    [("protocol_version", JStr "recovery.canceled.v1"); ("reason", JStr reason)]) task.

(** src/services/customer-agent/app/service.py:214-235 [CustomerAgentService.cancel_task] *)
Fixpoint cancel_attempts (attempts : nat) (task_id reason : string) (now : nat -> datetime)
    (uuid : nat -> string) : M TaskRecord :=
  match attempts with
  | O => raise (TaskConflictError "task changed concurrently; retry cancellation")
  | Datatypes.S remaining =>
      task ← get_task task_id;
      if mem (tk_state task) [COMPLETED; CANCELED] then mret task
      else
        on_conflict (call (store_save (canceled task reason (now remaining) (uuid remaining)) (tk_revision task)))
          (cancel_attempts remaining task_id reason now uuid)
  end.

(** src/services/customer-agent/app/service.py:211-235 [CustomerAgentService.cancel_task] *)
Definition cancel_task (task_id reason : string) (now : nat -> datetime) (uuid : nat -> string)
  : M TaskRecord := cancel_attempts 3 task_id reason now uuid.

(** ** Reading the approval page *)

(** src/services/customer-agent/app/service.py:287-312 [CustomerAgentService._approval_summary] *)
Definition approval_summary_of (task : TaskRecord) : ApprovalSummary :=
  let request := tk_request task in
  {| as_task_id := tk_id task; as_state := tk_state task; as_merchant_id := rq_merchant_id request;
     as_case_id := rq_case_id request; as_recovery_action_id := rq_recovery_action_id request;
     as_failed_invoice_id := rq_failed_invoice_id request;
     as_exact_amount_paise := rq_exact_amount_paise request; as_currency := rq_currency request;
     as_payment_surface_type := rq_payment_surface_type request;
     as_payment_surface_reference := rq_payment_surface_reference request;
     as_expires_at := rq_expires_at request; as_context := rq_context request |}.

(** src/services/customer-agent/app/service.py:237-246 [CustomerAgentService.approval_summary] *)
Definition approval_summary (task_id : string) (token : option string) (now : datetime) : M ApprovalSummary :=
  task ← authorized_task task_id token now;
  _ ← guard_ (negb (bool_decide (tk_state task = AUTH_REQUIRED)))
        (TaskConflictError "task is not awaiting customer authorization");
  mret (approval_summary_of task).

(** src/services/customer-agent/app/service.py:248-285 [CustomerAgentService.interpret_customer_language] *)
Definition interpret_customer_language (task_id : string) (request : CustomerLanguageRequest)
    (token : option string) (now : datetime) : M CustomerLanguageInterpretation :=
  task ← authorized_task task_id token now;
  _ ← guard_ (negb (bool_decide (tk_state task = AUTH_REQUIRED)))
        (TaskConflictError "task is not awaiting customer authorization");
  let revision := tk_revision task in
  let summary := approval_summary_of task in
  interpretation ← lift (cs_language_interpreter service request summary);
  latest ← get_task task_id;
  _ ← guard_ (negb (bool_decide (tk_revision latest = revision))
              || negb (bool_decide (tk_state latest = AUTH_REQUIRED)))
        (TaskConflictError "authorization changed while language was interpreted");
  mret {| ci_interpretation := interpretation; ci_task_id := tk_id task;
          ci_authorization_effect := "NONE"; ci_requires_explicit_approval := true;
          ci_authoritative_scope := {|
            sc_merchant_id := as_merchant_id summary; sc_case_id := as_case_id summary;
            sc_recovery_action_id := as_recovery_action_id summary;
            sc_failed_invoice_id := as_failed_invoice_id summary;
            sc_exact_amount_paise := as_exact_amount_paise summary;
            sc_currency := as_currency summary;
            sc_payment_surface_type := as_payment_surface_type summary;
            sc_payment_surface_reference := as_payment_surface_reference summary;
            sc_expires_at := as_expires_at summary |} |}.

(** ** Deciding *)

(** src/services/customer-agent/app/service.py:326-339 [CustomerAgentService.decide] *)
Definition decision_in_scope (decision : ApprovalDecision) (request : RecoveryRequestData) : bool :=
  bool_decide (ad_merchant_id decision = rq_merchant_id request)
  && bool_decide (ad_case_id decision = rq_case_id request)
  && bool_decide (ad_exact_amount_paise decision = rq_exact_amount_paise request)
  && bool_decide (ad_payment_surface_reference decision = rq_payment_surface_reference request).

(** src/services/customer-agent/app/service.py:357-373 [CustomerAgentService.decide] *)
Definition mandate_of (task : TaskRecord) (now : datetime) (mandate_uuid nonce : string)
  : RecoveryMandateData :=
  let request := tk_request task in
  let limit := dt_add now (cs_mandate_ttl service) in
  {| md_protocol_version := "recovery.mandate.v2"; md_mandate_id := "mandate_" +++ mandate_uuid;
     md_nonce := nonce; md_signer_key_id := ms_signer_key_id (cs_signer service);
     md_task_id := tk_id task; md_merchant_id := rq_merchant_id request;
     md_case_id := rq_case_id request; md_customer_id := rq_customer_id request;
     md_recovery_action_id := rq_recovery_action_id request;
     md_failed_invoice_id := rq_failed_invoice_id request;
     md_exact_amount_paise := rq_exact_amount_paise request; md_currency := rq_currency request;
     md_payment_surface_type := rq_payment_surface_type request;
     md_payment_surface_reference := rq_payment_surface_reference request;
     md_authorized_action := "OPEN_EXACT_PAYMENT_SURFACE"; md_issued_at := now;
     md_expires_at := if dt_instant limit <? dt_instant (rq_expires_at request) then limit
                      else rq_expires_at request |}.

(** src/services/customer-agent/app/service.py:343-353 [CustomerAgentService.decide] *)
Definition declined (task : TaskRecord) (now : datetime) (uuid : string) : TaskRecord :=
  enter CANCELED now (agent_message uuid task
    [("protocol_version", JStr "recovery.authorization-declined.v1")]) task.

(** src/services/customer-agent/app/service.py:374-389 [CustomerAgentService.decide] *)
Definition granted (task : TaskRecord) (signed : SignedMandate) (now : datetime) (uuid : string) : TaskRecord :=
  enter WORKING now (agent_message uuid task
      [("protocol_version", JStr "recovery.authorization-granted.v1");
       ("mandate_id", JStr (md_mandate_id (sm_data signed)));
       ("notice", JStr "Authorization recorded; RecoveryOS must verify it before use.")]) task
    <| tk_artifacts := [mandate_artifact signed] |>.

(** src/services/customer-agent/app/service.py:314-391 [CustomerAgentService.decide] *)
Definition decide_task (task_id : string) (decision : ApprovalDecision) (token : option string)
    (token_now now : datetime) (mandate_uuid nonce uuid : string) : M TaskRecord :=
  task ← authorized_task task_id token token_now;
  let expected_revision := tk_revision task in
  let request := tk_request task in
  _ ← guard_ (negb (bool_decide (tk_state task = AUTH_REQUIRED)))
        (TaskConflictError "authorization has already been decided");
  _ ← guard_ (negb (decision_in_scope decision request))
        (TaskConflictError "approval scope does not match the recovery request");
  _ ← guard_ (dt_instant (rq_expires_at request) <=? dt_instant now)
        (TaskConflictError "recovery request has expired");
  if negb (ad_approve decision) then save_once (declined task now uuid) expected_revision
  else
    mandate ← lift (validate_mandate (mandate_of task now mandate_uuid nonce));
    signed ← lift (sign_mandate iso float_repr (cs_signer service) mandate);
    save_once (granted task signed now uuid) expected_revision.

(** ** Receipts *)

(** src/services/customer-agent/app/service.py:471-480 [CustomerAgentService._is_duplicate_message] *)
Fixpoint is_duplicate_in (history : list json) (message : Message) : result bool :=
  match history with
  | [] => Ok false
  | item :: rest =>
      if negb (is_dict item) || negb (json_eqb (json_get "messageId" item) (JStr (msg_id message)))
      then is_duplicate_in rest message
      else if negb (json_eqb item (message_dump message))
      then Err (TaskConflictError "messageId was reused with different receipt data")
      else Ok true
  end.
Definition is_duplicate_message (task : TaskRecord) (message : Message) : result bool :=
  is_duplicate_in (tk_history task) message.

(** src/services/customer-agent/app/service.py:409-432 [CustomerAgentService._complete_with_receipt] *)
Definition receipt_in_scope (task : TaskRecord) (receipt : RecoveryReceiptData) : result bool :=
  artifact ← from_option IndexError (head (tk_artifacts task));
  parts ← json_item "parts" artifact;
  part ← json_index 0 parts;
  mandate_part ← json_item "data" part;
  mandate_data ← json_item "data" mandate_part;
  mandate_id ← json_item "mandate_id" mandate_data;
  recovery_action_id ← json_item "recovery_action_id" mandate_data;
  failed_invoice_id ← json_item "failed_invoice_id" mandate_data;
  let request := tk_request task in
  mret (bool_decide (rd_task_id receipt = tk_id task)
        && json_eqb (JStr (rd_mandate_id receipt)) mandate_id
        && bool_decide (rd_merchant_id receipt = rq_merchant_id request)
        && bool_decide (rd_case_id receipt = rq_case_id request)
        && json_eqb (JStr (rd_recovery_action_id receipt)) recovery_action_id
        && json_eqb (JStr (rd_failed_invoice_id receipt)) failed_invoice_id
        && bool_decide (rd_exact_amount_paise receipt = rq_exact_amount_paise request)
        && bool_decide (rd_currency receipt = rq_currency request)).

(** src/services/customer-agent/app/service.py:433-455 [CustomerAgentService._complete_with_receipt] *)
Definition completed (task : TaskRecord) (message : Message) (signed : SignedRecoveryReceipt)
    (now : datetime) (artifact_uuid uuid : string) : TaskRecord :=
  enter COMPLETED now (agent_message uuid task
      [("protocol_version", JStr "recovery.completed.v1");
       ("payment_state", JStr (rd_payment_state (sr_data signed)));
       ("provider_reference", JStr (rd_provider_reference (sr_data signed)))]) task
    <| tk_artifacts ::= fun artifacts => artifacts ++ [JObj [
        ("artifactId", JStr ("receipt_" +++ artifact_uuid));
        ("name", JStr "Recovery payment receipt");
        ("parts", JArr [JObj [("data", signed_receipt_dump iso signed)]])]] |>
    <| tk_history ::= fun history => history ++ [message_dump message] |>.

(** src/services/customer-agent/app/service.py:393-463 [CustomerAgentService._complete_with_receipt] *)
Definition complete_with_receipt (message : Message) (signed : SignedRecoveryReceipt)
    (now : datetime) (artifact_uuid uuid : string) : M TaskRecord :=
  let receipt := sr_data signed in
  let task_id := default "" (or_str (msg_task_id message) (Some (rd_task_id receipt))) in
  task ← get_task task_id;
  duplicate ← lift (is_duplicate_message task message);
  if (duplicate : bool) then mret task
  else
    _ ← guard_ (negb (bool_decide (tk_state task = WORKING)))
          (TaskConflictError "task is not awaiting a payment receipt");
    _ ← guard_ (negb (bool_decide (msg_id message = rd_receipt_id receipt)))
          (TaskConflictError "receipt ID does not match the A2A message ID");
    in_scope ← lift (receipt_in_scope task receipt);
    _ ← guard_ (negb in_scope) (TaskConflictError "receipt scope does not match the signed mandate");
    on_conflict
      (call (store_save (completed task message signed now artifact_uuid uuid) (tk_revision task)))
      (latest ← get_task task_id;
       again ← lift (is_duplicate_message latest message);
       if (again : bool) then mret latest
       else raise (TaskConflictError "task changed concurrently; retry receipt")).

(** src/services/customer-agent/app/service.py:71-92 [CustomerAgentService.send_message] *)
Definition send_message (message : Message) (now : datetime) (uuid uuid' : string) : M TaskRecord :=
  let part := default [] (head (msg_parts message)) in
  let protocol_version := json_or (json_get "protocol_version" (JObj part))
                                  (json_get "protocolVersion" (JObj part)) in
  if json_eqb protocol_version (JStr "recovery.request.v2") then
    request ← lift (parse_request pyd_int pyd_datetime part);
    create_authorization_task message request now uuid uuid'
  else
    let nested_protocol := json_get "protocol_version" (json_get "data" (JObj part)) in
    if json_eqb protocol_version (JStr "recovery.receipt.v2")
       || json_eqb nested_protocol (JStr "recovery.receipt.v2") then
      signed ← lift (parse_signed_receipt pyd_int pyd_datetime part);
      _ ← lift (match verify_receipt iso float_repr (cs_receipt_keys service) signed with
                | Err (ReceiptAuthenticationError msg) => Err (TaskConflictError msg)
                | Err e => Err e
                | Ok receipt => Ok receipt
                end);
      complete_with_receipt message signed now uuid uuid'
    else raise (TaskConflictError "unsupported recovery DataPart protocol_version").
End service.
