(* ===== verification/CustomerAgentFacts.v ===== *)
(** * The customer agent: theorems

    The life of a task under any interleaving of requests, by rely and guarantee: a
    request may assume that the others only take the steps below, and itself takes no
    others.  Proved against the interface of the store. *)
From S2P Require Import Prelude Json JsonText Base64 A2AModels AgentModels AgentStore Mandates CustomerAgent A2ASamples.

(** ** The life of a task *)

(** What an update never changes. *)
Record same_task (t u : TaskRecord) : Prop := {
  st_id : tk_id u = tk_id t;
  st_context : tk_context_id u = tk_context_id t;
  st_request : tk_request u = tk_request t;
  st_created : tk_created_at u = tk_created_at t;
}.

Inductive task_step (t u : TaskRecord) : Prop :=
| task_grants m : tk_state t = AUTH_REQUIRED -> tk_state u = WORKING ->
    tk_artifacts u = [m] -> tk_history u = tk_history t ->
    same_task t u -> tk_revision u = tk_revision t + 1 -> task_step t u
| task_cancels : tk_state t <> COMPLETED -> tk_state t <> CANCELED -> tk_state u = CANCELED ->
    tk_artifacts u = tk_artifacts t -> tk_history u = tk_history t ->
    same_task t u -> tk_revision u = tk_revision t + 1 -> task_step t u
| task_completes receipt message : tk_state t = WORKING -> tk_state u = COMPLETED ->
    tk_artifacts u = tk_artifacts t ++ [receipt] -> tk_history u = tk_history t ++ [message] ->
    same_task t u -> tk_revision u = tk_revision t + 1 -> task_step t u.

Lemma task_step_same t u : task_step t u -> same_task t u /\ tk_revision u = tk_revision t + 1.
Proof. by destruct 1. Qed.
Lemma same_task_trans t u v : same_task t u -> same_task u v -> same_task t v.
Proof. intros [] []. split; congruence. Qed.

Lemma task_steps_same t u : rtc task_step t u ->
  same_task t u /\ tk_revision t <= tk_revision u /\ (tk_revision t = tk_revision u -> t = u).
Proof.
  induction 1 as [t|t u v Htu _ (IHs & IHr & IHe)]; [done|].
  apply task_step_same in Htu as [Hs Hr]. split; [by eapply same_task_trans|]. split; [lia|]. lia.
Qed.

(** A finished task is final. *)
Lemma task_final t u : rtc task_step t u -> tk_state t = COMPLETED \/ tk_state t = CANCELED -> u = t.
Proof.
  destruct 1 as [t|t u v Htu _]; [done|]. intros Hf.
  destruct Htu; destruct Hf as [Hf|Hf]; rewrite Hf in *; by try discriminate.
Qed.

(** Once decided, a task never awaits a decision again. *)
Lemma task_decided t u : rtc task_step t u -> tk_state t <> AUTH_REQUIRED -> tk_state u <> AUTH_REQUIRED.
Proof.
  induction 1 as [t|t u v Htu _ IH]; [done|]. intros _. apply IH.
  destruct Htu as [m _ -> _ _ _ _|_ _ -> _ _ _ _|r m _ -> _ _ _ _]; discriminate.
Qed.

(** The mandate of a decided task stays its first artifact. *)
Lemma task_keeps_mandate t u : rtc task_step t u -> tk_state t <> AUTH_REQUIRED ->
  tk_artifacts t `prefix_of` tk_artifacts u.
Proof.
  induction 1 as [t|t u v Htu _ IH]; [done|]. intros Ht.
  assert (tk_state u <> AUTH_REQUIRED) as Hu by (eapply task_decided; [by apply rtc_once|done]).
  etransitivity; [|by apply IH].
  destruct Htu as [m Ha _ _ _ _ _|_ _ _ -> _ _ _|r m _ _ -> _ _ _]; [done|done|by eexists].
Qed.

(** ** The store *)

Abbreviation tables := (gmap string TaskRecord * gmap string string)%type.

Inductive store_step : tables -> tables -> Prop :=
| store_creates tasks keys key t : tasks !! tk_id t = None -> keys !! key = None ->
    tk_state t = AUTH_REQUIRED -> tk_artifacts t = [] -> tk_revision t = 1 ->
    rq_idempotency_key (tk_request t) = key ->
    store_step (tasks, keys) (<[tk_id t := t]> tasks, <[key := tk_id t]> keys)
| store_updates tasks keys t u : tasks !! tk_id t = Some t -> task_step t u ->
    store_step (tasks, keys) (<[tk_id t := u]> tasks, keys).

Lemma store_steps_task (a b : tables) id t : rtc store_step a b -> a.1 !! id = Some t ->
  exists u, b.1 !! id = Some u /\ rtc task_step t u.
Proof.
  intros Hab. revert t. induction Hab as [a|a b c Hab _ IH]; intros t Ht; [by eexists|].
  destruct Hab as [tasks keys key t' Hn|tasks keys t' u Ht' Hu]; cbn in *.
  - apply IH. rewrite lookup_insert_ne; [done|]. congruence.
  - destruct (decide (tk_id t' = id)) as [<-|Hne].
    + assert (t' = t) as -> by congruence.
      destruct (IH u) as (v & Hv & Huv); [by rewrite lookup_insert_eq|].
      exists v. split; [done|]. by eapply rtc_l.
    + apply IH. by rewrite lookup_insert_ne.
Qed.
Lemma store_steps_key (a b : tables) k id : rtc store_step a b -> a.2 !! k = Some id -> b.2 !! k = Some id.
Proof.
  induction 1 as [a|a b c Hab _ IH]; [done|]. intros Hk. apply IH.
  destruct Hab; cbn in *; [|done]. rewrite lookup_insert_ne; [done|]. congruence.
Qed.

Section agent.
Context `{CryptoLaws}.
Context (iso : datetime -> string) (float_repr : Q -> string) (isoformat : datetime -> string).
Context (pyd_int : json -> option Z) (pyd_datetime : json -> option datetime).
Context (hmac_sha256 : string -> string -> string).
Context {S : Type} `{Spec : TaskStoreSpec iso float_repr S}.

Definition view (s : S) : tables := (ts_tasks s, ts_keys s).

(** ** Rely and guarantee *)

Definition evolves (s s' : S) : Prop := rtc store_step (view s) (view s').
#[export] Instance evolves_preorder : PreOrder evolves.
Proof. split; unfold evolves; [intros s; apply rtc_refl|intros s t u; apply (transitivity (R:=rtc store_step))]. Qed.

Record world_ok (w : shared S) : Prop := {
  wo_store : ts_ok (sh_store w);
  wo_rivals : Forall (fun f => forall s, ts_ok s -> ts_ok (f s) /\ evolves s (f s)) (sh_rivals w);
}.
(** The store the next call finds. *)
Definition next_store (w : shared S) : S :=
  match sh_rivals w with f :: _ => f (sh_store w) | [] => sh_store w end.

Lemma next_store_ok w : world_ok w -> ts_ok (next_store w) /\ evolves (sh_store w) (next_store w)
  /\ Forall (fun f => forall s, ts_ok s -> ts_ok (f s) /\ evolves s (f s)) (tail (sh_rivals w)).
Proof.
  intros [Hs Hr]. unfold next_store. destruct Hr as [|f l Hf Hl]; cbn.
  { split; [done|]. split; [apply rtc_refl|constructor]. }
  destruct (Hf _ Hs). auto.
Qed.

(** A request from worlds of [P]: it leaves a good world, takes only steps of the life of
    tasks, and returns in [Q]. *)
Definition request_ok {A} (P : shared S -> Prop) (m : stx (shared S) A) (Q : A -> shared S -> Prop) : Prop :=
  forall w, world_ok w -> P w ->
    let '(r, w') := m w in
    world_ok w' /\ evolves (sh_store w) (sh_store w') /\ match r with Ok a => Q a w' | Err _ => True end.

Lemma request_bind {A B} P (m : stx (shared S) A) (f : A -> stx (shared S) B) R Q :
  request_ok P m R -> (forall a, request_ok (R a) (f a) Q) -> request_ok P (m ≫= f) Q.
Proof.
  intros Hm Hf w Hw HP. specialize (Hm w Hw HP). unfold mbind, stx_bind.
  destruct (m w) as [[a|e] w1]; [|by destruct Hm as (? & ? & _)].
  destruct Hm as (Hw1 & He1 & HR). specialize (Hf a w1 Hw1 HR).
  destruct (f a w1) as [r w2]. destruct Hf as (Hw2 & He2 & HQ).
  split; [done|]. split; [|done]. by etransitivity.
Qed.
Lemma request_ret {A} (a : A) (P : shared S -> Prop) (Q : A -> shared S -> Prop) :
  (forall w, P w -> Q a w) -> request_ok P (mret a) Q.
Proof. intros HPQ w Hw HP%HPQ. cbn. split; [done|]. split; [apply rtc_refl|done]. Qed.
Lemma request_raise {A} e P (Q : A -> shared S -> Prop) : request_ok P (raise e) Q.
Proof. intros w Hw _. cbn. split; [done|]. split; [apply rtc_refl|done]. Qed.
Lemma request_lift {A} (m : result A) P : request_ok P (lift m) (fun a w => P w /\ m = Ok a).
Proof. intros w Hw HP. cbn. split; [done|]. split; [apply rtc_refl|by destruct m]. Qed.
Lemma request_guard b e P : request_ok P (guard_ b e) (fun _ w => P w /\ b = false).
Proof. intros w Hw HP. unfold guard_, lift. split; [done|]. split; [apply rtc_refl|by destruct b]. Qed.
Lemma request_conseq {A} P P' (m : stx (shared S) A) (Q Q' : A -> shared S -> Prop) :
  request_ok P m Q -> (forall w, P' w -> P w) -> (forall a w, Q a w -> Q' a w) -> request_ok P' m Q'.
Proof.
  intros Hm HP HQ w Hw HPw. specialize (Hm w Hw (HP w HPw)). destruct (m w) as [[a|e] w'];
    destruct Hm as (? & ? & ?); auto.
Qed.

Lemma request_conflict {A} P P' (m h : stx (shared S) A) Q :
  request_ok P m Q -> (forall w w', P w -> evolves (sh_store w) (sh_store w') -> P' w') ->
  request_ok P' h Q -> request_ok P (on_conflict m h) Q.
Proof.
  intros Hm Hstable Hh w Hw HP. specialize (Hm w Hw HP). unfold on_conflict.
  destruct (m w) as [[a|e] w1]; [done|]. destruct Hm as (Hw1 & He & _).
  destruct e; try done. specialize (Hh w1 Hw1 (Hstable _ _ HP He)).
  destruct (h w1) as [r w2]. destruct Hh as (? & ? & ?). split; [done|]. split; [|done]. by etransitivity.
Qed.

Lemma request_pure {A} (phi : Prop) P (m : stx (shared S) A) Q :
  (phi -> request_ok P m Q) -> request_ok (fun w => P w /\ phi) m Q.
Proof. intros Hm w Hw [HP Hphi]. by apply Hm. Qed.

(** The task was in the store at some moment. *)
Definition seen (t : TaskRecord) (w : shared S) : Prop :=
  exists u, ts_tasks (sh_store w) !! tk_id t = Some u /\ rtc task_step t u.

Lemma evolves_task s s' id t : evolves s s' -> ts_tasks s !! id = Some t ->
  exists u, ts_tasks s' !! id = Some u /\ rtc task_step t u.
Proof. intros He Ht. by apply (store_steps_task _ _ id t He). Qed.
Lemma seen_stable t w w' : seen t w -> evolves (sh_store w) (sh_store w') -> seen t w'.
Proof.
  intros (u & Hu & Htu) He. destruct (evolves_task _ _ _ _ He Hu) as (v & Hv & Huv).
  exists v. split; [done|]. by etransitivity.
Qed.

Lemma request_get id : request_ok (fun _ => True) (call (store_get id))
  (fun found w => match found with Some t => seen t w /\ tk_id t = id | None => True end).
Proof.
  intros w Hw _. unfold call. fold (next_store w).
  destruct (next_store_ok w Hw) as (Hn & He & Hr).
  rewrite get_spec by done. cbn. split; [by split|]. split; [done|].
  destruct (ts_tasks _ !! id) as [t|] eqn:Et; [|done].
  pose proof (ts_named _ _ _ Hn Et) as <-. split; [|done]. by exists t.
Qed.

(** A save writes a step from the task that was read, or nothing. *)
Lemma request_save t0 t : tk_id t = tk_id t0 ->
  task_step t0 (with_revision (tk_revision t0 + 1) t) ->
  request_ok (seen t0) (call (store_save t (tk_revision t0)))
    (fun u w => u = with_revision (tk_revision t0 + 1) t /\ seen u w).
Proof.
  intros Hid Hstep w Hw Hseen. unfold call. fold (next_store w).
  destruct (next_store_ok w Hw) as (Hn & He & Hr).
  destruct Hseen as (u & Hu & Htu). destruct (evolves_task _ _ _ _ He Hu) as (cur & Hcur & Huc).
  assert (rtc task_step t0 cur) as (Hs & Hle & Heq)%task_steps_same by (by etransitivity).
  destruct (decide (tk_revision cur = tk_revision t0)) as [Hrev|Hrev].
  - assert (cur = t0) as -> by (symmetry; auto).
    destruct (save_hit (next_store w) t (tk_revision t0) t0) as (s' & -> & Hs' & Htasks & Hkeys);
      [done|by rewrite Hid|done|by eapply ts_revised|].
    cbn. split; [by split|]. split.
    + etransitivity; [done|]. apply rtc_once. unfold view. rewrite Htasks, Hkeys, Hid.
      by apply store_updates.
    + split; [done|]. eexists. cbn. by rewrite Htasks, lookup_insert_eq.
  - rewrite save_miss; [|done|by rewrite Hid, Hcur]. cbn. split; [by split|]. by split.
Qed.

(** The task of an idempotency key: the one created first, for the same request. *)
Lemma request_create key task : tk_id task <> "" -> tk_state task = AUTH_REQUIRED ->
  tk_artifacts task = [] -> rq_idempotency_key (tk_request task) = key ->
  request_ok (fun w => ts_tasks (next_store w) !! tk_id task = None) (call (store_create key task))
    (fun t w => seen t w /\ ts_keys (sh_store w) !! key = Some (tk_id t)
                /\ same_request iso (tk_request t) (tk_request task)).
Proof.
  intros Hid Hstate Hart Hkey w Hw Hfresh. unfold call. fold (next_store w).
  destruct (next_store_ok w Hw) as (Hn & He & Hr).
  destruct (ts_keys (next_store w) !! key) as [id|] eqn:Ek.
  - destruct (ts_keyed _ _ _ Hn Ek) as [ex Hex].
    rewrite (create_again _ _ _ _ _ Hn Ek Hex). cbn. split; [by split|]. split; [done|].
    unfold require_matching_request. destruct (bool_decide _) eqn:Ec; cbn; [|done].
    apply bool_decide_eq_true, canonical_request_inj in Ec.
    pose proof (ts_named _ _ _ Hn Hex) as <-. split; [by exists ex|]. done.
  - destruct (create_new _ _ _ Hn Ek Hfresh Hid) as (s' & -> & Hs' & Htasks & Hkeys).
    cbn. split; [by split|]. split.
    + etransitivity; [done|]. apply rtc_once. unfold view. rewrite Htasks, Hkeys.
      by apply (store_creates _ _ key (with_revision 1 task)).
    + split; [exists (with_revision 1 task); cbn; by rewrite Htasks, lookup_insert_eq|].
      by rewrite Hkeys, lookup_insert_eq.
Qed.

Context (service : CustomerAgentService).

Lemma request_get_task id : request_ok (fun _ => True) (get_task id) (fun t w => seen t w /\ tk_id t = id).
Proof.
  unfold get_task. eapply request_bind; [apply request_get|]. intros [t|]; [|apply request_raise].
  apply request_ret. auto.
Qed.

Abbreviation token_of := (approval_token iso float_repr hmac_sha256 service).

(** A task read with the capability the agent issued for it, before it expires. *)
Definition authorized (t : TaskRecord) (token : option string) (now : datetime) : Prop :=
  match token_of t with
  | None => True
  | Some expected => default "" token = expected
      /\ dt_instant now < dt_instant (rq_expires_at (tk_request t))
  end.
Lemma request_authorized id token now : request_ok (fun _ => True)
  (authorized_task iso float_repr hmac_sha256 service id token now)
  (fun t w => seen t w /\ tk_id t = id /\ authorized t token now).
Proof.
  unfold authorized_task. eapply request_bind; [apply request_get_task|]. intros t.
  destruct (token_of t) as [expected|] eqn:Et.
  - eapply request_bind; [apply request_guard|]. intros [].
    eapply request_bind; [apply request_guard|]. intros [].
    apply request_ret. intros w [[[Hs Hid] Ht] He]. unfold authorized. rewrite Et. bools. auto.
  - apply request_ret. intros w [? ?]. unfold authorized. by rewrite Et.
Qed.

Lemma enter_step_same t u state now message : u = enter isoformat state now message t ->
  same_task t (with_revision (tk_revision t + 1) u).
Proof. by intros ->. Qed.

Lemma request_save_once t0 t : tk_id t = tk_id t0 ->
  task_step t0 (with_revision (tk_revision t0 + 1) t) ->
  request_ok (seen t0) (save_once t (tk_revision t0))
    (fun u w => u = with_revision (tk_revision t0 + 1) t /\ seen u w).
Proof.
  intros Hid Hstep. unfold save_once. apply (request_conflict _ (fun _ => True)); [by apply request_save|done|].
  apply request_raise.
Qed.

(** A cancellation returns a finished task. *)
Lemma request_cancel attempts id reason now uuid : request_ok (fun _ => True)
  (cancel_attempts isoformat attempts id reason now uuid)
  (fun t w => seen t w /\ tk_id t = id /\ (tk_state t = COMPLETED \/ tk_state t = CANCELED)).
Proof.
  induction attempts as [|n IH]; cbn; [apply request_raise|].
  eapply request_bind; [apply request_get_task|]. intros t. apply request_pure. intros Hid.
  destruct (mem (tk_state t) [COMPLETED; CANCELED]) eqn:Et.
  - apply mem_true in Et. apply request_ret. intros w Hs. split_and!; [done|done|]. set_solver.
  - apply mem_false in Et. eapply (request_conflict _ (fun _ => True)); [|done|apply IH].
    eapply request_conseq; [apply (request_save t)|done|].
    + done.
    + eapply task_cancels; try done; set_solver.
    + intros u w [-> Hs]. auto.
Qed.

(** ** Decisions *)

(** What a decision that was accepted wrote. *)
Record decided (id : string) (decision : ApprovalDecision) (token : option string)
    (token_now now : datetime) (mandate_uuid nonce uuid : string) (t u : TaskRecord) : Prop := {
  de_id : tk_id t = id;
  de_authorized : authorized t token token_now;
  de_awaiting : tk_state t = AUTH_REQUIRED;
  de_scope : decision_in_scope decision (tk_request t) = true;
  de_unexpired : dt_instant now < dt_instant (rq_expires_at (tk_request t));
  de_written :
    (ad_approve decision = false
     /\ u = with_revision (tk_revision t + 1) (declined isoformat t now uuid))
    \/ (ad_approve decision = true /\ exists signed,
        let mandate := mandate_of service t now mandate_uuid nonce in
        validate_mandate mandate = Ok mandate
        /\ sign_mandate iso float_repr (cs_signer service) mandate = Ok signed
        /\ u = with_revision (tk_revision t + 1) (granted iso isoformat t signed now uuid));
}.

Abbreviation decide :=
  (decide_task iso float_repr isoformat hmac_sha256 service).

Lemma request_decide id decision token token_now now mandate_uuid nonce uuid : request_ok (fun _ => True)
  (decide id decision token token_now now mandate_uuid nonce uuid)
  (fun u w => seen u w /\ exists t, decided id decision token token_now now mandate_uuid nonce uuid t u).
Proof.
  unfold decide_task. eapply request_bind; [apply request_authorized|]. intros t.
  apply request_pure. intros [Hid Ha].
  eapply request_bind; [apply request_guard|]. intros []. apply request_pure. intros Hst.
  eapply request_bind; [apply request_guard|]. intros []. apply request_pure. intros Hsc.
  eapply request_bind; [apply request_guard|]. intros []. apply request_pure. intros Hex. bools.
  destruct (ad_approve decision) eqn:Ead; cbn [negb].
  - eapply request_bind; [apply request_lift|]. intros mandate. apply request_pure. intros Hv.
    eapply request_bind; [apply request_lift|]. intros signed. apply request_pure. intros Hsign.
    pose proof (validate_mandate_Ok _ _ Hv) as (-> & _).
    eapply request_conseq; [apply (request_save_once t)|done|].
    + done.
    + by eapply task_grants.
    + intros u w [-> Hs]. split; [done|]. exists t. split; eauto 7.
  - eapply request_conseq; [apply (request_save_once t)|done|].
    + done.
    + eapply task_cancels; try done; by rewrite Hst.
    + intros u w [-> Hs]. split; [done|]. exists t. split; auto.
Qed.

(** A task seen before is found, where its life has brought it. *)
Lemma request_get_after u : request_ok (seen u) (get_task (tk_id u))
  (fun t w => seen t w /\ rtc task_step u t).
Proof.
  intros w Hw Hseen. unfold get_task, mbind, stx_bind, call. fold (next_store w).
  destruct (next_store_ok w Hw) as (Hn & He & Hr).
  destruct Hseen as (v & Hv & Huv). destruct (evolves_task _ _ _ _ He Hv) as (t & Ht & Hvt).
  rewrite get_spec by done. rewrite Ht. cbn. split; [by split|]. split; [done|].
  split; [|by etransitivity]. exists t. split; [|done]. cbn.
  by rewrite (ts_named _ _ _ Hn Ht).
Qed.

(** A decided task refuses every other decision. *)
Lemma request_decide_again u decision token token_now now mandate_uuid nonce uuid :
  tk_state u <> AUTH_REQUIRED ->
  request_ok (seen u) (decide (tk_id u) decision token token_now now mandate_uuid nonce uuid)
    (fun _ _ => False).
Proof.
  intros Hu. unfold decide_task, authorized_task.
  eapply request_bind with (R := fun t _ => tk_state t <> AUTH_REQUIRED).
  - eapply request_bind; [apply request_get_after|]. intros t. apply request_pure. intros Hut.
    pose proof (task_decided _ _ Hut Hu) as Ht.
    destruct (token_of t) as [expected|]; [|by apply request_ret].
    eapply request_bind; [apply request_guard|]. intros []. apply request_pure. intros _.
    eapply request_bind; [apply request_guard|]. intros []. apply request_pure. intros _.
    by apply request_ret.
  - intros t. intros w Hw Ht. unfold guard_ at 1. rewrite bool_decide_eq_false_2 by done. cbn.
    split; [done|]. split; [reflexivity|done].
Qed.

(** ** Receipts *)

(** The message is recorded in the history of the task. *)
Definition recorded (message : Message) (u : TaskRecord) : Prop :=
  is_duplicate_message u message = Ok true.

Lemma is_duplicate_app h more message b : is_duplicate_in h message = Ok b ->
  is_duplicate_in (h ++ more) message = (if b then Ok true else is_duplicate_in more message).
Proof.
  induction h as [|item h IH]; cbn; [by intros [= <-]|].
  destruct (_ || _); [done|]. destruct (negb _); [done|]. by intros [= <-].
Qed.
Lemma is_duplicate_own message : is_duplicate_in [message_dump message] message = Ok true.
Proof.
  cbn [is_duplicate_in]. change (json_get "messageId" (message_dump message)) with (JStr (msg_id message)).
  by rewrite !json_eqb_refl.
Qed.

Lemma recorded_step message t u : task_step t u -> recorded message t -> recorded message u.
Proof.
  unfold recorded, is_duplicate_message. destruct 1 as [m _ _ _ -> _ _|_ _ _ _ -> _ _|r m _ _ _ -> _ _];
    try done. intros Hr. by rewrite (is_duplicate_app _ _ _ _ Hr).
Qed.
Lemma recorded_steps message t u : rtc task_step t u -> recorded message t -> recorded message u.
Proof. induction 1; eauto using recorded_step. Qed.

Abbreviation complete := (complete_with_receipt iso isoformat).

(** The mandate data recorded as the first artifact of a task. *)
Definition mandate_recorded (t : TaskRecord) (mandate : json) : Prop :=
  exists artifact parts part envelope,
    head (tk_artifacts t) = Some artifact /\ json_item "parts" artifact = Ok parts
    /\ json_index 0 parts = Ok part /\ json_item "data" part = Ok envelope
    /\ json_item "data" envelope = Ok mandate.

(** The receipt names the task, the parties and the money of the request, and the mandate
    and the scope that were signed. *)
Record receipt_binds (t : TaskRecord) (d : RecoveryReceiptData) : Prop := {
  rb_task : rd_task_id d = tk_id t;
  rb_merchant : rd_merchant_id d = rq_merchant_id (tk_request t);
  rb_case : rd_case_id d = rq_case_id (tk_request t);
  rb_amount : rd_exact_amount_paise d = rq_exact_amount_paise (tk_request t);
  rb_currency : rd_currency d = rq_currency (tk_request t);
  rb_mandate : exists mandate, mandate_recorded t mandate
    /\ json_item "mandate_id" mandate = Ok (JStr (rd_mandate_id d))
    /\ json_item "recovery_action_id" mandate = Ok (JStr (rd_recovery_action_id d))
    /\ json_item "failed_invoice_id" mandate = Ok (JStr (rd_failed_invoice_id d));
}.

Lemma json_eqb_str s v : json_eqb (JStr s) v = true -> v = JStr s.
Proof. destruct v; try done. cbn. by intros ->%bool_decide_eq_true. Qed.

Lemma receipt_in_scope_binds t d : receipt_in_scope t d = Ok true -> receipt_binds t d.
Proof.
  unfold receipt_in_scope. intros Hs.
  apply bind_Ok in Hs as (artifact & Ha%from_option_Ok & Hs).
  apply bind_Ok in Hs as (parts & Hp & Hs). apply bind_Ok in Hs as (part & Hi & Hs).
  apply bind_Ok in Hs as (envelope & He & Hs). apply bind_Ok in Hs as (mandate & Hm & Hs).
  apply bind_Ok in Hs as (mid & Hmid & Hs). apply bind_Ok in Hs as (aid & Haid & Hs).
  apply bind_Ok in Hs as (iid & Hiid & [= Hs]). bools.
  repeat match goal with H : json_eqb _ _ = true |- _ => apply json_eqb_str in H; subst end.
  split; try done. exists mandate. split; [|done]. by exists artifact, parts, part, envelope.
Qed.

(** What an accepted receipt wrote: the payment of the mandate, once. *)
Record paid (message : Message) (signed : SignedRecoveryReceipt) (now : datetime)
    (artifact_uuid uuid : string) (t u : TaskRecord) : Prop := {
  pa_working : tk_state t = WORKING;
  pa_receipt : msg_id message = rd_receipt_id (sr_data signed);
  pa_scope : receipt_binds t (sr_data signed);
  pa_new : is_duplicate_message t message = Ok false;
  pa_written : u = with_revision (tk_revision t + 1) (completed iso isoformat t message signed now artifact_uuid uuid);
}.

(** The task the receipt is for, and a task that was in the store as it is. *)
Definition receipt_task (message : Message) (signed : SignedRecoveryReceipt) : string :=
  default "" (or_str (msg_task_id message) (Some (rd_task_id (sr_data signed)))).
Definition recorded_elsewhere (u : TaskRecord) (w : shared S) : Prop :=
  exists s, ts_ok s /\ evolves s (sh_store w) /\ ts_tasks s !! tk_id u = Some u.

Lemma request_get_task_now id : request_ok (fun _ => True) (get_task id)
  (fun t w => (seen t w /\ recorded_elsewhere t w) /\ tk_id t = id).
Proof.
  intros w Hw _. unfold get_task, mbind, stx_bind, call. fold (next_store w).
  destruct (next_store_ok w Hw) as (Hn & He & Hr). rewrite get_spec by done.
  destruct (ts_tasks _ !! id) as [t|] eqn:Et; cbn; (split; [by split|]); (split; [done|]); [|done].
  pose proof (ts_named _ _ _ Hn Et) as <-. split; [|done].
  split; [by exists t|]. exists (next_store w). split_and!; [done|reflexivity|done].
Qed.

Lemma request_complete message signed now artifact_uuid uuid : request_ok (fun _ => True)
  (complete message signed now artifact_uuid uuid)
  (fun u w => seen u w /\ recorded message u
    /\ tk_id u = receipt_task message signed
    /\ ((exists t, paid message signed now artifact_uuid uuid t u) \/ recorded_elsewhere u w)).
Proof.
  unfold complete_with_receipt. fold (receipt_task message signed).
  eapply request_bind; [apply request_get_task_now|]. intros t.
  apply request_pure. intros Hid.
  eapply request_bind; [apply request_lift|]. intros dup. apply request_pure. intros Hdup.
  destruct dup; [apply request_ret; intros w [Hs Hr]; auto|].
  eapply request_conseq with (P := seen t) (Q := fun u w => _); [|by intros w [Hs _]|done].
  eapply request_bind; [apply request_guard|]. intros []. apply request_pure. intros Hst.
  eapply request_bind; [apply request_guard|]. intros []. apply request_pure. intros Hrid.
  eapply request_bind; [apply request_lift|]. intros ok. apply request_pure. intros Hsc.
  eapply request_bind; [apply request_guard|]. intros []. apply request_pure. intros Hok. bools. subst ok.
  eapply (request_conflict _ (fun _ => True)); [|done|].
  - eapply request_conseq; [apply (request_save t)|done|].
    + done.
    + by eapply task_completes.
    + intros u w [-> Hs]. apply receipt_in_scope_binds in Hsc. split; [done|]. split.
      { unfold recorded, is_duplicate_message in *. cbn.
        rewrite (is_duplicate_app _ _ _ _ Hdup). apply is_duplicate_own. }
      split; [done|]. left. exists t. by split.
  - eapply request_bind; [apply request_get_task_now|]. intros t'. apply request_pure. intros Hid'.
    eapply request_bind; [apply request_lift|]. intros again. apply request_pure. intros Hagain.
    destruct again; [|apply request_raise]. apply request_ret. intros w [Hs Hr]. auto.
Qed.

(** A recorded receipt is acknowledged again without a change. *)
Lemma request_complete_again u message signed now artifact_uuid uuid : recorded message u ->
  tk_id u = receipt_task message signed ->
  forall w, world_ok w -> seen u w -> exists t w',
    complete message signed now artifact_uuid uuid w = (Ok t, w')
    /\ rtc task_step u t /\ sh_store w' = next_store w.
Proof.
  intros Hrec Hid w Hw Hseen. unfold complete_with_receipt. fold (receipt_task message signed). rewrite <- Hid.
  unfold mbind, stx_bind, get_task, call. fold (next_store w).
  destruct (next_store_ok w Hw) as (Hn & He & Hr).
  destruct Hseen as (v & Hv & Huv). destruct (evolves_task _ _ _ _ He Hv) as (t & Ht & Hvt).
  assert (rtc task_step u t) as Hut by (by etransitivity).
  unfold mbind, stx_bind. rewrite get_spec by done. fold (next_store w). rewrite Ht. cbn.
  unfold lift. rewrite (recorded_steps _ _ _ Hut Hrec). cbn. eauto.
Qed.

(** ** Messages and pages *)

Abbreviation send := (send_message iso float_repr isoformat pyd_int pyd_datetime service).

(** The identifier drawn for a new task is not in the store. *)
Definition fresh_task (uuid : string) (w : shared S) : Prop :=
  ts_tasks (next_store w) !! ("task_" +++ uuid) = None.

Lemma parse_request_valid fields r : parse_request pyd_int pyd_datetime fields = Ok r ->
  validate_request r = Ok r.
Proof.
  unfold parse_request. intros Hp. repeat (apply bind_Ok in Hp as (? & _ & Hp)).
  pose proof Hp as Hv. unfold validate_request, require_future_utc_expiry in Hv.
  destruct (_ && _); [|done]. by apply bind_Ok in Hv as (? & _ & [= <-]).
Qed.

Lemma request_open message request now uuid uuid' :
  request_ok (fresh_task uuid) (create_authorization_task isoformat message request now uuid uuid')
    (fun t w => seen t w /\ ts_keys (sh_store w) !! rq_idempotency_key request = Some (tk_id t)
                /\ same_request iso (tk_request t) request).
Proof.
  unfold create_authorization_task. eapply request_bind; [apply request_guard|]. intros [].
  apply request_pure. intros _.
  by apply (request_create _ (new_task isoformat message request now uuid uuid')).
Qed.

Lemma request_send message now uuid uuid' :
  request_ok (fresh_task uuid) (send message now uuid uuid') (fun t w => seen t w).
Proof.
  unfold send_message. destruct (json_eqb _ (JStr "recovery.request.v2")).
  - eapply request_bind; [apply request_lift|]. intros request. apply request_pure. intros _.
    eapply request_conseq; [apply request_open|done|]. by intros t w (? & _).
  - destruct (_ || _); [|apply request_raise].
    eapply request_bind; [apply request_lift|]. intros signed. apply request_pure. intros _.
    eapply request_bind; [apply request_lift|]. intros receipt. apply request_pure. intros _.
    eapply request_conseq; [apply request_complete|done|]. by intros t w (? & _).
Qed.

Lemma request_summary id token now : request_ok (fun _ => True)
  (approval_summary iso float_repr hmac_sha256 service id token now) (fun _ _ => True).
Proof.
  unfold approval_summary. eapply request_bind; [apply request_authorized|]. intros t.
  eapply request_bind; [apply request_guard|]. intros []. by apply request_ret.
Qed.
Lemma request_interpret id request token now : request_ok (fun _ => True)
  (interpret_customer_language iso float_repr hmac_sha256 service id request token now) (fun _ _ => True).
Proof.
  unfold interpret_customer_language. eapply request_bind; [apply request_authorized|]. intros t.
  eapply request_bind; [apply request_guard|]. intros [].
  eapply request_bind; [apply request_lift|]. intros interpretation.
  apply (request_bind _ _ _ (fun _ _ => True)).
  { eapply request_conseq; [apply request_get_task|done|done]. }
  intros latest.
  eapply request_bind; [apply request_guard|]. intros []. by apply request_ret.
Qed.

(** Every request of the agent. *)
Inductive agent_request : Type :=
| SendMessage (message : Message) (now : datetime) (uuid uuid' : string)
| GetTask (id : string)
| CancelTask (id reason : string) (now : nat -> datetime) (uuid : nat -> string)
| ReadApproval (id : string) (token : option string) (now : datetime)
| InterpretLanguage (id : string) (request : CustomerLanguageRequest) (token : option string) (now : datetime)
| Decide (id : string) (decision : ApprovalDecision) (token : option string)
    (token_now now : datetime) (mandate_uuid nonce uuid : string).

Definition serve (r : agent_request) : stx (shared S) unit :=
  match r with
  | SendMessage message now uuid uuid' => _ ← send message now uuid uuid'; mret tt
  | GetTask id => _ ← get_task id; mret tt
  | CancelTask id reason now uuid => _ ← cancel_task isoformat id reason now uuid; mret tt
  | ReadApproval id token now => _ ← approval_summary iso float_repr hmac_sha256 service id token now; mret tt
  | InterpretLanguage id request token now =>
      _ ← interpret_customer_language iso float_repr hmac_sha256 service id request token now; mret tt
  | Decide id decision token token_now now mandate_uuid nonce uuid =>
      _ ← decide id decision token token_now now mandate_uuid nonce uuid; mret tt
  end.
Definition request_fresh (r : agent_request) (w : shared S) : Prop :=
  match r with SendMessage _ _ uuid _ => fresh_task uuid w | _ => True end.

Lemma serve_ok r : request_ok (request_fresh r) (serve r) (fun _ _ => True).
Proof.
  destruct r; cbn [serve request_fresh]; (eapply request_bind;
    [first [apply request_send|apply request_get_task|apply request_cancel|apply request_summary
           |apply request_interpret|apply request_decide]
    |intros ?; by apply request_ret]).
Qed.

(** C38: whatever other requests do between its calls of the store, a request leaves every
    task on its life: the task keeps its identity and its request, is decided at most once,
    a completed or canceled task is never written again, and a mandate once granted stays
    the first artifact of its task. *)
Theorem agent_lifecycle r w :
  world_ok w -> request_fresh r w ->
  let w' := snd (serve r w) in
  world_ok w' /\ evolves (sh_store w) (sh_store w')
  /\ forall id t, ts_tasks (sh_store w) !! id = Some t ->
     exists u, ts_tasks (sh_store w') !! id = Some u /\ rtc task_step t u
     /\ tk_request u = tk_request t
     /\ (tk_state t = COMPLETED \/ tk_state t = CANCELED -> u = t)
     /\ (tk_state t <> AUTH_REQUIRED ->
         tk_state u <> AUTH_REQUIRED /\ tk_artifacts t `prefix_of` tk_artifacts u).
Proof.
  intros Hw Hf w'. pose proof (serve_ok r w Hw Hf) as Hserve. unfold w'.
  destruct (serve r w) as [res w1]. destruct Hserve as (Hw1 & He & _). cbn. split; [done|]. split; [done|].
  intros id t Ht. destruct (evolves_task _ _ _ _ He Ht) as (u & Hu & Htu). exists u.
  destruct (task_steps_same _ _ Htu) as ([_ _ Hreq _] & _ & _).
  split_and!; [done|done|done|by apply task_final|].
  intros Hs. split; [by eapply task_decided|by apply task_keeps_mandate].
Qed.


(** The branches of [send_message]. *)
Lemma send_request_branch message part rest request now uuid uuid' :
  msg_parts message = part :: rest ->
  json_eqb (json_or (json_get "protocol_version" (JObj part)) (json_get "protocolVersion" (JObj part)))
    (JStr "recovery.request.v2") = true ->
  parse_request pyd_int pyd_datetime part = Ok request ->
  send message now uuid uuid' = create_authorization_task isoformat message request now uuid uuid'.
Proof. intros Hp Hv Hr. unfold send_message. rewrite Hp. cbn [head default id]. by rewrite Hv, Hr. Qed.

Definition is_receipt (part : list (string * json)) : Prop :=
  let version := json_or (json_get "protocol_version" (JObj part)) (json_get "protocolVersion" (JObj part)) in
  json_eqb version (JStr "recovery.request.v2") = false
  /\ json_eqb version (JStr "recovery.receipt.v2")
      || json_eqb (json_get "protocol_version" (json_get "data" (JObj part))) (JStr "recovery.receipt.v2") = true.

Lemma send_receipt_branch message part rest signed now uuid uuid' :
  msg_parts message = part :: rest -> is_receipt part ->
  parse_signed_receipt pyd_int pyd_datetime part = Ok signed ->
  send message now uuid uuid' =
    (_ ← lift (match verify_receipt iso float_repr (cs_receipt_keys service) signed with
               | Err (ReceiptAuthenticationError msg) => Err (TaskConflictError msg)
               | Err e => Err e
               | Ok receipt => Ok receipt
               end);
     complete message signed now uuid uuid').
Proof.
  intros Hp [Hv Hr] Hs. unfold send_message. rewrite Hp. cbn [head default id]. by rewrite Hv, Hr, Hs.
Qed.

(** a receipt completes a task only when a pinned key of the recovery worker signed it and
    it names the task, the mandate, the parties and the exact amount the customer
    authorized, on a task that awaits its payment; and once it was accepted, delivering the
    same message again at any later time succeeds and writes nothing. *)
Theorem receipt_exact_and_idempotent message part rest signed now uuid uuid' w u w' :
  world_ok w -> msg_parts message = part :: rest -> is_receipt part ->
  parse_signed_receipt pyd_int pyd_datetime part = Ok signed ->
  send message now uuid uuid' w = (Ok u, w') ->
  verify_receipt iso float_repr (cs_receipt_keys service) signed = Ok (sr_data signed)
  /\ ((exists t, paid message signed now uuid uuid' t u)
      \/ (recorded message u /\ recorded_elsewhere u w'))
  /\ forall later uuid2 uuid2' w2, world_ok w2 -> evolves (sh_store w') (sh_store w2) ->
     exists v w3, send message later uuid2 uuid2' w2 = (Ok v, w3) /\ rtc task_step u v
     /\ sh_store w3 = next_store w2.
Proof.
  intros Hw Hp Hr Hs Hrun. rewrite (send_receipt_branch _ _ _ _ _ _ _ Hp Hr Hs) in Hrun.
  destruct (verify_receipt _ _ _ signed) as [receipt|e] eqn:Ev; [|by destruct e].
  assert (receipt = sr_data signed) as ->.
  { unfold verify_receipt in Ev. apply bind_Ok in Ev as (pk & _ & Ev). by repeat case_match; simplify_eq. }
  unfold mbind, stx_bind, lift in Hrun.
  pose proof (request_complete message signed now uuid uuid' w Hw I) as Hc. rewrite Hrun in Hc.
  destruct Hc as (Hw' & _ & Hseen & Hrec & Hid & Hcase). split; [done|]. split.
  { destruct Hcase; auto. }
  intros later uuid2 uuid2' w2 Hw2 He. rewrite (send_receipt_branch _ _ _ _ _ _ _ Hp Hr Hs), Ev.
  destruct (request_complete_again u message signed later uuid2 uuid2' Hrec Hid w2 Hw2)
    as (v & w3 & Hv & Huv & Hw3); [by eapply seen_stable|].
  exists v, w3. unfold mbind, stx_bind, lift. done.
Qed.

(** one idempotency key opens one task: two deliveries of a request with the same key, at
    any two times and with any traffic in between, return the same task when the requests
    agree in every field, and the second is refused when they differ. *)
Theorem request_opens_one_task message message2 part rest part2 rest2 request request2 now now2
    uuid1 uuid1' uuid2 uuid2' w w2 t w' r2 w3 :
  world_ok w -> fresh_task uuid1 w ->
  msg_parts message = part :: rest -> msg_parts message2 = part2 :: rest2 ->
  json_eqb (json_or (json_get "protocol_version" (JObj part)) (json_get "protocolVersion" (JObj part)))
    (JStr "recovery.request.v2") = true ->
  json_eqb (json_or (json_get "protocol_version" (JObj part2)) (json_get "protocolVersion" (JObj part2)))
    (JStr "recovery.request.v2") = true ->
  parse_request pyd_int pyd_datetime part = Ok request ->
  parse_request pyd_int pyd_datetime part2 = Ok request2 ->
  rq_idempotency_key request2 = rq_idempotency_key request ->
  dt_instant now2 < dt_instant (rq_expires_at request2) ->
  send message now uuid1 uuid1' w = (Ok t, w') ->
  world_ok w2 -> evolves (sh_store w') (sh_store w2) ->
  send message2 now2 uuid2 uuid2' w2 = (r2, w3) ->
  sh_store w3 = next_store w2 /\
  ((exists t2, r2 = Ok t2 /\ rtc task_step t t2 /\ same_request iso request request2)
   \/ (exists msg, r2 = Err (TaskIdempotencyConflictError msg) /\ ~ same_request iso request request2)).
Proof.
  intros Hw Hf Hp Hp2 Hv Hv2 Hr Hr2 Hkey Hexp Hrun Hw2 He Hrun2.
  rewrite (send_request_branch _ _ _ _ _ _ _ Hp Hv Hr) in Hrun.
  rewrite (send_request_branch _ _ _ _ _ _ _ Hp2 Hv2 Hr2) in Hrun2.
  pose proof (request_open message request now uuid1 uuid1' w Hw Hf) as Ho. rewrite Hrun in Ho.
  destruct Ho as (Hw' & _ & Hseen & Hkeys & Hsame).
  unfold create_authorization_task, guard_, raise_if, lift, mbind, stx_bind in Hrun2.
  rewrite (proj2 (Z.leb_gt _ _) Hexp) in Hrun2. unfold call in Hrun2. fold (next_store w2) in Hrun2.
  destruct (next_store_ok w2 Hw2) as (Hn & He2 & _).
  assert (evolves (sh_store w') (next_store w2)) as He3 by (by etransitivity).
  pose proof (store_steps_key (view (sh_store w')) (view (next_store w2)) _ _ He3 Hkeys) as Hk2.
  cbn [snd view] in Hk2.
  destruct Hseen as (t1 & Ht1 & Htt1). destruct (evolves_task _ _ _ _ He3 Ht1) as (t2 & Ht2 & Ht12).
  assert (rtc task_step t t2) as Htt2 by (by etransitivity).
  destruct (task_steps_same _ _ Htt2) as ([_ _ Hreq _] & _ & _).
  rewrite Hkey, (create_again _ _ (new_task isoformat message2 request2 now2 uuid2 uuid2') _ _ Hn Hk2 Ht2) in Hrun2.
  pose proof (f_equal fst Hrun2) as E1. pose proof (f_equal snd Hrun2) as E2.
  cbn [fst snd] in E1, E2. subst r2 w3. split; [done|]. clear Hrun2.
  unfold require_matching_request, raise_if. cbn [tk_request new_task]. rewrite Hreq.
  destruct (bool_decide _) eqn:Ec; bools; cbn.
  - left. exists t2. split; [done|]. split; [done|].
    apply canonical_request_inj in Ec. unfold same_request in *. congruence.
  - right. eexists. split; [done|]. intros Hs. apply Ec, canonical_request_inj.
    unfold same_request in *. congruence.
Qed.
End agent.

(** ** Sample runs

    A request, its approval and its receipt over the process-local store. *)
Definition sample_context : RecoveryDisplayContext := {|
  dc_merchant_display_name := "M"; dc_plan_name := "P"; dc_failure_explanation := "F";
  dc_invoice_state := "issued"; dc_payment_state := "FAILED"; dc_subscription_state := "PENDING";
  dc_provider_subscription_state := "PENDING"; dc_preferred_language := "en";
  dc_invoice_due_at := None; dc_recovery_deadline := utc_datetime day |}.
Definition sample_request : RecoveryRequestData := {|
  rq_protocol_version := "recovery.request.v2"; rq_idempotency_key := "k1"; rq_case_id := "c1";
  rq_merchant_id := "mer"; rq_customer_id := "cus"; rq_recovery_action_id := "a1";
  rq_failed_invoice_id := "i1"; rq_exact_amount_paise := 49900; rq_currency := "INR";
  rq_payment_surface_type := "SUBSCRIPTION_INVOICE_LINK"; rq_payment_surface_reference := "inv_1";
  rq_expires_at := utc_datetime day; rq_context := sample_context |}.
Definition sample_part : list (string * json) :=
  match request_dump sample_iso sample_request with JObj fields => fields | _ => [] end.
Definition sample_message : Message := {|
  msg_id := "k1"; msg_role := "ROLE_USER"; msg_parts := [sample_part]; msg_task_id := None;
  msg_context_id := None |}.
Definition sample_hmac (secret m : string) : string := pad_to 32 secret.
Definition sample_receipt_signer : RecoveryReceiptSigner :=
  {| rs_signer_key_id := "worker"; rs_seed := "wseed" |}.
Definition sample_service : CustomerAgentService := {|
  cs_signer := sample_signer; cs_receipt_keys := {[ "worker" := pad_to 32 "wseed" ]};
  cs_language_interpreter := fun _ _ => Err (RuntimeError "customer language interpretation is not configured");
  cs_mandate_ttl := 15 * minute; cs_approval_token_secret := Some "secret" |}.
Definition sample_receipt : RecoveryReceiptData := {|
  rd_protocol_version := "recovery.receipt.v2"; rd_receipt_id := "r1"; rd_signer_key_id := "worker";
  rd_task_id := "task_u1"; rd_mandate_id := "mandate_u3"; rd_merchant_id := "mer"; rd_case_id := "c1";
  rd_recovery_action_id := "a1"; rd_failed_invoice_id := "i1"; rd_exact_amount_paise := 49900;
  rd_currency := "INR"; rd_provider_reference := "pay_1"; rd_payment_state := "CAPTURED";
  rd_observed_at := utc_datetime 4000 |}.
Definition sample_signed_receipt : SignedRecoveryReceipt := Eval vm_compute in
  match sign_receipt sample_iso sample_float sample_receipt_signer sample_receipt with
  | Ok m => m
  | Err _ => {| sr_algorithm := ""; sr_data := sample_receipt; sr_signature := "" |}
  end.
Definition sample_receipt_part : list (string * json) :=
  match signed_receipt_dump sample_iso sample_signed_receipt with JObj fields => fields | _ => [] end.
Definition sample_receipt_message : Message := {|
  msg_id := "r1"; msg_role := "ROLE_USER"; msg_parts := [sample_receipt_part];
  msg_task_id := Some "task_u1"; msg_context_id := None |}.

#[local] Instance sample_tasks : TaskStore InMemoryTaskStore := memory_task_store sample_iso sample_float.
#[local] Instance sample_task_spec : TaskStoreSpec sample_iso sample_float InMemoryTaskStore :=
  memory_task_spec sample_iso sample_float.

Abbreviation sample_send := (send_message sample_iso sample_float sample_iso sample_int sample_datetime sample_service).
Abbreviation sample_decide := (decide_task sample_iso sample_float sample_iso sample_hmac sample_service).

Definition sample_world0 : shared InMemoryTaskStore :=
  {| sh_store := {| tm_tasks := ∅; tm_idempotency := ∅ |}; sh_rivals := [] |}.
Definition sample_world1 : shared InMemoryTaskStore :=
  snd (sample_send sample_message (utc_datetime 1000) "u1" "u2" sample_world0).
Definition sample_decision : ApprovalDecision := {|
  ad_approve := true; ad_merchant_id := "mer"; ad_case_id := "c1"; ad_exact_amount_paise := 49900;
  ad_payment_surface_reference := "inv_1" |}.
Definition sample_token : option string := Eval vm_compute in Some (b64_encode (pad_to 32 "secret")).
Definition result_or {A} (fallback : A) (r : result A) : A := match r with Ok a => a | Err _ => fallback end.
Definition sample_task0 : TaskRecord :=
  new_task sample_iso sample_message sample_request (utc_datetime 1000) "u1" "u2".
Definition sample_task1 : TaskRecord := Eval vm_compute in
  result_or sample_task0 (fst (sample_send sample_message (utc_datetime 1000) "u1" "u2" sample_world0)).
Definition sample_granted : TaskRecord := Eval vm_compute in
  result_or sample_task0 (fst (sample_decide "task_u1" sample_decision sample_token
    (utc_datetime 2000) (utc_datetime 2000) "u3" "n1" "u4" sample_world1)).
Definition sample_world2 : shared InMemoryTaskStore :=
  snd (sample_decide "task_u1" sample_decision sample_token
    (utc_datetime 2000) (utc_datetime 2000) "u3" "n1" "u4" sample_world1).
Definition sample_paid : TaskRecord := Eval vm_compute in
  result_or sample_task0 (fst (sample_send sample_receipt_message (utc_datetime 5000) "u5" "u6" sample_world2)).

Lemma sample_world0_ok : world_ok sample_iso sample_float sample_world0.
Proof. split; [split; cbn; intros ? ?; by rewrite lookup_empty|constructor]. Qed.
Lemma sample_world1_ok : world_ok sample_iso sample_float sample_world1.
Proof.
  pose proof (request_send sample_iso sample_float sample_iso sample_int sample_datetime sample_service
    sample_message (utc_datetime 1000) "u1" "u2" sample_world0 sample_world0_ok) as Hs.
  unfold sample_world1. destruct (sample_send _ _ _ _ sample_world0) as [r w]. by apply Hs.
Qed.
Lemma sample_world2_ok : world_ok sample_iso sample_float sample_world2.
Proof.
  pose proof (request_decide sample_iso sample_float sample_iso sample_hmac sample_service
    "task_u1" sample_decision sample_token (utc_datetime 2000) (utc_datetime 2000) "u3" "n1" "u4"
    sample_world1 sample_world1_ok I) as Hs.
  unfold sample_world2. destruct (sample_decide _ _ _ _ _ _ _ _ sample_world1) as [r w]. by apply Hs.
Qed.

Lemma agent_lifecycle_witness :
  world_ok sample_iso sample_float
    (snd (serve sample_iso sample_float sample_iso sample_int sample_datetime sample_hmac sample_service
            (CancelTask "task_u1" "stop" (fun _ => utc_datetime 3000) (fun _ => "u7")) sample_world2)).
Proof.
  apply (agent_lifecycle sample_iso sample_float sample_iso sample_int sample_datetime sample_hmac
    sample_service (CancelTask "task_u1" "stop" (fun _ => utc_datetime 3000) (fun _ => "u7")) sample_world2).
  - apply sample_world2_ok.
  - exact I.
Defined.


Lemma receipt_exact_and_idempotent_witness :
  verify_receipt sample_iso sample_float (cs_receipt_keys sample_service) sample_signed_receipt
    = Ok sample_receipt.
Proof.
  apply (receipt_exact_and_idempotent sample_iso sample_float sample_iso sample_int sample_datetime
    sample_service sample_receipt_message sample_receipt_part [] sample_signed_receipt
    (utc_datetime 5000) "u5" "u6" sample_world2 sample_paid
    (snd (sample_send sample_receipt_message (utc_datetime 5000) "u5" "u6" sample_world2))).
  - apply sample_world2_ok.
  - reflexivity.
  - split; vm_compute; reflexivity.
  - vm_compute. reflexivity.
  - vm_compute. reflexivity.
Defined.

Lemma request_opens_one_task_witness :
  let w2 := snd (sample_send sample_message (utc_datetime 1500) "u8" "u9" sample_world1) in
  sh_store w2 = next_store sample_world1.
Proof.
  apply (request_opens_one_task sample_iso sample_float sample_iso sample_int sample_datetime
    sample_service sample_message sample_message sample_part [] sample_part [] sample_request sample_request
    (utc_datetime 1000) (utc_datetime 1500) "u1" "u2" "u8" "u9" sample_world0 sample_world1 sample_task1
    sample_world1 (Ok sample_task1)
    (snd (sample_send sample_message (utc_datetime 1500) "u8" "u9" sample_world1))).
  - apply sample_world0_ok.
  - reflexivity.
  - reflexivity.
  - reflexivity.
  - vm_compute. reflexivity.
  - vm_compute. reflexivity.
  - vm_compute. reflexivity.
  - vm_compute. reflexivity.
  - reflexivity.
  - vm_compute. reflexivity.
  - vm_compute. reflexivity.
  - apply sample_world1_ok.
  - apply rtc_refl.
  - vm_compute. reflexivity.
Defined.
