(* ===== verification/A2ARuntime.v ===== *)
(** * The worker's A2A activities

    The JSON-RPC client of the customer agent and the activities built on it: the request
    rebuilt from the authoritative rows, the polling and verification of a mandate, and
    the payment receipt.  The HTTP exchange is a function from a payload to a body. *)
From S2P Require Import Prelude Domain Json Contracts Entities A2AModels NonceStore Mandates AgentModels.

(** [s.replace("Z", "+00:00")] *)
Fixpoint replace_z (s : string) : string :=
  match s with
  | EmptyString => EmptyString
  | String c s' => if Ascii.eqb c "Z" then "+00:00" +++ replace_z s' else String c (replace_z s')
  end.

(** [s.split()] and [" ".join(s.split())], on ASCII white space. *)
Fixpoint split_words (word : string) (s : string) : list string :=
  match s with
  | EmptyString => if bool_decide (word = EmptyString) then [] else [str_rev word]
  | String c s' =>
      if is_space c then
        (if bool_decide (word = EmptyString) then [] else [str_rev word]) ++ split_words EmptyString s'
      else split_words (String c word) s'
  end.
Definition words (s : string) : list string := split_words EmptyString s.

(** ** The client *)

(** src/services/api/app/providers/contracts.py:189-201 [CustomerAgentTask] *)
Record CustomerAgentTask : Type := {
  ct_remote_task_id : string;
  ct_state : string;
  ct_approval_path : option string;
  ct_artifact : option json;
  ct_updated_at : datetime;
}.

(** src/services/api/app/integrations/a2a/client.py:24-31 [_STATE_MAP] *)
Definition STATE_MAP (raw : string) : option string :=
  if bool_decide (raw = "TASK_STATE_SUBMITTED") then Some "SUBMITTED"
  else if bool_decide (raw = "TASK_STATE_WORKING") then Some "WORKING"
  else if bool_decide (raw = "TASK_STATE_AUTH_REQUIRED") then Some "AUTH_REQUIRED"
  else if bool_decide (raw = "TASK_STATE_COMPLETED") then Some "COMPLETED"
  else if bool_decide (raw = "TASK_STATE_FAILED") then Some "FAILED"
  else if bool_decide (raw = "TASK_STATE_CANCELED") then Some "CANCELED"
  else None.

Definition protocol_error {A} (msg : string) : result A := Err (RuntimeError msg).

(** src/services/api/app/integrations/a2a/client.py:209-212 [_object] *)
Definition object_ (value : json) (label : string) : result json :=
  if is_dict value then Ok value else protocol_error (label +++ " must be an object").

Section client.
Context `{Crypto}.
Context (iso : datetime -> string) (float_repr : Q -> string) (repr : json -> string).
Context (fromisoformat : string -> result datetime).
(** The body of the response to a JSON-RPC payload, or the error of the exchange. *)
Context (post : json -> result json).
Context (receipt_signer : RecoveryReceiptSigner).

(** src/services/api/app/integrations/a2a/client.py:166-206 [A2ACustomerAgentClient._map_task] *)
Definition map_task (clock : Z) (task : json) : result CustomerAgentTask :=
  status ← object_ (json_get "status" task) "task.status";
  let raw_state := py_str repr (default (JStr "")
    (match status with JObj fields => assoc_get "state" fields | _ => None end)) in
  state ← from_option (RuntimeError ("unsupported A2A task state: " +++ raw_state)) (STATE_MAP raw_state);
  let metadata := as_dict (json_get "metadata" task) in
  let updated_at_value := JsonText.json_or (json_get "updatedAt" metadata) (json_get "timestamp" status) in
  updated_at ← (if JsonText.json_truthy updated_at_value
                then fromisoformat (replace_z (py_str repr updated_at_value))
                else Ok (utc_datetime clock));
  artifact ← (match json_get "artifacts" task with
    | JArr (first :: _) =>
        first ← object_ first "task artifact";
        match json_get "parts" first with
        | JArr (part :: _) =>
            part ← object_ part "artifact part"; mret (Some (json_get "data" part))
        | _ => mret None
        end
    | _ => mret None
    end);
  let approval_path :=
    match json_get "parts" (json_get "message" status) with
    | JArr (first_part :: _) =>
        match json_get "approval_path" (json_get "data" first_part) with
        | JStr path => if bool_decide (path = "") then None else Some path
        | _ => None
        end
    | _ => None
    end in
  remote_task_id ← json_item "id" task;
  mret {| ct_remote_task_id := py_str repr remote_task_id; ct_state := state;
          ct_approval_path := approval_path;
          ct_artifact := match artifact with
                         | Some a => if is_dict a then Some a else None
                         | None => None
                         end;
          ct_updated_at := updated_at |}.

(** src/services/api/app/integrations/a2a/client.py:141-164 [A2ACustomerAgentClient._post] *)
Definition rpc_post (payload : json) (method : string) : result json :=
  response ← post payload;
  body ← object_ response "JSON-RPC response";
  match json_get "error" body with
  | JNull => object_ (json_get "result" body) "JSON-RPC result"
  | error =>
      detail ← object_ error "JSON-RPC error";
      let message := match detail with
        | JObj fields => default (JStr "unknown error") (assoc_get "message" fields)
        | _ => JNull
        end in
      protocol_error ("customer agent rejected " +++ method +++ ": " +++ py_str repr message)
  end.

(** src/services/api/app/integrations/a2a/client.py:129-139 [A2ACustomerAgentClient._rpc] *)
Definition rpc (uuid method : string) (params : json) : result json :=
  rpc_post (JObj [("jsonrpc", JStr "2.0"); ("id", JStr uuid); ("method", JStr method); ("params", params)])
    method.

(** src/services/api/app/integrations/a2a/client.py:55-69 [A2ACustomerAgentClient.send_recovery_request] *)
Definition send_recovery_request (uuid : string) (clock : Z) (request : RecoveryRequestData)
  : result CustomerAgentTask :=
  answer ← rpc uuid "SendMessage" (JObj [
    ("message", JObj [
      ("messageId", JStr (rq_idempotency_key request)); ("role", JStr "ROLE_USER");
      ("contextId", JStr ("recovery:" +++ rq_case_id request));
      ("parts", JArr [JObj [("data", request_dump iso request)]])]);
    ("configuration", JObj [("returnImmediately", JBool false)])]);
  task ← object_ (json_get "task" answer) "SendMessage result.task";
  map_task clock task.

(** src/services/api/app/integrations/a2a/client.py:71-73 [A2ACustomerAgentClient.get_task] *)
Definition client_get_task (uuid : string) (clock : Z) (remote_task_id : string) : result CustomerAgentTask :=
  answer ← rpc uuid "GetTask" (JObj [("id", JStr remote_task_id)]); map_task clock answer.

(** src/services/api/app/integrations/a2a/client.py:125-127 [A2ACustomerAgentClient.cancel_task] *)
Definition client_cancel_task (uuid : string) (clock : Z) (remote_task_id reason : string)
  : result CustomerAgentTask :=
  answer ← rpc uuid "CancelTask" (JObj [("id", JStr remote_task_id); ("reason", JStr reason)]);
  map_task clock answer.

(** src/services/api/app/integrations/a2a/client.py:92-105 [A2ACustomerAgentClient.send_payment_receipt] *)
Definition outgoing_receipt (remote_task_id mandate_id merchant_id case_id recovery_action_id
    failed_invoice_id : string) (exact_amount_paise : Z) (currency provider_reference : string)
    (observed_at : datetime) (idempotency_key : string) : RecoveryReceiptData := {|
  rd_protocol_version := "recovery.receipt.v2"; rd_receipt_id := idempotency_key;
  rd_signer_key_id := rs_signer_key_id receipt_signer; rd_task_id := remote_task_id;
  rd_mandate_id := mandate_id; rd_merchant_id := merchant_id; rd_case_id := case_id;
  rd_recovery_action_id := recovery_action_id; rd_failed_invoice_id := failed_invoice_id;
  rd_exact_amount_paise := exact_amount_paise; rd_currency := currency;
  rd_provider_reference := provider_reference; rd_payment_state := "CAPTURED";
  rd_observed_at := observed_at |}.

(** src/services/api/app/integrations/a2a/client.py:75-123 [A2ACustomerAgentClient.send_payment_receipt] *)
Definition client_send_receipt (uuid : string) (clock : Z) (data : RecoveryReceiptData)
  : result CustomerAgentTask :=
  receipt ← validate_receipt data;
  signed ← sign_receipt iso float_repr receipt_signer receipt;
  answer ← rpc uuid "SendMessage" (JObj [
    ("message", JObj [
      ("messageId", JStr (rd_receipt_id receipt)); ("role", JStr "ROLE_USER");
      ("taskId", JStr (rd_task_id receipt));
      ("parts", JArr [JObj [("data", signed_receipt_dump iso signed)]])])]);
  task_json ← object_ (json_get "task" answer) "SendMessage result.task";
  task ← map_task clock task_json;
  _ ← raise_if (negb (bool_decide (ct_remote_task_id task = rd_task_id receipt)))
        (RuntimeError "payment receipt response task ID does not match");
  _ ← raise_if (negb (bool_decide (ct_state task = "COMPLETED")))
        (RuntimeError "customer task did not complete after payment receipt");
  mret task.
End client.

(** ** The authoritative request *)

(** src/services/worker/app/a2a_runtime.py:62-74 [_FAILURE_EXPLANATIONS] *)
Definition FAILURE_EXPLANATIONS (d : Diagnosis) : string :=
  match d with
  | Diagnosis.TRANSIENT_RETRYABLE => "The payment provider reported a temporary processing issue."
  | Diagnosis.INSUFFICIENT_FUNDS => "The payment could not be completed with the payment method's available balance."
  | Diagnosis.AUTHENTICATION_REQUIRED => "The payment needs customer authentication before it can continue."
  | Diagnosis.INSTRUMENT_INVALID => "The saved payment method could not be used."
  | Diagnosis.MERCHANT_ERROR => "The payment setup needs merchant review."
  | Diagnosis.RISK_OR_COMPLIANCE_BLOCK => "The payment was blocked by a risk or compliance check."
  | Diagnosis.UNKNOWN => "The payment could not be completed; no verified reason is available yet."
  end.

(** src/services/worker/app/a2a_runtime.py:522-526 [_clean_display_value] *)
Definition clean_display_value (value : string) : result string :=
  let cleaned := String.concat " " (words value) in
  _ ← raise_if (bool_decide (cleaned = "")) (ValueError "A2A display context contains an empty display value");
  mret cleaned.

(** [result.one_or_none()] *)
Definition one_or_none {A} (rows : list A) : result (option A) :=
  match rows with
  | [] => Ok None
  | [row] => Ok (Some row)
  | _ => Err (RuntimeError "Multiple rows were found when one or none was required")
  end.

(** The rows a case is joined with. *)
Record scope_row : Type := {
  sw_case : RecoveryCase; sw_merchant : Merchant; sw_customer : Customer;
  sw_subscription : Subscription; sw_invoice : Invoice;
}.
Record action_row : Type := {
  aw_scope : scope_row; aw_action : RecoveryActionRecord; aw_policy : PolicyDecisionRecord;
}.

(** src/services/worker/app/a2a_runtime.py:115-125 [SqlAlchemyA2ADisplayContextLoader.load] *)
Definition scope_rows (d : Db) (case_id merchant_id customer_id : string) : list scope_row :=
  c ← List.filter (fun c => bool_decide (rc_id c = case_id) && bool_decide (rc_merchant_id c = merchant_id)
                            && bool_decide (rc_customer_id c = customer_id)) (db_cases d);
  m ← List.filter (fun m => bool_decide (mer_id m = rc_merchant_id c)) (db_merchants d);
  cu ← List.filter (fun cu => bool_decide (cus_id cu = rc_customer_id c)) (db_customers d);
  s ← List.filter (fun s => bool_decide (sub_id s = rc_subscription_id c)) (db_subscriptions d);
  i ← List.filter (fun i => bool_decide (Some (inv_id i) = rc_failed_invoice_id c)) (db_invoices d);
  [{| sw_case := c; sw_merchant := m; sw_customer := cu; sw_subscription := s; sw_invoice := i |}].

(** src/services/worker/app/a2a_runtime.py:195-216 [SqlAlchemyA2ADisplayContextLoader.load_authoritative_request] *)
Definition action_rows (d : Db) (case_id merchant_id customer_id failed_invoice_id recovery_action_id : string)
  : list action_row :=
  w ← scope_rows d case_id merchant_id customer_id;
  a ← List.filter (fun a => bool_decide (act_case_id a = rc_id (sw_case w))
                            && bool_decide (act_id a = recovery_action_id)) (db_actions d);
  p ← List.filter (fun p => bool_decide (pol_action_id p = Some (act_id a))
                            && bool_decide (pol_case_id p = rc_id (sw_case w))) (db_policies d);
  if bool_decide (inv_id (sw_invoice w) = failed_invoice_id)
  then [{| aw_scope := w; aw_action := a; aw_policy := p |}] else [].

(** src/services/worker/app/a2a_runtime.py:130-154 [SqlAlchemyA2ADisplayContextLoader.load] *)
Definition display_context (w : scope_row) : result RecoveryDisplayContext :=
  merchant_display_name ← clean_display_value (mer_display_name (sw_merchant w));
  plan_name ← clean_display_value (sub_plan_name (sw_subscription w));
  let c := {|
    dc_merchant_display_name := merchant_display_name; dc_plan_name := plan_name;
    dc_failure_explanation := FAILURE_EXPLANATIONS (rc_diagnosis (sw_case w));
    dc_invoice_state := inv_invoice_state (sw_invoice w);
    dc_payment_state := PaymentState_value (rc_payment_state (sw_case w));
    dc_subscription_state := SubscriptionState_value (rc_subscription_state (sw_case w));
    dc_provider_subscription_state := SubscriptionState_value (sub_subscription_state (sw_subscription w));
    dc_preferred_language := cus_preferred_language (sw_customer w);
    dc_invoice_due_at := utc_datetime <$> inv_due_at (sw_invoice w);
    dc_recovery_deadline := utc_datetime (rc_recovery_deadline (sw_case w)) |} in
  if display_context_ok c then Ok c else validation_error.

(** src/services/worker/app/a2a_runtime.py:94-154 [SqlAlchemyA2ADisplayContextLoader.load] *)
Definition load_display_context (d : Db) (case_id merchant_id customer_id : string)
  : result RecoveryDisplayContext :=
  row ← one_or_none (scope_rows d case_id merchant_id customer_id);
  match row with
  | None => Err (ValueError "A2A display context does not match the recovery case scope")
  | Some w => display_context w
  end.

(** src/services/api/app/providers/contracts.py:173-186 [CustomerAgentRecoveryRequest] *)
Definition outbound_request (r : RecoveryRequestData) : result RecoveryRequestData :=
  if bool_decide (rq_protocol_version r = "recovery.request.v2") && (0 <? rq_exact_amount_paise r)
  then Ok r else validation_error.

Section runtime.
Context `{Crypto}.
Context (iso : datetime -> string) (float_repr : Q -> string) (repr : json -> string).
Context (pyd_int : json -> option Z) (pyd_datetime : json -> option datetime).
Context (fromisoformat : string -> result datetime) (post : json -> result json).
Context (receipt_signer : RecoveryReceiptSigner).

(** src/services/worker/app/a2a_runtime.py:515-519 [_parse_instant] *)
Definition a2a_parse_instant (value : string) : result datetime :=
  instant ← fromisoformat (replace_z value);
  _ ← raise_if (negb (is_aware instant)) (ValueError "A2A recovery deadline must include a UTC offset");
  mret instant.

(** src/services/worker/app/a2a_runtime.py:250-270 [SqlAlchemyA2ADisplayContextLoader.load_authoritative_request] *)
Definition stale_or_unsafe (command : StartA2AAuthorizationInput) (row : action_row) (now deadline : datetime)
  : bool :=
  let c := sw_case (aw_scope row) in
  let i := sw_invoice (aw_scope row) in
  let outstanding_paise := inv_amount_paise i - inv_amount_paid_paise i in
  negb (bool_decide (rc_case_outcome c = CaseOutcome.OPEN))
  || bool_decide (rc_payment_state c = PaymentState.CAPTURED)
  || rc_case_recovered c
  || (rc_recovery_deadline c <=? dt_instant now)
  || negb (rc_recovery_deadline c =? dt_instant deadline)
  || negb (rc_amount_at_risk_paise c =? outstanding_paise)
  || negb (sa_exact_amount_paise command =? outstanding_paise)
  || negb (bool_decide (sa_currency command = inv_currency i))
  || negb (bool_decide (sa_payment_surface_type command
                        = PaymentSurfaceType_value PaymentSurfaceType.SUBSCRIPTION_INVOICE_LINK))
  || negb (bool_decide (sa_payment_surface_reference command = inv_provider_invoice_id i))
  || (bool_decide (is_Some (sa_provider_invoice_id command))
      && negb (bool_decide (sa_provider_invoice_id command = Some (inv_provider_invoice_id i))))
  || negb (bool_decide (act_action_type (aw_action row) = RecoveryActionType.SEND_TO_CUSTOMER_AGENT))
  || negb (mem (act_status (aw_action row)) [ActionStatus.PROPOSED; ActionStatus.SCHEDULED])
  || negb (mem (pol_disposition (aw_policy row)) [PolicyDisposition.ALLOW; PolicyDisposition.DELAY]).

(** src/services/worker/app/a2a_runtime.py:156-308 [SqlAlchemyA2ADisplayContextLoader.load_authoritative_request] *)
Definition load_authoritative_request (d : Db) (clock : datetime) (command : StartA2AAuthorizationInput)
  : result RecoveryRequestData :=
  match sa_recovery_action_id command, sa_failed_invoice_id command with
  | Some recovery_action_id, Some failed_invoice_id =>
      row ← one_or_none (action_rows d (sa_case_id command) (sa_merchant_id command)
                           (sa_customer_id command) failed_invoice_id recovery_action_id);
      match row with
      | None => Err (ValueError "A2A authoritative scope does not match persisted recovery data")
      | Some row =>
          _ ← raise_if (negb (is_aware clock))
                (ValueError "A2A context loader clock must be timezone-aware");
          deadline ← a2a_parse_instant (sa_recovery_deadline command);
          _ ← raise_if (stale_or_unsafe command row clock deadline)
                (ValueError "A2A authorization scope is stale or no longer safe");
          context ← display_context (aw_scope row);
          let i := sw_invoice (aw_scope row) in
          outbound_request {|
            rq_protocol_version := "recovery.request.v2";
            rq_idempotency_key := sa_idempotency_key command; rq_case_id := sa_case_id command;
            rq_merchant_id := sa_merchant_id command; rq_customer_id := sa_customer_id command;
            rq_recovery_action_id := act_id (aw_action row); rq_failed_invoice_id := inv_id i;
            rq_exact_amount_paise := inv_amount_paise i - inv_amount_paid_paise i;
            rq_currency := inv_currency i;
            rq_payment_surface_type := PaymentSurfaceType_value PaymentSurfaceType.SUBSCRIPTION_INVOICE_LINK;
            rq_payment_surface_reference := inv_provider_invoice_id i;
            rq_expires_at := utc_datetime (rc_recovery_deadline (sw_case (aw_scope row)));
            rq_context := context |}
      end
  | _, _ => Err (ValueError "A2A v2 requires a durable action and failed invoice")
  end.

(** ** The activities *)

(** A loader that rebuilds the whole request, or one that only knows the display context. *)
Inductive display_loader : Type :=
| SqlLoader
| OtherLoader (load : string -> string -> string -> result RecoveryDisplayContext).

(** src/services/worker/app/a2a_runtime.py:320-354 [LiveA2AMandateActivityServices.start_authorization] *)
Definition authorization_request (loader : display_loader) (d : Db) (clock : datetime)
    (command : StartA2AAuthorizationInput) : result RecoveryRequestData :=
  match loader with
  | SqlLoader => load_authoritative_request d clock command
  | OtherLoader load =>
      match sa_recovery_action_id command, sa_failed_invoice_id command with
      | Some recovery_action_id, Some failed_invoice_id =>
          deadline ← a2a_parse_instant (sa_recovery_deadline command);
          context ← load (sa_case_id command) (sa_merchant_id command) (sa_customer_id command);
          _ ← (if mem (sa_payment_surface_type command)
                    (map PaymentSurfaceType_value [PaymentSurfaceType.SUBSCRIPTION_CARD_UPDATE;
                       PaymentSurfaceType.SUBSCRIPTION_INVOICE_LINK;
                       PaymentSurfaceType.STANDARD_PAYMENT_LINK])
                then Ok tt else Err (ValueError "is not a valid PaymentSurfaceType"));
          outbound_request {|
            rq_protocol_version := "recovery.request.v2";
            rq_idempotency_key := sa_idempotency_key command; rq_case_id := sa_case_id command;
            rq_merchant_id := sa_merchant_id command; rq_customer_id := sa_customer_id command;
            rq_recovery_action_id := recovery_action_id; rq_failed_invoice_id := failed_invoice_id;
            rq_exact_amount_paise := sa_exact_amount_paise command;
            rq_currency := sa_currency command;
            rq_payment_surface_type := sa_payment_surface_type command;
            rq_payment_surface_reference := sa_payment_surface_reference command;
            rq_expires_at := deadline; rq_context := context |}
      | _, _ => Err (ValueError "A2A v2 requires a durable action and failed invoice")
      end
  end.

(** src/services/worker/app/a2a_runtime.py:320-360 [LiveA2AMandateActivityServices.start_authorization] *)
Definition start_authorization (loader : display_loader) (d : Db) (clock : datetime) (uuid : string)
    (command : StartA2AAuthorizationInput) : result A2AAuthorizationResult :=
  request ← authorization_request loader d clock command;
  task ← send_recovery_request iso repr fromisoformat post uuid (dt_instant clock) request;
  mret {| aa_remote_task_id := ct_remote_task_id task; aa_state := ct_state task;
          aa_approval_path := ct_approval_path task |}.

(** src/services/worker/app/a2a_runtime.py:504-512 [_rejected] *)
Definition poll_rejected (command : PollA2AMandateInput) (task_state reason_code : string)
  : A2AMandatePollResult := {|
  mp_remote_task_id := pm_remote_task_id command; mp_task_state := task_state;
  mp_verification_status := "REJECTED"; mp_mandate_id := None; mp_verified_artifact := None;
  mp_reason_code := Some reason_code |}.

(** src/services/worker/app/a2a_runtime.py:389-400 [LiveA2AMandateActivityServices.poll_and_verify_mandate] *)
Definition expected_scope (command : PollA2AMandateInput) (recovery_action_id failed_invoice_id : string)
  : ExpectedMandateScope := {|
  es_task_id := pm_remote_task_id command; es_merchant_id := pm_merchant_id command;
  es_case_id := pm_case_id command; es_customer_id := pm_customer_id command;
  es_recovery_action_id := recovery_action_id; es_failed_invoice_id := failed_invoice_id;
  es_exact_amount_paise := pm_exact_amount_paise command; es_currency := pm_currency command;
  es_payment_surface_type := pm_payment_surface_type command;
  es_payment_surface_reference := pm_payment_surface_reference command |}.

(** src/services/worker/app/a2a_runtime.py:389-416 [LiveA2AMandateActivityServices.poll_and_verify_mandate] *)
Definition verify_polled {S} `{NonceStore S} (v : MandateVerifier) (clock : datetime)
    (command : PollA2AMandateInput) (task : CustomerAgentTask) (signed : SignedMandate)
    (recovery_action_id failed_invoice_id : string) : stx S A2AMandatePollResult := fun s =>
  match verify_and_consume iso float_repr pyd_int pyd_datetime v (TypedMandate signed)
          (expected_scope command recovery_action_id failed_invoice_id) (Some clock) 0 s with
  | (Ok verified, s') =>
      (Ok {| mp_remote_task_id := ct_remote_task_id task; mp_task_state := ct_state task;
             mp_verification_status := "VERIFIED";
             mp_mandate_id := Some (md_mandate_id (vm_data verified));
             mp_verified_artifact := Some (signed_mandate_dump iso signed);
             mp_reason_code := None |}, s')
  | (Err (MandateVerificationError code _), s') => (Ok (poll_rejected command (ct_state task) code), s')
  | (Err e, s') => (Err e, s')
  end.

(** src/services/worker/app/a2a_runtime.py:362-416 [LiveA2AMandateActivityServices.poll_and_verify_mandate] *)
Definition poll_and_verify_mandate {S} `{NonceStore S} (v : MandateVerifier) (clock : datetime)
    (uuid : string) (command : PollA2AMandateInput) : stx S A2AMandatePollResult :=
  task ← lift (client_get_task repr fromisoformat post uuid (dt_instant clock) (pm_remote_task_id command));
  if negb (bool_decide (ct_remote_task_id task = pm_remote_task_id command)) then
    mret (poll_rejected command (ct_state task) "A2A_TASK_ID_MISMATCH")
  else if mem (ct_state task) ["SUBMITTED"; "AUTH_REQUIRED"] then
    mret {| mp_remote_task_id := ct_remote_task_id task; mp_task_state := ct_state task;
            mp_verification_status := "PENDING"; mp_mandate_id := None;
            mp_verified_artifact := None; mp_reason_code := None |}
  else if mem (ct_state task) ["FAILED"; "CANCELED"; "COMPLETED"] then
    mret (poll_rejected command (ct_state task) ("A2A_TASK_" +++ ct_state task))
  else
    match ct_artifact task with
    | None => mret (poll_rejected command (ct_state task) "MISSING_MANDATE_ARTIFACT")
    | Some artifact =>
        match pm_recovery_action_id command, pm_failed_invoice_id command with
        | Some recovery_action_id, Some failed_invoice_id =>
            match parse_signed_mandate pyd_int pyd_datetime artifact with
            | Err _ => mret (poll_rejected command (ct_state task) "MALFORMED_MANDATE")
            | Ok signed =>
                deadline ← lift (a2a_parse_instant (pm_recovery_deadline command));
                later ← lift (dt_lt deadline (md_expires_at (sm_data signed)));
                if (later : bool)
                then mret (poll_rejected command (ct_state task) "EXPIRES_AFTER_RECOVERY_DEADLINE")
                else verify_polled v clock command task signed recovery_action_id failed_invoice_id
            end
        | _, _ => mret (poll_rejected command (ct_state task) "DURABLE_ACTION_SCOPE_REQUIRED")
        end
    end.

(** src/services/worker/app/a2a_runtime.py:418-443 [LiveA2AMandateActivityServices.send_payment_receipt] *)
Definition send_payment_receipt (clock : Z) (uuid : string) (command : SendA2APaymentReceiptInput)
  : result A2APaymentReceiptResult :=
  observed_at ← a2a_parse_instant (Contracts.rc_observed_at command);
  match Contracts.rc_recovery_action_id command, Contracts.rc_failed_invoice_id command with
  | Some recovery_action_id, Some failed_invoice_id =>
      task ← client_send_receipt iso float_repr repr fromisoformat post receipt_signer uuid clock
        (outgoing_receipt receipt_signer (Contracts.rc_remote_task_id command) (Contracts.rc_mandate_id command)
           (Contracts.rc_merchant_id command) (Contracts.rc_case_id command) recovery_action_id failed_invoice_id
           (Contracts.rc_exact_amount_paise command) (Contracts.rc_currency command) (Contracts.rc_provider_reference command)
           observed_at (Contracts.rc_idempotency_key command));
      mret {| rr_remote_task_id := ct_remote_task_id task; rr_task_state := ct_state task;
              rr_delivered := bool_decide (ct_state task = "COMPLETED") |}
  | _, _ => Err (ValueError "A2A v2 receipt requires durable action and failed invoice scope")
  end.

(** src/services/worker/app/a2a_runtime.py:487-501 [create_live_a2a_services_from_env] *)
Definition live_a2a_configured (env : string -> option string) : result (option string) :=
  let bearer_token := str_strip (default "" (env "CUSTOMER_AGENT_S2S_BEARER_TOKEN")) in
  let app_env := str_lower (str_strip (default "development" (env "APP_ENV"))) in
  _ ← raise_if (bool_decide (bearer_token = "") && bool_decide (app_env = "production"))
        (ValueError "live A2A requires CUSTOMER_AGENT_S2S_BEARER_TOKEN");
  mret (if bool_decide (bearer_token = "") then None else Some bearer_token).
End runtime.

(** ** The mock services *)

(** src/services/worker/app/a2a_runtime.py:446-453 [MockA2AMandateActivityServices] *)
Record MockA2AServices : Type := {
  mk_poll_results : list A2AMandatePollResult;
  mk_started : list StartA2AAuthorizationInput;
  mk_polls : list PollA2AMandateInput;
  mk_receipts : list SendA2APaymentReceiptInput;
}.
#[export] Instance eta_mock : Eta MockA2AServices := fun s =>
  {| mk_poll_results := mk_poll_results s; mk_started := mk_started s; mk_polls := mk_polls s;
     mk_receipts := mk_receipts s |}.
#[export] Instance receipt_input_eq_dec : EqDecision SendA2APaymentReceiptInput.
Proof. solve_decision. Defined.

(** src/services/worker/app/a2a_runtime.py:455-463 [MockA2AMandateActivityServices.start_authorization] *)
Definition mock_start_authorization (command : StartA2AAuthorizationInput)
  : stx MockA2AServices A2AAuthorizationResult :=
  _ ← modS (fun s => s <| mk_started ::= fun l => l ++ [command] |>);
  mret {| aa_remote_task_id := "mock-a2a:" +++ sa_case_id command; aa_state := "AUTH_REQUIRED";
          aa_approval_path := Some ("/a2a/mock-a2a:" +++ sa_case_id command) |}.

(** src/services/worker/app/a2a_runtime.py:465-473 [MockA2AMandateActivityServices.poll_and_verify_mandate] *)
Definition mock_poll (command : PollA2AMandateInput) : stx MockA2AServices A2AMandatePollResult := fun s =>
  let s := s <| mk_polls ::= fun l => l ++ [command] |> in
  match mk_poll_results s with
  | r :: rest => (Ok r, s <| mk_poll_results := rest |>)
  | [] => (Ok {| mp_remote_task_id := pm_remote_task_id command; mp_task_state := "AUTH_REQUIRED";
                 mp_verification_status := "PENDING"; mp_mandate_id := None;
                 mp_verified_artifact := None; mp_reason_code := None |}, s)
  end.

(** src/services/worker/app/a2a_runtime.py:475-484 [MockA2AMandateActivityServices.send_payment_receipt] *)
Definition mock_send_receipt (command : SendA2APaymentReceiptInput)
  : stx MockA2AServices A2APaymentReceiptResult :=
  _ ← modS (fun s => if mem command (mk_receipts s) then s
                     else s <| mk_receipts ::= fun l => l ++ [command] |>);
  mret {| rr_remote_task_id := Contracts.rc_remote_task_id command; rr_task_state := "COMPLETED";
          rr_delivered := true |}.
