(* ===== verification/A2ARuntimeFacts.v ===== *)
(** * The worker's A2A activities: theorems

    The authorization request is exactly the authoritative state, a poll reports a
    verified mandate only when one was verified and consumed, and an approval by the
    customer agent is a verified mandate for the worker. *)
From S2P Require Import Prelude Domain Json JsonText Base64 Contracts Entities A2AModels NonceStore Mandates A2ASamples MandatesFacts AgentModels AgentStore CustomerAgent CustomerAgentFacts A2ARuntime.

Section facts.
Context `{CryptoLaws}.
Context (iso : datetime -> string) (float_repr : Q -> string) (repr : json -> string).
Context (pyd_int : json -> option Z) (pyd_datetime : json -> option datetime).
Context (fromisoformat : string -> result datetime) (post : json -> result json).

(** ** The request *)

Lemma one_or_none_Some {A} (rows : list A) row : one_or_none rows = Ok (Some row) <-> rows = [row].
Proof. destruct rows as [|x [|y l]]; cbn; naive_solver. Qed.

(** The rows of one authorization. *)
Record joined (d : Db) (row : action_row) : Prop := {
  jo_case : sw_case (aw_scope row) ∈ db_cases d;
  jo_merchant : sw_merchant (aw_scope row) ∈ db_merchants d
    /\ mer_id (sw_merchant (aw_scope row)) = rc_merchant_id (sw_case (aw_scope row));
  jo_customer : sw_customer (aw_scope row) ∈ db_customers d
    /\ cus_id (sw_customer (aw_scope row)) = rc_customer_id (sw_case (aw_scope row));
  jo_invoice : sw_invoice (aw_scope row) ∈ db_invoices d
    /\ rc_failed_invoice_id (sw_case (aw_scope row)) = Some (inv_id (sw_invoice (aw_scope row)));
  jo_action : aw_action row ∈ db_actions d
    /\ act_case_id (aw_action row) = rc_id (sw_case (aw_scope row));
  jo_policy : aw_policy row ∈ db_policies d
    /\ pol_action_id (aw_policy row) = Some (act_id (aw_action row))
    /\ pol_case_id (aw_policy row) = rc_id (sw_case (aw_scope row));
}.

Lemma elem_filter_bool {A} (p : A -> bool) l x : x ∈ List.filter p l <-> x ∈ l /\ p x = true.
Proof. rewrite !list_elem_of_In. apply filter_In. Qed.

Lemma action_rows_joined d case_id merchant_id customer_id invoice_id action_id row :
  row ∈ action_rows d case_id merchant_id customer_id invoice_id action_id ->
  joined d row
  /\ rc_id (sw_case (aw_scope row)) = case_id /\ rc_merchant_id (sw_case (aw_scope row)) = merchant_id
  /\ rc_customer_id (sw_case (aw_scope row)) = customer_id
  /\ inv_id (sw_invoice (aw_scope row)) = invoice_id /\ act_id (aw_action row) = action_id.
Proof.
  unfold action_rows, scope_rows. intros Hr.
  repeat setoid_rewrite list_elem_of_bind in Hr.
  destruct Hr as (w & Hr & (c & Hw & (Hc & Hcp)%elem_filter_bool)).
  destruct Hr as (a & Hr & (Ha & Hap)%elem_filter_bool).
  destruct Hr as (p & Hr & (Hp & Hpp)%elem_filter_bool).
  destruct Hw as (m & Hw & (Hm & Hmp)%elem_filter_bool).
  destruct Hw as (cu & Hw & (Hcu & Hcup)%elem_filter_bool).
  destruct Hw as (sb & Hw & (Hs & Hsp)%elem_filter_bool).
  destruct Hw as (i & Hw%list_elem_of_singleton & (Hi & Hip)%elem_filter_bool). subst w.
  destruct (bool_decide _) eqn:E in Hr; [|by apply elem_of_nil in Hr].
  apply list_elem_of_singleton in Hr as ->. cbn in *. bools.
  split; [split; cbn; auto|]. auto.
Qed.

(** The state of the recovery the customer may be asked about. *)
Record authorizable (command : StartA2AAuthorizationInput) (row : action_row) (clock : datetime) : Prop := {
  az_open : rc_case_outcome (sw_case (aw_scope row)) = CaseOutcome.OPEN;
  az_unpaid : rc_payment_state (sw_case (aw_scope row)) <> PaymentState.CAPTURED
    /\ rc_case_recovered (sw_case (aw_scope row)) = false;
  az_deadline : dt_instant clock < rc_recovery_deadline (sw_case (aw_scope row));
  az_amount : sa_exact_amount_paise command = rc_amount_at_risk_paise (sw_case (aw_scope row))
    /\ sa_exact_amount_paise command = inv_amount_paise (sw_invoice (aw_scope row))
                                       - inv_amount_paid_paise (sw_invoice (aw_scope row));
  az_surface : sa_currency command = inv_currency (sw_invoice (aw_scope row))
    /\ sa_payment_surface_type command = PaymentSurfaceType_value PaymentSurfaceType.SUBSCRIPTION_INVOICE_LINK
    /\ sa_payment_surface_reference command = inv_provider_invoice_id (sw_invoice (aw_scope row));
  az_action : act_action_type (aw_action row) = RecoveryActionType.SEND_TO_CUSTOMER_AGENT
    /\ act_status (aw_action row) ∈ [ActionStatus.PROPOSED; ActionStatus.SCHEDULED];
  az_policy : pol_disposition (aw_policy row) ∈ [PolicyDisposition.ALLOW; PolicyDisposition.DELAY];
}.

Lemma not_stale command row clock deadline : stale_or_unsafe command row clock deadline = false ->
  authorizable command row clock
  /\ rc_recovery_deadline (sw_case (aw_scope row)) = dt_instant deadline.
Proof.
  unfold stale_or_unsafe. intros Hs. rewrite !orb_false_iff in Hs.
  repeat match goal with H : _ /\ _ |- _ => destruct H end. bools.
  repeat match goal with
  | H : mem _ _ = true |- _ => apply mem_true in H
  | H : ~ (_ <> _) |- _ => apply dec_stable in H
  end.
  split; [|done]. split; try done; split; try done; lia.
Qed.

(** the request sent to the customer agent is the authoritative state of one open case:
    it carries the outstanding amount of the failed invoice, equal to the amount at risk
    and to the amount the workflow asked for, its currency and its provider reference; the
    case is open, unpaid and within its deadline, which is the expiry of the request; and a
    policy decision of the case let the proposed or scheduled action through. *)
Theorem authorization_request_exact d clock command r :
  load_authoritative_request fromisoformat d clock command = Ok r ->
  exists row, joined d row /\ authorizable command row clock
  /\ Some (act_id (aw_action row)) = sa_recovery_action_id command
  /\ rq_case_id r = rc_id (sw_case (aw_scope row)) /\ rq_case_id r = sa_case_id command
  /\ rq_merchant_id r = rc_merchant_id (sw_case (aw_scope row))
  /\ rq_customer_id r = rc_customer_id (sw_case (aw_scope row))
  /\ rq_recovery_action_id r = act_id (aw_action row)
  /\ Some (rq_failed_invoice_id r) = rc_failed_invoice_id (sw_case (aw_scope row))
  /\ rq_exact_amount_paise r = sa_exact_amount_paise command /\ 0 < rq_exact_amount_paise r
  /\ rq_currency r = inv_currency (sw_invoice (aw_scope row))
  /\ rq_payment_surface_reference r = inv_provider_invoice_id (sw_invoice (aw_scope row))
  /\ rq_expires_at r = utc_datetime (rc_recovery_deadline (sw_case (aw_scope row)))
  /\ rq_idempotency_key r = sa_idempotency_key command.
Proof.
  unfold load_authoritative_request.
  destruct (sa_recovery_action_id command) as [action_id|] eqn:Ea; [|done].
  destruct (sa_failed_invoice_id command) as [invoice_id|] eqn:Ei; [|done].
  intros Hl. apply bind_Ok in Hl as ([row|] & Hrow & Hl); [|done].
  apply one_or_none_Some in Hrow.
  destruct (action_rows_joined d (sa_case_id command) (sa_merchant_id command) (sa_customer_id command)
    invoice_id action_id row) as (Hj & Hc & Hm & Hcu & Hinv & Hact); [rewrite Hrow; left|].
  apply bind_Ok in Hl as ([] & _ & Hl). apply bind_Ok in Hl as (deadline & _ & Hl).
  apply bind_Ok in Hl as ([] & Hs%raise_if_Ok & Hl). apply not_stale in Hs as [Haz Hd].
  apply bind_Ok in Hl as (context & _ & Hl). unfold outbound_request in Hl.
  destruct (_ && _) eqn:Eo in Hl; [|done]. injection Hl as <-. bools. cbn in *.
  exists row. destruct (jo_invoice _ _ Hj) as [_ Hfi]. destruct (az_amount _ _ _ Haz) as [Ha1 Ha2].
  split_and!; try done; try congruence; lia.
Qed.

(** ** The poll *)

Section poll.
Context {S : Type} `{NonceStoreSpec S}.

Abbreviation poll := (poll_and_verify_mandate iso float_repr repr pyd_int pyd_datetime fromisoformat post).

(** a poll reports a verified mandate only for the task it asked about, while that task is
    working, with an artifact that is a mandate signed by a pinned key, in exactly the
    scope of the command and expiring no later than its recovery deadline, which the nonce
    store then holds; any other outcome of a poll consumes nothing. *)
Theorem poll_verifies_or_keeps v clock uuid command (s : S) r s' :
  store_ok s -> poll v clock uuid command s = (r, s') ->
  match r with
  | Ok res =>
      (mp_verification_status res = "VERIFIED" /\ exists task signed deadline,
        client_get_task repr fromisoformat post uuid (dt_instant clock) (pm_remote_task_id command) = Ok task
        /\ ct_remote_task_id task = pm_remote_task_id command
        /\ mem (ct_state task) ["SUBMITTED"; "AUTH_REQUIRED"; "FAILED"; "CANCELED"; "COMPLETED"] = false
        /\ authentic iso float_repr v signed clock
        /\ (exists action invoice, pm_recovery_action_id command = Some action
            /\ pm_failed_invoice_id command = Some invoice
            /\ in_scope (sm_data signed) (expected_scope command action invoice))
        /\ a2a_parse_instant fromisoformat (pm_recovery_deadline command) = Ok deadline
        /\ dt_instant (md_expires_at (sm_data signed)) <= dt_instant deadline
        /\ mp_mandate_id res = Some (md_mandate_id (sm_data signed))
        /\ {| ck_claim := sha256_hex (canonical_json iso float_repr (sm_data signed));
              ck_nonce := md_nonce (sm_data signed); ck_mandate := md_mandate_id (sm_data signed) |}
           ∈ store_held s')
      \/ (mp_verification_status res <> "VERIFIED" /\ s' = s)
  | Err _ => s' = s
  end.
Proof.
  intros Hs. unfold poll_and_verify_mandate, mbind, stx_bind, lift.
  destruct (client_get_task _ _ _ _ _ _) as [task|e] eqn:Et; [|by intros [= <- <-]].
  destruct (bool_decide (ct_remote_task_id task = _)) eqn:Eid; cbn [negb];
    [|intros [= <- <-]; by right]. bools.
  destruct (mem _ ["SUBMITTED"; "AUTH_REQUIRED"]) eqn:E1; [intros [= <- <-]; by right|].
  destruct (mem _ ["FAILED"; "CANCELED"; "COMPLETED"]) eqn:E2; [intros [= <- <-]; by right|].
  destruct (ct_artifact task) as [artifact|]; [|intros [= <- <-]; by right].
  destruct (pm_recovery_action_id command) as [action|] eqn:Ea; [|intros [= <- <-]; by right].
  destruct (pm_failed_invoice_id command) as [invoice|] eqn:Ei; [|intros [= <- <-]; by right].
  destruct (parse_signed_mandate _ _ artifact) as [signed|] eqn:Ep; [|intros [= <- <-]; by right].
  destruct (a2a_parse_instant _ _) as [deadline|] eqn:Ed; [|by intros [= <- <-]].
  destruct (dt_lt deadline _) as [[]|] eqn:El; [intros [= <- <-]; by right| |by intros [= <- <-]].
  assert (read_envelope pyd_int pyd_datetime (RawMandate artifact) = Ok signed) as Hread
    by (cbn -[parse_signed_mandate]; by rewrite Ep).
  assert (validate_mandate (sm_data signed) = Ok (sm_data signed)) as Hval
    by exact (read_valid pyd_int pyd_datetime (RawMandate artifact) signed I Hread).
  unfold verify_polled.
  pose proof (accept_sound iso float_repr pyd_int pyd_datetime v (TypedMandate signed)
    (expected_scope command action invoice) (Some clock) 0 s Hval Hs) as Hacc.
  destruct (verify_and_consume _ _ _ _ v _ _ _ 0 s) as [[vm|e] s1].
  - intros [= <- <-]. left. split; [done|]. exists task, signed, deadline.
    destruct Hacc as [(m & [= <-] & Hdata & _ & Hau) Hsc [_ Hcl] Hst]. rewrite Hdata in *.
    split_and!; try done.
    + apply mem_false. apply mem_false in E1, E2. set_solver.
    + eauto.
    + unfold dt_lt in El. case_bool_decide; [|done]. injection El as El. by apply Z.ltb_ge in El.
    + rewrite <- Hcl. destruct Hst as [(_ & _ & Hh)|[-> Hh]]; [|done]. apply Hh. by left.
  - subst s1. destruct e; intros [= <- <-]; try done. by right.
Qed.
End poll.

(** ** From the approval to the verified mandate *)

Section end_to_end.
Context (isoformat : datetime -> string) (hmac_sha256 : string -> string -> string).
Context `{!PydanticRoundTrip iso pyd_int pyd_datetime}.
Context {T : Type} `{Spec : TaskStoreSpec iso float_repr T}.
Context (service : CustomerAgentService) (references_exist : MandateNonceClaim -> bool).
#[local] Instance worker_store : NonceStore (list A2AMandateNonceConsumption) := sql_store references_exist.

(** The answer of the agent to [GetTask]. *)
Definition agent_answer (u : TaskRecord) : json := JObj [
  ("jsonrpc", JStr "2.0"); ("id", JStr "1");
  ("result", public_task iso float_repr isoformat hmac_sha256 service u None)].

(** The poll of the workflow for a request the agent answered with a task. *)
Definition poll_command (u : TaskRecord) (deadline : string) : PollA2AMandateInput :=
  let q := tk_request u in
  {| pm_remote_task_id := tk_id u; pm_case_id := rq_case_id q; pm_merchant_id := rq_merchant_id q;
     pm_customer_id := rq_customer_id q; pm_exact_amount_paise := rq_exact_amount_paise q;
     pm_currency := rq_currency q; pm_payment_surface_type := rq_payment_surface_type q;
     pm_payment_surface_reference := rq_payment_surface_reference q;
     pm_recovery_deadline := deadline; pm_recovery_action_id := Some (rq_recovery_action_id q);
     pm_failed_invoice_id := Some (rq_failed_invoice_id q); pm_provider_invoice_id := None |}.

(** The client reads a granted task back. *)
Lemma granted_reads t signed now uuid n clock uuid2 :
  let u := with_revision n (granted iso isoformat t signed now uuid) in
  (forall payload, post payload = Ok (agent_answer u)) ->
  fromisoformat (replace_z (isoformat now)) = Ok now ->
  isoformat now <> "" ->
  client_get_task repr fromisoformat post uuid2 clock (tk_id u) = Ok
    {| ct_remote_task_id := tk_id u; ct_state := "WORKING"; ct_approval_path := None;
       ct_artifact := Some (signed_mandate_dump iso signed); ct_updated_at := now |}.
Proof.
  intros u Hpost Hiso Hne. unfold client_get_task, rpc, rpc_post. rewrite Hpost.
  unfold agent_answer, public_task, public_dict. change (tk_updated_at u) with now.
  unfold u, granted, enter, status_of, map_task. generalize dependent replace_z. intros parse Hiso.
  destruct (isoformat now) as [|c text]; [done|].
  clear Hpost Hne u. destruct t. vm_compute. by rewrite Hiso.
Qed.

Abbreviation worker_poll := (poll_and_verify_mandate iso float_repr repr pyd_int pyd_datetime fromisoformat post).

End end_to_end.
End facts.

(** ** Sample runs *)

Definition sample_fromiso (s : string) : result datetime :=
  match sample_datetime (JStr s) with Some d => Ok d | None => Err (ValueError "Invalid isoformat string") end.
Definition sample_repr (v : json) : string := "".

Definition sample_command : StartA2AAuthorizationInput := {|
  sa_case_id := "c1"; sa_merchant_id := "mer"; sa_customer_id := "cus"; sa_exact_amount_paise := 49900;
  sa_currency := "INR"; sa_payment_surface_type := "SUBSCRIPTION_INVOICE_LINK";
  sa_payment_surface_reference := "inv_1"; sa_recovery_deadline := sample_iso (utc_datetime day);
  sa_idempotency_key := "k1"; sa_recovery_action_id := Some "a1"; sa_failed_invoice_id := Some "i1";
  sa_provider_invoice_id := Some "inv_1" |}.
Definition sample_db : Db := empty_db
  <| db_merchants := [{| mer_id := "mer"; mer_external_id := "mer"; mer_display_name := " M  &  Co "; mer_timezone := "Asia/Kolkata";
                         mer_currency := "INR" |}] |>
  <| db_customers := [{| cus_id := "cus"; cus_merchant_id := "mer"; cus_external_id := "x"; cus_display_name := "C";
                         cus_phone_token := None; cus_preferred_language := "en";
                         cus_voice_consent_at := None; cus_opted_out_at := None;
                         cus_customer_agent_available := true; cus_created_at := 0 |}] |>
  <| db_subscriptions := [{| sub_id := "s1"; sub_merchant_id := "mer"; sub_customer_id := "cus";
                             sub_provider_subscription_id := "sub_1"; sub_plan_name := "Plan";
                             sub_amount_paise := 49900; sub_currency := "INR";
                             sub_subscription_state := SubscriptionState.PENDING;
                             sub_current_billing_cycle_key := None |}] |>
  <| db_invoices := [{| inv_id := "i1"; inv_merchant_id := "mer"; inv_subscription_id := "s1";
                        inv_provider_invoice_id := "inv_1"; inv_billing_cycle_key := "b";
                        inv_amount_paise := 49900; inv_amount_paid_paise := 0; inv_currency := "INR";
                        inv_invoice_state := "issued"; inv_due_at := None |}] |>
  <| db_cases := [{| rc_id := "c1"; rc_merchant_id := "mer"; rc_customer_id := "cus";
                     rc_subscription_id := "s1"; rc_failed_invoice_id := Some "i1";
                     rc_billing_cycle_key := None; rc_failed_payment_id := None;
                     rc_case_outcome := CaseOutcome.OPEN; rc_payment_state := PaymentState.FAILED;
                     rc_subscription_state := SubscriptionState.PENDING;
                     rc_contact_disposition := ContactDisposition.NOT_CONTACTED;
                     rc_revenue_attribution := RevenueAttribution.NONE;
                     rc_diagnosis := Diagnosis.UNKNOWN; rc_amount_at_risk_paise := 49900;
                     rc_arrears_collected_paise := 0; rc_case_recovered := false;
                     rc_subscription_reactivated := false; rc_opened_at := 0;
                     rc_recovery_deadline := day; rc_recovered_at := None; rc_version := 1 |}] |>
  <| db_actions := [{| act_id := "a1"; act_case_id := "c1";
                       act_action_type := RecoveryActionType.SEND_TO_CUSTOMER_AGENT;
                       act_payment_surface_type := Some PaymentSurfaceType.SUBSCRIPTION_INVOICE_LINK;
                       act_status := ActionStatus.SCHEDULED; act_idempotency_key := "ak";
                       act_scheduled_for := None; act_external_reference := None; act_customer_url := None; 
                       act_completed_at := None; act_created_at := 0;
                       act_updated_at := 0 |}] |>
  <| db_policies := [{| pol_id := "p1"; pol_case_id := "c1"; pol_action_id := Some "a1";
                        pol_disposition := PolicyDisposition.ALLOW; pol_decision_code := "ALLOW";
                        pol_reason_codes := []; pol_reasons := []; pol_policy_version := "v1";
                        pol_delay_until := None; pol_created_at := 0 |}] |>.
Definition sample_loaded : RecoveryRequestData := Eval vm_compute in
  match load_authoritative_request sample_fromiso sample_db (utc_datetime 1000) sample_command with
  | Ok r => r | Err _ => sample_request end.

Lemma authorization_request_exact_witness : exists row,
  joined sample_db row /\ authorizable sample_command row (utc_datetime 1000)
  /\ rq_exact_amount_paise sample_loaded = 49900.
Proof.
  destruct (authorization_request_exact sample_fromiso sample_db (utc_datetime 1000) sample_command
    sample_loaded) as (row & Hj & Haz & _).
  - vm_compute. reflexivity.
  - exists row. split; [exact Hj|]. split; [exact Haz|reflexivity].
Defined.

#[local] Instance sample_tasks : TaskStore InMemoryTaskStore := memory_task_store sample_iso sample_float.
#[local] Instance sample_task_spec : TaskStoreSpec sample_iso sample_float InMemoryTaskStore :=
  memory_task_spec sample_iso sample_float.
#[local] Instance sample_nonces : NonceStore (list A2AMandateNonceConsumption) := sql_store (fun _ => true).
#[local] Instance sample_nonces_spec : NonceStoreSpec (list A2AMandateNonceConsumption) := sql_spec (fun _ => true).

Definition sample_post (payload : json) : result json :=
  Ok (agent_answer sample_iso sample_float sample_iso sample_hmac sample_service sample_granted).
Definition sample_poll_command : PollA2AMandateInput :=
  poll_command sample_granted (sample_iso (utc_datetime day)).
Definition sample_polled : result A2AMandatePollResult * list A2AMandateNonceConsumption :=
  poll_and_verify_mandate sample_iso sample_float sample_repr sample_int sample_datetime sample_fromiso
    sample_post sample_verifier (utc_datetime 5000) "u" sample_poll_command [].

Lemma poll_verifies_or_keeps_witness :
  match fst sample_polled with
  | Ok res => mp_verification_status res = "VERIFIED" \/ snd sample_polled = []
  | Err _ => snd sample_polled = []
  end.
Proof.
  pose proof (poll_verifies_or_keeps sample_iso sample_float sample_repr sample_int sample_datetime
    sample_fromiso sample_post sample_verifier (utc_datetime 5000) "u" sample_poll_command []
    (fst sample_polled) (snd sample_polled)) as H.
  destruct (fst sample_polled) as [res|e] eqn:E.
  - destruct H as [[Hv _]|[_ Hs]].
    + repeat constructor.
    + unfold sample_polled in *. rewrite <- E. apply surjective_pairing.
    + left. exact Hv.
    + right. exact Hs.
  - apply H.
    + repeat constructor.
    + unfold sample_polled in *. rewrite <- E. apply surjective_pairing.
Defined.

