(* ===== verification/VoiceWebhooksFacts.v ===== *)
(** * What a signed voice webhook is bound to

    ElevenLabs headers: what a header that is accepted proves, and that a header made with the
    secret is accepted as long as it is fresh.  Post-call events: the bounds of their values. *)
From S2P Require Import Prelude Domain Json JsonText Base64 OperatorAuth A2AModels Mandates A2ARuntime VoiceWebhooks.

(** ** Texts *)

Lemma str_rev_app_chars p s acc : all_chars p (str_rev_app s acc) = all_chars p s && all_chars p acc.
Proof. revert acc. induction s as [|c s IH]; intros acc; cbn; [done|]. rewrite IH. cbn. by destruct (p c), (all_chars p s). Qed.
Lemma str_rev_app_rev s acc t : str_rev_app (str_rev_app s acc) t = str_rev_app acc (s +++ t).
Proof.
  revert acc t. induction s as [|c s IH]; intros acc t; [done|]. rewrite string_cons_app. cbn. by rewrite IH.
Qed.
Lemma string_app_empty s : s +++ "" = s.
Proof. induction s as [|c s IH]; [done|]. by rewrite string_cons_app, IH. Qed.
Lemma str_rev_involutive s : str_rev (str_rev s) = s.
Proof. unfold str_rev. rewrite str_rev_app_rev. cbn. apply string_app_empty. Qed.
Definition solid (c : ascii) : bool := negb (is_space c).
Lemma str_lstrip_solid s : all_chars solid s = true -> str_lstrip s = s.
Proof. destruct s as [|c s]; cbn; [done|]. intros [Hc _]%andb_true_iff. apply negb_true_iff in Hc. by rewrite Hc. Qed.
Lemma str_strip_solid s : all_chars solid s = true -> str_strip s = s.
Proof.
  intros Hs. unfold str_strip. rewrite (str_lstrip_solid s) by done. rewrite str_lstrip_solid.
  - apply str_rev_involutive.
  - unfold str_rev. by rewrite str_rev_app_chars, Hs.
Qed.
Lemma all_chars_app p s t : all_chars p (s +++ t) = all_chars p s && all_chars p t.
Proof. induction s as [|c s IH]; [done|]. rewrite string_cons_app. cbn. by rewrite IH, andb_assoc. Qed.
Lemma split_all_none sep s : all_chars (fun c => negb (Ascii.eqb c sep)) s = true -> split_all sep s = [s].
Proof. induction s as [|c s IH]; cbn; [done|]. intros [Hc%negb_true_iff Hs]%andb_true_iff. by rewrite Hc, (IH Hs). Qed.
Lemma split_all_app sep s rest : all_chars (fun c => negb (Ascii.eqb c sep)) s = true ->
  split_all sep (s +++ String sep rest) = s :: split_all sep rest.
Proof.
  induction s as [|c s IH].
  - intros _. rewrite string_nil_app. cbn. by rewrite Ascii.eqb_refl.
  - cbn. intros [Hc%negb_true_iff Hs]%andb_true_iff. rewrite string_cons_app. cbn. by rewrite Hc, (IH Hs).
Qed.

(** ** Numbers read back *)

Lemma digit_read acc count b n rest : (n < 10)%N ->
  digits_value acc count b (String (pretty_N_char n) rest) = digits_value (10 * acc + Z.of_N n) (S count) true rest.
Proof.
  intros Hn. destruct n as [|p]; [done|]. do 4 (destruct p as [p|p|]; [| |done]; try lia).
Qed.
(** Reading the digits of [n] and then [s]. *)
Lemma digits_read n s b : (0 < n)%N -> exists count,
  digits_value 0 0 b (pretty_N_go n s) = digits_value (Z.of_N n) count true s /\
  String.length (pretty_N_go n s) = (count + String.length s)%nat.
Proof.
  revert s. induction (N.lt_wf_0 n) as [n _ IH]; intros s Hn. rewrite pretty_N_go_step by done.
  assert (n mod 10 < 10)%N as Hm by (apply N.mod_lt; lia).
  assert (Z.of_N n = 10 * Z.of_N (n / 10) + Z.of_N (n mod 10)) as Ez by (pose proof (N.div_mod n 10); lia).
  destruct (decide (n / 10 = 0)%N) as [E0|].
  - rewrite E0, pretty_N_go_0. exists 1%nat. rewrite digit_read by done. split; [|done]. f_equal. lia.
  - assert (n / 10 < n)%N as Hlt by (apply N.div_lt; lia). destruct (IH (n / 10)%N Hlt (String (pretty_N_char (n mod 10)) s)) as (count & E & El); [lia|].
    exists (S count). rewrite E, El, digit_read by done. cbn [String.length]. split; [|lia]. f_equal. lia.
Qed.
Lemma unsigned_read p : (String.length (pretty (Npos p)) <= 4300)%nat -> unsigned_text (pretty (Npos p)) = Some (Zpos p).
Proof.
  unfold pretty, pretty_N, unsigned_text. case_decide; [done|]. intros Hl.
  destruct (digits_read (Npos p) "" false) as (count & E & El); [lia|]. rewrite E. cbn. rewrite El in Hl. cbn in Hl.
  by rewrite (proj2 (Nat.leb_le count 4300)) by lia.
Qed.
Lemma int_char_solid c : int_char c = true -> solid c = true /\ negb (Ascii.eqb c ",") = true.
Proof. by destruct c as [[] [] [] [] [] [] [] []]. Qed.
Lemma str_of_Z_solid z : all_chars solid (str_of_Z z) = true /\ all_chars (fun c => negb (Ascii.eqb c ",")) (str_of_Z z) = true.
Proof. split; (eapply all_chars_impl; [|apply str_of_Z_chars]); intros c Hc; by apply int_char_solid in Hc as [? ?]. Qed.

Definition first_digit (s : string) : bool := match s with String c _ => is_digit c | EmptyString => false end.
Lemma pretty_N_go_digit n s : (0 < n)%N -> first_digit (pretty_N_go n s) = true.
Proof.
  revert s. induction (N.lt_wf_0 n) as [n _ IH]; intros s Hn. rewrite pretty_N_go_step by done.
  destruct (decide (n / 10 = 0)%N) as [E0|Hne]; [|apply IH; [by apply N.div_lt|by apply N.neq_0_lt_0]].
  rewrite E0, pretty_N_go_0. unfold pretty_N_char. by repeat case_match.
Qed.
Lemma int_of_text_unsigned s : first_digit s = true -> all_chars solid s = true ->
  int_of_text s = from_option (ValueError "invalid literal for int() with base 10") (unsigned_text s).
Proof.
  intros Hd Hs. unfold int_of_text. rewrite str_strip_solid by done. destruct s as [|c s]; [done|].
  by destruct c as [[] [] [] [] [] [] [] []].
Qed.
(** A text of at most 4300 digits is read back. *)
Lemma int_of_text_str z : (String.length (str_of_Z z) <= 4300)%nat -> int_of_text (str_of_Z z) = Ok z.
Proof.
  intros Hl. destruct (str_of_Z_solid z) as [Hs _]. destruct z as [|p|p].
  - done.
  - change (str_of_Z (Zpos p)) with (pretty (Npos p)) in *. rewrite int_of_text_unsigned; [by rewrite unsigned_read| |done].
    unfold pretty, pretty_N. case_decide; [done|]. by apply pretty_N_go_digit.
  - change (str_of_Z (Zneg p)) with (String "-" (pretty (Npos p))) in *.
    unfold int_of_text. rewrite str_strip_solid by done. cbn [String.length] in Hl. by rewrite unsigned_read by lia.
Qed.

(** ** Signatures *)

Section signatures.
Context (hmac_sha256 : string -> string -> string) (secret body : string).
Abbreviation verified supplied now := (verify_elevenlabs_signature hmac_sha256 secret body (Some supplied) now).
Abbreviation code_of timestamp := (hex_of (hmac_sha256 secret (signed_body timestamp body))).

(** [part] is a component of the header. *)
Definition has_component (part : string) (supplied : string) : Prop :=
  exists component, component ∈ split_all "," supplied /\ str_strip component = part.

Lemma read_components_spec components timestamp signatures timestamp' signatures' :
  read_components timestamp signatures components = Some (timestamp', signatures') ->
  (forall v, timestamp' = Some v -> timestamp = Some v \/ exists c, c ∈ components /\ str_strip c = "t=" +++ v) /\
  (forall v, v ∈ signatures' -> v ∈ signatures \/ exists c, c ∈ components /\ str_strip c = "v0=" +++ v).
Proof.
  revert timestamp signatures. induction components as [|c rest IH]; intros timestamp signatures; cbn.
  { intros [= -> ->]. auto. }
  destruct (split_first "=" (str_strip c)) as [[name value]|] eqn:Es; [|done]. apply split_first_spec in Es.
  case_bool_decide; [done|]. case_bool_decide as Ht.
  - destruct timestamp; [done|]. intros [Hv Hs]%IH. split; [|naive_solver set_solver].
    intros v [[= ->]|(c' & ? & ?)]%Hv; right; [|set_solver]. exists c. split; [set_solver|]. by rewrite Es, Ht.
  - case_bool_decide as Hv0; intros [Hv Hs]%IH; (split; [naive_solver set_solver|]); [|naive_solver set_solver].
    intros v [[Hin| ->%list_elem_of_singleton]%elem_of_app|(c' & ? & ?)]%Hs; [by left| |right; set_solver].
    right. exists c. split; [set_solver|]. by rewrite Es, Hv0.
Qed.
Lemma any_candidate_spec expected valid candidates : any_candidate expected valid candidates = Ok true ->
  valid = true \/ expected ∈ candidates.
Proof.
  revert valid. induction candidates as [|c rest IH]; intros valid; cbn; [intros [= ->]; auto|].
  intros (same & Hs & [Ho|?]%IH)%bind_Ok; [|set_solver]. apply orb_true_iff in Ho as [->|]; [|auto].
  apply compare_digest_true in Hs as [-> _]. set_solver.
Qed.

Definition hex_safe (c : ascii) : bool := solid c && negb (Ascii.eqb c ",") && (code c <? 128).
Lemma hex_digits_safe c : hex_safe (hex_digit (N_of_ascii c / 16)) = true /\ hex_safe (hex_digit (N_of_ascii c mod 16)) = true.
Proof. by destruct c as [[] [] [] [] [] [] [] []]. Qed.
Lemma hex_of_safe s : all_chars hex_safe (hex_of s) = true.
Proof.
  induction s as [|c s IH]; [done|]. cbn [hex_of all_chars]. destruct (hex_digits_safe c) as [-> ->]. exact IH.
Qed.
Lemma safe_ascii s : all_chars hex_safe s = true -> is_ascii s = true.
Proof.
  induction s as [|c s IH]; [done|]. cbn [all_chars is_ascii]. intros [[_ ->]%andb_true_iff Hs]%andb_true_iff. exact (IH Hs).
Qed.

Lemma accepted_header_bound supplied now : verified supplied now = Ok true -> secret <> "" /\ exists timestamp signed_at,
  has_component ("t=" +++ timestamp) supplied /\ int_of_text timestamp = Ok signed_at /\
  Z.abs (now - signed_at) <= 1800 /\ has_component ("v0=" +++ code_of timestamp) supplied.
Proof.
  unfold verify_elevenlabs_signature. case_bool_decide as Hs; [done|]. case_bool_decide; [done|]. cbn.
  destruct (read_components _ _ _) as [[[timestamp|] [|c cs]]|] eqn:Er; try done.
  destruct (int_of_text timestamp) as [signed_at|] eqn:Ei; [|done].
  change (30 * 60) with 1800. destruct (Z.ltb_spec 1800 (Z.abs (now - signed_at))); [done|]. intros Hc.
  apply (any_candidate_spec _ _ (c :: cs)) in Hc as [?|Hc]; [done|].
  split; [done|]. destruct (read_components_spec _ _ _ _ _ Er) as [Ht Hv].
  exists timestamp, signed_at. destruct (Ht timestamp eq_refl) as [?|(ct & ? & ?)]; [done|].
  destruct (Hv _ Hc) as [?%not_elem_of_nil|(cv & ? & ?)]; [done|].
  split; [by exists ct|]. split; [done|]. split; [lia|by exists cv].
Qed.
Lemma made_header_fresh signed_at now : (forall k m, String.length (hmac_sha256 k m) = 32%nat) -> secret <> "" ->
  (String.length (str_of_Z signed_at) <= 4300)%nat ->
  verified (elevenlabs_signature hmac_sha256 secret body (str_of_Z signed_at)) now = Ok (Z.abs (now - signed_at) <=? 1800).
Proof.
  intros Hd Hs Hl. unfold verify_elevenlabs_signature, elevenlabs_signature.
  set (timestamp := str_of_Z signed_at) in *. set (code := code_of timestamp).
  rewrite (bool_decide_eq_false_2 _ Hs).
  destruct (str_of_Z_solid signed_at) as [Hts Htc]. pose proof (hex_of_safe (hmac_sha256 secret (signed_body timestamp body))) as Hh.
  assert (all_chars solid code = true) as Hcs by (eapply all_chars_impl; [|exact Hh]; unfold hex_safe; by intros c [[? _]%andb_true_iff _]%andb_true_iff).
  assert (all_chars (fun c => negb (Ascii.eqb c ",")) code = true) as Hcc by (eapply all_chars_impl; [|exact Hh]; unfold hex_safe; by intros c [[_ ?]%andb_true_iff _]%andb_true_iff).
  change ("t=" +++ timestamp +++ ",v0=" +++ code) with (("t=" +++ timestamp) +++ String "," ("v0=" +++ code)).
  rewrite split_all_app by exact Htc. rewrite split_all_none by exact Hcc. cbn [read_components].
  rewrite !str_strip_solid by assumption.
  change ("t=" +++ timestamp) with ("t" +++ String "=" timestamp). change ("v0=" +++ code) with ("v0" +++ String "=" code).
  rewrite !split_first_app by done. fold timestamp.
  rewrite (bool_decide_eq_false_2 (timestamp = "")) by apply str_of_Z_nonempty.
  assert (code <> "") as Hcne.
  { intros Hc. apply (f_equal String.length) in Hc. unfold code in Hc. specialize (Hd secret (signed_body timestamp body)).
    by destruct (hmac_sha256 secret _). }
  rewrite (bool_decide_eq_false_2 (code = "")) by exact Hcne. rewrite bool_decide_eq_false_2 by discriminate.
  rewrite (bool_decide_eq_true_2 ("t" = "t")), (bool_decide_eq_false_2 ("v0" = "t")), (bool_decide_eq_true_2 ("v0" = "v0")) by done.
  cbn [orb app]. unfold timestamp. rewrite int_of_text_str by exact Hl. fold timestamp. change (30 * 60) with 1800.
  destruct (Z.ltb_spec 1800 (Z.abs (now - signed_at))), (Z.leb_spec (Z.abs (now - signed_at)) 1800); try lia; [done|].
  cbn [any_candidate]. fold code. by rewrite (proj2 (compare_digest_true code code) (conj eq_refl (safe_ascii _ Hh))).
Qed.

(** a header the ElevenLabs webhook accepts carries a time at most thirty minutes away and
    the code of that time and the body under the configured secret, and the secret is not
    empty; conversely the header made at a time is accepted for thirty minutes around it, and
    not a second longer.  An HMAC-SHA-256 code has 32 bytes. *)
Theorem elevenlabs_signature_exact : (forall k m, String.length (hmac_sha256 k m) = 32%nat) ->
  (forall supplied now, verified supplied now = Ok true -> secret <> "" /\ exists timestamp signed_at,
     has_component ("t=" +++ timestamp) supplied /\ int_of_text timestamp = Ok signed_at /\
     Z.abs (now - signed_at) <= 1800 /\ has_component ("v0=" +++ code_of timestamp) supplied) /\
  (forall signed_at now, secret <> "" -> (String.length (str_of_Z signed_at) <= 4300)%nat ->
     verified (elevenlabs_signature hmac_sha256 secret body (str_of_Z signed_at)) now
     = Ok (Z.abs (now - signed_at) <=? 1800)).
Proof.
  intros Hd. split; [intros supplied now; apply accepted_header_bound|].
  intros signed_at now Hs Hl. by apply made_header_fresh.
Qed.
End signatures.

(** ** Post-call events *)

Lemma required_string_stripped value name text : required_string value name = Ok text ->
  text <> "" /\ exists raw, value = JStr raw /\ text = str_strip raw.
Proof.
  unfold required_string. destruct value; try done. intros (? & Hb%raise_if_Ok & [= <-])%bind_Ok.
  apply bool_decide_eq_false in Hb. eauto.
Qed.
Lemma basis_points_bounded round_product value exact n : basis_points round_product value exact = Ok (Some n) -> 0 <= n <= 10000.
Proof.
  unfold basis_points. destruct (json_number _); [|done]. intros (? & _ & [= <-])%bind_Ok. lia.
Qed.

(** whatever the body of a post-call event, the event that is read from it has a time and
    a duration that are not negative, a confidence between 0 and 10000 basis points, an
    attempt, a conversation and an agent that are not blank, and the configured agent when
    there is one; a disclosure counts only when it is the value true. *)
Theorem post_call_bounded json_loads repr round_product raw_body expected event :
  parse_elevenlabs_post_call json_loads repr round_product raw_body expected = Ok event ->
  0 <= epc_event_timestamp event /\ 0 <= epc_duration_seconds event /\
  (forall n, epc_confidence_basis_points event = Some n -> 0 <= n <= 10000) /\
  epc_attempt_id event <> "" /\ epc_conversation_id event <> "" /\ epc_agent_id event <> "" /\
  (forall agent, expected = Some agent -> agent <> "" -> epc_agent_id event = agent) /\
  (epc_disclosure_delivered event = true -> exists payload, json_loads raw_body = Ok payload /\
     collected_value (analysis_value (as_dict (json_get "analysis" (as_dict (json_get "data" payload))))
                        ["ai_disclosure_delivered"]) = JBool true).
Proof.
  unfold parse_elevenlabs_post_call.
  intros ([[[[timestamp agent_id] conversation_id] attempt_id] data] & Henv & Hev)%bind_Ok.
  apply bind_Ok in Hev as (turns & _ & Hev). destruct (read_turns _ _ _ _ _) as [[all_turns user_turns] latest].
  apply bind_Ok in Hev as (exact & Hexact & (confidence & Hc & [= <-])%bind_Ok). cbn.
  unfold post_call_envelope in Henv. apply bind_Ok in Henv as (payload & Hp & Henv).
  apply bind_Ok in Henv as (? & _ & (? & _ & (z & Hz & (? & Hneg%raise_if_Ok & Henv)%bind_Ok)%bind_Ok)%bind_Ok).
  apply bind_Ok in Henv as (a & [Ha _]%required_string_stripped & (? & Hscope%raise_if_Ok & Henv)%bind_Ok).
  apply bind_Ok in Henv as (c & [Hcv _]%required_string_stripped & (t & [Ht _]%required_string_stripped & [= <- <- <- <- <-])%bind_Ok).
  split; [lia|]. split; [lia|]. split; [|split; [done|split; [done|split; [done|split]]]].
  - intros n ->. destruct exact as [m|]; [injection Hc as ->|]; eapply basis_points_bounded; eassumption.
  - intros agent -> Hne. rewrite (bool_decide_eq_false_2 _ Hne) in Hscope. cbn in Hscope.
    by apply negb_false_iff, bool_decide_eq_true in Hscope.
  - intros Hd. exists payload. split; [destruct (json_loads raw_body) as [|[]]; by simplify_eq|].
    by destruct (collected_value _) as [|[]| | | | |].
Qed.

(** ** Witnesses *)

Definition sample_digest (key message : string) : string := str_take 32 (key +++ message +++ "................................").
Lemma sample_digest_length key message : String.length (sample_digest key message) = 32%nat.
Proof.
  unfold sample_digest, str_take. set (pad := "................................").
  assert (forall s, String.length (s +++ pad) = (String.length s + 32)%nat) as Hl
    by (induction s as [|c s IH]; [done|rewrite string_cons_app; cbn; by rewrite IH]).
  assert (forall n s, (n <= String.length s)%nat -> String.length (String.substring 0 n s) = n) as Hsub.
  { induction n as [|n IH]; intros s Hs; [by destruct s|]. destruct s as [|c s]; cbn in *; [lia|]. rewrite IH by lia. done. }
  apply Hsub. rewrite <- string_app_assoc, Hl. lia.
Qed.

Lemma elevenlabs_signature_exact_witness :
  let header := elevenlabs_signature sample_digest "secret" "{}" (str_of_Z 1700000000) in
  verify_elevenlabs_signature sample_digest "secret" "{}" (Some header) 1700001800 = Ok true /\
  verify_elevenlabs_signature sample_digest "secret" "{}" (Some header) 1700001801 = Ok false.
Proof.
  destruct (elevenlabs_signature_exact sample_digest "secret" "{}" sample_digest_length) as [_ Hm].
  cbv zeta. rewrite !Hm by (solve [discriminate|vm_compute; repeat constructor]). split; reflexivity.
Defined.

Definition sample_post_call : json := JObj [
  ("type", JStr "post_call_transcription"); ("event_timestamp", JInt 1700000000);
  ("data", JObj [
    ("agent_id", JStr "agent_1"); ("conversation_id", JStr "conv_1");
    ("conversation_initiation_client_data", JObj [("dynamic_variables", JObj [("recoveryos_attempt_id", JStr "a1")])]);
    ("transcript", JArr [JObj [("role", JStr "user"); ("message", JStr "I will pay"); ("time_in_call_secs", JInt 7)]]);
    ("metadata", JObj [("call_duration_secs", JInt (-4))]);
    ("analysis", JObj [("data_collection_results", JObj [
       ("confidence_basis_points", JObj [("value", JInt 20000)]);
       ("ai_disclosure_delivered", JObj [("value", JBool true)])])])])].
Lemma post_call_bounded_witness : exists event,
  parse_elevenlabs_post_call (fun _ => Ok sample_post_call) (fun _ => "") (fun q k => int_of_float q * k) "{}" (Some "agent_1")
  = Ok event /\ 0 <= epc_duration_seconds event /\ epc_agent_id event = "agent_1" /\
  epc_confidence_basis_points event = Some 10000.
Proof.
  eexists. split; [vm_compute; reflexivity|].
  edestruct (post_call_bounded (fun _ => Ok sample_post_call) (fun _ => "") (fun q k => int_of_float q * k) "{}" (Some "agent_1"))
    as (_ & Hd & _ & _ & _ & _ & Ha & _); [vm_compute; reflexivity|].
  split; [exact Hd|]. split; [by apply (Ha "agent_1")|reflexivity].
Defined.
