(* ===== verification/Twilio.v ===== *)
(** * The Twilio provider

    [integrations/voice/twilio.py] and the composition of [voice/factory.py]: a call is
    submitted over an HTTP transport under a circuit breaker, stopped, and observed. *)
From S2P Require Import Prelude Domain Json Base64 Breaker Entities VoicePorts OperatorAuth A2AModels Mandates A2ARuntime VoiceWebhooks.

(** src/services/api/app/integrations/voice/twilio.py:24-29 [TwilioConfig] *)
Record TwilioConfig : Type := {
  tw_account_sid : string;
  tw_auth_token : string;
  tw_from_number : string;
  tw_public_voice_origin : string;
}.

(** src/services/api/app/integrations/voice/twilio.py:31-35 [TwilioConfig.__post_init__] *)
Definition validate_twilio_config (config : TwilioConfig) : result TwilioConfig :=
  _ ← raise_if (str_prefix "+91" (tw_from_number config))
        (ValueError "Twilio India outreach must use an international caller ID");
  _ ← raise_if (negb (str_prefix "https://" (tw_public_voice_origin config)))
        (ValueError "public voice origin must use HTTPS");
  mret config.

(** ** The transport *)

Record tw_request : Type := {
  tr_post : bool;
  tr_url : string;
  tr_data : list (string * string);
}.
(** A time-out or a network error, another exception of the client, or an answer: its status
    and its JSON, if it is JSON. *)
Inductive tw_answer : Type :=
| Ambiguous
| Broken (error : exn)
| Replied (status_code : Z) (body : option json).

(** One exchange, the resolver of a call's identifier when there is one, and the clock. *)
Class TwilioTransport (H : Type) : Type := {
  tw_exchange : tw_request -> stx H tw_answer;
  tw_resolver : option (string -> stx H (option string));
  tw_now : H -> datetime;
}.

(** The provider: its transport, the breaker of the account, the calls it knows of, and a log
    of the exchanges that only the theorems read. *)
Record twilio_world (H : Type) : Type := {
  tww_http : H;
  tww_breaker : CircuitBreaker;
  tww_calls : gmap string string;
  tww_log : list (tw_request * result tw_answer);
}.
Arguments tww_http {H} t.
Arguments tww_breaker {H} t.
Arguments tww_calls {H} t.
Arguments tww_log {H} t.
#[export] Instance eta_twilio_world H : Eta (twilio_world H) := fun w =>
  {| tww_http := tww_http w; tww_breaker := tww_breaker w; tww_calls := tww_calls w; tww_log := tww_log w |}.

Section provider.
Context {H : Type} {transport : TwilioTransport H} (config : TwilioConfig) (repr : json -> string).
Abbreviation W := (twilio_world H).

Definition tw_call (request : tw_request) : stx W tw_answer := fun w =>
  let '(r, h) := tw_exchange request (tww_http w) in
  (r, w <| tww_http := h |> <| tww_log ::= fun l => (l ++ [(request, r)])%list |>).
Definition on_breaker {A} (m : datetime -> stx CircuitBreaker A) : stx W A := fun w =>
  let '(r, b) := m (tw_now (tww_http w)) (tww_breaker w) in (r, w <| tww_breaker := b |>).
Definition known_call (id : string) : stx W (option string) := fun w => (Ok (tww_calls w !! id), w).
Definition learn_call (id sid : string) : stx W unit := modS (fun w => w <| tww_calls ::= <[id := sid]> |>).
Definition observed_at : stx W datetime := fun w => (Ok (tw_now (tww_http w)), w).
Definition nonempty (o : option string) : option string :=
  match o with Some s => if bool_decide (s = "") then None else Some s | None => None end.

(** src/services/api/app/integrations/voice/twilio.py:67-74 [TwilioVoiceProvider._resolve_call_sid] *)
Definition resolve_call_sid (contact_attempt_id : string) : stx W (option string) :=
  known_sid ← known_call contact_attempt_id;
  match nonempty known_sid, tw_resolver with
  | None, Some resolver =>
      resolved ← (fun w => let '(r, h) := resolver contact_attempt_id (tww_http w) in (r, w <| tww_http := h |>));
      match nonempty resolved with
      | Some sid => _ ← learn_call contact_attempt_id sid; mret resolved
      | None => mret resolved
      end
  | _, _ => mret known_sid
  end.

(** src/services/api/app/integrations/voice/twilio.py:76-78 [TwilioVoiceProvider._calls_url] *)
Definition calls_url : string :=
  "https://api.twilio.com/2010-04-01/Accounts/" +++ tw_account_sid config +++ "/Calls.json".
Definition call_url (sid : string) : string :=
  "https://api.twilio.com/2010-04-01/Accounts/" +++ tw_account_sid config +++ "/Calls/" +++ sid +++ ".json".

(** src/services/api/app/integrations/voice/twilio.py:101-119 [TwilioVoiceProvider.start_contact] *)
Definition submission (request : VoiceContactRequest) : tw_request := {|
  tr_post := true; tr_url := calls_url;
  tr_data := [
    ("To", vq_destination_token request);
    ("From", tw_from_number config);
    ("Url", tw_public_voice_origin config +++ "/v1/voice/twiml/" +++ vq_idempotency_key request);
    ("StatusCallback", tw_public_voice_origin config +++ "/v1/voice/webhooks/twilio/status"
                       +++ "?attempt_id=" +++ vq_idempotency_key request);
    ("StatusCallbackEvent", "initiated ringing answered completed");
    ("Timeout", "25"); ("Record", "false")] |}.

Definition contact_result (request : VoiceContactRequest) (sid : option string) (status : string)
    (reason_code : option string) : VoiceContactResult := {|
  vcr_provider := "twilio"; vcr_contact_attempt_id := vq_idempotency_key request;
  vcr_provider_call_id := sid; vcr_status := status; vcr_reason_code := reason_code |}.

Definition submission_uncertain (request : VoiceContactRequest) : VoiceContactResult :=
  contact_result request None "UNCERTAIN" (Some "TWILIO_SUBMISSION_UNCERTAIN_RECONCILE_REQUIRED").

(** [response.json()] *)
Definition reply_json (body : option json) : result json := from_option (ValueError "Expecting value") body.

(** src/services/api/app/integrations/voice/twilio.py:120-153 [TwilioVoiceProvider.start_contact]:
    what an answer to the submission means. *)
Definition accept_submission (request : VoiceContactRequest) (answer : tw_answer) : stx W VoiceContactResult :=
  match answer with
  | Ambiguous =>
      _ ← on_breaker (record_failure FailureKind.UNCERTAIN_SUBMISSION);
      mret (submission_uncertain request)
  | Broken error => raise error
  | Replied status_code body =>
      if 500 <=? status_code then
        _ ← on_breaker (record_failure FailureKind.UNCERTAIN_SUBMISSION);
        mret (submission_uncertain request)
      else if 400 <=? status_code then
        _ ← on_breaker (record_failure FailureKind.PERMANENT);
        mret (contact_result request None "REJECTED" (Some ("TWILIO_REJECTED_" +++ str_of_Z status_code)))
      else
        payload ← lift (reply_json body);
        sid_value ← lift (json_item "sid" payload);
        let sid := py_str repr sid_value in
        _ ← learn_call (vq_idempotency_key request) sid;
        _ ← on_breaker (fun _ => modS record_success);
        mret (contact_result request (Some sid) "SUBMITTED" None)
  end.

(** src/services/api/app/integrations/voice/twilio.py:80-153 [TwilioVoiceProvider.start_contact] *)
Definition twilio_start (request : VoiceContactRequest) : stx W VoiceContactResult :=
  known_sid ← known_call (vq_idempotency_key request);
  match nonempty known_sid with
  | Some sid => mret (contact_result request (Some sid) "SUBMITTED" None)
  | None =>
      decision ← on_breaker before_call;
      if negb (bd_allowed decision) then
        match bd_reason decision with
        | None => raise (RuntimeError "blocked circuit decision omitted its fallback reason")
        | Some reason =>
            mret (contact_result request None (if fr_requires_reconciliation reason then "UNCERTAIN" else "REJECTED")
                    (Some (fr_code reason)))
        end
      else
        answer ← tw_call (submission request);
        accept_submission request answer
  end.

(** [response.raise_for_status()] on a reply. *)
Definition successful_reply (answer : tw_answer) : result (option json) :=
  match answer with
  | Ambiguous => Err (ProviderError "RequestError")
  | Broken error => Err error
  | Replied status_code body =>
      _ ← raise_if (negb ((200 <=? status_code) && (status_code <? 300))) (ProviderError "HTTPStatusError");
      mret body
  end.

(** src/services/api/app/integrations/voice/twilio.py:155-168 [TwilioVoiceProvider.cancel_contact] *)
Definition twilio_cancel (contact_attempt_id reason : string) : stx W unit :=
  sid ← resolve_call_sid contact_attempt_id;
  match nonempty sid with
  | None => raise (RuntimeError "TWILIO_CALL_SID_NOT_AVAILABLE")
  | Some sid =>
      answer ← tw_call {| tr_post := true; tr_url := call_url sid; tr_data := [("Status", "completed")] |};
      _ ← lift (successful_reply answer);
      mret tt
  end.

(** src/services/api/app/integrations/voice/twilio.py:187-194 [TwilioVoiceProvider.fetch_contact] *)
Definition observed_status (payload : json) : string :=
  let raw_status := str_upper (str_strip (py_str repr (json_get_or "status" (JStr "unknown") payload))) in
  if bool_decide (raw_status = "QUEUED") || bool_decide (raw_status = "INITIATED") then "SUBMITTED"
  else if bool_decide (raw_status = "IN-PROGRESS") then "IN_PROGRESS"
  else if bool_decide (raw_status = "NO-ANSWER") then "NO_ANSWER"
  else if bool_decide (raw_status = "CANCELLED") then "CANCELED"
  else raw_status.
(** [int(duration) if duration else None], not negative. *)
Definition observed_duration (payload : json) : result (option Z) :=
  let duration := json_get "duration" payload in
  if negb (json_truthy duration) then Ok None else
  n ← (match duration with
       | JStr text => int_of_text text
       | JArr _ | JObj _ | JNull => Err (TypeError "int() argument must be a string or a number")
       | _ => Ok (int_or 0 duration)
       end);
  _ ← raise_if (n <? 0) (ValueError "VoiceContactSnapshot");
  mret (Some n).

Definition contact_snapshot (contact_attempt_id status : string) (duration_seconds : option Z) (now : datetime)
  : VoiceContactSnapshot := {|
  vs_contact_attempt_id := contact_attempt_id; vs_status := status; vs_disposition := None;
  vs_transcript := None; vs_detected_intent := None; vs_confidence := None;
  vs_duration_seconds := duration_seconds; vs_observed_at := now |}.

(** src/services/api/app/integrations/voice/twilio.py:170-200 [TwilioVoiceProvider.fetch_contact] *)
Definition twilio_fetch (contact_attempt_id : string) : stx W VoiceContactSnapshot :=
  sid ← resolve_call_sid contact_attempt_id;
  match nonempty sid with
  | None =>
      now ← observed_at;
      mret (contact_snapshot contact_attempt_id "UNKNOWN_RECONCILIATION_REQUIRED" None now)
  | Some sid =>
      answer ← tw_call {| tr_post := false; tr_url := call_url sid; tr_data := [] |};
      body ← lift (successful_reply answer);
      payload ← lift (reply_json body);
      _ ← on_breaker (fun _ => b ← getS; if cb_uncertain b then modS record_success else mret tt);
      _ ← guard_ (negb (is_dict payload)) (AttributeError "get");
      duration ← lift (observed_duration payload);
      now ← observed_at;
      mret (contact_snapshot contact_attempt_id (observed_status payload) duration now)
  end.

#[export] Instance twilio_provider : VoiceProvider W := {|
  is_disabled_provider := false;
  start_contact := twilio_start;
  cancel_contact := twilio_cancel;
  fetch_contact := twilio_fetch;
|}.
End provider.

(** ** Composition *)

Section factory.
Context (env : string -> option string).

(** src/services/api/app/voice/factory.py:19-20 [_truthy] *)
Definition env_truthy (value : option string) : bool :=
  match value with Some v => mem (str_lower v) ["1"; "true"; "yes"; "on"] | None => false end.

(** [re.fullmatch(r"\+[1-9]\d{7,14}", item)] on ASCII text. *)
Definition is_digit (c : ascii) : bool := let n := N_of_ascii c in ((48 <=? n) && (n <=? 57))%N.
Definition e164 (item : string) : bool :=
  match item with
  | String "+" (String d rest) =>
      is_digit d && negb (Ascii.eqb d "0") && all_chars is_digit rest
      && (7 <=? String.length rest)%nat && (String.length rest <=? 14)%nat
  | _ => false
  end.

Definition voice_required : list string :=
  ["TWILIO_ACCOUNT_SID"; "TWILIO_AUTH_TOKEN"; "TWILIO_FROM_NUMBER"; "VOICE_PUBLIC_ORIGIN"; "ELEVENLABS_API_KEY";
   "ELEVENLABS_AGENT_ID"; "ELEVENLABS_WEBHOOK_SECRET"; "VOICE_OPERATOR_TOKEN"].
(** The items of [VOICE_ALLOWLIST_DESTINATIONS]. *)
Definition voice_allowlist : list string :=
  List.filter (fun item => negb (bool_decide (item = "")))
    (map str_strip (split_all "," (getenv env "VOICE_ALLOWLIST_DESTINATIONS" ""))).

(** [value.rstrip(c)] *)
Fixpoint str_drop_char (c : ascii) (s : string) : string :=
  match s with String a rest => if Ascii.eqb a c then str_drop_char c rest else s | EmptyString => EmptyString end.
Definition str_rstrip_char (c : ascii) (s : string) : string := str_rev (str_drop_char c (str_rev s)).

Definition twilio_config_from_env : TwilioConfig := {|
  tw_account_sid := getenv env "TWILIO_ACCOUNT_SID" ""; tw_auth_token := getenv env "TWILIO_AUTH_TOKEN" "";
  tw_from_number := getenv env "TWILIO_FROM_NUMBER" "";
  tw_public_voice_origin := str_rstrip_char "/" (getenv env "VOICE_PUBLIC_ORIGIN" "") |}.

(** src/services/api/app/voice/factory.py:23-57 [voice_provider_ready] *)
Definition voice_ready : bool :=
  let configured :=
    bool_decide (str_lower (str_strip (getenv env "VOICE_PROVIDER" "mock")) = "twilio")
    && env_truthy (env "VOICE_REAL_CALLS_ENABLED")
    && forallb (fun name => negb (bool_decide (str_strip (getenv env name "") = ""))) voice_required
    && negb (List.length voice_allowlist =? 0)%nat
    && forallb e164 voice_allowlist in
  configured && match validate_twilio_config twilio_config_from_env with Ok _ => true | Err _ => false end.
End factory.
