(* ===== verification/TwilioFacts.v ===== *)
(** * What the Twilio provider keeps

    After a submission whose outcome the provider knows to be open, no call is submitted
    before a call was observed; and the ambiguity it does not recognise. *)
From S2P Require Import Prelude Domain Json JsonText Base64 Breaker Entities VoicePorts OperatorAuth A2AModels Mandates A2ARuntime VoiceWebhooks Twilio.

Section facts.
Context {H : Type} {transport : TwilioTransport H} (config : TwilioConfig) (repr : json -> string).
Abbreviation W := (twilio_world H).
Abbreviation exchanged := (tw_request * result tw_answer)%type.

Definition is_submission (e : exchanged) : bool := tr_post e.1 && bool_decide (tr_url e.1 = calls_url config).
(** No answer in time, or a server error. *)
Definition submission_open (e : exchanged) : bool :=
  is_submission e && match e.2 with
                     | Ok Ambiguous => true
                     | Ok (Replied status_code _) => 500 <=? status_code
                     | _ => false
                     end.
Definition is_observation (e : exchanged) : bool :=
  negb (tr_post e.1) && match e.2 with
                        | Ok (Replied status_code (Some _)) => (200 <=? status_code) && (status_code <? 300)
                        | _ => false
                        end.
Definition blind_call : list exchanged -> Prop := repeated_blindly is_submission submission_open is_observation.
Abbreviation open_after := (open_after is_submission submission_open is_observation).

(** The breaker remembers an open submission. *)
Definition remembers (w : W) : Prop :=
  breaker_wf (tww_breaker w) /\
  exists open, open_after (tww_log w) = Some open /\ (open = true -> cb_uncertain (tww_breaker w) = true).

Context (clock_aware : forall h, is_aware (tw_now h) = true).
Abbreviation keeps m := (hoare remembers m (fun _ => remembers) remembers).

Lemma tw_keeps_ret {A} (a : A) : keeps (mret a).
Proof. by intros w Hw. Qed.
Lemma tw_keeps_raise {A} e : keeps (raise (A := A) e).
Proof. by intros w Hw. Qed.
Lemma tw_keeps_lift {A} (r : result A) : keeps (lift r).
Proof. intros w Hw. by destruct r. Qed.
Lemma tw_keeps_bind {A B} (m : stx W A) (f : A -> stx W B) : keeps m -> (forall a, keeps (f a)) -> keeps (m ≫= f).
Proof. intros Hm Hf. by eapply hoare_bind. Qed.
Lemma keeps_known id : keeps (known_call id).
Proof. by intros w Hw. Qed.
Lemma keeps_learn id sid : keeps (learn_call id sid).
Proof. by intros w Hw. Qed.
Lemma tw_keeps_now : keeps observed_at.
Proof. by intros w Hw. Qed.

Lemma keeps_resolve id : keeps (resolve_call_sid id).
Proof.
  apply tw_keeps_bind; [apply keeps_known|]. intros known. destruct (nonempty known); [apply tw_keeps_ret|].
  destruct tw_resolver as [resolver|]; [|apply tw_keeps_ret]. apply tw_keeps_bind.
  - intros w Hw. destruct (resolver id (tww_http w)) as [r h]. by destruct r.
  - intros resolved. destruct (nonempty resolved); [|apply tw_keeps_ret].
    apply tw_keeps_bind; [apply keeps_learn|]. intros u. apply tw_keeps_ret.
Qed.

Lemma call_url_other sid : call_url config sid <> calls_url config.
Proof.
  unfold call_url, calls_url. intros E. apply string_app_inj, string_app_inj in E. discriminate E.
Qed.

(** An exchange that submits nothing, when the breaker is told of an observation. *)
Lemma keeps_other request : is_submission (request, Ok Ambiguous) = false ->
  hoare remembers (tw_call request) (fun _ => remembers) remembers.
Proof.
  intros Hc w (Hwf & open & Ho & Hu). unfold tw_call. destruct (tw_exchange request (tww_http w)) as [r h].
  assert (remembers (w <| tww_http := h |> <| tww_log ::= fun l => (l ++ [(request, r)])%list |>)) as Hr.
  { split; [exact Hwf|]. cbn. rewrite open_after_snoc, Ho. cbn.
    assert (is_submission (request, r) = false) as -> by done.
    destruct (is_observation _); [by exists false|by exists open]. }
  by destruct r.
Qed.

(** Between the submission and what the breaker is told. *)
Definition sent (open : bool) (w : W) : Prop :=
  breaker_wf (tww_breaker w) /\ open_after (tww_log w) = Some open.
Lemma tw_sent_closed w : sent false w -> remembers w.
Proof. intros [Hwf Ho]. split; [done|]. by exists false. Qed.

Lemma tw_fail_remembers kind open : (open = true -> kind = FailureKind.UNCERTAIN_SUBMISSION) ->
  hoare (sent open) (on_breaker (record_failure kind)) (fun _ => remembers) (fun _ => False).
Proof.
  intros Hk w [Hwf Ho]. unfold on_breaker.
  destruct (record_failure kind _ (tww_breaker w)) as [r b'] eqn:E.
  destruct (failure_keeps _ _ _ _ _ (clock_aware _) Hwf E) as (Hwf' & Hr & _ & Hu).
  destruct r as [x|]; [|done]. split; [exact Hwf'|]. exists open. split; [exact Ho|]. intros ->. by apply Hu, Hk.
Qed.

Lemma success_wf b : breaker_wf b -> breaker_wf (record_success b).
Proof. intros []. by split; cbn; try lia. Qed.

Lemma accept_keeps request answer :
  hoare (sent (submission_open (submission config request, Ok answer))) (accept_submission repr request answer)
    (fun _ => remembers) remembers.
Proof.
  assert (is_submission (submission config request, Ok answer) = true) as Hc by (unfold is_submission; cbn; by rewrite bool_decide_eq_true_2).
  unfold submission_open. rewrite Hc. cbn [andb snd]. unfold accept_submission. destruct answer as [|error|status body].
  - eapply hoare_bind; [|intros r; apply tw_keeps_ret]. eapply hoare_conseq; [apply (tw_fail_remembers _ true); done|done..].
  - intros w Hw. by apply tw_sent_closed.
  - destruct (500 <=? status) eqn:E5.
    { eapply hoare_bind; [|intros r; apply tw_keeps_ret]. eapply hoare_conseq; [apply (tw_fail_remembers _ true); done|done..]. }
    destruct (400 <=? status).
    { eapply hoare_bind; [|intros r; apply tw_keeps_ret]. eapply hoare_conseq; [by apply (tw_fail_remembers _ false)|done..]. }
    assert (forall A (r : result A), hoare (sent false) (lift r) (fun _ => sent false) remembers) as Hlift
      by (intros A r w Hw; destruct r; [done|by apply tw_sent_closed]).
    eapply hoare_bind; [apply Hlift|]. intros payload. eapply hoare_bind; [apply Hlift|]. intros sid.
    eapply (hoare_bind _ _ _ (fun _ => sent false)); [by intros w Hw|]. intros u.
    eapply (hoare_bind _ _ _ (fun _ => sent false)); [|intros v w Hw; by apply tw_sent_closed].
    intros w [Hwf Ho]. split; [by apply success_wf|done].
Qed.

Lemma keeps_start request : keeps (twilio_start config repr request).
Proof.
  unfold twilio_start. apply tw_keeps_bind; [apply keeps_known|]. intros known. destruct (nonempty known); [apply tw_keeps_ret|].
  intros w (Hwf & open & Ho & Hu). unfold mbind at 1, stx_bind at 1, on_breaker at 1.
  destruct (before_call _ (tww_breaker w)) as [r b'] eqn:E.
  destruct (before_call_keeps _ _ _ _ (clock_aware _) Hwf E) as (Hwf' & Hu' & d & -> & Hallow & Hreason).
  assert (remembers (w <| tww_breaker := b' |>)) as Hr by (split; [done|]; exists open; cbn; by rewrite Hu').
  destruct (bd_allowed d) eqn:Ed; cbn [negb].
  2: { destruct (bd_reason d) as [reason|]; [by apply tw_keeps_ret|by destruct Hreason]. }
  unfold mbind, stx_bind, tw_call. destruct (tw_exchange _ _) as [answer h] eqn:Ea.
  assert (open = false) as -> by (destruct open; [|done]; rewrite (Hallow eq_refl) in Hu; by specialize (Hu eq_refl)).
  assert (forall r, is_submission (submission config request, r) = true) as Hc
    by (intros r; unfold is_submission; cbn; by rewrite bool_decide_eq_true_2).
  destruct answer as [answer|e].
  - apply accept_keeps. split; [done|]. cbn. rewrite open_after_snoc, Ho. unfold note_exchange. by rewrite Hc.
  - split; [done|]. exists false. split; [|done]. cbn. rewrite open_after_snoc, Ho. unfold note_exchange.
    rewrite Hc. unfold submission_open. by rewrite Hc.
Qed.

Lemma keeps_cancel id reason : keeps (twilio_cancel config id reason).
Proof.
  apply tw_keeps_bind; [apply keeps_resolve|]. intros sid. destruct (nonempty sid) as [s|]; [|apply tw_keeps_raise].
  apply tw_keeps_bind.
  - apply keeps_other. unfold is_submission. cbn. apply bool_decide_eq_false_2, call_url_other.
  - intros answer. apply tw_keeps_bind; [apply tw_keeps_lift|]. intros body. apply tw_keeps_ret.
Qed.

(** A reply that reads as an object of a call resolves what is open. *)
Lemma keeps_observe id : keeps (
  answer ← tw_call {| tr_post := false; tr_url := call_url config id; tr_data := [] |};
  body ← lift (successful_reply answer);
  payload ← lift (reply_json body);
  _ ← on_breaker (fun _ => b ← getS; if cb_uncertain b then modS record_success else mret tt);
  mret payload).
Proof.
  set (request := {| tr_post := false; tr_url := call_url config id; tr_data := [] |}).
  apply (hoare_bind _ _ _ (fun answer w => remembers w /\ (is_observation (request, Ok answer) = true -> sent false w))).
  - intros w (Hwf & open & Ho & Hu). unfold tw_call. destruct (tw_exchange request (tww_http w)) as [r h].
    assert (open_after (tww_log w ++ [(request, r)]) = Some (if is_observation (request, r) then false else open)) as Hn.
    { rewrite open_after_snoc, Ho. unfold note_exchange. change (is_submission (request, r)) with false.
      by destruct (is_observation (request, r)). }
    destruct r as [answer|e]; [|split; [exact Hwf|]; eexists; split; [exact Hn|by destruct (is_observation _)]].
    split; [split; [exact Hwf|]; eexists; split; [exact Hn|by destruct (is_observation _)]|].
    intros E. split; [exact Hwf|]. cbn. by rewrite Hn, E.
  - intros answer w [Hw Ho]. unfold mbind, stx_bind, lift. destruct answer as [|error|status body]; [done..|].
    cbn [successful_reply raise_if]. destruct (_ && _) eqn:Es; cbn; [|done]. destruct body as [payload|]; cbn; [|done].
    assert (sent false w) as [Hwf Hn] by (apply Ho; unfold is_observation; cbn; by rewrite Es).
    unfold on_breaker, mret, stx_ret. cbn. destruct (cb_uncertain _); (split; [|by exists false]); [by apply success_wf|exact Hwf].
Qed.

Lemma keeps_fetch id : keeps (twilio_fetch config repr id).
Proof.
  unfold twilio_fetch. apply tw_keeps_bind; [apply keeps_resolve|]. intros sid. destruct (nonempty sid) as [s|].
  2: { apply tw_keeps_bind; [apply tw_keeps_now|]. intros now. apply tw_keeps_ret. }
  intros w Hw. pose proof (keeps_observe s w Hw) as Hk. revert Hk. unfold mbind, stx_bind, mret, stx_ret.
  destruct (tw_call _ w) as [[answer|e] w1]; [|done]. destruct (lift (successful_reply answer) w1) as [[body|e] w2]; [|done].
  destruct (lift (reply_json body) w2) as [[payload|e] w3]; [|done].
  destruct (on_breaker _ w3) as [[u|e] w4]; [|done]. intros Hk. unfold guard_, lift.
  destruct (raise_if _ _) as [v|e]; [|done]. by destruct (observed_duration payload).
Qed.

(** ** Histories *)

(** What reaches the breaker of an account: the operations of its providers, and what happens
    elsewhere, such as another of them taking over. *)
Inductive operated (w0 : W) : W -> Prop :=
| operated_none : operated w0 w0
| operated_start w request : operated w0 w -> operated w0 (twilio_start config repr request w).2
| operated_cancel w id reason : operated w0 w -> operated w0 (twilio_cancel config id reason w).2
| operated_fetch w id : operated w0 w -> operated w0 (twilio_fetch config repr id w).2
| operated_elsewhere w h calls : operated w0 w -> operated w0 (w <| tww_http := h |> <| tww_calls := calls |>).

Lemma tw_keeps_after {A} (m : stx W A) w : keeps m -> remembers w -> remembers (m w).2.
Proof. intros Hm Hw. specialize (Hm w Hw). by destruct (m w) as [[a|e] w']. Qed.
Lemma operated_remembers w0 w : remembers w0 -> operated w0 w -> remembers w.
Proof.
  intros H0. induction 1; [exact H0|..];
    try (by eapply tw_keeps_after; [|exact IHoperated]; eauto using keeps_start, keeps_cancel, keeps_fetch).
  by destruct IHoperated as (Hwf & open & Ho & Hu); split; [|exists open].
Qed.

Definition fresh_provider (http : H) (b : CircuitBreaker) (calls : gmap string string) : W :=
  {| tww_http := http; tww_breaker := b; tww_calls := calls; tww_log := [] |}.

(** over any history of the providers of an account, a submission that got no answer in time or a server
    error is followed by no other submission before a call was observed. *)
Theorem no_blind_call provider operation threshold timeout b http calls w :
  breaker_init provider operation threshold timeout = Ok b ->
  operated (fresh_provider http b calls) w -> ~ blind_call (tww_log w).
Proof.
  intros Hb Hw. assert (remembers (fresh_provider http b calls)) as H0.
  { split; [by eapply breaker_init_wf|]. by exists false. }
  destruct (operated_remembers _ _ H0 Hw) as (_ & open & Ho & _). eapply open_after_sound; [|exact Ho].
  unfold submission_open. by intros e [? _]%andb_true_iff.
Qed.

Lemma closed_allows (h : H) b : cb_state b = CircuitState.CLOSED ->
  before_call (tw_now h) b = (Ok {| bd_allowed := true; bd_reason := None |}, b).
Proof.
  intros Hc. rewrite (proj1 (aware_clock_steps _ _ (clock_aware _))).
  assert (forall now, half_open_if_due now b = b) as Hd by (intros now; unfold half_open_if_due; by rewrite Hc).
  unfold before_call, mbind, stx_bind, lift, modS, getS. cbn. rewrite Hd, Hc. done.
Qed.
Lemma accept_log request answer (w : W) : tww_log (accept_submission repr request answer w).2 = tww_log w.
Proof.
  assert (forall A B (m : datetime -> stx CircuitBreaker A) (a : B) v,
    tww_log ((_ ← on_breaker m; mret a) v).2 = tww_log v) as Hb.
  { intros A B m a v. unfold mbind, stx_bind, on_breaker. by destruct (m _ _) as [[]]. }
  unfold accept_submission. destruct answer as [|error|status body]; [apply Hb|done|].
  destruct (500 <=? status); [apply Hb|]. destruct (400 <=? status); [apply Hb|].
  unfold mbind at 1, stx_bind at 1, lift. destruct (reply_json body) as [payload|]; [|done].
  unfold mbind at 1, stx_bind at 1. destruct (json_item _ _) as [sid|]; [|done].
  unfold mbind at 1, stx_bind at 1. cbn [learn_call modS]. by rewrite Hb.
Qed.

(** an exchange of a submission that ends in any other error of the client, such as a
    connection the peer closed in the middle of an answer, is not recorded: the breaker stays
    as it was and the same attempt is submitted again on the next request. *)
Theorem broken_submission_unrecorded request error h (w : W) :
  cb_state (tww_breaker w) = CircuitState.CLOSED -> tww_calls w !! vq_idempotency_key request = None ->
  tw_exchange (submission config request) (tww_http w) = (Ok (Broken error), h) ->
  exists w', twilio_start config repr request w = (Err error, w')
    /\ tww_breaker w' = tww_breaker w
    /\ tww_log (twilio_start config repr request w').2
       = tww_log w ++ [(submission config request, Ok (Broken error));
                       (submission config request, (tw_exchange (submission config request) h).1)].
Proof.
  intros Hc Hk Hx. set (w1 := w <| tww_http := h |> <| tww_log ::= fun l => l ++ [(submission config request, Ok (Broken error))] |>).
  assert (forall v : W, tww_breaker v = tww_breaker w -> tww_calls v = tww_calls w -> twilio_start config repr request v
    = (answer ← tw_call (submission config request); accept_submission repr request answer) v) as Hv.
  { intros v Eb Ec. unfold twilio_start, known_call. unfold mbind at 1, stx_bind at 1. rewrite Ec, Hk. cbn [nonempty].
    unfold mbind at 1, stx_bind at 1, on_breaker at 1. rewrite Eb. rewrite closed_allows by done.
    assert (v <| tww_breaker := tww_breaker w |> = v) as Ev by (destruct v; cbn in *; by subst).
    cbn [bd_allowed negb]. by rewrite Ev. }
  exists w1. rewrite Hv by done. unfold mbind, stx_bind, tw_call. rewrite Hx. split; [done|]. split; [done|].
  rewrite Hv by done. unfold mbind, stx_bind, tw_call. change (tww_http w1) with h.
  destruct (tw_exchange _ h) as [[answer|e] h2]; [rewrite accept_log|]; cbn; by rewrite <- app_assoc.
Qed.
End facts.

(** ** Witnesses *)

(** A peer that answers from a script. *)
#[export] Instance scripted_twilio : TwilioTransport (list tw_answer) := {|
  tw_exchange _ := fun script => match script with
                                 | answer :: rest => (Ok answer, rest)
                                 | [] => (Ok Ambiguous, [])
                                 end;
  tw_resolver := None;
  tw_now _ := utc_datetime hour;
|}.
Definition sample_twilio : TwilioConfig := {|
  tw_account_sid := "AC1"; tw_auth_token := "secret"; tw_from_number := "+12025550100";
  tw_public_voice_origin := "https://voice.example" |}.
Definition sample_call (attempt : string) : VoiceContactRequest := {|
  vq_idempotency_key := attempt; vq_case_id := "c1"; vq_customer_id := "u1"; vq_destination_token := "+919900000000";
  vq_preferred_language := "en"; vq_consent_verified_at := utc_datetime 0; vq_max_duration_seconds := 90;
  vq_disclosure_text := "This is an automated call." |}.
Definition call_breaker : CircuitBreaker := {|
  cb_provider := "twilio"; cb_operation := "start_contact"; cb_failure_threshold := 3;
  cb_recovery_timeout := 30 * second; cb_state := CircuitState.CLOSED; cb_failure_count := 0;
  cb_opened_at := None; cb_probe_in_flight := false; cb_uncertain := false |}.
Definition scripted_account (script : list tw_answer) : twilio_world (list tw_answer) :=
  fresh_provider script call_breaker {["a0" := "CA0"]}.
Abbreviation started attempt w := (twilio_start sample_twilio (fun _ => "") (sample_call attempt) w).
Abbreviation observed attempt w := (twilio_fetch sample_twilio (fun _ => "") attempt w).
Definition submissions_in (w : twilio_world (list tw_answer)) : nat :=
  List.length (List.filter (is_submission sample_twilio) (tww_log w)).
Definition created (sid : string) : tw_answer := Replied 201 (Some (JObj [("sid", JStr sid)])).
Definition ringing : tw_answer := Replied 200 (Some (JObj [("status", JStr "ringing")])).

(** A server error, a second attempt that the breaker refuses, an observation, and a third. *)
Definition sample_calls : twilio_world (list tw_answer) :=
  (started "a1" (observed "a0" (started "a1" (started "a1"
    (scripted_account [Replied 503 None; ringing; created "CA1"])).2).2).2).2.
Lemma no_blind_call_witness :
  submissions_in sample_calls = 2%nat /\ ~ blind_call sample_twilio (tww_log sample_calls).
Proof.
  split; [vm_compute; reflexivity|].
  apply (no_blind_call (transport := scripted_twilio) sample_twilio (fun _ => "") (fun _ => eq_refl) "twilio"
    "start_contact" 3 (30 * second) call_breaker [Replied 503 None; ringing; created "CA1"] {["a0" := "CA0"]}); [reflexivity|].
  apply operated_start, operated_fetch, operated_start, operated_start, operated_none.
Defined.

Lemma broken_submission_unrecorded_witness : exists w',
  started "a1" (scripted_account [Broken (ProviderError "RemoteProtocolError"); created "CA1"])
  = (Err (ProviderError "RemoteProtocolError"), w') /\ submissions_in (started "a1" w').2 = 2%nat.
Proof.
  destruct (broken_submission_unrecorded (transport := scripted_twilio) sample_twilio (fun _ => "") (fun _ => eq_refl)
    (sample_call "a1") (ProviderError "RemoteProtocolError") [created "CA1"]
    (scripted_account [Broken (ProviderError "RemoteProtocolError"); created "CA1"]) eq_refl eq_refl eq_refl) as (w' & E & _ & El).
  exists w'. split; [exact E|]. unfold submissions_in. rewrite El. vm_compute. reflexivity.
Defined.
