(* ===== verification/RazorpayClient.v ===== *)
(** * The Razorpay client

    [integrations/razorpay/client.py]: the requests the client makes of an HTTP transport,
    what it accepts of the answers, and how the circuit breaker of link creation remembers a
    submission whose outcome is not known.  The metadata and the status codes of the errors
    are left out. *)
From S2P Require Import Prelude Domain Json JsonText Breaker Razorpay Correlation Mandates Activities AgentModels.

(** src/services/api/app/integrations/razorpay/client.py:32-38 [RazorpayConfig] *)
Record RazorpayConfig : Type := {
  cfg_key_id : string;
  cfg_key_secret : string;
  cfg_checkout_origin : string;
  cfg_base_url : string;
}.

(** src/services/api/app/integrations/razorpay/client.py:41-47 [RazorpaySubscriptionOnboardingBundle] *)
Record RazorpaySubscriptionOnboardingBundle : Type := {
  bun_subscription : json;
  bun_plan : json;
  bun_invoices : list json;
}.

(** ** The transport *)

Record rz_request : Type := {
  rz_method : string;
  rz_path : string;
  rz_params : list (string * string);
  rz_json : option json;
}.
(** [httpx.RequestError], or a response: its status and its JSON, if it is JSON. *)
Inductive rz_response : Type :=
| Unreachable
| Answered (status_code : Z) (body : option json).

(** One exchange; an exception is anything but [httpx.RequestError], a cancellation for
    instance. *)
Class RazorpayTransport (H : Type) : Type := {
  exchange : rz_request -> stx H rz_response;
  transport_now : H -> datetime;
}.

(** The world of a client: the transport, the breaker it shares with the other clients of
    its key, and a log of the exchanges, which only the theorems read. *)
Record razorpay_world (H : Type) : Type := {
  rw_http : H;
  rw_breaker : CircuitBreaker;
  rw_log : list (rz_request * result rz_response);
}.
Arguments rw_http {H} r.
Arguments rw_breaker {H} r.
Arguments rw_log {H} r.
#[export] Instance eta_razorpay_world H : Eta (razorpay_world H) := fun w =>
  {| rw_http := rw_http w; rw_breaker := rw_breaker w; rw_log := rw_log w |}.

(** The parts of a URL the code looks at. *)
Record SplitResult : Type := {
  url_scheme : string;
  url_hostname : option string;
  url_username : option string;
  url_password : option string;
  url_query : string;
  url_fragment : string;
}.

(** ** Small helpers *)

(** [v == s] on a JSON value *)
Definition is_text (s : string) (v : json) : bool :=
  match v with JStr t => bool_decide (t = s) | _ => false end.
Lemma is_text_true s v : is_text s v = true <-> v = JStr s.
Proof. destruct v; cbn; try by split. rewrite bool_decide_eq_true. naive_solver. Qed.

(** [hash(v)], needed to look [v] up in a dictionary or a set. *)
Definition hashed (v : json) : result unit :=
  match v with
  | JArr _ => Err (TypeError "unhashable type: 'list'")
  | JObj _ => Err (TypeError "unhashable type: 'dict'")
  | _ => Ok tt
  end.
Definition hashed_text (v : json) : result (option string) :=
  _ ← hashed v; mret (match v with JStr s => Some s | _ => None end).

Definition alnum (c : ascii) : bool :=
  let n := N_of_ascii c in
  (((48 <=? n) && (n <=? 57)) || ((65 <=? n) && (n <=? 90)) || ((97 <=? n) && (n <=? 122)))%N.
Fixpoint str_filter (p : ascii -> bool) (s : string) : string :=
  match s with
  | EmptyString => EmptyString
  | String c rest => if p c then String c (str_filter p rest) else str_filter p rest
  end.
(** [s[-n:]] *)
Definition str_last (n : nat) (s : string) : string := str_rev (str_take n (str_rev s)).

(** src/services/api/app/integrations/razorpay/client.py:50-55 [build_reference_id] *)
Definition build_reference_id `{Crypto} (case_id idempotency_key : string) : string :=
  let case_fragment := str_last 18 (str_filter alnum case_id) in
  let digest := str_take 16 (sha256_hex idempotency_key) in
  str_take 40 ("rc_" +++ case_fragment +++ "_" +++ digest).

(** src/services/api/app/integrations/razorpay/client.py:58-61 [_as_object] *)
Definition as_object (code : string) (value : json) : result json :=
  _ ← raise_if (negb (is_dict value)) (RazorpayContractError code "Razorpay returned a non-object response.");
  mret value.

(** src/services/api/app/integrations/razorpay/client.py:102-110 [_payment_state] *)
Definition payment_state_of (value : json) : result PaymentState :=
  text ← hashed_text value;
  mret (match text with
        | Some "failed" => PaymentState.FAILED
        | Some "created" => PaymentState.PENDING
        | Some "authorized" => PaymentState.AUTHORIZED
        | Some "captured" => PaymentState.CAPTURED
        | Some "refunded" => PaymentState.REFUNDED
        | _ => PaymentState.UNKNOWN
        end).

Definition all_subscription_states : list SubscriptionState :=
  [SubscriptionState.UNKNOWN; SubscriptionState.CREATED; SubscriptionState.AUTHENTICATED;
   SubscriptionState.ACTIVE; SubscriptionState.PENDING; SubscriptionState.HALTED;
   SubscriptionState.PAUSED; SubscriptionState.CANCELLED; SubscriptionState.COMPLETED].
Definition subscription_state_named (text : string) : SubscriptionState :=
  default SubscriptionState.UNKNOWN
    (List.find (fun s => bool_decide (str_lower (SubscriptionState_value s) = text)) all_subscription_states).
(** src/services/api/app/integrations/razorpay/client.py:113-115 [_subscription_state] *)
Definition subscription_state_of (value : json) : result SubscriptionState :=
  text ← hashed_text value;
  mret (match text with Some text => subscription_state_named text | None => SubscriptionState.UNKNOWN end).

(** [value.rstrip("/")] *)
Fixpoint str_drop_slashes (s : string) : string :=
  match s with String "/" rest => str_drop_slashes rest | _ => s end.
Definition rstrip_slashes (s : string) : string := str_rev (str_drop_slashes (str_rev s)).

(** [s.removesuffix(suffix)] *)
Definition str_removesuffix (suffix s : string) : string :=
  let kept := (String.length s - String.length suffix)%nat in
  if str_prefix (str_rev suffix) (str_rev s) then str_take kept s else s.

(** [quote_plus] of the values of [urlencode] *)
Definition quote_plus (s : string) : string := str_replace_char " " "+" (url_quote " " s).
Definition urlencode (fields : list (string * string)) : string :=
  match fields with
  | [] => ""
  | (k, v) :: rest =>
      foldl (fun acc kv => acc +++ "&" +++ quote_plus kv.1 +++ "=" +++ quote_plus kv.2)
        (quote_plus k +++ "=" +++ quote_plus v) rest
  end.

(** ** The client *)

Section client.
Context {H : Type} {transport : RazorpayTransport H}.
Context (urlsplit : string -> result SplitResult) (config : RazorpayConfig).
Abbreviation W := (razorpay_world H).

(** src/services/api/app/integrations/razorpay/client.py:72-83 [_provider_https_url] *)
Definition client_https_url (code : string) (value : json) : result string :=
  match value with
  | JStr text =>
      _ ← raise_if (2048 <? Z.of_nat (text_length text))
            (RazorpayContractError code "Razorpay returned an invalid customer URL.");
      parsed ← urlsplit text;
      _ ← raise_if (negb (eqs (url_scheme parsed) "https") || eqs (url_hostname parsed) None
                    || negb (eqs (url_username parsed) None) || negb (eqs (url_password parsed) None))
            (RazorpayContractError code "Razorpay customer URLs must use HTTPS.");
      mret text
  | _ => Err (RazorpayContractError code "Razorpay returned an invalid customer URL.")
  end.

(** src/services/api/app/integrations/razorpay/client.py:86-99 [_checkout_origin] *)
Definition checkout_origin (value : string) : result string :=
  parsed ← urlsplit value;
  let is_local_http := eqs (url_scheme parsed) "http"
    && (eqs (url_hostname parsed) (Some "localhost") || eqs (url_hostname parsed) (Some "127.0.0.1")) in
  _ ← raise_if ((negb (eqs (url_scheme parsed) "https") && negb is_local_http)
                || eqs (url_hostname parsed) None
                || negb (eqs (url_username parsed) None) || negb (eqs (url_password parsed) None)
                || negb (eqs (url_query parsed) "") || negb (eqs (url_fragment parsed) ""))
        (RazorpayContractError "RAZORPAY_CHECKOUT_ORIGIN_INVALID"
           "Checkout origin must be HTTPS (localhost HTTP is allowed for development).");
  mret (rstrip_slashes value).

(** The exchange, noted. *)
Definition send (request : rz_request) : stx W rz_response := fun w =>
  let '(r, h) := exchange request (rw_http w) in
  (r, w <| rw_http := h |> <| rw_log ::= fun l => (l ++ [(request, r)])%list |>).
Definition on_breaker {A} (m : stx CircuitBreaker A) : stx W A := fun w =>
  let '(r, b) := m (rw_breaker w) in (r, w <| rw_breaker := b |>).
Definition clock : stx W datetime := fun w => (Ok (transport_now (rw_http w)), w).

(** src/services/api/app/integrations/razorpay/client.py:302-342 [RazorpayClient._request_json]: what
    is made of a response; [uncertain] is the reference of a write whose outcome an
    ambiguous response leaves open. *)
Definition read_response (uncertain : option string) (response : rz_response) : result json :=
  let ambiguous := match uncertain with
                   | Some reference => Some (RazorpayUncertainSubmissionError reference)
                   | None => None
                   end in
  match response with
  | Unreachable =>
      Err (default (RazorpayRequestError "RAZORPAY_TRANSPORT_ERROR" "Razorpay could not be reached." true)
             ambiguous)
  | Answered status body =>
      if (400 <=? status) && (status <=? 599) then
        let rejected := RazorpayRequestError "RAZORPAY_API_ERROR" "Razorpay rejected the request."
                          (500 <=? status) in
        Err (if 500 <=? status then default rejected ambiguous else rejected)
      else match body with
           | Some (JObj fields) => Ok (JObj fields)
           | _ => Err (default (RazorpayContractError "RAZORPAY_RESPONSE_INVALID"
                                  "Razorpay returned invalid JSON.") ambiguous)
           end
  end.

(** src/services/api/app/integrations/razorpay/client.py:283-342 [RazorpayClient._request_json] *)
Definition request_json (method path : string) (params : list (string * string)) (body : option json)
    (uncertain : option string) : stx W json :=
  response ← send {| rz_method := method; rz_path := path; rz_params := params; rz_json := body |};
  lift (read_response uncertain response).
Definition get_json (path : string) : stx W json := request_json "GET" path [] None None.

(** src/services/api/app/integrations/razorpay/client.py:357-398 [RazorpayClient._list_objects]:
    one turn of the loop; the items so far and whether the collection is complete. *)
Definition list_page (path : string) (params : list (string * string)) (collection_field invalid_code : string)
    (maximum_items : nat) (items : list json) : stx W (list json * bool) :=
  let page_size := Nat.min 100 (maximum_items + 1 - List.length items) in
  collection ← request_json "GET" path
    (params ++ [("count", str_of_Z (Z.of_nat page_size)); ("skip", str_of_Z (Z.of_nat (List.length items)))])
    None None;
  page ← lift (match json_get collection_field collection with
               | JArr page => Ok page
               | _ => Err (RazorpayContractError invalid_code
                             ("Razorpay collection has no " +++ collection_field +++ " array."))
               end);
  _ ← guard_ ((page_size <? List.length page)%nat || existsb (fun item => negb (is_dict item)) page)
        (RazorpayContractError invalid_code "Razorpay collection returned an invalid page.");
  let items := (items ++ page)%list in
  _ ← guard_ (maximum_items <? List.length items)%nat
        (RazorpayContractError (str_removesuffix "_INVALID" invalid_code +++ "_TOO_LARGE")
           "Razorpay collection exceeds the bounded read limit.");
  mret (items, (List.length page <? page_size)%nat).

(** src/services/api/app/integrations/razorpay/client.py:344-399 [RazorpayClient._list_objects]:
    each turn but the last adds an item, so [maximum_items + 1] turns are enough. *)
Fixpoint list_pages (fuel : nat) (path : string) (params : list (string * string))
    (collection_field invalid_code : string) (maximum_items : nat) (items : list json) : stx W (list json) :=
  match fuel with
  | O => raise (AssertionError "bounded Razorpay collection read did not return")
  | S fuel =>
      turn ← list_page path params collection_field invalid_code maximum_items items;
      let '(items, complete) := (turn : list json * bool) in
      if complete then mret items
      else list_pages fuel path params collection_field invalid_code maximum_items items
  end.
Definition list_objects (path : string) (params : list (string * string))
    (collection_field invalid_code : string) (maximum_items : nat) : stx W (list json) :=
  list_pages (maximum_items + 1) path params collection_field invalid_code maximum_items [].

Definition contract_error (code msg : string) : exn := RazorpayContractError code msg.

(** src/services/api/app/integrations/razorpay/client.py:161-209 [RazorpayClient.fetch_test_subscription_onboarding_bundle] *)
Definition fetch_test_subscription_onboarding_bundle (subscription_id : string)
  : stx W RazorpaySubscriptionOnboardingBundle :=
  _ ← guard_ (negb (str_prefix "rzp_test_" (cfg_key_id config)))
        (contract_error "RAZORPAY_TEST_MODE_REQUIRED"
           "Subscription onboarding accepts only Razorpay test-mode credentials.");
  subscription ← get_json ("/v1/subscriptions/" +++ subscription_id);
  _ ← guard_ (negb (is_text subscription_id (json_get "id" subscription)))
        (contract_error "RAZORPAY_SUBSCRIPTION_RESPONSE_MISMATCH"
           "Razorpay returned a different subscription than requested.");
  plan_id ← lift (from_option (contract_error "RAZORPAY_SUBSCRIPTION_PLAN_MISSING"
                                 "Razorpay subscription has no plan_id.")
                    (rzp_text (json_get "plan_id" subscription)));
  plan ← get_json ("/v1/plans/" +++ plan_id);
  _ ← guard_ (negb (is_text plan_id (json_get "id" plan)))
        (contract_error "RAZORPAY_PLAN_RESPONSE_MISMATCH"
           "Razorpay returned a different plan than requested.");
  invoices ← list_objects "/v1/invoices" [("subscription_id", subscription_id)] "items"
               "RAZORPAY_INVOICE_COLLECTION_INVALID" 1000;
  mret {| bun_subscription := subscription; bun_plan := plan; bun_invoices := invoices |}.

(** [datetime.fromtimestamp(timestamp, UTC)] with its errors turned into [error]. *)
Definition timestamp_or (error : exn) (timestamp : Z) : result datetime :=
  match fromtimestamp_utc timestamp with
  | Err (OSError _ | OverflowError _ | ValueError _) => Err error
  | r => r
  end.
(** The first of the fields that is an integer and not negative. *)
Definition first_timestamp (fields : list string) (payload : json) : option Z :=
  head (omap (fun field => t ← rzp_integer (json_get field payload); if 0 <=? t then Some t else None) fields).

(** src/services/api/app/providers/contracts.py:84-102 [InvoiceSnapshot] *)
Definition validate_invoice_snapshot (s : InvoiceSnapshot) : result InvoiceSnapshot :=
  _ ← raise_if (negb ((0 <=? is_amount_paise s) && (0 <=? is_amount_paid_paise s)
                      && currency_code (is_currency s)
                      && negb (eqs (is_invoice_state s) "") && (text_length (is_invoice_state s) <=? 32)%nat))
        (ValueError "InvoiceSnapshot");
  guard_paid_amount s.

(** src/services/api/app/integrations/razorpay/client.py:211-277 [RazorpayClient.fetch_invoice_snapshot] *)
Definition client_invoice_snapshot (merchant_id invoice_id : string) : stx W InvoiceSnapshot :=
  _ ← guard_ (negb (str_prefix "inv_" invoice_id) || (128 <? text_length invoice_id)%nat)
        (contract_error "RAZORPAY_INVOICE_ID_INVALID"
           "A valid Razorpay invoice id is required for correlation.");
  invoice ← get_json ("/v1/invoices/" +++ invoice_id);
  _ ← guard_ (negb (is_text invoice_id (json_get "id" invoice)))
        (contract_error "RAZORPAY_INVOICE_RESPONSE_MISMATCH"
           "Razorpay returned a different invoice than requested.");
  let no_subscription := contract_error "RAZORPAY_INVOICE_SUBSCRIPTION_MISSING"
                           "Razorpay invoice has no valid subscription id." in
  subscription_id ← lift (from_option no_subscription (rzp_text (json_get "subscription_id" invoice)));
  _ ← guard_ (negb (str_prefix "sub_" subscription_id) || (128 <? text_length subscription_id)%nat)
        no_subscription;
  let no_amount := contract_error "RAZORPAY_INVOICE_AMOUNT_INVALID" "Razorpay invoice has no valid integer amount." in
  amount_paise ← lift (from_option no_amount (rzp_integer (json_get "amount" invoice)));
  _ ← guard_ (amount_paise <? 0) no_amount;
  let no_paid := contract_error "RAZORPAY_INVOICE_AMOUNT_INVALID" "Razorpay invoice has an invalid amount_paid." in
  amount_paid_paise ← lift (from_option no_paid (rzp_integer (json_get "amount_paid" invoice)));
  _ ← guard_ ((amount_paid_paise <? 0) || (amount_paise <? amount_paid_paise)) no_paid;
  let no_currency := contract_error "RAZORPAY_INVOICE_CURRENCY_INVALID" "Razorpay invoice has no valid currency." in
  currency ← lift (from_option no_currency (rzp_text (json_get "currency" invoice)));
  _ ← guard_ (negb (text_length currency =? 3)%nat) no_currency;
  let no_state := contract_error "RAZORPAY_INVOICE_STATE_INVALID" "Razorpay invoice has no valid status." in
  invoice_state ← lift (from_option no_state (rzp_text (json_get "status" invoice)));
  _ ← guard_ (32 <? text_length invoice_state)%nat no_state;
  due_at ← lift (match first_timestamp ["expire_by"; "billing_end"] invoice with
                 | None => Ok None
                 | Some t => Some <$> timestamp_or (contract_error "RAZORPAY_INVOICE_TIMESTAMP_INVALID"
                                                     "Razorpay invoice has an invalid due timestamp.") t
                 end);
  now ← clock;
  lift (validate_invoice_snapshot {|
    is_provider := "razorpay"; is_invoice_id := invoice_id; is_subscription_id := subscription_id;
    is_amount_paise := amount_paise; is_amount_paid_paise := amount_paid_paise;
    is_currency := str_upper currency; is_invoice_state := str_lower invoice_state;
    is_due_at := due_at; is_observed_at := now; is_authoritative := true |}).

(** ** Payment surfaces *)

Definition surface (request : OpenPaymentSurfaceRequest) (reference url : string)
    (expires_at : option datetime) (authoritative : bool) : PaymentSurfaceResult := {|
  psf_provider := "razorpay"; psf_provider_reference := reference;
  psf_surface_type := op_surface_type request; psf_customer_url := url;
  psf_expires_at := expires_at; psf_authoritative := authoritative |}.

(** src/services/api/app/integrations/razorpay/client.py:401-415 [RazorpayClient.build_subscription_card_update_checkout] *)
Definition build_subscription_card_update_checkout (request : OpenPaymentSurfaceRequest) : result json :=
  _ ← raise_if (negb (eqs (op_surface_type request) PaymentSurfaceType.SUBSCRIPTION_CARD_UPDATE))
        (contract_error "RAZORPAY_SURFACE_MISMATCH"
           "Card-update Checkout options require SUBSCRIPTION_CARD_UPDATE.");
  mret (JObj [("key", JStr (cfg_key_id config)); ("subscription_id", JStr (op_subscription_id request));
              ("subscription_card_change", JBool true); ("name", JStr "RecoveryOS merchant checkout");
              ("description", JStr "Update the card used for this subscription")]).

(** src/services/api/app/integrations/razorpay/client.py:417-440 [RazorpayClient._open_card_update] *)
Definition open_card_update (request : OpenPaymentSurfaceRequest) : result PaymentSurfaceResult :=
  _ ← build_subscription_card_update_checkout request;
  let query := urlencode [("case_id", op_case_id request); ("subscription_id", op_subscription_id request);
                          ("key_id", cfg_key_id config)] in
  origin ← checkout_origin (cfg_checkout_origin config);
  mret (surface request (op_subscription_id request)
          (origin +++ "/payments/razorpay/card-update?" +++ query)
          (Some (op_recovery_deadline request)) false).

(** src/services/api/app/integrations/razorpay/client.py:442-469 [RazorpayClient._open_invoice_link] *)
Definition open_invoice_link (request : OpenPaymentSurfaceRequest) : stx W PaymentSurfaceResult :=
  invoice ← get_json ("/v1/invoices/" +++ op_failed_invoice_id request);
  _ ← guard_ (negb (is_text (op_failed_invoice_id request) (json_get "id" invoice))
              || negb (is_text (op_subscription_id request) (json_get "subscription_id" invoice)))
        (contract_error "RAZORPAY_INVOICE_SCOPE_MISMATCH"
           "The requested invoice does not belong to the requested subscription.");
  status ← lift (hashed_text (json_get "status" invoice));
  _ ← guard_ (eqs status (Some "paid") || eqs status (Some "cancelled")
              || negb (truthy (rzp_text (json_get "short_url" invoice))))
        (contract_error "RAZORPAY_UNPAID_INVOICE_LINK_NOT_FOUND"
           "The exact failed invoice has no payable short_url.");
  url ← lift (client_https_url "RAZORPAY_INVOICE_URL_INVALID" (json_get "short_url" invoice));
  mret (surface request (op_failed_invoice_id request) url (Some (op_recovery_deadline request)) true).

(** src/services/api/app/integrations/razorpay/client.py:490-497 [RazorpayClient._open_standard_payment_link] *)
Definition notes_bounded (notes : list (string * string)) : bool :=
  (List.length notes <=? 15)%nat
  && forallb (fun kv => negb (eqs kv.1 "") && (text_length kv.1 <=? 256)%nat && (text_length kv.2 <=? 256)%nat) notes.

(** src/services/api/app/integrations/razorpay/client.py:498-512 [RazorpayClient._open_standard_payment_link]:
    the request of a link. *)
Definition link_body (request : OpenPaymentSurfaceRequest) (expires_at : datetime) (reference_id : string) : json :=
  JObj ([("amount", JInt (op_exact_amount_paise request)); ("currency", JStr (op_currency request));
         ("accept_partial", JBool false); ("expire_by", JInt (dt_instant expires_at ÷ second));
         ("reference_id", JStr reference_id);
         ("description", JStr ("Recovery for invoice " +++ op_failed_invoice_id request));
         ("notify", JObj [("sms", JBool false); ("email", JBool false)]); ("reminder_enable", JBool false);
         ("notes", JObj (map (fun kv => (kv.1, JStr kv.2)) (op_notes request)))]
        ++ (if truthy (op_callback_url request)
            then [("callback_url", opt_str (op_callback_url request)); ("callback_method", JStr "get")]
            else [])).

(** src/services/api/app/integrations/razorpay/client.py:541-548 [RazorpayClient._open_standard_payment_link]:
    the identifier and the address of a link, when a response has them. *)
Definition link_fields (link : json) : option (string * string) :=
  link_id ← rzp_text (json_get "id" link);
  short_url ← rzp_text (json_get "short_url" link);
  if negb (str_prefix "plink_" link_id) || (128 <? text_length link_id)%nat then None
  else Some (link_id, short_url).

Definition fail_breaker (kind : FailureKind) : stx W unit :=
  now ← clock; _ ← on_breaker (record_failure kind now); mret tt.

(** src/services/api/app/integrations/razorpay/client.py:525-540 [RazorpayClient._open_standard_payment_link]:
    the creation of a link; an exception that is none of the client's passes the breaker by. *)
Definition post_link (body : json) (reference_id : string) : stx W json :=
  catch (request_json "POST" "/v1/payment_links" [] (Some body) (Some reference_id)) (fun error =>
    match error with
    | RazorpayUncertainSubmissionError _ =>
        _ ← fail_breaker FailureKind.UNCERTAIN_SUBMISSION; raise error
    | RazorpayRequestError _ _ retriable =>
        _ ← fail_breaker (if retriable then FailureKind.RETRYABLE else FailureKind.PERMANENT); raise error
    | _ => raise error
    end).

(** src/services/api/app/integrations/razorpay/client.py:541-575 [RazorpayClient._open_standard_payment_link]:
    what is made of the response. *)
Definition accept_link (request : OpenPaymentSurfaceRequest) (reference_id : string) (expires_at : datetime)
    (link : json) : stx W PaymentSurfaceResult :=
  let uncertain := _ ← fail_breaker FailureKind.UNCERTAIN_SUBMISSION;
                   raise (RazorpayUncertainSubmissionError reference_id) in
  match link_fields link with
  | None => uncertain
  | Some (link_id, short_url) =>
      match client_https_url "RAZORPAY_PAYMENT_LINK_URL_INVALID" (JStr short_url) with
      | Err (RazorpayContractError _ _) => uncertain
      | Err e => raise e
      | Ok customer_url =>
          _ ← on_breaker (modS record_success);
          mret (surface request link_id customer_url (Some expires_at) true)
      end
  end.

(** src/services/api/app/integrations/razorpay/client.py:514-524 [RazorpayClient._open_standard_payment_link] *)
Definition ask_breaker : stx W unit :=
  now ← clock;
  decision ← on_breaker (before_call now);
  if bd_allowed decision then mret tt
  else match bd_reason decision with
       | None => raise (RuntimeError "blocked circuit decision omitted its fallback reason")
       | Some reason => raise (RazorpayRequestError (fr_code reason)
           "Razorpay Payment Link creation is temporarily blocked by provider safety."
           (fr_automatic_retry_permitted reason))
       end.

(** src/services/api/app/integrations/razorpay/client.py:471-498 [RazorpayClient._open_standard_payment_link]:
    what is checked before a link may be created; the expiry and the reference of the link. *)
Definition check_link_request (request : OpenPaymentSurfaceRequest) : stx W (datetime * string) :=
  subscription ← get_json ("/v1/subscriptions/" +++ op_subscription_id request);
  _ ← guard_ (negb (is_text "halted" (json_get "status" subscription)))
        (contract_error "RAZORPAY_STANDARD_LINK_REQUIRES_HALTED_SUBSCRIPTION"
           "A standalone Payment Link is allowed only for a halted subscription.");
  match op_expires_at request, op_reference_id request with
  | Some expires_at, Some reference_id =>
      _ ← guard_ (negb (notes_bounded (op_notes request)))
            (contract_error "RAZORPAY_PAYMENT_LINK_NOTES_INVALID"
               "Payment Link notes exceed Razorpay's bounded notes contract.");
      sooner ← lift (dt_lt (op_recovery_deadline request) expires_at);
      mret (if (sooner : bool) then op_recovery_deadline request else expires_at, reference_id)
  | _, _ => raise (contract_error "RAZORPAY_PAYMENT_LINK_CONTRACT_INVALID"
                     "A standalone Payment Link requires expiry and reference_id.")
  end.

(** src/services/api/app/integrations/razorpay/client.py:471-575 [RazorpayClient._open_standard_payment_link] *)
Definition open_standard_payment_link (request : OpenPaymentSurfaceRequest) : stx W PaymentSurfaceResult :=
  checked ← check_link_request request;
  let '(expires_at, reference_id) := checked in
  _ ← ask_breaker;
  link ← post_link (link_body request expires_at reference_id) reference_id;
  accept_link request reference_id expires_at link.

(** src/services/api/app/integrations/razorpay/client.py:577-589 [RazorpayClient.open_customer_payment_surface] *)
Definition client_open_surface (request : OpenPaymentSurfaceRequest) : stx W PaymentSurfaceResult :=
  match op_surface_type request with
  | PaymentSurfaceType.SUBSCRIPTION_CARD_UPDATE => lift (open_card_update request)
  | PaymentSurfaceType.SUBSCRIPTION_INVOICE_LINK => open_invoice_link request
  | PaymentSurfaceType.STANDARD_PAYMENT_LINK => open_standard_payment_link request
  end.

(** ** Reconciliation *)

(** src/services/api/app/integrations/razorpay/client.py:604-620 [RazorpayClient.fetch_payment_snapshot]:
    the payment, when there is one to look up. *)
Definition fetch_payment (provider_payment_id : option string) (invoice_id : string) : stx W json :=
  if negb (truthy provider_payment_id) then mret (JObj [])
  else
    let payment_id := default "" provider_payment_id in
    payment ← get_json ("/v1/payments/" +++ payment_id);
    _ ← guard_ (negb (is_text payment_id (json_get "id" payment)))
          (contract_error "RAZORPAY_PAYMENT_RESPONSE_MISMATCH"
             "Razorpay returned a different payment than requested.");
    _ ← guard_ (match rzp_text (json_get "invoice_id" payment) with
                | Some other => negb (eqs other invoice_id)
                | None => false
                end)
          (contract_error "RAZORPAY_PAYMENT_INVOICE_MISMATCH" "Razorpay payment belongs to a different invoice.");
    mret payment.

(** src/services/api/app/integrations/razorpay/client.py:591-658 [RazorpayClient.fetch_payment_snapshot] *)
Definition client_payment_snapshot (merchant_id : string) (payment_id : option string) (invoice_id : string)
  : stx W PaymentSnapshot :=
  invoice ← get_json ("/v1/invoices/" +++ invoice_id);
  _ ← guard_ (negb (is_text invoice_id (json_get "id" invoice)))
        (contract_error "RAZORPAY_INVOICE_RESPONSE_MISMATCH"
           "Razorpay returned a different invoice than requested.");
  let provider_payment_id := if truthy payment_id then payment_id else rzp_text (json_get "payment_id" invoice) in
  payment ← fetch_payment provider_payment_id invoice_id;
  let subscription_id := rzp_text (json_get "subscription_id" invoice) in
  subscription ← (match subscription_id with
    | None => mret (JObj [])
    | Some id =>
        subscription ← get_json ("/v1/subscriptions/" +++ id);
        _ ← guard_ (negb (is_text id (json_get "id" subscription)))
              (contract_error "RAZORPAY_SUBSCRIPTION_RESPONSE_MISMATCH"
                 "Razorpay returned a different subscription than requested.");
        mret subscription
    end);
  let no_amount := contract_error "RAZORPAY_PAYMENT_AMOUNT_INVALID"
                     "Razorpay returned no valid integer payment amount." in
  amount ← lift (from_option no_amount
    (match rzp_integer (json_get "amount" payment) with
     | Some z => Some z
     | None => rzp_integer (json_get "amount" invoice)
     end));
  _ ← guard_ (amount <? 0) no_amount;
  let no_currency := contract_error "RAZORPAY_PAYMENT_CURRENCY_INVALID"
                       "Razorpay returned no valid payment currency." in
  currency ← lift (from_option no_currency
    (or_str (rzp_text (json_get "currency" payment)) (rzp_text (json_get "currency" invoice))));
  _ ← guard_ (negb (text_length currency =? 3)%nat) no_currency;
  payment_state ← lift (payment_state_of (json_get "status" payment));
  subscription_state ← lift (subscription_state_of (json_get "status" subscription));
  now ← clock;
  mret {| ps_provider := "razorpay"; ps_payment_id := provider_payment_id; ps_invoice_id := Some invoice_id;
          ps_subscription_id := subscription_id; ps_payment_state := payment_state;
          ps_subscription_state := subscription_state; ps_amount_paise := amount;
          ps_currency := str_upper currency; ps_observed_at := now; ps_authoritative := true |}.

Definition settle_breaker (absent : bool) : stx W unit :=
  on_breaker (b ← getS; if cb_uncertain b then reconcile_uncertain absent else mret tt).

(** src/services/api/app/integrations/razorpay/client.py:660-716 [RazorpayClient.reconcile_payment_link_by_reference] *)
Definition client_reconcile_link (reference_id : string) : stx W (option PaymentSurfaceResult) :=
  collection ← request_json "GET" "/v1/payment_links" [("reference_id", reference_id)] None None;
  items ← lift (match (match collection with JObj fields => assoc_get "payment_links" fields | _ => None end)
                with
                | Some (JArr items) => Ok items
                | Some _ => Err (contract_error "RAZORPAY_PAYMENT_LINK_COLLECTION_INVALID"
                                   "Razorpay Payment Link collection has no payment_links array.")
                | None => match json_get "items" collection with
                          | JArr items => Ok items
                          | _ => Err (contract_error "RAZORPAY_PAYMENT_LINK_COLLECTION_INVALID"
                                        "Razorpay Payment Link collection has no payment_links array.")
                          end
                end);
  match List.filter (fun item => is_text reference_id (json_get "reference_id" item)) items with
  | [] => _ ← settle_breaker true; mret None
  | [link] =>
      match link_fields link with
      | None => raise (contract_error "RAZORPAY_PAYMENT_LINK_RESPONSE_INVALID"
                         "Reconciled Payment Link has no id or short_url.")
      | Some (link_id, short_url) =>
          _ ← settle_breaker false;
          expires_at ← lift (match rzp_integer (json_get "expire_by" link) with
                             | None | Some 0 => Ok None
                             | Some t => Some <$> fromtimestamp_utc t
                             end);
          customer_url ← lift (client_https_url "RAZORPAY_PAYMENT_LINK_URL_INVALID" (JStr short_url));
          mret (Some {| psf_provider := "razorpay"; psf_provider_reference := link_id;
                        psf_surface_type := PaymentSurfaceType.STANDARD_PAYMENT_LINK;
                        psf_customer_url := customer_url; psf_expires_at := expires_at;
                        psf_authoritative := true |})
      end
  | _ => raise (contract_error "RAZORPAY_PAYMENT_LINK_REFERENCE_AMBIGUOUS"
                  "Razorpay returned multiple Payment Links for one unique reference_id.")
  end.

(** src/services/api/app/integrations/razorpay/client.py:731-739 [RazorpayClient.revoke_standard_payment_link] *)
Definition terminal_link_state (link : json) : option string :=
  match rzp_text (json_get "status" link) with
  | Some "cancelled" | Some "expired" => Some "ALREADY_INACTIVE"
  | Some "paid" | Some "partially_paid" => Some "PAYMENT_PRESENT"
  | _ => None
  end.

Definition is_request_error (e : exn) : bool :=
  match e with RazorpayRequestError _ _ _ => true | _ => false end.

(** src/services/api/app/integrations/razorpay/client.py:718-766 [RazorpayClient.revoke_standard_payment_link] *)
Definition client_revoke_link (provider_reference : string) : stx W string :=
  let fetch := get_json ("/v1/payment_links/" +++ provider_reference) in
  link ← fetch;
  match terminal_link_state link with
  | Some terminal => mret terminal
  | None =>
      _ ← guard_ (negb (is_text "created" (json_get "status" link)))
            (contract_error "RAZORPAY_PAYMENT_LINK_STATUS_UNRESOLVED"
               "Payment Link cannot be safely cancelled from its current state.");
      cancelled ← catch (A := string + json) (inr <$> request_json "POST" ("/v1/payment_links/" +++ provider_reference +++ "/cancel")
                                   [] None None)
        (fun error =>
          if is_request_error error then
            again ← fetch;
            match terminal_link_state again with
            | Some terminal => mret (inl terminal)
            | None => raise error
            end
          else raise error);
      match cancelled with
      | inl terminal => mret terminal
      | inr answer =>
          _ ← guard_ (negb (is_text "cancelled" (json_get "status" answer)))
                (contract_error "RAZORPAY_PAYMENT_LINK_CANCEL_UNCONFIRMED"
                   "Razorpay did not confirm Payment Link cancellation.");
          mret "CANCELLED"
      end
  end.

(** src/services/api/app/integrations/razorpay/client.py:131-154 [RazorpayClient] *)
Definition razorpay_provider : PaymentProvider W := {|
  is_mock_provider := false;
  has_link_lifecycle := true;
  open_customer_payment_surface := client_open_surface;
  fetch_payment_snapshot := client_payment_snapshot;
  reconcile_payment_link_by_reference := client_reconcile_link;
  revoke_standard_payment_link := client_revoke_link;
|}.
End client.
