(* ===== verification/RazorpayClientFacts.v ===== *)
(** * What the Razorpay client keeps

    A submission whose outcome is open is not repeated before a lookup was answered; a
    collection is read to its end or refused; a link is given up only on the word of the
    provider. *)
From S2P Require Import Prelude Domain Json JsonText Breaker Razorpay Correlation Mandates Activities AgentModels RazorpayClient.

(** ** Open submissions *)

Section open_submissions.
Context {H : Type} {transport : RazorpayTransport H}.
Context (urlsplit : string -> result SplitResult) (config : RazorpayConfig).
Abbreviation W := (razorpay_world H).
Abbreviation exchanged := (rz_request * result rz_response)%type.

Definition is_create (e : exchanged) : bool :=
  bool_decide (rz_method e.1 = "POST") && bool_decide (rz_path e.1 = "/v1/payment_links").
Definition is_answered_lookup (e : exchanged) : bool :=
  bool_decide (rz_method e.1 = "GET") && bool_decide (rz_path e.1 = "/v1/payment_links")
  && match e.2 with Ok response => is_ok (read_response None response) | Err _ => false end.

(** What a created response leaves open. *)
Definition link_open (link : json) : bool :=
  match link_fields link with
  | None => true
  | Some (_, url) => match client_https_url urlsplit "RAZORPAY_PAYMENT_LINK_URL_INVALID" (JStr url) with
                     | Err (RazorpayContractError _ _) => true
                     | _ => false
                     end
  end.

(** The response tells neither that a link was created, nor that none was. *)
Definition outcome_open (response : rz_response) : bool :=
  match read_response (Some "") response with
  | Err (RazorpayUncertainSubmissionError _) => true
  | Err _ => false
  | Ok link => link_open link
  end.
Definition leaves_open (e : exchanged) : bool :=
  is_create e && match e.2 with Ok response => outcome_open response | Err _ => false end.

(** A creation after one whose outcome is open, and no answered lookup in between. *)
Definition blind_resubmission : list exchanged -> Prop := repeated_blindly is_create leaves_open is_answered_lookup.
Abbreviation open_after := (open_after is_create leaves_open is_answered_lookup).
Lemma open_after_not_blind log open : open_after log = Some open -> ~ blind_resubmission log.
Proof. apply open_after_sound. unfold leaves_open. intros e He. by bools. Qed.

(** The breaker remembers an open submission. *)
Definition remembers (w : W) : Prop :=
  breaker_wf (rw_breaker w) /\
  exists open, open_after (rw_log w) = Some open /\ (open = true -> cb_uncertain (rw_breaker w) = true).

Context (clock_aware : forall h, is_aware (transport_now h) = true).

(** ** What an operation may do to the memory *)

Abbreviation keeps m := (hoare remembers m (fun _ => remembers) remembers).

Lemma rz_keeps_send request : is_create (request, Ok Unreachable) = false -> keeps (send request).
Proof.
  intros Hc w (Hwf & open & Ho & Hu). unfold send. destruct (exchange request (rw_http w)) as [r h].
  assert (remembers (w <| rw_http := h |> <| rw_log ::= fun l => (l ++ [(request, r)])%list |>)) as Hr.
  { split; [exact Hwf|]. cbn. rewrite open_after_snoc, Ho. cbn.
    assert (is_create (request, r) = false) as -> by done.
    destruct (is_answered_lookup _); [by exists false|by exists open]. }
  by destruct r.
Qed.
Lemma rz_keeps_lift {A} (r : result A) : keeps (lift r).
Proof. intros w Hw. by destruct r. Qed.
Lemma rz_keeps_ret {A} (a : A) : keeps (mret a).
Proof. by intros w Hw. Qed.
Lemma rz_keeps_raise {A} e : keeps (raise (A := A) e).
Proof. by intros w Hw. Qed.
Lemma keeps_clock : keeps clock.
Proof. by intros w Hw. Qed.
Lemma rz_keeps_bind {A B} (m : stx W A) (f : A -> stx W B) : keeps m -> (forall a, keeps (f a)) -> keeps (m ≫= f).
Proof. intros Hm Hf. by eapply hoare_bind. Qed.
Lemma keeps_catch {A} (m : stx W A) h : keeps m -> (forall e, keeps (h e)) -> keeps (catch m h).
Proof. intros Hm Hh. by eapply hoare_catch. Qed.
Lemma rz_keeps_fmap {A B} (g : A -> B) (m : stx W A) : keeps m -> keeps (g <$> m).
Proof. intros Hm. apply rz_keeps_bind; [done|]. intros a. apply rz_keeps_ret. Qed.
Lemma keeps_request method path params body uncertain :
  is_create ({| rz_method := method; rz_path := path; rz_params := params; rz_json := body |}, Ok Unreachable) = false ->
  keeps (request_json method path params body uncertain).
Proof. intros Hc. apply rz_keeps_bind; [by apply rz_keeps_send|]. intros a. apply rz_keeps_lift. Qed.
Lemma keeps_get path : keeps (get_json path).
Proof. by apply keeps_request. Qed.

(** ** Creating a link *)

Lemma read_any_reference reference response :
  match read_response (Some "") response with
  | Ok link => read_response (Some reference) response = Ok link
  | Err (RazorpayUncertainSubmissionError _) =>
      read_response (Some reference) response = Err (RazorpayUncertainSubmissionError reference)
  | Err e => read_response (Some reference) response = Err e
  end.
Proof.
  destruct response as [|status body]; [done|]. unfold read_response.
  destruct ((400 <=? status) && (status <=? 599)).
  - by destruct (500 <=? status).
  - by destruct body as [[]|].
Qed.

(** What is known once a creation was sent: the outcome of the exchange, which the breaker
    may not remember yet. *)
Definition sent (open : bool) (w : W) : Prop :=
  breaker_wf (rw_breaker w) /\ open_after (rw_log w) = Some open.

Lemma rz_fail_remembers kind open w : sent open w ->
  (open = true -> kind = FailureKind.UNCERTAIN_SUBMISSION) ->
  exists w', fail_breaker kind w = (Ok tt, w') /\ remembers w'.
Proof.
  intros [Hwf Ho] Hk. unfold fail_breaker, clock, on_breaker, mbind, stx_bind.
  destruct (record_failure kind _ (rw_breaker w)) as [r b'] eqn:E.
  destruct (failure_keeps _ _ _ _ _ (clock_aware _) Hwf E) as (Hwf' & Hr & _ & Hu).
  destruct r as [x|]; [|done]. eexists. split; [reflexivity|]. split; [exact Hwf'|].
  exists open. split; [exact Ho|]. intros ->. by apply Hu, Hk.
Qed.
Lemma rz_sent_closed w : sent false w -> remembers w.
Proof. intros [Hwf Ho]. split; [done|]. by exists false. Qed.

(** Failing the breaker and raising, whatever is raised. *)
Lemma fail_and_raise {A} kind open e : (open = true -> kind = FailureKind.UNCERTAIN_SUBMISSION) ->
  hoare (sent open) (_ ← fail_breaker kind; raise (A := A) e) (fun _ _ => False) remembers.
Proof.
  intros Hk w Hw. destruct (rz_fail_remembers kind open w Hw Hk) as (w' & E & Hr).
  unfold mbind at 1, stx_bind at 1. by rewrite E.
Qed.

Lemma keeps_accept request reference expires_at link :
  hoare (sent (link_open link)) (accept_link urlsplit request reference expires_at link) (fun _ => remembers) remembers.
Proof.
  assert (hoare (sent true) (_ ← fail_breaker FailureKind.UNCERTAIN_SUBMISSION;
      raise (A := PaymentSurfaceResult) (RazorpayUncertainSubmissionError reference)) (fun _ => remembers) remembers)
    as Hopen by (eapply hoare_conseq; [by apply fail_and_raise|..]; done).
  unfold accept_link, link_open. destruct (link_fields link) as [[link_id url]|]; [|exact Hopen].
  destruct (client_https_url _ _ _) as [customer_url|e].
  - intros w [Hwf Ho]. cbn. split; [|by exists false].
    by destruct (breaker_step_refines Success 0 (rw_breaker w) Hwf) as (? & ? & [= _ <-] & ? & _).
  - destruct e; first [exact Hopen|by intros w Hw; apply rz_sent_closed].
Qed.

Lemma post_link_sent body reference :
  hoare (fun w => remembers w /\ cb_uncertain (rw_breaker w) = false)
    (post_link body reference) (fun link => sent (link_open link)) remembers.
Proof.
  intros w [(Hwf & open & Ho & Hu) Hnot]. assert (open = false) as -> by (destruct open; [|done]; by rewrite Hu in Hnot).
  unfold post_link, request_json, send, catch, mbind at 1, stx_bind at 1.
  set (req := {| rz_method := "POST"; rz_path := "/v1/payment_links"; rz_params := []; rz_json := Some body |}).
  destruct (exchange req (rw_http w)) as [resp h].
  set (w1 := w <| rw_http := h |> <| rw_log ::= fun l => (l ++ [(req, resp)])%list |>).
  assert (sent (leaves_open (req, resp)) w1) as Hsent.
  { split; [exact Hwf|]. cbn. by rewrite open_after_snoc, Ho. }
  unfold leaves_open in Hsent. change (is_create (req, resp)) with true in Hsent. cbn [andb snd] in Hsent.
  assert (forall open e, sent open w1 -> (open = true -> exists r, e = RazorpayUncertainSubmissionError r) ->
    match (match e with
           | RazorpayUncertainSubmissionError _ => _ ← fail_breaker FailureKind.UNCERTAIN_SUBMISSION; raise (A := json) e
           | RazorpayRequestError _ _ retriable =>
               _ ← fail_breaker (if retriable then FailureKind.RETRYABLE else FailureKind.PERMANENT); raise e
           | _ => raise e
           end) w1 with (Ok a, w') => sent (link_open a) w' | (Err _, w') => remembers w' end) as Hfail.
  { intros open e Hs He.
    assert (forall kind, (open = true -> kind = FailureKind.UNCERTAIN_SUBMISSION) ->
      match (_ ← fail_breaker kind; raise (A := json) e) w1 with
      | (Ok a, w') => sent (link_open a) w' | (Err _, w') => remembers w' end) as Hk.
    { intros kind Hk. pose proof (fail_and_raise (A := json) kind open e Hk w1 Hs) as Hx.
      by destruct ((_ ← fail_breaker kind; raise (A := json) e) w1) as [[a|e'] w']. }
    destruct open.
    - destruct He as [r ->]; [done|]. by apply Hk.
    - destruct e; first [by apply Hk|by apply rz_sent_closed]. }
  destruct resp as [response|e]; [|by apply (Hfail false)].
  unfold lift. pose proof (read_any_reference reference response) as Hread. unfold outcome_open in Hsent.
  destruct (read_response (Some "") response) as [link|e].
  - by rewrite Hread.
  - destruct e; match type of Hread with _ = Err ?e0 => pose proof (Hfail _ e0 Hsent) as Hx end;
      cbn in Hx; rewrite Hread; apply Hx; try done; intros _; by eexists.
Qed.

Lemma keeps_ask : hoare remembers ask_breaker
  (fun _ w => remembers w /\ cb_uncertain (rw_breaker w) = false) remembers.
Proof.
  intros w (Hwf & open & Ho & Hu). unfold ask_breaker, clock, on_breaker, mbind, stx_bind.
  destruct (before_call _ (rw_breaker w)) as [r b'] eqn:E.
  destruct (before_call_keeps _ _ _ _ (clock_aware _) Hwf E) as (Hwf' & Hsame & d & -> & Hallow & _).
  assert (remembers (w <| rw_breaker := b' |>)) as Hr.
  { split; [exact Hwf'|]. exists open. split; [exact Ho|]. cbn. by rewrite Hsame. }
  destruct (bd_allowed d).
  - split; [exact Hr|]. cbn. rewrite Hsame. by apply Hallow.
  - by destruct (bd_reason d).
Qed.

Lemma keeps_create_link request : keeps (open_standard_payment_link urlsplit request).
Proof.
  unfold open_standard_payment_link, check_link_request.
  apply rz_keeps_bind.
  { apply rz_keeps_bind; [apply keeps_get|]. intros subscription. apply rz_keeps_bind; [apply rz_keeps_lift|].
    intros _. destruct (op_expires_at request), (op_reference_id request); try apply rz_keeps_raise.
    apply rz_keeps_bind; [apply rz_keeps_lift|]. intros _. apply rz_keeps_bind; [apply rz_keeps_lift|]. intros a. apply rz_keeps_ret. }
  intros [expires_at reference]. eapply hoare_bind; [apply keeps_ask|]. intros u.
  eapply hoare_bind; [apply post_link_sent|]. intros link. apply keeps_accept.
Qed.

(** ** The other operations *)

Lemma not_create suffix params body : is_create ({| rz_method := "POST";
  rz_path := "/v1/payment_links/" +++ suffix; rz_params := params; rz_json := body |}, Ok Unreachable) = false.
Proof. unfold is_create. cbn [fst rz_method rz_path]. apply andb_false_iff. right. by apply bool_decide_eq_false. Qed.


Ltac keeping := cbv zeta; repeat
  match goal with |- hoare _ ?m _ _ =>
    lazymatch m with
    | get_json _ => apply keeps_get
    | request_json "POST" ("/v1/payment_links/" +++ _) _ _ _ => apply keeps_request, not_create
    | mbind _ _ => apply rz_keeps_bind; [|intros ?]
    | guard_ _ _ => apply rz_keeps_lift
    | lift _ => apply rz_keeps_lift
    | mret _ => apply rz_keeps_ret
    | raise _ => apply rz_keeps_raise
    | clock => apply keeps_clock
    | fmap _ _ => apply rz_keeps_fmap
    | catch _ _ => apply keeps_catch; [|intros ?]
    | match ?x with _ => _ end => destruct x
    end
  end.

Lemma lookup_sent params :
  hoare remembers (request_json "GET" "/v1/payment_links" params None None) (fun _ => sent false) remembers.
Proof.
  intros w (Hwf & open & Ho & Hu). unfold request_json, send, mbind, stx_bind.
  set (req := {| rz_method := "GET"; rz_path := "/v1/payment_links"; rz_params := params; rz_json := None |}).
  destruct (exchange req (rw_http w)) as [resp h].
  set (w1 := w <| rw_http := h |> <| rw_log ::= fun l => (l ++ [(req, resp)])%list |>).
  assert (open_after (rw_log w1) = note_exchange is_create leaves_open is_answered_lookup (Some open) (req, resp)) as Hlog
    by (cbn; by rewrite open_after_snoc, Ho).
  change (note_exchange is_create leaves_open is_answered_lookup (Some open) (req, resp)) with
    (if is_answered_lookup (req, resp) then Some false else Some open) in Hlog.
  assert (remembers w1) as Hr.
  { split; [exact Hwf|]. rewrite Hlog. destruct (is_answered_lookup _); [by exists false|by exists open]. }
  destruct resp as [response|e]; [|exact Hr]. unfold lift.
  destruct (read_response None response) as [collection|e] eqn:E; [|exact Hr].
  split; [exact Hwf|]. rewrite Hlog. unfold is_answered_lookup. cbn [snd fst req rz_method rz_path]. by rewrite E.
Qed.

Lemma settle_remembers absent : hoare (sent false) (settle_breaker absent) (fun _ => remembers) remembers.
Proof.
  intros w Hw. unfold settle_breaker, on_breaker, mbind, stx_bind, getS.
  destruct (cb_uncertain (rw_breaker w)) eqn:Eu; [|by apply rz_sent_closed].
  destruct Hw as [Hwf Ho].
  destruct (breaker_step_refines Success 0 (rw_breaker w) Hwf) as (? & ? & [= _ <-] & ? & _).
  unfold reconcile_uncertain, guard_, lift, raise_if, mbind, stx_bind, getS. rewrite Eu. cbn.
  by destruct absent; cbn; split; try done; exists false.
Qed.

Lemma keeps_reconcile reference_id : keeps (client_reconcile_link urlsplit reference_id).
Proof.
  unfold client_reconcile_link. eapply hoare_bind; [apply lookup_sent|]. intros collection.
  eapply hoare_bind with (R := fun _ => sent false).
  { intros w Hw. unfold lift. destruct (match _ with Some _ => _ | None => _ end); [exact Hw|by apply rz_sent_closed]. }
  intros items. destruct (List.filter _ items) as [|link [|]].
  - eapply hoare_bind; [apply settle_remembers|]. intros u. apply rz_keeps_ret.
  - destruct (link_fields link) as [[link_id url]|]; [|by intros w Hw; apply rz_sent_closed].
    eapply hoare_bind; [apply settle_remembers|]. intros u. cbv beta. keeping.
  - by intros w Hw; apply rz_sent_closed.
Qed.

Lemma keeps_list path params field code maximum : path <> "/v1/payment_links" -> keeps (list_objects path params field code maximum).
Proof.
  intros Hp. unfold list_objects. generalize (@nil json). induction (maximum + 1)%nat as [|fuel IH]; intros items; cbn [list_pages].
  - apply rz_keeps_raise.
  - apply rz_keeps_bind; [|by intros [items' [|]]; [apply rz_keeps_ret|apply IH]].
    unfold list_page. apply rz_keeps_bind; [by apply keeps_request|]. intros collection. keeping.
Qed.

Lemma keeps_revoke reference : keeps (client_revoke_link reference).
Proof.
  unfold client_revoke_link. cbv zeta. keeping.
Qed.
Lemma keeps_payment_snapshot merchant_id payment_id invoice_id :
  keeps (client_payment_snapshot merchant_id payment_id invoice_id).
Proof. unfold client_payment_snapshot, fetch_payment. keeping. Qed.
Lemma keeps_invoice_snapshot merchant_id invoice_id : keeps (client_invoice_snapshot merchant_id invoice_id).
Proof. unfold client_invoice_snapshot. cbv zeta. keeping. Qed.
Lemma keeps_bundle id : keeps (fetch_test_subscription_onboarding_bundle config id).
Proof. unfold fetch_test_subscription_onboarding_bundle. keeping. by apply keeps_list. Qed.
Lemma keeps_surface request : keeps (client_open_surface urlsplit config request).
Proof.
  unfold client_open_surface. destruct (op_surface_type request).
  - apply rz_keeps_lift.
  - unfold open_invoice_link. keeping.
  - apply keeps_create_link.
Qed.

(** ** Histories of a client *)

(** Operations one after the other, each whatever the one before came to, while the world the
    transport reaches changes at will. *)
Inductive served (w0 : W) : W -> Prop :=
| served_none : served w0 w0
| served_open w request : served w0 w -> served w0 (client_open_surface urlsplit config request w).2
| served_payment w m p i : served w0 w -> served w0 (client_payment_snapshot m p i w).2
| served_invoice w m i : served w0 w -> served w0 (client_invoice_snapshot m i w).2
| served_reconcile w r : served w0 w -> served w0 (client_reconcile_link urlsplit r w).2
| served_revoke w r : served w0 w -> served w0 (client_revoke_link r w).2
| served_bundle w id : served w0 w -> served w0 (fetch_test_subscription_onboarding_bundle config id w).2
| served_elsewhere w h : served w0 w -> served w0 (w <| rw_http := h |>).

Lemma rz_keeps_after {A} (m : stx W A) w : keeps m -> remembers w -> remembers (m w).2.
Proof. intros Hm Hw. specialize (Hm w Hw). by destruct (m w) as [[a|e] w']. Qed.
Lemma served_remembers w0 w : remembers w0 -> served w0 w -> remembers w.
Proof.
  intros H0. induction 1; try (by eapply rz_keeps_after; [|exact IHserved]; eauto using keeps_surface,
    keeps_payment_snapshot, keeps_invoice_snapshot, keeps_reconcile, keeps_revoke, keeps_bundle); [exact H0|].
  by destruct IHserved as (Hwf & open & Ho & Hu); split; [|exists open].
Qed.

Definition fresh_client (http : H) (b : CircuitBreaker) : W := {| rw_http := http; rw_breaker := b; rw_log := [] |}.

(** C27: over any history of a client, a creation of a link whose outcome is open (no answer, a
    server error, an answer that is no JSON object or describes no usable link) is followed by
    no other creation before the provider has answered a lookup of links by reference. *)
Theorem no_blind_resubmission provider operation threshold timeout b http w :
  breaker_init provider operation threshold timeout = Ok b ->
  served (fresh_client http b) w -> ~ blind_resubmission (rw_log w).
Proof.
  intros Hb Hw. assert (remembers (fresh_client http b)) as H0.
  { split; [by eapply breaker_init_wf|]. by exists false. }
  destruct (served_remembers _ _ H0 Hw) as (_ & open & Ho & _). by eapply open_after_not_blind.
Qed.
End open_submissions.

(** ** Collections *)

Section collections.
Context {H : Type} {transport : RazorpayTransport H}.
Abbreviation W := (razorpay_world H).

Definition page_request (path : string) (params : list (string * string)) (count skip : nat) : rz_request := {|
  rz_method := "GET"; rz_path := path;
  rz_params := params ++ [("count", str_of_Z (Z.of_nat count)); ("skip", str_of_Z (Z.of_nat skip))];
  rz_json := None |}.
(** The provider pages through [items], at least as far as [maximum]. *)
Definition pages_through (path : string) (params : list (string * string)) (field : string) (maximum : nat)
    (items : list json) : Prop :=
  forall count skip h, (count <= 100)%nat -> (skip <= maximum)%nat -> exists h', exchange (page_request path params count skip) h
    = (Ok (Answered 200 (Some (JObj [(field, JArr (take count (drop skip items)))]))), h').

Section read.
Context (path field code : string) (params : list (string * string)) (items : list json) (maximum : nat).
Context (Hpages : pages_through path params field maximum items) (Hdicts : forallb is_dict items = true).

Definition too_large : exn := RazorpayContractError (str_removesuffix "_INVALID" code +++ "_TOO_LARGE")
  "Razorpay collection exceeds the bounded read limit.".

(** One turn of the loop, with the first [seen] items read. *)
Lemma list_page_turn seen w :
  let size := Nat.min 100 (maximum + 1 - seen) in let read := take (seen + size) items in
  exists w', list_page path params field code maximum (take seen items) w
  = (if (maximum <? List.length read)%nat then Err too_large
     else Ok (read, (List.length read - List.length (take seen items) <? size)%nat), w')
  \/ (List.length items < seen)%nat \/ (maximum < seen)%nat.
Proof.
  cbv zeta. destruct (le_lt_dec seen (List.length items)) as [Hseen|?]; [|by exists w; right; left].
  destruct (le_lt_dec seen maximum) as [Hskip|?]; [|by exists w; right; right].
  unfold list_page, request_json, send. cbv zeta.
  assert (List.length (take seen items) = seen) as Hlen by (rewrite length_take; lia). rewrite !Hlen.
  set (size := Nat.min 100 (maximum + 1 - seen)).
  destruct (Hpages size seen (rw_http w)) as (h' & E); [lia|done|]. unfold page_request in E.
  unfold mbind, stx_bind. rewrite E. unfold lift at 1.
  unfold read_response. cbn [Z.leb Z.compare Pos.compare Pos.compare_cont andb json_get assoc_get].
  rewrite (bool_decide_eq_true_2 (field = field)) by done. cbn [default].
  set (page := take size (drop seen items)).
  assert (existsb (fun item => negb (is_dict item)) page = false) as Hall.
  { apply not_true_is_false. intros (x & Hx & Hn)%existsb_exists. rewrite forallb_forall in Hdicts.
    unfold page in Hx. apply list_elem_of_In in Hx. apply elem_of_take in Hx as (i & Hi & _).
    rewrite lookup_drop in Hi. apply list_elem_of_lookup_2 in Hi. rewrite list_elem_of_In in Hi.
    specialize (Hdicts x Hi). by rewrite Hdicts in Hn. }
  assert ((size <? List.length page)%nat = false) as Hsz by (apply Nat.ltb_ge; unfold page; rewrite length_take; lia).
  assert ((take seen items ++ page)%list = take (seen + size) items) as Hpage by (unfold page; by rewrite take_take_drop).
  assert (List.length page = (List.length (take (seen + size) items) - seen)%nat) as Hpl
    by (rewrite <- Hpage, length_app, Hlen; lia).
  unfold guard_, lift, raise_if, id. rewrite Hsz, Hall, Hpage, Hpl. cbn [orb].
  destruct (maximum <? _)%nat; cbn; eexists; by left.
Qed.

Lemma list_pages_all fuel seen w : (seen <= List.length items)%nat -> (seen <= maximum)%nat ->
  (maximum + 1 - seen <= fuel)%nat ->
  exists w', list_pages fuel path params field code maximum (take seen items) w
  = (if (List.length items <=? maximum)%nat then Ok items else Err too_large, w').
Proof.
  revert seen w. induction fuel as [|fuel IH]; intros seen w Hs Hm Hf; [lia|]. cbn [list_pages].
  destruct (list_page_turn seen w) as (w' & [E|[?|?]]); [|lia..]. cbv zeta in E.
  unfold mbind, stx_bind. rewrite E. rewrite !length_take in *.
  set (size := Nat.min 100 (maximum + 1 - seen)) in *.
  destruct (Nat.ltb_spec maximum (Nat.min (seen + size) (List.length items))).
  - exists w'. by destruct (Nat.leb_spec (List.length items) maximum); [lia|].
  - destruct (Nat.ltb_spec (Nat.min (seen + size) (List.length items) - Nat.min seen (List.length items)) size).
    + exists w'. destruct (Nat.leb_spec (List.length items) maximum); [|lia]. unfold mret, stx_ret.
      by rewrite take_ge by lia.
    + apply (IH (seen + size)%nat); lia.
Qed.
End read.

(** C28: a collection the provider pages through is read to its end, every item once and in
    order, and refused as soon as it exceeds the bound; the loop always ends. *)
Theorem collection_read_exact path params field code items maximum w :
  pages_through path params field maximum items -> forallb is_dict items = true ->
  exists w', list_objects path params field code maximum w
  = (if (List.length items <=? maximum)%nat then Ok items else Err (too_large code), w').
Proof.
  intros Hp Hd. apply (list_pages_all path field code params items maximum Hp Hd (maximum + 1) 0); lia.
Qed.

(** ** Giving links up *)

Definition fetch_of (reference : string) : rz_request := {|
  rz_method := "GET"; rz_path := "/v1/payment_links/" +++ reference; rz_params := []; rz_json := None |}.
Definition cancel_of (reference : string) : rz_request := {|
  rz_method := "POST"; rz_path := "/v1/payment_links/" +++ reference +++ "/cancel"; rz_params := []; rz_json := None |}.
(** The exchange answered with an object whose status is one of [states]. *)
Definition says (request : rz_request) (states : list string) (e : rz_request * result rz_response) : Prop :=
  e.1 = request /\ exists response fields status, e.2 = Ok response /\
    read_response None response = Ok (JObj fields) /\ json_get "status" (JObj fields) = JStr status /\ status ∈ states.

Lemma request_log method path body (w : W) r w' : request_json method path [] body None w = (r, w') ->
  exists answer, rw_log w' = rw_log w ++ [({| rz_method := method; rz_path := path; rz_params := []; rz_json := body |}, answer)]
    /\ rw_breaker w' = rw_breaker w
    /\ match r with Ok link => exists response, answer = Ok response /\ read_response None response = Ok link | Err _ => True end.
Proof.
  unfold request_json, send, mbind, stx_bind. destruct (exchange _ _) as [[response|e] h]; cbn.
  - intros [= <- <-]. exists (Ok response). split; [done|]. split; [done|].
    destruct (read_response None response) as [link|] eqn:E; [by exists response|done].
  - intros [= <- <-]. by exists (Err e).
Qed.
Lemma read_is_object response link : read_response None response = Ok link -> exists fields, link = JObj fields.
Proof.
  unfold read_response. destruct response as [|status body]; [done|]. destruct (_ && _); [done|].
  destruct body as [[]|]; try done. intros [= <-]. by eexists.
Qed.
Lemma terminal_says request response link answer s : read_response None response = Ok link -> answer = Ok response ->
  terminal_link_state link = Some s ->
  says request (if eqs s "PAYMENT_PRESENT" then ["paid"; "partially_paid"] else ["cancelled"; "expired"]) (request, answer)
  /\ (s = "PAYMENT_PRESENT" \/ s = "ALREADY_INACTIVE").
Proof.
  intros Hr -> Ht. destruct (read_is_object _ _ Hr) as [fields ->]. unfold terminal_link_state, rzp_text in Ht.
  destruct (json_get "status" (JObj fields)) eqn:Es; try done. case_bool_decide; [done|].
  assert (forall states, s0 ∈ states -> says request states (request, Ok response)) as Hsays.
  { intros states Hin. split; [done|]. by exists response, fields, s0. }
  repeat case_match; simplify_eq; (split; [decide_eqs; apply Hsays; rewrite !elem_of_cons; auto|auto]).
Qed.

(** a standalone link is given up on the provider's word alone: [CANCELLED] answers the
    one cancellation that was sent, after the link was read as created; the other answers
    repeat the state the link was read in last; a link that was not read as created is never
    cancelled, and nothing but these requests is sent. *)
Theorem revocation_exact reference (w : W) r w' : client_revoke_link reference w = (r, w') ->
  rw_breaker w' = rw_breaker w /\ exists exchanges, rw_log w' = rw_log w ++ exchanges /\
    ((exists a, exchanges = [(fetch_of reference, a)])
     \/ exists a b rest, exchanges = (fetch_of reference, a) :: (cancel_of reference, b) :: rest
          /\ says (fetch_of reference) ["created"] (fetch_of reference, a)
          /\ (rest = [] \/ exists c, rest = [(fetch_of reference, c)])) /\
    match r with
    | Ok "CANCELLED" => exists e, last exchanges = Some e /\ says (cancel_of reference) ["cancelled"] e
    | Ok "PAYMENT_PRESENT" => exists e, last exchanges = Some e /\ says (fetch_of reference) ["paid"; "partially_paid"] e
    | Ok "ALREADY_INACTIVE" => exists e, last exchanges = Some e /\ says (fetch_of reference) ["cancelled"; "expired"] e
    | Ok _ => False
    | Err _ => True
    end.
Proof.
  unfold client_revoke_link. cbv zeta. unfold mbind at 1, stx_bind at 1.
  destruct (get_json _ w) as [[link|e] w1] eqn:E1; destruct (request_log _ _ _ _ _ _ E1) as (a & Hl1 & Hb1 & H1).
  2: { intros [= <- <-]. split; [done|]. exists [(fetch_of reference, a)]. split; [done|]. split; [eauto|done]. }
  destruct H1 as (resp1 & -> & Hr1).
  destruct (terminal_link_state link) as [terminal|] eqn:Et.
  { intros [= <- <-]. destruct (terminal_says (fetch_of reference) _ _ _ _ Hr1 eq_refl Et) as [Hs [-> | ->]];
      (split; [done|]); exists [(fetch_of reference, Ok resp1)]; (split; [done|]); (split; [eauto|]);
      exists (fetch_of reference, Ok resp1); by split. }
  unfold guard_, raise_if. destruct (is_text "created" (json_get "status" link)) eqn:Ec; cbn [negb].
  2: { intros [= <- <-]. split; [done|]. exists [(fetch_of reference, Ok resp1)]. split; [done|]. split; [eauto|done]. }
  apply is_text_true in Ec. destruct (read_is_object _ _ Hr1) as [fields ->].
  assert (says (fetch_of reference) ["created"] (fetch_of reference, Ok resp1)) as Hcreated.
  { split; [done|]. exists resp1, fields, "created". split; [done|]. split; [done|]. split; [done|]. by left. }
  unfold mbind at 1, stx_bind at 1. cbn [lift]. unfold mbind at 1, stx_bind at 1. unfold catch at 1.
  unfold fmap, stx_fmap, mbind at 1, stx_bind at 1.
  destruct (request_json "POST" _ _ _ _ w1) as [[answer|e] w2] eqn:E2;
    destruct (request_log _ _ _ _ _ _ E2) as (b & Hl2 & Hb2 & H2); rewrite Hl1, <- (assoc_L (++)) in Hl2; cbn [app] in Hl2.
  - destruct H2 as (resp2 & -> & Hr2). cbn [mret stx_ret]. unfold mbind, stx_bind, lift, mret, stx_ret.
    destruct (is_text "cancelled" _) eqn:Ex; cbn [negb]; intros [= <- <-]; (split; [by rewrite Hb2|]);
      exists [(fetch_of reference, Ok resp1); (cancel_of reference, Ok resp2)]; (split; [exact Hl2|]);
      (split; [right; exists (Ok resp1), (Ok resp2), []; auto|]); [|done].
    apply is_text_true in Ex. destruct (read_is_object _ _ Hr2) as [fields2 ->].
    exists (cancel_of reference, Ok resp2). split; [done|]. split; [done|].
    exists resp2, fields2, "cancelled". split; [done|]. split; [done|]. split; [done|]. by left.
  - destruct (is_request_error e).
    2: { intros [= <- <-]. split; [by rewrite Hb2|].
         exists [(fetch_of reference, Ok resp1); (cancel_of reference, b)]. split; [exact Hl2|].
         split; [right; exists (Ok resp1), b, []; auto|done]. }
    unfold mbind, stx_bind. destruct (get_json _ w2) as [[again|e3] w3] eqn:E3;
      destruct (request_log _ _ _ _ _ _ E3) as (c & Hl3 & Hb3 & H3); rewrite Hl2, <- (assoc_L (++)) in Hl3; cbn [app] in Hl3.
    2: { intros [= <- <-]. split; [by rewrite Hb3, Hb2|].
         exists [(fetch_of reference, Ok resp1); (cancel_of reference, b); (fetch_of reference, c)]. split; [exact Hl3|].
         split; [right; exists (Ok resp1), b, [(fetch_of reference, c)]; eauto 6|done]. }
    destruct H3 as (resp3 & -> & Hr3). destruct (terminal_link_state again) as [terminal|] eqn:Et3.
    + intros [= <- <-]. destruct (terminal_says (fetch_of reference) _ _ _ _ Hr3 eq_refl Et3) as [Hs [-> | ->]];
        (split; [by rewrite Hb3, Hb2|]);
        exists [(fetch_of reference, Ok resp1); (cancel_of reference, b); (fetch_of reference, Ok resp3)];
        (split; [exact Hl3|]); (split; [right; exists (Ok resp1), b, [(fetch_of reference, Ok resp3)]; eauto 6|]);
        exists (fetch_of reference, Ok resp3); by split.
    + intros [= <- <-]. split; [by rewrite Hb3, Hb2|].
      exists [(fetch_of reference, Ok resp1); (cancel_of reference, b); (fetch_of reference, Ok resp3)]. split; [exact Hl3|].
      split; [right; exists (Ok resp1), b, [(fetch_of reference, Ok resp3)]; eauto 6|done].
Qed.
End collections.

(** ** Sample exchanges *)

(** A transport that answers from a script, and then not at all. *)
Record scripted : Type := { sc_script : list rz_response }.
#[export] Instance scripted_transport : RazorpayTransport scripted := {|
  exchange _ := fun h => match sc_script h with
                         | [] => (Ok Unreachable, h)
                         | r :: rest => (Ok r, {| sc_script := rest |})
                         end;
  transport_now _ := utc_datetime 0;
|}.
Definition sample_split (text : string) : result SplitResult :=
  Ok {| url_scheme := "https"; url_hostname := Some "rzp.io"; url_username := None; url_password := None;
        url_query := ""; url_fragment := "" |}.
Definition sample_config : RazorpayConfig := {|
  cfg_key_id := "rzp_test_1"; cfg_key_secret := "secret"; cfg_checkout_origin := "https://shop.example";
  cfg_base_url := "https://api.razorpay.com" |}.
Definition sample_link_request (reference : string) : OpenPaymentSurfaceRequest := {|
  op_idempotency_key := "k"; op_case_id := "c1"; op_merchant_id := "m"; op_customer_id := "u";
  op_subscription_id := "sub_1"; op_failed_invoice_id := "inv_1";
  op_surface_type := PaymentSurfaceType.STANDARD_PAYMENT_LINK; op_exact_amount_paise := 100;
  op_currency := "INR"; op_recovery_deadline := utc_datetime day; op_expires_at := Some (utc_datetime hour);
  op_callback_url := None; op_reference_id := Some reference;
  op_notes := [("case_id", "c1"); ("invoice_id", "inv_1")] |}.
Definition answers (fields : list (string * json)) : rz_response := Answered 200 (Some (JObj fields)).
Definition halted : rz_response := answers [("id", JStr "sub_1"); ("status", JStr "halted")].
Definition link_answer (status : string) : rz_response :=
  answers [("id", JStr "plink_1"); ("short_url", JStr "https://rzp.io/l"); ("status", JStr status)].
Definition sample_breaker : CircuitBreaker := {|
  cb_provider := "razorpay"; cb_operation := "create_payment_link"; cb_failure_threshold := 3;
  cb_recovery_timeout := 30 * second; cb_state := CircuitState.CLOSED; cb_failure_count := 0;
  cb_opened_at := None; cb_probe_in_flight := false; cb_uncertain := false |}.
Abbreviation opened reference w :=
  (client_open_surface sample_split sample_config (sample_link_request reference) w).
Abbreviation looked_up reference w := (client_reconcile_link sample_split reference w).
Definition scripted_client (script : list rz_response) : razorpay_world scripted :=
  fresh_client {| sc_script := script |} sample_breaker.
Definition creations (w : razorpay_world scripted) : nat := List.length (List.filter is_create (rw_log w)).

(** A server error, a second attempt that the breaker refuses, a lookup, and a third. *)
Definition sample_history : razorpay_world scripted :=
  let w1 := (opened "r1" (scripted_client [halted; Answered 503 None; halted; answers [("items", JArr [])];
                                           halted; link_answer "created"])).2 in
  (opened "r1" (looked_up "r1" (opened "r1" w1).2).2).2.
Lemma no_blind_resubmission_witness :
  creations sample_history = 2%nat /\ ~ blind_resubmission sample_split (rw_log sample_history).
Proof.
  split; [vm_compute; reflexivity|].
  apply (no_blind_resubmission (transport := scripted_transport) sample_split sample_config (fun _ => eq_refl) "razorpay" "create_payment_link" 3
    (30 * second) sample_breaker {| sc_script := [halted; Answered 503 None; halted; answers [("items", JArr [])];
                                           halted; link_answer "created"] |}); [reflexivity|].
  apply served_open, served_reconcile, served_open, served_open, served_none.
Defined.

(** the lookup that releases the breaker may be of any reference: after a creation under
    [r1] whose outcome is open, looking [r2] up lets [r1] be created again although nobody has
    asked the provider for it. *)
Theorem other_lookup_releases :
  let w1 := (opened "r1" (scripted_client [halted; Answered 503 None; answers [("items", JArr [])];
                                           halted; link_answer "created"])).2 in
  let w2 := (looked_up "r2" w1).2 in
  cb_uncertain (rw_breaker w1) = true /\ cb_uncertain (rw_breaker w2) = false /\
  creations (opened "r1" w2).2 = 2%nat /\ is_ok (opened "r1" w2).1 = true.
Proof. vm_compute. repeat split. Qed.

(** A provider that pages through its invoices. *)
Definition param (key : string) (request : rz_request) : string :=
  default "" (snd <$> List.find (fun kv => bool_decide (kv.1 = key)) (rz_params request)).
Definition number_of (text : string) : nat :=
  default O (List.find (fun n => bool_decide (str_of_Z (Z.of_nat n) = text)) (seq 0 1001)).
Definition paging_transport (items : list json) : RazorpayTransport unit := {|
  exchange request := fun h =>
    (Ok (answers [("items", JArr (take (number_of (param "count" request))
                                    (drop (number_of (param "skip" request)) items)))]), h);
  transport_now _ := utc_datetime 0;
|}.

Lemma number_of_text n : (n <= 1000)%nat -> number_of (str_of_Z (Z.of_nat n)) = n.
Proof.
  intros Hn. unfold number_of. destruct (List.find _ _) as [m|] eqn:E.
  - apply List.find_some in E as [_ E]. bools. apply (inj pretty) in E. cbn. lia.
  - pose proof (List.find_none _ _ E n) as Hf. rewrite in_seq in Hf. specialize (Hf ltac:(lia)).
    cbv beta in Hf. by rewrite bool_decide_eq_true_2 in Hf.
Qed.

Definition sample_invoices : list json := repeat (JObj [("id", JStr "inv_1")]) 250.
Lemma collection_read_exact_witness :
  exists w', list_objects (transport := paging_transport sample_invoices) "/v1/invoices"
    [("subscription_id", "sub_1")] "items" "RAZORPAY_INVOICE_COLLECTION_INVALID" 1000
    (fresh_client tt sample_breaker) = (Ok sample_invoices, w').
Proof.
  destruct (collection_read_exact (transport := paging_transport sample_invoices) "/v1/invoices"
    [("subscription_id", "sub_1")] "items" "RAZORPAY_INVOICE_COLLECTION_INVALID" sample_invoices 1000
    (fresh_client tt sample_breaker)) as [w' E].
  - intros count skip h Hc Hs. exists h. unfold exchange, paging_transport, page_request, param. cbn -[number_of str_of_Z take drop Z.of_nat].
    decide_eqs. cbn -[number_of str_of_Z take drop Z.of_nat]. by rewrite !number_of_text by lia.
  - reflexivity.
  - exists w'. exact E.
Defined.

Definition revoked (script : list rz_response) := client_revoke_link "plink_1" (scripted_client script).
Lemma revocation_exact_witness :
  let script := [link_answer "created"; Answered 400 None; link_answer "paid"] in
  (revoked script).1 = Ok "PAYMENT_PRESENT" /\
  exists e, last (rw_log (revoked script).2) = Some e /\
    says (fetch_of "plink_1") ["paid"; "partially_paid"] e.
Proof.
  cbv zeta. split; [vm_compute; reflexivity|].
  destruct (revoked [link_answer "created"; Answered 400 None; link_answer "paid"]) as [r w'] eqn:E.
  destruct (revocation_exact "plink_1" _ r w' E) as (_ & exchanges & Hlog & _ & Hr).
  assert (r = Ok "PAYMENT_PRESENT") as -> by (apply (f_equal fst) in E; cbn [fst] in E; rewrite <- E; vm_compute; reflexivity).
  destruct Hr as (e & He & Hs). exists e. cbn [snd]. rewrite Hlog. cbn. by split.
Defined.
