(* ===== verification/Onboarding.v ===== *)
(** * Onboarding of Razorpay subscriptions

    [razorpay_onboarding/service.py]: a test subscription with its plan and invoices is read
    from the provider, checked, and written to the tables webhooks are correlated with.
    Other sessions may commit between any two statements. *)
From S2P Require Import Prelude Domain Json JsonText Razorpay Entities Session Correlation Mandates Activities AgentModels RazorpayClient.

(** ** The merchant and the responses *)

(** src/services/api/app/razorpay_onboarding/service.py:48-54 [MerchantIdentity] *)
Record MerchantIdentity : Type := {
  mi_id : string;
  mi_external_id : string;
  mi_display_name : string;
  mi_timezone : string;
  mi_currency : string;
}.

(** src/services/api/app/razorpay_onboarding/models.py:14-24 [RazorpayTestSubscriptionSyncRequest] *)
Record RazorpayTestSubscriptionSyncRequest : Type := {
  sr_customer_external_id : string;
  sr_customer_display_name : string;
  sr_preferred_language : string;
}.

(** src/services/api/app/razorpay_onboarding/models.py:27-30 [SyncedCustomerResponse] *)
Record SyncedCustomerResponse : Type := {
  scr_id : string;
  scr_external_id : string;
  scr_created : bool;
}.

(** src/services/api/app/razorpay_onboarding/models.py:33-42 [SyncedSubscriptionResponse] *)
Record SyncedSubscriptionResponse : Type := {
  ssr_id : string;
  ssr_provider_subscription_id : string;
  ssr_provider_plan_id : string;
  ssr_plan_name : string;
  ssr_amount_paise : Z;
  ssr_currency : string;
  ssr_subscription_state : SubscriptionState;
  ssr_authorization_url : option string;
  ssr_created : bool;
}.

(** src/services/api/app/razorpay_onboarding/models.py:45-54 [SyncedInvoiceResponse] *)
Record SyncedInvoiceResponse : Type := {
  sir_id : string;
  sir_provider_invoice_id : string;
  sir_billing_cycle_key : string;
  sir_amount_paise : Z;
  sir_amount_paid_paise : Z;
  sir_currency : string;
  sir_invoice_state : string;
  sir_payment_url : option string;
  sir_created : bool;
}.

(** src/services/api/app/razorpay_onboarding/models.py:57-62 [RazorpayTestSubscriptionSyncResponse] *)
Record RazorpayTestSubscriptionSyncResponse : Type := {
  syn_merchant_id : string;
  syn_customer : SyncedCustomerResponse;
  syn_subscription : SyncedSubscriptionResponse;
  syn_invoices : list SyncedInvoiceResponse;
}.

(** src/services/api/app/razorpay_onboarding/service.py:57-97 [merchant_identity_from_env]:
    [zone_error] is what [ZoneInfo] raises, a [KeyError] for a zone it does not find. *)
Definition merchant_identity_from_env (env : string -> option string) (zone_error : string -> option exn)
  : result MerchantIdentity :=
  let get name fallback := str_strip (default fallback (env name)) in
  let merchant_id := get "RECOVERY_MERCHANT_ID" "" in
  let display_name := get "RECOVERY_MERCHANT_DISPLAY_NAME" "" in
  let external_id := get "RECOVERY_MERCHANT_EXTERNAL_ID" merchant_id in
  let timezone := get "RECOVERY_MERCHANT_TIMEZONE" "Asia/Kolkata" in
  let currency := str_upper (get "RECOVERY_MERCHANT_CURRENCY" "INR") in
  let invalid msg := RazorpayIntegrationError "RAZORPAY_MERCHANT_SCOPE_INVALID" msg in
  _ ← raise_if (eqs merchant_id "" || eqs display_name "" || eqs external_id "")
        (RazorpayIntegrationError "RAZORPAY_MERCHANT_SCOPE_NOT_CONFIGURED"
           "RECOVERY_MERCHANT_ID and RECOVERY_MERCHANT_DISPLAY_NAME are required.");
  _ ← raise_if ((64 <? text_length merchant_id) || (128 <? text_length external_id)
                || (200 <? text_length display_name))%nat
        (invalid "Configured merchant identity exceeds the persistence contract.");
  _ ← raise_if (negb (text_length currency =? 3)%nat)
        (invalid "RECOVERY_MERCHANT_CURRENCY must be a three-letter currency code.");
  _ ← (match zone_error timezone with
       | None => Ok tt
       | Some (KeyError _) => Err (invalid "RECOVERY_MERCHANT_TIMEZONE must be a valid IANA timezone.")
       | Some e => Err e
       end);
  mret {| mi_id := merchant_id; mi_external_id := external_id; mi_display_name := display_name;
          mi_timezone := timezone; mi_currency := currency |}.

(** ** Reading the provider's objects *)

(** src/services/api/app/razorpay_onboarding/service.py:105-109 [_required_text] *)
Definition required_text (payload : json) (field code : string) : result string :=
  from_option (RazorpayContractError code ("Razorpay " +++ field +++ " is missing or invalid."))
    (rzp_text (json_get field payload)).

(** src/services/api/app/razorpay_onboarding/service.py:112-116 [_nonnegative_integer] *)
Definition nonnegative_integer (payload : json) (field code : string) : result Z :=
  let invalid := RazorpayContractError code ("Razorpay " +++ field +++ " is missing or invalid.") in
  value ← from_option invalid (rzp_integer (json_get field payload));
  _ ← raise_if (value <? 0) invalid;
  mret value.

(** src/services/api/app/razorpay_onboarding/service.py:119-126 [_positive_integer]: a field that
    is missing counts as one. *)
Definition positive_integer (payload : json) (field : string) : result Z :=
  let invalid := RazorpayContractError "RAZORPAY_SUBSCRIPTION_QUANTITY_INVALID"
                   "Razorpay subscription quantity must be a positive integer." in
  let found := match payload with JObj fields => default (JInt 1) (assoc_get field fields) | _ => JInt 1 end in
  value ← from_option invalid (rzp_integer found);
  _ ← raise_if (value <=? 0) invalid;
  mret value.

(** src/services/api/app/razorpay_onboarding/service.py:129-148 [_provider_https_url] *)
Definition optional_https_url (urlsplit : string -> result SplitResult) (payload : json) (field code : string)
  : result (option string) :=
  match json_get field payload with
  | JNull => Ok None
  | JStr value =>
      _ ← raise_if (2048 <? Z.of_nat (text_length value))
            (RazorpayContractError code ("Razorpay " +++ field +++ " is invalid."));
      parsed ← urlsplit value;
      _ ← raise_if (negb (eqs (url_scheme parsed) "https") || eqs (url_hostname parsed) None
                    || negb (eqs (url_username parsed) None) || negb (eqs (url_password parsed) None))
            (RazorpayContractError code ("Razorpay " +++ field +++ " must be a provider-returned HTTPS URL."));
      mret (Some value)
  | _ => Err (RazorpayContractError code ("Razorpay " +++ field +++ " is invalid."))
  end.

(** src/services/api/app/razorpay_onboarding/service.py:151-155 [_subscription_state] *)
Definition onboarded_state (value : json) : SubscriptionState :=
  match value with JStr text => subscription_state_named (str_lower text) | _ => SubscriptionState.UNKNOWN end.

(** src/services/api/app/razorpay_onboarding/service.py:158-169 [_provider_timestamp] *)
Fixpoint provider_timestamp (payload : json) (fields : list string) : result (option datetime) :=
  match fields with
  | [] => Ok None
  | field :: rest =>
      match rzp_integer (json_get field payload) with
      | Some value =>
          if 0 <=? value then
            Some <$> timestamp_or (RazorpayContractError "RAZORPAY_TIMESTAMP_INVALID"
                       ("Razorpay " +++ field +++ " is outside the supported timestamp range.")) value
          else provider_timestamp payload rest
      | None => provider_timestamp payload rest
      end
  end.

(** src/services/api/app/razorpay_onboarding/service.py:172-182 [_InvoiceData] *)
Record InvoiceData : Type := {
  idt_provider_id : string;
  idt_billing_cycle_key : string;
  idt_amount_paise : Z;
  idt_amount_paid_paise : Z;
  idt_currency : string;
  idt_state : string;
  idt_payment_url : option string;
  idt_due_at : option datetime;
  idt_sort_timestamp : Z;
}.

(** src/services/api/app/razorpay_onboarding/service.py:235-308 [RazorpaySubscriptionOnboardingService._persist]:
    what a bundle says of its subscription, the local variables of the method. *)
Record SubscriptionData : Type := {
  sdt_provider_subscription_id : string;
  sdt_provider_plan_id : string;
  sdt_plan_name : string;
  sdt_amount_paise : Z;
  sdt_currency : string;
  sdt_state : SubscriptionState;
  sdt_short_url : option string;
  sdt_invoices : list InvoiceData;
}.

Section reading.
Context `{Crypto} (urlsplit : string -> result SplitResult).

(** src/services/api/app/razorpay_onboarding/service.py:428-433 [RazorpaySubscriptionOnboardingService._invoice_data] *)
Definition billing_cycle_key (provider_id : string) : string :=
  let raw := "razorpay:" +++ provider_id in
  if (text_length raw <=? 64)%nat then raw else "razorpay:" +++ str_take 40 (sha256_hex provider_id).

(** src/services/api/app/razorpay_onboarding/service.py:370-448 [RazorpaySubscriptionOnboardingService._invoice_data] *)
Definition invoice_data (subscription_id currency : string) (payload : json) : result InvoiceData :=
  let invalid msg := RazorpayContractError "RAZORPAY_INVOICE_RESPONSE_INVALID" msg in
  let text field := required_text payload field "RAZORPAY_INVOICE_RESPONSE_INVALID" in
  provider_id ← text "id";
  _ ← raise_if (negb (str_prefix "inv_" provider_id) || (128 <? text_length provider_id)%nat)
        (invalid "Razorpay invoice id exceeds the persistence contract.");
  provider_subscription_id ← text "subscription_id";
  _ ← raise_if (negb (eqs provider_subscription_id subscription_id))
        (RazorpayContractError "RAZORPAY_INVOICE_SUBSCRIPTION_MISMATCH"
           "Razorpay invoice does not belong to the requested subscription.");
  invoice_currency ← text "currency";
  _ ← raise_if (negb (eqs (str_upper invoice_currency) currency))
        (RazorpayContractError "RAZORPAY_INVOICE_CURRENCY_MISMATCH"
           "Razorpay invoice currency does not match its plan.");
  amount_paise ← nonnegative_integer payload "amount" "RAZORPAY_INVOICE_RESPONSE_INVALID";
  amount_paid_paise ← nonnegative_integer payload "amount_paid" "RAZORPAY_INVOICE_RESPONSE_INVALID";
  _ ← raise_if (amount_paise <? amount_paid_paise)
        (RazorpayContractError "RAZORPAY_INVOICE_AMOUNT_INVALID" "Razorpay invoice amount_paid exceeds amount.");
  status ← text "status";
  _ ← raise_if (32 <? text_length (str_lower status))%nat
        (invalid "Razorpay invoice status exceeds the persistence contract.");
  let timestamp := default 0 (first_timestamp ["billing_start"; "issued_at"; "date"; "created_at"] payload) in
  payment_url ← optional_https_url urlsplit payload "short_url" "RAZORPAY_INVOICE_URL_INVALID";
  due_at ← provider_timestamp payload ["expire_by"; "billing_end"];
  mret {| idt_provider_id := provider_id; idt_billing_cycle_key := billing_cycle_key provider_id;
          idt_amount_paise := amount_paise; idt_amount_paid_paise := amount_paid_paise;
          idt_currency := str_upper invoice_currency; idt_state := str_lower status;
          idt_payment_url := payment_url; idt_due_at := due_at; idt_sort_timestamp := timestamp |}.

(** src/services/api/app/razorpay_onboarding/service.py:235-308 [RazorpaySubscriptionOnboardingService._persist] *)
Definition read_bundle (merchant_currency subscription_id : string)
    (bundle : RazorpaySubscriptionOnboardingBundle) : result SubscriptionData :=
  let subscription := bun_subscription bundle in
  let item_text item field := required_text item field "RAZORPAY_PLAN_ITEM_INVALID" in
  provider_subscription_id ← required_text subscription "id" "RAZORPAY_SUBSCRIPTION_RESPONSE_INVALID";
  _ ← raise_if (negb (eqs provider_subscription_id subscription_id))
        (RazorpayContractError "RAZORPAY_SUBSCRIPTION_RESPONSE_MISMATCH"
           "Razorpay returned a different subscription than requested.");
  provider_plan_id ← required_text subscription "plan_id" "RAZORPAY_SUBSCRIPTION_PLAN_MISSING";
  _ ← raise_if (negb (str_prefix "plan_" provider_plan_id))
        (RazorpayContractError "RAZORPAY_SUBSCRIPTION_PLAN_MISSING"
           "Razorpay subscription has no valid provider plan id.");
  _ ← raise_if (negb (is_text provider_plan_id (json_get "id" (bun_plan bundle))))
        (RazorpayContractError "RAZORPAY_PLAN_RESPONSE_MISMATCH"
           "Razorpay plan does not belong to the subscription.");
  plan_item ← (match json_get "item" (bun_plan bundle) with
               | JObj fields => Ok (JObj fields)
               | _ => Err (RazorpayContractError "RAZORPAY_PLAN_ITEM_INVALID" "Razorpay plan has no valid item.")
               end);
  plan_name ← item_text plan_item "name";
  _ ← raise_if ((200 <? text_length plan_name)%nat || (128 <? text_length provider_plan_id)%nat)
        (RazorpayContractError "RAZORPAY_PLAN_ITEM_INVALID"
           "Razorpay plan identity exceeds the persistence contract.");
  unit_amount_paise ← nonnegative_integer plan_item "amount" "RAZORPAY_PLAN_ITEM_INVALID";
  currency_text ← item_text plan_item "currency";
  let currency := str_upper currency_text in
  _ ← raise_if (negb (text_length currency =? 3)%nat || negb (eqs currency merchant_currency))
        (RazorpayContractError "RAZORPAY_CURRENCY_SCOPE_MISMATCH"
           "Razorpay plan currency does not match the configured merchant currency.");
  quantity ← positive_integer subscription "quantity";
  short_url ← optional_https_url urlsplit subscription "short_url" "RAZORPAY_SUBSCRIPTION_URL_INVALID";
  invoices ← map_result (invoice_data subscription_id currency) (bun_invoices bundle);
  mret {| sdt_provider_subscription_id := provider_subscription_id; sdt_provider_plan_id := provider_plan_id;
          sdt_plan_name := plan_name; sdt_amount_paise := unit_amount_paise * quantity;
          sdt_currency := currency; sdt_state := onboarded_state (json_get "status" subscription);
          sdt_short_url := short_url; sdt_invoices := invoices |}.
End reading.

(** ** The unit of work

    The session's local state is the function that its changes since the last commit make of
    any contents, so that its statements see them over whatever [rivals] have committed. *)
Section persistence.
Context `{Crypto} (clock : nat -> Z) (rivals : nat -> Db -> Db).
Abbreviation M := (stx (session (Db -> Db))).

(** What the other sessions commit before the next statement. *)
Definition others_commit : M unit :=
  n ← reading (fun n => n);
  modS (fun s => s <| ses_committed := rivals n (ses_committed s) |>
                   <| ses_db := ses_local s (rivals n (ses_committed s)) |>).

Definition change (f : Db -> Db) : M unit :=
  _ ← write f; local_set (fun pending d => f (pending d)).
Definition select {A} (f : Db -> A) : M A := _ ← others_commit; query f.
Definition flush_changes : M unit := _ ← others_commit; flush.
Definition commit_changes : M unit :=
  _ ← others_commit; _ ← commit; local_set (fun _ d => d).
Definition rollback_changes : M unit := _ ← rollback; local_set (fun _ d => d).

(** ** Writing *)

(** src/services/api/app/razorpay_onboarding/service.py:100-102 [_stable_id] *)
Definition onboarded_id (prefix merchant_id key : string) : string :=
  prefix +++ "_" +++ str_take 40 (sha256_hex (merchant_id +++ ":" +++ key)).

(** src/services/api/app/models/entities.py:112-121 [MerchantPolicySetting] *)
Definition default_policy_setting (merchant_id : string) : MerchantPolicySetting := {|
  mps_merchant_id := merchant_id; mps_quiet_hours_start := Some "20:00"; mps_quiet_hours_end := Some "09:00";
  mps_max_contacts_per_7_days := Some 2; mps_require_approval_above_paise := Some 500000;
  mps_require_approval_actions := []; mps_recovery_kill_switch := false; mps_version := 1 |}.

(** The rows a key of the unique constraints names. *)
Definition merchant_row (id : string) (d : Db) : option Merchant :=
  row_where (fun m => eqs (mer_id m) id) (db_merchants d).
Definition merchant_named (external_id : string) (d : Db) : option Merchant :=
  row_where (fun m => eqs (mer_external_id m) external_id) (db_merchants d).
Definition policy_row (merchant_id : string) (d : Db) : option MerchantPolicySetting :=
  row_where (fun p => eqs (mps_merchant_id p) merchant_id) (db_policy_settings d).
Definition customer_row (merchant_id external_id : string) (d : Db) : option Customer :=
  row_where (fun c => eqs (cus_merchant_id c) merchant_id && eqs (cus_external_id c) external_id) (db_customers d).
Definition subscription_row (merchant_id provider_id : string) (d : Db) : option Subscription :=
  row_where (fun u => eqs (sub_merchant_id u) merchant_id && eqs (sub_provider_subscription_id u) provider_id)
    (db_subscriptions d).
Definition invoice_row (merchant_id provider_id : string) (d : Db) : option Invoice :=
  row_where (fun i => eqs (inv_merchant_id i) merchant_id && eqs (inv_provider_invoice_id i) provider_id)
    (db_invoices d).

Definition scope_conflict (msg : string) : exn := RazorpayContractError "RAZORPAY_MERCHANT_SCOPE_CONFLICT" msg.
Definition rename_merchant (identity : MerchantIdentity) (m : Merchant) : Merchant :=
  m <| mer_display_name := mi_display_name identity |> <| mer_timezone := mi_timezone identity |>.

(** src/services/api/app/razorpay_onboarding/service.py:450-492 [RazorpaySubscriptionOnboardingService._upsert_merchant] *)
Definition upsert_merchant (identity : MerchantIdentity) : M Merchant :=
  let id := mi_id identity in
  external_owner ← select (merchant_named (mi_external_id identity));
  merchant ← select (merchant_row id);
  _ ← guard_ (match external_owner with Some o => negb (eqs (mer_id o) id) | None => false end)
        (scope_conflict "Configured merchant external_id belongs to another merchant.");
  match merchant with
  | None =>
      let merchant := {| mer_id := id; mer_external_id := mi_external_id identity;
                         mer_display_name := mi_display_name identity;
                         mer_timezone := mi_timezone identity; mer_currency := mi_currency identity |} in
      _ ← change (fun d => d <| db_merchants ::= fun l => (l ++ [merchant])%list |>
                             <| db_policy_settings ::= fun l => (l ++ [default_policy_setting id])%list |>);
      _ ← flush_changes;
      mret merchant
  | Some merchant =>
      _ ← guard_ (negb (eqs (mer_external_id merchant) (mi_external_id identity))
                  || negb (eqs (mer_currency merchant) (mi_currency identity)))
            (scope_conflict "Configured merchant identity does not match the persisted merchant.");
      _ ← change (fun d => d <| db_merchants ::= update_where (fun m => eqs (mer_id m) id) (rename_merchant identity) |>);
      policy ← select (policy_row id);
      _ ← (match policy with
           | None => change (fun d => d <| db_policy_settings ::= fun l => (l ++ [default_policy_setting id])%list |>)
           | Some _ => mret tt
           end);
      mret (rename_merchant identity merchant)
  end.

Definition rename_customer (request : RazorpayTestSubscriptionSyncRequest) (c : Customer) : Customer :=
  c <| cus_display_name := sr_customer_display_name request |>
    <| cus_preferred_language := sr_preferred_language request |>.

(** src/services/api/app/razorpay_onboarding/service.py:494-526 [RazorpaySubscriptionOnboardingService._upsert_customer] *)
Definition upsert_customer (merchant_id : string) (request : RazorpayTestSubscriptionSyncRequest)
  : M (Customer * bool) :=
  let external_id := sr_customer_external_id request in
  customer ← select (customer_row merchant_id external_id);
  match customer with
  | None =>
      now ← reading clock;
      let customer := {|
        cus_id := onboarded_id "customer_rzp" merchant_id external_id;
        cus_merchant_id := merchant_id; cus_external_id := external_id;
        cus_display_name := sr_customer_display_name request; cus_phone_token := None;
        cus_preferred_language := sr_preferred_language request; cus_voice_consent_at := None;
        cus_opted_out_at := None; cus_customer_agent_available := false; cus_created_at := now |} in
      _ ← change (fun d => d <| db_customers ::= fun l => (l ++ [customer])%list |>);
      _ ← flush_changes;
      mret (customer, true)
  | Some customer =>
      _ ← change (fun d => d <| db_customers ::= update_where (fun c => eqs (cus_id c) (cus_id customer))
                                                    (rename_customer request) |>);
      _ ← flush_changes;
      mret (rename_customer request customer, false)
  end.

Definition revise_subscription (data : SubscriptionData) (u : Subscription) : Subscription :=
  u <| sub_plan_name := sdt_plan_name data |> <| sub_amount_paise := sdt_amount_paise data |>
    <| sub_currency := sdt_currency data |> <| sub_subscription_state := sdt_state data |>.

(** src/services/api/app/razorpay_onboarding/service.py:528-574 [RazorpaySubscriptionOnboardingService._upsert_subscription] *)
Definition upsert_subscription (merchant_id customer_id : string) (data : SubscriptionData)
  : M (Subscription * bool) :=
  let provider_id := sdt_provider_subscription_id data in
  subscription ← select (subscription_row merchant_id provider_id);
  match subscription with
  | None =>
      let subscription := {|
        sub_id := onboarded_id "subscription_rzp" merchant_id provider_id;
        sub_merchant_id := merchant_id; sub_customer_id := customer_id;
        sub_provider_subscription_id := provider_id; sub_plan_name := sdt_plan_name data;
        sub_amount_paise := sdt_amount_paise data; sub_currency := sdt_currency data;
        sub_subscription_state := sdt_state data; sub_current_billing_cycle_key := None |} in
      _ ← change (fun d => d <| db_subscriptions ::= fun l => (l ++ [subscription])%list |>);
      _ ← flush_changes;
      mret (subscription, true)
  | Some subscription =>
      _ ← guard_ (negb (eqs (sub_customer_id subscription) customer_id))
            (RazorpayContractError "RAZORPAY_SUBSCRIPTION_CUSTOMER_CONFLICT"
               "Razorpay subscription is already bound to another local customer.");
      _ ← change (fun d => d <| db_subscriptions ::= update_where (fun u => eqs (sub_id u) (sub_id subscription))
                                                        (revise_subscription data) |>);
      _ ← flush_changes;
      mret (revise_subscription data subscription, false)
  end.

Definition revise_invoice (data : InvoiceData) (i : Invoice) : Invoice :=
  i <| inv_amount_paise := idt_amount_paise data |> <| inv_amount_paid_paise := idt_amount_paid_paise data |>
    <| inv_currency := idt_currency data |> <| inv_invoice_state := idt_state data |>
    <| inv_due_at := dt_instant <$> idt_due_at data |>.

(** src/services/api/app/razorpay_onboarding/service.py:576-621 [RazorpaySubscriptionOnboardingService._upsert_invoice] *)
Definition upsert_invoice (merchant_id subscription_id : string) (data : InvoiceData) : M (Invoice * bool) :=
  let provider_id := idt_provider_id data in
  invoice ← select (invoice_row merchant_id provider_id);
  match invoice with
  | None =>
      let invoice := {|
        inv_id := onboarded_id "invoice_rzp" merchant_id provider_id;
        inv_merchant_id := merchant_id; inv_subscription_id := subscription_id;
        inv_provider_invoice_id := provider_id; inv_billing_cycle_key := idt_billing_cycle_key data;
        inv_amount_paise := idt_amount_paise data; inv_amount_paid_paise := idt_amount_paid_paise data;
        inv_currency := idt_currency data; inv_invoice_state := idt_state data;
        inv_due_at := dt_instant <$> idt_due_at data |} in
      _ ← change (fun d => d <| db_invoices ::= fun l => (l ++ [invoice])%list |>);
      _ ← flush_changes;
      mret (invoice, true)
  | Some invoice =>
      _ ← guard_ (negb (eqs (inv_subscription_id invoice) subscription_id))
            (RazorpayContractError "RAZORPAY_INVOICE_SUBSCRIPTION_CONFLICT"
               "Razorpay invoice is already bound to another local subscription.");
      _ ← change (fun d => d <| db_invoices ::= update_where (fun i => eqs (inv_id i) (inv_id invoice))
                                                   (revise_invoice data) |>);
      _ ← flush_changes;
      mret (revise_invoice data invoice, false)
  end.

(** src/services/api/app/razorpay_onboarding/service.py:324-343 [RazorpaySubscriptionOnboardingService._persist] *)
Fixpoint upsert_invoices (merchant_id subscription_id : string) (invoices : list InvoiceData)
  : M (list SyncedInvoiceResponse) :=
  match invoices with
  | [] => mret []
  | data :: rest =>
      ic ← upsert_invoice merchant_id subscription_id data;
      let '(invoice, created) := (ic : Invoice * bool) in
      responses ← upsert_invoices merchant_id subscription_id rest;
      mret ({| sir_id := inv_id invoice; sir_provider_invoice_id := inv_provider_invoice_id invoice;
               sir_billing_cycle_key := inv_billing_cycle_key invoice;
               sir_amount_paise := inv_amount_paise invoice;
               sir_amount_paid_paise := inv_amount_paid_paise invoice;
               sir_currency := inv_currency invoice; sir_invoice_state := inv_invoice_state invoice;
               sir_payment_url := idt_payment_url data; sir_created := created |} :: responses)
  end.

(** [max(invoices, key=lambda item: item.sort_timestamp)]: the first of the latest. *)
Definition latest_invoice (invoices : list InvoiceData) : option InvoiceData :=
  match invoices with
  | [] => None
  | first :: rest =>
      Some (foldl (fun best item => if idt_sort_timestamp best <? idt_sort_timestamp item then item else best)
              first rest)
  end.

(** src/services/api/app/razorpay_onboarding/service.py:310-368 [RazorpaySubscriptionOnboardingService._persist] *)
Definition persist_data (identity : MerchantIdentity) (request : RazorpayTestSubscriptionSyncRequest)
    (data : SubscriptionData) : M RazorpayTestSubscriptionSyncResponse :=
  merchant ← upsert_merchant identity;
  cc ← upsert_customer (mer_id merchant) request;
  let '(customer, customer_created) := (cc : Customer * bool) in
  sc ← upsert_subscription (mer_id merchant) (cus_id customer) data;
  let '(subscription, subscription_created) := (sc : Subscription * bool) in
  invoice_responses ← upsert_invoices (mer_id merchant) (sub_id subscription)
                        (sorted_on idt_sort_timestamp Z.compare (sdt_invoices data));
  _ ← (match latest_invoice (sdt_invoices data) with
       | Some latest =>
           change (fun d => d <| db_subscriptions ::= update_where (fun u => eqs (sub_id u) (sub_id subscription))
             (fun u => u <| sub_current_billing_cycle_key := Some (idt_billing_cycle_key latest) |>) |>)
       | None => mret tt
       end);
  _ ← flush_changes;
  mret {| syn_merchant_id := mer_id merchant;
          syn_customer := {| scr_id := cus_id customer; scr_external_id := cus_external_id customer;
                             scr_created := customer_created |};
          syn_subscription := {|
            ssr_id := sub_id subscription;
            ssr_provider_subscription_id := sub_provider_subscription_id subscription;
            ssr_provider_plan_id := sdt_provider_plan_id data; ssr_plan_name := sub_plan_name subscription;
            ssr_amount_paise := sub_amount_paise subscription; ssr_currency := sub_currency subscription;
            ssr_subscription_state := sub_subscription_state subscription;
            ssr_authorization_url := sdt_short_url data; ssr_created := subscription_created |};
          syn_invoices := invoice_responses |}.

Context (urlsplit : string -> result SplitResult).

(** src/services/api/app/razorpay_onboarding/service.py:227-368 [RazorpaySubscriptionOnboardingService._persist] *)
Definition persist_bundle (merchant : MerchantIdentity) (subscription_id : string)
    (request : RazorpayTestSubscriptionSyncRequest) (bundle : RazorpaySubscriptionOnboardingBundle)
  : M RazorpayTestSubscriptionSyncResponse :=
  data ← lift (read_bundle urlsplit (mi_currency merchant) subscription_id bundle);
  persist_data merchant request data.

(** src/services/api/app/razorpay_onboarding/service.py:205-225 [RazorpaySubscriptionOnboardingService.sync]:
    the attempts that are left. *)
Fixpoint sync_attempts (left : nat) (merchant : MerchantIdentity) (subscription_id : string)
    (request : RazorpayTestSubscriptionSyncRequest) (bundle : RazorpaySubscriptionOnboardingBundle)
  : M RazorpayTestSubscriptionSyncResponse :=
  match left with
  | O => raise (AssertionError "bounded onboarding retry did not return")
  | S left' =>
      catch (response ← persist_bundle merchant subscription_id request bundle;
             _ ← commit_changes;
             mret response)
        (fun error =>
           _ ← rollback_changes;
           match error with
           | IntegrityError _ =>
               if (left' =? 0)%nat then
                 raise (RazorpayContractError "RAZORPAY_ONBOARDING_CONFLICT"
                          "Concurrent onboarding could not converge safely.")
               else sync_attempts left' merchant subscription_id request bundle
           | _ => raise error
           end)
  end.

(** src/services/api/app/razorpay_onboarding/service.py:190-225 [RazorpaySubscriptionOnboardingService.sync]:
    [fetch] is the provider's bundle of a subscription. *)
Definition sync (fetch : string -> result RazorpaySubscriptionOnboardingBundle)
    (merchant : MerchantIdentity) (subscription_id : string) (request : RazorpayTestSubscriptionSyncRequest)
  : M RazorpayTestSubscriptionSyncResponse :=
  _ ← guard_ (negb (str_prefix "sub_" subscription_id) || (128 <? text_length subscription_id)%nat)
        (RazorpayContractError "RAZORPAY_SUBSCRIPTION_ID_INVALID" "A valid Razorpay subscription id is required.");
  bundle ← lift (fetch subscription_id);
  sync_attempts 2 merchant subscription_id request bundle.
End persistence.
