(* ===== verification/OnboardingFacts.v ===== *)
(** * Onboarding: what it writes

    The sessions of [Onboarding] against a reference that knows of no session: an upsert by
    the natural key of each table.  Without rivals the service computes the reference; a
    second run changes nothing; and whatever rivals do, a call that fails has written
    nothing. *)
From S2P Require Import Prelude Domain Json JsonText Razorpay Entities Session Correlation Mandates Activities AgentModels RazorpayClient Onboarding.

#[local] Arguments violated : simpl never.
#[local] Arguments update_where : simpl never.

(** ** Upserts by a natural key *)

Section upsert.
Context {R : Type} (named : R -> bool) (new : R) (revise : R -> R).

(** The rows after an upsert, the row it left and whether it is new. *)
Definition upsert (rows : list R) : list R * R * bool :=
  match row_where named rows with
  | None => ((rows ++ [new])%list, new, true)
  | Some r => (update_where named revise rows, revise r, false)
  end.

Lemma upsert_elem rows r : r ∈ (upsert rows).1.1 ->
  r = new \/ (r ∈ rows /\ named r = false) \/ exists r0, r0 ∈ rows /\ named r0 = true /\ r = revise r0.
Proof.
  unfold upsert. destruct (row_where named rows) as [r1|] eqn:E; cbn.
  - intros (r0 & Hr0 & ->)%elem_of_update_where. destruct (named r0) eqn:Er; eauto 6.
  - intros [Hr|Hr%list_elem_of_singleton]%elem_of_app; [|by left].
    right. left. split; [done|]. by eapply row_where_None.
Qed.

Lemma upsert_all (P : R -> Prop) rows : (forall r, r ∈ rows -> P r) -> P new -> (forall r, P r -> P (revise r)) ->
  forall r, r ∈ (upsert rows).1.1 -> P r.
Proof. intros Hr Hn Hv r [->|[[? _]|(r0 & ? & _ & ->)]]%upsert_elem; auto. Qed.

Hypothesis named_new : named new = true.
Hypothesis named_revise : forall r, named (revise r) = named r.
Hypothesis revise_new : revise new = new.
Hypothesis revise_again : forall r, revise (revise r) = revise r.

Lemma row_where_update rows :
  row_where named (update_where named revise rows) = revise <$> row_where named rows.
Proof.
  unfold row_where, update_where. induction rows as [|r rows IH]; cbn; [done|].
  destruct (named r) eqn:E; cbn; [by rewrite named_revise, E|by rewrite E].
Qed.

Lemma row_where_snoc rows : row_where named rows = None -> row_where named (rows ++ [new])%list = Some new.
Proof.
  unfold row_where. induction rows as [|r rows IH]; cbn; [by rewrite named_new|].
  by destruct (named r).
Qed.

Lemma upsert_found rows : row_where named (upsert rows).1.1 = Some (upsert rows).1.2.
Proof.
  unfold upsert. destruct (row_where named rows) eqn:E; cbn; [|by apply row_where_snoc].
  by rewrite row_where_update, E.
Qed.

(** The rows of the key are as [revise] makes them. *)
Definition settled (rows : list R) : Prop := forall r, r ∈ rows -> named r = true -> revise r = r.

Lemma upsert_settled rows r : settled rows -> row_where named rows = Some r -> upsert rows = (rows, r, false).
Proof.
  intros Hs Hr. unfold upsert. rewrite Hr. apply row_where_Some in Hr as [Hin Hn].
  rewrite (Hs r) by done. do 2 f_equal. unfold update_where. rewrite <- map_id. apply map_ext_in.
  intros a Ha%list_elem_of_In. destruct (named a) eqn:E; [by apply Hs|done].
Qed.

Lemma upsert_settles rows : settled (upsert rows).1.1.
Proof.
  intros r Hr Hn. apply upsert_elem in Hr as [->|[[_ Hf]|(r0 & _ & _ & ->)]]; [done|congruence|done].
Qed.
End upsert.

(** An update by the identifier of the row found is an update by its natural key. *)
Lemma update_by_id {R K} `{EqDecision K} (named : R -> bool) (key : R -> K) (revise : R -> R) rows r :
  unique_on (fun r => Some (key r)) rows = true ->
  (forall a b, a ∈ rows -> b ∈ rows -> named a = true -> named b = true -> a = b) ->
  row_where named rows = Some r ->
  update_where (fun a => bool_decide (key a = key r)) revise rows = update_where named revise rows.
Proof.
  intros Hu Hn [Hr Hp]%row_where_Some. apply update_where_ext; [|done]. intros a Ha.
  destruct (named a) eqn:E.
  - apply bool_decide_eq_true_2. f_equal. by apply Hn.
  - apply bool_decide_eq_false_2. intros Hk.
    pose proof (unique_on_spec _ _ _ _ _ Hu Ha Hr eq_refl (f_equal Some (eq_sym Hk))) as ->. congruence.
Qed.

(** Rows of a table with unique natural keys. *)
Lemma named_unique {R K} `{EqDecision K} (named : R -> bool) (key : R -> K) k rows :
  unique_on (fun r => Some (key r)) rows = true -> (forall r, named r = true -> key r = k) ->
  forall a b, a ∈ rows -> b ∈ rows -> named a = true -> named b = true -> a = b.
Proof.
  intros Hu Hk a b Ha Hb Na%Hk Nb%Hk. by apply (unique_on_spec _ _ _ _ k Hu Ha Hb); f_equal.
Qed.

(** An update that keeps the keys keeps them unique. *)
Lemma unique_on_update {R K} `{EqDecision K} (key : R -> option K) p f rows :
  (forall r, key (f r) = key r) -> unique_on key (update_where p f rows) = unique_on key rows.
Proof.
  intros Hf. unfold unique_on. do 2 f_equal. unfold update_where.
  enough (omap key (map (fun r => if p r then f r else r) rows) = omap key rows) as -> by done.
  induction rows as [|r rows IH]; cbn; [done|].
  rewrite IH. destruct (p r); [by rewrite Hf|done].
Qed.
Lemma forallb_update {R} (check : R -> bool) p f rows :
  forallb check rows = true -> (forall r, check r = true -> check (f r) = true) ->
  forallb check (update_where p f rows) = true.
Proof.
  rewrite !forallb_forall. intros H Hf r. rewrite <- list_elem_of_In.
  intros (r0 & Hr0%list_elem_of_In%H & ->)%elem_of_update_where. destruct (p r0); auto.
Qed.
Lemma forallb_snoc {R} (check : R -> bool) rows r :
  forallb check rows = true -> check r = true -> forallb check (rows ++ [r])%list = true.
Proof. intros H1 H2. by rewrite forallb_app, H1; cbn; rewrite H2. Qed.

(** ** The reference *)

Definition set_merchants l : Db -> Db := fun d => d <| db_merchants := l |>.
Definition set_settings l : Db -> Db := fun d => d <| db_policy_settings := l |>.
Definition set_customers l : Db -> Db := fun d => d <| db_customers := l |>.
Definition set_subscriptions l : Db -> Db := fun d => d <| db_subscriptions := l |>.
Definition set_invoices l : Db -> Db := fun d => d <| db_invoices := l |>.

Section reference.
Context `{Crypto}.

Definition new_merchant (i : MerchantIdentity) : Merchant := {|
  mer_id := mi_id i; mer_external_id := mi_external_id i; mer_display_name := mi_display_name i;
  mer_timezone := mi_timezone i; mer_currency := mi_currency i |}.
Definition new_customer (m : string) (request : RazorpayTestSubscriptionSyncRequest) (now : Z) : Customer := {|
  cus_id := onboarded_id "customer_rzp" m (sr_customer_external_id request);
  cus_merchant_id := m; cus_external_id := sr_customer_external_id request;
  cus_display_name := sr_customer_display_name request; cus_phone_token := None;
  cus_preferred_language := sr_preferred_language request; cus_voice_consent_at := None;
  cus_opted_out_at := None; cus_customer_agent_available := false; cus_created_at := now |}.
Definition new_subscription (m customer_id : string) (data : SubscriptionData) : Subscription := {|
  sub_id := onboarded_id "subscription_rzp" m (sdt_provider_subscription_id data);
  sub_merchant_id := m; sub_customer_id := customer_id;
  sub_provider_subscription_id := sdt_provider_subscription_id data; sub_plan_name := sdt_plan_name data;
  sub_amount_paise := sdt_amount_paise data; sub_currency := sdt_currency data;
  sub_subscription_state := sdt_state data; sub_current_billing_cycle_key := None |}.
Definition new_invoice (m subscription_id : string) (data : InvoiceData) : Invoice := {|
  inv_id := onboarded_id "invoice_rzp" m (idt_provider_id data);
  inv_merchant_id := m; inv_subscription_id := subscription_id;
  inv_provider_invoice_id := idt_provider_id data; inv_billing_cycle_key := idt_billing_cycle_key data;
  inv_amount_paise := idt_amount_paise data; inv_amount_paid_paise := idt_amount_paid_paise data;
  inv_currency := idt_currency data; inv_invoice_state := idt_state data;
  inv_due_at := dt_instant <$> idt_due_at data |}.

Definition is_merchant (id : string) (m : Merchant) : bool := eqs (mer_id m) id.
Definition is_customer (m ext : string) (c : Customer) : bool := eqs (cus_merchant_id c) m && eqs (cus_external_id c) ext.
Definition is_subscription (m pid : string) (u : Subscription) : bool :=
  eqs (sub_merchant_id u) m && eqs (sub_provider_subscription_id u) pid.
Definition is_invoice (m pid : string) (i : Invoice) : bool :=
  eqs (inv_merchant_id i) m && eqs (inv_provider_invoice_id i) pid.

(** What the merchant, the customer and the subscription of a call refuse. *)
Definition merchant_refused (i : MerchantIdentity) (d : Db) : option exn :=
  match merchant_named (mi_external_id i) d with
  | Some o => if eqs (mer_id o) (mi_id i) then None
              else Some (scope_conflict "Configured merchant external_id belongs to another merchant.")
  | None => None
  end.
Definition merchant_changed (i : MerchantIdentity) (d : Db) : option exn :=
  match merchant_row (mi_id i) d with
  | Some m => if eqs (mer_external_id m) (mi_external_id i) && eqs (mer_currency m) (mi_currency i) then None
              else Some (scope_conflict "Configured merchant identity does not match the persisted merchant.")
  | None => None
  end.
Definition subscription_refused (m customer_id pid : string) (d : Db) : option exn :=
  match subscription_row m pid d with
  | Some u => if eqs (sub_customer_id u) customer_id then None
              else Some (RazorpayContractError "RAZORPAY_SUBSCRIPTION_CUSTOMER_CONFLICT"
                           "Razorpay subscription is already bound to another local customer.")
  | None => None
  end.
Definition invoice_refused (m subscription_id pid : string) (d : Db) : option exn :=
  match invoice_row m pid d with
  | Some i => if eqs (inv_subscription_id i) subscription_id then None
              else Some (RazorpayContractError "RAZORPAY_INVOICE_SUBSCRIPTION_CONFLICT"
                           "Razorpay invoice is already bound to another local subscription.")
  | None => None
  end.
Definition refuse (o : option exn) : result unit := match o with None => Ok tt | Some e => Err e end.

(** One upsert per table, in the code's order. *)
Definition put_merchant (i : MerchantIdentity) (d : Db) : result (Merchant * Db) :=
  _ ← refuse (merchant_refused i d);
  _ ← refuse (merchant_changed i d);
  let '(rows, m, _) := upsert (is_merchant (mi_id i)) (new_merchant i) (rename_merchant i) (db_merchants d) in
  let settings := match policy_row (mi_id i) d with
                  | None => (db_policy_settings d ++ [default_policy_setting (mi_id i)])%list
                  | Some _ => db_policy_settings d
                  end in
  mret (m, set_settings settings (set_merchants rows d)).

Definition put_customer (m : string) (request : RazorpayTestSubscriptionSyncRequest) (now : Z) (d : Db)
  : (Customer * bool) * Db :=
  let '(rows, c, created) := upsert (is_customer m (sr_customer_external_id request))
                               (new_customer m request now) (rename_customer request) (db_customers d) in
  ((c, created), set_customers rows d).

Definition put_subscription (m customer_id : string) (data : SubscriptionData) (d : Db)
  : result ((Subscription * bool) * Db) :=
  let pid := sdt_provider_subscription_id data in
  _ ← refuse (subscription_refused m customer_id pid d);
  let '(rows, u, created) := upsert (is_subscription m pid) (new_subscription m customer_id data)
                               (revise_subscription data) (db_subscriptions d) in
  mret ((u, created), set_subscriptions rows d).

Definition put_invoice (m subscription_id : string) (data : InvoiceData) (d : Db) : result ((Invoice * bool) * Db) :=
  let pid := idt_provider_id data in
  _ ← refuse (invoice_refused m subscription_id pid d);
  let '(rows, i, created) := upsert (is_invoice m pid) (new_invoice m subscription_id data)
                               (revise_invoice data) (db_invoices d) in
  mret ((i, created), set_invoices rows d).

Definition invoice_response (data : InvoiceData) (i : Invoice) (created : bool) : SyncedInvoiceResponse := {|
  sir_id := inv_id i; sir_provider_invoice_id := inv_provider_invoice_id i;
  sir_billing_cycle_key := inv_billing_cycle_key i; sir_amount_paise := inv_amount_paise i;
  sir_amount_paid_paise := inv_amount_paid_paise i; sir_currency := inv_currency i;
  sir_invoice_state := inv_invoice_state i; sir_payment_url := idt_payment_url data; sir_created := created |}.

Fixpoint put_invoices (m subscription_id : string) (l : list InvoiceData) (d : Db)
  : result (list SyncedInvoiceResponse * Db) :=
  match l with
  | [] => mret ([], d)
  | data :: rest =>
      r ← put_invoice m subscription_id data d;
      rs ← put_invoices m subscription_id rest r.2;
      mret (invoice_response data r.1.1 r.1.2 :: rs.1, rs.2)
  end.

Definition set_cycle (key : string) (u : Subscription) : Subscription := u <| sub_current_billing_cycle_key := Some key |>.
Definition put_cycle (subscription_id : string) (l : list InvoiceData) (d : Db) : Db :=
  match latest_invoice l with
  | Some latest => d <| db_subscriptions ::= update_where (fun u => eqs (sub_id u) subscription_id)
                                               (set_cycle (idt_billing_cycle_key latest)) |>
  | None => d
  end.

Definition sync_response (m : string) (c : Customer) (cb : bool) (u : Subscription) (ub : bool)
    (data : SubscriptionData) (invoices : list SyncedInvoiceResponse) : RazorpayTestSubscriptionSyncResponse := {|
  syn_merchant_id := m;
  syn_customer := {| scr_id := cus_id c; scr_external_id := cus_external_id c; scr_created := cb |};
  syn_subscription := {|
    ssr_id := sub_id u; ssr_provider_subscription_id := sub_provider_subscription_id u;
    ssr_provider_plan_id := sdt_provider_plan_id data; ssr_plan_name := sub_plan_name u;
    ssr_amount_paise := sub_amount_paise u; ssr_currency := sub_currency u;
    ssr_subscription_state := sub_subscription_state u;
    ssr_authorization_url := sdt_short_url data; ssr_created := ub |};
  syn_invoices := invoices |}.

(** The reference: what a call for [data] makes of the tables. *)
Definition onboard (i : MerchantIdentity) (request : RazorpayTestSubscriptionSyncRequest)
    (data : SubscriptionData) (now : Z) (d : Db) : result (RazorpayTestSubscriptionSyncResponse * Db) :=
  md ← put_merchant i d;
  let cd := put_customer (mer_id md.1) request now md.2 in
  ud ← put_subscription (mer_id md.1) (cus_id cd.1.1) data cd.2;
  id ← put_invoices (mer_id md.1) (sub_id ud.1.1) (sorted_on idt_sort_timestamp Z.compare (sdt_invoices data)) ud.2;
  mret (sync_response (mer_id md.1) cd.1.1 cd.1.2 ud.1.1 ud.1.2 data id.1,
        put_cycle (sub_id ud.1.1) (sdt_invoices data) id.2).
End reference.

(** ** Upserts keep the constraints *)

Lemma upsert_unique {R K} `{EqDecision K} named new revise (key : R -> K) rows :
  unique_on (fun r => Some (key r)) rows = true -> (forall r, key (revise r) = key r) ->
  (row_where named rows = None -> forall r, r ∈ rows -> key r <> key new) ->
  unique_on (fun r => Some (key r)) (upsert named new revise rows).1.1 = true.
Proof.
  intros Hu Hr Hn. unfold upsert. destruct (row_where named rows); cbn.
  - rewrite unique_on_update; [done|]. intros r0. by rewrite Hr.
  - apply unique_on_snoc; [done|]. intros y Hy _ [= E]. by apply (Hn eq_refl y Hy).
Qed.
Lemma upsert_forallb {R} named new revise (check : R -> bool) rows :
  forallb check rows = true -> (forall r, check r = true -> check (revise r) = true) -> check new = true ->
  forallb check (upsert named new revise rows).1.1 = true.
Proof.
  intros Hc Hr Hn. unfold upsert. destruct (row_where named rows); [by apply forallb_update|by apply forallb_snoc].
Qed.

(** The rows of an upsert. *)
Ltac upserted E :=
  match type of E with _ = (?rows, ?r, ?b) => change rows with ((rows, r, b).1.1) end; rewrite <- E.

(** Replace the rows of a table by rows that satisfy its constraints. *)
Ltac replace_rows :=
  intros; apply consistent_iff; match goal with H : consistent _ |- _ => apply consistent_iff in H end;
  unfold constraints in *; cbn;
  repeat match goal with H : Forall _ (_ :: _) |- _ => apply Forall_cons in H as [? H] end;
  repeat (apply Forall_cons; split; [try done|]); try constructor.

Lemma consistent_merchants d rows : consistent d ->
  unique_on (fun m => Some (mer_id m)) rows = true ->
  unique_on (fun m => Some (mer_external_id m)) rows = true -> forallb check_merchant rows = true ->
  consistent (set_merchants rows d).
Proof. replace_rows. Qed.
Lemma consistent_settings d rows : consistent d ->
  unique_on (fun p => Some (mps_merchant_id p)) rows = true -> forallb check_policy_setting rows = true ->
  consistent (set_settings rows d).
Proof. replace_rows. Qed.
Lemma consistent_customers d rows : consistent d ->
  unique_on (fun c => Some (cus_id c)) rows = true ->
  unique_on (fun c => Some (cus_merchant_id c, cus_external_id c)) rows = true ->
  consistent (set_customers rows d).
Proof. replace_rows. Qed.
Lemma consistent_subscriptions d rows : consistent d ->
  unique_on (fun u => Some (sub_id u)) rows = true ->
  unique_on (fun u => Some (sub_merchant_id u, sub_provider_subscription_id u)) rows = true ->
  forallb check_subscription rows = true -> consistent (set_subscriptions rows d).
Proof. replace_rows. Qed.
Lemma consistent_invoices d rows : consistent d ->
  unique_on (fun i => Some (inv_id i)) rows = true ->
  unique_on (fun i => Some (inv_merchant_id i, inv_provider_invoice_id i)) rows = true ->
  unique_on (fun i => Some (inv_merchant_id i, inv_subscription_id i, inv_billing_cycle_key i)) rows = true ->
  forallb check_invoice rows = true -> consistent (set_invoices rows d).
Proof. replace_rows. Qed.

(** ** What the data of a bundle satisfy *)

Record sound_data (currency : string) (data : SubscriptionData) : Prop := {
  sd_amount : 0 <= sdt_amount_paise data;
  sd_currency : sdt_currency data = currency;
  sd_length : text_length currency = 3%nat;
  sd_invoices : Forall (fun x => 0 <= idt_amount_paid_paise x <= idt_amount_paise x) (sdt_invoices data);
}.

Section facts.
Context `{Crypto}.

(** The rows already there bear identifiers and cycle keys of their own: none collides with
    what the call would insert. *)
Record insertable_data (m : string) (request : RazorpayTestSubscriptionSyncRequest)
    (data : SubscriptionData) (d : Db) : Prop := {
  id_settings : forall p, p ∈ db_policy_settings d -> mps_merchant_id p = m -> merchant_row m d <> None;
  id_customer : forall c, c ∈ db_customers d ->
    cus_id c = onboarded_id "customer_rzp" m (sr_customer_external_id request) ->
    is_customer m (sr_customer_external_id request) c = true;
  id_subscription : forall u, u ∈ db_subscriptions d ->
    sub_id u = onboarded_id "subscription_rzp" m (sdt_provider_subscription_id data) ->
    is_subscription m (sdt_provider_subscription_id data) u = true;
  id_invoice : forall x i, x ∈ sdt_invoices data -> i ∈ db_invoices d ->
    inv_id i = onboarded_id "invoice_rzp" m (idt_provider_id x)
    \/ (inv_merchant_id i = m /\ inv_billing_cycle_key i = idt_billing_cycle_key x) ->
    is_invoice m (idt_provider_id x) i = true;
  id_apart : forall x y, x ∈ sdt_invoices data -> y ∈ sdt_invoices data ->
    onboarded_id "invoice_rzp" m (idt_provider_id x) = onboarded_id "invoice_rzp" m (idt_provider_id y)
    \/ idt_billing_cycle_key x = idt_billing_cycle_key y -> idt_provider_id x = idt_provider_id y;
}.

Lemma is_merchant_key id m : is_merchant id m = true -> mer_id m = id.
Proof. unfold is_merchant. by rewrite bool_decide_eq_true. Qed.
Lemma is_customer_key m ext c : is_customer m ext c = true <-> (cus_merchant_id c, cus_external_id c) = (m, ext).
Proof. unfold is_customer. rewrite andb_true_iff, !bool_decide_eq_true. split; [intros [-> ->]; done|by intros [= -> ->]]. Qed.
Lemma is_subscription_key m pid u :
  is_subscription m pid u = true <-> (sub_merchant_id u, sub_provider_subscription_id u) = (m, pid).
Proof. unfold is_subscription. rewrite andb_true_iff, !bool_decide_eq_true. split; [intros [-> ->]; done|by intros [= -> ->]]. Qed.
Lemma is_invoice_key m pid i :
  is_invoice m pid i = true <-> (inv_merchant_id i, inv_provider_invoice_id i) = (m, pid).
Proof. unfold is_invoice. rewrite andb_true_iff, !bool_decide_eq_true. split; [intros [-> ->]; done|by intros [= -> ->]]. Qed.

(** The row found by its natural key is the one of its identifier. *)
Lemma customer_by_id m ext d c f : consistent d -> row_where (is_customer m ext) (db_customers d) = Some c ->
  update_where (fun r => eqs (cus_id r) (cus_id c)) f (db_customers d)
  = update_where (is_customer m ext) f (db_customers d).
Proof.
  intros Hc Hr. eapply update_by_id; [by constraint d "customers_pkey"| |done].
  apply (named_unique _ (fun c => (cus_merchant_id c, cus_external_id c)) (m, ext));
    [by constraint d "customer_merchant_external"|intros r; by rewrite is_customer_key].
Qed.
Lemma subscription_by_id m pid d u f : consistent d -> row_where (is_subscription m pid) (db_subscriptions d) = Some u ->
  update_where (fun r => eqs (sub_id r) (sub_id u)) f (db_subscriptions d)
  = update_where (is_subscription m pid) f (db_subscriptions d).
Proof.
  intros Hc Hr. eapply update_by_id; [by constraint d "subscriptions_pkey"| |done].
  apply (named_unique _ (fun u => (sub_merchant_id u, sub_provider_subscription_id u)) (m, pid));
    [by constraint d "subscription_merchant_provider"|intros r; by rewrite is_subscription_key].
Qed.
Lemma invoice_by_id m pid d i f : consistent d -> row_where (is_invoice m pid) (db_invoices d) = Some i ->
  update_where (fun r => eqs (inv_id r) (inv_id i)) f (db_invoices d)
  = update_where (is_invoice m pid) f (db_invoices d).
Proof.
  intros Hc Hr. eapply update_by_id; [by constraint d "invoices_pkey"| |done].
  apply (named_unique _ (fun i => (inv_merchant_id i, inv_provider_invoice_id i)) (m, pid));
    [by constraint d "invoice_merchant_provider"|intros r; by rewrite is_invoice_key].
Qed.

Lemma put_customer_consistent m request now d : consistent d ->
  (forall c, c ∈ db_customers d -> cus_id c = onboarded_id "customer_rzp" m (sr_customer_external_id request) ->
     is_customer m (sr_customer_external_id request) c = true) ->
  consistent (put_customer m request now d).2.
Proof.
  intros Hc Hid. unfold put_customer. destruct (upsert _ _ _ _) as [[rows c] b] eqn:E. cbn.
  upserted E. apply consistent_customers; [done| |].
  - apply upsert_unique; [by constraint d "customers_pkey"|done|].
    intros Hn r Hr Hk. specialize (Hid r Hr Hk). pose proof (row_where_None _ _ _ Hn Hr). congruence.
  - apply upsert_unique; [by constraint d "customer_merchant_external"|done|].
    intros Hn r Hr Hk%(is_customer_key m (sr_customer_external_id request)). pose proof (row_where_None _ _ _ Hn Hr). congruence.
Qed.

Lemma put_subscription_consistent m cid currency data d x : consistent d -> sound_data currency data ->
  (forall u, u ∈ db_subscriptions d ->
     sub_id u = onboarded_id "subscription_rzp" m (sdt_provider_subscription_id data) ->
     is_subscription m (sdt_provider_subscription_id data) u = true) ->
  put_subscription m cid data d = Ok x -> consistent x.2.
Proof.
  intros Hc [Ha Hcur Hl _] Hid. unfold put_subscription. destruct (subscription_refused _ _ _ _); [done|].
  destruct (upsert _ _ _ _) as [[rows u] b] eqn:E. intros [= <-]. cbn.
  assert (forall u, sub_amount_paise u = sdt_amount_paise data -> sub_currency u = sdt_currency data ->
            check_subscription u = true) as Hcheck.
  { intros u' E1 E2. unfold check_subscription. rewrite E1, E2, Hcur, Hl. cbn. rewrite andb_true_r. by apply Z.leb_le. }
  upserted E. apply consistent_subscriptions; [done| | |].
  - apply upsert_unique; [by constraint d "subscriptions_pkey"|done|].
    intros Hn r Hr Hk. specialize (Hid r Hr Hk). pose proof (row_where_None _ _ _ Hn Hr). congruence.
  - apply upsert_unique; [by constraint d "subscription_merchant_provider"|done|].
    intros Hn r Hr Hk%(is_subscription_key m (sdt_provider_subscription_id data)). pose proof (row_where_None _ _ _ Hn Hr). congruence.
  - apply upsert_forallb; [by constraint d "subscription_checks"| |by apply Hcheck].
    intros r _. by apply Hcheck.
Qed.

Lemma put_invoice_consistent m sid data d x : consistent d ->
  0 <= idt_amount_paid_paise data <= idt_amount_paise data ->
  (forall i, i ∈ db_invoices d -> inv_id i = onboarded_id "invoice_rzp" m (idt_provider_id data)
     \/ (inv_merchant_id i = m /\ inv_billing_cycle_key i = idt_billing_cycle_key data) ->
     is_invoice m (idt_provider_id data) i = true) ->
  put_invoice m sid data d = Ok x -> consistent x.2.
Proof.
  intros Hc Ha Hid. unfold put_invoice. destruct (invoice_refused _ _ _ _); [done|].
  destruct (upsert _ _ _ _) as [[rows i] b] eqn:E. intros [= <-]. cbn.
  assert (forall i, inv_amount_paise i = idt_amount_paise data -> inv_amount_paid_paise i = idt_amount_paid_paise data ->
            check_invoice i = true) as Hcheck.
  { intros i' E1 E2. unfold check_invoice. rewrite E1, E2, !andb_true_iff, !Z.leb_le. lia. }
  upserted E. apply consistent_invoices; [done| | | |].
  - apply upsert_unique; [by constraint d "invoices_pkey"|done|].
    intros Hn r Hr Hk.
    assert (is_invoice m (idt_provider_id data) r = true) as Hk' by (apply Hid; [done|by left]).
    pose proof (row_where_None _ _ _ Hn Hr). congruence.
  - apply upsert_unique; [by constraint d "invoice_merchant_provider"|done|].
    intros Hn r Hr Hk%(is_invoice_key m (idt_provider_id data)). pose proof (row_where_None _ _ _ Hn Hr). congruence.
  - apply upsert_unique; [by constraint d "invoice_billing_cycle"|done|].
    intros Hn r Hr [= Hm _ Hk].
    assert (is_invoice m (idt_provider_id data) r = true) as Hk' by (apply Hid; [done|by right]).
    pose proof (row_where_None _ _ _ Hn Hr). congruence.
  - apply upsert_forallb; [by constraint d "invoice_checks"| |by apply Hcheck].
    intros r _. by apply Hcheck.
Qed.

Lemma merchants_consistent i d : consistent d -> text_length (mi_currency i) = 3%nat -> merchant_refused i d = None ->
  consistent (set_merchants (upsert (is_merchant (mi_id i)) (new_merchant i) (rename_merchant i) (db_merchants d)).1.1 d).
Proof.
  intros Hc Hl Er. apply consistent_merchants; [done| | |].
  - apply upsert_unique; [by constraint d "merchants_pkey"|done|].
    intros Hn r Hr Hk. pose proof (row_where_None _ _ _ Hn Hr) as Hk'. unfold is_merchant in Hk'.
    by apply bool_decide_eq_false in Hk'.
  - apply upsert_unique; [by constraint d "merchants_external_id_key"|done|].
    intros Hn r Hr Hk. unfold merchant_refused, merchant_named in Er.
    destruct (row_where _ (db_merchants d)) as [o|] eqn:Eo.
    + apply row_where_Some in Eo as [Ho _]. pose proof (row_where_None _ _ _ Hn Ho) as Hk'.
      unfold is_merchant in Hk'. by rewrite Hk' in Er.
    + pose proof (row_where_None _ _ _ Eo Hr) as Hk'. by apply bool_decide_eq_false in Hk'.
  - apply upsert_forallb; [by constraint d "currency_length"|done|]. unfold check_merchant. cbn. by rewrite Hl.
Qed.

Lemma put_merchant_consistent i d x : consistent d -> text_length (mi_currency i) = 3%nat ->
  put_merchant i d = Ok x -> consistent x.2.
Proof.
  intros Hc Hl. unfold put_merchant. destruct (merchant_refused i d) eqn:Er; [done|].
  destruct (merchant_changed i d) eqn:Ec; [done|].
  pose proof (merchants_consistent i d Hc Hl Er) as Hm. destruct (upsert _ _ _ _) as [[rows m] b] eqn:Eu.
  intros [= <-]. cbn. apply consistent_settings; [done| |].
  - destruct (policy_row _ d) as [p|] eqn:Ep; [by constraint d "policy_settings_pkey"|].
    apply unique_on_snoc; [by constraint d "policy_settings_pkey"|]. intros y Hy _ [= Ey].
    pose proof (row_where_None _ _ _ Ep Hy) as Hk'. by apply bool_decide_eq_false in Hk'.
  - destruct (policy_row _ d) as [p|] eqn:Ep; [by constraint d "policy_settings_checks"|].
    apply forallb_snoc; [by constraint d "policy_settings_checks"|done].
Qed.

(** ** Sessions without rivals *)

Context (clock : nat -> Z) (urlsplit : string -> result SplitResult).
Abbreviation quiet := (fun (_ : nat) (d : Db) => d).
Abbreviation session := (session (Db -> Db)).
Abbreviation M := (stx session).

(** The working contents are the session's changes of the committed contents. *)
Definition coherent (s : session) : Prop := ses_db s = ses_local s (ses_committed s).

(** The call comes to the result, with the contents it leaves, without a commit. *)
Definition outcome {A} (m : M A) (s : session) (r : result (A * Db)) : Prop :=
  match r with
  | Ok (a, d) => exists s', m s = (Ok a, s') /\ coherent s' /\ ses_db s' = d /\ ses_committed s' = ses_committed s
  | Err e => exists s', m s = (Err e, s') /\ ses_committed s' = ses_committed s
  end.

#[local] Arguments outcome {A} m s r : simpl never.

Lemma outcome_bind {A B} (m : M A) (f : A -> M B) s a d r :
  outcome m s (Ok (a, d)) ->
  (forall s', coherent s' -> ses_db s' = d -> ses_committed s' = ses_committed s -> outcome (f a) s' r) ->
  outcome (m ≫= f) s r.
Proof.
  intros (s1 & E & Hs & Hd & Hc) Hf. specialize (Hf s1 Hs Hd Hc). unfold outcome in *.
  unfold mbind, stx_bind. rewrite E. destruct r as [[b d']|e].
  - destruct Hf as (s2 & ? & ? & ? & ?). exists s2. by rewrite <- Hc.
  - destruct Hf as (s2 & ? & ?). exists s2. by rewrite <- Hc.
Qed.
Lemma outcome_bind_err {A B} (m : M A) (f : A -> M B) s e : outcome m s (Err e) -> outcome (m ≫= f) s (Err e).
Proof. intros (s1 & E & Hc). exists s1. unfold mbind, stx_bind. by rewrite E. Qed.
Lemma outcome_ret {A} (a : A) s : coherent s -> outcome (mret a) s (Ok (a, ses_db s)).
Proof. by exists s. Qed.
Lemma outcome_guard b e s : coherent s ->
  outcome (guard_ b e) s (if b then Err e else Ok (tt, ses_db s)).
Proof. intros Hs. by destruct b; exists s. Qed.
Lemma others_quiet s : coherent s -> others_commit quiet s = (Ok tt, s <| ses_reads ::= S |>).
Proof. intros Hs. unfold others_commit, reading. stx_unfold. unfold coherent in Hs. destruct s; cbn in *. by subst. Qed.
Lemma outcome_select {A} (f : Db -> A) s : coherent s -> consistent (ses_db s) ->
  outcome (select quiet f) s (Ok (f (ses_db s), ses_db s)).
Proof.
  intros Hs Hc. unfold select. exists (s <| ses_reads ::= S |>). unfold mbind at 1, stx_bind at 1.
  rewrite others_quiet by done. unfold query. stx_unfold. unfold flush. cbn. unfold consistent in Hc. by rewrite Hc.
Qed.
Lemma outcome_change f s : coherent s -> outcome (change f) s (Ok (tt, f (ses_db s))).
Proof.
  intros Hs. exists (s <| ses_db ::= f |> <| ses_local ::= fun p d => f (p d) |>).
  split; [done|]. split; [|done]. unfold coherent in *. cbn. by rewrite Hs.
Qed.
Lemma outcome_flush s : coherent s -> consistent (ses_db s) -> outcome (flush_changes quiet) s (Ok (tt, ses_db s)).
Proof.
  intros Hs Hc. unfold flush_changes. exists (s <| ses_reads ::= S |>). unfold mbind, stx_bind.
  rewrite others_quiet by done. unfold flush. cbn. unfold consistent in Hc. by rewrite Hc.
Qed.
(** A change that is flushed. *)
Lemma outcome_changed {A} f (a : A) s d : coherent s -> f (ses_db s) = d -> consistent d ->
  outcome (_ ← change f; _ ← flush_changes quiet; mret a) s (Ok (a, d)).
Proof.
  intros Hs <- Hc. eapply outcome_bind; [by apply outcome_change|]. intros s1 Hs1 Hd1 _.
  eapply outcome_bind; [apply outcome_flush; [done|by rewrite Hd1]|]. intros s2 Hs2 Hd2 _.
  rewrite <- Hd1, <- Hd2. by apply outcome_ret.
Qed.
Lemma outcome_step {A B} (m : M A) (f : A -> M B) s a s1 r :
  m s = (Ok a, s1) -> ses_committed s1 = ses_committed s -> outcome (f a) s1 r -> outcome (m ≫= f) s r.
Proof.
  intros E Hc Hf. unfold outcome in *. unfold mbind, stx_bind. rewrite E.
  destruct r as [[b d']|e]; by rewrite <- Hc.
Qed.

(** *** Each upsert is the reference's *)

Lemma upsert_customer_outcome m request s : coherent s -> consistent (ses_db s) ->
  (forall c, c ∈ db_customers (ses_db s) ->
     cus_id c = onboarded_id "customer_rzp" m (sr_customer_external_id request) ->
     is_customer m (sr_customer_external_id request) c = true) ->
  exists k, outcome (upsert_customer clock quiet m request) s (Ok (put_customer m request (clock k) (ses_db s))).
Proof.
  intros Hs Hc Hid.
  destruct (outcome_select (customer_row m (sr_customer_external_id request)) s Hs Hc) as (s1 & E1 & Hs1 & Hd1 & Hc1).
  exists (ses_reads s1). pose proof (put_customer_consistent m request (clock (ses_reads s1)) _ Hc Hid) as Hput.
  unfold upsert_customer. eapply outcome_step; [exact E1|exact Hc1|]. rewrite <- Hd1 in *.
  unfold customer_row. unfold put_customer, upsert in *. fold (is_customer m (sr_customer_external_id request)).
  destruct (row_where _ (db_customers (ses_db s1))) as [c|] eqn:Ec; cbv beta iota in Hput |- *.
  - rewrite <- (customer_by_id m (sr_customer_external_id request) _ c) in Hput |- * by done.
    by apply outcome_changed.
  - eapply outcome_step; [done|done|].
    by apply outcome_changed.
Qed.

Lemma upsert_subscription_outcome m cid currency data s : coherent s -> consistent (ses_db s) ->
  sound_data currency data ->
  (forall u, u ∈ db_subscriptions (ses_db s) ->
     sub_id u = onboarded_id "subscription_rzp" m (sdt_provider_subscription_id data) ->
     is_subscription m (sdt_provider_subscription_id data) u = true) ->
  outcome (upsert_subscription quiet m cid data) s (put_subscription m cid data (ses_db s)).
Proof.
  intros Hs Hc Hd Hid. pose proof (fun x => put_subscription_consistent m cid currency data _ x Hc Hd Hid) as Hput.
  unfold upsert_subscription.
  destruct (outcome_select (subscription_row m (sdt_provider_subscription_id data)) s Hs Hc)
    as (s1 & E1 & Hs1 & Hd1 & Hc1).
  eapply outcome_step; [exact E1|exact Hc1|]. rewrite <- Hd1 in *.
  unfold put_subscription, subscription_refused, upsert, subscription_row in *.
  fold (is_subscription m (sdt_provider_subscription_id data)) in *.
  destruct (row_where _ (db_subscriptions (ses_db s1))) as [u|] eqn:Eu; cbv beta iota in Hput |- *.
  - destruct (eqs (sub_customer_id u) cid) eqn:Ecu; [|apply outcome_bind_err; by apply (outcome_guard true)].
    specialize (Hput _ eq_refl).
    rewrite <- (subscription_by_id m (sdt_provider_subscription_id data) _ u) in Hput |- * by done.
    eapply outcome_step; [done|done|]. by apply outcome_changed.
  - specialize (Hput _ eq_refl). by apply outcome_changed.
Qed.

Lemma upsert_invoice_outcome m sid data s : coherent s -> consistent (ses_db s) ->
  0 <= idt_amount_paid_paise data <= idt_amount_paise data ->
  (forall i, i ∈ db_invoices (ses_db s) -> inv_id i = onboarded_id "invoice_rzp" m (idt_provider_id data)
     \/ (inv_merchant_id i = m /\ inv_billing_cycle_key i = idt_billing_cycle_key data) ->
     is_invoice m (idt_provider_id data) i = true) ->
  outcome (upsert_invoice quiet m sid data) s (put_invoice m sid data (ses_db s)).
Proof.
  intros Hs Hc Ha Hid. pose proof (fun x => put_invoice_consistent m sid data _ x Hc Ha Hid) as Hput.
  unfold upsert_invoice.
  destruct (outcome_select (invoice_row m (idt_provider_id data)) s Hs Hc) as (s1 & E1 & Hs1 & Hd1 & Hc1).
  eapply outcome_step; [exact E1|exact Hc1|]. rewrite <- Hd1 in *.
  unfold put_invoice, invoice_refused, upsert, invoice_row in *.
  fold (is_invoice m (idt_provider_id data)) in *.
  destruct (row_where _ (db_invoices (ses_db s1))) as [i|] eqn:Ei; cbv beta iota in Hput |- *.
  - destruct (eqs (inv_subscription_id i) sid) eqn:Esi; [|apply outcome_bind_err; by apply (outcome_guard true)].
    specialize (Hput _ eq_refl).
    rewrite <- (invoice_by_id m (idt_provider_id data) _ i) in Hput |- * by done.
    eapply outcome_step; [done|done|]. by apply outcome_changed.
  - specialize (Hput _ eq_refl). by apply outcome_changed.
Qed.

Lemma outcome_refuse {A} o (f : unit -> M A) s r : coherent s ->
  (o = None -> outcome (f tt) s r) -> (forall e, o = Some e -> r = Err e) ->
  outcome (lift (refuse o) ≫= f) s r.
Proof.
  intros Hs Hn He. destruct o as [e|].
  - rewrite (He e eq_refl). apply outcome_bind_err. by exists s.
  - eapply outcome_step; [done|done|]. by apply Hn.
Qed.

Lemma upsert_merchant_outcome i s : coherent s -> consistent (ses_db s) -> text_length (mi_currency i) = 3%nat ->
  (forall p, p ∈ db_policy_settings (ses_db s) -> mps_merchant_id p = mi_id i -> merchant_row (mi_id i) (ses_db s) <> None) ->
  outcome (upsert_merchant quiet i) s (put_merchant i (ses_db s)).
Proof.
  intros Hs Hc Hl Hset. pose proof (fun x => put_merchant_consistent i _ x Hc Hl) as Hput.
  unfold upsert_merchant.
  destruct (outcome_select (merchant_named (mi_external_id i)) s Hs Hc) as (s1 & E1 & Hs1 & Hd1 & Hc1).
  eapply outcome_step; [exact E1|exact Hc1|]. rewrite <- Hd1 in *.
  destruct (outcome_select (merchant_row (mi_id i)) s1 Hs1 Hc) as (s2 & E2 & Hs2 & Hd2 & Hc2).
  eapply outcome_step; [exact E2|exact Hc2|]. rewrite <- Hd2 in *.
  assert (guard_ (S := session) (match merchant_named (mi_external_id i) (ses_db s2) with
                                 | Some o => negb (eqs (mer_id o) (mi_id i)) | None => false end)
            (scope_conflict "Configured merchant external_id belongs to another merchant.")
          = lift (refuse (merchant_refused i (ses_db s2)))) as ->.
  { unfold merchant_refused. destruct (merchant_named _ _) as [o|]; [|done]. by destruct (eqs _ _). }
  unfold put_merchant in *. apply outcome_refuse; [done| |by intros e ->].
  intros Er. pose proof (merchants_consistent i _ Hc Hl Er) as Hm. rewrite Er in Hput |- *. cbn [refuse] in Hput |- *.
  unfold merchant_changed, merchant_row, upsert in *. fold (is_merchant (mi_id i)) in *.
  destruct (row_where _ (db_merchants (ses_db s2))) as [m|] eqn:Em; cbv beta iota in Hput, Hm |- *.
  - destruct (eqs (mer_external_id m) _ && eqs (mer_currency m) _) eqn:Eb; rewrite <- negb_andb, Eb.
    2: { apply outcome_bind_err. by apply (outcome_guard true). }
    specialize (Hput _ eq_refl). eapply outcome_step; [done|done|].
    eapply outcome_bind; [by apply outcome_change|]. intros s3 Hs3 Hd3 _.
    eapply outcome_bind; [apply outcome_select; [done|by rewrite Hd3]|]. intros s4 Hs4 Hd4 _.
    rewrite Hd3. change (policy_row (mi_id i) _) with (policy_row (mi_id i) (ses_db s2)).
    destruct (policy_row (mi_id i) (ses_db s2)) eqn:Ep.
    + eapply outcome_step; [done|done|]. 
      exists s4. by rewrite Hd4, Hd3.
    + eapply outcome_bind; [by apply outcome_change|]. intros s5 Hs5 Hd5 _. exists s5. by rewrite Hd5, Hd4, Hd3.
  - destruct (policy_row (mi_id i) (ses_db s2)) as [p|] eqn:Ep.
    { apply row_where_Some in Ep as [Hp Hpk%bool_decide_eq_true]. by destruct (Hset p Hp Hpk). }
    specialize (Hput _ eq_refl). by apply outcome_changed.
Qed.

(** *** The whole call *)

(** What [insertable_data] asks of the invoices. *)
Definition invoices_insertable (m : string) (l : list InvoiceData) (d : Db) : Prop :=
  forall x i, x ∈ l -> i ∈ db_invoices d ->
    inv_id i = onboarded_id "invoice_rzp" m (idt_provider_id x)
    \/ (inv_merchant_id i = m /\ inv_billing_cycle_key i = idt_billing_cycle_key x) ->
    is_invoice m (idt_provider_id x) i = true.
Definition invoices_apart (m : string) (l : list InvoiceData) : Prop :=
  forall x y, x ∈ l -> y ∈ l ->
    onboarded_id "invoice_rzp" m (idt_provider_id x) = onboarded_id "invoice_rzp" m (idt_provider_id y)
    \/ idt_billing_cycle_key x = idt_billing_cycle_key y -> idt_provider_id x = idt_provider_id y.

Lemma put_invoice_insertable m sid x l d r : x ∈ l -> invoices_insertable m l d -> invoices_apart m l ->
  put_invoice m sid x d = Ok r -> invoices_insertable m l r.2.
Proof.
  intros Hxl Hid Hap. unfold put_invoice. destruct (invoice_refused _ _ _ _); [done|].
  destruct (upsert _ _ _ _) as [[rows i] b] eqn:E. intros [= <-] y j Hy. cbn.
  upserted E. intros Hj Hk.
  apply upsert_elem in Hj as [->|[[Hj Hn]|(j0 & Hj & Hn & ->)]].
  - apply is_invoice_key. cbn in Hk |- *. f_equal. apply Hap; [done|done|destruct Hk as [Hk|[_ Hk]]; [by left|by right]].
  - by apply Hid.
  - apply is_invoice_key. apply (Hid y j0) in Hk; [by apply is_invoice_key in Hk|done|done].
Qed.
Lemma invoices_insertable_incl m l l' d : (forall x, x ∈ l' -> x ∈ l) ->
  invoices_insertable m l d -> invoices_insertable m l' d.
Proof. intros Hl Hi x i Hx. by apply Hi, Hl. Qed.
Lemma invoices_apart_incl m l l' : (forall x, x ∈ l' -> x ∈ l) -> invoices_apart m l -> invoices_apart m l'.
Proof. intros Hl Hi x y Hx Hy. apply Hi; by apply Hl. Qed.

Lemma put_invoices_insertable m sid l l' d x : (forall y, y ∈ l' -> y ∈ l) ->
  invoices_insertable m l d -> invoices_apart m l -> put_invoices m sid l' d = Ok x -> invoices_insertable m l x.2.
Proof.
  intros Hl Hid Hap. revert d x Hl Hid. induction l' as [|y l' IH]; intros d x Hl Hid; [by intros [= <-]|].
  cbn. intros (r & E1 & (rs & E2 & [= <-])%bind_Ok)%bind_Ok. cbn.
  eapply IH; [|eapply put_invoice_insertable; [apply Hl; left|exact Hid|exact Hap|exact E1]|exact E2].
  intros z Hz. apply Hl. by right.
Qed.

Lemma put_invoices_consistent m sid l d x : consistent d ->
  Forall (fun y => 0 <= idt_amount_paid_paise y <= idt_amount_paise y) l ->
  invoices_insertable m l d -> invoices_apart m l -> put_invoices m sid l d = Ok x -> consistent x.2.
Proof.
  intros Hc Ha Hid Hap. revert d x Hc Hid. induction Ha as [|y l Hy Ha IH]; intros d x Hc Hid; [by intros [= <-]|].
  cbn. intros (r & E1 & (rs & E2 & [= <-])%bind_Ok)%bind_Ok. cbn.
  assert (forall z, z ∈ l -> z ∈ y :: l) as Hl by (intros z Hz; by right).
  apply (IH (invoices_apart_incl _ _ _ Hl Hap) r.2); [| |done].
  - eapply put_invoice_consistent; [exact Hc|exact Hy| |exact E1]. intros i Hi. apply Hid; [left|done].
  - apply (invoices_insertable_incl _ _ _ _ Hl). by eapply put_invoice_insertable; [left|..].
Qed.

Lemma upsert_invoices_outcome m sid l s : coherent s -> consistent (ses_db s) ->
  Forall (fun y => 0 <= idt_amount_paid_paise y <= idt_amount_paise y) l ->
  invoices_insertable m l (ses_db s) -> invoices_apart m l ->
  outcome (upsert_invoices quiet m sid l) s (put_invoices m sid l (ses_db s)).
Proof.
  intros Hs Hc Ha Hid Hap. revert s Hs Hc Hid. induction Ha as [|y l Hy Ha IH]; intros s Hs Hc Hid; [by exists s|].
  pose proof (upsert_invoice_outcome m sid y s Hs Hc Hy ltac:(intros i Hi; apply Hid; [left|done])) as Ho.
  cbn [upsert_invoices put_invoices]. destruct (put_invoice m sid y (ses_db s)) as [[[i b] d]|e] eqn:E;
    [|by apply outcome_bind_err].
  pose proof (put_invoice_consistent m sid y _ _ Hc Hy ltac:(intros j Hj; apply Hid; [left|done]) E) as Hc1.
  assert (forall z, z ∈ l -> z ∈ y :: l) as Hl by (intros z Hz; by right).
  pose proof (invoices_insertable_incl _ _ _ _ Hl
    (put_invoice_insertable m sid y (y :: l) _ _ ltac:(left) Hid Hap E)) as Hid1. cbn in Hc1, Hid1.
  eapply outcome_bind; [exact Ho|]. intros s1 Hs1 Hd1 _. subst d.
  specialize (IH (invoices_apart_incl _ _ _ Hl Hap) s1 Hs1 Hc1 Hid1). cbn in IH |- *.
  destruct (put_invoices m sid l (ses_db s1)) as [[rs d]|e]; [|by apply outcome_bind_err].
  eapply outcome_bind; [exact IH|]. intros s2 Hs2 Hd2 _. exists s2. by subst d.
Qed.

Lemma put_cycle_consistent sid l d : consistent d -> consistent (put_cycle sid l d).
Proof.
  intros Hc. unfold put_cycle. destruct (latest_invoice l) as [x|]; [|done].
  apply (consistent_subscriptions d); [done| | |].
  - rewrite unique_on_update by done. by constraint d "subscriptions_pkey".
  - rewrite unique_on_update by done. by constraint d "subscription_merchant_provider".
  - apply forallb_update; [by constraint d "subscription_checks"|]. done.
Qed.

(** The tables each upsert leaves alone. *)
Lemma put_merchant_frame i d x : put_merchant i d = Ok x ->
  mer_id x.1 = mi_id i /\ db_customers x.2 = db_customers d /\ db_subscriptions x.2 = db_subscriptions d
  /\ db_invoices x.2 = db_invoices d.
Proof.
  unfold put_merchant. destruct (merchant_refused i d); [done|]. destruct (merchant_changed i d); [done|].
  destruct (upsert _ _ _ _) as [[rows m] b] eqn:E. intros [= <-]. split; [|done].
  apply is_merchant_key. change m with ((rows, m, b).1.2). rewrite <- E.
  eapply (row_where_Some _ (upsert _ _ _ _).1.1). apply upsert_found; [|done]. unfold is_merchant. by apply bool_decide_eq_true_2.
Qed.
Lemma put_customer_frame m request now d :
  db_subscriptions (put_customer m request now d).2 = db_subscriptions d
  /\ db_invoices (put_customer m request now d).2 = db_invoices d.
Proof. unfold put_customer. by destruct (upsert _ _ _ _) as [[rows c] b]. Qed.
Lemma put_subscription_frame m cid data d x : put_subscription m cid data d = Ok x -> db_invoices x.2 = db_invoices d.
Proof.
  unfold put_subscription. destruct (subscription_refused _ _ _ _); [done|].
  destruct (upsert _ _ _ _) as [[rows u] b]. by intros [= <-].
Qed.

Lemma latest_change_outcome sid l s : coherent s ->
  outcome (match latest_invoice l with
           | Some latest => change (fun d => d <| db_subscriptions ::= update_where (fun u => eqs (sub_id u) sid)
               (fun u => u <| sub_current_billing_cycle_key := Some (idt_billing_cycle_key latest) |>) |>)
           | None => mret tt
           end) s (Ok (tt, put_cycle sid l (ses_db s))).
Proof.
  intros Hs. unfold put_cycle. destruct (latest_invoice l); [by apply outcome_change|by apply outcome_ret].
Qed.

Lemma persist_data_outcome i request data s : coherent s -> consistent (ses_db s) ->
  sound_data (mi_currency i) data -> insertable_data (mi_id i) request data (ses_db s) ->
  exists k, outcome (persist_data clock quiet i request data) s (onboard i request data (clock k) (ses_db s)).
Proof.
  intros Hs Hc Hd [Hset Hcus Hsub Hinv Hap]. pose proof (sd_length _ _ Hd) as Hl.
  pose proof (upsert_merchant_outcome i s Hs Hc Hl Hset) as Ho. unfold persist_data, onboard.
  destruct (put_merchant i (ses_db s)) as [[m d1]|e] eqn:E1; [|exists O; by apply outcome_bind_err].
  pose proof (put_merchant_consistent _ _ _ Hc Hl E1) as Hc1. cbn in Hc1.
  destruct (put_merchant_frame _ _ _ E1) as (Hm & F1 & F2 & F3). cbn in Hm, F1, F2, F3.
  destruct Ho as (s1 & R1 & Hs1 & <- & C1). rewrite <- F1 in Hcus. rewrite <- F2 in Hsub.
  assert (invoices_insertable (mi_id i) (sdt_invoices data) (ses_db s1)) as Hinv1
    by (unfold invoices_insertable; by rewrite F3).
  cbn [mbind result_bind fst snd]. rewrite Hm.
  destruct (upsert_customer_outcome (mi_id i) request s1 Hs1 Hc1 Hcus) as [k Ho]. exists k.
  pose proof (put_customer_consistent _ _ (clock k) _ Hc1 Hcus) as Hc2.
  destruct (put_customer_frame (mi_id i) request (clock k) (ses_db s1)) as [G1 G2].
  eapply outcome_step; [exact R1|exact C1|]. rewrite Hm.
  destruct (put_customer (mi_id i) request (clock k) (ses_db s1)) as [[c cb] d2].
  eapply outcome_bind; [exact Ho|]. intros s2 Hs2 <- _. cbn in Hc2, G1, G2. cbn [fst snd].
  rewrite <- G1 in Hsub.
  pose proof (upsert_subscription_outcome (mi_id i) (cus_id c) _ data s2 Hs2 Hc2 Hd Hsub) as Ho2.
  destruct (put_subscription (mi_id i) (cus_id c) data (ses_db s2)) as [[[u ub] d3]|e] eqn:E3;
    [|by apply outcome_bind_err].
  pose proof (put_subscription_consistent _ _ _ _ _ _ Hc2 Hd Hsub E3) as Hc3.
  pose proof (put_subscription_frame _ _ _ _ _ E3) as G3. cbn in Hc3, G3.
  eapply outcome_bind; [exact Ho2|]. intros s3 Hs3 <- _. cbn [mbind result_bind fst snd].
  pose proof (sorted_on_perm idt_sort_timestamp Z.compare (sdt_invoices data)) as Hp.
  assert (forall x, x ∈ sorted_on idt_sort_timestamp Z.compare (sdt_invoices data) -> x ∈ sdt_invoices data) as Hin
    by (intros x; by rewrite Hp).
  assert (invoices_insertable (mi_id i) (sorted_on idt_sort_timestamp Z.compare (sdt_invoices data)) (ses_db s3)) as Hinv3.
  { intros x j Hx Hj. apply Hinv1; [by apply Hin|]. by rewrite <- G2, <- G3. }
  assert (invoices_apart (mi_id i) (sorted_on idt_sort_timestamp Z.compare (sdt_invoices data))) as Hap3.
  { intros x y Hx Hy. apply Hap; by apply Hin. }
  assert (Forall (fun x => 0 <= idt_amount_paid_paise x <= idt_amount_paise x)
            (sorted_on idt_sort_timestamp Z.compare (sdt_invoices data))) as Ha by (rewrite Hp; apply Hd).
  pose proof (upsert_invoices_outcome (mi_id i) (sub_id u) _ s3 Hs3 Hc3 Ha Hinv3 Hap3) as Ho3.
  destruct (put_invoices _ _ _ (ses_db s3)) as [[rs d4]|e] eqn:E4; [|by apply outcome_bind_err].
  pose proof (put_invoices_consistent _ _ _ _ _ Hc3 Ha Hinv3 Hap3 E4) as Hc4. cbn in Hc4.
  eapply outcome_bind; [exact Ho3|]. intros s4 Hs4 <- _. cbn [mbind result_bind fst snd].
  eapply outcome_bind; [by apply latest_change_outcome|]. intros s5 Hs5 Hd5 _.
  eapply outcome_bind; [apply outcome_flush; [done|rewrite Hd5; by apply put_cycle_consistent]|].
  intros s6 Hs6 Hd6 _. exists s6. by rewrite Hd6, Hd5.
Qed.

Lemma onboard_contract_error i request data now d e : onboard i request data now d = Err e ->
  exists code msg, e = RazorpayContractError code msg.
Proof.
  assert (forall o e', refuse o = Err e' -> (forall x, o = Some x -> exists code msg, x = RazorpayContractError code msg) ->
    exists code msg, e' = RazorpayContractError code msg) as Hr by (intros [x|] e' [= <-] Hx; eauto).
  assert (forall l m sid d e', put_invoices m sid l d = Err e' -> exists code msg, e' = RazorpayContractError code msg) as Hi.
  { intros l m sid. induction l as [|x l IH]; intros d0 e' E; [done|]. cbn in E.
    destruct (put_invoice m sid x d0) as [[r d1]|e1] eqn:E1.
    - cbn in E. destruct (put_invoices m sid l d1) as [|e2] eqn:E2; [done|]. injection E as <-. by apply (IH d1).
    - injection E as <-. unfold put_invoice in E1. destruct (refuse _) eqn:Ef; cbn in E1; [by destruct (upsert _ _ _ _) as [[??]?]|].
      injection E1 as <-. apply (Hr _ _ Ef). intros y. unfold invoice_refused. repeat case_match; try done.
      intros [= <-]. eauto. }
  unfold onboard. destruct (put_merchant i d) as [[m d1]|e1] eqn:E1; cbn [mbind result_bind fst snd].
  - destruct (put_subscription _ _ _ _) as [[[u b] d2]|e2] eqn:E2; cbn [mbind result_bind fst snd].
    + destruct (put_invoices _ _ _ _) as [|e3] eqn:E3; [done|]. intros [= <-]. by eapply Hi.
    + intros [= <-]. unfold put_subscription in E2. destruct (refuse _) eqn:Ef; cbn in E2;
        [by destruct (upsert _ _ _ _) as [[??]?]|]. injection E2 as <-. apply (Hr _ _ Ef). intros y.
      unfold subscription_refused. repeat case_match; try done. intros [= <-]. eauto.
  - intros [= <-]. unfold put_merchant in E1. destruct (refuse (merchant_refused i d)) eqn:Ef; cbn in E1.
    + destruct (refuse (merchant_changed i d)) eqn:Eg; cbn in E1; [by destruct (upsert _ _ _ _) as [[??]?]|].
      injection E1 as <-. apply (Hr _ _ Eg). intros y. unfold merchant_changed, scope_conflict. repeat case_match; try done.
      intros [= <-]. eauto.
    + injection E1 as <-. apply (Hr _ _ Ef). intros y. unfold merchant_refused, scope_conflict. repeat case_match; try done.
      intros [= <-]. eauto.
Qed.

(** What is read from a bundle. *)
Lemma invoice_data_sound sid currency payload x : invoice_data urlsplit sid currency payload = Ok x ->
  0 <= idt_amount_paid_paise x <= idt_amount_paise x.
Proof.
  unfold invoice_data, nonnegative_integer. intros Hx. cbn zeta in Hx.
  repeat match goal with
  | H : (_ ≫= _) = Ok _ |- _ => apply bind_Ok in H as (? & ? & H)
  | H : raise_if _ _ = Ok _ |- _ => apply raise_if_Ok in H
  | H : mret _ = Ok _ |- _ => injection H as <-
  end. cbn. bools. lia.
Qed.
Lemma invoice_datas_sound sid currency payloads l : map_result (invoice_data urlsplit sid currency) payloads = Ok l ->
  Forall (fun x => 0 <= idt_amount_paid_paise x <= idt_amount_paise x) l.
Proof.
  intros Hl%map_result_Ok. induction Hl as [|p x ps l Hx Hl IH]; constructor; [|done].
  by eapply invoice_data_sound.
Qed.
Lemma read_bundle_sound currency sid bundle data : read_bundle urlsplit currency sid bundle = Ok data ->
  sound_data currency data /\ sdt_provider_subscription_id data = sid.
Proof.
  unfold read_bundle, nonnegative_integer, positive_integer. intros Hx. cbn zeta in Hx.
  repeat match goal with
  | H : (_ ≫= _) = Ok _ |- _ => apply bind_Ok in H as (? & ? & H)
  | H : raise_if _ _ = Ok _ |- _ => apply raise_if_Ok in H
  | H : mret _ = Ok _ |- _ => injection H as <-
  | H : map_result _ _ = Ok _ |- _ => apply invoice_datas_sound in H
  end. cbn. bools. subst. split; [|done].
  constructor; cbn; [nia|done| |done].
  match goal with H : (_ =? _)%nat = true |- _ => apply Nat.eqb_eq in H; exact H end.
Qed.

(** *** A successful call, step by step *)

Lemma onboard_Ok i request data now d resp d' : onboard i request data now d = Ok (resp, d') <->
  exists m d1 c cb d2 u ub d3 rs d4,
    put_merchant i d = Ok (m, d1) /\ put_customer (mi_id i) request now d1 = ((c, cb), d2) /\
    put_subscription (mi_id i) (cus_id c) data d2 = Ok ((u, ub), d3) /\
    put_invoices (mi_id i) (sub_id u) (sorted_on idt_sort_timestamp Z.compare (sdt_invoices data)) d3 = Ok (rs, d4) /\
    resp = sync_response (mi_id i) c cb u ub data rs /\ d' = put_cycle (sub_id u) (sdt_invoices data) d4.
Proof.
  unfold onboard. split.
  - intros ([m d1] & E1 & E)%bind_Ok. destruct (put_merchant_frame _ _ _ E1) as [Hm _]. cbn [fst snd] in *. rewrite Hm in E.
    destruct (put_customer _ _ _ _) as [[c cb] d2] eqn:E2. cbn [fst snd] in E.
    apply bind_Ok in E as ([[u ub] d3] & E3 & E). cbn [fst snd] in E. apply bind_Ok in E as ([rs d4] & E4 & [= <- <-]).
    eauto 20.
  - intros (m & d1 & c & cb & d2 & u & ub & d3 & rs & d4 & E1 & E2 & E3 & E4 & -> & ->).
    rewrite E1. destruct (put_merchant_frame _ _ _ E1) as [Hm _]. cbn [mbind result_bind fst snd] in *.
    rewrite Hm, E2. cbn [fst snd]. rewrite E3. cbn [mbind result_bind fst snd]. by rewrite E4.
Qed.

Lemma onboard_consistent i request data now d resp d' : consistent d ->
  sound_data (mi_currency i) data -> insertable_data (mi_id i) request data d ->
  onboard i request data now d = Ok (resp, d') -> consistent d'.
Proof.
  intros Hc Hd [_ Hcus Hsub Hinv Hap] (m & d1 & c & cb & d2 & u & ub & d3 & rs & d4 & E1 & E2 & E3 & E4 & _ & ->)%onboard_Ok.
  apply put_cycle_consistent. destruct (put_merchant_frame _ _ _ E1) as (_ & F1 & F2 & F3). cbn in F1, F2, F3.
  pose proof (put_merchant_consistent _ _ _ Hc (sd_length _ _ Hd) E1) as Hc1.
  pose proof (put_customer_consistent (mi_id i) request now d1 Hc1) as Hc2.
  destruct (put_customer_frame (mi_id i) request now d1) as [G1 G2].
  rewrite E2 in Hc2, G1, G2. cbn in Hc2, G1, G2. rewrite F1 in Hc2.
  pose proof (put_subscription_consistent _ _ _ _ _ _ (Hc2 Hcus) Hd ltac:(by rewrite G1, F2) E3) as Hc3.
  pose proof (put_subscription_frame _ _ _ _ _ E3) as G3. cbn in Hc3, G3.
  pose proof (sorted_on_perm idt_sort_timestamp Z.compare (sdt_invoices data)) as Hp.
  assert (forall x, x ∈ sorted_on idt_sort_timestamp Z.compare (sdt_invoices data) -> x ∈ sdt_invoices data) as Hin
    by (intros x; by rewrite Hp).
  refine (put_invoices_consistent _ _ _ _ _ Hc3 _ _ _ E4).
  - rewrite Hp. apply Hd.
  - apply (invoices_insertable_incl _ (sdt_invoices data)); [done|]. intros x j. rewrite G3, G2, F3. apply Hinv.
  - by apply (invoices_apart_incl _ (sdt_invoices data)).
Qed.

(** ** Running [sync] without rivals *)

Lemma sync_quiet fetch i sid request bundle data s :
  str_prefix "sub_" sid = true -> (text_length sid <= 128)%nat ->
  fetch sid = Ok bundle -> read_bundle urlsplit (mi_currency i) sid bundle = Ok data ->
  coherent s -> consistent (ses_db s) -> insertable_data (mi_id i) request data (ses_db s) ->
  exists k s', match onboard i request data (clock k) (ses_db s) with
  | Ok (resp, d') => sync clock quiet urlsplit fetch i sid request s = (Ok resp, s') /\ ses_committed s' = d'
  | Err e => sync clock quiet urlsplit fetch i sid request s = (Err e, s') /\ ses_committed s' = ses_committed s
  end.
Proof.
  intros Hpre Hlen Hf Hr Hs Hc Hi. destruct (read_bundle_sound _ _ _ _ Hr) as [Hd _].
  destruct (persist_data_outcome i request data s Hs Hc Hd Hi) as [k Ho]. exists k.
  pose proof (fun resp d' => onboard_consistent i request data (clock k) (ses_db s) resp d' Hc Hd Hi) as Hc'.
  unfold sync. rewrite Hpre, Hf, (proj2 (Nat.ltb_ge _ _) Hlen). cbn [sync_attempts].
  unfold mbind at 1 2 3 4, stx_bind at 1 2 3 4, guard_, lift, raise_if. cbn [negb orb].
  unfold persist_bundle. rewrite Hr.
  destruct (onboard _ _ _ _ _) as [[resp d']|e] eqn:Eo.
  - destruct Ho as (s1 & E & Hs1 & Hd1 & Hc1). exists (s1 <| ses_reads ::= S |> <| ses_committed := d' |> <| ses_local := fun d => d |>).
    split; [|done]. unfold catch, mbind at 1 2, stx_bind at 1 2, lift. rewrite E.
    unfold commit_changes, mbind, stx_bind. rewrite others_quiet by done. unfold commit, flush. stx_unfold.
    specialize (Hc' _ _ eq_refl). unfold consistent in Hc'. cbn. rewrite Hd1, Hc'. by subst d'.
  - destruct (onboard_contract_error _ _ _ _ _ _ Eo) as (code & msg & ->). destruct Ho as (s1 & E & Hc1).
    exists (s1 <| ses_db := ses_committed s1 |> <| ses_local := fun d => d |>). split; [|done].
    unfold catch, mbind, stx_bind, lift. by rewrite Hr, E.
Qed.
End facts.
