(* ===== verification/OnboardingRuns.v ===== *)
(** * Onboarding: repetition and rivals

    A call repeated finds everything as it left it; whatever other sessions commit in between,
    a call writes all it reports or nothing, and never binds a subscription or an invoice
    anew. *)
From S2P Require Import Prelude Domain Json JsonText Razorpay Entities Session Correlation Mandates Activities AgentModels RazorpayClient A2ASamples Onboarding OnboardingFacts.

#[local] Arguments violated : simpl never.
#[local] Arguments update_where : simpl never.
#[local] Arguments row_where : simpl never.

(** ** A second call *)

(** The upsert of one key and the rows of another. *)
Lemma upsert_apart {R} (named named' : R -> bool) new revise rows :
  named' new = false -> (forall r, named r = true -> named' r = false) -> (forall r, named r = true -> named' (revise r) = false) ->
  row_where named' (upsert named new revise rows).1.1 = row_where named' rows.
Proof.
  intros Hnew Hap Hrev. unfold upsert. destruct (row_where named rows) eqn:E; cbn; unfold row_where, update_where.
  - clear E. induction rows as [|a rows IH]; cbn; [done|]. destruct (named a) eqn:Ea.
    + by rewrite (Hap a Ea), (Hrev a Ea).
    + by destruct (named' a).
  - clear E. induction rows as [|a rows IH]; cbn; [by rewrite Hnew|]. by destruct (named' a).
Qed.
Lemma settled_apart {R} (named named' : R -> bool) new revise revise' rows :
  named' new = false -> (forall r, named r = true -> named' (revise r) = false) ->
  settled named' revise' rows -> settled named' revise' (upsert named new revise rows).1.1.
Proof.
  intros Hnew Hrev Hs r Hr Hn. apply upsert_elem in Hr as [->|[[Hr _]|(r0 & _ & Hr & ->)]]; [congruence|by apply Hs|].
  rewrite Hrev in Hn by done. done.
Qed.

Section again.
Context `{Crypto}.

(** What an answer says the second time. *)
Definition seen_invoice (r : SyncedInvoiceResponse) : SyncedInvoiceResponse := {|
  sir_id := sir_id r; sir_provider_invoice_id := sir_provider_invoice_id r;
  sir_billing_cycle_key := sir_billing_cycle_key r; sir_amount_paise := sir_amount_paise r;
  sir_amount_paid_paise := sir_amount_paid_paise r; sir_currency := sir_currency r;
  sir_invoice_state := sir_invoice_state r; sir_payment_url := sir_payment_url r; sir_created := false |}.
Definition seen (r : RazorpayTestSubscriptionSyncResponse) : RazorpayTestSubscriptionSyncResponse := {|
  syn_merchant_id := syn_merchant_id r;
  syn_customer := {| scr_id := scr_id (syn_customer r); scr_external_id := scr_external_id (syn_customer r);
                     scr_created := false |};
  syn_subscription := let u := syn_subscription r in {|
    ssr_id := ssr_id u; ssr_provider_subscription_id := ssr_provider_subscription_id u;
    ssr_provider_plan_id := ssr_provider_plan_id u; ssr_plan_name := ssr_plan_name u;
    ssr_amount_paise := ssr_amount_paise u; ssr_currency := ssr_currency u;
    ssr_subscription_state := ssr_subscription_state u;
    ssr_authorization_url := ssr_authorization_url u; ssr_created := false |};
  syn_invoices := map seen_invoice (syn_invoices r) |}.

Lemma put_merchant_again i d m d1 d' : put_merchant i d = Ok (m, d1) -> consistent d' ->
  db_merchants d' = db_merchants d1 -> db_policy_settings d' = db_policy_settings d1 ->
  put_merchant i d' = Ok (m, d').
Proof.
  unfold put_merchant. destruct (merchant_refused i d) eqn:Er; [done|]. destruct (merchant_changed i d) eqn:Ec; [done|].
  destruct (upsert _ _ _ _) as [[rows m'] b] eqn:E. intros [= -> <-] Hc Hm Hp. cbn in Hm, Hp.
  pose proof (upsert_settles (is_merchant (mi_id i)) (new_merchant i) (rename_merchant i) ltac:(done) ltac:(done) (db_merchants d)) as Hs.
  pose proof (upsert_found (is_merchant (mi_id i)) (new_merchant i) (rename_merchant i)
                ltac:(by apply bool_decide_eq_true_2) ltac:(done) (db_merchants d)) as Hf.
  assert (mer_external_id m = mi_external_id i /\ mer_currency m = mi_currency i) as [Hext Hcur].
  { unfold merchant_changed, merchant_row in Ec. fold (is_merchant (mi_id i)) in Ec. unfold upsert in E.
    destruct (row_where _ (db_merchants d)); [|by injection E as <- <- <-].
    destruct (eqs _ _ && eqs _ _) eqn:Eb; [|done]. bools. by injection E as <- <- <-. }
  rewrite E in Hs, Hf. cbn in Hs, Hf. rewrite <- Hm in Hs, Hf.
  destruct (row_where_Some _ _ _ Hf) as [Hin Hk%is_merchant_key].
  assert (merchant_refused i d' = None) as ->.
  { unfold merchant_refused. destruct (merchant_named _ d') as [o|] eqn:Eo; [|done].
    apply row_where_Some in Eo as [Ho Hoe%bool_decide_eq_true].
    assert (o = m) as ->; [|by rewrite bool_decide_eq_true_2].
    refine (unique_on_spec (fun m => Some (mer_external_id m)) (db_merchants d') o m (mi_external_id i) _ Ho Hin _ _);
      [by constraint d' "merchants_external_id_key"|by rewrite Hoe|by rewrite Hext]. }
  assert (merchant_changed i d' = None) as ->.
  { unfold merchant_changed, merchant_row. fold (is_merchant (mi_id i)). rewrite Hf, Hext, Hcur.
    by rewrite !bool_decide_eq_true_2. }
  rewrite (upsert_settled _ _ _ _ m Hs Hf). cbn.
  assert (exists p, policy_row (mi_id i) d' = Some p) as [p ->].
  { unfold policy_row in *. rewrite Hp. destruct (row_where _ (db_policy_settings d)) as [p|] eqn:Ep; [by exists p|].
    exists (default_policy_setting (mi_id i)). apply row_where_snoc; [by apply bool_decide_eq_true_2|done]. }
  by destruct d'.
Qed.

Lemma put_customer_again m request now now' d c cb d2 d' :
  put_customer m request now d = ((c, cb), d2) -> db_customers d' = db_customers d2 ->
  put_customer m request now' d' = ((c, false), d').
Proof.
  unfold put_customer. destruct (upsert _ _ _ _) as [[rows c'] b] eqn:E. intros [= -> <- <-] Hd. cbn in Hd.
  pose proof (upsert_settles (is_customer m (sr_customer_external_id request)) (new_customer m request now)
                (rename_customer request) ltac:(done) ltac:(done) (db_customers d)) as Hs.
  pose proof (upsert_found (is_customer m (sr_customer_external_id request)) (new_customer m request now)
                (rename_customer request) ltac:(by apply is_customer_key) ltac:(done) (db_customers d)) as Hf.
  rewrite E in Hs, Hf. cbn in Hs, Hf. rewrite <- Hd in Hs, Hf. rewrite (upsert_settled _ _ _ _ c Hs Hf). by destruct d'.
Qed.

(** *** The subscription and its cycle *)

Definition cycled (l : list InvoiceData) (u : Subscription) : Subscription :=
  match latest_invoice l with Some x => set_cycle (idt_billing_cycle_key x) u | None => u end.

Lemma put_cycle_rows sid l d :
  put_cycle sid l d = set_subscriptions (update_where (fun u => eqs (sub_id u) sid) (cycled l) (db_subscriptions d)) d.
Proof.
  unfold put_cycle, cycled. destruct (latest_invoice l); [done|].
  enough (forall rows, update_where (fun u => eqs (sub_id u) sid) (fun u => u) rows = rows) as E by (rewrite E; by destruct d).
  intros rows. unfold update_where. rewrite <- (map_id rows) at 2. apply map_ext. intros r. by destruct (eqs _ _).
Qed.
Lemma cycled_named l m pid u : is_subscription m pid (cycled l u) = is_subscription m pid u.
Proof. unfold cycled. by destruct (latest_invoice l). Qed.
Lemma cycled_id l u : sub_id (cycled l u) = sub_id u.
Proof. unfold cycled. by destruct (latest_invoice l). Qed.
Lemma cycled_revise l data u : revise_subscription data (cycled l u) = cycled l (revise_subscription data u).
Proof. unfold cycled. by destruct (latest_invoice l). Qed.

Lemma row_where_update_by {R} (named p : R -> bool) f rows : (forall r, named (f r) = named r) ->
  row_where named (update_where p f rows) = (fun r => if p r then f r else r) <$> row_where named rows.
Proof.
  intros Hf. unfold row_where, update_where. induction rows as [|r rows IH]; cbn; [done|].
  destruct (p r) eqn:Ep; [rewrite Hf|]; destruct (named r) eqn:En; cbn; rewrite ?Ep; done.
Qed.

Lemma put_cycle_again sid l d : put_cycle sid l (put_cycle sid l d) = put_cycle sid l d.
Proof.
  rewrite !put_cycle_rows. unfold set_subscriptions. destruct d. unfold set_field, eta_expand. cbn. f_equal.
  unfold update_where. rewrite map_map. apply map_ext. intros u. destruct (eqs (sub_id u) sid) eqn:E; [|by rewrite E].
  rewrite cycled_id, E. unfold cycled. by destruct (latest_invoice l).
Qed.

Lemma put_subscription_again m cid data l d u ub d3 d' :
  put_subscription m cid data d = Ok ((u, ub), d3) ->
  db_subscriptions d' = update_where (fun r => eqs (sub_id r) (sub_id u)) (cycled l) (db_subscriptions d3) ->
  put_subscription m cid data d' = Ok ((cycled l u, false), d').
Proof.
  unfold put_subscription. destruct (subscription_refused m cid _ d) eqn:Er; [done|].
  destruct (upsert _ _ _ _) as [[rows u'] b] eqn:E. intros [= -> <- <-] Hd. cbn in Hd.
  set (named := is_subscription m (sdt_provider_subscription_id data)) in *.
  pose proof (upsert_settles named (new_subscription m cid data) (revise_subscription data)
                ltac:(done) ltac:(done) (db_subscriptions d)) as Hs.
  pose proof (upsert_found named (new_subscription m cid data) (revise_subscription data)
                ltac:(by apply is_subscription_key) ltac:(done) (db_subscriptions d)) as Hf.
  assert (sub_customer_id u = cid) as Hcid.
  { unfold subscription_refused, subscription_row in Er. fold named in Er.
    fold (is_subscription m (sdt_provider_subscription_id data)) in Er. fold named in Er. unfold upsert in E.
    destruct (row_where named (db_subscriptions d)) as [u0|]; [|by injection E as <- <- <-].
    destruct (eqs (sub_customer_id u0) cid) eqn:Eb; [|done]. bools. by injection E as <- <- <-. }
  rewrite E in Hs, Hf. cbn in Hs, Hf.
  assert (row_where named (db_subscriptions d') = Some (cycled l u)) as Hf'.
  { rewrite Hd, row_where_update_by, Hf; [|intros r; apply cycled_named]. cbn. by rewrite bool_decide_eq_true_2. }
  assert (settled named (revise_subscription data) (db_subscriptions d')) as Hs'.
  { rewrite Hd. intros r (r0 & Hr0 & ->)%elem_of_update_where Hn. destruct (eqs _ _); [|by apply Hs].
    rewrite cycled_revise. f_equal. apply Hs; [done|]. rewrite <- Hn. unfold named. by rewrite cycled_named. }
  assert (subscription_refused m cid (sdt_provider_subscription_id data) d' = None) as ->.
  { unfold subscription_refused, subscription_row. fold (is_subscription m (sdt_provider_subscription_id data)). fold named.
    rewrite Hf'. replace (sub_customer_id (cycled l u)) with cid; [by rewrite bool_decide_eq_true_2|].
    unfold cycled. by destruct (latest_invoice l). }
  rewrite (upsert_settled _ _ _ _ _ Hs' Hf'). by destruct d'.
Qed.

(** *** The invoices *)

Definition found_invoice (m sid : string) (rows : list Invoice) (x : InvoiceData) (r : SyncedInvoiceResponse) : Prop :=
  exists i, row_where (is_invoice m (idt_provider_id x)) rows = Some i
    /\ settled (is_invoice m (idt_provider_id x)) (revise_invoice x) rows
    /\ inv_subscription_id i = sid /\ seen_invoice r = invoice_response x i false.

Lemma put_invoice_found m sid x d i b d1 : put_invoice m sid x d = Ok ((i, b), d1) ->
  found_invoice m sid (db_invoices d1) x (invoice_response x i b).
Proof.
  unfold put_invoice. destruct (invoice_refused m sid _ d) eqn:Er; [done|].
  destruct (upsert _ _ _ _) as [[rows i'] b'] eqn:E. intros [= -> <- <-]. exists i. change (db_invoices (set_invoices rows d)) with rows.
  change rows with ((rows, i, b').1.1). rewrite <- E.
  split; [|split; [by apply upsert_settles|]].
  - rewrite upsert_found; [by rewrite E|by apply is_invoice_key|done].
  - split; [|done]. unfold invoice_refused, invoice_row in Er. fold (is_invoice m (idt_provider_id x)) in Er. unfold upsert in E.
    destruct (row_where _ (db_invoices d)) as [i0|]; [|by injection E as <- <- <-].
    destruct (eqs (inv_subscription_id i0) sid) eqn:Eb; [|done]. bools. by injection E as <- <- <-.
Qed.

Lemma put_invoice_keeps m sid x y r d i b d1 : idt_provider_id x <> idt_provider_id y ->
  found_invoice m sid (db_invoices d) y r -> put_invoice m sid x d = Ok ((i, b), d1) ->
  found_invoice m sid (db_invoices d1) y r.
Proof.
  intros Hne (j & Hf & Hs & Hj & Hr). unfold put_invoice. destruct (invoice_refused m sid _ d); [done|].
  destruct (upsert _ _ _ _) as [[rows i'] b'] eqn:E. intros [= -> <- <-]. exists j. change (db_invoices (set_invoices rows d)) with rows.
  assert (forall a, is_invoice m (idt_provider_id x) a = true -> is_invoice m (idt_provider_id y) a = false) as Hap.
  { intros a Ha%is_invoice_key. destruct (is_invoice m (idt_provider_id y) a) eqn:Ey; [|done].
    apply is_invoice_key in Ey. congruence. }
  assert (is_invoice m (idt_provider_id y) (new_invoice m sid x) = false) as Hnew by (by apply Hap, is_invoice_key).
  change rows with ((rows, i, b').1.1). rewrite <- E. rewrite upsert_apart by auto.
  split; [done|]. split; [by apply settled_apart|done].
Qed.

Lemma put_invoices_found m sid l d rs d' : NoDup (map idt_provider_id l) ->
  put_invoices m sid l d = Ok (rs, d') -> Forall2 (found_invoice m sid (db_invoices d')) l rs.
Proof.
  enough (forall y r, NoDup (map idt_provider_id l) -> put_invoices m sid l d = Ok (rs, d') ->
    Forall2 (found_invoice m sid (db_invoices d')) l rs /\
    (idt_provider_id y ∉ map idt_provider_id l -> found_invoice m sid (db_invoices d) y r ->
     found_invoice m sid (db_invoices d') y r)) as Hall.
  { intros Hn E. destruct l as [|x l]; [injection E as <- <-; constructor|].
    by apply (Hall x (invoice_response x (new_invoice m sid x) false) Hn E). }
  revert d rs. induction l as [|x l IH]; intros d rs y r Hn E; [by injection E as <- <-|].
  cbn in Hn. apply NoDup_cons in Hn as [Hx Hn]. cbn in E.
  apply bind_Ok in E as ([[i b] d1] & E1 & ([rs1 d2] & E2 & [= <- <-])%bind_Ok). cbn [fst snd] in *.
  split.
  - constructor; [|by apply (IH d1 rs1 y r)].
    apply (IH d1 rs1 x (invoice_response x i b) Hn E2); [done|]. by eapply put_invoice_found.
  - cbn. rewrite not_elem_of_cons. intros [Hne Hy] Hf. apply (IH d1 rs1 y r Hn E2); [done|].
    eapply put_invoice_keeps; [|exact Hf|exact E1]. congruence.
Qed.

Lemma put_invoices_again m sid l rs d' : Forall2 (found_invoice m sid (db_invoices d')) l rs ->
  put_invoices m sid l d' = Ok (map seen_invoice rs, d').
Proof.
  induction 1 as [|x r l rs (i & Hf & Hs & Hi & Hr) _ IH]; [done|]. cbn.
  unfold put_invoice, invoice_refused, invoice_row. fold (is_invoice m (idt_provider_id x)).
  rewrite Hf, (upsert_settled _ _ _ _ _ Hs Hf), bool_decide_eq_true_2 by done. cbn [refuse mbind result_bind fst snd].
  replace (set_invoices (db_invoices d') d') with d' by (by destruct d').
  cbn [mbind result_bind mret result_ret fst snd]. rewrite IH. cbn [mbind result_bind mret result_ret fst snd]. by rewrite Hr.
Qed.

(** *** The whole call *)

Lemma put_invoices_frame m sid l d rs d' : put_invoices m sid l d = Ok (rs, d') ->
  db_merchants d' = db_merchants d /\ db_policy_settings d' = db_policy_settings d
  /\ db_customers d' = db_customers d /\ db_subscriptions d' = db_subscriptions d.
Proof.
  revert d rs. induction l as [|x l IH]; intros d rs; [by intros [= <- <-]|]. cbn.
  intros ([[j b] d1] & E1 & ([rs1 d2] & E2 & [= <- <-])%bind_Ok)%bind_Ok.
  apply IH in E2. cbn in E2. unfold put_invoice in E1. destruct (invoice_refused _ _ _ _); [done|].
  destruct (upsert _ _ _ _) as [[??]?]. by injection E1 as <- <- <-.
Qed.

Lemma call_frame m request now d1 c cb d2 cid data u ub d3 l rs d4 d' :
  put_customer m request now d1 = ((c, cb), d2) -> put_subscription m cid data d2 = Ok ((u, ub), d3) ->
  put_invoices m (sub_id u) l d3 = Ok (rs, d4) -> d' = put_cycle (sub_id u) (sdt_invoices data) d4 ->
  db_merchants d' = db_merchants d1 /\ db_policy_settings d' = db_policy_settings d1
  /\ db_customers d' = db_customers d2
  /\ db_subscriptions d' = update_where (fun r => eqs (sub_id r) (sub_id u)) (cycled (sdt_invoices data)) (db_subscriptions d3)
  /\ db_invoices d' = db_invoices d4.
Proof.
  intros E2 E3 (G1 & G2 & G3 & G4)%put_invoices_frame ->. rewrite put_cycle_rows. cbn. rewrite G1, G2, G3, G4.
  unfold put_subscription in E3. destruct (subscription_refused _ _ _ _); [done|].
  destruct (upsert _ _ _ _) as [[??]?]. injection E3 as <- <- <-.
  unfold put_customer in E2. destruct (upsert _ _ _ _) as [[??]?]. by injection E2 as <- <- <-.
Qed.

Lemma onboard_again i request data now now' d resp d' : NoDup (map idt_provider_id (sdt_invoices data)) ->
  consistent d' -> onboard i request data now d = Ok (resp, d') ->
  onboard i request data now' d' = Ok (seen resp, d').
Proof.
  intros Hn Hc (m & d1 & c & cb & d2 & u & ub & d3 & rs & d4 & E1 & E2 & E3 & E4 & -> & Hd')%onboard_Ok.
  destruct (call_frame _ _ _ _ _ _ _ _ _ _ _ _ _ _ _ _ E2 E3 E4 Hd') as (F1 & F2 & F3 & F4 & F5).
  apply onboard_Ok. exists m, d', c, false, d', (cycled (sdt_invoices data) u), false, d', (map seen_invoice rs), d'.
  split; [by eapply put_merchant_again|]. split; [by eapply put_customer_again|].
  split; [by eapply put_subscription_again|]. rewrite cycled_id. split.
  - apply put_invoices_again. rewrite F5. eapply put_invoices_found; [|exact E4]. by rewrite sorted_on_perm.
  - split; [|by rewrite Hd', put_cycle_again].
    unfold seen, sync_response. cbn. rewrite cycled_id.
    unfold cycled. by destruct (latest_invoice (sdt_invoices data)).
Qed.

Lemma onboard_insertable i request data now d resp d' :
  insertable_data (mi_id i) request data d -> onboard i request data now d = Ok (resp, d') ->
  insertable_data (mi_id i) request data d'.
Proof.
  intros [Hset Hcus Hsub Hinv Hap] (m & d1 & c & cb & d2 & u & ub & d3 & rs & d4 & E1 & E2 & E3 & E4 & _ & Hd')%onboard_Ok.
  destruct (call_frame _ _ _ _ _ _ _ _ _ _ _ _ _ _ _ _ E2 E3 E4 Hd') as (F1 & F2 & F3 & F4 & F5).
  destruct (put_merchant_frame _ _ _ E1) as (_ & G1 & G2 & G3). cbn in G1, G2, G3.
  destruct (put_customer_frame (mi_id i) request now d1) as [K1 K2]. rewrite E2 in K1, K2. cbn in K1, K2.
  pose proof (put_subscription_frame _ _ _ _ _ E3) as K3. cbn in K3. constructor.
  - intros _ _ _. unfold merchant_row. rewrite F1. fold (is_merchant (mi_id i)).
    unfold put_merchant in E1. destruct (merchant_refused i d); [done|]. destruct (merchant_changed i d); [done|].
    destruct (upsert _ _ _ _) as [[rows m'] b] eqn:E. injection E1 as <- <-. cbn. upserted E.
    by rewrite upsert_found; [|apply bool_decide_eq_true_2|].
  - rewrite F3. unfold put_customer in E2. destruct (upsert _ _ _ _) as [[rows c'] b] eqn:E. injection E2 as <- <- <-.
    cbn. upserted E. apply (upsert_all _ _ _ (fun c => cus_id c = onboarded_id "customer_rzp" (mi_id i) (sr_customer_external_id request) ->
                                     is_customer (mi_id i) (sr_customer_external_id request) c = true));
      [by rewrite G1|intros _; by apply is_customer_key|done].
  - rewrite F4. unfold put_subscription in E3. destruct (subscription_refused _ _ _ _); [done|].
    destruct (upsert _ _ _ _) as [[rows u'] b] eqn:E. injection E3 as <- <- <-. cbn.
    intros r (r0 & Hr0 & ->)%elem_of_update_where. revert Hr0. upserted E. intros Hr0.
    assert (sub_id r0 = onboarded_id "subscription_rzp" (mi_id i) (sdt_provider_subscription_id data) ->
            is_subscription (mi_id i) (sdt_provider_subscription_id data) r0 = true) as Hr.
    { revert r0 Hr0. apply (upsert_all _ _ _ (fun u => sub_id u = onboarded_id "subscription_rzp" (mi_id i) (sdt_provider_subscription_id data) ->
                                       is_subscription (mi_id i) (sdt_provider_subscription_id data) u = true));
        [by rewrite K1, G2|intros _; by apply is_subscription_key|done]. }
    destruct (eqs (sub_id r0) _); [by rewrite cycled_id, cycled_named|done].
  - rewrite F5. change (invoices_insertable (mi_id i) (sdt_invoices data) (rs, d4).2).
    eapply (put_invoices_insertable (mi_id i) (sub_id u) (sdt_invoices data)); [|..|exact E4];
      [intros y; by rewrite sorted_on_perm| |done].
    intros x j. rewrite K3, K2, G3. apply Hinv.
  - done.
Qed.

Context (clock : nat -> Z) (urlsplit : string -> result SplitResult).
Abbreviation quiet := (fun (_ : nat) (d : Db) => d).
Abbreviation opened d := (open_session d (fun x : Db => x)).

(** What the two theorems on undisturbed calls suppose. *)
Record onboarding_case (fetch : string -> result RazorpaySubscriptionOnboardingBundle) (i : MerchantIdentity)
    (sid : string) (request : RazorpayTestSubscriptionSyncRequest) (data : SubscriptionData) (d : Db) : Prop := {
  oc_prefix : str_prefix "sub_" sid = true;
  oc_length : (text_length sid <= 128)%nat;
  oc_data : (bundle ← fetch sid; read_bundle urlsplit (mi_currency i) sid bundle) = Ok data;
  oc_consistent : consistent d;
  oc_insertable : insertable_data (mi_id i) request data d;
}.

(** C29: from consistent tables whose identifiers do not collide with the ones it derives, and
    without rivals, a call is the reference upsert of the merchant, the customer, the
    subscription and the invoices in the provider's order: it commits exactly the reference's
    tables, which satisfy every constraint, or raises the reference's conflict and commits
    nothing.  In particular it never violates a constraint. *)
Theorem onboarding_refines_upserts fetch i sid request data d :
  onboarding_case fetch i sid request data d ->
  exists now s', match onboard i request data now d with
  | Ok (resp, d') => sync clock quiet urlsplit fetch i sid request (opened d) = (Ok resp, s')
                     /\ ses_committed s' = d' /\ consistent d'
  | Err e => sync clock quiet urlsplit fetch i sid request (opened d) = (Err e, s') /\ ses_committed s' = d
  end.
Proof.
  intros [Hp Hl (bundle & Hf & Hr)%bind_Ok Hc Hi]. destruct (read_bundle_sound _ _ _ _ _ Hr) as [Hd _].
  destruct (sync_quiet clock urlsplit fetch i sid request bundle data (opened d) Hp Hl Hf Hr eq_refl Hc Hi) as (k & s' & E).
  exists (clock k), s'. cbn [ses_db open_session ses_committed] in E.
  destruct (onboard _ _ _ _ _) as [[resp d']|e] eqn:Eo; [|exact E]. destruct E as [E1 E2].
  split; [done|]. split; [done|]. by eapply onboard_consistent.
Qed.

(** a call repeated on what it left changes nothing: it gives the same answer with every
    [created] false, and commits the tables it found.  The provider lists no invoice twice. *)
Theorem onboarding_repeats fetch i sid request data d resp s1 :
  onboarding_case fetch i sid request data d -> NoDup (map idt_provider_id (sdt_invoices data)) ->
  sync clock quiet urlsplit fetch i sid request (opened d) = (Ok resp, s1) ->
  exists s2, sync clock quiet urlsplit fetch i sid request (opened (ses_committed s1)) = (Ok (seen resp), s2)
    /\ ses_committed s2 = ses_committed s1.
Proof.
  intros [Hp Hl (bundle & Hf & Hr)%bind_Ok Hc Hi] Hn E1. destruct (read_bundle_sound _ _ _ _ _ Hr) as [Hd _].
  destruct (sync_quiet clock urlsplit fetch i sid request bundle data (opened d) Hp Hl Hf Hr eq_refl Hc Hi) as (k & s' & E).
  rewrite E1 in E. destruct (onboard _ _ _ _ _) as [[resp' d']|e] eqn:Eo; [|by destruct E].
  destruct E as [[= <- <-] Hd1]. rewrite Hd1. cbn [ses_db open_session] in Eo.
  pose proof (onboard_consistent _ _ _ _ _ _ _ Hc Hd Hi Eo) as Hc'.
  pose proof (onboard_insertable _ _ _ _ _ _ _ Hi Eo) as Hi'.
  destruct (sync_quiet clock urlsplit fetch i sid request bundle data (opened d') Hp Hl Hf Hr eq_refl Hc' Hi') as (k' & s2 & E).
  cbn [ses_db open_session ses_committed] in E. rewrite (onboard_again _ _ _ _ (clock k') _ _ _ Hn Hc' Eo) in E.
  by exists s2.
Qed.
End again.

(** ** Rivals *)

(** Rows that are all still there, changed as [R] allows, before new ones. *)
Definition grows {R} (changed : R -> R -> Prop) (l l' : list R) : Prop :=
  exists l1 l2, l' = (l1 ++ l2)%list /\ Forall2 changed l l1.

Section grows.
Context {R : Type} (changed : R -> R -> Prop) `{!PreOrder changed}.
Lemma grows_refl l : grows changed l l.
Proof. exists l, []. split; [by rewrite app_nil_r|]. induction l; by constructor. Qed.
Lemma grows_trans l1 l2 l3 : grows changed l1 l2 -> grows changed l2 l3 -> grows changed l1 l3.
Proof.
  intros (a & b & -> & Ha) (c & e & -> & Hc). apply Forall2_app_inv_l in Hc as (c1 & c2 & H1 & H2 & ->).
  exists c1, (c2 ++ e)%list. split; [by rewrite app_assoc|]. clear H2.
  revert c1 H1. induction Ha as [|x y l l' Hxy _ IH]; intros c1 H1; inversion_clear H1; constructor; [by etrans|auto].
Qed.
Lemma grows_snoc l r : grows changed l (l ++ [r])%list.
Proof. exists l, [r]. split; [done|]. induction l; by constructor. Qed.
Lemma grows_update p f l : (forall r, changed r (f r)) -> grows changed l (update_where p f l).
Proof.
  intros Hf. exists (update_where p f l), []. split; [by rewrite app_nil_r|]. unfold update_where.
  induction l as [|r l IH]; cbn; constructor; [|done]. by destruct (p r).
Qed.
End grows.

(** What a call may change of a row that is there: the name and the time zone of the merchant,
    the name and the language of the customer, the terms, the state and the cycle of a
    subscription, and the amounts, the state and the due date of an invoice. *)
Definition renamed_merchant (m m' : Merchant) : Prop :=
  m' = m <| mer_display_name := mer_display_name m' |> <| mer_timezone := mer_timezone m' |>.
Definition renamed_customer (c c' : Customer) : Prop :=
  c' = c <| cus_display_name := cus_display_name c' |> <| cus_preferred_language := cus_preferred_language c' |>.
Definition revised_subscription (u u' : Subscription) : Prop :=
  (sub_id u', sub_merchant_id u', sub_customer_id u', sub_provider_subscription_id u')
  = (sub_id u, sub_merchant_id u, sub_customer_id u, sub_provider_subscription_id u).
Definition revised_invoice (i i' : Invoice) : Prop :=
  (inv_id i', inv_merchant_id i', inv_subscription_id i', inv_provider_invoice_id i', inv_billing_cycle_key i')
  = (inv_id i, inv_merchant_id i, inv_subscription_id i, inv_provider_invoice_id i, inv_billing_cycle_key i).

#[export] Instance renamed_merchant_preorder : PreOrder renamed_merchant.
Proof. split; [by intros []|]. intros [] [] []. unfold renamed_merchant. cbn. by intros [= -> -> ->] [= -> -> ->]. Qed.
#[export] Instance renamed_customer_preorder : PreOrder renamed_customer.
Proof.
  split; [by intros []|]. intros [] [] []. unfold renamed_customer. cbn.
  intros [= -> -> -> -> -> -> -> ->] [= -> -> -> -> -> -> -> ->]. done.
Qed.
#[export] Instance revised_subscription_preorder : PreOrder revised_subscription.
Proof. split; [done|]. intros u1 u2 u3. unfold revised_subscription. congruence. Qed.
#[export] Instance revised_invoice_preorder : PreOrder revised_invoice.
Proof. split; [done|]. intros i1 i2 i3. unfold revised_invoice. congruence. Qed.

(** The five tables grow so, settings are only added, and the other tables stay. *)
Record carried (d d' : Db) : Prop := {
  ca_merchants : grows renamed_merchant (db_merchants d) (db_merchants d');
  ca_settings : grows eq (db_policy_settings d) (db_policy_settings d');
  ca_customers : grows renamed_customer (db_customers d) (db_customers d');
  ca_subscriptions : grows revised_subscription (db_subscriptions d) (db_subscriptions d');
  ca_invoices : grows revised_invoice (db_invoices d) (db_invoices d');
  ca_rest : d' = set_merchants (db_merchants d') (set_settings (db_policy_settings d')
                   (set_customers (db_customers d') (set_subscriptions (db_subscriptions d')
                     (set_invoices (db_invoices d') d))));
}.
#[export] Instance carried_preorder : PreOrder carried.
Proof.
  split.
  - intros d. constructor; try apply grows_refl, _. by destruct d.
  - intros d1 d2 d3 [A1 A2 A3 A4 A5 A6] [B1 B2 B3 B4 B5 B6].
    constructor; [by eapply (grows_trans _)..|]. rewrite B6 at 1. rewrite A6 at 1. by destruct d1, d2, d3.
Qed.

Section rivals.
Context `{Crypto} (clock : nat -> Z) (rivals : nat -> Db -> Db) (urlsplit : string -> result SplitResult).
Abbreviation M := (stx (session (Db -> Db))).

(** The contents other sessions make of [d]. *)
Definition others : Db -> Db -> Prop := rtc (fun d d' => exists n, d' = rivals n d).

(** Nothing of the call is committed, and what it would commit carries every row. *)
Definition uncommitted (d : Db) (s : session (Db -> Db)) : Prop :=
  others d (ses_committed s) /\ coherent s /\ forall d0, carried d0 (ses_local s d0).
Definition steady {A} (m : M A) : Prop := forall d, hoare (uncommitted d) m (fun _ => uncommitted d) (uncommitted d).

Lemma steady_bind {A B} (m : M A) (f : A -> M B) : steady m -> (forall a, steady (f a)) -> steady (m ≫= f).
Proof. intros Hm Hf d. eapply hoare_bind; [apply Hm|]. intros a. apply Hf. Qed.
Lemma steady_ret {A} (a : A) : steady (mret a).
Proof. by intros d s Hs. Qed.
Lemma steady_lift {A} (m : result A) : steady (lift m).
Proof. intros d s Hs. unfold lift. by destruct m. Qed.
Lemma steady_reading {A} (f : nat -> A) : steady (reading f).
Proof. by intros d s Hs. Qed.
Lemma steady_others : steady (others_commit rivals).
Proof.
  intros d s (Ho & Hs & Hc). split; [|done]. cbn. etrans; [exact Ho|]. apply rtc_once. by exists (ses_reads s).
Qed.
Lemma steady_flush : steady flush.
Proof. intros d s Hs. unfold flush. by destruct (violated _). Qed.
Lemma steady_query {A} (f : Db -> A) : steady (query f).
Proof. apply steady_bind; [apply steady_flush|]. intros u. apply steady_bind; [by intros d s|]. intros s. apply steady_ret. Qed.
Lemma steady_select {A} (f : Db -> A) : steady (select rivals f).
Proof. apply steady_bind; [apply steady_others|]. intros u. apply steady_query. Qed.
Lemma steady_flush_changes : steady (flush_changes rivals).
Proof. apply steady_bind; [apply steady_others|]. intros u. apply steady_flush. Qed.
Lemma steady_change f : (forall d, carried d (f d)) -> steady (change f).
Proof.
  intros Hf d s (Ho & Hs & Hc). split; [done|]. split; [unfold coherent in *; cbn; by rewrite Hs|].
  intros d0. cbn. etrans; [apply Hc|apply Hf].
Qed.
Lemma steady_rollback : steady rollback_changes.
Proof. intros d s (Ho & Hs & Hc). split; [done|]. by split. Qed.
End rivals.

(** Changes of the tables that carry every row. *)
Ltac carries :=
  intros []; constructor; cbn;
  first [ apply grows_update; [apply _|by intros []] | apply grows_snoc; apply _ | apply grows_refl; apply _ | done ].
Ltac steadily :=
  repeat (cbv beta zeta;
  lazymatch goal with
  | |- steady _ (mret _) => apply steady_ret
  | |- steady _ (_ ≫= _) => apply steady_bind; [|intros ?]
  | |- steady _ (guard_ _ _) => apply steady_lift
  | |- steady _ (lift _) => apply steady_lift
  | |- steady _ (reading _) => apply steady_reading
  | |- steady _ (select _ _) => apply steady_select
  | |- steady _ (flush_changes _) => apply steady_flush_changes
  | |- steady _ (change _) => apply steady_change; carries
  | |- steady _ (match _ with _ => _ end) => case_match
  end).

Section rivals.
Context `{Crypto} (clock : nat -> Z) (rivals : nat -> Db -> Db) (urlsplit : string -> result SplitResult).

Lemma steady_merchant i : steady rivals (upsert_merchant rivals i).
Proof. unfold upsert_merchant. steadily. Qed.
Lemma steady_customer m request : steady rivals (upsert_customer clock rivals m request).
Proof. unfold upsert_customer. steadily. Qed.
Lemma steady_subscription m cid data : steady rivals (upsert_subscription rivals m cid data).
Proof. unfold upsert_subscription. steadily. Qed.
Lemma steady_invoice m sid data : steady rivals (upsert_invoice rivals m sid data).
Proof. unfold upsert_invoice. steadily. Qed.
Lemma steady_invoices m sid l : steady rivals (upsert_invoices rivals m sid l).
Proof.
  induction l as [|x l IH]; cbn [upsert_invoices]; [steadily|]. apply steady_bind; [apply steady_invoice|]. intros [i b].
  apply steady_bind; [exact IH|]. intros rs. steadily.
Qed.
Lemma steady_bundle i sid request bundle : steady rivals (persist_bundle clock rivals urlsplit i sid request bundle).
Proof.
  unfold persist_bundle, persist_data. apply steady_bind; [apply steady_lift|]. intros data.
  apply steady_bind; [apply steady_merchant|]. intros m. apply steady_bind; [apply steady_customer|]. intros [c cb].
  apply steady_bind; [apply steady_subscription|]. intros [u ub]. apply steady_bind; [apply steady_invoices|]. intros rs.
  steadily.
Qed.

(** An attempt that commits commits rows that carry all it found. *)
Lemma commit_carries d s r s' : uncommitted rivals d s -> commit_changes rivals s = (r, s') ->
  match r with
  | Ok _ => exists base, others rivals d base /\ carried base (ses_committed s') /\ consistent (ses_committed s')
  | Err e => uncommitted rivals d s'
  end.
Proof.
  intros Hs. pose proof (steady_others rivals d s Hs) as H1. unfold commit_changes. stx_unfold.
  destruct (others_commit rivals s) as [[u|e] s1] eqn:E1; [|by intros [= <- <-]].
  unfold commit, flush. stx_unfold. destruct (violated (ses_db s1)) eqn:Ev; intros [= <- <-]; [done|].
  destruct H1 as (Ho & Hc & Hf). exists (ses_committed s1). split; [done|]. cbn. split; [|done].
  rewrite Hc. apply Hf.
Qed.

Lemma attempts_outcome n i sid request bundle d s r s' : uncommitted rivals d s ->
  sync_attempts clock rivals urlsplit n i sid request bundle s = (r, s') ->
  match r with
  | Ok _ => exists base, others rivals d base /\ carried base (ses_committed s') /\ consistent (ses_committed s')
  | Err e => others rivals d (ses_committed s') /\ (n <> 0%nat -> ses_db s' = ses_committed s') /\
             (forall c, e <> IntegrityError c)
  end.
Proof.
  revert s r s'. induction n as [|n IH]; intros s r s' Hs; [by intros [= <- <-]; split; [apply Hs|]|].
  cbn [sync_attempts]. unfold catch.
  assert (forall e s1 r1 s2, uncommitted rivals d s1 ->
    (_ ← rollback_changes; match e with
       | IntegrityError _ => if (n =? 0)%nat
           then raise (RazorpayContractError "RAZORPAY_ONBOARDING_CONFLICT" "Concurrent onboarding could not converge safely.")
           else sync_attempts clock rivals urlsplit n i sid request bundle
       | _ => raise e end) s1 = (r1, s2) ->
    match r1 with
    | Ok _ => exists base, others rivals d base /\ carried base (ses_committed s2) /\ consistent (ses_committed s2)
    | Err e => others rivals d (ses_committed s2) /\ (S n <> 0%nat -> ses_db s2 = ses_committed s2) /\ (forall c, e <> IntegrityError c)
    end) as Hh.
  { intros e s1 r1 s2 H1 E. unfold mbind, stx_bind in E. pose proof (steady_rollback rivals d s1 H1) as H2.
    destruct (rollback_changes s1) as [[u|e1] s3] eqn:E3; [|by unfold rollback_changes in E3].
    assert (ses_db s3 = ses_committed s3) as Hd by (by injection E3 as _ <-).
    destruct e; try (injection E as <- <-; split; [apply H2|done]).
    destruct (n =? 0)%nat eqn:En; [injection E as <- <-; split; [apply H2|done]|].
    specialize (IH s3 r1 s2 H2 E). destruct r1; [done|]. destruct IH as (A & B & C). split; [done|]. split; [|done].
    intros _. apply B. by apply Nat.eqb_neq. }
  unfold mbind at 1, stx_bind at 1. pose proof (steady_bundle i sid request bundle d s Hs) as Hb.
  destruct (persist_bundle clock rivals urlsplit i sid request bundle s) as [[resp|e] s1]; [|by apply Hh].
  unfold mbind at 1, stx_bind at 1. destruct (commit_changes rivals s1) as [[u|e] s2] eqn:Ec.
  - pose proof (commit_carries d s1 _ _ Hb Ec) as Hc. by intros [= <- <-].
  - pose proof (commit_carries d s1 _ _ Hb Ec) as Hc. by apply Hh.
Qed.

(** C30: whatever other sessions commit between its statements, a call that raises has
    committed nothing and has given up its changes, and no constraint violation escapes it;
    a call that returns has committed, in one step, tables that satisfy every constraint and
    carry every row the others left: no subscription changes its customer, no invoice its
    subscription or its cycle key, no merchant its currency, no customer the consent, the
    opt-out or the telephone, no settings are rewritten and no other table is touched. *)
Theorem onboarding_all_or_nothing fetch i sid request d r s' :
  sync clock rivals urlsplit fetch i sid request (open_session d (fun x => x)) = (r, s') ->
  match r with
  | Ok _ => exists base, others rivals d base /\ carried base (ses_committed s') /\ consistent (ses_committed s')
  | Err e => others rivals d (ses_committed s') /\ ses_db s' = ses_committed s' /\
             (forall c, e = IntegrityError c -> fetch sid = Err e)
  end.
Proof.
  assert (uncommitted rivals d (open_session d (fun x => x))) as Hs by (split; [apply rtc_refl|by split]).
  unfold sync, mbind, stx_bind, guard_, lift, raise_if.
  destruct (negb _ || _); [by intros [= <- <-]; split; [apply Hs|]|].
  destruct (fetch sid) as [bundle|e]; [|by intros [= <- <-]; split; [apply Hs|]; split; [|naive_solver]].
  intros E. pose proof (attempts_outcome _ _ _ _ _ _ _ _ _ Hs E) as Ho. destruct r; [done|].
  destruct Ho as (A & B & C). split; [done|]. split; [by apply B|]. intros c ->. by destruct (C c).
Qed.
End rivals.

(** ** A sample *)

Definition onboarding_identity : MerchantIdentity := {|
  mi_id := "m1"; mi_external_id := "m1"; mi_display_name := "Shop"; mi_timezone := "Asia/Kolkata"; mi_currency := "INR" |}.
Definition onboarding_request : RazorpayTestSubscriptionSyncRequest := {|
  sr_customer_external_id := "c1"; sr_customer_display_name := "C"; sr_preferred_language := "en-IN" |}.
Definition sample_invoice (id : string) (issued paid : Z) : json := JObj [
  ("id", JStr id); ("subscription_id", JStr "sub_1"); ("currency", JStr "inr"); ("amount", JInt 49900);
  ("amount_paid", JInt paid); ("status", JStr "Issued"); ("issued_at", JInt issued); ("expire_by", JInt 86400)].
Definition onboarding_bundle : RazorpaySubscriptionOnboardingBundle := {|
  bun_subscription := JObj [("id", JStr "sub_1"); ("plan_id", JStr "plan_1"); ("status", JStr "pending"); ("quantity", JInt 1)];
  bun_plan := JObj [("id", JStr "plan_1");
                    ("item", JObj [("name", JStr "Plan"); ("amount", JInt 49900); ("currency", JStr "INR")])];
  bun_invoices := [sample_invoice "inv_2" 20 0; sample_invoice "inv_1" 10 49900] |}.
Definition onboarding_fetch (_ : string) : result RazorpaySubscriptionOnboardingBundle := Ok onboarding_bundle.
Definition onboarding_split (text : string) : result SplitResult := Err (ValueError "split").
Abbreviation onboarding_run rivals d :=
  (sync (H := sample_crypto) (fun _ => 0) rivals onboarding_split onboarding_fetch onboarding_identity
     "sub_1" onboarding_request (open_session d (fun x => x))).

Definition onboarding_data : SubscriptionData :=
  Eval vm_compute in
    match read_bundle (H := sample_crypto) onboarding_split "INR" "sub_1" onboarding_bundle with
    | Ok data => data
    | Err _ => Build_SubscriptionData "" "" "" 0 "" SubscriptionState.UNKNOWN None []
    end.

Lemma onboarding_sample_case :
  onboarding_case (H := sample_crypto) onboarding_split onboarding_fetch onboarding_identity "sub_1"
    onboarding_request onboarding_data empty_db.
Proof.
  constructor; [reflexivity|vm_compute; lia|vm_compute; reflexivity|vm_compute; reflexivity|].
  constructor; try (by intros ? ?%not_elem_of_nil); try (by intros ? ? _ ?%not_elem_of_nil).
  intros x y [->|[->|[]%elem_of_nil]%elem_of_cons]%elem_of_cons [->|[->|[]%elem_of_nil]%elem_of_cons]%elem_of_cons;
    vm_compute; naive_solver.
Defined.

Lemma onboarding_sample_distinct : NoDup (map idt_provider_id (sdt_invoices onboarding_data)).
Proof. apply (bool_decide_unpack _). vm_compute. exact I. Defined.

Lemma onboarding_refines_upserts_witness :
  onboarding_case (H := sample_crypto) onboarding_split onboarding_fetch onboarding_identity "sub_1"
    onboarding_request onboarding_data empty_db /\
  exists now s', match onboard (H := sample_crypto) onboarding_identity onboarding_request onboarding_data now empty_db with
  | Ok (resp, d') => onboarding_run (fun _ d => d) empty_db = (Ok resp, s') /\ ses_committed s' = d' /\ consistent d'
  | Err e => onboarding_run (fun _ d => d) empty_db = (Err e, s') /\ ses_committed s' = empty_db
  end.
Proof.
  split; [exact onboarding_sample_case|].
  exact (onboarding_refines_upserts (H := sample_crypto) (fun _ => 0) onboarding_split onboarding_fetch
           onboarding_identity "sub_1" onboarding_request onboarding_data empty_db onboarding_sample_case).
Defined.

(** The first call creates, the second finds. *)
Definition created_flags (r : result RazorpayTestSubscriptionSyncResponse) : option (bool * bool * list bool) :=
  match r with
  | Ok resp => Some (scr_created (syn_customer resp), ssr_created (syn_subscription resp),
                     map sir_created (syn_invoices resp))
  | Err _ => None
  end.
Lemma run_flags {S} (run : result RazorpayTestSubscriptionSyncResponse * S) resp s :
  run = (Ok resp, s) -> created_flags run.1 = created_flags (Ok resp).
Proof. by intros ->. Qed.
Lemma onboarding_repeats_witness : exists resp s1 s2,
  onboarding_run (fun _ d => d) empty_db = (Ok resp, s1) /\ created_flags (Ok resp) = Some (true, true, [true; true]) /\
  onboarding_run (fun _ d => d) (ses_committed s1) = (Ok (seen resp), s2) /\
  created_flags (Ok (seen resp)) = Some (false, false, [false; false]) /\ ses_committed s2 = ses_committed s1.
Proof.
  destruct (onboarding_run (fun _ d => d) empty_db) as [[resp|e] s1] eqn:E; [|vm_compute in E; discriminate E].
  assert (created_flags (Ok resp) = Some (true, true, [true; true])) as Hf
    by (rewrite <- (run_flags _ _ _ E); vm_compute; reflexivity).
  destruct (onboarding_repeats (H := sample_crypto) (fun _ => 0) onboarding_split onboarding_fetch
              onboarding_identity "sub_1" onboarding_request onboarding_data empty_db resp s1
              onboarding_sample_case onboarding_sample_distinct E) as (s2 & E2 & Hd).
  exists resp, s1, s2. split; [done|]. split; [done|]. split; [done|]. split; [|done].
  cbn in Hf |- *. injection Hf as _ _ Hl. do 2 f_equal. rewrite map_map. cbn.
  destruct (syn_invoices resp) as [|a [|b [|? ?]]]; try discriminate Hl. reflexivity.
Defined.

(** Another call inserts the customer between this one's query and its insert: the first
    attempt is given up, and the second finds the customer. *)
Definition rival_customer : Customer := new_customer (H := sample_crypto) "m1" onboarding_request 7.
Definition race (n : nat) (d : Db) : Db :=
  if (n =? 5)%nat then d <| db_customers ::= fun l => (l ++ [rival_customer])%list |> else d.
Lemma onboarding_all_or_nothing_witness : exists resp s1 base,
  onboarding_run race empty_db = (Ok resp, s1) /\ created_flags (Ok resp) = Some (false, true, [true; true]) /\
  others race empty_db base /\ carried base (ses_committed s1) /\ consistent (ses_committed s1).
Proof.
  destruct (onboarding_run race empty_db) as [[resp|e] s1] eqn:E; [|vm_compute in E; discriminate E].
  pose proof (onboarding_all_or_nothing (H := sample_crypto) (fun _ => 0) race onboarding_split onboarding_fetch
              onboarding_identity "sub_1" onboarding_request empty_db (Ok resp) s1 E) as (base & H1 & H2 & H3).
  exists resp, s1, base. split; [reflexivity|]. split; [|exact (conj H1 (conj H2 H3))].
  rewrite <- (run_flags _ _ _ E). vm_compute. reflexivity.
Defined.
