(* ===== verification/Transactions.v ===== *)
(** * Concurrent transactions

    SQLAlchemy sessions over one database at READ COMMITTED: what a session has flushed is
    its own until it commits, rows and unique keys it has written are locked for the others,
    a statement sees the committed contents and the session's own changes, and a session
    hands the objects it has loaded out again without reading them anew ([expire_on_commit]
    is off).  A statement is one step of a coroutine; statements no other session can come
    between, because the rows they use are locked, are one step together. *)
From S2P Require Import Prelude Procs.

Section transactions.
(** The tables with their constraints, what is locked, and the objects a session holds. *)
Context {T L I : Type} `{EqDecision L} (violated : T -> option string) (no_objects : I).

Record txn : Type := { tx_changes : T -> T; tx_locks : list L; tx_objects : I }.
#[local] Instance eta_txn : Eta txn := fun t =>
  {| tx_changes := tx_changes t; tx_locks := tx_locks t; tx_objects := tx_objects t |}.
Definition new_txn : txn := {| tx_changes := id; tx_locks := []; tx_objects := no_objects |}.

Record database : Type := { tb_tables : T; tb_open : gmap nat txn }.
#[local] Instance eta_database : Eta database := fun d =>
  {| tb_tables := tb_tables d; tb_open := tb_open d |}.

Definition txn_of (self : nat) (d : database) : txn := default new_txn (tb_open d !! self).
Definition set_txn (self : nat) (f : txn -> txn) (d : database) : database :=
  d <| tb_open ::= <[self := f (txn_of self d)]> |>.

(** What the statements of a session see. *)
Definition working (self : nat) (d : database) : T := tx_changes (txn_of self d) (tb_tables d).

(** No other session holds one of the locks. *)
Definition unlocked (self : nat) (locks : list L) (d : database) : bool :=
  forallb (fun p => bool_decide (p.1 = self)
                    || forallb (fun l => bool_decide (l ∉ tx_locks p.2)) locks)
          (map_to_list (tb_open d)).

(** ** Operations *)

(** [async with get_session_factory()() as session] *)
Definition begin_session (self : nat) : proc database unit :=
  step (fun d => (Ok tt, d <| tb_open ::= <[self := new_txn]> |>)).

(** A query, which may hand out and keep objects. *)
Definition select_ {A} (self : nat) (f : T -> I -> result A * I) : proc database A :=
  step (fun d =>
    let '(r, objects) := f (working self d) (tx_objects (txn_of self d)) in
    (r, set_txn self (fun t => t <| tx_objects := objects |>) d)).

(** Changes [f d] of the tables that are flushed and not committed yet, with the locks they
    take; [keep] is what the session's objects become. *)
Definition flushed {A} (self : nat) (locks : database -> list L)
    (statement : database -> result (A * (T -> T) * I)) : proc database A :=
  step_when (fun d => unlocked self (locks d) d) (fun d =>
    match statement d with
    | Err e => (Err e, d)
    | Ok (a, f, objects) =>
        match violated (f (working self d)) with
        | Some c => (Err (IntegrityError c), d)
        | None => (Ok a, set_txn self (fun t => {| tx_changes := fun x => f (tx_changes t x);
                                                   tx_locks := (tx_locks t ++ locks d)%list;
                                                   tx_objects := objects |}) d)
        end
    end).

(** [await session.commit()] *)
Definition committed (self : nat) (d : database) : result unit * database :=
  match violated (working self d) with
  | Some c => (Err (IntegrityError c), d)
  | None => (Ok tt, {| tb_tables := working self d;
                       tb_open := <[self := txn_of self d <| tx_changes := id |>
                                                            <| tx_locks := [] |>]> (tb_open d) |})
  end.
Definition commit_session (self : nat) : proc database unit := step (committed self).

(** [await session.rollback()]: the objects are expired. *)
Definition rolled_back (self : nat) (d : database) : database :=
  d <| tb_open ::= <[self := new_txn]> |>.
Definition rollback_session (self : nat) : proc database unit :=
  step (fun d => (Ok tt, rolled_back self d)).

(** Changes flushed and committed at once; a statement that writes nothing commits nothing. *)
Definition written {A} (self : nat) (locks : database -> list L)
    (statement : database -> result (A * option (T -> T) * I)) : proc database A :=
  step_when (fun d => unlocked self (locks d) d) (fun d =>
    match statement d with
    | Err e => (Err e, d)
    | Ok (a, None, objects) => (Ok a, set_txn self (fun t => t <| tx_objects := objects |>) d)
    | Ok (a, Some f, objects) =>
        match violated (f (working self d)) with
        | Some c => (Err (IntegrityError c), d)
        | None => (Ok a, {| tb_tables := f (working self d);
                            tb_open := <[self := {| tx_changes := id; tx_locks := [];
                                                    tx_objects := objects |}]> (tb_open d) |})
        end
    end).

(** ** What sessions keep

    [ok] holds of the committed tables, [lawful] of every change, and [le] relates tables to
    all they may become; [objects_ok] is what the objects of a session say of the tables it
    sees. *)
Class TransactionLaws (ok : T -> Prop) (le : T -> T -> Prop) (lawful : (T -> T) -> Prop)
    (objects_ok : T -> I -> Prop) : Prop := {
  le_preorder :: PreOrder le;
  ok_le : forall t t', ok t -> le t t' -> violated t' = None -> ok t';
  lawful_id : lawful id;
  lawful_then : forall f g, lawful f -> lawful g -> lawful (fun t => g (f t));
  lawful_le : forall f t, lawful f -> le t (f t);
  lawful_mono : forall f t t', lawful f -> le t t' -> le (f t) (f t');
  objects_none : forall t, objects_ok t no_objects;
  objects_le : forall t t' o, le t t' -> objects_ok t o -> objects_ok t' o;
}.

Section keeps.
Context (ok : T -> Prop) (le : T -> T -> Prop) (lawful : (T -> T) -> Prop) (objects_ok : T -> I -> Prop)
  {laws : TransactionLaws ok le lawful objects_ok}.

Definition db_keeps (d : database) : Prop :=
  ok (tb_tables d) /\
  forall self, lawful (tx_changes (txn_of self d)) /\ objects_ok (working self d) (tx_objects (txn_of self d)).

Context (capacity : T -> Z) (capacity_le : forall t t', le t t' -> capacity t <= capacity t').
Abbreviation held := (fun d => capacity (tb_tables d)).

Lemma txn_of_insert self other t tables open :
  txn_of other {| tb_tables := tables; tb_open := <[self := t]> open |}
  = if decide (self = other) then t else default new_txn (open !! other).
Proof. unfold txn_of. cbn. rewrite lookup_insert. by destruct (decide (self = other)). Qed.

(** One session's transaction changes, and the tables may grow. *)
Lemma db_keeps_insert self t tables d : db_keeps d -> ok tables -> le (tb_tables d) tables ->
  lawful (tx_changes t) -> objects_ok (tx_changes t tables) (tx_objects t) ->
  db_keeps {| tb_tables := tables; tb_open := <[self := t]> (tb_open d) |}.
Proof.
  intros [_ Hd] Hok Hle Ht Hobj. split; [done|]. intros other. unfold working.
  rewrite txn_of_insert. destruct (decide _); [done|]. destruct (Hd other) as [Hl Ho].
  split; [done|]. eapply objects_le; [|exact Ho]. by apply lawful_mono.
Qed.

Lemma le_working self d : db_keeps d -> le (tb_tables d) (working self d).
Proof. intros Hd. apply lawful_le, Hd. Qed.

Abbreviation plain n p := (yields db_keeps held n p (fun m _ => m = n)).

Lemma yields_same {A} n (m : stx database A) : 0 <= n ->
  (forall d r d', db_keeps d -> m d = (r, d') -> db_keeps d' /\ held d <= held d') ->
  plain n (step m).
Proof.
  intros Hn H. apply yields_step'; [done|]. intros d r d' Hd E. destruct (H d r d' Hd E) as [Hd' Hle].
  split; [done|]. exists n. split; [done|]. split; [done|]. lia.
Qed.

Lemma yields_begin n self : 0 <= n -> plain n (begin_session self).
Proof.
  intros Hn. apply yields_same; [done|]. intros d r d' Hd [= _ <-].
  split; [|done].
  apply db_keeps_insert; [done|apply Hd|done|apply lawful_id|apply objects_none].
Qed.
Lemma yields_rollback n self : 0 <= n -> plain n (rollback_session self).
Proof.
  intros Hn. apply yields_same; [done|]. intros d r d' Hd [= _ <-].
  split; [|done].
  apply db_keeps_insert; [done|apply Hd|done|apply lawful_id|apply objects_none].
Qed.
Lemma yields_select {A} n self (f : T -> I -> result A * I) : 0 <= n ->
  (forall t o, objects_ok t o -> objects_ok t (snd (f t o))) -> plain n (select_ self f).
Proof.
  intros Hn Hf. apply yields_same; [done|]. intros d r d' Hd.
  destruct (f _ _) as [r0 objects] eqn:E. intros [= _ <-]. split; [|done].
  destruct (proj2 Hd self) as [Hl Ho]. apply db_keeps_insert; [done|apply Hd|done|done|].
  cbn. specialize (Hf _ _ Ho). by rewrite E in Hf.
Qed.
Lemma yields_commit n self : 0 <= n -> plain n (commit_session self).
Proof.
  intros Hn. apply yields_same; [done|]. intros d r d' Hd. unfold committed.
  destruct (violated _) eqn:Ev; intros [= _ <-]; [done|].
  pose proof (le_working self d Hd) as Hle. split; [|by apply capacity_le].
  apply db_keeps_insert; [done| |done|apply lawful_id|apply Hd].
  apply (ok_le (tb_tables d)); [apply Hd|done|done].
Qed.

Lemma yields_flushed {A} n self locks (statement : database -> result (A * (T -> T) * I)) :
  0 <= n ->
  (forall d a f objects, db_keeps d -> statement d = Ok (a, f, objects) ->
     lawful f /\ objects_ok (f (working self d)) objects) ->
  plain n (flushed self locks statement).
Proof.
  intros Hn Hf. apply yields_step; [done|]. intros d r d' Hd _.
  assert (forall d0, db_keeps d0 -> tb_tables d0 = tb_tables d ->
    db_keeps d0 /\ exists n', 0 <= n' /\ n' = n /\ n' - n <= held d0 - held d) as Hsame.
  { intros d0 Hd0 ->. split; [done|]. exists n. split; [done|]. split; [done|lia]. }
  destruct (statement d) as [[[a f] objects]|e] eqn:Es.
  - destruct (Hf _ _ _ _ Hd Es) as [Hl Ho].
    destruct (violated _) eqn:Ev; intros [= _ <-]; apply Hsame; try done.
    apply db_keeps_insert; [done|apply Hd|done| |done]. cbn. apply lawful_then; [apply Hd|done].
  - intros [= _ <-]. by apply Hsame.
Qed.

(** A write and commit gains what its changes add. *)
Lemma yields_written {A} n self locks (statement : database -> result (A * option (T -> T) * I))
    (gain : result A -> Z) :
  0 <= n -> (forall e, gain (Err e) = 0) -> (forall a, 0 <= gain (Ok a)) ->
  (forall d a objects, db_keeps d -> statement d = Ok (a, None, objects) ->
     gain (Ok a) = 0 /\ objects_ok (working self d) objects) ->
  (forall d a f objects, db_keeps d -> statement d = Ok (a, Some f, objects) ->
     lawful f /\ objects_ok (f (working self d)) objects /\
     forall t, capacity t + gain (Ok a) <= capacity (f t)) ->
  yields db_keeps held n (written self locks statement) (fun m r => m = n + gain r).
Proof.
  intros Hn He Hg Hnone Hf. apply yields_step; [done|]. intros d r d' Hd _.
  assert (forall d0, db_keeps d0 -> tb_tables d0 = tb_tables d -> gain r = 0 -> db_keeps d0
    /\ exists n', 0 <= n' /\ n' = n + gain r /\ n' - n <= held d0 - held d) as Hsame.
  { intros d0 Hd0 -> ->. split; [done|]. exists n. split; [done|]. split; lia. }
  pose proof (le_working self d Hd) as Hle.
  destruct (statement d) as [[[a [f|]] objects]|e] eqn:Es.
  - destruct (Hf _ _ _ _ Hd Es) as (Hl & Ho & Hgain).
    destruct (violated _) eqn:Ev; intros [= <- <-]; [by apply Hsame|].
    assert (le (tb_tables d) (f (working self d))) as Hlef by (etrans; [exact Hle|by apply lawful_le]).
    split.
    + apply db_keeps_insert; [done| |done|apply lawful_id|done].
      apply (ok_le (tb_tables d)); [apply Hd|done|done].
    + exists (n + gain (Ok a)). specialize (Hg a). split; [lia|]. split; [done|]. cbn.
      specialize (Hgain (working self d)). pose proof (capacity_le _ _ Hle). lia.
  - destruct (Hnone _ _ _ Hd Es) as [Hg0 Ho]. intros [= <- <-]. apply Hsame; [|done|done].
    apply db_keeps_insert; [done|apply Hd|done| |done]. apply Hd.
  - intros [= <- <-]. by apply Hsame.
Qed.
End keeps.
End transactions.
Arguments txn : clear implicits.
Arguments database : clear implicits.
#[export] Instance eta_txn_ T L I : Eta (txn T L I) := fun t =>
  {| tx_changes := tx_changes t; tx_locks := tx_locks t; tx_objects := tx_objects t |}.
#[export] Instance eta_database_ T L I : Eta (database T L I) := fun d =>
  {| tb_tables := tb_tables d; tb_open := tb_open d |}.
