(* ===== verification/VoiceSafety.v ===== *)
(** * Voice safety

    [integrations/voice/safety.py]: the classification of what a customer said, and the
    platform limits a call must pass before it is submitted. *)
From S2P Require Import Prelude A2ARuntime.

Module VoiceIntent.
(** src/services/api/app/integrations/voice/safety.py:11-19 [VoiceIntent] *)
Inductive VoiceIntent : Set :=
| OPT_OUT | DISPUTE | WRONG_PERSON | ALREADY_PAID | CALLBACK | PROMISE_TO_PAY
| NEED_PAYMENT_HELP | UNKNOWN.
End VoiceIntent.
Abbreviation VoiceIntent := VoiceIntent.VoiceIntent.
#[export] Instance VoiceIntent_eq_dec : EqDecision VoiceIntent.
Proof. solve_decision. Defined.

(** src/services/api/app/integrations/voice/safety.py:11-19 [VoiceIntent.value] *)
Definition VoiceIntent_value (i : VoiceIntent) : string :=
  match i with
  | VoiceIntent.OPT_OUT => "OPT_OUT"
  | VoiceIntent.DISPUTE => "DISPUTE"
  | VoiceIntent.WRONG_PERSON => "WRONG_PERSON"
  | VoiceIntent.ALREADY_PAID => "ALREADY_PAID"
  | VoiceIntent.CALLBACK => "CALLBACK"
  | VoiceIntent.PROMISE_TO_PAY => "PROMISE_TO_PAY"
  | VoiceIntent.NEED_PAYMENT_HELP => "NEED_PAYMENT_HELP"
  | VoiceIntent.UNKNOWN => "UNKNOWN"
  end.
Definition all_voice_intents : list VoiceIntent :=
  [VoiceIntent.OPT_OUT; VoiceIntent.DISPUTE; VoiceIntent.WRONG_PERSON; VoiceIntent.ALREADY_PAID;
   VoiceIntent.CALLBACK; VoiceIntent.PROMISE_TO_PAY; VoiceIntent.NEED_PAYMENT_HELP;
   VoiceIntent.UNKNOWN].
(** [VoiceIntent(text)] *)
Definition VoiceIntent_of (text : string) : result VoiceIntent :=
  from_option (ValueError text)
    (List.find (fun i => bool_decide (VoiceIntent_value i = text)) all_voice_intents).

(** src/services/api/app/integrations/voice/safety.py:24-36 [_INTENT_PATTERNS] *)
Definition INTENT_PATTERNS : list (VoiceIntent * list string) := [
  (VoiceIntent.OPT_OUT, ["stop calling"; "do not call"; "don't call"; "opt out"; "call mat"]);
  (VoiceIntent.DISPUTE, ["dispute"; "fraud"; "not my charge"; "galat charge"; "scam"]);
  (VoiceIntent.WRONG_PERSON,
    ["wrong person"; "wrong number"; "main woh nahi"; "yeh unka number nahi"]);
  (VoiceIntent.ALREADY_PAID, ["already paid"; "payment kar diya"; "paid already"; "ho gaya"]);
  (VoiceIntent.CALLBACK, ["call back"; "later"; "baad mein"; "abhi busy"]);
  (VoiceIntent.PROMISE_TO_PAY, ["will pay"; "pay tomorrow"; "kal pay"; "kar dunga"]);
  (VoiceIntent.NEED_PAYMENT_HELP, ["payment link"; "card update"; "help me pay"; "kaise pay"])].

(** src/services/api/app/integrations/voice/safety.py:40-40 [detect_voice_intent]: the
    lower-case words with one space between them. *)
Definition normalized_transcript (transcript : string) : string :=
  String.concat " " (words (str_lower transcript)).

(** src/services/api/app/integrations/voice/safety.py:39-44 [detect_voice_intent] *)
Definition detect_voice_intent (transcript : string) : VoiceIntent :=
  let normalized := normalized_transcript transcript in
  match List.find (fun p => existsb (fun phrase => str_contains phrase normalized) (snd p))
          INTENT_PATTERNS with
  | Some (intent, _) => intent
  | None => VoiceIntent.UNKNOWN
  end.

(** src/services/api/app/integrations/voice/safety.py:48-60 [VoiceSafetyContext]: times
    of day are microseconds after midnight. *)
Record VoiceSafetyContext : Type := {
  vsc_now_local : datetime;
  vsc_quiet_hours_start : option Z;
  vsc_quiet_hours_end : option Z;
  vsc_real_calls_enabled : bool;
  vsc_operator_authorized : bool;
  vsc_kill_switch : bool;
  vsc_destination_allowlisted : bool;
  vsc_consent_verified_at : option datetime;
  vsc_opted_out_at : option datetime;
  vsc_active_calls : Z;
  vsc_calls_today : Z;
  vsc_max_duration_seconds : Z;
}.

(** src/services/api/app/integrations/voice/safety.py:64-66 [VoiceSafetyDecision] *)
Record VoiceSafetyDecision : Type := { vsd_allowed : bool; vsd_reason_code : string }.

(** src/services/api/app/integrations/voice/safety.py:69-74 [_inside_quiet_hours] *)
Definition inside_quiet_hours (value start end_ : Z) : bool :=
  if start =? end_ then true
  else if start <? end_ then (start <=? value) && (value <? end_)
  else (start <=? value) || (value <? end_).

(** [value.timetz().replace(tzinfo=None)] *)
Definition time_of (value : datetime) : Z := dt_wall value mod day.

(** src/services/api/app/integrations/voice/safety.py:80-99 [evaluate_voice_safety] *)
Definition voice_checks (c : VoiceSafetyContext) : list (bool * string) := [
  (negb (vsc_real_calls_enabled c), "REAL_CALLS_DISABLED");
  (negb (vsc_operator_authorized c), "OPERATOR_AUTH_REQUIRED");
  (vsc_kill_switch c, "VOICE_KILL_SWITCH");
  (negb (vsc_destination_allowlisted c), "DESTINATION_NOT_ALLOWLISTED");
  (bool_decide (vsc_consent_verified_at c = None), "CONSENT_NOT_VERIFIED");
  (negb (bool_decide (vsc_opted_out_at c = None)), "CUSTOMER_SUPPRESSED");
  (1 <=? vsc_active_calls c, "CONCURRENT_CALL_LIMIT");
  (10 <=? vsc_calls_today c, "DAILY_CALL_LIMIT");
  (180 <? vsc_max_duration_seconds c, "DURATION_LIMIT");
  (match vsc_quiet_hours_start c, vsc_quiet_hours_end c with
   | Some start, Some end_ => inside_quiet_hours (time_of (vsc_now_local c)) start end_
   | _, _ => false
   end, "QUIET_HOURS")].

(** src/services/api/app/integrations/voice/safety.py:77-103 [evaluate_voice_safety] *)
Definition evaluate_voice_safety (c : VoiceSafetyContext) : VoiceSafetyDecision :=
  match List.find fst (voice_checks c) with
  | Some (_, code) => {| vsd_allowed := false; vsd_reason_code := code |}
  | None => {| vsd_allowed := true; vsd_reason_code := "VOICE_CONTACT_ALLOWED" |}
  end.

(** ** Specification *)

(** The quiet interval from [start] to [end_], through midnight unless it ends later the
    same day; a whole day when both are the same. *)
Definition quiet_at (start end_ value : Z) : Prop :=
  exists k, start <= value + k * day < (if start <? end_ then end_ else end_ + day).

Lemma inside_quiet_hours_spec start end_ value :
  0 <= start < day -> 0 <= end_ < day -> 0 <= value < day ->
  inside_quiet_hours value start end_ = true <-> quiet_at start end_ value.
Proof.
  unfold inside_quiet_hours, quiet_at. intros Hs He Hv.
  destruct (Z.eqb_spec start end_) as [->|Hne].
  - rewrite Z.ltb_irrefl. split; [intros _|done]. destruct (Z.le_gt_cases end_ value).
    + exists 0. lia.
    + exists 1. lia.
  - destruct (Z.ltb_spec start end_).
    + split; [intros ?; bools; exists 0; lia|]. intros (k & Hk).
      assert (k = 0) as -> by (pose proof day_pos; nia). lia.
    + split.
      * intros ?; bools. destruct (Z.le_gt_cases start value); [exists 0; lia|exists 1; lia].
      * intros (k & Hk). assert (k = 0 \/ k = 1) as [->| ->] by (pose proof day_pos; nia); lia.
Qed.

Lemma time_of_bounds d : 0 <= time_of d < day.
Proof. apply Z.mod_pos_bound, day_pos. Qed.

(** What a call needs. *)
Record voice_permitted (c : VoiceSafetyContext) : Prop := {
  vp_enabled : vsc_real_calls_enabled c = true;
  vp_operator : vsc_operator_authorized c = true;
  vp_no_kill : vsc_kill_switch c = false;
  vp_allowlisted : vsc_destination_allowlisted c = true;
  vp_consent : exists t, vsc_consent_verified_at c = Some t;
  vp_not_opted_out : vsc_opted_out_at c = None;
  vp_idle : vsc_active_calls c < 1;
  vp_daily : vsc_calls_today c < 10;
  vp_duration : vsc_max_duration_seconds c <= 180;
  vp_awake : forall start end_, vsc_quiet_hours_start c = Some start ->
    vsc_quiet_hours_end c = Some end_ -> ~ quiet_at start end_ (time_of (vsc_now_local c));
}.

(** Times of day of the quiet hours. *)
Definition clock_times (c : VoiceSafetyContext) : Prop :=
  (forall t, vsc_quiet_hours_start c = Some t -> 0 <= t < day) /\
  (forall t, vsc_quiet_hours_end c = Some t -> 0 <= t < day).

Lemma find_none_iff {A} (f : A -> bool) l : List.find f l = None <-> Forall (fun x => f x = false) l.
Proof.
  rewrite Forall_forall. setoid_rewrite list_elem_of_In. split.
  - intros H x Hx. by apply (List.find_none f l).
  - intros H. destruct (List.find f l) as [x|] eqn:E; [|done].
    apply List.find_some in E as [Hx Hf]. by rewrite H in Hf.
Qed.

Lemma voice_checks_pass c : clock_times c ->
  List.find fst (voice_checks c) = None <-> voice_permitted c.
Proof.
  intros [Hs He]. rewrite find_none_iff. unfold voice_checks. split.
  - intros Hall. repeat (apply Forall_cons in Hall as [? Hall]). cbn in *. bools.
    constructor; try done; try lia.
    + destruct (vsc_consent_verified_at c); [eauto|done].
    + intros s e Es Ee Hq. apply (inside_quiet_hours_spec s e) in Hq; auto using time_of_bounds.
      by rewrite Es, Ee, Hq in *.
  - intros [H1 H2 H3 H4 [t Ht] H5 H6 H7 H8 Hq].
    repeat apply Forall_cons_2; cbn; rewrite ?H1, ?H2, ?H3, ?H4, ?Ht, ?H5; try done; try lia.
    destruct (vsc_quiet_hours_start c) as [s|] eqn:Es, (vsc_quiet_hours_end c) as [e|] eqn:Ee; try done.
    apply not_true_is_false. intros Hi. apply (Hq s e eq_refl eq_refl).
    apply inside_quiet_hours_spec; auto using time_of_bounds.
Qed.

Lemma find_first {A} (f : A -> bool) l x : List.find f l = Some x ->
  exists pre post, l = pre ++ x :: post /\ f x = true /\ Forall (fun y => f y = false) pre.
Proof.
  induction l as [|y l IH]; [done|]. cbn. destruct (f y) eqn:E.
  - intros [= ->]. by exists [], l.
  - intros (pre & post & -> & Hx & Hpre)%IH. exists (y :: pre), post. auto.
Qed.

(** C13: a call is allowed exactly when real calls are enabled, an operator authorized it,
    the merchant's kill switch is off, the destination is on the allowlist, consent is
    verified and not revoked, no call is active, fewer than ten were made today, its
    duration is at most three minutes and the merchant's local time is outside the quiet
    interval, which may wrap midnight; a refused call reports the first limit it breaks. *)
Theorem voice_safety_exact c : clock_times c ->
  let decision := evaluate_voice_safety c in
  (vsd_allowed decision = true <-> voice_permitted c) /\
  (vsd_allowed decision = false -> exists pre post,
     voice_checks c = pre ++ (true, vsd_reason_code decision) :: post /\
     Forall (fun check => fst check = false) pre).
Proof.
  intros Hc decision. subst decision. unfold evaluate_voice_safety. rewrite <- voice_checks_pass by done.
  destruct (List.find fst (voice_checks c)) as [[b code]|] eqn:E; cbn; split; try done.
  intros _. apply find_first in E as (pre & post & E & Hb & Hpre). cbn in Hb. subst b. eauto.
Qed.

(** the phrases are tried in the order of harm: a transcript that contains a phrase of
    the [n]-th intent is classified as one of the first [n] intents, so words that ask to stop
    calling always opt out; it is of no known intent exactly when no phrase occurs. *)
Theorem voice_intent_priority transcript :
  (forall n intent phrases phrase, INTENT_PATTERNS !! n = Some (intent, phrases) ->
     phrase ∈ phrases -> str_contains phrase (normalized_transcript transcript) = true ->
     exists m, (m <= n)%nat /\ Some (detect_voice_intent transcript) = fst <$> INTENT_PATTERNS !! m) /\
  (detect_voice_intent transcript = VoiceIntent.UNKNOWN <->
   forall intent phrases phrase, (intent, phrases) ∈ INTENT_PATTERNS -> phrase ∈ phrases ->
     str_contains phrase (normalized_transcript transcript) = false).
Proof.
  unfold detect_voice_intent. set (text := normalized_transcript transcript).
  set (said := fun p : VoiceIntent * list string => existsb (fun phrase => str_contains phrase text) (snd p)).
  assert (forall i ps p, p ∈ ps -> str_contains p text = true -> said (i, ps) = true) as Hsaid.
  { intros i ps p Hp Ht. apply existsb_exists. exists p. by rewrite <- list_elem_of_In. }
  destruct (List.find said INTENT_PATTERNS) as [[i ps]|] eqn:E.
  - pose proof E as (Hin & Hi)%List.find_some. split.
    + intros n intent phrases phrase Hn Hp Ht. apply find_first in E as (pre & post & E & _ & Hpre).
      exists (List.length pre). rewrite E, list_lookup_middle by done. split; [|done].
      destruct (Nat.le_gt_cases (List.length pre) n) as [?|Hlt]; [done|]. exfalso.
      rewrite E, lookup_app_l in Hn by done. apply list_elem_of_lookup_2 in Hn.
      rewrite Forall_forall in Hpre. apply Hpre in Hn. by rewrite (Hsaid _ _ _ Hp Ht) in Hn.
    + split.
      * intros ->. exfalso. cbn in Hin. repeat destruct Hin as [[=]|Hin]. done.
      * intros Hno. exfalso. apply existsb_exists in Hi as (p & Hp & Ht). cbn in Hp.
        rewrite (Hno i ps p) in Ht; [done|..]; by apply list_elem_of_In.
  - rewrite find_none_iff, Forall_forall in E. split.
    + intros n intent phrases phrase Hn Hp Ht. apply list_elem_of_lookup_2, E in Hn.
      by rewrite (Hsaid _ _ _ Hp Ht) in Hn.
    + split; [|done]. intros _ intent phrases phrase Hin Hp. apply not_true_is_false. intros Ht.
      apply E in Hin. by rewrite (Hsaid _ _ _ Hp Ht) in Hin.
Qed.

Definition sample_voice_context : VoiceSafetyContext := {|
  vsc_now_local := mk_datetime (12 * hour) (Some 0); vsc_quiet_hours_start := Some (20 * hour);
  vsc_quiet_hours_end := Some (9 * hour); vsc_real_calls_enabled := true;
  vsc_operator_authorized := true; vsc_kill_switch := false; vsc_destination_allowlisted := true;
  vsc_consent_verified_at := Some (utc_datetime 1); vsc_opted_out_at := None; vsc_active_calls := 0;
  vsc_calls_today := 3; vsc_max_duration_seconds := 180 |}.

Lemma voice_safety_exact_witness :
  vsd_allowed (evaluate_voice_safety sample_voice_context) = true /\ voice_permitted sample_voice_context.
Proof.
  assert (clock_times sample_voice_context) as Hc by (split; intros t [= <-]; split; by vm_compute).
  destruct (voice_safety_exact sample_voice_context Hc) as [Hiff _]. split; [reflexivity|].
  apply Hiff. reflexivity.
Defined.

Example sleeping_customer : detect_voice_intent "Please STOP   calling, I will pay later" = VoiceIntent.OPT_OUT.
Proof. reflexivity. Qed.
