(* ===== verification/VoiceModels.v ===== *)
(** * Voice data

    The values of [voice/service.py] and the rows of [voice/models.py]: the status vocabulary
    of calls, subjects, attempts, claims and the changes callbacks make.  The columns
    [submitted_at] and [updated_at], which nothing reads, are left out. *)
From S2P Require Import Prelude Domain Json JsonText Entities.

(** ** Statuses *)

(** src/services/api/app/voice/service.py:30-41 [VOICE_TERMINAL_STATUSES] *)
Definition VOICE_TERMINAL_STATUSES : list string :=
  ["BUSY"; "CANCELED"; "COMPLETED"; "FAILED"; "NO_ANSWER"; "REJECTED"; "CANCEL_PENDING"; "CANCEL_UNCERTAIN"].

(** src/services/api/app/voice/service.py:42-57 [_VOICE_STATUS_ALIASES] *)
Definition VOICE_STATUS_ALIASES : list (string * string) := [
  ("ANSWERED", "IN_PROGRESS");
  ("BUSY", "BUSY");
  ("CANCELED", "CANCELED");
  ("CANCELLED", "CANCELED");
  ("COMPLETED", "COMPLETED");
  ("FAILED", "FAILED");
  ("IN-PROGRESS", "IN_PROGRESS");
  ("IN_PROGRESS", "IN_PROGRESS");
  ("INITIATED", "SUBMITTED");
  ("NO-ANSWER", "NO_ANSWER");
  ("NO_ANSWER", "NO_ANSWER");
  ("QUEUED", "SUBMITTED");
  ("RINGING", "RINGING");
  ("SUBMITTED", "SUBMITTED")].

(** src/services/api/app/voice/service.py:58-64 [_VOICE_STATUS_RANK] *)
Definition VOICE_STATUS_RANK : list (string * Z) :=
  [("RESERVED", 0); ("UNCERTAIN", 0); ("SUBMITTED", 1); ("RINGING", 2); ("IN_PROGRESS", 3)].

Definition lookup_str {A} (key : string) (table : list (string * A)) : option A :=
  snd <$> List.find (fun p => bool_decide (fst p = key)) table.

(** src/services/api/app/voice/service.py:76-83 [normalize_voice_status] *)
Definition normalize_voice_status (value : string) : result string :=
  from_option (ValueError ("unsupported Twilio call status: " +++ value))
    (lookup_str (str_replace_char " " "_" (str_upper (str_strip value))) VOICE_STATUS_ALIASES).

Definition status_rank (status : string) : Z := default (-1) (lookup_str status VOICE_STATUS_RANK).

(** src/services/api/app/voice/service.py:86-99 [can_advance_voice_status] *)
Definition can_advance_voice_status (current candidate : string) : bool :=
  let current := str_upper (str_strip current) in
  let candidate := str_upper (str_strip candidate) in
  if bool_decide (current = candidate) then true
  else if mem current VOICE_TERMINAL_STATUSES then false
  else if mem candidate VOICE_TERMINAL_STATUSES then true
  else status_rank current <=? status_rank candidate.

(** src/services/api/app/voice/repository.py:30-30 [_ACTIVE_VOICE_STATUSES] *)
Definition ACTIVE_VOICE_STATUSES : list string := ["RESERVED"; "SUBMITTED"; "RINGING"; "IN_PROGRESS"].

(** ** Values *)

(** src/services/api/app/voice/service.py:127-144 [VoiceSubject]: times of day are microseconds after midnight. *)
Record VoiceSubject : Type := {
  vsu_merchant_id : string;
  vsu_case_id : string;
  vsu_customer_id : string;
  vsu_destination_token : string;
  vsu_preferred_language : string;
  vsu_consent_verified_at : option datetime;
  vsu_opted_out_at : option datetime;
  vsu_timezone : string;
  vsu_kill_switch : bool;
  vsu_quiet_hours_start : option Z;
  vsu_quiet_hours_end : option Z;
  vsu_merchant_display_name : string;
  vsu_customer_display_name : string;
  vsu_amount_at_risk_paise : Z;
  vsu_currency : string;
  vsu_diagnosis : string;
  vsu_plan_name : string;
}.
#[export] Instance eta_VoiceSubject : Eta VoiceSubject := fun r =>
  {| vsu_merchant_id := vsu_merchant_id r; vsu_case_id := vsu_case_id r; vsu_customer_id :=
     vsu_customer_id r; vsu_destination_token := vsu_destination_token r; vsu_preferred_language
     := vsu_preferred_language r; vsu_consent_verified_at := vsu_consent_verified_at r;
     vsu_opted_out_at := vsu_opted_out_at r; vsu_timezone := vsu_timezone r; vsu_kill_switch :=
     vsu_kill_switch r; vsu_quiet_hours_start := vsu_quiet_hours_start r; vsu_quiet_hours_end :=
     vsu_quiet_hours_end r; vsu_merchant_display_name := vsu_merchant_display_name r;
     vsu_customer_display_name := vsu_customer_display_name r; vsu_amount_at_risk_paise :=
     vsu_amount_at_risk_paise r; vsu_currency := vsu_currency r; vsu_diagnosis := vsu_diagnosis
     r; vsu_plan_name := vsu_plan_name r |}.

(** src/services/api/app/voice/service.py:167-183 [VoiceAttempt] *)
Record VoiceAttempt : Type := {
  va_id : string;
  va_merchant_id : string;
  va_case_id : string;
  va_customer_id : string;
  va_idempotency_key : string;
  va_provider : string;
  va_status : string;
  va_created_at : datetime;
  va_provider_call_id : option string;
  va_disposition : option string;
  va_transcript : option string;
  va_detected_intent : option string;
  va_confidence_basis_points : option Z;
  va_duration_seconds : option Z;
  va_disclosure_delivered_at : option datetime;
  va_uncertain_submission : bool;
}.
#[export] Instance eta_VoiceAttempt : Eta VoiceAttempt := fun r =>
  {| va_id := va_id r; va_merchant_id := va_merchant_id r; va_case_id := va_case_id r;
     va_customer_id := va_customer_id r; va_idempotency_key := va_idempotency_key r; va_provider
     := va_provider r; va_status := va_status r; va_created_at := va_created_at r;
     va_provider_call_id := va_provider_call_id r; va_disposition := va_disposition r;
     va_transcript := va_transcript r; va_detected_intent := va_detected_intent r;
     va_confidence_basis_points := va_confidence_basis_points r; va_duration_seconds :=
     va_duration_seconds r; va_disclosure_delivered_at := va_disclosure_delivered_at r;
     va_uncertain_submission := va_uncertain_submission r |}.

(** src/services/api/app/voice/service.py:148-150 [VoiceReservationClaim] *)
Record VoiceReservationClaim : Type := { vrc_attempt : VoiceAttempt; vrc_claimed : bool }.

(** src/services/api/app/voice/service.py:154-163 [VoiceEligibility] *)
Record VoiceEligibility : Type := {
  ve_case_id : string;
  ve_customer_id : option string;
  ve_eligible : bool;
  ve_reason_code : string;
  ve_destination_configured : bool;
  ve_destination_allowlisted : bool;
  ve_consent_verified_at : option datetime;
  ve_opted_out_at : option datetime;
  ve_preferred_language : option string;
}.

(** src/services/api/app/voice/service.py:187-192 [VoiceCancellationClaim] *)
Record VoiceCancellationClaim : Type := {
  vcc_attempt : option VoiceAttempt;
  vcc_claimed : bool;
  vcc_cancellation_key : string;
}.

(** An entry of the dictionary of changes a callback makes; [SetOther] is any other name. *)
Inductive voice_change : Type :=
| SetStatus (value : string)
| SetProviderCallId (value : string)
| SetDisposition (value : string)
| SetTranscript (value : string)
| SetDetectedIntent (value : string)
| SetConfidence (value : option Z)
| SetDuration (value : Z)
| SetDisclosureDelivered (value : option datetime)
| SetOther (name : string).

(** [changes.get("status")] *)
Definition incoming_status (changes : list voice_change) : option string :=
  head (omap (fun c => match c with SetStatus s => Some s | _ => None end) changes).
(** [name not in ("status", "disposition")] *)
Definition other_than_status (c : voice_change) : bool :=
  match c with SetStatus _ | SetDisposition _ => false | _ => true end.
(** The status may be set, when the changes have one. *)
Definition status_can_advance (current : string) (changes : list voice_change) : bool :=
  match incoming_status changes with
  | Some incoming => can_advance_voice_status current incoming
  | None => true
  end.

(** [replace(attempt, name=value)] *)
Definition attempt_change (c : voice_change) (a : VoiceAttempt) : result VoiceAttempt :=
  match c with
  | SetStatus v => Ok (a <| va_status := v |>)
  | SetProviderCallId v => Ok (a <| va_provider_call_id := Some v |>)
  | SetDisposition v => Ok (a <| va_disposition := Some v |>)
  | SetTranscript v => Ok (a <| va_transcript := Some v |>)
  | SetDetectedIntent v => Ok (a <| va_detected_intent := Some v |>)
  | SetConfidence v => Ok (a <| va_confidence_basis_points := v |>)
  | SetDuration v => Ok (a <| va_duration_seconds := Some v |>)
  | SetDisclosureDelivered v => Ok (a <| va_disclosure_delivered_at := v |>)
  | SetOther name => Err (TypeError ("unexpected keyword argument " +++ name))
  end.
Fixpoint attempt_changes (changes : list voice_change) (a : VoiceAttempt) : result VoiceAttempt :=
  match changes with [] => Ok a | c :: rest => a' ← attempt_change c a; attempt_changes rest a' end.

(** ** Rows *)

(** src/services/api/app/voice/models.py:30-69 [VoiceContactAttemptRecord] *)
Record VoiceContactAttemptRecord : Type := {
  vr_id : string;
  vr_merchant_id : string;
  vr_case_id : string;
  vr_customer_id : string;
  vr_idempotency_key : string;
  vr_destination_token : string;
  vr_provider : string;
  vr_provider_call_id : option string;
  vr_status : string;
  vr_disposition : option string;
  vr_transcript : option string;
  vr_detected_intent : option string;
  vr_confidence_basis_points : option Z;
  vr_duration_seconds : option Z;
  vr_provider_payload : json;
  vr_disclosure_text : string;
  vr_disclosure_delivered_at : option Z;
  vr_consent_verified_at : Z;
  vr_completed_at : option Z;
  vr_uncertain_submission : bool;
  vr_recording_enabled : bool;
  vr_max_duration_seconds : Z;
  vr_created_at : Z;
}.
#[export] Instance eta_VoiceContactAttemptRecord : Eta VoiceContactAttemptRecord := fun r =>
  {| vr_id := vr_id r; vr_merchant_id := vr_merchant_id r; vr_case_id := vr_case_id r;
     vr_customer_id := vr_customer_id r; vr_idempotency_key := vr_idempotency_key r;
     vr_destination_token := vr_destination_token r; vr_provider := vr_provider r;
     vr_provider_call_id := vr_provider_call_id r; vr_status := vr_status r; vr_disposition :=
     vr_disposition r; vr_transcript := vr_transcript r; vr_detected_intent :=
     vr_detected_intent r; vr_confidence_basis_points := vr_confidence_basis_points r;
     vr_duration_seconds := vr_duration_seconds r; vr_provider_payload := vr_provider_payload r;
     vr_disclosure_text := vr_disclosure_text r; vr_disclosure_delivered_at :=
     vr_disclosure_delivered_at r; vr_consent_verified_at := vr_consent_verified_at r;
     vr_completed_at := vr_completed_at r; vr_uncertain_submission := vr_uncertain_submission r;
     vr_recording_enabled := vr_recording_enabled r; vr_max_duration_seconds :=
     vr_max_duration_seconds r; vr_created_at := vr_created_at r |}.

(** src/services/api/app/voice/models.py:99-115 [VoiceWebhookReceiptRecord] *)
Record VoiceWebhookReceiptRecord : Type := {
  vwr_id : string;
  vwr_provider : string;
  vwr_provider_event_id : string;
  vwr_attempt_id : option string;
  vwr_payload : json;
}.
#[export] Instance eta_VoiceWebhookReceiptRecord : Eta VoiceWebhookReceiptRecord := fun r =>
  {| vwr_id := vwr_id r; vwr_provider := vwr_provider r; vwr_provider_event_id :=
     vwr_provider_event_id r; vwr_attempt_id := vwr_attempt_id r; vwr_payload := vwr_payload r
     |}.

(** src/services/api/app/voice/models.py:118-138 [VoiceSuppressionRecord] *)
Record VoiceSuppressionRecord : Type := {
  vsp_id : string;
  vsp_merchant_id : string;
  vsp_customer_id : string;
  vsp_source_attempt_id : option string;
  vsp_reason_code : string;
}.

(** The shared tables with the voice tables. *)
Record voice_tables : Type := {
  vt_db : Db;
  vt_attempts : list VoiceContactAttemptRecord;
  vt_receipts : list VoiceWebhookReceiptRecord;
  vt_suppressions : list VoiceSuppressionRecord;
}.
#[export] Instance eta_voice_tables : Eta voice_tables := fun r =>
  {| vt_db := vt_db r; vt_attempts := vt_attempts r; vt_receipts := vt_receipts r;
     vt_suppressions := vt_suppressions r |}.

Definition is_active (status : string) : bool := mem status ACTIVE_VOICE_STATUSES.

(** src/services/api/app/voice/models.py:71-84 [VoiceContactAttemptRecord.__table_args__] *)
Definition check_attempt (r : VoiceContactAttemptRecord) : bool :=
  (0 <? vr_max_duration_seconds r) && (vr_max_duration_seconds r <=? 180)
  && negb (vr_recording_enabled r)
  && null_or (fun n => (0 <=? n) && (n <=? 10000)) (vr_confidence_basis_points r)
  && null_or (fun n => 0 <=? n) (vr_duration_seconds r).

(** src/services/api/app/voice/models.py:33-96 [VoiceContactAttemptRecord.__table_args__]: the constraints of
    the three tables by name; one attempt at most is active. *)
Definition voice_constraints (t : voice_tables) : list (string * bool) := [
  ("voice_contact_attempts_pkey", unique_on (fun r => Some (vr_id r)) (vt_attempts t));
  ("voice_contact_attempts_idempotency_key", unique_on (fun r => Some (vr_idempotency_key r)) (vt_attempts t));
  ("voice_contact_attempts_provider_call_id", unique_on vr_provider_call_id (vt_attempts t));
  ("uq_voice_contact_one_active",
     unique_on (fun r => if is_active (vr_status r) then Some (vr_recording_enabled r) else None)
       (vt_attempts t));
  ("voice_attempt_checks", forallb check_attempt (vt_attempts t));
  ("voice_webhook_receipts_pkey", unique_on (fun r => Some (vwr_id r)) (vt_receipts t));
  ("voice_webhook_provider_event",
     unique_on (fun r => Some (vwr_provider r, vwr_provider_event_id r)) (vt_receipts t));
  ("voice_suppressions_pkey", unique_on (fun r => Some (vsp_id r)) (vt_suppressions t));
  ("voice_suppression_customer",
     unique_on (fun r => Some (vsp_merchant_id r, vsp_customer_id r)) (vt_suppressions t))].

Definition voice_violated (t : voice_tables) : option string :=
  match violated (vt_db t) with
  | Some c => Some c
  | None => fst <$> List.find (fun c => negb (snd c)) (voice_constraints t)
  end.

(** src/services/api/app/voice/repository.py:34-52 [_to_attempt] *)
Definition to_attempt (r : VoiceContactAttemptRecord) : VoiceAttempt := {|
  va_id := vr_id r;
  va_merchant_id := vr_merchant_id r;
  va_case_id := vr_case_id r;
  va_customer_id := vr_customer_id r;
  va_idempotency_key := vr_idempotency_key r;
  va_provider := vr_provider r;
  va_status := vr_status r;
  va_created_at := utc_datetime (vr_created_at r);
  va_provider_call_id := vr_provider_call_id r;
  va_disposition := vr_disposition r;
  va_transcript := vr_transcript r;
  va_detected_intent := vr_detected_intent r;
  va_confidence_basis_points := vr_confidence_basis_points r;
  va_duration_seconds := vr_duration_seconds r;
  va_disclosure_delivered_at := utc_datetime <$> vr_disclosure_delivered_at r;
  va_uncertain_submission := vr_uncertain_submission r |}.

(** The names [SqlVoiceRepository.apply_callback] accepts. *)
Definition row_change (c : voice_change) (r : VoiceContactAttemptRecord) : result VoiceContactAttemptRecord :=
  match c with
  | SetStatus v => Ok (r <| vr_status := v |>)
  | SetProviderCallId v => Ok (r <| vr_provider_call_id := Some v |>)
  | SetDisposition v => Ok (r <| vr_disposition := Some v |>)
  | SetTranscript v => Ok (r <| vr_transcript := Some v |>)
  | SetDetectedIntent v => Ok (r <| vr_detected_intent := Some v |>)
  | SetConfidence v => Ok (r <| vr_confidence_basis_points := v |>)
  | SetDuration v => Ok (r <| vr_duration_seconds := Some v |>)
  | SetDisclosureDelivered None => Ok (r <| vr_disclosure_delivered_at := None |>)
  | SetDisclosureDelivered (Some t) =>
      at_ ← bind_utc t; mret (r <| vr_disclosure_delivered_at := Some at_ |>)
  | SetOther name => Err (ValueError ("unsupported voice callback field: " +++ name))
  end.
Fixpoint row_changes (changes : list voice_change) (r : VoiceContactAttemptRecord)
  : result VoiceContactAttemptRecord :=
  match changes with [] => Ok r | c :: rest => r' ← row_change c r; row_changes rest r' end.

(** The value of a JSON column, as [json.dumps] writes it: a [datetime] has no JSON form. *)
Definition change_json (c : voice_change) : result (string * json) :=
  match c with
  | SetStatus v => Ok ("status", JStr v)
  | SetProviderCallId v => Ok ("provider_call_id", JStr v)
  | SetDisposition v => Ok ("disposition", JStr v)
  | SetTranscript v => Ok ("transcript", JStr v)
  | SetDetectedIntent v => Ok ("detected_intent", JStr v)
  | SetConfidence v => Ok ("confidence_basis_points", opt_int v)
  | SetDuration v => Ok ("duration_seconds", JInt v)
  | SetDisclosureDelivered None => Ok ("disclosure_delivered_at", JNull)
  | SetDisclosureDelivered (Some _) =>
      Err (StatementError "(builtins.TypeError) Object of type datetime is not JSON serializable")
  | SetOther name => Ok (name, JNull)
  end.
Definition changes_json (changes : list voice_change) : result json :=
  JObj <$> map_result change_json changes.

(** An [UPDATE] of an object: the columns whose value is no longer the one the session
    loaded. *)
Definition changed {A} `{EqDecision A} (old new current : A) : A :=
  if bool_decide (old = new) then current else new.
Definition changed_row (old new current : VoiceContactAttemptRecord) : VoiceContactAttemptRecord := {|
  vr_id := vr_id current;
  vr_merchant_id := vr_merchant_id current;
  vr_case_id := vr_case_id current;
  vr_customer_id := vr_customer_id current;
  vr_idempotency_key := vr_idempotency_key current;
  vr_destination_token := vr_destination_token current;
  vr_provider := vr_provider current;
  vr_provider_call_id := changed (vr_provider_call_id old) (vr_provider_call_id new) (vr_provider_call_id current);
  vr_status := changed (vr_status old) (vr_status new) (vr_status current);
  vr_disposition := changed (vr_disposition old) (vr_disposition new) (vr_disposition current);
  vr_transcript := changed (vr_transcript old) (vr_transcript new) (vr_transcript current);
  vr_detected_intent := changed (vr_detected_intent old) (vr_detected_intent new) (vr_detected_intent current);
  vr_confidence_basis_points := changed (vr_confidence_basis_points old) (vr_confidence_basis_points new) (vr_confidence_basis_points current);
  vr_duration_seconds := changed (vr_duration_seconds old) (vr_duration_seconds new) (vr_duration_seconds current);
  vr_provider_payload := if json_eqb (vr_provider_payload old) (vr_provider_payload new)
                         then vr_provider_payload current else vr_provider_payload new;
  vr_disclosure_text := vr_disclosure_text current;
  vr_disclosure_delivered_at := changed (vr_disclosure_delivered_at old) (vr_disclosure_delivered_at new) (vr_disclosure_delivered_at current);
  vr_consent_verified_at := vr_consent_verified_at current;
  vr_completed_at := changed (vr_completed_at old) (vr_completed_at new) (vr_completed_at current);
  vr_uncertain_submission := changed (vr_uncertain_submission old) (vr_uncertain_submission new) (vr_uncertain_submission current);
  vr_recording_enabled := vr_recording_enabled current;
  vr_max_duration_seconds := vr_max_duration_seconds current;
  vr_created_at := vr_created_at current |}.
