(* ===== verification/VoiceRepository.v ===== *)
(** * Voice repositories

    The repository of the voice service as a class, the in-memory adapter of
    [voice/service.py] and the SQL adapter of [voice/repository.py].  A method is a coroutine:
    the in-memory ones run without giving way, those of the SQL adapter give way at every
    statement.  [self] is the session of the request. *)
From S2P Require Import Prelude Procs Transactions Domain Json Entities Session CaseRepo VoiceModels.

Definition AI_DISCLOSURE : string :=
  "This is an automated call from a RecoveryOS AI assistant. " +++
  "The assistant will never ask for card details.".

(** src/services/api/app/voice/service.py:206-263 [VoiceRepository]: [suppress] takes the
    reading of [datetime.now(UTC)] it makes; [begin_request], [commit_request] and
    [rollback_request] are the unit of work around a request. *)
Class VoiceRepository (S : Type) : Type := {
  begin_request : nat -> proc S unit;
  commit_request : nat -> proc S unit;
  rollback_request : nat -> proc S unit;
  load_subject : nat -> string -> proc S (option VoiceSubject);
  configure_subject : nat -> string -> string -> string -> bool -> datetime -> proc S (option VoiceSubject);
  get_by_idempotency : nat -> string -> proc S (option VoiceAttempt);
  active_count : nat -> proc S Z;
  calls_today : nat -> datetime -> proc S Z;
  save_attempt : nat -> VoiceAttempt -> proc S VoiceAttempt;
  reserve_attempt : nat -> VoiceAttempt -> proc S VoiceReservationClaim;
  get_attempt : nat -> string -> proc S (option VoiceAttempt);
  list_attempts : nat -> string -> proc S (list VoiceAttempt);
  apply_callback : nat -> string -> string -> string -> list voice_change ->
    proc S (option VoiceAttempt * bool);
  suppress : nat -> VoiceAttempt -> string -> Z -> proc S bool;
  claim_payment_cancellation : nat -> string -> string -> datetime -> proc S VoiceCancellationClaim;
  finalize_payment_cancellation : nat -> string -> string -> bool -> datetime -> option string ->
    proc S VoiceAttempt;
  get_payment_cancellation : nat -> string -> proc S (option VoiceAttempt);
}.

(** ** The in-memory adapter *)

(** src/services/api/app/voice/service.py:266-274 [InMemoryVoiceRepository]: the attempts in
    insertion order, by their distinct identifiers. *)
Record InMemoryVoiceRepository : Type := {
  mv_subjects : gmap string VoiceSubject;
  mv_attempts : list VoiceAttempt;
  mv_receipts : gset (string * string);
  mv_suppressions : gset (string * string);
  mv_payment_cancellations : gmap string string;
}.
#[export] Instance eta_InMemoryVoiceRepository : Eta InMemoryVoiceRepository := fun r =>
  {| mv_subjects := mv_subjects r; mv_attempts := mv_attempts r; mv_receipts := mv_receipts r;
     mv_suppressions := mv_suppressions r; mv_payment_cancellations := mv_payment_cancellations r |}.

(** src/services/api/app/voice/service.py:269-274 [InMemoryVoiceRepository.__init__] *)
Definition in_memory_voice_init (subjects : list VoiceSubject) : InMemoryVoiceRepository := {|
  mv_subjects := foldl (fun m s => <[vsu_case_id s := s]> m) ∅ subjects;
  mv_attempts := []; mv_receipts := ∅; mv_suppressions := ∅; mv_payment_cancellations := ∅ |}.

Section in_memory.
Abbreviation M := (stx InMemoryVoiceRepository).

(** [self.attempts[attempt.id] = attempt] *)
Definition put_attempt (a : VoiceAttempt) (l : list VoiceAttempt) : list VoiceAttempt :=
  if existsb (fun b => eqs (va_id b) (va_id a)) l then store_row va_id a l else (l ++ [a])%list.
Definition mem_find (id : string) (s : InMemoryVoiceRepository) : option VoiceAttempt :=
  row_where (fun a => eqs (va_id a) id) (mv_attempts s).

(** src/services/api/app/voice/service.py:276-277 [InMemoryVoiceRepository.load_subject] *)
Definition mem_load_subject (case_id : string) : M (option VoiceSubject) := fun s =>
  (Ok (mv_subjects s !! case_id), s).

(** src/services/api/app/voice/service.py:279-298 [InMemoryVoiceRepository.configure_subject] *)
Definition mem_configure_subject (case_id destination_token preferred_language : string)
    (consent_granted : bool) (now : datetime) : M (option VoiceSubject) := fun s =>
  match mv_subjects s !! case_id with
  | None => (Ok None, s)
  | Some subject =>
      let configured := subject <| vsu_destination_token := destination_token |>
        <| vsu_preferred_language := preferred_language |>
        <| vsu_consent_verified_at := if consent_granted then Some now else None |> in
      (Ok (Some configured), s <| mv_subjects ::= <[case_id := configured]> |>)
  end.

(** src/services/api/app/voice/service.py:300-304 [InMemoryVoiceRepository.get_by_idempotency] *)
Definition mem_get_by_idempotency (idempotency_key : string) : M (option VoiceAttempt) := fun s =>
  (Ok (row_where (fun a => eqs (va_idempotency_key a) idempotency_key) (mv_attempts s)), s).

(** src/services/api/app/voice/service.py:306-310 [InMemoryVoiceRepository.active_count] *)
Definition mem_active_count : M Z := fun s =>
  (Ok (Z.of_nat (List.length (rows_where (fun a => is_active (va_status a)) (mv_attempts s)))), s).

(** [value.date()] *)
Definition date_of (d : datetime) : Z := dt_wall d / day.

(** src/services/api/app/voice/service.py:312-313 [InMemoryVoiceRepository.calls_today] *)
Definition mem_calls_today (now : datetime) : M Z := fun s =>
  (Ok (Z.of_nat (List.length
     (rows_where (fun a => date_of (va_created_at a) =? date_of now) (mv_attempts s)))), s).

(** src/services/api/app/voice/service.py:315-317 [InMemoryVoiceRepository.save_attempt] *)
Definition mem_save_attempt (attempt : VoiceAttempt) : M VoiceAttempt := fun s =>
  (Ok attempt, s <| mv_attempts ::= put_attempt attempt |>).

(** src/services/api/app/voice/service.py:319-324 [InMemoryVoiceRepository.reserve_attempt] *)
Definition mem_reserve_attempt (attempt : VoiceAttempt) : M VoiceReservationClaim :=
  existing ← mem_get_by_idempotency (va_idempotency_key attempt);
  match existing with
  | Some existing => mret {| vrc_attempt := existing; vrc_claimed := false |}
  | None =>
      _ ← mem_save_attempt attempt;
      mret {| vrc_attempt := attempt; vrc_claimed := true |}
  end.

(** src/services/api/app/voice/service.py:326-327 [InMemoryVoiceRepository.get_attempt] *)
Definition mem_get_attempt (attempt_id : string) : M (option VoiceAttempt) := fun s =>
  (Ok (mem_find attempt_id s), s).

(** [sorted(..., key=lambda item: item.created_at, reverse=True)] *)
Definition latest_first : list VoiceAttempt -> list VoiceAttempt :=
  sorted_on (fun a => dt_instant (va_created_at a)) (cmp_opp Z.compare).

(** src/services/api/app/voice/service.py:329-334 [InMemoryVoiceRepository.list_attempts] *)
Definition mem_list_attempts (case_id : string) : M (list VoiceAttempt) := fun s =>
  (Ok (latest_first (rows_where (fun a => eqs (va_case_id a) case_id) (mv_attempts s))), s).

(** src/services/api/app/voice/service.py:336-357 [InMemoryVoiceRepository.apply_callback] *)
Definition mem_apply_callback (provider event_id attempt_id : string) (changes : list voice_change)
  : M (option VoiceAttempt * bool) := fun s =>
  if bool_decide ((provider, event_id) ∈ mv_receipts s) then (Ok (mem_find attempt_id s, true), s)
  else
    let s := s <| mv_receipts ::= union {[(provider, event_id)]} |> in
    match mem_find attempt_id s with
    | None => (Ok (None, false), s)
    | Some current =>
        let changes := if status_can_advance (va_status current) changes then changes
                       else List.filter other_than_status changes in
        match attempt_changes changes current with
        | Err e => (Err e, s)
        | Ok updated => (Ok (Some updated, false), s <| mv_attempts ::= put_attempt updated |>)
        end
    end.

(** src/services/api/app/voice/service.py:359-367 [InMemoryVoiceRepository.suppress] *)
Definition mem_suppress (attempt : VoiceAttempt) (utc_now : Z) : M bool := fun s =>
  let key := (va_merchant_id attempt, va_customer_id attempt) in
  let was_new := bool_decide (key ∉ mv_suppressions s) in
  (Ok was_new,
   s <| mv_suppressions ::= union {[key]} |>
     <| mv_subjects ::= alter (fun subject => subject <| vsu_opted_out_at := Some (utc_datetime utc_now) |>)
                          (va_case_id attempt) |>).

(** src/services/api/app/voice/service.py:369-406 [InMemoryVoiceRepository.claim_payment_cancellation] *)
Definition mem_claim_payment_cancellation (case_id cancellation_key : string)
  : M VoiceCancellationClaim := fun s =>
  let claim attempt claimed := {| vcc_attempt := attempt; vcc_claimed := claimed;
                                  vcc_cancellation_key := cancellation_key |} in
  match mv_payment_cancellations s !! cancellation_key with
  | Some claimed_attempt_id => (Ok (claim (mem_find claimed_attempt_id s) false), s)
  | None =>
      match row_where (fun a => eqs (va_case_id a) case_id && is_active (va_status a))
              (latest_first (mv_attempts s)) with
      | None => (Ok (claim None false), s)
      | Some attempt =>
          let pending := attempt <| va_status := "CANCEL_PENDING" |>
                                 <| va_disposition := Some "PAYMENT_RECOVERED" |> in
          (Ok (claim (Some pending) true),
           s <| mv_attempts ::= put_attempt pending |>
             <| mv_payment_cancellations ::= <[cancellation_key := va_id attempt]> |>)
      end
  end.

(** src/services/api/app/voice/service.py:408-428 [InMemoryVoiceRepository.finalize_payment_cancellation] *)
Definition mem_finalize_payment_cancellation (attempt_id cancellation_key : string) (confirmed : bool)
  : M VoiceAttempt := fun s =>
  if negb (bool_decide (mv_payment_cancellations s !! cancellation_key = Some attempt_id)) then
    (Err (ValueError "voice cancellation claim does not match the attempt"), s)
  else match mem_find attempt_id s with
       | None => (Err (KeyError attempt_id), s)
       | Some attempt =>
           let updated := attempt
             <| va_status := if confirmed then "CANCELED" else "CANCEL_UNCERTAIN" |>
             <| va_disposition := Some "PAYMENT_RECOVERED" |>
             <| va_uncertain_submission := negb confirmed |> in
           (Ok updated, s <| mv_attempts ::= put_attempt updated |>)
       end.

(** src/services/api/app/voice/service.py:430-432 [InMemoryVoiceRepository.get_payment_cancellation] *)
Definition mem_get_payment_cancellation (cancellation_key : string) : M (option VoiceAttempt) := fun s =>
  let attempt_id := mv_payment_cancellations s !! cancellation_key in
  (Ok (if truthy attempt_id then mem_find (default "" attempt_id) s else None), s).

#[export] Instance in_memory_voice : VoiceRepository InMemoryVoiceRepository := {|
  begin_request _ := pure_ (Ok tt);
  commit_request _ := pure_ (Ok tt);
  rollback_request _ := pure_ (Ok tt);
  load_subject _ case_id := step (mem_load_subject case_id);
  configure_subject _ case_id token language granted now :=
    step (mem_configure_subject case_id token language granted now);
  get_by_idempotency _ key := step (mem_get_by_idempotency key);
  active_count _ := step mem_active_count;
  calls_today _ now := step (mem_calls_today now);
  save_attempt _ attempt := step (mem_save_attempt attempt);
  reserve_attempt _ attempt := step (mem_reserve_attempt attempt);
  get_attempt _ id := step (mem_get_attempt id);
  list_attempts _ case_id := step (mem_list_attempts case_id);
  apply_callback _ provider event_id attempt_id changes :=
    step (mem_apply_callback provider event_id attempt_id changes);
  suppress _ attempt _ utc_now := step (mem_suppress attempt utc_now);
  claim_payment_cancellation _ case_id key _ := step (mem_claim_payment_cancellation case_id key);
  finalize_payment_cancellation _ attempt_id key confirmed _ _ :=
    step (mem_finalize_payment_cancellation attempt_id key confirmed);
  get_payment_cancellation _ key := step (mem_get_payment_cancellation key);
|}.
End in_memory.

(** ** The SQL adapter *)

Inductive voice_lock : Type :=
| LAttempt (id : string)
| LReceipt (provider event_id : string)
| LSuppression (merchant_id customer_id : string)
| LCustomer (id : string).
#[export] Instance voice_lock_eq_dec : EqDecision voice_lock.
Proof. solve_decision. Defined.

(** The objects a session has loaded: attempts, and the rows of subjects. *)
Record voice_objects : Type := {
  vo_attempts : gmap string VoiceContactAttemptRecord;
  vo_subjects : gmap string VoiceSubject;
}.
#[export] Instance eta_voice_objects : Eta voice_objects := fun o =>
  {| vo_attempts := vo_attempts o; vo_subjects := vo_subjects o |}.
Definition no_voice_objects : voice_objects := {| vo_attempts := ∅; vo_subjects := ∅ |}.

Abbreviation voice_db := (database voice_tables voice_lock voice_objects).

Section strptime.
(** The digits of the text as a number below [bound]: one or two of them. *)
Definition two_digits (bound : Z) (s : string) : option Z :=
  let digit (c : ascii) := let n := Z.of_N (N_of_ascii c) - 48 in
                           if (0 <=? n) && (n <=? 9) then Some n else None in
  let value := match s with
               | String a EmptyString => digit a
               | String a (String b EmptyString) => x ← digit a; y ← digit b; Some (10 * x + y)
               | _ => None
               end in
  n ← value; if n <? bound then Some n else None.
Fixpoint split_colon (before : string) (s : string) : option (string * string) :=
  match s with
  | EmptyString => None
  | String c rest => if Ascii.eqb c ":" then Some (str_rev before, rest)
                     else split_colon (String c before) rest
  end.

(** src/services/api/app/voice/repository.py:435-438 [_parse_time]: microseconds after
    midnight. *)
Definition parse_time (value : option string) : result (option Z) :=
  match value with
  | None => Ok None
  | Some text =>
      from_option (ValueError ("time data '" +++ text +++ "' does not match format '%H:%M'"))
        ('(h, m) ← split_colon "" text;
         hours ← two_digits 24 h; minutes ← two_digits 60 m;
         Some (Some (hours * hour + minutes * minute)))
  end.
End strptime.

Section sql.
Context (isoformat : datetime -> string) (new_id : voice_tables -> nat -> string).
Abbreviation coroutine := (proc voice_db).
Abbreviation objects_of self d := (tx_objects (txn_of no_voice_objects self d)).
Abbreviation working self d := (working no_voice_objects self d).
Abbreviation select_ := (select_ no_voice_objects).
Abbreviation flushed := (flushed voice_violated no_voice_objects).
Abbreviation written := (written voice_violated no_voice_objects).

(** The object of a row: the one the session already holds. *)
Definition seen (objects : voice_objects) (r : VoiceContactAttemptRecord) : VoiceContactAttemptRecord :=
  default r (vo_attempts objects !! vr_id r).
Definition note_attempt (r : VoiceContactAttemptRecord) (objects : voice_objects) : voice_objects :=
  objects <| vo_attempts ::= <[vr_id r := r]> |>.
Definition attempt_row (id : string) (t : voice_tables) : option VoiceContactAttemptRecord :=
  row_where (fun r => eqs (vr_id r) id) (vt_attempts t).
(** [session.get(VoiceContactAttemptRecord, id)] *)
Definition held_row (id : string) (t : voice_tables) (objects : voice_objects)
  : option VoiceContactAttemptRecord :=
  match vo_attempts objects !! id with Some r => Some r | None => attempt_row id t end.

(** The rows a query selects, as objects the session holds from then on. *)
Definition select_attempt (self : nat) (find : voice_tables -> option VoiceContactAttemptRecord)
  : coroutine (option VoiceContactAttemptRecord) :=
  select_ self (fun t objects =>
    match find t with
    | None => (Ok None, objects)
    | Some r => (Ok (Some (seen objects r)), note_attempt (seen objects r) objects)
    end).

(** [UPDATE] of one object of the session. *)
Definition update_attempt (old new : VoiceContactAttemptRecord) (t : voice_tables) : voice_tables :=
  t <| vt_attempts ::= update_where (fun r => eqs (vr_id r) (vr_id old)) (changed_row old new) |>.
Definition add_receipt (receipt : VoiceWebhookReceiptRecord) (t : voice_tables) : voice_tables :=
  t <| vt_receipts ::= fun l => (l ++ [receipt])%list |>.
Definition receipt_row (provider event_id : string) (t : voice_tables) : option VoiceWebhookReceiptRecord :=
  row_where (fun r => eqs (vwr_provider r) provider && eqs (vwr_provider_event_id r) event_id)
    (vt_receipts t).

(** src/services/api/app/voice/repository.py:62-90 [SqlVoiceRepository.load_subject]: the
    joined rows of a case. *)
Definition subject_row (case_id : string) (t : voice_tables) : result (option VoiceSubject) :=
  let d := vt_db t in
  let joined :=
    c ← row_where (fun c => eqs (rc_id c) case_id) (db_cases d);
    customer ← row_where (fun r => eqs (cus_id r) (rc_customer_id c)) (db_customers d);
    merchant ← row_where (fun r => eqs (mer_id r) (rc_merchant_id c)) (db_merchants d);
    subscription ← row_where (fun r => eqs (sub_id r) (rc_subscription_id c)) (db_subscriptions d);
    Some (c, customer, merchant, subscription) in
  match joined with
  | None => Ok None
  | Some (c, customer, merchant, subscription) =>
      let setting := row_where (fun r => eqs (mps_merchant_id r) (mer_id merchant)) (db_policy_settings d) in
      start ← parse_time (match setting with Some s => mps_quiet_hours_start s | None => Some "20:00" end);
      end_ ← parse_time (match setting with Some s => mps_quiet_hours_end s | None => Some "09:00" end);
      mret (Some {|
        vsu_merchant_id := rc_merchant_id c; vsu_case_id := rc_id c; vsu_customer_id := cus_id customer;
        vsu_destination_token := default "" (cus_phone_token customer);
        vsu_preferred_language := cus_preferred_language customer;
        vsu_consent_verified_at := utc_datetime <$> cus_voice_consent_at customer;
        vsu_opted_out_at := utc_datetime <$> cus_opted_out_at customer;
        vsu_timezone := mer_timezone merchant;
        vsu_kill_switch := match setting with Some s => mps_recovery_kill_switch s | None => false end;
        vsu_quiet_hours_start := start; vsu_quiet_hours_end := end_;
        vsu_merchant_display_name := mer_display_name merchant;
        vsu_customer_display_name := cus_display_name customer;
        vsu_amount_at_risk_paise := rc_amount_at_risk_paise c;
        vsu_currency := sub_currency subscription;
        vsu_diagnosis := Diagnosis_value (rc_diagnosis c);
        vsu_plan_name := sub_plan_name subscription |})
  end.

(** src/services/api/app/voice/repository.py:61-90 [SqlVoiceRepository.load_subject] *)
Definition sql_load_subject (self : nat) (case_id : string) : coroutine (option VoiceSubject) :=
  select_ self (fun t objects =>
    match vo_subjects objects !! case_id with
    | Some subject => (Ok (Some subject), objects)
    | None =>
        match subject_row case_id t with
        | Ok (Some subject) => (Ok (Some subject), objects <| vo_subjects ::= <[case_id := subject]> |>)
        | r => (r, objects)
        end
    end).

(** [select(Customer).join(RecoveryCase, ...).where(RecoveryCase.id == case_id)] *)
Definition customer_of_case (case_id : string) (t : voice_tables) : option Customer :=
  c ← row_where (fun c => eqs (rc_id c) case_id) (db_cases (vt_db t));
  row_where (fun r => eqs (cus_id r) (rc_customer_id c)) (db_customers (vt_db t)).
Definition update_customer (id : string) (f : Customer -> Customer) (t : voice_tables) : voice_tables :=
  t <| vt_db ::= fun d => d <| db_customers ::= update_where (fun r => eqs (cus_id r) id) f |> |>.

(** src/services/api/app/voice/repository.py:92-114 [SqlVoiceRepository.configure_subject] *)
Definition sql_configure_subject (self : nat) (case_id destination_token preferred_language : string)
    (consent_granted : bool) (now : datetime) : coroutine (option VoiceSubject) :=
  found ← flushed self
    (fun d => match customer_of_case case_id (working self d) with
              | Some customer => [LCustomer (cus_id customer)]
              | None => []
              end)
    (fun d =>
      match customer_of_case case_id (working self d) with
      | None => Ok (false, id, objects_of self d)
      | Some customer =>
          consent ← (if consent_granted then Some <$> bind_utc now else Ok None);
          mret (true,
            update_customer (cus_id customer) (fun r => r <| cus_phone_token := Some destination_token |>
              <| cus_preferred_language := preferred_language |> <| cus_voice_consent_at := consent |>),
            objects_of self d <| vo_subjects ::= fmap (fun s : VoiceSubject =>
              if bool_decide (vsu_customer_id s = cus_id customer) then
                s <| vsu_destination_token := destination_token |>
                  <| vsu_preferred_language := preferred_language |>
                  <| vsu_consent_verified_at := if consent_granted then Some now else None |>
              else s) |>)
      end);
  if (found : bool) then sql_load_subject self case_id else pure_ (Ok None).

(** src/services/api/app/voice/repository.py:116-122 [SqlVoiceRepository.get_by_idempotency] *)
Definition sql_get_by_idempotency (self : nat) (idempotency_key : string) : coroutine (option VoiceAttempt) :=
  record ← select_attempt self (fun t =>
    row_where (fun r => eqs (vr_idempotency_key r) idempotency_key) (vt_attempts t));
  mret (fmap (M := option) to_attempt record).

(** src/services/api/app/voice/repository.py:124-136 [SqlVoiceRepository.active_count] *)
Definition sql_active_count (self : nat) : coroutine Z :=
  select_ self (fun t objects =>
    (Ok (Z.of_nat (List.length (rows_where (fun r => is_active (vr_status r)) (vt_attempts t)))), objects)).

(** src/services/api/app/voice/repository.py:138-150 [SqlVoiceRepository.calls_today] *)
Definition sql_calls_today (self : nat) (now : datetime) : coroutine Z :=
  select_ self (fun t objects =>
    (start ← bind_utc (mk_datetime (dt_wall now - dt_wall now mod day) (dt_offset now));
     Ok (Z.of_nat (List.length
       (rows_where (fun r => (start <=? vr_created_at r) && (vr_created_at r <? start + day))
          (vt_attempts t)))), objects)).

(** [session.get(VoiceContactAttemptRecord, attempt_id)] *)
Definition sql_get_row (self : nat) (attempt_id : string) : coroutine (option VoiceContactAttemptRecord) :=
  select_ self (fun t objects =>
    match held_row attempt_id t objects with
    | None => (Ok None, objects)
    | Some r => (Ok (Some r), note_attempt r objects)
    end).

(** src/services/api/app/voice/repository.py:158-175 [SqlVoiceRepository.save_attempt]: the
    row of a new attempt. *)
Definition new_attempt_row (attempt : VoiceAttempt) (subject : VoiceSubject) (consent_verified_at : datetime)
  : result VoiceContactAttemptRecord :=
  consent ← bind_utc consent_verified_at;
  created ← bind_utc (va_created_at attempt);
  mret {|
    vr_id := va_id attempt; vr_merchant_id := va_merchant_id attempt; vr_case_id := va_case_id attempt;
    vr_customer_id := va_customer_id attempt; vr_idempotency_key := va_idempotency_key attempt;
    vr_destination_token := vsu_destination_token subject; vr_provider := va_provider attempt;
    vr_provider_call_id := None; vr_status := va_status attempt; vr_disposition := None;
    vr_transcript := None; vr_detected_intent := None; vr_confidence_basis_points := None;
    vr_duration_seconds := None; vr_provider_payload := JObj []; vr_disclosure_text := AI_DISCLOSURE;
    vr_disclosure_delivered_at := None; vr_consent_verified_at := consent; vr_completed_at := None;
    vr_uncertain_submission := va_uncertain_submission attempt; vr_recording_enabled := false;
    vr_max_duration_seconds := 180; vr_created_at := created |}.

(** src/services/api/app/voice/repository.py:177-186 [SqlVoiceRepository.save_attempt]: the
    assignments to a stored attempt. *)
Definition assign_attempt (attempt : VoiceAttempt) (r : VoiceContactAttemptRecord)
  : result VoiceContactAttemptRecord :=
  delivered ← (match va_disclosure_delivered_at attempt with
               | Some t => Some <$> bind_utc t
               | None => Ok None
               end);
  mret (r <| vr_provider_call_id := va_provider_call_id attempt |>
    <| vr_status := va_status attempt |> <| vr_disposition := va_disposition attempt |>
    <| vr_transcript := va_transcript attempt |> <| vr_detected_intent := va_detected_intent attempt |>
    <| vr_confidence_basis_points := va_confidence_basis_points attempt |>
    <| vr_duration_seconds := va_duration_seconds attempt |>
    <| vr_disclosure_delivered_at := delivered |>
    <| vr_uncertain_submission := va_uncertain_submission attempt |>).

(** What [save_attempt] finds out before it writes: the stored row, or the values of a new one. *)
Inductive save_plan : Type :=
| Insert (row : VoiceContactAttemptRecord)
| Update (old new : VoiceContactAttemptRecord).
Definition plan_row (p : save_plan) : VoiceContactAttemptRecord :=
  match p with Insert row => row | Update _ new => new end.
Definition plan_change (p : save_plan) : voice_tables -> voice_tables :=
  match p with
  | Insert row => fun t => t <| vt_attempts ::= fun l => (l ++ [row])%list |>
  | Update old new => update_attempt old new
  end.

(** The session's object of the row, afterwards. *)
Definition plan_object (p : save_plan) (objects : voice_objects) : voice_objects :=
  match p with
  | Insert row => note_attempt row objects
  | Update old new => objects <| vo_attempts ::= alter (fun _ => new) (vr_id old) |>
  end.

(** src/services/api/app/voice/repository.py:153-186 [SqlVoiceRepository.save_attempt]: up to
    the flush. *)
Definition plan_save (self : nat) (attempt : VoiceAttempt) : coroutine save_plan :=
  record ← sql_get_row self (va_id attempt);
  match record with
  | Some old => new ← pure_ (assign_attempt attempt old); mret (Update old new)
  | None =>
      subject ← sql_load_subject self (va_case_id attempt);
      match subject, (s ← subject; vsu_consent_verified_at s) with
      | Some subject, Some consent =>
          row ← pure_ (new_attempt_row attempt subject consent); mret (Insert row)
      | _, _ => pure_ (Err (ValueError "voice subject and consent are required before reservation"))
      end
  end.

(** src/services/api/app/voice/repository.py:152-188 [SqlVoiceRepository.save_attempt] *)
Definition sql_save_attempt (self : nat) (attempt : VoiceAttempt) : coroutine VoiceAttempt :=
  plan ← plan_save self attempt;
  flushed self (fun _ => [LAttempt (va_id attempt)]) (fun d =>
    Ok (to_attempt (plan_row plan), plan_change plan, plan_object plan (objects_of self d))).

(** src/services/api/app/voice/repository.py:190-206 [SqlVoiceRepository.reserve_attempt]: the
    flush of [save_attempt] and the commit after it are one step. *)
Definition sql_reserve_attempt (self : nat) (attempt : VoiceAttempt) : coroutine VoiceReservationClaim :=
  existing ← sql_get_by_idempotency self (va_idempotency_key attempt);
  match existing with
  | Some existing => mret {| vrc_attempt := existing; vrc_claimed := false |}
  | None =>
      reserved ← proc_try (plan ← plan_save self attempt;
        written self (fun _ => [LAttempt (va_id attempt)]) (fun d =>
          Ok (to_attempt (plan_row plan), Some (plan_change plan),
              plan_object plan (objects_of self d))));
      match reserved with
      | Ok reserved => mret {| vrc_attempt := reserved; vrc_claimed := true |}
      | Err (IntegrityError c) =>
          _ ← rollback_session no_voice_objects self;
          existing ← sql_get_by_idempotency self (va_idempotency_key attempt);
          match existing with
          | None => pure_ (Err (IntegrityError c))
          | Some existing => mret {| vrc_attempt := existing; vrc_claimed := false |}
          end
      | Err e => pure_ (Err e)
      end
  end.

(** src/services/api/app/voice/repository.py:208-210 [SqlVoiceRepository.get_attempt] *)
Definition sql_get_attempt (self : nat) (attempt_id : string) : coroutine (option VoiceAttempt) :=
  record ← sql_get_row self attempt_id; mret (fmap (M := option) to_attempt record).

(** src/services/api/app/voice/repository.py:212-220 [SqlVoiceRepository.list_attempts] *)
Definition sql_list_attempts (self : nat) (case_id : string) : coroutine (list VoiceAttempt) :=
  select_ self (fun t objects =>
    let rows := map (seen objects) (sorted_on vr_created_at (cmp_opp Z.compare)
                  (rows_where (fun r => eqs (vr_case_id r) case_id) (vt_attempts t))) in
    (Ok (map to_attempt rows), foldr note_attempt objects rows)).

(** src/services/api/app/voice/repository.py:222-262 [SqlVoiceRepository.apply_callback]: the
    receipt and the changes of the attempt, flushed.  A receipt is refused when its event is
    recorded and when its attempt does not exist. *)
Definition sql_apply_callback (self : nat) (provider event_id attempt_id : string)
    (changes : list voice_change) : coroutine (option VoiceAttempt * bool) :=
  flushed self (fun _ => [LReceipt provider event_id; LAttempt attempt_id]) (fun d =>
    let t := working self d in
    payload ← changes_json changes;
    let duplicate := bool_decide (receipt_row provider event_id t <> None)
                     || bool_decide (attempt_row attempt_id t = None) in
    let receipt := {| vwr_id := new_id t self; vwr_provider := provider;
                      vwr_provider_event_id := event_id; vwr_attempt_id := Some attempt_id;
                      vwr_payload := payload |} in
    match held_row attempt_id t (objects_of self d) with
    | None => mret ((None, duplicate), if duplicate then id else add_receipt receipt, objects_of self d)
    | Some record =>
        let noted := note_attempt record (objects_of self d) in
        if duplicate then mret ((Some (to_attempt record), true), id, noted)
        else
          new ← row_changes (if status_can_advance (vr_status record) changes then changes
                             else List.filter other_than_status changes) record;
          mret ((Some (to_attempt new), false),
                fun t => update_attempt record new (add_receipt receipt t), note_attempt new noted)
    end).

(** src/services/api/app/voice/repository.py:264-292 [SqlVoiceRepository.suppress] *)
Definition sql_suppress (self : nat) (attempt : VoiceAttempt) (reason_code : string) (utc_now : Z)
  : coroutine bool :=
  let merchant_id := va_merchant_id attempt in let customer_id := va_customer_id attempt in
  written self (fun _ => [LSuppression merchant_id customer_id; LCustomer customer_id]) (fun d =>
    let t := working self d in
    if bool_decide (row_where (fun r => eqs (vsp_merchant_id r) merchant_id
                                        && eqs (vsp_customer_id r) customer_id) (vt_suppressions t) = None)
    then
      let suppression := {| vsp_id := new_id t self; vsp_merchant_id := merchant_id;
                            vsp_customer_id := customer_id; vsp_source_attempt_id := Some (va_id attempt);
                            vsp_reason_code := reason_code |} in
      Ok (true, Some (fun t =>
            update_customer customer_id (fun r => r <| cus_opted_out_at := Some utc_now |>) t
              <| vt_suppressions ::= fun l => (l ++ [suppression])%list |>
              <| vt_db ::= fun d => d <| db_cases ::= update_where (fun c => eqs (rc_id c) (va_case_id attempt))
                   (fun c => c <| rc_contact_disposition := ContactDisposition.OPTED_OUT |>) |> |>),
          objects_of self d <| vo_subjects ::= fmap (fun s : VoiceSubject =>
            if bool_decide (vsu_customer_id s = customer_id)
            then s <| vsu_opted_out_at := Some (utc_datetime utc_now) |> else s) |>)
    else Ok (false, None, objects_of self d)).

(** src/services/api/app/voice/repository.py:31-31 [_PAYMENT_CANCELLATION_RECEIPT_PROVIDER] *)
Definition PAYMENT_CANCELLATION_RECEIPT_PROVIDER : string := "recoveryos-payment".

(** src/services/api/app/voice/repository.py:421-432 [SqlVoiceRepository._payment_cancellation_receipt] *)
Definition payment_cancellation_receipt (cancellation_key : string) : voice_tables -> option VoiceWebhookReceiptRecord :=
  receipt_row PAYMENT_CANCELLATION_RECEIPT_PROVIDER cancellation_key.

(** src/services/api/app/voice/repository.py:307-319 [SqlVoiceRepository.claim_payment_cancellation]:
    the newest active attempt of the case. *)
Definition active_attempt (case_id : string) (t : voice_tables) : option VoiceContactAttemptRecord :=
  first_by (fun r => (vr_created_at r, vr_id r)) newest_first
    (rows_where (fun r => eqs (vr_case_id r) case_id && is_active (vr_status r)) (vt_attempts t)).

(** [dict(payload)] with one entry set. *)
Definition payload_set (key : string) (v : json) (payload : json) : json :=
  match payload with JObj fields => JObj (dict_set key v fields) | _ => JObj [(key, v)] end.
Definition json_fields (v : json) : list (string * json) := match v with JObj fields => fields | _ => [] end.

(** src/services/api/app/voice/repository.py:353-362 [SqlVoiceRepository.claim_payment_cancellation] *)
Definition cancel_pending (cancellation_key : string) (now : datetime) (r : VoiceContactAttemptRecord)
  : VoiceContactAttemptRecord :=
  r <| vr_provider_payload ::= payload_set "payment_cancellation" (JObj [
         ("cancellation_key", JStr cancellation_key); ("reason", JStr "AUTHORITATIVE_PAYMENT_SUCCESS");
         ("state", JStr "PENDING"); ("requested_at", JStr (isoformat now))]) |>
    <| vr_status := "CANCEL_PENDING" |> <| vr_disposition := Some "PAYMENT_RECOVERED" |>.

(** src/services/api/app/voice/repository.py:294-371 [SqlVoiceRepository.claim_payment_cancellation]:
    from the [SELECT ... FOR UPDATE] to the commit no other session can come between. *)
Definition sql_claim_payment_cancellation (self : nat) (case_id cancellation_key : string) (now : datetime)
  : coroutine VoiceCancellationClaim :=
  let claim attempt claimed := {| vcc_attempt := attempt; vcc_claimed := claimed;
                                  vcc_cancellation_key := cancellation_key |} in
  existing ← select_ self (fun t objects => (Ok (payment_cancellation_receipt cancellation_key t), objects));
  match existing with
  | Some existing =>
      attempt ← (if truthy (vwr_attempt_id existing)
                 then sql_get_attempt self (default "" (vwr_attempt_id existing)) else mret None);
      mret (claim attempt false)
  | None =>
      written self
        (fun d => match active_attempt case_id (working self d) with
                  | Some r => [LAttempt (vr_id r)]
                  | None => []
                  end)
        (fun d =>
          let t := working self d in let objects := objects_of self d in
          match active_attempt case_id t with
          | None => Ok (claim None false, None, objects)
          | Some row =>
              let record := seen objects row in
              let noted := note_attempt record objects in
              match payment_cancellation_receipt cancellation_key t with
              | Some existing =>
                  let attempt := if truthy (vwr_attempt_id existing)
                                 then held_row (default "" (vwr_attempt_id existing)) t noted else None in
                  Ok (claim (to_attempt <$> attempt) false, None, noted)
              | None =>
                  let receipt := {| vwr_id := new_id t self;
                                    vwr_provider := PAYMENT_CANCELLATION_RECEIPT_PROVIDER;
                                    vwr_provider_event_id := cancellation_key;
                                    vwr_attempt_id := Some (vr_id record);
                                    vwr_payload := JObj [
                                      ("kind", JStr "AUTHORITATIVE_PAYMENT_CANCELLATION");
                                      ("case_id", JStr case_id); ("requested_at", JStr (isoformat now))] |} in
                  let new := cancel_pending cancellation_key now record in
                  Ok (claim (Some (to_attempt new)) true,
                      Some (fun t => update_attempt record new (add_receipt receipt t)), note_attempt new noted)
              end
          end)
  end.

(** src/services/api/app/voice/repository.py:388-410 [SqlVoiceRepository.finalize_payment_cancellation] *)
Definition cancel_finished (cancellation_key : string) (confirmed : bool) (now : datetime)
    (error_code : option string) (r : VoiceContactAttemptRecord) : result VoiceContactAttemptRecord :=
  at_ ← bind_utc now;
  let cancellation := json_fields (json_get "payment_cancellation" (vr_provider_payload r)) in
  let updated := foldl (fun fields p => dict_set (fst p) (snd p) fields) cancellation [
    ("cancellation_key", JStr cancellation_key); ("reason", JStr "AUTHORITATIVE_PAYMENT_SUCCESS");
    ("state", JStr (if confirmed then "CONFIRMED" else "UNCERTAIN"));
    ("observed_at", JStr (isoformat now))] in
  let noted := if truthy error_code
               then dict_set "error_code" (JStr (str_take 128 (default "" error_code))) updated
               else List.filter (fun p => negb (eqs (fst p) "error_code")) updated in
  mret (r <| vr_provider_payload ::= payload_set "payment_cancellation" (JObj noted) |>
    <| vr_status := if confirmed then "CANCELED" else "CANCEL_UNCERTAIN" |>
    <| vr_disposition := Some "PAYMENT_RECOVERED" |> <| vr_uncertain_submission := negb confirmed |>
    <| vr_completed_at := if confirmed then Some at_ else None |>).

(** src/services/api/app/voice/repository.py:373-413 [SqlVoiceRepository.finalize_payment_cancellation] *)
Definition sql_finalize_payment_cancellation (self : nat) (attempt_id cancellation_key : string)
    (confirmed : bool) (now : datetime) (error_code : option string) : coroutine VoiceAttempt :=
  written self (fun _ => [LAttempt attempt_id]) (fun d =>
    let t := working self d in let objects := objects_of self d in
    match attempt_row attempt_id t, payment_cancellation_receipt cancellation_key t with
    | Some row, Some receipt =>
        if bool_decide (vwr_attempt_id receipt = Some attempt_id) then
          let record := seen objects row in
          new ← cancel_finished cancellation_key confirmed now error_code record;
          mret (to_attempt new, Some (update_attempt record new), note_attempt new objects)
        else Err (ValueError "voice cancellation claim does not match the attempt")
    | _, _ => Err (ValueError "voice cancellation claim does not match the attempt")
    end).

(** src/services/api/app/voice/repository.py:415-419 [SqlVoiceRepository.get_payment_cancellation] *)
Definition sql_get_payment_cancellation (self : nat) (cancellation_key : string)
  : coroutine (option VoiceAttempt) :=
  receipt ← select_ self (fun t objects => (Ok (payment_cancellation_receipt cancellation_key t), objects));
  match (r ← receipt; vwr_attempt_id r) with
  | None => mret None
  | Some attempt_id => sql_get_attempt self attempt_id
  end.

(** src/services/api/app/voice/repository.py:55-59 [SqlVoiceRepository] *)
Definition sql_voice : VoiceRepository voice_db := {|
  begin_request := begin_session no_voice_objects;
  commit_request := commit_session voice_violated no_voice_objects;
  rollback_request := rollback_session no_voice_objects;
  load_subject := sql_load_subject;
  configure_subject := sql_configure_subject;
  get_by_idempotency := sql_get_by_idempotency;
  active_count := sql_active_count;
  calls_today := sql_calls_today;
  save_attempt := sql_save_attempt;
  reserve_attempt := sql_reserve_attempt;
  get_attempt := sql_get_attempt;
  list_attempts := sql_list_attempts;
  apply_callback := sql_apply_callback;
  suppress := sql_suppress;
  claim_payment_cancellation := sql_claim_payment_cancellation;
  finalize_payment_cancellation := sql_finalize_payment_cancellation;
  get_payment_cancellation := sql_get_payment_cancellation;
|}.
End sql.
