(* ===== verification/VoiceService.v ===== *)
(** * The voice service

    [VoiceContactService] of [voice/service.py] over any repository and any provider: calls
    are placed after the safety limits passed and a reservation was stored, callbacks are
    applied once per event, an authoritative payment stops the active call. *)
From S2P Require Import Prelude Procs Domain Json Entities Session CaseRepo QuietHours VoicePorts VoiceSafety VoiceModels VoiceRepository.

(** [type(error).__name__] *)
Definition exn_name (e : exn) : string :=
  match e with
  | ValueError _ => "ValueError" | TypeError _ => "TypeError" | RuntimeError _ => "RuntimeError"
  | KeyError _ => "KeyError" | IndexError => "IndexError" | StopIteration => "StopIteration"
  | OverflowError _ => "OverflowError" | OSError _ => "OSError"
  | FileNotFoundError _ => "FileNotFoundError" | AttributeError _ => "AttributeError"
  | ProviderError _ => "ProviderError" | IntegrityError _ => "IntegrityError"
  | StatementError _ => "StatementError" | HTTPException _ _ => "HTTPException" | RazorpayContractError _ _ => "RazorpayContractError"
  | UnsupportedWebhookEventError _ => "UnsupportedWebhookEventError"
  | DownstreamSignalError => "DownstreamSignalError"
  | RazorpayRequestError _ _ _ => "RazorpayRequestError"
  | RazorpayIntegrationError _ _ => "RazorpayIntegrationError"
  | RazorpayUncertainSubmissionError _ => "RazorpayUncertainSubmissionError"
  | NotImplementedError _ => "NotImplementedError" | AssertionError _ => "AssertionError"
  | ApplicationServiceError _ _ => "ApplicationServiceError"
  | InvalidCursorError _ => "InvalidCursorError"
  | MandateVerificationError _ _ => "MandateVerificationError"
  | ReceiptAuthenticationError _ => "ReceiptAuthenticationError"
  | TaskNotFoundError _ => "TaskNotFoundError" | TaskConflictError _ => "TaskConflictError"
  | TaskAuthorizationError _ => "TaskAuthorizationError"
  | TaskVersionConflictError _ => "TaskVersionConflictError"
  | TaskIdempotencyConflictError _ => "TaskIdempotencyConflictError"
  | OptimisticVersionConflict _ _ => "OptimisticVersionConflict"
  | ActivityFailure _ => "ActivityError" | WorkflowError _ _ => "ApplicationError"
  end.

(** src/services/api/app/voice/service.py:102-124 [DisabledVoiceProvider]: the reason and the
    clock. *)
Record DisabledVoiceProvider : Type := { dv_reason_code : string; dv_clock : datetime }.

(** src/services/api/app/voice/service.py:108-124 [DisabledVoiceProvider.start_contact]
    [DisabledVoiceProvider.cancel_contact] [DisabledVoiceProvider.fetch_contact] *)
Definition disabled_voice_provider : VoiceProvider DisabledVoiceProvider := {|
  is_disabled_provider := true;
  start_contact request := fun p =>
    (Ok {| vcr_provider := "mock"; vcr_contact_attempt_id := vq_idempotency_key request;
           vcr_provider_call_id := None; vcr_status := "REJECTED";
           vcr_reason_code := Some (dv_reason_code p) |}, p);
  cancel_contact _ _ := mret tt;
  fetch_contact contact_attempt_id := fun p =>
    (Ok {| vs_contact_attempt_id := contact_attempt_id; vs_status := "NOT_CONFIGURED";
           vs_disposition := None; vs_transcript := None; vs_detected_intent := None;
           vs_confidence := None; vs_duration_seconds := None; vs_observed_at := dv_clock p |}, p);
|}.

#[export] Existing Instance disabled_voice_provider.

(** ** The world of the service *)

(** A call of the voice provider with its outcome; only the theorems read the log. *)
Inductive voice_call : Type :=
| Started (request : VoiceContactRequest) (outcome : result VoiceContactResult)
| CancelRequested (contact_attempt_id reason : string) (outcome : result unit)
| ContactFetched (contact_attempt_id : string).

Record voice_world (S P : Type) : Type := {
  vw_store : S;
  vw_provider : P;
  vw_calls : list voice_call;
}.
Arguments vw_store {S P} v.
Arguments vw_provider {S P} v.
Arguments vw_calls {S P} v.
#[export] Instance eta_voice_world S P : Eta (voice_world S P) := fun w =>
  {| vw_store := vw_store w; vw_provider := vw_provider w; vw_calls := vw_calls w |}.

(** src/services/api/app/voice/service.py:425-440 [VoiceContactService.__init__] *)
Record voice_settings : Type := {
  vst_real_calls_enabled : bool;
  vst_operator_token : string;
  vst_allowlisted_destinations : list string;
}.

(** src/services/api/app/voice/service.py:66-73 [_SAFETY_OVERRIDE_INTENTS] *)
Definition SAFETY_OVERRIDE_INTENTS : list VoiceIntent :=
  [VoiceIntent.OPT_OUT; VoiceIntent.DISPUTE; VoiceIntent.WRONG_PERSON; VoiceIntent.ALREADY_PAID].

(** src/services/api/app/voice/service.py:442-460 [VoiceContactService._replay_result] *)
Definition replay_result (existing : VoiceAttempt) : VoiceContactResult :=
  let '(status, reason_code) :=
    if eqs (va_status existing) "RESERVED" || va_uncertain_submission existing
    then ("UNCERTAIN", "RESERVATION_RECONCILIATION_REQUIRED")
    else if eqs (va_status existing) "REJECTED" then ("REJECTED", "IDEMPOTENT_REPLAY")
    else ("SUBMITTED", "IDEMPOTENT_REPLAY") in
  {| vcr_provider := va_provider existing; vcr_contact_attempt_id := va_id existing;
     vcr_provider_call_id := va_provider_call_id existing; vcr_status := status;
     vcr_reason_code := Some reason_code |}.

Definition clamp (low high n : Z) : Z := Z.min (Z.max n low) high.

Section service.
Context {S P : Type} {repository : VoiceRepository S} {provider : VoiceProvider P}.
Context (tzdb : string -> option ZoneInfo) (settings : voice_settings).
Abbreviation W := (voice_world S P).
Abbreviation coroutine := (proc W).

Definition in_store {A} (p : proc S A) : coroutine A :=
  zoom vw_store (fun s w => w <| vw_store := s |>) p.

(** A call of the provider, noted. *)
Definition call_provider {A} (call : stx P A) (noted : result A -> voice_call) : coroutine A :=
  step (fun w => let '(r, p) := call (vw_provider w) in
                 (r, w <| vw_provider := p |> <| vw_calls ::= fun l => (l ++ [noted r])%list |>)).

(** [now.astimezone(ZoneInfo(name))] *)
Definition local_time (name : string) (now : datetime) : result datetime :=
  zone ← from_option (KeyError name) (tzdb name);
  mret (mk_datetime (to_wall zone (dt_instant now)) (Some (utcoffset_at zone (dt_instant now)))).

(** src/services/api/app/voice/service.py:532-548 [VoiceContactService.start] *)
Definition safety_context (subject : VoiceSubject) (now_local : datetime) (operator_authorized : bool)
    (active_calls calls_today max_duration_seconds : Z) : VoiceSafetyContext := {|
  vsc_now_local := now_local;
  vsc_quiet_hours_start := vsu_quiet_hours_start subject;
  vsc_quiet_hours_end := vsu_quiet_hours_end subject;
  vsc_real_calls_enabled := vst_real_calls_enabled settings;
  vsc_operator_authorized := operator_authorized;
  vsc_kill_switch := vsu_kill_switch subject;
  vsc_destination_allowlisted :=
    mem (vsu_destination_token subject) (vst_allowlisted_destinations settings);
  vsc_consent_verified_at := vsu_consent_verified_at subject;
  vsc_opted_out_at := vsu_opted_out_at subject;
  vsc_active_calls := active_calls;
  vsc_calls_today := calls_today;
  vsc_max_duration_seconds := max_duration_seconds |}.

(** src/services/api/app/voice/service.py:462-477 [VoiceContactService.configure_subject] *)
Definition service_configure_subject (self : nat) (case_id destination_token preferred_language : string)
    (consent_granted : bool) (now : datetime) : coroutine (option VoiceSubject) :=
  in_store (configure_subject self case_id destination_token preferred_language consent_granted now).

(** src/services/api/app/voice/service.py:479-519 [VoiceContactService.eligibility] *)
Definition eligibility (self : nat) (case_id : string) (now : datetime) : coroutine VoiceEligibility :=
  subject ← in_store (load_subject self case_id);
  match subject with
  | None => mret {| ve_case_id := case_id; ve_customer_id := None; ve_eligible := false;
                    ve_reason_code := "VOICE_SUBJECT_NOT_FOUND"; ve_destination_configured := false;
                    ve_destination_allowlisted := false; ve_consent_verified_at := None;
                    ve_opted_out_at := None; ve_preferred_language := None |}
  | Some subject =>
      now_local ← pure_ (local_time (vsu_timezone subject) now);
      active ← in_store (active_count self);
      today ← in_store (calls_today self now);
      let decision := evaluate_voice_safety (safety_context subject now_local true active today 180) in
      mret {| ve_case_id := case_id; ve_customer_id := Some (vsu_customer_id subject);
              ve_eligible := vsd_allowed decision; ve_reason_code := vsd_reason_code decision;
              ve_destination_configured := negb (eqs (vsu_destination_token subject) "");
              ve_destination_allowlisted :=
                mem (vsu_destination_token subject) (vst_allowlisted_destinations settings);
              ve_consent_verified_at := vsu_consent_verified_at subject;
              ve_opted_out_at := vsu_opted_out_at subject;
              ve_preferred_language := Some (vsu_preferred_language subject) |}
  end.

Definition rejected (idempotency_key reason_code : string) : VoiceContactResult := {|
  vcr_provider := "voice"; vcr_contact_attempt_id := idempotency_key; vcr_provider_call_id := None;
  vcr_status := "REJECTED"; vcr_reason_code := Some reason_code |}.

(** src/services/api/app/voice/service.py:563-572 [VoiceContactService.start] *)
Definition reserved_attempt (subject : VoiceSubject) (idempotency_key : string) (now : datetime)
  : VoiceAttempt := {|
  va_id := idempotency_key; va_merchant_id := vsu_merchant_id subject;
  va_case_id := vsu_case_id subject; va_customer_id := vsu_customer_id subject;
  va_idempotency_key := idempotency_key; va_provider := "twilio"; va_status := "RESERVED";
  va_created_at := now; va_provider_call_id := None; va_disposition := None; va_transcript := None;
  va_detected_intent := None; va_confidence_basis_points := None; va_duration_seconds := None;
  va_disclosure_delivered_at := None; va_uncertain_submission := false |}.

(** src/services/api/app/voice/service.py:578-587 [VoiceContactService.start]: the contract
    refuses a duration outside its bounds and a missing consent. *)
Definition contact_request (subject : VoiceSubject) (case_id idempotency_key : string)
    (max_duration_seconds : Z) : result VoiceContactRequest :=
  consent ← from_option (ValueError "consent_verified_at") (vsu_consent_verified_at subject);
  validate_contact_request {|
    vq_idempotency_key := idempotency_key; vq_case_id := case_id;
    vq_customer_id := vsu_customer_id subject; vq_destination_token := vsu_destination_token subject;
    vq_preferred_language := vsu_preferred_language subject; vq_consent_verified_at := consent;
    vq_max_duration_seconds := max_duration_seconds; vq_disclosure_text := AI_DISCLOSURE |}.

(** src/services/api/app/voice/service.py:576-605 [VoiceContactService.start]: the submission of
    a reserved call. *)
Definition submit_reserved (self : nat) (reserved : VoiceAttempt) (request : result VoiceContactRequest)
  : coroutine VoiceContactResult :=
  outcome ← proc_try (request ← pure_ request; call_provider (start_contact request) (Started request));
  match outcome with
  | Err _ =>
      _ ← in_store (save_attempt self
            (reserved <| va_status := "UNCERTAIN" |> <| va_uncertain_submission := true |>));
      mret {| vcr_provider := va_provider reserved; vcr_contact_attempt_id := va_id reserved;
              vcr_provider_call_id := None; vcr_status := "UNCERTAIN";
              vcr_reason_code := Some "VOICE_SUBMISSION_UNCERTAIN_RECONCILE_REQUIRED" |}
  | Ok result =>
      _ ← in_store (save_attempt self
            (reserved <| va_status := vcr_status result |>
                      <| va_provider_call_id := vcr_provider_call_id result |>
                      <| va_uncertain_submission := eqs (vcr_status result) "UNCERTAIN" |>));
      mret result
  end.

(** src/services/api/app/voice/service.py:521-605 [VoiceContactService.start] *)
Definition start (self : nat) (case_id idempotency_key : string) (supplied_operator_token : option string)
    (operator_session_authorized : bool) (max_duration_seconds : Z) (now : datetime)
  : coroutine VoiceContactResult :=
  existing ← in_store (get_by_idempotency self idempotency_key);
  match existing with
  | Some existing => mret (replay_result existing)
  | None =>
      subject ← in_store (load_subject self case_id);
      match subject with
      | None => mret (rejected idempotency_key "VOICE_SUBJECT_NOT_FOUND")
      | Some subject =>
          now_local ← pure_ (local_time (vsu_timezone subject) now);
          let operator_authorized := negb (eqs (vst_operator_token settings) "")
            && (operator_session_authorized
                || eqs supplied_operator_token (Some (vst_operator_token settings))) in
          active ← in_store (active_count self);
          today ← in_store (calls_today self now);
          let decision := evaluate_voice_safety
            (safety_context subject now_local operator_authorized active today max_duration_seconds) in
          if negb (vsd_allowed decision) then mret (rejected idempotency_key (vsd_reason_code decision))
          else
            reservation ← in_store (reserve_attempt self (reserved_attempt subject idempotency_key now));
            if negb (vrc_claimed reservation) then mret (replay_result (vrc_attempt reservation))
            else submit_reserved self (reserved_attempt subject idempotency_key now)
                   (contact_request subject case_id idempotency_key max_duration_seconds)
      end
  end.

(** ** Cancellation *)

Definition cancellation_result (status cancellation_key : string) (attempt_id : option string)
    (submitted : bool) (reason_code : option string) : VoiceCancellationResult := {|
  vx_status := status; vx_cancellation_key := cancellation_key; vx_attempt_id := attempt_id;
  vx_provider_submission_performed := submitted; vx_reason_code := reason_code |}.

(** src/services/api/app/voice/service.py:607-686 [VoiceContactService.cancel_for_authoritative_payment] *)
Definition cancel_for_authoritative_payment (self : nat) (case_id cancellation_key : string)
    (now : datetime) : coroutine VoiceCancellationResult :=
  let result status attempt_id submitted reason :=
    cancellation_result status cancellation_key attempt_id submitted reason in
  claim ← in_store (claim_payment_cancellation self case_id cancellation_key now);
  match vcc_attempt claim with
  | None => mret (result "NO_ACTIVE_CALL" None false (Some "VOICE_NO_ACTIVE_CALL"))
  | Some attempt =>
      let finalize confirmed error := in_store (finalize_payment_cancellation self (va_id attempt)
                                                  cancellation_key confirmed now error) in
      if negb (vcc_claimed claim) then
        mret (result "ALREADY_REQUESTED" (Some (va_id attempt)) false
                (Some "VOICE_CANCELLATION_ALREADY_REQUESTED"))
      else if is_disabled_provider P && negb (eqs (va_provider attempt) "mock") then
        _ ← finalize false (Some "VOICE_PROVIDER_NOT_CONFIGURED");
        mret (result "UNCERTAIN" (Some (va_id attempt)) false
                (Some "VOICE_CANCELLATION_PROVIDER_NOT_CONFIGURED"))
      else
        outcome ← proc_try (call_provider
          (cancel_contact (va_id attempt) "AUTHORITATIVE_PAYMENT_SUCCESS")
          (CancelRequested (va_id attempt) "AUTHORITATIVE_PAYMENT_SUCCESS"));
        match outcome with
        | Err error =>
            _ ← finalize false (Some (exn_name error));
            mret (result "UNCERTAIN" (Some (va_id attempt)) true
                    (Some "VOICE_CANCELLATION_UNCERTAIN_RECONCILE_REQUIRED"))
        | Ok _ =>
            _ ← finalize true None;
            mret (result "CANCELLED" (Some (va_id attempt)) true None)
        end
  end.

(** src/services/api/app/voice/service.py:688-740 [VoiceContactService.reconcile_payment_cancellation] *)
Definition reconcile_payment_cancellation (self : nat) (cancellation_key : string) (now : datetime)
  : coroutine VoiceCancellationResult :=
  let result status attempt_id reason :=
    cancellation_result status cancellation_key attempt_id false (Some reason) in
  attempt ← in_store (get_payment_cancellation self cancellation_key);
  match attempt with
  | None => mret (result "NO_ACTIVE_CALL" None "VOICE_CANCELLATION_NOT_FOUND")
  | Some attempt =>
      if eqs (va_status attempt) "CANCELED" then
        mret (result "CANCELLED" (Some (va_id attempt)) "VOICE_CANCELLATION_ALREADY_CONFIRMED")
      else
        observed ← proc_try (call_provider (fetch_contact (va_id attempt))
                               (fun _ => ContactFetched (va_id attempt)));
        match observed with
        | Err _ => mret (result "UNCERTAIN" (Some (va_id attempt)) "VOICE_CANCELLATION_RECONCILIATION_FAILED")
        | Ok snapshot =>
            if mem (str_replace_char "-" "_" (str_upper (vs_status snapshot))) VOICE_TERMINAL_STATUSES then
              _ ← in_store (finalize_payment_cancellation self (va_id attempt) cancellation_key true now None);
              mret (result "CANCELLED" (Some (va_id attempt)) "VOICE_CANCELLATION_RECONCILED")
            else mret (result "UNCERTAIN" (Some (va_id attempt)) "VOICE_CANCELLATION_NOT_YET_CONFIRMED")
        end
  end.

(** ** Callbacks *)

(** src/services/api/app/voice/service.py:742-773 [VoiceContactService.apply_transcript] *)
Definition apply_transcript (self : nat) (attempt_id transcript : string) (confidence_basis_points : Z)
    (event_id : string) (utc_now : Z) : coroutine (VoiceIntent * bool * bool) :=
  let intent := detect_voice_intent transcript in
  '(attempt, duplicate) ← in_store (apply_callback self "browser" event_id attempt_id
    [SetTranscript transcript; SetDetectedIntent (VoiceIntent_value intent);
     SetConfidence (Some confidence_basis_points); SetDisposition (VoiceIntent_value intent)]);
  let must_end := mem intent SAFETY_OVERRIDE_INTENTS in
  match attempt with
  | Some attempt =>
      if bool_decide (intent = VoiceIntent.OPT_OUT) && negb duplicate then
        suppressed ← in_store (suppress self attempt "VOICE_OPT_OUT" utc_now);
        _ ← call_provider (cancel_contact (va_id attempt) "VOICE_OPT_OUT")
              (CancelRequested (va_id attempt) "VOICE_OPT_OUT");
        mret (intent, must_end, suppressed)
      else mret (intent, must_end, false)
  | None => mret (intent, must_end, false)
  end.

(** src/services/api/app/voice/service.py:775-799 [VoiceContactService.apply_twilio_status] *)
Definition apply_twilio_status (self : nat) (event_id attempt_id status : string)
    (duration_seconds : option Z) (provider_call_id : option string) : coroutine bool :=
  normalized ← pure_ (normalize_voice_status status);
  let changes := SetStatus normalized
    :: (match duration_seconds with Some n => [SetDuration (clamp 0 180 n)] | None => [] end)
    ++ (if mem normalized VOICE_TERMINAL_STATUSES then [SetDisposition normalized] else [])
    ++ (if truthy provider_call_id then [SetProviderCallId (default "" provider_call_id)] else []) in
  '(_, duplicate) ← in_store (apply_callback self "twilio" event_id attempt_id changes);
  mret duplicate.

(** src/services/api/app/voice/service.py:801-845 [VoiceContactService.apply_live_intent]: the
    intent as the text it arrives as. *)
Definition apply_live_intent (self : nat) (event_id attempt_id intent : string)
    (confidence_basis_points : option Z) (utc_now : Z) : coroutine (VoiceIntent * bool * bool * bool) :=
  normalized ← pure_ (match VoiceIntent_of (str_upper (str_strip intent)) with
                      | Ok i => Ok i
                      | Err _ => Err (ValueError "unsupported live ElevenLabs recovery intent")
                      end);
  let must_end := mem normalized SAFETY_OVERRIDE_INTENTS in
  '(attempt, duplicate) ← in_store (apply_callback self "elevenlabs-tool" event_id attempt_id
    ([SetDetectedIntent (VoiceIntent_value normalized); SetDisposition (VoiceIntent_value normalized)]
     ++ (match confidence_basis_points with
         | Some n => [SetConfidence (Some (clamp 0 10000 n))]
         | None => []
         end)));
  match attempt with
  | Some attempt =>
      if bool_decide (normalized = VoiceIntent.OPT_OUT) && negb duplicate then
        suppressed ← in_store (suppress self attempt "VOICE_OPT_OUT" utc_now);
        _ ← proc_try (call_provider (cancel_contact (va_id attempt) "VOICE_OPT_OUT")
                        (CancelRequested (va_id attempt) "VOICE_OPT_OUT"));
        mret (normalized, must_end, suppressed, duplicate)
      else mret (normalized, must_end, false, duplicate)
  | None => mret (normalized, must_end, false, duplicate)
  end.

(** src/services/api/app/voice/service.py:860-873 [VoiceContactService.apply_elevenlabs_post_call]:
    an intent that is not supplied, or is blank, is unknown; a blank one of spaces is refused. *)
Definition analyzed_intent (provider_intent : option string) : result VoiceIntent :=
  match provider_intent with
  | None => Ok VoiceIntent.UNKNOWN
  | Some text =>
      if eqs (str_strip text) "" then
        if eqs text "" then Ok VoiceIntent.UNKNOWN
        else Err (ValueError "unsupported ElevenLabs structured recovery intent")
      else match VoiceIntent_of (str_upper (str_strip text)) with
           | Ok i => Ok i
           | Err _ => Err (ValueError "unsupported ElevenLabs structured recovery intent")
           end
  end.

(** src/services/api/app/voice/service.py:847-898 [VoiceContactService.apply_elevenlabs_post_call] *)
Definition apply_elevenlabs_post_call (self : nat) (event_id attempt_id transcript intent_transcript : string)
    (provider_intent : option string) (confidence_basis_points : option Z) (duration_seconds : Z)
    (disclosure_delivered : bool) (occurred_at : datetime) (utc_now : Z) : coroutine bool :=
  let provider_intent_supplied :=
    match provider_intent with Some text => negb (eqs (str_strip text) "") | None => false end in
  analyzed ← pure_ (analyzed_intent provider_intent);
  let safety_intent := detect_voice_intent intent_transcript in
  let intent := if mem safety_intent SAFETY_OVERRIDE_INTENTS then safety_intent else analyzed in
  let confidence := if provider_intent_supplied && bool_decide (intent = analyzed)
                    then clamp 0 10000 <$> confidence_basis_points else None in
  '(attempt, duplicate) ← in_store (apply_callback self "elevenlabs" event_id attempt_id
    [SetStatus "COMPLETED"; SetTranscript transcript; SetDetectedIntent (VoiceIntent_value intent);
     SetConfidence confidence; SetDuration (clamp 0 180 duration_seconds);
     SetDisposition (VoiceIntent_value intent);
     SetDisclosureDelivered (if disclosure_delivered then Some occurred_at else None)]);
  match attempt with
  | Some attempt =>
      if bool_decide (intent = VoiceIntent.OPT_OUT) && negb duplicate then
        _ ← in_store (suppress self attempt "VOICE_OPT_OUT" utc_now); mret duplicate
      else mret duplicate
  | None => mret duplicate
  end.

(** ** Requests *)

(** src/services/api/app/voice/router.py:57-70 [get_voice_service] *)
Definition voice_request {A} (self : nat) (operation : coroutine A) : coroutine A :=
  _ ← in_store (begin_request self);
  proc_then operation (fun r =>
    match r with
    | Ok a => proc_then (in_store (commit_request self)) (fun c =>
                match c with
                | Ok _ => Done (Ok a)
                | Err e => proc_then (in_store (rollback_request self)) (fun _ => Done (Err e))
                end)
    | Err e => proc_then (in_store (rollback_request self)) (fun _ => Done (Err e))
    end).
End service.
