(* ===== verification/VoiceLaws.v ===== *)
(** * What the voice service relies on

    The promises of a voice repository to the service as a class of laws, and what the service
    makes of them: with any lawful repository and any provider, however requests interleave,
    no key is called twice and no cancellation is submitted without a stored claim. *)
From S2P Require Import Prelude Procs Domain Json Entities Session CaseRepo QuietHours VoicePorts VoiceSafety VoiceModels VoiceRepository VoiceService.

(** What is counted: the calls of an idempotency key, the cancellations of paid cases, or
    nothing when only the invariant matters. *)
Inductive budget : Type := Calls (key : string) | Cancellations | Nothing.

(** What a reservation and a claim entitle to. *)
Definition reserve_grant (b : budget) (a : VoiceAttempt) (r : result VoiceReservationClaim) : Z :=
  match b, r with
  | Calls key, Ok c => if vrc_claimed c && eqs (va_idempotency_key a) key then 1 else 0
  | _, _ => 0
  end.
Definition claim_grant (b : budget) (r : result VoiceCancellationClaim) : Z :=
  match b, r with
  | Cancellations, Ok c => if vcc_claimed c then 1 else 0
  | _, _ => 0
  end.

(** [stored b s] is how many submissions of [b] the store accounts for: every method keeps
    the invariant and never lowers it, and only a claim raises it for its caller. *)
Class VoiceRepositoryLaws (S : Type) {repository : VoiceRepository S} (inv : S -> Prop)
    (counted : budget -> Prop) (stored : budget -> S -> Z) : Prop := {
  stored_nonneg : forall b s, inv s -> 0 <= stored b s;
  stored_once : forall key s, counted (Calls key) -> inv s -> stored (Calls key) s <= 1;
  law_begin : forall b n self, counted b -> 0 <= n ->
    yields inv (stored b) n (begin_request self) (fun m _ => m = n);
  law_commit : forall b n self, counted b -> 0 <= n ->
    yields inv (stored b) n (commit_request self) (fun m _ => m = n);
  law_rollback : forall b n self, counted b -> 0 <= n ->
    yields inv (stored b) n (rollback_request self) (fun m _ => m = n);
  law_load_subject : forall b n self case_id, counted b -> 0 <= n ->
    yields inv (stored b) n (load_subject self case_id) (fun m _ => m = n);
  law_configure_subject : forall b n self case_id token language granted now, counted b -> 0 <= n ->
    yields inv (stored b) n (configure_subject self case_id token language granted now) (fun m _ => m = n);
  law_get_by_idempotency : forall b n self key, counted b -> 0 <= n ->
    yields inv (stored b) n (get_by_idempotency self key) (fun m _ => m = n);
  law_active_count : forall b n self, counted b -> 0 <= n ->
    yields inv (stored b) n (active_count self) (fun m _ => m = n);
  law_calls_today : forall b n self now, counted b -> 0 <= n ->
    yields inv (stored b) n (calls_today self now) (fun m _ => m = n);
  law_save_attempt : forall b n self a, counted b -> 0 <= n -> va_id a = va_idempotency_key a ->
    yields inv (stored b) n (save_attempt self a) (fun m _ => m = n);
  law_reserve_attempt : forall b n self a, counted b -> 0 <= n -> va_id a = va_idempotency_key a ->
    yields inv (stored b) n (reserve_attempt self a) (fun m r => n + reserve_grant b a r <= m);
  law_get_attempt : forall b n self id, counted b -> 0 <= n ->
    yields inv (stored b) n (get_attempt self id) (fun m _ => m = n);
  law_list_attempts : forall b n self case_id, counted b -> 0 <= n ->
    yields inv (stored b) n (list_attempts self case_id) (fun m _ => m = n);
  law_apply_callback : forall b n self provider event_id id changes, counted b -> 0 <= n ->
    yields inv (stored b) n (apply_callback self provider event_id id changes) (fun m _ => m = n);
  law_suppress : forall b n self a reason utc_now, counted b -> 0 <= n ->
    yields inv (stored b) n (suppress self a reason utc_now) (fun m _ => m = n);
  law_claim : forall b n self case_id key now, counted b -> 0 <= n ->
    yields inv (stored b) n (claim_payment_cancellation self case_id key now)
      (fun m r => n + claim_grant b r <= m);
  law_finalize : forall b n self id key confirmed now error, counted b -> 0 <= n ->
    yields inv (stored b) n (finalize_payment_cancellation self id key confirmed now error) (fun m _ => m = n);
  law_get_payment_cancellation : forall b n self key, counted b -> 0 <= n ->
    yields inv (stored b) n (get_payment_cancellation self key) (fun m _ => m = n);
}.

(** Apply the law of a method that grants nothing. *)
Ltac repository_law :=
  first [apply law_begin | apply law_commit | apply law_rollback | apply law_load_subject
    | apply law_configure_subject | apply law_get_by_idempotency | apply law_active_count
    | apply law_calls_today | apply law_save_attempt | apply law_get_attempt | apply law_list_attempts
    | apply law_apply_callback | apply law_suppress | apply law_finalize
    | apply law_get_payment_cancellation]; solve [assumption | lia | done].

(** ** The log *)

Definition count_calls (p : voice_call -> bool) (calls : list voice_call) : Z :=
  Z.of_nat (List.length (List.filter p calls)).
Definition is_start (key : string) (c : voice_call) : bool :=
  match c with Started r _ => eqs (vq_idempotency_key r) key | _ => false end.
Definition is_payment_cancellation (c : voice_call) : bool :=
  match c with CancelRequested _ reason _ => eqs reason "AUTHORITATIVE_PAYMENT_SUCCESS" | _ => false end.
Definition submissions (b : budget) (calls : list voice_call) : Z :=
  match b with
  | Calls key => count_calls (is_start key) calls
  | Cancellations => count_calls is_payment_cancellation calls
  | Nothing => 0
  end.

(** A call was placed with everything a call needs that does not depend on the hour. *)
Definition well_started (settings : voice_settings) (c : voice_call) : Prop :=
  match c with
  | Started r _ =>
      vst_real_calls_enabled settings = true /\ vst_operator_token settings <> ""
      /\ vq_destination_token r ∈ vst_allowlisted_destinations settings
      /\ 0 < vq_max_duration_seconds r <= 180 /\ vq_disclosure_text r = AI_DISCLOSURE
  | _ => True
  end.

Lemma count_calls_snoc p calls c :
  count_calls p (calls ++ [c]) = count_calls p calls + (if p c then 1 else 0).
Proof.
  unfold count_calls. rewrite List.filter_app, length_app, Nat2Z.inj_add. cbn. by destruct (p c).
Qed.
(** A call is a submission that is counted. *)
Definition submits (b : budget) (c : voice_call) : bool :=
  match b with
  | Calls key => is_start key c
  | Cancellations => is_payment_cancellation c
  | Nothing => false
  end.
Lemma submissions_snoc b calls c :
  submissions b (calls ++ [c]) = submissions b calls + (if submits b c then 1 else 0).
Proof. destruct b; [apply count_calls_snoc..|done]. Qed.

Section service.
Context {S P : Type} {repository : VoiceRepository S} {provider : VoiceProvider P}.
Context (inv : S -> Prop) (counted : budget -> Prop) (stored : budget -> S -> Z)
  `{!VoiceRepositoryLaws S inv counted stored}.
Context (tzdb : string -> option ZoneInfo) (settings : voice_settings).
Abbreviation W := (voice_world S P).
Abbreviation coroutine := (proc W).

Definition service_ok (w : W) : Prop :=
  inv (vw_store w) /\ Forall (well_started settings) (vw_calls w).
(** What the store accounts for and was not submitted yet. *)
Definition unspent (b : budget) (w : W) : Z := stored b (vw_store w) - submissions b (vw_calls w).

Section obeys.
Context (b : budget) (counted_b : counted b).
Abbreviation obeys n p Q := (yields service_ok (unspent b) n p Q).
Abbreviation harmless p := (obeys 0 p (fun _ _ => True)).

Lemma obeys_store {A} n (p : proc S A) Q :
  yields inv (stored b) n p Q -> obeys n (in_store p) Q.
Proof.
  apply yields_zoom; [by intros w [Hi _]|]. intros w s' [_ Hf] Hi. split; [by split|].
  unfold unspent. cbn. lia.
Qed.

(** A call that is no submission costs nothing. *)
Lemma obeys_call {A} n (call : stx P A) noted (cost : Z) : 0 <= n - cost -> 0 <= cost ->
  (forall r, well_started settings (noted r)) ->
  (forall r, (if submits b (noted r) then 1 else 0) <= cost) ->
  obeys n (call_provider (S := S) call noted) (fun m _ => 0 <= m).
Proof.
  intros Hn Hc Hok Hcost. apply yields_step'; [lia|]. intros w r w' [Hi Hf].
  destruct (call (vw_provider w)) as [r0 p]. intros [= <- <-]. split.
  - split; [done|]. cbn. apply Forall_app. split; [done|]. by constructor.
  - exists (n - cost). split; [done|]. split; [done|]. unfold unspent. cbn.
    rewrite submissions_snoc. specialize (Hcost r0). lia.
Qed.

Lemma obeys_bind {A B} n (p : coroutine A) (f : A -> coroutine B) P0 :
  obeys n p P0 -> (forall m a, 0 <= m -> P0 m (Ok a) -> obeys m (f a) (fun _ _ => True)) ->
  obeys n (p ≫= f) (fun _ _ => True).
Proof. intros Hp Hf. by eapply yields_bind. Qed.
Lemma obeys_ret {A} n (r : result A) : 0 <= n -> obeys n (pure_ (W := W) r) (fun m _ => m = n).
Proof. by intros Hn. Qed.
Lemma obeys_done {A} n (r : result A) : 0 <= n -> obeys n (Done (W := W) r) (fun _ _ => True).
Proof. by intros Hn. Qed.
Lemma obeys_fewer {A} n m (p : coroutine A) Q : 0 <= n <= m -> obeys n p Q -> obeys m p (fun _ _ => True).
Proof.
  intros [Hn Hle] Hp. destruct p as [r|B0 act k]; cbn in *; [split; [lia|done]|].
  destruct Hp as [_ Hp]. split; [lia|]. intros w r w' Hi Ha. destruct (Hp w r w' Hi Ha) as (Hi' & n' & Hy & Hd).
  split; [done|]. exists n'. split; [|lia]. eapply yields_weaken; [exact Hy|done].
Qed.
Lemma obeys_try {A} n (p : coroutine A) (Q : Z -> Prop) :
  obeys n p (fun m _ => Q m) -> obeys n (proc_try p) (fun m _ => Q m).
Proof. intros Hp. eapply yields_then; [exact Hp|]. intros m r Hm HQ. by split. Qed.

(** Every method of the repository but the two that grant. *)
Ltac method := eapply obeys_bind; [apply obeys_store; repository_law|];
  cbn beta; let m := fresh "n" in let a := fresh "a" in let h := fresh "Hpos" in intros m a h ->.

Definition start_cost (key : string) : Z :=
  match b with Calls k => if eqs key k then 1 else 0 | _ => 0 end.
Lemma start_cost_bounds key : 0 <= start_cost key <= 1.
Proof. unfold start_cost. repeat case_match; lia. Qed.

Lemma contact_request_ok subject case_id key seconds request decision now_local authorized active today :
  contact_request subject case_id key seconds = Ok request ->
  decision = evaluate_voice_safety
    (safety_context settings subject now_local
       (negb (eqs (vst_operator_token settings) "") && authorized) active today seconds) ->
  vsd_allowed decision = true ->
  vq_idempotency_key request = key /\ (forall r, well_started settings (Started request r)).
Proof.
  intros (consent & Hconsent & Hv)%bind_Ok -> Hallowed.
  unfold validate_contact_request in Hv. destruct ((0 <? _) && _) eqn:Ed; [|done].
  injection Hv as <-. cbn in *. split; [done|]. intros r.
  unfold evaluate_voice_safety in Hallowed. destruct (List.find fst _) as [[? ?]|] eqn:E; [done|].
  rewrite find_none_iff in E. unfold voice_checks in E.
  repeat (apply Forall_cons in E as [? E]). cbn in *. unfold mem in *. bools.
  split; [done|]. split; [done|]. split; [done|]. split; [lia|done].
Qed.

Lemma obeys_submit n self reserved request : start_cost (va_id reserved) <= n ->
  va_id reserved = va_idempotency_key reserved ->
  (forall r, request = Ok r -> vq_idempotency_key r = va_id reserved
     /\ forall outcome, well_started settings (Started r outcome)) ->
  obeys n (submit_reserved self reserved request) (fun _ _ => True).
Proof.
  intros Hn Hid Hreq. pose proof (start_cost_bounds (va_id reserved)) as Hc. unfold submit_reserved.
  eapply obeys_bind.
  - apply (obeys_try n _ (fun m => 0 <= m)). destruct request as [request|e].
    + destruct (Hreq request eq_refl) as [Hkey Hok].
      apply (obeys_call n _ _ (start_cost (va_id reserved))); [lia|lia|exact Hok|].
      intros r. unfold start_cost. destruct b; try done. cbn. rewrite Hkey. by destruct (eqs _ _).
    + split; [lia|]. lia.
  - intros m outcome Hm _. destruct outcome as [result|e]; method; by apply obeys_done.
Qed.

Lemma obeys_start self case_id key token session seconds now :
  harmless (start tzdb settings self case_id key token session seconds now).
Proof.
  unfold start. method. destruct a as [existing|]; [by apply obeys_done|].
  method. destruct a as [subject|]; [|by apply obeys_done].
  eapply obeys_bind; [by apply obeys_ret|]. intros m now_local _ ->.
  method. rename a into active. method. rename a into today.
  destruct (negb (vsd_allowed _)) eqn:Hallowed; [by apply obeys_done|].
  eapply obeys_bind; [apply obeys_store, law_reserve_attempt; done|]. cbn beta.
  intros m reservation Hm Hgrant. destruct (negb (vrc_claimed reservation)) eqn:Hclaimed; [by apply obeys_done|].
  apply obeys_submit; [|done|].
  - unfold reserve_grant in Hgrant. apply negb_false_iff in Hclaimed. unfold start_cost.
    destruct b; try done. rewrite Hclaimed in Hgrant. cbn in *. done.
  - intros r Hr. cbn. eapply contact_request_ok; [exact Hr|reflexivity|]. by apply negb_false_iff.
Qed.

Lemma obeys_finalize n self id key confirmed now error (result : VoiceCancellationResult) : 0 <= n ->
  obeys n (_ ← in_store (finalize_payment_cancellation self id key confirmed now error); mret result)
    (fun _ _ => True).
Proof. intros Hn. method. by apply obeys_done. Qed.

Lemma obeys_cancel self case_id key now :
  harmless (cancel_for_authoritative_payment self case_id key now).
Proof.
  unfold cancel_for_authoritative_payment. cbv zeta.
  eapply obeys_bind; [by apply obeys_store, law_claim|]. cbn beta. intros m claim Hm Hgrant.
  destruct (vcc_attempt claim) as [attempt|]; [|by apply obeys_done].
  destruct (negb (vcc_claimed claim)) eqn:Hclaimed; [by apply obeys_done|].
  case_match; [by apply obeys_finalize|].
  eapply obeys_bind.
  - apply (obeys_try m _ (fun m => 0 <= m)).
    apply (obeys_call m _ _ (match b with Cancellations => 1 | _ => 0 end)); try done.
    + apply negb_false_iff in Hclaimed. destruct b; cbn in Hgrant; try lia. rewrite Hclaimed in Hgrant. lia.
    + by destruct b.
    + by intros r; destruct b.
  - intros m' outcome Hm' _. destruct outcome; by apply obeys_finalize.
Qed.

(** Ending a call for an opt-out costs nothing. *)
Lemma obeys_opt_out_cancel n id : 0 <= n ->
  obeys n (call_provider (S := S) (cancel_contact id "VOICE_OPT_OUT") (CancelRequested id "VOICE_OPT_OUT"))
    (fun m _ => 0 <= m).
Proof. intros Hn. apply (obeys_call n _ _ 0); try done; [lia|]. intros r. by destruct b. Qed.

Lemma obeys_reconcile self key now : harmless (reconcile_payment_cancellation self key now).
Proof.
  unfold reconcile_payment_cancellation. cbv zeta. method.
  destruct a as [attempt|]; [|by apply obeys_done]. case_match; [by apply obeys_done|].
  eapply obeys_bind.
  - apply (obeys_try 0 _ (fun m => 0 <= m)).
    apply (obeys_call 0 _ _ 0); try done. intros r. by destruct b.
  - intros m observed Hm _. destruct observed as [snapshot|]; [|by apply obeys_done].
    case_match; [by apply obeys_finalize|by apply obeys_done].
Qed.

Lemma obeys_transcript self id transcript confidence event_id utc_now :
  harmless (apply_transcript self id transcript confidence event_id utc_now).
Proof.
  unfold apply_transcript. cbv zeta. method. destruct a as [[attempt|] duplicate]; [|by apply obeys_done].
  case_match; [|by apply obeys_done]. method. eapply obeys_bind; [by apply obeys_opt_out_cancel|].
  intros m u Hm _. by apply obeys_done.
Qed.
Lemma obeys_live self event_id id intent confidence utc_now :
  harmless (apply_live_intent self event_id id intent confidence utc_now).
Proof.
  unfold apply_live_intent. eapply obeys_bind; [by apply obeys_ret|]. intros m normalized _ ->.
  cbv zeta. method. destruct a as [[attempt|] duplicate]; [|by apply obeys_done].
  case_match; [|by apply obeys_done]. method.
  eapply obeys_bind; [by apply (obeys_try 0 _ (fun m => 0 <= m)), obeys_opt_out_cancel|].
  intros m u Hm' _. by apply obeys_done.
Qed.
Lemma obeys_status self event_id id status duration call_id :
  harmless (apply_twilio_status self event_id id status duration call_id).
Proof.
  unfold apply_twilio_status. eapply obeys_bind; [by apply obeys_ret|]. intros m normalized _ ->.
  cbv zeta. method. destruct a as [? duplicate]. by apply obeys_done.
Qed.
Lemma obeys_post_call self event_id id transcript intent_transcript intent confidence duration
    delivered occurred utc_now :
  harmless (apply_elevenlabs_post_call self event_id id transcript intent_transcript intent confidence
                duration delivered occurred utc_now).
Proof.
  unfold apply_elevenlabs_post_call. cbv zeta. eapply obeys_bind; [by apply obeys_ret|].
  intros m analyzed _ ->. method. destruct a as [[attempt|] duplicate]; [|by apply obeys_done].
  case_match; [method|]; by apply obeys_done.
Qed.
Lemma obeys_eligibility self case_id now : harmless (eligibility tzdb settings self case_id now).
Proof.
  unfold eligibility. method. destruct a as [subject|]; [|by apply obeys_done].
  eapply obeys_bind; [by apply obeys_ret|]. intros m now_local _ ->. method. method. by apply obeys_done.
Qed.
Lemma obeys_configure self case_id token language granted now :
  harmless (service_configure_subject self case_id token language granted now).
Proof.
  unfold service_configure_subject. eapply yields_weaken; [by apply obeys_store, law_configure_subject|done].
Qed.

(** The operations of the service, their answers dropped. *)
Definition answered {A} (p : coroutine A) : coroutine unit := p ≫= fun _ => mret tt.
Inductive voice_operation (self : nat) : coroutine unit -> Prop :=
| op_start case_id key token session seconds now :
    voice_operation self (answered (start tzdb settings self case_id key token session seconds now))
| op_cancel case_id key now :
    voice_operation self (answered (cancel_for_authoritative_payment self case_id key now))
| op_reconcile key now : voice_operation self (answered (reconcile_payment_cancellation self key now))
| op_transcript id transcript confidence event_id utc_now :
    voice_operation self (answered (apply_transcript self id transcript confidence event_id utc_now))
| op_status event_id id status duration call_id :
    voice_operation self (answered (apply_twilio_status self event_id id status duration call_id))
| op_live event_id id intent confidence utc_now :
    voice_operation self (answered (apply_live_intent self event_id id intent confidence utc_now))
| op_post_call event_id id transcript intent_transcript intent confidence duration delivered occurred utc_now :
    voice_operation self (answered (apply_elevenlabs_post_call self event_id id transcript intent_transcript
      intent confidence duration delivered occurred utc_now))
| op_eligibility case_id now : voice_operation self (answered (eligibility tzdb settings self case_id now))
| op_configure case_id token language granted now :
    voice_operation self (answered (service_configure_subject self case_id token language granted now)).

(** A request: an operation in a unit of work of its session. *)
Definition is_voice_request (p : coroutine unit) : Prop :=
  exists self operation, voice_operation self operation /\ p = voice_request self operation.

Lemma obeys_answered {A} (p : coroutine A) : harmless p -> harmless (answered p).
Proof. intros Hp. eapply obeys_bind; [exact Hp|]. intros m a Hm _. by apply obeys_done. Qed.
Lemma operation_obeys self p : voice_operation self p -> harmless p.
Proof.
  intros []; apply obeys_answered; auto using obeys_start, obeys_cancel, obeys_reconcile, obeys_transcript,
    obeys_status, obeys_live, obeys_post_call, obeys_eligibility, obeys_configure.
Qed.

Lemma obeys_ends {A} n (p : proc S unit) (k : result unit -> coroutine A) : 0 <= n ->
  yields inv (stored b) n p (fun m _ => m = n) -> (forall r, obeys n (k r) (fun _ _ => True)) ->
  obeys n (proc_then (in_store p) k) (fun _ _ => True).
Proof. intros Hn Hp Hk. eapply yields_then; [by apply obeys_store|]. cbn. intros m r _ ->. apply Hk. Qed.
Lemma request_obeys self (p : coroutine unit) : harmless p -> harmless (voice_request self p).
Proof.
  intros Hp. unfold voice_request. method. eapply yields_then; [exact Hp|]. intros m r Hm _.
  destruct r as [u|e]; (eapply obeys_ends; [done|repository_law|]); intros c.
  - destruct c; [by apply obeys_done|]. eapply obeys_ends; [done|repository_law|].
    intros c. by apply obeys_done.
  - by apply obeys_done.
Qed.
Lemma is_request_obeys p : is_voice_request p -> harmless p.
Proof. intros (self & operation & Ho & ->). by eapply request_obeys, operation_obeys. Qed.
End obeys.
End service.
