(* ===== verification/VoiceFacts.v ===== *)
(** * Lawful voice repositories

    The in-memory adapter obeys the laws the service relies on; the SQL adapter obeys them when
    nothing comes between the statements of a reservation. *)
From S2P Require Import Prelude Procs Transactions Domain Json Entities Session CaseRepo VoicePorts VoiceModels VoiceRepository VoiceService VoiceLaws.

(** How often a key occurs. *)
Definition occurrences (key : string) (ids : list string) : Z :=
  Z.of_nat (List.length (List.filter (fun i => eqs i key) ids)).
Lemma occurrences_nonneg key ids : 0 <= occurrences key ids.
Proof. unfold occurrences. lia. Qed.
Lemma occurrences_app key l k : occurrences key (l ++ k) = occurrences key l + occurrences key k.
Proof. unfold occurrences. rewrite List.filter_app, length_app. lia. Qed.
Lemma occurrences_cons key i ids :
  occurrences key (i :: ids) = (if eqs i key then 1 else 0) + occurrences key ids.
Proof. unfold occurrences. cbn. case_bool_decide; cbn [List.length]; lia. Qed.
Lemma occurrences_none key ids : key ∉ ids -> occurrences key ids = 0.
Proof.
  induction ids as [|i ids IH]; [done|]. intros [Hne Hin]%not_elem_of_cons.
  rewrite occurrences_cons, bool_decide_eq_false_2, IH by auto. done.
Qed.
Lemma occurrences_once key ids : NoDup ids -> occurrences key ids <= 1.
Proof.
  induction 1 as [|i ids Hi _ IH]; [done|]. rewrite occurrences_cons.
  case_bool_decide as E; [subst i|lia]. by rewrite occurrences_none.
Qed.

(** ** The in-memory adapter *)

Section in_memory.
Abbreviation R := InMemoryVoiceRepository.
Definition mem_ids (s : R) : list string := map va_id (mv_attempts s).

Definition mem_voice_ok (s : R) : Prop :=
  NoDup (mem_ids s) /\ Forall (fun a => va_id a = va_idempotency_key a) (mv_attempts s).
Definition mem_stored (b : budget) (s : R) : Z :=
  match b with
  | Calls key => occurrences key (mem_ids s)
  | Cancellations => Z.of_nat (size (mv_payment_cancellations s))
  | Nothing => 0
  end.

(** The attempts keep their keys and only grow. *)
Definition mem_grows (s s' : R) : Prop :=
  mem_voice_ok s' /\ forall b, mem_stored b s <= mem_stored b s'.

Lemma put_attempt_ids a l : map va_id (put_attempt a l)
  = if existsb (fun b => eqs (va_id b) (va_id a)) l then map va_id l else (map va_id l ++ [va_id a])%list.
Proof. unfold put_attempt. case_match; [apply store_row_keys|]. by rewrite map_app. Qed.
Lemma existsb_ids id l : existsb (fun b => eqs (va_id b) id) l = true <-> id ∈ map va_id l.
Proof.
  rewrite existsb_exists, list_elem_of_fmap. setoid_rewrite <- list_elem_of_In.
  split; intros (a & Ha); exists a; [destruct Ha as [Ha E]; by bools|destruct Ha as [-> Ha]].
  by rewrite bool_decide_eq_true.
Qed.

Lemma put_attempt_ok a s : va_id a = va_idempotency_key a -> mem_voice_ok s ->
  mem_grows s (s <| mv_attempts ::= put_attempt a |>).
Proof.
  intros Ha [Hnd Hk]. unfold mem_grows, mem_voice_ok, mem_stored, mem_ids. cbn. rewrite put_attempt_ids.
  destruct (existsb _ _) eqn:E.
  - split; [split; [done|]|intros b; destruct b; lia]. unfold put_attempt. rewrite E.
    apply Forall_forall. intros r [->|[Hr _]]%elem_of_store_row; [done|]. by eapply Forall_forall in Hk.
  - split; [split|].
    + apply NoDup_app. split; [done|]. split; [|apply NoDup_singleton].
      intros i Hi ->%list_elem_of_singleton. by apply existsb_ids in Hi; rewrite Hi in E.
    + unfold put_attempt. rewrite E. apply Forall_app. auto.
    + intros b; destruct b as [key| |]; try lia. rewrite occurrences_app. pose proof (occurrences_nonneg key [va_id a]). lia.
Qed.

Lemma mem_grows_refl s : mem_voice_ok s -> mem_grows s s.
Proof. by split. Qed.
Lemma attempt_changes_ids changes a a' : attempt_changes changes a = Ok a' ->
  va_id a' = va_id a /\ va_idempotency_key a' = va_idempotency_key a.
Proof.
  revert a. induction changes as [|c changes IH]; intros a; cbn; [by intros [= ->]|].
  intros (a1 & H1 & H2)%bind_Ok. apply IH in H2 as [-> ->].
  destruct c; cbn in H1; try discriminate H1; by injection H1 as <-.
Qed.
Lemma mem_stored_attempts_ok s a b : mem_voice_ok s -> b ∈ mv_attempts s -> va_id a = va_id b ->
  va_idempotency_key a = va_idempotency_key b -> mem_grows s (s <| mv_attempts ::= put_attempt a |>).
Proof.
  intros Hs Hb Hi Hk. apply put_attempt_ok; [|done]. destruct Hs as [_ Hall].
  rewrite Hi, Hk. by eapply Forall_forall in Hall.
Qed.
Lemma mem_find_elem id s a : mem_find id s = Some a -> a ∈ mv_attempts s.
Proof. by intros [? _]%row_where_Some. Qed.
Lemma mem_same_attempts s s' : mem_voice_ok s -> mv_attempts s' = mv_attempts s ->
  (size (mv_payment_cancellations s) <= size (mv_payment_cancellations s'))%nat -> mem_grows s s'.
Proof.
  unfold mem_grows, mem_voice_ok, mem_stored, mem_ids. intros Hs -> Hsize. split; [done|].
  intros []; lia.
Qed.
Lemma mem_grows_more s s1 s' : mem_grows s s1 -> mv_attempts s' = mv_attempts s1 ->
  (size (mv_payment_cancellations s1) <= size (mv_payment_cancellations s'))%nat -> mem_grows s s'.
Proof.
  intros [Hok Hle] Ha Hsize. destruct (mem_same_attempts s1 s' Hok Ha Hsize) as [Hok' Hle'].
  split; [done|]. intros b. specialize (Hle b). specialize (Hle' b). lia.
Qed.

Definition growing {A} (m : stx R A) : Prop :=
  forall s r s', mem_voice_ok s -> m s = (r, s') -> mem_grows s s'.
Lemma yields_growing {A} (m : stx R A) b n : growing m -> 0 <= n ->
  yields mem_voice_ok (mem_stored b) n (step m) (fun k _ => k = n).
Proof.
  intros Hm Hn. apply yields_step'; [done|]. intros s r s' Hs E. destruct (Hm s r s' Hs E) as [Hs' Hle].
  split; [done|]. exists n. split; [done|]. split; [done|]. specialize (Hle b). lia.
Qed.

Lemma growing_configure case_id token language granted now :
  growing (mem_configure_subject case_id token language granted now).
Proof.
  intros s r s' Hs. unfold mem_configure_subject. case_match; intros [= _ <-]; by apply mem_same_attempts.
Qed.
Lemma growing_save a : va_id a = va_idempotency_key a -> growing (mem_save_attempt a).
Proof. intros Ha s r s' Hs [= _ <-]. by apply put_attempt_ok. Qed.
Lemma growing_callback provider event_id id changes : growing (mem_apply_callback provider event_id id changes).
Proof.
  intros s r s' Hs. unfold mem_apply_callback. case_bool_decide; [intros [= _ <-]; by apply mem_grows_refl|].
  cbv zeta. set (s1 := s <| mv_receipts ::= union {[(provider, event_id)]} |>).
  assert (mem_grows s s1) as [Hs1 H1] by by apply mem_same_attempts.
  destruct (mem_find id s1) as [current|] eqn:Ec; [|by intros [= _ <-]].
  destruct (attempt_changes _ current) as [updated|e] eqn:Eu; intros [= _ <-]; [|done].
  apply attempt_changes_ids in Eu as [Hi Hk]. apply mem_find_elem in Ec.
  destruct (mem_stored_attempts_ok s1 updated current Hs1 Ec Hi Hk) as [Hok Hle]. split; [done|].
  intros b. specialize (H1 b). specialize (Hle b). lia.
Qed.
Lemma growing_suppress a utc_now : growing (mem_suppress a utc_now).
Proof. intros s r s' Hs [= _ <-]. by apply mem_same_attempts. Qed.
Lemma growing_finalize id key confirmed : growing (mem_finalize_payment_cancellation id key confirmed).
Proof.
  intros s r s' Hs. unfold mem_finalize_payment_cancellation.
  case_match; [intros [= _ <-]; by apply mem_grows_refl|].
  destruct (mem_find id s) as [a|] eqn:Ea; intros [= _ <-]; [|by apply mem_grows_refl].
  apply mem_find_elem in Ea. by eapply mem_stored_attempts_ok.
Qed.

Lemma yields_mem_claim b n case_id key : 0 <= n ->
  yields mem_voice_ok (mem_stored b) n (step (mem_claim_payment_cancellation case_id key))
    (fun m r => n + claim_grant b r <= m).
Proof.
  intros Hn. apply yields_step'; [done|]. intros s r s' Hs. unfold mem_claim_payment_cancellation.
  assert (claim_grant b (Ok {| vcc_attempt := None; vcc_claimed := false; vcc_cancellation_key := key |}) = 0)
    as Hzero by by destruct b.
  assert (forall s0 claim, s0 = s -> vcc_claimed claim = false -> Ok claim = r -> mem_voice_ok s0 /\ exists n', 0 <= n' /\
    n + claim_grant b r <= n' /\ n' - n <= mem_stored b s0 - mem_stored b s) as Hsame.
  { intros s0 claim -> Hc <-. split; [done|]. exists n. split; [done|]. unfold claim_grant. rewrite Hc.
    destruct b; split; lia. }
  destruct (mv_payment_cancellations s !! key) as [claimed|] eqn:Ec; [intros [= Hr <-]; by refine (Hsame s _ eq_refl _ Hr)|].
  destruct (row_where _ _) as [a|] eqn:Ea; [|intros [= Hr <-]; by refine (Hsame s _ eq_refl _ Hr)].
  apply row_where_Some in Ea as [Ha _]. unfold latest_first in Ha. rewrite sorted_on_perm in Ha.
  cbv zeta. set (pending := a <| va_status := _ |> <| va_disposition := _ |>). intros [= <- <-].
  pose proof (mem_stored_attempts_ok s pending a Hs Ha eq_refl eq_refl) as Hgrows.
  set (s1 := s <| mv_attempts ::= put_attempt pending |>) in *.
  set (s2 := s1 <| mv_payment_cancellations ::= <[key := va_id a]> |>).
  assert (size (mv_payment_cancellations s2) = (size (mv_payment_cancellations s) + 1)%nat) as Hsize.
  { cbn. rewrite map_size_insert_None by done. lia. }
  destruct (mem_grows_more s s1 s2 Hgrows eq_refl) as [Hok' Hle']; [rewrite Hsize; cbn; lia|].
  split; [done|]. destruct b as [k| |].
  - exists n. specialize (Hle' (Calls k)). cbn [claim_grant]. split; [done|]. split; lia.
  - exists (n + 1). cbn [claim_grant vcc_claimed mem_stored]. rewrite Hsize.
    split; [lia|]. split; lia.
  - exists n. cbn [claim_grant mem_stored]. split; [done|]. split; lia.
Qed.

Lemma yields_mem_reserve b n a : 0 <= n -> va_id a = va_idempotency_key a ->
  yields mem_voice_ok (mem_stored b) n (step (mem_reserve_attempt a))
    (fun m r => n + reserve_grant b a r <= m).
Proof.
  intros Hn Ha. apply yields_step'; [done|]. intros s r s' Hs. unfold mem_reserve_attempt.
  stx_unfold. unfold mem_get_by_idempotency.
  destruct (row_where _ _) as [existing|] eqn:Ee.
  - intros [= <- <-]. split; [done|]. exists n. split; [done|]. unfold reserve_grant. destruct b; cbn; split; lia.
  - intros [= <- <-]. destruct (put_attempt_ok a s Ha Hs) as [Hok Hle]. split; [done|].
    assert (va_id a ∉ mem_ids s) as Hnew.
    { intros (x & Hx & Hin)%list_elem_of_fmap. pose proof (row_where_None _ _ _ Ee Hin) as Hne. cbn in Hne.
      apply bool_decide_eq_false in Hne. destruct Hs as [_ Hall]. rewrite Forall_forall in Hall.
      apply Hall in Hin. congruence. }
    destruct b as [key| |].
    + exists (n + (if eqs (va_idempotency_key a) key then 1 else 0)). cbn. unfold mem_ids.
      cbn. rewrite put_attempt_ids. destruct (existsb _ _) eqn:Ex; [by apply existsb_ids in Ex|].
      rewrite occurrences_app, (occurrences_cons key (va_id a) []), <- Ha. unfold occurrences at 2.
      split; [case_match; lia|]. split; [lia|]. unfold mem_ids. cbn. lia.
    + exists n. specialize (Hle Cancellations). cbn in *. split; [done|]. split; lia.
    + exists n. split; [done|]. cbn. split; lia.
Qed.

#[export] Instance in_memory_laws : VoiceRepositoryLaws InMemoryVoiceRepository mem_voice_ok (fun _ => True) mem_stored.
Proof.
  constructor; intros; cbn [begin_request commit_request rollback_request load_subject configure_subject
    get_by_idempotency active_count calls_today save_attempt reserve_attempt get_attempt list_attempts
    apply_callback suppress claim_payment_cancellation finalize_payment_cancellation
    get_payment_cancellation in_memory_voice];
    try solve [done | apply yields_growing; [|done]; auto using growing_configure, growing_save,
      growing_callback, growing_suppress, growing_finalize
      | apply yields_growing; [|done]; intros ? ? ? ? [= _ <-]; by apply mem_grows_refl].
  - destruct b; cbn; [apply occurrences_nonneg|lia..].
  - cbn. by apply occurrences_once, H0.
  - by apply yields_mem_reserve.
  - by apply yields_mem_claim.
Qed.
End in_memory.

(** ** The SQL adapter *)

Definition attempt_keys (t : voice_tables) : list (string * string) :=
  map (fun r => (vr_id r, vr_idempotency_key r)) (vt_attempts t).
Definition receipt_providers (t : voice_tables) : list string := map vwr_provider (vt_receipts t).
Definition key_is_id (k : string * string) : Prop := k.1 = k.2.

Definition sql_stored (b : budget) (t : voice_tables) : Z :=
  match b with
  | Calls key => occurrences key (map snd (attempt_keys t))
  | Cancellations => occurrences PAYMENT_CANCELLATION_RECEIPT_PROVIDER (receipt_providers t)
  | Nothing => 0
  end.

(** What a session may make of the tables: attempts and receipts are added, never removed, and
    the actions of the cases are left alone. *)
Definition voice_le (t t' : voice_tables) : Prop :=
  exists ks rs, attempt_keys t' ≡ₚ attempt_keys t ++ ks /\ Forall key_is_id ks
    /\ receipt_providers t' ≡ₚ receipt_providers t ++ rs
    /\ db_actions (vt_db t') = db_actions (vt_db t).
Definition voice_lawful (f : voice_tables -> voice_tables) : Prop :=
  exists ks rs, Forall key_is_id ks /\ forall t, attempt_keys (f t) = attempt_keys t ++ ks
    /\ receipt_providers (f t) = receipt_providers t ++ rs
    /\ db_actions (vt_db (f t)) = db_actions (vt_db t).
(** The attempts a session holds are stored. *)
Definition voice_objects_ok (t : voice_tables) (o : voice_objects) : Prop :=
  forall id r, vo_attempts o !! id = Some r -> vr_id r = id /\ id ∈ map fst (attempt_keys t).

#[export] Instance voice_le_preorder : PreOrder voice_le.
Proof.
  split.
  - intros t. exists [], []. rewrite !app_nil_r. split; [done|]. split; [by constructor|]. by split.
  - intros t1 t2 t3 (ks & rs & Hk & Hf & Hr & Ha) (ks' & rs' & Hk' & Hf' & Hr' & Ha').
    exists (ks ++ ks')%list, (rs ++ rs')%list. rewrite Hk', Hk, Hr', Hr, !(assoc_L (++)), Ha', Ha.
    split; [done|]. split; [by apply Forall_app|]. by split.
Qed.

Lemma voice_lawful_le f t : voice_lawful f -> voice_le t (f t).
Proof. intros (ks & rs & Hf & H). exists ks, rs. destruct (H t) as (-> & -> & ->). done. Qed.
Lemma voice_lawful_mono f t t' : voice_lawful f -> voice_le t t' -> voice_le (f t) (f t').
Proof.
  intros (ks & rs & _ & H) (ks' & rs' & Hk & Hf & Hr & Ha).
  destruct (H t) as (E1 & E2 & E3), (H t') as (F1 & F2 & F3). exists ks', rs'.
  rewrite F1, F2, F3, E1, E2, E3, Hk, Hr, <- !(assoc_L (++)), (Permutation_app_comm ks'),
    (Permutation_app_comm rs'). done.
Qed.
Lemma voice_objects_le t t' o : voice_le t t' -> voice_objects_ok t o -> voice_objects_ok t' o.
Proof.
  intros (ks & rs & Hk & _) Ho id r Hr. destruct (Ho id r Hr) as [Hi Hin]. split; [done|].
  rewrite Hk, map_app, elem_of_app. by left.
Qed.

Lemma lawful_both f g : voice_lawful f -> voice_lawful g -> voice_lawful (fun t => g (f t)).
Proof.
  intros (ks & rs & Hf & H) (ks' & rs' & Hf' & H'). exists (ks ++ ks')%list, (rs ++ rs')%list.
  split; [by apply Forall_app|]. intros t. destruct (H t) as (E1 & E2 & E3), (H' (f t)) as (F1 & F2 & F3).
  cbv beta. by rewrite F1, F2, F3, E1, E2, E3, !(assoc_L (++)).
Qed.

Lemma voice_laws_of ok : (forall t t', ok t -> voice_le t t' -> voice_violated t' = None -> ok t') ->
  TransactionLaws voice_violated no_voice_objects ok voice_le voice_lawful voice_objects_ok.
Proof.
  intros Hok. constructor; try done.
  - apply voice_le_preorder.
  - exists [], []. split; [constructor|]. intros t. by rewrite !app_nil_r.
  - apply lawful_both.
  - apply voice_lawful_le.
  - apply voice_lawful_mono.
  - apply voice_objects_le.
Qed.

Lemma occurrences_perm key l k : l ≡ₚ k -> occurrences key l = occurrences key k.
Proof. induction 1; rewrite ?occurrences_cons; lia. Qed.
Lemma sql_stored_le b t t' : voice_le t t' -> sql_stored b t <= sql_stored b t'.
Proof.
  intros (ks & rs & Hk & _ & Hr & _). destruct b; cbn; [| |done].
  - rewrite (occurrences_perm _ _ _ (Permutation_map snd Hk)), map_app, occurrences_app.
    pose proof (occurrences_nonneg key (map snd ks)). lia.
  - rewrite (occurrences_perm _ _ _ Hr), occurrences_app.
    pose proof (occurrences_nonneg PAYMENT_CANCELLATION_RECEIPT_PROVIDER rs). lia.
Qed.

(** *** The changes of the methods are lawful *)

Lemma lawful_same f : (forall t, attempt_keys (f t) = attempt_keys t) ->
  (forall t, receipt_providers (f t) = receipt_providers t) ->
  (forall t, db_actions (vt_db (f t)) = db_actions (vt_db t)) -> voice_lawful f.
Proof. intros H1 H2 H3. exists [], []. split; [constructor|]. intros t. by rewrite H1, H2, H3, !app_nil_r. Qed.
Lemma lawful_update old new : voice_lawful (update_attempt old new).
Proof.
  apply lawful_same; try done. intros t. unfold attempt_keys, update_attempt, update_where. cbn.
  rewrite map_map. apply map_ext. intros r. by case_bool_decide.
Qed.
Lemma lawful_receipt receipt : voice_lawful (add_receipt receipt).
Proof.
  exists [], [vwr_provider receipt]. split; [constructor|]. intros t. unfold receipt_providers. cbn.
  by rewrite map_app, app_nil_r.
Qed.
Lemma lawful_plan plan : (forall row, plan = Insert row -> vr_id row = vr_idempotency_key row) ->
  voice_lawful (plan_change plan).
Proof.
  destruct plan as [row|old new]; intros Hrow; [|apply lawful_update].
  exists [(vr_id row, vr_idempotency_key row)], []. split.
  - constructor; [by apply Hrow|constructor].
  - intros t. unfold attempt_keys, receipt_providers. cbn. by rewrite map_app, app_nil_r.
Qed.

(** *** What a session holds *)

Lemma attempt_id_in r t : r ∈ vt_attempts t -> vr_id r ∈ map fst (attempt_keys t).
Proof.
  intros Hr. unfold attempt_keys. rewrite map_map. apply list_elem_of_fmap. by exists r.
Qed.
Lemma objects_note t o r : voice_objects_ok t o -> vr_id r ∈ map fst (attempt_keys t) ->
  voice_objects_ok t (note_attempt r o).
Proof.
  intros Ho Hr id r' Hr'. cbn in Hr'. apply lookup_insert_Some in Hr' as [[<- <-]|[_ Hr']]; [by split|by apply Ho].
Qed.
Lemma seen_id t o r : voice_objects_ok t o -> vr_id (seen o r) = vr_id r.
Proof. intros Ho. unfold seen. destruct (vo_attempts o !! vr_id r) as [r'|] eqn:E; [|done]. by destruct (Ho _ _ E). Qed.
Lemma objects_seen t o r : voice_objects_ok t o -> r ∈ vt_attempts t ->
  voice_objects_ok t (note_attempt (seen o r) o).
Proof. intros Ho Hr. apply objects_note; [done|]. rewrite (seen_id t) by done. by apply attempt_id_in. Qed.
Lemma held_row_id t o id r : voice_objects_ok t o -> held_row id t o = Some r ->
  vr_id r = id /\ id ∈ map fst (attempt_keys t).
Proof.
  intros Ho. unfold held_row. destruct (vo_attempts o !! id) as [r'|] eqn:E.
  - intros [= <-]. by apply Ho.
  - intros [Hr Hi]%row_where_Some. apply bool_decide_eq_true in Hi. rewrite <- Hi. split; [done|].
    by apply attempt_id_in.
Qed.
Lemma objects_subjects t o f : voice_objects_ok t o -> voice_objects_ok t (o <| vo_subjects ::= f |>).
Proof. done. Qed.
Lemma objects_changed f t o : voice_lawful f -> voice_objects_ok t o -> voice_objects_ok (f t) o.
Proof. intros Hf. by apply voice_objects_le, voice_lawful_le. Qed.
Lemma row_changes_id changes r r' : row_changes changes r = Ok r' -> vr_id r' = vr_id r.
Proof.
  revert r. induction changes as [|c changes IH]; intros r; cbn; [by intros [= ->]|].
  intros (r1 & H1 & ->%IH)%bind_Ok.
  destruct c as [| | | | | | |[t|]|]; cbn in H1; try discriminate H1; try by injection H1 as <-.
  apply bind_Ok in H1 as (at_ & _ & H1). by injection H1 as <-.
Qed.

(** *** The methods *)

Section sql_methods.
Context (isoformat : datetime -> string) (new_id : voice_tables -> nat -> string).
Context (ok : voice_tables -> Prop).
Hypothesis ok_grows : forall t t', ok t -> voice_le t t' -> voice_violated t' = None -> ok t'.
#[local] Instance sql_transactions :
  TransactionLaws voice_violated no_voice_objects ok voice_le voice_lawful voice_objects_ok := voice_laws_of ok ok_grows.

Definition sql_ok : voice_db -> Prop := db_keeps no_voice_objects ok voice_lawful voice_objects_ok.
Definition sql_held (b : budget) (d : voice_db) : Z := sql_stored b (tb_tables d).
Abbreviation plain b n p := (yields sql_ok (sql_held b) n p (fun m _ => m = n)).
Abbreviation working self d := (working no_voice_objects self d).
Abbreviation objects_of self d := (tx_objects (txn_of no_voice_objects self d)).

Lemma sql_objects self d : sql_ok d -> voice_objects_ok (working self d) (objects_of self d).
Proof. intros [_ Hd]. apply Hd. Qed.

Lemma plain_begin b n self : 0 <= n -> plain b n (begin_session no_voice_objects self).
Proof. apply (yields_begin voice_violated no_voice_objects ok voice_le voice_lawful voice_objects_ok). Qed.
Lemma plain_commit b n self : 0 <= n -> plain b n (commit_session voice_violated no_voice_objects self).
Proof. apply (yields_commit voice_violated no_voice_objects ok voice_le voice_lawful voice_objects_ok), sql_stored_le. Qed.
Lemma plain_rollback b n self : 0 <= n -> plain b n (rollback_session no_voice_objects self).
Proof. apply (yields_rollback voice_violated no_voice_objects ok voice_le voice_lawful voice_objects_ok). Qed.
Lemma plain_select {A} b n self (f : voice_tables -> voice_objects -> result A * voice_objects) : 0 <= n ->
  (forall t o, voice_objects_ok t o -> voice_objects_ok t (snd (f t o))) ->
  plain b n (select_ no_voice_objects self f).
Proof. apply (yields_select voice_violated no_voice_objects ok voice_le voice_lawful voice_objects_ok). Qed.
Lemma plain_flushed {A} b n self locks (statement : voice_db -> result (A * (voice_tables -> voice_tables) * voice_objects)) :
  0 <= n ->
  (forall d a f o, sql_ok d -> statement d = Ok (a, f, o) -> voice_lawful f /\ voice_objects_ok (f (working self d)) o) ->
  plain b n (flushed voice_violated no_voice_objects self locks statement).
Proof. apply (yields_flushed voice_violated no_voice_objects ok voice_le voice_lawful voice_objects_ok). Qed.
Lemma plain_written {A} b n self locks
    (statement : voice_db -> result (A * option (voice_tables -> voice_tables) * voice_objects)) : 0 <= n ->
  (forall d a o, sql_ok d -> statement d = Ok (a, None, o) -> voice_objects_ok (working self d) o) ->
  (forall d a f o, sql_ok d -> statement d = Ok (a, Some f, o) ->
     voice_lawful f /\ voice_objects_ok (f (working self d)) o) ->
  plain b n (written voice_violated no_voice_objects self locks statement).
Proof.
  intros Hn Hnone Hsome. eapply yields_weaken.
  - apply (yields_written voice_violated no_voice_objects ok voice_le voice_lawful voice_objects_ok
      (sql_stored b) (sql_stored_le b) n self locks statement (fun _ => 0)); try done.
    + intros d a o Hd E. split; [done|]. by eapply Hnone.
    + intros d a f o Hd E. destruct (Hsome _ _ _ _ Hd E) as [Hl Ho]. split; [done|]. split; [done|].
      intros t. rewrite Z.add_0_r. by apply sql_stored_le, voice_lawful_le.
  - intros m r _ ->. cbv beta. lia.
Qed.
Lemma plain_bind {A B} b n (p : proc voice_db A) (f : A -> proc voice_db B) :
  plain b n p -> (forall a, 0 <= n -> plain b n (f a)) -> plain b n (p ≫= f).
Proof. intros Hp Hf. eapply yields_bind; [exact Hp|..]; cbv beta; [intros m a Hm ->; by apply Hf|done]. Qed.
Lemma plain_ret {A} b n (r : result A) : 0 <= n -> plain b n (Done r).
Proof. done. Qed.

Lemma plain_select_attempt b n self find : 0 <= n -> (forall t r, find t = Some r -> r ∈ vt_attempts t) ->
  plain b n (select_attempt self find).
Proof.
  intros Hn Hfind. apply plain_select; [done|]. intros t o Ho. cbv beta.
  destruct (find t) as [r|] eqn:E; [|done]. apply objects_seen; auto.
Qed.
Lemma plain_load_subject b n self case_id : 0 <= n -> plain b n (sql_load_subject self case_id).
Proof. intros Hn. apply plain_select; [done|]. intros t o Ho. cbv beta. by repeat case_match. Qed.
Lemma plain_get_by_idempotency b n self key : 0 <= n -> plain b n (sql_get_by_idempotency self key).
Proof.
  intros Hn. apply plain_bind; [|done]. apply plain_select_attempt; [done|].
  by intros t r [? _]%row_where_Some.
Qed.
Lemma plain_get_row b n self id : 0 <= n -> plain b n (sql_get_row self id).
Proof.
  intros Hn. apply plain_select; [done|]. intros t o Ho. cbv beta.
  destruct (held_row id t o) as [r|] eqn:E; [|done]. destruct (held_row_id t o id r Ho E) as [<- Hin].
  by apply objects_note.
Qed.
Lemma plain_get_attempt b n self id : 0 <= n -> plain b n (sql_get_attempt self id).
Proof. intros Hn. apply plain_bind; [by apply plain_get_row|done]. Qed.
Lemma plain_list_attempts b n self case_id : 0 <= n -> plain b n (sql_list_attempts self case_id).
Proof.
  intros Hn. apply plain_select; [done|]. intros t o Ho. cbv beta zeta. cbn [snd].
  set (rows := sorted_on _ _ _). assert (forall r, r ∈ rows -> r ∈ vt_attempts t) as Hrows.
  { intros r Hr. unfold rows in Hr. rewrite sorted_on_perm in Hr. by apply elem_of_rows_where in Hr as [? _]. }
  clearbody rows. induction rows as [|r rows IH]; [done|]. cbn [map foldr]. apply objects_note.
  - apply IH. intros r' Hr'. apply Hrows. by right.
  - rewrite (seen_id t) by done. apply attempt_id_in, Hrows. by left.
Qed.
Lemma plain_configure b n self case_id token language granted now : 0 <= n ->
  plain b n (sql_configure_subject self case_id token language granted now).
Proof.
  intros Hn. apply plain_bind; [|by intros []; [intros; apply plain_load_subject|]].
  apply plain_flushed; [done|]. intros d a f o Hd. pose proof (sql_objects self d Hd) as Ho.
  destruct (customer_of_case _ _) as [customer|]; [|by intros [= _ <- <-]; split; [by apply lawful_same|]].
  intros (consent & _ & [= _ <- <-])%bind_Ok.
  assert (voice_lawful (update_customer (cus_id customer) (fun r : Customer => r <| cus_phone_token := Some token |>
    <| cus_preferred_language := language |> <| cus_voice_consent_at := consent |>))) as Hl by by apply lawful_same.
  split; [done|]. by apply objects_subjects, objects_changed.
Qed.

(** A plan for an attempt: its row has the attempt's identifier, and a new one its key. *)
Definition plan_for (a : VoiceAttempt) (plan : save_plan) : Prop :=
  match plan with
  | Insert row => vr_id row = va_id a /\ vr_idempotency_key row = va_idempotency_key a
  | Update old new => vr_id old = va_id a /\ vr_id new = va_id a
  end.
Lemma new_attempt_row_keys a subject consent row : new_attempt_row a subject consent = Ok row ->
  vr_id row = va_id a /\ vr_idempotency_key row = va_idempotency_key a.
Proof. by intros (c & _ & (created & _ & [= <-])%bind_Ok)%bind_Ok. Qed.
Lemma assign_attempt_id a r r' : assign_attempt a r = Ok r' -> vr_id r' = vr_id r.
Proof. by intros (delivered & _ & [= <-])%bind_Ok. Qed.
Lemma select_fact {A} b n self (f : voice_tables -> voice_objects -> result A * voice_objects) (Q : result A -> Prop) :
  0 <= n -> (forall t o, voice_objects_ok t o -> voice_objects_ok t (snd (f t o)) /\ Q (fst (f t o))) ->
  yields sql_ok (sql_held b) n (select_ no_voice_objects self f) (fun m r => m = n /\ Q r).
Proof.
  intros Hn Hf. apply yields_step'; [done|]. intros d r d' Hd. pose proof (sql_objects self d Hd) as Ho.
  destruct (Hf _ _ Ho) as [Ho' HQ]. destruct (f _ _) as [r0 o]. intros [= <- <-]. split.
  - apply (db_keeps_insert voice_violated no_voice_objects ok voice_le voice_lawful voice_objects_ok);
      [exact Hd|apply Hd|reflexivity|apply Hd|exact Ho'].
  - exists n. split; [done|]. split; [done|]. unfold sql_held. cbn. lia.
Qed.

Lemma plain_plan b n self a : 0 <= n ->
  yields sql_ok (sql_held b) n (plan_save self a)
    (fun m r => m = n /\ match r with Ok plan => plan_for a plan | Err _ => True end).
Proof.
  intros Hn. unfold plan_save.
  eapply (yields_bind _ _ _ _ _ (fun m r => m = n /\ match r with
    | Ok (Some row) => vr_id row = va_id a | _ => True end)).
  - apply select_fact; [done|]. intros t o Ho. cbv beta.
    destruct (held_row (va_id a) t o) as [row|] eqn:E; [|done]. destruct (held_row_id _ _ _ _ Ho E) as [Hi Hin].
    split; [|done]. apply objects_note; [done|by rewrite Hi].
  - intros m [old|] Hm [-> Hold].
    + eapply (yields_bind _ _ _ _ _ (fun m r => m = n /\ assign_attempt a old = r)); [by split| |by intros m e _ [-> _]].
      intros m new Hm' [-> Hnew]. split; [done|]. split; [done|]. split; [done|].
      apply assign_attempt_id in Hnew. by rewrite Hnew.
    + eapply yields_bind; [by apply plain_load_subject| |by intros m e _ ->].
      intros m subject Hm' ->. destruct subject as [subject|]; [|by split].
      cbn. destruct (vsu_consent_verified_at subject) as [consent|]; [|by split].
      destruct (new_attempt_row a subject consent) as [row|e] eqn:Hrow; [|by split].
      split; [done|]. split; [done|]. by eapply new_attempt_row_keys.
  - by intros m e _ [-> _].
Qed.

Lemma plan_lawful a plan : va_id a = va_idempotency_key a -> plan_for a plan -> voice_lawful (plan_change plan).
Proof. intros Ha Hp. apply lawful_plan. intros row ->. destruct Hp as [-> ->]. done. Qed.
Lemma plan_objects_ok a plan t o : va_id a = va_idempotency_key a -> plan_for a plan ->
  voice_objects_ok t o -> voice_objects_ok (plan_change plan t) (plan_object plan o).
Proof.
  intros Ha Hp Ho. apply (objects_changed (plan_change plan)) in Ho; [|by eapply plan_lawful].
  destruct plan as [row|old new]; cbn [plan_object plan_change] in *.
  - apply objects_note; [done|]. apply attempt_id_in. cbn. apply elem_of_app. right. by left.
  - intros id r Hr. cbn in Hr. apply lookup_alter_Some in Hr as [(Hi & r0 & Hr0 & E)|[_ Hr]]; [|by apply Ho].
    destruct (Ho _ _ Hr0) as [_ Hin], Hp as [Hold Hnew]. split; [congruence|done].
Qed.

Lemma plain_save b n self a : 0 <= n -> va_id a = va_idempotency_key a -> plain b n (sql_save_attempt self a).
Proof.
  intros Hn Ha. eapply yields_bind; [by apply plain_plan| |by intros m e _ [-> _]].
  intros m plan Hm [-> Hp]. apply plain_flushed; [done|]. intros d r f o Hd [= _ <- <-].
  split; [by eapply plan_lawful|]. by eapply plan_objects_ok, sql_objects.
Qed.

Lemma plain_reserve b n self a : 0 <= n -> va_id a = va_idempotency_key a -> plain b n (sql_reserve_attempt self a).
Proof.
  intros Hn Ha. unfold sql_reserve_attempt. apply plain_bind; [by apply plain_get_by_idempotency|].
  intros [existing|] _; [done|].
  apply plain_bind.
  - eapply yields_then; [|by intros m r Hm HP; split; [done|exact HP]].
    eapply yields_bind; [by apply plain_plan| |by intros m e _ [-> _]].
    intros m plan Hm [-> Hp]. apply plain_written; [done|done|]. intros d r f o Hd [= _ <- <-].
    split; [by eapply plan_lawful|]. by eapply plan_objects_ok, sql_objects.
  - intros [reserved|e] _; [done|]. destruct e; try done.
    apply plain_bind; [by apply plain_rollback|]. intros _ _.
    apply plain_bind; [by apply plain_get_by_idempotency|]. by intros [existing|] _.
Qed.

Lemma plain_callback b n self provider event_id id changes : 0 <= n ->
  plain b n (sql_apply_callback new_id self provider event_id id changes).
Proof.
  intros Hn. apply plain_flushed; [done|]. intros d r f o Hd. pose proof (sql_objects self d Hd) as Ho.
  intros (payload & _ & Hr)%bind_Ok. cbv zeta in Hr. set (t := working self d) in *.
  destruct (held_row id t _) as [record|] eqn:Eh.
  - destruct (held_row_id _ _ _ _ Ho Eh) as [Hi Hin].
    assert (voice_objects_ok t (note_attempt record (objects_of self d))) as Hnoted
      by by apply objects_note; rewrite ?Hi.
    destruct (_ || _); [injection Hr as _ <- <-; by split; [apply lawful_same|]|].
    apply bind_Ok in Hr as (new & Hnew & Hr). injection Hr as _ <- <-. apply row_changes_id in Hnew.
    match goal with |- voice_lawful ?f /\ _ => assert (voice_lawful f) as Hl end.
    { apply (lawful_both (add_receipt _)); [apply lawful_receipt|apply lawful_update]. }
    split; [done|]. pose proof (objects_changed _ t _ Hl Hnoted) as Hnoted'.
    apply objects_note; [exact Hnoted'|].
    rewrite Hnew. destruct (Hnoted' (vr_id record) record) as [_ Hin']; [apply lookup_insert_eq|done].
  - destruct (_ || _); injection Hr as _ <- <-; (split; [|apply (objects_changed _ t); [|done]]);
      auto using lawful_receipt; by apply lawful_same.
Qed.

Lemma plain_suppress b n self a reason utc_now : 0 <= n -> plain b n (sql_suppress new_id self a reason utc_now).
Proof.
  intros Hn. apply plain_written; [done|..]; cbv zeta.
  - intros d r o Hd. case_bool_decide; [done|]. intros [= _ <-]. by apply sql_objects.
  - intros d r f o Hd. case_bool_decide; [|done]. intros [= _ <- <-].
    match goal with |- voice_lawful ?f /\ _ => assert (voice_lawful f) as Hl end.
    { by apply lawful_same. }
    split; [done|]. by apply objects_subjects, objects_changed, sql_objects.
Qed.

Lemma seen_working self d r : sql_ok d -> r ∈ vt_attempts (working self d) ->
  voice_objects_ok (working self d) (note_attempt (seen (objects_of self d) r) (objects_of self d))
  /\ vr_id (seen (objects_of self d) r) ∈ map fst (attempt_keys (working self d)).
Proof.
  intros Hd Hr. pose proof (sql_objects self d Hd) as Ho. split; [by apply objects_seen|].
  rewrite (seen_id (working self d)) by done. by apply attempt_id_in.
Qed.
(** An object changed and stored. *)
Lemma objects_stored f t o new : voice_lawful f -> voice_objects_ok t o ->
  vr_id new ∈ map fst (attempt_keys t) -> voice_objects_ok (f t) (note_attempt new o).
Proof.
  intros Hf Ho Hin. apply objects_changed; [done|]. by apply objects_note.
Qed.
Lemma active_attempt_in case_id t r : active_attempt case_id t = Some r -> r ∈ vt_attempts t.
Proof. intros Hr%first_by_Some. by apply elem_of_rows_where in Hr as [? _]. Qed.

Lemma sql_claim_yields b n self case_id key now : 0 <= n ->
  yields sql_ok (sql_held b) n (sql_claim_payment_cancellation isoformat new_id self case_id key now)
    (fun m r => n + claim_grant b r <= m).
Proof.
  intros Hn. unfold sql_claim_payment_cancellation. cbv zeta.
  assert (forall attempt, claim_grant b (Ok {| vcc_attempt := attempt; vcc_claimed := false;
    vcc_cancellation_key := key |}) = 0) as Hno by by destruct b.
  assert (forall e, claim_grant b (Err e) = 0) as Herr by by destruct b.
  eapply yields_bind; [by apply (plain_select b n)|cbv beta|cbv beta; intros m e _ ->; rewrite Herr; lia].
  intros m existing _ ->. destruct existing as [receipt|].
  - eapply (yields_bind _ _ _ _ _ (fun m _ => m = n)).
    + destruct (truthy _); [by apply plain_get_attempt|done].
    + cbv beta. intros m attempt Hm ->. split; [done|]. rewrite Hno. lia.
    + cbv beta. intros m e _ ->. rewrite Herr. lia.
  - eapply yields_weaken.
    + apply (yields_written voice_violated no_voice_objects ok voice_le voice_lawful voice_objects_ok
        (sql_stored b) (sql_stored_le b) n self _ _ (claim_grant b)); [done|by destruct b| |..].
      * intros claim. destruct b; cbn; try done. by case_match.
      * intros d claim o Hd. destruct (active_attempt case_id _) as [row|] eqn:Er.
        -- destruct (payment_cancellation_receipt key _); [|done]. intros [= <- <-].
           apply active_attempt_in in Er. split; [by destruct b|]. by apply seen_working.
        -- intros [= <- <-]. split; [by destruct b|by apply sql_objects].
      * intros d claim f o Hd. destruct (active_attempt case_id _) as [row|] eqn:Er; [|done].
        destruct (payment_cancellation_receipt key _); [done|]. intros [= <- <- <-].
        apply active_attempt_in in Er. destruct (seen_working self d row Hd Er) as [Ho Hin].
        match goal with |- voice_lawful ?f /\ _ => assert (voice_lawful f) as Hl end.
        { apply (lawful_both (add_receipt _)); [apply lawful_receipt|apply lawful_update]. }
        split; [done|]. split.
        { refine (objects_stored _ _ _ (cancel_pending isoformat key now _) Hl Ho _). exact Hin. }
        intros t.
        destruct b as [k| |]; cbn [claim_grant vcc_claimed].
        -- rewrite Z.add_0_r. exact (sql_stored_le _ _ _ (voice_lawful_le _ t Hl)).
        -- unfold sql_stored, receipt_providers. cbn [vt_receipts update_attempt add_receipt set_field].
           cbn. rewrite map_app, occurrences_app. cbn [map vwr_provider].
           rewrite occurrences_cons, bool_decide_eq_true_2 by done.
           pose proof (occurrences_nonneg PAYMENT_CANCELLATION_RECEIPT_PROVIDER []). lia.
        -- done.
    + cbv beta. intros m r _ ->. done.
Qed.

Lemma plain_finalize b n self id key confirmed now error : 0 <= n ->
  plain b n (sql_finalize_payment_cancellation isoformat self id key confirmed now error).
Proof.
  intros Hn. apply plain_written; [done|..]; cbv zeta.
  - intros d r o Hd. destruct (attempt_row id _) as [row|] eqn:Er; [|done].
    destruct (payment_cancellation_receipt key _); [|done]. case_bool_decide; [|done].
    by intros (new & _ & [=])%bind_Ok.
  - intros d r f o Hd. destruct (attempt_row id _) as [row|] eqn:Er; [|done].
    destruct (payment_cancellation_receipt key _); [|done]. case_bool_decide; [|done].
    intros (new & Hnew & [= _ <- <-])%bind_Ok. apply row_where_Some in Er as [Er _].
    destruct (seen_working self d row Hd Er) as [_ Hin]. split; [apply lawful_update|].
    apply objects_stored; [apply lawful_update|by apply sql_objects|].
    apply bind_Ok in Hnew as (at_ & _ & [= <-]). exact Hin.
Qed.
Lemma plain_get_payment_cancellation b n self key : 0 <= n -> plain b n (sql_get_payment_cancellation self key).
Proof.
  intros Hn. apply plain_bind; [by apply plain_select|]. intros receipt _.
  destruct (_ ← receipt; _); [by apply plain_get_attempt|done].
Qed.

(** *** A reservation nothing comes between *)

Hypothesis ok_keys : forall t, ok t -> Forall key_is_id (attempt_keys t).

Definition set_objects (self : nat) (o : voice_objects) (d : voice_db) : voice_db :=
  set_txn no_voice_objects self (fun t => t <| tx_objects := o |>) d.
Lemma run_select {A} self (f : voice_tables -> voice_objects -> result A * voice_objects) d :
  run (select_ no_voice_objects self f) d
  = Some (fst (f (working self d) (objects_of self d)), set_objects self (snd (f (working self d) (objects_of self d))) d).
Proof. unfold select_. rewrite run_await. by destruct (f _ _). Qed.
Lemma working_set_objects self o d : working self (set_objects self o d) = working self d.
Proof. unfold set_objects, set_txn, Transactions.working, txn_of. cbn. by rewrite lookup_insert_eq. Qed.
Lemma working_keys self d : sql_ok d -> Forall key_is_id (attempt_keys (working self d)).
Proof.
  intros [Hok Hd]. destruct (Hd self) as [(ks & rs & Hks & Hl) _]. unfold Transactions.working.
  destruct (Hl (tb_tables d)) as [-> _]. apply Forall_app. auto.
Qed.
Lemma set_objects_ok self o d : sql_ok d -> voice_objects_ok (working self d) o -> sql_ok (set_objects self o d).
Proof.
  intros Hd Ho. apply (db_keeps_insert voice_violated no_voice_objects ok voice_le voice_lawful voice_objects_ok);
    [exact Hd|apply Hd|reflexivity|apply Hd|exact Ho].
Qed.

(** Without a stored attempt of the key, the plan is a new row. *)
Lemma fresh_plan self a d plan d' : sql_ok d -> va_id a = va_idempotency_key a ->
  row_where (fun r => eqs (vr_idempotency_key r) (va_idempotency_key a)) (vt_attempts (working self d)) = None ->
  run (plan_save self a) d = Some (Ok plan, d') ->
  (exists row, plan = Insert row /\ vr_idempotency_key row = va_idempotency_key a)
  /\ working self d' = working self d /\ tb_tables d' = tb_tables d.
Proof.
  intros Hd Ha Hnone. unfold plan_save. rewrite run_bind. unfold sql_get_row. rewrite run_select.
  destruct (held_row (va_id a) _ _) as [row|] eqn:E.
  { exfalso. destruct (held_row_id _ _ _ _ (sql_objects self d Hd) E) as [_ Hin].
    apply list_elem_of_fmap in Hin as ([i k] & Hi & Hin). cbn in Hi. subst i.
    pose proof (working_keys self d Hd) as Hkeys. rewrite Forall_forall in Hkeys.
    pose proof (Hkeys _ Hin) as Hk. unfold key_is_id in Hk. cbn in Hk. apply list_elem_of_fmap in Hin as (r & [= Hr1 Hr2] & Hin).
    pose proof (row_where_None _ _ _ Hnone Hin) as Hne. cbn in Hne.
    apply bool_decide_eq_false in Hne. congruence. }
  cbn [fst snd]. rewrite run_bind. unfold sql_load_subject. rewrite run_select, working_set_objects.
  set (answer := (match _ with Some _ => _ | None => _ end : result (option VoiceSubject) * voice_objects)).
  clearbody answer. destruct answer as [[[subject|]|e] o]; cbn [fst snd]; try done.
  destruct (s ← Some subject; _) as [consent|]; [|done].
  destruct (new_attempt_row a subject consent) as [row|e] eqn:Hrow; [|done]. intros [= <- <-].
  split; [exists row; split; [done|]; by eapply new_attempt_row_keys|].
  rewrite !working_set_objects. done.
Qed.

(** A reservation that failed is not claimed. *)
Lemma refused_reservation self a e d c d' :
  run (match e with
       | IntegrityError constraint =>
           _ ← rollback_session no_voice_objects self;
           existing ← sql_get_by_idempotency self (va_idempotency_key a);
           match existing with
           | None => pure_ (Err (IntegrityError constraint))
           | Some existing => mret {| vrc_attempt := existing; vrc_claimed := false |}
           end
       | e => pure_ (Err e)
       end) d = Some (Ok c, d') -> vrc_claimed c = false.
Proof.
  destruct e; try done. intros Hrun. apply run_bind_Ok in Hrun as (u & d1 & _ & Hrun).
  apply run_bind_Ok in Hrun as ([existing|] & d2 & _ & Hrun); [|done]. by injection Hrun as <- _.
Qed.

Lemma serial_reserve b n self a : 0 <= n -> va_id a = va_idempotency_key a ->
  yields sql_ok (sql_held b) n (serial (sql_reserve_attempt self a))
    (fun m r => n + reserve_grant b a r <= m).
Proof.
  intros Hn Ha. apply yields_serial; [done|]. intros d r d' Hd Hrun.
  destruct (yields_run _ _ _ _ _ _ _ _ (plain_reserve b n self a Hn Ha) Hd Hrun) as (Hd' & n' & Hn' & -> & Hle).
  split; [done|]. destruct (decide (reserve_grant b a r = 0)) as [Hg|Hg].
  { exists n. rewrite Hg. split; [done|]. lia. }
  unfold reserve_grant in Hg |- *. destruct b as [key| |]; try done. destruct r as [c|e]; [|done].
  destruct (vrc_claimed c) eqn:Hc; [|done]. cbn [andb] in *. case_bool_decide as Hk; [|done]. subst key.
  exists (n + 1). split; [lia|]. split; [lia|]. clear Hle Hg.
  apply run_bind_Ok in Hrun as (existing & d1 & He & Hrun).
  apply run_bind_Ok in He as (record & d1' & Hsel & [= <- <-]).
  unfold select_attempt in Hsel. rewrite run_select in Hsel.
  destruct (row_where _ _) as [row|] eqn:Hnone; cbn [fst snd] in Hsel; injection Hsel as <- Hd1.
  { exfalso. cbn in Hrun. injection Hrun as <- _. done. }
  change (fmap (M := option) to_attempt None) with (@None VoiceAttempt) in Hrun. cbv iota in Hrun.
  assert (sql_ok d1') as Hok1 by (rewrite <- Hd1; apply set_objects_ok, sql_objects; done).
  assert (working self d1' = working self d) as Hw1 by by rewrite <- Hd1, working_set_objects.
  rename d1' into d1. rewrite run_bind in Hrun. unfold proc_try in Hrun. rewrite run_then, run_bind in Hrun.
  destruct (run (plan_save self a) d1) as [[[plan|e] d2]|] eqn:Hplan.
  - apply fresh_plan in Hplan as ((row & -> & Hrow) & Hw & Ht); [|done..|by rewrite Hw1].
    unfold written in Hrun. rewrite run_step in Hrun. destruct (unlocked _ _ _); [|done].
    destruct (voice_violated _) eqn:Hv.
    + exfalso. pose proof (refused_reservation self a (IntegrityError _) d2 c d' Hrun). congruence.
    + cbn in Hrun. injection Hrun as <- <-. unfold sql_held. cbn [tb_tables].
      rewrite Hw, Hw1. pose proof (sql_stored_le (Calls (va_idempotency_key a)) _ _
        (voice_lawful_le _ (tb_tables d) (proj1 (proj2 Hd self)))) as Hle. fold (working self d) in Hle.
      cbn [plan_change]. unfold sql_stored, attempt_keys in *. cbn in *.
      rewrite !map_app, occurrences_app. cbn [map snd]. rewrite Hrow, occurrences_cons, bool_decide_eq_true_2 by done.
      pose proof (occurrences_nonneg (va_idempotency_key a) []). lia.
  - exfalso. pose proof (refused_reservation self a e d2 c d' Hrun). congruence.
  - done.
Qed.

End sql_methods.

(** The SQL adapter with reservations that nothing comes between. *)
Definition serial_reservations {S} (repository : VoiceRepository S) : VoiceRepository S := {|
  begin_request := begin_request; commit_request := commit_request;
  rollback_request := rollback_request; load_subject := load_subject;
  configure_subject := configure_subject; get_by_idempotency := get_by_idempotency;
  active_count := active_count; calls_today := calls_today; save_attempt := save_attempt;
  reserve_attempt self a := serial (reserve_attempt self a);
  get_attempt := get_attempt; list_attempts := list_attempts; apply_callback := apply_callback;
  suppress := suppress; claim_payment_cancellation := claim_payment_cancellation;
  finalize_payment_cancellation := finalize_payment_cancellation;
  get_payment_cancellation := get_payment_cancellation |}.

(** The committed tables: consistent, every attempt under its idempotency key. *)
Definition voice_tables_ok (t : voice_tables) : Prop :=
  voice_violated t = None /\ Forall key_is_id (attempt_keys t).
Lemma voice_tables_ok_grow t t' : voice_tables_ok t -> voice_le t t' -> voice_violated t' = None -> voice_tables_ok t'.
Proof.
  intros [_ Hk] (ks & rs & Hp & Hks & _) Hv. split; [done|]. rewrite Hp. by apply Forall_app.
Qed.
Lemma voice_tables_constraint t name b :
  voice_violated t = None -> (name, b) ∈ voice_constraints t -> b = true.
Proof.
  unfold voice_violated. destruct (violated (vt_db t)); [done|]. intros H Hin.
  destruct (List.find _ _) eqn:E; [done|]. pose proof (List.find_none _ _ E (name, b)) as Hf.
  specialize (Hf (proj1 (list_elem_of_In _ _) Hin)). by destruct b.
Qed.
Lemma one_attempt_per_key t key : voice_violated t = None -> sql_stored (Calls key) t <= 1.
Proof.
  intros Hv. cbn. apply occurrences_once.
  assert (unique_on (fun r => Some (vr_idempotency_key r)) (vt_attempts t) = true) as Hu.
  { apply (voice_tables_constraint t "voice_contact_attempts_idempotency_key"); [done|].
    unfold voice_constraints. right. left. }
  unfold unique_on in Hu. apply bool_decide_eq_true in Hu. unfold attempt_keys. rewrite map_map. cbn.
  replace (omap (fun r => Some (vr_idempotency_key r)) (vt_attempts t))
    with (map vr_idempotency_key (vt_attempts t)) in Hu; [done|].
  clear. induction (vt_attempts t) as [|r l IH]; [done|]. cbn. by rewrite IH.
Qed.

Lemma sql_laws isoformat new_id :
  VoiceRepositoryLaws voice_db (repository := serial_reservations (sql_voice isoformat new_id))
    (sql_ok voice_tables_ok) (fun _ => True) sql_held.
Proof.
  pose proof voice_tables_ok_grow as Hgrow. assert (forall t, voice_tables_ok t -> Forall key_is_id (attempt_keys t)) as Hkeys by by intros t [_ ?].
  constructor; intros; cbn [begin_request commit_request rollback_request load_subject configure_subject
    get_by_idempotency active_count calls_today save_attempt reserve_attempt get_attempt list_attempts
    apply_callback suppress claim_payment_cancellation finalize_payment_cancellation
    get_payment_cancellation serial_reservations sql_voice].
  - unfold sql_held. destruct b; cbn; [apply occurrences_nonneg..|done].
  - apply one_attempt_per_key. by destruct H0 as [[? _] _].
  - by apply plain_begin.
  - by apply plain_commit.
  - by apply plain_rollback.
  - by apply plain_load_subject.
  - by apply plain_configure.
  - by apply plain_get_by_idempotency.
  - by apply plain_select.
  - by apply plain_select.
  - by apply plain_save.
  - by apply serial_reserve.
  - by apply plain_get_attempt.
  - by apply plain_list_attempts.
  - by apply plain_callback.
  - by apply plain_suppress.
  - by apply sql_claim_yields.
  - by apply plain_finalize.
  - by apply plain_get_payment_cancellation.
Qed.
