(* ===== verification/VoiceSamples.v ===== *)
(** * Sample voice requests

    A provider that takes calls at once, a customer who may be called, and the requests the
    theorems of the voice service are tried on. *)
From S2P Require Import Prelude Procs Transactions Domain Json Entities QuietHours A2ARuntimeFacts VoicePorts VoiceModels VoiceRepository VoiceService.

(** The calls placed, whether the provider answers an end of call, and the status it reports. *)
Record sample_calls : Type := { sc_calls : list string; sc_ends_calls : bool; sc_status : string }.

#[export] Instance sample_voice_provider : VoiceProvider sample_calls := {|
  is_disabled_provider := false;
  start_contact request := fun p =>
    let key := vq_idempotency_key request in
    (Ok {| vcr_provider := "twilio"; vcr_contact_attempt_id := key;
           vcr_provider_call_id := Some ("CA" +++ key); vcr_status := "SUBMITTED"; vcr_reason_code := None |},
     {| sc_calls := key :: sc_calls p; sc_ends_calls := sc_ends_calls p; sc_status := sc_status p |});
  cancel_contact _ _ := fun p =>
    (if sc_ends_calls p then Ok tt else Err (RuntimeError "TWILIO_CALL_SID_NOT_AVAILABLE"), p);
  fetch_contact id := fun p =>
    (Ok {| vs_contact_attempt_id := id; vs_status := sc_status p; vs_disposition := None;
           vs_transcript := None; vs_detected_intent := None; vs_confidence := None;
           vs_duration_seconds := None; vs_observed_at := utc_datetime 0 |}, p);
|}.

Definition sample_settings : voice_settings := {|
  vst_real_calls_enabled := true; vst_operator_token := "token";
  vst_allowlisted_destinations := ["+14155550100"] |}.

Definition sample_voice_tables : voice_tables := {|
  vt_db := sample_db <| db_customers ::= map (fun c => c <| cus_phone_token := Some "+14155550100" |>
                          <| cus_voice_consent_at := Some 5 |>) |>
                      <| db_actions := [] |>;
  vt_attempts := []; vt_receipts := []; vt_suppressions := [] |}.
Definition sample_voice_db : voice_db := {| tb_tables := sample_voice_tables; tb_open := ∅ |}.
Definition sample_voice_world (ends_calls : bool) : voice_world voice_db sample_calls := {|
  vw_store := sample_voice_db;
  vw_provider := {| sc_calls := []; sc_ends_calls := ends_calls; sc_status := "completed" |};
  vw_calls := [] |}.

(** A call of that customer, and a request that finds it. *)
Definition sample_called (status : string) : VoiceContactAttemptRecord := {|
  vr_id := "k1"; vr_merchant_id := "mer"; vr_case_id := "c1"; vr_customer_id := "cus";
  vr_idempotency_key := "k1"; vr_destination_token := "+14155550100"; vr_provider := "twilio";
  vr_provider_call_id := None; vr_status := status; vr_disposition := None; vr_transcript := None;
  vr_detected_intent := None; vr_confidence_basis_points := None; vr_duration_seconds := None;
  vr_provider_payload := JObj []; vr_disclosure_text := AI_DISCLOSURE; vr_disclosure_delivered_at := None;
  vr_consent_verified_at := 5; vr_completed_at := None; vr_uncertain_submission := false;
  vr_recording_enabled := false; vr_max_duration_seconds := 180; vr_created_at := 12 * hour |}.
Definition sample_called_world (status : string) : voice_world voice_db sample_calls := {|
  vw_store := {| tb_tables := sample_voice_tables <| vt_attempts := [sample_called status] |>; tb_open := ∅ |};
  vw_provider := {| sc_calls := []; sc_ends_calls := false; sc_status := "in-progress" |};
  vw_calls := [] |}.

Definition sample_tzdb (name : string) : option ZoneInfo := Some (fixed_zone 0).
Definition sample_receipt_id (t : voice_tables) (self : nat) : string :=
  pretty (N.of_nat (List.length (vt_receipts t) + List.length (vt_suppressions t))).
(** Noon of the first day. *)
Definition sample_noon : datetime := utc_datetime (12 * hour).

#[export] Instance sample_sql_voice : VoiceRepository voice_db :=
  sql_voice (fun _ => "noon") sample_receipt_id.

Abbreviation sample_start self key :=
  (voice_request self (start sample_tzdb sample_settings self "c1" key (Some "token") false 180 sample_noon)
   : proc (voice_world voice_db sample_calls) _).
