(* ===== verification/VoiceRuns.v ===== *)
(** * Runs of the voice service

    What the voice service promises however its requests interleave, and where it does not
    keep the promise. *)
From S2P Require Import Prelude Procs Transactions Domain Json Entities Session CaseRepo QuietHours VoicePorts VoiceSafety VoiceModels VoiceRepository VoiceService VoiceLaws VoiceFacts VoiceSamples.

(** ** Submissions *)

Section submissions.
Context {S P : Type} {repository : VoiceRepository S} {provider : VoiceProvider P}.
Context (inv : S -> Prop) (stored : budget -> S -> Z)
  (laws : VoiceRepositoryLaws S inv (fun _ => True) stored).
Context (tzdb : string -> option ZoneInfo) (settings : voice_settings).

(** What goes on around the service: it places no call, and keeps what is stored. *)
Definition surroundings (env : voice_world S P -> voice_world S P -> Prop) : Prop :=
  forall w w', inv (vw_store w) -> env w w' -> inv (vw_store w') /\ vw_calls w' = vw_calls w /\
    forall b, stored b (vw_store w) <= stored b (vw_store w').

Lemma submissions_stored env w0 ps w b : surroundings env ->
  inv (vw_store w0) -> vw_calls w0 = [] ->
  rtc (pool_step env (is_voice_request tzdb settings)) ([], w0) (ps, w) ->
  service_ok inv settings w /\ submissions b (vw_calls w) <= stored b (vw_store w).
Proof.
  intros Henv Hi Hcalls Hr.
  destruct (pool_capacity env (is_voice_request tzdb settings) (service_ok inv settings) (unspent stored b))
    with (w0 := w0) (s := (ps, w)) as [Hok Hcap]; [|by intros p Hp; eapply yields_permits, is_request_obeys|..|done|].
  - intros w1 w2 [Hi1 Hf] He. destruct (Henv w1 w2 Hi1 He) as (Hi2 & Hc & Hle). split.
    + split; [done|]. by rewrite Hc.
    + unfold unspent. rewrite Hc. specialize (Hle b). lia.
  - split; [done|]. by rewrite Hcalls.
  - unfold unspent. rewrite Hcalls. pose proof (@stored_nonneg S repository inv _ stored laws b (vw_store w0) Hi).
    assert (submissions b [] = 0) as -> by by destruct b. cbn. lia.
  - split; [done|]. unfold unspent in Hcap. cbn in Hcap. lia.
Qed.
End submissions.


Definition nothing_else {S P} (w w' : voice_world S P) : Prop :=
  vw_store w' = vw_store w /\ vw_calls w' = vw_calls w.
Lemma nothing_else_surrounds {S P} inv stored : surroundings (S := S) (P := P) inv stored nothing_else.
Proof. intros w w' Hi [-> ->]. by split. Qed.

Abbreviation sample_request repository self operation :=
  (voice_request (repository := repository) (P := sample_calls) self (answered (S := voice_db) (P := sample_calls) operation)).
Abbreviation sample_starts repository self key :=
  (sample_request repository self (start (repository := repository) (provider := sample_voice_provider)
     sample_tzdb sample_settings self "c1" key (Some "token") false 180 sample_noon)).
Definition sample_serial : VoiceRepository voice_db := serial_reservations sample_sql_voice.

Lemma sample_is_request repository self key :
  is_voice_request (repository := repository) sample_tzdb sample_settings (sample_starts repository self key).
Proof. exists self. eexists. split; [apply op_start|done]. Qed.
Lemma sample_tables_ok : voice_tables_ok sample_voice_tables.
Proof. split; [by vm_compute|constructor]. Qed.
Lemma sample_store_ok : sql_ok voice_tables_ok sample_voice_db.
Proof.
  split; [apply sample_tables_ok|]. intros self. unfold txn_of. cbn. rewrite lookup_empty. split.
  - by apply lawful_same.
  - intros id r. cbn. by rewrite lookup_empty.
Qed.

(** An observation of the outcome of a run. *)
Definition observed {W A B} (f : result A -> W -> B) (o : option (result A * W)) : option B :=
  match o with Some (r, w) => Some (f r w) | None => None end.
Lemma observed_Some {W A B} (f : result A -> W -> B) o b : observed f o = Some b ->
  exists r w, o = Some (r, w) /\ f r w = b.
Proof. destruct o as [[r w]|]; [|done]. intros [= <-]. by exists r, w. Qed.


(** ** The race of two reservations *)

Abbreviation sample_pool repository := (pool_step (W := voice_world voice_db sample_calls) (fun _ _ => False)
  (is_voice_request (repository := repository) sample_tzdb sample_settings)).

(** Two requests with one key: the second reserves between the two queries of the first. *)
Definition race_schedule : list nat := repeat 0%nat 6 ++ repeat 1%nat 13 ++ repeat 0%nat 6.
Definition race_end := follow race_schedule
  ([sample_starts sample_sql_voice 0%nat "k1"; sample_starts sample_sql_voice 1%nat "k1"], sample_voice_world true).

Lemma follow_from_start {W R} (env : W -> W -> Prop) (starts : proc W R -> Prop) ps w schedule s :
  Forall starts ps -> follow schedule (ps, w) = Some s -> rtc (pool_step env starts) ([], w) s.
Proof. intros Hps Hf. etrans; [by apply (starts_reach env starts ps [] w)|]. by eapply follow_reaches. Qed.
(** An observation of the end of a schedule. *)
Definition seen_at {W R B} (f : list (proc W R) -> W -> B) (o : option (list (proc W R) * W)) : option B :=
  match o with Some (ps, w) => Some (f ps w) | None => None end.
Lemma seen_at_Some {W R B} (f : list (proc W R) -> W -> B) o b : seen_at f o = Some b ->
  exists ps w, o = Some (ps, w) /\ f ps w = b.
Proof. destruct o as [[ps w]|]; [|done]. intros [= <-]. by exists ps, w. Qed.

(** two requests with one idempotency key can both call the customer through the SQL
    repository: [save_attempt] looks the row up again after [reserve_attempt] found none, so the
    row a rival request has committed in between is taken for the request's own reservation. *)
Theorem duplicate_reservation_calls_twice : exists ps w,
  rtc (sample_pool sample_sql_voice) ([], sample_voice_world true) (ps, w) /\
  count_calls (is_start "k1") (vw_calls w) = 2 /\
  map vr_idempotency_key (vt_attempts (tb_tables (vw_store w))) = ["k1"].
Proof.
  destruct (seen_at_Some (fun ps w => (count_calls (is_start "k1") (vw_calls w),
      map vr_idempotency_key (vt_attempts (tb_tables (vw_store w))))) race_end (2, ["k1"]))
    as (ps & w & E & H); [vm_compute; reflexivity|].
  exists ps, w. injection H as H1 H2. split; [|by split].
  eapply follow_from_start; [|exact E]. repeat constructor; apply sample_is_request.
Qed.

(** ** A payment while a call is being placed *)

Abbreviation sample_cancels self key :=
  (sample_request sample_sql_voice self (cancel_for_authoritative_payment (repository := sample_sql_voice)
     (provider := sample_voice_provider) self "c1" key sample_noon)).
Definition overtaken_end := follow (repeat 0%nat 10 ++ repeat 1%nat 6 ++ repeat 0%nat 3)
  ([sample_starts sample_sql_voice 0%nat "k1"; sample_cancels 1%nat "paid"], sample_voice_world true).

Definition cancellation_confirmed (c : voice_call) : bool :=
  match c with CancelRequested "k1" "AUTHORITATIVE_PAYMENT_SUCCESS" (Ok tt) => true | _ => false end.

(** a request that places a call overwrites what happened to the call meanwhile: the
    provider has confirmed its cancellation for a payment and the attempt was completed, yet it
    ends [SUBMITTED], an active call. *)
Theorem started_call_forgets_cancellation : exists ps w,
  rtc (sample_pool sample_sql_voice) ([], sample_voice_world true) (ps, w) /\
  existsb cancellation_confirmed (vw_calls w) = true /\
  map (fun r => (vr_status r, vr_disposition r, vr_completed_at r)) (vt_attempts (tb_tables (vw_store w)))
  = [("SUBMITTED", Some "PAYMENT_RECOVERED", Some (dt_instant sample_noon))].
Proof.
  destruct (seen_at_Some (fun ps w => (existsb cancellation_confirmed (vw_calls w),
      map (fun r => (vr_status r, vr_disposition r, vr_completed_at r)) (vt_attempts (tb_tables (vw_store w)))))
    overtaken_end (true, [("SUBMITTED", Some "PAYMENT_RECOVERED", Some (dt_instant sample_noon))]))
    as (ps & w & E & H); [vm_compute; reflexivity|].
  exists ps, w. injection H as H1 H2. split; [|by split].
  eapply follow_from_start; [|exact E]. repeat constructor; [apply sample_is_request|].
  exists 1%nat. eexists. split; [apply op_cancel|done].
Qed.
