(* ===== verification/VoiceRequests.v ===== *)
(** * Single requests of the voice service

    What one request does through the SQL repository when nothing comes between its
    statements: when it calls, what a callback changes, and that an opt-out is stored before
    the provider is asked to end the call. *)
From S2P Require Import Prelude Procs Transactions Domain Json JsonText Entities Session CaseRepo QuietHours VoicePorts VoiceSafety VoiceModels VoiceRepository VoiceService VoiceLaws VoiceFacts VoiceSamples VoiceRuns.

Section requests.
Context {P : Type} {provider : VoiceProvider P}.
Context (isoformat : datetime -> string) (new_id : voice_tables -> nat -> string).
#[local] Instance repository : VoiceRepository voice_db := sql_voice isoformat new_id.
Abbreviation W := (voice_world voice_db P).
Abbreviation tables w := (tb_tables (vw_store w)).
Abbreviation working self d := (working no_voice_objects self d).
Abbreviation objects_of self d := (tx_objects (txn_of no_voice_objects self d)).

Definition with_store (d : voice_db) (w : W) : W := w <| vw_store := d |>.
Definition fresh_session (self : nat) (d : voice_db) : voice_db :=
  d <| tb_open ::= <[self := new_txn no_voice_objects]> |>.

Lemma run_in_store {A} (p : proc voice_db A) (w : W) :
  run (in_store p) w = match run p (vw_store w) with
                       | Some (r, d) => Some (r, with_store d w)
                       | None => None
                       end.
Proof. unfold in_store. by rewrite run_zoom by by destruct w. Qed.
Lemma run_store_then {A B} (p : proc voice_db A) (f : A -> proc W B) (w : W) :
  run (in_store p ≫= f) w = match run p (vw_store w) with
                            | Some (Ok a, d) => run (f a) (with_store d w)
                            | Some (Err e, d) => Some (Err e, with_store d w)
                            | None => None
                            end.
Proof. rewrite run_bind, run_in_store. by destruct (run p (vw_store w)) as [[[a|e] d]|]. Qed.

(** The unit of work around an operation. *)
Lemma run_request {A} self (operation : proc W A) (w : W) :
  run (voice_request self operation) w =
  match run operation (with_store (fresh_session self (vw_store w)) w) with
  | Some (Ok a, w1) =>
      match committed voice_violated no_voice_objects self (vw_store w1) with
      | (Ok _, d) => Some (Ok a, with_store d w1)
      | (Err e, d) => Some (Err e, with_store (rolled_back no_voice_objects self d) w1)
      end
  | Some (Err e, w1) => Some (Err e, with_store (rolled_back no_voice_objects self (vw_store w1)) w1)
  | None => None
  end.
Proof.
  unfold voice_request. rewrite run_store_then. cbn [begin_request repository sql_voice].
  unfold begin_session. rewrite run_await. cbn [with_store]. rewrite run_then.
  change (with_store (vw_store w <| tb_open ::= <[self := new_txn no_voice_objects]> |>) w) with (with_store (fresh_session self (vw_store w)) w).
  destruct (run operation _) as [[[a|e] w1]|]; [|..].
  - rewrite run_then, run_in_store. cbn [commit_request repository sql_voice]. unfold commit_session.
    rewrite run_await. destruct (committed _ _ _ _) as [[u|e] d]; cbn [run]; [done|].
    rewrite run_then, run_in_store. cbn [rollback_request repository sql_voice]. unfold rollback_session.
    by rewrite run_await.
  - rewrite run_then, run_in_store. cbn [rollback_request repository sql_voice]. unfold rollback_session.
    by rewrite run_await.
  - done.
Qed.

Lemma fresh_working self (d : voice_db) : working self (fresh_session self d) = tb_tables d.
Proof. unfold Transactions.working, txn_of, fresh_session. cbn. by rewrite lookup_insert_eq. Qed.
Lemma fresh_objects self (d : voice_db) : objects_of self (fresh_session self d) = no_voice_objects.
Proof. unfold txn_of, fresh_session. cbn. by rewrite lookup_insert_eq. Qed.

(** What a committed request leaves. *)
Lemma committed_tables self (d d' : voice_db) u : committed voice_violated no_voice_objects self d = (u, d') ->
  match u with
  | Ok _ => tb_tables d' = working self d /\ voice_violated (working self d) = None
  | Err _ => d' = d
  end.
Proof. unfold committed. destruct (voice_violated _) eqn:E; by intros [= <- <-]. Qed.

(** A request whose operation fails before it commits anything changes nothing. *)
Lemma failed_request {A} self (operation : proc W A) (w : W) e w1 :
  run operation (with_store (fresh_session self (vw_store w)) w) = Some (Err e, w1) ->
  tables w1 = tables w -> vw_calls w1 = vw_calls w ->
  exists w', run (voice_request self operation) w = Some (Err e, w') /\
    tables w' = tables w /\ vw_calls w' = vw_calls w.
Proof. intros Hr Ht Hc. rewrite run_request, Hr. eexists. split; [done|]. by split. Qed.

(** ** A post-call report that notes the disclosure *)

Lemma disclosure_not_json changes t rest :
  Forall (fun c => is_ok (change_json c) = true) changes ->
  changes_json (changes ++ SetDisclosureDelivered (Some t) :: rest) =
  Err (StatementError "(builtins.TypeError) Object of type datetime is not JSON serializable").
Proof.
  unfold changes_json. intros Hall. enough (map_result change_json (changes ++ SetDisclosureDelivered (Some t) :: rest) =
    Err (StatementError "(builtins.TypeError) Object of type datetime is not JSON serializable")) as -> by done.
  induction Hall as [|c changes Hc _ IH]; [done|]. cbn [app map_result].
  destruct (change_json c) as [j|]; [|done]. cbn in *. by rewrite IH.
Qed.

(** a post-call report which says that the disclosure was delivered is never recorded by the
    SQL repository: the receipt's JSON column cannot hold the time of the disclosure, so the
    request fails and changes nothing, even when the customer opted out in the call. *)
Theorem disclosed_post_call_lost self event_id attempt_id transcript intent_transcript provider_intent
    confidence seconds occurred_at utc_now (w : W) r w' :
  is_ok (analyzed_intent provider_intent) = true ->
  run (voice_request self (apply_elevenlabs_post_call self event_id attempt_id transcript intent_transcript
         provider_intent confidence seconds true occurred_at utc_now)) w = Some (r, w') ->
  (exists msg, r = Err (StatementError msg)) /\ tables w' = tables w /\ vw_calls w' = vw_calls w.
Proof.
  intros Hintent Hrun. unfold apply_elevenlabs_post_call in Hrun.
  destruct (analyzed_intent provider_intent) as [analyzed|] eqn:Ei; [|done].
  rewrite run_request in Hrun. cbn [pure_] in Hrun. unfold pure_ in Hrun. cbv zeta in Hrun.
  rewrite run_bind in Hrun. cbn [run] in Hrun. rewrite run_store_then in Hrun.
  cbn [apply_callback repository sql_voice] in Hrun. unfold sql_apply_callback, flushed in Hrun.
  rewrite run_step in Hrun. destruct (unlocked _ _ _); [|done].
  match type of Hrun with context [changes_json [?a; ?b; ?c; ?d; ?e; ?f; _]] =>
    pose proof (disclosure_not_json [a; b; c; d; e; f] occurred_at []) as Hj end.
  cbn [app] in Hj. rewrite Hj in Hrun by (repeat constructor). cbn in Hrun. injection Hrun as <- <-.
  split; [by eexists|]. done.
Qed.

(** ** Callbacks *)

(** A session that is the only one open, and has done nothing. *)
Definition alone (self : nat) (d : voice_db) : Prop := tb_open d = {[self := new_txn no_voice_objects]}.
Lemma fresh_alone self d : tb_open d = ∅ -> alone self (fresh_session self d).
Proof. unfold alone, fresh_session. cbn. by intros ->. Qed.
Definition only (self : nat) (d : voice_db) : Prop := forall other t, tb_open d !! other = Some t -> other = self.
Lemma alone_only self d : alone self d -> only self d.
Proof. unfold alone. intros Ha other t. rewrite Ha. by intros [-> _]%lookup_singleton_Some. Qed.
Lemma only_unlocked self locks d : only self d -> unlocked self locks d = true.
Proof.
  intros Ho. apply forallb_forall. intros [other t] Hin%list_elem_of_In%elem_of_map_to_list%Ho.
  cbn in *. subst. by rewrite bool_decide_eq_true_2.
Qed.
Lemma only_insert self t tables open : only self {| tb_tables := tables; tb_open := open |} ->
  forall tables', only self {| tb_tables := tables'; tb_open := <[self := t]> open |}.
Proof.
  intros Ho tables' other t' Hl. cbn in Hl.
  apply lookup_insert_Some in Hl as [[? _]|[_ Hl]]; [done|]. by eapply Ho.
Qed.
Lemma alone_txn self d : alone self d -> txn_of no_voice_objects self d = new_txn no_voice_objects.
Proof. unfold alone, txn_of. intros ->. by rewrite lookup_singleton_eq. Qed.
Lemma alone_working self d : alone self d -> working self d = tb_tables d.
Proof. intros Ha. unfold Transactions.working. by rewrite alone_txn. Qed.
Lemma set_txn_working self f (d : voice_db) :
  working self (set_txn no_voice_objects self f d) = tx_changes (f (txn_of no_voice_objects self d)) (tb_tables d).
Proof. unfold Transactions.working, set_txn, txn_of. cbn. by rewrite lookup_insert_eq. Qed.

(** A row that is written back by the session that alone has changed it. *)
Lemma changed_same {A} `{EqDecision A} (a b : A) : changed a b a = b.
Proof. unfold changed. by case_bool_decide. Qed.
(** What a callback leaves alone. *)
Definition fixed_fields (r : VoiceContactAttemptRecord) :=
  (vr_id r, vr_merchant_id r, vr_case_id r, vr_customer_id r, vr_idempotency_key r,
   vr_destination_token r, vr_provider r, vr_provider_payload r, vr_disclosure_text r,
   vr_consent_verified_at r, vr_recording_enabled r, vr_max_duration_seconds r, vr_created_at r).
Lemma row_changes_fixed cs row new : row_changes cs row = Ok new -> fixed_fields new = fixed_fields row.
Proof.
  revert row. induction cs as [|c cs IH]; intros row; cbn; [by intros [= <-]|].
  intros (row1 & Hc & ->%IH)%bind_Ok.
  destruct c as [v|v|v|v|v|v|v|[v|]|v]; cbn in Hc; try (apply bind_Ok in Hc as (? & _ & Hc)); try done;
    by injection Hc as <-.
Qed.
Lemma row_changes_fields cs row new : row_changes cs row = Ok new -> changed_row row new row = new.
Proof.
  intros Hf%row_changes_fixed. destruct row, new. injection Hf; intros; subst.
  unfold changed_row. cbn. rewrite !changed_same. by case_match.
Qed.

(** A row whose id is [id] replaced. *)
Definition put_row (id : string) (new : VoiceContactAttemptRecord) (t : voice_tables) : voice_tables :=
  t <| vt_attempts ::= update_where (fun r => eqs (vr_id r) id) (fun _ => new) |>.

(** What a callback of an event does to the tables its session sees. *)
Definition callback_outcome (provider_name event_id id : string) (changes : list voice_change)
    (t : voice_tables) (r : result (option VoiceAttempt * bool)) (t' : voice_tables) : Prop :=
  let wanted row := if status_can_advance (vr_status row) changes then changes
                    else List.filter other_than_status changes in
  match r with
  | Err e => t' = t /\ ((exists c, e = IntegrityError c) \/ changes_json changes = Err e
                        \/ exists row, row_changes (wanted row) row = Err e)
  | Ok (_, true) => t' = t /\ (receipt_row provider_name event_id t <> None \/ attempt_row id t = None)
  | Ok (attempt, false) =>
      receipt_row provider_name event_id t = None /\
      exists row new receipt, attempt_row id t = Some row /\ attempt = Some (to_attempt new) /\
        row_changes (wanted row) row = Ok new /\
        t' = put_row id new (add_receipt receipt t) /\ voice_violated t' = None /\
        vwr_provider receipt = provider_name /\ vwr_provider_event_id receipt = event_id /\
        vwr_attempt_id receipt = Some id
  end.

Lemma attempt_row_Some id t row : attempt_row id t = Some row -> row ∈ vt_attempts t /\ vr_id row = id.
Proof. intros [Hin Hid]%row_where_Some. by apply bool_decide_eq_true in Hid. Qed.
Lemma update_is_put id t row new rest : voice_violated t = None -> attempt_row id t = Some row ->
  changed_row row new row = new -> vt_attempts rest = vt_attempts t ->
  update_attempt row new rest = put_row id new rest.
Proof.
  intros Hv [Hin Hid]%attempt_row_Some Hnew Hrest. unfold update_attempt, put_row. unfold set_field. cbn. f_equal.
  rewrite Hrest. subst. apply update_where_ext; [done|]. intros r Hr Heq.
  apply bool_decide_eq_true in Heq. rewrite <- Hnew at 2. f_equal.
  assert (unique_on (fun r => Some (vr_id r)) (vt_attempts t) = true) as Hu.
  { eapply (voice_tables_constraint t "voice_contact_attempts_pkey"); [done|]. left. }
  apply (unique_on_spec (fun r => Some (vr_id r)) (vt_attempts t) r row (vr_id row) Hu); [done|done|by f_equal|done].
Qed.

Ltac callback_refused := eexists _, _; do 4 (split; [by try apply alone_working|]); by eauto.
Lemma callback_run self provider_name event_id id changes d : alone self d ->
  voice_violated (tb_tables d) = None ->
  exists r d', run (sql_apply_callback new_id self provider_name event_id id changes) d = Some (r, d') /\
    tb_tables d' = tb_tables d /\ only self d' /\
    callback_outcome provider_name event_id id changes (tb_tables d) r (working self d').
Proof.
  intros Ha Hv. unfold sql_apply_callback, flushed. rewrite run_step, (only_unlocked _ _ _ (alone_only _ _ Ha)).
  rewrite (alone_working _ _ Ha), (alone_txn _ _ Ha). pose proof (alone_only _ _ Ha) as Ho.
  assert (forall t, only self (set_txn no_voice_objects self t d)) as Hset
    by by intros t; destruct d as [ts o]; apply (only_insert _ _ ts).
  assert (held_row id (tb_tables d) (tx_objects (new_txn no_voice_objects)) = attempt_row id (tb_tables d)) as ->
    by (unfold held_row; cbn; by rewrite lookup_empty).
  destruct (changes_json changes) as [payload|e] eqn:Ej; cbn; [|callback_refused].
  destruct (attempt_row id (tb_tables d)) as [row|] eqn:Erow; cbn.
  - rewrite orb_false_r. case_bool_decide as Hrec; cbn.
    + rewrite Hv. eexists _, _. split; [done|]. split; [done|]. split; [apply Hset|]. rewrite set_txn_working. cbn.
      rewrite (alone_txn _ _ Ha). by split; [|left].
    + destruct (row_changes _ row) as [new|e] eqn:Enew; cbn;
        [|callback_refused].
      destruct (voice_violated (update_attempt _ _ _)) eqn:Ev;
        [callback_refused|].
      eexists _, _. split; [done|]. split; [done|]. split; [apply Hset|]. split; [done|].
      rewrite (update_is_put id (tb_tables d)) in Ev by (done || by eapply row_changes_fields).
      rewrite set_txn_working. cbn. rewrite (alone_txn _ _ Ha). cbn.
      rewrite (update_is_put id (tb_tables d)) by (done || by eapply row_changes_fields).
      eexists row, new, _. split; [exact Erow|]. split; [done|]. split; [exact Enew|]. by split; [|split].
  - rewrite orb_true_r. cbn. rewrite Hv. eexists _, _. split; [done|]. split; [done|]. split; [apply Hset|]. rewrite set_txn_working. cbn.
    rewrite (alone_txn _ _ Ha). by split; [|right].
Qed.

(** ** Statuses of the telephone provider *)

(** What a status says of a call: the call id and the duration always, the status and the
    disposition only where the call moves forward. *)
Definition reported (normalized : string) (duration : option Z) (call_id : option string)
    (row : VoiceContactAttemptRecord) : VoiceContactAttemptRecord :=
  let moved := if can_advance_voice_status (vr_status row) normalized
               then row <| vr_status := normalized |>
                        <| vr_disposition ::= fun d => if mem normalized VOICE_TERMINAL_STATUSES
                                                       then Some normalized else d |>
               else row in
  moved <| vr_duration_seconds ::= fun d => match duration with Some n => Some (clamp 0 180 n) | None => d end |>
        <| vr_provider_call_id ::= fun c => if truthy call_id then call_id else c |>.

Definition status_changes (normalized : string) (duration : option Z) (call_id : option string)
  : list voice_change :=
  SetStatus normalized
  :: (match duration with Some n => [SetDuration (clamp 0 180 n)] | None => [] end)
  ++ (if mem normalized VOICE_TERMINAL_STATUSES then [SetDisposition normalized] else [])
  ++ (if truthy call_id then [SetProviderCallId (default "" call_id)] else []).

Lemma status_changes_reported normalized duration call_id row :
  let cs := status_changes normalized duration call_id in
  row_changes (if status_can_advance (vr_status row) cs then cs else List.filter other_than_status cs) row
  = Ok (reported normalized duration call_id row).
Proof.
  cbv zeta. unfold reported, status_can_advance, status_changes. cbn [incoming_status omap list_omap head].
  destruct row, (can_advance_voice_status _ _), duration, (mem normalized _), call_id as [[|c s]|];
    reflexivity.
Qed.
Lemma status_changes_json normalized duration call_id :
  is_ok (changes_json (status_changes normalized duration call_id)) = true.
Proof. unfold status_changes. by destruct duration, (mem normalized _), call_id as [[|c s]|]. Qed.

(** A status that never goes back. *)
Definition forward (old new : string) : Prop :=
  (old ∈ VOICE_TERMINAL_STATUSES -> new = old) /\
  (old ∈ map fst VOICE_STATUS_RANK -> new ∈ VOICE_TERMINAL_STATUSES \/ status_rank old <= status_rank new).
#[export] Instance forward_dec old new : Decision (forward old new).
Proof. unfold forward. apply _. Defined.
Lemma normalized_forward status normalized old : normalize_voice_status status = Ok normalized ->
  can_advance_voice_status old normalized = true -> forward old normalized.
Proof.
  intros Hn Hc.
  assert (normalized ∈ map snd VOICE_STATUS_ALIASES) as Hin.
  { unfold normalize_voice_status, lookup_str in Hn.
    destruct (List.find _ _) as [p|] eqn:E; [|done]. injection Hn as <-.
    apply List.find_some in E as [Hin _]. apply list_elem_of_fmap. exists p. by rewrite list_elem_of_In. }
  assert (old ∉ VOICE_TERMINAL_STATUSES ++ map fst VOICE_STATUS_RANK
          \/ old ∈ VOICE_TERMINAL_STATUSES ++ map fst VOICE_STATUS_RANK) as [Hout|Hold]
    by (destruct (decide (old ∈ VOICE_TERMINAL_STATUSES ++ map fst VOICE_STATUS_RANK)); auto).
  - rewrite elem_of_app in Hout. unfold forward. tauto.
  - assert (forall o n, o ∈ VOICE_TERMINAL_STATUSES ++ map fst VOICE_STATUS_RANK ->
      n ∈ map snd VOICE_STATUS_ALIASES -> can_advance_voice_status o n = true -> forward o n) as Hall; [|auto].
    intros o n Ho Hn' Hadv.
    enough (forallb (fun o => forallb (fun n => negb (can_advance_voice_status o n) || bool_decide (forward o n))
      (map snd VOICE_STATUS_ALIASES)) (VOICE_TERMINAL_STATUSES ++ map fst VOICE_STATUS_RANK) = true) as Hb.
    { rewrite forallb_forall in Hb. specialize (Hb o (proj1 (list_elem_of_In _ _) Ho)). cbv beta in Hb.
      rewrite forallb_forall in Hb. specialize (Hb n (proj1 (list_elem_of_In _ _) Hn')). cbv beta in Hb.
      rewrite Hadv in Hb. by apply bool_decide_eq_true in Hb. }
    by vm_compute.
Qed.
Lemma reported_forward status normalized duration call_id row : normalize_voice_status status = Ok normalized ->
  forward (vr_status row) (vr_status (reported normalized duration call_id row)).
Proof.
  intros Hn. unfold reported. destruct (can_advance_voice_status _ _) eqn:E; cbn.
  - by eapply normalized_forward.
  - by split; [|right].
Qed.

(** A request made of one callback. *)
Lemma callback_request_run self provider_name event_id id changes (w : W) :
  tb_open (vw_store w) = ∅ -> voice_violated (tables w) = None ->
  exists r d', run (in_store (sql_apply_callback new_id self provider_name event_id id changes))
                 (with_store (fresh_session self (vw_store w)) w) = Some (r, with_store d' w) /\
    tb_tables d' = tables w /\ only self d' /\ callback_outcome provider_name event_id id changes (tables w) r (working self d').
Proof.
  intros Hopen Hv.
  destruct (callback_run self provider_name event_id id changes (fresh_session self (vw_store w)))
    as (r & d' & Hr & Ht & Ho & Hout); [by apply fresh_alone|done|].
  exists r, d'. split; [|by split; [|split]]. rewrite run_in_store.
  change (vw_store (with_store ?d w)) with d. by rewrite Hr.
Qed.

Lemma committed_outcome self (d : voice_db) t' : working self d = t' -> voice_violated t' = None ->
  exists d', committed voice_violated no_voice_objects self d = (Ok tt, d') /\ tb_tables d' = t'.
Proof. intros <- Hv. unfold committed. rewrite Hv. by eexists. Qed.


(** ** Opting out *)

Definition suppression_of (merchant_id customer_id : string) (t : voice_tables) : option VoiceSuppressionRecord :=
  row_where (fun r => eqs (vsp_merchant_id r) merchant_id && eqs (vsp_customer_id r) customer_id)
    (vt_suppressions t).
(** The customer of an attempt is suppressed; [fresh] when it was not so before. *)
Definition suppressed_for (a : VoiceAttempt) (utc_now : Z) (fresh : bool) (t : voice_tables) : Prop :=
  suppression_of (va_merchant_id a) (va_customer_id a) t <> None /\
  (fresh = true ->
   (forall c, c ∈ db_customers (vt_db t) -> cus_id c = va_customer_id a -> cus_opted_out_at c = Some utc_now) /\
   (forall c, c ∈ db_cases (vt_db t) -> rc_id c = va_case_id a ->
      rc_contact_disposition c = ContactDisposition.OPTED_OUT)).

Lemma row_where_added {R} (p : R -> bool) rows r : p r = true -> row_where p (rows ++ [r]) <> None.
Proof.
  intros Hp Hn. pose proof (row_where_None _ _ r Hn) as Hf. rewrite Hp in Hf.
  discriminate Hf. apply elem_of_app. right. by left.
Qed.

Lemma suppress_run self a reason utc_now d : only self d -> voice_violated (working self d) = None ->
  exists r d', run (sql_suppress new_id self a reason utc_now) d = Some (r, d') /\
    match r with
    | Err e => (exists c, e = IntegrityError c) /\ tb_tables d' = tb_tables d
    | Ok fresh => voice_violated (working self d') = None /\ suppressed_for a utc_now fresh (working self d') /\
                  vt_attempts (working self d') = vt_attempts (working self d) /\
                  vt_receipts (working self d') = vt_receipts (working self d)
    end.
Proof.
  intros Ho Hv. unfold sql_suppress, Transactions.written. rewrite run_step, (only_unlocked _ _ _ Ho).
  fold (suppression_of (va_merchant_id a) (va_customer_id a) (working self d)).
  case_bool_decide as Hsup.
  - match goal with |- context [match voice_violated ?t with _ => _ end] => destruct (voice_violated t) eqn:Ev end;
      eexists _, _; (split; [done|]); [by split; [eexists|]|].
    unfold Transactions.working, txn_of. cbn. rewrite lookup_insert_eq. cbn. split; [exact Ev|].
    split; [|done]. split.
    + apply row_where_added. cbn. by rewrite !(proj2 (bool_decide_eq_true _)).
    + intros _. split; intros c (c0 & _ & ->)%elem_of_update_where; case_match eqn:E; intros Hid; cbn; try done;
        apply bool_decide_eq_false in E; congruence.
  - eexists _, _. split; [done|]. rewrite set_txn_working. cbn. by split.
Qed.

Lemma run_try_call {A} (call : stx P A) noted (w : W) :
  run (proc_try (call_provider call noted)) w =
  let '(r, p) := call (vw_provider w) in
  Some (Ok r, w <| vw_provider := p |> <| vw_calls ::= fun l => (l ++ [noted r])%list |>).
Proof.
  unfold proc_try, call_provider. rewrite run_then, run_await. by destruct (call _).
Qed.

Lemma put_row_found id new t row : attempt_row id t = Some row -> vr_id new = id ->
  attempt_row id (put_row id new t) = Some new.
Proof.
  unfold attempt_row, put_row. cbn. unfold row_where, update_where.
  induction (vt_attempts t) as [|r l IH]; [done|]. cbn. destruct (eqs (vr_id r) id) eqn:E; cbn.
  - intros _ Hid. by rewrite (proj2 (bool_decide_eq_true _)).
  - rewrite E. exact IH.
Qed.

Definition live_changes (confidence : option Z) : list voice_change :=
  [SetDetectedIntent "OPT_OUT"; SetDisposition "OPT_OUT"]
  ++ (match confidence with Some n => [SetConfidence (Some (clamp 0 10000 n))] | None => [] end).
Lemma live_changes_applied confidence row :
  exists new, row_changes (if status_can_advance (vr_status row) (live_changes confidence)
                           then live_changes confidence
                           else List.filter other_than_status (live_changes confidence)) row = Ok new /\
    vr_detected_intent new = Some "OPT_OUT" /\ vr_disposition new = Some "OPT_OUT" /\
    vr_merchant_id new = vr_merchant_id row /\ vr_customer_id new = vr_customer_id row /\
    vr_case_id new = vr_case_id row /\ vr_id new = vr_id row.
Proof. by destruct confidence; eexists. Qed.

End requests.

(** ** The requests tried *)

Abbreviation sample_on operation w :=
  (run (voice_request (repository := sample_sql_voice) 0%nat operation) (w : voice_world voice_db sample_calls)).
Definition sample_post_call : proc (voice_world voice_db sample_calls) bool :=
  apply_elevenlabs_post_call (repository := sample_sql_voice) 0%nat "e1" "k1" "never call again" "never call again"
    (Some "opt_out") (Some 9000) 42 true sample_noon (12 * hour).

Lemma disclosed_post_call_lost_witness : exists r w',
  sample_on sample_post_call (sample_called_world "IN_PROGRESS") = Some (r, w') /\
  (exists msg, r = Err (StatementError msg)) /\
  tb_tables (vw_store w') = tb_tables (vw_store (sample_called_world "IN_PROGRESS")).
Proof.
  destruct (observed_Some (fun r _ => is_ok r) (sample_on sample_post_call (sample_called_world "IN_PROGRESS")) false)
    as (r & w & E & _); [vm_compute; reflexivity|].
  exists r, w. split; [exact E|].
  destruct (disclosed_post_call_lost (P := sample_calls) (fun _ => "noon") sample_receipt_id 0%nat "e1" "k1"
    "never call again" "never call again" (Some "opt_out") (Some 9000) 42 sample_noon (12 * hour)
    (sample_called_world "IN_PROGRESS") r w) as (Hm & Ht & _); [vm_compute; reflexivity|exact E|].
  by split.
Defined.

Definition sample_status status : proc (voice_world voice_db sample_calls) bool :=
  apply_twilio_status (repository := sample_sql_voice) 0%nat "e1" "k1" status (Some 400) (Some "CA1").
Definition called_attempts (r : result bool) (w : voice_world voice_db sample_calls) :=
  (is_ok r, map (fun r => (vr_status r, vr_disposition r, vr_duration_seconds r, vr_provider_call_id r))
              (vt_attempts (tb_tables (vw_store w)))).


(** A status that comes late finds the call over. *)
Example late_status_ignored :
  observed called_attempts (sample_on (sample_status "ringing") (sample_called_world "COMPLETED"))
  = Some (true, [("COMPLETED", None, Some 180, Some "CA1")]).
Proof. vm_compute. reflexivity. Qed.

Definition sample_live_intent : proc (voice_world voice_db sample_calls) (VoiceIntent * bool * bool * bool) :=
  apply_live_intent (repository := sample_sql_voice) 0%nat "e1" "k1" " Opt_Out " (Some 12000) (12 * hour).
Definition customer_opted_out (w : voice_world voice_db sample_calls) : bool :=
  existsb (fun c => bool_decide (cus_opted_out_at c = Some (12 * hour))) (db_customers (vt_db (tb_tables (vw_store w)))).

