(* ===== verification/WorkerStore.v ===== *)
(** * The world of the production activities

    What [ProductionRecoveryActivityServices] of [worker/app/runtime.py] works on: the shared
    tables, the payment and voice providers, the row locks transactions hold between two
    awaits, the set of submissions in flight of each worker process, and the calls made to
    the payment provider so far, which only the theorems read. *)
From S2P Require Import Prelude Domain Entities Session CaseRepo NonceStore Activities VoicePorts.

#[export] Instance eta_consumption : Eta A2AMandateNonceConsumption := fun r =>
    {| co_nonce := co_nonce r; co_mandate_id := co_mandate_id r; co_claim_id := co_claim_id r;
     co_signer_key_id := co_signer_key_id r; co_task_id := co_task_id r; co_merchant_id :=
     co_merchant_id r; co_case_id := co_case_id r; co_customer_id := co_customer_id r;
     co_recovery_action_id := co_recovery_action_id r; co_failed_invoice_id :=
     co_failed_invoice_id r; co_exact_amount_paise := co_exact_amount_paise r; co_currency :=
     co_currency r; co_payment_surface_type := co_payment_surface_type r;
     co_payment_surface_reference := co_payment_surface_reference r; co_authorized_action :=
     co_authorized_action r; co_issued_at := co_issued_at r; co_expires_at := co_expires_at r;
     co_consumed_at := co_consumed_at r; co_execution_status := co_execution_status r;
     co_execution_claimed_at := co_execution_claimed_at r; co_executed_at := co_executed_at r |}.

(** A call to the payment provider with its outcome. *)
Inductive provider_call : Type :=
| Opened (request : OpenPaymentSurfaceRequest) (outcome : result PaymentSurfaceResult)
| LookedUp (reference_id : string) (outcome : result (option PaymentSurfaceResult))
| Revoked (provider_reference : string) (outcome : result string)
| Fetched (invoice_id : string).

Record world (P V : Type) : Type := {
  w_db : Db;
  w_consumptions : list A2AMandateNonceConsumption;
  w_provider : P;
  w_voice : V;
  w_fallback : MockServices;
  w_in_flight : gset (nat * string);
  w_locks : gset string;
  w_clock : datetime;
  w_utc : Z;
  w_reads : nat;
  w_calls : list provider_call;
}.
Arguments w_db {P V} w.
Arguments w_consumptions {P V} w.
Arguments w_provider {P V} w.
Arguments w_voice {P V} w.
Arguments w_fallback {P V} w.
Arguments w_in_flight {P V} w.
Arguments w_locks {P V} w.
Arguments w_clock {P V} w.
Arguments w_utc {P V} w.
Arguments w_reads {P V} w.
Arguments w_calls {P V} w.
#[export] Instance eta_world P V : Eta (world P V) := fun w =>
  {| w_db := w_db w; w_consumptions := w_consumptions w; w_provider := w_provider w;
     w_voice := w_voice w; w_fallback := w_fallback w; w_in_flight := w_in_flight w;
     w_locks := w_locks w; w_clock := w_clock w; w_utc := w_utc w; w_reads := w_reads w;
     w_calls := w_calls w |}.

Section world.
Context {P V : Type}.
Abbreviation W := (world P V).

(** One transaction's changes, all applied or none. *)
Definition commit_changes (db : Db -> Db)
    (auth : list A2AMandateNonceConsumption -> list A2AMandateNonceConsumption) : stx W unit := fun w =>
  match violated (db (w_db w)) with
  | Some c => (Err (IntegrityError c), w)
  | None => (Ok tt, w <| w_db ::= db |> <| w_consumptions ::= auth |>)
  end.

(** A call of the payment provider, noted. *)
Definition ask {A} (call : stx P A) (noted : result A -> provider_call) : stx W A := fun w =>
  let '(r, p) := call (w_provider w) in
  (r, w <| w_provider := p |> <| w_calls ::= fun l => (l ++ [noted r])%list |>).

(** The rows a transaction must lock are free. *)
Definition free (ids : W -> list string) (w : W) : bool :=
  forallb (fun i => bool_decide (i ∉ w_locks w)) (ids w).
Definition lock_rows (ids : list string) : stx W unit :=
  modS (fun w => w <| w_locks ::= union (list_to_set ids) |>).
Definition unlock_rows (ids : list string) : stx W unit :=
  modS (fun w => w <| w_locks ::= fun l => l ∖ list_to_set ids |>).

(** The clock of the services, on a timestamp column. *)
Definition bound_clock : stx W Z := fun w => (bind_utc (w_clock w), w).

(** [UPDATE recovery_actions SET ... WHERE id = action_id] *)
Definition set_action (action_id : string) (f : RecoveryActionRecord -> RecoveryActionRecord) (d : Db) : Db :=
  d <| db_actions ::= update_where (fun a => eqs (act_id a) action_id) f |>.

(** The row [session.get(RecoveryActionRecord, action_id)] returns. *)
Definition get_action (action_id : string) (d : Db) : option RecoveryActionRecord :=
  row_where (fun a => eqs (act_id a) action_id) (db_actions d).

(** [session.scalar(select(A2AMandateNonceConsumption).where(recovery_action_id == ...))] and
    the assignment of what it returns. *)
Definition set_authorization (action_id : string)
    (f : A2AMandateNonceConsumption -> A2AMandateNonceConsumption)
    (rows : list A2AMandateNonceConsumption) : list A2AMandateNonceConsumption :=
  match row_where (fun r => eqs (co_recovery_action_id r) (Some action_id)) rows with
  | Some row => store_row co_nonce (f row) rows
  | None => rows
  end.

(** A recovery action joined with its policy decisions and its case. *)
Record action_scope : Type := {
  asc_action : RecoveryActionRecord; asc_policy : PolicyDecisionRecord; asc_case : RecoveryCase;
}.
Definition action_scopes (d : Db) : list action_scope :=
  a ← db_actions d;
  c ← rows_where (fun c => eqs (rc_id c) (act_case_id a)) (db_cases d);
  p ← rows_where (fun p => eqs (pol_action_id p) (Some (act_id a))) (db_policies d);
  [{| asc_action := a; asc_policy := p; asc_case := c |}].

Lemma elem_of_action_scopes d s : s ∈ action_scopes d <->
  asc_action s ∈ db_actions d /\ asc_case s ∈ db_cases d /\ asc_policy s ∈ db_policies d
  /\ rc_id (asc_case s) = act_case_id (asc_action s)
  /\ pol_action_id (asc_policy s) = Some (act_id (asc_action s)).
Proof.
  unfold action_scopes. rewrite list_elem_of_bind. split.
  - intros (a & Ha & Hin). apply list_elem_of_bind in Ha as (c & Ha & Hc).
    apply list_elem_of_bind in Ha as (p & Ha & Hp). apply list_elem_of_singleton in Ha as ->.
    apply elem_of_rows_where in Hc as [? Hc], Hp as [? Hp]. cbn. by bools.
  - intros (Ha & Hc & Hp & Ec & Ep). exists (asc_action s). split; [|done].
    apply list_elem_of_bind. exists (asc_case s).
    split; [|apply elem_of_rows_where; by rewrite bool_decide_eq_true].
    apply list_elem_of_bind. exists (asc_policy s).
    split; [by destruct s; left|apply elem_of_rows_where; by rewrite bool_decide_eq_true].
Qed.
End world.
