(* ===== verification/PaymentClaims.v ===== *)
(** * Claims and settlements of payment actions

    The durable half of [worker/app/runtime.py]: a delivery claims its action before it may
    call a provider, and settles it afterwards.  Each function here that takes a world is one
    transaction; the coroutines that combine them are in [PaymentActions]. *)
From S2P Require Import Prelude Procs Domain Json JsonText Contracts Entities Session CaseRepo A2AModels NonceStore Mandates Activities VoicePorts A2ARuntime WorkerStore.

(** ** Answers *)

Definition rejected (reason_code : string) : ActionExecutionResult := {|
  ae_status := "REJECTED"; ae_provider := "none"; ae_provider_reference := None;
  ae_customer_url := None; ae_reason_code := Some reason_code |}.
Definition uncertain (provider : string) (reference : option string) (reason_code : string)
  : ActionExecutionResult := {|
  ae_status := "UNCERTAIN"; ae_provider := provider; ae_provider_reference := reference;
  ae_customer_url := None; ae_reason_code := Some reason_code |}.
Definition already_executed (action : RecoveryActionRecord) : ActionExecutionResult := {|
  ae_status := "SUCCEEDED"; ae_provider := "persisted";
  ae_provider_reference := act_external_reference action;
  ae_customer_url := act_customer_url action; ae_reason_code := Some "ALREADY_EXECUTED" |}.
Definition opened_answer (surface : PaymentSurfaceResult) (reason_code : option string)
  : ActionExecutionResult := {|
  ae_status := "SUCCEEDED"; ae_provider := psf_provider surface;
  ae_provider_reference := Some (psf_provider_reference surface);
  ae_customer_url := Some (psf_customer_url surface); ae_reason_code := reason_code |}.

(** src/services/worker/app/runtime.py:87-90 [_PaymentActionClaim]: or the answer of a delivery
    that claims nothing. *)
Inductive claim : Type :=
| Answer (answer : ActionExecutionResult)
| Claimed (action : RecoveryActionRecord) (reconcile_before_submission : bool).

(** src/services/worker/app/runtime.py:260-265 [ProductionRecoveryActivityServices._effective_delay] *)
Definition effective_delay (action : RecoveryActionRecord) (policy : PolicyDecisionRecord) : option Z :=
  match act_scheduled_for action, pol_delay_until policy with
  | Some a, Some b => Some (Z.max a b)
  | Some a, None => Some a
  | None, b => b
  end.
Definition not_due (action : RecoveryActionRecord) (policy : PolicyDecisionRecord) (now : Z) : bool :=
  match effective_delay action policy with Some due_at => now <? due_at | None => false end.

(** src/services/worker/app/runtime.py:555-557 [ProductionRecoveryActivityServices._standard_payment_link_reference] *)
Definition standard_payment_link_reference `{Crypto} (idempotency_key : string) : string :=
  "rec_" +++ str_take 32 (sha256_hex idempotency_key).

(** src/services/worker/app/runtime.py:774-778 [ProductionRecoveryActivityServices._claim_payment_action] *)
Definition claimable_statuses (disposition : PolicyDisposition) : list ActionStatus :=
  match disposition with
  | PolicyDisposition.ALLOW => [ActionStatus.PROPOSED; ActionStatus.SCHEDULED]
  | PolicyDisposition.DELAY | PolicyDisposition.REQUIRE_MANUAL_APPROVAL => [ActionStatus.SCHEDULED]
  | PolicyDisposition.BLOCK => []
  end.

Definition clock_error : exn := ValueError "activity clock must return an offset-aware instant".

Section claims.
Context {P V : Type}.
Abbreviation W := (world P V).

(** ** The claim of a payment action *)

(** src/services/worker/app/runtime.py:709-726 [ProductionRecoveryActivityServices._claim_payment_action] *)
Definition payment_scope (command : ExecuteActionInput) (surface_type : PaymentSurfaceType) (d : Db)
  : option action_scope :=
  first_by (fun s => act_created_at (asc_action s)) (cmp_opp Z.compare)
    (rows_where (fun s =>
       eqs (act_case_id (asc_action s)) (ea_case_id command)
       && eqs (rc_merchant_id (asc_case s)) (ea_merchant_id command)
       && eqs (act_action_type (asc_action s)) RecoveryActionType.OPEN_CUSTOMER_PAYMENT_SURFACE
       && eqs (act_payment_surface_type (asc_action s)) (Some surface_type)) (action_scopes d)).

(** src/services/worker/app/runtime.py:798-811 [ProductionRecoveryActivityServices._claim_payment_action]:
    the guard of the conditional update. *)
Definition claim_guard (action : RecoveryActionRecord) (claimed_at : Z) (row : RecoveryActionRecord) : bool :=
  eqs (act_id row) (act_id action) && eqs (act_status row) (act_status action)
  && null_or (fun at_ => at_ <=? claimed_at) (act_scheduled_for row).

(** src/services/worker/app/runtime.py:812-838 [ProductionRecoveryActivityServices._claim_payment_action]:
    the conditional update found no row. *)
Definition lost_claim (process : nat) (surface_type : PaymentSurfaceType) (action_id : string) (w : W)
  : claim :=
  match get_action action_id (w_db w) with
  | Some current =>
      if eqs (act_status current) ActionStatus.SUCCEEDED then Answer (already_executed current)
      else if eqs (act_status current) ActionStatus.EXECUTING
              && bool_decide ((process, act_id current) ∉ w_in_flight w)
              && eqs surface_type PaymentSurfaceType.STANDARD_PAYMENT_LINK
      then Claimed current true
      else Answer (uncertain "unknown" (act_external_reference current) "SUBMISSION_RECONCILIATION_REQUIRED")
  | None => Answer (uncertain "unknown" None "SUBMISSION_RECONCILIATION_REQUIRED")
  end.

(** src/services/worker/app/runtime.py:786-844 [ProductionRecoveryActivityServices._claim_payment_action]:
    the check of the due time and the conditional update. *)
Definition claim_due (process : nat) (surface_type : PaymentSurfaceType) (action : RecoveryActionRecord)
    (policy : PolicyDecisionRecord) : stx W claim := fun w =>
  if negb (is_aware (w_clock w)) then (Err clock_error, w)
  else
    let claimed_at := dt_instant (w_clock w) in
    if not_due action policy claimed_at then (Ok (Answer (rejected "ACTION_NOT_DUE")), w)
    else if existsb (claim_guard action claimed_at) (db_actions (w_db w)) then
      (_ ← commit_changes
             (fun d => d <| db_actions ::= update_where (claim_guard action claimed_at)
                (fun a => a <| act_status := ActionStatus.EXECUTING |> <| act_updated_at := claimed_at |>) |>)
             id;
       mret (Claimed (action <| act_status := ActionStatus.EXECUTING |>) false)) w
    else (Ok (lost_claim process surface_type (act_id action) w), w).

(** src/services/worker/app/runtime.py:696-844 [ProductionRecoveryActivityServices._claim_payment_action]:
    a delivery without a mandate. *)
Definition claim_payment_action (process : nat) (command : ExecuteActionInput)
    (surface_type : PaymentSurfaceType) : stx W claim := fun w =>
  match payment_scope command surface_type (w_db w) with
  | None => (Ok (Answer (rejected "PERSISTED_POLICY_NOT_FOUND")), w)
  | Some row =>
      let action := asc_action row in
      let policy := asc_policy row in
      let reference := act_external_reference action in
      match act_status action with
      | ActionStatus.SUCCEEDED => (Ok (Answer (already_executed action)), w)
      | ActionStatus.EXECUTING =>
          if bool_decide ((process, act_id action) ∈ w_in_flight w) then
            (Ok (Answer (uncertain "unknown" reference "SUBMISSION_RECONCILIATION_REQUIRED")), w)
          else if eqs surface_type PaymentSurfaceType.STANDARD_PAYMENT_LINK then
            (Ok (Claimed action true), w)
          else (Ok (Answer (uncertain "unknown" reference "SUBMISSION_RECONCILIATION_REQUIRED")), w)
      | _ =>
          if eqs (pol_disposition policy) PolicyDisposition.BLOCK then
            (Ok (Answer (rejected "POLICY_BLOCKED")), w)
          else if eqs (act_status action) ActionStatus.CANCELLED then
            (Ok (Answer (rejected "ACTION_CANCELLED")), w)
          else if negb (mem (act_status action) (claimable_statuses (pol_disposition policy))) then
            (Ok (Answer (rejected "ACTION_NOT_AUTHORIZED")), w)
          else claim_due process surface_type action policy w
      end
  end.

Definition payment_rows (command : ExecuteActionInput) (surface_type : PaymentSurfaceType) (w : W)
  : list string :=
  match payment_scope command surface_type (w_db w) with
  | Some row => [act_id (asc_action row)]
  | None => []
  end.

(** ** The claim of an action a customer agent authorized *)

Section a2a.
Context `{Crypto}.
Context (iso : datetime -> string) (float_repr : Q -> string).
Context (pyd_int : json -> option Z) (pyd_datetime : json -> option datetime).
Context (fromisoformat : string -> result datetime).

(** src/services/worker/app/runtime.py:102-106 [_instant] *)
Definition instant (value : string) : result datetime :=
  parsed ← fromisoformat (replace_z value);
  _ ← raise_if (negb (is_aware parsed)) (ValueError "activity timestamp must include a UTC offset");
  mret parsed.

(** The nine fields a scope pins, compared as a tuple. *)
Record payment_scope_tuple : Type := {
  pt_recovery_action_id : option string; pt_failed_invoice_id : option string; pt_case_id : string;
  pt_merchant_id : string; pt_customer_id : option string; pt_exact_amount_paise : option Z;
  pt_currency : option string; pt_surface_type : option string; pt_surface_reference : option string;
}.
#[export] Instance payment_scope_tuple_eq_dec : EqDecision payment_scope_tuple.
Proof. solve_decision. Defined.

(** src/services/worker/app/runtime.py:873-883 [ProductionRecoveryActivityServices._claim_a2a_payment_action] *)
Definition command_scope (command : ExecuteActionInput) (surface_type : PaymentSurfaceType)
  : payment_scope_tuple := {|
  pt_recovery_action_id := ea_recovery_action_id command;
  pt_failed_invoice_id := ea_failed_invoice_id command; pt_case_id := ea_case_id command;
  pt_merchant_id := ea_merchant_id command; pt_customer_id := Some (ea_customer_id command);
  pt_exact_amount_paise := Some (ea_amount_paise command); pt_currency := Some (ea_currency command);
  pt_surface_type := Some (PaymentSurfaceType_value surface_type);
  pt_surface_reference := or_str (ea_provider_invoice_id command) (ea_failed_invoice_id command) |}.

(** src/services/worker/app/runtime.py:884-894 [ProductionRecoveryActivityServices._claim_a2a_payment_action] *)
Definition signed_scope (data : RecoveryMandateData) : payment_scope_tuple := {|
  pt_recovery_action_id := Some (md_recovery_action_id data);
  pt_failed_invoice_id := Some (md_failed_invoice_id data); pt_case_id := md_case_id data;
  pt_merchant_id := md_merchant_id data; pt_customer_id := Some (md_customer_id data);
  pt_exact_amount_paise := Some (md_exact_amount_paise data); pt_currency := Some (md_currency data);
  pt_surface_type := Some (md_payment_surface_type data);
  pt_surface_reference := Some (md_payment_surface_reference data) |}.

(** src/services/worker/app/runtime.py:940-950 [ProductionRecoveryActivityServices._claim_a2a_payment_action] *)
Definition persisted_scope (row : A2AMandateNonceConsumption) : payment_scope_tuple := {|
  pt_recovery_action_id := co_recovery_action_id row; pt_failed_invoice_id := co_failed_invoice_id row;
  pt_case_id := co_case_id row; pt_merchant_id := co_merchant_id row; pt_customer_id := co_customer_id row;
  pt_exact_amount_paise := co_exact_amount_paise row; pt_currency := co_currency row;
  pt_surface_type := co_payment_surface_type row; pt_surface_reference := co_payment_surface_reference row |}.

(** The rows of the join. *)
Record a2a_scope : Type := {
  a2_scope : action_scope; a2_invoice : Invoice; a2_authorization : A2AMandateNonceConsumption;
}.

(** src/services/worker/app/runtime.py:951-961 [ProductionRecoveryActivityServices._claim_a2a_payment_action] *)
Definition current_scope (row : a2a_scope) (surface_type : PaymentSurfaceType) : payment_scope_tuple :=
  let c := asc_case (a2_scope row) in {|
  pt_recovery_action_id := Some (act_id (asc_action (a2_scope row)));
  pt_failed_invoice_id := Some (inv_id (a2_invoice row)); pt_case_id := rc_id c;
  pt_merchant_id := rc_merchant_id c; pt_customer_id := Some (rc_customer_id c);
  pt_exact_amount_paise := Some (rc_amount_at_risk_paise c);
  pt_currency := Some (inv_currency (a2_invoice row));
  pt_surface_type := Some (PaymentSurfaceType_value surface_type);
  pt_surface_reference := Some (inv_provider_invoice_id (a2_invoice row)) |}.

(** src/services/worker/app/runtime.py:903-931 [ProductionRecoveryActivityServices._claim_a2a_payment_action] *)
Definition a2a_scopes (command : ExecuteActionInput) (data : RecoveryMandateData) (w : W) : list a2a_scope :=
  s ← rows_where (fun s => eqs (Some (act_id (asc_action s))) (ea_recovery_action_id command)
                           && eqs (act_case_id (asc_action s)) (ea_case_id command)
                           && eqs (pol_case_id (asc_policy s)) (ea_case_id command))
        (action_scopes (w_db w));
  i ← rows_where (fun i => eqs (Some (inv_id i)) (rc_failed_invoice_id (asc_case s))) (db_invoices (w_db w));
  r ← rows_where (fun r => eqs (co_recovery_action_id r) (Some (act_id (asc_action s)))
                           && eqs (co_mandate_id r) (md_mandate_id data)
                           && eqs (co_claim_id r) (Some (sha256_hex (canonical_json iso float_repr data))))
        (w_consumptions w);
  [{| a2_scope := s; a2_invoice := i; a2_authorization := r |}].

(** src/services/worker/app/runtime.py:962-981 [ProductionRecoveryActivityServices._claim_a2a_payment_action]:
    the operands before and after the reading of the deadline, which may raise. *)
Definition a2a_unsafe (command : ExecuteActionInput) (surface_type : PaymentSurfaceType)
    (data : RecoveryMandateData) (now : Z) (row : a2a_scope) : result bool :=
  let c := asc_case (a2_scope row) in
  let i := a2_invoice row in
  let authorization := a2_authorization row in
  if negb (eqs (persisted_scope authorization) (signed_scope data))
     || negb (eqs (current_scope row surface_type) (signed_scope data))
     || negb (eqs (co_task_id authorization) (Some (md_task_id data)))
     || negb (eqs (co_signer_key_id authorization) (md_signer_key_id data))
     || negb (eqs (co_authorized_action authorization) (Some "OPEN_EXACT_PAYMENT_SURFACE"))
     || negb (eqs (co_issued_at authorization) (Some (dt_instant (md_issued_at data))))
     || negb (eqs (co_expires_at authorization) (dt_instant (md_expires_at data)))
     || (dt_instant (md_expires_at data) <=? now)
     || (rc_recovery_deadline c <? dt_instant (md_expires_at data))
  then Ok true
  else
    deadline ← instant (ea_recovery_deadline command);
    mret (negb (eqs (dt_instant deadline) (rc_recovery_deadline c))
          || negb (inv_amount_paise i - inv_amount_paid_paise i =? md_exact_amount_paise data)
          || negb (eqs (rc_case_outcome c) CaseOutcome.OPEN)
          || eqs (rc_payment_state c) PaymentState.CAPTURED
          || rc_case_recovered c
          || negb (eqs (act_action_type (asc_action (a2_scope row))) RecoveryActionType.SEND_TO_CUSTOMER_AGENT)
          || negb (mem (pol_disposition (asc_policy (a2_scope row)))
                     [PolicyDisposition.ALLOW; PolicyDisposition.DELAY])).

(** src/services/worker/app/runtime.py:989-1045 [ProductionRecoveryActivityServices._claim_a2a_payment_action] *)
Definition claim_authorized (surface_type : PaymentSurfaceType) (now : Z) (row : a2a_scope) : stx W claim :=
  let action := asc_action (a2_scope row) in
  let authorization := a2_authorization row in
  if eqs (act_status action) ActionStatus.SUCCEEDED then mret (Answer (already_executed action))
  else if eqs (act_status action) ActionStatus.CANCELLED then mret (Answer (rejected "ACTION_CANCELLED"))
  else if mem (co_execution_status authorization) ["EXECUTING"; "UNCERTAIN"] then
    if eqs surface_type PaymentSurfaceType.STANDARD_PAYMENT_LINK then mret (Claimed action true)
    else mret (Answer (uncertain "unknown" (act_external_reference action)
                         "SUBMISSION_RECONCILIATION_REQUIRED"))
  else if eqs (co_execution_status authorization) "SUCCEEDED" then
    mret (Answer (already_executed action))
  else if negb (eqs (co_execution_status authorization) "AUTHORIZED") then
    mret (Answer (rejected "A2A_AUTHORIZATION_NOT_EXECUTABLE"))
  else if negb (mem (act_status action) [ActionStatus.PROPOSED; ActionStatus.SCHEDULED]) then
    mret (Answer (rejected "ACTION_NOT_AUTHORIZED"))
  else if not_due action (asc_policy (a2_scope row)) now then
    mret (Answer (rejected "ACTION_NOT_DUE"))
  else
    let claim_row (a : RecoveryActionRecord) := a <| act_status := ActionStatus.EXECUTING |> <| act_updated_at := now |> in
    _ ← commit_changes (set_action (act_id action) claim_row)
          (store_row co_nonce (authorization <| co_execution_status := "EXECUTING" |>
                                             <| co_execution_claimed_at := Some now |>));
    mret (Claimed (claim_row action) false).

(** src/services/worker/app/runtime.py:846-1045 [ProductionRecoveryActivityServices._claim_a2a_payment_action] *)
Definition claim_a2a_payment_action (command : ExecuteActionInput) (mandate : json)
    (surface_type : PaymentSurfaceType) : stx W claim := fun w =>
  if negb (bool_decide (is_Some (ea_recovery_action_id command)))
     || negb (bool_decide (is_Some (ea_failed_invoice_id command))) then
    (Ok (Answer (rejected "A2A_DURABLE_SCOPE_MISSING")), w)
  else
    match parse_signed_mandate pyd_int pyd_datetime mandate with
    | Err _ => (Ok (Answer (rejected "A2A_MANDATE_MALFORMED")), w)
    | Ok signed =>
        let data := sm_data signed in
        if negb (is_aware (w_clock w)) then (Err clock_error, w)
        else if negb (eqs (signed_scope data) (command_scope command surface_type)) then
          (Ok (Answer (rejected "A2A_MANDATE_COMMAND_SCOPE_MISMATCH")), w)
        else
          match head (a2a_scopes command data w) with
          | None => (Ok (Answer (rejected "A2A_VERIFIED_AUTHORIZATION_NOT_FOUND")), w)
          | Some row =>
              let now := dt_instant (w_clock w) in
              (unsafe ← lift (a2a_unsafe command surface_type data now row);
               if (unsafe : bool) then mret (Answer (rejected "A2A_AUTHORIZATION_STALE_OR_MISMATCHED"))
               else claim_authorized surface_type now row) w
          end
    end.
End a2a.

(** ** Settlement *)

(** src/services/worker/app/runtime.py:586-598 [ProductionRecoveryActivityServices._persist_payment_surface]:
    the action and its authorization become SUCCEEDED together. *)
Definition settle (action_id : string) (surface : PaymentSurfaceResult) (completed_at : Z) : stx W unit :=
  commit_changes
    (set_action action_id (fun a =>
       a <| act_status := ActionStatus.SUCCEEDED |>
         <| act_external_reference := Some (psf_provider_reference surface) |>
         <| act_customer_url := Some (psf_customer_url surface) |>
         <| act_completed_at := Some completed_at |>))
    (set_authorization action_id (fun r =>
       r <| co_execution_status := "SUCCEEDED" |> <| co_executed_at := Some completed_at |>)).

(** src/services/worker/app/runtime.py:559-604 [ProductionRecoveryActivityServices._persist_payment_surface] *)
Definition persist_payment_surface (action_id : string) (surface : PaymentSurfaceResult)
  : stx W ActionExecutionResult := fun w =>
  let reference := Some (psf_provider_reference surface) in
  match get_action action_id (w_db w) with
  | None => (Ok (uncertain (psf_provider surface) reference "ACTION_RECORD_MISSING_AFTER_SUBMISSION"), w)
  | Some persisted =>
      if eqs (act_status persisted) ActionStatus.CANCELLED then
        (Ok {| ae_status := "REJECTED"; ae_provider := psf_provider surface;
               ae_provider_reference := reference; ae_customer_url := None;
               ae_reason_code := Some "ACTION_CANCELLED_AFTER_SUBMISSION" |}, w)
      else if eqs (act_status persisted) ActionStatus.SUCCEEDED then (Ok (already_executed persisted), w)
      else (_ ← settle action_id surface (w_utc w); mret (opened_answer surface None)) w
  end.

(** src/services/worker/app/runtime.py:622-650 [ProductionRecoveryActivityServices._reconcile_or_resume_standard_payment_link]:
    [None] when the row is locked for the lookup that follows. *)
Definition begin_reconciliation (action_id : string) (request : OpenPaymentSurfaceRequest)
  : stx W (option ActionExecutionResult) := fun w =>
  match get_action action_id (w_db w) with
  | None => (Ok (Some (uncertain "unknown" None "ACTION_RECORD_MISSING_DURING_RECONCILIATION")), w)
  | Some persisted =>
      if eqs (act_status persisted) ActionStatus.SUCCEEDED then (Ok (Some (already_executed persisted)), w)
      else if eqs (act_status persisted) ActionStatus.CANCELLED then
        (Ok (Some (rejected "ACTION_CANCELLED")), w)
      else if negb (eqs (act_status persisted) ActionStatus.EXECUTING) then
        (Ok (Some (uncertain "unknown" None "ACTION_STATE_CHANGED_DURING_RECONCILIATION")), w)
      else if negb (bool_decide (is_Some (op_reference_id request))) then
        (Err (AssertionError "request.reference_id is not None"), w)
      else (_ ← lock_rows [action_id]; mret None) w
  end.

(** src/services/worker/app/runtime.py:675-694 [ProductionRecoveryActivityServices._reconcile_or_resume_standard_payment_link] *)
Definition finish_reconciliation (action_id : string) (surface : PaymentSurfaceResult) (reason_code : string)
  : stx W ActionExecutionResult :=
  _ ← unlock_rows [action_id];
  completed_at ← bound_clock;
  _ ← settle action_id surface completed_at;
  mret (opened_answer surface (Some reason_code)).

(** ** Voice actions *)

(** src/services/worker/app/runtime.py:442-461 [ProductionRecoveryActivityServices._claim_voice_action] *)
Definition voice_scope (command : ExecuteActionInput) (d : Db) : option action_scope :=
  first_by (fun s => act_created_at (asc_action s)) (cmp_opp Z.compare)
    (rows_where (fun s =>
       eqs (act_case_id (asc_action s)) (ea_case_id command)
       && eqs (rc_merchant_id (asc_case s)) (ea_merchant_id command)
       && eqs (rc_customer_id (asc_case s)) (ea_customer_id command)
       && eqs (rc_subscription_id (asc_case s)) (ea_subscription_id command)
       && eqs (rc_amount_at_risk_paise (asc_case s)) (ea_amount_paise command)
       && eqs (act_action_type (asc_action s)) RecoveryActionType.START_VOICE) (action_scopes d)).
Definition voice_rows (command : ExecuteActionInput) (w : W) : list string :=
  match voice_scope command (w_db w) with Some row => [act_id (asc_action row)] | None => [] end.

(** [payload.get(key) == text] *)
Definition json_is (key text : string) (payload : json) : bool :=
  match json_get key payload with JStr s => eqs s text | _ => false end.

(** src/services/worker/app/runtime.py:475-491 [ProductionRecoveryActivityServices._claim_voice_action] *)
Definition voice_approved (case_id action_id : string) (d : Db) : bool :=
  existsb (fun e => is_dict (evr_payload e)
                    && json_is "action_id" action_id (evr_payload e)
                    && json_is "action_type" (RecoveryActionType_value RecoveryActionType.START_VOICE)
                         (evr_payload e))
    (rows_where (fun e => eqs (evr_case_id e) case_id && eqs (evr_event_type e) "ACTION_APPROVED"
                          && eqs (evr_source e) "operator") (db_events d)).

(** src/services/worker/app/runtime.py:498-535 [ProductionRecoveryActivityServices._claim_voice_action] *)
Definition claim_approved_voice (provider_ready : bool) (action : RecoveryActionRecord) : stx W claim :=
  match act_status action with
  | ActionStatus.SUCCEEDED =>
      mret (Answer (already_executed (action <| act_customer_url := None |>)))
  | ActionStatus.CANCELLED => mret (Answer (rejected "ACTION_CANCELLED"))
  | ActionStatus.EXECUTING =>
      if provider_ready then mret (Claimed action false)
      else mret (Answer (uncertain "unknown" (act_external_reference action)
                           "VOICE_SUBMISSION_RECONCILIATION_REQUIRED"))
  | ActionStatus.SCHEDULED =>
      if provider_ready then
        now ← bound_clock;
        let claim_row (a : RecoveryActionRecord) := a <| act_status := ActionStatus.EXECUTING |> <| act_updated_at := now |> in
        _ ← commit_changes (set_action (act_id action) claim_row) id;
        mret (Claimed (claim_row action) false)
      else mret (Answer (rejected "VOICE_PROVIDER_NOT_READY"))
  | _ => mret (Answer (rejected "VOICE_ACTION_NOT_MANUALLY_APPROVED"))
  end.

(** src/services/worker/app/runtime.py:433-535 [ProductionRecoveryActivityServices._claim_voice_action] *)
Definition claim_voice_action (command : ExecuteActionInput) (provider_ready : bool) : stx W claim := fun w =>
  match voice_scope command (w_db w) with
  | None => (Ok (Answer (rejected "VOICE_PERSISTED_POLICY_NOT_FOUND")), w)
  | Some row =>
      if negb (eqs (pol_disposition (asc_policy row)) PolicyDisposition.REQUIRE_MANUAL_APPROVAL) then
        (Ok (Answer (rejected "VOICE_MANUAL_APPROVAL_POLICY_REQUIRED")), w)
      else if negb (voice_approved (ea_case_id command) (act_id (asc_action row)) (w_db w)) then
        (Ok (Answer (rejected "VOICE_OPERATOR_APPROVAL_NOT_PERSISTED")), w)
      else claim_approved_voice provider_ready (asc_action row) w
  end.

(** src/services/worker/app/runtime.py:537-553 [ProductionRecoveryActivityServices._finalize_voice_action] *)
Definition finalize_voice_action (action_id : string) (status : ActionStatus)
    (provider_reference : option string) : stx W unit := fun w =>
  match get_action action_id (w_db w) with
  | None => (Ok tt, w)
  | Some action =>
      if eqs (act_status action) ActionStatus.SUCCEEDED then (Ok tt, w)
      else
        (completed_at ← (if eqs status ActionStatus.EXECUTING then mret None else Some <$> bound_clock);
         commit_changes (set_action action_id (fun a =>
           a <| act_status := status |> <| act_external_reference := provider_reference |>
             <| act_completed_at := completed_at |>)) id) w
  end.
End claims.
