(* ===== verification/PaymentActions.v ===== *)
(** * Production recovery activities

    [ProductionRecoveryActivityServices] of [worker/app/runtime.py]: the activities as
    coroutines over the world of [WorkerStore].  A coroutine gives way at every call of a
    provider and between transactions; a transaction that waits for a locked row is blocked. *)
From S2P Require Import Prelude Procs Domain Json JsonText Razorpay Decision Contracts Entities Session CaseRepo A2AModels NonceStore Mandates Activities VoicePorts A2ARuntime WorkerStore PaymentClaims.

(** ** Configuration *)

(** src/services/worker/app/runtime.py:98-99 [_enabled] *)
Definition enabled (getenv : string -> option string) (name default_ : string) : bool :=
  mem (str_lower (str_strip (default default_ (getenv name)))) ["1"; "true"; "yes"].

Inductive payment_provider_choice : Set := MockProvider | RazorpayProvider.
Inductive activity_services : Set :=
| MockActivities
| ProductionActivities (payment_provider : payment_provider_choice).

(** src/services/worker/app/runtime.py:109-137 [create_activity_services_from_env] *)
Definition create_activity_services_from_env (getenv : string -> option string) : result activity_services :=
  let setting name default_ := str_lower (str_strip (default default_ (getenv name))) in
  let mode := setting "RECOVERY_ACTIVITY_MODE" "mock" in
  if bool_decide (mode = "mock") then Ok MockActivities
  else
    _ ← raise_if (negb (bool_decide (mode = "production")))
          (RuntimeError "RECOVERY_ACTIVITY_MODE must be mock or production");
    _ ← raise_if (bool_decide (str_strip (default "" (getenv "DATABASE_URL")) = ""))
          (RuntimeError "production activities require DATABASE_URL");
    let provider_name := setting "PAYMENT_PROVIDER" "mock" in
    if bool_decide (provider_name = "mock") then mret (ProductionActivities MockProvider)
    else if bool_decide (provider_name = "razorpay") then
      _ ← raise_if (negb (enabled getenv "RECOVERY_ALLOW_REAL_PAYMENT_ACTIONS" "false"))
            (RuntimeError "Razorpay activities require RECOVERY_ALLOW_REAL_PAYMENT_ACTIONS=true");
      _ ← raise_if (negb (enabled getenv "RAZORPAY_TEST_MODE_REQUIRED" "true"))
            (RuntimeError "Razorpay production-mode keys are not supported");
      mret (ProductionActivities RazorpayProvider)
    else Err (RuntimeError "PAYMENT_PROVIDER must be mock or razorpay").

(** ** Scores and policies *)

(** src/services/worker/app/runtime.py:162-182 [ProductionRecoveryActivityServices.score_recovery] *)
Definition score_recovery (scorer : RecoveryScoreRequest -> result RecoveryScoreResult)
    (command : ScoreInput) : result ScoreResult :=
  let scored :=
    diagnosis ← Diagnosis_of (si_diagnosis command);
    candidate_action ← RecoveryActionType_of (si_candidate_action command);
    scorer {| Decision.rq_case_id := si_case_id command;
              rq_amount_at_risk_paise := si_amount_at_risk_paise command;
              rq_diagnosis := diagnosis; rq_candidate_action := candidate_action; rq_features := [] |} in
  match scored with
  | Ok result => Ok {|
      sr_model_name := rs_model_name result; sr_model_version := rs_model_version result;
      sr_recovery_probability := rs_recovery_probability result;
      sr_expected_recovered_paise := rs_expected_recovered_paise result;
      sr_expected_utility_paise := rs_expected_utility_paise result;
      sr_explanation := rs_explanation result |}
  | Err (ValueError _) | Err (FileNotFoundError _) => Ok (mock_score_recovery command)
  | Err e => Err e
  end.

(** src/services/worker/app/runtime.py:250-258 [ProductionRecoveryActivityServices._blocked_policy] *)
Definition blocked_policy (command : PolicyInput) (decision_code : string) : PolicyResult := {|
  pr_disposition := PolicyDisposition_value PolicyDisposition.BLOCK; pr_decision_code := decision_code;
  pr_action := pi_candidate_action command; pr_payment_surface_type := pi_payment_surface_type command;
  pr_reason_codes := [decision_code]; pr_delay_until := None |}.

(** [PaymentSurfaceType(value) if value is not None else None] *)
Definition optional_surface (value : option string) : result (option PaymentSurfaceType) :=
  match value with Some s => Some <$> PaymentSurfaceType_of s | None => Ok None end.

(** src/services/worker/app/runtime.py:212-231 [ProductionRecoveryActivityServices.evaluate_policy] *)
Definition policy_scope (command : PolicyInput) (action_type : RecoveryActionType)
    (surface_type : option PaymentSurfaceType) (d : Db) : option action_scope :=
  first_by (fun s => (act_created_at (asc_action s), pol_created_at (asc_policy s)))
    (cmp_opp (cmp_lex Z.compare Z.compare))
    (rows_where (fun s =>
       eqs (act_case_id (asc_action s)) (pi_case_id command)
       && eqs (Entities.rc_merchant_id (asc_case s)) (pi_merchant_id command)
       && eqs (act_action_type (asc_action s)) action_type
       && eqs (act_payment_surface_type (asc_action s)) surface_type) (action_scopes d)).

(** src/services/worker/app/runtime.py:184-248 [ProductionRecoveryActivityServices.evaluate_policy] *)
Definition evaluate_persisted_policy (isoformat : datetime -> string) (command : PolicyInput) (d : Db) : PolicyResult :=
  match RecoveryActionType_of (pi_candidate_action command),
        optional_surface (pi_payment_surface_type command) with
  | Ok action_type, Ok surface_type =>
      let persisted := if opens_surface action_type then surface_type else None in
      match policy_scope command action_type persisted d with
      | None => blocked_policy command "PERSISTED_POLICY_NOT_FOUND"
      | Some row =>
          let action := asc_action row in
          let policy := asc_policy row in
          if negb (rc_amount_at_risk_paise (asc_case row) =? pi_amount_at_risk_paise command) then
            blocked_policy command "PERSISTED_CASE_SCOPE_MISMATCH"
          else {|
            pr_disposition := PolicyDisposition_value (pol_disposition policy);
            pr_decision_code := pol_decision_code policy;
            pr_action := RecoveryActionType_value (act_action_type action);
            pr_payment_surface_type := PaymentSurfaceType_value <$> act_payment_surface_type action;
            pr_reason_codes := pol_reason_codes policy;
            pr_delay_until := (fun t => isoformat (utc_datetime t)) <$> effective_delay action policy |}
      end
  | _, _ => blocked_policy command "PERSISTED_ACTION_SCOPE_INVALID"
  end.

Section activities.
Context {P V : Type} {payment_provider : PaymentProvider P} {voice_outreach : VoiceOutreach V} `{Crypto}.
Context (iso : datetime -> string) (float_repr : Q -> string) (repr : json -> string).
Context (pyd_int : json -> option Z) (pyd_datetime : json -> option datetime).
Context (fromisoformat : string -> result datetime) (new_id : nat -> string).
Context (operator_token : string).
Abbreviation W := (world P V).
Abbreviation coroutine := (proc W).

(** The value of a computation already done. *)
Definition return_ {A} (a : A) : coroutine A := Done (Ok a).
(** One await that cannot fail to start. *)
Definition await {A} (m : stx W A) : coroutine A := step m.
(** A transaction that waits for the rows it locks. *)
Definition transaction {A} (ids : W -> list string) (m : stx W A) : coroutine A := step_when (free ids) m.

(** ** Reconciliation of an uncertain link *)

(** src/services/worker/app/runtime.py:606-694 [ProductionRecoveryActivityServices._reconcile_or_resume_standard_payment_link] *)
Definition reconcile_or_resume_standard_payment_link (action_id : string)
    (request : OpenPaymentSurfaceRequest) : coroutine ActionExecutionResult :=
  if negb (has_link_lifecycle P) then
    return_ (uncertain "unknown" None "PAYMENT_LINK_RECONCILIATION_UNSUPPORTED")
  else
    begun ← transaction (fun _ => [action_id]) (begin_reconciliation action_id request);
    match begun with
    | Some answer => return_ answer
    | None =>
        let leave_uncertain reason_code :=
          await (_ ← unlock_rows [action_id]; mret (uncertain "razorpay" None reason_code)) in
        let reference_id := default "" (op_reference_id request) in
        proc_then (await (ask (reconcile_payment_link_by_reference reference_id) (LookedUp reference_id)))
          (fun looked_up =>
             match looked_up with
             | Err _ => leave_uncertain "PAYMENT_LINK_RECONCILIATION_UNRESOLVED"
             | Ok (Some surface) => await (finish_reconciliation action_id surface "SUBMISSION_RECONCILED")
             | Ok None =>
                 proc_then (await (ask (open_customer_payment_surface request) (Opened request)))
                   (fun opened =>
                      match opened with
                      | Err _ => leave_uncertain "CONFIRMED_ABSENT_RESUBMISSION_UNCERTAIN"
                      | Ok surface =>
                          await (finish_reconciliation action_id surface "CONFIRMED_ABSENT_RESUBMITTED")
                      end)
             end)
    end.

(** ** Opening a payment surface *)

(** src/services/worker/app/runtime.py:696-707 [ProductionRecoveryActivityServices._claim_payment_action] *)
Definition claim_action (process : nat) (command : ExecuteActionInput) (surface_type : PaymentSurfaceType)
  : coroutine claim :=
  match ea_mandate command with
  | Some mandate =>
      transaction (fun _ => option_list (ea_recovery_action_id command))
        (claim_a2a_payment_action iso float_repr pyd_int pyd_datetime fromisoformat command mandate surface_type)
  | None =>
      transaction (payment_rows command surface_type) (claim_payment_action process command surface_type)
  end.

(** src/services/worker/app/runtime.py:308-335 [ProductionRecoveryActivityServices.execute_recovery_action] *)
Definition surface_request (command : ExecuteActionInput) (surface_type : PaymentSurfaceType)
    (subscription_id invoice_id : string) (action : RecoveryActionRecord)
  : result OpenPaymentSurfaceRequest :=
  deadline ← instant fromisoformat (ea_recovery_deadline command);
  let link := bool_decide (surface_type = PaymentSurfaceType.STANDARD_PAYMENT_LINK) in
  validate_open_request {|
    op_idempotency_key := act_idempotency_key action; op_case_id := ea_case_id command;
    op_merchant_id := ea_merchant_id command; op_customer_id := ea_customer_id command;
    op_subscription_id := subscription_id; op_failed_invoice_id := invoice_id;
    op_surface_type := surface_type; op_exact_amount_paise := ea_amount_paise command;
    op_currency := ea_currency command; op_recovery_deadline := deadline;
    op_expires_at := if link then Some deadline else None; op_callback_url := None;
    op_reference_id := if link then Some (standard_payment_link_reference (act_idempotency_key action))
                       else None;
    op_notes := if link then [("case_id", ea_case_id command); ("invoice_id", invoice_id);
                              ("subscription_id", subscription_id)] else [] |}.

(** src/services/worker/app/runtime.py:352-373 [ProductionRecoveryActivityServices.execute_recovery_action]:
    what the handler makes of the outcome of the call. *)
Definition submitted (action_id : string) (request : OpenPaymentSurfaceRequest)
    (outcome : result PaymentSurfaceResult) : coroutine (ActionExecutionResult + PaymentSurfaceResult) :=
  match outcome with
  | Ok surface => return_ (inr surface)
  | Err (RazorpayUncertainSubmissionError reference) =>
      if negb (eqs (op_surface_type request) PaymentSurfaceType.STANDARD_PAYMENT_LINK)
         || negb (eqs (op_reference_id request) (Some reference)) then
        return_ (inl (uncertain "razorpay" None "SUBMISSION_REFERENCE_MISMATCH"))
      else answer ← reconcile_or_resume_standard_payment_link action_id request; return_ (inl answer)
  | Err e => Done (Err e)
  end.

(** src/services/worker/app/runtime.py:349-376 [ProductionRecoveryActivityServices.execute_recovery_action] *)
Definition submit_payment_surface (process : nat) (action_id : string) (request : OpenPaymentSurfaceRequest)
  : coroutine ActionExecutionResult :=
  _ ← await (modS (fun w => w <| w_in_flight ::= union {[(process, action_id)]} |>));
  handled ← proc_then
    (proc_then (await (ask (open_customer_payment_surface request) (Opened request)))
       (submitted action_id request))
    (fun outcome =>
       _ ← await (modS (fun w => w <| w_in_flight ::= fun s => s ∖ {[(process, action_id)]} |>));
       Done outcome);
  match handled with
  | inl answer => return_ answer
  | inr surface => transaction (fun _ => [action_id]) (persist_payment_surface action_id surface)
  end.

(** src/services/worker/app/runtime.py:305-376 [ProductionRecoveryActivityServices.execute_recovery_action] *)
Definition run_claim (process : nat) (command : ExecuteActionInput) (surface_type : PaymentSurfaceType)
    (subscription_id invoice_id : string) (c : claim) : coroutine ActionExecutionResult :=
  match c with
  | Answer answer => return_ answer
  | Claimed action reconcile_before_submission =>
      request ← pure_ (surface_request command surface_type subscription_id invoice_id action);
      if (reconcile_before_submission : bool) then
        if negb (bool_decide (surface_type = PaymentSurfaceType.STANDARD_PAYMENT_LINK)) then
          return_ (uncertain "unknown" (act_external_reference action) "SUBMISSION_RECONCILIATION_REQUIRED")
        else reconcile_or_resume_standard_payment_link (act_id action) request
      else submit_payment_surface process (act_id action) request
  end.

(** src/services/worker/app/runtime.py:278-376 [ProductionRecoveryActivityServices.execute_recovery_action] *)
Definition open_payment_surface (process : nat) (command : ExecuteActionInput)
  : coroutine ActionExecutionResult :=
  match ea_failed_invoice_id command, ea_payment_surface_type command with
  | Some failed_invoice_id, Some surface =>
      surface_type ← pure_ (PaymentSurfaceType_of surface);
      let scope :=
        if is_mock_provider P then
          (or_str (ea_provider_subscription_id command) (Some (ea_subscription_id command)),
           or_str (ea_provider_invoice_id command) (Some failed_invoice_id))
        else (ea_provider_subscription_id command, ea_provider_invoice_id command) in
      match scope with
      | (Some subscription_id, Some invoice_id) =>
          c ← claim_action process command surface_type;
          run_claim process command surface_type subscription_id invoice_id c
      | _ => return_ (rejected "PAYMENT_PROVIDER_SCOPE_MISSING")
      end
  | _, _ => return_ (rejected "PAYMENT_SURFACE_SCOPE_MISSING")
  end.

(** ** Voice *)

(** A call of the voice service on its own session. *)
Definition with_voice {A} (m : stx (Db * V) A) : stx W A := fun w =>
  let '(r, (d, v)) := m (w_db w, w_voice w) in (r, w <| w_db := d |> <| w_voice := v |>).

(** src/services/worker/app/runtime.py:402-431 [ProductionRecoveryActivityServices._execute_voice_action]:
    what becomes of the claimed action. *)
Definition conclude_voice (action_id : string) (result : VoiceContactResult)
  : coroutine ActionExecutionResult :=
  let provider_reference := or_str (vcr_provider_call_id result) (Some (vcr_contact_attempt_id result)) in
  let finalize status reference :=
    transaction (fun _ => [action_id]) (finalize_voice_action action_id status reference) in
  if bool_decide (vcr_status result = "SUBMITTED") then
    _ ← finalize ActionStatus.SUCCEEDED provider_reference;
    return_ {| ae_status := "SUCCEEDED"; ae_provider := vcr_provider result;
               ae_provider_reference := provider_reference; ae_customer_url := None;
               ae_reason_code := vcr_reason_code result |}
  else if bool_decide (vcr_status result = "REJECTED") then
    _ ← finalize ActionStatus.CANCELLED None;
    return_ {| ae_status := "REJECTED"; ae_provider := vcr_provider result;
               ae_provider_reference := None; ae_customer_url := None;
               ae_reason_code := vcr_reason_code result |}
  else
    return_ {| ae_status := "UNCERTAIN"; ae_provider := vcr_provider result;
               ae_provider_reference := provider_reference; ae_customer_url := None;
               ae_reason_code := or_str (vcr_reason_code result)
                                   (Some "VOICE_SUBMISSION_RECONCILIATION_REQUIRED") |}.

(** src/services/worker/app/runtime.py:378-431 [ProductionRecoveryActivityServices._execute_voice_action] *)
Definition execute_voice_action (command : ExecuteActionInput) : coroutine ActionExecutionResult :=
  c ← transaction (voice_rows command) (claim_voice_action command (voice_provider_ready V));
  match c with
  | Answer answer => return_ answer
  | Claimed action _ =>
      result ← await (fun w =>
        with_voice (voice_start (ea_case_id command) (ea_idempotency_key command) (Some operator_token)
                      180 (w_clock w)) w);
      conclude_voice (act_id action) result
  end.

(** src/services/worker/app/runtime.py:267-376 [ProductionRecoveryActivityServices.execute_recovery_action] *)
Definition execute_recovery_action (process : nat) (command : ExecuteActionInput)
  : coroutine ActionExecutionResult :=
  if mem (ea_action command) ["WAIT_FOR_GATEWAY_RETRY"; "STOP"; "ESCALATE_TO_HUMAN"] then
    return_ {| ae_status := "SUCCEEDED"; ae_provider := "workflow"; ae_provider_reference := None;
               ae_customer_url := None; ae_reason_code := None |}
  else if bool_decide (ea_action command = "START_VOICE") then execute_voice_action command
  else if negb (bool_decide (ea_action command = "OPEN_CUSTOMER_PAYMENT_SURFACE")) then
    return_ (rejected "ACTIVITY_PROVIDER_NOT_CONFIGURED")
  else open_payment_surface process command.

(** ** Reconciliation of a case *)

(** src/services/worker/app/runtime.py:1224-1233 [ProductionRecoveryActivityServices._unreconciled_case] *)
Definition unreconciled_case : ReconciliationResult := {|
  rn_payment_state := "UNKNOWN"; rn_subscription_state := "UNKNOWN"; rn_authoritative := false;
  rn_case_recovered := false; rn_arrears_collected_paise := 0; rn_subscription_reactivated := false;
  rn_provider_reference := None |}.

(** The rows a reconciliation works on. *)
Record case_scope : Type := {
  ks_case : RecoveryCase; ks_invoice : Invoice; ks_subscription : Subscription;
}.

(** src/services/worker/app/runtime.py:1060-1083 [ProductionRecoveryActivityServices.reconcile_case] *)
Definition case_scope_of (command : ReconciliationInput) (failed_invoice_id : string) (d : Db)
  : option case_scope :=
  c ← row_where (fun c => eqs (rc_id c) (ri_case_id command)
                          && eqs (Entities.rc_merchant_id c) (ri_merchant_id command)
                          && eqs (rc_failed_invoice_id c) (Some failed_invoice_id)) (db_cases d);
  i ← row_where (fun i => eqs (inv_id i) failed_invoice_id
                          && eqs (inv_merchant_id i) (ri_merchant_id command)
                          && eqs (inv_subscription_id i) (rc_subscription_id c)) (db_invoices d);
  s ← row_where (fun s => eqs (sub_id s) (rc_subscription_id c)
                          && eqs (sub_merchant_id s) (ri_merchant_id command)) (db_subscriptions d);
  Some {| ks_case := c; ks_invoice := i; ks_subscription := s |}.

(** src/services/worker/app/runtime.py:1090-1114 [ProductionRecoveryActivityServices.reconcile_case] *)
Definition recognized_payment (command : ReconciliationInput) (k : case_scope) (d : Db)
  : option PaymentAttempt :=
  let rows :=
    r ← rows_where (fun r =>
          eqs (rev_case_id r) (rc_id (ks_case k)) && eqs (rev_merchant_id r) (ri_merchant_id command)
          && eqs (rev_provider r) "razorpay"
          && eqs (rev_attribution r) RevenueAttribution.RAZORPAY_TEST_VERIFIED
          && rev_arrears_collected r
          && (rc_case_recovered (ks_case k) || eqs (rev_provider_event_id r) (ri_trigger_event_id command)))
        (db_recognitions d);
    p ← rows_where (fun p => eqs (Some (pay_id p)) (rev_payment_attempt_id r)
                             && eqs (pay_invoice_id p) (inv_id (ks_invoice k))
                             && eqs (pay_payment_state p) PaymentState.CAPTURED) (db_payments d);
    [(r, p)] in
  snd <$> first_by (fun row => rev_recognized_at row.1) (cmp_opp Z.compare) rows.

(** src/services/worker/app/runtime.py:1117-1127 [ProductionRecoveryActivityServices.reconcile_case] *)
Definition recognized_result (command : ReconciliationInput) (c : RecoveryCase) (payment : PaymentAttempt)
  : ReconciliationResult := {|
  rn_payment_state := PaymentState_value (rc_payment_state c);
  rn_subscription_state := SubscriptionState_value (rc_subscription_state c);
  rn_authoritative := true; rn_case_recovered := rc_case_recovered c;
  rn_arrears_collected_paise := rc_arrears_collected_paise c;
  rn_subscription_reactivated := rc_subscription_reactivated c;
  rn_provider_reference := or_str (pay_provider_payment_id payment) (Some (ri_trigger_event_id command)) |}.

(** src/services/worker/app/runtime.py:1144-1173 [ProductionRecoveryActivityServices.reconcile_case]:
    the payment a webhook asserts of this invoice. *)
Definition asserted_payment (event : NormalizedRazorpayEvent) (k : case_scope) : option string :=
  let invoice_matches := eqs (ne_invoice_id event) (Some (inv_provider_invoice_id (ks_invoice k))) in
  let subscription_matches :=
    mem (ne_subscription_id event) [None; Some (sub_provider_subscription_id (ks_subscription k))] in
  let captured := eqs (ne_payment_state event) PaymentState.CAPTURED in
  let scope_matches :=
    if bool_decide (ne_event_type event = "payment_link.paid") then
      eqs (ne_case_id event) (Some (rc_id (ks_case k))) && invoice_matches && subscription_matches
    else captured && invoice_matches && subscription_matches
         && mem (ne_case_id event) [None; Some (rc_id (ks_case k))] in
  if scope_matches && captured then ne_payment_id event else None.

(** A reconciliation that the tables settle, or the question left for the provider: the
    payment it must be about, if any. *)
Inductive reading : Type :=
| Settled (result : ReconciliationResult)
| AskProvider (k : case_scope) (payment_id : option string).

(** src/services/worker/app/runtime.py:1050-1186 [ProductionRecoveryActivityServices.reconcile_case] *)
Definition read_case (command : ReconciliationInput) (d : Db) : result reading :=
  match failed_invoice_id ← ri_failed_invoice_id command; case_scope_of command failed_invoice_id d with
  | None => Ok (Settled unreconciled_case)
  | Some k =>
      match recognized_payment command k d with
      | Some payment => Ok (Settled (recognized_result command (ks_case k) payment))
      | None =>
          match row_where (fun i => eqs (inb_merchant_id i) (ri_merchant_id command)
                                    && eqs (inb_provider i) "razorpay"
                                    && eqs (inb_provider_event_id i) (ri_trigger_event_id command))
                  (db_inbox d) with
          | Some inbox =>
              match normalize_webhook (inb_provider_event_id inbox) (inb_payload inbox) with
              | Ok event =>
                  match asserted_payment event k with
                  | Some payment_id => Ok (AskProvider k (Some payment_id))
                  | None => Ok (Settled unreconciled_case)
                  end
              | Err e => if is_integration_error e then Ok (Settled unreconciled_case) else Err e
              end
          | None =>
              if ri_authoritative_hint command then Ok (Settled unreconciled_case)
              else Ok (AskProvider k None)
          end
      end
  end.

(** src/services/worker/app/runtime.py:1182-1186 [ProductionRecoveryActivityServices.reconcile_case] *)
Definition required_arrears (c : RecoveryCase) : Z :=
  Z.max (rc_amount_at_risk_paise c - rc_arrears_collected_paise c) 0.

(** src/services/worker/app/runtime.py:1202-1211 [ProductionRecoveryActivityServices.reconcile_case] *)
Definition snapshot_recovers (k : case_scope) (payment_id : option string) (s : PaymentSnapshot) : bool :=
  ps_authoritative s && eqs (ps_payment_state s) PaymentState.CAPTURED
  && eqs (ps_invoice_id s) (Some (inv_provider_invoice_id (ks_invoice k)))
  && eqs (ps_subscription_id s) (Some (sub_provider_subscription_id (ks_subscription k)))
  && eqs (ps_currency s) (inv_currency (ks_invoice k))
  && (ps_amount_paise s =? required_arrears (ks_case k)) && (0 <? required_arrears (ks_case k))
  && (eqs payment_id None || eqs (ps_payment_id s) payment_id).
(** src/services/worker/app/runtime.py:1212-1222 [ProductionRecoveryActivityServices.reconcile_case] *)
Definition snapshot_result (k : case_scope) (payment_id : option string) (s : PaymentSnapshot)
  : ReconciliationResult :=
  let recovered := snapshot_recovers k payment_id s in {|
  rn_payment_state := PaymentState_value (ps_payment_state s);
  rn_subscription_state := SubscriptionState_value (ps_subscription_state s);
  rn_authoritative := ps_authoritative s; rn_case_recovered := recovered;
  rn_arrears_collected_paise :=
    if recovered then rc_arrears_collected_paise (ks_case k) + ps_amount_paise s else 0;
  rn_subscription_reactivated := recovered && eqs (ps_subscription_state s) SubscriptionState.ACTIVE;
  rn_provider_reference := or_str (ps_payment_id s) (ps_invoice_id s) |}.

(** src/services/worker/app/runtime.py:1047-1222 [ProductionRecoveryActivityServices.reconcile_case] *)
Definition reconcile_case (command : ReconciliationInput) : coroutine ReconciliationResult :=
  if is_mock_provider P then return_ (mock_reconcile_case command)
  else
    found ← await (fun w => (read_case command (w_db w), w));
    match found with
    | Settled result => return_ result
    | AskProvider k payment_id =>
        snapshot ← await (ask (fetch_payment_snapshot (ri_merchant_id command) payment_id
                                 (inv_provider_invoice_id (ks_invoice k)))
                              (fun _ => Fetched (inv_provider_invoice_id (ks_invoice k))));
        return_ (snapshot_result k payment_id snapshot)
    end.

(** ** Audit events *)

(** src/services/worker/app/runtime.py:1236-1252 [ProductionRecoveryActivityServices.record_audit_event] *)
Definition audit_event (command : AuditInput) (id_ : string) (now : Z) : RecoveryEventRecord := {|
  evr_id := id_; evr_case_id := ai_case_id command; evr_event_type := ai_event_type command;
  evr_source := "temporal-workflow";
  evr_evidence_kind := if json_is "provider" "razorpay" (ai_details command)
                       then EvidenceKind.RAZORPAY_TEST_VERIFIED else EvidenceKind.SYSTEM_DERIVED;
  evr_payload := ai_details command; evr_occurred_at := now; evr_recorded_at := now;
  evr_correlation_id := ai_correlation_id command;
  evr_source_event_id :=
    Some ("temporal:" +++ ai_event_type command +++ ":" +++ ai_correlation_id command) |}.

(** src/services/worker/app/runtime.py:1235-1268 [ProductionRecoveryActivityServices.record_audit_event] *)
Definition record_audit_event (command : AuditInput) : stx W AuditResult := fun w =>
  let event := audit_event command (new_id (w_reads w)) (w_utc w) in
  let w := w <| w_reads ::= S |> in
  match commit_changes (fun d => d <| db_events ::= fun l => (l ++ [event])%list |>) id w with
  | (Ok _, w') => (Ok {| ar_audit_event_id := evr_id event; ar_recorded := true |}, w')
  | (Err _, w') =>
      match row_where (fun e => eqs (evr_case_id e) (ai_case_id command)
                                && eqs (evr_source_event_id e) (evr_source_event_id event))
              (db_events (w_db w')) with
      | Some existing => (Ok {| ar_audit_event_id := evr_id existing; ar_recorded := true |}, w')
      | None => (Ok {| ar_audit_event_id := default "" (evr_source_event_id event);
                       ar_recorded := false |}, w')
      end
  end.

(** ** Cancellation *)

(** What a cleanup assigns to a link's row before its commit; the completion time is bound
    when the row is flushed. *)
Record link_change : Type := {
  lc_id : string; lc_status : ActionStatus; lc_reference : option string; lc_url : option string;
  lc_completed_at : option datetime;
}.
Definition apply_change (change : link_change) (completed_at : option Z) : Db -> Db :=
  set_action (lc_id change) (fun a =>
    let a := a <| act_status := lc_status change |> <| act_external_reference := lc_reference change |>
               <| act_customer_url := lc_url change |> in
    match completed_at with Some t => a <| act_completed_at := Some t |> | None => a end).
(** The flush of all changes: a naive completion time refuses them. *)
Fixpoint flush_changes (changes : list link_change) : result (Db -> Db) :=
  match changes with
  | [] => Ok id
  | change :: rest =>
      completed_at ← (match lc_completed_at change with
                      | Some t => Some <$> bind_utc t
                      | None => Ok None
                      end);
      later ← flush_changes rest;
      mret (fun d => later (apply_change change completed_at d))
  end.

(** src/services/worker/app/runtime.py:1342-1359 [ProductionRecoveryActivityServices._cleanup_standard_payment_links] *)
Definition open_links (case_id : string) (d : Db) : list RecoveryActionRecord :=
  rows_where (fun a => eqs (act_case_id a) case_id
                       && eqs (act_payment_surface_type a) (Some PaymentSurfaceType.STANDARD_PAYMENT_LINK)
                       && mem (act_status a) [ActionStatus.EXECUTING; ActionStatus.SUCCEEDED]) (db_actions d).

Definition cancelled_change (action : RecoveryActionRecord) (clock : datetime) : link_change := {|
  lc_id := act_id action; lc_status := ActionStatus.CANCELLED;
  lc_reference := act_external_reference action; lc_url := act_customer_url action;
  lc_completed_at := Some clock |}.

(** A cleanup ends at once, or goes on with locked rows. *)
Definition cleanup_start : Type := (bool * option string) + list RecoveryActionRecord.

(** src/services/worker/app/runtime.py:1341-1371 [ProductionRecoveryActivityServices._cleanup_standard_payment_links] *)
Definition begin_cleanup (case_id : string) : stx W cleanup_start := fun w =>
  let actions := open_links case_id (w_db w) in
  if bool_decide (map act_id actions = []) then (Ok (inl (true, None)), w)
  else if is_mock_provider P then
    (flushed ← lift (flush_changes (map (fun a => cancelled_change a (w_clock w)) actions));
     _ ← commit_changes flushed id;
     mret (inl (true, Some "PAYMENT_LINK_MOCK_CANCELLED"))) w
  else if negb (has_link_lifecycle P) then
    (Ok (inl (false, Some "PAYMENT_LINK_CLEANUP_UNSUPPORTED")), w)
  else (_ ← lock_rows (map act_id actions); mret (inr actions)) w.

(** What the provider knows of one link. *)
Inductive link_state : Type :=
| Unresolved (reason_code : string)
| Absent
| Present (provider_reference : string) (customer_url : option string).

(** src/services/worker/app/runtime.py:1375-1394 [ProductionRecoveryActivityServices._cleanup_standard_payment_links] *)
Definition resolve_link (action : RecoveryActionRecord) : coroutine link_state :=
  match act_external_reference action with
  | Some reference => return_ (Present reference (act_customer_url action))
  | None =>
      let reference_id := standard_payment_link_reference (act_idempotency_key action) in
      proc_then (await (ask (reconcile_payment_link_by_reference reference_id) (LookedUp reference_id)))
        (fun looked_up => match looked_up with
         | Err _ => return_ (Unresolved "PAYMENT_LINK_CLEANUP_RECONCILIATION_UNRESOLVED")
         | Ok None => return_ Absent
         | Ok (Some surface) =>
             return_ (Present (psf_provider_reference surface) (Some (psf_customer_url surface)))
         end)
  end.

(** src/services/worker/app/runtime.py:1375-1412 [ProductionRecoveryActivityServices._cleanup_standard_payment_links]:
    one link; the change of its row and whether it is paid. *)
Definition clean_link (action : RecoveryActionRecord) : coroutine (string + link_change * bool) :=
  state ← resolve_link action;
  match state with
  | Unresolved reason_code => return_ (inl reason_code)
  | Absent =>
      clock ← await (fun w => (Ok (w_clock w), w)); return_ (inr (cancelled_change action clock, false))
  | Present reference url =>
      proc_then (await (ask (revoke_standard_payment_link reference) (Revoked reference)))
        (fun revocation => match revocation with
         | Err _ => return_ (inl "PAYMENT_LINK_CLEANUP_UNRESOLVED")
         | Ok status =>
             if bool_decide (status = "PAYMENT_PRESENT") then
               return_ (inr ({| lc_id := act_id action;
                                lc_status := if bool_decide (is_Some (act_external_reference action))
                                             then act_status action else ActionStatus.SUCCEEDED;
                                lc_reference := Some reference; lc_url := url; lc_completed_at := None |},
                             true))
             else if negb (mem status ["CANCELLED"; "ALREADY_INACTIVE"]) then
               return_ (inl "PAYMENT_LINK_CLEANUP_STATUS_UNRESOLVED")
             else
               clock ← await (fun w => (Ok (w_clock w), w));
               return_ (inr ({| lc_id := act_id action; lc_status := ActionStatus.CANCELLED;
                                lc_reference := Some reference; lc_url := url;
                                lc_completed_at := Some clock |}, false))
         end)
  end.

(** src/services/worker/app/runtime.py:1373-1420 [ProductionRecoveryActivityServices._cleanup_standard_payment_links] *)
Fixpoint clean_links (locked : list string) (actions : list RecoveryActionRecord)
    (changes : list link_change) (payment_present : bool) : coroutine (bool * option string) :=
  match actions with
  | [] =>
      await (_ ← unlock_rows locked;
             flushed ← lift (flush_changes changes);
             _ ← commit_changes flushed id;
             mret (true, Some (if payment_present then "PAYMENT_LINK_PAYMENT_PRESENT_RECONCILIATION_REQUIRED"
                               else "PAYMENT_LINK_REVOKED")))
  | action :: rest =>
      cleaned ← clean_link action;
      match cleaned with
      | inl reason_code => await (_ ← unlock_rows locked; mret (false, Some reason_code))
      | inr (change, paid) => clean_links locked rest (changes ++ [change])%list (payment_present || paid)
      end
  end.

(** src/services/worker/app/runtime.py:1340-1420 [ProductionRecoveryActivityServices._cleanup_standard_payment_links] *)
Definition cleanup_standard_payment_links (case_id : string) : coroutine (bool * option string) :=
  started ← transaction (fun w => map act_id (open_links case_id (w_db w))) (begin_cleanup case_id);
  match started with
  | inl answer => return_ answer
  | inr actions => clean_links (map act_id actions) actions [] false
  end.

(** src/services/worker/app/runtime.py:1275-1296 [ProductionRecoveryActivityServices.cancel_recovery_action] *)
Definition cancellable (case_id : string) (d : Db) : list RecoveryActionRecord :=
  rows_where (fun a => eqs (act_case_id a) case_id
                       && mem (act_status a) [ActionStatus.PROPOSED; ActionStatus.AWAITING_APPROVAL;
                            ActionStatus.SCHEDULED; ActionStatus.EXECUTING; ActionStatus.SUCCEEDED])
    (db_actions d).

(** src/services/worker/app/runtime.py:1298-1305 [ProductionRecoveryActivityServices.cancel_recovery_action] *)
Definition cancels (a : RecoveryActionRecord) : bool :=
  negb (eqs (act_payment_surface_type a) (Some PaymentSurfaceType.STANDARD_PAYMENT_LINK))
  && negb (eqs (act_status a) ActionStatus.SUCCEEDED).

(** src/services/worker/app/runtime.py:1274-1308 [ProductionRecoveryActivityServices.cancel_recovery_action]:
    whether any action was live. *)
Definition cancel_live_actions (case_id : string) : stx W bool := fun w =>
  let actions := cancellable case_id (w_db w) in
  (flushed ← lift (flush_changes (map (fun a => cancelled_change a (w_clock w)) (List.filter cancels actions)));
   _ ← commit_changes flushed id;
   mret (negb (bool_decide (map act_id actions = [])))) w.

(** src/services/worker/app/runtime.py:1310-1322 [ProductionRecoveryActivityServices.cancel_recovery_action] *)
Definition cancel_voice (command : CancelActionInput) : coroutine (option VoiceCancellationResult) :=
  if bool_decide (ci_reason command = "AUTHORITATIVE_PAYMENT_SUCCESS") then
    let key := "voice:" +++ ci_idempotency_key command +++ ":" +++ str_lower (ci_reason command) in
    result ← await (fun w =>
      with_voice (voice_cancel_for_payment (ci_case_id command) key (utc_datetime (w_utc w))) w);
    return_ (Some result)
  else return_ None.

(** src/services/worker/app/runtime.py:1323-1338 [ProductionRecoveryActivityServices.cancel_recovery_action] *)
Definition cancel_answer (cleanup : bool * option string) (any_action : bool)
    (voice : option VoiceCancellationResult) : CancelActionResult :=
  let voice_reason :=
    v ← voice; or_str (vx_reason_code v) (Some ("VOICE_" +++ vx_status v)) in
  if bool_decide ((vx_status <$> voice) = Some "UNCERTAIN") then
    {| cr_cancelled := false; cr_reason_code := voice_reason |}
  else if negb cleanup.1 then
    {| cr_cancelled := false; cr_reason_code := or_str cleanup.2 (Some "PAYMENT_LINK_CLEANUP_UNRESOLVED") |}
  else
    {| cr_cancelled := true;
       cr_reason_code := or_str voice_reason (or_str cleanup.2
         (Some (if any_action then "CANCELLED" else "NO_ACTIVE_ACTION"))) |}.

(** src/services/worker/app/runtime.py:1270-1338 [ProductionRecoveryActivityServices.cancel_recovery_action] *)
Definition cancel_recovery_action (command : CancelActionInput) : coroutine CancelActionResult :=
  cleanup ← cleanup_standard_payment_links (ci_case_id command);
  any_action ← transaction (fun w => map act_id (cancellable (ci_case_id command) (w_db w)))
                 (cancel_live_actions (ci_case_id command));
  voice ← cancel_voice command;
  return_ (cancel_answer cleanup any_action voice).
End activities.
