(* ===== verification/PaymentActionsFacts.v ===== *)
(** * What the activities do to a provider

    Under every interleaving of deliveries, cancellations and other services: how often a
    payment surface is submitted; and what each transaction of the activities decides. *)
From S2P Require Import Prelude Procs Domain Json JsonText Razorpay Decision Contracts Entities Session CaseRepo A2AModels NonceStore Mandates Activities VoicePorts A2ARuntime WorkerStore PaymentClaims PaymentActions.

(** ** Transactions and the rows of actions *)

(** A status from which a delivery may still claim the action. *)
Definition startable (a : RecoveryActionRecord) : bool :=
  mem (act_status a) [ActionStatus.PROPOSED; ActionStatus.AWAITING_APPROVAL; ActionStatus.SCHEDULED].

(** [b] is [a] later: the same action, and not claimable again once it was claimed. *)
Definition later (a b : RecoveryActionRecord) : Prop :=
  act_id b = act_id a /\ act_idempotency_key b = act_idempotency_key a
  /\ (startable b = true -> startable a = true).
Definition progress (d d' : Db) : Prop := Forall2 later (db_actions d) (db_actions d').

#[export] Instance later_refl : Reflexive later.
Proof. done. Qed.
#[export] Instance later_trans : Transitive later.
Proof. intros a b c (? & ? & ?) (? & ? & ?). split_and!; [congruence|congruence|auto]. Qed.
#[export] Instance progress_refl : Reflexive progress.
Proof. intros d. unfold progress. by induction (db_actions d); constructor. Qed.
#[export] Instance progress_trans : Transitive progress.
Proof. intros d1 d2 d3. unfold progress. by transitivity (db_actions d2). Qed.

Lemma same_actions d d' : db_actions d' = db_actions d -> progress d d'.
Proof. unfold progress. intros ->. apply (reflexivity (R := progress)). Qed.
Lemma update_progress p f d :
  (forall a, p a = true -> later a (f a)) -> progress d (d <| db_actions ::= update_where p f |>).
Proof.
  intros H. unfold progress, set_field. cbn. unfold update_where.
  induction (db_actions d) as [|a l IH]; constructor; [|done].
  destruct (p a) eqn:E; [by apply H|done].
Qed.
Lemma set_action_progress i f d :
  (forall a, act_id a = i -> later a (f a)) -> progress d (set_action i f d).
Proof. intros H. apply update_progress. intros a Ha. bools. by apply H. Qed.

Lemma later_claimed a b : act_id b = act_id a -> act_idempotency_key b = act_idempotency_key a ->
  startable b = false -> later a b.
Proof. unfold later. intros -> -> ->. split_and!; try done. Qed.

Lemma get_action_Some i d a : get_action i d = Some a -> a ∈ db_actions d /\ act_id a = i.
Proof. intros [Ha Hi]%row_where_Some. by bools. Qed.

Lemma action_by_id d a b : consistent d -> a ∈ db_actions d -> b ∈ db_actions d ->
  act_id a = act_id b -> a = b.
Proof.
  intros Hc Ha Hb E.
  assert (unique_on (fun a => Some (act_id a)) (db_actions d) = true) as Hu
    by (constraint d "recovery_actions_pkey"; done).
  eapply unique_on_spec; [exact Hu|done|done|done|]. cbn. by rewrite E.
Qed.

Lemma get_action_elem d a : consistent d -> a ∈ db_actions d -> get_action (act_id a) d = Some a.
Proof.
  intros Hc Ha. unfold get_action. destruct (row_where _ _) as [b|] eqn:E.
  - apply get_action_Some in E as [Hb Hi]. by rewrite (action_by_id d b a Hc Hb Ha Hi).
  - pose proof (row_where_None _ _ _ E Ha). cbn in *. by bools.
Qed.

(** [quiet m]: a transaction that calls no provider and only moves actions forward. *)
Create HintDb quiet.
Section quiet.
Context {P V : Type}.
Abbreviation W := (world P V).

Definition quiet {A} (m : stx W A) : Prop := forall w r w', consistent (w_db w) -> m w = (r, w') ->
  consistent (w_db w') /\ progress (w_db w) (w_db w') /\ w_calls w' = w_calls w.

Lemma quiet_same {A} (m : stx W A) :
  (forall w, w_db (snd (m w)) = w_db w /\ w_calls (snd (m w)) = w_calls w) -> quiet m.
Proof. intros Hm w r w' Hc E. specialize (Hm w). rewrite E in Hm. cbn in Hm. destruct Hm as [-> ->]. done. Qed.
Lemma quiet_ret {A} (a : A) : quiet (mret a).
Proof. by apply quiet_same. Qed.
Lemma quiet_result {A} (r : result A) : quiet (fun w => (r, w)).
Proof. by apply quiet_same. Qed.
Lemma quiet_reading {A} (f : W -> result A) : quiet (fun w => (f w, w)).
Proof. by apply quiet_same. Qed.
Lemma quiet_bind {A B} (m : stx W A) (f : A -> stx W B) :
  quiet m -> (forall a, quiet (f a)) -> quiet (m ≫= f).
Proof.
  intros Hm Hf w r w' Hc. unfold mbind, stx_bind. destruct (m w) as [[a|e] w1] eqn:E.
  - intros E2. destruct (Hm _ _ _ Hc E) as (Hc1 & Hp1 & Hl1).
    destruct (Hf a _ _ _ Hc1 E2) as (Hc2 & Hp2 & Hl2).
    split_and!; [done|by transitivity (w_db w1)|congruence].
  - intros [= <- <-]. by eapply Hm.
Qed.
Lemma quiet_lift_bind {A B} (m : result A) (f : A -> stx W B) :
  (forall a, m = Ok a -> quiet (f a)) -> quiet (lift m ≫= f).
Proof.
  intros Hf w r w' Hc. unfold mbind, stx_bind, lift. destruct m as [a|e]; [|by intros [= <- <-]].
  intros E. by apply (Hf a eq_refl w r w').
Qed.
(** A transaction may look at the world it starts from. *)
Lemma quiet_from {A} (m : W -> stx W A) : (forall w, quiet (m w)) -> quiet (fun w => m w w).
Proof. intros Hm w r w' Hc E. by apply (Hm w w r w'). Qed.
Lemma quiet_commit db auth : (forall d, progress d (db d)) -> quiet (commit_changes db auth).
Proof.
  intros Hp w r w' Hc. unfold commit_changes. destruct (violated (db (w_db w))) eqn:E.
  - by intros [= _ <-].
  - intros [= _ <-]. cbn. split_and!; [done|apply Hp|done].
Qed.
End quiet.

(** ** Exact claims *)

(** An update of columns no constraint reads keeps the constraints. *)
Lemma update_actions_constraints p f d :
  (forall a, act_id (f a) = act_id a /\ act_idempotency_key (f a) = act_idempotency_key a
             /\ check_action (f a) = check_action a) ->
  violated (d <| db_actions ::= update_where p f |>) = violated d.
Proof.
  intros Hf. unfold violated.
  enough (constraints (d <| db_actions ::= update_where p f |>) = constraints d) as -> by done.
  unfold constraints, set_field, eta_expand, eta_Db.
  cbn [db_merchants db_policy_settings db_customers db_subscriptions db_invoices db_payments db_cases
       db_policies db_actions db_events db_inbox db_outbox db_recognitions].
  assert (forall (K : Type) (dec : EqDecision K) (key : RecoveryActionRecord -> option K),
    (forall a, key (f a) = key a) ->
    unique_on key (update_where p f (db_actions d)) = unique_on key (db_actions d)) as Hu.
  { intros K dec key Hk. unfold unique_on. f_equal. apply bool_decide_ext.
    replace (omap key (update_where p f (db_actions d))) with (omap key (db_actions d)); [done|].
    unfold update_where. induction (db_actions d) as [|a l IH]; [done|]. cbn.
    destruct (p a); rewrite ?Hk; by destruct (key a); rewrite ?IH. }
  rewrite !Hu by (intros a; destruct (Hf a) as (Ei & Ek & _); by rewrite ?Ei, ?Ek).
  assert (forallb check_action (update_where p f (db_actions d)) = forallb check_action (db_actions d)) as ->.
  { clear Hu. unfold update_where. induction (db_actions d) as [|a l IH]; [done|]. cbn.
    rewrite IH. destruct (p a); [|done]. by destruct (Hf a) as (_ & _ & ->). }
  done.
Qed.

Section claims.
Context {P V : Type}.
Abbreviation W := (world P V).

(** What a fresh claim of a delivery rests on: the newest action of the command's scope, in
    a status its policy decision lets run, and due. *)
Record claimable (command : ExecuteActionInput) (surface : PaymentSurfaceType) (w : W)
    (row : action_scope) : Prop := {
  cl_scope : payment_scope command surface (w_db w) = Some row;
  cl_status : act_status (asc_action row) ∈ claimable_statuses (pol_disposition (asc_policy row));
  cl_clock : is_aware (w_clock w) = true;
  cl_due : forall t, effective_delay (asc_action row) (asc_policy row) = Some t ->
             t <= dt_instant (w_clock w);
}.

Lemma claimable_startable disposition a : act_status a ∈ claimable_statuses disposition -> startable a = true.
Proof. intros Hs%mem_true. unfold startable. by destruct (act_status a), disposition. Qed.

Definition mark_claimed (now : Z) (a : RecoveryActionRecord) : RecoveryActionRecord :=
  a <| act_status := ActionStatus.EXECUTING |> <| act_updated_at := now |>.

Lemma payment_scope_elem command surface d row : payment_scope command surface d = Some row ->
  row ∈ action_scopes d /\ act_case_id (asc_action row) = ea_case_id command
  /\ Entities.rc_merchant_id (asc_case row) = ea_merchant_id command
  /\ act_action_type (asc_action row) = RecoveryActionType.OPEN_CUSTOMER_PAYMENT_SURFACE
  /\ act_payment_surface_type (asc_action row) = Some surface.
Proof. intros [Hin Hp]%first_by_Some%elem_of_rows_where. by bools. Qed.

Lemma not_due_false action policy now : not_due action policy now = false <->
  forall t, effective_delay action policy = Some t -> t <= now.
Proof.
  unfold not_due. destruct (effective_delay action policy) as [t|].
  - rewrite Z.ltb_ge. split; [intros ? ? [= <-]|intros Ht]; auto.
  - by split.
Qed.

Lemma scheduled_due action policy now :
  not_due action policy now = false -> null_or (fun t => t <=? now) (act_scheduled_for action) = true.
Proof.
  rewrite not_due_false. unfold effective_delay. destruct (act_scheduled_for action) as [t|]; [|done].
  cbn. rewrite Z.leb_le. destruct (pol_delay_until policy) as [t'|]; intros Ht; specialize (Ht _ eq_refl); lia.
Qed.

(** The conditional update touches exactly the action selected under the lock. *)
Lemma claim_guard_exact d action policy now : consistent d -> action ∈ db_actions d ->
  not_due action policy now = false ->
  existsb (claim_guard action now) (db_actions d) = true
  /\ (forall f, update_where (claim_guard action now) f (db_actions d)
               = update_where (fun a => eqs (act_id a) (act_id action)) f (db_actions d)).
Proof.
  intros Hc Ha Hdue%scheduled_due.
  assert (forall a, a ∈ db_actions d -> claim_guard action now a = eqs (act_id a) (act_id action)) as Hg.
  { intros a Hin. unfold claim_guard. case_bool_decide as E; [|done].
    rewrite (action_by_id d a action) by done. rewrite bool_decide_eq_true_2 by done. cbn. done. }
  split.
  - apply existsb_exists. exists action. rewrite <- list_elem_of_In, Hg by done. split; [done|].
    by apply bool_decide_eq_true.
  - intros f. unfold update_where. apply map_ext_in. intros a Hin%list_elem_of_In. by rewrite Hg.
Qed.

Lemma claim_fresh_exact process command surface w a w' : consistent (w_db w) ->
  claim_payment_action process command surface w = (Ok (Claimed a false), w') <->
  exists row, claimable command surface w row
    /\ a = asc_action row <| act_status := ActionStatus.EXECUTING |>
    /\ w' = w <| w_db ::= set_action (act_id a) (mark_claimed (dt_instant (w_clock w))) |>.
Proof.
  intros Hc. unfold claim_payment_action.
  destruct (payment_scope command surface (w_db w)) as [row|] eqn:Es.
  2: { split; [done|]. intros (row & [Hs _ _ _] & _). congruence. }
  pose proof (payment_scope_elem _ _ _ _ Es) as (Hin & _).
  apply elem_of_action_scopes in Hin as (Hin & _).
  assert (claim_due process surface (asc_action row) (asc_policy row) w = (Ok (Claimed a false), w') <->
    is_aware (w_clock w) = true /\ not_due (asc_action row) (asc_policy row) (dt_instant (w_clock w)) = false
    /\ a = asc_action row <| act_status := ActionStatus.EXECUTING |>
    /\ w' = w <| w_db ::= set_action (act_id a) (mark_claimed (dt_instant (w_clock w))) |>) as Hdue.
  { unfold claim_due. destruct (is_aware (w_clock w)); cbn [negb]; [|by split; [|intros (? & _)]].
    destruct (not_due _ _ _) eqn:Ed; [by split; [|intros (_ & ? & _)]|].
    destruct (claim_guard_exact _ _ _ _ Hc Hin Ed) as [-> Hu].
    unfold commit_changes. stx_unfold. rewrite update_actions_constraints by done. rewrite Hc.
    unfold set_action, set_field. cbn. rewrite Hu. split.
    - intros [= <- <-]. done.
    - by intros (_ & _ & -> & ->). }
  split.
  - intros Hr.
    assert (mem (act_status (asc_action row)) (claimable_statuses (pol_disposition (asc_policy row))) = true
      /\ claim_due process surface (asc_action row) (asc_policy row) w = (Ok (Claimed a false), w'))
      as [Hm%mem_true Hd].
    { destruct (act_status (asc_action row)) eqn:Est; repeat case_match; try done; by bools. }
    apply Hdue in Hd as (Ha & Hd & -> & ->). exists row. split; [|done].
    split; [done|done|done|]. by apply not_due_false.
  - intros (row' & [Hs Hst%mem_true Hcl Hd] & Ea & Ew). apply not_due_false in Hd. assert (row' = row) as -> by congruence.
    rewrite <- (proj2 Hdue) by done.
    by destruct (act_status (asc_action row)), (pol_disposition (asc_policy row)).
Qed.
End claims.

Lemma lift_value {S A} (m : result A) (s : S) a s' : lift m s = (Ok a, s') -> s' = s /\ m = Ok a.
Proof. by intros [= -> <-]. Qed.

Section authorized_claims.
Context {P V : Type} `{Crypto}.
Abbreviation W := (world P V).
Context (iso : datetime -> string) (float_repr : Q -> string).
Context (pyd_int : json -> option Z) (pyd_datetime : json -> option datetime).
Context (fromisoformat : string -> result datetime).
Abbreviation claim_a2a := (claim_a2a_payment_action (P := P) (V := V) iso float_repr pyd_int pyd_datetime fromisoformat).

(** The persisted authorization, the current rows and the signed mandate say the same, and
    the case still needs the payment. *)
Record authorization_current (command : ExecuteActionInput) (surface : PaymentSurfaceType)
    (data : RecoveryMandateData) (now : Z) (row : a2a_scope) : Prop := {
  au_persisted : persisted_scope (a2_authorization row) = signed_scope data;
  au_rows : current_scope row surface = signed_scope data;
  au_task : co_task_id (a2_authorization row) = Some (md_task_id data);
  au_key : co_signer_key_id (a2_authorization row) = md_signer_key_id data;
  au_action : co_authorized_action (a2_authorization row) = Some "OPEN_EXACT_PAYMENT_SURFACE";
  au_issued : co_issued_at (a2_authorization row) = Some (dt_instant (md_issued_at data));
  au_expires : co_expires_at (a2_authorization row) = dt_instant (md_expires_at data);
  au_live : now < dt_instant (md_expires_at data) <= rc_recovery_deadline (asc_case (a2_scope row));
  au_deadline : exists deadline, instant fromisoformat (ea_recovery_deadline command) = Ok deadline
                  /\ dt_instant deadline = rc_recovery_deadline (asc_case (a2_scope row));
  au_outstanding : inv_amount_paise (a2_invoice row) - inv_amount_paid_paise (a2_invoice row)
                   = md_exact_amount_paise data;
  au_open : rc_case_outcome (asc_case (a2_scope row)) = CaseOutcome.OPEN;
  au_unpaid : rc_payment_state (asc_case (a2_scope row)) <> PaymentState.CAPTURED
              /\ rc_case_recovered (asc_case (a2_scope row)) = false;
  au_agent : act_action_type (asc_action (a2_scope row)) = RecoveryActionType.SEND_TO_CUSTOMER_AGENT;
  au_policy : pol_disposition (asc_policy (a2_scope row)) ∈ [PolicyDisposition.ALLOW; PolicyDisposition.DELAY];
}.

Lemma a2a_safe_exact command surface data now row :
  a2a_unsafe fromisoformat command surface data now row = Ok false
  <-> authorization_current command surface data now row.
Proof.
  unfold a2a_unsafe. cbv zeta. split.
  - intros Hs. case_match; [done|]. bools.
    apply bind_Ok in Hs as (deadline & Hd & [= Hs]). bools. split; try done; [by exists deadline|by apply mem_true].
  - intros [Hp Hr Ht Hk Ha Hi He [Hl Hl'] (deadline & Hd & Hdd) Ho Hop [Hu Hu'] Hag Hpo%mem_true].
    rewrite !bool_decide_eq_true_2 by done.
    replace (dt_instant (md_expires_at data) <=? now) with false by (symmetry; apply Z.leb_gt; lia).
    replace (rc_recovery_deadline _ <? _) with false by (symmetry; apply Z.ltb_ge; lia).
    cbn [negb orb]. rewrite Hd. cbn [mbind result_bind mret result_ret]. f_equal.
    rewrite (bool_decide_eq_true_2 (dt_instant deadline = _)) by done.
    rewrite (bool_decide_eq_false_2 (rc_payment_state _ = _)) by done.
    by rewrite Hu', Hpo, Ho, Hag, Z.eqb_refl.
Qed.

Lemma a2a_row_elem command data (w : W) row : head (a2a_scopes iso float_repr command data w) = Some row ->
  asc_action (a2_scope row) ∈ db_actions (w_db w) /\ a2_authorization row ∈ w_consumptions w.
Proof.
  intros (s & Hrow & Hs)%head_Some_elem_of%list_elem_of_bind.
  apply list_elem_of_bind in Hrow as (i & Hrow & _). apply list_elem_of_bind in Hrow as (c & Hrow & Hc).
  apply list_elem_of_singleton in Hrow as ->. apply elem_of_rows_where in Hs as [Hs _], Hc as [Hc _].
  by apply elem_of_action_scopes in Hs as [Hs _].
Qed.

(** What a fresh claim of a delegated action rests on. *)
Record delegated (command : ExecuteActionInput) (mandate : json) (surface : PaymentSurfaceType)
    (w : W) (data : RecoveryMandateData) (row : a2a_scope) : Prop := {
  de_signed : exists signed, parse_signed_mandate pyd_int pyd_datetime mandate = Ok signed
                /\ data = sm_data signed;
  de_clock : is_aware (w_clock w) = true;
  de_scope : signed_scope data = command_scope command surface;
  de_row : head (a2a_scopes iso float_repr command data w) = Some row;
  de_current : authorization_current command surface data (dt_instant (w_clock w)) row;
  de_unused : co_execution_status (a2_authorization row) = "AUTHORIZED";
  de_status : act_status (asc_action (a2_scope row)) ∈ [ActionStatus.PROPOSED; ActionStatus.SCHEDULED];
  de_due : forall t, effective_delay (asc_action (a2_scope row)) (asc_policy (a2_scope row)) = Some t ->
             t <= dt_instant (w_clock w);
}.
Definition mark_used (now : Z) (r : A2AMandateNonceConsumption) : A2AMandateNonceConsumption :=
  r <| co_execution_status := "EXECUTING" |> <| co_execution_claimed_at := Some now |>.

Lemma claim_authorized_fresh surface now row (w w' : W) a : consistent (w_db w) ->
  claim_authorized surface now row w = (Ok (Claimed a false), w') <->
  co_execution_status (a2_authorization row) = "AUTHORIZED"
  /\ act_status (asc_action (a2_scope row)) ∈ [ActionStatus.PROPOSED; ActionStatus.SCHEDULED]
  /\ not_due (asc_action (a2_scope row)) (asc_policy (a2_scope row)) now = false
  /\ a = mark_claimed now (asc_action (a2_scope row))
  /\ w' = w <| w_db ::= set_action (act_id a) (mark_claimed now) |>
            <| w_consumptions ::= store_row co_nonce (mark_used now (a2_authorization row)) |>.
Proof.
  intros Hc. unfold claim_authorized. cbv zeta. rewrite <- mem_true.
  assert (violated (set_action (act_id (asc_action (a2_scope row))) (fun a : RecoveryActionRecord =>
    a <| act_status := ActionStatus.EXECUTING |> <| act_updated_at := now |>) (w_db w)) = None)
    as Hv by (unfold set_action; by rewrite update_actions_constraints).
  split.
  - repeat case_match; try done. bools. unfold commit_changes. stx_unfold.
    rewrite Hv. by intros [= <- <-].
  - intros (Eu & Hm & Hd & -> & ->).
    rewrite Eu, Hd, Hm. change (mem "AUTHORIZED" ["EXECUTING"; "UNCERTAIN"]) with false.
    destruct (act_status (asc_action (a2_scope row))); try discriminate Hm; decide_eqs;
      unfold commit_changes; stx_unfold; by rewrite Hv.
Qed.

Lemma claim_a2a_fresh_exact command mandate surface w a w' : consistent (w_db w) ->
  claim_a2a command mandate surface w = (Ok (Claimed a false), w') <->
  exists data row, delegated command mandate surface w data row
    /\ a = mark_claimed (dt_instant (w_clock w)) (asc_action (a2_scope row))
    /\ w' = w <| w_db ::= set_action (act_id a) (mark_claimed (dt_instant (w_clock w))) |>
              <| w_consumptions ::=
                   store_row co_nonce (mark_used (dt_instant (w_clock w)) (a2_authorization row)) |>.
Proof.
  intros Hc. unfold claim_a2a_payment_action. split.
  - intros Hr. case_match; [done|]. bools.
    destruct (parse_signed_mandate _ _ mandate) as [signed|] eqn:Ep; [|done].
    destruct (is_aware (w_clock w)) eqn:Ec; [|done]. cbn [negb] in Hr. case_match; [done|]. bools.
    destruct (head _) as [row|] eqn:Eh; [|done].
    apply stx_bind_Ok in Hr as (unsafe & w1 & [-> Hu]%lift_value & Hr).
    destruct unsafe; [done|]. apply a2a_safe_exact in Hu.
    apply claim_authorized_fresh in Hr as (Hau & Hst & Hd & -> & ->); [|done].
    exists (sm_data signed), row. split; [|done]. split; try done; [by exists signed|].
    by apply not_due_false.
  - intros (data & row & [(signed & Hp & ->) Hcl Hsc Hrow Hcur Hun Hst Hdue] & Ea & Ew).
    assert (ea_recovery_action_id command = Some (md_recovery_action_id (sm_data signed))
      /\ ea_failed_invoice_id command = Some (md_failed_invoice_id (sm_data signed))) as [-> ->]
      by by injection Hsc.
    rewrite Hp, Hcl, Hsc, Hrow. rewrite (bool_decide_eq_true_2 (_ = _)) by done.
    cbn [negb orb bool_decide].
    apply a2a_safe_exact in Hcur. unfold mbind, stx_bind at 1, lift. rewrite Hcur.
    apply claim_authorized_fresh; [done|]. rewrite not_due_false. done.
Qed.
End authorized_claims.

Lemma RecoveryActionType_of_Ok s t : RecoveryActionType_of s = Ok t -> s = RecoveryActionType_value t.
Proof.
  unfold RecoveryActionType_of. rewrite from_option_Ok.
  by intros [_ Ht%bool_decide_eq_true]%List.find_some.
Qed.

(** The first row of an order is least in it. *)
Lemma first_by_least {R K} (key : R -> K) (cmp : K -> K -> comparison) `{!TotalCmp cmp} rows r r' :
  first_by key cmp rows = Some r -> r' ∈ rows -> cmp (key r) (key r') <> Gt.
Proof.
  unfold first_by. intros Hr Hin. rewrite <- (sorted_on_perm key cmp rows) in Hin.
  pose proof (sorted_on_sorted key cmp rows) as Hs. destruct (sorted_on key cmp rows) as [|r0 l]; [done|].
  injection Hr as ->. apply elem_of_cons in Hin as [->|Hin].
  - intros Hgt. pose proof (cmp_sym (key r) (key r)) as Hsym. by rewrite Hgt in Hsym.
  - apply StronglySorted_inv in Hs as [_ Hs]. rewrite Forall_forall in Hs. by apply Hs.
Qed.

(** ** Counting submissions *)

Section counting.
Context {P V : Type}.
Abbreviation W := (world P V).
Context (x k reference : string) (once : bool).

(** The calls that count: those of the action's key, only of surfaces that cannot be
    reconciled when [once]. *)
Definition counted (r : OpenPaymentSurfaceRequest) : bool :=
  eqs (op_idempotency_key r) k
  && (negb once || negb (eqs (op_surface_type r) PaymentSurfaceType.STANDARD_PAYMENT_LINK)).
Definition opened (c : provider_call) : Z :=
  match c with Opened r _ => if counted r then 1 else 0 | _ => 0 end.
Definition found_absent (c : provider_call) : Z :=
  match c with
  | LookedUp ref (Ok None) => if negb once && eqs ref reference then 1 else 0
  | _ => 0
  end.
Definition opens (l : list provider_call) : Z := sumZ (map opened l).
Definition absents (l : list provider_call) : Z := sumZ (map found_absent l).
Definition started (d : Db) : Z :=
  match get_action x d with Some a => if startable a then 0 else 1 | None => 0 end.

Definition identified (d : Db) : Prop :=
  forall a, a ∈ db_actions d -> (act_idempotency_key a = k <-> act_id a = x).
Definition payments_ok (w : W) : Prop := consistent (w_db w) /\ identified (w_db w).
Definition capacity (w : W) : Z := started (w_db w) + absents (w_calls w) - opens (w_calls w).

Lemma started_bound d : 0 <= started d <= 1.
Proof. unfold started. repeat case_match; lia. Qed.

Lemma progress_identified d d' : progress d d' -> identified d -> identified d'.
Proof.
  intros Hp Hid a' Ha'. apply list_elem_of_lookup in Ha' as [i Hi].
  destruct (Forall2_lookup_r _ _ _ _ _ Hp Hi) as (a & Ha & Hl & Hk & _).
  rewrite Hl, Hk. apply Hid. by eapply list_elem_of_lookup_2.
Qed.

Lemma progress_started d d' : progress d d' -> consistent d -> consistent d' -> started d <= started d'.
Proof.
  intros Hp Hc Hc'. unfold started at 1. destruct (get_action x d) as [a|] eqn:E; [|apply started_bound].
  apply get_action_Some in E as [Ha Hi]. apply list_elem_of_lookup in Ha as [i Ha].
  destruct (Forall2_lookup_l _ _ _ _ _ Hp Ha) as (a' & Ha' & Hl & _ & Hs).
  unfold started. rewrite <- Hi, <- Hl, get_action_elem; [|done|by eapply list_elem_of_lookup_2].
  destruct (startable a), (startable a'); lia.
Qed.

Lemma capacity_progress (w w' : W) : payments_ok w -> progress (w_db w) (w_db w') ->
  consistent (w_db w') -> w_calls w' = w_calls w -> payments_ok w' /\ capacity w <= capacity w'.
Proof.
  intros [Hc Hid] Hp Hc' Hl. split; [split; [done|by eapply progress_identified]|].
  unfold capacity. rewrite Hl. pose proof (progress_started _ _ Hp Hc Hc'). lia.
Qed.

(** A quiet step gives up no permit and needs none. *)
Lemma yields_quiet {A} n en (m : stx W A) : 0 <= n -> quiet m ->
  yields payments_ok capacity n (step_when en m) (fun n' _ => n' = n).
Proof.
  intros Hn Hq. apply yields_step; [done|]. intros w r w' Hi _ E. pose proof Hi as [Hc _].
  destruct (Hq w r w' Hc E) as (Hc' & Hp & Hl).
  destruct (capacity_progress w w' Hi Hp Hc' Hl) as [Hi' Hle]. split; [done|].
  exists n. split_and!; [done|done|lia].
Qed.

Lemma ask_capacity {A} (call : stx P A) noted (w : W) r w' : ask call noted w = (r, w') ->
  w_db w' = w_db w /\ capacity w' = capacity w + found_absent (noted r) - opened (noted r).
Proof.
  unfold ask. destruct (call (w_provider w)) as [r0 p]. intros [= <- <-]. split; [done|].
  unfold capacity, opens, absents. cbn. rewrite !map_app, !sumZ_app. cbn. lia.
Qed.
Lemma yields_ask {A} n (call : stx P A) noted (Q : Z -> result A -> Prop) : 0 <= n ->
  (forall r, exists n', 0 <= n' /\ Q n' r /\ n' - n <= found_absent (noted r) - opened (noted r)) ->
  yields payments_ok capacity n (step (W := W) (ask call noted)) Q.
Proof.
  intros Hn Hr. apply yields_step'; [done|]. intros w r w' Hi E.
  destruct (ask_capacity _ _ _ _ _ E) as [Hd Hcap]. split; [unfold payments_ok; by rewrite Hd|].
  destruct (Hr r) as (n' & Hn' & HQ & Hle). exists n'. split_and!; [done|done|lia].
Qed.
End counting.

(** Split a transaction into its branches and its commits. *)
Ltac moves_forward :=
  first [ apply update_progress; intros ? _ | apply set_action_progress; intros ? _ ];
  apply later_claimed; reflexivity.
Ltac quiet :=
  repeat lazymatch goal with
  | |- quiet (mret _) => apply quiet_ret
  | |- quiet (_ ≫= _) => apply quiet_bind; [|intros ?]
  | |- quiet (commit_changes _ _) => apply quiet_commit; intros ?; try moves_forward
  | |- quiet (match _ with _ => _ end) => case_match
  | |- quiet _ =>
      first [ solve [eauto 1 with quiet nocore] | solve [apply quiet_same; intros ?; split; reflexivity] ]
  end.
Ltac quiet_cases :=
  let w := fresh "w" in intros w ? ? ?; cbv zeta; repeat case_match;
  first [ by intros [= <- <-]
        | match goal with |- ?m w = _ -> _ => refine (fun E => (_ : quiet m) _ _ _ _ E); [|assumption] end; quiet ].

Section transactions.
Context {P V : Type} {payment_provider : PaymentProvider P} `{Crypto}.
Abbreviation W := (world P V).
Context (iso : datetime -> string) (float_repr : Q -> string).
Context (pyd_int : json -> option Z) (pyd_datetime : json -> option datetime).
Context (fromisoformat : string -> result datetime).

Lemma quiet_settle i surface t : quiet (P := P) (V := V) (settle i surface t).
Proof. unfold settle. quiet. Qed.
#[local] Hint Resolve quiet_settle : quiet.

Lemma quiet_persist i surface : quiet (P := P) (V := V) (persist_payment_surface i surface).
Proof. unfold persist_payment_surface. quiet_cases. Qed.
Lemma quiet_begin_reconciliation i request :
  quiet (P := P) (V := V) (begin_reconciliation i request).
Proof. unfold begin_reconciliation. quiet_cases. Qed.
Lemma quiet_finish_reconciliation i surface reason :
  quiet (P := P) (V := V) (finish_reconciliation i surface reason).
Proof. unfold finish_reconciliation. quiet. Qed.
Lemma quiet_claim_payment process command surface :
  quiet (P := P) (V := V) (claim_payment_action process command surface).
Proof. unfold claim_payment_action, claim_due. quiet_cases. Qed.
Lemma quiet_claim_a2a command mandate surface :
  quiet (P := P) (V := V)
    (claim_a2a_payment_action iso float_repr pyd_int pyd_datetime fromisoformat command mandate surface).
Proof. unfold claim_a2a_payment_action, claim_authorized. quiet_cases. Qed.
Lemma quiet_claim_voice command ready : quiet (P := P) (V := V) (claim_voice_action command ready).
Proof. unfold claim_voice_action, claim_approved_voice. quiet_cases. Qed.
Lemma quiet_some_clock : quiet (P := P) (V := V) (Some <$> bound_clock).
Proof. apply quiet_same. intros w. stx_unfold. unfold fmap, stx_fmap, bound_clock. stx_unfold. by destruct (bind_utc _). Qed.
#[local] Hint Resolve quiet_some_clock : quiet.
Lemma quiet_finalize_voice i status reference : mem status [ActionStatus.SUCCEEDED; ActionStatus.CANCELLED] = true ->
  quiet (P := P) (V := V) (finalize_voice_action i status reference).
Proof.
  intros Hs. unfold finalize_voice_action. quiet_cases; apply set_action_progress; intros a0 _;
    (apply later_claimed; [reflexivity|reflexivity|]); by destruct status.
Qed.

(** ** Cancellation *)

(** What a cleanup assigns never makes an action claimable. *)
Definition change_ok (c : link_change) : Prop :=
  mem (lc_status c) [ActionStatus.PROPOSED; ActionStatus.AWAITING_APPROVAL; ActionStatus.SCHEDULED] = false.

Lemma flush_progress changes f : Forall change_ok changes -> flush_changes changes = Ok f ->
  forall d, progress d (f d).
Proof.
  intros Hok. revert f. induction Hok as [|c l Hc Hl IH]; cbn; intros f.
  - by intros [= <-].
  - intros (completed & Hb & (rest & Hr & [= <-])%bind_Ok)%bind_Ok d.
    transitivity (apply_change c completed d); [|by apply IH].
    apply set_action_progress. intros a _. apply later_claimed; [by destruct completed..|].
    unfold change_ok in Hc. by destruct completed.
Qed.
Lemma quiet_flush {A} changes auth (a : A) : Forall change_ok changes ->
  quiet (P := P) (V := V) (flushed ← lift (flush_changes changes); _ ← commit_changes flushed auth; mret a).
Proof. intros Hok. apply quiet_lift_bind. intros f Hf. quiet. by eapply flush_progress. Qed.
Lemma cancelled_changes_ok clock actions : Forall change_ok (map (fun a => cancelled_change a clock) actions).
Proof. apply Forall_forall. by intros c (a & -> & _)%list_elem_of_fmap. Qed.

Lemma quiet_cancel_live case_id : quiet (P := P) (V := V) (cancel_live_actions case_id).
Proof.
  intros w. unfold cancel_live_actions. apply quiet_flush, cancelled_changes_ok.
Qed.
Lemma quiet_begin_cleanup case_id : quiet (P := P) (V := V) (begin_cleanup case_id).
Proof.
  intros w r w' Hc. unfold begin_cleanup. repeat case_match; try by intros [= <- <-].
  intros E. revert Hc E. by apply quiet_flush, cancelled_changes_ok.
Qed.
Lemma quiet_finish_cleanup {A} locked changes (a : A) : Forall change_ok changes ->
  quiet (P := P) (V := V)
    (_ ← unlock_rows locked; flushed ← lift (flush_changes changes); _ ← commit_changes flushed id; mret a).
Proof. intros Hok. apply quiet_bind; [by apply quiet_same|]. intros _. by apply quiet_flush. Qed.
End transactions.

(** ** Submissions of one action *)

(** What the worker relies on of the voice service: it leaves the actions alone. *)
Class VoiceOutreachLaws (V : Type) `{VoiceOutreach V} : Prop := {
  start_keeps : forall case_id key token seconds now d v r d' v', consistent d ->
    voice_start case_id key token seconds now (d, v) = (r, (d', v')) ->
    consistent d' /\ db_actions d' = db_actions d;
  cancel_keeps : forall case_id key now d v r d' v', consistent d ->
    voice_cancel_for_payment case_id key now (d, v) = (r, (d', v')) ->
    consistent d' /\ db_actions d' = db_actions d;
}.

Section submissions.
Context {P V : Type} {payment_provider : PaymentProvider P} {voice_outreach : VoiceOutreach V}
  {voice_laws : VoiceOutreachLaws V} `{Crypto}.
Abbreviation W := (world P V).
Context (iso : datetime -> string) (float_repr : Q -> string).
Context (pyd_int : json -> option Z) (pyd_datetime : json -> option datetime).
Context (fromisoformat : string -> result datetime) (new_id : nat -> string) (operator_token : string).
Context (x k : string) (once : bool).
Abbreviation spends n p Q :=
  (yields (payments_ok x k) (capacity x k (standard_payment_link_reference k) once) n p Q).
(** The permits a submission of [request] takes. *)
Abbreviation price request := (if counted k once request then 1 else 0).
Abbreviation for_free := (fun (n : Z) _ => n = 0).

Lemma spends_quiet {A} en (m : stx W A) : quiet m -> spends 0 (step_when en m) for_free.
Proof. intros Hq. by apply yields_quiet. Qed.
Lemma spends_await {A} n (m : stx W A) : 0 <= n -> quiet m ->
  spends n (await (P := P) (V := V) m) (fun n' _ => n' = n).
Proof.
  intros Hn Hq. split; [done|]. intros w r w' Hi E.
  apply (proj2 (yields_quiet x k _ once n (fun _ => true) m Hn Hq) w r w' Hi E).
Qed.
Lemma spends_return {A} (a : A) : spends 0 (return_ (P := P) (V := V) a) for_free.
Proof. by apply yields_done. Qed.
Lemma spends_bind {A B} (p : proc W A) (f : A -> proc W B) :
  spends 0 p for_free -> (forall a, spends 0 (f a) for_free) -> spends 0 (p ≫= f) for_free.
Proof. intros Hp Hf. eapply yields_bind; [done| |done]. by intros m a _ ->. Qed.
Lemma spends_then {A B} n (p : proc W A) (f : result A -> proc W B) Q :
  spends n p for_free -> (forall r, spends 0 (f r) Q) -> spends n (proc_then p f) Q.
Proof. intros Hp Hf. eapply yields_then; [done|]. by intros m r _ ->. Qed.

Lemma spends_open n request : price request <= n ->
  spends n (await (P := P) (V := V) (ask (open_customer_payment_surface request) (Opened request))) for_free.
Proof.
  intros Hn. apply yields_ask; [case_match; lia|]. intros r. exists 0. split_and!; [done|done|].
  unfold found_absent, opened. lia.
Qed.
Lemma spends_lookup ref :
  spends 0 (await (P := P) (V := V) (ask (reconcile_payment_link_by_reference ref) (LookedUp ref)))
    (fun n r => n = found_absent (standard_payment_link_reference k) once (LookedUp ref r)).
Proof.
  apply yields_ask; [done|]. intros r. eexists. split_and!; [|done|cbn; lia]. cbn. repeat case_match; lia.
Qed.

(** A request that opens a standalone link carries the reference of its key. *)
Definition referenced (request : OpenPaymentSurfaceRequest) : Prop :=
  op_surface_type request = PaymentSurfaceType.STANDARD_PAYMENT_LINK ->
  op_reference_id request = Some (standard_payment_link_reference (op_idempotency_key request)).

Lemma spends_reconcile i request : referenced request ->
  op_surface_type request = PaymentSurfaceType.STANDARD_PAYMENT_LINK ->
  spends 0 (reconcile_or_resume_standard_payment_link (P := P) (V := V) i request) for_free.
Proof.
  intros Href Hlink. unfold reconcile_or_resume_standard_payment_link.
  case_match; [apply spends_return|].
  apply spends_bind; [apply spends_quiet, quiet_begin_reconciliation|]. intros [answer|]; [apply spends_return|].
  cbv zeta. rewrite (Href Hlink). cbn [default].
  assert (forall answer, quiet (P := P) (V := V) (_ ← unlock_rows [i]; mret (A := ActionExecutionResult) answer))
    as Hg by (intros; quiet).
  eapply yields_then; [apply spends_lookup|]. intros n [[surface|]|e] _ ->; cbn [found_absent].
  - apply spends_await; [done|apply quiet_finish_reconciliation].
  - apply spends_then.
    + apply spends_open. unfold counted. rewrite Hlink. destruct once; cbn [negb andb orb].
      * rewrite (bool_decide_eq_true_2 (_ = PaymentSurfaceType.STANDARD_PAYMENT_LINK)) by done.
        cbn. rewrite andb_false_r. lia.
      * rewrite andb_true_r. case_bool_decide as Ek; [rewrite Ek, bool_decide_eq_true_2 by done|]; cbn; repeat case_match; lia.
    + intros [surface|e]; (apply spends_await; [done|]); [apply quiet_finish_reconciliation|done].
  - by apply spends_await.
Qed.

Lemma surface_request_Ok command surface subscription_id invoice_id action request :
  surface_request fromisoformat command surface subscription_id invoice_id action = Ok request ->
  op_idempotency_key request = act_idempotency_key action /\ op_surface_type request = surface
  /\ referenced request.
Proof.
  unfold surface_request. intros (deadline & _ & Hv)%bind_Ok.
  apply bind_Ok in Hv as ([] & _ & Hv). unfold guard_standard_payment_link in Hv. cbn in Hv.
  assert (forall r : OpenPaymentSurfaceRequest, Ok r = Ok request -> r = request) as Hinj by by intros r [=].
  unfold referenced.
  destruct (decide (surface = PaymentSurfaceType.STANDARD_PAYMENT_LINK)) as [E|E].
  - rewrite !bool_decide_eq_true_2 in Hv by done. simp_res. done.
  - rewrite !bool_decide_eq_false_2 in Hv by done. apply Hinj in Hv as <-. by cbn.
Qed.

Abbreviation anyhow := (fun (_ : Z) _ => True).

Lemma price_nonneg request : 0 <= price request.
Proof. case_match; lia. Qed.
Lemma spends_anyhow {A} n (p : proc W A) Q : spends n p Q -> spends n p anyhow.
Proof. intros Hp. by eapply yields_weaken. Qed.

Lemma spends_submitted i request outcome : referenced request ->
  spends 0 (submitted (P := P) (V := V) i request outcome) for_free.
Proof.
  intros Href. destruct outcome as [surface|e]; [apply spends_return|].
  destruct e; try by apply yields_done.
  cbn [submitted]. case_match; [apply spends_return|]. bools.
  apply spends_bind; [by apply spends_reconcile|]. intros answer. apply spends_return.
Qed.

Lemma spends_submit process i request : referenced request ->
  spends (price request) (submit_payment_surface (P := P) (V := V) process i request) anyhow.
Proof.
  intros Href. unfold submit_payment_surface.
  eapply yields_bind; [apply spends_await; [apply price_nonneg|by apply quiet_same]| |done].
  intros n _ _ ->. apply (yields_bind _ _ _ _ _ for_free); [|intros n [answer|surface] _ ->|done].
  - apply spends_then; [|intros outcome].
    + apply spends_then; [by apply spends_open|]. intros outcome. by apply spends_submitted.
    + apply spends_bind; [apply spends_await; [done|by apply quiet_same]|]. intros _. by apply yields_done.
  - by apply yields_done.
  - eapply spends_anyhow, spends_quiet, quiet_persist.
Qed.

(** The permits a claim holds. *)
Definition claim_price (surface : PaymentSurfaceType) (r : result claim) : Z :=
  match r with
  | Ok (Claimed a false) =>
      if eqs (act_idempotency_key a) k
         && (negb once || negb (eqs surface PaymentSurfaceType.STANDARD_PAYMENT_LINK)) then 1 else 0
  | _ => 0
  end.

Lemma claim_price_bound surface r : 0 <= claim_price surface r <= 1.
Proof. unfold claim_price. repeat case_match; lia. Qed.

Lemma spends_run_claim process command surface subscription_id invoice_id c :
  spends (claim_price surface (Ok c))
    (run_claim (P := P) (V := V) fromisoformat process command surface subscription_id invoice_id c) anyhow.
Proof.
  destruct c as [answer|a reconcile]; [by apply yields_done|]. cbn [run_claim].
  destruct (surface_request _ _ _ _ _ a) as [request|e] eqn:Er;
    cbn [pure_ mbind proc_bind proc_then].
  2: { apply yields_done; [apply (claim_price_bound surface (Ok (Claimed a reconcile)))|done]. }
  apply surface_request_Ok in Er as (Ek & <- & Href). destruct reconcile.
  - case_bool_decide as El; cbn [negb]; [by eapply spends_anyhow, spends_reconcile|by apply yields_done].
  - pose proof (spends_submit process (act_id a) request Href) as Hs. unfold counted in Hs.
    rewrite Ek in Hs. exact Hs.
Qed.

(** A fresh claim makes its action unclaimable. *)
Lemma claimed_started d a0 now : consistent d -> a0 ∈ db_actions d -> startable a0 = true -> act_id a0 = x ->
  started x d = 0 /\ started x (set_action x (mark_claimed now) d) = 1.
Proof.
  intros Hc Ha Hs Hx.
  assert (consistent (set_action x (mark_claimed now) d)) as Hc'.
  { unfold consistent, set_action. by rewrite update_actions_constraints. }
  assert (get_action (act_id (mark_claimed now a0)) (set_action x (mark_claimed now) d)
          = Some (mark_claimed now a0)) as Hg'.
  { apply get_action_elem; [done|]. unfold set_action, set_field. cbn. apply elem_of_update_where.
    exists a0. by rewrite Hx, bool_decide_eq_true_2. }
  pose proof (get_action_elem d a0 Hc Ha) as Hg. change (act_id (mark_claimed now a0)) with (act_id a0) in Hg'.
  rewrite Hx in Hg, Hg'. unfold started. by rewrite Hg, Hg', Hs.
Qed.

Lemma spends_claim_step surface en (m : stx W claim) : quiet m ->
  (forall w a w', consistent (w_db w) -> m w = (Ok (Claimed a false), w') ->
     exists a0 now, a0 ∈ db_actions (w_db w) /\ startable a0 = true /\ act_id a = act_id a0
       /\ act_idempotency_key a = act_idempotency_key a0
       /\ w_db w' = set_action (act_id a) (mark_claimed now) (w_db w)) ->
  spends 0 (step_when en m) (fun n r => n = claim_price surface r).
Proof.
  intros Hq Hm. apply yields_step; [done|]. intros w r w' Hi _ E. pose proof Hi as [Hc Hid].
  destruct (Hq w r w' Hc E) as (Hc' & Hp & Hl).
  destruct (capacity_progress x k (standard_payment_link_reference k) once w w' Hi Hp Hc' Hl) as [Hi' Hle].
  split; [done|]. exists (claim_price surface r). split_and!; [apply claim_price_bound|done|].
  unfold claim_price. destruct r as [[|a []]|]; try lia. case_match eqn:Ep; [|lia]. bools.
  destruct (Hm _ _ _ Hc E) as (a0 & now & Ha & Hs & Eid & Ekey & Ew).
  assert (act_id a0 = x) as Hx by (apply Hid; congruence).
  destruct (claimed_started (w_db w) a0 now) as [Hst0 Hst1]; try done.
  unfold capacity. rewrite Ew, Eid, Hx, Hl. lia.
Qed.

Lemma spends_claim process command surface :
  spends 0 (claim_action (P := P) (V := V) iso float_repr pyd_int pyd_datetime fromisoformat process command surface)
    (fun n r => n = claim_price surface r).
Proof.
  unfold claim_action. case_match; apply spends_claim_step.
  - apply quiet_claim_a2a.
  - intros w a w' Hc E. apply claim_a2a_fresh_exact in E as (data & row & Hd & -> & ->); [|done].
    exists (asc_action (a2_scope row)), (dt_instant (w_clock w)). destruct Hd as [_ _ _ Hrow _ _ Hst _].
    split_and!; try done.
    + by apply a2a_row_elem in Hrow as [Hin _].
    + apply mem_true in Hst. unfold startable. by destruct (act_status _).
  - apply quiet_claim_payment.
  - intros w a w' Hc E. apply claim_fresh_exact in E as (row & Hcl & -> & ->); [|done].
    destruct Hcl as [Hs Hst _ _]. apply payment_scope_elem in Hs as [Hin _].
    apply elem_of_action_scopes in Hin as [Hin _]. exists (asc_action row), (dt_instant (w_clock w)).
    split_and!; try done. by eapply claimable_startable.
Qed.

Lemma spends_open_surface process command :
  spends 0 (open_payment_surface (P := P) (V := V) iso float_repr pyd_int pyd_datetime fromisoformat process command)
    anyhow.
Proof.
  unfold open_payment_surface. repeat case_match; try by apply yields_done.
  all: destruct (PaymentSurfaceType_of _) as [surface|e]; cbn [pure_ mbind proc_bind proc_then];
    [|by apply yields_done].
  all: repeat case_match; try by apply yields_done.
  all: eapply yields_bind; [apply spends_claim| |done]; intros n c _ ->; apply spends_run_claim.
Qed.

(** A call of the voice service. *)
Lemma quiet_voice {A} (m : W -> stx (Db * V) A) :
  (forall w r d' v', consistent (w_db w) -> m w (w_db w, w_voice w) = (r, (d', v')) ->
     consistent d' /\ db_actions d' = db_actions (w_db w)) ->
  quiet (P := P) (fun w => with_voice (m w) w).
Proof.
  intros Hm w r w' Hc. unfold with_voice. destruct (m w _) as [r0 [d' v']] eqn:E. intros [= <- <-].
  destruct (Hm _ _ _ _ Hc E) as [Hc' Ha]. cbn. split_and!; [done|by apply same_actions|done].
Qed.

Lemma spends_voice command :
  spends 0 (execute_voice_action (P := P) (V := V) operator_token command) anyhow.
Proof.
  eapply spends_anyhow. unfold execute_voice_action.
  apply spends_bind; [apply spends_quiet, quiet_claim_voice|]. intros [answer|a reconcile]; [apply spends_return|].
  apply spends_bind.
  - apply spends_await; [done|]. apply quiet_voice. intros w r d' v' Hc E. by eapply start_keeps.
  - intros result. unfold conclude_voice. repeat case_match; [| |apply spends_return];
      (apply spends_bind; [by apply spends_quiet, quiet_finalize_voice|intros _; apply spends_return]).
Qed.

Lemma spends_execute process command :
  spends 0 (execute_recovery_action (P := P) (V := V) iso float_repr pyd_int pyd_datetime fromisoformat
              operator_token process command) anyhow.
Proof.
  unfold execute_recovery_action. repeat case_match; try by apply yields_done.
  - apply spends_voice.
  - apply spends_open_surface.
Qed.

Lemma spends_any_lookup ref :
  spends 0 (await (P := P) (V := V) (ask (reconcile_payment_link_by_reference ref) (LookedUp ref))) for_free.
Proof.
  apply yields_ask; [done|]. intros r. exists 0. split_and!; [done|done|]. cbn. repeat case_match; lia.
Qed.
Lemma spends_other {A} (call : stx P A) noted :
  (forall r, found_absent (standard_payment_link_reference k) once (noted r) = 0 /\ opened k once (noted r) = 0) ->
  spends 0 (await (P := P) (V := V) (ask call noted)) for_free.
Proof.
  intros Hn. apply yields_ask; [done|]. intros r. exists 0. destruct (Hn r) as [-> ->]. done.
Qed.

Lemma spends_resolve_link a : spends 0 (resolve_link (P := P) (V := V) a) for_free.
Proof.
  unfold resolve_link. case_match; [apply spends_return|].
  apply spends_then; [apply spends_any_lookup|]. intros [[]|]; apply spends_return.
Qed.

(** What [clean_link] answers keeps the row out of reach of a claim. *)
Lemma spends_clean_link a : startable a = false ->
  spends 0 (clean_link (P := P) (V := V) a)
    (fun n r => n = 0 /\ forall change paid, r = Ok (inr (change, paid)) -> change_ok change).
Proof.
  intros Ha.
  unfold clean_link. apply (yields_bind _ _ _ _ _ for_free); [apply spends_resolve_link| |done].
  intros n [reason| |reference url] _ ->.
  - by apply yields_done.
  - eapply yields_bind; [by apply spends_await; [|apply quiet_reading]|intros n clock _ ->|done].
    apply yields_done; [done|]. split; [done|]. by intros ? ? [= <- <-].
  - apply spends_then; [apply spends_other; done|]. intros [status|e]; [|by apply yields_done].
    case_match; [|case_match; [by apply yields_done|]].
    + apply yields_done; [done|]. split; [done|]. intros ? ? [= <- <-]. unfold change_ok. cbn.
      by destruct (bool_decide (is_Some (act_external_reference a))).
    + eapply yields_bind; [by apply spends_await; [|apply quiet_reading]|intros n clock _ ->|done].
      apply yields_done; [done|]. split; [done|]. by intros ? ? [= <- <-].
Qed.

Lemma spends_clean_links locked actions changes paid :
  Forall (fun a => startable a = false) actions -> Forall change_ok changes ->
  spends 0 (clean_links (P := P) (V := V) locked actions changes paid) for_free.
Proof.
  intros Ha. revert changes paid. induction Ha as [|a actions Hs Ha IH]; intros changes paid Hc.
  - apply spends_await; [done|by apply quiet_finish_cleanup].
  - cbn [clean_links].
    eapply yields_bind; [by apply spends_clean_link| |by intros ? ? ? [-> _]].
    intros n [reason|[change present]] _ [-> Hch].
    + apply spends_await; [done|]. quiet.
    + apply IH, Forall_app. split; [done|]. constructor; [by eapply Hch|done].
Qed.

Lemma spends_quiet_post {A} en (m : stx W A) (phi : result A -> Prop) : quiet m ->
  (forall w, phi (fst (m w))) -> spends 0 (step_when en m) (fun n r => n = 0 /\ phi r).
Proof.
  intros Hq Hphi. apply yields_step; [done|]. intros w r w' Hi _ E. pose proof Hi as [Hc _].
  destruct (Hq w r w' Hc E) as (Hc' & Hp & Hl).
  destruct (capacity_progress x k (standard_payment_link_reference k) once w w' Hi Hp Hc' Hl) as [Hi' Hle].
  split; [done|]. exists 0. specialize (Hphi w). rewrite E in Hphi. split_and!; [done|done|done|lia].
Qed.

Definition unclaimable (r : result cleanup_start) : Prop :=
  forall actions, r = Ok (inr actions) -> Forall (fun a => startable a = false) actions.
Lemma begin_cleanup_rows case_id (w : W) : unclaimable (fst (begin_cleanup case_id w)).
Proof.
  intros actions. unfold begin_cleanup. repeat case_match; try done.
  - stx_unfold. repeat case_match; cbn; try done; by simplify_eq.
  - intros [= <-]. apply Forall_forall. intros a [_ Ha]%elem_of_rows_where. bools.
    unfold startable. by destruct (act_status a).
Qed.

Lemma spends_cleanup case_id : spends 0 (cleanup_standard_payment_links (P := P) (V := V) case_id) for_free.
Proof.
  eapply yields_bind; [apply (spends_quiet_post _ _ unclaimable)| |by intros ? ? ? [-> _]].
  - apply quiet_begin_cleanup.
  - apply begin_cleanup_rows.
  - intros n [answer|actions] _ [-> Hl]; [by apply yields_done|]. apply spends_clean_links; [by apply Hl|done].
Qed.

Lemma spends_cancel command : spends 0 (cancel_recovery_action (P := P) (V := V) command) anyhow.
Proof.
  eapply spends_anyhow. unfold cancel_recovery_action.
  apply spends_bind; [apply spends_cleanup|intros cleanup].
  apply spends_bind; [apply spends_quiet, quiet_cancel_live|intros any].
  apply spends_bind; [|intros voice; apply spends_return].
  unfold cancel_voice. case_match; [|apply spends_return].
  apply spends_bind; [|intros result; apply spends_return].
  apply spends_await; [done|]. apply quiet_voice. intros w r d' v' Hc E. by eapply cancel_keeps.
Qed.

Lemma spends_reconcile_case command : spends 0 (reconcile_case (P := P) (V := V) command) anyhow.
Proof.
  eapply spends_anyhow. unfold reconcile_case. case_match; [apply spends_return|].
  apply spends_bind; [apply spends_await; [done|apply quiet_reading]|]. intros [result|row payment_id];
    [apply spends_return|].
  apply spends_bind; [by apply spends_other|]. intros snapshot. apply spends_return.
Qed.

Lemma spends_audit command :
  spends 0 (await (P := P) (V := V) (record_audit_event new_id command)) anyhow.
Proof.
  eapply spends_anyhow, spends_await; [done|]. intros w r w' Hc. unfold record_audit_event. cbv zeta.
  unfold commit_changes. destruct (violated _) eqn:E; repeat case_match; intros [= _ <-];
    (split_and!; [done|by apply same_actions|done]).
Qed.

(** ** The bound *)

(** What the worker runs. *)
Definition delivery : proc W unit -> Prop := fun p =>
  (exists process command, p = (_ ← execute_recovery_action iso float_repr pyd_int pyd_datetime fromisoformat
                                       operator_token process command; return_ tt))
  \/ (exists command, p = (_ ← cancel_recovery_action command; return_ tt))
  \/ (exists command, p = (_ ← reconcile_case command; return_ tt))
  \/ (exists command, p = (_ ← await (record_audit_event new_id command); return_ tt)).

Lemma delivery_spends p : delivery p -> spends 0 p anyhow.
Proof.
  assert (forall A (q : proc W A), spends 0 q anyhow -> spends 0 (_ ← q; return_ tt) anyhow) as Hthen.
  { intros A q Hq. eapply yields_bind; [exact Hq| |done]. intros n _ Hn _. by apply yields_done. }
  intros [(process & command & ->)|[(command & ->)|[(command & ->)|(command & ->)]]]; apply Hthen.
  - apply spends_execute.
  - apply spends_cancel.
  - apply spends_reconcile_case.
  - apply spends_audit.
Qed.
End submissions.
