(* ===== verification/PaymentSamples.v ===== *)
(** * Sample payments

    A payment provider with a list of links, whose first submission may be lost; a voice
    service without a provider; and the worlds on which the theorems of the payment
    activities are tried. *)
From S2P Require Import Prelude Procs Domain Json JsonText Razorpay Contracts Entities Session NonceStore A2AModels Mandates Activities VoicePorts A2ASamples A2ARuntimeFacts WorkerStore PaymentClaims PaymentActions PaymentActionsFacts.

(** The references of the links created; whether the next submission is lost on its way. *)
Record sample_links : Type := { sl_references : list string; sl_loses_next : bool; sl_paid : bool }.

Definition sample_surface (reference : string) : PaymentSurfaceResult := {|
  psf_provider := "razorpay"; psf_provider_reference := "plink_" +++ reference;
  psf_surface_type := PaymentSurfaceType.STANDARD_PAYMENT_LINK;
  psf_customer_url := "https://rzp.io/" +++ reference; psf_expires_at := None; psf_authoritative := false |}.

#[export] Instance sample_provider : PaymentProvider sample_links := {|
  is_mock_provider := false;
  has_link_lifecycle := true;
  open_customer_payment_surface r := fun s =>
    let reference := default "" (op_reference_id r) in
    if sl_loses_next s then
      (Err (RazorpayUncertainSubmissionError reference),
       {| sl_references := sl_references s; sl_loses_next := false; sl_paid := sl_paid s |})
    else (Ok (sample_surface reference),
          {| sl_references := reference :: sl_references s; sl_loses_next := false; sl_paid := sl_paid s |});
  fetch_payment_snapshot _ _ invoice_id := fun s =>
    (Ok {| ps_provider := "razorpay"; ps_payment_id := Some "pay_2"; ps_invoice_id := Some invoice_id;
           ps_subscription_id := Some "sub_1";
           ps_payment_state := if sl_paid s then PaymentState.CAPTURED else PaymentState.FAILED;
           ps_subscription_state := SubscriptionState.ACTIVE; ps_amount_paise := 49900;
           ps_currency := "INR"; ps_observed_at := utc_datetime 2000; ps_authoritative := true |}, s);
  reconcile_payment_link_by_reference reference := fun s =>
    (Ok (if mem reference (sl_references s) then Some (sample_surface reference) else None), s);
  revoke_standard_payment_link _ := fun s =>
    (Ok (if sl_paid s then "PAYMENT_PRESENT" else "CANCELLED"), s);
|}.

#[export] Instance sample_voice : VoiceOutreach unit := {|
  voice_provider_ready := false;
  voice_start case_id key _ _ _ := mret {|
    vcr_provider := "none"; vcr_contact_attempt_id := key; vcr_provider_call_id := None;
    vcr_status := "REJECTED"; vcr_reason_code := Some "PROVIDER_DISABLED" |};
  voice_cancel_for_payment case_id key _ := mret {|
    vx_status := "NOT_ACTIVE"; vx_cancellation_key := key; vx_attempt_id := None;
    vx_provider_submission_performed := false; vx_reason_code := None |};
|}.
#[export] Instance sample_voice_laws : VoiceOutreachLaws unit.
Proof. split; intros until v'; intros Hc [= <- <- <-]; by split. Qed.

Definition sample_action (type : RecoveryActionType) (surface : option PaymentSurfaceType)
    (status : ActionStatus) : RecoveryActionRecord := {|
  act_id := "a1"; act_case_id := "c1"; act_action_type := type; act_payment_surface_type := surface;
  act_status := status; act_idempotency_key := "ak"; act_scheduled_for := None;
  act_external_reference := None; act_customer_url := None; act_completed_at := None;
  act_created_at := 0; act_updated_at := 0 |}.
Definition link_action : ActionStatus -> RecoveryActionRecord :=
  sample_action RecoveryActionType.OPEN_CUSTOMER_PAYMENT_SURFACE (Some PaymentSurfaceType.STANDARD_PAYMENT_LINK).

Definition sample_world (action : RecoveryActionRecord) (consumptions : list A2AMandateNonceConsumption)
    (loses_next paid : bool) : world sample_links unit := {|
  w_db := sample_db <| db_actions := [action] |>; w_consumptions := consumptions;
  w_provider := {| sl_references := []; sl_loses_next := loses_next; sl_paid := paid |};
  w_voice := tt;
  w_fallback := {| ms_require_manual_approval := true; ms_audits := []; ms_executed_actions := [];
                   ms_executed_commands := []; ms_cancelled_keys := ∅ |};
  w_in_flight := ∅; w_locks := ∅; w_clock := utc_datetime 1000; w_utc := 1000; w_reads := 0; w_calls := [] |}.

Definition sample_execute (mandate : option json) (surface : PaymentSurfaceType) : ExecuteActionInput := {|
  ea_case_id := "c1"; ea_merchant_id := "mer"; ea_customer_id := "cus"; ea_subscription_id := "s1";
  ea_failed_invoice_id := Some "i1"; ea_amount_paise := 49900; ea_currency := "INR";
  ea_action := "OPEN_CUSTOMER_PAYMENT_SURFACE"; ea_payment_surface_type := Some (PaymentSurfaceType_value surface);
  ea_recovery_deadline := sample_iso (utc_datetime day); ea_idempotency_key := "workflow-1";
  ea_mandate := mandate; ea_provider_subscription_id := Some "sub_1"; ea_provider_invoice_id := Some "inv_1";
  ea_recovery_action_id := Some "a1" |}.

#[export] Instance eta_ExecuteActionInput : Eta ExecuteActionInput := fun c =>
  {| ea_case_id := ea_case_id c; ea_merchant_id := ea_merchant_id c; ea_customer_id :=
     ea_customer_id c; ea_subscription_id := ea_subscription_id c; ea_failed_invoice_id :=
     ea_failed_invoice_id c; ea_amount_paise := ea_amount_paise c; ea_currency := ea_currency
     c; ea_action := ea_action c; ea_payment_surface_type := ea_payment_surface_type c;
     ea_recovery_deadline := ea_recovery_deadline c; ea_idempotency_key := ea_idempotency_key
     c; ea_mandate := ea_mandate c; ea_provider_subscription_id := ea_provider_subscription_id
     c; ea_provider_invoice_id := ea_provider_invoice_id c; ea_recovery_action_id :=
     ea_recovery_action_id c |}.

Definition sample_new_id (n : nat) : string := "id" +++ pretty (N.of_nat n).

Abbreviation sample_run_execute command := (execute_recovery_action (P := sample_links) (V := unit) sample_iso
  sample_float sample_int sample_datetime sample_fromiso "token" 0%nat command).
