(* ===== verification/PaymentSafety.v ===== *)
(** * Safety of payment actions

    What the activities of [worker/app/runtime.py] promise: bounded submissions under every
    interleaving, exact claims, sound reconciliation, complete cancellation, idempotent audit
    events; with a small provider on which the theorems are tried. *)
From S2P Require Import Prelude Procs Domain Json JsonText Razorpay Decision Contracts Entities Session CaseRepo A2AModels NonceStore Mandates Activities VoicePorts A2ARuntime A2ASamples A2ARuntimeFacts WorkerStore PaymentClaims PaymentActions PaymentActionsFacts PaymentSamples.

(** ** At most one submission beyond the confirmed-absent lookups *)

Section bound.
Context {P V : Type} {payment_provider : PaymentProvider P} {voice_outreach : VoiceOutreach V}
  {voice_laws : VoiceOutreachLaws V} `{Crypto}.
Abbreviation W := (world P V).
Context (iso : datetime -> string) (float_repr : Q -> string).
Context (pyd_int : json -> option Z) (pyd_datetime : json -> option datetime).
Context (fromisoformat : string -> result datetime) (new_id : nat -> string) (operator_token : string).

(** What the rest of the system may do meanwhile: anything but call the provider in the
    worker's name, give the action's key to another action, or make an action claimable
    again once it was claimed. *)
Definition rest_of_system (x k : string) (w w' : W) : Prop :=
  w_calls w' = w_calls w /\ consistent (w_db w') /\ identified x k (w_db w')
  /\ started x (w_db w) <= started x (w_db w').

(** The submissions made with a key, and the lookups that confirmed a reference absent. *)
Definition submissions (k : string) (calls : list provider_call) : Z := opens k false calls.
Definition final_submissions (k : string) (calls : list provider_call) : Z := opens k true calls.
Definition confirmed_absent (reference : string) (calls : list provider_call) : Z :=
  absents reference false calls.

(** C8: However deliveries, cancellations and reconciliations of any worker processes
    interleave with each other and with the rest of the system, an action's idempotency key is
    submitted to the provider at most once beyond the lookups that confirmed its reference
    absent; and a surface that has no such lookup is submitted at most once. *)
Theorem submissions_bounded x k (env : W -> W -> Prop) w0 ps w :
  (forall v v', consistent (w_db v) -> identified x k (w_db v) -> env v v' -> rest_of_system x k v v') ->
  consistent (w_db w0) -> identified x k (w_db w0) -> w_calls w0 = [] ->
  rtc (pool_step env (delivery iso float_repr pyd_int pyd_datetime fromisoformat new_id operator_token))
    ([], w0) (ps, w) ->
  submissions k (w_calls w) <= 1 + confirmed_absent (standard_payment_link_reference k) (w_calls w)
  /\ final_submissions k (w_calls w) <= 1.
Proof.
  intros Henv Hc Hid Hnil Hr.
  assert (forall once, 0 <= capacity x k (standard_payment_link_reference k) once w) as Hcap.
  { intros once. refine (proj2 (pool_capacity _ _ (payments_ok x k) (capacity x k _ once) _ _ w0 (ps, w) _ _ Hr)).
    - intros v v' [Hv Hv'] Hve. destruct (Henv v v' Hv Hv' Hve) as (Hl & Hc' & Hid' & Hs). split; [done|]. unfold capacity. rewrite Hl. lia.
    - intros p Hp. eapply yields_permits. by eapply delivery_spends.
    - done.
    - unfold capacity. rewrite Hnil. pose proof (started_bound x (w_db w0)). cbn. lia. }
  pose proof (started_bound x (w_db w)).
  assert (forall l, absents (standard_payment_link_reference k) true l = 0) as Hz.
  { intros l. unfold absents. induction l as [|[| ? [[]|]| |] l IH]; cbn in *; lia. }
  pose proof (Hcap false). pose proof (Hcap true). unfold capacity in *. rewrite Hz in *.
  unfold submissions, final_submissions, confirmed_absent. lia.
Qed.
End bound.

(** A lost submission is looked up, found absent and submitted again: two submissions, one
    lookup. *)
Definition link_command : ExecuteActionInput := sample_execute None PaymentSurfaceType.STANDARD_PAYMENT_LINK.
Definition scheduled_link : world sample_links unit :=
  sample_world (link_action ActionStatus.SCHEDULED) [] true false.
Definition sample_delivery : proc (world sample_links unit) unit :=
  (_ ← sample_run_execute link_command; return_ tt).
Definition delivered_link : world sample_links unit := Eval vm_compute in
  match run sample_delivery scheduled_link with Some (_, w) => w | None => scheduled_link end.

Lemma submissions_bounded_witness :
  submissions "ak" (w_calls delivered_link) = 2
  /\ submissions "ak" (w_calls delivered_link)
     <= 1 + confirmed_absent (standard_payment_link_reference "ak") (w_calls delivered_link).
Proof.
  split; [vm_compute; reflexivity|].
  refine (proj1 (submissions_bounded sample_iso sample_float sample_int sample_datetime sample_fromiso
    sample_new_id "token" "a1" "ak" (fun v v' => v' = v) scheduled_link [Done (Ok tt)] delivered_link
    _ _ _ _ _)).
  - by intros v v' Hc Hid ->.
  - vm_compute. reflexivity.
  - by intros a ->%list_elem_of_singleton.
  - reflexivity.
  - eapply rtc_l; [apply (pool_start _ _ [] scheduled_link sample_delivery)|].
    + left. by exists 0%nat, link_command.
    + apply run_reaches. vm_compute. reflexivity.
Defined.

(** ** Claims *)

Section exact_claims.
Context {P V : Type} `{Crypto}.
Abbreviation W := (world P V).
Context (iso : datetime -> string) (float_repr : Q -> string).
Context (pyd_int : json -> option Z) (pyd_datetime : json -> option datetime).
Context (fromisoformat : string -> result datetime).
Abbreviation claim_a2a := (claim_a2a_payment_action (P := P) (V := V) iso float_repr pyd_int pyd_datetime fromisoformat).

(** No delivery, with or without a mandate, can freshly claim the action in [w]. *)
Definition unclaimable_in (action_id : string) (w : W) : Prop :=
  forall process command mandate surface b w',
    (claim_payment_action process command surface w = (Ok (Claimed b false), w')
     \/ claim_a2a command mandate surface w = (Ok (Claimed b false), w')) -> act_id b <> action_id.

Lemma claimed_stays i now (w1 w2 : W) : consistent (w_db w2) ->
  progress (set_action i (mark_claimed now) (w_db w1)) (w_db w2) -> unclaimable_in i w2.
Proof.
  intros Hc Hp.
  assert (forall a, a ∈ db_actions (w_db w2) -> startable a = true -> act_id a <> i) as Hno.
  { intros a Ha Hs E. apply list_elem_of_lookup in Ha as [j Hj].
    destruct (Forall2_lookup_r _ _ _ _ _ Hp Hj) as (a0 & Ha0 & Hid & _ & Hst).
    specialize (Hst Hs). apply list_elem_of_lookup_2 in Ha0.
    unfold set_action, set_field in Ha0. cbn in Ha0. apply elem_of_update_where in Ha0 as (a1 & _ & ->).
    case_bool_decide as Ei; [by vm_compute in Hst|]. congruence. }
  intros process command mandate surface b w' [E|E].
  - apply claim_fresh_exact in E as (row & Hcl & -> & _); [|done]. destruct Hcl as [Hs Hst _ _].
    apply payment_scope_elem in Hs as [[Hin _]%elem_of_action_scopes _].
    apply (Hno _ Hin). by eapply claimable_startable.
  - apply claim_a2a_fresh_exact in E as (data & row & Hd & -> & _); [|done].
    destruct Hd as [_ _ _ Hrow _ _ Hst _]. apply a2a_row_elem in Hrow as (Hin & _).
    apply (Hno _ Hin). apply mem_true in Hst. unfold startable. by destruct (act_status _).
Qed.


End exact_claims.

Definition claimed_link : world sample_links unit := Eval vm_compute in
  snd (claim_payment_action 0%nat link_command PaymentSurfaceType.STANDARD_PAYMENT_LINK scheduled_link).

(** A consumed mandate of the sample signer, and the SEND action it authorizes. *)
Definition agent_command : ExecuteActionInput :=
  sample_execute (Some (signed_mandate_dump sample_iso sample_signed)) PaymentSurfaceType.SUBSCRIPTION_INVOICE_LINK.
Definition agent_world : world sample_links unit :=
  sample_world (sample_action RecoveryActionType.SEND_TO_CUSTOMER_AGENT None ActionStatus.SCHEDULED)
    [consumption_row (claim_of sample_iso sample_float sample_mandate (utc_datetime 1000))] false false.
Definition agent_mandate : json := Eval vm_compute in signed_mandate_dump sample_iso sample_signed.
Definition agent_claim : result claim * world sample_links unit := Eval vm_compute in
  claim_a2a_payment_action sample_iso sample_float sample_int sample_datetime sample_fromiso agent_command
    agent_mandate PaymentSurfaceType.SUBSCRIPTION_INVOICE_LINK agent_world.
Definition agent_action : RecoveryActionRecord := Eval vm_compute in
  match agent_claim with (Ok (Claimed a _), _) => a | _ => link_action ActionStatus.PROPOSED end.

(** ** Reconciliation *)

Section reconciliation.
Context {P V : Type} {payment_provider : PaymentProvider P}.
Abbreviation W := (world P V).

Lemma case_scope_elem command failed_invoice_id d k : case_scope_of command failed_invoice_id d = Some k ->
  ks_case k ∈ db_cases d /\ rc_id (ks_case k) = ri_case_id command
  /\ Entities.rc_merchant_id (ks_case k) = ri_merchant_id command
  /\ rc_failed_invoice_id (ks_case k) = Some failed_invoice_id
  /\ ks_invoice k ∈ db_invoices d /\ inv_id (ks_invoice k) = failed_invoice_id
  /\ ks_subscription k ∈ db_subscriptions d /\ sub_id (ks_subscription k) = rc_subscription_id (ks_case k).
Proof.
  unfold case_scope_of. intros (c & Hc & Hk)%bind_Some. apply bind_Some in Hk as (i & Hi & Hk).
  apply bind_Some in Hk as (s & Hs & [= <-]). apply row_where_Some in Hc as [Hc1 Hc2], Hi as [Hi1 Hi2], Hs as [Hs1 Hs2].
  bools. cbn. done.
Qed.

(** What the tables or the provider must say before a case counts as recovered. *)
Definition recognized (command : ReconciliationInput) (k : case_scope) (d : Db) : Prop :=
  rc_case_recovered (ks_case k) = true
  /\ exists r p, r ∈ db_recognitions d /\ p ∈ db_payments d /\ rev_case_id r = rc_id (ks_case k)
       /\ rev_provider r = "razorpay" /\ rev_attribution r = RevenueAttribution.RAZORPAY_TEST_VERIFIED
       /\ rev_arrears_collected r = true /\ rev_payment_attempt_id r = Some (pay_id p)
       /\ pay_invoice_id p = inv_id (ks_invoice k) /\ pay_payment_state p = PaymentState.CAPTURED.

Definition signed_webhook (command : ReconciliationInput) (k : case_scope) (payment_id : string) (d : Db) : Prop :=
  exists inbox event, inbox ∈ db_inbox d /\ inb_merchant_id inbox = ri_merchant_id command
    /\ inb_provider inbox = "razorpay" /\ inb_provider_event_id inbox = ri_trigger_event_id command
    /\ normalize_webhook (inb_provider_event_id inbox) (inb_payload inbox) = Ok event
    /\ ne_invoice_id event = Some (inv_provider_invoice_id (ks_invoice k))
    /\ ne_payment_state event = PaymentState.CAPTURED /\ ne_payment_id event = Some payment_id.

Definition provider_confirms (command : ReconciliationInput) (k : case_scope) (w : W) (s : PaymentSnapshot) : Prop :=
  exists payment_id p', fetch_payment_snapshot (ri_merchant_id command) payment_id
      (inv_provider_invoice_id (ks_invoice k)) (w_provider w) = (Ok s, p')
  /\ match payment_id with
     | Some id => ps_payment_id s = Some id /\ signed_webhook command k id (w_db w)
     | None => ri_authoritative_hint command = false
     end
  /\ ps_authoritative s = true /\ ps_payment_state s = PaymentState.CAPTURED
  /\ ps_invoice_id s = Some (inv_provider_invoice_id (ks_invoice k))
  /\ ps_subscription_id s = Some (sub_provider_subscription_id (ks_subscription k))
  /\ ps_currency s = inv_currency (ks_invoice k)
  /\ 0 < ps_amount_paise s
  /\ rc_arrears_collected_paise (ks_case k) + ps_amount_paise s = rc_amount_at_risk_paise (ks_case k).

Lemma recognized_elem command k d payment : recognized_payment command k d = Some payment ->
  rc_case_recovered (ks_case k) = true -> recognized command k d.
Proof.
  unfold recognized_payment. intros Hp Hr. split; [done|].
  apply fmap_Some in Hp as ([r p] & (r' & Hin & Hr')%first_by_Some%list_elem_of_bind & ->).
  apply list_elem_of_bind in Hin as (p' & Hin & Hp'). apply list_elem_of_singleton in Hin as [= -> ->].
  apply elem_of_rows_where in Hr' as [Hr1 Hr2], Hp' as [Hp1 Hp2]. bools. by exists r', p'.
Qed.

Lemma asserted_payment_exact event k payment_id : asserted_payment event k = Some payment_id ->
  ne_invoice_id event = Some (inv_provider_invoice_id (ks_invoice k))
  /\ ne_payment_state event = PaymentState.CAPTURED /\ ne_payment_id event = Some payment_id.
Proof.
  unfold asserted_payment. cbv zeta. intros Ha. case_match eqn:Ec; [|done].
  destruct (bool_decide (ne_event_type event = _)); bools; done.
Qed.

Lemma snapshot_recovers_exact k payment_id s : snapshot_recovers k payment_id s = true ->
  ps_authoritative s = true /\ ps_payment_state s = PaymentState.CAPTURED
  /\ ps_invoice_id s = Some (inv_provider_invoice_id (ks_invoice k))
  /\ ps_subscription_id s = Some (sub_provider_subscription_id (ks_subscription k))
  /\ ps_currency s = inv_currency (ks_invoice k) /\ 0 < ps_amount_paise s
  /\ rc_arrears_collected_paise (ks_case k) + ps_amount_paise s = rc_amount_at_risk_paise (ks_case k)
  /\ (payment_id = None \/ ps_payment_id s = payment_id).
Proof.
  unfold snapshot_recovers, required_arrears. intros Hs. bools. split_and!; try done; lia || (destruct H0; bools; auto).
Qed.

(** C11: A case is reported recovered only on authoritative evidence about its own invoice: the
    ledger's recognition of a captured payment, or a snapshot fetched from the provider that
    shows the invoice, subscription and currency of the case captured for exactly the arrears
    still due, and, when a signal triggered it, the payment a stored signed webhook names. *)
Theorem reconciliation_sound command (w w' : W) result :
  is_mock_provider P = false ->
  run (reconcile_case command) w = Some (Ok result, w') -> rn_case_recovered result = true ->
  exists failed_invoice_id k, ri_failed_invoice_id command = Some failed_invoice_id
    /\ case_scope_of command failed_invoice_id (w_db w) = Some k /\ w_db w' = w_db w
    /\ ((recognized command k (w_db w)
         /\ rn_arrears_collected_paise result = rc_arrears_collected_paise (ks_case k))
        \/ (exists s, provider_confirms command k w s
            /\ rn_arrears_collected_paise result = rc_amount_at_risk_paise (ks_case k)
            /\ (rn_subscription_reactivated result = true <-> ps_subscription_state s = SubscriptionState.ACTIVE))).
Proof.
  intros Hm Hr Hrec. unfold reconcile_case in Hr. rewrite Hm in Hr.
  apply run_bind_Ok in Hr as (found & w1 & Hread & Hr). unfold await in Hread. rewrite run_await in Hread.
  injection Hread as Hread <-. unfold read_case in Hread.
  destruct (failed_invoice_id ← ri_failed_invoice_id command; case_scope_of command failed_invoice_id (w_db w))
    as [k|] eqn:Ek.
  2: { injection Hread as <-. by injection Hr as <- _. }
  apply bind_Some in Ek as (failed_invoice_id & Ef & Ek). exists failed_invoice_id, k. split; [done|]. split; [done|].
  destruct (recognized_payment command k (w_db w)) as [payment|] eqn:Ep.
  { injection Hread as <-. injection Hr as <- <-. split; [done|]. left. split; [|done].
    by eapply recognized_elem. }
  assert (exists payment_id, found = AskProvider k payment_id
    /\ match payment_id with
       | Some id => signed_webhook command k id (w_db w)
       | None => ri_authoritative_hint command = false
       end) as (payment_id & -> & Hid).
  { destruct (row_where _ (db_inbox (w_db w))) as [inbox|] eqn:Ei.
    - apply row_where_Some in Ei as [Hin Hi]. bools.
      destruct (normalize_webhook _ _) as [event|e] eqn:En.
      + destruct (asserted_payment event k) as [id|] eqn:Ea; injection Hread as <-.
        * exists (Some id). split; [done|]. apply asserted_payment_exact in Ea as (? & ? & ?). by exists inbox, event.
        * by injection Hr as <- _.
      + destruct (is_integration_error e); [|done]. injection Hread as <-. by injection Hr as <- _.
    - destruct (ri_authoritative_hint command) eqn:Eh; injection Hread as <-.
      + by injection Hr as <- _.
      + by exists None. }
  apply run_bind_Ok in Hr as (s & w2 & Hask & Hr). unfold await in Hask. rewrite run_await in Hask.
  unfold ask in Hask. destruct (fetch_payment_snapshot _ _ _ _) as [r0 p'] eqn:Efetch.
  injection Hask as -> <-. injection Hr as <- <-. split; [done|]. right. exists s.
  cbn [rn_case_recovered snapshot_result] in Hrec. cbn [rn_arrears_collected_paise rn_subscription_reactivated snapshot_result].
  rewrite Hrec. apply snapshot_recovers_exact in Hrec as (Ha & Hc & Hi & Hs & Hcur & Hpos & Hsum & Hpay).
  split; [|split; [done|by rewrite andb_true_l, bool_decide_eq_true]].
  exists payment_id, p'. split_and!; try done. destruct payment_id as [id|]; [|done].
  split; [|done]. by destruct Hpay.
Qed.
End reconciliation.

Definition reconcile_command : ReconciliationInput := {|
  ri_case_id := "c1"; ri_merchant_id := "mer"; ri_failed_invoice_id := Some "i1";
  ri_failed_payment_id := None; ri_trigger_event_id := "poll-1"; ri_payment_state_hint := None;
  ri_amount_paise_hint := None; ri_authoritative_hint := false |}.
Definition paid_world : world sample_links unit :=
  sample_world (link_action ActionStatus.SUCCEEDED) [] false true.
Definition reconciled : option (result ReconciliationResult * world sample_links unit) := Eval vm_compute in
  run (reconcile_case reconcile_command) paid_world.
Definition reconciled_result : ReconciliationResult := Eval vm_compute in
  match reconciled with Some (Ok r, _) => r | _ => unreconciled_case end.
Definition reconciled_world : world sample_links unit := Eval vm_compute in
  match reconciled with Some (_, w) => w | None => paid_world end.
Lemma reconciliation_sound_witness : rn_arrears_collected_paise reconciled_result = 49900
  /\ exists failed_invoice_id k, ri_failed_invoice_id reconcile_command = Some failed_invoice_id
       /\ case_scope_of reconcile_command failed_invoice_id (w_db paid_world) = Some k.
Proof.
  split; [reflexivity|].
  destruct (reconciliation_sound reconcile_command paid_world reconciled_world reconciled_result)
    as (failed_invoice_id & k & Hf & Hk & _).
  - reflexivity.
  - vm_compute. reflexivity.
  - reflexivity.
  - exists failed_invoice_id, k. by split.
Defined.

(** ** Cancellation *)

Section cancellation.
Context {P V : Type} {payment_provider : PaymentProvider P} {voice_outreach : VoiceOutreach V}
  {voice_laws : VoiceOutreachLaws V} `{Crypto}.
Abbreviation W := (world P V).

(** The columns of an action no cleanup assigns. *)
Definition same_action (a b : RecoveryActionRecord) : Prop :=
  act_id b = act_id a /\ act_case_id b = act_case_id a
  /\ act_payment_surface_type b = act_payment_surface_type a.

(** Each row after a flush: assigned by a change, or untouched. *)
Lemma flush_rows changes f d b : flush_changes changes = Ok f -> b ∈ db_actions (f d) ->
  exists a, a ∈ db_actions d /\ same_action a b
    /\ ((exists c, c ∈ changes /\ lc_id c = act_id a /\ act_status b = lc_status c
           /\ act_external_reference b = lc_reference c)
        \/ (b = a /\ forall c, c ∈ changes -> lc_id c <> act_id a)).
Proof.
  revert f d. induction changes as [|c changes IH]; cbn; intros f d.
  - intros [= <-] Hb. exists b. split; [done|]. split; [done|]. right. split; [done|]. by intros c ?%not_elem_of_nil.
  - intros (completed & _ & (rest & Hr & [= <-])%bind_Ok)%bind_Ok Hb.
    destruct (IH _ _ Hr Hb) as (a1 & Ha1 & Hs1 & Hcase).
    unfold apply_change, set_action, set_field in Ha1. cbn in Ha1.
    apply elem_of_update_where in Ha1 as (a & Ha & ->). exists a. split; [done|].
    case_bool_decide as E.
    + destruct Hcase as [(c' & Hc' & Hid & Hst & Href)|[-> Hno]].
      * split; [by destruct completed|]. left. exists c'. split; [by right|]. by destruct completed.
      * split; [by destruct completed|]. left. exists c. split; [by left|]. by destruct completed.
    + split; [done|]. destruct Hcase as [(c' & Hc' & Hid & Hst & Href)|[-> Hno]].
      * left. exists c'. split; [by right|done].
      * right. split; [done|]. intros c' [->|Hc']%elem_of_cons; [congruence|by apply Hno].
Qed.

(** A link found paid stays; its revocation said so. *)
Definition paid_link (calls : list provider_call) (reference : option string) : Prop :=
  exists r, reference = Some r /\ Revoked r (Ok "PAYMENT_PRESENT") ∈ calls.
Definition settles (calls : list provider_call) (a : RecoveryActionRecord) (c : link_change) : Prop :=
  lc_id c = act_id a
  /\ (lc_status c = ActionStatus.CANCELLED
      \/ (mem (lc_status c) [ActionStatus.SUCCEEDED; act_status a] = true /\ paid_link calls (lc_reference c))).

(** Calls are only ever added, and the database waits for the final commit. *)
Definition only_calls (w w' : W) : Prop := w_db w' = w_db w /\ exists l, w_calls w' = (w_calls w ++ l)%list.
Lemma only_calls_refl w : only_calls w w.
Proof. split; [done|]. exists []. by rewrite app_nil_r. Qed.
Lemma only_calls_trans w1 w2 w3 : only_calls w1 w2 -> only_calls w2 w3 -> only_calls w1 w3.
Proof. intros [D1 [l1 E1]] [D2 [l2 E2]]. split; [congruence|]. exists (l1 ++ l2)%list. by rewrite E2, E1, app_assoc. Qed.
Lemma ask_only_calls {A} (call : stx P A) noted (w : W) r w' : ask call noted w = (r, w') ->
  only_calls w w' /\ noted r ∈ w_calls w'.
Proof.
  unfold ask. destruct (call _) as [r0 p]. intros [= <- <-]. split; [by split; [|eexists]|].
  cbn. apply elem_of_app. right. by left.
Qed.
Lemma clean_link_run a (w w' : W) cleaned : run (clean_link a) w = Some (Ok cleaned, w') ->
  only_calls w w' /\ forall c paid, cleaned = inr (c, paid) -> settles (w_calls w') a c.
Proof.
  unfold clean_link. intros (state & w1 & Hs & Hr)%run_bind_Ok.
  assert (only_calls w w1) as H1.
  { revert Hs. unfold resolve_link. destruct (act_external_reference a) as [reference|].
    { intros Hs. injection Hs as _ <-. apply only_calls_refl. }
    rewrite run_then. unfold await. rewrite run_await.
    destruct (ask _ _ w) as [r w0] eqn:Ea. apply ask_only_calls in Ea as [Ha _].
    by destruct r as [[surface|]|e]; intros Hs; injection Hs as _ <-. }
  destruct state as [reason| |reference url].
  - injection Hr as <- <-. by split.
  - apply run_bind_Ok in Hr as (clock & w2 & Hc & Hr). unfold await in Hc. rewrite run_await in Hc.
    injection Hc as <- <-. injection Hr as <- <-. split; [done|].
    intros c paid [= <- _]. split; [done|]. by left.
  - rewrite run_then in Hr. unfold await in Hr. rewrite run_await in Hr.
    destruct (ask _ _ w1) as [r w2] eqn:Ea. apply ask_only_calls in Ea as [Ha Hin].
    assert (only_calls w w2) as H2 by by eapply only_calls_trans.
    destruct r as [status|e]; [|by injection Hr as <- <-].
    case_bool_decide as Ep; [|destruct (negb _); [by injection Hr as <- <-|]].
    + injection Hr as <- <-. split; [done|]. intros c paid [= <- _]. split; [done|]. right. cbn.
      split; [|by exists reference; rewrite <- Ep].
      by destruct (bool_decide (is_Some (act_external_reference a))); destruct (act_status a).
    + apply run_bind_Ok in Hr as (clock & w3 & Hc & Hr). rewrite run_await in Hc.
      injection Hc as <- <-. injection Hr as <- <-. split; [done|].
      intros c paid [= <- _]. split; [done|]. by left.
Qed.

Lemma clean_links_run locked actions : forall changes present (w w' : W) reason,
  run (clean_links locked actions changes present) w = Some (Ok (true, reason), w') ->
  exists more f, Forall2 (settles (w_calls w')) actions more /\ flush_changes (changes ++ more) = Ok f
    /\ w_db w' = f (w_db w) /\ exists l, w_calls w' = (w_calls w ++ l)%list.
Proof.
  induction actions as [|a actions IH]; intros changes present w w' reason.
  - cbn [clean_links]. unfold await. rewrite run_await. intros [= Hr].
    apply stx_bind_Ok in Hr as (u & w1 & [= _ <-] & Hr).
    apply stx_bind_Ok in Hr as (f & w2 & [-> Hf]%lift_value & Hr).
    apply stx_bind_Ok in Hr as (u' & w3 & Hc & Hr). injection Hr as _ <-.
    exists [], f. rewrite app_nil_r. unfold commit_changes in Hc. destruct (violated _); [done|]. injection Hc as _ <-.
    split_and!; [constructor|done|done|]. exists []. by rewrite app_nil_r.
  - cbn [clean_links]. intros (cleaned & w1 & Hcl & Hr)%run_bind_Ok.
    apply clean_link_run in Hcl as [Ho Hset]. destruct cleaned as [code|[c paid]].
    { unfold await in Hr. rewrite run_await in Hr. discriminate. }
    destruct (IH _ _ _ _ _ Hr) as (more & f & Hall & Hf & Hdb & Hl). exists (c :: more), f.
    rewrite <- app_assoc in Hf. destruct Ho as [Hdb1 [l1 Hl1]], Hl as [l2 Hl2].
    split_and!; [|done|by rewrite Hdb, Hdb1|exists (l1 ++ l2)%list; by rewrite Hl2, Hl1, app_assoc].
    constructor; [|done]. specialize (Hset _ _ eq_refl). destruct Hset as [Hid [Hs|[Hs (r & Hr' & Hin)]]].
    + split; [done|]. by left.
    + split; [done|]. right. split; [done|]. exists r. rewrite Hl2, elem_of_app. auto.
Qed.

(** What a cleanup that succeeds makes of a row. *)
Definition cleaned (case_id : string) (w w' : W) (b : RecoveryActionRecord) : Prop :=
  exists a, a ∈ db_actions (w_db w) /\ same_action a b
    /\ ((b = a /\ a ∉ open_links case_id (w_db w))
        \/ (a ∈ open_links case_id (w_db w)
            /\ (act_status b = ActionStatus.CANCELLED \/ paid_link (w_calls w') (act_external_reference b)))).

Lemma open_links_elem case_id d a : a ∈ open_links case_id d <->
  a ∈ db_actions d /\ act_case_id a = case_id
  /\ act_payment_surface_type a = Some PaymentSurfaceType.STANDARD_PAYMENT_LINK
  /\ act_status a ∈ [ActionStatus.EXECUTING; ActionStatus.SUCCEEDED].
Proof.
  unfold open_links. rewrite elem_of_rows_where, !andb_true_iff, !bool_decide_eq_true, <- mem_true. naive_solver.
Qed.

(** The flush of one settling change for every open link. *)
Lemma flush_cleaned case_id (w w' : W) changes f : consistent (w_db w) ->
  Forall2 (settles (w_calls w')) (open_links case_id (w_db w)) changes ->
  flush_changes changes = Ok f -> w_db w' = f (w_db w) ->
  forall b, b ∈ db_actions (w_db w') -> cleaned case_id w w' b.
Proof.
  intros Hc Hall Hf Hdb b Hb. rewrite Hdb in Hb.
  destruct (flush_rows _ _ _ _ Hf Hb) as (a & Ha & Hs & Hcase). exists a. split; [done|]. split; [done|].
  destruct Hcase as [(c & Hcin & Hid & Hst & Href)|[-> Hno]].
  - right. apply list_elem_of_lookup in Hcin as [i Hi].
    destruct (Forall2_lookup_r _ _ _ _ _ Hall Hi) as (a0 & Ha0 & Hida & Hset).
    apply list_elem_of_lookup_2 in Ha0. pose proof Ha0 as [Ha0' _]%open_links_elem.
    rewrite (action_by_id _ a a0 Hc Ha Ha0') by congruence. split; [done|].
    destruct Hset as [Hset|[_ Hset]]; [left|right]; congruence.
  - left. split; [done|]. intros [i Hi]%list_elem_of_lookup.
    destruct (Forall2_lookup_l _ _ _ _ _ Hall Hi) as (c & Hci & Hid & _).
    apply (Hno c); [by eapply list_elem_of_lookup_2|done].
Qed.

Lemma cleanup_run case_id (w w' : W) reason : consistent (w_db w) ->
  run (cleanup_standard_payment_links case_id) w = Some (Ok (true, reason), w') ->
  forall b, b ∈ db_actions (w_db w') -> cleaned case_id w w' b.
Proof.
  intros Hc. unfold cleanup_standard_payment_links. intros (started & w1 & Hs & Hr)%run_bind_Ok.
  unfold transaction in Hs. rewrite run_step in Hs. destruct (free _ w); [|done]. injection Hs as Hs.
  unfold begin_cleanup in Hs. case_bool_decide as El; [|destruct (is_mock_provider P); [|destruct (negb _)]].
  - injection Hs as <- <-. injection Hr as _ <-. intros b Hb. exists b. split; [done|]. split; [done|].
    left. split; [done|]. apply map_eq_nil in El. rewrite El. apply not_elem_of_nil.
  - apply stx_bind_Ok in Hs as (f & w2 & [-> Hf]%lift_value & Hs).
    apply stx_bind_Ok in Hs as (u & w3 & Hcm & Hs). injection Hs as <- <-. injection Hr as _ <-.
    unfold commit_changes in Hcm. destruct (violated _); [done|]. injection Hcm as _ <-.
    eapply flush_cleaned; [done| |done|done]. apply Forall2_fmap_r, Forall_Forall2_diag, Forall_forall.
    intros a _. split; [done|]. by left.
  - by injection Hs as <- <-.
  - apply stx_bind_Ok in Hs as (u & w2 & Hl & Hs). injection Hl as _ <-. injection Hs as <- <-.
    apply clean_links_run in Hr as (changes & f & Hall & Hf & Hdb & _).
    by eapply (flush_cleaned case_id w w').
Qed.

Lemma cancel_live_run case_id (w w' : W) any : cancel_live_actions case_id w = (Ok any, w') ->
  w_calls w' = w_calls w
  /\ forall b, b ∈ db_actions (w_db w') ->
       exists a, a ∈ db_actions (w_db w) /\ same_action a b
         /\ (act_status b = ActionStatus.CANCELLED
             \/ (b = a /\ (a ∈ cancellable case_id (w_db w) -> cancels a = false))).
Proof.
  unfold cancel_live_actions. intros (f & w2 & [-> Hf]%lift_value & Hs)%stx_bind_Ok.
  apply stx_bind_Ok in Hs as (u & w3 & Hcm & Hs). injection Hs as _ <-.
  unfold commit_changes in Hcm. destruct (violated _); [done|]. injection Hcm as _ <-.
  split; [done|]. intros b Hb. destruct (flush_rows _ _ _ _ Hf Hb) as (a & Ha & Hsame & Hcase).
  exists a. split; [done|]. split; [done|]. destruct Hcase as [(c & Hcin & Hid & Hst & _)|[-> Hno]].
  - left. apply list_elem_of_fmap in Hcin as (a0 & -> & _). done.
  - right. split; [done|]. intros Hin. apply not_true_iff_false. intros Hcan.
    apply (Hno (cancelled_change a (w_clock w))); [|done]. apply list_elem_of_fmap. exists a. split; [done|].
    apply list_elem_of_In, List.filter_In. by rewrite <- list_elem_of_In.
Qed.

(** The rows stay consistent between the steps: the invariant of the counting argument, for
    a key and an action that do not occur. *)
Lemma cleanup_consistent case_id (w w' : W) r : consistent (w_db w) ->
  run (cleanup_standard_payment_links case_id) w = Some (r, w') -> consistent (w_db w').
Proof.
  intros Hc Hr.
  set (x := fresh (list_to_set (map act_id (db_actions (w_db w))) : gset string)).
  set (k := fresh (list_to_set (map act_idempotency_key (db_actions (w_db w))) : gset string)).
  refine (proj1 (run_permits (payments_ok x k) (capacity x k (standard_payment_link_reference k) false) 0 _ w r w'
    _ _ Hr)).
  - eapply yields_permits, spends_cleanup.
  - split; [done|]. intros a Ha.
    assert (x ∉ map act_id (db_actions (w_db w)) /\ k ∉ map act_idempotency_key (db_actions (w_db w))) as [Hx Hk].
    { split; rewrite <- (elem_of_list_to_set (C := gset string)); apply is_fresh. }
    split; intros E; exfalso; [apply Hk|apply Hx]; apply list_elem_of_fmap; by exists a.
Qed.
Lemma cancel_voice_run command (w w' : W) voice : consistent (w_db w) ->
  run (cancel_voice command) w = Some (Ok voice, w') ->
  db_actions (w_db w') = db_actions (w_db w) /\ w_calls w' = w_calls w.
Proof.
  intros Hc. unfold cancel_voice. case_bool_decide; [|by intros Hr; injection Hr as _ <-].
  intros (result & w1 & Hv & Hr)%run_bind_Ok. injection Hr as _ <-.
  unfold await in Hv. rewrite run_await in Hv. injection Hv as Hv. revert Hv. unfold with_voice.
  destruct (voice_cancel_for_payment _ _ _ _) as [r [d' v']] eqn:E. intros [= _ <-].
  by destruct (cancel_keeps _ _ _ _ _ _ _ _ Hc E) as [_ Ha].
Qed.
Lemma cancel_answer_cancelled cleanup any voice : cr_cancelled (cancel_answer cleanup any voice) = true ->
  cleanup.1 = true.
Proof. unfold cancel_answer. cbv zeta. case_match; [done|]. by destruct cleanup.1. Qed.

(** What a successful cancellation leaves of an action. *)
Definition at_rest (calls : list provider_call) (b : RecoveryActionRecord) : Prop :=
  let link := act_payment_surface_type b = Some PaymentSurfaceType.STANDARD_PAYMENT_LINK in
  match act_status b with
  | ActionStatus.PROPOSED | ActionStatus.AWAITING_APPROVAL | ActionStatus.SCHEDULED => link
  | ActionStatus.EXECUTING => link /\ paid_link calls (act_external_reference b)
  | ActionStatus.SUCCEEDED => link -> paid_link calls (act_external_reference b)
  | _ => True
  end.

End cancellation.

Definition cancel_command : CancelActionInput := {|
  ci_case_id := "c1"; ci_provider_reference := None; ci_reason := "AUTHORITATIVE_PAYMENT_SUCCESS";
  ci_idempotency_key := "cancel-1" |}.
(** An open link whose cancellation finds it paid. *)
Definition open_link_world (paid : bool) : world sample_links unit :=
  sample_world (link_action ActionStatus.SUCCEEDED <| act_external_reference := Some "plink_1" |>) [] false paid.
Definition cancelled_world : world sample_links unit := Eval vm_compute in
  match run (cancel_recovery_action cancel_command) (open_link_world true) with
  | Some (_, w) => w | None => open_link_world true end.

Definition waiting_link : world sample_links unit :=
  sample_world (link_action ActionStatus.SCHEDULED) [] false false.
(** Cancelling a case that was just paid reports success but leaves a scheduled standalone
    link as it is: a delivery that comes afterwards still claims it and opens the link. *)
Theorem scheduled_link_survives_cancellation :
  exists cancelled w1 opened w2,
    run (cancel_recovery_action cancel_command) waiting_link = Some (Ok cancelled, w1)
    /\ cr_cancelled cancelled = true
    /\ map act_status (db_actions (w_db w1)) = [ActionStatus.SCHEDULED]
    /\ run (sample_run_execute link_command) w1 = Some (Ok opened, w2)
    /\ ae_status opened = "SUCCEEDED" /\ submissions "ak" (w_calls w2) = 1.
Proof. do 4 eexists. split_and!; vm_compute; reflexivity. Qed.

(** A delivery whose deadline has no offset claims the action before it reads the deadline: it
    raises without a call, and the action stays executing. *)
Definition naive_command : ExecuteActionInput :=
  link_command <| ea_recovery_deadline := sample_iso {| dt_wall := day; dt_offset := None |} |>.
Theorem malformed_deadline_strands_action : exists e w1,
  run (sample_run_execute naive_command) waiting_link = Some (Err e, w1)
  /\ w_calls w1 = [] /\ map act_status (db_actions (w_db w1)) = [ActionStatus.EXECUTING].
Proof. do 2 eexists. split_and!; vm_compute; reflexivity. Qed.

(** ** Policies, replays and audit events *)

Section decisions.
Context {P V : Type} {payment_provider : PaymentProvider P} {voice_outreach : VoiceOutreach V} `{Crypto}.
Abbreviation W := (world P V).
Context (iso : datetime -> string) (float_repr : Q -> string).
Context (pyd_int : json -> option Z) (pyd_datetime : json -> option datetime).
Context (fromisoformat : string -> result datetime) (new_id : nat -> string) (operator_token : string).

(** The policy activity never invents an authorization: any answer but BLOCK is the newest
    persisted decision for exactly the case, merchant, action, surface and amount asked about,
    delayed to the later of the action's schedule and the decision's. *)
Theorem policy_fails_closed isoformat command d :
  let answer := evaluate_persisted_policy isoformat command d in
  pr_disposition answer <> PolicyDisposition_value PolicyDisposition.BLOCK ->
  exists row action_type surface_type, RecoveryActionType_of (pi_candidate_action command) = Ok action_type
    /\ optional_surface (pi_payment_surface_type command) = Ok surface_type
    /\ policy_scope command action_type (if opens_surface action_type then surface_type else None) d = Some row
    /\ asc_action row ∈ db_actions d /\ asc_policy row ∈ db_policies d
    /\ pol_action_id (asc_policy row) = Some (act_id (asc_action row))
    /\ act_case_id (asc_action row) = pi_case_id command
    /\ Entities.rc_merchant_id (asc_case row) = pi_merchant_id command
    /\ rc_amount_at_risk_paise (asc_case row) = pi_amount_at_risk_paise command
    /\ pr_disposition answer = PolicyDisposition_value (pol_disposition (asc_policy row))
    /\ pr_action answer = pi_candidate_action command
    /\ (forall row', row' ∈ action_scopes d -> act_case_id (asc_action row') = pi_case_id command ->
          Entities.rc_merchant_id (asc_case row') = pi_merchant_id command ->
          act_action_type (asc_action row') = action_type ->
          act_payment_surface_type (asc_action row') = act_payment_surface_type (asc_action row) ->
          act_created_at (asc_action row') <= act_created_at (asc_action row))
    /\ pr_delay_until answer = (fun t => isoformat (utc_datetime t)) <$> effective_delay (asc_action row) (asc_policy row).
Proof.
  cbv zeta. unfold evaluate_persisted_policy.
  destruct (RecoveryActionType_of _) as [action_type|] eqn:Ea; [|done].
  destruct (optional_surface _) as [surface_type|] eqn:Es; [|done]. cbv zeta.
  destruct (policy_scope _ _ _ d) as [row|] eqn:Er; [|done].
  destruct (negb (rc_amount_at_risk_paise (asc_case row) =? _)) eqn:Em; [done|]. bools. intros _. exists row, action_type, surface_type.
  pose proof Er as Hin. apply first_by_Some, elem_of_rows_where in Hin as [Hin Hsel]. bools.
  apply elem_of_action_scopes in Hin as (Hact & _ & Hpol & _ & Hid).
  split_and!; try done.
  - cbn. apply RecoveryActionType_of_Ok in Ea. congruence.
  - intros row' Hin' Hr1 Hr2 Hr3 Hr4.
    assert (row' ∈ rows_where (fun s => eqs (act_case_id (asc_action s)) (pi_case_id command)
      && eqs (Entities.rc_merchant_id (asc_case s)) (pi_merchant_id command)
      && eqs (act_action_type (asc_action s)) action_type
      && eqs (act_payment_surface_type (asc_action s))
           (if opens_surface action_type then surface_type else None)) (action_scopes d)) as Hrow.
    { apply elem_of_rows_where. split; [done|]. by rewrite !bool_decide_eq_true_2 by congruence. }
    pose proof (first_by_least _ _ _ _ _ Er Hrow) as Hle. unfold cmp_opp, cmp_lex in Hle. cbn in Hle.
    destruct (Z.compare_spec (act_created_at (asc_action row')) (act_created_at (asc_action row))); lia || done.
Qed.

Lemma unique_on_app {R K} `{EqDecision K} (key : R -> option K) rows x y k :
  unique_on key (rows ++ [x]) = true -> key x = Some k -> y ∈ rows -> key y <> Some k.
Proof.
  unfold unique_on. rewrite bool_decide_eq_true, omap_app. cbn. intros Hd Hx Hy Hk. rewrite Hx in Hd.
  apply NoDup_app in Hd as (_ & Hd & _). apply (Hd k); [|by left]. apply list_elem_of_omap. by exists y.
Qed.

(** An action that already succeeded answers every delivery from its row. *)
Lemma replay_calls_nothing process command surface (w : W) row :
  ea_action command = "OPEN_CUSTOMER_PAYMENT_SURFACE" -> ea_mandate command = None ->
  is_Some (ea_failed_invoice_id command) -> is_Some (ea_provider_subscription_id command) ->
  is_Some (ea_provider_invoice_id command) -> is_mock_provider P = false ->
  ea_payment_surface_type command = Some (PaymentSurfaceType_value surface) -> w_locks w = ∅ ->
  payment_scope command surface (w_db w) = Some row ->
  act_status (asc_action row) = ActionStatus.SUCCEEDED ->
  run (execute_recovery_action iso float_repr pyd_int pyd_datetime fromisoformat operator_token process command) w
  = Some (Ok (already_executed (asc_action row)), w).
Proof.
  intros Ea Em [i Ei] [s Es] [pi Epi] Emock Esurf Hl Hs Hst.
  unfold execute_recovery_action. rewrite Ea. vm_compute (mem _ _). vm_compute (bool_decide _). cbn [negb].
  unfold open_payment_surface. rewrite Ei, Esurf, Emock, Es, Epi.
  rewrite (proj2 (PaymentSurfaceType_of_Ok _ surface) eq_refl). cbn [pure_ mbind proc_bind proc_then].
  rewrite run_bind. unfold claim_action. rewrite Em. unfold transaction. rewrite run_step.
  unfold free, payment_rows, claim_payment_action. rewrite Hs, Hl, Hst. reflexivity.
Qed.

(** An audit event is recorded once: after a call that recorded it, every call for the same
    case, event type and correlation answers with the same event and adds nothing, whatever
    else was recorded in between. *)
Theorem audit_recorded_once command command' (w w1 w2 w3 : W) r r' :
  consistent (w_db w) -> record_audit_event new_id command w = (Ok r, w1) -> ar_recorded r = true ->
  consistent (w_db w2) -> (forall e, e ∈ db_events (w_db w1) -> e ∈ db_events (w_db w2)) ->
  ai_case_id command' = ai_case_id command -> ai_event_type command' = ai_event_type command ->
  ai_correlation_id command' = ai_correlation_id command ->
  record_audit_event new_id command' w2 = (Ok r', w3) -> r' = r /\ w_db w3 = w_db w2.
Proof.
  intros Hc H1 Hrec Hc2 Hkeep Ecase Etype Ecorr H2.
  set (source := "temporal:" +++ ai_event_type command +++ ":" +++ ai_correlation_id command).
  assert (exists e, e ∈ db_events (w_db w1) /\ evr_id e = ar_audit_event_id r
    /\ evr_case_id e = ai_case_id command /\ evr_source_event_id e = Some source) as (e & He & Eid & Eec & Ees).
  { unfold record_audit_event in H1. cbv zeta in H1. unfold commit_changes in H1.
    destruct (violated _) eqn:Ev.
    - destruct (row_where _ _) as [e|] eqn:Er; injection H1 as <- <-; [|done].
      apply row_where_Some in Er as [He Hp]. bools. by exists e.
    - injection H1 as <- <-. exists (audit_event command (new_id (w_reads w)) (w_utc w)).
      split; [|done]. cbn. apply elem_of_app. right. by left. }
  apply Hkeep in He. unfold record_audit_event in H2. cbv zeta in H2.
  assert (forall d, consistent d ->
    unique_on (fun e => pair (evr_case_id e) <$> evr_source_event_id e) (db_events d) = true) as Hu.
  { intros d Hd. by constraint d "event_case_source_event". }
  assert (evr_source_event_id (audit_event command' (new_id (w_reads w2)) (w_utc w2)) = Some source) as Hs.
  { unfold audit_event, source. cbn. by rewrite Etype, Ecorr. }
  rewrite Hs in H2. unfold commit_changes in H2. destruct (violated _) eqn:Ev.
  - destruct (row_where _ _) as [e2|] eqn:Er.
    + injection H2 as <- <-. split; [|done]. apply row_where_Some in Er as [He2 Hp].
      apply andb_true_iff in Hp as [Hp1%bool_decide_eq_true Hp2%bool_decide_eq_true].
      assert (e2 = e) as ->.
      { eapply (unique_on_spec _ _ _ _ (ai_case_id command, source) (Hu _ Hc2)); [done|done| |].
        - cbn. rewrite Hp2. cbn. congruence.
        - cbn. rewrite Ees. cbn. congruence. }
      destruct r as [rid rrec]. cbn in *. congruence.
    + pose proof (row_where_None _ _ _ Er He) as Hn. cbn in Hn.
      by rewrite Ecase, Eec, Ees, !bool_decide_eq_true_2 in Hn by done.
  - exfalso. pose proof (Hu _ Ev) as Hd. unfold set_field in Hd. cbn -[audit_event] in Hd.
    eapply (unique_on_app _ _ _ e (ai_case_id command, source) Hd); [|done|].
    + rewrite Hs. cbn. by rewrite Ecase.
    + rewrite Ees. cbn. by rewrite Eec.
Qed.
End decisions.

Definition link_policy_input : PolicyInput := {|
  pi_case_id := "c1"; pi_merchant_id := "mer"; pi_amount_at_risk_paise := 49900;
  pi_diagnosis := "UNKNOWN"; pi_candidate_action := "OPEN_CUSTOMER_PAYMENT_SURFACE";
  pi_payment_surface_type := Some "STANDARD_PAYMENT_LINK"; pi_recovery_deadline := "" |}.
Lemma policy_fails_closed_witness : exists row,
  asc_action row ∈ db_actions (w_db scheduled_link) /\ asc_policy row ∈ db_policies (w_db scheduled_link)
  /\ pol_action_id (asc_policy row) = Some (act_id (asc_action row)).
Proof.
  destruct (policy_fails_closed sample_iso link_policy_input (w_db scheduled_link))
    as (row & action_type & surface_type & _ & _ & _ & Ha & Hp & Hid & _).
  - vm_compute. discriminate.
  - exists row. split; [exact Ha|]. split; [exact Hp|exact Hid].
Defined.

Definition sample_audit : AuditInput := {|
  ai_case_id := "c1"; ai_event_type := "POLICY_EVALUATED"; ai_correlation_id := "wf-1"; ai_details := JObj [] |}.
Definition audited_world : world sample_links unit := Eval vm_compute in
  snd (record_audit_event sample_new_id sample_audit scheduled_link).
Definition audited_twice : world sample_links unit := Eval vm_compute in
  snd (record_audit_event sample_new_id sample_audit audited_world).
Lemma audit_recorded_once_witness :
  record_audit_event sample_new_id sample_audit audited_world
  = (Ok {| ar_audit_event_id := "id0"; ar_recorded := true |}, audited_twice)
  /\ w_db audited_twice = w_db audited_world.
Proof.
  assert (record_audit_event sample_new_id sample_audit audited_world
    = (Ok {| ar_audit_event_id := "id0"; ar_recorded := true |}, audited_twice)) as E by (vm_compute; reflexivity).
  split; [exact E|].
  refine (proj2 (audit_recorded_once sample_new_id sample_audit sample_audit scheduled_link audited_world
    audited_world audited_twice {| ar_audit_event_id := "id0"; ar_recorded := true |} _ _ _ _ _ _ _ _ _ E)).
  - vm_compute. reflexivity.
  - vm_compute. reflexivity.
  - reflexivity.
  - vm_compute. reflexivity.
  - intros e He. exact He.
  - reflexivity.
  - reflexivity.
  - reflexivity.
Defined.
