(* ===== verification/Commands.v ===== *)
(** * Commands to a running workflow

    [workflows/commands.py]: the signals the API sends to the workflow that owns a case, over
    a Temporal client that is a parameter with its laws. *)
From S2P Require Import Prelude Contracts Workflow.

(** ** The Temporal client *)

(** [WorkflowExecutionStatus] and the failures of a call. *)
Inductive execution_status : Type :=
| RUNNING | COMPLETED | FAILED | CANCELED | TERMINATED | CONTINUED_AS_NEW | TIMED_OUT.
#[export] Instance execution_status_eq_dec : EqDecision execution_status.
Proof. solve_decision. Defined.
Inductive client_failure : Type :=
| RPCError (status : string)
| ClientError (error : exn).

(** A connected client: describing a workflow, signalling it, and starting it, which answers
    [false] while an execution of the identifier is running.  What Temporal holds is what the
    theorems speak of. *)
Class TemporalClient (T : Type) : Type := {
  describe : string -> T -> (execution_status + client_failure) * T;
  send_signal_to : string -> signal -> T -> option client_failure * T;
  start_workflow : string -> RecoveryWorkflowInput -> T -> (bool + client_failure) * T;
  accepted : T -> list (string * signal);
  started_with : T -> list (string * RecoveryWorkflowInput);
  running : T -> list string;
}.
(** Temporal holds what it confirmed; what it did not confirm it may hold, whole, or not; and
    it starts an identifier only while no execution of it is running. *)
Class TemporalLaws (T : Type) `{TemporalClient T} : Prop := {
  describe_silent : forall id t r t', describe id t = (r, t') ->
    accepted t' = accepted t /\ started_with t' = started_with t;
  signal_held : forall id sig t t', send_signal_to id sig t = (None, t') -> accepted t' = accepted t ++ [(id, sig)];
  signal_failed : forall id sig t e t', send_signal_to id sig t = (Some e, t') ->
    accepted t' = accepted t \/ accepted t' = accepted t ++ [(id, sig)];
  signal_starts : forall id sig t r t', send_signal_to id sig t = (r, t') -> started_with t' = started_with t;
  start_signals : forall id i t r t', start_workflow id i t = (r, t') -> accepted t' = accepted t;
  start_fresh : forall id i t t', start_workflow id i t = (inl true, t') ->
    id ∉ running t /\ started_with t' = started_with t ++ [(id, i)];
  start_again : forall id i t t', start_workflow id i t = (inl false, t') ->
    id ∈ running t /\ started_with t' = started_with t;
  start_failed : forall id i t e t', start_workflow id i t = (inr e, t') ->
    started_with t' = started_with t \/ (id ∉ running t /\ started_with t' = started_with t ++ [(id, i)]);
}.

(** src/services/api/app/workflows/commands.py:35-39 [WorkflowCommandDelivery] *)
Record WorkflowCommandDelivery : Type := {
  wcd_workflow_id : string;
  wcd_signal_id : string;
  wcd_status : string;
}.

(** src/services/api/app/workflows/commands.py:28-32 [WorkflowCommandUnavailableError] *)
Definition command_unavailable : exn :=
  ApplicationServiceError "RECOVERY_WORKFLOW_UNAVAILABLE" "The recovery workflow could not accept the operator command.".

Section commander.
Context {T : Type} `{TemporalClient T}.

(** src/services/api/app/workflows/commands.py:157-182 [TemporalRecoveryWorkflowCommander._deliver]:
    the reason in the metadata of the error. *)
Definition unavailable_reason (failure : client_failure) : string :=
  match failure with
  | RPCError status =>
      if bool_decide (status = "NOT_FOUND") then "WORKFLOW_NOT_FOUND"
      else if bool_decide (status = "FAILED_PRECONDITION") then "WORKFLOW_CLOSED_DURING_DELIVERY"
      else "TEMPORAL_RPC_FAILED"
  | ClientError _ => "DELIVERY_FAILED"
  end.

(** src/services/api/app/workflows/commands.py:147-157 [TemporalRecoveryWorkflowCommander._deliver]:
    the delivery, or the failure of a call. *)
Definition try_deliver (case_id : string) (payload : signal) (t : T)
  : (WorkflowCommandDelivery + client_failure) * T :=
  let workflow_id := recovery_workflow_id case_id in
  let delivery status := {| wcd_workflow_id := workflow_id; wcd_signal_id := signal_id payload; wcd_status := status |} in
  match describe workflow_id t with
  | (inr failure, t) => (inr failure, t)
  | (inl status, t) =>
      if negb (bool_decide (status = RUNNING)) then (inl (delivery "ALREADY_TERMINAL"), t)
      else match send_signal_to workflow_id payload t with
           | (Some failure, t) => (inr failure, t)
           | (None, t) => (inl (delivery "DELIVERED"), t)
           end
  end.

(** src/services/api/app/workflows/commands.py:139-183 [TemporalRecoveryWorkflowCommander._deliver] *)
Definition deliver (case_id : string) (payload : signal) : stx T WorkflowCommandDelivery := fun t =>
  match try_deliver case_id payload t with
  | (inl delivery, t) => (Ok delivery, t)
  | (inr _, t) => (Err command_unavailable, t)
  end.

(** src/services/api/app/workflows/commands.py:71-90 [TemporalRecoveryWorkflowCommander.approval] *)
Definition approval_signal (action_id : string) (approved : bool) (reason : option string) : signal := APPROVAL {|
  aps_signal_id := "operator:" +++ (if approved then "approve" else "reject") +++ ":" +++ action_id;
  aps_approved := approved; aps_reviewer_id := "merchant-operator"; aps_reason := reason |}.
Definition commander_approval (case_id action_id : string) (approved : bool) (reason : option string) :=
  deliver case_id (approval_signal action_id approved reason).

(** src/services/api/app/workflows/commands.py:92-103 [TemporalRecoveryWorkflowCommander.stop] *)
Definition stop_signal (case_id reason : string) : signal := CANCELLATION {|
  cas_signal_id := "operator:stop:" +++ case_id; cas_reason := reason; cas_requested_by := "merchant-operator" |}.
Definition commander_stop (case_id reason : string) := deliver case_id (stop_signal case_id reason).

(** src/services/api/app/workflows/commands.py:105-116 [TemporalRecoveryWorkflowCommander.escalate] *)
Definition escalate_signal (case_id reason : string) : signal := OPERATOR_ESCALATION {|
  oes_signal_id := "operator:escalate:" +++ case_id; oes_reason := reason; oes_requested_by := "merchant-operator" |}.
Definition commander_escalate (case_id reason : string) := deliver case_id (escalate_signal case_id reason).

(** src/services/api/app/workflows/commands.py:118-137 [TemporalRecoveryWorkflowCommander.payment_captured] *)
Definition captured_signal (provider_event_id : string) (amount_paise : Z) : signal := PAYMENT_EVENT {|
  pes_signal_id := "mock-payment:" +++ provider_event_id; pes_provider_event_id := provider_event_id;
  pes_payment_state := "CAPTURED"; pes_amount_paise := amount_paise; pes_authoritative := true |}.
Definition commander_payment_captured (case_id provider_event_id : string) (amount_paise : Z) :=
  deliver case_id (captured_signal provider_event_id amount_paise).
End commander.

(** ** What a delivery did *)

Section facts.
Context {T : Type} `{TemporalLaws T}.

(** A confirmed delivery to a running workflow put its signal there; a terminal workflow got
    nothing; a failure may have put it there. *)
Lemma deliver_effect case_id payload (t : T) r t' : deliver case_id payload t = (r, t') ->
  started_with t' = started_with t /\
  match r with
  | Ok d => wcd_workflow_id d = recovery_workflow_id case_id /\ wcd_signal_id d = signal_id payload /\
      ((wcd_status d = "DELIVERED" /\ accepted t' = accepted t ++ [(recovery_workflow_id case_id, payload)]) \/
       (wcd_status d = "ALREADY_TERMINAL" /\ accepted t' = accepted t))
  | Err e => e = command_unavailable /\
      (accepted t' = accepted t \/ accepted t' = accepted t ++ [(recovery_workflow_id case_id, payload)])
  end.
Proof.
  unfold deliver, try_deliver. destruct (describe _ t) as [[status|f] t1] eqn:Ed; apply describe_silent in Ed as [Ea Es].
  2: { intros [= <- <-]. rewrite Ea, Es. auto. }
  destruct (bool_decide (status = RUNNING)); cbn [negb].
  2: { intros [= <- <-]. rewrite Ea, Es. split; [done|]. repeat split. by right. }
  destruct (send_signal_to _ payload t1) as [[f|] t2] eqn:Ess; intros [= <- <-];
    pose proof (signal_starts _ _ _ _ _ Ess) as Hst; rewrite Hst, Es; (split; [done|]).
  - split; [done|]. apply signal_failed in Ess. by rewrite <- Ea.
  - repeat split. left. split; [done|]. apply signal_held in Ess. by rewrite <- Ea.
Qed.
End facts.

(** ** A server *)

(** A Temporal server: its running workflows, what it holds, and the calls that fail. *)
Record temporal_server : Type := {
  ts_running : list string;
  ts_accepted : list (string * signal);
  ts_started : list (string * RecoveryWorkflowInput);
  ts_failures : list (option client_failure);
}.
Definition next_failure (t : temporal_server) : option client_failure * temporal_server :=
  (default None (head (ts_failures t)),
   {| ts_running := ts_running t; ts_accepted := ts_accepted t; ts_started := ts_started t; ts_failures := tail (ts_failures t) |}).
#[export] Instance server_client : TemporalClient temporal_server := {|
  describe id := fun t => (inl (if bool_decide (id ∈ ts_running t) then RUNNING else COMPLETED), t);
  send_signal_to id sig := fun t =>
    match next_failure t with
    | (Some f, t) => (Some f, t)
    | (None, t) => (None, {| ts_running := ts_running t; ts_accepted := ts_accepted t ++ [(id, sig)];
                             ts_started := ts_started t; ts_failures := ts_failures t |})
    end;
  start_workflow id i := fun t =>
    match next_failure t with
    | (Some f, t) => (inr f, t)
    | (None, t) =>
        if bool_decide (id ∈ ts_running t) then (inl false, t)
        else (inl true, {| ts_running := id :: ts_running t; ts_accepted := ts_accepted t;
                           ts_started := ts_started t ++ [(id, i)]; ts_failures := ts_failures t |})
    end;
  accepted := ts_accepted; started_with := ts_started; running := ts_running;
|}.
#[export] Instance server_laws : TemporalLaws temporal_server.
Proof.
  split; cbn.
  - by intros id t r t' [= _ <-].
  - intros id sig t t'. destruct (default _ _); [done|]. by intros [= <-].
  - intros id sig t e t'. destruct (default _ _); [|done]. intros [= _ <-]. by left.
  - intros id sig t r t'. destruct (default _ _); by intros [= _ <-].
  - intros id i t r t'. destruct (default _ _); [by intros [= _ <-]|]. case_bool_decide; by intros [= _ <-].
  - intros id i t t'. destruct (default _ _); [done|]. case_bool_decide; [done|]. by intros [= <-].
  - intros id i t t'. destruct (default _ _); [done|]. case_bool_decide; [|done]. by intros [= <-].
  - intros id i t e t'. destruct (default _ _); [intros [= _ <-]; by left|]. by case_bool_decide.
Qed.
Definition server (running : list string) (failures : list (option client_failure)) : temporal_server :=
  {| ts_running := running; ts_accepted := []; ts_started := []; ts_failures := failures |}.
