(* ===== verification/Dispatcher.v ===== *)
(** * The hand-off to Temporal

    [services/worker/app/outbox.py]: a downstream signal of the outbox processor starts the
    workflow of its case, or signals the one that is running. *)
From S2P Require Import Prelude Domain Json Razorpay Contracts Workflow Entities Session Correlation Commands.

(** src/services/worker/app/outbox.py:34-41 [_CANONICAL_REASON_BY_DIAGNOSIS] *)
Definition canonical_reason (d : Diagnosis) : option string :=
  match d with
  | Diagnosis.AUTHENTICATION_REQUIRED => Some "BAD_REQUEST_PAYMENT_AUTHENTICATION_FAILED"
  | Diagnosis.INSUFFICIENT_FUNDS => Some "BAD_REQUEST_PAYMENT_CARD_INSUFFICIENT_BALANCE"
  | Diagnosis.INSTRUMENT_INVALID => Some "BAD_REQUEST_PAYMENT_CARD_EXPIRED"
  | Diagnosis.TRANSIENT_RETRYABLE => Some "GATEWAY_ERROR"
  | Diagnosis.MERCHANT_ERROR => Some "MERCHANT_CONFIGURATION_ERROR"
  | Diagnosis.RISK_OR_COMPLIANCE_BLOCK => Some "RISK_CHECK_FAILED"
  | _ => None
  end.

Definition is_failure (signal : RazorpayDownstreamSignal) : bool := eqs (ds_event_type signal) "payment.failed".
(** [signal.effects.get(name) is False] *)
Definition effect_false (name : string) (signal : RazorpayDownstreamSignal) : bool :=
  match assoc_get name (ds_effects signal) with Some (JBool false) => true | _ => false end.
Definition effect_none (name : string) (signal : RazorpayDownstreamSignal) : bool :=
  match assoc_get name (ds_effects signal) with None | Some JNull => true | _ => false end.

(** src/services/worker/app/outbox.py:66-75 [TemporalRazorpaySignalDispatcher.__call__]: the
    signal needs no dispatch. *)
Definition already_reflected (signal : RazorpayDownstreamSignal) : bool :=
  if is_failure signal then effect_false "state_applied" signal
  else effect_false "dispatch_required" signal
       || (effect_none "dispatch_required" signal && effect_false "newly_recognized" signal).

Section dispatcher.
(** [isoformat] of an aware datetime. *)
Context (isoformat : datetime -> string).

(** src/services/worker/app/outbox.py:120-134 [TemporalRazorpaySignalDispatcher._workflow_input]:
    the action the signal names. *)
Definition named_action (signal : RazorpayDownstreamSignal) : result (option string) :=
  let effect name := assoc_get name (ds_effects signal) in
  if is_failure signal then
    match effect "recommended_action_id" with
    | Some (JStr id) => Ok (Some id)
    | _ => Err (RuntimeError "Razorpay failure signal has no durable recommended action")
    end
  else if eqs (ne_payment_state (ds_normalized_event signal)) PaymentState.CAPTURED then
    match effect "reconciliation_action_id" with
    | Some (JStr id) => Ok (Some id)
    | _ => Err (RuntimeError "Razorpay success signal has no reconciliation-only authorization")
    end
  else Ok None.

(** src/services/worker/app/outbox.py:137-149 [TemporalRazorpaySignalDispatcher._workflow_input]:
    the action of the case that has a policy decision of the case. *)
Definition durable_action (case_id action_id : string) (d : Db) : option RecoveryActionRecord :=
  row_where (fun a => eqs (act_id a) action_id && eqs (act_case_id a) case_id
                      && existsb (fun p => eqs (pol_action_id p) (Some (act_id a)) && eqs (pol_case_id p) case_id)
                           (db_policies d)) (db_actions d).

(** src/services/worker/app/outbox.py:118-172 [TemporalRazorpaySignalDispatcher._workflow_input]:
    the candidate action, its surface, and the action it is. *)
Definition candidate (recovery_case : RecoveryCase) (signal : RazorpayDownstreamSignal) (d : Db)
  : result (string * option string * option string) :=
  action_id ← named_action signal;
  match action_id with
  | Some action_id =>
      action ← from_option (RuntimeError "Razorpay failure signal references no durable action and policy")
                 (durable_action (rc_id recovery_case) action_id d);
      _ ← raise_if (negb (is_failure signal)
                    && (negb (eqs (act_action_type action) RecoveryActionType.WAIT_FOR_GATEWAY_RETRY)
                        || bool_decide (is_Some (act_payment_surface_type action))))
            (RuntimeError "Razorpay success authorization is not reconciliation-only");
      let surface := if eqs (act_action_type action) RecoveryActionType.SEND_TO_CUSTOMER_AGENT
                     then Some "SUBSCRIPTION_INVOICE_LINK"
                     else PaymentSurfaceType_value <$> act_payment_surface_type action in
      mret (RecoveryActionType_value (act_action_type action), surface, Some action_id)
  | None =>
      if is_failure signal then mret ("OPEN_CUSTOMER_PAYMENT_SURFACE", Some "SUBSCRIPTION_INVOICE_LINK", None)
      else mret ("WAIT_FOR_GATEWAY_RETRY", None, None)
  end.

(** src/services/worker/app/outbox.py:185-200 [TemporalRazorpaySignalDispatcher._workflow_input] *)
Definition failure_event (recovery_case : RecoveryCase) (payment : option PaymentAttempt)
    (signal : RazorpayDownstreamSignal) : ProviderEvent := {|
  pe_event_id := ds_provider_event_id signal; pe_event_type := ds_event_type signal;
  pe_occurred_at := isoformat (ne_occurred_at (ds_normalized_event signal));
  pe_payload := JObj [
    ("payment_state", JStr "FAILED");
    ("subscription_state", JStr (SubscriptionState_value
       (if eqs (rc_subscription_state recovery_case) SubscriptionState.ACTIVE then SubscriptionState.PENDING
        else rc_subscription_state recovery_case)));
    ("reason_code", opt_str (canonical_reason (rc_diagnosis recovery_case)));
    ("authoritative", JBool false);
    ("provider_payment_id", opt_str (payment ≫= pay_provider_payment_id))] |}.

(** [await session.get(Row, id) if id else None] *)
Definition get_optional {R} (key : R -> string) (id : option string) (rows : list R) : option R :=
  match id with Some k => if bool_decide (k = "") then None else row_where (fun r => eqs (key r) k) rows | None => None end.

(** src/services/worker/app/outbox.py:95-206 [TemporalRazorpaySignalDispatcher._workflow_input] *)
Definition workflow_input (recovery_case : RecoveryCase) (signal : RazorpayDownstreamSignal) (d : Db)
  : result RecoveryWorkflowInput :=
  let payment := get_optional pay_id (rc_failed_payment_id recovery_case) (db_payments d) in
  invoice ← from_option (RuntimeError "Razorpay recovery workflow requires a trusted failed invoice")
              (get_optional inv_id (rc_failed_invoice_id recovery_case) (db_invoices d));
  subscription ← from_option (RuntimeError "Razorpay recovery workflow requires a trusted subscription")
                   (row_where (fun s => eqs (sub_id s) (rc_subscription_id recovery_case)) (db_subscriptions d));
  _ ← raise_if (negb (eqs (sub_merchant_id subscription) (rc_merchant_id recovery_case)))
        (RuntimeError "Razorpay recovery workflow requires a trusted subscription");
  _ ← raise_if (negb (eqs (inv_subscription_id invoice) (sub_id subscription)))
        (RuntimeError "Razorpay recovery workflow invoice scope is inconsistent");
  '(candidate_action, payment_surface_type, action_id) ← candidate recovery_case signal d;
  mret {|
    wi_case_id := rc_id recovery_case; wi_merchant_id := rc_merchant_id recovery_case;
    wi_customer_id := rc_customer_id recovery_case; wi_subscription_id := rc_subscription_id recovery_case;
    wi_failed_invoice_id := rc_failed_invoice_id recovery_case;
    wi_failed_payment_id := rc_failed_payment_id recovery_case;
    wi_amount_at_risk_paise := rc_amount_at_risk_paise recovery_case; wi_currency := inv_currency invoice;
    wi_recovery_deadline := isoformat (utc_datetime (rc_recovery_deadline recovery_case));
    wi_failure_event := failure_event recovery_case payment signal;
    wi_candidate_action := candidate_action; wi_payment_surface_type := payment_surface_type;
    wi_payment_surface_reference := None;
    wi_provider_subscription_id := Some (sub_provider_subscription_id subscription);
    wi_provider_invoice_id := Some (inv_provider_invoice_id invoice);
    wi_recovery_action_id := action_id |}.

(** src/services/worker/app/outbox.py:208-223 [TemporalRazorpaySignalDispatcher._signal_payment] *)
Definition payment_signal (signal : RazorpayDownstreamSignal) : Contracts.signal := PAYMENT_EVENT {|
  pes_signal_id := ds_idempotency_key signal; pes_provider_event_id := ds_provider_event_id signal;
  pes_payment_state := PaymentState_value (ne_payment_state (ds_normalized_event signal));
  pes_amount_paise := default 0 (ne_amount_paise (ds_normalized_event signal));
  pes_authoritative := negb (is_failure signal) |}.

Context {T : Type} `{TemporalClient T}.

(** A failure of the client, as the exception the poller sees. *)
Definition client_error (failure : client_failure) : exn :=
  match failure with RPCError status => RuntimeError ("RPCError " +++ status) | ClientError e => e end.
Definition temporal {A} (call : T -> (A + client_failure) * T) : stx T A := fun t =>
  match call t with (inl a, t) => (Ok a, t) | (inr failure, t) => (Err (client_error failure), t) end.
Definition send_to (id : string) (sig : Contracts.signal) : stx T unit := fun t =>
  match send_signal_to id sig t with (None, t) => (Ok tt, t) | (Some failure, t) => (Err (client_error failure), t) end.

(** src/services/worker/app/outbox.py:58-93 [TemporalRazorpaySignalDispatcher.__call__]: over
    the rows [d] its session sees. *)
Definition dispatch (d : Db) (signal : RazorpayDownstreamSignal) : stx T unit :=
  match ds_case_id signal with
  | None => mret tt
  | Some case_id =>
      recovery_case ← lift (from_option (RuntimeError "Razorpay signal references an unknown merchant recovery case")
                              (row_where (fun c => eqs (rc_id c) case_id) (db_cases d)));
      _ ← guard_ (negb (eqs (rc_merchant_id recovery_case) (ds_merchant_id signal)))
            (RuntimeError "Razorpay signal references an unknown merchant recovery case");
      if already_reflected signal then mret tt else
      command ← lift (workflow_input recovery_case signal d);
      let workflow_id := recovery_workflow_id (rc_id recovery_case) in
      started ← temporal (start_workflow workflow_id command);
      if is_failure signal && (started : bool) then mret tt
      else send_to workflow_id (payment_signal signal)
  end.
End dispatcher.
