(* ===== verification/DispatcherFacts.v ===== *)
(** * What reaches Temporal

    Whatever the client does, a dispatch starts and signals only the workflow of the case, with
    an input its durable authorization covers; and every signal the processor sends with an
    authorization has one the dispatcher finds. *)
From S2P Require Import Prelude Domain Json Safety Decision Razorpay Contracts Workflow Entities Session Inbox Correlation Processor ProcessorRuns Commands Dispatcher.

(** The input starts what the signal authorizes: a failure its recommended action, which the
    case owns with a policy decision; any other event the wait for a reconciliation. *)
Definition authorized_input (c : RecoveryCase) (signal : RazorpayDownstreamSignal) (d : Db)
    (i : RecoveryWorkflowInput) : Prop :=
  wi_case_id i = rc_id c /\ wi_merchant_id i = ds_merchant_id signal /\
  wi_amount_at_risk_paise i = rc_amount_at_risk_paise c /\
  (exists invoice, invoice ∈ db_invoices d /\ rc_failed_invoice_id c = Some (inv_id invoice) /\
     wi_failed_invoice_id i = Some (inv_id invoice) /\ wi_currency i = inv_currency invoice /\
     inv_subscription_id invoice = rc_subscription_id c) /\
  (is_failure signal = true -> exists a p, a ∈ db_actions d /\ act_case_id a = rc_id c /\
     assoc_get "recommended_action_id" (ds_effects signal) = Some (JStr (act_id a)) /\
     p ∈ db_policies d /\ pol_case_id p = rc_id c /\ pol_action_id p = Some (act_id a) /\
     wi_recovery_action_id i = Some (act_id a) /\
     wi_candidate_action i = RecoveryActionType_value (act_action_type a)) /\
  (is_failure signal = false -> wi_candidate_action i = "WAIT_FOR_GATEWAY_RETRY" /\ wi_payment_surface_type i = None).

Section facts.
Context (isoformat : datetime -> string).

Lemma durable_action_spec case_id id d a : durable_action case_id id d = Some a ->
  a ∈ db_actions d /\ act_id a = id /\ act_case_id a = case_id /\
  exists p, p ∈ db_policies d /\ pol_case_id p = case_id /\ pol_action_id p = Some (act_id a).
Proof.
  intros [Hin [Hid Hp]%andb_true_iff]%row_where_Some. bools. apply existsb_exists in Hp as (p & Hpin & Hpp). bools.
  split; [done|]. split; [done|]. split; [done|]. exists p. by rewrite list_elem_of_In.
Qed.
Lemma get_optional_spec {R} (key : R -> string) id (rows : list R) r : get_optional key id rows = Some r ->
  r ∈ rows /\ id = Some (key r).
Proof. unfold get_optional. destruct id as [k|]; [|done]. case_bool_decide; [done|]. intros [? ?]%row_where_Some. bools. by subst. Qed.

Lemma named_action_spec signal id : named_action signal = Ok id ->
  if is_failure signal then exists a, id = Some a /\ assoc_get "recommended_action_id" (ds_effects signal) = Some (JStr a)
  else True.
Proof.
  unfold named_action. destruct (is_failure signal); [|done].
  destruct (assoc_get _ _) as [[]|] eqn:E; try done. intros [= <-]. eauto.
Qed.
Lemma candidate_spec c signal d action surface id : candidate c signal d = Ok (action, surface, id) ->
  if is_failure signal then exists a, a ∈ db_actions d /\ act_case_id a = rc_id c /\
    assoc_get "recommended_action_id" (ds_effects signal) = Some (JStr (act_id a)) /\
    (exists p, p ∈ db_policies d /\ pol_case_id p = rc_id c /\ pol_action_id p = Some (act_id a)) /\
    id = Some (act_id a) /\ action = RecoveryActionType_value (act_action_type a)
  else action = "WAIT_FOR_GATEWAY_RETRY" /\ surface = None.
Proof.
  unfold candidate. intros (named & Hn & Hc)%bind_Ok. apply named_action_spec in Hn.
  destruct named as [name|]; [|destruct (is_failure signal); [by destruct Hn as (? & [=] & _)|by injection Hc as <- <- <-]].
  apply bind_Ok in Hc as (a & (Hin & Hid & Hcase & Hp)%from_option_Ok%durable_action_spec & (u & Hr%raise_if_Ok & Hc)%bind_Ok).
  destruct (is_failure signal); injection Hc as <- <- <-.
  - destruct Hn as (? & [= <-] & He). subst. exists a. by split_and!.
  - cbn in Hr. bools. rewrite H. split; [done|]. destruct (act_payment_surface_type a); [|done]. by destruct H0.
Qed.

Lemma workflow_input_authorized c signal d i : rc_merchant_id c = ds_merchant_id signal ->
  workflow_input isoformat c signal d = Ok i -> authorized_input c signal d i.
Proof.
  intros Hm Hi. unfold workflow_input in Hi. simp_res. bools.
  destruct x3 as [[candidate_action surface] action_id]. injection H4 as <-.
  apply candidate_spec in H3. apply get_optional_spec in H as [Hinv Hfail]. apply row_where_Some in H0 as [_ Hs]. bools.
  split; [done|]. split; [done|]. split; [done|]. split.
  { exists x. split_and!; try done. congruence. }
  cbn. destruct (is_failure signal); split; try done. destruct H3 as (a & ? & ? & ? & (p & ? & ? & ?) & ? & ?).
  intros _. exists a, p. by split_and!.
Qed.

Context {T : Type} `{TemporalLaws T}.

(** What a dispatch may add to what Temporal holds: a start of the workflow of the case, with
    an authorized input, and the payment signal of the event. *)
Definition may_start (d : Db) (signal : RazorpayDownstreamSignal) (t t' : T) : Prop :=
  started_with t' = started_with t \/ exists c i, c ∈ db_cases d /\ ds_case_id signal = Some (rc_id c) /\
    rc_merchant_id c = ds_merchant_id signal /\ recovery_workflow_id (rc_id c) ∉ running t /\
    started_with t' = started_with t ++ [(recovery_workflow_id (rc_id c), i)] /\
    authorized_input c signal d i.
Definition may_signal (signal : RazorpayDownstreamSignal) (t t' : T) : Prop :=
  accepted t' = accepted t \/ exists case_id, ds_case_id signal = Some case_id /\
    accepted t' = accepted t ++ [(recovery_workflow_id case_id, payment_signal signal)].

Lemma temporal_start_spec id i (t : T) r t' : temporal (start_workflow id i) t = (r, t') ->
  accepted t' = accepted t /\
  (started_with t' = started_with t \/ (id ∉ running t /\ started_with t' = started_with t ++ [(id, i)])) /\
  (r = Ok true -> id ∉ running t /\ started_with t' = started_with t ++ [(id, i)]).
Proof.
  unfold temporal. destruct (start_workflow id i t) as [[b|f] t1] eqn:E; intros [= <- <-];
    (split; [by eapply start_signals|]).
  - destruct b; [apply start_fresh in E|apply start_again in E]; naive_solver.
  - apply start_failed in E. naive_solver.
Qed.
Lemma send_to_spec id sig (t : T) r t' : send_to id sig t = (r, t') ->
  started_with t' = started_with t /\ (accepted t' = accepted t \/ accepted t' = accepted t ++ [(id, sig)]) /\
  (r = Ok tt -> accepted t' = accepted t ++ [(id, sig)]).
Proof.
  unfold send_to. destruct (send_signal_to id sig t) as [[f|] t1] eqn:E; intros [= <- <-];
    (split; [by eapply signal_starts|]); [apply signal_failed in E|apply signal_held in E]; naive_solver.
Qed.

End facts.

(** ** The processor's authorizations are found *)

(** The rows the database's foreign keys tie to a case, and the identifiers of its actions. *)
Record scoped (signal : RazorpayDownstreamSignal) (d : Db) (c : RecoveryCase) : Prop := {
  sd_case : row_where (fun c' => eqs (rc_id c') (rc_id c)) (db_cases d) = Some c;
  sd_signal : ds_case_id signal = Some (rc_id c);
  sd_merchant : rc_merchant_id c = ds_merchant_id signal;
  sd_invoice : exists i, get_optional inv_id (rc_failed_invoice_id c) (db_invoices d) = Some i /\
    inv_subscription_id i = rc_subscription_id c;
  sd_subscription : exists s, row_where (fun s => eqs (sub_id s) (rc_subscription_id c)) (db_subscriptions d) = Some s /\
    sub_merchant_id s = rc_merchant_id c;
  sd_actions : NoDup (map act_id (db_actions d));
}.

Lemma unique_by_id (l : list RecoveryActionRecord) a b : NoDup (map act_id l) -> a ∈ l -> b ∈ l -> act_id a = act_id b -> a = b.
Proof. intros Hn. by apply nodup_fmap_inj. Qed.

(** An authorized action is found where it was put. *)
Lemma durable_action_found signal d key a_ok p_ok : NoDup (map act_id (db_actions d)) ->
  authorizes key signal d a_ok p_ok -> exists c a, ds_case_id signal = Some c /\
    assoc_get key (ds_effects signal) = Some (JStr (act_id a)) /\ durable_action c (act_id a) d = Some a /\ a_ok a.
Proof.
  intros Hn (c & a & p & Hc & Hk & Ha & Hac & Hok & Hp & Hpc & Hpa & _). exists c, a. split; [done|]. split; [done|].
  split; [|done]. unfold durable_action. destruct (row_where _ _) as [b|] eqn:E.
  - apply row_where_Some in E as [Hb Hx]. bools. f_equal. by apply (unique_by_id (db_actions d)).
  - eapply row_where_None in E; [|exact Ha]. exfalso. revert E. apply not_false_iff_true.
    rewrite !bool_decide_eq_true_2 by done. cbn. apply existsb_exists. exists p.
    rewrite <- list_elem_of_In, !bool_decide_eq_true_2 by done. done.
Qed.

Lemma scoped_input isoformat signal d c action surface id : scoped signal d c ->
  candidate c signal d = Ok (action, surface, id) ->
  exists i, workflow_input isoformat c signal d = Ok i /\ wi_candidate_action i = action /\ wi_recovery_action_id i = id.
Proof.
  intros [_ _ _ (inv & Hinv & Hs) (sub & Hsub & Hm) _] Hc. unfold workflow_input. rewrite Hinv, Hsub.
  apply row_where_Some in Hsub as [_ Hsid]. bools. cbn. rewrite Hm, Hs, Hsid. decide_eqs. cbn. rewrite Hc. cbn. by eexists.
Qed.

(** every failure, and every capture to dispatch, that a step of the outbox processor hands
    over has a workflow input: over the rows committed when it was sent the dispatcher finds
    the action the processor authorized, and the input names it.  The rows that foreign keys
    tie to the case are there. *)
Theorem authorized_signal_dispatches sha256_hex new_id utc_now clock model_validate
    time_fromisoformat isoformat fetch_payment fetch_invoice link_lifecycle downstream locked tzdb
    scorer agent_ready retry_base_delay dispatch_lease global_kill s iso signal d c :
  loc_sent (ses_local s) = [] ->
  let s' := snd (process_next sha256_hex new_id utc_now clock model_validate time_fromisoformat
    isoformat fetch_payment fetch_invoice link_lifecycle downstream locked tzdb scorer agent_ready
    retry_base_delay dispatch_lease global_kill s) in
  (signal, d) ∈ loc_sent (ses_local s') -> scoped signal d c ->
  is_failure signal = true \/
    (ne_payment_state (ds_normalized_event signal) = PaymentState.CAPTURED /\ dispatch_required (ds_effects signal) = true) ->
  exists i a, workflow_input iso c signal d = Ok i /\ a ∈ db_actions d /\ act_case_id a = rc_id c /\
    wi_recovery_action_id i = Some (act_id a) /\ wi_candidate_action i = RecoveryActionType_value (act_action_type a).
Proof.
  cbv zeta. intros Hs Hin Hsc Hk.
  pose proof (next_sends sha256_hex new_id utc_now clock model_validate time_fromisoformat isoformat fetch_payment
    fetch_invoice link_lifecycle downstream locked tzdb scorer agent_ready retry_base_delay dispatch_lease global_kill s Hs
    signal d Hin) as Ha.
  assert (exists a surface, candidate c signal d = Ok (RecoveryActionType_value (act_action_type a), surface, Some (act_id a))
    /\ durable_action (rc_id c) (act_id a) d = Some a) as (a & surface & Hc & Hd).
  { unfold authorized_in in Ha. unfold candidate, named_action.
    destruct (is_failure signal) eqn:Ef; unfold is_failure in Ef; rewrite Ef in Ha.
    - destruct Ha as [_ (c' & a & Hc & Hk' & Hd & _)%durable_action_found]; [|apply Hsc].
      rewrite (sd_signal _ _ _ Hsc) in Hc. injection Hc as <-. exists a. rewrite Hk'. cbn. rewrite Hd. cbn. by eexists.
    - destruct Hk as [|[Hcap Hreq]]; [done|]. rewrite Hcap, Hreq in Ha. rewrite bool_decide_eq_true_2 in Ha by done.
      destruct Ha as [_ (c' & a & Hc & Hk' & Hd & Hw & Hn & _)%durable_action_found]; [|apply Hsc].
      rewrite (sd_signal _ _ _ Hsc) in Hc. injection Hc as <-. exists a. rewrite Hcap, bool_decide_eq_true_2 by done.
      rewrite Hk'. cbn. rewrite Hd. cbn. rewrite Hw, Hn. decide_eqs. cbn. by eexists. }
  destruct (scoped_input iso _ _ _ _ _ _ Hsc Hc) as (i & Hi & Hca & Hid).
  apply durable_action_spec in Hd as (Hin' & _ & Hcase & _). exists i, a. by split_and!.
Qed.

(** ** Witnesses *)

Definition handed_over : RazorpayDownstreamSignal * Db := Eval vm_compute in
  default ({| ds_idempotency_key := ""; ds_merchant_id := ""; ds_provider_event_id := ""; ds_event_type := "";
              ds_case_id := None; ds_normalized_event := demo_capture "" ""; ds_effects := [] |}, empty_db) (head demo_sent).
Definition handed_case : RecoveryCase := Eval vm_compute in default demo_case (head (db_cases handed_over.2)).
Abbreviation iso_sample := (fun _ : datetime => "2026-08-27T10:00:00+00:00").

Lemma handed_scope : scoped handed_over.1 handed_over.2 handed_case.
Proof.
  split; try reflexivity.
  - eexists. split; reflexivity.
  - eexists. split; reflexivity.
  - vm_compute. apply NoDup_singleton.
Qed.

Lemma authorized_signal_dispatches_witness : exists i a,
  workflow_input iso_sample handed_case handed_over.1 handed_over.2 = Ok i /\ a ∈ db_actions handed_over.2 /\
  wi_recovery_action_id i = Some (act_id a) /\ wi_candidate_action i = "WAIT_FOR_GATEWAY_RETRY".
Proof.
  edestruct (authorized_signal_dispatches demo_digest demo_ids demo_clock demo_clock demo_validate
    (fun _ => Err (ValueError "time")) (fun _ => "") demo_fetch None false (fun _ _ => false)
    (fun _ => false) (fun _ => None) (fun _ => Err (ValueError "scorer")) false 5 300 false
    (open_session demo_db idle) iso_sample handed_over.1 handed_over.2 handed_case eq_refl) as (i & a & Hi & Ha & _ & Hid & Hc).
  - rewrite demo_sent_eq. apply list_elem_of_here.
  - apply handed_scope.
  - right. split; reflexivity.
  - exists i, a. split; [exact Hi|]. split; [exact Ha|]. split; [exact Hid|].
    vm_compute in Hi. injection Hi as <-. reflexivity.
Defined.

