(* ===== verification/RuntimeMode.v ===== *)
(** * What a deployment allows

    [runtime_mode.py], the scope and provider selection of [api/router.py] and
    [integrations/razorpay/factory.py], over environment variables looked up by name. *)
From S2P Require Import Prelude OperatorAuth VoiceWebhooks RazorpayClient.

Section mode.
Context (env : string -> option string).

(** [os.getenv(name, default).strip().lower()] *)
Definition setting (name fallback : string) : string := str_lower (str_strip (getenv env name fallback)).
Definition is_on (value : string) : bool := mem value ["1"; "true"; "yes"; "on"].

(** src/services/api/app/runtime_mode.py:12-15 [app_environment] *)
Definition app_environment : string := setting "APP_ENV" "development".

(** src/services/api/app/runtime_mode.py:9-9 [_LOCAL_DEMO_ENVIRONMENTS] *)
Definition LOCAL_DEMO_ENVIRONMENTS : list string := ["development"; "test"; "demo"; "local"].

(** src/services/api/app/runtime_mode.py:18-26 [payment_provider_mode] *)
Definition payment_provider_mode : string :=
  let configured := setting "PAYMENT_PROVIDER" "" in
  if negb (bool_decide (configured = "")) then configured
  else if mem app_environment LOCAL_DEMO_ENVIRONMENTS then "mock" else "".

(** src/services/api/app/runtime_mode.py:29-43 [demo_mode_enabled] *)
Definition demo_mode_enabled : bool :=
  match env "DEMO_MODE" with None => true | Some configured => is_on (str_lower (str_strip configured)) end
  && mem app_environment LOCAL_DEMO_ENVIRONMENTS
  && bool_decide (payment_provider_mode = "mock").

(** src/services/api/app/runtime_mode.py:46-57 [require_demo_mode] *)
Definition require_demo_mode : result unit :=
  raise_if (negb demo_mode_enabled) (HTTPException 404 "DEMO_MODE_DISABLED").

(** src/services/api/app/runtime_mode.py:60-68 [ensure_demo_seed_allowed] *)
Definition ensure_demo_seed_allowed : result unit :=
  raise_if (negb demo_mode_enabled)
    (RuntimeError "The FitBox seed is restricted to APP_ENV=development/test/demo with PAYMENT_PROVIDER=mock.").

(** src/services/api/app/api/router.py:89-134 [get_merchant_scope] *)
Definition get_merchant_scope : result string :=
  let merchant_id := str_strip (getenv env "RECOVERY_MERCHANT_ID" "") in
  let outside_demo := negb (is_on (setting "DEMO_MODE" "true"))
                      || negb (bool_decide (setting "PAYMENT_PROVIDER" "mock" = "mock"))
                      || mem (setting "APP_ENV" "development") ["production"; "staging"] in
  if negb (bool_decide (merchant_id = "")) then
    _ ← raise_if (bool_decide (merchant_id = "merchant_fitbox") && outside_demo)
          (HTTPException 503 "DEMO_MERCHANT_NOT_ALLOWED");
    mret merchant_id
  else
    _ ← raise_if outside_demo (HTTPException 503 "MERCHANT_SCOPE_NOT_CONFIGURED");
    mret "merchant_fitbox".

(** src/services/api/app/integrations/razorpay/factory.py:11-41 [create_razorpay_client_from_env] *)
Definition razorpay_config_from_env : result RazorpayConfig :=
  let key_id := str_strip (getenv env "RAZORPAY_KEY_ID" "") in
  let key_secret := str_strip (getenv env "RAZORPAY_KEY_SECRET" "") in
  _ ← raise_if (bool_decide (key_id = "") || bool_decide (key_secret = ""))
        (RazorpayIntegrationError "RAZORPAY_CREDENTIALS_NOT_CONFIGURED" "Razorpay test credentials are not configured.");
  _ ← raise_if (is_on (setting "RAZORPAY_TEST_MODE_REQUIRED" "true") && negb (str_prefix "rzp_test_" key_id))
        (RazorpayIntegrationError "RAZORPAY_TEST_MODE_REQUIRED" "Only Razorpay test-mode credentials are accepted.");
  let first_origin := hd "" (split_all "," (getenv env "WEB_ORIGIN" "http://localhost:3000")) in
  mret {| cfg_key_id := key_id; cfg_key_secret := key_secret;
          cfg_checkout_origin := str_strip (getenv env "RAZORPAY_CHECKOUT_ORIGIN" first_origin);
          cfg_base_url := str_strip (getenv env "RAZORPAY_API_BASE_URL" "https://api.razorpay.com") |}.

(** src/services/api/app/api/router.py:137-164 [get_payment_provider]: the mock provider, or a
    configured client. *)
Definition select_payment_provider : result (option RazorpayConfig) :=
  let provider := payment_provider_mode in
  if bool_decide (provider = "mock") then
    _ ← raise_if (negb demo_mode_enabled)
          (RazorpayIntegrationError "MOCK_PAYMENT_DISABLED"
             "The mock payment provider is restricted to local/demo deployments.");
    mret None
  else
    _ ← raise_if (bool_decide (provider = ""))
          (RazorpayIntegrationError "PAYMENT_PROVIDER_NOT_CONFIGURED"
             "PAYMENT_PROVIDER must be configured for a hosted deployment.");
    _ ← raise_if (negb (bool_decide (provider = "razorpay")))
          (RazorpayIntegrationError "PAYMENT_PROVIDER_UNSUPPORTED" "PAYMENT_PROVIDER must be mock or razorpay.");
    Some <$> razorpay_config_from_env.

(** src/services/api/app/api/router.py:186-196 [get_razorpay_webhook_secret] *)
Definition get_razorpay_webhook_secret : result string :=
  let secret := str_strip (getenv env "RAZORPAY_WEBHOOK_SECRET" "") in
  _ ← raise_if (bool_decide (secret = ""))
        (RazorpayIntegrationError "RAZORPAY_WEBHOOK_NOT_CONFIGURED"
           "Razorpay webhook ingestion is not configured for this environment.");
  mret secret.
End mode.

Section isolation.
Context (env : string -> option string).

(** in a staging or production environment the bundled demo is out of reach: the routes of
    the demo are hidden, the seed refuses to run, the mock provider is never selected, and no
    request is scoped to the bundled merchant or to a merchant that is not configured; a
    Razorpay client is built only with credentials, and only of the test mode unless the
    operator says otherwise. *)
Theorem hosted_isolation : mem (app_environment env) ["production"; "staging"] = true ->
  require_demo_mode env = Err (HTTPException 404 "DEMO_MODE_DISABLED") /\
  is_ok (ensure_demo_seed_allowed env) = false /\
  (forall m, get_merchant_scope env = Ok m ->
     m <> "merchant_fitbox" /\ m <> "" /\ m = str_strip (getenv env "RECOVERY_MERCHANT_ID" "")) /\
  (forall provider, select_payment_provider env = Ok provider -> exists config, provider = Some config /\
     cfg_key_id config <> "" /\ cfg_key_secret config <> "" /\
     (is_on (setting env "RAZORPAY_TEST_MODE_REQUIRED" "true") = true -> str_prefix "rzp_test_" (cfg_key_id config) = true)).
Proof.
  intros Hh. assert (mem (app_environment env) LOCAL_DEMO_ENVIRONMENTS = false) as Hl.
  { apply mem_true in Hh. rewrite !elem_of_cons, elem_of_nil in Hh. by destruct Hh as [E|[E|[]]]; rewrite E. }
  assert (demo_mode_enabled env = false) as Hd by (unfold demo_mode_enabled; rewrite Hl; by rewrite andb_false_r).
  assert (mem (setting env "APP_ENV" "development") ["production"; "staging"] = true) as Ho by exact Hh.
  unfold require_demo_mode, ensure_demo_seed_allowed. rewrite Hd. split; [done|]. split; [done|]. split.
  - intros m Hm. unfold get_merchant_scope in Hm. rewrite Ho, !orb_true_r in Hm.
    set (id := str_strip _) in *. destruct (bool_decide (id = "")) eqn:E; cbn in Hm; [done|].
    apply bool_decide_eq_false in E. rewrite andb_true_r in Hm.
    destruct (bool_decide (id = "merchant_fitbox")) eqn:Ef; cbn in Hm; [done|]. injection Hm as <-. by bools.
  - intros provider Hp. unfold select_payment_provider in Hp. rewrite Hd in Hp.
    destruct (bool_decide (payment_provider_mode env = "mock")); cbn in Hp; [done|].
    apply bind_Ok in Hp as (? & _ & (? & _ & Hp)%bind_Ok). destruct (razorpay_config_from_env env) as [config|] eqn:Ec; [|done].
    injection Hp as <-. exists config. split; [done|]. unfold razorpay_config_from_env in Ec.
    apply bind_Ok in Ec as (? & Hc%raise_if_Ok & (? & Ht%raise_if_Ok & [= <-])%bind_Ok). cbn. bools.
    split; [done|]. split; [done|]. intros Hon. rewrite Hon in Ht. destruct Ht as [|Ht]; [done|]. by apply negb_false_iff in Ht.
Qed.
End isolation.

Definition production_env (name : string) : option string :=
  snd <$> List.find (fun kv => bool_decide (kv.1 = name))
    [("APP_ENV", " Production "); ("PAYMENT_PROVIDER", "razorpay"); ("RECOVERY_MERCHANT_ID", "m1");
     ("RAZORPAY_KEY_ID", "rzp_test_1"); ("RAZORPAY_KEY_SECRET", "secret")].
Lemma hosted_isolation_witness :
  get_merchant_scope production_env = Ok "m1" /\ "m1" <> "merchant_fitbox" /\
  require_demo_mode production_env = Err (HTTPException 404 "DEMO_MODE_DISABLED").
Proof.
  destruct (hosted_isolation production_env eq_refl) as (Hd & _ & Hm & _).
  assert (get_merchant_scope production_env = Ok "m1") as Hs by (vm_compute; reflexivity).
  split; [exact Hs|]. split; [apply (Hm "m1" Hs)|exact Hd].
Defined.
