(* ===== verification/ApiSchemas.v ===== *)
(** * Requests and responses of the merchant API

    [api/schemas.py]: the records of the routes with the constraints of the requests.  A
    response built from the attributes of a row is the row; text is counted in characters and
    the quiet-hours pattern is read on ASCII digits. *)
From S2P Require Import Prelude Domain Json QuietHours Entities CaseRepo.

(** [Field(min_length=lo, max_length=hi)] *)
Definition length_within (lo hi : nat) (s : string) : bool :=
  (lo <=? text_length s)%nat && (text_length s <=? hi)%nat.
Definition validation_error (msg : string) : exn := ValueError msg.

Module OperatorCommand.
(** src/services/api/app/api/schemas.py:262-262 [OperatorCommandRequest] *)
Inductive OperatorCommand : Type := APPROVE | REJECT | STOP | ESCALATE_TO_HUMAN.
#[export] Instance OperatorCommand_eq_dec : EqDecision OperatorCommand.
Proof. solve_decision. Defined.
End OperatorCommand.
Abbreviation OperatorCommand := OperatorCommand.OperatorCommand.

(** src/services/api/app/api/schemas.py:261-263 [OperatorCommandRequest] *)
Record OperatorCommandRequest : Type := {
  ocr_command : OperatorCommand;
  ocr_action_id : option string;
}.
Definition action_scoped (command : OperatorCommand) : bool :=
  match command with OperatorCommand.APPROVE | OperatorCommand.REJECT => true | _ => false end.
(** src/services/api/app/api/schemas.py:263-272 [OperatorCommandRequest.validate_action_scope] *)
Definition validate_operator_command (r : OperatorCommandRequest) : result OperatorCommandRequest :=
  _ ← raise_if (match ocr_action_id r with Some id => negb (length_within 1 64 id) | None => false end)
        (validation_error "action_id length");
  _ ← raise_if (action_scoped (ocr_command r) && bool_decide (ocr_action_id r = None))
        (validation_error "action_id is required for APPROVE and REJECT commands");
  _ ← raise_if (negb (action_scoped (ocr_command r)) && bool_decide (is_Some (ocr_action_id r)))
        (validation_error "action_id is accepted only for APPROVE and REJECT commands");
  mret r.

(** src/services/api/app/api/schemas.py:275-280 [OperatorCommandResponse] *)
Record OperatorCommandResponse : Type := {
  ocp_command : OperatorCommand;
  ocp_message : string;
  ocp_occurred_at : Z;
}.

(** src/services/api/app/api/schemas.py:257-258 [CaseCommandRequest]: the reason, as of
    [RejectActionRequest]. *)
Definition validate_reason (reason : string) : result string :=
  _ ← raise_if (negb (length_within 1 500 reason)) (validation_error "reason length");
  mret reason.

Module SafetyCommand.
(** src/services/api/app/api/schemas.py:283-290 [SafetyDispositionRequest] *)
Inductive SafetyCommand : Type :=
| MARK_DISPUTE | MARK_OPT_OUT | MARK_ALREADY_PAID | MARK_WRONG_PERSON | ESCALATE_TO_HUMAN.
End SafetyCommand.
Abbreviation SafetyCommand := SafetyCommand.SafetyCommand.

(** src/services/api/app/api/schemas.py:293-299 [SafetyDispositionResponse] *)
Record SafetyDispositionResponse : Type := {
  sdp_disposition : SafetyCommand;
  sdp_message : string;
  sdp_occurred_at : Z;
  sdp_case : RecoveryCase;
}.

(** src/services/api/app/api/schemas.py:302-309 [PolicySettingsUpdate] *)
Record PolicySettingsUpdate : Type := {
  psu_timezone : string;
  psu_quiet_hours_start : option string;
  psu_quiet_hours_end : option string;
  psu_max_contacts_per_7_days : option Z;
  psu_require_approval_above_paise : option Z;
  psu_require_approval_actions : list RecoveryActionType;
  psu_recovery_kill_switch : bool;
}.

(** [^(?:[01]\d|2[0-3]):[0-5]\d$] *)
Definition between (lo hi : N) (c : ascii) : bool := let n := N_of_ascii c in ((lo <=? n) && (n <=? hi))%N.
Definition digit_char : ascii -> bool := between 48 57.
Definition quiet_hour_text (s : string) : bool :=
  match s with
  | String a (String b (String ":" (String c (String d EmptyString)))) =>
      ((between 48 49 a && digit_char b) || (Ascii.eqb a "2" && between 48 51 b)) && between 48 53 c && digit_char d
  | _ => false
  end.

Section settings.
(** [ZoneInfo(key)] *)
Context (tzdb : string -> option ZoneInfo).

(** src/services/api/app/api/schemas.py:303-327 [PolicySettingsUpdate.validate_quiet_hours]: the
    fields and both validators. *)
Definition validate_policy_settings (u : PolicySettingsUpdate) : result PolicySettingsUpdate :=
  let matches o := match o with Some s => quiet_hour_text s | None => true end in
  _ ← raise_if (negb (length_within 1 64 (psu_timezone u))) (validation_error "timezone length");
  _ ← raise_if (negb (matches (psu_quiet_hours_start u)) || negb (matches (psu_quiet_hours_end u)))
        (validation_error "quiet hours pattern");
  _ ← raise_if (match psu_max_contacts_per_7_days u with Some n => n <=? 0 | None => false end)
        (validation_error "max_contacts_per_7_days");
  _ ← raise_if (match psu_require_approval_above_paise u with Some n => n <? 0 | None => false end)
        (validation_error "require_approval_above_paise");
  _ ← from_option (validation_error "timezone must be a known IANA timezone") (tzdb (psu_timezone u));
  _ ← raise_if (negb (Bool.eqb (bool_decide (psu_quiet_hours_start u = None)) (bool_decide (psu_quiet_hours_end u = None))))
        (validation_error "quiet-hours start and end must both be set or both be disabled");
  _ ← raise_if (bool_decide (psu_quiet_hours_start u = psu_quiet_hours_end u) && bool_decide (is_Some (psu_quiet_hours_start u)))
        (validation_error "quiet-hours start and end cannot be equal");
  mret u.
End settings.

(** src/services/api/app/api/schemas.py:329-331 [PolicySettingsResponse]: the instant of the last
    update is a column the model leaves out. *)
Record PolicySettingsResponse : Type := {
  psp_settings : PolicySettingsUpdate;
  psp_version : Z;
}.

(** src/services/api/app/api/schemas.py:30-33 [PageResponse] *)
Record PageResponse : Type := {
  pgr_next_cursor : option string;
  pgr_has_more : bool;
  pgr_limit : nat;
}.

(** src/services/api/app/api/schemas.py:36-52 [CaseSummaryResponse]: the columns of the case, and
    what is joined to it. *)
Record CaseSummaryResponse : Type := {
  csm_case : RecoveryCase;
  csm_customer_display_name : string;
  csm_plan_name : string;
  csm_recommended_action : option RecoveryActionType;
  csm_payment_surface_type : option PaymentSurfaceType;
}.

(** src/services/api/app/api/schemas.py:55-57 [CaseListResponse] *)
Record CaseListResponse : Type := {
  clr_items : list CaseSummaryResponse;
  clr_page : PageResponse;
}.

(** src/services/api/app/api/schemas.py:151-159 [CaseDetailResponse] *)
Record CaseDetailResponse : Type := {
  cdr_aggregate : CaseAggregate;
  cdr_available_commands : list string;
}.

(** src/services/api/app/api/schemas.py:216-227 [ApprovalQueueItemResponse] *)
Record ApprovalQueueItemResponse : Type := {
  aqi_case_id : string;
  aqi_action_id : string;
  aqi_customer_display_name : string;
  aqi_plan_name : string;
  aqi_amount_at_risk_paise : Z;
  aqi_recommended_action : RecoveryActionType;
  aqi_payment_surface_type : option PaymentSurfaceType;
  aqi_policy_reason : string;
  aqi_deadline : Z;
  aqi_evidence_kind : EvidenceKind;
  aqi_provider : string;
}.

(** src/services/api/app/api/schemas.py:379-383 [MockPaymentSuccessRequest] *)
Record MockPaymentSuccessRequest : Type := {
  mps_req_provider_event_id : string;
  mps_req_amount_paise : option Z;
  mps_req_subscription_reactivated : bool;
  mps_req_occurred_at : option Z;
}.
(** src/services/api/app/api/schemas.py:380-381 [MockPaymentSuccessRequest] *)
Definition validate_mock_success (r : MockPaymentSuccessRequest) : result MockPaymentSuccessRequest :=
  _ ← raise_if (negb (length_within 1 200 (mps_req_provider_event_id r))) (validation_error "provider_event_id length");
  _ ← raise_if (match mps_req_amount_paise r with Some n => n <=? 0 | None => false end) (validation_error "amount_paise");
  mret r.
(** src/services/api/app/api/schemas.py:386-387 [MockPaymentSurfaceRequest] *)
Definition validate_mock_surface (action_id : string) : result string :=
  _ ← raise_if (negb (length_within 1 64 action_id)) (validation_error "action_id length");
  mret action_id.
