(* ===== verification/OperatorApi.v ===== *)
(** * The merchant API

    [api/router.py]: a request passes the guards, opens a session, runs the operations of the
    case service and hands the outcome to the workflow of the case.  A request is one unit of
    work; what it committed stays when a later step of it fails. *)
From S2P Require Import Prelude Domain Json Contracts Workflow Commands QuietHours Safety Decision Entities Session Cursor CaseRepo Cases OperatorAuth RuntimeMode ApiSchemas.

(** ** Requests *)

(** The database, the readings of the clock and of the identifier supply so far, and Temporal. *)
Record api_world (T : Type) : Type := {
  aw_db : Db;
  aw_reads : nat;
  aw_temporal : T;
}.
Arguments aw_db {T} a.
Arguments aw_reads {T} a.
Arguments aw_temporal {T} a.

(** A request in progress: its session, and Temporal. *)
Record request_state (T : Type) : Type := {
  rq_session : session unit;
  rq_temporal : T;
}.
Arguments rq_session {T} r.
Arguments rq_temporal {T} r.
#[export] Instance eta_request_state T : Eta (request_state T) := fun r =>
  {| rq_session := rq_session r; rq_temporal := rq_temporal r |}.

Definition on_session {T A} (m : M A) : stx (request_state T) A := fun s =>
  let '(r, x) := m (rq_session s) in (r, s <| rq_session := x |>).
Definition on_temporal {T A} (m : stx T A) : stx (request_state T) A := fun s =>
  let '(r, t) := m (rq_temporal s) in (r, s <| rq_temporal := t |>).

(** A request over a new session, which is closed when the request ends. *)
Definition serve {T A} (m : stx (request_state T) A) (w : api_world T) : result A * api_world T :=
  let s := {| rq_session := {| ses_db := aw_db w; ses_committed := aw_db w; ses_reads := aw_reads w; ses_local := tt |};
              rq_temporal := aw_temporal w |} in
  let '(r, s') := m s in
  (r, {| aw_db := ses_committed (rq_session s'); aw_reads := ses_reads (rq_session s'); aw_temporal := rq_temporal s' |}).

(** ** Errors *)

(** src/services/api/app/services/cases.py:54-80 [ApplicationServiceError]: the status of its
    subclasses, by code. *)
Definition application_status (code : string) : Z :=
  if bool_decide (code = "RESOURCE_NOT_FOUND") then 404
  else if mem code ["VERSION_CONFLICT"; "POLICY_BLOCKED"; "CASE_ALREADY_RECOVERED"] then 409
  else if bool_decide (code = "OPERATOR_AUTH_REQUIRED") then 401
  else if mem code ["OPERATOR_AUTH_NOT_CONFIGURED"; "RECOVERY_WORKFLOW_UNAVAILABLE"] then 503
  else 400.

(** src/services/api/app/api/router.py:202-205 [_request_context]: the identifiers of the
    headers, or fresh ones. *)
Definition request_context (request_id correlation_id : option string) (fresh1 fresh2 : string) : string * string :=
  let pick prefix header fresh := match header with
                                  | Some h => if bool_decide (h = "") then prefix +++ fresh else h
                                  | None => prefix +++ fresh end in
  (str_take 128 (pick "req_" request_id fresh1), str_take 128 (pick "corr_" correlation_id fresh2)).

Section api.
Context {T : Type} `{TemporalClient T}.
(** The environment, and what [OperatorAuth] takes as parameters. *)
Context (env : string -> option string) (hmac_sha256 : string -> string -> string)
        (json_loads_text : string -> result json).
(** The connection to Temporal. *)
Context (connect : T -> result unit).
(** What the case service takes as parameters. *)
Context (new_id : nat -> string) (utc_now clock : nat -> Z).
Context (sha256_hex : string -> string) (time_fromisoformat : string -> result Z)
        (isoformat : Z -> string) (fromisoformat : string -> result datetime)
        (json_dumps : json -> string) (json_loads : string -> result json)
        (tzdb : string -> option ZoneInfo) (scorer : RecoveryScoreRequest -> result RecoveryScoreResult)
        (standard_payment_link_lifecycle agent_executor_ready : bool).
Abbreviation R := (stx (request_state T)).

(** The credentials of a request and its moment. *)
Record credentials : Type := {
  crd_operator_token : option string;
  crd_csrf_token : option string;
  crd_session : option string;
  crd_now : Z;
}.

(** src/services/api/app/api/router.py:174-176 [get_case_service]: the kill switch. *)
Definition kill_switch_from_env : bool := bool_decide (setting env "RECOVERY_GLOBAL_KILL_SWITCH" "false" = "true").

Abbreviation approve := (approve_action new_id utc_now clock).
Abbreviation reject := (reject_action new_id utc_now clock).
Abbreviation stop := (stop_case new_id utc_now clock).
Abbreviation escalate := (escalate_case new_id utc_now clock).

Definition now_read : R Z := on_session (reading clock).
Definition guarded (c : credentials) : R unit :=
  lift (require_operator env hmac_sha256 json_loads_text (crd_operator_token c) (crd_csrf_token c) (crd_session c) (crd_now c)).
(** The dependencies of a route: the case service with its provider, the merchant, and the
    commander of the workflows. *)
Definition service_route : R string :=
  _ ← lift (select_payment_provider env);
  lift (get_merchant_scope env).
Definition connected : R unit := fun s => (connect (rq_temporal s), s).
Definition command_route : R string :=
  merchant_id ← service_route;
  _ ← connected;
  mret merchant_id.

(** ** Commands of the operator *)

(** src/services/api/app/api/router.py:623-631 [execute_operator_command]: the displayed action,
    if it is the current one. *)
Definition current_action (aggregate : CaseAggregate) (action_id : option string) : R RecoveryActionRecord :=
  match agg_latest_action aggregate with
  | Some action =>
      _ ← guard_ (negb (bool_decide (Some (act_id action) = action_id)))
            (CaseConflictError "The displayed recovery action is missing or no longer current.");
      mret action
  | None => raise (CaseConflictError "The displayed recovery action is missing or no longer current.")
  end.

(** src/services/api/app/api/router.py:620-687 [execute_operator_command]: the body. *)
Definition operator_command_body (merchant_id case_id : string) (request : OperatorCommandRequest)
  : R OperatorCommandResponse :=
  occurred_at ← now_read;
  message ←
    match ocr_command request with
    | OperatorCommand.APPROVE =>
        aggregate ← on_session (service_get_case merchant_id case_id);
        action ← current_action aggregate (ocr_action_id request);
        _ ← on_session (approve merchant_id case_id (act_id action) (Some occurred_at));
        _ ← on_temporal (commander_approval case_id (act_id action) true None);
        mret "Recovery action approved."
    | OperatorCommand.REJECT =>
        aggregate ← on_session (service_get_case merchant_id case_id);
        action ← current_action aggregate (ocr_action_id request);
        _ ← on_session (reject merchant_id case_id (act_id action) "Rejected by the merchant operator." (Some occurred_at));
        _ ← on_temporal (commander_approval case_id (act_id action) false (Some "Rejected by the merchant operator."));
        mret "Recovery action rejected."
    | OperatorCommand.STOP =>
        _ ← on_session (stop merchant_id case_id "Stopped by the merchant operator." (Some occurred_at));
        _ ← on_temporal (commander_stop case_id "Stopped by the merchant operator.");
        mret "Recovery case stopped."
    | OperatorCommand.ESCALATE_TO_HUMAN =>
        _ ← on_session (escalate merchant_id case_id "Escalated by the merchant operator." (Some occurred_at));
        _ ← on_temporal (commander_escalate case_id "Escalated by the merchant operator.");
        mret "Recovery case escalated to human review."
    end;
  mret {| ocp_command := ocr_command request; ocp_message := message; ocp_occurred_at := occurred_at |}.

(** src/services/api/app/api/router.py:606-687 [execute_operator_command] *)
Definition execute_operator_command (c : credentials) (case_id : string) (request : OperatorCommandRequest)
  : R OperatorCommandResponse :=
  _ ← guarded c;
  merchant_id ← command_route;
  request ← lift (validate_operator_command request);
  operator_command_body merchant_id case_id request.

(** src/services/api/app/api/router.py:717-723 [record_safety_disposition] *)
Definition disposition_of (d : SafetyCommand) : option ContactDisposition :=
  match d with
  | SafetyCommand.MARK_DISPUTE => Some ContactDisposition.DISPUTE
  | SafetyCommand.MARK_OPT_OUT => Some ContactDisposition.OPTED_OUT
  | SafetyCommand.MARK_ALREADY_PAID => Some ContactDisposition.ALREADY_PAID
  | SafetyCommand.MARK_WRONG_PERSON => Some ContactDisposition.WRONG_PERSON
  | SafetyCommand.ESCALATE_TO_HUMAN => None
  end.
(** src/services/api/app/api/router.py:730-740 [record_safety_disposition] *)
Definition disposition_message (d : ContactDisposition) : string :=
  match d with
  | ContactDisposition.DISPUTE => "Dispute recorded; automated recovery was stopped."
  | ContactDisposition.OPTED_OUT => "Opt-out recorded; future outreach was suppressed."
  | ContactDisposition.ALREADY_PAID => "Already-paid report recorded; recovery was stopped for reconciliation."
  | _ => "Wrong-person report recorded; future outreach was suppressed."
  end.

(** src/services/api/app/api/router.py:690-746 [record_safety_disposition] *)
Definition safety_disposition_route (c : credentials) (case_id : string) (disposition : SafetyCommand)
  : R SafetyDispositionResponse :=
  _ ← guarded c;
  merchant_id ← command_route;
  occurred_at ← now_read;
  '(recovery_case, message) ←
    match disposition_of disposition with
    | None =>
        let reason := "Escalated by the merchant operator from the safety controls." in
        recovery_case ← on_session (escalate merchant_id case_id reason (Some occurred_at));
        _ ← on_temporal (commander_escalate case_id reason);
        mret (recovery_case, "Recovery case escalated to human review.")
    | Some contact_disposition =>
        recovery_case ← on_session (record_safety_disposition new_id utc_now clock merchant_id case_id
                                      contact_disposition (Some occurred_at));
        mret (recovery_case, disposition_message contact_disposition)
    end;
  mret {| sdp_disposition := disposition; sdp_message := message; sdp_occurred_at := occurred_at; sdp_case := recovery_case |}.

(** src/services/api/app/api/router.py:749-767 [recommend_recovery_action] *)
Definition recommend_recovery_action (c : credentials) (case_id : string) (action_type : option RecoveryActionType)
    (surface : option PaymentSurfaceType) : R (RecoveryActionRecord * PolicyDecisionRecord) :=
  _ ← guarded c;
  merchant_id ← service_route;
  on_session (recommend_action new_id utc_now clock time_fromisoformat isoformat tzdb scorer
    standard_payment_link_lifecycle agent_executor_ready kill_switch_from_env merchant_id case_id action_type surface None).

(** src/services/api/app/api/router.py:770-794 [approve_recovery_action] *)
Definition approve_recovery_action (c : credentials) (case_id action_id : string) : R RecoveryActionRecord :=
  _ ← guarded c;
  merchant_id ← command_route;
  _ ← on_session (get_action_for_command merchant_id case_id action_id);
  action ← on_session (approve merchant_id case_id action_id None);
  _ ← on_temporal (commander_approval case_id action_id true None);
  mret action.

(** src/services/api/app/api/router.py:797-825 [reject_recovery_action] *)
Definition reject_recovery_action (c : credentials) (case_id action_id reason : string) : R RecoveryActionRecord :=
  _ ← guarded c;
  merchant_id ← command_route;
  reason ← lift (validate_reason reason);
  _ ← on_session (get_action_for_command merchant_id case_id action_id);
  action ← on_session (reject merchant_id case_id action_id reason None);
  _ ← on_temporal (commander_approval case_id action_id false (Some reason));
  mret action.

(** src/services/api/app/api/router.py:828-845 [stop_recovery_case] *)
Definition stop_recovery_case (c : credentials) (case_id reason : string) : R RecoveryCase :=
  _ ← guarded c;
  merchant_id ← command_route;
  reason ← lift (validate_reason reason);
  _ ← on_session (service_get_case merchant_id case_id);
  recovery_case ← on_session (stop merchant_id case_id reason None);
  _ ← on_temporal (commander_stop case_id reason);
  mret recovery_case.

(** src/services/api/app/api/router.py:848-865 [escalate_recovery_case] *)
Definition escalate_recovery_case (c : credentials) (case_id reason : string) : R RecoveryCase :=
  _ ← guarded c;
  merchant_id ← command_route;
  reason ← lift (validate_reason reason);
  _ ← on_session (service_get_case merchant_id case_id);
  recovery_case ← on_session (escalate merchant_id case_id reason None);
  _ ← on_temporal (commander_escalate case_id reason);
  mret recovery_case.

(** ** The demo *)

(** src/services/api/app/api/router.py:868-901 [open_mock_payment_surface] *)
Definition open_mock_payment_surface (c : credentials) (case_id action_id : string) : R RecoveryActionRecord :=
  _ ← lift (require_demo_mode env);
  _ ← guarded c;
  merchant_id ← command_route;
  action_id ← lift (validate_mock_surface action_id);
  _ ← on_session (get_action_for_command merchant_id case_id action_id);
  action ← on_session (approve merchant_id case_id action_id None);
  _ ← on_temporal (commander_approval case_id action_id true None);
  mret action.

(** src/services/api/app/api/router.py:904-935 [apply_mock_payment_success] *)
Definition mock_payment_success_route (c : credentials) (case_id : string) (request : MockPaymentSuccessRequest)
  : R (RecoveryCase * bool) :=
  _ ← lift (require_demo_mode env);
  _ ← guarded c;
  merchant_id ← command_route;
  request ← lift (validate_mock_success request);
  result ← on_session (apply_mock_payment_success new_id utc_now clock sha256_hex merchant_id case_id
             (mps_req_provider_event_id request) (mps_req_amount_paise request) (mps_req_occurred_at request)
             (mps_req_subscription_reactivated request));
  _ ← on_temporal (commander_payment_captured case_id (mps_req_provider_event_id request)
                     (psr_recognized_amount_paise result));
  mret (psr_recovery_case result, psr_newly_recognized result).

(** ** Policy settings *)

Definition merchant_and_settings (merchant_id : string) : M (Merchant * MerchantPolicySetting) :=
  found ← get_merchant_policy_settings merchant_id;
  found_or_404 found "Merchant policy settings were not found.".

(** src/services/api/app/api/router.py:315-329 [_policy_settings_response] *)
Definition policy_settings_response (merchant : Merchant) (settings : MerchantPolicySetting)
  : result PolicySettingsResponse :=
  actions ← map_result RecoveryActionType_of (mps_require_approval_actions settings);
  update ← validate_policy_settings tzdb {|
    psu_timezone := mer_timezone merchant; psu_quiet_hours_start := mps_quiet_hours_start settings;
    psu_quiet_hours_end := mps_quiet_hours_end settings;
    psu_max_contacts_per_7_days := mps_max_contacts_per_7_days settings;
    psu_require_approval_above_paise := mps_require_approval_above_paise settings;
    psu_require_approval_actions := actions; psu_recovery_kill_switch := mps_recovery_kill_switch settings |};
  _ ← raise_if (mps_version settings <? 1) (validation_error "version");
  mret {| psp_settings := update; psp_version := mps_version settings |}.

(** src/services/api/app/api/router.py:332-343 [get_policy_settings] *)
Definition get_policy_settings : R PolicySettingsResponse :=
  merchant_id ← lift (get_merchant_scope env);
  '(merchant, settings) ← on_session (merchant_and_settings merchant_id);
  lift (policy_settings_response merchant settings).

(** src/services/api/app/api/router.py:369-378 [update_policy_settings]: the assignments. *)
Definition assign_settings (u : PolicySettingsUpdate) (s : MerchantPolicySetting) : MerchantPolicySetting :=
  s <| mps_quiet_hours_start := psu_quiet_hours_start u |> <| mps_quiet_hours_end := psu_quiet_hours_end u |>
    <| mps_max_contacts_per_7_days := psu_max_contacts_per_7_days u |>
    <| mps_require_approval_above_paise := psu_require_approval_above_paise u |>
    <| mps_require_approval_actions := map RecoveryActionType_value (psu_require_approval_actions u) |>
    <| mps_recovery_kill_switch := psu_recovery_kill_switch u |> <| mps_version ::= Z.succ |>.

(** src/services/api/app/api/router.py:346-381 [update_policy_settings] *)
Definition update_policy_settings (c : credentials) (u : PolicySettingsUpdate) : R PolicySettingsResponse :=
  _ ← guarded c;
  merchant_id ← lift (get_merchant_scope env);
  u ← lift (validate_policy_settings tzdb u);
  '(merchant, settings) ← on_session (merchant_and_settings merchant_id);
  let merchant := merchant <| mer_timezone := psu_timezone u |> in
  let settings := assign_settings u settings in
  _ ← on_session (write (fun d => d <| db_merchants ::= store_row mer_id merchant |>
                                   <| db_policy_settings ::= store_row mps_merchant_id settings |>));
  _ ← on_session commit;
  lift (policy_settings_response merchant settings).

(** ** Queries *)

(** src/services/api/app/api/router.py:401-409 [_dashboard_evidence_kind] *)
Definition dashboard_evidence_kind (kinds : list EvidenceKind) : EvidenceKind :=
  if mem EvidenceKind.RAZORPAY_TEST_VERIFIED kinds then EvidenceKind.RAZORPAY_TEST_VERIFIED
  else if mem EvidenceKind.SYSTEM_DERIVED kinds then EvidenceKind.SYSTEM_DERIVED
  else if mem EvidenceKind.SIMULATED kinds then EvidenceKind.SIMULATED
  else EvidenceKind.SYSTEM_DERIVED.

(** src/services/api/app/api/router.py:412-448 [get_dashboard]: the currency, the kind of the
    evidence and the snapshot. *)
Definition get_dashboard : R (string * EvidenceKind * DashboardSnapshot) :=
  merchant_id ← service_route;
  merchant ← on_session (query (fun d => row_where (fun m => eqs (mer_id m) merchant_id) (db_merchants d)));
  merchant ← on_session (found_or_404 merchant "The configured merchant was not found.");
  snapshot ← on_session (service_dashboard merchant_id);
  mret (mer_currency merchant, dashboard_evidence_kind (map evr_evidence_kind (dsh_recent_events snapshot)), snapshot).

(** src/services/api/app/api/router.py:463-505 [get_approval_queue]: one case of the queue. *)
Definition queue_item (merchant_id : string) (c : RecoveryCase) : R (option ApprovalQueueItemResponse) :=
  aggregate ← on_session (service_get_case merchant_id (rc_id c));
  match agg_latest_action aggregate, agg_latest_policy aggregate with
  | Some action, Some policy =>
      if negb (eqs (act_status action) ActionStatus.AWAITING_APPROVAL) then mret None else
      events ← on_session (service_timeline merchant_id (rc_id c));
      let provider_verified := existsb (fun e => eqs (evr_evidence_kind e) EvidenceKind.RAZORPAY_TEST_VERIFIED) events in
      mret (Some {|
        aqi_case_id := rc_id c; aqi_action_id := act_id action;
        aqi_customer_display_name := cus_display_name (agg_customer aggregate);
        aqi_plan_name := sub_plan_name (agg_subscription aggregate);
        aqi_amount_at_risk_paise := rc_amount_at_risk_paise c;
        aqi_recommended_action := act_action_type action; aqi_payment_surface_type := act_payment_surface_type action;
        aqi_policy_reason := hd "Merchant policy requires an operator decision." (pol_reasons policy);
        aqi_deadline := rc_recovery_deadline c;
        aqi_evidence_kind := if provider_verified then EvidenceKind.RAZORPAY_TEST_VERIFIED else EvidenceKind.SYSTEM_DERIVED;
        aqi_provider := if provider_verified then "RAZORPAY_TEST" else "RECOVERYOS" |})
  | _, _ => mret None
  end.
(** Over a list of cases, in order. *)
Fixpoint each {A} (f : RecoveryCase -> R A) (cases : list RecoveryCase) : R (list A) :=
  match cases with
  | [] => mret []
  | c :: rest => a ← f c; more ← each f rest; mret (a :: more)
  end.

Abbreviation list_page := (service_list_cases isoformat fromisoformat json_dumps json_loads).
Definition no_filters : CaseFilters := {|
  cf_outcomes := []; cf_diagnoses := []; cf_subscription_states := []; cf_opened_from := None; cf_opened_to := None |}.

(** src/services/api/app/api/router.py:451-506 [get_approval_queue] *)
Definition get_approval_queue : R (list ApprovalQueueItemResponse) :=
  merchant_id ← service_route;
  page ← on_session (list_page merchant_id no_filters None 100);
  items ← each (queue_item merchant_id) (cp_items page);
  mret (omap id items).

(** src/services/api/app/api/router.py:534-558 [list_recovery_cases]: one case of the list. *)
Definition case_summary (merchant_id : string) (c : RecoveryCase) : R CaseSummaryResponse :=
  aggregate ← on_session (service_get_case merchant_id (rc_id c));
  let latest := agg_latest_action aggregate in
  mret {| csm_case := c; csm_customer_display_name := cus_display_name (agg_customer aggregate);
          csm_plan_name := sub_plan_name (agg_subscription aggregate);
          csm_recommended_action := act_action_type <$> latest;
          csm_payment_surface_type := latest ≫= act_payment_surface_type |}.

(** src/services/api/app/api/router.py:509-566 [list_recovery_cases] *)
Definition list_recovery_cases (limit : nat) (cursor : option string) (filters : CaseFilters) : R CaseListResponse :=
  merchant_id ← service_route;
  _ ← guard_ ((limit <? 1)%nat || (100 <? limit)%nat) (validation_error "limit");
  page ← on_session (list_page merchant_id filters cursor limit);
  summaries ← each (case_summary merchant_id) (cp_items page);
  mret {| clr_items := summaries;
          clr_page := {| pgr_next_cursor := cp_next_cursor page; pgr_has_more := cp_has_more page; pgr_limit := limit |} |}.

(** src/services/api/app/api/router.py:574-585 [get_recovery_case]: what the operator may do. *)
Definition available_commands (aggregate : CaseAggregate) : list string :=
  if negb (eqs (rc_case_outcome (agg_recovery_case aggregate)) CaseOutcome.OPEN) then []
  else ["STOP"; "ESCALATE_TO_HUMAN"] ++
    match agg_latest_action aggregate with
    | None => []
    | Some action =>
        (if eqs (act_status action) ActionStatus.AWAITING_APPROVAL then ["APPROVE"] else []) ++
        (if mem (act_status action) [ActionStatus.PROPOSED; ActionStatus.AWAITING_APPROVAL; ActionStatus.SCHEDULED]
         then ["REJECT"] else [])
    end.

(** src/services/api/app/api/router.py:569-595 [get_recovery_case] *)
Definition get_recovery_case (case_id : string) : R CaseDetailResponse :=
  merchant_id ← service_route;
  aggregate ← on_session (service_get_case merchant_id case_id);
  mret {| cdr_aggregate := aggregate; cdr_available_commands := available_commands aggregate |}.

(** src/services/api/app/api/router.py:598-603 [get_recovery_case_timeline] *)
Definition get_recovery_case_timeline (case_id : string) : R (list RecoveryEventRecord) :=
  merchant_id ← service_route;
  on_session (service_timeline merchant_id case_id).
End api.
