(* ===== verification/OperatorApiFacts.v ===== *)
(** * What the merchant API guarantees

    A command is committed before its workflow hears of it, and what becomes of a command
    whose delivery failed. *)
From S2P Require Import Prelude Domain Json Contracts Workflow Commands QuietHours Safety Decision Entities Session Cursor CaseRepo Cases CasesFacts OperatorAuth RuntimeMode ApiSchemas OperatorApi.

(** ** Operations on an action *)

Lemma keeps_get_case {V} (v : session unit -> V) m c : keeps v (service_get_case m c).
Proof. unfold service_get_case, found_or_404. keeps. Qed.
Lemma keeps_get_action {V} (v : session unit -> V) c a : keeps v (get_action c a).
Proof. keeps. Qed.
Lemma keeps_same {A} (m : M A) s r s' : keeps (fun s => s) m -> m s = (r, s') -> s' = s.
Proof. intros Hk E. specialize (Hk s). by rewrite E in Hk. Qed.
Lemma get_case_same m c s r s' : service_get_case m c s = (r, s') -> s' = s.
Proof. apply keeps_same, keeps_get_case. Qed.
Lemma get_action_Ok case_id id (s : session unit) o s' : get_action case_id id s = (Ok o, s') ->
  s' = s /\ o = row_where (fun a => eqs (act_id a) id && eqs (act_case_id a) case_id) (db_actions (ses_db s)).
Proof. intros (-> & -> & _)%query_Ok. done. Qed.

Section actions.
Context (new_id : nat -> string) (utc_now clock : nat -> Z).
Abbreviation approve := (approve_action new_id utc_now clock).
Abbreviation reject := (reject_action new_id utc_now clock).

(** The contents after an action of the case was replaced. *)
Definition action_replaced (a : RecoveryActionRecord) (d d' : Db) : Prop :=
  consistent d' /\ exists evs, d' = d <| db_actions ::= store_row act_id a |> <| db_events := evs |>.

Lemma save_and_record a case_id ty payload t sid (s : session unit) u s1 b s2 :
  save_loaded_action a s = (Ok u, s1) ->
  record_event new_id utc_now case_id ty "operator" EvidenceKind.SYSTEM_DERIVED payload t sid s1 = (Ok b, s2) ->
  consistent (ses_db s2) -> action_replaced a (ses_db s) (ses_db s2).
Proof.
  intros ->%write_Ok [[evs Hd] _]%record_event_Ok Hc. split; [done|]. exists evs. by rewrite Hd.
Qed.

Lemma approve_Ok merchant_id case_id id now (s : session unit) a s' :
  approve merchant_id case_id id now s = (Ok a, s') ->
  exists a0, row_where (fun a => eqs (act_id a) id && eqs (act_case_id a) case_id) (db_actions (ses_db s)) = Some a0 /\
    act_status a0 = ActionStatus.AWAITING_APPROVAL /\
    a = a0 <| act_status := ActionStatus.SCHEDULED |> <| act_completed_at := None |> /\
    action_replaced a (ses_db s) (ses_committed s').
Proof.
  unfold approve_action. intros (agg & s1 & ->%get_case_same & H)%stx_bind_Ok.
  apply stx_bind_Ok in H as (o & s2 & [-> Ho]%get_action_Ok & H).
  apply stx_bind_Ok in H as (a0 & s3 & [-> ->]%found_404_Ok & H).
  apply stx_bind_Ok in H as (u & s4 & [-> Hst]%guard_Ok & H).
  apply stx_bind_Ok in H as (t & s5 & [Ht _]%moment_Ok & H).
  apply stx_bind_Ok in H as (u2 & s6 & [-> _]%guard_Ok & H). cbv zeta in H.
  apply stx_bind_Ok in H as (u3 & s7 & Hsave & H). apply stx_bind_Ok in H as (b & s8 & Hrec & H).
  apply stx_bind_Ok in H as (u4 & s9 & [-> Hc]%commit_Ok & [-> ->]%ret_Ok).
  exists a0. split; [done|]. bools. split; [done|]. split; [done|].
  change (ses_committed (s8 <| ses_committed := ses_db s8 |>)) with (ses_db s8). rewrite <- Ht. by eapply save_and_record.
Qed.

Lemma reject_Ok merchant_id case_id id reason now (s : session unit) a s' :
  reject merchant_id case_id id reason now s = (Ok a, s') ->
  exists a0, row_where (fun a => eqs (act_id a) id && eqs (act_case_id a) case_id) (db_actions (ses_db s)) = Some a0 /\
    ((act_status a0 = ActionStatus.CANCELLED /\ a = a0 /\ s' = s) \/
     (act_status a0 ∈ REJECTABLE_STATUSES /\ (exists t, a = a0 <| act_status := ActionStatus.CANCELLED |> <| act_completed_at := Some t |>) /\
      action_replaced a (ses_db s) (ses_committed s'))).
Proof.
  unfold reject_action. intros (agg & s1 & ->%get_case_same & H)%stx_bind_Ok.
  apply stx_bind_Ok in H as (o & s2 & [-> Ho]%get_action_Ok & H).
  apply stx_bind_Ok in H as (a0 & s3 & [-> ->]%found_404_Ok & H). exists a0. split; [done|].
  case_bool_decide as Hst; [left; by apply ret_Ok in H as [-> ->]|right].
  apply stx_bind_Ok in H as (u & s4 & [-> Hr]%guard_Ok & H).
  apply stx_bind_Ok in H as (t & s5 & [Ht _]%moment_Ok & H). cbv zeta in H.
  apply stx_bind_Ok in H as (u3 & s7 & Hsave & H). apply stx_bind_Ok in H as (b & s8 & Hrec & H).
  apply stx_bind_Ok in H as (u4 & s9 & [-> Hc]%commit_Ok & [-> ->]%ret_Ok).
  apply negb_false_iff, mem_true in Hr. split; [done|]. split; [by eexists|].
  change (ses_committed (s8 <| ses_committed := ses_db s8 |>)) with (ses_db s8). rewrite <- Ht. by eapply save_and_record.
Qed.

Lemma keeps_committed_event case_id ty source kind payload at_ sid :
  keeps (ses_committed (X := unit)) (record_event new_id utc_now case_id ty source kind payload at_ sid).
Proof. apply keeps_committed_record. Qed.
#[local] Hint Resolve keeps_committed_event : keeps.
Lemma approve_atomic m c a now : atomic (approve m c a now).
Proof. atomically. Qed.
Lemma reject_atomic m c a reason now : atomic (reject m c a reason now).
Proof. atomically. Qed.
End actions.

(** ** Committed, then delivered *)

Section delivery.
Context {T : Type} `{TemporalLaws T}.

(** What Temporal holds after a delivery, and the answer of the request. *)
Definition handed {A} (case_id : string) (sig : signal) (t t' : T) (r : result A) : Prop :=
  started_with t' = started_with t /\
  (accepted t' = accepted t \/ accepted t' = accepted t ++ [(recovery_workflow_id case_id, sig)]) /\
  match r with Ok _ => True | Err e => e = command_unavailable end.
(** Nothing was committed and nothing reached Temporal. *)
Definition refused {A} (s s' : request_state T) (r : result A) : Prop :=
  is_ok r = false /\ ses_committed (rq_session s') = ses_committed (rq_session s) /\ rq_temporal s' = rq_temporal s.

Lemma committed_then_delivered {A B} (m : M A) case_id sig (k : A -> B) (s : request_state T) r s' : atomic m ->
  (a ← on_session m; _ ← on_temporal (deliver case_id sig); mret (k a)) s = (r, s') ->
  refused s s' r \/ exists a x, m (rq_session s) = (Ok a, x) /\ rq_session s' = x /\
    handed case_id sig (rq_temporal s) (rq_temporal s') r.
Proof.
  intros Ha. unfold mbind, stx_bind, on_session, on_temporal, mret, stx_ret.
  destruct (m (rq_session s)) as [[a|e] x] eqn:Em.
  2: { intros [= <- <-]. left. split; [done|]. split; [by eapply Ha|done]. }
  cbn [rq_temporal]. destruct (deliver _ _ _) as [[w|e] t'] eqn:Ed; pose proof (deliver_effect _ _ _ _ _ Ed) as [Hst Hd];
    intros [= <- <-]; right; exists a, x; (split; [done|]); (split; [done|]); (split; [exact Hst|]).
  - split; [|done]. destruct Hd as (_ & _ & [[_ ?]|[_ ?]]); auto.
  - destruct Hd as [-> ?]. auto.
Qed.
Lemma refused_raise {A} e (s : request_state T) : refused s s (Err e : result A).
Proof. done. Qed.

(** A step that only reads. *)
Definition reads {A} (m : stx (request_state T) A) : Prop :=
  forall s r s', m s = (r, s') -> ses_db (rq_session s') = ses_db (rq_session s) /\
    ses_committed (rq_session s') = ses_committed (rq_session s) /\ rq_temporal s' = rq_temporal s.
Lemma reads_lift {A} (m : result A) : reads (lift m).
Proof. by intros s r s' [= _ <-]. Qed.
Lemma reads_ret {A} (a : A) : reads (mret a).
Proof. by intros s r s' [= _ <-]. Qed.
Lemma reads_raise {A} e : reads (raise (A := A) e).
Proof. by intros s r s' [= _ <-]. Qed.
Lemma reads_bind {A B} (m : stx (request_state T) A) (f : A -> stx (request_state T) B) :
  reads m -> (forall a, reads (f a)) -> reads (m ≫= f).
Proof.
  intros Hm Hf s r s'. unfold mbind, stx_bind. destruct (m s) as [[a|e] s1] eqn:E; apply Hm in E as (E1 & E2 & E3).
  - intros (H1 & H2 & H3)%Hf. by rewrite H1, H2, H3.
  - by intros [= _ <-].
Qed.
Lemma reads_session {A} (m : M A) : keeps (fun x => (ses_db x, ses_committed x)) m -> reads (on_session m).
Proof.
  intros Hk s r s'. unfold on_session. specialize (Hk (rq_session s)). destruct (m _) as [r0 x]. intros [= _ <-].
  by injection Hk.
Qed.
(** The rest of a request after a step that only reads. *)
Lemma after_reads {A B} (m : stx (request_state T) A) (f : A -> stx (request_state T) B) s r s' : reads m ->
  (m ≫= f) s = (r, s') -> refused s s' r \/
  exists a s1, m s = (Ok a, s1) /\ f a s1 = (r, s') /\ ses_db (rq_session s1) = ses_db (rq_session s) /\
    ses_committed (rq_session s1) = ses_committed (rq_session s) /\ rq_temporal s1 = rq_temporal s.
Proof.
  intros Hm. unfold mbind, stx_bind. destruct (m s) as [[a|e] s1] eqn:E; pose proof (Hm _ _ _ E) as (E1 & E2 & E3).
  - intros Hf. right. by exists a, s1.
  - intros [= <- <-]. left. by split.
Qed.
Lemma refused_after {A} (s s1 s' : request_state T) (r : result A) :
  ses_committed (rq_session s1) = ses_committed (rq_session s) -> rq_temporal s1 = rq_temporal s ->
  refused s1 s' r -> refused s s' r.
Proof. intros E1 E2 (? & H1 & H2). split; [done|]. by rewrite H1, H2, E1, E2. Qed.
End delivery.

(** ** Operator commands *)

(** What a command did to the database. *)
Definition action_settled (case_id id : string) (from : list ActionStatus) (to : ActionStatus) (d d' : Db) : Prop :=
  exists a0 a1, row_where (fun a => eqs (act_id a) id && eqs (act_case_id a) case_id) (db_actions d) = Some a0 /\
    act_status a0 ∈ from /\ act_id a1 = id /\ act_status a1 = to /\ action_replaced a1 d d'.
Definition case_settled (cmd : case_command) (outcome : CaseOutcome) (merchant_id case_id : string) (d d' : Db) : Prop :=
  exists c0, owned_case merchant_id case_id d = Some c0 /\
    ((rc_case_outcome c0 = outcome /\ d' = d) \/
     (rc_case_outcome c0 = CaseOutcome.OPEN /\ closes cmd d d' (closed_case cmd outcome c0))).
Definition settled (request : OperatorCommandRequest) (merchant_id case_id : string) (d d' : Db) : Prop :=
  match ocr_command request, ocr_action_id request with
  | OperatorCommand.APPROVE, Some id =>
      action_settled case_id id [ActionStatus.AWAITING_APPROVAL] ActionStatus.SCHEDULED d d'
  | OperatorCommand.REJECT, Some id =>
      action_settled case_id id REJECTABLE_STATUSES ActionStatus.CANCELLED d d' \/
      (d' = d /\ exists a, a ∈ db_actions d /\ act_id a = id /\ act_status a = ActionStatus.CANCELLED)
  | OperatorCommand.STOP, _ =>
      case_settled (Stop "Stopped by the merchant operator.") CaseOutcome.STOPPED merchant_id case_id d d'
  | OperatorCommand.ESCALATE_TO_HUMAN, _ =>
      case_settled (Escalate "Escalated by the merchant operator.") CaseOutcome.ESCALATED merchant_id case_id d d'
  | _, None => False
  end.
(** The signal of a command, whose identifier names the command and its object. *)
Definition command_signal (request : OperatorCommandRequest) (case_id : string) : signal :=
  match ocr_command request with
  | OperatorCommand.APPROVE => approval_signal (default "" (ocr_action_id request)) true None
  | OperatorCommand.REJECT =>
      approval_signal (default "" (ocr_action_id request)) false (Some "Rejected by the merchant operator.")
  | OperatorCommand.STOP => stop_signal case_id "Stopped by the merchant operator."
  | OperatorCommand.ESCALATE_TO_HUMAN => escalate_signal case_id "Escalated by the merchant operator."
  end.

Lemma case_settled_intro cmd outcome m c (s s' : session unit) k : ses_committed s = ses_db s ->
  command_result cmd outcome m c s s' k -> case_settled cmd outcome m c (ses_db s) (ses_committed s').
Proof.
  intros Hs (c0 & Ho & [(? & _ & ->)|(? & -> & ?)]); exists c0; (split; [done|]); [left; by rewrite Hs|by right].
Qed.

(** The row found again once it was replaced. *)
Lemma row_where_store {R} (key : R -> string) (p : R -> bool) r0 r l : row_where p l = Some r0 -> key r = key r0 -> p r = true ->
  row_where p (store_row key r l) = Some r.
Proof.
  intros Hl Hk Hp. unfold row_where, store_row, update_where in *. induction l as [|x l IH]; [done|]. cbn in *.
  case_bool_decide as Hx; [by rewrite Hp|]. destruct (p x); [|by apply IH]. injection Hl as ->. congruence.
Qed.
Lemma closed_owned m c d d' cmd outcome c0 : owned_case m c d = Some c0 ->
  closes cmd d d' (closed_case cmd outcome c0) -> owned_case m c d' = Some (closed_case cmd outcome c0).
Proof.
  intros Ho Hc. unfold owned_case in *. rewrite (cl_cases _ _ _ _ Hc). pose proof Ho as [_ Hp]%row_where_Some.
  apply (row_where_store _ _ _ _ _ Ho); by destruct cmd.
Qed.
(** A case settled already is found as it is. *)
Lemma locked_intro m c0 case_id (s : session unit) : consistent (ses_db s) -> owned_case m case_id (ses_db s) = Some c0 ->
  locked_case m case_id s = (Ok c0, s).
Proof. intros Hc Ho. unfold locked_case, get_case_for_update, query, flush. stx_unfold. by rewrite Hc, Ho. Qed.

Section commands.
Context {T : Type} `{TemporalLaws T}.
Context (env : string -> option string) (hmac_sha256 : string -> string -> string)
        (json_loads_text : string -> result json) (connect : T -> result unit)
        (new_id : nat -> string) (utc_now clock : nat -> Z).
Abbreviation command := (execute_operator_command env hmac_sha256 json_loads_text connect new_id utc_now clock).
Abbreviation body := (operator_command_body new_id utc_now clock).
Abbreviation guard_of c := (require_operator env hmac_sha256 json_loads_text (crd_operator_token c) (crd_csrf_token c)
  (crd_session c) (crd_now c)).

Lemma reads_command_route : reads (T := T) (command_route env connect).
Proof.
  unfold command_route, service_route. apply reads_bind; [apply reads_bind; intros; apply reads_lift|]. intros m.
  apply reads_bind; [|intros u; apply reads_ret]. by intros s r s' [= _ <-].
Qed.
Lemma command_route_scope (s : request_state T) m s' : command_route env connect s = (Ok m, s') -> get_merchant_scope env = Ok m.
Proof.
  unfold command_route, service_route, mbind, stx_bind, lift, connected. destruct (select_payment_provider env); [|done].
  destruct (get_merchant_scope env) as [m0|]; [|done]. destruct (connect _); [|done]. by intros [= ->].
Qed.
Lemma lift_run {A} (m : result A) (s : request_state T) a s' : lift m s = (Ok a, s') -> s' = s /\ m = Ok a.
Proof. by intros [= -> <-]. Qed.
Lemma validate_same r q : validate_operator_command r = Ok q -> q = r.
Proof. unfold validate_operator_command. intros (? & _ & (? & _ & (? & _ & [= <-])%bind_Ok)%bind_Ok)%bind_Ok. done. Qed.
Lemma bind_ret_inv {A B} (m : stx (request_state T) A) (k : A -> B) s r s' : (a ← m; mret (k a)) s = (r, s') ->
  exists r0, m s = (r0, s') /\ match r0 with Ok a => r = Ok (k a) | Err e => r = Err e end /\ is_ok r = is_ok r0.
Proof. unfold mbind, stx_bind. destruct (m s) as [[a|e] s1]; intros [= <- <-]; eauto. Qed.
Lemma reads_now : reads (T := T) (now_read clock).
Proof. apply reads_session. keeps. Qed.
Lemma reads_get_case m c : reads (T := T) (on_session (service_get_case m c)).
Proof. apply reads_session, keeps_get_case. Qed.
Lemma reads_current agg id : reads (T := T) (current_action agg id).
Proof.
  unfold current_action. destruct (agg_latest_action agg); [|apply reads_raise].
  apply reads_bind; [apply reads_lift|]. intros u. apply reads_ret.
Qed.
Lemma current_action_id agg id (s : request_state T) a s' : current_action agg id s = (Ok a, s') -> id = Some (act_id a).
Proof.
  unfold current_action. destruct (agg_latest_action agg) as [b|]; [|done]. unfold mbind, stx_bind, guard_, lift.
  case_bool_decide as E; [|done]. cbn. by intros [= <- _].
Qed.

Lemma stop_atomic m c reason now : atomic (stop_case new_id utc_now clock m c reason now).
Proof. apply (command_atomic new_id utc_now clock (Stop reason)). Qed.
Lemma escalate_atomic m c reason now : atomic (escalate_case new_id utc_now clock m c reason now).
Proof. apply (command_atomic new_id utc_now clock (Escalate reason)). Qed.

(** The operation of a command, over a session with nothing pending. *)
Lemma operation_settled request m case_id t (s : request_state T) r s' : ses_committed (rq_session s) = ses_db (rq_session s) ->
  (match ocr_command request with
   | OperatorCommand.APPROVE =>
       aggregate ← on_session (service_get_case m case_id);
       action ← current_action aggregate (ocr_action_id request);
       _ ← on_session (approve_action new_id utc_now clock m case_id (act_id action) (Some t));
       _ ← on_temporal (commander_approval case_id (act_id action) true None);
       mret "Recovery action approved."
   | OperatorCommand.REJECT =>
       aggregate ← on_session (service_get_case m case_id);
       action ← current_action aggregate (ocr_action_id request);
       _ ← on_session (reject_action new_id utc_now clock m case_id (act_id action) "Rejected by the merchant operator." (Some t));
       _ ← on_temporal (commander_approval case_id (act_id action) false (Some "Rejected by the merchant operator."));
       mret "Recovery action rejected."
   | OperatorCommand.STOP =>
       _ ← on_session (stop_case new_id utc_now clock m case_id "Stopped by the merchant operator." (Some t));
       _ ← on_temporal (commander_stop case_id "Stopped by the merchant operator.");
       mret "Recovery case stopped."
   | OperatorCommand.ESCALATE_TO_HUMAN =>
       _ ← on_session (escalate_case new_id utc_now clock m case_id "Escalated by the merchant operator." (Some t));
       _ ← on_temporal (commander_escalate case_id "Escalated by the merchant operator.");
       mret "Recovery case escalated to human review."
   end) s = (r, s') ->
  refused s s' r \/ (settled request m case_id (ses_db (rq_session s)) (ses_committed (rq_session s')) /\
    handed case_id (command_signal request case_id) (rq_temporal s) (rq_temporal s') r).
Proof.
  intros Hs. unfold settled, command_signal. destruct (ocr_command request).
  1,2: intros [?|(agg & s1 & _ & Hr & E1 & E2 & E3)]%(after_reads _ _ _ _ _ (reads_get_case _ _)); [by left|];
    apply (after_reads _ _ _ _ _ (reads_current _ _)) in Hr as [Hr|(a & s2 & Ha%current_action_id & Hr & F1 & F2 & F3)];
    [left; by apply (refused_after s s1)|]; rewrite Ha; cbn [default].
  - apply committed_then_delivered in Hr as [Hr|(b & x & Hop & <- & Hh)]; [| |apply approve_atomic].
    { left. apply (refused_after s s2); [congruence..|done]. }
    right. rewrite F3, E3 in Hh. split; [|done]. apply approve_Ok in Hop as (a0 & Hrow & Hst & -> & Hrep).
    rewrite F1, E1 in *. exists a0, (a0 <| act_status := ActionStatus.SCHEDULED |> <| act_completed_at := None |>).
    split; [done|]. split; [rewrite Hst; left|]. apply row_where_Some in Hrow as [_ Hb]. by bools.
  - apply committed_then_delivered in Hr as [Hr|(b & x & Hop & <- & Hh)]; [| |apply reject_atomic].
    { left. apply (refused_after s s2); [congruence..|done]. }
    right. rewrite F3, E3 in Hh. split; [|done]. apply reject_Ok in Hop as (a0 & Hrow & Hcase).
    rewrite F1, E1 in *. pose proof Hrow as [Hin [Hid%bool_decide_eq_true _]%andb_true_iff]%row_where_Some.
    destruct Hcase as [(Hst & _ & Hx)|(Hst & [t0 ->] & Hrep)].
    + right. rewrite Hx. split; [congruence|]. by exists a0.
    + left. eexists a0, (a0 <| act_status := ActionStatus.CANCELLED |> <| act_completed_at := Some t0 |>). by split_and!.
  - intros [?|(b & x & Hop & <- & Hh)]%committed_then_delivered; [by left| |apply stop_atomic].
    right. split; [|done]. apply stop_Ok in Hop. by eapply case_settled_intro.
  - intros [?|(b & x & Hop & <- & Hh)]%committed_then_delivered; [by left| |apply escalate_atomic].
    right. split; [|done]. apply escalate_Ok in Hop. by eapply case_settled_intro.
Qed.

Lemma command_run c case_id request (s : request_state T) r s' : ses_committed (rq_session s) = ses_db (rq_session s) ->
  command c case_id request s = (r, s') ->
  refused s s' r \/ guard_of c = Ok tt /\ exists m, get_merchant_scope env = Ok m /\
    settled request m case_id (ses_db (rq_session s)) (ses_committed (rq_session s')) /\
    handed case_id (command_signal request case_id) (rq_temporal s) (rq_temporal s') r.
Proof.
  intros Hs E. unfold execute_operator_command, guarded in E.
  apply after_reads in E as [|(u & s1 & [-> Hg]%lift_run & E & _)]; [by left| |apply reads_lift].
  apply after_reads in E as [|(m & s2 & Hm & E & E1 & E2 & E3)]; [by left| |apply reads_command_route].
  apply after_reads in E as [?|(q & s3 & [-> Hq]%lift_run & E & _)]; [left; by apply (refused_after s s2)| |apply reads_lift].
  apply validate_same in Hq as ->. unfold operator_command_body in E.
  apply after_reads in E as [?|(t & s4 & _ & E & F1 & F2 & F3)]; [left; by apply (refused_after s s2)| |apply reads_now].
  apply bind_ret_inv in E as (r1 & E & Hr1 & Hok). apply operation_settled in E as [(? & Hx & Hy)|[Hset Hh]];
    [| |by rewrite F1, F2, E1, E2].
  - left. split; [congruence|]. by rewrite Hx, Hy, F2, F3, E2, E3.
  - right. destruct u. split; [done|]. exists m. split; [by apply command_route_scope in Hm|].
    rewrite F1, E1 in Hset. split; [exact Hset|]. rewrite F3, E3 in Hh. destruct Hh as (? & ? & ?). split; [done|]. split; [done|].
    destruct r, r1; try done. by injection Hr1 as ->.
Qed.

Lemma serve_run {A} (m : stx (request_state T) A) (w : api_world T) r w' : serve m w = (r, w') ->
  exists s', m {| rq_session := {| ses_db := aw_db w; ses_committed := aw_db w; ses_reads := aw_reads w; ses_local := tt |};
                  rq_temporal := aw_temporal w |} = (r, s') /\
    aw_db w' = ses_committed (rq_session s') /\ aw_temporal w' = rq_temporal s'.
Proof. unfold serve. destruct (m _) as [r0 s']. intros [= -> <-]. by exists s'. Qed.

(** C23: an operator command takes effect in one order: either it is refused, and nothing was
    committed and nothing reached Temporal; or the guard let it pass, its state change is
    committed (the named action scheduled or cancelled, the open case stopped or escalated, or
    the same outcome found as it was), and only then its signal went to the workflow of the
    case, whole, once at most, under an identifier made of the command and its object.  The
    only error after the commit is that the workflow was unavailable. *)
Theorem command_committed_then_delivered c case_id request (w : api_world T) r w' :
  serve (command c case_id request) w = (r, w') ->
  (is_ok r = false /\ aw_db w' = aw_db w /\ aw_temporal w' = aw_temporal w) \/
  (guard_of c = Ok tt /\ exists merchant_id, get_merchant_scope env = Ok merchant_id /\
     settled request merchant_id case_id (aw_db w) (aw_db w') /\
     handed case_id (command_signal request case_id) (aw_temporal w) (aw_temporal w') r).
Proof.
  intros (s' & E & -> & ->)%serve_run. apply command_run in E as [(? & ? & ?)|?]; [by left|by right|done].
Qed.

(** ** A delivery that failed *)

Definition approval (id : string) : OperatorCommandRequest :=
  {| ocr_command := OperatorCommand.APPROVE; ocr_action_id := Some id |}.

(** An approved action is not approved again. *)
Lemma replaced_row a d d' case_id b : action_replaced a d d' ->
  row_where (fun a' => eqs (act_id a') (act_id a) && eqs (act_case_id a') case_id) (db_actions d') = Some b -> b = a.
Proof.
  intros [_ [evs ->]] [Hin [Hid%bool_decide_eq_true _]%andb_true_iff]%row_where_Some.
  change (db_actions (_ <| db_events := evs |>)) with (store_row act_id a (db_actions d)) in Hin.
  apply elem_of_store_row in Hin as [|[_ ?]]; [done|congruence].
Qed.

(** An approval of an action that is not awaiting one is refused. *)
Lemma approve_refused m case_id id now a d (x : session unit) r x' : action_replaced a d (ses_db x) -> act_id a = id ->
  act_status a <> ActionStatus.AWAITING_APPROVAL ->
  approve_action new_id utc_now clock m case_id id now x = (r, x') -> is_ok r = false.
Proof.
  intros Hrep <- Hst E. destruct r as [b|]; [|done]. apply approve_Ok in E as (a0 & Hrow & Ha0 & _).
  by apply (replaced_row _ _ _ _ _ Hrep) in Hrow as ->.
Qed.

Abbreviation approval_route := (approve_recovery_action env hmac_sha256 json_loads_text connect new_id utc_now clock).

Lemma route_refused c case_id id a d (s : request_state T) r s' : action_replaced a d (ses_db (rq_session s)) -> act_id a = id ->
  act_status a <> ActionStatus.AWAITING_APPROVAL -> approval_route c case_id id s = (r, s') -> refused s s' r.
Proof.
  intros Hrep Hid Hst E. unfold approve_recovery_action, guarded in E.
  apply after_reads in E as [|(u & s1 & [-> _]%lift_run & E & _)]; [done| |apply reads_lift].
  apply after_reads in E as [|(m & s2 & _ & E & E1 & E2 & E3)]; [done| |apply reads_command_route].
  apply after_reads in E as [|(b & s3 & _ & E & F1 & F2 & F3)]; [by apply (refused_after s s2)| |].
  2: { apply reads_session. unfold get_action_for_command, found_or_404. keeps. }
  apply committed_then_delivered in E as [|(b' & x & Hop & _)]; [apply (refused_after s s3); [congruence..|done]| |apply approve_atomic].
  rewrite <- E1, <- F1 in Hrep. by pose proof (approve_refused _ _ _ _ _ _ _ _ _ Hrep Hid Hst Hop).
Qed.


(** What the first steps of a command ask for. *)
Lemma command_admitted c case_id request (s : request_state T) r s' : command c case_id request s = (r, s') ->
  refused s s' r \/ (is_ok (select_payment_provider env) = true /\ validate_operator_command request = Ok request).
Proof.
  intros E. unfold execute_operator_command, guarded in E.
  apply after_reads in E as [|(u & s1 & [-> _]%lift_run & E & _)]; [by left| |apply reads_lift].
  apply after_reads in E as [|(m & s2 & Hm & E & E1 & E2 & E3)]; [by left| |apply reads_command_route].
  apply after_reads in E as [?|(q & s3 & [-> Hq]%lift_run & E & _)]; [left; by apply (refused_after s s2)| |apply reads_lift].
  right. pose proof (validate_same _ _ Hq) as ->. split; [|done].
  unfold command_route, service_route, mbind, stx_bind, lift in Hm. by destruct (select_payment_provider env).
Qed.

Lemma command_route_runs m (s : request_state T) : is_ok (select_payment_provider env) = true -> get_merchant_scope env = Ok m ->
  connect (rq_temporal s) = Ok tt -> command_route env connect s = (Ok m, s).
Proof.
  unfold command_route, service_route, mbind, stx_bind, lift, connected. destruct (select_payment_provider env); [|done].
  intros _ -> ->. done.
Qed.
(** A command on a case that has its outcome already delivers, and changes no row. *)
Definition delivered_as {A} case_id sig (s s' : request_state T) (r : result A) : Prop :=
  let '(d, t) := deliver case_id sig (rq_temporal s) in
  rq_session s' = rq_session s /\ rq_temporal s' = t /\ is_ok r = is_ok d /\ (forall e, r = Err e -> e = command_unavailable).
Lemma settled_command cmd m case_id c0 t sig message (s : request_state T) outcome r s' :
  cmd = Stop "Stopped by the merchant operator." \/ cmd = Escalate "Escalated by the merchant operator." ->
  command_outcome cmd = Some outcome -> consistent (ses_db (rq_session s)) ->
  owned_case m case_id (ses_db (rq_session s)) = Some c0 -> rc_case_outcome c0 = outcome ->
  (_ ← on_session (run_command new_id utc_now clock cmd m case_id (Some t));
   _ ← on_temporal (deliver case_id sig); mret (message : string)) s = (r, s') ->
  delivered_as case_id sig s s' r.
Proof.
  intros Hcmd Hout Hc Ho Hst. assert (on_session (run_command new_id utc_now clock cmd m case_id (Some t)) s = (Ok c0, s)) as Hop.
  { unfold on_session. pose proof (locked_intro _ _ _ _ Hc Ho) as Hl.
    destruct Hcmd as [->| ->]; injection Hout as <-; cbn [run_command]; [unfold stop_case|unfold escalate_case];
      rewrite (stx_bind_intro _ _ _ _ _ Hl), bool_decide_eq_true_2 by done; by destruct s. }
  rewrite (stx_bind_intro _ _ _ _ _ Hop). unfold mbind, stx_bind, on_temporal, delivered_as.
  destruct (deliver case_id sig (rq_temporal s)) as [[w|e] x] eqn:Ed; pose proof (deliver_effect _ _ _ _ _ Ed) as [_ He];
    intros [= <- <-]; repeat (split; [done|]); [done|]. intros e' [= <-]. by destruct He.
Qed.

Definition settled_case (request : OperatorCommandRequest) (c : RecoveryCase) : Prop :=
  rc_case_outcome c = match ocr_command request with OperatorCommand.STOP => CaseOutcome.STOPPED | _ => CaseOutcome.ESCALATED end.

End commands.

(** ** An approval that Temporal refused *)

Definition mock_env (name : string) : option string :=
  if bool_decide (name = "RECOVERY_MERCHANT_ID") then Some "m1" else None.
Definition approval_db : Db :=
  demo_open_db
    <| db_actions ::= map (fun a => a <| act_status := ActionStatus.AWAITING_APPROVAL |>) |>
    <| db_subscriptions := [{| sub_id := "sub_1"; sub_merchant_id := "m1"; sub_customer_id := "cus_1";
         sub_provider_subscription_id := "s"; sub_plan_name := "Plan"; sub_amount_paise := 500; sub_currency := "INR";
         sub_subscription_state := SubscriptionState.HALTED; sub_current_billing_cycle_key := None |}] |>.
Definition no_credentials : credentials :=
  {| crd_operator_token := None; crd_csrf_token := None; crd_session := None; crd_now := 0 |}.
Definition api_server (d : Db) (failures : list (option client_failure)) : api_world temporal_server :=
  {| aw_db := d; aw_reads := 0; aw_temporal := server [recovery_workflow_id "case_b"] failures |}.
Abbreviation no_hmac := (fun _ _ : string => "").
Abbreviation no_loads := (fun _ : string => Err (ValueError "json") : result json).
Definition fresh_ids (n : nat) : string := "id" +++ pretty (N.of_nat n).
Abbreviation always := (fun _ : temporal_server => Ok tt : result unit).
Abbreviation sample_command :=
  (execute_operator_command mock_env no_hmac no_loads always fresh_ids Z.of_nat Z.of_nat no_credentials "case_b").
Definition unreachable : client_failure := ClientError (RuntimeError "unreachable").

Definition approved_run : result OperatorCommandResponse * api_world temporal_server := Eval vm_compute in
  serve (sample_command (approval "act_1")) (api_server approval_db []).
Definition failed_run : result OperatorCommandResponse * api_world temporal_server := Eval vm_compute in
  serve (sample_command (approval "act_1")) (api_server approval_db [Some unreachable]).
Lemma approved_run_eq : serve (sample_command (approval "act_1")) (api_server approval_db []) = approved_run.
Proof. vm_compute. reflexivity. Qed.
Lemma failed_run_eq : serve (sample_command (approval "act_1")) (api_server approval_db [Some unreachable]) = failed_run.
Proof. vm_compute. reflexivity. Qed.

Lemma command_committed_then_delivered_witness :
  is_ok approved_run.1 = true /\
  accepted (aw_temporal approved_run.2) = [(recovery_workflow_id "case_b", approval_signal "act_1" true None)] /\
  settled (approval "act_1") "m1" "case_b" approval_db (aw_db approved_run.2).
Proof.
  destruct (command_committed_then_delivered mock_env no_hmac no_loads always fresh_ids Z.of_nat Z.of_nat no_credentials
    "case_b" (approval "act_1") (api_server approval_db []) approved_run.1 approved_run.2)
    as [(Hf & _)|(_ & m & [= <-] & Hs & _)]; [exact approved_run_eq|discriminate|].
  split; [reflexivity|]. split; [reflexivity|exact Hs].
Defined.


Definition stop_request : OperatorCommandRequest := {| ocr_command := OperatorCommand.STOP; ocr_action_id := None |}.
Definition stopped_run : result OperatorCommandResponse * api_world temporal_server := Eval vm_compute in
  serve (sample_command stop_request) (api_server approval_db [Some unreachable]).
Definition restopped_run : result OperatorCommandResponse * api_world temporal_server := Eval vm_compute in
  serve (sample_command stop_request) (api_server (aw_db stopped_run.2) []).
Lemma stopped_run_eq : serve (sample_command stop_request) (api_server approval_db [Some unreachable]) = stopped_run.
Proof. vm_compute. reflexivity. Qed.
Lemma restopped_run_eq : serve (sample_command stop_request) (api_server (aw_db stopped_run.2) []) = restopped_run.
Proof. vm_compute. reflexivity. Qed.

