(* ===== verification/SettingsFacts.v ===== *)
(** * The policy settings of a merchant

    What a change of the settings through the API stores, that the engine can use what the
    API accepted, and who may change them. *)
From S2P Require Import Prelude Domain Json Contracts Workflow Commands QuietHours Safety Decision Entities Session Cursor CaseRepo Cases CasesFacts OperatorAuth RuntimeMode ApiSchemas OperatorApi OperatorApiFacts.

(** ** Quiet hours as text *)

Definition digit_value (c : ascii) : Z := Z.of_N (N_of_ascii c) - 48.
(** The time of day an accepted text denotes. *)
Definition clock_time (s : string) : Z :=
  match s with
  | String a (String b (String _ (String c (String d _)))) =>
      (10 * digit_value a + digit_value b) * hour + (10 * digit_value c + digit_value d) * minute
  | _ => 0
  end.

Lemma between_value lo hi c : between lo hi c = true -> Z.of_N lo - 48 <= digit_value c <= Z.of_N hi - 48.
Proof. unfold between, digit_value. intros [?%N.leb_le ?%N.leb_le]%andb_true_iff. lia. Qed.
Lemma digit_value_inj a b : digit_value a = digit_value b -> a = b.
Proof.
  unfold digit_value. intros E. rewrite <- (ascii_N_embedding a), <- (ascii_N_embedding b). f_equal. lia.
Qed.
Lemma quiet_hour_digits s : quiet_hour_text s = true -> exists a b c d,
  s = String a (String b (String ":" (String c (String d EmptyString)))) /\
  0 <= digit_value a <= 2 /\ 0 <= digit_value b <= 9 /\ 10 * digit_value a + digit_value b <= 23 /\
  0 <= digit_value c <= 5 /\ 0 <= digit_value d <= 9.
Proof.
  unfold quiet_hour_text. destruct s as [|a [|b [|[[] [] [] [] [] [] [] []] [|c [|d [|]]]]]]; try done.
  intros [[Hab Hc%between_value]%andb_true_iff Hd%between_value]%andb_true_iff.
  exists a, b, c, d. split; [done|]. apply orb_true_iff in Hab as [[Ha%between_value Hb%between_value]%andb_true_iff
    |[Ha%Ascii.eqb_eq Hb%between_value]%andb_true_iff]; cbn in *; [lia|]. subst a. change (digit_value "2") with 2. lia.
Qed.
Lemma clock_time_range s : quiet_hour_text s = true -> 0 <= clock_time s < day.
Proof.
  intros (a & b & c & d & -> & ? & ? & ? & ? & ?)%quiet_hour_digits. unfold clock_time, day, hour, minute, second. nia.
Qed.
Lemma clock_time_inj s s' : quiet_hour_text s = true -> quiet_hour_text s' = true -> clock_time s = clock_time s' -> s = s'.
Proof.
  intros (a & b & c & d & -> & ? & ? & ? & ? & ?)%quiet_hour_digits (a' & b' & c' & d' & -> & ? & ? & ? & ? & ?)%quiet_hour_digits.
  unfold clock_time, hour, minute, second. intros E.
  assert (digit_value a = digit_value a' /\ digit_value b = digit_value b' /\ digit_value c = digit_value c' /\
          digit_value d = digit_value d') as (->%digit_value_inj & ->%digit_value_inj & ->%digit_value_inj & ->%digit_value_inj)
    by lia. done.
Qed.

Section settings.
Context {T : Type} `{TemporalClient T}.
Context (env : string -> option string) (hmac_sha256 : string -> string -> string)
        (json_loads_text : string -> result json) (tzdb : string -> option ZoneInfo).
Abbreviation update := (update_policy_settings (T := T) env hmac_sha256 json_loads_text tzdb).

Lemma validate_settings_Ok u v : validate_policy_settings tzdb u = Ok v -> v = u /\
  (forall s, psu_quiet_hours_start u = Some s \/ psu_quiet_hours_end u = Some s -> quiet_hour_text s = true) /\
  (forall n, psu_max_contacts_per_7_days u = Some n -> 0 < n) /\
  (forall n, psu_require_approval_above_paise u = Some n -> 0 <= n) /\ is_Some (tzdb (psu_timezone u)) /\
  (psu_quiet_hours_start u = None <-> psu_quiet_hours_end u = None) /\
  (is_Some (psu_quiet_hours_start u) -> psu_quiet_hours_start u <> psu_quiet_hours_end u).
Proof.
  unfold validate_policy_settings.
  intros (? & _ & (? & Hq%raise_if_Ok & (? & Hc%raise_if_Ok & (? & Ha%raise_if_Ok & (z & Hz & (? & He%raise_if_Ok &
    (? & Hne%raise_if_Ok & [= <-])%bind_Ok)%bind_Ok)%bind_Ok)%bind_Ok)%bind_Ok)%bind_Ok)%bind_Ok.
  split; [done|]. apply orb_false_iff in Hq as [H1%negb_false_iff H2%negb_false_iff]. split.
  { intros s [E|E]; [by rewrite E in H1|by rewrite E in H2]. }
  split; [intros n E; rewrite E in Hc; by apply Z.leb_gt in Hc|].
  split; [intros n E; rewrite E in Ha; by apply Z.ltb_ge in Ha|].
  split; [by destruct (tzdb _)|]. apply negb_false_iff, Bool.eqb_prop in He. split.
  - by rewrite !bool_decide_decide in He; do 2 destruct (decide _).
  - intros Hs E. by rewrite !bool_decide_eq_true_2 in Hne.
Qed.

(** The settings of the merchant, as [case_policy_config] reads them. *)
Definition settings_of (m : string) (d : Db) : option (Merchant * MerchantPolicySetting) :=
  merchant ← row_where (fun r => eqs (mer_id r) m) (db_merchants d);
  settings ← row_where (fun r => eqs (mps_merchant_id r) m) (db_policy_settings d);
  Some (merchant, settings).

Lemma merchant_and_settings_Ok m (s : session unit) merchant settings s' :
  merchant_and_settings m s = (Ok (merchant, settings), s') -> s' = s /\ settings_of m (ses_db s) = Some (merchant, settings).
Proof.
  unfold merchant_and_settings, get_merchant_policy_settings. intros (o & s1 & E & E2)%stx_bind_Ok.
  apply found_404_Ok in E2 as [-> ->].
  apply stx_bind_Ok in E as (o1 & s2 & (-> & -> & _)%query_Ok & E).
  apply stx_bind_Ok in E as (o2 & s3 & (-> & -> & _)%query_Ok & [E ->]%ret_Ok). by split.
Qed.

Lemma actions_read_back l : map_result RecoveryActionType_of (map RecoveryActionType_value l) = Ok l.
Proof. induction l as [|a l IH]; [done|]. cbn [map map_result]. by rewrite RecoveryActionType_roundtrip; cbn; rewrite IH. Qed.
Lemma on_session_Ok {A} (m : M A) (s : request_state T) a s' : on_session m s = (Ok a, s') ->
  m (rq_session s) = (Ok a, rq_session s') /\ rq_temporal s' = rq_temporal s.
Proof. unfold on_session. destruct (m _) as [r x]. by intros [= -> <-]. Qed.
Lemma response_Ok merchant u settings p :
  policy_settings_response tzdb (merchant <| mer_timezone := psu_timezone u |>) (assign_settings u settings) = Ok p ->
  psp_settings p = u /\ psp_version p = Z.succ (mps_version settings).
Proof.
  unfold policy_settings_response, assign_settings. cbn. rewrite actions_read_back. destruct u. cbn.
  intros (v & [-> _]%validate_settings_Ok & (? & _ & [= <-])%bind_Ok)%bind_Ok. done.
Qed.
Lemma settings_stored m merchant settings u d : settings_of m d = Some (merchant, settings) ->
  settings_of m (d <| db_merchants ::= store_row mer_id (merchant <| mer_timezone := psu_timezone u |>) |>
                   <| db_policy_settings ::= store_row mps_merchant_id (assign_settings u settings) |>)
  = Some (merchant <| mer_timezone := psu_timezone u |>, assign_settings u settings).
Proof.
  intros (a & Ea & (b & Eb & [= -> ->])%bind_Some)%bind_Some.
  pose proof Ea as [_ Hp]%row_where_Some. pose proof Eb as [_ Hq]%row_where_Some.
  apply bind_Some. eexists. split; [by apply (row_where_store mer_id _ _ _ _ Ea)|].
  apply bind_Some. eexists. by split; [apply (row_where_store mps_merchant_id _ _ _ _ Eb)|].
Qed.

Lemma merchant_and_settings_runs m (s : session unit) d merchant settings : ses_db s = d -> consistent d ->
  settings_of m d = Some (merchant, settings) -> merchant_and_settings m s = (Ok (merchant, settings), s).
Proof.
  intros <- Hc (a & Ea & (b & Eb & [= -> ->])%bind_Some)%bind_Some.
  unfold merchant_and_settings, get_merchant_policy_settings, query, flush. stx_unfold.
  by rewrite Hc, Ea, Hc, Eb.
Qed.
Lemma response_runs merchant u settings : validate_policy_settings tzdb u = Ok u -> 0 <= mps_version settings ->
  exists p, policy_settings_response tzdb (merchant <| mer_timezone := psu_timezone u |>) (assign_settings u settings) = Ok p.
Proof.
  intros Hu Hv. unfold policy_settings_response, assign_settings. cbn. rewrite actions_read_back. destruct u. cbn in *.
  rewrite Hu. cbn. rewrite (proj2 (Z.ltb_ge _ _)) by lia. by eexists.
Qed.

Lemma commit_runs (s : session unit) d : ses_db s = d -> consistent d -> commit s = (Ok tt, s <| ses_committed := d |>).
Proof. intros <- Hc. unfold commit, flush. stx_unfold. by rewrite Hc. Qed.

(** A change that succeeded. *)
Lemma update_Ok c u (s : request_state T) p s' : update c u s = (Ok p, s') ->
  require_operator env hmac_sha256 json_loads_text (crd_operator_token c) (crd_csrf_token c) (crd_session c) (crd_now c) = Ok tt /\
  validate_policy_settings tzdb u = Ok u /\
  exists m merchant settings, get_merchant_scope env = Ok m /\
    settings_of m (ses_db (rq_session s)) = Some (merchant, settings) /\
    settings_of m (ses_committed (rq_session s')) = Some (merchant <| mer_timezone := psu_timezone u |>, assign_settings u settings) /\
    psp_settings p = u /\ psp_version p = Z.succ (mps_version settings) /\
    rq_temporal s' = rq_temporal s.
Proof.
  unfold update_policy_settings, guarded. intros ([] & s1 & [-> Hg]%lift_run & E)%stx_bind_Ok. split; [done|].
  apply stx_bind_Ok in E as (m & s1 & [-> Hm]%lift_run & E).
  apply stx_bind_Ok in E as (u' & s1 & [-> Hu]%lift_run & E). pose proof (validate_settings_Ok _ _ Hu) as [-> _]. split; [done|].
  apply stx_bind_Ok in E as ([merchant settings] & s1 & [Es Et]%on_session_Ok & E).
  apply merchant_and_settings_Ok in Es as [Es Hset]. cbv zeta in E.
  apply stx_bind_Ok in E as (v & s2 & [Ew%write_Ok Et2]%on_session_Ok & E).
  apply stx_bind_Ok in E as (v2 & s3 & [[Ec _]%commit_Ok Et3]%on_session_Ok & [-> Hp]%lift_run).
  apply response_Ok in Hp as [Hps Hpv]. exists m, merchant, settings. split; [done|]. split; [done|].
  split; [|by rewrite Et3, Et2, Et]. rewrite Ec, Ew, Es.
  exact (settings_stored _ _ _ _ _ Hset).
Qed.
(** [time.fromisoformat] on the texts the API accepts. *)
Context (time_fromisoformat : string -> result Z).
Context (time_parses : forall s, quiet_hour_text s = true -> time_fromisoformat s = Ok (clock_time s)).

Lemma optional_time_parses o : (forall s, o = Some s -> quiet_hour_text s = true) ->
  optional_time_of time_fromisoformat o = Ok (clock_time <$> o).
Proof.
  unfold optional_time_of. intros Ho. destruct o as [s|]; [|done].
  assert (truthy (Some s) = true) as ->. { destruct s; [|done]. by specialize (Ho _ eq_refl). }
  cbn. by rewrite time_parses; [|apply Ho].
Qed.

Lemma accepted_config kill merchant settings u : validate_policy_settings tzdb u = Ok u ->
  case_policy_config time_fromisoformat tzdb kill (merchant <| mer_timezone := psu_timezone u |>) (assign_settings u settings) = Ok {|
    merchant_timezone := psu_timezone u; quiet_hours_start := clock_time <$> psu_quiet_hours_start u;
    quiet_hours_end := clock_time <$> psu_quiet_hours_end u;
    max_contacts_per_window := psu_max_contacts_per_7_days u; manual_approval_actions := psu_require_approval_actions u;
    manual_approval_above_paise := psu_require_approval_above_paise u; global_kill_switch := kill;
    merchant_kill_switch := psu_recovery_kill_switch u;
    gateway_retry_delay := gateway_retry_delay default_safety_config; policy_version := policy_version default_safety_config |}.
Proof.
  intros (_ & Hq & Hc & Ha & [z Hz] & Hboth & Hne)%validate_settings_Ok.
  unfold case_policy_config, assign_settings. cbn.
  rewrite !optional_time_parses by (intros s E; apply Hq; auto). cbn. rewrite actions_read_back. cbn.
  unfold safety_config_post_init. cbn. rewrite Hz. cbn.
  destruct (psu_max_contacts_per_7_days u) as [n|]; cbn; [rewrite (proj2 (Z.ltb_ge n 1)) by (specialize (Hc n eq_refl); lia)|].
  all: destruct (psu_require_approval_above_paise u) as [k|]; cbn; [rewrite (proj2 (Z.ltb_ge k 0)) by (by apply Ha)|].
  all: destruct (psu_quiet_hours_start u) as [a|]; destruct (psu_quiet_hours_end u) as [b|]; cbn; try (by destruct Hboth; intuition congruence).
  all: rewrite bool_decide_eq_false_2; [done|]; intros [= E%clock_time_inj]; [|apply Hq; auto..]; apply Hne; [done|by f_equal].
Qed.

End settings.

Lemma hosted_provider_unset env : mem (app_environment env) ["production"; "staging"] = true -> env "PAYMENT_PROVIDER" = None ->
  payment_provider_mode env = "".
Proof.
  intros Hh Hp. unfold payment_provider_mode. assert (setting env "PAYMENT_PROVIDER" "" = "") as ->.
  { unfold setting, getenv. by rewrite Hp. }
  apply mem_true in Hh. rewrite !elem_of_cons, elem_of_nil in Hh. by destruct Hh as [E|[E|[]]]; rewrite E.
Qed.

(** the guard of the settings and the choice of the provider read an unset
    [PAYMENT_PROVIDER] differently.  In a staging or production environment that names no
    provider the choice is an error, so no provider is ever used; the guard takes the provider
    for the mock one and asks for no credentials, so whoever sends the request changes the
    settings of the merchant, the kill switch included. *)
Theorem hosted_settings_unguarded {T} `{TemporalClient T} env hmac_sha256 json_loads_text tzdb :
  mem (app_environment env) ["production"; "staging"] = true -> env "PAYMENT_PROVIDER" = None ->
  is_on (setting env "RECOVERY_ALLOW_REAL_PAYMENT_ACTIONS" "false") = false ->
  is_on (setting env "OPERATOR_AUTH_REQUIRED" "false") = false ->
  is_ok (select_payment_provider env) = false /\
  forall c c' u (w : api_world T),
    serve (update_policy_settings env hmac_sha256 json_loads_text tzdb c u) w
    = serve (update_policy_settings env hmac_sha256 json_loads_text tzdb c' u) w /\
    forall m merchant settings, get_merchant_scope env = Ok m -> settings_of m (aw_db w) = Some (merchant, settings) ->
      validate_policy_settings tzdb u = Ok u -> 0 <= mps_version settings -> consistent (aw_db w) ->
      let changed := aw_db w <| db_merchants ::= store_row mer_id (merchant <| mer_timezone := psu_timezone u |>) |>
                             <| db_policy_settings ::= store_row mps_merchant_id (assign_settings u settings) |> in
      consistent changed ->
      exists p w', serve (update_policy_settings env hmac_sha256 json_loads_text tzdb c u) w = (Ok p, w') /\ aw_db w' = changed.
Proof.
  intros He Hp Hr Ho. assert (authorization_required env = false) as Hauth.
  { unfold authorization_required. change (env_enabled env) with (fun name fallback => is_on (setting env name fallback)).
    cbv beta. rewrite Hr, Ho. unfold getenv. by rewrite Hp. }
  assert (forall c, guarded (T := T) env hmac_sha256 json_loads_text c = mret tt) as Hg.
  { intros c. unfold guarded, require_operator. by rewrite Hauth. }
  split.
  { unfold select_payment_provider. rewrite (hosted_provider_unset _ He Hp). done. }
  intros c c' u w. split; [unfold update_policy_settings; by rewrite !Hg|].
  intros m merchant settings Hm Hset Hu Hv Hc changed Hch. unfold serve, update_policy_settings. rewrite Hg.
  erewrite stx_bind_intro by reflexivity. erewrite stx_bind_intro by (unfold lift; by rewrite Hm).
  erewrite stx_bind_intro by (unfold lift; by rewrite Hu).
  erewrite stx_bind_intro by
    (unfold on_session; rewrite (merchant_and_settings_runs m _ (aw_db w) merchant settings); [reflexivity..|exact Hc|exact Hset]).
  cbv beta iota zeta. erewrite stx_bind_intro by reflexivity.
  erewrite stx_bind_intro by
    (unfold on_session; rewrite (commit_runs _ changed); [reflexivity..|exact Hch]).
  destruct (response_runs tzdb merchant u settings Hu Hv) as [p Hresp]. unfold lift. rewrite Hresp.
  eexists p, _. split; reflexivity.
Qed.

(** ** Settings of a merchant *)

Definition sample_update (kill : bool) : PolicySettingsUpdate := {|
  psu_timezone := "Asia/Kolkata"; psu_quiet_hours_start := Some "21:00"; psu_quiet_hours_end := Some "09:30";
  psu_max_contacts_per_7_days := Some 3; psu_require_approval_above_paise := Some 100000;
  psu_require_approval_actions := [RecoveryActionType.ESCALATE_TO_HUMAN]; psu_recovery_kill_switch := kill |}.
Definition settings_db : Db :=
  empty_db
    <| db_merchants := [{| mer_id := "m1"; mer_external_id := "x"; mer_display_name := "M"; mer_timezone := "UTC";
                           mer_currency := "INR" |}] |>
    <| db_policy_settings := [{| mps_merchant_id := "m1"; mps_quiet_hours_start := None; mps_quiet_hours_end := None;
         mps_max_contacts_per_7_days := None; mps_require_approval_above_paise := None; mps_require_approval_actions := [];
         mps_recovery_kill_switch := true; mps_version := 1 |}] |>.
Definition sample_tzdb (name : string) : option ZoneInfo :=
  if bool_decide (name = "Asia/Kolkata") then Some (fixed_zone (330 * minute)) else None.
Definition settings_world : api_world temporal_server := api_server settings_db [].
Abbreviation sample_settings env :=
  (serve (update_policy_settings env no_hmac no_loads sample_tzdb no_credentials (sample_update false)) settings_world).
Definition settings_run : result PolicySettingsResponse * api_world temporal_server := Eval vm_compute in
  sample_settings mock_env.
Lemma settings_run_eq : sample_settings mock_env = settings_run.
Proof. vm_compute. reflexivity. Qed.
Definition sample_time (s : string) : result Z :=
  if quiet_hour_text s then Ok (clock_time s) else Err (ValueError "isoformat").
Lemma sample_time_parses s : quiet_hour_text s = true -> sample_time s = Ok (clock_time s).
Proof. unfold sample_time. by intros ->. Qed.


(** A production environment that names no provider: anyone turns the kill switch off. *)
Definition unset_env (name : string) : option string :=
  if bool_decide (name = "PAYMENT_PROVIDER") then None else production_env name.
Lemma hosted_settings_unguarded_witness : exists p w',
  sample_settings unset_env = (Ok p, w') /\
  map mps_recovery_kill_switch (db_policy_settings (aw_db settings_world)) = [true] /\
  map mps_recovery_kill_switch (db_policy_settings (aw_db w')) = [false] /\
  is_ok (select_payment_provider unset_env) = false.
Proof.
  destruct (hosted_settings_unguarded unset_env no_hmac no_loads sample_tzdb eq_refl eq_refl eq_refl eq_refl) as [Hsel Hrun].
  destruct (Hrun no_credentials no_credentials (sample_update false) settings_world) as [_ Hok].
  edestruct (Hok "m1") as (p & w' & E & Ew).
  - vm_compute. reflexivity.
  - vm_compute. reflexivity.
  - vm_compute. reflexivity.
  - cbn. lia.
  - vm_compute. reflexivity.
  - vm_compute. reflexivity.
  - exists p, w'. split; [exact E|]. split; [reflexivity|]. split; [rewrite Ew; vm_compute; reflexivity|exact Hsel].
Defined.
