(* ===== verification/VoiceRouter.v ===== *)
(** * The voice routes

    [voice/router.py] and [voice/schemas.py]: who may start a call, read what was said or
    report on a call, and the requests of the voice service the routes make.  A route is a
    coroutine in the unit of work of its request, over any repository and any provider. *)
From S2P Require Import Prelude Procs Domain Json Entities Session CaseRepo QuietHours VoicePorts VoiceSafety VoiceModels VoiceRepository VoiceService OperatorAuth VoiceWebhooks Twilio ApiSchemas.

(** ** Requests and responses *)

(** src/services/api/app/voice/schemas.py:15-18 [StartVoiceContactRequest] *)
Record StartVoiceContactRequest : Type := {
  svr_case_id : string;
  svr_idempotency_key : string;
  svr_max_duration_seconds : Z;
}.
(** src/services/api/app/voice/schemas.py:17-18 [StartVoiceContactRequest] *)
Definition validate_start_request (r : StartVoiceContactRequest) : result StartVoiceContactRequest :=
  _ ← raise_if (negb (length_within 8 200 (svr_idempotency_key r))) (validation_error "idempotency_key length");
  _ ← raise_if (negb ((0 <? svr_max_duration_seconds r) && (svr_max_duration_seconds r <=? 180)))
        (validation_error "max_duration_seconds");
  mret r.

(** src/services/api/app/voice/schemas.py:21-27 [StartVoiceContactResponse] *)
Record StartVoiceContactResponse : Type := {
  svp_attempt_id : string;
  svp_provider : string;
  svp_status : string;
  svp_reason_code : string;
  svp_provider_call_id : option string;
}.

(** src/services/api/app/voice/schemas.py:30-40 [VoiceAttemptResponse] *)
Record VoiceAttemptResponse : Type := {
  var_id : string;
  var_case_id : string;
  var_status : string;
  var_disposition : option string;
  var_transcript : option string;
  var_detected_intent : option string;
  var_confidence_basis_points : option Z;
  var_duration_seconds : option Z;
  var_disclosure_delivered_at : option datetime;
  var_created_at : datetime;
}.
(** src/services/api/app/voice/router.py:344-355 [voice_timeline]: the response of an attempt
    whose confidence and duration are within the bounds of the schema. *)
Definition attempt_response (item : VoiceAttempt) : result VoiceAttemptResponse :=
  let within hi o := match o with Some n => (0 <=? n) && (n <=? hi) | None => true end in
  _ ← raise_if (negb (within 10000 (va_confidence_basis_points item))) (validation_error "confidence_basis_points");
  _ ← raise_if (negb (within 180 (va_duration_seconds item))) (validation_error "duration_seconds");
  mret {| var_id := va_id item; var_case_id := va_case_id item; var_status := va_status item;
          var_disposition := va_disposition item; var_transcript := va_transcript item;
          var_detected_intent := va_detected_intent item;
          var_confidence_basis_points := va_confidence_basis_points item;
          var_duration_seconds := va_duration_seconds item;
          var_disclosure_delivered_at := va_disclosure_delivered_at item; var_created_at := va_created_at item |}.

(** src/services/api/app/voice/schemas.py:47-54 [VoiceContactSetupRequest] *)
Record VoiceContactSetupRequest : Type := {
  vcs_destination_token : string;
  vcs_preferred_language : string;
  vcs_consent_granted : bool;
}.
(** [^[A-Za-z]{2,3}(-[A-Za-z]{2})?$] *)
Definition letter (c : ascii) : bool := between 65 90 c || between 97 122 c.
Definition language_tag (s : string) : bool :=
  let letters lo hi part := all_chars letter part && (lo <=? String.length part)%nat && (String.length part <=? hi)%nat in
  match split_first "-" s with
  | None => letters 2 3 s
  | Some (language, region) => letters 2 3 language && letters 2 2 region
  end%nat.
(** src/services/api/app/voice/schemas.py:48-53 [VoiceContactSetupRequest]: the patterns imply the
    lengths; digits are read as ASCII. *)
Definition validate_setup_request (r : VoiceContactSetupRequest) : result VoiceContactSetupRequest :=
  _ ← raise_if (negb (e164 (vcs_destination_token r))) (validation_error "destination_token");
  _ ← raise_if (negb (language_tag (vcs_preferred_language r))) (validation_error "preferred_language");
  mret r.

(** src/services/api/app/voice/schemas.py:69-71 [BrowserTranscriptRequest] *)
Record BrowserTranscriptRequest : Type := {
  btr_transcript : string;
  btr_confidence_basis_points : Z;
}.
(** src/services/api/app/voice/schemas.py:70-71 [BrowserTranscriptRequest] *)
Definition validate_transcript_request (r : BrowserTranscriptRequest) : result BrowserTranscriptRequest :=
  _ ← raise_if (negb (length_within 1 10000 (btr_transcript r))) (validation_error "transcript length");
  _ ← raise_if (negb ((0 <=? btr_confidence_basis_points r) && (btr_confidence_basis_points r <=? 10000)))
        (validation_error "confidence_basis_points");
  mret r.

(** src/services/api/app/voice/schemas.py:74-78 [BrowserTranscriptResponse] *)
Record BrowserTranscriptResponse : Type := {
  btp_detected_intent : string;
  btp_disposition : string;
  btp_contact_must_end : bool;
  btp_suppression_persisted : bool;
}.

(** src/services/api/app/voice/schemas.py:81-85 [LiveVoiceIntentRequest] *)
Record LiveVoiceIntentRequest : Type := {
  lvr_attempt_id : string;
  lvr_event_id : option string;
  lvr_intent : string;
  lvr_confidence_basis_points : option Z;
}.
(** src/services/api/app/voice/schemas.py:82-85 [LiveVoiceIntentRequest] *)
Definition validate_live_request (r : LiveVoiceIntentRequest) : result LiveVoiceIntentRequest :=
  _ ← raise_if (negb (length_within 8 200 (lvr_attempt_id r))) (validation_error "attempt_id length");
  _ ← raise_if (match lvr_event_id r with Some id => negb (length_within 1 200 id) | None => false end)
        (validation_error "event_id length");
  _ ← raise_if (negb (length_within 1 64 (lvr_intent r))) (validation_error "intent length");
  _ ← raise_if (match lvr_confidence_basis_points r with Some n => negb ((0 <=? n) && (n <=? 10000)) | None => false end)
        (validation_error "confidence_basis_points");
  mret r.

(** src/services/api/app/voice/schemas.py:88-93 [LiveVoiceIntentResponse] *)
Record LiveVoiceIntentResponse : Type := {
  lvp_duplicate : bool;
  lvp_detected_intent : string;
  lvp_contact_must_end : bool;
  lvp_suppression_persisted : bool;
}.

(** ** Credentials *)

(** The credentials of a request, and its moment in seconds. *)
Record voice_credentials : Type := {
  vcd_voice_token : option string;
  vcd_operator_token : option string;
  vcd_csrf_token : option string;
  vcd_session : option string;
  vcd_now : Z;
}.

Section router.
Context {S P : Type} {repository : VoiceRepository S} {provider : VoiceProvider P}.
Context (env : string -> option string) (hmac_sha1 hmac_sha256 : string -> string -> string)
        (json_loads : string -> result json) (repr : json -> string) (round_product : Q -> Z -> Z)
        (tzdb : string -> option ZoneInfo).
(** The registration of a call with ElevenLabs, over the network of the provider. *)
Context (post_registration : json -> stx P registration_answer).
Abbreviation W := (voice_world S P).
Abbreviation coroutine := (proc W).

(** src/services/api/app/voice/factory.py:72-115 [create_voice_service_from_env]: the settings of
    the service; which provider is composed is the type of the world. *)
Definition voice_service_settings : voice_settings := {|
  vst_real_calls_enabled := voice_ready env;
  vst_operator_token := getenv env "VOICE_OPERATOR_TOKEN" "";
  vst_allowlisted_destinations := voice_allowlist env |}.
Abbreviation settings := voice_service_settings.

Definition not_found (code : string) : exn := HTTPException 404 code.

(** src/services/api/app/voice/router.py:99-105 [_real_voice_requested] *)
Definition real_voice_requested : bool :=
  mem (str_lower (str_strip (getenv env "VOICE_REAL_CALLS_ENABLED" "false"))) ["1"; "true"; "yes"; "on"].

(** The voice token of the request is the one of the service. *)
Definition voice_token_matches (c : voice_credentials) : result bool :=
  if bool_decide (vst_operator_token settings = "") then mret false
  else match vcd_voice_token c with
       | Some supplied => compare_digest supplied (vst_operator_token settings)
       | None => mret false
       end.
Definition operator_of (c : voice_credentials) : result unit :=
  require_operator env hmac_sha256 json_loads (vcd_operator_token c) (vcd_csrf_token c) (vcd_session c) (vcd_now c).

(** src/services/api/app/voice/router.py:108-152 [_authorize_voice_start] *)
Definition authorize_voice_start (c : voice_credentials) : result bool :=
  by_voice_token ← (if vst_real_calls_enabled settings then voice_token_matches c else mret false);
  if by_voice_token : bool then mret false
  else if authorization_required env then
    _ ← operator_of c;
    mret (vst_real_calls_enabled settings)
  else
    _ ← raise_if (vst_real_calls_enabled settings)
          (operator_auth_not_configured
             ("Real voice calls require OPERATOR_AUTH_REQUIRED=true or another active " +++ "RecoveryOS operator-auth gate."));
    mret false.

(** src/services/api/app/voice/router.py:155-187 [_require_voice_operator] *)
Definition require_voice_operator (c : voice_credentials) : result unit :=
  by_voice_token ← voice_token_matches c;
  if by_voice_token : bool then mret tt
  else if authorization_required env then operator_of c
  else Err (operator_auth_not_configured
              ("Voice operator endpoints require VOICE_OPERATOR_TOKEN or the RecoveryOS " +++ "operator-auth gate.")).

(** src/services/api/app/voice/router.py:190-205 [_protect_real_voice_data] *)
Definition protect_real_voice_data (c : voice_credentials) : result unit :=
  if vst_real_calls_enabled settings || real_voice_requested then require_voice_operator c else mret tt.

(** ** Routes of the operator *)

(** src/services/api/app/voice/router.py:236-243 [start_voice_contact]: the answer, whose status
    is one the schema knows. *)
Definition start_response (r : VoiceContactResult) : result StartVoiceContactResponse :=
  _ ← raise_if (negb (mem (vcr_status r) ["SUBMITTED"; "REJECTED"; "UNCERTAIN"])) (validation_error "status");
  mret {| svp_attempt_id := vcr_contact_attempt_id r; svp_provider := vcr_provider r; svp_status := vcr_status r;
          svp_reason_code := default "" (or_str (vcr_reason_code r) (Some (vcr_status r)));
          svp_provider_call_id := vcr_provider_call_id r |}.

(** src/services/api/app/voice/router.py:208-243 [start_voice_contact] *)
Definition start_voice_contact (self : nat) (payload : StartVoiceContactRequest) (c : voice_credentials) (now : datetime)
  : coroutine StartVoiceContactResponse :=
  voice_request self (
    payload ← pure_ (validate_start_request payload);
    operator_session_authorized ← pure_ (authorize_voice_start c);
    result ← start tzdb settings self (svr_case_id payload) (svr_idempotency_key payload) (vcd_voice_token c)
               operator_session_authorized (svr_max_duration_seconds payload) now;
    pure_ (start_response result)).

(** src/services/api/app/voice/router.py:264-295 [configure_voice_contact] *)
Definition configure_voice_contact (self : nat) (case_id : string) (payload : VoiceContactSetupRequest)
    (c : voice_credentials) (now : datetime) : coroutine VoiceEligibility :=
  voice_request self (
    payload ← pure_ (validate_setup_request payload);
    _ ← pure_ (require_voice_operator c);
    subject ← service_configure_subject self case_id (vcs_destination_token payload) (vcs_preferred_language payload)
                (vcs_consent_granted payload) now;
    _ ← pure_ (raise_if (bool_decide (subject = None)) (not_found "VOICE_SUBJECT_NOT_FOUND"));
    eligibility tzdb settings self case_id now).

(** src/services/api/app/voice/router.py:298-318 [voice_eligibility] *)
Definition voice_eligibility (self : nat) (case_id : string) (c : voice_credentials) (now : datetime)
  : coroutine VoiceEligibility :=
  voice_request self (
    _ ← pure_ (require_voice_operator c);
    eligibility tzdb settings self case_id now).

(** src/services/api/app/voice/router.py:321-358 [voice_timeline] *)
Definition voice_timeline (self : nat) (case_id : string) (c : voice_credentials) : coroutine (list VoiceAttemptResponse) :=
  voice_request self (
    _ ← pure_ (protect_real_voice_data c);
    attempts ← in_store (list_attempts self case_id);
    pure_ (map_result attempt_response attempts)).

Definition transcript_response (intent : VoiceIntent) (must_end suppressed : bool) : BrowserTranscriptResponse := {|
  btp_detected_intent := VoiceIntent_value intent; btp_disposition := VoiceIntent_value intent;
  btp_contact_must_end := must_end; btp_suppression_persisted := suppressed |}.

(** src/services/api/app/voice/router.py:361-410 [browser_transcript] *)
Definition browser_transcript (self : nat) (attempt_id : string) (payload : BrowserTranscriptRequest) (event_id : string)
    (c : voice_credentials) (utc_now : Z) : coroutine BrowserTranscriptResponse :=
  voice_request self (
    payload ← pure_ (validate_transcript_request payload);
    _ ← pure_ (raise_if (bool_decide (event_id = "")) (validation_error "x-voice-event-id"));
    _ ← pure_ (protect_real_voice_data c);
    attempt ← in_store (get_attempt self attempt_id);
    match attempt with
    | None =>
        if str_prefix "browser-rehearsal-" attempt_id then
          let intent := detect_voice_intent (btr_transcript payload) in
          mret (transcript_response intent
                  (mem intent [VoiceIntent.OPT_OUT; VoiceIntent.DISPUTE; VoiceIntent.WRONG_PERSON; VoiceIntent.ALREADY_PAID])
                  false)
        else pure_ (Err (not_found "VOICE_ATTEMPT_NOT_FOUND"))
    | Some _ =>
        '(intent, must_end, suppressed) ← apply_transcript self attempt_id (btr_transcript payload)
                                            (btr_confidence_basis_points payload) event_id utc_now;
        mret (transcript_response intent must_end suppressed)
    end).

(** ** Callbacks of the providers *)

(** A form by its distinct keys. *)
Definition form_get (key : string) (form : list (string * string)) : option string :=
  snd <$> List.find (fun kv => bool_decide (kv.1 = key)) form.
Definition voice_public_origin : string := str_rstrip_char "/" (getenv env "VOICE_PUBLIC_ORIGIN" "").
Definition twiml_url (attempt_id : string) : string := voice_public_origin +++ "/v1/voice/twiml/" +++ attempt_id.
Definition status_url (attempt_id : string) : string :=
  voice_public_origin +++ "/v1/voice/webhooks/twilio/status?attempt_id=" +++ attempt_id.

Definition signed_by_twilio (url : string) (form : list (string * string)) (signature : option string) : result unit :=
  valid ← verify_twilio_signature hmac_sha1 (getenv env "TWILIO_AUTH_TOKEN" "") url form signature;
  raise_if (negb valid) (HTTPException 401 "INVALID_TWILIO_SIGNATURE").

(** src/services/api/app/voice/router.py:489-496 [twilio_status_webhook]: the attempt of a signed
    callback and its call, as also at lines 431-438 [twiml_for_elevenlabs]. *)
Definition call_of_attempt (self : nat) (attempt_id : string) (form : list (string * string))
  : coroutine (VoiceAttempt * string) :=
  found ← in_store (get_attempt self attempt_id);
  attempt ← pure_ (from_option (not_found "VOICE_ATTEMPT_NOT_FOUND") found);
  let call_sid := default "" (form_get "CallSid" form) in
  _ ← pure_ (raise_if (bool_decide (call_sid = "")) (HTTPException 422 "TWILIO_CALL_SID_REQUIRED"));
  same ← pure_ (if truthy (va_provider_call_id attempt)
                then compare_digest (default "" (va_provider_call_id attempt)) call_sid else mret true);
  _ ← pure_ (raise_if (negb same) (HTTPException 403 "TWILIO_CALL_SCOPE_MISMATCH"));
  mret (attempt, call_sid).

(** src/services/api/app/voice/router.py:455-466 [twiml_for_elevenlabs] *)
Definition recovery_context (subject : VoiceSubject) : ElevenLabsRecoveryContext := {|
  elc_merchant_id := vsu_merchant_id subject; elc_merchant_display_name := vsu_merchant_display_name subject;
  elc_case_id := vsu_case_id subject; elc_customer_id := vsu_customer_id subject;
  elc_customer_display_name := vsu_customer_display_name subject;
  elc_preferred_language := vsu_preferred_language subject;
  elc_amount_at_risk_paise := vsu_amount_at_risk_paise subject; elc_currency := vsu_currency subject;
  elc_diagnosis := vsu_diagnosis subject; elc_plan_name := vsu_plan_name subject |}.

(** [registrar.register(...)]: the request over the network and what is made of the answer. *)
Definition register (request : json) : coroutine string :=
  answer ← step (fun w => let '(r, p) := post_registration request (vw_provider w) in (r, w <| vw_provider := p |>));
  pure_ (registered_twiml answer).

(** src/services/api/app/voice/router.py:73-92 [get_call_registrar] *)
Definition call_registrar : result string :=
  _ ← raise_if (negb (voice_ready env)) (HTTPException 503 "ELEVENLABS_NOT_CONFIGURED");
  mret (getenv env "ELEVENLABS_AGENT_ID" "").

(** src/services/api/app/voice/router.py:413-469 [twiml_for_elevenlabs] *)
Definition twiml_for_elevenlabs (self : nat) (attempt_id : string) (form : list (string * string))
    (signature : option string) : coroutine string :=
  voice_request self (
    agent_id ← pure_ call_registrar;
    _ ← pure_ (signed_by_twilio (twiml_url attempt_id) form signature);
    '(attempt, call_sid) ← call_of_attempt self attempt_id form;
    let from_number := default "" (form_get "From" form) in
    let to_number := default "" (form_get "To" form) in
    _ ← pure_ (raise_if (bool_decide (from_number = "") || bool_decide (to_number = ""))
                 (HTTPException 422 "TWILIO_CALL_PARTICIPANTS_REQUIRED"));
    subject ← in_store (load_subject self (va_case_id attempt));
    subject ← pure_ (from_option (HTTPException 409 "VOICE_CONTEXT_NOT_FOUND") subject);
    register (registration_request agent_id call_sid attempt_id from_number to_number "outbound" 180
                (recovery_context subject))).

(** src/services/api/app/voice/router.py:497-505 [twilio_status_webhook]: the identifier of the
    event and the duration. *)
Definition status_event (call_sid : string) (form : list (string * string)) : string * string :=
  let callback_status := default "unknown" (form_get "CallStatus" form) in
  (call_sid +++ ":" +++ default "" (or_str (form_get "SequenceNumber" form) (Some callback_status)), callback_status).
Definition call_duration (form : list (string * string)) : result (option Z) :=
  if truthy (form_get "CallDuration" form) then
    match int_of_text (default "" (form_get "CallDuration" form)) with
    | Ok n => mret (Some n)
    | Err _ => Err (HTTPException 422 "TWILIO_CALL_DURATION_INVALID")
    end
  else mret None.

(** src/services/api/app/voice/router.py:472-519 [twilio_status_webhook] *)
Definition twilio_status_webhook (self : nat) (attempt_id : string) (form : list (string * string))
    (signature : option string) : coroutine bool :=
  voice_request self (
    _ ← pure_ (raise_if (bool_decide (attempt_id = "")) (validation_error "attempt_id"));
    _ ← pure_ (signed_by_twilio (status_url attempt_id) form signature);
    '(_, call_sid) ← call_of_attempt self attempt_id form;
    let '(event_id, callback_status) := status_event call_sid form in
    duration_seconds ← pure_ (call_duration form);
    proc_catch (apply_twilio_status self event_id attempt_id callback_status duration_seconds (Some call_sid))
      (fun e => match e with
                | ValueError _ => pure_ (Err (HTTPException 422 "TWILIO_CALL_STATUS_INVALID"))
                | _ => pure_ (Err e)
                end)).

(** [datetime.fromtimestamp(seconds, UTC)] of a nonnegative number. *)
Definition from_timestamp (seconds : Z) : result datetime :=
  _ ← raise_if (253402300799 <? seconds) (ValueError "year is out of range");
  mret (utc_datetime (seconds * second)).

(** src/services/api/app/voice/router.py:536-556 [elevenlabs_post_call_webhook] *)
Definition apply_post_call (self : nat) (raw : string) (utc_now : Z) : coroutine bool :=
  let agent := str_strip (getenv env "ELEVENLABS_AGENT_ID" "") in
  event ← pure_ (parse_elevenlabs_post_call json_loads repr round_product raw (if bool_decide (agent = "") then None else Some agent));
  attempt ← in_store (get_attempt self (epc_attempt_id event));
  _ ← pure_ (raise_if (bool_decide (attempt = None)) (not_found "VOICE_ATTEMPT_NOT_FOUND"));
  occurred_at ← pure_ (from_timestamp (epc_event_timestamp event));
  apply_elevenlabs_post_call self (epc_event_type event +++ ":" +++ epc_conversation_id event) (epc_attempt_id event)
    (epc_transcript event) (epc_user_transcript event) (epc_provider_intent event) (epc_confidence_basis_points event)
    (epc_duration_seconds event) (epc_disclosure_delivered event) occurred_at utc_now.

(** src/services/api/app/voice/router.py:522-567 [elevenlabs_post_call_webhook] *)
Definition elevenlabs_post_call_webhook (self : nat) (raw : string) (signature : option string) (now utc_now : Z)
  : coroutine bool :=
  voice_request self (
    valid ← pure_ (verify_elevenlabs_signature hmac_sha256 (getenv env "ELEVENLABS_WEBHOOK_SECRET" "") raw signature now);
    _ ← pure_ (raise_if (negb valid) (HTTPException 401 "INVALID_ELEVENLABS_SIGNATURE"));
    proc_catch (apply_post_call self raw utc_now)
      (fun e => match e with
                | ValueError _ | OSError _ | FileNotFoundError _ | OverflowError _ =>
                    pure_ (Err (HTTPException 422 "INVALID_ELEVENLABS_POST_CALL"))
                | _ => pure_ (Err e)
                end)).

(** src/services/api/app/voice/router.py:580-587 [elevenlabs_live_intent_tool] *)
Definition tool_authorized (secret : option string) : result unit :=
  let expected_secret := str_strip (getenv env "ELEVENLABS_WEBHOOK_SECRET" "") in
  valid ← (if negb (voice_ready env) || bool_decide (expected_secret = "") then mret false
           else match secret with
                | Some supplied => compare_digest supplied expected_secret
                | None => mret false
                end);
  raise_if (negb valid) (HTTPException 401 "INVALID_ELEVENLABS_TOOL_AUTH").

(** src/services/api/app/voice/router.py:570-609 [elevenlabs_live_intent_tool] *)
Definition elevenlabs_live_intent_tool (self : nat) (payload : LiveVoiceIntentRequest) (secret : option string)
    (utc_now : Z) : coroutine LiveVoiceIntentResponse :=
  voice_request self (
    payload ← pure_ (validate_live_request payload);
    _ ← pure_ (tool_authorized secret);
    attempt ← in_store (get_attempt self (lvr_attempt_id payload));
    _ ← pure_ (raise_if (bool_decide (attempt = None)) (not_found "VOICE_ATTEMPT_NOT_FOUND"));
    let intent := str_upper (str_strip (lvr_intent payload)) in
    let event_id := default "" (or_str (lvr_event_id payload) (Some ("live:" +++ lvr_attempt_id payload +++ ":" +++ intent))) in
    '(detected, must_end, suppressed, duplicate) ←
      proc_catch (apply_live_intent self event_id (lvr_attempt_id payload) intent (lvr_confidence_basis_points payload) utc_now)
        (fun e => match e with
                  | ValueError _ => pure_ (Err (HTTPException 422 "INVALID_ELEVENLABS_INTENT"))
                  | _ => pure_ (Err e)
                  end);
    mret {| lvp_duplicate := duplicate; lvp_detected_intent := VoiceIntent_value detected;
            lvp_contact_must_end := must_end; lvp_suppression_persisted := suppressed |}).

(** src/services/api/app/voice/router.py:612-614 [supported_voice_intents] *)
Definition supported_voice_intents : list string := map VoiceIntent_value all_voice_intents.
End router.
