(* ===== verification/VoiceRouterFacts.v ===== *)
(** * What the voice routes guarantee

    Who reaches the telephone provider, and that the callbacks of a call are believed exactly
    when the provider signed them. *)
From S2P Require Import Prelude Procs Domain Json Base64 Entities Session CaseRepo QuietHours VoicePorts VoiceSafety VoiceModels VoiceRepository VoiceService OperatorAuth VoiceWebhooks Twilio ApiSchemas VoiceRouter.

(** ** Coroutines that make no call *)

Section silent.
Context {S P : Type}.
Abbreviation W := (voice_world S P).

(** No step of the coroutine calls the voice provider, whatever happens between its steps. *)
Fixpoint silent {A} (p : proc W A) : Prop :=
  match p with
  | Done _ => True
  | Act m k => forall w r w', m w = Some (r, w') -> vw_calls w' = vw_calls w /\ silent (k r)
  end.

Lemma silent_then {A B} (p : proc W A) (f : result A -> proc W B) :
  silent p -> (forall r, silent (f r)) -> silent (proc_then p f).
Proof.
  intros Hp Hf. induction p as [r|C m k IH]; [apply Hf|]. intros w r w' E.
  destruct (Hp w r w' E) as [? Hk]. split; [done|]. by apply IH.
Qed.
Lemma silent_bind {A B} (p : proc W A) (f : A -> proc W B) : silent p -> (forall a, silent (f a)) -> silent (p ≫= f).
Proof. intros Hp Hf. apply silent_then; [done|]. by intros [a|e]. Qed.
Lemma silent_store {A} (p : proc S A) : silent (in_store p).
Proof.
  unfold in_store. induction p as [r|C m k IH]; [done|]. intros w r w'. destruct (m (vw_store w)) as [[b s]|]; [|done].
  intros [= <- <-]. split; [done|apply IH].
Qed.
Lemma silent_request `{VoiceRepository S} {A} self (p : proc W A) : silent p -> silent (voice_request self p).
Proof.
  intros Hp. unfold voice_request. apply silent_bind; [apply silent_store|]. intros _.
  apply silent_then; [done|]. intros [a|e]; [|apply silent_then; [apply silent_store|done]].
  apply silent_then; [apply silent_store|]. intros [u|e]; [done|]. apply silent_then; [apply silent_store|done].
Qed.
End silent.

(** ** Who may call *)

Lemma allowed_authorized c : vsd_allowed (evaluate_voice_safety c) = true ->
  vsc_real_calls_enabled c = true /\ vsc_operator_authorized c = true.
Proof.
  unfold evaluate_voice_safety, voice_checks. cbn [List.find fst].
  by destruct (vsc_real_calls_enabled c), (vsc_operator_authorized c).
Qed.

Section starts.
Context {S P : Type} {repository : VoiceRepository S} {provider : VoiceProvider P}.
Context (env : string -> option string) (hmac_sha256 : string -> string -> string)
        (json_loads : string -> result json) (tzdb : string -> option ZoneInfo).
Abbreviation settings := (voice_service_settings env).

(** A call needs real calls switched on and a service token, and a request that bears that
    token or passes the guard of the operators, which must be active. *)
Definition may_call (c : voice_credentials) : Prop :=
  vst_real_calls_enabled settings = true /\ vst_operator_token settings <> "" /\
  (vcd_voice_token c = Some (vst_operator_token settings) \/
   (authorization_required env = true /\ operator_of env hmac_sha256 json_loads c = Ok tt)).
#[local] Instance may_call_dec c : Decision (may_call c).
Proof. unfold may_call. apply _. Defined.

Lemma start_silent self case_id key supplied authorized duration now :
  vst_real_calls_enabled settings && negb (eqs (vst_operator_token settings) "")
    && (authorized || eqs supplied (Some (vst_operator_token settings))) = false ->
  silent (start (S := S) (P := P) tzdb settings self case_id key supplied authorized duration now).
Proof.
  intros Hoff. unfold start. apply silent_bind; [apply silent_store|]. intros [existing|]; [done|].
  apply silent_bind; [apply silent_store|]. intros [subject|]; [|done].
  unfold pure_. destruct (local_time _ _ _) as [now_local|]; [|done].
  change (Done (Ok now_local) ≫= ?f) with (f now_local). cbv zeta.
  apply silent_bind; [apply silent_store|]. intros active. apply silent_bind; [apply silent_store|]. intros today.
  destruct (vsd_allowed _) eqn:E; [exfalso|done]. apply allowed_authorized in E as [Hr Ho].
  unfold safety_context in Hr, Ho. cbn in Hr, Ho. cbn in Hoff. rewrite Hr in Hoff. by rewrite andb_true_l, Ho in Hoff.
Qed.

End starts.

(** ** Callbacks of a call *)

Lemma is_ascii_map f s : (forall c, (code c <? 128) = true -> (code (f c) <? 128) = true) ->
  is_ascii s = true -> is_ascii (str_map f s) = true.
Proof. intros Hf. induction s as [|c s IH]; [done|]. cbn. intros [? ?]%andb_true_iff. by rewrite Hf, IH. Qed.
Lemma standard_ascii s : is_ascii (b64_standard s) = true.
Proof.
  unfold b64_standard. apply is_ascii_app. unfold str_replace_char.
  apply is_ascii_map; [by intros c Hc; destruct (Ascii.eqb c "-")|].
  apply is_ascii_map; [by intros c Hc; destruct (Ascii.eqb c "_")|]. apply b64_encode_ascii.
Qed.

Lemma standard_nonempty s : s <> "" -> b64_standard s <> "".
Proof. destruct s as [|a [|b [|c s]]]; by unfold b64_standard. Qed.

Section callbacks.
Context (env : string -> option string) (hmac_sha1 : string -> string -> string).
(** A digest of SHA-1 has twenty bytes. *)
Context (digest_size : forall key message, String.length (hmac_sha1 key message) = 20%nat).
Abbreviation config := (twilio_config_from_env env).
Abbreviation signature url form := (twilio_signature hmac_sha1 (tw_auth_token config) url form).

Lemma signature_nonempty url form : signature url form <> "".
Proof. apply standard_nonempty. intros E. eapply (f_equal String.length) in E. by rewrite digest_size in E. Qed.

Lemma signed_exact url form supplied : tw_auth_token config <> "" ->
  signed_by_twilio env hmac_sha1 url form supplied = Ok tt <-> supplied = Some (signature url form).
Proof.
  intros Ht. unfold signed_by_twilio, verify_twilio_signature. destruct supplied as [t|]; [|done].
  change (getenv env "TWILIO_AUTH_TOKEN" "") with (tw_auth_token config).
  rewrite (bool_decide_eq_false_2 (tw_auth_token config = "")) by done. cbn [orb].
  case_bool_decide as Hempty.
  - split; [done|]. intros [= E]. subst t. by edestruct signature_nonempty.
  - split.
    + intros (valid & Hv & Hr%raise_if_Ok)%bind_Ok. destruct valid; [|done].
      by apply compare_digest_true in Hv as [-> _].
    + intros [= ->]. erewrite (proj2 (compare_digest_true _ _)); [done|]. split; [done|apply standard_ascii].
Qed.

Lemma ready_token : voice_ready env = true -> tw_auth_token config <> "".
Proof.
  unfold voice_ready. intros [[[[_ H]%andb_true_iff _]%andb_true_iff _]%andb_true_iff _]%andb_true_iff.
  apply forallb_forall with (x := "TWILIO_AUTH_TOKEN") in H; [|by right; left].
  cbn. intros E. by rewrite E in H.
Qed.

(** A service that may place calls believes the callbacks of the calls it places, and only
    them: the addresses it names to Twilio when it submits a call are the addresses its routes
    check the signatures over, so Twilio's signature of a callback to either is accepted with
    any form, and no other signature is. *)
Theorem placed_call_callbacks_believed request form supplied : voice_ready env = true ->
  exists twiml status,
    form_get "Url" (tr_data (submission config request)) = Some twiml /\
    form_get "StatusCallback" (tr_data (submission config request)) = Some status /\
    (signed_by_twilio env hmac_sha1 (twiml_url env (vq_idempotency_key request)) form supplied = Ok tt <->
       supplied = Some (signature twiml form)) /\
    (signed_by_twilio env hmac_sha1 (status_url env (vq_idempotency_key request)) form supplied = Ok tt <->
       supplied = Some (signature status form)).
Proof.
  intros Ht%ready_token. eexists _, _. repeat (split; [reflexivity|]). split; exact (signed_exact _ _ _ Ht).
Qed.
End callbacks.

Definition example_env (name : string) : option string :=
  snd <$> List.find (fun kv => bool_decide (kv.1 = name))
    [("VOICE_PROVIDER", "twilio"); ("VOICE_REAL_CALLS_ENABLED", "true"); ("TWILIO_ACCOUNT_SID", "AC1");
     ("TWILIO_AUTH_TOKEN", "token"); ("TWILIO_FROM_NUMBER", "+14155550100"); ("VOICE_PUBLIC_ORIGIN", "https://v.example");
     ("ELEVENLABS_API_KEY", "k"); ("ELEVENLABS_AGENT_ID", "a"); ("ELEVENLABS_WEBHOOK_SECRET", "s");
     ("VOICE_OPERATOR_TOKEN", "o"); ("VOICE_ALLOWLIST_DESTINATIONS", "+919876543210")].

Definition example_request : VoiceContactRequest := {|
  vq_idempotency_key := "voice-1"; vq_case_id := "case-1"; vq_customer_id := "customer-1";
  vq_destination_token := "+919876543210"; vq_preferred_language := "en";
  vq_consent_verified_at := utc_datetime 0; vq_max_duration_seconds := 120; vq_disclosure_text := "This is a recorded call." |}.

Lemma placed_call_callbacks_believed_witness :
  voice_ready example_env = true /\
  exists twiml status,
    form_get "Url" (tr_data (submission (twilio_config_from_env example_env) example_request)) = Some twiml /\
    form_get "StatusCallback" (tr_data (submission (twilio_config_from_env example_env) example_request)) = Some status /\
    twiml <> status.
Proof.
  assert (voice_ready example_env = true) as Hr by (vm_compute; reflexivity). split; [exact Hr|].
  destruct (placed_call_callbacks_believed example_env (fun _ _ => "01234567890123456789") (fun _ _ => eq_refl)
              example_request [] None Hr) as (twiml & status & Ht & Hs & _).
  exists twiml, status. split; [exact Ht|]. split; [exact Hs|]. vm_compute in Ht, Hs. congruence.
Defined.
